(* ===== verification/_CoqProject ===== *)
-Q . S2P
Prelude.v
Mmu.v
Console.v
KState.v
Demo.v
Lock.v
PageAlloc.v
PageTable.v
Quiet.v
AddrSpace.v
PageInsert.v
VmFrame.v
VmDemo.v
UserMem.v
Env.v
EnvSpace.v
Sched.v
Nic.v
Syscall.v
Returning.v
SyscallSpec.v
SyscallDemo.v
Trap.v
KernelInv.v
TrapDemo.v
UserMode.v
CString.v
Printfmt.v
BlockCache.v
Ide.v
Fs.v
FsBitmap.v
FsFile.v
FsSpec.v
FsInit.v
Serv.v
ServSpec.v
FsDemo.v
UserLib.v
UserVm.v
UserVmKernel.v
Fork.v
ForkSpec.v
ForkDemo.v
Pipe.v
Malloc.v
MallocSpec.v
MallocHeap.v
MallocDemo.v
Fd.v
FdSpec.v
FdDemo.v
PipeView.v
PipeClose.v
Inet.v
Chksum.v
LwipMem.v
LwipMemSpec.v
Ipc.v
FsClient.v
FsClientSpec.v
FsClientDemo.v
Kdebug.v
KdebugSpec.v
MemInit.v
BootMap.v
BootCheck.v
BootFree.v
BootPages.v
BootMmio.v
BootInstalled.v
BootSpec.v
