(* ===== verification/Prelude.v ===== *)
(** * A verification development for JOS

    JOS is a small operating system for the x86: a multiprocessor kernel in the
    exokernel style, a library for user programs, and servers that run as user
    environments.  This library models the kernel from the set-up of memory at
    boot to the return to user mode, the file server, the user library (fork,
    pipes, descriptors, files, the heap, strings and formatting), and parts of
    the network stack, and proves what makes them correct.  Paths are relative
    to [src/jos].

    ** The program and its parts

    The kernel ([kern/]) manages physical pages by reference counts and a free
    list, builds two-level page tables out of them, and keeps a table of
    environments (processes), each with a page directory and a saved trap
    frame.  A trap enters [trap], which takes the big kernel lock, saves the
    frame, dispatches to a system call, a page fault or an interrupt, and
    leaves by running an environment.  System calls manipulate the
    environments and address spaces the caller may name, and pass messages and
    pages between environments.  The file server ([fs/]) is an environment that
    maps the disk into its address space through a page-fault handler of its
    own and keeps a file system there.  The user library ([lib/]) builds on the
    system calls: a copying fork out of page sharing and page faults, pipes out
    of a shared page, files out of messages to the server.

    ** How the code is represented

    A C integer is a [Z] with its wrap-around written out ([u32], [s32], ...).
    Memory is a function from addresses to bytes; page tables, descriptor rings
    and on-disk structures are bytes in it, read and written as the code does
    ([ld32], [st32]).  A pointer into an array of structures is its index.  A
    function that changes state is a computation of the state-and-exit monad
    below: it returns a value or leaves for good (panic, switch to user mode,
    halt, an access that C leaves undefined).  A function that never returns
    has result type [False].  Loops that are not structural take fuel; where
    the bound is not evident the theorems show that it is enough.

    ** The files

    - [Prelude]: integers, the monad and its laws, counting lemmas.
    - [Mmu]: [inc/mmu.h], [inc/memlayout.h], [inc/types.h], [inc/error.h].
    - [Console]: [kern/console.c]; screen, keyboard, serial and parallel port,
      and the input ring.  State: [console].
    - [KState]: the kernel's state [kstate] with the structures of
      [inc/env.h], [inc/trap.h], [kern/cpu.h]; the monad [K].  [Demo] is a
      concrete machine that the witnesses of the kernel theorems use.
    - [Lock]: [kern/spinlock.c], [kern/time.c].  [lock_step] interleaves the
      CPUs' single accesses to the lock.
    - [PageAlloc], [PageTable]: [kern/pmap.c].  [AddrSpace], [PageInsert],
      [VmFrame]: the invariant [vm_ok] of all address spaces together and what
      the operations do to the mapping an address space denotes.  [VmDemo]:
      witnesses.
    - [UserMem]: [user_mem_check] of [kern/pmap.c].
    - [Env], [EnvSpace]: [kern/env.c].  [Sched]: [kern/sched.c].
    - [Nic]: [kern/e1000.c].
    - [Syscall]: [kern/syscall.c]; [SyscallSpec]: what the calls do;
      [SyscallDemo]: witnesses.  [Quiet], [Returning]: which functions leave
      the table of environments alone, and what a call that returns has done
      to its caller.
    - [Trap]: [kern/trap.c]; [TrapDemo]: witnesses and a run on two CPUs.
    - [KernelInv]: the invariant of the kernel's data under every trap on
      every CPU, by a predicate [safe] that follows the text of each function.
      [UserMode]: the same for the privilege level of saved frames, by [ring].
    - [MemInit]: [mem_init] of [kern/pmap.c] and the self-tests it runs.
      [BootMap]: the mapping above [UTOP] and the regions mapped at boot;
      [BootCheck], [BootFree], [BootPages], [BootMmio], [BootInstalled]: the
      self-tests; [BootSpec]: [mem_init] as a whole.
    - [Kdebug]: [kern/kdebug.c]; [KdebugSpec]: its binary search.
    - [CString]: [lib/string.c].  [Printfmt]: [lib/printfmt.c],
      [lib/printf.c], [kern/printf.c].
    - [BlockCache]: [fs/bc.c]; [Fs]: [fs/fs.c]; state [fstate].  [FsBitmap],
      [FsFile], [FsSpec], [FsInit]: their lemmas and theorems.  [Ide]:
      [fs/ide.c], on a model of the disk controller.
    - [Serv]: [fs/serv.c]; state [sstate].  [ServSpec]: its theorems.  [FsDemo]:
      a disk of eight blocks, an open file, and the witnesses.
    - [UserLib]: [lib/syscall.c], [lib/pageref.c], over a class [Machine] of
      what a user program sees.  [UserVm]: the class of machines that manage
      memory as the kernel promises; [UserVmKernel]: the kernel model is one.
    - [Fork], [ForkSpec], [ForkDemo]: [lib/fork.c], [lib/pgfault.c].
    - [Pipe]: [devpipe_read] and [devpipe_write] of [lib/pipe.c] as state
      machines that interleave.
    - [Malloc], [MallocSpec], [MallocHeap], [MallocDemo]: [lib/malloc.c].
    - [Fd], [FdSpec], [FdDemo]: [lib/fd.c], and [pipe] and the test for a
      closed pipe of [lib/pipe.c].  [PipeView]: the system calls that closing,
      duplicating and forking make on the pages of a pipe; [PipeClose]: the
      test for a closed pipe among processes that make them.
    - [Ipc]: [lib/ipc.c].  [FsClient], [FsClientSpec], [FsClientDemo]:
      [lib/file.c], on a machine of one client and the server of [Serv].
    - [Inet], [Chksum], [LwipMem], [LwipMemSpec]: addresses, checksums and the
      heap of the network stack ([net/lwip/core]).

    ** What the theorems show

    Virtual memory: [page_insert] and [page_remove] change the mapping of
    exactly one page, keep reference counts at least the number of mappings,
    and never let a mapped page reach the free list; [page_init] makes exactly
    the usable pages free; [user_mem_check] tests the permission bits at the
    first address of each page of its range, as computed modulo 2^32, and
    reports the first that fails; the presence of the page is tested only when
    the caller asks for [PTE_P].

    Boot: [mem_init] returns with every assertion of its self-tests satisfied,
    the kernel's address space as [inc/memlayout.h] draws it, the invariant of
    virtual memory established and no page lost.

    Environments and scheduling: ids denote what they should, a new
    environment has an empty address space, [env_run] switches correctly, the
    search of [sched_yield] is round robin.

    System calls and traps: a call that checks permission and names an
    environment the caller may not manipulate is refused; the calls on pages
    and messages ([sys_page_alloc], [sys_page_map], [sys_ipc_try_send]) are
    characterised on every branch; results reach the caller's registers; a
    page fault builds the right frame on the user's exception stack.
    [machine_invariant]: as long as no program reaches the kernel's tables
    through the holes listed below, the kernel's data stays well formed
    whatever the traps, CPUs, user programs and devices do, and the kernel is
    left for the current environment with the lock free.  [runs_in_user_mode]:
    it is then left with privilege level 3.

    Locking and devices: mutual exclusion of the interleaved lock protocol and
    its refinement by the functions; the console's ring is a queue and its
    cursor stays on the screen; the network driver's transmit ring.

    Library: [memmove] is a simultaneous assignment, [vsnprintf] writes only to
    its buffer and through [%n], and the buffer holds the beginning of the
    output; [strtol] inverts [printnum] below 2^31; the search for debugging
    symbols ends and finds the right one.

    User library: after [fork] parent and child behave as if the memory had
    been copied, through later writes and faults, as long as there is memory; a
    pipe delivers what is written (up to 2 GB), in order, under every fair
    schedule; on one processor it is found closed only if it is, except during
    a [fork], as a theorem exhibits; [dup] to a free descriptor or over a pipe
    shares the descriptor and changes nothing else; [malloc] and [free] keep
    the blocks disjoint, mapped and unchanged, away from the end of the heap.  These are proved against the classes [Machine] and
    [UserVm], which [kernel_machine] and [kernel_vm] implement.

    Network stack: the checksum of a chain of buffers is that of its contents;
    printing an address stays in its buffer; the heap is a first-fit list.

    File system: the lowest free block is allocated and its bitmap block
    flushed; on files whose blocks are allocated and cached, writing and reading
    are [pwrite] and [pread], and what is written and flushed is on the disk;
    lookup finds the first entry of a name; start-up leaves the disk as it was;
    a file id names one opening only.  Through the library and the server, any
    sequence of writes, reads and seeks acts on such a file like on a size, a
    position and an array of bytes.  The disk driver transfers what it is asked
    to, up to the first bad sector.

    Several theorems are about what goes wrong: kernel pages that any program
    can map writable ([sys_map_kernel_page_exposes]), a user range that wraps
    around, an unmapped page that still passes the check, a read of
    [envs[NENV]], interrupts left disabled, a kernel fault that a user can
    cause, an environment on two CPUs, a file server that panics on an
    unaligned first access or a full disk, and that gives a client the disk's
    blocks.

    ** Bounds and fuel

    Loops over arrays and pages run over lists of the C bound.  The page-table
    walk and the scans of [user_mem_check] and [sched_yield] use the number of
    iterations C performs.  String functions take the length plus one; the
    theorems state that bound.  [vprintfmt] takes the length of the format,
    since every step consumes a character.  [alloc_block] uses the number of
    blocks, [file_read] and [file_write] the count plus one, since an iteration
    moves at least one byte.  The fault handler of the file server nests at
    most three deep ([FAULTS]).  The search of [malloc] makes two passes over
    its region, [free] walks at most the whole of it, and [stab_binsearch]
    takes twice the number of entries; theorems show that this is enough.  The
    loops of the self-tests over the free list have the number of pages as
    fuel; [mem_init_correct] covers machines with 64 to 256 MB, what the
    kernel can map, and a kernel that ends below 4 MB, as its entry code
    requires.  The lock's busy-wait is not bounded: a CPU that finds it taken
    is [Spinning].

    ** Not modelled

    - Assembly and start-up ([boot/], [kern/entry.S], [kern/trapentry.S],
      [kern/mpentry.S], [kern/init.c], [lib/entry.S], [lib/pfentry.S]): mode
      switches and register saving have no C semantics; [trap] starts from the
      frame they build, and [mem_init] from the memory they leave.
    - Diagnostics: the messages of [cprintf] in the kernel and the monitor
      with its stack traces ([kern/monitor.c]).  [Printfmt] models the
      formatting itself, [Kdebug] the look-up of symbols in the kernel's table.
    - Hardware discovery and the interrupt controllers ([kern/mpconfig.c],
      [kern/lapic.c], [kern/pci.c], [kern/picirq.c], [kern/kclock.c]): their
      behaviour is that of device registers the sources do not define.  The
      clock chip is a parameter.  Above the driver ([Ide]) the disk is bytes
      that can be read and written, and does not fail.
    - Of the user library: [lib/spawn.c], [lib/args.c], [lib/console.c],
      [lib/readline.c], [lib/wait.c], program start and exit, and the clients
      of the network server ([lib/nsipc.c], [lib/sockets.c]).
    - The network server ([net/]) and the rest of the bundled lwIP stack, the
      image builder ([fs/fsformat.c]), and the user programs ([user/]).
    - The kernel's tables as bytes: [pages], [envs] and [cpus] are maps beside
      the modelled memory, so what a program does to them once it has mapped
      them, with [sys_map_kernel_page] or through an unchecked kernel address,
      is outside the model.
    - The kernel between the file server and its client: [FsClient] replaces
      its message passing by an exchange with a server that is waiting.
    - The TLB beyond its flushes, and memory-ordering effects: the kernel runs
      under one lock, and the lock itself is modelled with atomic accesses.
      User programs and devices appear as arbitrary stores between traps. *)

From stdpp Require Export base tactics numbers list gmap strings.
From Stdlib Require Export ZArith Lia Bool.

Open Scope Z_scope.
#[export] Set Warnings "-clear-no-such-hyp,-level-tolerance".

(** ** Machine integers

    A C integer of width [w] is a [Z] in range; the wrap-around of unsigned
    arithmetic and the conversions between the types are written out. *)

Definition u8 (x : Z) : Z := x mod 2 ^ 8.
Definition u16 (x : Z) : Z := x mod 2 ^ 16.
Definition u32 (x : Z) : Z := x mod 2 ^ 32.
Definition u64 (x : Z) : Z := x mod 2 ^ 64.
Definition s8 (x : Z) : Z := (x + 2 ^ 7) mod 2 ^ 8 - 2 ^ 7.
Definition s32 (x : Z) : Z := (x + 2 ^ 31) mod 2 ^ 32 - 2 ^ 31.
Definition s64 (x : Z) : Z := (x + 2 ^ 63) mod 2 ^ 64 - 2 ^ 63.

Definition is_u8 (x : Z) : Prop := 0 <= x < 2 ^ 8.
Definition is_u32 (x : Z) : Prop := 0 <= x < 2 ^ 32.
Definition is_s32 (x : Z) : Prop := - 2 ^ 31 <= x < 2 ^ 31.

#[global] Arguments u8 : simpl never.
#[global] Arguments u16 : simpl never.
#[global] Arguments u32 : simpl never.
#[global] Arguments u64 : simpl never.
#[global] Arguments s8 : simpl never.
#[global] Arguments s32 : simpl never.
#[global] Arguments s64 : simpl never.

Lemma u8_range x : 0 <= u8 x < 2 ^ 8.
Proof. unfold u8; apply Z.mod_pos_bound; lia. Qed.

Lemma u16_range x : 0 <= u16 x < 2 ^ 16.
Proof. unfold u16; apply Z.mod_pos_bound; lia. Qed.

Lemma u32_range x : 0 <= u32 x < 2 ^ 32.
Proof. unfold u32; apply Z.mod_pos_bound; lia. Qed.

Lemma u64_range x : 0 <= u64 x < 2 ^ 64.
Proof. unfold u64; apply Z.mod_pos_bound; lia. Qed.

Lemma s32_range x : - 2 ^ 31 <= s32 x < 2 ^ 31.
Proof. unfold s32; pose proof (Z.mod_pos_bound (x + 2 ^ 31) (2 ^ 32)); lia. Qed.

Lemma u8_small x : 0 <= x < 2 ^ 8 → u8 x = x.
Proof. intros; unfold u8; apply Z.mod_small; lia. Qed.

Lemma u16_small x : 0 <= x < 2 ^ 16 → u16 x = x.
Proof. intros; unfold u16; apply Z.mod_small; lia. Qed.

Lemma u32_small x : 0 <= x < 2 ^ 32 → u32 x = x.
Proof. intros; unfold u32; apply Z.mod_small; lia. Qed.

Lemma u64_small x : 0 <= x < 2 ^ 64 → u64 x = x.
Proof. intros; unfold u64; apply Z.mod_small; lia. Qed.

Lemma s32_small x : - 2 ^ 31 <= x < 2 ^ 31 → s32 x = x.
Proof. intros; unfold s32; rewrite Z.mod_small; lia. Qed.

Lemma u32_u32 x : u32 (u32 x) = u32 x.
Proof. apply u32_small, u32_range. Qed.

(** A number below [2 ^ k] has no bits from [k] on. *)
Lemma shiftr_small x k : 0 <= k → 0 <= x → Z.shiftr x k = 0 ↔ x < 2 ^ k.
Proof.
  intros Hk Hx. rewrite Z.shiftr_div_pow2 by lia. pose proof (Z.pow_pos_nonneg 2 k).
  rewrite Z.div_small_iff by lia. lia.
Qed.

Lemma lor_bound k a b : 0 <= k → 0 <= a < 2 ^ k → 0 <= b < 2 ^ k → 0 <= Z.lor a b < 2 ^ k.
Proof.
  intros Hk Ha Hb. assert (0 <= Z.lor a b) by (apply Z.lor_nonneg; lia).
  split; [done|]. apply shiftr_small; [done|done|].
  rewrite Z.shiftr_lor, (proj2 (shiftr_small a k Hk ltac:(lia))), (proj2 (shiftr_small b k Hk ltac:(lia))) by lia.
  done.
Qed.

Lemma land_bound k a b : 0 <= k → 0 <= a < 2 ^ k → 0 <= Z.land a b < 2 ^ k.
Proof.
  intros Hk Ha. split; [apply Z.land_nonneg; lia|].
  apply shiftr_small; [done|apply Z.land_nonneg; lia|].
  rewrite Z.shiftr_land. by rewrite (proj2 (shiftr_small a k Hk ltac:(lia))) by lia.
Qed.

(** Masking a single bit. *)
Lemma land_pow2 x k : 0 <= k → Z.land x (2 ^ k) = if Z.testbit x k then 2 ^ k else 0.
Proof.
  intros Hk. apply Z.bits_inj'. intros n Hn. rewrite Z.land_spec, Z.pow2_bits_eqb by lia.
  destruct (Z.eqb_spec k n) as [->|Hne].
  - destruct (Z.testbit x n); [by rewrite Z.pow2_bits_true|by rewrite Z.bits_0].
  - rewrite andb_false_r. destruct (Z.testbit x k); [by rewrite Z.pow2_bits_false|by rewrite Z.bits_0].
Qed.

(** ** The state-and-exit monad

    The C functions are translated into a monad over the component's state
    [S].  A call either returns a value ([Ret]) or leaves the function for
    good ([Stop]): a panic, a [longjmp]-like exit such as [env_run], or an
    access that C leaves undefined.  The state at that moment is kept. *)

Inductive res (E A : Type) : Type :=
  | Ret (a : A)
  | Stop (e : E).
Arguments Ret {E A} a.
Arguments Stop {E A} e.

Definition M (S E A : Type) : Type := S → res E A * S.

#[export] Instance M_ret {S E} : MRet (M S E) := λ A a s, (Ret a, s).

#[export] Instance M_bind {S E} : MBind (M S E) := λ A B f m s,
  match m s with
  | (Ret a, s') => f a s'
  | (Stop e, s') => (Stop e, s')
  end.

Definition gets {S E A} (f : S → A) : M S E A := λ s, (Ret (f s), s).
Definition modify {S E} (f : S → S) : M S E unit := λ s, (Ret tt, f s).
Definition stop {S E A} (e : E) : M S E A := λ s, (Stop e, s).

(** [for (x in l) f(x)] *)
Fixpoint mfor {S E X} (l : list X) (f : X → M S E unit) : M S E unit :=
  match l with
  | [] => mret tt
  | x :: l' => f x ;; mfor l' f
  end.

Section monad_laws.
Context {S E A B : Type}.
Implicit Types (s : S) (e : E).

Lemma bind_ret (a : A) (f : A → M S E B) s : (mbind f (mret a)) s = f a s.
Proof. reflexivity. Qed.

Lemma bind_gets (g : S → A) (f : A → M S E B) s : (mbind f (gets g)) s = f (g s) s.
Proof. reflexivity. Qed.

Lemma bind_modify (g : S → S) (f : unit → M S E B) s :
  (mbind f (modify g)) s = f tt (g s).
Proof. reflexivity. Qed.

Lemma bind_stop e (f : A → M S E B) s : (mbind f (stop e)) s = (Stop e, s).
Proof. reflexivity. Qed.

Lemma bind_Ret (m : M S E A) (f : A → M S E B) s a s' :
  m s = (Ret a, s') → (mbind f m) s = f a s'.
Proof. intros H; unfold mbind, M_bind; by rewrite H. Qed.

Lemma bind_Stop (m : M S E A) (f : A → M S E B) s e s' :
  m s = (Stop e, s') → (mbind f m) s = (Stop e, s').
Proof. intros H; unfold mbind, M_bind; by rewrite H. Qed.

Lemma bind_inv (m : M S E A) (f : A → M S E B) s r s' :
  (mbind f m) s = (r, s') →
  (∃ a s1, m s = (Ret a, s1) ∧ f a s1 = (r, s')) ∨
  (∃ e, m s = (Stop e, s') ∧ r = Stop e).
Proof.
  unfold mbind, M_bind; destruct (m s) as [[a|e] s1]; intros H; [left|right]; eauto.
  injection H as <- <-; eauto.
Qed.
End monad_laws.

Lemma bind_assoc {S E A B C : Type} (m : M S E A) (f : A → M S E B) (g : B → M S E C) (s : S) :
  (mbind g (mbind f m)) s = (mbind (λ a, mbind g (f a)) m) s.
Proof. unfold mbind, M_bind. by destruct (m s) as [[a|e] s']. Qed.

(** The function at the head of an application. *)
Ltac head t := match t with ?f _ => head f | _ => t end.

(** Execute the monadic prefix of a goal: one lemma per primitive. *)
Ltac mstep :=
  match goal with
  | |- context [mbind ?f (mret ?a) ?s] => rewrite (bind_ret a f s)
  | |- context [mbind ?f (gets ?g) ?s] => rewrite (bind_gets g f s)
  | |- context [mbind ?f (modify ?g) ?s] => rewrite (bind_modify g f s)
  | |- context [mbind ?f (stop ?e) ?s] => rewrite (bind_stop e f s)
  end; cbv beta.

(** Compute through the primitives everywhere in the goal. *)
Ltac msimpl := cbv beta iota delta [mbind M_bind mret M_ret gets modify stop id].

(** ** Counting *)

Lemma filter_length_iff {A} (P Q : A → Prop) `{∀ x, Decision (P x)} `{∀ x, Decision (Q x)}
    (l : list A) :
  (∀ y, y ∈ l → P y ↔ Q y) → length (filter Q l) = length (filter P l).
Proof.
  induction l as [|z l IH]; [done|]. intros HPQ. rewrite !filter_cons.
  specialize (IH ltac:(intros y Hy; apply HPQ; set_solver)).
  specialize (HPQ z ltac:(set_solver)). repeat case_decide; simpl; try tauto; lia.
Qed.

(** Changing a predicate at one element of a duplicate-free list changes the
    number of elements that satisfy it by what happens at that element. *)
Lemma filter_length_update {A} (P Q : A → Prop) `{∀ x, Decision (P x)} `{∀ x, Decision (Q x)}
    (l : list A) (x : A) :
  NoDup l → x ∈ l → (∀ y, y ∈ l → y ≠ x → P y ↔ Q y) →
  (length (filter Q l) + (if decide (P x) then 1 else 0) =
   length (filter P l) + (if decide (Q x) then 1 else 0))%nat.
Proof.
  induction l as [|z l IH]; [set_solver|].
  intros [Hz Hnd]%NoDup_cons Hx HPQ. rewrite !filter_cons.
  apply elem_of_cons in Hx as [<-|Hx].
  - assert (length (filter Q l) = length (filter P l)).
    { apply filter_length_iff. intros y Hy. apply HPQ; set_solver. }
    repeat case_decide; simpl; lia.
  - specialize (IH Hnd Hx ltac:(intros y Hy; apply HPQ; set_solver)).
    specialize (HPQ z ltac:(set_solver) ltac:(set_solver)).
    repeat case_decide; simpl; try tauto; lia.
Qed.

Lemma filter_length_pos {A} (P : A → Prop) `{∀ x, Decision (P x)} (l : list A) (x : A) :
  x ∈ l → P x → (0 < length (filter P l))%nat.
Proof.
  intros Hx HP. assert (H0 : x ∈ filter P l) by (by apply list_elem_of_filter).
  destruct (filter P l); [set_solver|simpl; lia].
Qed.

(** Run the first call of the goal with the equation [t] proves for it. *)
Tactic Notation "mrun" tactic3(t) := erewrite bind_Ret by t; cbv beta iota.
