(* ===== verification/Mmu.v ===== *)
(** * Addresses, page-table entries and the memory layout

    [inc/types.h] (rounding macros), [inc/mmu.h] (paging constants and the
    address macros), [inc/memlayout.h] (the layout) and [inc/error.h].  The
    lemmas give every bit-level macro its arithmetic reading, show that the
    address macros are inverse to each other, and say when the rounding macros
    wrap around. *)

From S2P Require Import Prelude.

Open Scope Z_scope.

(** ** [inc/error.h] *)

Definition E_UNSPECIFIED : Z := 1.
Definition E_BAD_ENV : Z := 2.
Definition E_INVAL : Z := 3.
Definition E_NO_MEM : Z := 4.
Definition E_NO_FREE_ENV : Z := 5.
Definition E_FAULT : Z := 6.
Definition E_IPC_NOT_RECV : Z := 7.
Definition E_EOF : Z := 8.
Definition E_NO_DISK : Z := 9.
Definition E_MAX_OPEN : Z := 10.
Definition E_NOT_FOUND : Z := 11.
Definition E_BAD_PATH : Z := 12.
Definition E_FILE_EXISTS : Z := 13.
Definition E_NOT_EXEC : Z := 14.
Definition E_NOT_SUPP : Z := 15.
Definition E_AGAIN : Z := 16.
Definition MAXERROR : Z := 17.

(** ** [inc/mmu.h]: constants *)

Definition NPDENTRIES : Z := 1024.
Definition NPTENTRIES : Z := 1024.
Definition PGSIZE : Z := 4096.
Definition PGSHIFT : Z := 12.
Definition PTSIZE : Z := PGSIZE * NPTENTRIES.
Definition PTXSHIFT : Z := 12.
Definition PDXSHIFT : Z := 22.

Definition PTE_P : Z := 0x001.
Definition PTE_W : Z := 0x002.
Definition PTE_U : Z := 0x004.
Definition PTE_PWT : Z := 0x008.
Definition PTE_PCD : Z := 0x010.
Definition PTE_D : Z := 0x040.
Definition PTE_PS : Z := 0x080.
Definition PTE_AVAIL : Z := 0xE00.
Definition PTE_SYSCALL : Z := Z.lor (Z.lor (Z.lor PTE_AVAIL PTE_P) PTE_W) PTE_U.

Definition FL_IF : Z := 0x200.
Definition FL_IOPL_MASK : Z := 0x3000.
Definition FL_IOPL_0 : Z := 0.

(** ** [inc/mmu.h]: address macros *)

Definition PGNUM (la : Z) : Z := Z.shiftr la PTXSHIFT.
Definition PDX (la : Z) : Z := Z.land (Z.shiftr la PDXSHIFT) 0x3FF.
Definition PTX (la : Z) : Z := Z.land (Z.shiftr la PTXSHIFT) 0x3FF.
Definition PGOFF (la : Z) : Z := Z.land la 0xFFF.
Definition PGADDR (d t o : Z) : Z :=
  u32 (Z.lor (Z.lor (Z.shiftl d PDXSHIFT) (Z.shiftl t PTXSHIFT)) o).
Definition PTE_ADDR (pte : Z) : Z := Z.land pte (Z.lnot 0xFFF).

(** ** [inc/types.h]: rounding.  The macros compute in [uint32_t]. *)

Definition ROUNDDOWN (a n : Z) : Z := u32 a - u32 a mod n.
Definition ROUNDUP (a n : Z) : Z := ROUNDDOWN (u32 (u32 a + u32 n - 1)) (u32 n).

(** ** [inc/memlayout.h] *)

Definition KERNBASE : Z := 0xF0000000.
Definition IOPHYSMEM : Z := 0x0A0000.
Definition EXTPHYSMEM : Z := 0x100000.
Definition KSTACKTOP : Z := KERNBASE.
Definition KSTKSIZE : Z := 8 * PGSIZE.
Definition KSTKGAP : Z := 8 * PGSIZE.
Definition MMIOLIM : Z := KSTACKTOP - PTSIZE.
Definition MMIOBASE : Z := MMIOLIM - PTSIZE.
Definition ULIM : Z := MMIOBASE.
Definition UVPT : Z := ULIM - PTSIZE.
Definition UPAGES : Z := UVPT - PTSIZE.
Definition UENVS : Z := UPAGES - PTSIZE.
Definition UTOP : Z := UENVS.
Definition UXSTACKTOP : Z := UTOP.
Definition USTACKTOP : Z := UTOP - 2 * PGSIZE.
Definition UTEXT : Z := 2 * PTSIZE.
Definition MPENTRY_PADDR : Z := 0x7000.

(** ** Arithmetic readings of the bit-level macros *)

Lemma PGNUM_div la : PGNUM la = la / 4096.
Proof. unfold PGNUM, PTXSHIFT. rewrite Z.shiftr_div_pow2 by lia. reflexivity. Qed.

Lemma PDX_div la : PDX la = la / 4194304 mod 1024.
Proof.
  unfold PDX, PDXSHIFT. change 0x3FF with (Z.ones 10).
  rewrite Z.land_ones, Z.shiftr_div_pow2 by lia. reflexivity.
Qed.

Lemma PTX_div la : PTX la = la / 4096 mod 1024.
Proof.
  unfold PTX, PTXSHIFT. change 0x3FF with (Z.ones 10).
  rewrite Z.land_ones, Z.shiftr_div_pow2 by lia. reflexivity.
Qed.

Lemma PGOFF_mod la : PGOFF la = la mod 4096.
Proof. unfold PGOFF. change 0xFFF with (Z.ones 12). by rewrite Z.land_ones by lia. Qed.

Lemma PTE_ADDR_div pte : PTE_ADDR pte = 4096 * (pte / 4096).
Proof.
  unfold PTE_ADDR. change 0xFFF with (Z.ones 12).
  rewrite <- Z.ldiff_land, Z.ldiff_ones_r by lia.
  rewrite Z.shiftl_mul_pow2, Z.shiftr_div_pow2 by lia.
  change (2 ^ 12) with 4096. lia.
Qed.

(** Disjoint bit fields: [lor] is addition. *)
Lemma lor_add_shift a b k : 0 <= k → 0 <= b < 2 ^ k → Z.lor (a * 2 ^ k) b = a * 2 ^ k + b.
Proof.
  intros Hk Hb. rewrite <- Z.add_lor_land.
  replace (Z.land (a * 2 ^ k) b) with 0; [lia|].
  destruct (Z.eq_dec b 0) as [->|]; [by rewrite Z.land_0_r|].
  symmetry. apply Z.bits_inj'. intros i Hi.
  rewrite Z.land_spec, Z.bits_0.
  destruct (Z.lt_ge_cases i k).
  - by rewrite Z.mul_pow2_bits_low.
  - rewrite andb_comm, Z.bits_above_log2; [done|lia|].
    apply Z.log2_lt_pow2; [lia|].
    apply Z.lt_le_trans with (2 ^ k); [lia|]. apply Z.pow_le_mono_r; lia.
Qed.

(** A page frame's address combined with 12 permission bits. *)
Lemma pte_lor n perm : 0 <= perm < 4096 → Z.lor (n * 4096) perm = n * 4096 + perm.
Proof. intros; apply (lor_add_shift n perm 12); lia. Qed.

Lemma PTE_ADDR_frame n perm : 0 <= perm < 4096 → PTE_ADDR (n * 4096 + perm) = n * 4096.
Proof.
  intros. rewrite PTE_ADDR_div, Z.add_comm, Z.div_add, Z.div_small by lia. lia.
Qed.

Lemma PGNUM_frame n perm : 0 <= perm < 4096 → PGNUM (n * 4096 + perm) = n.
Proof. intros. rewrite PGNUM_div, Z.add_comm, Z.div_add, Z.div_small by lia. lia. Qed.

(** ** Range facts *)

Lemma PDX_range la : 0 <= PDX la < 1024.
Proof. rewrite PDX_div; apply Z.mod_pos_bound; lia. Qed.

Lemma PTX_range la : 0 <= PTX la < 1024.
Proof. rewrite PTX_div; apply Z.mod_pos_bound; lia. Qed.

Lemma PDX_user la : 0 <= la < UTOP → PDX la < PDX UTOP.
Proof.
  intros [? H]; rewrite !PDX_div. change (UTOP / 4194304 mod 1024) with 955.
  assert (la / 4194304 < 955) by (apply Z.div_lt_upper_bound; [lia|exact H]).
  pose proof (Z.div_pos la 4194304). rewrite Z.mod_small; lia.
Qed.

(** Two 32-bit addresses on the same directory and table slot are on the same
    page. *)
Lemma PDX_PTX_PGNUM a b :
  is_u32 a → is_u32 b → PDX a = PDX b → PTX a = PTX b → PGNUM a = PGNUM b.
Proof.
  unfold is_u32. rewrite !PDX_div, !PTX_div, !PGNUM_div.
  change (2 ^ 32) with 4294967296. intros Ha Hb Hd Ht.
  Z.to_euclidean_division_equations. lia.
Qed.

(** ** Inverse laws of the address macros *)

(** [PGADDR(d, t, o)] builds the address whose components are [d], [t], [o],
    and every 32-bit address is rebuilt from its components. *)
Theorem PGADDR_components d t o :
  0 <= d < 1024 → 0 <= t < 1024 → 0 <= o < 4096 →
  PDX (PGADDR d t o) = d ∧ PTX (PGADDR d t o) = t ∧ PGOFF (PGADDR d t o) = o.
Proof.
  intros Hd Ht Ho.
  assert (HP : PGADDR d t o = d * 4194304 + t * 4096 + o).
  { unfold PGADDR, PDXSHIFT, PTXSHIFT. rewrite !Z.shiftl_mul_pow2 by lia.
    rewrite (lor_add_shift d (t * 2 ^ 12) 22) by lia.
    replace (d * 2 ^ 22 + t * 2 ^ 12) with ((d * 2 ^ 10 + t) * 2 ^ 12) by lia.
    rewrite lor_add_shift by lia. rewrite u32_small by lia. lia. }
  rewrite HP, PDX_div, PTX_div, PGOFF_mod.
  repeat split; Z.to_euclidean_division_equations; lia.
Qed.

Theorem PGADDR_rebuild la : is_u32 la → PGADDR (PDX la) (PTX la) (PGOFF la) = la.
Proof.
  intros H. unfold is_u32 in H. unfold PGADDR, PDXSHIFT, PTXSHIFT.
  rewrite !Z.shiftl_mul_pow2 by lia.
  pose proof (PDX_range la); pose proof (PTX_range la).
  assert (0 <= PGOFF la < 4096) by (rewrite PGOFF_mod; apply Z.mod_pos_bound; lia).
  rewrite (lor_add_shift (PDX la) (PTX la * 2 ^ 12) 22) by lia.
  replace (PDX la * 2 ^ 22 + PTX la * 2 ^ 12) with ((PDX la * 2 ^ 10 + PTX la) * 2 ^ 12) by lia.
  rewrite lor_add_shift by lia. rewrite u32_small by lia.
  rewrite PDX_div, PTX_div, PGOFF_mod. change (2 ^ 32) with 4294967296 in H.
  Z.to_euclidean_division_equations; lia.
Qed.

(** ** Rounding *)

Lemma ROUNDDOWN_spec a n :
  is_u32 a → 0 < n →
  ROUNDDOWN a n = n * (a / n) ∧ ROUNDDOWN a n <= a < ROUNDDOWN a n + n.
Proof.
  intros Ha Hn. unfold ROUNDDOWN. rewrite u32_small by done.
  pose proof (Z.div_mod a n); pose proof (Z.mod_pos_bound a n). lia.
Qed.

Lemma ROUNDUP_unfold a n :
  is_u32 a → 0 < n < 2 ^ 32 → a + n - 1 < 2 ^ 32 → ROUNDUP a n = n * ((a + n - 1) / n).
Proof.
  unfold is_u32. intros Ha Hn Hov. unfold ROUNDUP. rewrite !(u32_small a), !(u32_small n) by lia.
  rewrite (u32_small (a + n - 1)) by lia.
  destruct (ROUNDDOWN_spec (a + n - 1) n) as [-> _]; unfold is_u32; lia.
Qed.

(** [ROUNDUP(a, n)] is the least multiple of [n] that is at least [a], as long
    as [a + n - 1] does not overflow. *)
Theorem ROUNDUP_least a n :
  is_u32 a → 0 < n < 2 ^ 32 → a + n - 1 < 2 ^ 32 →
  a <= ROUNDUP a n < a + n ∧ ROUNDUP a n mod n = 0 ∧
  (∀ m, a <= m → m mod n = 0 → ROUNDUP a n <= m).
Proof.
  intros Ha Hn Hov. rewrite ROUNDUP_unfold by done.
  pose proof (Z.div_mod (a + n - 1) n). pose proof (Z.mod_pos_bound (a + n - 1) n).
  split; [lia|]. split; [rewrite Z.mul_comm; apply Z.mod_mul; lia|].
  intros m Hm Hz. pose proof (Z.div_mod m n).
  assert ((a + n - 1) / n <= m / n) by nia.
  nia.
Qed.

(** At the top of the address space the macro wraps to zero. *)
Lemma ROUNDUP_wraps a : 2 ^ 32 - PGSIZE < a < 2 ^ 32 → ROUNDUP a PGSIZE = 0.
Proof.
  unfold PGSIZE. intros Ha. unfold ROUNDUP. rewrite !(u32_small a) by lia.
  rewrite (u32_small 4096) by lia.
  replace (u32 (a + 4096 - 1)) with (a + 4095 - 2 ^ 32).
  - unfold ROUNDDOWN. rewrite u32_small by lia. rewrite Z.mod_small by lia. lia.
  - unfold u32. rewrite <- (Z.mod_small (a + 4095 - 2 ^ 32) (2 ^ 32)) by lia.
    replace (a + 4096 - 1) with (a + 4095 - 2 ^ 32 + 1 * 2 ^ 32) by lia.
    by rewrite Z.mod_add by lia.
Qed.

#[global] Arguments PGNUM : simpl never.
#[global] Arguments PDX : simpl never.
#[global] Arguments PTX : simpl never.
#[global] Arguments PTE_ADDR : simpl never.
#[global] Arguments ROUNDUP : simpl never.
#[global] Arguments ROUNDDOWN : simpl never.
