(* ===== verification/Console.v ===== *)
(** * The console ([kern/console.c], [inc/kbdreg.h])

    The console driver's statics and the devices behind it as one record, and
    its functions in explicit state passing: the CGA text screen with its
    scrolling, the keyboard decoder with its modifier state, the serial port,
    and the circular input buffer [cons] that the interrupt routines fill and
    [cons_getc] empties.

    A device's input side is the list of readings it will give; its output
    side is the list of bytes it was sent.  The bounded busy-waits of
    [serial_putc] and [lpt_putc] (at most 12800 polls) have no effect on the
    state and are not represented.  Arrays are functions of the index; that
    the code stays within their bounds is part of what is proved. *)

From S2P Require Import Prelude.
Open Scope Z_scope.

Definition CRT_ROWS : Z := 25.
Definition CRT_COLS : Z := 80.
Definition CRT_SIZE : Z := CRT_ROWS * CRT_COLS.
Definition CONSBUFSIZE : Z := 512.

Record console : Type := mkConsole {
  serial_exists : bool;
  serial_in : list Z;   (** bytes waiting in the UART *)
  serial_out : list Z;   (** bytes sent to [COM1], latest first *)
  lpt_out : list Z;   (** bytes sent to the parallel port, latest first *)
  crt_buf : Z → Z;   (** the cells of video memory *)
  crt_pos : Z;   (** [uint16_t] *)
  crt_cursor : Z;   (** the 6845's cursor register *)
  kbd_in : list (Z * Z);   (** controller: pending (status, data) readings *)
  kbd_shift : Z;   (** the static [shift] of [kbd_proc_data] *)
  rebooted : bool;   (** [outb(0x92, 0x3)] was executed *)
  cons_buf : Z → Z;   (** [cons.buf], 512 bytes *)
  cons_rpos : Z;   (** [cons.rpos] *)
  cons_wpos : Z;   (** [cons.wpos] *)
}.

Definition set_serial_exists (v : bool) (r : console) : console :=
  mkConsole v (serial_in r) (serial_out r) (lpt_out r) (crt_buf r) (crt_pos r) (crt_cursor r)
    (kbd_in r) (kbd_shift r) (rebooted r) (cons_buf r) (cons_rpos r) (cons_wpos r).
Definition set_serial_in (v : list Z) (r : console) : console :=
  mkConsole (serial_exists r) v (serial_out r) (lpt_out r) (crt_buf r) (crt_pos r)
    (crt_cursor r) (kbd_in r) (kbd_shift r) (rebooted r) (cons_buf r) (cons_rpos r)
    (cons_wpos r).
Definition set_serial_out (v : list Z) (r : console) : console :=
  mkConsole (serial_exists r) (serial_in r) v (lpt_out r) (crt_buf r) (crt_pos r) (crt_cursor r)
    (kbd_in r) (kbd_shift r) (rebooted r) (cons_buf r) (cons_rpos r) (cons_wpos r).
Definition set_lpt_out (v : list Z) (r : console) : console :=
  mkConsole (serial_exists r) (serial_in r) (serial_out r) v (crt_buf r) (crt_pos r)
    (crt_cursor r) (kbd_in r) (kbd_shift r) (rebooted r) (cons_buf r) (cons_rpos r)
    (cons_wpos r).
Definition set_crt_buf (v : Z → Z) (r : console) : console :=
  mkConsole (serial_exists r) (serial_in r) (serial_out r) (lpt_out r) v (crt_pos r)
    (crt_cursor r) (kbd_in r) (kbd_shift r) (rebooted r) (cons_buf r) (cons_rpos r)
    (cons_wpos r).
Definition set_crt_pos (v : Z) (r : console) : console :=
  mkConsole (serial_exists r) (serial_in r) (serial_out r) (lpt_out r) (crt_buf r) v
    (crt_cursor r) (kbd_in r) (kbd_shift r) (rebooted r) (cons_buf r) (cons_rpos r)
    (cons_wpos r).
Definition set_crt_cursor (v : Z) (r : console) : console :=
  mkConsole (serial_exists r) (serial_in r) (serial_out r) (lpt_out r) (crt_buf r) (crt_pos r) v
    (kbd_in r) (kbd_shift r) (rebooted r) (cons_buf r) (cons_rpos r) (cons_wpos r).
Definition set_kbd_in (v : list (Z * Z)) (r : console) : console :=
  mkConsole (serial_exists r) (serial_in r) (serial_out r) (lpt_out r) (crt_buf r) (crt_pos r)
    (crt_cursor r) v (kbd_shift r) (rebooted r) (cons_buf r) (cons_rpos r) (cons_wpos r).
Definition set_kbd_shift (v : Z) (r : console) : console :=
  mkConsole (serial_exists r) (serial_in r) (serial_out r) (lpt_out r) (crt_buf r) (crt_pos r)
    (crt_cursor r) (kbd_in r) v (rebooted r) (cons_buf r) (cons_rpos r) (cons_wpos r).
Definition set_rebooted (v : bool) (r : console) : console :=
  mkConsole (serial_exists r) (serial_in r) (serial_out r) (lpt_out r) (crt_buf r) (crt_pos r)
    (crt_cursor r) (kbd_in r) (kbd_shift r) v (cons_buf r) (cons_rpos r) (cons_wpos r).
Definition set_cons_buf (v : Z → Z) (r : console) : console :=
  mkConsole (serial_exists r) (serial_in r) (serial_out r) (lpt_out r) (crt_buf r) (crt_pos r)
    (crt_cursor r) (kbd_in r) (kbd_shift r) (rebooted r) v (cons_rpos r) (cons_wpos r).
Definition set_cons_rpos (v : Z) (r : console) : console :=
  mkConsole (serial_exists r) (serial_in r) (serial_out r) (lpt_out r) (crt_buf r) (crt_pos r)
    (crt_cursor r) (kbd_in r) (kbd_shift r) (rebooted r) (cons_buf r) v (cons_wpos r).
Definition set_cons_wpos (v : Z) (r : console) : console :=
  mkConsole (serial_exists r) (serial_in r) (serial_out r) (lpt_out r) (crt_buf r) (crt_pos r)
    (crt_cursor r) (kbd_in r) (kbd_shift r) (rebooted r) (cons_buf r) (cons_rpos r) v.

Definition upd (f : Z → Z) (i v : Z) : Z → Z := λ j, if j =? i then v else f j.

(** ** Serial and parallel port *)

Definition serial_proc_data (s : console) : Z * console :=
  match serial_in s with
  | [] => (-1, s)
  | c :: rest => (c, set_serial_in rest s)
  end.

Definition serial_putc (c : Z) (s : console) : console := set_serial_out (u8 c :: serial_out s) s.
Definition lpt_putc (c : Z) (s : console) : console := set_lpt_out (u8 c :: lpt_out s) s.

(** ** The text screen *)

Definition ch_space : Z := 0x20.

(** The screen scrolls by one line when the cursor has left it. *)
Definition cga_scroll (s : console) : console :=
  if CRT_SIZE <=? crt_pos s then
    let buf i :=
      if (0 <=? i) && (i <? CRT_SIZE - CRT_COLS) then crt_buf s (i + CRT_COLS)
      else if (CRT_SIZE - CRT_COLS <=? i) && (i <? CRT_SIZE) then Z.lor 0x0700 ch_space
      else crt_buf s i in
    set_crt_pos (u16 (crt_pos s - CRT_COLS)) (set_crt_buf buf s)
  else s.

Definition cga_cursor (s : console) : console :=
  set_crt_cursor (Z.lor (Z.shiftl (u8 (Z.shiftr (crt_pos s) 8)) 8) (u8 (crt_pos s))) s.

(** The [switch]; [putc] is [cons_putc], called for a tab. *)
Definition cga_char (putc : Z → console → console) (c : Z) (s : console) : console :=
  let ch := Z.land c 0xff in
  if ch =? 0x08 then
    if 0 <? crt_pos s then
      let p := u16 (crt_pos s - 1) in
      set_crt_buf (upd (crt_buf s) p (u16 (Z.lor (Z.land c (Z.lnot 0xff)) ch_space))) (set_crt_pos p s)
    else s
  else if ch =? 0x0a then
    let p := u16 (crt_pos s + CRT_COLS) in set_crt_pos (u16 (p - p mod CRT_COLS)) s
  else if ch =? 0x0d then
    set_crt_pos (u16 (crt_pos s - crt_pos s mod CRT_COLS)) s
  else if ch =? 0x09 then
    putc ch_space (putc ch_space (putc ch_space (putc ch_space (putc ch_space s))))
  else
    set_crt_pos (u16 (crt_pos s + 1)) (set_crt_buf (upd (crt_buf s) (crt_pos s) (u16 c)) s).

Definition cga_putc_with (putc : Z → console → console) (c : Z) (s : console) : console :=
  let c := if Z.land c (Z.lnot 0xff) =? 0 then Z.lor c 0x0700 else c in
  cga_cursor (cga_scroll (cga_char putc c s)).

(** [cga_putc] and [cons_putc] call each other; the inner calls print a
    space, which calls no further, so two levels are enough. *)
Definition cons_putc_with (putc : Z → console → console) (c : Z) (s : console) : console :=
  cga_putc_with putc c (lpt_putc c (serial_putc c s)).

Definition cons_putc : Z → console → console := cons_putc_with (cons_putc_with (λ _ s, s)).
Definition cga_putc : Z → console → console := cga_putc_with cons_putc.
Definition cputchar : Z → console → console := cons_putc.

(** ** The keyboard *)

Definition KEY_HOME : Z := 0xE0.
Definition KEY_END : Z := 0xE1.
Definition KEY_UP : Z := 0xE2.
Definition KEY_DN : Z := 0xE3.
Definition KEY_LF : Z := 0xE4.
Definition KEY_RT : Z := 0xE5.
Definition KEY_PGUP : Z := 0xE6.
Definition KEY_PGDN : Z := 0xE7.
Definition KEY_INS : Z := 0xE8.
Definition KEY_DEL : Z := 0xE9.

Definition KBS_DIB : Z := 0x01.
Definition KBS_TERR : Z := 0x20.

Definition NO : Z := 0.
Definition SHIFT : Z := Z.shiftl 1 0.
Definition CTL : Z := Z.shiftl 1 1.
Definition ALT : Z := Z.shiftl 1 2.
Definition CAPSLOCK : Z := Z.shiftl 1 3.
Definition NUMLOCK : Z := Z.shiftl 1 4.
Definition SCROLLLOCK : Z := Z.shiftl 1 5.
Definition E0ESC : Z := Z.shiftl 1 6.

(** A C array initialiser: leading values, then designated ones; the other
    elements are 0. *)
Definition table (lead : list Z) (desig : list (Z * Z)) (i : Z) : Z :=
  match list_find (λ p, p.1 = i) desig with
  | Some (_, p) => p.2
  | None => nth (Z.to_nat i) lead 0
  end.

Definition shiftcode : Z → Z :=
  table [] [(0x1D, CTL); (0x2A, SHIFT); (0x36, SHIFT); (0x38, ALT); (0x9D, CTL); (0xB8, ALT)].

Definition togglecode : Z → Z :=
  table [] [(0x3A, CAPSLOCK); (0x45, NUMLOCK); (0x46, SCROLLLOCK)].

Definition keypad : list (Z * Z) :=
  [(0xC8, KEY_UP); (0xC9, KEY_PGUP); (0xCB, KEY_LF); (0xCD, KEY_RT); (0xCF, KEY_END);
   (0xD0, KEY_DN); (0xD1, KEY_PGDN); (0xD2, KEY_INS); (0xD3, KEY_DEL)].

Definition normalmap : Z → Z := table
    [NO; 27; 49; 50; 51; 52; 53; 54;
     55; 56; 57; 48; 45; 61; 8; 9;
     113; 119; 101; 114; 116; 121; 117; 105;
     111; 112; 91; 93; 10; NO; 97; 115;
     100; 102; 103; 104; 106; 107; 108; 59;
     39; 96; NO; 92; 122; 120; 99; 118;
     98; 110; 109; 44; 46; 47; NO; 42;
     NO; 32; NO; NO; NO; NO; NO; NO;
     NO; NO; NO; NO; NO; NO; NO; 55;
     56; 57; 45; 52; 53; 54; 43; 49;
     50; 51; 48; 46; NO; NO; NO; NO]
    ([(0xC7, KEY_HOME); (0x9C, 10); (0xB5, 47)] ++ keypad).

Definition shiftmap : Z → Z := table
    [NO; 27; 33; 64; 35; 36; 37; 94;
     38; 42; 40; 41; 95; 43; 8; 9;
     81; 87; 69; 82; 84; 89; 85; 73;
     79; 80; 123; 125; 10; NO; 65; 83;
     68; 70; 71; 72; 74; 75; 76; 58;
     34; 126; NO; 124; 90; 88; 67; 86;
     66; 78; 77; 60; 62; 63; NO; 42;
     NO; 32; NO; NO; NO; NO; NO; NO;
     NO; NO; NO; NO; NO; NO; NO; 55;
     56; 57; 45; 52; 53; 54; 43; 49;
     50; 51; 48; 46; NO; NO; NO; NO]
    ([(0xC7, KEY_HOME); (0x9C, 10); (0xB5, 47)] ++ keypad).

Definition C (x : Z) : Z := u8 (x - 64).

Definition ctlmap : Z → Z := table
    [NO; NO; NO; NO; NO; NO; NO; NO;
     NO; NO; NO; NO; NO; NO; NO; NO;
     C 81; C 87; C 69; C 82; C 84; C 89; C 85; C 73;
     C 79; C 80; NO; NO; 13; NO; C 65; C 83;
     C 68; C 70; C 71; C 72; C 74; C 75; C 76; NO;
     NO; NO; NO; C 92; C 90; C 88; C 67; C 86;
     C 66; C 78; C 77; NO; NO; C 47; NO; NO]
    ([(0x97, KEY_HOME); (0xB5, C 47)] ++ keypad).

Definition charcode (m : Z) : Z → Z :=
  if m =? 0 then normalmap else if m =? 1 then shiftmap else ctlmap.

(** The modifier state [shift] and a data byte give the new state and the
    character (0 if none was finished). *)
Definition kbd_decode (shift data : Z) : Z * Z :=
  if data =? 0xE0 then (Z.lor shift E0ESC, 0)
  else if negb (Z.land data 0x80 =? 0) then
    let data := if negb (Z.land shift E0ESC =? 0) then data else Z.land data 0x7F in
    (Z.land shift (Z.lnot (Z.lor (shiftcode data) E0ESC)), 0)
  else
    let esc := negb (Z.land shift E0ESC =? 0) in
    let data := if esc then Z.lor data 0x80 else data in
    let shift := if esc then Z.land shift (Z.lnot E0ESC) else shift in
    let shift := Z.lor shift (shiftcode data) in
    let shift := Z.lxor shift (togglecode data) in
    let c := charcode (Z.land shift (Z.lor CTL SHIFT)) data in
    let c :=
      if negb (Z.land shift CAPSLOCK =? 0) then
        if (97 <=? c) && (c <=? 122) then c + (65 - 97)
        else if (65 <=? c) && (c <=? 90) then c + (97 - 65)
        else c
      else c in
    (shift, c).

(** Ctrl-Alt-Del *)
Definition reboot_key (shift data c : Z) : bool :=
  (Z.land data 0x80 =? 0) && (Z.land (Z.lnot shift) (Z.lor CTL ALT) =? 0) && (c =? KEY_DEL).

Definition kbd_proc_data (s : console) : Z * console :=
  match kbd_in s with
  | [] => (-1, s)
  | (stat, data) :: rest =>
    if Z.land stat KBS_DIB =? 0 then (-1, s)
    else if negb (Z.land stat KBS_TERR =? 0) then (-1, s)
    else
      let '(shift, c) := kbd_decode (kbd_shift s) data in
      let s := set_kbd_in rest (set_kbd_shift shift s) in
      (c, if reboot_key shift data c then set_rebooted true s else s)
  end.

(** ** The input buffer *)

Definition cons_push (c : Z) (s : console) : console :=
  let w := u32 (cons_wpos s + 1) in
  set_cons_wpos (if w =? CONSBUFSIZE then 0 else w)
    (set_cons_buf (upd (cons_buf s) (cons_wpos s) (u8 c)) s).

(** [None] when the fuel runs out: [proc] is polled at most [fuel] times. *)
Fixpoint cons_intr (fuel : nat) (proc : console → Z * console) (s : console) : option console :=
  match fuel with
  | O => None
  | S fuel' =>
    let '(c, s) := proc s in
    if c =? -1 then Some s
    else if c =? 0 then cons_intr fuel' proc s
    else cons_intr fuel' proc (cons_push c s)
  end.

Definition serial_intr (s : console) : option console :=
  if serial_exists s then cons_intr (S (length (serial_in s))) serial_proc_data s else Some s.

Definition kbd_intr (s : console) : option console :=
  cons_intr (S (length (kbd_in s))) kbd_proc_data s.

(** The end of [cons_getc]: the next character of the buffer, or 0. *)
Definition cons_pop (s : console) : Z * console :=
  if cons_rpos s =? cons_wpos s then (0, s)
  else
    let c := cons_buf s (cons_rpos s) in
    let r := u32 (cons_rpos s + 1) in
    (c, set_cons_rpos (if r =? CONSBUFSIZE then 0 else r) s).

Definition cons_getc (s : console) : option (Z * console) :=
  s ← serial_intr s;
  s ← kbd_intr s;
  Some (cons_pop s).

(** ** The invariant *)

Record cons_ok (s : console) : Prop := mk_cons_ok {
  ok_pos : 0 <= crt_pos s < CRT_SIZE;
  ok_rpos : 0 <= cons_rpos s < CONSBUFSIZE;
  ok_wpos : 0 <= cons_wpos s < CONSBUFSIZE;
}.

(** The part of the state that [cons_putc] may change, and how. *)
Record putc_frame (s s' : console) : Prop := mk_putc_frame {
  pf_cells : ∀ i, ¬ 0 <= i < CRT_SIZE → crt_buf s' i = crt_buf s i;
  pf_input : (serial_in s', kbd_in s', kbd_shift s', rebooted s') =
             (serial_in s, kbd_in s, kbd_shift s, rebooted s);
  pf_ring : (cons_buf s', cons_rpos s', cons_wpos s') = (cons_buf s, cons_rpos s, cons_wpos s);
}.

Lemma putc_frame_trans s1 s2 s3 : putc_frame s1 s2 → putc_frame s2 s3 → putc_frame s1 s3.
Proof.
  intros [C1 I1 R1] [C2 I2 R2]. constructor; [|congruence|congruence].
  intros i Hi. by rewrite C2, C1.
Qed.

Lemma upd_ne f i v j : j ≠ i → upd f i v j = f j.
Proof. intros H. unfold upd. by destruct (Z.eqb_spec j i). Qed.

Lemma cga_char_plain putc c s :
  0 <= crt_pos s < CRT_SIZE → Z.land c 0xff ≠ 9 →
  let s' := cga_char putc c s in
  0 <= crt_pos s' <= CRT_SIZE ∧ putc_frame s s' ∧
  serial_out s' = serial_out s ∧ lpt_out s' = lpt_out s.
Proof.
  unfold CRT_SIZE, CRT_ROWS, CRT_COLS, cga_char. intros Hp Ht.
  assert (H16 : ∀ x, 0 <= x < 65536 → u16 x = x) by (intros; by apply u16_small).
  assert (Hnl : 0 <= crt_pos s + 80 - (crt_pos s + 80) mod 80 <= 2000) by
    (Z.to_euclidean_division_equations; lia).
  assert (Hcr : 0 <= crt_pos s - crt_pos s mod 80 <= 2000) by
    (Z.to_euclidean_division_equations; lia).
  destruct (Z.eqb_spec (Z.land c 0xff) 0x08); [destruct (Z.ltb_spec 0 (crt_pos s))|
    destruct (Z.eqb_spec (Z.land c 0xff) 0x0a); [|destruct (Z.eqb_spec (Z.land c 0xff) 0x0d);
    [|destruct (Z.eqb_spec (Z.land c 0xff) 0x09); [done|]]]].
  all: cbn -[u16 Z.lor Z.land Z.modulo CRT_COLS]; unfold CRT_COLS;
    rewrite ?(H16 (crt_pos s + 80)), ?H16 by lia.
  all: split_and!; try done; try lia.
  all: constructor; try done; intros j Hj; unfold CRT_SIZE, CRT_ROWS, CRT_COLS in Hj;
    cbn -[u16 Z.lor Z.land]; rewrite ?upd_ne by lia; done.
Qed.

Lemma cga_scroll_ok s :
  0 <= crt_pos s <= CRT_SIZE →
  let s' := cga_scroll s in
  0 <= crt_pos s' < CRT_SIZE ∧ putc_frame s s' ∧
  serial_out s' = serial_out s ∧ lpt_out s' = lpt_out s.
Proof.
  unfold cga_scroll. intros Hp. destruct (Z.leb_spec CRT_SIZE (crt_pos s)) as [H|H].
  - cbn -[u16 CRT_SIZE CRT_COLS Z.lor]. unfold CRT_SIZE, CRT_ROWS, CRT_COLS in *.
    rewrite u16_small by lia. split_and!; try done; try lia.
    constructor; try done. intros i Hi. cbn -[u16 Z.lor].
    unfold CRT_SIZE, CRT_ROWS, CRT_COLS in *.
    destruct (Z.leb_spec 0 i), (Z.ltb_spec i (25 * 80 - 80)), (Z.leb_spec (25 * 80 - 80) i),
      (Z.ltb_spec i (25 * 80)); simpl; done || lia.
  - split_and!; try done; try lia.
Qed.

Lemma cga_cursor_pos s : 0 <= crt_pos s < CRT_SIZE → crt_cursor (cga_cursor s) = crt_pos s.
Proof.
  unfold cga_cursor, CRT_SIZE, CRT_ROWS, CRT_COLS. cbn [crt_cursor set_crt_cursor].
  generalize (crt_pos s). intros p Hp.
  rewrite u8_small by (rewrite Z.shiftr_div_pow2 by lia; Z.to_euclidean_division_equations; lia).
  unfold u8. rewrite <- Z.land_ones, <- Z.ldiff_ones_r by lia.
  apply Z.bits_inj'. intros n Hn. rewrite Z.lor_spec, Z.land_spec, Z.ldiff_spec, Z.testbit_ones by lia.
  destruct (Z.leb_spec 0 n); [|lia]. by destruct (Z.testbit p n), (n <? 8).
Qed.

(** What printing the bytes [l] does. *)
Definition putc_spec (s s' : console) (l : list Z) : Prop :=
  0 <= crt_pos s' < CRT_SIZE ∧ putc_frame s s' ∧
  serial_out s' = reverse l ++ serial_out s ∧ lpt_out s' = reverse l ++ lpt_out s.

Lemma putc_spec_trans s1 s2 s3 l l' :
  putc_spec s1 s2 l → putc_spec s2 s3 l' → putc_spec s1 s3 (l ++ l').
Proof.
  intros (_ & Hf & Hs & Hl) (Hp' & Hf' & Hs' & Hl').
  split_and!; [lia|lia|by eapply putc_frame_trans| |]; rewrite reverse_app, <- app_assoc; congruence.
Qed.

(** The end of [cga_putc]: scroll, then move the cursor. *)
Lemma cga_finish_ok s :
  0 <= crt_pos s <= CRT_SIZE →
  putc_spec s (cga_cursor (cga_scroll s)) [] ∧
  crt_cursor (cga_cursor (cga_scroll s)) = crt_pos (cga_cursor (cga_scroll s)).
Proof.
  intros Hp. destruct (cga_scroll_ok s Hp) as (Hp2 & Hf2 & Ho2 & Hl2).
  split; [|exact (cga_cursor_pos _ Hp2)].
  split_and!; [apply Hp2|apply Hp2| |done|done].
  eapply putc_frame_trans; [exact Hf2|done].
Qed.

(** The character part of [c], with or without an attribute. *)
Definition with_attr (c : Z) : Z := if Z.land c (Z.lnot 255) =? 0 then Z.lor c 1792 else c.

Lemma with_attr_char c : Z.land (with_attr c) 0xff = u8 c.
Proof.
  change 0xff with (Z.ones 8). unfold with_attr.
  case_match; [rewrite Z.land_lor_distr_l|]; rewrite Z.land_ones by lia; [|done]. by rewrite Z.lor_0_r.
Qed.

Lemma ports_ok c s :
  0 <= crt_pos s < CRT_SIZE → putc_spec s (lpt_putc c (serial_putc c s)) [u8 c].
Proof. intros [? ?]. by split_and!. Qed.

(** One level of [cons_putc] on anything but a tab. *)
Lemma putc_plain putc c s :
  0 <= crt_pos s < CRT_SIZE → u8 c ≠ 9 →
  let s' := cons_putc_with putc c s in
  putc_spec s s' [u8 c] ∧ crt_cursor s' = crt_pos s'.
Proof.
  intros Hp Ht. unfold cons_putc_with, cga_putc_with. fold (with_attr c).
  destruct (cga_char_plain putc (with_attr c) (lpt_putc c (serial_putc c s)) Hp
    ltac:(by rewrite with_attr_char)) as (Hp1 & Hf1 & Ho1 & Hl1).
  destruct (cga_finish_ok _ Hp1) as [(Hp2 & Hf2 & Ho2 & Hl2) Hc]. split; [|done].
  split_and!; [apply Hp2|apply Hp2| |by rewrite Ho2, Ho1|by rewrite Hl2, Hl1].
  eapply putc_frame_trans; [by apply ports_ok|]. by eapply putc_frame_trans.
Qed.

(** A level down, where only spaces are printed. *)
Definition put1 : Z → console → console := cons_putc_with (λ _ s, s).

Lemma cons_putc_tab c s :
  u8 c = 9 →
  cons_putc c s = cga_cursor (cga_scroll (Nat.iter 5 (put1 ch_space) (lpt_putc c (serial_putc c s)))).
Proof.
  intros E. unfold cons_putc. fold put1. unfold cons_putc_with, cga_putc_with. fold (with_attr c).
  unfold cga_char. by rewrite with_attr_char, E.
Qed.

(** The bytes [cons_putc] sends to the serial and parallel ports. *)
Definition expand (c : Z) : list Z :=
  if u8 c =? 9 then [9; ch_space; ch_space; ch_space; ch_space; ch_space] else [u8 c].

(** [cons_putc] keeps the cursor on the screen, writes no cell outside it,
    and leaves the input side alone; the character, or a tab followed by its
    five spaces, goes to the ports, in that order. *)
Theorem cons_putc_correct c s :
  0 <= crt_pos s < CRT_SIZE →
  putc_spec s (cons_putc c s) (expand c) ∧ crt_cursor (cons_putc c s) = crt_pos (cons_putc c s).
Proof.
  intros Hp. unfold expand. destruct (Z.eqb_spec (u8 c) 9) as [E|E]; [|by apply putc_plain].
  rewrite cons_putc_tab by done. pose proof (ports_ok c s Hp) as H0. rewrite E in H0.
  assert (Hput : ∀ s' l, putc_spec s s' l → putc_spec s (put1 ch_space s') (l ++ [ch_space])).
  { intros s' l H. eapply putc_spec_trans; [exact H|]. by apply putc_plain; [apply H|]. }
  do 5 apply Hput in H0.
  pose proof (proj1 H0) as [Hr0 Hr1].
  destruct (cga_finish_ok _ (conj Hr0 (Z.lt_le_incl _ _ Hr1))) as [Hfin Hcur].
  split; [|done]. exact (putc_spec_trans _ _ _ _ [] H0 Hfin).
Qed.

(** ** The input buffer is a bounded queue *)

(** The characters waiting: those from [rpos] up to [wpos], circularly. *)
Definition pending (s : console) : list Z :=
  (λ k, cons_buf s ((cons_rpos s + k) mod CONSBUFSIZE)) <$>
    seqZ 0 ((cons_wpos s - cons_rpos s) mod CONSBUFSIZE).

Lemma pending_length s : Z.of_nat (length (pending s)) = (cons_wpos s - cons_rpos s) mod CONSBUFSIZE.
Proof.
  unfold pending. rewrite length_fmap, length_seqZ, Z2Nat.id; [done|].
  apply Z.mod_pos_bound. done.
Qed.

Lemma cons_push_ok c s : cons_ok s → cons_ok (cons_push c s).
Proof.
  intros [Hp Hr Hw]. constructor; [done|done|]. unfold cons_push, CONSBUFSIZE in *.
  cbn [cons_wpos set_cons_wpos]. rewrite u32_small by lia. case_match; lia.
Qed.

(** A character joins the end of the queue unless 511 are waiting. *)
Lemma pending_push c s :
  cons_ok s → Z.of_nat (length (pending s)) < CONSBUFSIZE - 1 →
  pending (cons_push c s) = pending s ++ [u8 c].
Proof.
  rewrite pending_length. intros [_ Hr Hw] Hlen.
  assert (Hw' : cons_wpos (cons_push c s) = (cons_wpos s + 1) mod CONSBUFSIZE).
  { unfold cons_push, CONSBUFSIZE in *. cbn [cons_wpos set_cons_wpos]. rewrite u32_small by lia.
    case_match; Z.to_euclidean_division_equations; lia. }
  unfold pending. rewrite Hw'. unfold cons_push. cbn [cons_rpos cons_buf set_cons_wpos set_cons_buf].
  unfold CONSBUFSIZE in *.
  replace ((((cons_wpos s + 1) mod 512) - cons_rpos s) mod 512)
    with ((cons_wpos s - cons_rpos s) mod 512 + 1) by (Z.to_euclidean_division_equations; lia).
  rewrite seqZ_app by (try apply Z.mod_pos_bound; lia). rewrite fmap_app. f_equal.
  - apply list_fmap_ext. intros i k Hk%list_elem_of_lookup_2%elem_of_seqZ.
    apply upd_ne. Z.to_euclidean_division_equations; lia.
  - rewrite seqZ_cons by lia. rewrite seqZ_nil by lia. cbn [fmap list_fmap]. unfold upd. rewrite (proj2 (Z.eqb_eq _ _)); [done|].
    Z.to_euclidean_division_equations; lia.
Qed.

(** What polling a device until it has no more data yields: the characters,
    and the devices afterwards. *)
Fixpoint drain (fuel : nat) (proc : console → Z * console) (s : console) : list Z * console :=
  match fuel with
  | O => ([], s)
  | S fuel' =>
    let '(c, s) := proc s in
    if c =? -1 then ([], s)
    else let '(l, s') := drain fuel' proc s in (if c =? 0 then l else c :: l, s')
  end.

Definition push_all (l : list Z) (s : console) : console := foldl (flip cons_push) s l.

Definition ring (s : console) := (cons_buf s, cons_rpos s, cons_wpos s, crt_pos s).

(** A device routine: it reads a queue, and neither looks at nor touches the
    ring buffer. *)
Record device (proc : console → Z * console) (queue : console → nat) : Prop := mk_device {
  dev_reads : ∀ s, fst (proc s) ≠ -1 → (queue (snd (proc s)) < queue s)%nat;
  dev_push : ∀ c s, proc (cons_push c s) = (fst (proc s), cons_push c (snd (proc s)));
  dev_queue : ∀ c s, queue (cons_push c s) = queue s;
  dev_ring : ∀ s, ring (snd (proc s)) = ring s;
}.

Lemma serial_device : device serial_proc_data (λ s, length (serial_in s)).
Proof.
  constructor; intros; unfold serial_proc_data in *; cbn [serial_in cons_push set_cons_wpos set_cons_buf] in *.
  - destruct (serial_in s); simpl in *; [done|lia].
  - by destruct (serial_in s).
  - done.
  - by destruct (serial_in s).
Qed.

Lemma kbd_device : device kbd_proc_data (λ s, length (kbd_in s)).
Proof.
  constructor; intros; unfold kbd_proc_data in *; cbn [kbd_in kbd_shift cons_push set_cons_wpos set_cons_buf] in *.
  - destruct (kbd_in s) as [|[st d] l]; [done|]. case_match; [done|]. case_match; [done|].
    destruct (kbd_decode _ _) as [sh ch]. simpl. case_match; simpl; lia.
  - destruct (kbd_in s) as [|[st d] l]; [done|]. case_match; [done|]. case_match; [done|].
    destruct (kbd_decode _ _) as [sh ch]. by case_match.
  - done.
  - destruct (kbd_in s) as [|[st d] l]; [done|]. case_match; [done|]. case_match; [done|].
    destruct (kbd_decode _ _) as [sh ch]. by case_match.
Qed.

Section interrupt.
Context (proc : console → Z * console) (queue : console → nat).
Hypothesis Hdev : device proc queue.

Lemma drain_push fuel c s :
  drain fuel proc (cons_push c s) =
    (fst (drain fuel proc s), cons_push c (snd (drain fuel proc s))).
Proof using Hdev.
  revert c s. induction fuel as [|fuel IH]; intros c s; [done|]. cbn [drain].
  rewrite (dev_push _ _ Hdev). destruct (proc s) as [d s']. cbn [fst snd].
  case_match; [done|]. rewrite IH. by destruct (drain fuel proc s').
Qed.

Lemma drain_ring fuel s : ring (snd (drain fuel proc s)) = ring s.
Proof using Hdev.
  revert s. induction fuel as [|fuel IH]; intros s; [done|]. cbn [drain].
  rewrite <- (dev_ring _ _ Hdev s). destruct (proc s) as [d s']. cbn [fst snd].
  case_match; [done|]. rewrite <- (IH s'). by destruct (drain fuel proc s').
Qed.

(** The interrupt loop terminates, and stores what the device had, in order. *)
Lemma cons_intr_drain fuel s :
  (queue s < fuel)%nat →
  cons_intr fuel proc s =
    Some (push_all (fst (drain fuel proc s)) (snd (drain fuel proc s))).
Proof using Hdev.
  revert s. induction fuel as [|fuel IH]; intros s Hq; [lia|]. cbn [cons_intr drain].
  pose proof (dev_reads _ _ Hdev s) as Hr. destruct (proc s) as [c s'] eqn:Hp. cbn [fst snd] in Hr.
  destruct (Z.eqb_spec c (-1)); [done|]. specialize (Hr ltac:(done)).
  destruct (drain fuel proc s') as [l s2] eqn:Hd. destruct (Z.eqb_spec c 0).
  - rewrite IH by lia. by rewrite Hd.
  - rewrite IH by (rewrite (dev_queue _ _ Hdev); lia). by rewrite drain_push, Hd.
Qed.
End interrupt.

Lemma ring_pending s s' : ring s' = ring s → pending s' = pending s.
Proof. unfold ring, pending. by intros [= -> -> -> _]. Qed.

Lemma ring_cons_ok s s' : ring s' = ring s → cons_ok s → cons_ok s'.
Proof. unfold ring. intros [= _ Hr Hw Hp] [? ? ?]. constructor; congruence. Qed.

Lemma push_all_ok l s : cons_ok s → cons_ok (push_all l s).
Proof. revert s. induction l as [|c l IH]; intros s H; [done|]. apply IH, cons_push_ok, H. Qed.

Lemma pending_push_all l s :
  cons_ok s → Z.of_nat (length (pending s ++ l)) < CONSBUFSIZE →
  pending (push_all l s) = pending s ++ (u8 <$> l).
Proof.
  revert s. induction l as [|c l IH]; intros s Hok Hlen; [by rewrite app_nil_r|].
  rewrite length_app in Hlen. cbn [length] in Hlen.
  change (push_all (c :: l) s) with (push_all l (cons_push c s)).
  rewrite IH; [| by apply cons_push_ok |].
  - rewrite pending_push by (done || lia). by rewrite <- app_assoc.
  - rewrite pending_push by (done || lia). rewrite !length_app. cbn [length]. lia.
Qed.

Lemma intr_pending proc queue s s' l :
  device proc queue → cons_ok s → drain (S (queue s)) proc s = (l, s') →
  Z.of_nat (length (pending s ++ l)) < CONSBUFSIZE →
  ∃ s2, cons_intr (S (queue s)) proc s = Some s2 ∧ s2 = push_all l s' ∧ cons_ok s2 ∧
    pending s2 = pending s ++ (u8 <$> l).
Proof.
  intros Hdev Hok Hd Hlen. eexists. rewrite (cons_intr_drain _ _ Hdev) by lia.
  rewrite Hd. cbn [fst snd]. split; [done|]. split; [done|].
  pose proof (drain_ring _ _ Hdev (S (queue s)) s) as Hr. rewrite Hd in Hr. cbn [snd] in Hr.
  rewrite <- (ring_pending _ _ Hr) in *. apply (ring_cons_ok _ _ Hr) in Hok.
  split; [by apply push_all_ok|by apply pending_push_all].
Qed.

Lemma pending_pop s :
  cons_ok s →
  fst (cons_pop s) = default 0 (head (pending s)) ∧
  pending (snd (cons_pop s)) = tail (pending s) ∧ cons_ok (snd (cons_pop s)).
Proof.
  intros [Hp Hr Hw]. unfold cons_pop. unfold pending at 1 3. unfold CONSBUFSIZE in *.
  destruct (Z.eqb_spec (cons_rpos s) (cons_wpos s)) as [E|E].
  - rewrite E, Z.sub_diag, Z.mod_0_l, seqZ_nil by lia. split_and!; [done| |by constructor].
    unfold pending, CONSBUFSIZE. cbn [snd]. by rewrite E, Z.sub_diag, Z.mod_0_l, seqZ_nil by lia.
  - set (n := (cons_wpos s - cons_rpos s) mod 512).
    assert (Hn : 0 < n) by (unfold n; Z.to_euclidean_division_equations; lia).
    rewrite (seqZ_cons 0 n) by lia. cbn [fmap list_fmap head tail default fst snd].
    rewrite u32_small by lia. split_and!.
    + by rewrite Z.add_0_r, Z.mod_small by lia.
    + set (r' := if _ =? _ then _ else _).
      assert (Hr' : r' = (cons_rpos s + 1) mod 512) by
        (unfold r'; case_match; Z.to_euclidean_division_equations; lia).
      unfold pending. cbn [cons_buf cons_rpos cons_wpos set_cons_rpos]. rewrite Hr'.
      unfold CONSBUFSIZE.
      replace ((cons_wpos s - (cons_rpos s + 1) mod 512) mod 512) with (Z.pred n)
        by (unfold n; Z.to_euclidean_division_equations; lia).
      change (Z.succ 0) with (1 + 0). rewrite <- fmap_add_seqZ, <- list_fmap_compose.
      apply list_fmap_ext. intros i k Hk. unfold compose. f_equal.
      Z.to_euclidean_division_equations; lia.
    + constructor; cbn [crt_pos cons_rpos cons_wpos set_cons_rpos]; [done| |done].
      unfold CONSBUFSIZE. case_match; lia.
Qed.

Lemma drain_serial s :
  Forall is_u8 (serial_in s) →
  drain (S (length (serial_in s))) serial_proc_data s =
    (filter (λ c, c ≠ 0) (serial_in s), set_serial_in [] s).
Proof.
  remember (serial_in s) as q eqn:Hq. revert s Hq. induction q as [|c q IH]; intros s Hq Hall.
  - cbn [length drain]. unfold serial_proc_data at 1. rewrite <- Hq. destruct s; simpl in *; by subst.
  - apply Forall_cons in Hall as [Hc Hall]. cbn [length]. cbn [drain].
    unfold serial_proc_data at 1. rewrite <- Hq.
    destruct (Z.eqb_spec c (-1)); [unfold is_u8 in Hc; lia|].
    specialize (IH (set_serial_in q s) eq_refl Hall). cbn [drain] in IH. rewrite IH.
    destruct (Z.eqb_spec c 0) as [->|].
    + by rewrite filter_cons_False by auto.
    + by rewrite filter_cons_True by done.
Qed.

(** [cons_getc] serves its input first in, first out: what was waiting,
    then what the serial port has, then what the keyboard has; it returns 0
    exactly when there is nothing.  (511 characters fit in the buffer.) *)
Theorem cons_getc_fifo s l1 s1 l2 s2 :
  cons_ok s →
  (if serial_exists s then drain (S (length (serial_in s))) serial_proc_data s else ([], s)) = (l1, s1) →
  drain (S (length (kbd_in s1))) kbd_proc_data s1 = (l2, s2) →
  Z.of_nat (length (pending s ++ l1 ++ l2)) < CONSBUFSIZE →
  let q := pending s ++ (u8 <$> l1 ++ l2) in
  ∃ s', cons_getc s = Some (default 0 (head q), s') ∧ pending s' = tail q ∧ cons_ok s'.
Proof.
  intros Hok Hd1 Hd2 Hlen q. rewrite !length_app in Hlen.
  assert (H1 : ∃ t, serial_intr s = Some t ∧ cons_ok t ∧ pending t = pending s ++ (u8 <$> l1) ∧
    t = push_all l1 s1).
  { unfold serial_intr. destruct (serial_exists s).
    - destruct (intr_pending _ _ s s1 l1 serial_device Hok Hd1) as (t & ? & ? & ? & ?);
        [rewrite length_app; lia|]. eauto.
    - injection Hd1 as <- <-. exists s. by rewrite app_nil_r. }
  destruct H1 as (t & Ht & Hokt & Hpt & ->).
  assert (Hd2' : drain (S (length (kbd_in (push_all l1 s1)))) kbd_proc_data (push_all l1 s1)
    = (l2, push_all l1 s2)).
  { clear -Hd2. revert s1 s2 Hd2. induction l1 as [|c l1 IH]; intros s1 s2 Hd2; [done|].
    change (push_all (c :: l1) ?s) with (push_all l1 (cons_push c s)). apply IH.
    change (kbd_in (cons_push c s1)) with (kbd_in s1).
    rewrite (drain_push _ _ kbd_device), Hd2. done. }
  destruct (intr_pending _ _ _ _ l2 kbd_device Hokt Hd2') as (u & Hu & _ & Hoku & Hpu).
  { rewrite Hpt, !length_app, length_fmap. lia. }
  unfold cons_getc. rewrite Ht. cbn [mbind option_bind]. unfold kbd_intr. rewrite Hu.
  cbn [mbind option_bind]. destruct (pending_pop u Hoku) as (Hf & Hpend & Hok').
  assert (Hq : pending u = q) by (unfold q; by rewrite Hpu, Hpt, <- app_assoc, <- fmap_app).
  rewrite Hq in Hf, Hpend. exists (snd (cons_pop u)). rewrite <- Hf. by destruct (cons_pop u).
Qed.

(** ** The keyboard decoder *)

(** All modifier states and all data bytes. *)
Definition all_keys : list (Z * Z) := sh ← seqZ 0 128; (λ d, (sh, d)) <$> seqZ 0 256.

Lemma all_keys_spec (P : Z → Z → bool) :
  forallb (λ p, P p.1 p.2) all_keys = true →
  ∀ sh d, 0 <= sh < 128 → 0 <= d < 256 → P sh d = true.
Proof.
  intros H sh d Hsh Hd. rewrite forallb_forall in H. apply (H (sh, d)).
  apply list_elem_of_In. unfold all_keys. apply list_elem_of_bind. exists sh.
  split; [|apply elem_of_seqZ; lia]. apply list_elem_of_fmap. exists d.
  split; [done|apply elem_of_seqZ; lia].
Qed.

(** The decoder stays within its tables: the modifier state remains seven
    bits wide and the character is a byte; pressing a key (or the second byte
    of an extended key) and releasing it leaves no escape pending and the
    key's modifier off, and changes no other held modifier. *)
Theorem kbd_decode_correct sh d :
  0 <= sh < 128 → 0 <= d < 128 →
  let '(sh1, c) := kbd_decode sh d in
  let '(sh2, c2) := kbd_decode (Z.lor sh1 (Z.land sh E0ESC)) (Z.lor d 0x80) in
  let key := if Z.land sh E0ESC =? 0 then d else Z.lor d 0x80 in
  0 <= sh1 < 128 ∧ 0 <= c < 256 ∧ Z.land sh1 E0ESC = 0 ∧
  (d ≠ 0x60 → c2 = 0 ∧
     sh2 = Z.lxor (Z.land sh (Z.lnot (Z.lor (shiftcode key) E0ESC))) (togglecode key)).
Proof.
  intros Hsh Hd.
  pose (P := λ sh d,
    (128 <=? d) ||
    let '(sh1, c) := kbd_decode sh d in
    let '(sh2, c2) := kbd_decode (Z.lor sh1 (Z.land sh E0ESC)) (Z.lor d 0x80) in
    let key := if Z.land sh E0ESC =? 0 then d else Z.lor d 0x80 in
    (0 <=? sh1) && (sh1 <? 128) && (0 <=? c) && (c <? 256) && (Z.land sh1 E0ESC =? 0) &&
    ((d =? 0x60) || ((c2 =? 0) &&
      (sh2 =? Z.lxor (Z.land sh (Z.lnot (Z.lor (shiftcode key) E0ESC))) (togglecode key))))).
  assert (HP : P sh d = true) by (apply all_keys_spec; [vm_compute; reflexivity|lia|lia]).
  unfold P in HP. destruct (Z.leb_spec 128 d); [lia|]. cbn [orb] in HP.
  destruct (kbd_decode sh d) as [sh1 c]. destruct (kbd_decode _ _) as [sh2 c2].
  rewrite !andb_true_iff, orb_true_iff, andb_true_iff, !Z.leb_le, !Z.ltb_lt, !Z.eqb_eq in HP.
  split_and!; tauto || lia.
Qed.

(** ** Witnesses *)

(** A console with input waiting in both devices: "h", a NUL and "i" on the
    serial line, and the press and release of the A key. *)
Definition console_demo : console :=
  mkConsole true [104; 0; 105] [] [] (λ _, 0) 1999 0 [(1, 0x1E); (1, 0x9E)] 0 false (λ _, 0) 511 511.

Lemma cons_putc_correct_witness :
  putc_spec console_demo (cons_putc 9 console_demo) (expand 9) ∧ crt_pos (cons_putc 9 console_demo) = 1924.
Proof.
  split; [|vm_compute; reflexivity].
  apply (cons_putc_correct 9 console_demo). split; vm_compute; congruence.
Defined.

Lemma cons_getc_fifo_witness :
  ∃ s', cons_getc console_demo = Some (104, s') ∧ pending s' = [105; 97] ∧ cons_ok s'.
Proof.
  eapply (cons_getc_fifo console_demo [104; 105] (set_serial_in [] console_demo) [97]).
  - repeat split; vm_compute; congruence.
  - vm_compute. reflexivity.
  - vm_compute. reflexivity.
  - vm_compute. reflexivity.
Defined.

Lemma kbd_decode_correct_witness :
  kbd_decode SHIFT 0x1E = (SHIFT, 65) ∧ 0 <= 65 < 256.
Proof.
  split; [vm_compute; reflexivity|].
  pose proof (kbd_decode_correct SHIFT 0x1E ltac:(vm_compute; split; congruence)
    ltac:(vm_compute; split; congruence)) as H.
  vm_compute in H. vm_compute. tauto.
Defined.
