(* ===== verification/KState.v ===== *)
(** * The kernel's state

    The data the kernel keeps: physical memory ([mem], a byte per physical
    address), the page descriptors of [inc/memlayout.h], the environments of
    [inc/env.h] with their trap frames ([inc/trap.h]), the per-CPU records of
    [kern/cpu.h], the big kernel lock and the static variables of [pmap.c],
    [env.c] and [time.c].  A [struct PageInfo *] or [struct Env *] is the
    index into the array it points into; a kernel virtual address is a [Z].

    [K A] is a kernel computation: it returns an [A], or leaves the kernel
    (panics, switches to an environment, halts, drops into the monitor), or
    does something C leaves undefined ([Undefined]: a null or wild pointer, an
    index outside an array). *)

From S2P Require Import Prelude Mmu Console.
Open Scope Z_scope.

(** ** Physical memory, little-endian words *)

Definition memory : Type := Z → Z.

Definition st8 (m : memory) (a v : Z) : memory := λ x, if x =? a then u8 v else m x.

Definition ld32 (m : memory) (a : Z) : Z :=
  m a + m (a + 1) * 2 ^ 8 + m (a + 2) * 2 ^ 16 + m (a + 3) * 2 ^ 24.

Definition st32 (m : memory) (a v : Z) : memory :=
  st8 (st8 (st8 (st8 m a v) (a + 1) (Z.shiftr v 8)) (a + 2) (Z.shiftr v 16))
      (a + 3) (Z.shiftr v 24).

(** The effect of [memset(a, c, n)] and [memcpy(d, s, n)] on memory. *)
Definition mem_set (m : memory) (a c n : Z) : memory :=
  λ x, if (a <=? x) && (x <? a + n) then u8 c else m x.

Definition mem_copy (m : memory) (d s n : Z) : memory :=
  λ x, if (d <=? x) && (x <? d + n) then m (s + (x - d)) else m x.

(** Every byte is a byte. *)
Definition mem_ok (m : memory) : Prop := ∀ a, is_u8 (m a).

Lemma st8_ok m a v : mem_ok m → mem_ok (st8 m a v).
Proof. intros H x. unfold st8. destruct (x =? a); [apply u8_range|apply H]. Qed.

Lemma st8_same m a v : st8 m a v a = u8 v.
Proof. unfold st8. by rewrite Z.eqb_refl. Qed.

Lemma st8_byte m a v : is_u8 v → st8 m a v a = v.
Proof. intros H. rewrite st8_same. by apply u8_small. Qed.

Lemma st8_other m a v x : x ≠ a → st8 m a v x = m x.
Proof. intros H. unfold st8. by destruct (Z.eqb_spec x a). Qed.

Lemma st32_ok m a v : mem_ok m → mem_ok (st32 m a v).
Proof. intros; unfold st32; by repeat apply st8_ok. Qed.

Lemma mem_set_ok m a c n : mem_ok m → mem_ok (mem_set m a c n).
Proof. intros H x. unfold mem_set. destruct (_ && _); [apply u8_range|apply H]. Qed.

Lemma mem_copy_ok m d s n : mem_ok m → mem_ok (mem_copy m d s n).
Proof. intros H x. unfold mem_copy. destruct (_ && _); apply H. Qed.

Lemma ld32_range m a : mem_ok m → is_u32 (ld32 m a).
Proof.
  intros H. pose proof (H a); pose proof (H (a + 1)); pose proof (H (a + 2)); pose proof (H (a + 3)).
  unfold is_u8, is_u32, ld32 in *. lia.
Qed.

Lemma st32_same_byte m a v i :
  0 <= i < 4 → st32 m a v (a + i) = u8 (Z.shiftr v (8 * i)).
Proof.
  intros Hi. assert (i = 0 ∨ i = 1 ∨ i = 2 ∨ i = 3) as [->|[->|[->| ->]]] by lia;
    unfold st32, st8; repeat (case_match; try lia); try (f_equal; lia).
Qed.

Lemma st32_other_byte m a v x : x < a ∨ a + 4 <= x → st32 m a v x = m x.
Proof. intros; unfold st32, st8; repeat (case_match; try lia). Qed.

Lemma ld32_byte m a k : mem_ok m → 0 <= k < 4 → u8 (Z.shiftr (ld32 m a) (8 * k)) = m (a + k).
Proof.
  intros Hm Hk. unfold ld32, u8. pose proof (Hm a). pose proof (Hm (a + 1)). pose proof (Hm (a + 2)). pose proof (Hm (a + 3)).
  unfold is_u8 in *. rewrite Z.shiftr_div_pow2 by lia.
  assert (k = 0 ∨ k = 1 ∨ k = 2 ∨ k = 3) as [->|[->|[->| ->]]] by lia; rewrite ?Z.add_0_r; Z.to_euclidean_division_equations; lia.
Qed.

Lemma ld32_st32_same m a v : is_u32 v → ld32 (st32 m a v) a = v.
Proof.
  unfold is_u32. intros Hv. unfold ld32.
  replace (st32 m a v a) with (st32 m a v (a + 0)) by (f_equal; lia).
  rewrite !st32_same_byte by lia. unfold u8.
  rewrite !Z.shiftr_div_pow2 by lia.
  change (2 ^ (8 * 0)) with 1. change (2 ^ (8 * 1)) with 256.
  change (2 ^ (8 * 2)) with 65536. change (2 ^ (8 * 3)) with 16777216.
  change (2 ^ 8) with 256. change (2 ^ 16) with 65536. change (2 ^ 24) with 16777216.
  change (2 ^ 32) with 4294967296 in Hv.
  Z.to_euclidean_division_equations. lia.
Qed.

Lemma ld32_ext m m' a : (∀ i, 0 <= i < 4 → m (a + i) = m' (a + i)) → ld32 m a = ld32 m' a.
Proof.
  intros H. unfold ld32. rewrite <- (H 1), <- (H 2), <- (H 3) by lia.
  replace (m a) with (m (a + 0)) by (f_equal; lia).
  replace (m' a) with (m' (a + 0)) by (f_equal; lia).
  by rewrite H by lia.
Qed.

Lemma ld32_st32_other m a b v : b + 4 <= a ∨ a + 4 <= b → ld32 (st32 m a v) b = ld32 m b.
Proof. intros; apply ld32_ext; intros; apply st32_other_byte; lia. Qed.

Lemma mem_set_in m a c n x : a <= x < a + n → mem_set m a c n x = u8 c.
Proof. intros; unfold mem_set. by replace ((a <=? x) && (x <? a + n)) with true by lia. Qed.

Lemma mem_set_out m a c n x : x < a ∨ a + n <= x → mem_set m a c n x = m x.
Proof. intros; unfold mem_set. by replace ((a <=? x) && (x <? a + n)) with false by lia. Qed.

Lemma ld32_mem_set_out m a c n b : b + 4 <= a ∨ a + n <= b → ld32 (mem_set m a c n) b = ld32 m b.
Proof. intros; apply ld32_ext; intros; apply mem_set_out; lia. Qed.

Lemma ld32_mem_set_in m a n b : a <= b → b + 4 <= a + n → ld32 (mem_set m a 0 n) b = 0.
Proof. intros. unfold ld32. by rewrite !mem_set_in by lia. Qed.

Lemma mem_copy_in m d s n x : d <= x < d + n → mem_copy m d s n x = m (s + (x - d)).
Proof. intros; unfold mem_copy. by replace ((d <=? x) && (x <? d + n)) with true by lia. Qed.

Lemma mem_copy_out m d s n x : x < d ∨ d + n <= x → mem_copy m d s n x = m x.
Proof. intros; unfold mem_copy. by replace ((d <=? x) && (x <? d + n)) with false by lia. Qed.

Lemma ld32_mem_copy_in m d s n b :
  d <= b → b + 4 <= d + n → ld32 (mem_copy m d s n) b = ld32 m (s + (b - d)).
Proof. intros. unfold ld32. rewrite !mem_copy_in by lia. repeat (f_equal; try lia). Qed.

Lemma ld32_mem_copy_out m d s n b :
  b + 4 <= d ∨ d + n <= b → ld32 (mem_copy m d s n) b = ld32 m b.
Proof. intros; apply ld32_ext; intros; apply mem_copy_out; lia. Qed.

#[global] Arguments ld32 : simpl never.
#[global] Arguments st32 : simpl never.
#[global] Arguments mem_set : simpl never.
#[global] Arguments mem_copy : simpl never.

(** ** [struct PageInfo] *)

Record PageInfo : Type := mkPageInfo {
  pp_link : option Z;      (** next page on the free list *)
  pp_ref : Z;              (** [uint16_t] *)
}.

(** ** [struct PushRegs], [struct Trapframe] *)

Record PushRegs : Type := mkPushRegs {
  reg_edi : Z; reg_esi : Z; reg_ebp : Z; reg_oesp : Z;
  reg_ebx : Z; reg_edx : Z; reg_ecx : Z; reg_eax : Z;
}.

Record Trapframe : Type := mkTrapframe {
  tf_regs : PushRegs;
  tf_es : Z; tf_ds : Z; tf_trapno : Z; tf_err : Z; tf_eip : Z;
  tf_cs : Z; tf_eflags : Z; tf_esp : Z; tf_ss : Z;
}.

Definition regs_zero : PushRegs := mkPushRegs 0 0 0 0 0 0 0 0.
Definition tf_zero : Trapframe := mkTrapframe regs_zero 0 0 0 0 0 0 0 0 0.

Definition set_reg_eax (v : Z) (r : PushRegs) : PushRegs :=
  mkPushRegs (reg_edi r) (reg_esi r) (reg_ebp r) (reg_oesp r) (reg_ebx r) (reg_edx r) (reg_ecx r) v.
Definition set_tf_regs (r : PushRegs) (t : Trapframe) : Trapframe :=
  mkTrapframe r (tf_es t) (tf_ds t) (tf_trapno t) (tf_err t) (tf_eip t) (tf_cs t) (tf_eflags t) (tf_esp t) (tf_ss t).
Definition set_tf_es (v : Z) (t : Trapframe) : Trapframe :=
  mkTrapframe (tf_regs t) v (tf_ds t) (tf_trapno t) (tf_err t) (tf_eip t) (tf_cs t) (tf_eflags t) (tf_esp t) (tf_ss t).
Definition set_tf_ds (v : Z) (t : Trapframe) : Trapframe :=
  mkTrapframe (tf_regs t) (tf_es t) v (tf_trapno t) (tf_err t) (tf_eip t) (tf_cs t) (tf_eflags t) (tf_esp t) (tf_ss t).
Definition set_tf_eip (v : Z) (t : Trapframe) : Trapframe :=
  mkTrapframe (tf_regs t) (tf_es t) (tf_ds t) (tf_trapno t) (tf_err t) v (tf_cs t) (tf_eflags t) (tf_esp t) (tf_ss t).
Definition set_tf_cs (v : Z) (t : Trapframe) : Trapframe :=
  mkTrapframe (tf_regs t) (tf_es t) (tf_ds t) (tf_trapno t) (tf_err t) (tf_eip t) v (tf_eflags t) (tf_esp t) (tf_ss t).
Definition set_tf_eflags (v : Z) (t : Trapframe) : Trapframe :=
  mkTrapframe (tf_regs t) (tf_es t) (tf_ds t) (tf_trapno t) (tf_err t) (tf_eip t) (tf_cs t) v (tf_esp t) (tf_ss t).
Definition set_tf_esp (v : Z) (t : Trapframe) : Trapframe :=
  mkTrapframe (tf_regs t) (tf_es t) (tf_ds t) (tf_trapno t) (tf_err t) (tf_eip t) (tf_cs t) (tf_eflags t) v (tf_ss t).
Definition set_tf_ss (v : Z) (t : Trapframe) : Trapframe :=
  mkTrapframe (tf_regs t) (tf_es t) (tf_ds t) (tf_trapno t) (tf_err t) (tf_eip t) (tf_cs t) (tf_eflags t) (tf_esp t) v.

(** ** [struct Env] *)

Inductive EnvType : Type := ENV_TYPE_USER | ENV_TYPE_FS | ENV_TYPE_NS.

Inductive EnvStatus : Type :=
  | ENV_FREE | ENV_DYING | ENV_RUNNABLE | ENV_RUNNING | ENV_NOT_RUNNABLE.

#[export] Instance EnvType_eq_dec : EqDecision EnvType.
Proof. solve_decision. Defined.
#[export] Instance EnvStatus_eq_dec : EqDecision EnvStatus.
Proof. solve_decision. Defined.

Definition LOG2NENV : Z := 10.
Definition NENV : Z := Z.shiftl 1 LOG2NENV.
Definition ENVX (envid : Z) : Z := Z.land envid (NENV - 1).

Record Env : Type := mkEnv {
  env_tf : Trapframe;
  env_link : option Z;   (** next free [Env] *)
  env_id : Z;   (** [envid_t], an [int32_t] *)
  env_parent_id : Z;
  env_type : EnvType;
  env_status : EnvStatus;
  env_runs : Z;   (** [uint32_t] *)
  env_cpunum : Z;
  env_pgdir : Z;   (** kernel virtual address, 0 for [NULL] *)
  env_pgfault_upcall : Z;
  env_ipc_recving : bool;
  env_ipc_dstva : Z;
  env_ipc_value : Z;
  env_ipc_from : Z;
  env_ipc_perm : Z;
  env_break : Z;
}.

Definition set_env_tf (v : Trapframe) (r : Env) : Env :=
  mkEnv v (env_link r) (env_id r) (env_parent_id r) (env_type r) (env_status r) (env_runs r)
    (env_cpunum r) (env_pgdir r) (env_pgfault_upcall r) (env_ipc_recving r) (env_ipc_dstva r)
    (env_ipc_value r) (env_ipc_from r) (env_ipc_perm r) (env_break r).
Definition set_env_link (v : option Z) (r : Env) : Env :=
  mkEnv (env_tf r) v (env_id r) (env_parent_id r) (env_type r) (env_status r) (env_runs r)
    (env_cpunum r) (env_pgdir r) (env_pgfault_upcall r) (env_ipc_recving r) (env_ipc_dstva r)
    (env_ipc_value r) (env_ipc_from r) (env_ipc_perm r) (env_break r).
Definition set_env_id (v : Z) (r : Env) : Env :=
  mkEnv (env_tf r) (env_link r) v (env_parent_id r) (env_type r) (env_status r) (env_runs r)
    (env_cpunum r) (env_pgdir r) (env_pgfault_upcall r) (env_ipc_recving r) (env_ipc_dstva r)
    (env_ipc_value r) (env_ipc_from r) (env_ipc_perm r) (env_break r).
Definition set_env_parent_id (v : Z) (r : Env) : Env :=
  mkEnv (env_tf r) (env_link r) (env_id r) v (env_type r) (env_status r) (env_runs r)
    (env_cpunum r) (env_pgdir r) (env_pgfault_upcall r) (env_ipc_recving r) (env_ipc_dstva r)
    (env_ipc_value r) (env_ipc_from r) (env_ipc_perm r) (env_break r).
Definition set_env_type (v : EnvType) (r : Env) : Env :=
  mkEnv (env_tf r) (env_link r) (env_id r) (env_parent_id r) v (env_status r) (env_runs r)
    (env_cpunum r) (env_pgdir r) (env_pgfault_upcall r) (env_ipc_recving r) (env_ipc_dstva r)
    (env_ipc_value r) (env_ipc_from r) (env_ipc_perm r) (env_break r).
Definition set_env_status (v : EnvStatus) (r : Env) : Env :=
  mkEnv (env_tf r) (env_link r) (env_id r) (env_parent_id r) (env_type r) v (env_runs r)
    (env_cpunum r) (env_pgdir r) (env_pgfault_upcall r) (env_ipc_recving r) (env_ipc_dstva r)
    (env_ipc_value r) (env_ipc_from r) (env_ipc_perm r) (env_break r).
Definition set_env_runs (v : Z) (r : Env) : Env :=
  mkEnv (env_tf r) (env_link r) (env_id r) (env_parent_id r) (env_type r) (env_status r) v
    (env_cpunum r) (env_pgdir r) (env_pgfault_upcall r) (env_ipc_recving r) (env_ipc_dstva r)
    (env_ipc_value r) (env_ipc_from r) (env_ipc_perm r) (env_break r).
Definition set_env_cpunum (v : Z) (r : Env) : Env :=
  mkEnv (env_tf r) (env_link r) (env_id r) (env_parent_id r) (env_type r) (env_status r)
    (env_runs r) v (env_pgdir r) (env_pgfault_upcall r) (env_ipc_recving r) (env_ipc_dstva r)
    (env_ipc_value r) (env_ipc_from r) (env_ipc_perm r) (env_break r).
Definition set_env_pgdir (v : Z) (r : Env) : Env :=
  mkEnv (env_tf r) (env_link r) (env_id r) (env_parent_id r) (env_type r) (env_status r)
    (env_runs r) (env_cpunum r) v (env_pgfault_upcall r) (env_ipc_recving r) (env_ipc_dstva r)
    (env_ipc_value r) (env_ipc_from r) (env_ipc_perm r) (env_break r).
Definition set_env_pgfault_upcall (v : Z) (r : Env) : Env :=
  mkEnv (env_tf r) (env_link r) (env_id r) (env_parent_id r) (env_type r) (env_status r)
    (env_runs r) (env_cpunum r) (env_pgdir r) v (env_ipc_recving r) (env_ipc_dstva r)
    (env_ipc_value r) (env_ipc_from r) (env_ipc_perm r) (env_break r).
Definition set_env_ipc_recving (v : bool) (r : Env) : Env :=
  mkEnv (env_tf r) (env_link r) (env_id r) (env_parent_id r) (env_type r) (env_status r)
    (env_runs r) (env_cpunum r) (env_pgdir r) (env_pgfault_upcall r) v (env_ipc_dstva r)
    (env_ipc_value r) (env_ipc_from r) (env_ipc_perm r) (env_break r).
Definition set_env_ipc_dstva (v : Z) (r : Env) : Env :=
  mkEnv (env_tf r) (env_link r) (env_id r) (env_parent_id r) (env_type r) (env_status r)
    (env_runs r) (env_cpunum r) (env_pgdir r) (env_pgfault_upcall r) (env_ipc_recving r) v
    (env_ipc_value r) (env_ipc_from r) (env_ipc_perm r) (env_break r).
Definition set_env_ipc_value (v : Z) (r : Env) : Env :=
  mkEnv (env_tf r) (env_link r) (env_id r) (env_parent_id r) (env_type r) (env_status r)
    (env_runs r) (env_cpunum r) (env_pgdir r) (env_pgfault_upcall r) (env_ipc_recving r)
    (env_ipc_dstva r) v (env_ipc_from r) (env_ipc_perm r) (env_break r).
Definition set_env_ipc_from (v : Z) (r : Env) : Env :=
  mkEnv (env_tf r) (env_link r) (env_id r) (env_parent_id r) (env_type r) (env_status r)
    (env_runs r) (env_cpunum r) (env_pgdir r) (env_pgfault_upcall r) (env_ipc_recving r)
    (env_ipc_dstva r) (env_ipc_value r) v (env_ipc_perm r) (env_break r).
Definition set_env_ipc_perm (v : Z) (r : Env) : Env :=
  mkEnv (env_tf r) (env_link r) (env_id r) (env_parent_id r) (env_type r) (env_status r)
    (env_runs r) (env_cpunum r) (env_pgdir r) (env_pgfault_upcall r) (env_ipc_recving r)
    (env_ipc_dstva r) (env_ipc_value r) (env_ipc_from r) v (env_break r).
Definition set_env_break (v : Z) (r : Env) : Env :=
  mkEnv (env_tf r) (env_link r) (env_id r) (env_parent_id r) (env_type r) (env_status r)
    (env_runs r) (env_cpunum r) (env_pgdir r) (env_pgfault_upcall r) (env_ipc_recving r)
    (env_ipc_dstva r) (env_ipc_value r) (env_ipc_from r) (env_ipc_perm r) v.

(** ** [struct CpuInfo] and the big kernel lock *)

Inductive CpuStatus : Type := CPU_UNUSED | CPU_STARTED | CPU_HALTED.

#[export] Instance CpuStatus_eq_dec : EqDecision CpuStatus.
Proof. solve_decision. Defined.

Definition NCPU : Z := 8.

Record CpuInfo : Type := mkCpuInfo {
  cpu_id : Z;
  cpu_status : CpuStatus;
  cpu_env : option Z;   (** the running environment: [curenv] of that CPU *)
  cpu_ts_esp0 : Z;
}.

Definition set_cpu_id (v : Z) (r : CpuInfo) : CpuInfo :=
  mkCpuInfo v (cpu_status r) (cpu_env r) (cpu_ts_esp0 r).
Definition set_cpu_status (v : CpuStatus) (r : CpuInfo) : CpuInfo :=
  mkCpuInfo (cpu_id r) v (cpu_env r) (cpu_ts_esp0 r).
Definition set_cpu_env (v : option Z) (r : CpuInfo) : CpuInfo :=
  mkCpuInfo (cpu_id r) (cpu_status r) v (cpu_ts_esp0 r).
Definition set_cpu_ts_esp0 (v : Z) (r : CpuInfo) : CpuInfo :=
  mkCpuInfo (cpu_id r) (cpu_status r) (cpu_env r) v.

(** [struct spinlock] of [kern/spinlock.h] (built with [DEBUG_SPINLOCK]): the
    flag and the CPU holding it.  The name and the recorded call stack are for
    messages only. *)
Record spinlock : Type := mkSpinlock {
  lk_locked : Z;
  lk_cpu : option Z;
}.

Definition set_lk_locked (v : Z) (r : spinlock) : spinlock :=
  mkSpinlock v (lk_cpu r).
Definition set_lk_cpu (v : option Z) (r : spinlock) : spinlock :=
  mkSpinlock (lk_locked r) v.

(** ** The network card's registers

    [struct E1000] of [kern/e1000.h], the registers the driver uses. *)

Record E1000 : Type := mkE1000 {
  RCTL : Z;
  TCTL : Z;
  TIPG : Z;
  RDBAL : Z;
  RDBAH : Z;
  RDLEN : Z;
  RDH : Z;
  RDT : Z;
  TDBAL : Z;
  TDBAH : Z;
  TDLEN : Z;
  TDH : Z;
  TDT : Z;
  RAL : Z;
  RAH : Z;
}.

Definition set_RCTL (v : Z) (r : E1000) : E1000 :=
  mkE1000 v (TCTL r) (TIPG r) (RDBAL r) (RDBAH r) (RDLEN r) (RDH r) (RDT r) (TDBAL r) (TDBAH r)
    (TDLEN r) (TDH r) (TDT r) (RAL r) (RAH r).
Definition set_TCTL (v : Z) (r : E1000) : E1000 :=
  mkE1000 (RCTL r) v (TIPG r) (RDBAL r) (RDBAH r) (RDLEN r) (RDH r) (RDT r) (TDBAL r) (TDBAH r)
    (TDLEN r) (TDH r) (TDT r) (RAL r) (RAH r).
Definition set_TIPG (v : Z) (r : E1000) : E1000 :=
  mkE1000 (RCTL r) (TCTL r) v (RDBAL r) (RDBAH r) (RDLEN r) (RDH r) (RDT r) (TDBAL r) (TDBAH r)
    (TDLEN r) (TDH r) (TDT r) (RAL r) (RAH r).
Definition set_RDBAL (v : Z) (r : E1000) : E1000 :=
  mkE1000 (RCTL r) (TCTL r) (TIPG r) v (RDBAH r) (RDLEN r) (RDH r) (RDT r) (TDBAL r) (TDBAH r)
    (TDLEN r) (TDH r) (TDT r) (RAL r) (RAH r).
Definition set_RDBAH (v : Z) (r : E1000) : E1000 :=
  mkE1000 (RCTL r) (TCTL r) (TIPG r) (RDBAL r) v (RDLEN r) (RDH r) (RDT r) (TDBAL r) (TDBAH r)
    (TDLEN r) (TDH r) (TDT r) (RAL r) (RAH r).
Definition set_RDLEN (v : Z) (r : E1000) : E1000 :=
  mkE1000 (RCTL r) (TCTL r) (TIPG r) (RDBAL r) (RDBAH r) v (RDH r) (RDT r) (TDBAL r) (TDBAH r)
    (TDLEN r) (TDH r) (TDT r) (RAL r) (RAH r).
Definition set_RDH (v : Z) (r : E1000) : E1000 :=
  mkE1000 (RCTL r) (TCTL r) (TIPG r) (RDBAL r) (RDBAH r) (RDLEN r) v (RDT r) (TDBAL r) (TDBAH r)
    (TDLEN r) (TDH r) (TDT r) (RAL r) (RAH r).
Definition set_RDT (v : Z) (r : E1000) : E1000 :=
  mkE1000 (RCTL r) (TCTL r) (TIPG r) (RDBAL r) (RDBAH r) (RDLEN r) (RDH r) v (TDBAL r) (TDBAH r)
    (TDLEN r) (TDH r) (TDT r) (RAL r) (RAH r).
Definition set_TDBAL (v : Z) (r : E1000) : E1000 :=
  mkE1000 (RCTL r) (TCTL r) (TIPG r) (RDBAL r) (RDBAH r) (RDLEN r) (RDH r) (RDT r) v (TDBAH r)
    (TDLEN r) (TDH r) (TDT r) (RAL r) (RAH r).
Definition set_TDBAH (v : Z) (r : E1000) : E1000 :=
  mkE1000 (RCTL r) (TCTL r) (TIPG r) (RDBAL r) (RDBAH r) (RDLEN r) (RDH r) (RDT r) (TDBAL r) v
    (TDLEN r) (TDH r) (TDT r) (RAL r) (RAH r).
Definition set_TDLEN (v : Z) (r : E1000) : E1000 :=
  mkE1000 (RCTL r) (TCTL r) (TIPG r) (RDBAL r) (RDBAH r) (RDLEN r) (RDH r) (RDT r) (TDBAL r)
    (TDBAH r) v (TDH r) (TDT r) (RAL r) (RAH r).
Definition set_TDH (v : Z) (r : E1000) : E1000 :=
  mkE1000 (RCTL r) (TCTL r) (TIPG r) (RDBAL r) (RDBAH r) (RDLEN r) (RDH r) (RDT r) (TDBAL r)
    (TDBAH r) (TDLEN r) v (TDT r) (RAL r) (RAH r).
Definition set_TDT (v : Z) (r : E1000) : E1000 :=
  mkE1000 (RCTL r) (TCTL r) (TIPG r) (RDBAL r) (RDBAH r) (RDLEN r) (RDH r) (RDT r) (TDBAL r)
    (TDBAH r) (TDLEN r) (TDH r) v (RAL r) (RAH r).
Definition set_RAL (v : Z) (r : E1000) : E1000 :=
  mkE1000 (RCTL r) (TCTL r) (TIPG r) (RDBAL r) (RDBAH r) (RDLEN r) (RDH r) (RDT r) (TDBAL r)
    (TDBAH r) (TDLEN r) (TDH r) (TDT r) v (RAH r).
Definition set_RAH (v : Z) (r : E1000) : E1000 :=
  mkE1000 (RCTL r) (TCTL r) (TIPG r) (RDBAL r) (RDBAH r) (RDLEN r) (RDH r) (RDT r) (TDBAL r)
    (TDBAH r) (TDLEN r) (TDH r) (TDT r) (RAL r) v.

(** ** The kernel's global state *)

Record kstate : Type := mkKState {
  npages : Z;   (** amount of physical memory (in pages) *)
  npages_basemem : Z;
  nextfree : Z;   (** the static of [boot_alloc], 0 at first *)
  mmio_base : Z;   (** the static of [mmio_map_region] *)
  mem : memory;
  pages : gmap Z PageInfo;   (** the [pages] array *)
  page_free_list : option Z;
  kern_pgdir : Z;   (** kernel virtual address *)
  user_mem_check_addr : Z;   (** set by [user_mem_check] *)
  envs : gmap Z Env;
  env_free_list : option Z;
  cpus : gmap Z CpuInfo;
  cpunum : Z;   (** the CPU that is executing ([cpunum()]) *)
  kernel_lock : spinlock;
  cr3 : Z;   (** physical address of the installed page directory *)
  cr2 : Z;
  invlpgs : list Z;   (** the addresses [invlpg] was executed on, latest first *)
  ticks : Z;
  panicstr : bool;   (** some CPU has panicked *)
  kcons : console;   (** [kern/console.c] *)
  nic : E1000;   (** the registers at [base] of [kern/e1000.c] *)
  tx_descs : Z;   (** kernel virtual address *)
  rx_descs : Z;   (** kernel virtual address *)
}.

Definition set_npages (v : Z) (r : kstate) : kstate :=
  mkKState v (npages_basemem r) (nextfree r) (mmio_base r) (mem r) (pages r) (page_free_list r)
    (kern_pgdir r) (user_mem_check_addr r) (envs r) (env_free_list r) (cpus r) (cpunum r)
    (kernel_lock r) (cr3 r) (cr2 r) (invlpgs r) (ticks r) (panicstr r) (kcons r) (nic r)
    (tx_descs r) (rx_descs r).
Definition set_npages_basemem (v : Z) (r : kstate) : kstate :=
  mkKState (npages r) v (nextfree r) (mmio_base r) (mem r) (pages r) (page_free_list r)
    (kern_pgdir r) (user_mem_check_addr r) (envs r) (env_free_list r) (cpus r) (cpunum r)
    (kernel_lock r) (cr3 r) (cr2 r) (invlpgs r) (ticks r) (panicstr r) (kcons r) (nic r)
    (tx_descs r) (rx_descs r).
Definition set_nextfree (v : Z) (r : kstate) : kstate :=
  mkKState (npages r) (npages_basemem r) v (mmio_base r) (mem r) (pages r) (page_free_list r)
    (kern_pgdir r) (user_mem_check_addr r) (envs r) (env_free_list r) (cpus r) (cpunum r)
    (kernel_lock r) (cr3 r) (cr2 r) (invlpgs r) (ticks r) (panicstr r) (kcons r) (nic r)
    (tx_descs r) (rx_descs r).
Definition set_mmio_base (v : Z) (r : kstate) : kstate :=
  mkKState (npages r) (npages_basemem r) (nextfree r) v (mem r) (pages r) (page_free_list r)
    (kern_pgdir r) (user_mem_check_addr r) (envs r) (env_free_list r) (cpus r) (cpunum r)
    (kernel_lock r) (cr3 r) (cr2 r) (invlpgs r) (ticks r) (panicstr r) (kcons r) (nic r)
    (tx_descs r) (rx_descs r).
Definition set_mem (v : memory) (r : kstate) : kstate :=
  mkKState (npages r) (npages_basemem r) (nextfree r) (mmio_base r) v (pages r)
    (page_free_list r) (kern_pgdir r) (user_mem_check_addr r) (envs r) (env_free_list r)
    (cpus r) (cpunum r) (kernel_lock r) (cr3 r) (cr2 r) (invlpgs r) (ticks r) (panicstr r)
    (kcons r) (nic r) (tx_descs r) (rx_descs r).
Definition set_pages (v : gmap Z PageInfo) (r : kstate) : kstate :=
  mkKState (npages r) (npages_basemem r) (nextfree r) (mmio_base r) (mem r) v (page_free_list r)
    (kern_pgdir r) (user_mem_check_addr r) (envs r) (env_free_list r) (cpus r) (cpunum r)
    (kernel_lock r) (cr3 r) (cr2 r) (invlpgs r) (ticks r) (panicstr r) (kcons r) (nic r)
    (tx_descs r) (rx_descs r).
Definition set_page_free_list (v : option Z) (r : kstate) : kstate :=
  mkKState (npages r) (npages_basemem r) (nextfree r) (mmio_base r) (mem r) (pages r) v
    (kern_pgdir r) (user_mem_check_addr r) (envs r) (env_free_list r) (cpus r) (cpunum r)
    (kernel_lock r) (cr3 r) (cr2 r) (invlpgs r) (ticks r) (panicstr r) (kcons r) (nic r)
    (tx_descs r) (rx_descs r).
Definition set_kern_pgdir (v : Z) (r : kstate) : kstate :=
  mkKState (npages r) (npages_basemem r) (nextfree r) (mmio_base r) (mem r) (pages r)
    (page_free_list r) v (user_mem_check_addr r) (envs r) (env_free_list r) (cpus r) (cpunum r)
    (kernel_lock r) (cr3 r) (cr2 r) (invlpgs r) (ticks r) (panicstr r) (kcons r) (nic r)
    (tx_descs r) (rx_descs r).
Definition set_user_mem_check_addr (v : Z) (r : kstate) : kstate :=
  mkKState (npages r) (npages_basemem r) (nextfree r) (mmio_base r) (mem r) (pages r)
    (page_free_list r) (kern_pgdir r) v (envs r) (env_free_list r) (cpus r) (cpunum r)
    (kernel_lock r) (cr3 r) (cr2 r) (invlpgs r) (ticks r) (panicstr r) (kcons r) (nic r)
    (tx_descs r) (rx_descs r).
Definition set_envs (v : gmap Z Env) (r : kstate) : kstate :=
  mkKState (npages r) (npages_basemem r) (nextfree r) (mmio_base r) (mem r) (pages r)
    (page_free_list r) (kern_pgdir r) (user_mem_check_addr r) v (env_free_list r) (cpus r)
    (cpunum r) (kernel_lock r) (cr3 r) (cr2 r) (invlpgs r) (ticks r) (panicstr r) (kcons r)
    (nic r) (tx_descs r) (rx_descs r).
Definition set_env_free_list (v : option Z) (r : kstate) : kstate :=
  mkKState (npages r) (npages_basemem r) (nextfree r) (mmio_base r) (mem r) (pages r)
    (page_free_list r) (kern_pgdir r) (user_mem_check_addr r) (envs r) v (cpus r) (cpunum r)
    (kernel_lock r) (cr3 r) (cr2 r) (invlpgs r) (ticks r) (panicstr r) (kcons r) (nic r)
    (tx_descs r) (rx_descs r).
Definition set_cpus (v : gmap Z CpuInfo) (r : kstate) : kstate :=
  mkKState (npages r) (npages_basemem r) (nextfree r) (mmio_base r) (mem r) (pages r)
    (page_free_list r) (kern_pgdir r) (user_mem_check_addr r) (envs r) (env_free_list r) v
    (cpunum r) (kernel_lock r) (cr3 r) (cr2 r) (invlpgs r) (ticks r) (panicstr r) (kcons r)
    (nic r) (tx_descs r) (rx_descs r).
Definition set_cpunum (v : Z) (r : kstate) : kstate :=
  mkKState (npages r) (npages_basemem r) (nextfree r) (mmio_base r) (mem r) (pages r)
    (page_free_list r) (kern_pgdir r) (user_mem_check_addr r) (envs r) (env_free_list r)
    (cpus r) v (kernel_lock r) (cr3 r) (cr2 r) (invlpgs r) (ticks r) (panicstr r) (kcons r)
    (nic r) (tx_descs r) (rx_descs r).
Definition set_kernel_lock (v : spinlock) (r : kstate) : kstate :=
  mkKState (npages r) (npages_basemem r) (nextfree r) (mmio_base r) (mem r) (pages r)
    (page_free_list r) (kern_pgdir r) (user_mem_check_addr r) (envs r) (env_free_list r)
    (cpus r) (cpunum r) v (cr3 r) (cr2 r) (invlpgs r) (ticks r) (panicstr r) (kcons r) (nic r)
    (tx_descs r) (rx_descs r).
Definition set_cr3 (v : Z) (r : kstate) : kstate :=
  mkKState (npages r) (npages_basemem r) (nextfree r) (mmio_base r) (mem r) (pages r)
    (page_free_list r) (kern_pgdir r) (user_mem_check_addr r) (envs r) (env_free_list r)
    (cpus r) (cpunum r) (kernel_lock r) v (cr2 r) (invlpgs r) (ticks r) (panicstr r) (kcons r)
    (nic r) (tx_descs r) (rx_descs r).
Definition set_cr2 (v : Z) (r : kstate) : kstate :=
  mkKState (npages r) (npages_basemem r) (nextfree r) (mmio_base r) (mem r) (pages r)
    (page_free_list r) (kern_pgdir r) (user_mem_check_addr r) (envs r) (env_free_list r)
    (cpus r) (cpunum r) (kernel_lock r) (cr3 r) v (invlpgs r) (ticks r) (panicstr r) (kcons r)
    (nic r) (tx_descs r) (rx_descs r).
Definition set_invlpgs (v : list Z) (r : kstate) : kstate :=
  mkKState (npages r) (npages_basemem r) (nextfree r) (mmio_base r) (mem r) (pages r)
    (page_free_list r) (kern_pgdir r) (user_mem_check_addr r) (envs r) (env_free_list r)
    (cpus r) (cpunum r) (kernel_lock r) (cr3 r) (cr2 r) v (ticks r) (panicstr r) (kcons r)
    (nic r) (tx_descs r) (rx_descs r).
Definition set_ticks (v : Z) (r : kstate) : kstate :=
  mkKState (npages r) (npages_basemem r) (nextfree r) (mmio_base r) (mem r) (pages r)
    (page_free_list r) (kern_pgdir r) (user_mem_check_addr r) (envs r) (env_free_list r)
    (cpus r) (cpunum r) (kernel_lock r) (cr3 r) (cr2 r) (invlpgs r) v (panicstr r) (kcons r)
    (nic r) (tx_descs r) (rx_descs r).
Definition set_panicstr (v : bool) (r : kstate) : kstate :=
  mkKState (npages r) (npages_basemem r) (nextfree r) (mmio_base r) (mem r) (pages r)
    (page_free_list r) (kern_pgdir r) (user_mem_check_addr r) (envs r) (env_free_list r)
    (cpus r) (cpunum r) (kernel_lock r) (cr3 r) (cr2 r) (invlpgs r) (ticks r) v (kcons r)
    (nic r) (tx_descs r) (rx_descs r).
Definition set_kcons (v : console) (r : kstate) : kstate :=
  mkKState (npages r) (npages_basemem r) (nextfree r) (mmio_base r) (mem r) (pages r)
    (page_free_list r) (kern_pgdir r) (user_mem_check_addr r) (envs r) (env_free_list r)
    (cpus r) (cpunum r) (kernel_lock r) (cr3 r) (cr2 r) (invlpgs r) (ticks r) (panicstr r) v
    (nic r) (tx_descs r) (rx_descs r).
Definition set_nic (v : E1000) (r : kstate) : kstate :=
  mkKState (npages r) (npages_basemem r) (nextfree r) (mmio_base r) (mem r) (pages r)
    (page_free_list r) (kern_pgdir r) (user_mem_check_addr r) (envs r) (env_free_list r)
    (cpus r) (cpunum r) (kernel_lock r) (cr3 r) (cr2 r) (invlpgs r) (ticks r) (panicstr r)
    (kcons r) v (tx_descs r) (rx_descs r).
Definition set_tx_descs (v : Z) (r : kstate) : kstate :=
  mkKState (npages r) (npages_basemem r) (nextfree r) (mmio_base r) (mem r) (pages r)
    (page_free_list r) (kern_pgdir r) (user_mem_check_addr r) (envs r) (env_free_list r)
    (cpus r) (cpunum r) (kernel_lock r) (cr3 r) (cr2 r) (invlpgs r) (ticks r) (panicstr r)
    (kcons r) (nic r) v (rx_descs r).
Definition set_rx_descs (v : Z) (r : kstate) : kstate :=
  mkKState (npages r) (npages_basemem r) (nextfree r) (mmio_base r) (mem r) (pages r)
    (page_free_list r) (kern_pgdir r) (user_mem_check_addr r) (envs r) (env_free_list r)
    (cpus r) (cpunum r) (kernel_lock r) (cr3 r) (cr2 r) (invlpgs r) (ticks r) (panicstr r)
    (kcons r) (nic r) (tx_descs r) v.

(** ** Kernel computations *)

Inductive stopped : Type :=
  | Panic (msg : string)      (** [panic], a failed [assert] *)
  | Undefined                 (** undefined behaviour in C *)
  | RunEnv (e : Z)            (** [env_pop_tf]: back to user mode, in [envs[e]] *)
  | CpuHalt                   (** [sched_halt]: waiting for an interrupt *)
  | Monitor                   (** the kernel monitor's loop *)
  | PageFault (va : Z)        (** the kernel touched an unmapped address *)
  | Spinning                  (** waiting for a lock another CPU holds *)
  | OutOfFuel.

Abbreviation K := (M kstate stopped).

Definition panic {A} (msg : string) : K A := stop (Panic msg).

(** Reading a pointer: [Undefined] when it is null or outside its array. *)
Definition the {A} (o : option A) : K A :=
  match o with
  | Some a => mret a
  | None => stop Undefined
  end.

Definition get_page (pp : Z) : K PageInfo :=
  s ← gets id; the (pages s !! pp).

Definition put_page (pp : Z) (pi : PageInfo) : K unit :=
  modify (λ s, set_pages (<[pp := pi]> (pages s)) s).

(** [pp->pp_ref = r], [pp->pp_link = l] *)
Definition set_ref (pp r : Z) : K unit :=
  pi ← get_page pp; put_page pp (mkPageInfo (pp_link pi) (u16 r)).

Definition set_link (pp : Z) (l : option Z) : K unit :=
  pi ← get_page pp; put_page pp (mkPageInfo l (pp_ref pi)).

Definition get_env (e : Z) : K Env :=
  s ← gets id; the (envs s !! e).

(** Assign fields of [envs[e]]. *)
Definition upd_env (e : Z) (f : Env → Env) : K unit :=
  v ← get_env e; modify (λ s, set_envs (<[e := f v]> (envs s)) s).

(** [thiscpu], [curenv] *)
Definition thiscpu : K CpuInfo := s ← gets id; the (cpus s !! cpunum s).

Definition upd_cpu (f : CpuInfo → CpuInfo) : K unit :=
  c ← thiscpu; modify (λ s, set_cpus (<[cpunum s := f c]> (cpus s)) s).

Definition curenv_of (s : kstate) : option Z :=
  match cpus s !! cpunum s with
  | Some c => cpu_env c
  | None => None
  end.

Definition curenv : K (option Z) := gets curenv_of.
Definition set_curenv (e : option Z) : K unit := upd_cpu (set_cpu_env e).

(** Kernel memory, through the direct mapping at [KERNBASE]. *)
Definition kload32 (kva : Z) : K Z := gets (λ s, ld32 (mem s) (kva - KERNBASE)).
Definition kstore32 (kva v : Z) : K unit :=
  modify (λ s, set_mem (st32 (mem s) (kva - KERNBASE) (u32 v)) s).
Definition kmemset (kva c n : Z) : K unit :=
  modify (λ s, set_mem (mem_set (mem s) (kva - KERNBASE) c n) s).
Definition kmemcpy (d s n : Z) : K unit :=
  modify (λ st, set_mem (mem_copy (mem st) (d - KERNBASE) (s - KERNBASE) n) st).
