(* ===== verification/Demo.v ===== *)
(** * A concrete machine

    A small machine state on which the theorems about the kernel are
    instantiated: eight page frames, two CPUs, and an environment table in
    which [envs[0]] (id 0x1000) runs on CPU 0 in the address space whose
    directory is frame 1, [envs[1]] (id 0x1001) is its child, waiting to
    receive a message, with its directory in frame 2, and the other slots are
    free.  Frame 3 is an allocated data page, frame 4 the kernel's page
    directory, and the frames 5, 6 and 7 are free. *)

From S2P Require Import Prelude Mmu Console KState.
Open Scope Z_scope.

Definition frame_kva (f : Z) : Z := f * 4096 + KERNBASE.

Definition demo_pages : gmap Z PageInfo :=
  list_to_map
    [(0, mkPageInfo None 1); (1, mkPageInfo None 1); (2, mkPageInfo None 1);
     (3, mkPageInfo None 0); (4, mkPageInfo None 1); (5, mkPageInfo (Some 6) 0);
     (6, mkPageInfo (Some 7) 0); (7, mkPageInfo None 0)].

Definition free_env (link : option Z) (id : Z) : Env :=
  mkEnv tf_zero link id 0 ENV_TYPE_USER ENV_FREE 0 0 0 0 false 0 0 0 0 0.

Definition demo_env (id parent : Z) (st : EnvStatus) (pd : Z) (recving : bool) : Env :=
  mkEnv tf_zero None id parent ENV_TYPE_USER st 1 0 (frame_kva pd) 0 recving 0 0 0 0 0.

Definition free_envs : gmap Z Env :=
  list_to_map ((λ i, (i, free_env (if i =? 1023 then None else Some (i + 1)) 0)) <$> seqZ 2 1022).

Definition demo_envs : gmap Z Env :=
  <[0 := demo_env 0x1000 0 ENV_RUNNING 1 false]>
  (<[1 := demo_env 0x1001 0x1000 ENV_NOT_RUNNABLE 2 true]> free_envs).

Definition demo_cpus : gmap Z CpuInfo :=
  <[0 := mkCpuInfo 0 CPU_STARTED (Some 0) 0xF0000000]>
  (<[1 := mkCpuInfo 1 CPU_HALTED None 0xEFFF0000]> ∅).

Definition nic_zero : E1000 := mkE1000 0 0 0 0 0 0 0 0 0 0 0 0 0 0 0.

Definition demo : kstate :=
  mkKState 8 1 (frame_kva 5) MMIOBASE (λ _, 0) demo_pages (Some 5) (frame_kva 4) 0
    demo_envs (Some 2) demo_cpus 0 (mkSpinlock 1 (Some 0)) (1 * 4096) 0 [] 5 false
    console_demo nic_zero 0 0.
