(* ===== verification/Lock.v ===== *)
(** * Spin locks and the clock ([kern/spinlock.c], [kern/spinlock.h], [kern/time.c])

    The big kernel lock twice: as the kernel's functions see it ([spin_lock],
    [spin_unlock] in the kernel monad, where a CPU that finds the lock taken
    is [Spinning]), and as the CPUs see it together, interleaved at the
    granularity of the single accesses to the lock.  The second view is where
    mutual exclusion is proved; [spin_lock_refines] and [spin_unlock_refines]
    say that the functions are uninterrupted runs of it. *)

From S2P Require Import Prelude Mmu Console KState Demo.
Open Scope Z_scope.

(** ** The functions *)

Definition holding (cpu : Z) (lk : spinlock) : bool :=
  negb (lk_locked lk =? 0) && bool_decide (lk_cpu lk = Some cpu).

Definition spin_initlock (lk : spinlock) : spinlock := mkSpinlock 0 None.

(** On [kernel_lock]; the waiting loop does not end as long as no other CPU
    releases the lock. *)
Definition spin_lock : K unit :=
  cpu ← gets cpunum;
  lk ← gets kernel_lock;
  if holding cpu lk then panic "cannot acquire: already holding"
  else if negb (lk_locked lk =? 0) then stop Spinning
  else modify (set_kernel_lock (mkSpinlock 1 (Some cpu))).

Definition spin_unlock : K unit :=
  cpu ← gets cpunum;
  lk ← gets kernel_lock;
  if negb (holding cpu lk) then panic "spin_unlock"
  else modify (set_kernel_lock (mkSpinlock 0 None)).

Definition lock_kernel : K unit := spin_lock.
Definition unlock_kernel : K unit := spin_unlock.

Definition time_init : K unit := modify (set_ticks 0).

Definition time_tick : K unit :=
  modify (λ s, set_ticks (u32 (ticks s + 1)) s);;
  t ← gets ticks;
  if u32 (t * 10) <? t then panic "time_tick: time overflowed" else mret tt.

Definition time_msec : K Z := gets (λ s, u32 (ticks s * 10)).

(** ** The CPUs, interleaved *)

(** Where a CPU is in [spin_lock] or [spin_unlock]. *)
Inductive lock_pc : Type :=
  | Outside       (** not holding, not trying *)
  | Trying        (** in the [xchg] loop *)
  | Acquired      (** the [xchg] returned 0; [lk->cpu] not yet written *)
  | Critical      (** in the kernel *)
  | Releasing     (** [lk->cpu] cleared; the last [xchg] not yet done *)
  | Panicked.

#[export] Instance lock_pc_eq_dec : EqDecision lock_pc.
Proof. solve_decision. Defined.

Record lock_sys : Type := mkLockSys { the_lock : spinlock; pc_of : Z → lock_pc }.

Definition goto (f : Z → lock_pc) (c : Z) (p : lock_pc) : Z → lock_pc :=
  λ d, if d =? c then p else f d.

(** One access by CPU [c]. *)
Inductive lock_step (c : Z) : lock_sys → lock_sys → Prop :=
  | step_enter lk f :
      f c = Outside → holding c lk = false →
      lock_step c (mkLockSys lk f) (mkLockSys lk (goto f c Trying))
  | step_enter_panic lk f :
      f c = Outside → holding c lk = true →
      lock_step c (mkLockSys lk f) (mkLockSys lk (goto f c Panicked))
  | step_spin lk f :
      f c = Trying → lk_locked lk ≠ 0 →
      lock_step c (mkLockSys lk f) (mkLockSys (set_lk_locked 1 lk) f)
  | step_acquire lk f :
      f c = Trying → lk_locked lk = 0 →
      lock_step c (mkLockSys lk f) (mkLockSys (set_lk_locked 1 lk) (goto f c Acquired))
  | step_record lk f :
      f c = Acquired →
      lock_step c (mkLockSys lk f) (mkLockSys (set_lk_cpu (Some c) lk) (goto f c Critical))
  | step_clear lk f :
      f c = Critical → holding c lk = true →
      lock_step c (mkLockSys lk f) (mkLockSys (set_lk_cpu None lk) (goto f c Releasing))
  | step_clear_panic lk f :
      f c = Critical → holding c lk = false →
      lock_step c (mkLockSys lk f) (mkLockSys lk (goto f c Panicked))
  | step_release lk f :
      f c = Releasing →
      lock_step c (mkLockSys lk f) (mkLockSys (set_lk_locked 0 lk) (goto f c Outside)).

Definition lock_any (x y : lock_sys) : Prop := ∃ c, lock_step c x y.

Definition lock_init (lk : spinlock) : lock_sys := mkLockSys (spin_initlock lk) (λ _, Outside).

Definition inside (p : lock_pc) : bool :=
  match p with Acquired | Critical | Releasing => true | _ => false end.

(** The lock is taken exactly when some CPU is inside, that CPU is the only
    one, and the recorded holder is the CPU in its critical section. *)
Record lock_inv (x : lock_sys) : Prop := mk_lock_inv {
  li_panic : ∀ c, pc_of x c ≠ Panicked;
  li_free : lk_locked (the_lock x) = 0 → ∀ c, inside (pc_of x c) = false;
  li_one : ∀ c d, inside (pc_of x c) = true → inside (pc_of x d) = true → c = d;
  li_cpu : ∀ c, pc_of x c = Critical ↔ lk_cpu (the_lock x) = Some c;
  li_crit : ∀ c, pc_of x c = Critical → lk_locked (the_lock x) ≠ 0;
}.

Lemma goto_same f c p : goto f c p c = p.
Proof. unfold goto. by rewrite Z.eqb_refl. Qed.

Lemma goto_ne f c p d : d ≠ c → goto f c p d = f d.
Proof. unfold goto. intros H. by destruct (Z.eqb_spec d c). Qed.

(** Split a statement about all CPUs into the one that moved and the others. *)
Ltac by_cpu c :=
  repeat match goal with
  | |- context [goto _ c _ ?d] =>
      destruct (Z.eq_dec d c) as [->|?]; [rewrite ?goto_same|rewrite ?(goto_ne _ c _ d) by done]
  | H : context [goto _ c _ ?d] |- _ =>
      destruct (Z.eq_dec d c) as [->|?]; [rewrite ?goto_same in H|rewrite ?(goto_ne _ c _ d) in H by done]
  end.

Lemma inside_critical p : p = Critical → inside p = true.
Proof. by intros ->. Qed.

Lemma lock_inv_step c x y : lock_inv x → lock_step c x y → lock_inv y.
Proof.
  intros [Hp Hf Ho Hc Hl] Hs.
  assert (Hun : inside (pc_of x c) = true → ∀ d, d ≠ c → inside (pc_of x d) = false).
  { intros Hi d Hd. apply not_true_is_false. intros E. by apply Hd, Ho. }
  assert (Hin : inside (pc_of x c) = true → lk_locked (the_lock x) ≠ 0).
  { intros Hi E. specialize (Hf E c). congruence. }
  assert (Hcr : ∀ d, inside (pc_of x d) = false → pc_of x d ≠ Critical) by (intros d E ?%inside_critical; congruence).
  assert (Hh : pc_of x c = Critical ↔ holding c (the_lock x) = true).
  { unfold holding. rewrite andb_true_iff, negb_true_iff, Z.eqb_neq, bool_decide_eq_true, <- Hc.
    split; [by intros H; split; [eapply Hl|]|tauto]. }
  assert (Hcc := Hc c).
  destruct Hs as [lk f H1 H2|lk f H1 H2|lk f H1 H2|lk f H1 H2|lk f H1|lk f H1 H2|lk f H1 H2|lk f H1];
    cbn [the_lock pc_of] in *; rewrite H1 in Hun, Hin, Hcc, Hh; cbn [inside] in Hun, Hin;
    try solve [rewrite H2 in Hh; destruct Hh as [A B]; first [discriminate (B eq_refl)|discriminate (A eq_refl)]].
  all: constructor; cbn [the_lock pc_of lk_locked lk_cpu set_lk_locked set_lk_cpu]; intros;
    by_cpu c; cbn [inside] in *;
    first [done | by apply Hp | by apply Hf | by apply Ho | by apply Hc | by eapply Hl
          | by apply Hun | by apply Hin | by exfalso; apply Hin
          | by split; [|intros E%Hcc]
          | by split; [intros E; exfalso; revert E; apply Hcr, Hun|congruence]
          | by exfalso; match goal with H : _ = Critical |- _ => revert H; apply Hcr, Hun end
          | by exfalso; match goal with H : inside _ = true |- _ =>
              first [by rewrite Hf in H by done|by rewrite Hun in H by done] end].
Qed.

(** C15: Mutual exclusion.  However the accesses of the CPUs interleave, no CPU
    panics in [spin_lock] or [spin_unlock], at most one CPU is between a
    successful [xchg] and the release, and the lock word and the recorded
    holder agree with it. *)
Theorem spinlock_mutual_exclusion lk x :
  rtc lock_any (lock_init lk) x →
  (∀ c, pc_of x c ≠ Panicked) ∧
  (∀ c d, inside (pc_of x c) = true → inside (pc_of x d) = true → c = d) ∧
  (∀ c, pc_of x c = Critical ↔ holding c (the_lock x) = true) ∧
  (lk_locked (the_lock x) = 0 → ∀ c, inside (pc_of x c) = false).
Proof.
  intros Hr. assert (Hi : lock_inv x).
  { assert (H0 : lock_inv (lock_init lk)) by (by constructor).
    revert H0. induction Hr as [|x y z [c Hs] _ IH]; [done|]. intros H0. by apply IH, (lock_inv_step c x). }
  destruct Hi as [Hp Hf Ho Hc Hl]. split_and!; [done|done| |done].
  intros c. unfold holding. rewrite andb_true_iff, negb_true_iff, Z.eqb_neq, bool_decide_eq_true, <- Hc.
  split; [by intros H; split; [eapply Hl|]|tauto].
Qed.

(** The kernel's functions are uninterrupted runs of the interleaved
    system by the executing CPU: [spin_lock] goes from outside to the critical
    section, or panics where that CPU's first access does, or spins where the
    lock is taken; [spin_unlock] goes from the critical section to outside, or
    panics; and both leave the lock as the run does. *)
Theorem spin_lock_refines s f :
  let c := cpunum s in
  (f c = Outside →
   match spin_lock s with
   | (Ret _, s') => ∃ g, rtc (lock_step c) (mkLockSys (kernel_lock s) f) (mkLockSys (kernel_lock s') g)
                         ∧ g c = Critical ∧ ∀ d, d ≠ c → g d = f d
   | (Stop Spinning, s') => s' = s ∧ lk_locked (kernel_lock s) ≠ 0
   | (Stop _, s') => ∃ g, lock_step c (mkLockSys (kernel_lock s) f) (mkLockSys (kernel_lock s') g)
                          ∧ g c = Panicked
   end) ∧
  (f c = Critical →
   match spin_unlock s with
   | (Ret _, s') => ∃ g, rtc (lock_step c) (mkLockSys (kernel_lock s) f) (mkLockSys (kernel_lock s') g)
                         ∧ g c = Outside ∧ ∀ d, d ≠ c → g d = f d
   | (Stop _, s') => ∃ g, lock_step c (mkLockSys (kernel_lock s) f) (mkLockSys (kernel_lock s') g)
                          ∧ g c = Panicked
   end).
Proof.
  intros c. unfold spin_lock, spin_unlock, panic. msimpl. fold c. destruct (kernel_lock s) as [l o] eqn:Hk.
  split; intros Hf; destruct (holding c _) eqn:Hh; cbn [negb]; rewrite ?Hk.
  - eexists. split; [by apply step_enter_panic|apply goto_same].
  - cbn [lk_locked]. destruct (Z.eqb_spec l 0) as [->|Hl]; cbn [negb]; [|done].
    exists (goto (goto (goto f c Trying) c Acquired) c Critical). split_and!.
    + eapply rtc_l; [by apply step_enter|]. eapply rtc_l; [apply step_acquire; [apply goto_same|done]|].
      eapply rtc_l; [apply step_record, goto_same|]. apply rtc_refl.
    + apply goto_same.
    + intros d Hd. by rewrite !goto_ne.
  - exists (goto (goto f c Releasing) c Outside). split_and!.
    + eapply rtc_l; [by apply step_clear|]. eapply rtc_l; [apply step_release, goto_same|]. apply rtc_refl.
    + apply goto_same.
    + intros d Hd. by rewrite !goto_ne.
  - eexists. split; [by apply step_clear_panic|apply goto_same].
Qed.

(** The overflow test of [time_tick] is exact: as long as it has not
    panicked the milliseconds [time_msec] reports are ten times the ticks,
    and it panics at the first tick for which they no longer fit. *)
Theorem time_tick_exact s :
  0 <= ticks s → ticks s * 10 < 2 ^ 32 →
  time_msec s = (Ret (ticks s * 10), s) ∧
  let s' := set_ticks (ticks s + 1) s in
  time_tick s = (if ticks s' * 10 <? 2 ^ 32 then Ret tt
                 else Stop (Panic "time_tick: time overflowed"), s').
Proof.
  intros H0 H. unfold time_msec, time_tick, panic. msimpl. cbn [ticks set_ticks].
  rewrite !u32_small by lia. rewrite (u32_small (ticks s + 1)) by lia. split; [done|].
  destruct (Z.ltb_spec ((ticks s + 1) * 10) (2 ^ 32)).
  - rewrite u32_small by lia. destruct (Z.ltb_spec ((ticks s + 1) * 10) (ticks s + 1)); [lia|done].
  - unfold u32. destruct (Z.ltb_spec (((ticks s + 1) * 10) mod 2 ^ 32) (ticks s + 1)) as [|Hge]; [done|].
    exfalso. revert Hge. Z.to_euclidean_division_equations. lia.
Qed.

(** ** Witnesses *)

(** CPU 0 takes the lock and CPU 1 waits for it. *)
Definition lock_run : lock_sys :=
  mkLockSys (mkSpinlock 1 (Some 0))
    (goto (goto (goto (goto (λ _, Outside) 0 Trying) 1 Trying) 0 Acquired) 0 Critical).

Lemma spinlock_mutual_exclusion_witness :
  rtc lock_any (lock_init (mkSpinlock 7 None)) lock_run ∧
  pc_of lock_run 0 = Critical ∧ pc_of lock_run 1 = Trying ∧ holding 0 (the_lock lock_run) = true.
Proof.
  assert (Hr : rtc lock_any (lock_init (mkSpinlock 7 None)) lock_run).
  { eapply rtc_l; [exists 0; by apply step_enter|].
    eapply rtc_l; [exists 1; by apply step_enter|].
    eapply rtc_l; [exists 0; by apply step_acquire|].
    eapply rtc_l; [exists 1; by apply step_spin|].
    eapply rtc_l; [exists 0; by apply step_record|]. apply rtc_refl. }
  split; [exact Hr|]. split; [reflexivity|]. split; [reflexivity|].
  apply (spinlock_mutual_exclusion (mkSpinlock 7 None) lock_run Hr). reflexivity.
Defined.

Lemma time_tick_exact_witness :
  time_msec demo = (Ret 50, demo) ∧ time_tick demo = (Ret tt, set_ticks 6 demo).
Proof.
  apply (time_tick_exact demo); vm_compute; congruence.
Defined.
