(* ===== verification/PageAlloc.v ===== *)
(** * Physical pages ([kern/pmap.h], first half of [kern/pmap.c])

    The boot-time allocator, the page descriptors and the free list:
    [boot_alloc], [page_init], [page_alloc], [page_free], [page_decref] and
    the conversions between descriptors, physical and kernel addresses.

    [free_list s l] says that the links starting at [page_free_list] spell the
    list [l].  It is the abstraction the operations are specified against: the
    allocator is a stack of page numbers. *)

From S2P Require Import Prelude Mmu KState.
Open Scope Z_scope.

(** ** Conversions *)

Definition ALLOC_ZERO : Z := Z.shiftl 1 0.

Definition PADDR (kva : Z) : K Z :=
  if kva <? KERNBASE then panic "PADDR called with invalid kva"
  else mret (kva - KERNBASE).

Definition KADDR (pa : Z) : K Z :=
  np ← gets npages;
  if np <=? PGNUM pa then panic "KADDR called with invalid pa"
  else mret (u32 (pa + KERNBASE)).

(** [(pp - pages) << PGSHIFT] *)
Definition page2pa (pp : Z) : Z := u32 (Z.shiftl pp PGSHIFT).

Definition pa2page (pa : Z) : K Z :=
  np ← gets npages;
  if np <=? PGNUM pa then panic "pa2page called with invalid pa"
  else mret (PGNUM pa).

Definition page2kva (pp : Z) : K Z := KADDR (page2pa pp).

(** ** Memory detection *)

(** [cmos reg] is the byte the real-time clock's NVRAM holds at [reg]: what
    [outb(IO_RTC, reg)] followed by [inb(IO_RTC+1)] reads. *)
Section detect.
Variable cmos : Z → Z.

Definition mc146818_read (reg : Z) : Z := cmos reg.

Definition NVRAM_BASELO : Z := 0x15.
Definition NVRAM_EXTLO : Z := 0x17.
Definition NVRAM_EXT16LO : Z := 0x34.

Definition nvram_read (r : Z) : Z :=
  Z.lor (mc146818_read r) (Z.shiftl (mc146818_read (r + 1)) 8).

Definition i386_detect_memory : K unit :=
  let basemem := u32 (nvram_read NVRAM_BASELO) in
  let extmem := u32 (nvram_read NVRAM_EXTLO) in
  let ext16mem := u32 (nvram_read NVRAM_EXT16LO * 64) in
  let totalmem :=
    if negb (ext16mem =? 0) then u32 (16 * 1024 + ext16mem)
    else if negb (extmem =? 0) then u32 (1 * 1024 + extmem)
    else basemem in
  modify (set_npages (totalmem / (PGSIZE / 1024)));;
  modify (set_npages_basemem (basemem / (PGSIZE / 1024))).
End detect.

(** ** The boot-time allocator *)

(** [end_] is the linker's symbol [end]. *)
Definition boot_alloc (end_ n : Z) : K Z :=
  nf0 ← gets nextfree;
  (if nf0 =? 0 then modify (set_nextfree (ROUNDUP end_ PGSIZE)) else mret tt);;
  nf1 ← gets nextfree;
  modify (set_nextfree (ROUNDUP nf1 PGSIZE));;
  nf ← gets nextfree;
  np ← gets npages;
  if (nf <? KERNBASE) || (np <=? PGNUM (nf - KERNBASE))
  then panic "pmap->boot_alloc: Original memory out of range!"
  else
    let result := nf in
    modify (set_nextfree (u32 (nf + ROUNDUP n PGSIZE)));;
    nf' ← gets nextfree;
    if (nf' <? KERNBASE) || (np <=? PGNUM (nf' - KERNBASE))
    then panic "pmap->boot_alloc: New memory out of range!"
    else mret result.

(** ** [page_init] *)

Definition mpPage : Z := MPENTRY_PADDR / PGSIZE.

(** Put page [i] on the free list. *)
Definition page_init_free (i : Z) : K unit :=
  set_ref i 0;;
  fl ← gets page_free_list;
  set_link i fl;;
  modify (set_page_free_list (Some i)).

Definition page_init_used (i : Z) : K unit :=
  set_ref i 1;; set_link i None.

Definition page_init_body (i : Z) : K unit :=
  if i =? mpPage then set_ref i 1 else page_init_free i.

(** The loop over the pages the kernel occupies: its bound,
    [PADDR(boot_alloc(0))/PGSIZE], is evaluated again at every iteration. *)
Fixpoint page_init_kernel (fuel : nat) (end_ i : Z) : K Z :=
  match fuel with
  | O => stop OutOfFuel
  | S fuel' =>
    nf ← boot_alloc end_ 0;
    lim ← PADDR nf;
    if i <? lim / PGSIZE then page_init_used i;; page_init_kernel fuel' end_ (i + 1)
    else mret i
  end.

Definition page_init (end_ : Z) : K unit :=
  page_init_used 0;;
  nb ← gets npages_basemem;
  np ← gets npages;
  mfor (seqZ 1 (nb - 1)) page_init_body;;
  i ← page_init_kernel (S (Z.to_nat np)) end_ (Z.max 1 nb);
  mfor (seqZ i (np - i)) page_init_body.

(** ** Allocation and reference counts *)

Definition page_alloc (alloc_flags : Z) : K (option Z) :=
  fl ← gets page_free_list;
  match fl with
  | None => mret None
  | Some allocPage =>
    pi ← get_page allocPage;
    modify (set_page_free_list (pp_link pi));;
    (if negb (Z.land alloc_flags ALLOC_ZERO =? 0)
     then kva ← page2kva allocPage; kmemset kva 0 PGSIZE
     else mret tt);;
    set_ref allocPage 0;;
    mret (Some allocPage)
  end.

Definition page_free (pp : Z) : K unit :=
  pi ← get_page pp;
  if negb (pp_ref pi =? 0) then panic "pmap->page_free: the pp ref is not zero!"
  else
    fl ← gets page_free_list;
    set_link pp fl;;
    modify (set_page_free_list (Some pp)).

Definition page_decref (pp : Z) : K unit :=
  pi ← get_page pp;
  set_ref pp (pp_ref pi - 1);;
  pi' ← get_page pp;
  if pp_ref pi' =? 0 then page_free pp else mret tt.

(** [pp->pp_ref += 1] *)
Definition page_incref (pp : Z) : K unit :=
  pi ← get_page pp; set_ref pp (pp_ref pi + 1).

(** ** The free list *)

Fixpoint chain (pgs : gmap Z PageInfo) (o : option Z) (l : list Z) : Prop :=
  match l with
  | [] => o = None
  | p :: l' =>
    o = Some p ∧ ∃ link, pgs !! p = Some (mkPageInfo link 0) ∧ chain pgs link l'
  end.

(** The free list holds exactly the pages of [l], each once, with no
    references. *)
Definition free_list (s : kstate) (l : list Z) : Prop :=
  chain (pages s) (page_free_list s) l ∧ NoDup l.

(** The page descriptors cover exactly the physical pages, of which there are
    at most 256 MB worth (the direct mapping above [KERNBASE]). *)
Record phys_ok (s : kstate) : Prop := mk_phys_ok {
  phys_npages : 0 < npages s <= 65536;
  phys_dom : ∀ p, is_Some (pages s !! p) ↔ 0 <= p < npages s;
}.

Lemma chain_head pgs o l : chain pgs o l → o = head l.
Proof. destruct l; simpl; [done|by intros [-> _]]. Qed.

(** Descriptors off the list may change. *)
Lemma chain_insert_ne pgs o l p pi : p ∉ l → chain pgs o l → chain (<[p := pi]> pgs) o l.
Proof.
  revert o; induction l as [|q l IH]; intros o Hp; simpl; [done|].
  intros (-> & link & Hq & Hl). split; [done|]. exists link.
  rewrite lookup_insert_ne by set_solver. split; [done|]. apply IH; set_solver.
Qed.

Lemma chain_elem pgs o l p : chain pgs o l → p ∈ l → ∃ link, pgs !! p = Some (mkPageInfo link 0).
Proof.
  revert o; induction l as [|q l IH]; intros o; simpl; [set_solver|].
  intros (-> & link & Hq & Hl) [->|Hp]%elem_of_cons; eauto.
Qed.

Lemma chain_ext pgs pgs' o l :
  (∀ p, p ∈ l → pgs' !! p = pgs !! p) → chain pgs o l → chain pgs' o l.
Proof.
  revert o; induction l as [|q l IH]; intros o Hp; simpl; [done|].
  intros (-> & link & Hq & Hl). split; [done|]. exists link.
  rewrite Hp by set_solver. split; [done|]. apply IH; set_solver.
Qed.

(** The list is determined by the state. *)
Lemma chain_fun pgs o l l' : chain pgs o l → chain pgs o l' → l = l'.
Proof.
  revert o l'; induction l as [|p l IH]; intros o [|p' l']; simpl;
    [done|intros -> [[=] _]|intros [-> _] [=]|].
  intros (-> & link & Hp & Hl) ([= <-] & link' & Hp' & Hl'). f_equal.
  rewrite Hp in Hp'; injection Hp' as <-. eauto.
Qed.

Lemma free_list_fun s l l' : free_list s l → free_list s l' → l = l'.
Proof. intros [? _] [? _]; by eapply chain_fun. Qed.

Lemma free_list_range s l p : phys_ok s → free_list s l → p ∈ l → 0 <= p < npages s.
Proof.
  intros Hok [Hc _] Hp. destruct (chain_elem _ _ _ _ Hc Hp) as [link Hl].
  apply (phys_dom s Hok). by rewrite Hl.
Qed.

(** ** Address conversions on valid pages *)

Lemma page2pa_mul pp : 0 <= pp < 65536 → page2pa pp = pp * 4096.
Proof.
  intros. unfold page2pa, PGSHIFT. rewrite Z.shiftl_mul_pow2, u32_small by lia. lia.
Qed.

Lemma page2kva_ok s pp :
  phys_ok s → 0 <= pp < npages s → page2kva pp s = (Ret (pp * 4096 + KERNBASE), s).
Proof.
  intros [Hn _] Hp. unfold page2kva, KADDR. mstep.
  rewrite page2pa_mul, PGNUM_div, Z.div_mul by lia.
  replace (npages s <=? pp) with false by lia.
  unfold KERNBASE. by rewrite u32_small by lia.
Qed.

Lemma pa2page_ok s pa :
  PGNUM pa < npages s → pa2page pa s = (Ret (PGNUM pa), s).
Proof. intros. unfold pa2page. mstep. by replace (npages s <=? PGNUM pa) with false by lia. Qed.

Lemma KADDR_ok s pa :
  phys_ok s → 0 <= pa → PGNUM pa < npages s → KADDR pa s = (Ret (pa + KERNBASE), s).
Proof.
  intros [Hn _] H0 Hp. unfold KADDR. mstep. rewrite PGNUM_div in *.
  replace (npages s <=? pa / 4096) with false by lia.
  unfold KERNBASE. rewrite u32_small; [done|]. Z.to_euclidean_division_equations; lia.
Qed.

Lemma PADDR_ok s pa : 0 <= pa → PADDR (pa + KERNBASE) s = (Ret pa, s).
Proof.
  intros. unfold PADDR. replace (pa + KERNBASE <? KERNBASE) with false by lia.
  unfold mret, M_ret. do 2 f_equal; lia.
Qed.

(** ** Allocation pops, freeing pushes *)

Definition page_zeroed (fl p : Z) (m : memory) : memory :=
  if Z.land fl ALLOC_ZERO =? 0 then m else mem_set m (p * 4096) 0 4096.

Lemma set_mem_id s : set_mem (mem s) s = s.
Proof. by destruct s. Qed.
Lemma set_pages_id s : set_pages (pages s) s = s.
Proof. by destruct s. Qed.

Lemma set_ref_eq s pp pi r :
  pages s !! pp = Some pi →
  set_ref pp r s = (Ret tt, set_pages (<[pp := mkPageInfo (pp_link pi) (u16 r)]> (pages s)) s).
Proof. intros H. unfold set_ref, get_page, put_page, the. msimpl. by rewrite H. Qed.

Lemma set_link_eq s pp pi l :
  pages s !! pp = Some pi →
  set_link pp l s = (Ret tt, set_pages (<[pp := mkPageInfo l (pp_ref pi)]> (pages s)) s).
Proof. intros H. unfold set_link, get_page, put_page, the. msimpl. by rewrite H. Qed.

Lemma get_page_eq s pp pi : pages s !! pp = Some pi → get_page pp s = (Ret pi, s).
Proof. intros H. unfold get_page, the. msimpl. by rewrite H. Qed.

Lemma page_alloc_pop s fl p l :
  phys_ok s → free_list s (p :: l) →
  page_alloc fl s =
    (Ret (Some p), set_mem (page_zeroed fl p (mem s)) (set_page_free_list (head l) s)).
Proof.
  intros Hok Hfl. pose proof (free_list_range s _ p Hok Hfl ltac:(set_solver)) as Hr.
  destruct Hfl as [(Ho & link & Hp & Hl) _].
  pose proof (chain_head _ _ _ Hl) as ->.
  unfold page_alloc. mstep. rewrite Ho.
  rewrite (bind_Ret _ _ _ _ _ (get_page_eq s p _ Hp)). mstep. simpl pp_link.
  set (s1 := set_page_free_list (head l) s).
  assert (Hok1 : phys_ok s1) by (destruct Hok; by constructor).
  unfold page_zeroed. destruct (Z.land fl ALLOC_ZERO =? 0); cbn [negb].
  - mstep. erewrite bind_Ret by (apply set_ref_eq, Hp).
    unfold mret, M_ret. simpl. rewrite insert_id by done. done.
  - erewrite bind_Ret; [|erewrite bind_Ret by (by apply page2kva_ok); reflexivity].
    erewrite bind_Ret by (apply set_ref_eq, Hp).
    unfold mret, M_ret, s1. simpl. rewrite insert_id by done.
    replace (p * 4096 + KERNBASE - KERNBASE) with (p * 4096) by lia. done.
Qed.

Lemma page_alloc_empty s fl : page_free_list s = None → page_alloc fl s = (Ret None, s).
Proof. intros H. unfold page_alloc. mstep. by rewrite H. Qed.

(** The state after pushing page [p]. *)
Definition pushed (p : Z) (s : kstate) : kstate :=
  set_page_free_list (Some p)
    (set_pages (<[p := mkPageInfo (page_free_list s) 0]> (pages s)) s).

Lemma page_free_eq s p pi :
  pages s !! p = Some pi → pp_ref pi = 0 → page_free p s = (Ret tt, pushed p s).
Proof.
  intros Hp Hr. unfold page_free. erewrite bind_Ret by (by apply get_page_eq).
  rewrite Hr. cbn [negb Z.eqb]. mstep.
  erewrite bind_Ret by (by apply set_link_eq). by rewrite Hr.
Qed.

Lemma page_free_panics s p pi :
  pages s !! p = Some pi → pp_ref pi ≠ 0 →
  page_free p s = (Stop (Panic "pmap->page_free: the pp ref is not zero!"), s).
Proof.
  intros Hp Hr. unfold page_free. erewrite bind_Ret by (by apply get_page_eq).
  by replace (pp_ref pi =? 0) with false by lia.
Qed.

Lemma pushed_free_list s p l : free_list s l → p ∉ l → free_list (pushed p s) (p :: l).
Proof.
  intros [Hc Hn] Hp. split; [|by constructor].
  simpl. split; [done|]. exists (page_free_list s). rewrite lookup_insert_eq.
  split; [done|]. by apply chain_insert_ne.
Qed.

Lemma pages_insert_dom s p pi :
  phys_ok s → 0 <= p < npages s → phys_ok (set_pages (<[p := pi]> (pages s)) s).
Proof.
  intros [Hn Hd] Hp. constructor; [done|]. intros q; simpl.
  rewrite lookup_insert_is_Some, Hd. lia.
Qed.

Lemma pushed_phys_ok s p : phys_ok s → 0 <= p < npages s → phys_ok (pushed p s).
Proof. intros Hok Hp. destruct (pages_insert_dom s p (mkPageInfo (page_free_list s) 0) Hok Hp). by constructor. Qed.

Lemma page_decref_last s p pi :
  pages s !! p = Some pi → pp_ref pi = 1 → page_decref p s = (Ret tt, pushed p s).
Proof.
  intros Hp Hr. unfold page_decref. erewrite bind_Ret by (by apply get_page_eq).
  erewrite bind_Ret by (by apply set_ref_eq). rewrite Hr.
  set (s1 := set_pages _ s).
  assert (H1 : pages s1 !! p = Some (mkPageInfo (pp_link pi) 0)) by apply lookup_insert_eq.
  erewrite bind_Ret by (by apply get_page_eq). simpl.
  rewrite (page_free_eq s1 p _ H1 eq_refl). unfold pushed, s1. simpl.
  by rewrite insert_insert_eq.
Qed.

Lemma page_decref_more s p pi :
  pages s !! p = Some pi → 1 < pp_ref pi < 2 ^ 16 →
  page_decref p s = (Ret tt, set_pages (<[p := mkPageInfo (pp_link pi) (pp_ref pi - 1)]> (pages s)) s).
Proof.
  intros Hp Hr. unfold page_decref. erewrite bind_Ret by (by apply get_page_eq).
  erewrite bind_Ret by (by apply set_ref_eq). rewrite u16_small by lia.
  set (s1 := set_pages _ s).
  assert (H1 : pages s1 !! p = Some (mkPageInfo (pp_link pi) (pp_ref pi - 1)))
    by apply lookup_insert_eq.
  erewrite bind_Ret by (by apply get_page_eq). simpl.
  by replace (pp_ref pi - 1 =? 0) with false by lia.
Qed.

(** The next allocation returns the page freed last. *)
Lemma page_free_then_alloc s p pi l fl :
  phys_ok s → free_list s l → p ∉ l → pages s !! p = Some pi → pp_ref pi = 0 →
  ∃ s', page_free p s = (Ret tt, s') ∧ free_list s' (p :: l) ∧
        fst (page_alloc fl s') = Ret (Some p).
Proof.
  intros Hok Hfl Hnin Hp Hr. exists (pushed p s).
  assert (Hrange : 0 <= p < npages s) by (apply phys_dom; [done|by rewrite Hp]).
  split; [by eapply page_free_eq|]. split; [by apply pushed_free_list|].
  by erewrite page_alloc_pop; [|by apply pushed_phys_ok|by apply pushed_free_list].
Qed.

(** ** [boot_alloc] *)

Definition boot_ok (s : kstate) (n : Z) : Prop :=
  nextfree s = n * 4096 + KERNBASE ∧ 0 <= n < npages s.

Lemma ROUNDUP_aligned n : 0 <= n < 2 ^ 20 → ROUNDUP (n * 4096) PGSIZE = n * 4096.
Proof.
  unfold PGSIZE. intros. destruct (Z.eq_dec n (2 ^ 20 - 1)) as [->|]; [reflexivity|].
  rewrite ROUNDUP_unfold by (unfold is_u32; lia).
  replace (n * 4096 + 4096 - 1) with (4095 + n * 4096) by lia.
  rewrite Z.div_add, Z.div_small by lia. lia.
Qed.

(** A kernel address at page [n], as a multiple of the page size. *)
Lemma kva_page n : n * 4096 + KERNBASE = (n + 983040) * 4096.
Proof. unfold KERNBASE. lia. Qed.

Lemma boot_alloc_ok s end_ n k :
  0 < npages s <= 65536 → boot_ok s n → 0 <= k → k + 4095 < 2 ^ 32 → n + (k + 4095) / 4096 < npages s →
  boot_alloc end_ k s =
    (Ret (n * 4096 + KERNBASE), set_nextfree ((n + (k + 4095) / 4096) * 4096 + KERNBASE) s).
Proof.
  intros Hnp [Hnf Hn] Hk Hk2 Hlim. unfold boot_alloc. mstep. rewrite Hnf.
  replace (n * 4096 + KERNBASE =? 0) with false by (unfold KERNBASE; lia).
  repeat mstep. rewrite !Hnf. simpl.
  rewrite kva_page, ROUNDUP_aligned by lia. rewrite <- kva_page.
  replace (n * 4096 + KERNBASE <? KERNBASE) with false by lia.
  replace (n * 4096 + KERNBASE - KERNBASE) with (n * 4096) by lia.
  rewrite PGNUM_div, Z.div_mul by lia.
  replace (npages s <=? n) with false by lia. cbn [orb]. repeat mstep. simpl.
  unfold PGSIZE. rewrite (ROUNDUP_unfold k) by (unfold is_u32; lia).
  replace (k + 4096 - 1) with (k + 4095) by lia.
  pose proof (Z.div_pos (k + 4095) 4096).
  rewrite u32_small by (unfold KERNBASE; lia).
  replace (n * 4096 + KERNBASE + 4096 * ((k + 4095) / 4096))
    with ((n + (k + 4095) / 4096) * 4096 + KERNBASE) by lia.
  set (n' := n + (k + 4095) / 4096) in *.
  replace (n' * 4096 + KERNBASE <? KERNBASE) with false by lia.
  replace (n' * 4096 + KERNBASE - KERNBASE) with (n' * 4096) by lia.
  rewrite PGNUM_div, Z.div_mul by lia.
  by replace (npages s <=? n') with false by lia.
Qed.

(** The first call starts at the end of the kernel. *)
Lemma boot_alloc_first s end_ k : nextfree s = 0 → ROUNDUP end_ PGSIZE ≠ 0 → boot_alloc end_ k s = boot_alloc end_ k (set_nextfree (ROUNDUP end_ PGSIZE) s).
Proof.
  intros H0 Hne. unfold boot_alloc. do 2 mstep. rewrite H0. cbn [Z.eqb nextfree set_nextfree]. apply Z.eqb_neq in Hne. rewrite Hne.
  by repeat mstep.
Qed.

Lemma boot_alloc_0 s end_ n :
  phys_ok s → boot_ok s n → boot_alloc end_ 0 s = (Ret (n * 4096 + KERNBASE), s).
Proof.
  intros Hok Hb. destruct (Hb) as [Hnf Hn].
  rewrite (boot_alloc_ok s end_ n 0); [|apply (phys_npages s Hok)|done|lia|lia|change ((0 + 4095) / 4096) with 0; lia].
  change ((0 + 4095) / 4096) with 0. rewrite Z.add_0_r, <- Hnf. by destruct s.
Qed.

(** ** [page_init] *)

(** [s'] differs from [s] only in the descriptors and the list head. *)
Definition only_pages (s s' : kstate) : Prop :=
  s' = set_page_free_list (page_free_list s') (set_pages (pages s') s).

Lemma only_pages_refl s : only_pages s s.
Proof. by destruct s. Qed.

Lemma only_pages_trans s1 s2 s3 : only_pages s1 s2 → only_pages s2 s3 → only_pages s1 s3.
Proof. unfold only_pages. intros -> ->. by destruct s1. Qed.

Lemma only_pages_set s pgs o : only_pages s (set_page_free_list o (set_pages pgs s)).
Proof. by destruct s. Qed.

(** Every page of a range is set up by the loop body: the free ones end on the
    list, latest first, the reserved one gets a reference. *)
Lemma page_init_loop s l fl :
  phys_ok s → free_list s fl → NoDup l → (∀ i, i ∈ l → 0 <= i < npages s ∧ i ∉ fl) →
  ∃ s', mfor l page_init_body s = (Ret tt, s') ∧ only_pages s s' ∧ phys_ok s' ∧
    free_list s' (reverse (filter (λ i, i ≠ mpPage) l) ++ fl) ∧
    (∀ p, p ∉ l → pages s' !! p = pages s !! p) ∧
    (mpPage ∈ l → ∃ o, pages s' !! mpPage = Some (mkPageInfo o 1)).
Proof.
  revert s fl; induction l as [|i l IH]; intros s fl Hok Hfl Hnd Hl.
  { exists s. split_and!; [done|apply only_pages_refl|done|done|done|set_solver]. }
  apply NoDup_cons in Hnd as [Hi Hnd]. destruct (Hl i) as [Hr Hnin]; [set_solver|].
  assert (Hex : is_Some (pages s !! i)) by (by apply phys_dom).
  destruct Hex as [pi Hpi]. simpl mfor.
  destruct (Z.eqb_spec i mpPage) as [->|Hne].
  - erewrite bind_Ret by (unfold page_init_body; rewrite Z.eqb_refl; by apply set_ref_eq).
    set (s1 := set_pages _ s).
    assert (Hfl1 : free_list s1 fl) by (destruct Hfl; split; [by apply chain_insert_ne|done]).
    destruct (IH s1 fl) as (s' & Hrun & Hon & Hok' & Hfl' & Hoth & _);
      [by apply pages_insert_dom|done|done|intros; apply Hl; set_solver|].
    exists s'. split; [done|]. split; [|split; [done|split; [|split]]].
    + eapply only_pages_trans; [|done]. unfold s1. by destruct s.
    + rewrite filter_cons_False by (intros H; by apply H). done.
    + intros p Hp. rewrite Hoth by set_solver. apply lookup_insert_ne. set_solver.
    + intros _. rewrite Hoth by done. simpl. rewrite lookup_insert_eq. eauto.
  - assert (Hstep : page_init_free i s = (Ret tt, pushed i s)).
    { unfold page_init_free. erewrite bind_Ret by (by apply set_ref_eq). mstep.
      set (s1 := set_pages _ s).
      assert (H1 : pages s1 !! i = Some (mkPageInfo (pp_link pi) 0)) by apply lookup_insert_eq.
      erewrite bind_Ret by (by apply set_link_eq). unfold modify, pushed, s1. simpl.
      by rewrite insert_insert_eq. }
    erewrite bind_Ret
      by (unfold page_init_body; rewrite (proj2 (Z.eqb_neq _ _) Hne); exact Hstep).
    destruct (IH (pushed i s) (i :: fl)) as (s' & Hrun & Hon & Hok' & Hfl' & Hoth & Hmp);
      [by apply pushed_phys_ok|by apply pushed_free_list|done| |].
    { intros j Hj. destruct (Hl j); [set_solver|]. simpl. set_solver. }
    exists s'. split; [done|]. split; [|split; [done|split; [|split]]].
    + eapply only_pages_trans; [|done]. apply only_pages_set.
    + rewrite filter_cons_True by done. rewrite reverse_cons, <- (assoc_L (++)). done.
    + intros p Hp. rewrite Hoth by set_solver. simpl. apply lookup_insert_ne. set_solver.
    + intros H. apply Hmp. set_solver.
Qed.

(** The pages up to the end of the kernel's boot-time allocations get one
    reference each. *)
Lemma page_init_kernel_ok fuel s end_ i lim fl :
  phys_ok s → boot_ok s lim → free_list s fl → 0 <= i <= lim →
  (∀ j, i <= j < lim → j ∉ fl) → (Z.to_nat (lim - i) < fuel)%nat →
  ∃ s', page_init_kernel fuel end_ i s = (Ret lim, s') ∧ only_pages s s' ∧ phys_ok s' ∧
    free_list s' fl ∧ (∀ p, ¬ (i <= p < lim) → pages s' !! p = pages s !! p) ∧
    (∀ p, i <= p < lim → pages s' !! p = Some (mkPageInfo None 1)).
Proof.
  revert s i; induction fuel as [|fuel IH]; intros s i Hok Hb Hfl Hi Hj Hf; [lia|].
  destruct (Hb) as [Hnf Hlim]. simpl page_init_kernel.
  erewrite bind_Ret by (by apply boot_alloc_0).
  erewrite bind_Ret by (apply PADDR_ok; lia).
  replace (lim * 4096 / PGSIZE) with lim by (unfold PGSIZE; rewrite Z.div_mul; lia).
  destruct (Z.ltb_spec i lim) as [Hlt|Hge].
  2:{ replace i with lim by lia. exists s. split_and!; [done|apply only_pages_refl|done|done|done|lia]. }
  assert (Hex : is_Some (pages s !! i)) by (apply phys_dom; [done|lia]).
  destruct Hex as [pi Hpi]. set (s1 := set_pages (<[i := mkPageInfo None 1]> (pages s)) s).
  assert (Hstep : page_init_used i s = (Ret tt, s1)).
  { unfold page_init_used. erewrite bind_Ret by (by apply set_ref_eq).
    erewrite set_link_eq by (apply lookup_insert_eq). simpl. by rewrite insert_insert_eq. }
  rewrite (bind_Ret _ _ _ _ _ Hstep).
  assert (Hfl1 : free_list s1 fl).
  { destruct Hfl; split; [apply chain_insert_ne; [apply Hj; lia|done]|done]. }
  destruct (IH s1 (i + 1)) as (s' & Hrun & Hon & Hok' & Hfl' & Hout & Hin);
    [apply pages_insert_dom; [done|lia]|done|done|lia|intros; apply Hj; lia|lia|].
  exists s'. split; [done|]. split; [|split; [done|split; [done|split]]].
  - eapply only_pages_trans; [|done]. unfold s1. by destruct s.
  - intros p Hp. rewrite Hout by lia. apply lookup_insert_ne. lia.
  - intros p Hp. destruct (Z.eq_dec p i) as [->|]; [|apply Hin; lia].
    rewrite Hout by lia. apply lookup_insert_eq.
Qed.

(** The pages [page_init] leaves for allocation: base memory except page 0 and
    the page of the AP boot code, and extended memory above the kernel's
    boot-time allocations ([lim] is the first free page there). *)
Definition usable (s : kstate) (lim : Z) : list Z :=
  filter (λ i, i ≠ mpPage)
    (seqZ 1 (npages_basemem s - 1) ++ seqZ lim (npages s - lim)).

Lemma elem_of_usable s lim p :
  1 <= npages_basemem s →
  p ∈ usable s lim ↔
    p ≠ mpPage ∧ (1 <= p < npages_basemem s ∨ lim <= p < npages s).
Proof. intros. unfold usable. rewrite list_elem_of_filter, elem_of_app, !elem_of_seqZ. lia. Qed.

(** Boot.  [page_init] returns; afterwards the free list is exactly the usable
    pages, the highest first, each with no reference; every other page of
    the machine has one reference, and nothing but the page descriptors and the
    head of the list changed. *)
Theorem page_init_correct s end_ lim :
  phys_ok s → page_free_list s = None → boot_ok s lim →
  1 <= npages_basemem s <= lim →
  ∃ s', page_init end_ s = (Ret tt, s') ∧ phys_ok s' ∧ only_pages s s' ∧
    free_list s' (reverse (usable s lim)) ∧
    (∀ p, 0 <= p < npages s → p ∉ usable s lim →
       ∃ o, pages s' !! p = Some (mkPageInfo o 1)).
Proof.
  intros Hok Hnil Hb Hnb. destruct (Hb) as [Hnf Hlim].
  assert (Hfl : free_list s []) by (split; [exact Hnil|constructor]).
  assert (Hex : is_Some (pages s !! 0)) by (apply phys_dom; [done|lia]).
  destruct Hex as [pi Hpi].
  set (s0 := set_pages (<[0 := mkPageInfo None 1]> (pages s)) s).
  assert (H0 : page_init_used 0 s = (Ret tt, s0)).
  { unfold page_init_used. erewrite bind_Ret by (by apply set_ref_eq).
    erewrite set_link_eq by (apply lookup_insert_eq). simpl. by rewrite insert_insert_eq. }
  unfold page_init. rewrite (bind_Ret _ _ _ _ _ H0). do 2 mstep.
  assert (Hok0 : phys_ok s0) by (apply pages_insert_dom; [done|lia]).
  destruct (page_init_loop s0 (seqZ 1 (npages_basemem s0 - 1)) [])
    as (s1 & Hr1 & Hon1 & Hok1 & Hfl1 & Hoth1 & Hmp1);
    [done|done|apply NoDup_seqZ|intros i Hi%elem_of_seqZ; simpl in *; set_solver by lia|].
  rewrite (bind_Ret _ _ _ _ _ Hr1). rewrite app_nil_r in Hfl1.
  assert (Hnp1 : npages s1 = npages s) by (by rewrite Hon1).
  assert (Hb1 : boot_ok s1 lim) by (rewrite Hon1; exact Hb).
  destruct (page_init_kernel_ok (S (Z.to_nat (npages s0))) s1 end_
              (Z.max 1 (npages_basemem s0)) lim _ Hok1 Hb1 Hfl1)
    as (s2 & Hr2 & Hon2 & Hok2 & Hfl2 & Hout2 & Hin2); simpl in *; [lia| |lia|].
  { intros j Hj. rewrite elem_of_reverse, list_elem_of_filter, elem_of_seqZ. lia. }
  rewrite (bind_Ret _ _ _ _ _ Hr2).
  assert (Hnp2 : npages s2 = npages s) by (by rewrite Hon2).
  destruct (page_init_loop s2 (seqZ lim (npages s - lim)) _ Hok2 Hfl2)
    as (s3 & Hr3 & Hon3 & Hok3 & Hfl3 & Hoth3 & Hmp3);
    [apply NoDup_seqZ| |].
  { intros i Hi%elem_of_seqZ.
    rewrite elem_of_reverse, list_elem_of_filter, elem_of_seqZ, Hnp2. lia. }
  exists s3. split; [done|]. split; [done|]. split; [|split].
  - eapply only_pages_trans; [|exact Hon3]. eapply only_pages_trans; [|exact Hon2].
    eapply only_pages_trans; [|exact Hon1]. unfold s0. by destruct s.
  - unfold usable. by rewrite filter_app, reverse_app.
  - intros p Hp Hnu. rewrite elem_of_usable in Hnu by lia.
    destruct (decide (lim <= p)).
    { assert (p = mpPage) as -> by lia. apply Hmp3, elem_of_seqZ. lia. }
    rewrite Hoth3 by (rewrite elem_of_seqZ; lia).
    destruct (decide (Z.max 1 (npages_basemem s) <= p < lim)); [rewrite Hin2 by lia; eauto|].
    rewrite Hout2 by lia. destruct (decide (p = 0)) as [->|].
    { rewrite Hoth1 by (rewrite elem_of_seqZ; lia). simpl. rewrite lookup_insert_eq. eauto. }
    assert (p = mpPage) as -> by lia. apply Hmp1, elem_of_seqZ. lia.
Qed.
