(* ===== verification/PageTable.v ===== *)
(** * Page tables (second half of [kern/pmap.c])

    The two-level page-table operations, exactly as [pmap.c] performs them on
    physical memory: [pgdir_walk], [boot_map_region], [boot_map_region_large],
    [page_lookup], [page_remove], [page_insert], [tlb_invalidate],
    [mmio_map_region] and [user_mem_check].

    The abstraction is the mapping a page directory denotes: [lookup_pte]
    gives the entry the x86 page walk finds for a directory and table index,
    if both levels are present.  [vm_ok s pds fl] is the invariant of the
    virtual-memory system over all address spaces [pds] at once: directories
    and page tables are distinct frames, none of them free, and every page
    descriptor counts at least the mappings of its page, so that a mapped page
    is never on the free list. *)

From S2P Require Import Prelude Mmu KState PageAlloc.
Open Scope Z_scope.

(** ** The operations *)

(** Address of entry [i] of the table at kernel address [t]. *)
Definition entry_addr (t i : Z) : Z := t + 4 * i.

Definition pgdir_walk (pgdir va create : Z) : K (option Z) :=
  if pgdir =? 0 then panic "pmap->pgdir_walk: the pgdir is NULL!"
  else
    let targetPDE := entry_addr pgdir (PDX va) in
    pde ← kload32 targetPDE;
    if negb (Z.land pde PTE_P =? 0) then
      targetPTEHead ← KADDR (PTE_ADDR pde);
      mret (Some (entry_addr targetPTEHead (PTX va)))
    else if create =? 0 then mret None
    else
      newPage ← page_alloc ALLOC_ZERO;
      match newPage with
      | None => mret None
      | Some newPage =>
        page_incref newPage;;
        let newPagePA := page2pa newPage in
        kstore32 targetPDE (Z.lor (Z.lor (Z.lor newPagePA PTE_P) PTE_W) PTE_U);;
        pde' ← kload32 targetPDE;
        targetPTEHead ← KADDR (PTE_ADDR pde');
        mret (Some (entry_addr targetPTEHead (PTX va)))
      end.

Definition boot_map_region (pgdir va size pa perm : Z) : K unit :=
  let aliVa := ROUNDUP va PGSIZE in
  let aliPa := ROUNDUP pa PGSIZE in
  let aliSize := u32 (ROUNDUP (va + size) PGSIZE - ROUNDUP va PGSIZE) in
  let PGNum := aliSize / PGSIZE in
  mfor (seqZ 0 PGNum) (λ i,
    newPTE ← pgdir_walk pgdir (u32 (aliVa + i * PGSIZE)) 1;
    p ← the newPTE;
    kstore32 p (Z.lor (Z.lor (u32 (aliPa + i * PGSIZE)) perm) PTE_P)).

Definition boot_map_region_large (pgdir va size pa perm : Z) : K unit :=
  let aliVa := ROUNDUP va PTSIZE in
  let aliSize := u32 (ROUNDUP (aliVa + size) PTSIZE - ROUNDUP aliVa PTSIZE) in
  let PGNum := aliSize / PTSIZE in
  mfor (seqZ 0 PGNum) (λ i,
    let targetPDE := entry_addr pgdir (PDX (u32 (va + i * PTSIZE))) in
    pde ← kload32 targetPDE;
    if negb (Z.land pde (Z.lor PTE_P PTE_PS) =? Z.lor PTE_P PTE_PS)
    then kstore32 targetPDE
           (Z.lor (Z.lor (Z.lor (u32 (pa + i * PTSIZE)) perm) PTE_P) PTE_PS)
    else mret tt).

(** The page at [va] and the address of its entry. *)
Definition page_lookup (pgdir va : Z) : K (option (Z * Z)) :=
  targetPTE ← pgdir_walk pgdir va 0;
  match targetPTE with
  | None => mret None
  | Some p =>
    pte ← kload32 p;
    if Z.land pte PTE_P =? 0 then mret None
    else result ← pa2page (PTE_ADDR pte); mret (Some (result, p))
  end.

Definition invlpg (va : Z) : K unit := modify (λ s, set_invlpgs (va :: invlpgs s) s).

Definition tlb_invalidate (pgdir va : Z) : K unit :=
  c ← curenv;
  match c with
  | None => invlpg va
  | Some e => v ← get_env e; if env_pgdir v =? pgdir then invlpg va else mret tt
  end.

Definition page_remove (pgdir va : Z) : K unit :=
  r ← page_lookup pgdir va;
  match r with
  | None => mret tt
  | Some (targetPG, pte_store) =>
    page_decref targetPG;;
    pte ← kload32 pte_store;
    kstore32 pte_store (Z.land pte (Z.lnot PTE_P));;
    tlb_invalidate pgdir va
  end.

Definition page_insert (pgdir pp va perm : Z) : K Z :=
  let finish (targetPTE : Z) : K Z :=
    kstore32 targetPTE (Z.lor (Z.lor (page2pa pp) perm) PTE_P);;
    page_incref pp;;
    mret 0 in
  targetPTE ← pgdir_walk pgdir va 0;
  match targetPTE with
  | None =>
    targetPTE ← pgdir_walk pgdir va 1;
    match targetPTE with
    | None => mret (- E_NO_MEM)
    | Some p => finish p
    end
  | Some p =>
    pte ← kload32 p;
    (if negb (Z.land pte PTE_P =? 0) then page_remove pgdir va else mret tt);;
    fl ← gets page_free_list;
    (if bool_decide (fl = Some pp)
     then pi ← get_page pp; modify (set_page_free_list (pp_link pi))
     else mret tt);;
    finish p
  end.

Definition mmio_map_region (pa size : Z) : K Z :=
  let aSize := ROUNDUP size PGSIZE in
  base ← gets mmio_base;
  if MMIOLIM <? u32 (base + aSize) then panic "mmio_map_region exceed the range"
  else
    kp ← gets kern_pgdir;
    boot_map_region kp base aSize pa (Z.lor (Z.lor PTE_PCD PTE_PWT) PTE_W);;
    modify (set_mmio_base (u32 (base + aSize)));;
    mret base.

(** [user_mem_check] on the address space [pgdir] ([env->env_pgdir]). *)
Fixpoint user_mem_check_loop (fuel : nat) (pgdir tmp_addr end_addr perm : Z) : K Z :=
  match fuel with
  | O => stop OutOfFuel
  | S fuel' =>
    if tmp_addr <? end_addr then
      pte ← pgdir_walk pgdir tmp_addr 0;
      let bad : K Z :=
        modify (set_user_mem_check_addr tmp_addr);; mret (- E_FAULT) in
      match pte with
      | None => bad
      | Some p =>
        e ← kload32 p;
        if negb (u32 (Z.land (Z.lnot e) perm) =? 0) || (ULIM <=? tmp_addr) then bad
        else user_mem_check_loop fuel' pgdir (ROUNDUP (tmp_addr + 1) PGSIZE) end_addr perm
      end
    else mret 0
  end.

Definition user_mem_check (pgdir va len perm : Z) : K Z :=
  let end_addr := ROUNDUP (u32 (va + len)) PGSIZE in
  let start_addr := va in
  user_mem_check_loop (S (Z.to_nat (PGNUM end_addr - PGNUM start_addr)))
    pgdir start_addr end_addr perm.

(** [check_va2pa]: the walk [pmap.c] performs in software to check itself;
    [~0] when unmapped. *)
Definition check_va2pa (pgdir va : Z) : K Z :=
  d ← kload32 (entry_addr pgdir (PDX va));
  if Z.land d PTE_P =? 0 then mret (u32 (-1))
  else
    p ← KADDR (PTE_ADDR d);
    t ← kload32 (entry_addr p (PTX va));
    if Z.land t PTE_P =? 0 then mret (u32 (-1)) else mret (PTE_ADDR t).

(** ** The processor's view

    The kernel's own loads and stores at a virtual address, under the page
    directory in [%cr3] (with [CR0_WP] and [CR4_PSE] set, as [mem_init] sets
    them).  Addresses above [KERNBASE] go through the direct mapping; below
    it, the page tables are walked, and a missing or read-only page faults in
    kernel mode. *)

Definition hw_translate (write : bool) (va : Z) : K Z :=
  if KERNBASE <=? va then mret (va - KERNBASE)
  else
    s ← gets id;
    let d := ld32 (mem s) (cr3 s + 4 * PDX va) in
    let denied e := (Z.land e PTE_P =? 0) || (write && (Z.land e PTE_W =? 0)) in
    if denied d then stop (PageFault va)
    else if negb (Z.land d PTE_PS =? 0) then mret (d / PTSIZE * PTSIZE + va mod PTSIZE)
    else
      let t := ld32 (mem s) (PTE_ADDR d + 4 * PTX va) in
      if denied t then stop (PageFault va) else mret (PTE_ADDR t + PGOFF va).

Definition vload8 (va : Z) : K Z := pa ← hw_translate false va; gets (λ s, mem s pa).
Definition vstore8 (va v : Z) : K unit :=
  pa ← hw_translate true va; modify (λ s, set_mem (st8 (mem s) pa v) s).

(** Little-endian words, byte by byte. *)
Definition vload16 (va : Z) : K Z :=
  a ← vload8 va; b ← vload8 (u32 (va + 1)); mret (a + b * 2 ^ 8).
Definition vload32 (va : Z) : K Z :=
  a ← vload16 va; b ← vload16 (u32 (va + 2)); mret (a + b * 2 ^ 16).
Definition vstore16 (va v : Z) : K unit := vstore8 va v;; vstore8 (u32 (va + 1)) (Z.shiftr v 8).
Definition vstore32 (va v : Z) : K unit := vstore16 va v;; vstore16 (u32 (va + 2)) (Z.shiftr v 16).

(** [memcpy(dst, src, n)] on virtual addresses. *)
Definition vmemcpy (dst src n : Z) : K unit :=
  mfor (seqZ 0 n) (λ i, b ← vload8 (u32 (src + i)); vstore8 (u32 (dst + i)) b).
