(* ===== verification/Quiet.v ===== *)
(** * Computations that leave environments and CPUs alone

    [quiet m]: whatever [m] does, on every way out the environment table, the
    CPUs and the number of the running CPU are what they were, and [m] does
    not leave the kernel for user mode.  The operations on pages and page
    tables are quiet. *)

From S2P Require Import Prelude Mmu Console KState PageAlloc PageTable.
Open Scope Z_scope.

Definition is_exit (st : stopped) : bool := match st with RunEnv _ => true | _ => false end.

Definition quiet {A} (m : K A) : Prop :=
  ∀ s, envs (m s).2 = envs s ∧ cpus (m s).2 = cpus s ∧ cpunum (m s).2 = cpunum s ∧
    match (m s).1 with Stop st => is_exit st = false | Ret _ => True end.

Section quiet.
Context {A B : Type}.

Lemma quiet_ret (a : A) : quiet (mret a).
Proof. done. Qed.

Lemma quiet_gets (f : kstate → A) : quiet (gets f).
Proof. done. Qed.

Lemma quiet_stop st : is_exit st = false → quiet (stop (A := A) st).
Proof. by intros H s. Qed.

Lemma quiet_panic msg : quiet (panic (A := A) msg).
Proof. done. Qed.

Lemma quiet_the (o : option A) : quiet (the o).
Proof. by destruct o. Qed.

Lemma quiet_bind (m : K A) (k : A → K B) : quiet m → (∀ a, quiet (k a)) → quiet (mbind k m).
Proof.
  intros Hm Hk s. unfold mbind, M_bind. specialize (Hm s). destruct (m s) as [[a|st] s1]; cbn in Hm |- *; [|done].
  destruct (Hk a s1) as (H1 & H2 & H3 & H), Hm as (H4 & H5 & H6 & _). split_and!; [congruence..|done].
Qed.

Lemma quiet_mfor (l : list A) (f : A → K unit) : (∀ x, quiet (f x)) → quiet (mfor l f).
Proof.
  intros Hf. induction l as [|x l IH]; cbn [mfor]; [done|]. intros s. unfold mbind, M_bind.
  pose proof (Hf x s) as Hx. destruct (f x s) as [[[]|st] s1]; cbn in Hx |- *; [|done].
  destruct (IH s1) as (H1 & H2 & H3 & H), Hx as (H4 & H5 & H6 & _). split_and!; [congruence..|done].
Qed.
End quiet.

Lemma quiet_modify f : (∀ s, envs (f s) = envs s ∧ cpus (f s) = cpus s ∧ cpunum (f s) = cpunum s) → quiet (modify f).
Proof. intros H s. cbn. destruct (H s) as (? & ? & ?). done. Qed.

Lemma quiet_get_env e : quiet (get_env e).
Proof. apply quiet_bind; [done|]. intros s. apply quiet_the. Qed.

Lemma quiet_thiscpu : quiet thiscpu.
Proof. apply quiet_bind; [done|]. intros s. apply quiet_the. Qed.

Create HintDb kquiet.
#[export] Hint Resolve quiet_ret quiet_gets quiet_panic quiet_the quiet_get_env quiet_thiscpu : kquiet.

(** Follows the text of a function. *)
Ltac qstep :=
  lazymatch goal with
  | |- quiet (mbind _ _) => apply quiet_bind; [|intros ?]
  | |- quiet (match ?x with _ => _ end) => destruct x
  | |- quiet (let _ := _ in _) => cbv zeta
  | |- quiet (modify _) => apply quiet_modify; intros ?; split_and!; reflexivity
  | |- quiet (stop _) => apply quiet_stop; reflexivity
  | |- quiet (mfor _ _) => apply quiet_mfor; intros ?
  | |- quiet ?m => first [solve [auto 2 with kquiet] | let h := head m in progress unfold h]
  end.
Ltac quiet := repeat qstep.

Lemma quiet_hw_translate w va : quiet (hw_translate w va).
Proof. quiet. Qed.

Lemma quiet_page_alloc f : quiet (page_alloc f).
Proof. quiet. Qed.

Lemma quiet_page_decref p : quiet (page_decref p).
Proof. quiet. Qed.

#[export] Hint Resolve quiet_hw_translate quiet_page_alloc quiet_page_decref : kquiet.

Lemma quiet_pgdir_walk d va c : quiet (pgdir_walk d va c).
Proof. quiet. Qed.

#[export] Hint Resolve quiet_pgdir_walk : kquiet.

Lemma quiet_page_remove d va : quiet (page_remove d va).
Proof. quiet. Qed.

#[export] Hint Resolve quiet_page_remove : kquiet.

Lemma quiet_page_insert d pp va perm : quiet (page_insert d pp va perm).
Proof. quiet. Qed.

#[export] Hint Resolve quiet_page_insert : kquiet.

Lemma quiet_ret_eq {A} (m : K A) s a s' :
  quiet m → m s = (Ret a, s') → envs s' = envs s ∧ cpus s' = cpus s ∧ cpunum s' = cpunum s.
Proof. intros Hq E. pose proof (Hq s) as H. rewrite E in H. cbn in H. tauto. Qed.
