(* ===== verification/AddrSpace.v ===== *)
(** * Address spaces: what the page-table operations mean

    The entries of page directories and page tables as the page walk sees
    them, the invariant [vm_ok] over a set of address spaces, and the proof
    that [page_insert] and [page_remove] implement updates of the mapping,
    keep the reference counts above the number of mappings and preserve the
    invariant. *)

From S2P Require Import Prelude Mmu KState PageAlloc PageTable.
Open Scope Z_scope.

(** ** Frames and entries *)

(** Kernel address of page frame [f]; entry [i] of the table in frame [f]. *)
Definition kaddr (f : Z) : Z := f * 4096 + KERNBASE.
Definition entry (s : kstate) (f i : Z) : Z := ld32 (mem s) (f * 4096 + 4 * i).
#[global] Arguments entry : simpl never.
Definition present (v : Z) : bool := negb (Z.land v PTE_P =? 0).

Lemma present_odd v : present v = Z.odd v.
Proof.
  unfold present, PTE_P. change 1 with (Z.ones 1). rewrite Z.land_ones by lia.
  change (2 ^ 1) with 2. rewrite Zmod_odd. by destruct (Z.odd v).
Qed.

Lemma kload_entry s f i : kload32 (entry_addr (kaddr f) i) s = (Ret (entry s f i), s).
Proof.
  unfold kload32, entry, entry_addr, kaddr, gets. do 3 f_equal. lia.
Qed.

Lemma kstore_entry s f i v :
  kstore32 (entry_addr (kaddr f) i) v s =
    (Ret tt, set_mem (st32 (mem s) (f * 4096 + 4 * i) (u32 v)) s).
Proof.
  unfold kstore32, entry_addr, kaddr, modify.
  replace (f * 4096 + KERNBASE + 4 * i - KERNBASE) with (f * 4096 + 4 * i) by lia. done.
Qed.

Definition idx (i : Z) : Prop := 0 <= i < 1024.

Lemma entry_store m f i v f' i' s :
  idx i → idx i' → is_u32 v → m = st32 (mem s) (f * 4096 + 4 * i) v →
  entry (set_mem m s) f' i' = if decide (f' = f ∧ i' = i) then v else entry s f' i'.
Proof.
  unfold idx. intros Hi Hi' Hv ->. unfold entry. simpl. case_decide as Hd.
  - destruct Hd as [-> ->]. by apply ld32_st32_same.
  - apply ld32_st32_other.
    destruct (Z.eq_dec f f') as [->|]; [|nia].
    assert (i ≠ i') by (intros ->; by apply Hd). lia.
Qed.

Lemma entry_zeroed s n f i m :
  idx i → m = mem_set (mem s) (n * 4096) 0 4096 →
  entry (set_mem m s) f i = if decide (f = n) then 0 else entry s f i.
Proof.
  unfold idx. intros Hi ->. unfold entry. simpl. case_decide as Hd.
  - subst. apply ld32_mem_set_in; lia.
  - apply ld32_mem_set_out. nia.
Qed.

(** Entries only depend on memory. *)
Lemma entry_mem s s' f i : mem s' = mem s → entry s' f i = entry s f i.
Proof. unfold entry. by intros ->. Qed.

Lemma entry_u32 s f i : mem_ok (mem s) → is_u32 (entry s f i).
Proof. intros; by apply ld32_range. Qed.

(** A frame address with permission bits, as the code builds it. *)
Lemma frame_perm_u32 n perm : 0 <= n < 65536 → 0 <= perm < 4096 → is_u32 (n * 4096 + perm).
Proof. unfold is_u32. lia. Qed.

(** ** [pgdir_walk] *)

Section walk.
Context (s : kstate) (pd va : Z).
Hypothesis Hok : phys_ok s.
Hypothesis Hmem : mem_ok (mem s).
Hypothesis Hpd : 0 <= pd < npages s.
Let d := entry s pd (PDX va).

Lemma walk_unfold create :
  pgdir_walk (kaddr pd) va create s =
    (if present d then
       (targetPTEHead ← KADDR (PTE_ADDR d);
        mret (Some (entry_addr targetPTEHead (PTX va))))
     else if create =? 0 then mret None
     else
       newPage ← page_alloc ALLOC_ZERO;
       match newPage with
       | None => mret None
       | Some newPage =>
         page_incref newPage;;
         kstore32 (entry_addr (kaddr pd) (PDX va))
           (Z.lor (Z.lor (Z.lor (page2pa newPage) PTE_P) PTE_W) PTE_U);;
         pde' ← kload32 (entry_addr (kaddr pd) (PDX va));
         targetPTEHead ← KADDR (PTE_ADDR pde');
         mret (Some (entry_addr targetPTEHead (PTX va)))
       end) s.
Proof using Hpd.
  unfold pgdir_walk. replace (kaddr pd =? 0) with false by (unfold kaddr, KERNBASE; lia).
  by rewrite (bind_Ret _ _ _ _ _ (kload_entry s pd (PDX va))).
Qed.

Lemma walk_present create :
  present d = true → PGNUM d < npages s →
  pgdir_walk (kaddr pd) va create s =
    (Ret (Some (entry_addr (kaddr (PGNUM d)) (PTX va))), s).
Proof using Hok Hmem Hpd.
  intros Hp Hr. rewrite walk_unfold, Hp.
  pose proof (entry_u32 s pd (PDX va) Hmem) as Hd. fold d in Hd. unfold is_u32 in Hd.
  assert (HA : PTE_ADDR d = PGNUM d * 4096) by (rewrite PTE_ADDR_div, PGNUM_div; lia).
  assert (0 <= PGNUM d) by (rewrite PGNUM_div; apply Z.div_pos; lia).
  rewrite HA. erewrite bind_Ret; [reflexivity|].
  apply KADDR_ok; [done|lia|]. rewrite PGNUM_div, Z.div_mul by lia. done.
Qed.

Lemma walk_absent : present d = false → pgdir_walk (kaddr pd) va 0 s = (Ret None, s).
Proof using Hpd. intros Hp. by rewrite walk_unfold, Hp. Qed.

Lemma walk_nomem create :
  present d = false → page_free_list s = None →
  pgdir_walk (kaddr pd) va create s = (Ret None, s).
Proof using Hpd.
  intros Hp Hf. rewrite walk_unfold, Hp. destruct (create =? 0); [done|].
  by rewrite (bind_Ret _ _ _ _ _ (page_alloc_empty s _ Hf)).
Qed.
End walk.

(** The state after [pgdir_walk] has put a new page table in frame [n], the
    first free page, into slot [i] of directory [pd]. *)
Definition new_table (s : kstate) (pd i n : Z) (l : list Z) : kstate :=
  set_mem (st32 (mem_set (mem s) (n * 4096) 0 4096) (pd * 4096 + 4 * i) (n * 4096 + 7))
    (set_pages (<[n := mkPageInfo (head l) 1]> (pages s))
       (set_page_free_list (head l) s)).

Lemma pte_bits n : Z.lor (Z.lor (Z.lor (n * 4096) PTE_P) PTE_W) PTE_U = n * 4096 + 7.
Proof.
  rewrite <- !Z.lor_assoc. change (Z.lor PTE_P (Z.lor PTE_W PTE_U)) with 7.
  apply pte_lor. lia.
Qed.

Lemma page_incref_eq s p pi :
  pages s !! p = Some pi →
  page_incref p s =
    (Ret tt, set_pages (<[p := mkPageInfo (pp_link pi) (u16 (pp_ref pi + 1))]> (pages s)) s).
Proof.
  intros Hp. unfold page_incref. erewrite bind_Ret by (by apply get_page_eq).
  by apply set_ref_eq.
Qed.

Lemma walk_create s pd va n l create :
  phys_ok s → 0 <= pd < npages s → free_list s (n :: l) →
  present (entry s pd (PDX va)) = false → create ≠ 0 →
  pgdir_walk (kaddr pd) va create s =
    (Ret (Some (entry_addr (kaddr n) (PTX va))), new_table s pd (PDX va) n l).
Proof.
  intros Hok Hpd Hfl Hp Hc. rewrite walk_unfold, Hp by done.
  replace (create =? 0) with false by lia.
  pose proof (free_list_range s _ n Hok Hfl ltac:(set_solver)) as Hn.
  destruct (Hok) as [Hnp _].
  erewrite bind_Ret by (by apply page_alloc_pop).
  destruct (Hfl) as [(_ & link & Hpi & Hl) _].
  rewrite (chain_head _ _ _ Hl) in Hpi.
  erewrite bind_Ret by (by apply page_incref_eq).
  rewrite page2pa_mul, pte_bits by lia.
  erewrite bind_Ret by apply kstore_entry.
  set (s1 := set_mem _ _).
  assert (HE : entry s1 pd (PDX va) = n * 4096 + 7).
  { unfold s1. erewrite entry_store; [|apply PDX_range|apply PDX_range|apply u32_range|reflexivity].
    rewrite decide_True by done. apply u32_small; lia. }
  erewrite bind_Ret by apply kload_entry. rewrite HE, PTE_ADDR_frame by lia.
  assert (Hok1 : phys_ok s1).
  { unfold s1. destruct (pages_insert_dom s n (mkPageInfo (head l) 1) Hok Hn). by constructor. }
  erewrite bind_Ret.
  2:{ apply KADDR_ok; [done|lia|]. rewrite PGNUM_div, Z.div_mul by lia. simpl. lia. }
  unfold mret, M_ret, s1, new_table, page_zeroed. simpl. rewrite u32_small by lia. done.
Qed.

(** ** The mapping a directory denotes *)

(** Directory slots below [UTOP]. *)
Definition UPDX : Z := PDX UTOP.
Definition uidx (i : Z) : Prop := 0 <= i < UPDX.

Lemma UPDX_eq : UPDX = 955.
Proof. reflexivity. Qed.

Lemma uidx_idx i : uidx i → idx i.
Proof. unfold uidx, idx. rewrite UPDX_eq. lia. Qed.

(** The entry the page walk finds for directory index [i], table index [j]. *)
Definition lookup_pte (s : kstate) (pd i j : Z) : option Z :=
  let d := entry s pd i in
  if present d then
    let t := entry s (PGNUM d) j in
    if present t then Some t else None
  else None.

(** Translation of a user address: the page-table entry, if mapped. *)
Definition translate (s : kstate) (pd va : Z) : option Z := lookup_pte s pd (PDX va) (PTX va).

(** All user slots of the address spaces [pds]. *)
Definition slot : Type := Z * Z * Z.

Definition slots (pds : list Z) : list slot :=
  pds ≫= λ pd, seqZ 0 UPDX ≫= λ i, (λ j, (pd, i, j)) <$> seqZ 0 1024.

Definition pte_of (s : kstate) (x : slot) : option Z := lookup_pte s x.1.1 x.1.2 x.2.

(** Slot [x] maps page [p]. *)
Definition maps (s : kstate) (p : Z) (x : slot) : Prop := PGNUM <$> pte_of s x = Some p.

#[export] Instance maps_dec s p x : Decision (maps s p x).
Proof. unfold maps. apply _. Defined.

(** The number of mappings of page [p] below [UTOP]. *)
Definition nmaps (s : kstate) (pds : list Z) (p : Z) : Z :=
  Z.of_nat (length (filter (maps s p) (slots pds))).

Lemma elem_of_slots pds pd i j : (pd, i, j) ∈ slots pds ↔ pd ∈ pds ∧ uidx i ∧ idx j.
Proof.
  unfold slots, uidx, idx. rewrite list_elem_of_bind. split.
  - intros (pd' & (i' & (j' & [= -> -> ->] & Hj)%list_elem_of_fmap & Hi)%list_elem_of_bind & Hp).
    apply elem_of_seqZ in Hi, Hj. repeat split; try done; lia.
  - intros (Hp & Hi & Hj). exists pd. split; [|done]. apply list_elem_of_bind.
    exists i. split; [|apply elem_of_seqZ; lia]. apply list_elem_of_fmap.
    exists j. split; [done|apply elem_of_seqZ; lia].
Qed.

Lemma NoDup_slots pds : NoDup pds → NoDup (slots pds).
Proof.
  intros Hn. unfold slots. apply NoDup_bind; [| |done].
  - intros pd pd' x _ _. rewrite !list_elem_of_bind.
    intros (i & (j & -> & _)%list_elem_of_fmap & _) (i' & (j' & [= -> _ _] & _)%list_elem_of_fmap & _).
    done.
  - intros pd _. apply NoDup_bind; [| |apply NoDup_seqZ].
    + intros i i' x _ _. rewrite !list_elem_of_fmap. by intros (j & -> & _) (j' & [= -> _] & _).
    + intros i _. apply NoDup_fmap; [|apply NoDup_seqZ]. by intros j j' [= ->].
Qed.

(** Frame [f] holds a page table of one of the address spaces. *)
Definition is_pt (s : kstate) (pds : list Z) (f : Z) : Prop :=
  ∃ pd i, pd ∈ pds ∧ uidx i ∧ present (entry s pd i) = true ∧ PGNUM (entry s pd i) = f.

(** ** The invariant of the virtual-memory system *)

Record vm_ok (s : kstate) (pds fl : list Z) : Prop := mk_vm_ok {
  vm_mem : mem_ok (mem s);
  vm_phys : phys_ok s;
  vm_free : free_list s fl;
  vm_nodup : NoDup pds;
  vm_pd : ∀ pd, pd ∈ pds → 0 <= pd < npages s ∧ pd ∉ fl;
  vm_pt : ∀ pd i, pd ∈ pds → uidx i → present (entry s pd i) = true →
    let f := PGNUM (entry s pd i) in f < npages s ∧ f ∉ fl ∧ f ∉ pds;
  vm_inj : ∀ pd i pd' i', pd ∈ pds → pd' ∈ pds → uidx i → uidx i' →
    present (entry s pd i) = true → present (entry s pd' i') = true →
    PGNUM (entry s pd i) = PGNUM (entry s pd' i') → pd = pd' ∧ i = i';
  vm_data : ∀ x t, x ∈ slots pds → pte_of s x = Some t →
    PGNUM t < npages s ∧ PGNUM t ∉ pds ∧ ¬ is_pt s pds (PGNUM t);
  vm_ref : ∀ p pi, pages s !! p = Some pi → nmaps s pds p <= pp_ref pi < 2 ^ 16;
}.

Lemma PGNUM_nonneg v : 0 <= v → 0 <= PGNUM v.
Proof. intros. rewrite PGNUM_div. apply Z.div_pos; lia. Qed.

Lemma pte_of_u32 s x t : mem_ok (mem s) → pte_of s x = Some t → is_u32 t.
Proof.
  intros Hm. unfold pte_of, lookup_pte. repeat case_match; intros [= <-]. by apply entry_u32.
Qed.

Lemma pte_of_present s x t : pte_of s x = Some t → present t = true.
Proof. unfold pte_of, lookup_pte. repeat case_match; by intros [= <-]. Qed.

Section vm_facts.
Context (s : kstate) (pds fl : list Z).
Hypothesis Hvm : vm_ok s pds fl.

(** A mapped page is a physical page with a reference for each mapping. *)
Lemma vm_mapped_page x t :
  x ∈ slots pds → pte_of s x = Some t →
  ∃ pi, pages s !! PGNUM t = Some pi ∧ 1 <= pp_ref pi < 2 ^ 16.
Proof using Hvm.
  intros Hx Ht. destruct (vm_data _ _ _ Hvm x t Hx Ht) as (Hr & _ & _).
  pose proof (pte_of_u32 _ _ _ (vm_mem _ _ _ Hvm) Ht) as Hu. unfold is_u32 in Hu.
  assert (is_Some (pages s !! PGNUM t)) as [pi Hpi].
  { apply (phys_dom s (vm_phys _ _ _ Hvm)). split; [apply PGNUM_nonneg; lia|done]. }
  exists pi. split; [done|]. pose proof (vm_ref _ _ _ Hvm _ _ Hpi) as Href.
  unfold nmaps in Href.
  assert (0 < length (filter (maps s (PGNUM t)) (slots pds)))%nat.
  { apply (filter_length_pos _ _ x Hx). unfold maps. by rewrite Ht. }
  lia.
Qed.

(** No page that is mapped anywhere is on the free list. *)
Lemma vm_mapped_not_free x t : x ∈ slots pds → pte_of s x = Some t → PGNUM t ∉ fl.
Proof using Hvm.
  intros Hx Ht Hin. destruct (vm_mapped_page x t Hx Ht) as (pi & Hpi & Hr).
  destruct (chain_elem _ _ _ _ (proj1 (vm_free _ _ _ Hvm)) Hin) as [link Hl].
  rewrite Hpi in Hl. injection Hl as ->. simpl in Hr. lia.
Qed.

Lemma vm_user_slot pd va : pd ∈ pds → 0 <= va < UTOP → (pd, PDX va, PTX va) ∈ slots pds.
Proof using.
  intros Hpd Hva. apply elem_of_slots. split; [done|]. split; [|apply PTX_range].
  unfold uidx. pose proof (PDX_range va). pose proof (PDX_user va Hva). unfold UPDX. lia.
Qed.
End vm_facts.

(** ** Changing one page-table entry *)

(** The slot [x = (pd, i, j)] is backed by a page table; entry [v] is stored in
    it.  Every other slot and every directory entry is as before. *)
Lemma store_slot_entry s pds fl pd i j v s' :
  vm_ok s pds fl → pd ∈ pds → uidx i → idx j → present (entry s pd i) = true → is_u32 v →
  mem s' = st32 (mem s) (PGNUM (entry s pd i) * 4096 + 4 * j) v →
  (∀ pd' i', pd' ∈ pds → idx i' → entry s' pd' i' = entry s pd' i') ∧
  (∀ y, y ∈ slots pds → pte_of s' y =
     if decide (y = (pd, i, j)) then (if present v then Some v else None) else pte_of s y).
Proof.
  intros Hvm Hpd Hi Hj Hp Hv Hm.
  destruct (vm_pt _ _ _ Hvm pd i Hpd Hi Hp) as (Hr & Hnf & Hnpd). set (f := PGNUM (entry s pd i)) in *.
  assert (HE : ∀ f' i', idx i' →
    entry s' f' i' = if decide (f' = f ∧ i' = j) then v else entry s f' i').
  { intros f' i' Hi'. rewrite (entry_mem (set_mem (mem s') s) s') by done.
    by apply entry_store. }
  assert (HD : ∀ pd' i', pd' ∈ pds → idx i' → entry s' pd' i' = entry s pd' i').
  { intros pd' i' Hpd' Hi'. rewrite HE by done. rewrite decide_False; [done|].
    intros [-> _]. done. }
  split; [done|]. intros [[pd' i'] j'] (Hpd' & Hi' & Hj')%elem_of_slots.
  unfold pte_of, lookup_pte. simpl. rewrite HD by (done || by apply uidx_idx).
  destruct (present (entry s pd' i')) eqn:Hp'.
  - rewrite HE by done. case_decide as Hd.
    + destruct Hd as [Hf ->].
      destruct (vm_inj _ _ _ Hvm pd i pd' i') as [-> ->]; try done.
      by rewrite decide_True.
    + rewrite decide_False; [done|]. intros [= -> -> ->]. by apply Hd.
  - rewrite decide_False; [done|]. intros [= -> -> ->]. congruence.
Qed.

(** One more or one fewer mapping of [p]. *)
Definition ind (P : Prop) `{Decision P} : Z := if decide P then 1 else 0.

Lemma ind_mono (P Q : Prop) `{Decision P} `{Decision Q} : (P → Q) → ind P <= ind Q.
Proof. unfold ind. destruct (decide P), (decide Q); try lia; tauto. Qed.

Lemma ind_range (P : Prop) `{Decision P} : 0 <= ind P <= 1.
Proof. unfold ind. destruct (decide P); lia. Qed.

Lemma ind_true (P : Prop) `{Decision P} : P → ind P = 1.
Proof. unfold ind. destruct (decide P); tauto. Qed.

Lemma ind_false (P : Prop) `{Decision P} : ¬ P → ind P = 0.
Proof. unfold ind. destruct (decide P); tauto. Qed.

Lemma nmaps_update s s' pds x p :
  NoDup pds → x ∈ slots pds →
  (∀ y, y ∈ slots pds → y ≠ x → pte_of s' y = pte_of s y) →
  nmaps s' pds p + ind (maps s p x) = nmaps s pds p + ind (maps s' p x).
Proof.
  intros Hn Hx Hy. unfold nmaps, ind.
  pose proof (filter_length_update (maps s p) (maps s' p) (slots pds) x (NoDup_slots _ Hn) Hx) as H.
  assert (Hiff : ∀ y, y ∈ slots pds → y ≠ x → maps s p y ↔ maps s' p y).
  { intros y Hin Hne. unfold maps. by rewrite Hy. }
  specialize (H Hiff). repeat case_decide; lia.
Qed.

Lemma is_pt_ext s s' pds f :
  (∀ pd i, pd ∈ pds → idx i → entry s' pd i = entry s pd i) → is_pt s' pds f → is_pt s pds f.
Proof.
  intros HE (pd & i & Hpd & Hi & Hp & Hf). exists pd, i.
  rewrite HE in Hp, Hf by (done || by apply uidx_idx). done.
Qed.

Lemma vm_ok_store s s' pds fl fl' pd i j v :
  vm_ok s pds fl → pd ∈ pds → uidx i → idx j → present (entry s pd i) = true → is_u32 v →
  mem s' = st32 (mem s) (PGNUM (entry s pd i) * 4096 + 4 * j) v →
  npages s' = npages s → phys_ok s' → free_list s' fl' →
  (∀ p, p ∈ fl' → p ∉ fl → p ∉ pds ∧ ¬ is_pt s pds p) →
  (present v = true → PGNUM v < npages s ∧ PGNUM v ∉ pds ∧ ¬ is_pt s pds (PGNUM v)) →
  (∀ p pi', pages s' !! p = Some pi' → ∃ pi, pages s !! p = Some pi ∧
     pp_ref pi + ind (present v = true ∧ PGNUM v = p) - ind (maps s p (pd, i, j))
       <= pp_ref pi' < 2 ^ 16) →
  vm_ok s' pds fl'.
Proof.
  intros Hvm Hpd Hi Hj Hp Hv Hm Hnp Hph Hfl Hnew Hvr Href.
  destruct (store_slot_entry s pds fl pd i j v s' Hvm Hpd Hi Hj Hp Hv Hm) as [HD HP].
  assert (Hx : (pd, i, j) ∈ slots pds) by (by apply elem_of_slots).
  constructor.
  - rewrite Hm. apply st32_ok, Hvm.
  - done.
  - done.
  - apply Hvm.
  - intros pd' Hpd'. destruct (vm_pd _ _ _ Hvm pd' Hpd') as [Hr Hnf]. rewrite Hnp.
    split; [done|]. intros Hin. by destruct (Hnew pd' Hin Hnf).
  - intros pd' i' Hpd' Hi'. rewrite HD by (done || by apply uidx_idx). intros Hp'.
    destruct (vm_pt _ _ _ Hvm pd' i' Hpd' Hi' Hp') as (Hr & Hnf & Hnpd). rewrite Hnp.
    split_and!; [done| |done]. intros Hin. destruct (Hnew _ Hin Hnf) as [_ Hn].
    apply Hn. by exists pd', i'.
  - intros p1 i1 p2 i2 H1 H2 Hi1 Hi2. rewrite !HD by (done || by apply uidx_idx).
    by apply (vm_inj _ _ _ Hvm).
  - intros y t Hy. rewrite HP by done. rewrite Hnp.
    destruct (decide (y = (pd, i, j))).
    + destruct (present v) eqn:Hpv; [|done]. intros Ht. injection Ht as <-.
      destruct Hvr as (? & ? & Hn); [done|].
      split_and!; [done|done|]. intros Hin. by apply Hn, (is_pt_ext s s').
    + intros Ht. destruct (vm_data _ _ _ Hvm y t Hy Ht) as (? & ? & Hn).
      split_and!; [done|done|]. intros Hin. by apply Hn, (is_pt_ext s s').
  - intros p pi' Hpi'. destruct (Href p pi' Hpi') as (pi & Hpi & Hr & Hlt). split; [|done].
    pose proof (vm_ref _ _ _ Hvm p pi Hpi) as [Hle _].
    pose proof (nmaps_update s s' pds (pd, i, j) p (vm_nodup _ _ _ Hvm) Hx) as Hc.
    assert (Hother : ∀ y, y ∈ slots pds → y ≠ (pd, i, j) → pte_of s' y = pte_of s y)
      by (intros y Hy Hne; rewrite HP by done; by rewrite decide_False).
    specialize (Hc Hother).
    assert (Hm' : ind (maps s' p (pd, i, j)) <= ind (present v = true ∧ PGNUM v = p)).
    { apply ind_mono. unfold maps. rewrite HP by done. rewrite decide_True by done.
      destruct (present v); [|done]. intros [= <-]. done. }
    lia.
Qed.

(** ** Reference counts and the TLB *)

Definition decref_st (q : Z) (pi : PageInfo) (s : kstate) : kstate :=
  if pp_ref pi =? 1 then pushed q s
  else set_pages (<[q := mkPageInfo (pp_link pi) (pp_ref pi - 1)]> (pages s)) s.

Lemma page_decref_eq s q pi :
  pages s !! q = Some pi → 1 <= pp_ref pi < 2 ^ 16 →
  page_decref q s = (Ret tt, decref_st q pi s).
Proof.
  intros Hq Hr. unfold decref_st. destruct (Z.eqb_spec (pp_ref pi) 1).
  - by apply (page_decref_last s q pi).
  - apply page_decref_more; [done|lia].
Qed.

(** The current environment, if any, exists. *)
Definition cur_ok (s : kstate) : Prop := ∀ e, curenv_of s = Some e → is_Some (envs s !! e).

Definition tlb_flushed (pgdir : Z) (s : kstate) : bool :=
  match curenv_of s with
  | None => true
  | Some e => match envs s !! e with Some v => env_pgdir v =? pgdir | None => false end
  end.

Definition tlb_st (pgdir va : Z) (s : kstate) : kstate :=
  if tlb_flushed pgdir s then set_invlpgs (va :: invlpgs s) s else s.

Lemma tlb_eq s pgdir va : cur_ok s → tlb_invalidate pgdir va s = (Ret tt, tlb_st pgdir va s).
Proof.
  intros Hc. unfold tlb_invalidate, curenv, tlb_st, tlb_flushed. mstep.
  destruct (curenv_of s) as [e|] eqn:He; [|done].
  destruct (Hc e He) as [v Hv]. unfold get_env, the. msimpl. rewrite Hv.
  by destruct (env_pgdir v =? pgdir).
Qed.

Lemma decref_st_fields q pi s :
  mem (decref_st q pi s) = mem s ∧ npages (decref_st q pi s) = npages s ∧
  envs (decref_st q pi s) = envs s ∧ curenv_of (decref_st q pi s) = curenv_of s.
Proof. unfold decref_st. by case_match. Qed.

Lemma tlb_st_fields pgdir va s :
  mem (tlb_st pgdir va s) = mem s ∧ npages (tlb_st pgdir va s) = npages s ∧
  pages (tlb_st pgdir va s) = pages s ∧ page_free_list (tlb_st pgdir va s) = page_free_list s ∧
  envs (tlb_st pgdir va s) = envs s ∧ curenv_of (tlb_st pgdir va s) = curenv_of s.
Proof. unfold tlb_st. by case_match. Qed.

(** ** [page_lookup] *)

Lemma user_uidx va : 0 <= va < UTOP → uidx (PDX va).
Proof.
  intros Hva. pose proof (PDX_range va). pose proof (PDX_user va Hva). unfold uidx, UPDX. lia.
Qed.

Section lookup.
Context (s : kstate) (pds fl : list Z) (pd va : Z).
Hypothesis Hvm : vm_ok s pds fl.
Hypothesis Hpd : pd ∈ pds.
Hypothesis Hva : 0 <= va < UTOP.

Let d := entry s pd (PDX va).
Let x : slot := (pd, PDX va, PTX va).

Lemma walk_user_present create :
  present d = true →
  pgdir_walk (kaddr pd) va create s = (Ret (Some (entry_addr (kaddr (PGNUM d)) (PTX va))), s).
Proof.
  intros Hp. destruct (vm_pd _ _ _ Hvm pd Hpd) as [Hr _].
  destruct (vm_pt _ _ _ Hvm pd (PDX va) Hpd (user_uidx va Hva) Hp) as (Hf & _).
  by apply walk_present; [apply Hvm|apply Hvm| | |].
Qed.

Lemma translate_present t : translate s pd va = Some t → present d = true ∧ t = entry s (PGNUM d) (PTX va) ∧ present t = true.
Proof. unfold translate, lookup_pte. fold d. repeat case_match; intros [= <-]; done. Qed.

Lemma page_lookup_mapped t :
  translate s pd va = Some t →
  page_lookup (kaddr pd) va s =
    (Ret (Some (PGNUM t, entry_addr (kaddr (PGNUM d)) (PTX va))), s).
Proof.
  intros Ht. destruct (translate_present t Ht) as (Hp & Heq & Hpt).
  unfold page_lookup. mrun (by apply walk_user_present).
  mrun (apply kload_entry). rewrite <- Heq.
  unfold present in Hpt. apply negb_true_iff in Hpt. rewrite Hpt.
  destruct (vm_data _ _ _ Hvm x t) as (Hr & _); [by apply vm_user_slot|done|].
  assert (HA : PGNUM (PTE_ADDR t) = PGNUM t).
  { rewrite PTE_ADDR_div, !PGNUM_div, Z.mul_comm, Z.div_mul by lia. done. }
  mrun (apply pa2page_ok; by rewrite HA). by rewrite HA.
Qed.

Lemma page_lookup_unmapped :
  translate s pd va = None → page_lookup (kaddr pd) va s = (Ret None, s).
Proof.
  intros Ht. unfold page_lookup. destruct (vm_pd _ _ _ Hvm pd Hpd) as [Hr _].
  unfold translate, lookup_pte in Ht. fold d in Ht. destruct (present d) eqn:Hp.
  - mrun (by apply walk_user_present).
    mrun (apply kload_entry).
    destruct (present (entry s (PGNUM d) (PTX va))) eqn:Hpt; [done|].
    unfold present in Hpt. apply negb_false_iff in Hpt. by rewrite Hpt.
  - by mrun (apply walk_absent; done).
Qed.
End lookup.

(** ** [page_remove] *)

(** The state after unmapping: the reference is dropped, the present bit of
    the entry cleared, the TLB entry flushed if it could be in use. *)
Definition removed (pd va q : Z) (pi : PageInfo) (t : Z) (s : kstate) : kstate :=
  tlb_st (kaddr pd) va
    (set_mem (st32 (mem s) (PGNUM (entry s pd (PDX va)) * 4096 + 4 * PTX va)
                (Z.land t (Z.lnot PTE_P)))
       (decref_st q pi s)).

Lemma land_not_P t : is_u32 t → is_u32 (Z.land t (Z.lnot PTE_P)) ∧ present (Z.land t (Z.lnot PTE_P)) = false.
Proof.
  unfold is_u32. intros Ht.
  assert (H : Z.land t (Z.lnot PTE_P) = 2 * (t / 2)).
  { unfold PTE_P. change 1 with (Z.ones 1).
    rewrite <- Z.ldiff_land, Z.ldiff_ones_r by lia.
    rewrite Z.shiftl_mul_pow2, Z.shiftr_div_pow2 by lia. change (2 ^ 1) with 2. lia. }
  rewrite H, present_odd. split; [Z.to_euclidean_division_equations; lia|].
  by rewrite Z.odd_mul.
Qed.

Lemma page_remove_eq s pds fl pd va t pi :
  vm_ok s pds fl → pd ∈ pds → 0 <= va < UTOP → cur_ok s →
  translate s pd va = Some t → pages s !! PGNUM t = Some pi → 1 <= pp_ref pi < 2 ^ 16 →
  page_remove (kaddr pd) va s = (Ret tt, removed pd va (PGNUM t) pi t s).
Proof.
  intros Hvm Hpd Hva Hc Ht Hpi Hr. unfold page_remove.
  mrun (by eapply page_lookup_mapped).
  mrun (by apply page_decref_eq).
  destruct (decref_st_fields (PGNUM t) pi s) as (Hm & _ & He & Hcu).
  destruct (translate_present s pd va t Ht) as (_ & Heq & _).
  mrun (apply kload_entry).
  rewrite (entry_mem s (decref_st _ _ _) _ _ Hm), <- Heq.
  mrun (apply kstore_entry). rewrite Hm.
  assert (Hu : is_u32 t) by (rewrite Heq; apply entry_u32, Hvm).
  rewrite u32_small by apply (proj1 (land_not_P t Hu)).
  rewrite tlb_eq; [done|]. intros e. simpl. rewrite He. unfold curenv_of in *. simpl.
  rewrite Hcu. apply Hc.
Qed.

(** A page that is mapped by the slot being cleared is a data page, so the
    freed page is neither a directory nor a page table. *)
Lemma decref_free_list s pds fl x t pi :
  vm_ok s pds fl → x ∈ slots pds → pte_of s x = Some t → pages s !! PGNUM t = Some pi →
  let fl' := if pp_ref pi =? 1 then PGNUM t :: fl else fl in
  let s' := decref_st (PGNUM t) pi s in
  free_list s' fl' ∧ phys_ok s' ∧
  (∀ p, p ∈ fl' → p ∉ fl → p ∉ pds ∧ ¬ is_pt s pds p) ∧
  (∀ p pi', pages s' !! p = Some pi' → ∃ pi0, pages s !! p = Some pi0 ∧
     pp_ref pi' = pp_ref pi0 - ind (p = PGNUM t)).
Proof.
  intros Hvm Hx Ht Hpi. pose proof (vm_mapped_not_free s pds fl Hvm x t Hx Ht) as Hnf.
  destruct (vm_data _ _ _ Hvm x t Hx Ht) as (Hr & Hd & Hnpt).
  assert (Hrange : 0 <= PGNUM t < npages s).
  { apply (phys_dom s (vm_phys _ _ _ Hvm)). by rewrite Hpi. }
  unfold decref_st. destruct (Z.eqb_spec (pp_ref pi) 1) as [He|He]; cbv zeta iota.
  - split; [by apply pushed_free_list; [apply Hvm|]|]. split; [by apply pushed_phys_ok; [apply Hvm|]|].
    split.
    + intros p [->|Hp]%elem_of_cons Hn; done.
    + intros p pi'. simpl. rewrite lookup_insert. case_decide; subst.
      * intros [= <-]. exists pi. split; [done|]. simpl. rewrite ind_true by done. lia.
      * intros Hp. exists pi'. split; [done|]. rewrite ind_false by congruence. lia.
  - split.
    { destruct (vm_free _ _ _ Hvm). split; [by apply chain_insert_ne|done]. }
    split; [by apply pages_insert_dom; [apply Hvm|]|]. split; [done|].
    intros p pi'. simpl. rewrite lookup_insert. case_decide; subst.
    * intros [= <-]. exists pi. split; [done|]. simpl. rewrite ind_true by done. lia.
    * intros Hp. exists pi'. split; [done|]. rewrite ind_false by congruence. lia.
Qed.

(** [s'] differs from [s] only in what the page-table operations write. *)
Definition only_vm (s s' : kstate) : Prop :=
  s' = set_mem (mem s') (set_pages (pages s') (set_page_free_list (page_free_list s')
         (set_invlpgs (invlpgs s') s))).

Lemma only_vm_refl s : only_vm s s.
Proof. by destruct s. Qed.

Lemma only_vm_trans s1 s2 s3 : only_vm s1 s2 → only_vm s2 s3 → only_vm s1 s3.
Proof. unfold only_vm. intros -> ->. by destruct s1. Qed.

Lemma only_vm_removed pd va q pi t s : only_vm s (removed pd va q pi t s).
Proof.
  unfold only_vm, removed, tlb_st, decref_st, pushed. by destruct s; repeat case_match.
Qed.

Lemma only_vm_fields s s' :
  only_vm s s' → npages s' = npages s ∧ envs s' = envs s ∧ cpus s' = cpus s ∧
  cpunum s' = cpunum s ∧ kern_pgdir s' = kern_pgdir s ∧ env_free_list s' = env_free_list s ∧
  curenv_of s' = curenv_of s.
Proof. unfold only_vm. by intros ->. Qed.

Lemma only_vm_cur_ok s s' : only_vm s s' → cur_ok s → cur_ok s'.
Proof.
  intros H Hc e. destruct (only_vm_fields s s' H) as (_ & -> & _ & _ & _ & _ & ->). apply Hc.
Qed.

(** The free list after the mapping of [va] is gone: its page comes first if
    that was the last reference. *)
Definition freed (s : kstate) (pd va : Z) (fl : list Z) : list Z :=
  match translate s pd va with
  | None => fl
  | Some t =>
    match pages s !! PGNUM t with
    | Some pi => if pp_ref pi =? 1 then PGNUM t :: fl else fl
    | None => fl
    end
  end.

(** The bytes of every frame that is neither a directory nor a page table in
    [s'] are those of [s]. *)
Definition data_same (pds : list Z) (s s' : kstate) : Prop :=
  ∀ f k, f ∉ pds → ¬ is_pt s' pds f → 0 <= k < 4096 → mem s' (f * 4096 + k) = mem s (f * 4096 + k).

Lemma data_same_trans pds s1 s2 s3 :
  (∀ f, is_pt s2 pds f → is_pt s3 pds f) →
  data_same pds s1 s2 → data_same pds s2 s3 → data_same pds s1 s3.
Proof. intros H H1 H2 f k Hf Hn Hk. rewrite H2 by done. apply H1; [done| |done]. intros ?. apply Hn. by apply H. Qed.

(** A store into an entry of frame [g] leaves the other frames alone. *)
Lemma data_same_store pds s s' g i v :
  mem s' = st32 (mem s) (g * 4096 + 4 * i) v → idx i → g ∈ pds ∨ is_pt s' pds g → data_same pds s s'.
Proof.
  unfold idx. intros Hm Hi Hg f k Hf Hn Hk. rewrite Hm. apply st32_other_byte.
  assert (f ≠ g) by (intros ->; tauto). nia.
Qed.

Lemma page_remove_spec s pds fl pd va :
  vm_ok s pds fl → pd ∈ pds → 0 <= va < UTOP → cur_ok s →
  let x := (pd, PDX va, PTX va) in
  ∃ s', page_remove (kaddr pd) va s = (Ret tt, s') ∧ vm_ok s' pds (freed s pd va fl) ∧
    only_vm s s' ∧
    (∀ y, y ∈ slots pds → pte_of s' y = if decide (y = x) then None else pte_of s y) ∧
    (∀ pd' i, pd' ∈ pds → idx i → entry s' pd' i = entry s pd' i) ∧
    (∀ p pi', pages s' !! p = Some pi' → ∃ pi, pages s !! p = Some pi ∧
       pp_ref pi' = pp_ref pi - ind (maps s p x)) ∧
    data_same pds s s'.
Proof.
  intros Hvm Hpd Hva Hc x.
  assert (Hx : x ∈ slots pds) by (by apply vm_user_slot).
  assert (Hxt : pte_of s x = translate s pd va) by done.
  unfold freed. destruct (translate s pd va) as [t|] eqn:Ht.
  2:{ exists s. split; [unfold page_remove; by mrun (by eapply page_lookup_unmapped)|].
      split_and!; [done|apply only_vm_refl| |done| |done].
      - intros y Hy. destruct (decide (y = x)); by subst.
      - intros p pi' Hp. exists pi'. split; [done|].
        rewrite ind_false by (unfold maps; by rewrite Hxt). lia. }
  destruct (vm_mapped_page s pds fl Hvm x t Hx Ht) as (pi & Hpi & Hr). rewrite Hpi.
  destruct (decref_free_list s pds fl x t pi Hvm Hx Ht Hpi) as (Hfl' & Hph' & Hnew & Href).
  destruct (translate_present s pd va t Ht) as (Hp & Heq & _).
  assert (Hu : is_u32 t) by (rewrite Heq; apply entry_u32, Hvm).
  destruct (land_not_P t Hu) as [Hu' Hnp'].
  set (fl' := if pp_ref pi =? 1 then PGNUM t :: fl else fl) in *.
  set (s' := removed pd va (PGNUM t) pi t s).
  assert (T : mem s' = st32 (mem s) (PGNUM (entry s pd (PDX va)) * 4096 + 4 * PTX va)
                         (Z.land t (Z.lnot PTE_P)) ∧
              npages s' = npages s ∧ pages s' = pages (decref_st (PGNUM t) pi s) ∧
              page_free_list s' = page_free_list (decref_st (PGNUM t) pi s)).
  { unfold s', removed, tlb_st, decref_st. by repeat case_match. }
  destruct T as (Tm & Tn & Tp & Tf).
  assert (Hmx : ∀ p, maps s p x ↔ p = PGNUM t).
  { intros p. unfold maps. rewrite Hxt. simpl. split; [by intros [= ->]|by intros ->]. }
  destruct (store_slot_entry s pds fl pd (PDX va) (PTX va) _ s' Hvm Hpd (user_uidx va Hva)
              (PTX_range va) Hp Hu' Tm) as [HD HP].
  exists s'. split; [by eapply page_remove_eq|]. split_and!.
  - eapply (vm_ok_store s s' pds fl fl' pd (PDX va) (PTX va) _ Hvm Hpd (user_uidx va Hva)
              (PTX_range va) Hp Hu' Tm); [done| | |done|congruence|].
    + destruct (decref_st_fields (PGNUM t) pi s) as (_ & Hnpg & _).
      destruct Hph' as [Hn0 Hd0]. rewrite Hnpg in Hn0, Hd0. constructor; [by rewrite Tn|].
      intros p. rewrite Tp, Tn. apply Hd0.
    + unfold free_list. by rewrite Tp, Tf.
    + intros p pi'. rewrite Tp. intros Hpi'. destruct (Href p pi' Hpi') as (pi0 & Hpi0 & Hrr).
      exists pi0. split; [done|]. pose proof (vm_ref _ _ _ Hvm p pi0 Hpi0).
      rewrite (ind_false (present _ = true ∧ _)) by (rewrite Hnp'; by intros [? _]).
      pose proof (ind_mono (p = PGNUM t) (maps s p x) ltac:(apply Hmx)).
      pose proof (ind_range (p = PGNUM t)). unfold x in *. lia.
  - apply only_vm_removed.
  - intros y Hy. rewrite HP by done. fold x. by rewrite Hnp'.
  - done.
  - intros p pi'. rewrite Tp. intros Hpi'. destruct (Href p pi' Hpi') as (pi0 & Hpi0 & ->).
    exists pi0. split; [done|]. f_equal. specialize (Hmx p). unfold ind.
    destruct (decide (p = PGNUM t)), (decide (maps s p x)); tauto.
  - apply (data_same_store pds s s' _ _ _ Tm (PTX_range va)). right. exists pd, (PDX va).
    rewrite HD by (done || apply PDX_range). split_and!; [done|by apply user_uidx|done|done].
Qed.

(** C2: [page_remove] keeps the invariant, unmaps exactly [va], and drops exactly
    one reference of the page that was there; the page is freed when that was
    the last one. *)
Theorem page_remove_correct s pds fl pd va :
  vm_ok s pds fl → pd ∈ pds → 0 <= va < UTOP → cur_ok s →
  let x := (pd, PDX va, PTX va) in
  ∃ s', page_remove (kaddr pd) va s = (Ret tt, s') ∧ vm_ok s' pds (freed s pd va fl) ∧
    only_vm s s' ∧
    (∀ y, y ∈ slots pds → pte_of s' y = if decide (y = x) then None else pte_of s y) ∧
    (∀ pd' i, pd' ∈ pds → idx i → entry s' pd' i = entry s pd' i) ∧
    (∀ p pi', pages s' !! p = Some pi' → ∃ pi, pages s !! p = Some pi ∧
       pp_ref pi' = pp_ref pi - ind (maps s p x)) ∧
    data_same pds s s'.
Proof. exact (page_remove_spec s pds fl pd va). Qed.

(** ** A new page table *)

Lemma new_table_entry s pd i n l f' i' :
  0 <= n < 65536 → idx i → idx i' →
  entry (new_table s pd i n l) f' i' =
    if decide (f' = pd ∧ i' = i) then n * 4096 + 7
    else if decide (f' = n) then 0 else entry s f' i'.
Proof.
  intros Hn Hi Hi'. unfold new_table.
  set (s0 := set_mem (mem_set (mem s) (n * 4096) 0 4096) s).
  rewrite (entry_mem (set_mem (st32 (mem s0) (pd * 4096 + 4 * i) (n * 4096 + 7)) s0)) by done.
  rewrite (entry_store _ pd i (n * 4096 + 7)) by (done || apply frame_perm_u32; lia).
  case_decide; [done|]. by apply entry_zeroed.
Qed.

(** Putting a fresh, cleared page table into an empty directory slot changes no
    mapping and keeps the invariant; the new table leaves the free list. *)
Lemma vm_ok_new_table s pds n l pd i :
  vm_ok s pds (n :: l) → pd ∈ pds → uidx i → present (entry s pd i) = false →
  let s' := new_table s pd i n l in
  vm_ok s' pds l ∧ present (entry s' pd i) = true ∧ PGNUM (entry s' pd i) = n ∧
  (∀ y, y ∈ slots pds → pte_of s' y = pte_of s y).
Proof.
  intros Hvm Hpd Hi Habs s'. pose proof (uidx_idx i Hi) as Hii.
  pose proof (vm_free _ _ _ Hvm) as Hfl.
  pose proof (free_list_range s _ n (vm_phys _ _ _ Hvm) Hfl ltac:(set_solver)) as Hn.
  pose proof (phys_npages s (vm_phys _ _ _ Hvm)) as Hnp.
  assert (Hnpd : ∀ p, p ∈ pds → p ≠ n).
  { intros p Hp ->. destruct (vm_pd _ _ _ Hvm n Hp). set_solver. }
  assert (HE : ∀ f i', idx i' → entry s' f i' =
    if decide (f = pd ∧ i' = i) then n * 4096 + 7 else if decide (f = n) then 0 else entry s f i')
    by (intros; apply new_table_entry; lia || done).
  assert (HD : ∀ p i', p ∈ pds → idx i' →
    entry s' p i' = if decide (p = pd ∧ i' = i) then n * 4096 + 7 else entry s p i').
  { intros p i' Hp Hi'. rewrite HE by done. case_decide; [done|].
    by rewrite decide_False by (by apply Hnpd). }
  assert (HPI : entry s' pd i = n * 4096 + 7) by (rewrite HD by done; by rewrite decide_True).
  assert (HPR : present (n * 4096 + 7) = true).
  { rewrite present_odd, Z.odd_add, Z.odd_mul. by rewrite andb_false_r. }
  assert (HPG : PGNUM (n * 4096 + 7) = n) by (apply PGNUM_frame; lia).
  assert (HPO : ∀ y, y ∈ slots pds → pte_of s' y = pte_of s y).
  { intros [[p i'] j'] (Hp & Hi' & Hj')%elem_of_slots. unfold pte_of, lookup_pte. cbn [fst snd].
    rewrite HD by (done || by apply uidx_idx). case_decide as Hd.
    - destruct Hd as [-> ->]. rewrite HPR, HPG, Habs, HE by done.
      rewrite decide_False by (intros [E _]; by apply (Hnpd pd)).
      by rewrite decide_True by done.
    - destruct (present (entry s p i')) eqn:Hp'; [|done].
      destruct (vm_pt _ _ _ Hvm p i' Hp Hi' Hp') as (_ & Hnf & Hnpd').
      rewrite HE by done. rewrite decide_False by (intros [E _]; by rewrite E in Hnpd').
      rewrite decide_False by set_solver. done. }
  destruct (Hfl) as [(Ho & link & Hlk & Hch) [Hnl Hnd]%NoDup_cons].
  pose proof (chain_head _ _ _ Hch) as ->.
  split; [|split; [by rewrite HPI|split; [by rewrite HPI|done]]].
  constructor.
  - simpl. apply st32_ok, mem_set_ok, Hvm.
  - unfold s', new_table.
    destruct (pages_insert_dom s n (mkPageInfo (head l) 1) (vm_phys _ _ _ Hvm) Hn). by constructor.
  - split; [by apply chain_insert_ne|done].
  - apply Hvm.
  - intros p Hp. destruct (vm_pd _ _ _ Hvm p Hp). split; [done|set_solver].
  - intros p i' Hp Hi'. rewrite HD by (done || by apply uidx_idx). case_decide.
    + intros _. rewrite HPG. simpl. split_and!; [lia|done|]. intros Hin. by apply (Hnpd n).
    + intros Hpr. destruct (vm_pt _ _ _ Hvm p i' Hp Hi' Hpr) as (? & ? & ?).
      simpl. split_and!; [done|set_solver|done].
  - intros p1 i1 p2 i2 H1 H2 Hi1 Hi2. rewrite !HD by (done || by apply uidx_idx).
    case_decide as D1; case_decide as D2; rewrite ?HPG.
    + destruct D1 as [-> ->], D2 as [-> ->]. done.
    + intros _ Hpr Hq. destruct (vm_pt _ _ _ Hvm p2 i2 H2 Hi2 Hpr) as (_ & Hnf & _). set_solver.
    + intros Hpr _ Hq. destruct (vm_pt _ _ _ Hvm p1 i1 H1 Hi1 Hpr) as (_ & Hnf & _). set_solver.
    + by apply (vm_inj _ _ _ Hvm).
  - intros y t Hy. rewrite HPO by done. intros Ht.
    destruct (vm_data _ _ _ Hvm y t Hy Ht) as (Hr & Hnd' & Hnpt).
    pose proof (vm_mapped_not_free s pds _ Hvm y t Hy Ht) as Hnf.
    split_and!; [done|done|]. intros (p & i' & Hp & Hi' & Hpr & Hq).
    rewrite HD in Hpr, Hq by (done || by apply uidx_idx). case_decide.
    + rewrite HPG in Hq. set_solver.
    + apply Hnpt. by exists p, i'.
  - intros p pi'. assert (Heq : nmaps s' pds p = nmaps s pds p).
    { unfold nmaps. f_equal. apply filter_length_iff. intros y Hy. unfold maps. by rewrite HPO. }
    rewrite Heq. simpl. rewrite lookup_insert. case_decide; subst; [|apply (vm_ref _ _ _ Hvm)].
    intros [= <-]. pose proof (vm_ref _ _ _ Hvm _ _ Hlk). simpl in *. lia.
Qed.
