(* ===== verification/PageInsert.v ===== *)
(** * [page_insert] implements an update of the address space

    [page_insert] on every path: a fresh page table, an empty slot, a slot
    that maps another page, and the re-insertion of the page already there.
    On success the mapping of the address space changes at [va] only, the
    reference counts change by the old and the new mapping only, and the
    invariant of the virtual-memory system is kept. *)

From S2P Require Import Prelude Mmu KState PageAlloc PageTable AddrSpace.
Open Scope Z_scope.

(** The entry the code stores. *)
Definition new_pte (pp perm : Z) : Z := pp * 4096 + Z.lor perm PTE_P.

Lemma perm_P perm : 0 <= perm < 4096 → 0 <= Z.lor perm PTE_P < 4096.
Proof.
  intros H. unfold PTE_P. split; [apply Z.lor_nonneg; lia|].
  destruct (Z.eq_dec (Z.lor perm 1) 0) as [->|]; [lia|].
  change 4096 with (2 ^ 12). apply Z.log2_lt_pow2; [pose proof (proj2 (Z.lor_nonneg perm 1)); lia|].
  rewrite Z.log2_lor by lia. change (Z.log2 1) with 0.
  destruct (Z.eq_dec perm 0) as [->|]; [simpl; lia|].
  assert (Z.log2 perm < 12) by (apply Z.log2_lt_pow2; lia). lia.
Qed.

Lemma new_pte_facts pp perm :
  0 <= pp < 65536 → 0 <= perm < 4096 →
  u32 (Z.lor (Z.lor (page2pa pp) perm) PTE_P) = new_pte pp perm ∧
  is_u32 (new_pte pp perm) ∧ present (new_pte pp perm) = true ∧ PGNUM (new_pte pp perm) = pp.
Proof.
  intros Hpp Hperm. pose proof (perm_P perm Hperm) as HP. unfold new_pte.
  rewrite page2pa_mul, <- Z.lor_assoc, pte_lor by done.
  split_and!; [apply u32_small; lia|unfold is_u32; lia| |apply PGNUM_frame; lia].
  rewrite present_odd, Z.odd_add, Z.odd_mul. rewrite andb_false_r. simpl.
  rewrite <- Z.bit0_odd, Z.lor_spec. by rewrite orb_true_r.
Qed.

(** What the code does once it has the entry's address. *)
Definition insert_finish (targetPTE pp perm : Z) : K Z :=
  kstore32 targetPTE (Z.lor (Z.lor (page2pa pp) perm) PTE_P);;
  page_incref pp;;
  mret 0.

(** Page [pp] may be mapped: it is an allocated data page whose count has room
    for one more reference. *)
Definition mappable (s : kstate) (pds fl : list Z) (pp : Z) : Prop :=
  pp ∉ fl ∧ pp ∉ pds ∧ ¬ is_pt s pds pp ∧
  ∃ pi, pages s !! pp = Some pi ∧ pp_ref pi < 2 ^ 16 - 1.

(** Taking the first page off the free list without using it yet. *)
Lemma vm_ok_pop s pds p l :
  vm_ok s pds (p :: l) → vm_ok (set_page_free_list (head l) s) pds l.
Proof.
  intros Hvm. destruct (vm_free _ _ _ Hvm) as [(_ & link & _ & Hch) [Hnl Hnd]%NoDup_cons].
  pose proof (chain_head _ _ _ Hch) as ->. constructor; try apply Hvm.
  - destruct (vm_phys _ _ _ Hvm). by constructor.
  - by split.
  - intros q Hq. destruct (vm_pd _ _ _ Hvm q Hq). split; [done|set_solver].
  - intros q i Hq Hi Hp. destruct (vm_pt _ _ _ Hvm q i Hq Hi Hp) as (? & ? & ?).
    simpl. split_and!; [done|set_solver|done].
Qed.

Section insert.
Context (pds : list Z) (pd va pp perm : Z).
Hypothesis Hpd : pd ∈ pds.
Hypothesis Hva : 0 <= va < UTOP.
Hypothesis Hperm : 0 <= perm < 4096.
Abbreviation x := (pd, PDX va, PTX va).

(** Storing into an entry that is not present. *)
Lemma insert_absent s fl :
  vm_ok s pds fl → mappable s pds fl pp →
  present (entry s pd (PDX va)) = true → pte_of s x = None →
  ∃ s', insert_finish (entry_addr (kaddr (PGNUM (entry s pd (PDX va)))) (PTX va)) pp perm s
          = (Ret 0, s') ∧
    vm_ok s' pds fl ∧ only_vm s s' ∧
    (∀ y, y ∈ slots pds → pte_of s' y = if decide (y = x) then Some (new_pte pp perm) else pte_of s y) ∧
    (∀ p pi', pages s' !! p = Some pi' → ∃ pi, pages s !! p = Some pi ∧
       pp_ref pi' = pp_ref pi + ind (p = pp)) ∧
    data_same pds s s' ∧ (∀ f, is_pt s pds f → is_pt s' pds f) ∧
    (∀ pd' i, pd' ∈ pds → idx i → entry s' pd' i = entry s pd' i).
Proof.
  intros Hvm (Hnf & Hnd & Hnpt & pi & Hpi & Hroom) Hp Hnone.
  assert (Hr : 0 <= pp < npages s) by (apply (phys_dom s (vm_phys _ _ _ Hvm)); by rewrite Hpi).
  pose proof (phys_npages s (vm_phys _ _ _ Hvm)) as Hnp.
  destruct (new_pte_facts pp perm ltac:(lia) Hperm) as (Hu & Hv & Hpv & HG).
  pose proof (vm_ref _ _ _ Hvm pp pi Hpi) as Href0.
  assert (0 <= nmaps s pds pp) by (unfold nmaps; lia).
  set (f := PGNUM (entry s pd (PDX va))) in *.
  set (m' := st32 (mem s) (f * 4096 + 4 * PTX va) (new_pte pp perm)).
  set (s' := set_pages (<[pp := mkPageInfo (pp_link pi) (pp_ref pi + 1)]> (pages s)) (set_mem m' s)).
  assert (Hrun : insert_finish (entry_addr (kaddr f) (PTX va)) pp perm s = (Ret 0, s')).
  { unfold insert_finish. mrun (apply kstore_entry). rewrite Hu.
    mrun (by apply page_incref_eq). by rewrite u16_small by lia. }
  assert (Hpages : ∀ p pi', pages s' !! p = Some pi' → ∃ pi0, pages s !! p = Some pi0 ∧
    pp_ref pi' = pp_ref pi0 + ind (p = pp)).
  { intros p pi'. simpl. rewrite lookup_insert. case_decide; subst.
    - intros [= <-]. exists pi. simpl. by rewrite ind_true.
    - intros Hpi'. exists pi'. rewrite ind_false by congruence. split; [done|lia]. }
  destruct (store_slot_entry s pds fl pd (PDX va) (PTX va) _ s' Hvm Hpd (user_uidx va Hva)
            (PTX_range va) Hp Hv eq_refl) as [HD HP].
  exists s'. split; [done|]. split_and!.
  - eapply (vm_ok_store s s' pds fl fl pd (PDX va) (PTX va) _ Hvm Hpd (user_uidx va Hva)
              (PTX_range va) Hp Hv eq_refl); [done| | |done| |].
    + by apply (pages_insert_dom (set_mem m' s)); [destruct (vm_phys _ _ _ Hvm); constructor|].
    + destruct (vm_free _ _ _ Hvm). split; [by apply chain_insert_ne|done].
    + intros _. rewrite HG. split_and!; [lia|done|done].
    + intros p pi' Hpi'. destruct (Hpages p pi' Hpi') as (pi0 & Hpi0 & ->).
      exists pi0. split; [done|]. pose proof (vm_ref _ _ _ Hvm p pi0 Hpi0).
      rewrite (ind_false (maps s p x)) by (unfold maps; by rewrite Hnone).
      pose proof (ind_mono (present (new_pte pp perm) = true ∧ PGNUM (new_pte pp perm) = p) (p = pp)).
      rewrite HG in *. split; [lia|].
      destruct (decide (p = pp)) as [->|]; [|rewrite ind_false by done; lia].
      rewrite Hpi in Hpi0. injection Hpi0 as <-. rewrite ind_true by done. lia.
  - unfold only_vm, s'. by destruct s.
  - intros y Hy. rewrite HP by done. by rewrite Hpv.
  - done.
  - apply (data_same_store pds s s' f (PTX va) (new_pte pp perm) eq_refl (PTX_range va)).
    right. exists pd, (PDX va). rewrite HD by (done || apply PDX_range).
    split_and!; [done|by apply user_uidx|done|done].
  - intros g. apply is_pt_ext. intros p i Hpp Hi. symmetry. by apply HD.
  - intros p i Hpp Hi. by apply HD.
Qed.

Lemma page_insert_unfold s :
  page_insert (kaddr pd) pp va perm s =
    (targetPTE ← pgdir_walk (kaddr pd) va 0;
     match targetPTE with
     | None =>
       targetPTE ← pgdir_walk (kaddr pd) va 1;
       match targetPTE with
       | None => mret (- E_NO_MEM)
       | Some p => insert_finish p pp perm
       end
     | Some p =>
       pte ← kload32 p;
       (if present pte then page_remove (kaddr pd) va else mret tt);;
       fl ← gets page_free_list;
       (if bool_decide (fl = Some pp)
        then pi ← get_page pp; modify (set_page_free_list (pp_link pi))
        else mret tt);;
       insert_finish p pp perm
     end) s.
Proof. done. Qed.

(** The page table exists and the slot is free: nothing to remove. *)
Lemma page_insert_free s fl :
  vm_ok s pds fl → mappable s pds fl pp →
  present (entry s pd (PDX va)) = true → pte_of s x = None →
  page_insert (kaddr pd) pp va perm s =
    insert_finish (entry_addr (kaddr (PGNUM (entry s pd (PDX va)))) (PTX va)) pp perm s.
Proof.
  intros Hvm (Hnf & _) Hp Hnone. rewrite page_insert_unfold.
  mrun (by eapply walk_user_present). mrun (apply kload_entry).
  assert (Hnp : present (entry s (PGNUM (entry s pd (PDX va))) (PTX va)) = false).
  { unfold pte_of, lookup_pte in Hnone. simpl in Hnone. rewrite Hp in Hnone. by case_match. }
  rewrite Hnp. do 2 mstep. rewrite bool_decide_eq_false_2; [done|].
  destruct (vm_free _ _ _ Hvm) as [Hch _]. rewrite (chain_head _ _ _ Hch).
  destruct fl; simpl; [done|]. intros [= ->]. set_solver.
Qed.
End insert.

(** Removing a mapping leaves a mappable page mappable, up to the free list. *)
Lemma mappable_after s s' pds fl fl' pp :
  mappable s pds fl pp → pp ∉ fl' →
  (∀ pd i, pd ∈ pds → idx i → entry s' pd i = entry s pd i) →
  (∀ p, is_Some (pages s !! p) → is_Some (pages s' !! p)) →
  (∀ p pi', pages s' !! p = Some pi' → ∃ pi, pages s !! p = Some pi ∧ pp_ref pi' <= pp_ref pi) →
  mappable s' pds fl' pp.
Proof.
  intros (Hnf & Hnd & Hnpt & pi & Hpi & Hroom) Hnf' HE Hdom Href.
  split; [done|]. split; [done|]. split; [intros H; by apply Hnpt, (is_pt_ext s s')|].
  destruct (Hdom pp ltac:(by rewrite Hpi)) as [pi' Hpi']. exists pi'. split; [done|].
  destruct (Href pp pi' Hpi') as (pi0 & Hpi0 & Hle). rewrite Hpi in Hpi0. injection Hpi0 as <-. lia.
Qed.

Lemma only_vm_new_table s pd i n l : only_vm s (new_table s pd i n l).
Proof. unfold only_vm, new_table. by destruct s. Qed.

Lemma is_pt_new_table s pds n l pd i pp :
  vm_ok s pds (n :: l) → uidx i → is_pt (new_table s pd i n l) pds pp → pp = n ∨ is_pt s pds pp.
Proof.
  intros Hvm Hi (p & j & Hpp & Hj & Hpr & Hq).
  pose proof (free_list_range s _ n (vm_phys _ _ _ Hvm) (vm_free _ _ _ Hvm) ltac:(by left)).
  pose proof (phys_npages s (vm_phys _ _ _ Hvm)).
  destruct (vm_pd _ _ _ Hvm p Hpp) as [_ Hpn]. rewrite elem_of_cons in Hpn.
  rewrite new_table_entry in Hpr, Hq by (lia || by apply uidx_idx).
  destruct (decide (p = pd ∧ j = i)) as [[-> ->]|Hd].
  - left. rewrite PGNUM_frame in Hq by lia. done.
  - right. rewrite decide_False in Hpr, Hq by tauto. by exists p, j.
Qed.

Lemma data_same_new_table s pds n l pd i :
  pd ∈ pds → uidx i → present (entry (new_table s pd i n l) pd i) = true →
  PGNUM (entry (new_table s pd i n l) pd i) = n → data_same pds s (new_table s pd i n l).
Proof.
  intros Hpd Hi Hp Hn f k Hf Hnt Hk. cbn [mem new_table set_mem].
  pose proof (uidx_idx i Hi) as Hii. unfold idx in Hii.
  assert (f ≠ pd) by (intros ->; done).
  assert (f ≠ n) by (intros ->; apply Hnt; by exists pd, i).
  rewrite st32_other_byte by nia. apply mem_set_out. nia.
Qed.

Lemma mappable_new_table s pds n l pd i pp :
  vm_ok s pds (n :: l) → uidx i → mappable s pds (n :: l) pp →
  mappable (new_table s pd i n l) pds l pp.
Proof.
  intros Hvm Hi (Hnf & Hnd & Hnpt & pi & Hpi & Hroom). rewrite elem_of_cons in Hnf.
  split; [tauto|]. split; [done|]. split.
  - intros [?|?]%is_pt_new_table; tauto.
  - exists pi. split; [|done]. simpl. rewrite lookup_insert_ne by (intros ->; tauto). done.
Qed.

(** The free list after a successful insertion: a page table may have been
    taken from its head, or the page that was mapped may have joined it. *)
Definition insert_free (s : kstate) (pd va pp : Z) (fl : list Z) : list Z :=
  if present (entry s pd (PDX va)) then
    if decide (maps s pp (pd, PDX va, PTX va)) then fl else freed s pd va fl
  else tail fl.

Section insert_mapped.
Context (s : kstate) (pds fl : list Z) (pd va pp perm : Z).
Hypothesis Hvm : vm_ok s pds fl.
Hypothesis Hpd : pd ∈ pds.
Hypothesis Hva : 0 <= va < UTOP.
Hypothesis Hcur : cur_ok s.
Hypothesis Hmap : mappable s pds fl pp.
Hypothesis Hp : present (entry s pd (PDX va)) = true.
Abbreviation x := (pd, PDX va, PTX va).

(** Unmapping what was at [va], then taking [pp] back if it was freed. *)
Lemma unmap_and_reclaim t :
  pte_of s x = Some t →
  ∃ s', (page_remove (kaddr pd) va;;
         fl ← gets page_free_list;
         if bool_decide (fl = Some pp)
         then pi ← get_page pp; modify (set_page_free_list (pp_link pi))
         else mret tt) s = (Ret tt, s') ∧
    let fl' := insert_free s pd va pp fl in
    vm_ok s' pds fl' ∧ only_vm s s' ∧ mappable s' pds fl' pp ∧
    (∀ y, y ∈ slots pds → pte_of s' y = if decide (y = x) then None else pte_of s y) ∧
    (∀ pd' i, pd' ∈ pds → idx i → entry s' pd' i = entry s pd' i) ∧
    (∀ p pi', pages s' !! p = Some pi' → ∃ pi, pages s !! p = Some pi ∧
       pp_ref pi' = pp_ref pi - ind (maps s p x)) ∧
    data_same pds s s'.
Proof using Hvm Hpd Hva Hcur Hmap Hp.
  intros Ht. destruct (page_remove_spec s pds fl pd va Hvm Hpd Hva Hcur)
    as (s1 & Hrun & Hvm1 & Hon & HP & HE & Href & Hdata).
  assert (Hx : x ∈ slots pds) by (by apply vm_user_slot).
  destruct (vm_mapped_page s pds fl Hvm x t Hx Ht) as (pi & Hpi & Hr).
  assert (Hdom : ∀ p, is_Some (pages s !! p) → is_Some (pages s1 !! p)).
  { intros p. rewrite (phys_dom s (vm_phys _ _ _ Hvm)), (phys_dom s1 (vm_phys _ _ _ Hvm1)).
    by destruct (only_vm_fields s s1 Hon) as [-> _]. }
  assert (Hle : ∀ p pi', pages s1 !! p = Some pi' → ∃ pi, pages s !! p = Some pi ∧ pp_ref pi' <= pp_ref pi).
  { intros p pi' Hp'. destruct (Href p pi' Hp') as (pi0 & H0 & ->). exists pi0.
    split; [done|]. pose proof (ind_range (maps s p x)). lia. }
  destruct (Hmap) as (Hnf & _). rewrite (bind_Ret _ _ _ _ _ Hrun). mstep.
  rewrite (chain_head _ _ _ (proj1 (vm_free _ _ _ Hvm1))).
  unfold insert_free, freed in *. rewrite Hp. unfold translate in *.
  change (lookup_pte s pd (PDX va) (PTX va)) with (pte_of s x) in *. rewrite Ht, Hpi in *.
  assert (Hmaps : maps s pp x ↔ PGNUM t = pp).
  { unfold maps. rewrite Ht. simpl. split; [by intros [= ->]|by intros ->]. }
  assert (Hkeep : ∀ fl', pp ∉ fl' → mappable s1 pds fl' pp).
  { intros fl' Hn. by eapply mappable_after. }
  assert (Hnot : pp ∉ fl → head fl ≠ Some pp) by (destruct fl; set_solver).
  destruct (Z.eqb_spec (pp_ref pi) 1) as [He|He].
  - destruct (decide (PGNUM t = pp)) as [<-|Hne].
    + rewrite bool_decide_eq_true_2 by done.
      destruct (vm_free _ _ _ Hvm1) as [(_ & link & Hlk & Hch) _].
      pose proof (chain_head _ _ _ Hch) as ->.
      mrun (by apply get_page_eq). eexists. split; [done|].
      rewrite decide_True by (by apply Hmaps). cbn [pp_link].
      split_and!; [by apply (vm_ok_pop s1 pds (PGNUM t))| | |done|done|done|exact Hdata].
      * eapply only_vm_trans; [exact Hon|]. unfold only_vm. by destruct s1.
      * destruct (Hkeep fl Hnf) as (? & ? & ? & ?). done.
    + rewrite bool_decide_eq_false_2 by (simpl; congruence).
      exists s1. split; [done|]. rewrite decide_False by tauto.
      split_and!; try done. apply Hkeep. set_solver.
  - rewrite bool_decide_eq_false_2 by auto. exists s1. split; [done|].
    destruct (decide (maps s pp x)); split_and!; try done; by apply Hkeep.
Qed.
End insert_mapped.

(** With what happens to the directories: at most a new page table appears,
    below [UTOP]. *)
Lemma page_insert_full s pds fl pd va pp perm :
  vm_ok s pds fl → pd ∈ pds → 0 <= va < UTOP → 0 <= perm < 4096 → cur_ok s →
  mappable s pds fl pp →
  let x := (pd, PDX va, PTX va) in
  let absent := present (entry s pd (PDX va)) = false in
  (absent ∧ fl = [] ∧ page_insert (kaddr pd) pp va perm s = (Ret (- E_NO_MEM), s)) ∨
  (∃ s', page_insert (kaddr pd) pp va perm s = (Ret 0, s') ∧
     vm_ok s' pds (insert_free s pd va pp fl) ∧ only_vm s s' ∧
     (∀ y, y ∈ slots pds →
        pte_of s' y = if decide (y = x) then Some (new_pte pp perm) else pte_of s y) ∧
     (∀ p pi', pages s' !! p = Some pi' → ∃ pi, pages s !! p = Some pi ∧
        pp_ref pi' = pp_ref pi + ind (p = pp) - ind (maps s p x)
                     + ind (absent ∧ head fl = Some p)) ∧
     data_same pds s s' ∧
     (∀ pd' i, pd' ∈ pds → idx i → entry s' pd' i = entry s pd' i ∨
        uidx i ∧ ∃ n, n ∈ fl ∧ entry s' pd' i = n * 4096 + 7)).
Proof.
  intros Hvm Hpd Hva Hperm Hc Hm x absent.
  assert (Hx : x ∈ slots pds) by (by apply vm_user_slot).
  unfold insert_free. destruct (present (entry s pd (PDX va))) eqn:Hp.
  - right. destruct (pte_of s x) as [t|] eqn:Ht.
    + destruct (unmap_and_reclaim s pds fl pd va pp Hvm Hpd Hva Hc Hm Hp t Ht)
        as (s1 & Hrun & Hvm1 & Hon1 & Hm1 & HP1 & HE1 & HR1 & HS1).
      unfold insert_free in *. rewrite Hp in *.
      assert (Hent : entry s1 pd (PDX va) = entry s pd (PDX va)) by (apply HE1, PDX_range; done).
      destruct (insert_absent pds pd va pp perm Hpd Hva Hperm s1 _ Hvm1 Hm1)
        as (s2 & Hrun2 & Hvm2 & Hon2 & HP2 & HR2 & HS2 & HT2 & HD2); [by rewrite Hent| |].
      { rewrite HP1 by done. by rewrite decide_True. }
      exists s2. split_and!; [|done|by eapply only_vm_trans| | |by eapply data_same_trans|].
      * rewrite page_insert_unfold. mrun (by eapply walk_user_present). mrun (apply kload_entry).
        assert (Hpt : present (entry s (PGNUM (entry s pd (PDX va))) (PTX va)) = true).
        { destruct (translate_present s pd va t Ht) as (_ & <- & ?). done. }
        rewrite Hpt, Hent in *. revert Hrun. unfold mbind, M_bind.
        destruct (page_remove (kaddr pd) va s) as [[[]|e] s0]; [|done].
        unfold gets. destruct (bool_decide _).
        -- destruct (get_page pp s0) as [[pi|e] s0']; [|done].
           intros [= <-]. exact Hrun2.
        -- intros [= <-]. exact Hrun2.
      * intros y Hy. rewrite HP2, HP1 by done. unfold x. by destruct (decide (y = (pd, PDX va, PTX va))).
      * intros p pi' Hpi'. destruct (HR2 p pi' Hpi') as (pi1 & Hpi1 & ->).
        destruct (HR1 p pi1 Hpi1) as (pi0 & Hpi0 & ->). exists pi0. split; [done|].
        rewrite (ind_false (absent ∧ _)) by (unfold absent; by intros [? _]). fold x. lia.
      * intros p i Hpp Hi. left. by rewrite HD2, HE1.
    + destruct (insert_absent pds pd va pp perm Hpd Hva Hperm s fl Hvm Hm Hp Ht)
        as (s2 & Hrun2 & Hvm2 & Hon2 & HP2 & HR2 & HS2 & _ & HD2).
      assert (Hfr : (if decide (maps s pp x) then fl else freed s pd va fl) = fl).
      { unfold freed. change (translate s pd va) with (pte_of s x). rewrite Ht. by case_match. }
      fold x. rewrite Hfr. exists s2. split_and!; [|done|done|done| |done|].
      * by erewrite page_insert_free.
      * intros p pi' Hpi'. destruct (HR2 p pi' Hpi') as (pi0 & Hpi0 & ->). exists pi0.
        split; [done|]. rewrite (ind_false (absent ∧ _)) by (unfold absent; by intros [? _]).
        rewrite (ind_false (maps s p x)) by (unfold maps; by rewrite Ht). lia.
      * intros p i Hpp Hi. left. by apply HD2.
  - destruct (vm_pd _ _ _ Hvm pd Hpd) as [Hr _].
    pose proof (vm_free _ _ _ Hvm) as Hfl.
    destruct fl as [|n l].
    { left. split_and!; [done|done|]. rewrite page_insert_unfold.
      mrun (by apply walk_absent). mrun (apply walk_nomem; [done|done|apply Hfl]). done. }
    right. pose proof (user_uidx va Hva) as Hui.
    destruct (vm_ok_new_table s pds n l pd (PDX va) Hvm Hpd Hui Hp) as (Hvm1 & Hp1 & HG1 & HP1).
    set (s1 := new_table s pd (PDX va) n l) in *.
    assert (Hnone : pte_of s x = None) 
      by (change (lookup_pte s pd (PDX va) (PTX va) = None); unfold lookup_pte; by rewrite Hp).
    assert (Hmap1 : mappable s1 pds l pp)
      by (by apply mappable_new_table).
    destruct (insert_absent pds pd va pp perm Hpd Hva Hperm s1 l Hvm1 Hmap1 Hp1)
      as (s2 & Hrun2 & Hvm2 & Hon2 & HP2 & HR2 & HS2 & HT2 & HD2); [by rewrite HP1|].
    exists s2. split_and!; [|done| | | | |].
    + rewrite page_insert_unfold. mrun (by apply walk_absent).
      mrun (eapply walk_create; [apply Hvm|done|done|done|done]).
      rewrite HG1 in Hrun2. exact Hrun2.
    + eapply only_vm_trans; [apply only_vm_new_table|exact Hon2].
    + intros y Hy. rewrite HP2, HP1 by done. done.
    + intros p pi' Hpi'. destruct (HR2 p pi' Hpi') as (pi1 & Hpi1 & ->).
      rewrite (ind_false (maps s p x)) by (unfold maps; by rewrite Hnone).
      unfold s1, new_table in Hpi1. simpl in Hpi1. rewrite lookup_insert in Hpi1.
      destruct (decide (n = p)) as [<-|Hnp].
      * destruct Hfl as [(_ & link & Hlk & _) _]. exists (mkPageInfo link 0). split; [done|].
        injection Hpi1 as <-. rewrite (ind_true (absent ∧ _)) by done. simpl. lia.
      * exists pi1. split; [done|]. rewrite (ind_false (absent ∧ _)) by (simpl; intros [_ [= E]]; done).
        lia.
    + eapply data_same_trans; [exact HT2| |exact HS2]. by apply data_same_new_table.
    + intros p i Hpp Hi. rewrite HD2 by done. unfold s1.
      destruct (vm_pd _ _ _ Hvm p Hpp) as [_ Hpn]. rewrite elem_of_cons in Hpn.
      pose proof (free_list_range s _ n (vm_phys _ _ _ Hvm) Hfl ltac:(by left)).
      pose proof (phys_npages s (vm_phys _ _ _ Hvm)).
      rewrite new_table_entry by (lia || done || apply PDX_range).
      case_decide as Hd; [|left; by rewrite decide_False by tauto].
      right. destruct Hd as [_ ->]. split; [done|]. exists n. split; [by left|done].
Qed.

Lemma page_insert_spec s pds fl pd va pp perm :
  vm_ok s pds fl → pd ∈ pds → 0 <= va < UTOP → 0 <= perm < 4096 → cur_ok s →
  mappable s pds fl pp →
  let x := (pd, PDX va, PTX va) in
  let absent := present (entry s pd (PDX va)) = false in
  (absent ∧ fl = [] ∧ page_insert (kaddr pd) pp va perm s = (Ret (- E_NO_MEM), s)) ∨
  (∃ s', page_insert (kaddr pd) pp va perm s = (Ret 0, s') ∧
     vm_ok s' pds (insert_free s pd va pp fl) ∧ only_vm s s' ∧
     (∀ y, y ∈ slots pds →
        pte_of s' y = if decide (y = x) then Some (new_pte pp perm) else pte_of s y) ∧
     (∀ p pi', pages s' !! p = Some pi' → ∃ pi, pages s !! p = Some pi ∧
        pp_ref pi' = pp_ref pi + ind (p = pp) - ind (maps s p x)
                     + ind (absent ∧ head fl = Some p)) ∧
     data_same pds s s').
Proof.
  intros Hvm Hpd Hva Hperm Hc Hm x absent.
  destruct (page_insert_full s pds fl pd va pp perm Hvm Hpd Hva Hperm Hc Hm)
    as [H|(s' & ? & ? & ? & ? & ? & ? & _)]; [by left|right; by exists s'].
Qed.

(** C1: [page_insert]: it fails only when a page table is needed and no page is
    free, changing nothing; otherwise the mapping of exactly [va] becomes the
    page [pp] with permissions [perm|PTE_P], the counts follow the mappings,
    and the invariant holds again. *)
Theorem page_insert_correct s pds fl pd va pp perm :
  vm_ok s pds fl → pd ∈ pds → 0 <= va < UTOP → 0 <= perm < 4096 → cur_ok s →
  mappable s pds fl pp →
  let x := (pd, PDX va, PTX va) in
  let absent := present (entry s pd (PDX va)) = false in
  (absent ∧ fl = [] ∧ page_insert (kaddr pd) pp va perm s = (Ret (- E_NO_MEM), s)) ∨
  (∃ s', page_insert (kaddr pd) pp va perm s = (Ret 0, s') ∧
     vm_ok s' pds (insert_free s pd va pp fl) ∧ only_vm s s' ∧
     (∀ y, y ∈ slots pds →
        pte_of s' y = if decide (y = x) then Some (new_pte pp perm) else pte_of s y) ∧
     (∀ p pi', pages s' !! p = Some pi' → ∃ pi, pages s !! p = Some pi ∧
        pp_ref pi' = pp_ref pi + ind (p = pp) - ind (maps s p x)
                     + ind (absent ∧ head fl = Some p)) ∧
     data_same pds s s').
Proof. exact (page_insert_spec s pds fl pd va pp perm). Qed.
