(* ===== verification/VmFrame.v ===== *)
(** * Changes that leave the page tables alone

    Taking a page off the free list, putting one back, writing to data pages:
    as long as no directory and no page table is written, the mappings are
    unchanged and the invariant only depends on the counts and the free list. *)

From S2P Require Import Prelude Mmu Console KState PageAlloc PageTable AddrSpace PageInsert.
Open Scope Z_scope.

Lemma vm_ok_same_tables s s' pds fl fl' :
  vm_ok s pds fl → mem_ok (mem s') → npages s' = npages s → phys_ok s' → free_list s' fl' →
  (∀ f i, f ∈ pds ∨ is_pt s pds f → idx i → entry s' f i = entry s f i) →
  (∀ p, p ∈ fl' → p ∉ pds ∧ ¬ is_pt s pds p) →
  (∀ p pi', pages s' !! p = Some pi' → nmaps s pds p <= pp_ref pi' < 2 ^ 16) →
  vm_ok s' pds fl' ∧ (∀ y, y ∈ slots pds → pte_of s' y = pte_of s y) ∧
  (∀ f, is_pt s' pds f ↔ is_pt s pds f).
Proof.
  intros Hvm Hmem Hnp Hphys Hfl HE Hfree Href.
  assert (HD : ∀ pd i, pd ∈ pds → uidx i → entry s' pd i = entry s pd i).
  { intros pd i Hpd Hi. apply HE; [by left|by apply uidx_idx]. }
  assert (HT : ∀ f, is_pt s' pds f ↔ is_pt s pds f).
  { intros f. split; intros (pd & i & Hpd & Hi & Hp & Hq); exists pd, i; rewrite HD in * by done; done. }
  assert (HP : ∀ y, y ∈ slots pds → pte_of s' y = pte_of s y).
  { intros [[pd i] j] (Hpd & Hi & Hj)%elem_of_slots. unfold pte_of, lookup_pte. cbn [fst snd].
    rewrite HD by done. destruct (present (entry s pd i)) eqn:Hp; [|done].
    rewrite HE; [done| |done]. right. by exists pd, i. }
  split; [|done]. constructor; try done.
  - apply Hvm.
  - intros pd Hpd. destruct (vm_pd _ _ _ Hvm pd Hpd). rewrite Hnp. split; [done|].
    intros Hin. by destruct (Hfree pd Hin).
  - intros pd i Hpd Hi. rewrite HD by done. intros Hp. rewrite Hnp.
    destruct (vm_pt _ _ _ Hvm pd i Hpd Hi Hp) as (? & _ & ?). split_and!; [done| |done].
    intros Hin. apply (Hfree _ Hin). by exists pd, i.
  - intros pd i pd' i' Hpd Hpd' Hi Hi'. rewrite !HD by done. by apply (vm_inj _ _ _ Hvm).
  - intros y t Hy. rewrite HP by done. intros Ht.
    destruct (vm_data _ _ _ Hvm y t Hy Ht) as (? & ? & Hn). rewrite Hnp. split_and!; [done|done|].
    by rewrite HT.
  - intros p pi' Hpi'. replace (nmaps s' pds p) with (nmaps s pds p); [by apply Href|].
    unfold nmaps. f_equal. apply filter_length_iff. intros y Hy. unfold maps. by rewrite HP.
Qed.

(** A page on the free list is neither a directory nor a page table. *)
Lemma free_not_table s pds fl p :
  vm_ok s pds fl → p ∈ fl → p ∉ pds ∧ ¬ is_pt s pds p.
Proof.
  intros Hvm Hp. split.
  - intros Hin. by destruct (vm_pd _ _ _ Hvm p Hin).
  - intros (pd & i & Hpd & Hi & Hpr & Hq). destruct (vm_pt _ _ _ Hvm pd i Hpd Hi Hpr) as (_ & Hn & _).
    apply Hn. by rewrite Hq.
Qed.

Lemma entry_other_frame s m p f i :
  f ≠ p → idx i → (∀ x, ¬ p * 4096 <= x < p * 4096 + 4096 → m x = mem s x) →
  entry (set_mem m s) f i = entry s f i.
Proof. unfold idx. intros Hf Hi Hm. unfold entry. apply ld32_ext. intros x Hx. apply Hm. nia. Qed.

(** The page [page_alloc] hands out: off the free list, its bytes set. *)
Lemma vm_ok_alloc s pds p l flags :
  vm_ok s pds (p :: l) →
  let s' := set_mem (page_zeroed flags p (mem s)) (set_page_free_list (head l) s) in
  vm_ok s' pds l ∧ (∀ y, y ∈ slots pds → pte_of s' y = pte_of s y) ∧ mappable s' pds l p ∧
  (∀ f, is_pt s' pds f ↔ is_pt s pds f).
Proof.
  intros Hvm s'. pose proof (vm_free _ _ _ Hvm) as Hfl.
  destruct (free_not_table s pds _ p Hvm ltac:(by left)) as [Hnpd Hnpt].
  destruct (Hfl) as [(_ & link & Hlk & Hch) [Hnl Hnd]%NoDup_cons].
  pose proof (chain_head _ _ _ Hch) as ->.
  assert (HE : ∀ f i, f ≠ p → idx i → entry s' f i = entry s f i).
  { intros f i Hf Hi. unfold s'. rewrite (entry_other_frame (set_page_free_list (head l) s) _ p); [done|done|done|].
    intros x Hx. unfold page_zeroed. cbn [mem set_page_free_list].
    destruct (_ =? 0); [done|]. apply mem_set_out. lia. }
  destruct (vm_ok_same_tables s s' pds (p :: l) l Hvm) as (Hvm' & HP & HT); try done.
  - unfold s', page_zeroed. cbn [mem set_mem]. destruct (_ =? 0); [|apply mem_set_ok]; apply Hvm.
  - destruct (vm_phys _ _ _ Hvm). by constructor.
  - intros f i Hf Hi. apply HE; [|done]. intros ->. tauto.
  - intros q Hq. apply (free_not_table s pds _ q Hvm). by right.
  - intros q pi. apply (vm_ref _ _ _ Hvm).
  - split_and!; [done|done| |done]. split; [done|]. split; [done|]. split; [by rewrite HT|].
    by exists (mkPageInfo (head l) 0).
Qed.

(** Putting back a page that is not mapped anywhere. *)
Lemma vm_ok_push s pds l p pi :
  vm_ok s pds l → p ∉ l → p ∉ pds → ¬ is_pt s pds p → pages s !! p = Some pi → nmaps s pds p = 0 →
  vm_ok (pushed p s) pds (p :: l) ∧ (∀ y, y ∈ slots pds → pte_of (pushed p s) y = pte_of s y).
Proof.
  intros Hvm Hnl Hnpd Hnpt Hpi Hz.
  assert (Hr : 0 <= p < npages s) by (apply (phys_dom s (vm_phys _ _ _ Hvm)); by rewrite Hpi).
  destruct (vm_ok_same_tables s (pushed p s) pds l (p :: l) Hvm) as (? & ? & _); try done.
  - apply Hvm.
  - apply pushed_phys_ok; [apply Hvm|done].
  - apply pushed_free_list; [apply Hvm|done].
  - intros q [->|Hq]%elem_of_cons; [done|by apply (free_not_table s pds l)].
  - intros q pi'. cbn. rewrite lookup_insert. destruct (decide (p = q)) as [<-|]; [|apply (vm_ref _ _ _ Hvm)].
    intros [= <-]. cbn. lia.
Qed.

(** The invariant is about memory, the page descriptors and the free list. *)
Lemma vm_ok_other_fields s s' pds fl :
  mem s' = mem s → npages s' = npages s → pages s' = pages s → page_free_list s' = page_free_list s →
  vm_ok s pds fl → vm_ok s' pds fl.
Proof.
  intros Hm Hn Hp Hf Hvm. apply (vm_ok_same_tables s s' pds fl fl Hvm); try done.
  - rewrite Hm. apply Hvm.
  - destruct (vm_phys _ _ _ Hvm) as [H1 H2]. constructor; [by rewrite Hn|]. intros p. by rewrite Hp, Hn.
  - unfold free_list. rewrite Hp, Hf. apply Hvm.
  - intros f i _ _. by apply entry_mem.
  - intros p. by apply (free_not_table s).
  - intros p pi'. rewrite Hp. apply (vm_ref _ _ _ Hvm).
Qed.
