(* ===== verification/VmDemo.v ===== *)
(** * The virtual-memory theorems at work

    The invariant [vm_ok] on the concrete machine of [Demo], on the machine
    after a page has been mapped, and the theorems about [page_init],
    [page_insert] and [page_remove] instantiated there. *)

From S2P Require Import Prelude Mmu Console KState Demo PageAlloc PageTable AddrSpace PageInsert.
Open Scope Z_scope.

Lemma demo_entry f i : entry demo f i = 0.
Proof. reflexivity. Qed.

Lemma demo_pte x : pte_of demo x = None.
Proof. unfold pte_of, lookup_pte. by rewrite demo_entry. Qed.

Lemma demo_phys : phys_ok demo.
Proof.
  constructor; [done|]. intros p. cbn [pages npages demo]. split.
  - intros [pi H%elem_of_list_to_map_2].
    repeat (apply elem_of_cons in H as [[= -> _]|H]; [lia|]). by apply not_elem_of_nil in H.
  - intros H.
    assert (p = 0 ∨ p = 1 ∨ p = 2 ∨ p = 3 ∨ p = 4 ∨ p = 5 ∨ p = 6 ∨ p = 7) as Hc by lia.
    destruct Hc as [->|[->|[->|[->|[->|[->|[->| ->]]]]]]]; vm_compute; eauto.
Qed.

Lemma demo_free : free_list demo [5; 6; 7].
Proof.
  split; [|by apply (bool_decide_unpack (NoDup [5; 6; 7])); vm_compute].
  simpl. split; [done|]. exists (Some 6). split; [done|]. split; [done|].
  exists (Some 7). split; [done|]. split; [done|]. by exists None.
Qed.

Lemma demo_refs p pi : pages demo !! p = Some pi → 0 <= pp_ref pi < 2 ^ 16.
Proof.
  intros H%elem_of_list_to_map_2.
  repeat (apply elem_of_cons in H as [[= _ ->]|H]; [simpl; lia|]). by apply not_elem_of_nil in H.
Qed.

Lemma nmaps_none s pds p : (∀ x, pte_of s x = None) → nmaps s pds p = 0.
Proof.
  intros H. unfold nmaps. generalize (slots pds). intros l.
  induction l as [|x l IH]; [done|]. rewrite filter_cons_False; [done|]. unfold maps. by rewrite H.
Qed.

(** A machine whose user mappings are all empty satisfies the invariant. *)
Lemma demo_vm : vm_ok demo [1; 2] [5; 6; 7].
Proof.
  constructor.
  - intros a. split; done.
  - apply demo_phys.
  - apply demo_free.
  - apply (bool_decide_unpack (NoDup [1; 2])). by vm_compute.
  - intros pd Hpd. rewrite !elem_of_cons, elem_of_nil in *. simpl. lia.
  - intros pd i _ _. by rewrite demo_entry.
  - intros pd i pd' i' _ _ _ _. by rewrite demo_entry.
  - intros x t _. by rewrite demo_pte.
  - intros p pi Hpi. pose proof (demo_refs p pi Hpi).
    by rewrite (nmaps_none demo [1; 2] p demo_pte).
Qed.

Lemma demo_cur : cur_ok demo.
Proof. intros e [= <-]. vm_compute. eauto. Qed.

Lemma demo_mappable : mappable demo [1; 2] [5; 6; 7] 3.
Proof.
  split; [by apply (bool_decide_unpack (3 ∉ [5; 6; 7])); vm_compute|].
  split; [by apply (bool_decide_unpack (3 ∉ [1; 2])); vm_compute|].
  split; [|by exists (mkPageInfo None 0)].
  intros (pd & i & _ & _ & Hp & _). by rewrite demo_entry in Hp.
Qed.

(** The machine after mapping frame 3 at 0x800000 in the first address space:
    frame 5 has become the page table. *)
Definition demo_va : Z := 0x800000.
Definition demo_mapped : kstate := snd (page_insert (kaddr 1) 3 demo_va (PTE_U + PTE_W) demo).

Lemma demo_slot : (1, PDX demo_va, PTX demo_va) ∈ slots [1; 2].
Proof. apply elem_of_slots. split; [by left|done]. Qed.

Lemma demo_mapped_ok :
  page_insert (kaddr 1) 3 demo_va (PTE_U + PTE_W) demo = (Ret 0, demo_mapped) ∧
  vm_ok demo_mapped [1; 2] [6; 7] ∧ cur_ok demo_mapped ∧
  pte_of demo_mapped (1, PDX demo_va, PTX demo_va) = Some (new_pte 3 (PTE_U + PTE_W)) ∧
  only_vm demo demo_mapped.
Proof.
  assert (Hui : uidx (PDX demo_va)) by (by apply user_uidx).
  assert (H1 : 1 ∈ [1; 2]) by (by left).
  destruct (vm_ok_new_table demo [1; 2] 5 [6; 7] 1 (PDX demo_va) demo_vm H1 Hui eq_refl)
    as (Hvm1 & Hp1 & HG1 & HP1).
  destruct (insert_absent [1; 2] 1 demo_va 3 (PTE_U + PTE_W) H1 ltac:(done) ltac:(done)
    _ _ Hvm1 (mappable_new_table _ _ _ _ _ _ _ demo_vm Hui demo_mappable) Hp1)
    as (s2 & Hrun & Hvm2 & Hon & HP2 & _); [rewrite HP1; [apply demo_pte|apply demo_slot]|].
  rewrite HG1 in Hrun.
  assert (E : page_insert (kaddr 1) 3 demo_va (PTE_U + PTE_W) demo = (Ret 0, s2)).
  { rewrite page_insert_unfold. mrun (by apply walk_absent).
    mrun (eapply walk_create; [apply demo_phys|done|apply demo_free|done|done]). exact Hrun. }
  unfold demo_mapped. rewrite E. cbn [snd]. split_and!; [done|done| | |].
  - eapply only_vm_cur_ok; [exact Hon|]. intros e [= <-]. vm_compute. eauto.
  - rewrite HP2 by apply demo_slot. by rewrite decide_True.
  - eapply only_vm_trans; [apply only_vm_new_table|exact Hon].
Qed.

(** ** Witnesses *)

Lemma page_init_correct_witness :
  ∃ s', page_init 0xF0104000 (set_page_free_list None demo) = (Ret tt, s') ∧ free_list s' [6; 5].
Proof.
  destruct (page_init_correct (set_page_free_list None demo) 0xF0104000 5) as (s' & Hrun & _ & _ & Hfl & _).
  - destruct demo_phys. by constructor.
  - reflexivity.
  - split; reflexivity || (split; reflexivity || (vm_compute; congruence)).
  - split; vm_compute; congruence.
  - exists s'. split; [exact Hrun|]. vm_compute in Hfl |- *. exact Hfl.
Defined.

Lemma page_insert_correct_witness :
  ∃ s', page_insert (kaddr 1) 3 demo_va (PTE_U + PTE_W) demo = (Ret 0, s') ∧
    vm_ok s' [1; 2] [6; 7] ∧
    pte_of s' (1, PDX demo_va, PTX demo_va) = Some (new_pte 3 (PTE_U + PTE_W)).
Proof.
  destruct (page_insert_correct demo [1; 2] [5; 6; 7] 1 demo_va 3 (PTE_U + PTE_W) demo_vm
    ltac:(by left) ltac:(done) ltac:(done) demo_cur demo_mappable) as [(_ & [=] & _)|(s' & Hrun & Hvm & _ & HP & _)].
  exists s'. split; [exact Hrun|]. split; [exact Hvm|].
  rewrite HP by apply demo_slot. by rewrite decide_True.
Defined.

Lemma page_remove_correct_witness :
  pte_of demo_mapped (1, PDX demo_va, PTX demo_va) = Some (new_pte 3 (PTE_U + PTE_W)) ∧
  ∃ s', page_remove (kaddr 1) demo_va demo_mapped = (Ret tt, s') ∧
    vm_ok s' [1; 2] (freed demo_mapped 1 demo_va [6; 7]) ∧
    pte_of s' (1, PDX demo_va, PTX demo_va) = None.
Proof.
  assert (H1 : 1 ∈ [1; 2]) by (by left). assert (H2 : 0 <= demo_va < UTOP) by done.
  destruct demo_mapped_ok as (_ & Hvm & Hcur & Hpte & _). split; [exact Hpte|].
  destruct (page_remove_correct demo_mapped [1; 2] [6; 7] 1 demo_va Hvm H1 H2 Hcur)
    as (s' & Hrun & Hvm' & _ & HP & _).
  exists s'. split; [exact Hrun|]. split; [exact Hvm'|].
  rewrite HP by apply demo_slot. by rewrite decide_True.
Defined.
