(* ===== verification/UserMem.v ===== *)
(** * Checking user pointers ([user_mem_check] of [kern/pmap.c])

    [passes s pd perm a] is what the function tests for the byte at [a]: its
    page-table entry exists and has every bit of [perm], and the page lies
    below [ULIM].  [accessible s pd perm a] is what the comment above it asks
    for: the page is mapped with [perm | PTE_P].  The two agree when [perm]
    contains [PTE_P].  [user_mem_check_correct] characterises the function,
    including the address it reports, and relates it to the comment;
    [user_mem_check_sound] is what a system call may rely on.  Two results
    mark the limits of the check: a range whose end wraps around 2^32 is not
    examined at all, and an entry that [page_remove] has invalidated is still
    accepted when [PTE_P] is not asked for. *)

From S2P Require Import Prelude Mmu Console KState Demo PageAlloc PageTable AddrSpace PageInsert VmDemo.
Open Scope Z_scope.

Definition passes (s : kstate) (pd perm a : Z) : bool :=
  present (entry s pd (PDX a)) &&
  (u32 (Z.land (Z.lnot (entry s (PGNUM (entry s pd (PDX a))) (PTX a))) perm) =? 0) &&
  (a <? ULIM).

(** What the comment promises: [a] is mapped, with every bit of [perm]. *)
Definition accessible (s : kstate) (pd perm a : Z) : bool :=
  match translate s pd a with
  | Some t => (Z.land t perm =? perm) && (a <? ULIM)
  | None => false
  end.

Lemma bits_missing t perm : 0 <= perm < 2 ^ 32 → (u32 (Z.land (Z.lnot t) perm) =? 0) = (Z.land t perm =? perm).
Proof.
  intros Hp. assert (Hr : 0 <= Z.land (Z.lnot t) perm < 2 ^ 32).
  { pose proof (land_bound 32 perm (Z.lnot t) ltac:(lia) Hp) as H. by rewrite Z.land_comm in H. }
  rewrite u32_small by (unfold is_u32; lia). apply eq_true_iff_eq. rewrite !Z.eqb_eq. split; intros H; apply Z.bits_inj'; intros n Hn;
    apply (f_equal (λ x, Z.testbit x n)) in H; rewrite !Z.land_spec, ?Z.lnot_spec, ?Z.bits_0 in * by lia;
    by destruct (Z.testbit t n), (Z.testbit perm n).
Qed.

Lemma passes_accessible s pd perm a :
  0 <= perm < 4096 → passes s pd (Z.lor perm PTE_P) a = accessible s pd perm a.
Proof.
  intros Hp. unfold passes, accessible, translate, lookup_pte.
  destruct (present (entry s pd (PDX a))); [|done]. cbn [andb]. set (t := entry s _ (PTX a)).
  rewrite bits_missing by (apply lor_bound; [lia|lia|done]).
  assert (Hl : (Z.land t (Z.lor perm PTE_P) =? Z.lor perm PTE_P) = present t && (Z.land t perm =? perm)).
  { unfold present. change PTE_P with (2 ^ 0). rewrite land_pow2 by lia. apply eq_true_iff_eq.
    rewrite andb_true_iff, !Z.eqb_eq. split.
    - intros H. split.
      + apply (f_equal (λ x, Z.testbit x 0)) in H. rewrite Z.land_spec, Z.lor_spec in H. change (Z.testbit (2 ^ 0) 0) with true in H.
        rewrite orb_true_r, andb_true_r in H. by rewrite H.
      + apply Z.bits_inj'. intros n Hn. apply (f_equal (λ x, Z.testbit x n)) in H. rewrite !Z.land_spec, Z.lor_spec in *.
        by destruct (Z.testbit t n), (Z.testbit perm n), (Z.testbit (2 ^ 0) n).
    - intros [H0 H]. apply Z.bits_inj'. intros n Hn. apply (f_equal (λ x, Z.testbit x n)) in H. rewrite Z.land_spec, Z.lor_spec in *.
      destruct (Z.eq_dec n 0) as [->|Hne].
      + change (Z.testbit (2 ^ 0) 0) with true. rewrite orb_true_r, andb_true_r. by destruct (Z.testbit t 0).
      + rewrite Z.pow2_bits_false by done. by rewrite orb_false_r. }
  rewrite Hl. destruct (present t); [|done]. done.
Qed.

(** The addresses the loop visits: [va], then the start of every later page. *)
Definition visited (va end_addr : Z) : list Z :=
  if va <? end_addr then
    va :: ((λ k, k * 4096) <$> seqZ (PGNUM va + 1) (PGNUM end_addr - PGNUM va - 1))
  else [].

(** Every page table the directory refers to is in physical memory. *)
Definition tables_ok (s : kstate) (pd : Z) : Prop :=
  ∀ i, idx i → present (entry s pd i) = true → PGNUM (entry s pd i) < npages s.

Lemma ROUNDUP_page a :
  0 <= a < 2 ^ 32 → ∃ k, ROUNDUP a PGSIZE = k * 4096 ∧ 0 <= k < 1048576 ∧
    (2 ^ 32 - 4096 < a ∨ a <= k * 4096 < a + 4096).
Proof.
  unfold PGSIZE. intros Ha. destruct (Z.le_gt_cases a (2 ^ 32 - 4096)) as [H|H].
  - rewrite ROUNDUP_unfold by (unfold is_u32; lia). exists ((a + 4096 - 1) / 4096).
    Z.to_euclidean_division_equations. lia.
  - exists 0. pose proof (ROUNDUP_wraps a) as Hw. unfold PGSIZE in Hw. rewrite Hw by lia. lia.
Qed.

Lemma ROUNDUP_next tmp k :
  0 <= tmp < k * 4096 → k < 1048576 → ROUNDUP (tmp + 1) PGSIZE = (PGNUM tmp + 1) * 4096.
Proof.
  unfold PGSIZE. intros Ht Hk. rewrite ROUNDUP_unfold by (unfold is_u32; lia). rewrite PGNUM_div.
  Z.to_euclidean_division_equations. lia.
Qed.

Lemma visited_next va k :
  0 <= va < k * 4096 → visited va (k * 4096) = va :: visited ((PGNUM va + 1) * 4096) (k * 4096).
Proof.
  intros Hva. unfold visited. rewrite !PGNUM_div, !Z.div_mul by lia.
  destruct (Z.ltb_spec va (k * 4096)); [|lia]. f_equal.
  destruct (Z.ltb_spec ((va / 4096 + 1) * 4096) (k * 4096)).
  - rewrite seqZ_cons by lia. cbn [fmap list_fmap]. f_equal.
    by replace (Z.pred (k - va / 4096 - 1)) with (k - (va / 4096 + 1) - 1) by lia.
  - rewrite seqZ_nil; [done|]. Z.to_euclidean_division_equations. lia.
Qed.

Section check.
Context (s : kstate) (pd perm : Z).
Hypothesis Hok : phys_ok s.
Hypothesis Hmem : mem_ok (mem s).
Hypothesis Hpd : 0 <= pd < npages s.
Hypothesis Htab : tables_ok s pd.

(** What the function returns and does, from the visited addresses. *)
Definition check_result (l : list Z) : res stopped Z * kstate :=
  match list_find (λ a, passes s pd perm a = false) l with
  | Some (_, a) => (Ret (- E_FAULT), set_user_mem_check_addr a s)
  | None => (Ret 0, s)
  end.

Lemma check_result_cons a l :
  check_result (a :: l) =
    if passes s pd perm a then check_result l else (Ret (- E_FAULT), set_user_mem_check_addr a s).
Proof using.
  unfold check_result. cbn [list_find]. destruct (passes s pd perm a) eqn:E.
  - rewrite decide_False by done. by destruct (list_find _ l) as [[]|].
  - by rewrite decide_True.
Qed.

Lemma check_loop fuel tmp k :
  0 <= tmp → k < 1048576 → (Z.to_nat (k - PGNUM tmp) < fuel)%nat →
  user_mem_check_loop fuel (kaddr pd) tmp (k * 4096) perm s = check_result (visited tmp (k * 4096)).
Proof using Hok Hmem Hpd Htab.
  revert tmp. induction fuel as [|fuel IH]; intros tmp Ht Hk Hf; [lia|].
  cbn [user_mem_check_loop]. destruct (Z.ltb_spec tmp (k * 4096)) as [Hlt|Hge].
  2: { unfold visited. destruct (Z.ltb_spec tmp (k * 4096)); [lia|done]. }
  rewrite visited_next, check_result_cons by lia. unfold passes.
  destruct (present (entry s pd (PDX tmp))) eqn:Hp.
  2: { mrun (by apply walk_absent). done. }
  mrun (apply walk_present; [done|done|done|done|apply Htab; [apply PDX_range|done]]).
  mrun (apply kload_entry). cbn [andb].
  destruct (u32 _ =? 0); cbn [negb orb andb]; [|done].
  destruct (Z.leb_spec ULIM tmp), (Z.ltb_spec tmp ULIM); try lia; [done|].
  rewrite (ROUNDUP_next tmp k) by lia. apply IH; [|done|].
  - rewrite PGNUM_div. Z.to_euclidean_division_equations. lia.
  - rewrite !PGNUM_div, Z.div_mul in * by lia.
    assert (tmp / 4096 < k) by (Z.to_euclidean_division_equations; lia). lia.
Qed.
End check.

Lemma user_mem_check_spec s pd va len perm :
  phys_ok s → mem_ok (mem s) → 0 <= pd < npages s → tables_ok s pd → is_u32 va →
  user_mem_check (kaddr pd) va len perm s =
    check_result s pd perm (visited va (ROUNDUP (u32 (va + len)) PGSIZE)).
Proof.
  intros Hok Hmem Hpd Htab Hva. unfold user_mem_check.
  destruct (ROUNDUP_page (u32 (va + len)) (u32_range _)) as (k & -> & Hk & _).
  apply check_loop; try done; [apply Hva|lia|].
  rewrite (PGNUM_div (k * 4096)), Z.div_mul by lia. lia.
Qed.

(** C12: [user_mem_check] on a directory whose page tables are in memory.  It
    always returns, without touching anything but [user_mem_check_addr]: 0 when
    every address it visits (the first of each page of the range, computed
    modulo 2^32) passes its test, and otherwise [-E_FAULT], reporting the first
    that does not.  The test is for the bits of [perm] alone.  The comment asks
    for [perm | PTE_P]: that is what is tested when [perm] contains [PTE_P], as
    for the network calls; when it does not, as for the calls through
    [user_mem_assert], an address also passes whose entry has the bits of
    [perm] but is not present. *)
Theorem user_mem_check_correct s pd va len perm :
  phys_ok s → mem_ok (mem s) → 0 <= pd < npages s → tables_ok s pd → is_u32 va → 0 <= perm < 4096 →
  user_mem_check (kaddr pd) va len perm s =
    check_result s pd perm (visited va (ROUNDUP (u32 (va + len)) PGSIZE)) ∧
  (Z.testbit perm 0 = true → ∀ a, passes s pd perm a = accessible s pd perm a) ∧
  (Z.testbit perm 0 = false → ∀ a t, a < ULIM → present (entry s pd (PDX a)) = true →
     entry s (PGNUM (entry s pd (PDX a))) (PTX a) = t → present t = false → Z.land t perm = perm →
     passes s pd perm a = true ∧ accessible s pd perm a = false).
Proof.
  intros Hok Hm Hpd Ht Hva Hp. split; [by apply user_mem_check_spec|]. split.
  - intros H0 a. rewrite <- (passes_accessible s pd perm a Hp). f_equal. apply Z.bits_inj'. intros n Hn.
    rewrite Z.lor_spec. change PTE_P with (2 ^ 0). destruct (Z.eq_dec n 0) as [->|Hne]; [by rewrite H0|].
    rewrite Z.pow2_bits_false by done. by rewrite orb_false_r.
  - intros _ a t Ha H1 <- H2 H3. unfold passes, accessible, translate, lookup_pte. rewrite H1, H2.
    rewrite bits_missing by lia. rewrite H3, Z.eqb_refl. split; [|done]. cbn. by apply Z.ltb_lt.
Qed.

Lemma check_result_0 s pd perm l :
  check_result s pd perm l = (Ret 0, s) → ∀ a, a ∈ l → passes s pd perm a = true.
Proof.
  induction l as [|b l IH]; [by intros _ a ?%not_elem_of_nil|].
  rewrite check_result_cons. destruct (passes s pd perm b) eqn:E; [|by intros [=]].
  intros H a [->|Ha]%elem_of_cons; [done|by apply IH].
Qed.

Lemma visited_covers va a e k :
  0 <= va <= a → a < e <= k * 4096 → Z.max va (PGNUM a * 4096) ∈ visited va (k * 4096).
Proof.
  rewrite PGNUM_div. intros Ha He. unfold visited. destruct (Z.ltb_spec va (k * 4096)); [|lia].
  apply elem_of_cons. rewrite !PGNUM_div, Z.div_mul by lia.
  destruct (Z.max_spec va (a / 4096 * 4096)) as [[Hm ->]|[_ ->]]; [|by left].
  right. apply list_elem_of_fmap. exists (a / 4096). split; [done|]. apply elem_of_seqZ.
  Z.to_euclidean_division_equations. lia.
Qed.

(** The check of one address covers its page. *)
Lemma passes_page s pd perm va a :
  0 <= va <= a → passes s pd perm (Z.max va (PGNUM a * 4096)) = true → passes s pd perm a = true.
Proof.
  intros Ha. rewrite (PGNUM_div a). set (b := Z.max va (a / 4096 * 4096)).
  assert (Hb : b / 4096 = a / 4096) by (unfold b; Z.to_euclidean_division_equations; lia).
  assert (HD : PDX b = PDX a).
  { rewrite !PDX_div. change 4194304 with (4096 * 1024). by rewrite <- !Z.div_div, Hb by lia. }
  assert (HT : PTX b = PTX a) by (by rewrite !PTX_div, Hb).
  unfold passes. rewrite HD, HT, !andb_true_iff, !Z.ltb_lt. intros [? Hlt]. split; [done|].
  revert Hlt. change ULIM with (980992 * 4096). Z.to_euclidean_division_equations. lia.
Qed.

(** A range that does not wrap around and passes the check is passes at
    every byte. *)
Theorem user_mem_check_sound s pd va len perm a :
  phys_ok s → mem_ok (mem s) → 0 <= pd < npages s → tables_ok s pd →
  0 <= va → va + len <= 2 ^ 32 - PGSIZE →
  user_mem_check (kaddr pd) va len perm s = (Ret 0, s) →
  va <= a < va + len → passes s pd perm a = true.
Proof.
  intros Hok Hmem Hpd Htab Hva Hend Hrun Ha. unfold PGSIZE in Hend.
  revert Hrun. unfold user_mem_check.
  destruct (ROUNDUP_page (u32 (va + len)) (u32_range _)) as (k & -> & Hk & Hr).
  rewrite u32_small in Hr by lia. rewrite (check_loop s pd perm Hok Hmem Hpd Htab _ va k);
    [|done|lia|rewrite (PGNUM_div (k * 4096)), Z.div_mul by lia; lia].
  intros H. apply (passes_page _ _ _ va); [lia|]. eapply check_result_0; [exact H|].
  apply visited_covers with (e := va + len); lia.
Qed.

(** C38: A range whose end wraps around to an address not above its start passes
    without any check: the loop is not entered. *)
Theorem user_mem_check_wraparound s pgdir va len perm :
  is_u32 va → 0 <= len → 2 ^ 32 <= va + len → va + len <= 2 ^ 32 + PGNUM va * 4096 →
  user_mem_check pgdir va len perm s = (Ret 0, s).
Proof.
  unfold is_u32. rewrite PGNUM_div. intros Hva Hlen Hw Hend. unfold user_mem_check.
  assert (E : u32 (va + len) = va + len - 2 ^ 32).
  { unfold u32. Z.to_euclidean_division_equations. lia. }
  destruct (ROUNDUP_page (u32 (va + len)) (u32_range _)) as (k & -> & Hk & Hr).
  cbn [user_mem_check_loop]. destruct (Z.ltb_spec va (k * 4096)); [|done].
  exfalso. rewrite E in Hr. Z.to_euclidean_division_equations. lia.
Qed.

(** The machine after the page of [demo_mapped] has been unmapped again. *)
Definition demo_unmapped : kstate := snd (page_remove (kaddr 1) demo_va demo_mapped).

(** [user_mem_check] does not look at the present bit and [page_remove]
    clears nothing else, so an address that is no longer mapped still passes
    the check for user-writable memory. *)
Theorem user_mem_check_accepts_unmapped :
  fst (page_remove (kaddr 1) demo_va demo_mapped) = Ret tt ∧
  translate demo_unmapped 1 demo_va = None ∧
  fst (user_mem_check (kaddr 1) demo_va 4 (Z.lor PTE_U PTE_W) demo_unmapped) = Ret 0.
Proof. split_and!; vm_compute; reflexivity. Qed.

(** ** Witnesses *)

Lemma demo_tables : tables_ok demo 1.
Proof. intros i _. by rewrite demo_entry. Qed.

Lemma user_mem_check_correct_witness :
  user_mem_check (kaddr 1) demo_va 8 PTE_U demo =
    (Ret (- E_FAULT), set_user_mem_check_addr demo_va demo).
Proof.
  rewrite (proj1 (user_mem_check_correct demo 1 demo_va 8 PTE_U demo_phys (vm_mem _ _ _ demo_vm)
    ltac:(done) demo_tables ltac:(done) ltac:(done))).
  change (ROUNDUP (u32 (demo_va + 8)) PGSIZE) with (demo_va + 4096).
  unfold check_result. reflexivity.
Defined.

Lemma tables_ok_compute s pd :
  forallb (λ i, negb (present (entry s pd i)) || (PGNUM (entry s pd i) <? npages s)) (seqZ 0 1024) = true →
  tables_ok s pd.
Proof.
  rewrite forallb_forall. intros H i Hi Hp. specialize (H i).
  rewrite <- list_elem_of_In, elem_of_seqZ, Hp in H. cbn [negb orb] in H. rewrite Z.ltb_lt in H.
  apply H. unfold idx in Hi. lia.
Qed.

(** The check passes on the mapped page of [demo_mapped]. *)
Lemma user_mem_check_sound_witness : passes demo_mapped 1 (Z.lor PTE_U PTE_W) (demo_va + 3) = true.
Proof.
  destruct demo_mapped_ok as (_ & Hvm & _ & _).
  assert (Ht : tables_ok demo_mapped 1) by (apply tables_ok_compute; vm_compute; reflexivity).
  by apply (user_mem_check_sound demo_mapped 1 demo_va 8 (Z.lor PTE_U PTE_W) (demo_va + 3)
    (vm_phys _ _ _ Hvm) (vm_mem _ _ _ Hvm)).
Defined.

Lemma user_mem_check_wraparound_witness :
  user_mem_check (kaddr 1) 0xEF800000 0x20000000 PTE_U demo = (Ret 0, demo).
Proof. apply (user_mem_check_wraparound demo (kaddr 1) 0xEF800000 0x20000000 PTE_U); vm_compute; try split; congruence. Defined.
