(* ===== verification/Env.v ===== *)
(** * Environments ([kern/env.c])

    The environment table: [envid2env], [env_init], [env_setup_vm],
    [env_alloc], [region_alloc], [load_icode], [env_create], [env_free],
    [env_pop_tf] and [env_run], translated function by function.  Loading the
    segment registers ([env_init_percpu]) and the messages of [cprintf] have
    no counterpart in the state.

    [env_table] says that every slot exists.  The theorems say what an
    environment id denotes, that a slot's next id differs from its last, and
    what [env_init] leaves behind; allocation and context switches are in
    [EnvSpace] and [Sched]. *)

From S2P Require Import Prelude Mmu Console KState Demo Lock PageAlloc PageTable AddrSpace PageInsert VmDemo.
Open Scope Z_scope.

Definition GD_KT : Z := 0x08.
Definition GD_KD : Z := 0x10.
Definition GD_UT : Z := 0x18.
Definition GD_UD : Z := 0x20.

Definition ENVGENSHIFT : Z := 12.

(** The return value and [*env_store]. *)
Definition envid2env (envid : Z) (checkperm : bool) : K (Z * option Z) :=
  if envid =? 0 then
    c ← curenv;
    mret (0, c)
  else
    let e := ENVX envid in
    v ← get_env e;
    if bool_decide (env_status v = ENV_FREE) || negb (env_id v =? envid)
    then mret (- E_BAD_ENV, None)
    else
      cur ← curenv;
      forbidden ←
        (if checkperm && bool_decide (cur ≠ Some e) then
           c ← the cur;
           cv ← get_env c;
           mret (negb (env_parent_id v =? env_id cv))
         else mret false);
      if (forbidden : bool) then mret (- E_BAD_ENV, None)
      else mret (0, Some e).

Definition env_init_slot (i : Z) : K unit :=
  upd_env i (set_env_id 0);;
  upd_env i (set_env_status ENV_FREE);;
  (if i =? NENV then upd_env i (set_env_link None)
   else fl ← gets env_free_list; upd_env i (set_env_link fl));;
  modify (set_env_free_list (Some i)).

Definition env_init : K unit :=
  modify (set_env_free_list None);;
  mfor (reverse (seqZ 0 NENV)) env_init_slot.

Definition env_setup_vm (e : Z) : K Z :=
  p ← page_alloc ALLOC_ZERO;
  match p with
  | None => mret (- E_NO_MEM)
  | Some p =>
    page_incref p;;
    kva ← page2kva p;
    upd_env e (set_env_pgdir kva);;
    kp ← gets kern_pgdir;
    kmemcpy kva kp PGSIZE;;
    pa ← PADDR kva;
    kstore32 (entry_addr kva (PDX UVPT)) (Z.lor (Z.lor pa PTE_P) PTE_U);;
    mret 0
  end.

(** The id of the next environment in a slot.  The addition is done in
    [int32_t]; like the code's test for a negative generation, this takes it
    to wrap around. *)
Definition next_env_id (old idx : Z) : Z :=
  let generation := Z.land (s32 (old + Z.shiftl 1 ENVGENSHIFT)) (Z.lnot (NENV - 1)) in
  let generation := if generation <=? 0 then Z.shiftl 1 ENVGENSHIFT else generation in
  Z.lor generation idx.

Definition user_tf : Trapframe :=
  set_tf_eflags (Z.lor 0 FL_IF)
    (set_tf_cs (Z.lor GD_UT 3)
      (set_tf_esp USTACKTOP
        (set_tf_ss (Z.lor GD_UD 3) (set_tf_es (Z.lor GD_UD 3) (set_tf_ds (Z.lor GD_UD 3) tf_zero))))).

(** The return value and [*newenv_store]. *)
Definition env_alloc (parent_id : Z) : K (Z * option Z) :=
  fl ← gets env_free_list;
  match fl with
  | None => mret (- E_NO_FREE_ENV, None)
  | Some e =>
    r ← env_setup_vm e;
    if r <? 0 then mret (r, None)
    else
      upd_env e (λ v, set_env_id (next_env_id (env_id v) e) v);;
      upd_env e (set_env_parent_id parent_id);;
      upd_env e (set_env_type ENV_TYPE_USER);;
      upd_env e (set_env_status ENV_RUNNABLE);;
      upd_env e (set_env_runs 0);;
      upd_env e (set_env_tf user_tf);;
      upd_env e (set_env_pgfault_upcall 0);;
      upd_env e (set_env_ipc_recving false);;
      v ← get_env e;
      modify (set_env_free_list (env_link v));;
      mret (0, Some e)
  end.

(** ** Loading a program *)

Fixpoint region_alloc_loop (fuel : nat) (e tmp_addr end_addr : Z) : K unit :=
  match fuel with
  | O => stop OutOfFuel
  | S fuel' =>
    if tmp_addr <? end_addr then
      nPage ← page_alloc ALLOC_ZERO;
      match nPage with
      | None => panic "env->region_alloc: page alloc failed!"
      | Some p =>
        page_incref p;;
        v ← get_env e;
        ret ← page_insert (env_pgdir v) p tmp_addr (Z.lor (Z.lor PTE_P PTE_U) PTE_W);
        if negb (ret =? 0) then panic "env->region_alloc: page insertion failed!"
        else region_alloc_loop fuel' e (u32 (tmp_addr + PGSIZE)) end_addr
      end
    else mret tt
  end.

Definition region_alloc (e va len : Z) : K unit :=
  let start_addr := ROUNDDOWN va PGSIZE in
  let end_addr := ROUNDUP (u32 (va + len)) PGSIZE in
  if UTOP <? end_addr then panic "env->region_alloc: alloc out of range!"
  else region_alloc_loop (S (Z.to_nat ((end_addr - start_addr) / PGSIZE))) e start_addr end_addr.

Definition ELF_PROG_LOAD : Z := 1.

(** [lcr3(PADDR(pgdir))] *)
Definition lcr3 (pgdir : Z) : K unit := pa ← PADDR pgdir; modify (set_cr3 pa).

(** One program header, at [ph]: [p_type] is at offset 0 of [struct Proghdr],
    [p_offset] at 4, [p_va] at 8, [p_filesz] at 16, [p_memsz] at 20. *)
Definition load_segment (e binary ph : Z) : K unit :=
  p_type ← vload32 ph;
  if p_type =? ELF_PROG_LOAD then
    p_va ← vload32 (u32 (ph + 8));
    p_memsz ← vload32 (u32 (ph + 20));
    region_alloc e p_va p_memsz;;
    p_offset ← vload32 (u32 (ph + 4));
    p_filesz ← vload32 (u32 (ph + 16));
    vmemcpy p_va (u32 (binary + p_offset)) p_filesz
  else mret tt.

(** [struct Elf]: [e_entry] is at offset 24, [e_phoff] at 28, [e_phnum] at 44;
    a [struct Proghdr] is 32 bytes. *)
Definition load_icode (e binary : Z) : K unit :=
  e_phoff ← vload32 (u32 (binary + 28));
  e_phnum ← vload16 (u32 (binary + 44));
  let start_ph := u32 (binary + e_phoff) in
  v ← get_env e;
  lcr3 (env_pgdir v);;
  mfor (seqZ 0 e_phnum) (λ k, load_segment e binary (u32 (start_ph + 32 * k)));;
  kp ← gets kern_pgdir;
  lcr3 kp;;
  e_entry ← vload32 (u32 (binary + 24));
  upd_env e (λ v, set_env_tf (set_tf_eip e_entry (env_tf v)) v);;
  region_alloc e (USTACKTOP - PGSIZE) PGSIZE;;
  upd_env e (set_env_break (ROUNDDOWN (USTACKTOP - PGSIZE) PGSIZE)).

Definition env_create (binary : Z) (type : EnvType) : K unit :=
  r ← env_alloc 0;
  let '(ret, store) := r in
  if ret <? 0 then panic "env->env_create: env alloc failed!"
  else
    e ← the store;
    load_icode e binary;;
    upd_env e (set_env_type type);;
    if bool_decide (type = ENV_TYPE_FS)
    then upd_env e (λ v, set_env_tf (set_tf_eflags (Z.lor (tf_eflags (env_tf v)) FL_IOPL_MASK) (env_tf v)) v)
    else mret tt.

(** ** Freeing *)

Definition env_free_table (e pdeno : Z) : K unit :=
  v ← get_env e;
  d ← kload32 (entry_addr (env_pgdir v) pdeno);
  if Z.land d PTE_P =? 0 then mret tt
  else
    let pa := PTE_ADDR d in
    pt ← KADDR pa;
    mfor (seqZ 0 1024) (λ pteno,
      t ← kload32 (entry_addr pt pteno);
      if negb (Z.land t PTE_P =? 0)
      then v ← get_env e; page_remove (env_pgdir v) (PGADDR pdeno pteno 0)
      else mret tt);;
    v ← get_env e;
    kstore32 (entry_addr (env_pgdir v) pdeno) 0;;
    p ← pa2page pa;
    page_decref p.

Definition env_free (e : Z) : K unit :=
  c ← curenv;
  (if bool_decide (c = Some e) then kp ← gets kern_pgdir; lcr3 kp else mret tt);;
  mfor (seqZ 0 (PDX UTOP)) (env_free_table e);;
  v ← get_env e;
  pa ← PADDR (env_pgdir v);
  upd_env e (set_env_pgdir 0);;
  p ← pa2page pa;
  page_decref p;;
  upd_env e (set_env_status ENV_FREE);;
  fl ← gets env_free_list;
  upd_env e (set_env_link fl);;
  modify (set_env_free_list (Some e)).

(** ** Running *)

(** [iret] to the frame of [curenv]: the kernel is left for good. *)
Definition env_pop_tf (e : Z) : K False :=
  c ← curenv;
  c ← the c;
  me ← gets cpunum;
  upd_env c (set_env_cpunum me);;
  stop (RunEnv e).

Definition env_run (e : Z) : K False :=
  c ← curenv;
  (if bool_decide (c ≠ Some e) then
     (match c with
      | Some cur =>
        v ← get_env cur;
        if bool_decide (env_status v = ENV_RUNNING) then upd_env cur (set_env_status ENV_RUNNABLE)
        else mret tt
      | None => mret tt
      end);;
     set_curenv (Some e);;
     upd_env e (set_env_status ENV_RUNNING);;
     upd_env e (λ v, set_env_runs (u32 (env_runs v + 1)) v);;
     v ← get_env e;
     lcr3 (env_pgdir v)
   else mret tt);;
  unlock_kernel;;
  env_pop_tf e.

(** ** Environment ids *)

Lemma NENV_eq : NENV = 1024.
Proof. reflexivity. Qed.

Lemma ENVX_mod id : ENVX id = id mod 1024.
Proof. unfold ENVX. change (NENV - 1) with (Z.ones 10). by rewrite Z.land_ones by lia. Qed.

Lemma ENVX_range id : 0 <= ENVX id < NENV.
Proof. rewrite ENVX_mod. by apply Z.mod_pos_bound. Qed.

Lemma clear_index x : Z.land x (Z.lnot (NENV - 1)) = x / 1024 * 1024.
Proof.
  change (NENV - 1) with (Z.ones 10). rewrite <- Z.ldiff_land, Z.ldiff_ones_r by (done || lia).
  by rewrite Z.shiftl_mul_pow2, Z.shiftr_div_pow2 by lia.
Qed.

Lemma lor_index g i : 0 <= i < 1024 → Z.lor (g * 1024) i = g * 1024 + i.
Proof.
  intros Hi. by apply (lor_add_shift g i 10).
Qed.

Lemma next_env_id_spec old i :
  is_s32 old → 0 <= i < NENV →
  let id := next_env_id old i in
  0 < id < 2 ^ 31 ∧ ENVX id = i ∧
  (0 <= old < 2 ^ 31 - 4096 → id = old / 1024 * 1024 + 4096 + i ∧ old < id + 1024) ∧
  (2 ^ 31 - 4096 <= old → id = 4096 + i) ∧
  (ENVX old = i → id ≠ old).
Proof.
  unfold is_s32. rewrite NENV_eq. intros Hold Hi.
  assert (Hid : next_env_id old i =
    (if s32 (old + 4096) / 1024 * 1024 <=? 0 then 4 else s32 (old + 4096) / 1024) * 1024 + i).
  { unfold next_env_id. rewrite clear_index. change (Z.shiftl 1 ENVGENSHIFT) with (4 * 1024).
    change (4 * 1024) with 4096 at 1. by destruct (_ <=? 0); rewrite lor_index. }
  rewrite Hid, !ENVX_mod. clear Hid. unfold s32.
  destruct (Z.leb_spec (((old + 4096 + 2 ^ 31) mod 2 ^ 32 - 2 ^ 31) / 1024 * 1024) 0) as [H|H];
    Z.to_euclidean_division_equations; lia.
Qed.

(** [next_env_id] makes ids that are positive, carry their slot's index,
    differ from the previous id of the slot, and grow with every reuse of the
    slot until the generation no longer fits in 31 bits; then the first
    generation follows. *)
Theorem next_env_id_correct old i :
  is_s32 old → 0 <= i < NENV →
  let id := next_env_id old i in
  0 < id < 2 ^ 31 ∧ ENVX id = i ∧
  (0 <= old < 2 ^ 31 - 4096 → id = old / 1024 * 1024 + 4096 + i ∧ old < id + 1024) ∧
  (2 ^ 31 - 4096 <= old → id = 4096 + i) ∧
  (ENVX old = i → id ≠ old).
Proof. exact (next_env_id_spec old i). Qed.

(** ** Looking up environments *)

Definition env_table (s : kstate) : Prop := ∀ i, 0 <= i < NENV → is_Some (envs s !! i).

Lemma get_env_eq s e v : envs s !! e = Some v → get_env e s = (Ret v, s).
Proof. intros H. unfold get_env. msimpl. by rewrite H. Qed.

Lemma upd_env_eq s e v f :
  envs s !! e = Some v → upd_env e f s = (Ret tt, set_envs (<[e := f v]> (envs s)) s).
Proof. intros H. unfold upd_env. mrun (by apply get_env_eq). done. Qed.

(** The environment [envid] names, seen from environment [cur]: the slot its
    index selects, if that holds a live environment with this very id that
    [cur] may manipulate. *)
Definition may_name (s : kstate) (cur : option Z) (envid : Z) (checkperm : bool) : bool :=
  let e := ENVX envid in
  match envs s !! e with
  | None => false
  | Some v =>
    bool_decide (env_status v ≠ ENV_FREE) && (env_id v =? envid) &&
    (negb checkperm || bool_decide (cur = Some e) ||
     match cur ≫= (envs s !!.) with
     | Some cv => env_parent_id v =? env_id cv
     | None => false
     end)
  end.

Lemma envid2env_spec s envid checkperm :
  env_table s → cur_ok s → (checkperm = true → is_Some (curenv_of s)) →
  envid2env envid checkperm s =
    (Ret (if envid =? 0 then (0, curenv_of s)
          else if may_name s (curenv_of s) envid checkperm then (0, Some (ENVX envid))
          else (- E_BAD_ENV, None)), s).
Proof.
  intros Ht Hc Hp. unfold envid2env. destruct (Z.eqb_spec envid 0) as [|Hne]; [done|].
  unfold may_name. destruct (Ht (ENVX envid) (ENVX_range envid)) as [v Hv]. rewrite Hv.
  mrun (by apply get_env_eq). destruct (decide (env_status v = ENV_FREE)) as [Hf|Hf].
  { rewrite bool_decide_eq_true_2, bool_decide_eq_false_2 by tauto. done. }
  rewrite bool_decide_eq_false_2, (bool_decide_eq_true_2 (_ ≠ ENV_FREE)) by done.
  cbn [orb andb]. destruct (env_id v =? envid); [|done]. cbn [negb andb]. unfold curenv. mstep.
  destruct checkperm; [|done]. cbn [andb negb orb].
  destruct (decide (curenv_of s = Some (ENVX envid))) as [E|E].
  { rewrite (bool_decide_eq_false_2 (_ ≠ Some _)), bool_decide_eq_true_2 by tauto. done. }
  rewrite (bool_decide_eq_true_2 (_ ≠ Some _)), (bool_decide_eq_false_2 (_ = Some _)) by done.
  destruct (Hp eq_refl) as [c Hcur]. destruct (Hc c Hcur) as [cv Hcv]. rewrite Hcur.
  cbn [mbind option_bind orb]. rewrite Hcv. msimpl. unfold the, get_env. msimpl. rewrite Hcv.
  unfold the. msimpl. by destruct (env_parent_id v =? env_id cv).
Qed.

(** [envid2env] returns, changes nothing, and yields the current
    environment for 0, the named slot for a live id that the caller may
    manipulate, and [-E_BAD_ENV] with no environment otherwise. *)
Theorem envid2env_correct s envid checkperm :
  env_table s → cur_ok s → (checkperm = true → is_Some (curenv_of s)) →
  envid2env envid checkperm s =
    (Ret (if envid =? 0 then (0, curenv_of s)
          else if may_name s (curenv_of s) envid checkperm then (0, Some (ENVX envid))
          else (- E_BAD_ENV, None)), s).
Proof. exact (envid2env_spec s envid checkperm). Qed.

(** ** Initialisation *)

Definition link_after (i : Z) : option Z := if i =? NENV - 1 then None else Some (i + 1).

Definition init_env (i : Z) (v : Env) : Env :=
  set_env_link (link_after i) (set_env_status ENV_FREE (set_env_id 0 v)).

Lemma env_init_slot_eq s i v :
  0 <= i < NENV → envs s !! i = Some v → env_free_list s = link_after i →
  env_init_slot i s =
    (Ret tt, set_env_free_list (Some i) (set_envs (<[i := init_env i v]> (envs s)) s)).
Proof.
  intros Hi Hv Hfl. unfold env_init_slot. mrun (by apply upd_env_eq).
  mrun (apply upd_env_eq; apply lookup_insert_eq).
  destruct (Z.eqb_spec i NENV); [lia|]. cbn [env_free_list set_envs]. msimpl.
  erewrite upd_env_eq by (apply lookup_insert_eq). cbn [envs set_envs].
  rewrite !insert_insert_eq. unfold init_env. rewrite <- Hfl. by destruct s.
Qed.

Lemma env_init_loop n s :
  Z.of_nat n <= NENV → env_table s → env_free_list s = (if Z.of_nat n =? NENV then None else Some (Z.of_nat n)) →
  ∃ m, mfor (reverse (seqZ 0 (Z.of_nat n))) env_init_slot s =
         (Ret tt, set_env_free_list (if Z.of_nat n =? 0 then env_free_list s else Some 0) (set_envs m s)) ∧
    ∀ i, m !! i = if bool_decide (0 <= i < Z.of_nat n) then init_env i <$> envs s !! i else envs s !! i.
Proof.
  revert s. induction n as [|n IH]; intros s Hn Ht Hfl.
  - exists (envs s). split; [by destruct s|]. intros i. rewrite bool_decide_eq_false_2 by lia. done.
  - rewrite Nat2Z.inj_succ, <- Z.add_1_r in *. rewrite seqZ_app, reverse_app by lia.
    rewrite seqZ_cons, seqZ_nil by lia. change (reverse [0 + Z.of_nat n]) with [0 + Z.of_nat n].
    rewrite Z.add_0_l. cbn [app mfor].
    destruct (Ht (Z.of_nat n)) as [v Hv]; [lia|].
    assert (Hlink : env_free_list s = link_after (Z.of_nat n)).
    { rewrite Hfl. unfold link_after.
      by destruct (Z.eqb_spec (Z.of_nat n + 1) NENV), (Z.eqb_spec (Z.of_nat n) (NENV - 1)); try lia. }
    mrun (apply env_init_slot_eq; [lia|exact Hv|exact Hlink]).
    set (s1 := set_env_free_list _ _).
    destruct (IH s1) as (m & Hm & Hl); [lia| | |].
    + intros i Hi. cbn. rewrite lookup_insert. case_decide; [eauto|by apply Ht].
    + cbn. destruct (Z.eqb_spec (Z.of_nat n) NENV); [lia|done].
    + exists m. rewrite Hm. split.
      * destruct (Z.eqb_spec (Z.of_nat n + 1) 0); [lia|]. cbn.
        destruct (Z.eqb_spec (Z.of_nat n) 0) as [->|]; done.
      * intros i. rewrite Hl. cbn. rewrite lookup_insert.
        destruct (decide (Z.of_nat n = i)) as [<-|Hne].
        -- rewrite bool_decide_eq_false_2, bool_decide_eq_true_2, Hv by lia. done.
        -- destruct (decide (0 <= i < Z.of_nat n)).
           ++ by rewrite !bool_decide_eq_true_2 by lia.
           ++ by rewrite !bool_decide_eq_false_2 by lia.
Qed.

(** [env_init] leaves every slot free with id 0 and links them in the
    order of the array, so that the first allocation takes [envs[0]]. *)
Theorem env_init_correct s :
  env_table s →
  ∃ m, env_init s = (Ret tt, set_env_free_list (Some 0) (set_envs m s)) ∧
    ∀ i, 0 <= i < NENV → m !! i = init_env i <$> envs s !! i.
Proof.
  intros Ht. unfold env_init. rewrite bind_modify.
  destruct (env_init_loop 1024 (set_env_free_list None s)) as (m & Hm & Hl); [done|done|done|].
  exists m. change (Z.of_nat 1024) with NENV in *. rewrite Hm. split; [done|].
  intros i Hi. rewrite Hl. by rewrite bool_decide_eq_true_2.
Qed.
