(* ===== verification/EnvSpace.v ===== *)
(** * New address spaces

    [env_setup_vm] and [env_alloc] against the invariant of the
    virtual-memory system: a new environment gets a directory of its own, in
    a page taken from the free list, that maps nothing below [UTOP], agrees
    with the kernel's directory above it, and maps itself read-only at
    [UVPT]; no other address space changes. *)

From S2P Require Import Prelude Mmu Console KState Demo Lock PageAlloc PageTable AddrSpace PageInsert VmDemo Env.
Open Scope Z_scope.

(** The kernel's directory is the frame [kp]; it is allocated, and it maps
    nothing below [UTOP]. *)
Record kern_dir (s : kstate) (kp : Z) (fl : list Z) : Prop := mk_kern_dir {
  kd_eq : kern_pgdir s = kaddr kp;
  kd_range : 0 <= kp < npages s;
  kd_used : kp ∉ fl;
  kd_empty : ∀ i, uidx i → present (entry s kp i) = false;
}.

Definition new_space (s : kstate) (kp e : Z) (v : Env) (pd : Z) (l : list Z) : kstate :=
  set_mem (st32 (mem_copy (mem_set (mem s) (pd * 4096) 0 4096) (pd * 4096) (kp * 4096) 4096)
             (pd * 4096 + 4 * PDX UVPT) (pd * 4096 + 5))
    (set_envs (<[e := set_env_pgdir (kaddr pd) v]> (envs s))
      (set_pages (<[pd := mkPageInfo (head l) 1]> (pages s)) (set_page_free_list (head l) s))).

Lemma kmemcpy_frame d f n s :
  kmemcpy (kaddr d) (kaddr f) n s =
    (Ret tt, set_mem (mem_copy (mem s) (d * 4096) (f * 4096) n) s).
Proof.
  unfold kmemcpy, modify, kaddr. replace (d * 4096 + KERNBASE - KERNBASE) with (d * 4096) by lia.
  by replace (f * 4096 + KERNBASE - KERNBASE) with (f * 4096) by lia.
Qed.

Lemma dir_bits n : Z.lor (Z.lor (n * 4096) PTE_P) PTE_U = n * 4096 + 5.
Proof. rewrite <- Z.lor_assoc. change (Z.lor PTE_P PTE_U) with 5. apply pte_lor. lia. Qed.

Lemma env_setup_vm_eq s kp pd l e v :
  phys_ok s → kern_dir s kp (pd :: l) → free_list s (pd :: l) → envs s !! e = Some v →
  env_setup_vm e s = (Ret 0, new_space s kp e v pd l).
Proof.
  intros Hok Hkd Hfl Hv. unfold env_setup_vm.
  pose proof (free_list_range s _ pd Hok Hfl ltac:(by left)) as Hpd.
  pose proof (phys_npages s Hok) as Hnp.
  destruct (Hfl) as [(_ & link & Hpi & Hl) _]. rewrite (chain_head _ _ _ Hl) in Hpi.
  mrun (by apply page_alloc_pop). mrun (by apply page_incref_eq).
  change (u16 (pp_ref (mkPageInfo (head l) 0) + 1)) with 1. cbn [pp_link].
  set (s1 := set_pages _ _).
  assert (Hok1 : phys_ok s1).
  { unfold s1. destruct (pages_insert_dom s pd (mkPageInfo (head l) 1) Hok Hpd). by constructor. }
  mrun (apply page2kva_ok; [exact Hok1|exact Hpd]).
  mrun (by apply upd_env_eq). mstep. change (pd * 4096 + KERNBASE) with (kaddr pd).
  cbn [kern_pgdir set_envs]. change (kern_pgdir s1) with (kern_pgdir s). rewrite (kd_eq _ _ _ Hkd).
  mrun (apply kmemcpy_frame). mrun (apply (PADDR_ok _ (pd * 4096)); lia). mrun (apply kstore_entry).
  rewrite dir_bits, u32_small by lia. reflexivity.
Qed.

Lemma new_space_entry s kp e v pd l f i :
  0 <= pd < 65536 → kp ≠ pd → idx i →
  entry (new_space s kp e v pd l) f i =
    if decide (f = pd) then if decide (i = PDX UVPT) then pd * 4096 + 5 else entry s kp i
    else entry s f i.
Proof.
  intros Hpd Hne Hi. unfold new_space.
  set (m := mem_copy _ _ _ _). set (s0 := set_envs _ _).
  change (set_mem (st32 m (pd * 4096 + 4 * PDX UVPT) (pd * 4096 + 5)) s0)
    with (set_mem (st32 m (pd * 4096 + 4 * PDX UVPT) (pd * 4096 + 5)) (set_mem m s0)).
  rewrite (entry_store _ pd (PDX UVPT) (pd * 4096 + 5) f i (set_mem m s0));
    [|apply PDX_range|done|unfold is_u32; lia|reflexivity].
  unfold entry, idx in *. cbn [mem set_mem]. unfold m.
  destruct (decide (f = pd)) as [->|Hf].
  - destruct (decide (i = PDX UVPT)) as [->|Hu]; [by rewrite decide_True|].
    rewrite decide_False by tauto.
    rewrite ld32_mem_copy_in by lia. rewrite ld32_mem_set_out by nia. f_equal. lia.
  - rewrite decide_False by tauto.
    rewrite ld32_mem_copy_out by nia. by rewrite ld32_mem_set_out by nia.
Qed.

(** ** Adding an empty address space *)

Lemma slots_cons pd pds : slots (pd :: pds) = slots [pd] ++ slots pds.
Proof. unfold slots. cbn [mbind list_bind]. by rewrite app_nil_r. Qed.

Lemma nmaps_empty s pd p : (∀ x, x ∈ slots [pd] → pte_of s x = None) → nmaps s [pd] p = 0.
Proof.
  unfold nmaps. generalize (slots [pd]). intros l H. induction l as [|x l IH]; [done|].
  rewrite filter_cons_False.
  - apply IH. intros y Hy. apply H. by right.
  - unfold maps. by rewrite H by (by left).
Qed.

Lemma nmaps_cons s pd pds p : nmaps s (pd :: pds) p = nmaps s [pd] p + nmaps s pds p.
Proof. unfold nmaps. rewrite slots_cons, filter_app, length_app. lia. Qed.

(** A state that differs by a directory [pd] that maps nothing below [UTOP],
    taken from the head of the free list. *)
Lemma vm_ok_add_dir s s' pds pd l :
  vm_ok s pds (pd :: l) → mem_ok (mem s') →
  npages s' = npages s → page_free_list s' = head l →
  pages s' = <[pd := mkPageInfo (head l) 1]> (pages s) →
  (∀ f i, idx i → f ≠ pd → entry s' f i = entry s f i) →
  (∀ i, uidx i → present (entry s' pd i) = false) →
  vm_ok s' (pd :: pds) l ∧
  (∀ y, y ∈ slots pds → pte_of s' y = pte_of s y) ∧
  (∀ y, y ∈ slots [pd] → pte_of s' y = None).
Proof.
  intros Hvm Hmem Hnp Hfl Hpg HE Hempty.
  pose proof (vm_free _ _ _ Hvm) as Hfree.
  pose proof (free_list_range s _ pd (vm_phys _ _ _ Hvm) Hfree ltac:(by left)) as Hpd.
  destruct (Hfree) as [(Ho & link & Hlk & Hch) [Hnl Hnd]%NoDup_cons].
  pose proof (chain_head _ _ _ Hch) as ->.
  assert (Hne : ∀ p, p ∈ pds → p ≠ pd) by (intros p Hp ->; destruct (vm_pd _ _ _ Hvm pd Hp) as [_ []]; by left).
  assert (HT : ∀ p i, p ∈ pds → uidx i → present (entry s p i) = true → PGNUM (entry s p i) ≠ pd).
  { intros p i Hp Hi Hpr E. destruct (vm_pt _ _ _ Hvm p i Hp Hi Hpr) as (_ & [] & _). rewrite E. by left. }
  assert (HP : ∀ y, y ∈ slots pds → pte_of s' y = pte_of s y).
  { intros [[p i] j] (Hp & Hi & Hj)%elem_of_slots. unfold pte_of, lookup_pte. cbn [fst snd].
    rewrite HE by first [by apply uidx_idx|by apply Hne].
    destruct (present (entry s p i)) eqn:Hpr; [|done]. by rewrite HE by (done || by apply HT). }
  assert (HN : ∀ y, y ∈ slots [pd] → pte_of s' y = None).
  { intros [[p i] j] (Hp & Hi & Hj)%elem_of_slots. apply elem_of_cons in Hp as [->|?%not_elem_of_nil]; [|done].
    unfold pte_of, lookup_pte. cbn [fst snd]. by rewrite Hempty. }
  split; [|done].
  assert (Huser : ∀ p i, p ∈ pd :: pds → uidx i → present (entry s' p i) = true →
    p ∈ pds ∧ entry s' p i = entry s p i).
  { intros p i [->|Hp]%elem_of_cons Hi Hpr; [by rewrite Hempty in Hpr|].
    split; [done|]. apply HE; [by apply uidx_idx|by apply Hne]. }
  constructor.
  - done.
  - pose proof (pages_insert_dom s pd (mkPageInfo (head l) 1) (vm_phys _ _ _ Hvm) Hpd) as [H1 H2].
    constructor; [by rewrite Hnp|]. by rewrite Hpg, Hnp.
  - split; [|done]. rewrite Hfl, Hpg. by apply chain_insert_ne.
  - apply NoDup_cons. split; [|apply Hvm]. intros Hin. by apply (Hne pd).
  - rewrite Hnp. intros p [->|Hp]%elem_of_cons; [done|]. destruct (vm_pd _ _ _ Hvm p Hp) as [? Hnf].
    split; [done|]. intros ?. apply Hnf. by right.
  - intros p i Hp Hi Hpr. destruct (Huser p i Hp Hi Hpr) as [Hp' E]. rewrite E in *.
    destruct (vm_pt _ _ _ Hvm p i Hp' Hi Hpr) as (? & Hnf & Hnp'). pose proof (HT p i Hp' Hi Hpr).
    cbv zeta. rewrite Hnp, not_elem_of_cons in *. tauto.
  - intros p1 i1 p2 i2 Hp1 Hp2 Hi1 Hi2 H1 H2.
    destruct (Huser p1 i1 Hp1 Hi1 H1) as [Hq1 E1], (Huser p2 i2 Hp2 Hi2 H2) as [Hq2 E2].
    rewrite E1, E2 in *. by apply (vm_inj _ _ _ Hvm).
  - intros y t Hy Ht. rewrite slots_cons in Hy. apply elem_of_app in Hy as [Hy|Hy].
    { by rewrite HN in Ht. }
    rewrite HP in Ht by done. destruct (vm_data _ _ _ Hvm y t Hy Ht) as (? & Hnpd & Hnpt).
    pose proof (vm_mapped_not_free s pds _ Hvm y t Hy Ht) as Hnf. rewrite elem_of_cons in Hnf.
    rewrite Hnp, elem_of_cons. split_and!; [done|tauto|].
    intros (p & i & Hp & Hi & Hpr & Hq). destruct (Huser p i Hp Hi Hpr) as [Hp' E]. rewrite E in *.
    apply Hnpt. by exists p, i.
  - intros p pi'. rewrite nmaps_cons, nmaps_empty by done.
    assert (Heq : nmaps s' pds p = nmaps s pds p).
    { unfold nmaps. f_equal. apply filter_length_iff. intros y Hy. unfold maps. by rewrite HP. }
    rewrite Heq, Hpg, lookup_insert. destruct (decide (pd = p)) as [<-|]; [|apply (vm_ref _ _ _ Hvm)].
    intros [= <-]. pose proof (vm_ref _ _ _ Hvm _ _ Hlk) as Hr. cbn [pp_ref] in *. lia.
Qed.

(** ** [env_alloc] *)

(** The environment a successful [env_alloc] leaves in its slot. *)
Definition allocated (v : Env) (e pd parent : Z) : Env :=
  set_env_ipc_recving false (set_env_pgfault_upcall 0 (set_env_tf user_tf (set_env_runs 0
    (set_env_status ENV_RUNNABLE (set_env_type ENV_TYPE_USER (set_env_parent_id parent
      (set_env_id (next_env_id (env_id v) e) (set_env_pgdir (kaddr pd) v)))))))).

Lemma env_alloc_eq s kp pd l e v parent :
  phys_ok s → kern_dir s kp (pd :: l) → free_list s (pd :: l) →
  env_free_list s = Some e → envs s !! e = Some v →
  env_alloc parent s =
    (Ret (0, Some e),
     set_env_free_list (env_link v)
       (set_envs (<[e := allocated v e pd parent]> (envs s)) (new_space s kp e v pd l))).
Proof.
  intros Hok Hkd Hfl He Hv. unfold env_alloc. mstep. rewrite He.
  mrun (by apply env_setup_vm_eq). cbn [Z.ltb Z.compare].
  do 8 mrun (apply upd_env_eq; apply lookup_insert_eq).
  mrun (apply get_env_eq; apply lookup_insert_eq). mstep. cbn [envs set_envs].
  rewrite !insert_insert_eq. unfold new_space at 1. cbn [envs set_envs set_mem].
  by rewrite insert_insert_eq.
Qed.

Lemma env_alloc_spec s kp pds fl e v parent :
  vm_ok s pds fl → kern_dir s kp fl →
  (env_free_list s = None → env_alloc parent s = (Ret (- E_NO_FREE_ENV, None), s)) ∧
  (env_free_list s = Some e → envs s !! e = Some v →
   match fl with
   | [] => env_alloc parent s = (Ret (- E_NO_MEM, None), s)
   | pd :: l =>
     ∃ s', env_alloc parent s = (Ret (0, Some e), s') ∧
       vm_ok s' (pd :: pds) l ∧ kern_dir s' kp l ∧
       envs s' = <[e := allocated v e pd parent]> (envs s) ∧ env_free_list s' = env_link v ∧
       curenv_of s' = curenv_of s ∧
       (∀ i, idx i → entry s' pd i = if decide (i = PDX UVPT) then pd * 4096 + 5 else entry s kp i) ∧
       (∀ y, y ∈ slots [pd] → pte_of s' y = None) ∧
       (∀ y, y ∈ slots pds → pte_of s' y = pte_of s y)
   end).
Proof.
  intros Hvm Hkd. split; [intros He; unfold env_alloc; mstep; by rewrite He|].
  intros He Hv. pose proof (vm_free _ _ _ Hvm) as Hfl. pose proof (vm_phys _ _ _ Hvm) as Hok.
  pose proof (phys_npages s Hok) as Hnp.
  destruct fl as [|pd l].
  { unfold env_alloc. mstep. rewrite He. mrun (unfold env_setup_vm;
      rewrite (bind_Ret _ _ _ _ _ (page_alloc_empty s ALLOC_ZERO (proj1 Hfl))); reflexivity). done. }
  eexists. rewrite (env_alloc_eq s kp pd l e v parent) by done. split; [done|].
  set (s' := set_env_free_list _ _).
  pose proof (free_list_range s _ pd Hok Hfl ltac:(by left)) as Hpd.
  assert (Hkp : kp ≠ pd) by (intros ->; apply (kd_used _ _ _ Hkd); by left).
  assert (HE : ∀ f i, idx i → entry s' f i =
    if decide (f = pd) then if decide (i = PDX UVPT) then pd * 4096 + 5 else entry s kp i else entry s f i).
  { intros f i Hi. rewrite <- (new_space_entry s kp e v pd l) by (done || lia). by apply entry_mem. }
  destruct (vm_ok_add_dir s s' pds pd l Hvm) as (Hvm' & HP & HN); try done.
  { cbn. apply st32_ok, mem_copy_ok, mem_set_ok, Hvm. }
  { intros f i Hi Hf. by rewrite HE, decide_False by done. }
  { intros i Hi. rewrite HE, decide_True by (done || by apply uidx_idx).
    rewrite decide_False; [by apply (kd_empty _ _ _ Hkd)|].
    intros ->. destruct Hi as [_ Hi]. by vm_compute in Hi. }
  split_and!; try done.
  - destruct Hkd as [H1 H2 H3 H4]. constructor; [done|done|intros ?; apply H3; by right|].
    intros i Hi. rewrite HE, decide_False by (done || by apply uidx_idx). by apply H4.
  - intros i Hi. by rewrite HE, decide_True.
Qed.

(** The ids in the table: 0 in a slot that was never used, else positive and
    with the slot's index in the low bits. *)
Definition ids_ok (s : kstate) : Prop :=
  ∀ i w, envs s !! i = Some w → 0 <= i < NENV ∧ (env_id w = 0 ∨ 0 < env_id w < 2 ^ 31 ∧ ENVX (env_id w) = i).

(** The id of a new environment in slot [e]: nobody in the table has it, the
    previous environment of the slot did not have it, and the generation has
    grown, until it no longer fits in 31 bits. *)
Lemma fresh_id s e v :
  ids_ok s → envs s !! e = Some v →
  let id := next_env_id (env_id v) e in
  0 < id < 2 ^ 31 ∧ ENVX id = e ∧ (∀ i w, envs s !! i = Some w → env_id w ≠ id) ∧
  (env_id v < 2 ^ 31 - 4096 → env_id v < id).
Proof.
  intros Hids Hv id. destruct (Hids e v Hv) as [He Hid].
  destruct (next_env_id_spec (env_id v) e) as (H1 & H2 & H3 & _ & H5); [unfold is_s32; lia|done|]. fold id in H1, H2, H3, H5.
  split_and!; [lia|lia|done| |].
  - intros i w Hw Heq. destruct (Hids i w Hw) as [_ [?|[_ Hx]]]; [lia|].
    assert (i = e) as -> by (rewrite <- Hx, <- H2; by rewrite Heq). assert (w = v) as -> by congruence.
    destruct Hid as [?|[_ Hxe]]; [lia|]. by apply H5.
  - intros Hs. destruct (H3 ltac:(lia)) as [-> _]. Z.to_euclidean_division_equations. lia.
Qed.

(** C11: A new environment, in a table whose ids name their slots.  [env_alloc]
    fails without a free slot ([-E_NO_FREE_ENV]) or without a free page
    ([-E_NO_MEM]), and then changes nothing.  Otherwise it takes the first free
    slot and the first free page.  The slot becomes a runnable environment
    with cleared registers, user segments and interrupts enabled, and an id
    that is positive, names the slot, differs from every id in the table,
    that of the slot's previous environment included, and is larger than the
    latter while that is below 2^31 - 4096 (then the first generation comes
    again, so that ids repeat in the long run).  The page becomes its
    directory: nothing is mapped below [UTOP], the entries above are the
    kernel's, except that [UVPT] maps the directory itself, readable by the
    user.  No other address space is affected. *)
Theorem env_alloc_correct s kp pds fl e v parent :
  vm_ok s pds fl → kern_dir s kp fl → ids_ok s →
  (env_free_list s = None → env_alloc parent s = (Ret (- E_NO_FREE_ENV, None), s)) ∧
  (env_free_list s = Some e → envs s !! e = Some v →
   match fl with
   | [] => env_alloc parent s = (Ret (- E_NO_MEM, None), s)
   | pd :: l =>
     ∃ s', env_alloc parent s = (Ret (0, Some e), s') ∧
       vm_ok s' (pd :: pds) l ∧ kern_dir s' kp l ∧
       envs s' = <[e := allocated v e pd parent]> (envs s) ∧ env_free_list s' = env_link v ∧
       (let id := env_id (allocated v e pd parent) in
        0 < id < 2 ^ 31 ∧ ENVX id = e ∧ (∀ i w, envs s !! i = Some w → env_id w ≠ id) ∧
        (env_id v < 2 ^ 31 - 4096 → env_id v < id)) ∧
       curenv_of s' = curenv_of s ∧
       (∀ i, idx i → entry s' pd i = if decide (i = PDX UVPT) then pd * 4096 + 5 else entry s kp i) ∧
       (∀ y, y ∈ slots [pd] → pte_of s' y = None) ∧
       (∀ y, y ∈ slots pds → pte_of s' y = pte_of s y)
   end).
Proof.
  intros Hvm Hkd Hids. destruct (env_alloc_spec s kp pds fl e v parent Hvm Hkd) as [H1 H2]. split; [exact H1|].
  intros He Hv. specialize (H2 He Hv). destruct fl as [|pd l]; [exact H2|].
  destruct H2 as (s' & ? & ? & ? & ? & ? & ? & ? & ? & ?). exists s'. pose proof (fresh_id s e v Hids Hv). by split_and!.
Qed.

(** ** Witnesses *)

Lemma demo_kern_dir : kern_dir demo 4 [5; 6; 7].
Proof.
  constructor; [done|done| |intros i _; by rewrite demo_entry].
  apply (bool_decide_unpack (4 ∉ [5; 6; 7])). by vm_compute.
Qed.

Lemma demo_ids : ids_ok demo.
Proof.
  assert (Hall : map_Forall (λ i w, 0 <= i < NENV ∧ (env_id w = 0 ∨ 0 < env_id w < 2 ^ 31 ∧ ENVX (env_id w) = i)) (envs demo)).
  { apply (bool_decide_unpack _). vm_compute. exact I. }
  intros i w Hw. exact (Hall i w Hw).
Qed.

Lemma env_alloc_correct_witness :
  ∃ s', env_alloc 0x1000 demo = (Ret (0, Some 2), s') ∧ vm_ok s' [5; 1; 2] [6; 7] ∧
    (env_id <$> envs s' !! 2) = Some 0x1002 ∧ entry s' 5 (PDX UVPT) = 5 * 4096 + 5.
Proof.
  assert (Hi : idx (PDX UVPT)) by done.
  destruct (env_alloc_correct demo 4 [1; 2] [5; 6; 7] 2 (free_env (Some 3) 0) 0x1000 demo_vm demo_kern_dir demo_ids)
    as [_ H].
  destruct (H eq_refl eq_refl) as (s' & Hrun & Hvm & _ & Henv & _ & _ & _ & HE & _).
  exists s'. split; [exact Hrun|]. split; [exact Hvm|]. split.
  - rewrite Henv, lookup_insert_eq. reflexivity.
  - rewrite (HE _ Hi). reflexivity.
Defined.
