(* ===== verification/Sched.v ===== *)
(** * The scheduler ([kern/sched.c]) and [env_destroy]

    [sched_yield], [sched_halt] and [env_destroy] (of [kern/env.c], which
    calls the scheduler).  None of them returns to its caller when it
    schedules: their result type is then [False], and the outcome is where the
    CPU goes: [RunEnv e], [CpuHalt] or the kernel monitor.

    [sched_choice] is the round-robin policy the comment in the code asks for,
    and [sched_yield_round_robin] proves the search implements it. *)

From S2P Require Import Prelude Mmu Console KState Demo Lock PageAlloc PageTable AddrSpace PageInsert VmDemo Env.
Open Scope Z_scope.

Definition is_status (st : EnvStatus) (v : Env) : bool := bool_decide (env_status v = st).

(** The counter [i] of the search loop when it ends: the index of the first
    live environment, or [NENV]. *)
Fixpoint halt_search (fuel : nat) (i : Z) : K Z :=
  match fuel with
  | O => stop OutOfFuel
  | S fuel' =>
    if i <? NENV then
      v ← get_env i;
      if is_status ENV_RUNNABLE v || is_status ENV_RUNNING v || is_status ENV_DYING v then mret i
      else halt_search fuel' (i + 1)
    else mret i
  end.

Definition sched_halt : K False :=
  i ← halt_search 1025 0;
  if i =? NENV then stop Monitor
  else
    set_curenv None;;
    kp ← gets kern_pgdir;
    lcr3 kp;;
    upd_cpu (set_cpu_status CPU_HALTED);;
    unlock_kernel;;
    stop CpuHalt.

Fixpoint sched_search (fuel : nat) (i : Z) : K unit :=
  match fuel with
  | O => mret tt
  | S fuel' =>
    v ← get_env i;
    (if is_status ENV_RUNNABLE v then f ← env_run i; match (f : False) with end else mret tt);;
    sched_search fuel' (u32 (i + 1) mod NENV)
  end.

(** The loop [while (j < NENV)] makes [NENV] rounds. *)
Definition sched_yield : K False :=
  idle ← curenv;
  i ← match idle with
      | Some c => v ← get_env c; mret (ENVX (env_id v) + 1)
      | None => mret 0
      end;
  sched_search (Z.to_nat NENV) i;;
  (match idle with
   | Some c => v ← get_env c; if is_status ENV_RUNNING v then f ← env_run c; match (f : False) with end else mret tt
   | None => mret tt
   end);;
  sched_halt.

Definition env_destroy (e : Z) : K unit :=
  v ← get_env e;
  cur ← curenv;
  if is_status ENV_RUNNING v && bool_decide (cur ≠ Some e) then upd_env e (set_env_status ENV_DYING)
  else
    env_free e;;
    cur ← curenv;
    if bool_decide (cur = Some e) then set_curenv None;; f ← sched_yield; match (f : False) with end
    else mret tt.

(** ** Round robin *)

(** The slots in the order the search visits them, starting at [i]. *)
Definition circle (i : Z) : list Z := (λ k, (i + k) mod NENV) <$> seqZ 0 NENV.

(** The first runnable environment after the current one. *)
Definition sched_choice (s : kstate) : option Z :=
  let start := match curenv_of s with Some c => c + 1 | None => 0 end in
  snd <$> list_find (λ i, is_status ENV_RUNNABLE <$> envs s !! i = Some true) (circle start).

Lemma u32_mod_NENV i : 0 <= i < NENV → u32 (i + 1) mod NENV = (i + 1) mod NENV.
Proof. rewrite NENV_eq. intros H. by rewrite u32_small by lia. Qed.

(** A computation of type [False] ends in a [Stop]. *)
Lemma never_returns (m : K False) s : ∃ st s', m s = (Stop st, s').
Proof. destruct (m s) as [[[]|st] s']. eauto. Qed.

(** Going where [m] goes, at any result type. *)
Definition goes {A} (r : res stopped A * kstate) (m : K False) (s : kstate) : Prop :=
  ∃ st s', m s = (Stop st, s') ∧ r = (Stop st, s').

Lemma goes_call {A} (m : K False) s (k : False → K A) : goes ((f ← m; k f) s) m s.
Proof. destruct (never_returns m s) as (st & s' & H). exists st, s'. split; [done|]. by rewrite (bind_Stop _ _ _ _ _ H). Qed.

Lemma goes_bind {A B} (n : K A) (k : A → K B) (m : K False) s : goes (n s) m s → goes ((x ← n; k x) s) m s.
Proof. intros (st & s' & H & Hn). exists st, s'. split; [done|]. by rewrite (bind_Stop _ _ _ _ _ Hn). Qed.

Lemma goes_False (m n : K False) s : goes (n s) m s ↔ n s = m s.
Proof.
  destruct (never_returns m s) as (st & s' & H). split.
  - intros (st2 & s2 & H1 & H2). congruence.
  - intros E. exists st, s'. by rewrite E.
Qed.

Abbreviation runnable s := (λ i, is_status ENV_RUNNABLE <$> envs s !! i = Some true).

Lemma sched_search_eq fuel i s :
  env_table s → 0 <= i < NENV →
  match list_find (runnable s) ((λ k, (i + k) mod NENV) <$> seqZ 0 (Z.of_nat fuel)) with
  | Some (_, e) => goes (sched_search fuel i s) (env_run e) s
  | None => sched_search fuel i s = (Ret tt, s)
  end.
Proof.
  intros Ht. revert i. induction fuel as [|fuel IH]; intros i Hi; [done|].
  cbn [sched_search]. rewrite Nat2Z.inj_succ, seqZ_cons by lia. cbn [fmap list_fmap list_find].
  rewrite Z.add_0_r, (Z.mod_small i NENV) by done.
  destruct (Ht i Hi) as [v Hv]. rewrite Hv. cbn [fmap option_fmap option_map].
  rewrite (bind_Ret _ _ _ _ _ (get_env_eq s i v Hv)).
  destruct (is_status ENV_RUNNABLE v) eqn:Hs.
  - rewrite decide_True by done. apply goes_bind, goes_call.
  - rewrite decide_False by done. mstep. rewrite u32_mod_NENV by done.
    specialize (IH ((i + 1) mod NENV) ltac:(by apply Z.mod_pos_bound)).
    rewrite Z.pred_succ. change (Z.succ 0) with (1 + 0).
    rewrite <- fmap_add_seqZ, <- list_fmap_compose.
    replace ((λ k, (i + k) mod NENV) ∘ Z.add 1 <$> seqZ 0 (Z.of_nat fuel))
      with ((λ k, ((i + 1) mod NENV + k) mod NENV) <$> seqZ 0 (Z.of_nat fuel)).
    + by destruct (list_find _ _) as [[n e]|].
    + apply list_fmap_ext. intros _ k _. unfold compose. rewrite Z.add_mod_idemp_l by done. f_equal. lia.
Qed.

Lemma sched_yield_spec s :
  env_table s →
  (∀ c, curenv_of s = Some c → 0 <= c < NENV - 1 ∧ ∃ v, envs s !! c = Some v ∧ ENVX (env_id v) = c) →
  sched_yield s =
    match sched_choice s with
    | Some e => env_run e s
    | None =>
      match curenv_of s with
      | Some c =>
        if bool_decide (is_status ENV_RUNNING <$> envs s !! c = Some true) then env_run c s else sched_halt s
      | None => sched_halt s
      end
    end.
Proof.
  intros Ht Hc. unfold sched_yield, sched_choice, circle, curenv. rewrite bind_gets.
  destruct (curenv_of s) as [c|] eqn:Hcur.
  - destruct (Hc c eq_refl) as (Hr & v & Hv & Hx).
    erewrite (bind_Ret _ _ s (c + 1) s) by (mrun (by apply get_env_eq); by rewrite Hx).
    pose proof (sched_search_eq (Z.to_nat NENV) (c + 1) s Ht ltac:(lia)) as Hs.
    change (Z.of_nat (Z.to_nat NENV)) with NENV in Hs.
    destruct (list_find _ _) as [[n e]|]; cbn [fmap option_fmap option_map snd].
    + by apply (goes_False (env_run e)), goes_bind.
    + mrun (exact Hs). rewrite Hv. cbn [fmap option_fmap option_map].
      unfold mbind at 1, M_bind at 1. rewrite (bind_Ret _ _ _ _ _ (get_env_eq s c v Hv)).
      destruct (is_status ENV_RUNNING v) eqn:Hst.
      * rewrite bool_decide_eq_true_2 by done. destruct (never_returns (env_run c) s) as (st & s' & E).
        by rewrite (bind_Stop _ _ _ _ _ E), E.
      * by rewrite bool_decide_eq_false_2.
  - rewrite bind_ret. pose proof (sched_search_eq (Z.to_nat NENV) 0 s Ht ltac:(done)) as Hs.
    change (Z.of_nat (Z.to_nat NENV)) with NENV in Hs.
    destruct (list_find _ _) as [[n e]|]; cbn [fmap option_fmap option_map snd].
    + by apply (goes_False (env_run e)), goes_bind.
    + by mrun (exact Hs).
Qed.

Lemma sched_search_outside n i s :
  (0 < n)%nat → envs s !! i = None → sched_search n i s = (Stop Undefined, s).
Proof.
  intros Hn H. destruct n as [|n]; [lia|]. cbn [sched_search]. apply bind_Stop.
  unfold get_env. msimpl. by rewrite H.
Qed.

Lemma sched_yield_last_slot s v :
  curenv_of s = Some (NENV - 1) → envs s !! (NENV - 1) = Some v → ENVX (env_id v) = NENV - 1 →
  envs s !! NENV = None → sched_yield s = (Stop Undefined, s).
Proof.
  intros Hc Hv Hx Hn. unfold sched_yield, curenv. rewrite bind_gets, Hc.
  erewrite (bind_Ret _ _ s NENV s) by (mrun (by apply get_env_eq); by rewrite Hx).
  apply bind_Stop. apply sched_search_outside; [rewrite NENV_eq; lia|done].
Qed.

(** C13: Round robin.  On a CPU that is idle, or runs an environment other than
    the last slot's, [sched_yield] switches to the first runnable environment
    in circular order after the current one; if there is none it goes back to
    the current environment if that is still running; otherwise it halts the
    CPU.  When the current environment is that of the last slot, it does none
    of this: the search begins at [envs[NENV]], outside the table, which is
    undefined behaviour. *)
Theorem sched_yield_round_robin s :
  env_table s → envs s !! NENV = None →
  (∀ c, curenv_of s = Some c → 0 <= c < NENV ∧ ∃ v, envs s !! c = Some v ∧ ENVX (env_id v) = c) →
  sched_yield s =
    if decide (curenv_of s = Some (NENV - 1)) then (Stop Undefined, s)
    else match sched_choice s with
    | Some e => env_run e s
    | None =>
      match curenv_of s with
      | Some c =>
        if bool_decide (is_status ENV_RUNNING <$> envs s !! c = Some true) then env_run c s else sched_halt s
      | None => sched_halt s
      end
    end.
Proof.
  intros Ht Hn Hc. case_decide as Hlast.
  - destruct (Hc _ Hlast) as (_ & v & Hv & Hx). by apply (sched_yield_last_slot s v).
  - apply sched_yield_spec; [done|]. intros c Hcur. destruct (Hc c Hcur) as [Hr Hv]. split; [|done].
    assert (c ≠ NENV - 1) by congruence. lia.
Qed.

(** A single runnable environment is the one chosen. *)
Lemma elem_of_circle i c : 0 <= c < NENV → c ∈ circle i.
Proof.
  intros Hc. apply list_elem_of_fmap. exists ((c - i) mod NENV). split.
  - rewrite Z.add_mod_idemp_r by done. replace (i + (c - i)) with c by lia. by rewrite Z.mod_small.
  - apply elem_of_seqZ. pose proof (Z.mod_pos_bound (c - i) NENV). rewrite NENV_eq in *. lia.
Qed.

Lemma sched_choice_only s c v :
  0 <= c < NENV → envs s !! c = Some v → env_status v = ENV_RUNNABLE →
  (∀ e w, e ≠ c → envs s !! e = Some w → env_status w ≠ ENV_RUNNABLE) → sched_choice s = Some c.
Proof.
  intros Hc Hv Hs Ho. unfold sched_choice. set (l := circle _).
  destruct (list_find_elem_of (λ i, is_status ENV_RUNNABLE <$> envs s !! i = Some true) l c) as [[n e] He].
  - by apply elem_of_circle.
  - rewrite Hv. cbn. unfold is_status. by rewrite bool_decide_eq_true_2.
  - rewrite He. cbn. f_equal. apply list_find_Some in He as (_ & Hr & _).
    destruct (decide (e = c)) as [|Hne]; [done|]. destruct (envs s !! e) as [w|] eqn:Hw; [|done].
    injection Hr as Hr. apply bool_decide_eq_true in Hr. by destruct (Ho e w Hne Hw).
Qed.

(** ** Context switches *)

(** The table after CPU [cpu] has switched from [cur] to [e]. *)
Definition switched (s : kstate) (cur : option Z) (e : Z) : gmap Z Env :=
  let m := match cur with
           | Some c => alter (λ v, if is_status ENV_RUNNING v then set_env_status ENV_RUNNABLE v else v) c (envs s)
           | None => envs s
           end in
  alter (λ v, set_env_runs (u32 (env_runs v + 1)) (set_env_status ENV_RUNNING v)) e m.

Lemma alter_lookup_Some {A} (m : gmap Z A) i f v : m !! i = Some v → alter f i m = <[i := f v]> m.
Proof.
  intros H. apply map_eq. intros j. destruct (decide (i = j)) as [<-|Hne].
  - by rewrite lookup_alter_eq, H, lookup_insert_eq.
  - by rewrite lookup_alter_ne, lookup_insert_ne.
Qed.

Lemma set_curenv_eq s ci o :
  cpus s !! cpunum s = Some ci →
  set_curenv o s = (Ret tt, set_cpus (<[cpunum s := set_cpu_env o ci]> (cpus s)) s).
Proof. intros H. unfold set_curenv, upd_cpu, thiscpu. msimpl. rewrite H. done. Qed.

Lemma lcr3_eq s f : 0 <= f → lcr3 (kaddr f) s = (Ret tt, set_cr3 (f * 4096) s).
Proof. intros H. unfold lcr3, kaddr. mrun (apply PADDR_ok; lia). done. Qed.

Lemma leave_kernel s e :
  holding (cpunum s) (kernel_lock s) = true → curenv_of s = Some e → is_Some (envs s !! e) →
  (unlock_kernel;; env_pop_tf e) s =
    (Stop (RunEnv e), set_envs (alter (set_env_cpunum (cpunum s)) e (envs s))
                        (set_kernel_lock (mkSpinlock 0 None) s)).
Proof.
  intros Hl Hc [v Hv]. unfold unlock_kernel, spin_unlock, env_pop_tf, curenv. msimpl. rewrite Hl. cbn [negb].
  change (curenv_of (set_kernel_lock (mkSpinlock 0 None) s)) with (curenv_of s). rewrite Hc.
  unfold the. msimpl.
  rewrite (upd_env_eq _ e v) by done. rewrite (alter_lookup_Some _ _ _ v) by done. done.
Qed.

Lemma reschedule_eq s c v :
  envs s !! c = Some v →
  (v ← get_env c;
   if bool_decide (env_status v = ENV_RUNNING) then upd_env c (set_env_status ENV_RUNNABLE) else mret tt) s
  = (Ret tt, set_envs (alter (λ v, if is_status ENV_RUNNING v then set_env_status ENV_RUNNABLE v else v) c
                         (envs s)) s).
Proof.
  intros Hv. mrun (by apply get_env_eq). rewrite (alter_lookup_Some _ _ _ v) by done.
  unfold is_status. destruct (bool_decide _).
  - by rewrite (upd_env_eq _ c v).
  - rewrite insert_id by done. unfold mret, M_ret. by destruct s.
Qed.

(** [env_run] leaves the kernel for environment [e], releasing the kernel
    lock.  If [e] is not the current environment, the current one, if it was
    running, becomes runnable, [e] becomes running and current with one more
    run, and its directory is installed; no other environment changes. *)
Theorem env_run_correct s e v f ci :
  holding (cpunum s) (kernel_lock s) = true → cpus s !! cpunum s = Some ci → cur_ok s →
  envs s !! e = Some v → env_pgdir v = kaddr f → 0 <= f →
  ∃ s', env_run e s = (Stop (RunEnv e), s') ∧
    curenv_of s' = Some e ∧ kernel_lock s' = mkSpinlock 0 None ∧
    let m := if decide (curenv_of s = Some e) then envs s else switched s (curenv_of s) e in
    envs s' = alter (set_env_cpunum (cpunum s)) e m ∧
    cr3 s' = (if decide (curenv_of s = Some e) then cr3 s else f * 4096) ∧
    (mem s', pages s', page_free_list s', env_free_list s') =
    (mem s, pages s, page_free_list s, env_free_list s) ∧
    cpus s' = (if decide (curenv_of s = Some e) then cpus s else <[cpunum s := set_cpu_env (Some e) ci]> (cpus s)).
Proof.
  intros Hl Hci Hc Hv Hf Hf0. unfold env_run, curenv. rewrite bind_gets.
  destruct (decide (curenv_of s = Some e)) as [E|E].
  { rewrite bool_decide_eq_false_2 by tauto. rewrite bind_ret.
    eexists. rewrite leave_kernel by (done || by rewrite Hv). split; [done|].
    split; [exact E|]. done. }
  rewrite bool_decide_eq_true_2 by done.
  set (m1 := match curenv_of s with
             | Some c => alter (λ v, if is_status ENV_RUNNING v then set_env_status ENV_RUNNABLE v else v) c (envs s)
             | None => envs s end).
  assert (Hm1 : m1 !! e = Some v).
  { unfold m1. destruct (curenv_of s) as [c|]; [|done]. rewrite lookup_alter_ne by congruence. done. }
  assert (H1 : (match curenv_of s with
      | Some cur => v ← get_env cur; if bool_decide (env_status v = ENV_RUNNING)
                    then upd_env cur (set_env_status ENV_RUNNABLE) else mret tt
      | None => mret tt
      end) s = (Ret tt, set_envs m1 s)).
  { unfold m1. destruct (curenv_of s) as [c|] eqn:Hcur; [|by destruct s].
    destruct (Hc c Hcur) as [cv Hcv]. by apply (reschedule_eq s c cv). }
  set (s2 := set_cpus (<[cpunum s := set_cpu_env (Some e) ci]> (cpus s)) (set_envs m1 s)).
  set (s5 := set_cr3 (f * 4096) (set_envs (switched s (curenv_of s) e) s2)).
  erewrite (bind_Ret _ _ s tt s5).
  - eexists. rewrite leave_kernel.
    + split; [done|]. split; [|done]. cbn. unfold curenv_of. cbn. by rewrite lookup_insert_eq.
    + exact Hl.
    + unfold curenv_of. cbn. by rewrite lookup_insert_eq.
    + cbn. unfold switched. fold m1. by rewrite lookup_alter_eq, Hm1.
  - rewrite (bind_Ret _ _ _ _ _ H1). mrun (apply set_curenv_eq; exact Hci). fold s2.
    mrun (apply upd_env_eq; exact Hm1). mrun (apply upd_env_eq; apply lookup_insert_eq).
    mrun (apply get_env_eq; apply lookup_insert_eq). cbn [env_pgdir set_env_runs set_env_status].
    rewrite Hf, lcr3_eq by done. unfold s5, switched. fold m1.
    rewrite (alter_lookup_Some m1 e _ v) by done. cbn [envs set_envs]. rewrite insert_insert_eq. done.
Qed.

(** Between system calls every environment that is current on a CPU is marked
    running or dying, and is current on that CPU only. *)
Definition others_busy (s : kstate) : Prop :=
  ∀ c ci e, c ≠ cpunum s → cpus s !! c = Some ci → cpu_env ci = Some e →
    curenv_of s ≠ Some e ∧ ∀ v, envs s !! e = Some v → env_status v ≠ ENV_RUNNABLE.

(** The scheduler never chooses an environment that is current on another
    CPU. *)
Theorem sched_choice_exclusive s e c ci :
  others_busy s → c ≠ cpunum s → cpus s !! c = Some ci → cpu_env ci = Some e →
  sched_choice s ≠ Some e ∧ curenv_of s ≠ Some e.
Proof.
  intros Ho Hc Hci He. destruct (Ho c ci e Hc Hci He) as [Hcur Hst]. split; [|done].
  unfold sched_choice. destruct (list_find _ _) as [[n e']|] eqn:Hf; [|done].
  intros [= ->]. apply list_find_Some in Hf as (_ & Hr & _).
  destruct (envs s !! e) as [v|] eqn:Hv; [|done]. injection Hr as Hr.
  apply bool_decide_eq_true in Hr. by apply (Hst v).
Qed.

(** ** Witnesses *)

(** [demo] with the child made runnable. *)
Definition demo_ready : kstate := set_envs (alter (set_env_status ENV_RUNNABLE) 1 (envs demo)) demo.

Lemma env_table_compute s :
  forallb (λ i, bool_decide (is_Some (envs s !! i))) (seqZ 0 NENV) = true → env_table s.
Proof.
  rewrite forallb_forall. intros H i Hi. specialize (H i).
  rewrite <- list_elem_of_In, elem_of_seqZ, bool_decide_eq_true in H. apply H. lia.
Qed.

Lemma demo_table : env_table demo.
Proof. apply env_table_compute. vm_compute. reflexivity. Qed.

Lemma demo_ready_table : env_table demo_ready.
Proof. apply env_table_compute. vm_compute. reflexivity. Qed.

(** [demo] with the last slot's environment running. *)
Definition demo_last : kstate :=
  set_cpus (<[0 := mkCpuInfo 0 CPU_STARTED (Some 1023) 0xF0000000]> (cpus demo))
    (set_envs (<[1023 := demo_env (0x1000 + 1023) 0 ENV_RUNNING 1 false]> (envs demo)) demo).

Lemma demo_last_table : env_table demo_last.
Proof. apply env_table_compute. vm_compute. reflexivity. Qed.

Lemma sched_yield_round_robin_witness :
  sched_choice demo_ready = Some 1 ∧ sched_yield demo_ready = env_run 1 demo_ready ∧
  sched_yield demo_last = (Stop Undefined, demo_last).
Proof.
  split; [vm_compute; reflexivity|]. split.
  - rewrite (sched_yield_round_robin demo_ready demo_ready_table); [|vm_compute; reflexivity|].
    + rewrite decide_False by (vm_compute; congruence).
      replace (sched_choice demo_ready) with (Some 1) by (vm_compute; reflexivity). reflexivity.
    + intros c [= <-]. split; [split; vm_compute; congruence|]. eexists. split; vm_compute; reflexivity.
  - rewrite (sched_yield_round_robin demo_last demo_last_table); [|vm_compute; reflexivity|].
    + by rewrite decide_True by (vm_compute; reflexivity).
    + intros c [= <-]. split; [split; vm_compute; congruence|]. eexists. split; vm_compute; reflexivity.
Defined.

Lemma env_run_correct_witness :
  ∃ s', env_run 1 demo_ready = (Stop (RunEnv 1), s') ∧ curenv_of s' = Some 1 ∧ cr3 s' = 2 * 4096.
Proof.
  destruct (env_run_correct demo_ready 1 (demo_env 0x1001 0x1000 ENV_RUNNABLE 2 true) 2
    (mkCpuInfo 0 CPU_STARTED (Some 0) 0xF0000000)) as (s' & Hrun & Hcur & _ & _ & Hcr & _).
  - reflexivity.
  - reflexivity.
  - intros e [= <-]. vm_compute. eauto.
  - vm_compute. reflexivity.
  - reflexivity.
  - vm_compute. congruence.
  - exists s'. split; [exact Hrun|]. split; [exact Hcur|]. rewrite Hcr. reflexivity.
Defined.

Lemma sched_choice_exclusive_witness :
  let s := set_cpunum 1 demo_ready in
  sched_choice s ≠ Some 0 ∧ curenv_of s ≠ Some 0.
Proof.
  apply (sched_choice_exclusive (set_cpunum 1 demo_ready) 0 0 (mkCpuInfo 0 CPU_STARTED (Some 0) 0xF0000000)).
  - intros c ci e Hc Hci He. assert (e = 0) as ->.
    { change (cpus (set_cpunum 1 demo_ready)) with demo_cpus in Hci. unfold demo_cpus in Hci.
      change (cpunum (set_cpunum 1 demo_ready)) with 1 in Hc.
      rewrite lookup_insert in Hci. destruct (decide (0 = c)).
      - injection Hci as <-. by injection He as <-.
      - rewrite lookup_insert_ne, lookup_empty in Hci by congruence. discriminate. }
    split; [discriminate|]. intros v Hv.
    vm_compute in Hv. injection Hv as <-. discriminate.
  - discriminate.
  - reflexivity.
  - reflexivity.
Defined.
