(* ===== verification/Nic.v ===== *)
(** * The network card ([kern/e1000.c], [kern/e1000.h])

    The driver of the Intel 82540EM: the layout of [struct E1000], the
    initialisation of the transmit and receive rings, [e1000_tx] and
    [e1000_rx].  The registers the driver uses are the record [nic] of the
    kernel state, the descriptor rings are in physical memory where the driver
    puts them, and the card itself (advancing the heads, setting the
    descriptor-done bits) is whatever happens to these between two calls. *)

From S2P Require Import Prelude Mmu Console KState Demo PageAlloc PageTable AddrSpace PageInsert VmDemo.
Open Scope Z_scope.

(** ** [struct E1000] *)

(** The members in order, with the number of 32-bit words of each and the
    offset the header's comment gives for it. *)
Definition E1000_members : list (string * Z * option Z) :=
  [("CTRL", 1, Some 0x0); ("CTRL_DUP", 1, Some 0x4); ("STATUS", 1, Some 0x8); ("reserved", 49, None);
   ("IMS", 1, Some 0xD0); ("reserved2", 1, None); ("IMC", 1, Some 0xD8); ("reserved3", 9, None);
   ("RCTL", 1, Some 0x100); ("reserved4", 191, None);
   ("TCTL", 1, Some 0x400); ("reserved5", 3, None); ("TIPG", 1, Some 0x410); ("reserved6", 2299, None);
   ("RDBAL", 1, Some 0x2800); ("RDBAH", 1, Some 0x2804); ("RDLEN", 1, Some 0x2808); ("reserved7", 1, None);
   ("RDH", 1, Some 0x2810); ("reserved8", 1, None); ("RDT", 1, Some 0x2818); ("reserved9", 1017, None);
   ("TDBAL", 1, Some 0x3800); ("TDBAH", 1, Some 0x3804); ("TDLEN", 1, Some 0x3808); ("reserved10", 1, None);
   ("TDH", 1, Some 0x3810); ("reserved11", 1, None); ("TDT", 1, Some 0x3818);
   ("MTA", 128, Some 0x5200); ("RAL", 1, Some 0x5400); ("RAH", 1, Some 0x5404)]%string.

(** The byte offset C gives each member, paired with the documented one. *)
Fixpoint offsets (off : Z) (l : list (string * Z * option Z)) : list (string * Z * option Z) :=
  match l with
  | [] => []
  | (n, words, doc) :: l' => (n, off, doc) :: offsets (off + 4 * words) l'
  end.

Definition misplaced : list (string * Z * option Z) :=
  List.filter (λ m, match m with (_, off, Some doc) => negb (off =? doc) | _ => false end)
    (offsets 0 E1000_members).

(** ** Registers and descriptors *)

Definition E1000_TCTL_EN : Z := 2.
Definition E1000_TCTL_PSP : Z := 8.
Definition E1000_TCTL_CT_ETHER : Z := Z.shiftl 0x10 4.
Definition E1000_TCTL_COLD_FULL_DUPLEX : Z := Z.shiftl 0x40 12.
Definition E1000_TIPG_DEFAULT : Z := Z.lor (Z.lor 10 (Z.shiftl 4 10)) (Z.shiftl 6 20).
Definition E1000_RCTL_EN : Z := 2.
Definition E1000_RCTL_BSIZE_2048 : Z := Z.shiftl 0 16.
Definition E1000_RCTL_SECRC : Z := Z.shiftl 1 26.
Definition E1000_RAH_AV : Z := Z.shiftl 1 31.
Definition QEMU_MAC_LOW : Z := 0x12005452.
Definition QEMU_MAC_HIGH : Z := 0x5634.
Definition E1000_TX_CMD_EOP : Z := 1.
Definition E1000_TX_CMD_RS : Z := 4.
Definition E1000_TX_STATUS_DD : Z := 1.
Definition E1000_RX_STATUS_DD : Z := 1.

(** Both descriptors are 16 bytes: [addr] at 0, [length] at 8, [cmd] (of a
    transmit descriptor) at 11, [status] at 12. *)
Definition DESC_SIZE : Z := 16.
Definition N_TXDESC : Z := PGSIZE / DESC_SIZE.
Definition N_RXDESC : Z := PGSIZE / DESC_SIZE.

Definition desc (descs i : Z) : Z := descs + DESC_SIZE * i.

Definition kload8 (kva : Z) : K Z := gets (λ s, mem s (kva - KERNBASE)).
Definition kstore8 (kva v : Z) : K unit := modify (λ s, set_mem (st8 (mem s) (kva - KERNBASE) v) s).
Definition kload16 (kva : Z) : K Z := a ← kload8 kva; b ← kload8 (kva + 1); mret (a + b * 2 ^ 8).
Definition kstore16 (kva v : Z) : K unit := kstore8 kva v;; kstore8 (kva + 1) (Z.shiftr v 8).

(** [desc->addr = v] with the [uint64_t] of a 32-bit value. *)
Definition desc_set_addr (d v : Z) : K unit := kstore32 d v;; kstore32 (d + 4) 0.

Definition upd_nic (f : E1000 → E1000) : K unit := modify (λ s, set_nic (f (nic s)) s).

(** ** Initialisation *)

(** [tx_bufs] is the address of the static array of that name. *)
Definition e1000_tx_init (tx_bufs : Z) : K Z :=
  p ← page_alloc ALLOC_ZERO;
  p ← the p;
  page_incref p;;
  descs ← page2kva p;
  modify (set_tx_descs descs);;
  mfor (seqZ 0 N_TXDESC) (λ i,
    st ← kload8 (desc descs i + 12);
    kstore8 (desc descs i + 12) (Z.lor st E1000_TX_STATUS_DD);;
    pa ← PADDR (tx_bufs + i * 1520);
    desc_set_addr (desc descs i) pa);;
  pa ← PADDR descs;
  upd_nic (set_TDBAL pa);;
  upd_nic (set_TDBAH 0);;
  upd_nic (set_TDLEN PGSIZE);;
  upd_nic (set_TDH 0);;
  upd_nic (set_TDT 0);;
  upd_nic (set_TIPG E1000_TIPG_DEFAULT);;
  upd_nic (λ n, set_TCTL (Z.lor (TCTL n)
    (Z.lor (Z.lor (Z.lor E1000_TCTL_EN E1000_TCTL_PSP) E1000_TCTL_CT_ETHER) E1000_TCTL_COLD_FULL_DUPLEX)) n);;
  mret 0.

(** [page_alloc(ALLOC_ZERO)] [n] times, each with a reference. *)
Fixpoint alloc_pages (n : nat) : K (list Z) :=
  match n with
  | O => mret []
  | S n' =>
    pp ← page_alloc ALLOC_ZERO;
    pp ← the pp;
    page_incref pp;;
    l ← alloc_pages n';
    mret (pp :: l)
  end.

Definition e1000_rx_init : K Z :=
  p ← page_alloc ALLOC_ZERO;
  p ← the p;
  page_incref p;;
  descs ← page2kva p;
  modify (set_rx_descs descs);;
  pptrs ← alloc_pages (Z.to_nat (N_RXDESC / 2));
  mfor (seqZ 0 N_RXDESC) (λ i,
    pp ← the (pptrs !! Z.to_nat (i / 2));
    desc_set_addr (desc descs i) (page2pa pp + i mod 2 * PGSIZE / 2));;
  upd_nic (set_RAL QEMU_MAC_LOW);;
  upd_nic (set_RAH (Z.lor QEMU_MAC_HIGH E1000_RAH_AV));;
  pa ← PADDR descs;
  upd_nic (set_RDBAL pa);;
  upd_nic (set_RDBAH 0);;
  upd_nic (set_RDLEN PGSIZE);;
  upd_nic (set_RDH 0);;
  upd_nic (set_RDT (N_RXDESC - 1));;
  upd_nic (λ n, set_RCTL (Z.lor (RCTL n)
    (Z.lor (Z.lor E1000_RCTL_EN E1000_RCTL_BSIZE_2048) E1000_RCTL_SECRC)) n);;
  mret 0.

(** [reg_base] and [reg_size] are what PCI configuration reports for the
    card's first region; [pci_func_enable] is part of the PCI driver. *)
Definition pci_e1000_attach (tx_bufs reg_base reg_size : Z) (pci_func_enable : K unit) : K Z :=
  pci_func_enable;;
  _ ← mmio_map_region reg_base reg_size;
  _ ← e1000_tx_init tx_bufs;
  _ ← e1000_rx_init;
  mret 0.

(** ** Sending and receiving *)

Definition e1000_tx (buf len : Z) : K Z :=
  if 1518 <? len then mret (- E_INVAL)
  else
    n ← gets nic;
    let tdt := TDT n in
    let tdh := TDH n in
    if u32 (tdt + 1) mod N_TXDESC =? tdh then mret (- E_AGAIN)
    else
      descs ← gets tx_descs;
      let next := desc descs (tdt mod N_TXDESC) in
      st ← kload8 (next + 12);
      if Z.land st E1000_TX_STATUS_DD =? 0 then mret (- E_AGAIN)
      else
        addr ← kload32 next;
        dst ← KADDR addr;
        vmemcpy dst buf len;;
        kstore16 (next + 8) len;;
        cmd ← kload8 (next + 11);
        kstore8 (next + 11) (Z.lor cmd (Z.lor E1000_TX_CMD_RS E1000_TX_CMD_EOP));;
        st ← kload8 (next + 12);
        kstore8 (next + 12) (Z.land st (Z.lnot E1000_TX_STATUS_DD));;
        upd_nic (set_TDT (u32 (tdt + 1) mod N_TXDESC));;
        mret len.

(** [len] is overwritten with the packet's length, at most 1518. *)
Definition e1000_rx (buf len : Z) : K Z :=
  if buf =? 0 then mret (- E_INVAL)
  else
    n ← gets nic;
    let rdt := u32 (RDT n + 1) mod N_RXDESC in
    descs ← gets rx_descs;
    let next := desc descs rdt in
    st ← kload8 (next + 12);
    if Z.land st E1000_RX_STATUS_DD =? 0 then mret (- E_AGAIN)
    else
      length ← kload16 (next + 8);
      let len := if 1518 <? length then 1518 else length in
      addr ← kload32 next;
      src ← KADDR addr;
      vmemcpy buf src len;;
      kstore8 (next + 12) 0;;
      upd_nic (set_RDT rdt);;
      mret len.

(** ** Theorems *)

(** The layout C gives [struct E1000] agrees with the offsets its comments
    document up to [TDT]; the multicast table and the receive-address
    registers come right after it instead of at 0x5200 and 0x5400. *)
Theorem e1000_offsets :
  misplaced = [("MTA", 0x381C, Some 0x5200); ("RAL", 0x3A1C, Some 0x5400); ("RAH", 0x3A20, Some 0x5404)]%string.
Proof. reflexivity. Qed.

Lemma mfor_app {S E X} (l l' : list X) (f : X → M S E unit) s s1 :
  mfor l f s = (Ret tt, s1) → mfor (l ++ l') f s = mfor l' f s1.
Proof.
  revert s. induction l as [|x l IH]; intros s; cbn [mfor app]; [by intros [= ->]|].
  unfold mbind, M_bind. destruct (f x s) as [[[]|e] s2]; [|done]. apply IH.
Qed.

Lemma vload8_kernel s a : KERNBASE <= a → vload8 a s = (Ret (mem s (a - KERNBASE)), s).
Proof. intros H. unfold vload8, hw_translate. destruct (Z.leb_spec KERNBASE a); [done|lia]. Qed.

Lemma vstore8_kernel s a v :
  KERNBASE <= a → vstore8 a v s = (Ret tt, set_mem (st8 (mem s) (a - KERNBASE) v) s).
Proof. intros H. unfold vstore8, hw_translate. destruct (Z.leb_spec KERNBASE a); [done|lia]. Qed.

(** Copying between two separate kernel buffers. *)
Lemma vmemcpy_kernel s dst src n :
  mem_ok (mem s) → 0 <= n → KERNBASE <= dst → KERNBASE <= src →
  dst + n <= 2 ^ 32 → src + n <= 2 ^ 32 → dst + n <= src ∨ src + n <= dst →
  ∃ m, vmemcpy dst src n s = (Ret tt, set_mem m s) ∧ mem_ok m ∧
    ∀ x, m x = mem_copy (mem s) (dst - KERNBASE) (src - KERNBASE) n x.
Proof.
  intros Hok Hn Hd Hs Hd' Hs' Hsep. unfold vmemcpy. revert Hd' Hs' Hsep.
  pattern n. apply natlike_ind; [| |exact Hn]; clear n Hn.
  - intros _ _ _. exists (mem s). rewrite seqZ_nil by lia. split; [by destruct s|]. split; [done|].
    intros x. unfold mem_copy. destruct (Z.leb_spec (dst - KERNBASE) x), (Z.ltb_spec x (dst - KERNBASE + 0)); simpl; done || lia.
  - intros n Hn IH Hd' Hs' Hsep. destruct IH as (m & Hm & Hokm & Hx); [lia..|].
    exists (st8 m (dst + n - KERNBASE) (m (src + n - KERNBASE))). split_and!.
    + rewrite <- Z.add_1_r, seqZ_app by lia. rewrite (mfor_app _ _ _ _ _ Hm).
      rewrite seqZ_cons, seqZ_nil by lia. cbn [mfor]. unfold KERNBASE in *.
      rewrite Z.add_0_l, !u32_small by lia. unfold mbind at 1, M_bind at 1.
      erewrite bind_Ret by (apply vload8_kernel; unfold KERNBASE; lia).
      by rewrite vstore8_kernel by (unfold KERNBASE; lia).
    + intros x. unfold st8. destruct (x =? _); [apply u8_range|apply Hokm].
    + intros x. unfold st8. destruct (Z.eqb_spec x (dst + n - KERNBASE)) as [->|Hne].
      * rewrite u8_small by apply Hokm. rewrite Hx, mem_copy_out by lia.
        rewrite mem_copy_in by lia. f_equal. lia.
      * rewrite Hx. unfold mem_copy.
        destruct (Z.leb_spec (dst - KERNBASE) x), (Z.ltb_spec x (dst - KERNBASE + n)),
          (Z.ltb_spec x (dst - KERNBASE + Z.succ n)); simpl; done || lia.
Qed.

Lemma mem_copy_ext m m' d s n : (∀ x, m' x = mem_copy m d s n x) → ∀ x, ¬ d <= x < d + n → m' x = m x.
Proof. intros H x Hx. rewrite H. apply mem_copy_out. lia. Qed.

(** Where a transmission of [len] bytes at [buf] finds its descriptor [d] and
    its packet buffer [a], and that these areas are apart. *)
Record tx_ready (s : kstate) (buf len df d a : Z) : Prop := mk_tx_ready {
  tr_mem : mem_ok (mem s);
  tr_phys : phys_ok s;
  tr_descs : tx_descs s = kaddr df;
  tr_tdt : 0 <= TDT (nic s) < N_TXDESC;
  tr_d : d = df * 4096 + DESC_SIZE * TDT (nic s);
  tr_a : a = ld32 (mem s) d;
  tr_range : a + len <= npages s * 4096;
  tr_pages : PGNUM a < npages s;
  tr_buf : KERNBASE <= buf;
  tr_top : buf + len <= 2 ^ 32;
  tr_apart : a + len <= d ∨ d + DESC_SIZE <= a;
  tr_apart' : a + len <= buf - KERNBASE ∨ buf - KERNBASE + len <= a;
}.

(** The memory after a packet has been queued. *)
Record tx_queued (m m' : memory) (buf len d a : Z) : Prop := mk_tx_queued {
  tq_data : ∀ k, 0 <= k < len → m' (a + k) = m (buf - KERNBASE + k);
  tq_length : m' (d + 8) + m' (d + 9) * 2 ^ 8 = len;
  tq_cmd : m' (d + 11) = Z.lor (m (d + 11)) 5;
  tq_status : m' (d + 12) = Z.land (m (d + 12)) (Z.lnot 1);
  tq_frame : ∀ x, ¬ a <= x < a + len → x ≠ d + 8 → x ≠ d + 9 → x ≠ d + 11 → x ≠ d + 12 → m' x = m x;
}.

(** [e1000_tx] refuses packets longer than an Ethernet frame, and refuses
    while the ring is full or the next descriptor is still the card's,
    changing nothing; otherwise the packet's bytes are in the descriptor's
    buffer, the descriptor carries its length, the end-of-packet and
    report-status commands and a cleared done bit, the tail has advanced by
    one and has not caught up with the head, and nothing else changed. *)
Theorem e1000_tx_correct s buf len df d a :
  0 <= len → tx_ready s buf len df d a →
  let tdt' := (TDT (nic s) + 1) mod N_TXDESC in
  if 1518 <? len then e1000_tx buf len s = (Ret (- E_INVAL), s)
  else if (tdt' =? TDH (nic s)) || (Z.land (mem s (d + 12)) E1000_TX_STATUS_DD =? 0)
  then e1000_tx buf len s = (Ret (- E_AGAIN), s)
  else tdt' ≠ TDH (nic s) ∧
    ∃ m, e1000_tx buf len s = (Ret len, set_nic (set_TDT tdt' (nic s)) (set_mem m s)) ∧
         tx_queued (mem s) m buf len d a.
Proof.
  intros Hlen [Hok Hph Hds Htdt Hd Ha Hr Hpg Hb Htop Hap Hap'] tdt'. unfold e1000_tx.
  destruct (Z.ltb_spec 1518 len) as [Hl|Hl]; [done|]. rewrite bind_gets. cbv zeta.
  assert (Hn : N_TXDESC = 256) by done.
  rewrite (u32_small (TDT (nic s) + 1)) by lia. fold tdt'.
  destruct (Z.eqb_spec tdt' (TDH (nic s))) as [He|He]; [done|]. rewrite bind_gets. cbn [orb].
  rewrite Hds, (Z.mod_small _ N_TXDESC) by lia.
  assert (Hdesc : ∀ o, desc (kaddr df) (TDT (nic s)) + o - KERNBASE = d + o) by (intros; unfold desc, kaddr; lia).
  set (next := desc (kaddr df) (TDT (nic s))) in *.
  mrun reflexivity. rewrite Hdesc.
  destruct (Z.eqb_spec (Z.land (mem s (d + 12)) E1000_TX_STATUS_DD) 0) as [Hz|Hz]; [done|].
  split; [done|]. mrun reflexivity.
  replace (next - KERNBASE) with d by (specialize (Hdesc 0); lia). rewrite <- Ha.
  assert (Ha0 : 0 <= a) by (rewrite Ha; apply ld32_range, Hok).
  mrun (by apply KADDR_ok). pose proof (phys_npages s Hph) as Hnp.
  destruct (vmemcpy_kernel s (a + KERNBASE) buf len) as (m & Hm & Hokm & Hx);
    [done|done|lia|done|unfold KERNBASE in *; lia|done|lia|].
  replace (a + KERNBASE - KERNBASE) with a in Hx by lia. mrun (exact Hm).
  unfold kstore16, kstore8, kload8. msimpl. cbn [mem set_mem].
  replace (next + 8 + 1 - KERNBASE) with (d + 9) by (specialize (Hdesc 9); lia). rewrite !Hdesc.
  eexists. split; [reflexivity|].
  assert (Hmd : ∀ o, 0 <= o < 16 → m (d + o) = mem s (d + o)).
  { intros o Ho. apply (mem_copy_ext _ _ _ _ _ Hx). unfold DESC_SIZE in *. lia. }
  assert (Hu8 : ∀ x, u8 (mem s x) = mem s x) by (intros; apply u8_small, Hok).
  constructor.
  - intros k Hk. unfold DESC_SIZE in *. rewrite !st8_other by lia. rewrite Hx, mem_copy_in by lia. f_equal. lia.
  - rewrite !(st8_other _ _ _ (d + 8)), st8_same, !(st8_other _ _ _ (d + 9)), st8_same by lia.
    rewrite Z.shiftr_div_pow2, (u8_small (len / 2 ^ 8)) by (Z.to_euclidean_division_equations; lia).
    unfold u8. Z.to_euclidean_division_equations. lia.
  - rewrite st8_other, st8_same by lia. rewrite !(st8_other _ _ _ (d + 11)), Hmd by lia.
    apply u8_small, lor_bound; [lia|apply Hok|done].
  - rewrite st8_same, !(st8_other _ _ _ (d + 12)), Hmd by lia. apply u8_small, land_bound; [lia|apply Hok].
  - intros x H1 H2 H3 H4 H5. rewrite !st8_other by lia. by apply (mem_copy_ext _ _ _ _ _ Hx).
Qed.

(** ** Witness *)

(** The ring in frame 6, its first descriptor's buffer in frame 7, a packet of
    three bytes in frame 3. *)
Definition demo_nic : kstate :=
  set_tx_descs (kaddr 6)
    (set_nic (set_TDH 4 nic_zero)
      (set_mem (st32 (st8 (st8 (st8 (st8 (λ _, 0) (6 * 4096 + 12) 1) (3 * 4096) 0xDE) (3 * 4096 + 1) 0xAD)
                       (3 * 4096 + 2) 0x42) (6 * 4096) (7 * 4096)) demo)).

Lemma e1000_tx_correct_witness :
  ∃ m, e1000_tx (kaddr 3) 3 demo_nic = (Ret 3, set_nic (set_TDT 1 (nic demo_nic)) (set_mem m demo_nic)) ∧
    m (7 * 4096) = 0xDE ∧ m (7 * 4096 + 2) = 0x42.
Proof.
  assert (Hready : tx_ready demo_nic (kaddr 3) 3 6 (6 * 4096) (7 * 4096)).
  { constructor; try (vm_compute; congruence); try (split; vm_compute; congruence).
    - apply st32_ok. intros x. unfold st8. repeat (destruct (_ =? _); [done|]). done.
    - destruct demo_phys. by constructor.
    - right. by vm_compute.
    - right. by vm_compute. }
  pose proof (e1000_tx_correct demo_nic (kaddr 3) 3 6 (6 * 4096) (7 * 4096) ltac:(done) Hready) as H.
  change (1518 <? 3) with false in H. cbv iota zeta in H.
  replace ((_ =? _) || (_ =? _)) with false in H by (vm_compute; reflexivity).
  destruct H as (_ & m & Hrun & [Hdata _ _ _ _]). exists m. split; [exact Hrun|].
  pose proof (Hdata 0 ltac:(lia)) as H0. pose proof (Hdata 2 ltac:(lia)) as H2.
  split; [exact H0|exact H2].
Defined.
