(* ===== verification/Syscall.v ===== *)
(** * System calls ([kern/syscall.c], [user_mem_assert] of [kern/pmap.c])

    Every system call, and the dispatcher [syscall].  Arguments arrive as
    32-bit words; an [envid_t] or [int] parameter is the signed reading of its
    word.  A pointer into user space is used the way the kernel uses it: under
    the page directory in [%cr3], byte by byte. *)

From S2P Require Import Prelude Mmu Console KState Demo Lock PageAlloc PageTable AddrSpace PageInsert VmDemo UserMem Env EnvSpace Sched Nic.
Open Scope Z_scope.

Definition user_mem_assert (env va len perm : Z) : K unit :=
  v ← get_env env;
  r ← user_mem_check (env_pgdir v) va len (Z.lor perm PTE_U);
  if r <? 0 then env_destroy env else mret tt.

(** [curenv->...]: a null [curenv] is undefined behaviour. *)
Definition the_curenv : K Z := c ← curenv; the c.
Definition curenv_val : K Env := c ← the_curenv; get_env c.

Definition putch (c : Z) : K unit := modify (λ s, set_kcons (cputchar c (kcons s)) s).

(** The loop of [vprintfmt] for [%.*s]: the byte is read before the precision
    is looked at; a [char] is signed. *)
Fixpoint print_string (fuel : nat) (p precision : Z) : K unit :=
  match fuel with
  | O => stop OutOfFuel
  | S fuel' =>
    b ← vload8 p;
    let ch := s8 b in
    if ch =? 0 then mret tt
    else if precision <? 0 then putch ch;; print_string fuel' (u32 (p + 1)) precision
    else if 0 <=? precision - 1 then putch ch;; print_string fuel' (u32 (p + 1)) (precision - 1)
    else mret tt
  end.

(** [cprintf("%.*s", len, s)]; a null pointer prints as "(null)". *)
Definition null_string : list Z := [40; 110; 117; 108; 108; 41].

Definition cprintf_string (len s : Z) : K unit :=
  let precision := s32 len in
  if s =? 0 then
    mfor (if precision <? 0 then null_string else take (Z.to_nat precision) null_string) putch
  else print_string (Z.to_nat (if precision <? 0 then 2 ^ 32 else precision + 1)) s precision.

Definition sys_cputs (s len : Z) : K unit :=
  c ← the_curenv;
  user_mem_assert c s len 0;;
  cprintf_string len s.

Definition sys_cgetc : K Z :=
  st ← gets kcons;
  match cons_getc st with
  | None => stop OutOfFuel
  | Some (c, st') => modify (set_kcons st');; mret c
  end.

Definition sys_getenvid : K Z := v ← curenv_val; mret (env_id v).

Definition sys_env_destroy (envid : Z) : K Z :=
  r ← envid2env envid true;
  let '(r, store) := r in
  if r <? 0 then mret r
  else e ← the store; env_destroy e;; mret 0.

Definition set_tf_eax (v : Z) (t : Trapframe) : Trapframe := set_tf_regs (set_reg_eax v (tf_regs t)) t.

Definition sys_exofork : K Z :=
  cur ← curenv_val;
  r ← env_alloc (env_id cur);
  let '(ret, store) := r in
  if ret <? 0 then mret ret
  else
    e ← the store;
    upd_env e (set_env_status ENV_NOT_RUNNABLE);;
    cur ← curenv_val;
    upd_env e (set_env_tf (env_tf cur));;
    upd_env e (λ v, set_env_tf (set_tf_eax 0 (env_tf v)) v);;
    v ← get_env e;
    mret (env_id v).

(** The values of [enum] in [inc/env.h]. *)
Definition env_status_of (status : Z) : option EnvStatus :=
  match status with
  | 0 => Some ENV_FREE
  | 1 => Some ENV_DYING
  | 2 => Some ENV_RUNNABLE
  | 3 => Some ENV_RUNNING
  | 4 => Some ENV_NOT_RUNNABLE
  | _ => None
  end.

Definition sys_env_set_status (envid status : Z) : K Z :=
  match env_status_of status with
  | Some ((ENV_RUNNABLE | ENV_NOT_RUNNABLE) as st) =>
    r ← envid2env envid true;
    let '(r, store) := r in
    if r <? 0 then mret (- E_BAD_ENV)
    else e ← the store; upd_env e (set_env_status st);; mret 0
  | _ => mret (- E_INVAL)
  end.

(** Reading a [struct PushRegs] and a [struct Trapframe]. *)
Definition load_regs (p : Z) : K PushRegs :=
  edi ← vload32 p; esi ← vload32 (u32 (p + 4)); ebp ← vload32 (u32 (p + 8));
  oesp ← vload32 (u32 (p + 12)); ebx ← vload32 (u32 (p + 16)); edx ← vload32 (u32 (p + 20));
  ecx ← vload32 (u32 (p + 24)); eax ← vload32 (u32 (p + 28));
  mret (mkPushRegs edi esi ebp oesp ebx edx ecx eax).

Definition load_tf (p : Z) : K Trapframe :=
  regs ← load_regs p;
  es ← vload16 (u32 (p + 32)); ds ← vload16 (u32 (p + 36));
  trapno ← vload32 (u32 (p + 40)); err ← vload32 (u32 (p + 44));
  eip ← vload32 (u32 (p + 48)); cs ← vload16 (u32 (p + 52));
  eflags ← vload32 (u32 (p + 56)); esp ← vload32 (u32 (p + 60)); ss ← vload16 (u32 (p + 64));
  mret (mkTrapframe regs es ds trapno err eip cs eflags esp ss).

Definition TRAPFRAME_SIZE : Z := 68.

Definition sys_env_set_trapframe (envid tf : Z) : K Z :=
  r ← envid2env envid true;
  let '(ret, store) := r in
  if ret <? 0 then mret ret
  else
    e ← the store;
    user_mem_assert e tf TRAPFRAME_SIZE PTE_W;;
    t ← load_tf tf;
    upd_env e (set_env_tf t);;
    upd_env e (λ v, set_env_tf (set_tf_cs (Z.lor GD_UT 3) (env_tf v)) v);;
    upd_env e (λ v, set_env_tf (set_tf_eflags (Z.lor (tf_eflags (env_tf v)) FL_IF) (env_tf v)) v);;
    upd_env e (λ v, set_env_tf (set_tf_eflags (Z.land (tf_eflags (env_tf v)) FL_IOPL_0) (env_tf v)) v);;
    mret 0.

Definition sys_env_set_pgfault_upcall (envid func : Z) : K Z :=
  r ← envid2env envid true;
  let '(ret, store) := r in
  if ret <? 0 then mret ret
  else e ← the store; upd_env e (set_env_pgfault_upcall func);; mret 0.

Definition perm_ok (perm : Z) : bool :=
  (Z.land perm (Z.lor PTE_U PTE_P) =? Z.lor PTE_U PTE_P) && (Z.land perm (Z.lnot PTE_SYSCALL) =? 0).

Definition sys_page_alloc (envid va perm : Z) : K Z :=
  if (UTOP <=? va) || negb (va mod PGSIZE =? 0) then mret (- E_INVAL)
  else if negb (perm_ok perm) then mret (- E_INVAL)
  else
    pi ← page_alloc ALLOC_ZERO;
    match pi with
    | None => mret (- E_NO_MEM)
    | Some pi =>
      r ← envid2env envid true;
      let '(r, store) := r in
      if r <? 0 then mret (- E_BAD_ENV)
      else
        e ← the store;
        v ← get_env e;
        r ← page_insert (env_pgdir v) pi va perm;
        if r <? 0 then page_free pi;; mret (- E_NO_MEM)
        else mret 0
    end.

Definition sys_page_map (srcenvid srcva dstenvid dstva perm : Z) : K Z :=
  r1 ← envid2env srcenvid true;
  if fst r1 <? 0 then mret (- E_BAD_ENV)
  else
    r2 ← envid2env dstenvid true;
    if fst r2 <? 0 then mret (- E_BAD_ENV)
    else if (UTOP <=? srcva) || negb (PGOFF srcva =? 0) || (UTOP <=? dstva) || negb (PGOFF dstva =? 0)
    then mret (- E_INVAL)
    else
      src_env ← the (snd r1);
      sv ← get_env src_env;
      pi ← page_lookup (env_pgdir sv) srcva;
      match pi with
      | None => mret (- E_INVAL)
      | Some (pi, src_pte) =>
        pte ← kload32 src_pte;
        if negb (Z.land perm PTE_W =? 0) && (Z.land pte PTE_W =? 0) then mret (- E_INVAL)
        else if negb (perm_ok perm) then mret (- E_INVAL)
        else
          dst_env ← the (snd r2);
          dv ← get_env dst_env;
          r ← page_insert (env_pgdir dv) pi dstva perm;
          if r <? 0 then mret (- E_NO_MEM) else mret 0
      end.

Definition sys_page_unmap (envid va : Z) : K Z :=
  r ← envid2env envid true;
  let '(r, store) := r in
  if r <? 0 then mret (- E_BAD_ENV)
  else if (UTOP <=? va) || negb (PGOFF va =? 0) then mret (- E_INVAL)
  else
    e ← the store;
    v ← get_env e;
    page_remove (env_pgdir v) va;;
    mret 0.

(** The part of [sys_ipc_try_send] for [srcva < UTOP]: 0, or the error. *)
Definition ipc_send_page (e srcva perm : Z) : K Z :=
  if negb (PGOFF srcva =? 0) then mret (- E_INVAL)
  else if (Z.land perm PTE_U =? 0) || (Z.land perm PTE_P =? 0) ||
          negb (Z.land perm (Z.lnot PTE_SYSCALL) =? 0)
  then mret (- E_INVAL)
  else
    cur ← curenv_val;
    pp ← page_lookup (env_pgdir cur) srcva;
    match pp with
    | None => mret (- E_INVAL)
    | Some (pp, pte) =>
      t ← kload32 pte;
      if negb (Z.land perm PTE_W =? 0) && (Z.land t PTE_W =? 0) then mret (- E_INVAL)
      else
        v ← get_env e;
        r ← page_insert (env_pgdir v) pp (env_ipc_dstva v) perm;
        if r <? 0 then mret (- E_NO_MEM) else mret 0
    end.

(** [unsigned perm] is the word itself. *)
Definition sys_ipc_try_send (envid value srcva perm : Z) : K Z :=
  r ← envid2env envid false;
  let '(ret, store) := r in
  if ret <? 0 then mret ret
  else
    e ← the store;
    v ← get_env e;
    if negb (env_ipc_recving v) then mret (- E_IPC_NOT_RECV)
    else
      r ← (if srcva <? UTOP then ipc_send_page e srcva perm else mret 0);
      if r <? 0 then mret r
      else
        cur ← curenv_val;
        upd_env e (set_env_ipc_recving false);;
        upd_env e (set_env_ipc_from (env_id cur));;
        upd_env e (set_env_ipc_value value);;
        upd_env e (set_env_ipc_perm perm);;
        upd_env e (set_env_status ENV_RUNNABLE);;
        upd_env e (λ v, set_env_tf (set_tf_eax 0 (env_tf v)) v);;
        mret 0.

Definition sys_ipc_recv (dstva : Z) : K Z :=
  if (dstva <? UTOP) && negb (PGOFF dstva =? 0) then mret (- E_INVAL)
  else
    c ← the_curenv;
    upd_env c (set_env_ipc_recving true);;
    upd_env c (set_env_ipc_dstva dstva);;
    upd_env c (set_env_status ENV_NOT_RUNNABLE);;
    f ← sched_yield;
    match (f : False) with end.

(** [pa2page] never yields a null pointer; it panics. *)
Definition sys_map_kernel_page (kpage va : Z) : K Z :=
  pa ← PADDR kpage;
  p ← pa2page pa;
  cur ← curenv_val;
  page_insert (env_pgdir cur) p va (Z.lor PTE_U PTE_W).

Definition sys_sbrk_page (va_tmp : Z) : K unit :=
  nPage ← page_alloc ALLOC_ZERO;
  match nPage with
  | None => panic "syscall->sys_sbrk: page alloc failed!"
  | Some p => cur ← curenv_val; _ ← page_insert (env_pgdir cur) p va_tmp (Z.lor PTE_U PTE_W); mret tt
  end.

Definition sys_sbrk (inc : Z) : K Z :=
  cur ← curenv_val;
  let va_start := ROUNDDOWN (u32 (env_break cur - inc)) PGSIZE in
  let va_end := ROUNDUP (u32 (va_start + inc)) PGSIZE in
  let time := Z.quot (s32 (va_end - va_start)) PGSIZE in
  mfor (seqZ 0 time) (λ i, sys_sbrk_page (u32 (va_start + i * PGSIZE)));;
  c ← the_curenv;
  upd_env c (λ v, set_env_break (ROUNDDOWN (u32 (env_break v - inc)) PGSIZE) v);;
  v ← curenv_val;
  mret (s32 (env_break v)).

Definition sys_time_msec : K Z := t ← time_msec; mret (s32 t).

Definition sys_net_send (buf len : Z) : K Z :=
  cur ← curenv_val;
  r ← user_mem_check (env_pgdir cur) buf len (Z.lor PTE_U PTE_P);
  if r <? 0 then mret r else e1000_tx buf len.

Definition sys_net_recv (buf len : Z) : K Z :=
  cur ← curenv_val;
  r ← user_mem_check (env_pgdir cur) buf len (Z.lor (Z.lor PTE_U PTE_P) PTE_W);
  if r <? 0 then mret r else e1000_rx buf len.

(** The numbers of [inc/syscall.h]. *)
Inductive syscall_no : Type :=
  | SYS_cputs | SYS_cgetc | SYS_getenvid | SYS_env_destroy | SYS_page_alloc | SYS_page_map
  | SYS_page_unmap | SYS_exofork | SYS_env_set_status | SYS_env_set_trapframe
  | SYS_env_set_pgfault_upcall | SYS_yield | SYS_ipc_try_send | SYS_ipc_recv
  | SYS_map_kernel_page | SYS_sbrk | SYS_time_msec | SYS_net_send | SYS_net_recv.

Definition syscalls : list syscall_no :=
  [SYS_cputs; SYS_cgetc; SYS_getenvid; SYS_env_destroy; SYS_page_alloc; SYS_page_map;
   SYS_page_unmap; SYS_exofork; SYS_env_set_status; SYS_env_set_trapframe;
   SYS_env_set_pgfault_upcall; SYS_yield; SYS_ipc_try_send; SYS_ipc_recv;
   SYS_map_kernel_page; SYS_sbrk; SYS_time_msec; SYS_net_send; SYS_net_recv].

Definition syscall (syscallno a1 a2 a3 a4 a5 : Z) : K Z :=
  match syscalls !! Z.to_nat syscallno with
  | Some SYS_cputs => sys_cputs a1 a2;; mret 0
  | Some SYS_cgetc => sys_cgetc
  | Some SYS_getenvid => sys_getenvid
  | Some SYS_env_destroy => sys_env_destroy (s32 a1)
  | Some SYS_sbrk => sys_sbrk a1
  | Some SYS_map_kernel_page => sys_map_kernel_page a1 a2
  | Some SYS_yield => f ← sched_yield; match (f : False) with end
  | Some SYS_exofork => sys_exofork
  | Some SYS_env_set_status => sys_env_set_status (s32 a1) (s32 a2)
  | Some SYS_page_alloc => sys_page_alloc (s32 a1) a2 (s32 a3)
  | Some SYS_page_map => sys_page_map (s32 a1) a2 (s32 a3) a4 (s32 a5)
  | Some SYS_page_unmap => sys_page_unmap (s32 a1) a2
  | Some SYS_env_set_pgfault_upcall => sys_env_set_pgfault_upcall (s32 a1) a2
  | Some SYS_ipc_try_send => sys_ipc_try_send (s32 a1) a2 a3 a4
  | Some SYS_ipc_recv => sys_ipc_recv a1
  | Some SYS_env_set_trapframe => sys_env_set_trapframe (s32 a1) a2
  | Some SYS_time_msec => sys_time_msec
  | Some SYS_net_send => sys_net_send a1 a2
  | Some SYS_net_recv => sys_net_recv a1 a2
  | None => mret (- E_INVAL)
  end.
