(* ===== verification/Returning.v ===== *)
(** * What a system call that returns leaves alone

    [stays m]: if [m] returns, then the CPUs, their current environments among
    them, the number of the running CPU and the kernel lock are what they
    were, and no slot of the environment table has gone.  A function that
    gives up the CPU or destroys the running environment does not return, so
    this holds of every system call.  The proofs follow the text of the
    functions ([ststep]). *)

From S2P Require Import Prelude Mmu Console KState Demo Lock PageAlloc PageTable UserMem Env Sched Nic Syscall.
Open Scope Z_scope.

Definition unmoved (s s' : kstate) : Prop :=
  cpus s' = cpus s ∧ cpunum s' = cpunum s ∧ kernel_lock s' = kernel_lock s ∧
  ∀ e, is_Some (envs s !! e) → is_Some (envs s' !! e).

Definition stays {A} (m : K A) : Prop := ∀ s a s', m s = (Ret a, s') → unmoved s s'.
Definition never {A} (m : K A) : Prop := ∀ s a s', m s ≠ (Ret a, s').

Lemma unmoved_refl s : unmoved s s.
Proof. done. Qed.

Lemma unmoved_trans s1 s2 s3 : unmoved s1 s2 → unmoved s2 s3 → unmoved s1 s3.
Proof. intros (H1 & H2 & H3 & H4) (H5 & H6 & H7 & H8). split_and!; [congruence..|auto]. Qed.

Section rules.
Context {A B : Type}.

Lemma never_False (m : K False) : never m.
Proof. by intros s []. Qed.

Lemma never_bind_l (m : K A) (k : A → K B) : never m → never (mbind k m).
Proof. intros H s a s' E. apply bind_inv in E as [(x & s1 & E & _)|(? & _ & ?)]; [|done]. by apply (H s x s1). Qed.

Lemma never_bind_r (m : K A) (k : A → K B) : (∀ a, never (k a)) → never (mbind k m).
Proof. intros H s a s' E. apply bind_inv in E as [(x & s1 & _ & E)|(? & _ & ?)]; [|done]. by apply (H x s1 a s'). Qed.

Lemma stays_never (m : K A) : never m → stays m.
Proof. intros H s a s' E. by destruct (H s a s'). Qed.

Lemma stays_ret (a : A) : stays (mret a).
Proof. by intros s b s' [= _ <-]. Qed.

Lemma stays_gets (f : kstate → A) : stays (gets f).
Proof. by intros s b s' [= _ <-]. Qed.

Lemma stays_stop st : stays (stop (A := A) st).
Proof. done. Qed.

Lemma stays_panic msg : stays (panic (A := A) msg).
Proof. done. Qed.

Lemma stays_the (o : option A) : stays (the o).
Proof. destruct o; [apply stays_ret|done]. Qed.

Lemma stays_bind (m : K A) (k : A → K B) : stays m → (∀ a, stays (k a)) → stays (mbind k m).
Proof.
  intros Hm Hk s b s' E. apply bind_inv in E as [(x & s1 & E1 & E)|(? & _ & ?)]; [|done].
  by eapply unmoved_trans; [eapply Hm|eapply Hk].
Qed.
End rules.

Lemma stays_mfor {A} (l : list A) (f : A → K unit) : (∀ x, stays (f x)) → stays (mfor l f).
Proof. intros Hf. induction l as [|x l IH]; cbn [mfor]; [apply stays_ret|]. by apply stays_bind. Qed.

Lemma stays_modify f : (∀ s, unmoved s (f s)) → stays (modify f).
Proof. by intros H s a s' [= _ <-]. Qed.

Lemma stays_get_env e : stays (get_env e).
Proof. apply stays_bind; [apply stays_gets|]. intros s. apply stays_the. Qed.

Lemma stays_upd_env e f : stays (upd_env e f).
Proof.
  intros s [] s' E. unfold upd_env, get_env in E. revert E. msimpl. destruct (envs s !! e) eqn:Ee; [|done].
  intros [= <-]. split_and!; [done..|]. intros i Hi. cbn. destruct (decide (e = i)) as [<-|].
  - by rewrite lookup_insert_eq.
  - by rewrite lookup_insert_ne.
Qed.

Create HintDb kstays.
#[export] Hint Resolve stays_ret stays_gets stays_panic stays_the stays_stop stays_get_env stays_upd_env : kstays.

(** A computation that ends in one that does not return. *)
Ltac never := solve [repeat first [apply never_False | apply never_bind_l; apply never_False | apply never_bind_r; intros ?]].

Ltac ststep :=
  lazymatch goal with
  | |- stays (mbind _ _) => first [apply stays_never; never | apply stays_bind; [|intros ?]]
  | |- stays (match ?x with _ => _ end) => destruct x
  | |- stays (let _ := _ in _) => cbv zeta
  | |- stays (modify _) => apply stays_modify; intros ?; split_and!; [reflexivity..|intros ? ?; assumption]
  | |- stays (mfor _ _) => apply stays_mfor; intros ?
  | |- stays ?m => first [solve [auto 2 with kstays] | let h := head m in progress unfold h]
  end.
Ltac stays := repeat ststep.

Lemma stays_hw_translate w va : stays (hw_translate w va).
Proof. stays. Qed.

Lemma stays_page_alloc f : stays (page_alloc f).
Proof. stays. Qed.

Lemma stays_page_decref p : stays (page_decref p).
Proof. stays. Qed.

#[export] Hint Resolve stays_hw_translate stays_page_alloc stays_page_decref : kstays.

Lemma stays_pgdir_walk d va c : stays (pgdir_walk d va c).
Proof. stays. Qed.

#[export] Hint Resolve stays_pgdir_walk : kstays.

Lemma stays_page_remove d va : stays (page_remove d va).
Proof. stays. Qed.

#[export] Hint Resolve stays_page_remove : kstays.

Lemma stays_page_insert d pp va perm : stays (page_insert d pp va perm).
Proof. stays. Qed.

Lemma stays_user_mem_check_loop fuel d a e p : stays (user_mem_check_loop fuel d a e p).
Proof. revert a. induction fuel; intros a; cbn [user_mem_check_loop]; stays. Qed.

Lemma stays_print_string fuel p n : stays (print_string fuel p n).
Proof. revert p n. induction fuel; intros p n; cbn [print_string]; stays. Qed.

#[export] Hint Resolve stays_page_insert stays_user_mem_check_loop stays_print_string : kstays.

Lemma stays_user_mem_check d va len perm : stays (user_mem_check d va len perm).
Proof. stays. Qed.

Lemma stays_load_tf p : stays (load_tf p).
Proof. stays. Qed.

Lemma stays_env_free_table e i : stays (env_free_table e i).
Proof. stays. Qed.

#[export] Hint Resolve stays_user_mem_check stays_load_tf stays_env_free_table : kstays.

Lemma stays_env_destroy e : stays (env_destroy e).
Proof. stays. Qed.

#[export] Hint Resolve stays_env_destroy : kstays.

Lemma stays_syscall n a1 a2 a3 a4 a5 : stays (syscall n a1 a2 a3 a4 a5).
Proof. stays. Qed.
