(* ===== verification/SyscallSpec.v ===== *)
(** * What the system calls do

    The theorems about the system calls, in states that satisfy [kernel_ok]:
    the virtual-memory invariant, a complete environment table, a live current
    environment, and a directory for every live environment. *)

From S2P Require Import Prelude Mmu Console KState Demo Lock PageAlloc PageTable Quiet AddrSpace PageInsert VmFrame VmDemo UserMem Env EnvSpace Sched Nic Syscall.
Open Scope Z_scope.

Record kernel_ok (s : kstate) (pds fl : list Z) : Prop := mk_kernel_ok {
  ko_vm : vm_ok s pds fl;
  ko_table : env_table s;
  ko_cur : ∃ c v, curenv_of s = Some c ∧ envs s !! c = Some v ∧ env_status v ≠ ENV_FREE;
  ko_dirs : ∀ e v, envs s !! e = Some v → env_status v ≠ ENV_FREE →
    ∃ pd, pd ∈ pds ∧ env_pgdir v = kaddr pd;
}.

Lemma ko_cur_ok s pds fl : kernel_ok s pds fl → cur_ok s ∧ is_Some (curenv_of s).
Proof.
  intros [_ _ (c & v & Hc & Hv & _) _]. split; [|by rewrite Hc].
  intros e He. rewrite Hc in He. injection He as <-. by rewrite Hv.
Qed.

(** The environment [envid] names for the caller, with permission checked. *)
Definition target (s : kstate) (envid : Z) : option Z :=
  if envid =? 0 then curenv_of s
  else if may_name s (curenv_of s) envid true then Some (ENVX envid) else None.

Lemma envid2env_target s pds fl envid :
  kernel_ok s pds fl →
  envid2env envid true s =
    (Ret (match target s envid with Some e => (0, Some e) | None => (- E_BAD_ENV, None) end), s).
Proof.
  intros Hko. destruct (ko_cur_ok _ _ _ Hko) as [Hc [c Hcur]].
  rewrite envid2env_spec by (done || apply Hko || by rewrite Hcur). unfold target. rewrite Hcur.
  destruct (envid =? 0); [done|]. by destruct (may_name _ _ _ _).
Qed.

(** A named environment is live and has an address space. *)
Lemma named_live s pds fl envid check e :
  kernel_ok s pds fl →
  (if envid =? 0 then curenv_of s
   else if may_name s (curenv_of s) envid check then Some (ENVX envid) else None) = Some e →
  ∃ v pd, envs s !! e = Some v ∧ env_status v ≠ ENV_FREE ∧ pd ∈ pds ∧ env_pgdir v = kaddr pd.
Proof.
  intros Hko Ht.
  assert (∃ v, envs s !! e = Some v ∧ env_status v ≠ ENV_FREE) as (v & Hv & Hl).
  { destruct (envid =? 0).
    - destruct (ko_cur _ _ _ Hko) as (c & v & Hc & Hv & Hl). rewrite Hc in Ht. injection Ht as <-. eauto.
    - destruct (may_name s (curenv_of s) envid check) eqn:Hm; [|done]. injection Ht as <-.
      unfold may_name in Hm. destruct (envs s !! ENVX envid) as [v|] eqn:Hv; [|done].
      exists v. split; [done|]. rewrite !andb_true_iff, bool_decide_eq_true in Hm. tauto. }
  destruct (ko_dirs _ _ _ Hko e v Hv Hl) as (pd & Hpd & Hd). eauto 10.
Qed.

Lemma target_live s pds fl envid e :
  kernel_ok s pds fl → target s envid = Some e →
  ∃ v pd, envs s !! e = Some v ∧ env_status v ≠ ENV_FREE ∧ pd ∈ pds ∧ env_pgdir v = kaddr pd.
Proof. apply named_live. Qed.

(** ** Isolation *)

(** The environments a call names and must have permission for: [sys_page_map]
    (5) names two, the other six calls that check permission name one.
    [sys_ipc_try_send] (12) names one too, but anybody may send to it. *)
Definition named_envs (no a1 a3 : Z) : list Z :=
  if no =? 5 then [s32 a1; s32 a3]
  else if bool_decide (no ∈ [3; 4; 6; 8; 9; 10]) then [s32 a1] else [].

(** The arguments [sys_page_alloc] accepts. *)
Definition page_args_ok (va perm : Z) : bool := (va <? UTOP) && (va mod PGSIZE =? 0) && perm_ok perm.

(** What a call with a forbidden name returns, and the state it leaves. *)
Definition refused (s : kstate) (fl : list Z) (no a2 a3 : Z) : res stopped Z * kstate :=
  if no =? 4 then
    if negb (page_args_ok a2 (s32 a3)) then (Ret (- E_INVAL), s)
    else match fl with
         | [] => (Ret (- E_NO_MEM), s)
         | p :: l => (Ret (- E_BAD_ENV), set_mem (page_zeroed ALLOC_ZERO p (mem s)) (set_page_free_list (head l) s))
         end
  else (Ret (if (no =? 8) && negb ((s32 a2 =? 2) || (s32 a2 =? 4)) then - E_INVAL else - E_BAD_ENV), s).

Lemma page_alloc_refused s pds fl envid va perm :
  kernel_ok s pds fl → target s envid = None →
  sys_page_alloc envid va perm s =
    if negb (page_args_ok va perm) then (Ret (- E_INVAL), s)
    else match fl with
         | [] => (Ret (- E_NO_MEM), s)
         | p :: l => (Ret (- E_BAD_ENV), set_mem (page_zeroed ALLOC_ZERO p (mem s)) (set_page_free_list (head l) s))
         end.
Proof.
  intros Hko Ht. unfold page_args_ok, sys_page_alloc. rewrite Z.ltb_antisym.
  destruct (UTOP <=? va), (va mod PGSIZE =? 0), (perm_ok perm); try done. cbn [negb andb orb].
  pose proof (ko_vm _ _ _ Hko) as Hvm. pose proof (vm_free _ _ _ Hvm) as Hfl. destruct fl as [|p l].
  { by mrun (apply page_alloc_empty; apply Hfl). }
  mrun (apply page_alloc_pop; [apply Hvm|exact Hfl]).
  destruct (vm_ok_alloc s pds p l ALLOC_ZERO Hvm) as (Hvm1 & _). set (s1 := set_mem _ _) in *.
  assert (Hko1 : kernel_ok s1 pds l) by (destruct Hko; by constructor).
  mrun (by eapply envid2env_target). change (target s1 envid) with (target s envid). by rewrite Ht.
Qed.

(** C3: Isolation.  An environment cannot act on another one that is not its
    child: when one of the environments named in a call that checks
    permission (destroying an environment, allocating a page in it, mapping a
    page from one to another, unmapping, setting status, trap frame or
    page-fault upcall) is not the caller or a child of the caller, or not
    alive, the call returns an error and changes nothing - except that
    [sys_page_alloc] with good arguments has by then taken and cleared the
    first free page, which it does not give back. *)
Theorem syscall_isolation s pds fl no a1 a2 a3 a4 a5 :
  kernel_ok s pds fl → Exists (λ id, target s id = None) (named_envs no a1 a3) →
  syscall no a1 a2 a3 a4 a5 s = refused s fl no a2 a3.
Proof.
  intros Hko Hex. unfold named_envs in Hex. unfold refused.
  assert (Hid : ∀ id, target s id = None → envid2env id true s = (Ret (- E_BAD_ENV, None), s)).
  { intros id Ht. by rewrite (envid2env_target s pds fl id Hko), Ht. }
  destruct (Z.eqb_spec no 5) as [->|H5].
  { change (syscall 5 a1 a2 a3 a4 a5 s) with (sys_page_map (s32 a1) a2 (s32 a3) a4 (s32 a5) s). cbn [Z.eqb Pos.eqb andb].
    unfold sys_page_map. rewrite !Exists_cons, Exists_nil in Hex. mrun (by eapply envid2env_target).
    destruct (target s (s32 a1)) eqn:E1; [|done]. cbn [fst snd Z.ltb Z.compare].
    destruct Hex as [?|[H|[]]]; [done|]. by mrun (exact (Hid _ H)). }
  case_bool_decide as Hno; [|by apply Exists_nil in Hex]. rewrite Exists_cons, Exists_nil in Hex.
  destruct Hex as [Ht|[]]. pose proof (Hid _ Ht) as He.
  rewrite !elem_of_cons, elem_of_nil in Hno.
  destruct Hno as [->|[->|[->|[->|[->|[->|[]]]]]]]; cbn [Z.eqb Pos.eqb andb].
  - change (syscall 3 a1 a2 a3 a4 a5 s) with (sys_env_destroy (s32 a1) s).
    unfold sys_env_destroy. by mrun (exact He).
  - exact (page_alloc_refused s pds fl (s32 a1) a2 (s32 a3) Hko Ht).
  - change (syscall 6 a1 a2 a3 a4 a5 s) with (sys_page_unmap (s32 a1) a2 s).
    unfold sys_page_unmap. by mrun (exact He).
  - change (syscall 8 a1 a2 a3 a4 a5 s) with (sys_env_set_status (s32 a1) (s32 a2) s).
    unfold sys_env_set_status.
    destruct (Z.eqb_spec (s32 a2) 2) as [->|H2]; [cbn; by mrun (exact He)|].
    destruct (Z.eqb_spec (s32 a2) 4) as [->|H4]; [cbn; by mrun (exact He)|]. cbn [orb negb].
    destruct (s32 a2) as [|[[[]| |]|[[]|[]|]|]|] eqn:E; done || lia.
  - change (syscall 9 a1 a2 a3 a4 a5 s) with (sys_env_set_trapframe (s32 a1) a2 s).
    unfold sys_env_set_trapframe. by mrun (exact He).
  - change (syscall 10 a1 a2 a3 a4 a5 s) with (sys_env_set_pgfault_upcall (s32 a1) a2 s).
    unfold sys_env_set_pgfault_upcall. by mrun (exact He).
Qed.

(** ** Memory *)

Lemma perm_ok_range perm : perm_ok perm = true → 0 <= perm < 4096 ∧ Z.lor perm PTE_P = perm.
Proof.
  unfold perm_ok. rewrite andb_true_iff, !Z.eqb_eq. intros [H1 H2].
  assert (Hp : perm = Z.land perm PTE_SYSCALL).
  { transitivity (Z.lor (Z.land perm PTE_SYSCALL) (Z.land perm (Z.lnot PTE_SYSCALL))).
    - apply Z.bits_inj'. intros n Hn. rewrite Z.lor_spec, !Z.land_spec, Z.lnot_spec by lia.
      by destruct (Z.testbit perm n), (Z.testbit PTE_SYSCALL n).
    - by rewrite H2, Z.lor_0_r. }
  split.
  - pose proof (land_bound 12 PTE_SYSCALL perm ltac:(lia) ltac:(done)) as H.
    rewrite Z.land_comm, <- Hp in H. exact H.
  - apply Z.bits_inj'. intros n Hn. rewrite Z.lor_spec.
    destruct (Z.eq_dec n 0) as [->|Hn0].
    + assert (Z.testbit perm 0 = true) as ->; [|done].
      assert (E : Z.testbit (Z.land perm (Z.lor PTE_U PTE_P)) 0 = true) by (by rewrite H1).
      rewrite Z.land_spec in E. apply andb_true_iff in E as [E _]. exact E.
    + assert (Z.testbit PTE_P n = false) as ->; [|by rewrite orb_false_r].
      change PTE_P with (2 ^ 0). by apply Z.pow2_bits_false.
Qed.

Lemma same_tables_trans s1 s2 s3 pds :
  (∀ y, y ∈ slots pds → pte_of s2 y = pte_of s1 y) →
  (∀ y, y ∈ slots pds → pte_of s3 y = pte_of s2 y) →
  ∀ y, y ∈ slots pds → pte_of s3 y = pte_of s1 y.
Proof. intros H1 H2 y Hy. by rewrite H2, H1. Qed.

(** C10: [sys_page_alloc] on every branch.  Bad arguments and an exhausted
    memory change nothing.  For an environment the caller may manipulate it
    maps a fresh page of zeros at exactly [va] with the permissions asked for,
    or, when no page is left for a page table, returns the page to the free
    list and reports [-E_NO_MEM].  For any other environment it reports
    [-E_BAD_ENV] with all mappings unchanged, but the page it took stays off
    the free list, referenced by nothing. *)
Theorem sys_page_alloc_correct s pds fl envid va perm :
  kernel_ok s pds fl → 0 <= va →
  if negb (page_args_ok va perm) then sys_page_alloc envid va perm s = (Ret (- E_INVAL), s)
  else match fl, target s envid with
  | [], _ => sys_page_alloc envid va perm s = (Ret (- E_NO_MEM), s)
  | p :: l, None =>
    ∃ s', sys_page_alloc envid va perm s = (Ret (- E_BAD_ENV), s') ∧
      vm_ok s' pds l ∧ (∀ y, y ∈ slots pds → pte_of s' y = pte_of s y) ∧
      pp_ref <$> pages s' !! p = Some 0
  | p :: l, Some e =>
    ∃ v pd, envs s !! e = Some v ∧ pd ∈ pds ∧ env_pgdir v = kaddr pd ∧
    let x := (pd, PDX va, PTX va) in
    ∃ r s' fl', sys_page_alloc envid va perm s = (Ret r, s') ∧ vm_ok s' pds fl' ∧ envs s' = envs s ∧
      (r = 0 ∧ (∀ y, y ∈ slots pds → pte_of s' y =
                  if decide (y = x) then Some (p * 4096 + perm) else pte_of s y) ∧
               (∀ k, 0 <= k < PGSIZE → mem s' (p * PGSIZE + k) = 0)
       ∨ r = - E_NO_MEM ∧ l = [] ∧ fl' = [p] ∧ (∀ y, y ∈ slots pds → pte_of s' y = pte_of s y))
  end.
Proof.
  intros Hko Hva0. unfold page_args_ok, sys_page_alloc.
  destruct (Z.ltb_spec va UTOP) as [Hva|Hva], (Z.leb_spec UTOP va); try lia; cbn [orb andb negb]; [|done].
  destruct (va mod PGSIZE =? 0); cbn [negb andb]; [|done].
  destruct (perm_ok perm) eqn:Hperm; cbn [negb]; [|done].
  pose proof (ko_vm _ _ _ Hko) as Hvm. pose proof (vm_free _ _ _ Hvm) as Hfl.
  destruct fl as [|p l].
  { mrun (apply page_alloc_empty; apply Hfl). done. }
  destruct (vm_ok_alloc s pds p l ALLOC_ZERO Hvm) as (Hvm1 & HP1 & Hmap1 & HT1).
  set (s1 := set_mem _ _) in *.
  assert (Hko1 : kernel_ok s1 pds l) by (destruct Hko; by constructor).
  assert (Halloc : page_alloc ALLOC_ZERO s = (Ret (Some p), s1)) by (apply page_alloc_pop; [apply Hvm|done]).
  mrun (exact Halloc). mrun (by eapply envid2env_target).
  change (target s1 envid) with (target s envid).
  destruct (target s envid) as [e|] eqn:Ht.
  2: { exists s1. split; [done|]. split; [done|]. split; [done|].
       destruct Hfl as [(_ & link & Hlk & _) _]. cbn. by rewrite Hlk. }
  destruct (target_live s _ _ envid e Hko Ht) as (v & pd & Hv & _ & Hpd & Hd).
  exists v, pd. split_and!; [done|done|done|]. cbn [Z.ltb Z.compare].
  mrun reflexivity. mrun (apply get_env_eq; exact Hv). rewrite Hd.
  destruct (perm_ok_range perm Hperm) as [Hpr Hlor].
  destruct (page_insert_spec s1 pds l pd va p perm Hvm1 Hpd (conj Hva0 Hva) Hpr (proj1 (ko_cur_ok _ _ _ Hko1)) Hmap1)
    as [(Habs & -> & Hrun)|(s2 & Hrun & Hvm2 & Hon & HP2 & _ & Hdata)].
  - mrun (exact Hrun). change (- E_NO_MEM <? 0) with true. cbv iota.
    destruct Hmap1 as (Hnl & Hnpd & Hnpt & pi & Hpi & _).
    destruct Hfl as [(_ & link & Hlk & _) _].
    assert (Hz : nmaps s1 pds p = 0).
    { pose proof (vm_ref _ _ _ Hvm1 p (mkPageInfo link 0) Hlk) as Hr. cbn [pp_ref] in Hr. unfold nmaps in *. lia. }
    destruct (vm_ok_push s1 pds [] p pi Hvm1 Hnl Hnpd Hnpt Hpi Hz) as [Hvm2 HP2].
    exists (- E_NO_MEM), (pushed p s1), [p]. split; [by mrun (apply (page_free_eq s1 p _ Hlk); done)|].
    split; [done|]. split; [done|]. right. split_and!; [done|done|done|]. by apply (same_tables_trans s s1).
  - mrun (exact Hrun). exists 0, s2, (insert_free s1 pd va p l). split; [done|]. split; [done|].
    split; [by rewrite Hon|]. left. split; [done|]. split.
    + intros y Hy. rewrite HP2, HP1 by done. unfold new_pte. by rewrite Hlor.
    + intros k Hk. unfold PGSIZE in *. rewrite Hdata; [|by apply Hmap1| |done].
      * cbn [mem s1 set_mem]. unfold page_zeroed.
        change (Z.land ALLOC_ZERO ALLOC_ZERO =? 0) with false. cbv iota. by rewrite mem_set_in by lia.
      * pose proof (vm_user_slot pds pd va Hpd (conj Hva0 Hva)) as Hx.
        assert (Hp : 0 <= p < 65536).
        { pose proof (free_list_range s _ p (vm_phys _ _ _ Hvm) Hfl ltac:(by left)).
          pose proof (phys_npages s (vm_phys _ _ _ Hvm)). lia. }
        destruct (new_pte_facts p perm Hp Hpr) as (_ & _ & _ & HG).
        destruct (vm_data _ _ _ Hvm2 _ (new_pte p perm) Hx) as (_ & _ & Hn); [|by rewrite HG in Hn].
        rewrite HP2 by done. by rewrite decide_True.
Qed.

(** A page number below [UTOP], page-aligned. *)
Definition user_page (va : Z) : bool := (va <? UTOP) && (PGOFF va =? 0).

(** What [sys_page_map] demands of a mapping [t] to share it with [perm]. *)
Definition may_share (perm : Z) (t : option Z) : bool :=
  match t with
  | None => false
  | Some t => ((Z.land perm PTE_W =? 0) || negb (Z.land t PTE_W =? 0)) && perm_ok perm
  end.

Definition no_overflow (s : kstate) : Prop := ∀ p pi, pages s !! p = Some pi → pp_ref pi < 2 ^ 16 - 1.

Lemma mapped_mappable s pds fl x t :
  vm_ok s pds fl → no_overflow s → x ∈ slots pds → pte_of s x = Some t → mappable s pds fl (PGNUM t).
Proof.
  intros Hvm Hno Hx Ht. destruct (vm_data _ _ _ Hvm x t Hx Ht) as (_ & Hn & Hnt).
  destruct (vm_mapped_page s pds fl Hvm x t Hx Ht) as (pi & Hpi & _).
  split; [by apply (vm_mapped_not_free s pds fl Hvm x)|]. split; [done|]. split; [done|].
  exists pi. split; [done|]. by apply (Hno (PGNUM t)).
Qed.

(** An environment cannot remap an address of its own that is not page aligned,
    whatever the kernel's state: what [bc_pgfault] of [fs/bc.c] runs into. *)
Lemma sys_page_map_unaligned s va perm : PGOFF va ≠ 0 → sys_page_map 0 va 0 va perm s = (Ret (- E_INVAL), s).
Proof.
  intros H%Z.eqb_neq.
  assert (E : envid2env 0 true s = (Ret (0, curenv_of s), s)) by done.
  unfold sys_page_map. mrun (exact E). cbn [fst]. change (0 <? 0) with false. cbv iota.
  mrun (exact E). cbn [fst]. change (0 <? 0) with false. cbv iota. rewrite H. by rewrite orb_true_r.
Qed.

(** C9: [sys_page_map] shares a page only between environments the caller may
    manipulate, at page-aligned user addresses, with legal permissions, and
    never grants write access the source mapping does not have; everything
    else is refused and changes nothing.  On success exactly the destination
    slot changes, to the source's page with the permissions asked for, and no
    data page is written. *)
Theorem sys_page_map_correct s pds fl srcenvid srcva dstenvid dstva perm :
  kernel_ok s pds fl → no_overflow s → 0 <= srcva → 0 <= dstva →
  match target s srcenvid, target s dstenvid with
  | Some se, Some de =>
    ∃ sv spd dv dpd, envs s !! se = Some sv ∧ env_pgdir sv = kaddr spd ∧ spd ∈ pds ∧
      envs s !! de = Some dv ∧ env_pgdir dv = kaddr dpd ∧ dpd ∈ pds ∧
    let run := sys_page_map srcenvid srcva dstenvid dstva perm s in
    let src := if user_page srcva && user_page dstva then translate s spd srcva else None in
    if negb (may_share perm src) then run = (Ret (- E_INVAL), s)
    else run = (Ret (- E_NO_MEM), s) ∧ fl = [] ∨
      ∃ t s' fl', src = Some t ∧ run = (Ret 0, s') ∧ vm_ok s' pds fl' ∧ envs s' = envs s ∧
        (Z.land perm PTE_W ≠ 0 → Z.land t PTE_W ≠ 0) ∧ data_same pds s s' ∧
        ∀ y, y ∈ slots pds → pte_of s' y =
          if decide (y = (dpd, PDX dstva, PTX dstva)) then Some (PGNUM t * 4096 + perm) else pte_of s y
  | _, _ => sys_page_map srcenvid srcva dstenvid dstva perm s = (Ret (- E_BAD_ENV), s)
  end.
Proof.
  intros Hko Hno Hs0 Hd0. pose proof (ko_vm _ _ _ Hko) as Hvm. unfold sys_page_map.
  mrun (by eapply envid2env_target). destruct (target s srcenvid) as [se|] eqn:Hts; [|done].
  cbn [fst snd Z.ltb Z.compare]. mrun (by eapply envid2env_target).
  destruct (target s dstenvid) as [de|] eqn:Htd; [|done]. cbn [fst snd Z.ltb Z.compare].
  destruct (target_live s _ _ _ _ Hko Hts) as (sv & spd & Hsv & _ & Hspd & Hsd).
  destruct (target_live s _ _ _ _ Hko Htd) as (dv & dpd & Hdv & _ & Hdpd & Hdd).
  exists sv, spd, dv, dpd. split_and!; [done..|]. cbv zeta. unfold user_page.
  destruct (Z.ltb_spec srcva UTOP) as [Hs|Hs], (Z.leb_spec UTOP srcva); try lia; cbn [orb andb]; [|done].
  destruct (PGOFF srcva =? 0); cbn [negb orb andb]; [|done].
  destruct (Z.ltb_spec dstva UTOP) as [Hd|Hd], (Z.leb_spec UTOP dstva); try lia; cbn [orb andb]; [|done].
  destruct (PGOFF dstva =? 0); cbn [negb]; [|done].
  mrun reflexivity. mrun (apply get_env_eq; exact Hsv). rewrite Hsd.
  assert (Hsl : (spd, PDX srcva, PTX srcva) ∈ slots pds) by (by apply vm_user_slot).
  destruct (translate s spd srcva) as [t|] eqn:Ht; cbn [may_share].
  2: { mrun (by eapply page_lookup_unmapped). done. }
  mrun (by eapply page_lookup_mapped). mrun (apply kload_entry).
  destruct (translate_present s spd srcva t Ht) as (_ & <- & _).
  set (wr := negb (Z.land perm PTE_W =? 0) && (Z.land t PTE_W =? 0)).
  assert (Hw : (Z.land perm PTE_W =? 0) || negb (Z.land t PTE_W =? 0) = negb wr)
    by (unfold wr; by destruct (_ =? 0), (_ =? 0)).
  rewrite Hw. destruct wr eqn:Hwr; cbn [negb andb]; [done|].
  destruct (perm_ok perm) eqn:Hperm; cbn [negb]; [|done].
  mrun reflexivity. mrun (apply get_env_eq; exact Hdv). rewrite Hdd.
  destruct (perm_ok_range perm Hperm) as [Hpr Hlor].
  destruct (page_insert_spec s pds fl dpd dstva (PGNUM t) perm Hvm Hdpd (conj Hd0 Hd) Hpr
    (proj1 (ko_cur_ok _ _ _ Hko)) (mapped_mappable s pds fl _ t Hvm Hno Hsl Ht))
    as [(_ & -> & Hrun)|(s2 & Hrun & Hvm2 & Hon & HP2 & _ & Hdata)]; mrun (exact Hrun).
  - left. done.
  - right. exists t, s2, (insert_free s dpd dstva (PGNUM t) fl). split_and!; try done; [by rewrite Hon| |].
    + intros Hpw Htw. unfold wr in Hwr. rewrite Htw in Hwr. by destruct (Z.eqb_spec (Z.land perm PTE_W) 0).
    + intros y Hy. rewrite HP2 by done. unfold new_pte. by rewrite Hlor.
Qed.

(** [sys_page_unmap] removes exactly the mapping at [va] of an environment
    the caller may manipulate, succeeds silently when there is none, refuses
    unaligned and kernel addresses, and never writes a data page. *)
Theorem sys_page_unmap_correct s pds fl envid va :
  kernel_ok s pds fl → 0 <= va →
  match target s envid with
  | None => sys_page_unmap envid va s = (Ret (- E_BAD_ENV), s)
  | Some e =>
    if negb (user_page va) then sys_page_unmap envid va s = (Ret (- E_INVAL), s)
    else ∃ v pd s', envs s !! e = Some v ∧ env_pgdir v = kaddr pd ∧ pd ∈ pds ∧
      sys_page_unmap envid va s = (Ret 0, s') ∧ vm_ok s' pds (freed s pd va fl) ∧ envs s' = envs s ∧
      data_same pds s s' ∧
      ∀ y, y ∈ slots pds → pte_of s' y = if decide (y = (pd, PDX va, PTX va)) then None else pte_of s y
  end.
Proof.
  intros Hko H0. unfold sys_page_unmap. mrun (by eapply envid2env_target).
  destruct (target s envid) as [e|] eqn:Ht; [|done]. cbn [Z.ltb Z.compare]. unfold user_page.
  destruct (Z.ltb_spec va UTOP) as [Hs|Hs], (Z.leb_spec UTOP va); try lia; cbn [orb andb negb]; [|done].
  destruct (PGOFF va =? 0); cbn [negb]; [|done].
  destruct (target_live s _ _ _ _ Hko Ht) as (v & pd & Hv & _ & Hpd & Hd).
  destruct (page_remove_spec s pds fl pd va (ko_vm _ _ _ Hko) Hpd (conj H0 Hs) (proj1 (ko_cur_ok _ _ _ Hko)))
    as (s' & Hrun & Hvm' & Hon & HP & _ & _ & Hdata).
  exists v, pd, s'. split_and!; try done; [|by rewrite Hon].
  mrun reflexivity. mrun (apply get_env_eq; exact Hv). rewrite Hd. by mrun (exact Hrun).
Qed.

(** ** Messages *)

(** The receiver after a message has been delivered. *)
Definition delivered (from value perm : Z) (v : Env) : Env :=
  set_env_tf (set_tf_eax 0 (env_tf v)) (set_env_status ENV_RUNNABLE (set_env_ipc_perm perm
    (set_env_ipc_value value (set_env_ipc_from from (set_env_ipc_recving false v))))).

(** The permissions [sys_ipc_try_send] accepts are those of [perm_ok]. *)
Lemma ipc_perm_ok perm :
  (Z.land perm PTE_U =? 0) || (Z.land perm PTE_P =? 0) || negb (Z.land perm (Z.lnot PTE_SYSCALL) =? 0)
  = negb (perm_ok perm).
Proof.
  unfold perm_ok. rewrite negb_andb. f_equal. rewrite (Z.land_lor_distr_r perm).
  change PTE_U with (2 ^ 2). change PTE_P with (2 ^ 0). rewrite !land_pow2 by lia.
  by destruct (Z.testbit perm 2), (Z.testbit perm 0).
Qed.

(** The environment [envid] names when permission is not checked. *)
Definition recipient (s : kstate) (envid : Z) : option Z :=
  if envid =? 0 then curenv_of s
  else if may_name s (curenv_of s) envid false then Some (ENVX envid) else None.

Lemma recipient_live s pds fl envid e :
  kernel_ok s pds fl → recipient s envid = Some e →
  ∃ v pd, envs s !! e = Some v ∧ env_status v ≠ ENV_FREE ∧ pd ∈ pds ∧ env_pgdir v = kaddr pd.
Proof. apply named_live. Qed.

(** The effect of the page part of a message: an error code, or the state
    after the page has been mapped for the receiver. *)
Definition page_sent (s s' : kstate) (pds : list Z) (dpd dstva t perm : Z) : Prop :=
  ∃ fl', vm_ok s' pds fl' ∧ data_same pds s s' ∧ only_vm s s' ∧
    ∀ y, y ∈ slots pds → pte_of s' y =
      if decide (y = (dpd, PDX dstva, PTX dstva)) then Some (PGNUM t * 4096 + perm) else pte_of s y.

Lemma deliver_eq s e v from value perm :
  envs s !! e = Some v →
  (upd_env e (set_env_ipc_recving false);;
   upd_env e (set_env_ipc_from from);;
   upd_env e (set_env_ipc_value value);;
   upd_env e (set_env_ipc_perm perm);;
   upd_env e (set_env_status ENV_RUNNABLE);;
   upd_env e (λ v, set_env_tf (set_tf_eax 0 (env_tf v)) v);;
   mret 0) s = (Ret 0, set_envs (<[e := delivered from value perm v]> (envs s)) s).
Proof.
  intros Hv. mrun (by apply upd_env_eq). do 5 mrun (apply upd_env_eq; apply lookup_insert_eq).
  cbn [envs set_envs]. by rewrite !insert_insert_eq.
Qed.

Lemma curenv_val_eq s c cv : curenv_of s = Some c → envs s !! c = Some cv → curenv_val s = (Ret cv, s).
Proof. intros Hc Hv. unfold curenv_val, the_curenv, curenv. msimpl. rewrite Hc. unfold the. msimpl. by rewrite (get_env_eq _ c cv). Qed.

(** The page part of a message. *)
Lemma ipc_send_page_eq s pds fl e srcva perm c cv cpd v pd :
  kernel_ok s pds fl → no_overflow s → 0 <= srcva < UTOP →
  curenv_of s = Some c → envs s !! c = Some cv → env_pgdir cv = kaddr cpd → cpd ∈ pds →
  envs s !! e = Some v → env_pgdir v = kaddr pd → pd ∈ pds →
  let src := if PGOFF srcva =? 0 then translate s cpd srcva else None in
  if negb (may_share perm src) then ipc_send_page e srcva perm s = (Ret (- E_INVAL), s)
  else ∃ t, src = Some t ∧
    let put := page_insert (kaddr pd) (PGNUM t) (env_ipc_dstva v) perm s in
    ipc_send_page e srcva perm s =
      match put with (Ret r, s1) => (Ret (if r <? 0 then - E_NO_MEM else 0), s1) | (Stop st, s1) => (Stop st, s1) end ∧
    (0 <= env_ipc_dstva v < UTOP →
       put = (Ret (- E_NO_MEM), s) ∧ fl = [] ∨ ∃ s1, put = (Ret 0, s1) ∧ page_sent s s1 pds pd (env_ipc_dstva v) t perm).
Proof.
  intros Hko Hno Hs Hc Hcv Hcd Hcpd Hv Hd Hpd src. pose proof (ko_vm _ _ _ Hko) as Hvm.
  unfold src, ipc_send_page. clear src. destruct (PGOFF srcva =? 0); cbn [negb]; [|done]. rewrite ipc_perm_ok.
  destruct (perm_ok perm) eqn:Hperm; cbn [negb].
  2: { replace (may_share perm _) with false by (unfold may_share; case_match; [by rewrite Hperm, andb_false_r|done]).
       done. }
  mrun (by apply (curenv_val_eq s c cv)). rewrite Hcd.
  assert (Hsl : (cpd, PDX srcva, PTX srcva) ∈ slots pds) by (by apply vm_user_slot).
  destruct (translate s cpd srcva) as [t|] eqn:Ht; cbn [may_share].
  2: { mrun (by eapply page_lookup_unmapped). done. }
  mrun (by eapply page_lookup_mapped). mrun (apply kload_entry).
  destruct (translate_present s cpd srcva t Ht) as (_ & <- & _). rewrite Hperm, andb_true_r.
  set (wr := negb (Z.land perm PTE_W =? 0) && (Z.land t PTE_W =? 0)).
  assert (Hw : (Z.land perm PTE_W =? 0) || negb (Z.land t PTE_W =? 0) = negb wr)
    by (unfold wr; by destruct (_ =? 0), (_ =? 0)).
  rewrite Hw. destruct wr; cbn [negb]; [done|]. exists t. split; [done|]. cbv zeta. split.
  { mrun (apply get_env_eq; exact Hv). rewrite Hd. unfold mbind, M_bind.
    destruct (page_insert (kaddr pd) (PGNUM t) (env_ipc_dstva v) perm s) as [[r|st] s1]; [|done]. by destruct (r <? 0). }
  intros Hdst. destruct (perm_ok_range perm Hperm) as [Hpr Hlor].
  destruct (page_insert_spec s pds fl pd (env_ipc_dstva v) (PGNUM t) perm Hvm Hpd Hdst Hpr
    (proj1 (ko_cur_ok _ _ _ Hko)) (mapped_mappable s pds fl _ t Hvm Hno Hsl Ht))
    as [(_ & -> & Hrun)|(s2 & Hrun & Hvm2 & Hon & HP2 & _ & Hdata)].
  - by left.
  - right. exists s2. split; [done|].
    exists (insert_free s pd (env_ipc_dstva v) (PGNUM t) fl). split_and!; [done..|].
    intros y Hy. rewrite HP2 by done. unfold new_pte. by rewrite Hlor.
Qed.

(** C14: Sending, on every branch.  [sys_ipc_try_send] reports [-E_BAD_ENV] for
    a dead id and [-E_IPC_NOT_RECV] for an environment that is not waiting,
    and changes nothing.  A message without a page ([srcva >= UTOP]) is
    delivered: the receiver holds the value, the sender's id and [perm] (which
    the comment says is 0 then), is no longer waiting, is runnable, and will
    see its system call return 0.  A message with a page is refused with
    [-E_INVAL] under the conditions of [sys_page_map] on the source.  Otherwise
    the page is inserted at the receiver's [env_ipc_dstva] and the message
    delivered, or [-E_NO_MEM] is reported: below [UTOP] exactly that entry of
    the receiver's mapping changes, and [-E_NO_MEM] comes with no change and no
    free page; at or above [UTOP], where the comment says that no page is
    transferred, [page_insert] is nevertheless called on the receiver's
    directory with that address, and its outcome is the call's. *)
Theorem sys_ipc_try_send_correct s pds fl envid value srcva perm :
  kernel_ok s pds fl → no_overflow s → 0 <= srcva →
  ∃ c cv cpd, curenv_of s = Some c ∧ envs s !! c = Some cv ∧ env_pgdir cv = kaddr cpd ∧ cpd ∈ pds ∧
  let run := sys_ipc_try_send envid value srcva perm s in
  match recipient s envid with
  | None => run = (Ret (- E_BAD_ENV), s)
  | Some e =>
    ∃ v pd, envs s !! e = Some v ∧ env_pgdir v = kaddr pd ∧ pd ∈ pds ∧
    let deliver s1 := (Ret 0, set_envs (<[e := delivered (env_id cv) value perm v]> (envs s)) s1) in
    if negb (env_ipc_recving v) then run = (Ret (- E_IPC_NOT_RECV), s)
    else if negb (srcva <? UTOP) then run = deliver s
    else
      let src := if PGOFF srcva =? 0 then translate s cpd srcva else None in
      if negb (may_share perm src) then run = (Ret (- E_INVAL), s)
      else ∃ t, src = Some t ∧
        let put := page_insert (kaddr pd) (PGNUM t) (env_ipc_dstva v) perm s in
        run = match put with
              | (Ret r, s1) => if r <? 0 then (Ret (- E_NO_MEM), s1) else deliver s1
              | (Stop st, s1) => (Stop st, s1)
              end ∧
        (0 <= env_ipc_dstva v < UTOP →
           put = (Ret (- E_NO_MEM), s) ∧ fl = [] ∨
           ∃ s1, put = (Ret 0, s1) ∧ page_sent s s1 pds pd (env_ipc_dstva v) t perm)
  end.
Proof.
  intros Hko Hno Hs0. pose proof (ko_vm _ _ _ Hko) as Hvm.
  destruct (ko_cur _ _ _ Hko) as (c & cv & Hc & Hcv & Hcl).
  destruct (ko_dirs _ _ _ Hko c cv Hcv Hcl) as (cpd & Hcpd & Hcd).
  exists c, cv, cpd. split_and!; [done..|]. cbv zeta. unfold sys_ipc_try_send.
  assert (He : envid2env envid false s =
    (Ret (match recipient s envid with Some e => (0, Some e) | None => (- E_BAD_ENV, None) end), s)).
  { rewrite envid2env_spec by (done || apply Hko || apply (ko_cur_ok _ _ _ Hko)). unfold recipient.
    destruct (envid =? 0); [by rewrite Hc|]. by destruct (may_name _ _ _ _). }
  mrun (exact He). destruct (recipient s envid) as [e|] eqn:Hr; [|done]. cbn [Z.ltb Z.compare].
  destruct (recipient_live s _ _ _ _ Hko Hr) as (v & pd & Hv & _ & Hpd & Hd).
  exists v, pd. split_and!; [done..|]. mrun reflexivity. mrun (apply get_env_eq; exact Hv).
  destruct (env_ipc_recving v); cbn [negb]; [|done].
  assert (Hrest : ∀ s1, envs s1 = envs s → curenv_of s1 = curenv_of s →
    (cur ← curenv_val; upd_env e (set_env_ipc_recving false);; upd_env e (set_env_ipc_from (env_id cur));;
     upd_env e (set_env_ipc_value value);; upd_env e (set_env_ipc_perm perm);; upd_env e (set_env_status ENV_RUNNABLE);;
     upd_env e (λ v, set_env_tf (set_tf_eax 0 (env_tf v)) v);; mret 0) s1 =
    (Ret 0, set_envs (<[e := delivered (env_id cv) value perm v]> (envs s)) s1)).
  { intros s1 E1 E2. mrun (apply (curenv_val_eq s1 c cv); [by rewrite E2|by rewrite E1]).
    rewrite (deliver_eq s1 e v) by (by rewrite E1). by rewrite E1. }
  destruct (Z.ltb_spec srcva UTOP) as [Hs|Hs]; cbn [negb]; [|by apply Hrest].
  pose proof (ipc_send_page_eq s pds fl e srcva perm c cv cpd v pd Hko Hno (conj Hs0 Hs) Hc Hcv Hcd Hcpd Hv Hd Hpd) as Hp.
  cbv zeta in Hp. destruct (may_share perm _); cbn [negb] in *; [|by mrun (exact Hp)].
  destruct Hp as (t & Ht & Hrun & Hput). exists t. split; [exact Ht|]. split; [|exact Hput].
  pose proof (quiet_page_insert (kaddr pd) (PGNUM t) (env_ipc_dstva v) perm) as Hq.
  destruct (page_insert (kaddr pd) (PGNUM t) (env_ipc_dstva v) perm s) as [[r|st] s1] eqn:Ei.
  - mrun (exact Hrun). destruct (quiet_ret_eq _ _ _ _ Hq Ei) as (E1 & E2 & E3).
    destruct (r <? 0); [done|]. apply Hrest; [exact E1|]. unfold curenv_of. by rewrite E2, E3.
  - by rewrite (bind_Stop _ _ _ _ _ Hrun).
Qed.

(** The caller of [sys_ipc_recv] while it waits. *)
Definition waiting (dstva : Z) (v : Env) : Env :=
  set_env_status ENV_NOT_RUNNABLE (set_env_ipc_dstva dstva (set_env_ipc_recving true v)).

(** Receiving.  [sys_ipc_recv] refuses an unaligned user address; otherwise
    the caller is recorded as waiting, stops being runnable, and the CPU goes
    to the scheduler and does not come back. *)
Theorem sys_ipc_recv_correct s c v dstva :
  curenv_of s = Some c → envs s !! c = Some v →
  if (dstva <? UTOP) && negb (PGOFF dstva =? 0) then sys_ipc_recv dstva s = (Ret (- E_INVAL), s)
  else goes (sys_ipc_recv dstva s) (λ _, sched_yield (set_envs (<[c := waiting dstva v]> (envs s)) s)) s.
Proof.
  intros Hc Hv. unfold sys_ipc_recv. destruct (_ && _); [done|].
  unfold the_curenv, curenv. unfold mbind at 1, M_bind at 1. rewrite bind_gets, Hc. cbn [the].
  unfold mret, M_ret. mrun (by apply upd_env_eq). do 2 mrun (apply upd_env_eq; apply lookup_insert_eq).
  cbn [envs set_envs]. rewrite !insert_insert_eq.
  destruct (goes_call sched_yield (set_envs (<[c := waiting dstva v]> (envs s)) s) (λ f : False, match f with end : K Z))
    as (st & s' & H1 & H2). exists st, s'. split; [exact H1|exact H2].
Qed.

(** ** Creating environments *)

(** The child [sys_exofork] leaves behind. *)
Definition forked (tf : Trapframe) (v : Env) : Env :=
  set_env_tf (set_tf_eax 0 tf) (set_env_status ENV_NOT_RUNNABLE v).

(** [sys_exofork] returns the id of a new environment, a child of the
    caller that cannot run yet, has the caller's registers except that it will
    see the call return 0, and has an empty address space; without a free
    slot or a free page it fails and changes nothing. *)
Theorem sys_exofork_correct s kp pds fl c cv :
  kernel_ok s pds fl → kern_dir s kp fl → curenv_of s = Some c → envs s !! c = Some cv →
  match env_free_list s with
  | None => sys_exofork s = (Ret (- E_NO_FREE_ENV), s)
  | Some e =>
    ∀ v, envs s !! e = Some v → e ≠ c → 
    match fl with
    | [] => sys_exofork s = (Ret (- E_NO_MEM), s)
    | pd :: l =>
      ∃ s' child, sys_exofork s = (Ret (env_id child), s') ∧ vm_ok s' (pd :: pds) l ∧
        child = forked (env_tf cv) (allocated v e pd (env_id cv)) ∧
        envs s' = <[e := child]> (envs s) ∧
        (∀ y, y ∈ slots [pd] → pte_of s' y = None) ∧ (∀ y, y ∈ slots pds → pte_of s' y = pte_of s y)
    end
  end.
Proof.
  intros Hko Hkd Hc Hcv. pose proof (ko_vm _ _ _ Hko) as Hvm.
  assert (Hcur : ∀ s1, curenv_of s1 = Some c → envs s1 !! c = Some cv → curenv_val s1 = (Ret cv, s1)).
  { intros s1 H1 H2. unfold curenv_val, the_curenv, curenv. msimpl. rewrite H1. unfold the. msimpl.
    by rewrite (get_env_eq _ c cv). }
  unfold sys_exofork. destruct (env_free_list s) as [e|] eqn:He.
  2: { mrun (by apply Hcur). pose proof (proj1 (env_alloc_spec s kp pds fl 0 cv (env_id cv) Hvm Hkd) He) as Ha.
       by mrun (exact Ha). }
  intros v Hv Hne.
  pose proof (proj2 (env_alloc_spec s kp pds fl e v (env_id cv) Hvm Hkd) He Hv) as Ha.
  destruct fl as [|pd l].
  { mrun (by apply Hcur). by mrun (exact Ha). }
  destruct Ha as (s1 & Hrun & Hvm1 & _ & Henv & _ & Hcur1 & _ & HN & HP). rewrite Hc in Hcur1.
  assert (He1 : envs s1 !! e = Some (allocated v e pd (env_id cv))) by (by rewrite Henv, lookup_insert_eq).
  assert (Hc1 : envs s1 !! c = Some cv) by (by rewrite Henv, lookup_insert_ne).
  mrun (by apply Hcur). mrun (exact Hrun). cbn [Z.ltb Z.compare]. mrun reflexivity.
  mrun (apply upd_env_eq; exact He1).
  mrun (apply Hcur; [exact Hcur1|cbn; by rewrite lookup_insert_ne]).
  do 2 mrun (apply upd_env_eq; apply lookup_insert_eq). mrun (apply get_env_eq; apply lookup_insert_eq).
  cbn [envs set_envs]. rewrite !insert_insert_eq, Henv, insert_insert_eq.
  eexists _, _. split; [reflexivity|]. split; [|split; [reflexivity|split; [reflexivity|done]]].
  by apply (vm_ok_other_fields s1).
Qed.

(** ** Deviations *)

Lemma upd_env_inv e f s r s' :
  upd_env e f s = (Ret r, s') → ∃ v, envs s !! e = Some v ∧ s' = set_envs (<[e := f v]> (envs s)) s.
Proof.
  unfold upd_env, get_env. msimpl. destruct (envs s !! e) as [v|]; [|done]. intros [= _ <-]. eauto.
Qed.

(** Whenever [sys_env_set_trapframe] succeeds, the environment's saved
    flags are 0, so that it will run with interrupts disabled: the mask
    [FL_IOPL_0] that is meant to clear the privilege level is 0 and clears
    every flag, the interrupt flag set on the line before included. *)
Theorem sys_env_set_trapframe_flags s envid tf s' :
  sys_env_set_trapframe envid tf s = (Ret 0, s') →
  ∃ e v, envs s' !! e = Some v ∧ tf_cs (env_tf v) = Z.lor GD_UT 3 ∧
    tf_eflags (env_tf v) = 0 ∧ Z.land (tf_eflags (env_tf v)) FL_IF = 0.
Proof.
  unfold sys_env_set_trapframe. intros H.
  apply bind_inv in H as [([ret store] & s1 & _ & H)|(? & _ & ?)]; [|done].
  destruct (Z.ltb_spec ret 0); [injection H as -> _; lia|].
  apply bind_inv in H as [(e & s2 & _ & H)|(? & _ & ?)]; [|done].
  do 2 (apply bind_inv in H as [(? & ? & _ & H)|(? & _ & ?)]; [|done]).
  apply bind_inv in H as [([] & s3 & (v1 & Hv1 & ->)%upd_env_inv & H)|(? & _ & ?)]; [|done].
  apply bind_inv in H as [([] & s4 & (v2 & Hv2 & ->)%upd_env_inv & H)|(? & _ & ?)]; [|done].
  apply bind_inv in H as [([] & s5 & (v3 & Hv3 & ->)%upd_env_inv & H)|(? & _ & ?)]; [|done].
  apply bind_inv in H as [([] & s6 & (v4 & Hv4 & ->)%upd_env_inv & H)|(? & _ & ?)]; [|done].
  injection H as <-. cbn [envs set_envs] in *. rewrite !lookup_insert_eq in *.
  simplify_eq. eexists e, _. split; [apply lookup_insert_eq|]. split; [done|].
  cbn [env_tf set_env_tf tf_eflags set_tf_eflags]. unfold FL_IOPL_0. by rewrite Z.land_0_r.
Qed.

(** An empty range that starts on a page boundary is not examined. *)
Lemma user_mem_check_empty s pgdir va perm :
  0 <= va < KERNBASE → va mod PGSIZE = 0 → user_mem_check pgdir va 0 perm s = (Ret 0, s).
Proof.
  unfold PGSIZE, KERNBASE. intros Hva Hal. unfold user_mem_check. rewrite Z.add_0_r, u32_small by lia.
  destruct (ROUNDUP_page va ltac:(lia)) as (k & -> & Hk & Hr).
  cbn [user_mem_check_loop]. destruct (Z.ltb_spec va (k * 4096)); [|done].
  exfalso. revert Hal. Z.to_euclidean_division_equations. lia.
Qed.

(** [sys_cputs] with a length of 0 and a page-aligned address is never
    checked, but the kernel still reads the first byte: for an unmapped
    address the kernel itself faults. *)
Theorem sys_cputs_kernel_fault s c v va :
  curenv_of s = Some c → envs s !! c = Some v → 0 < va < KERNBASE → va mod PGSIZE = 0 →
  hw_translate false va s = (Stop (PageFault va), s) →
  syscall 0 va 0 0 0 0 s = (Stop (PageFault va), s).
Proof.
  intros Hc Hv Hva Hal Hf. change (syscall 0 va 0 0 0 0 s) with ((sys_cputs va 0;; mret 0) s).
  apply bind_Stop. unfold sys_cputs, the_curenv, curenv. unfold mbind at 1, M_bind at 1.
  rewrite bind_gets, Hc. cbn [the]. unfold mret, M_ret.
  assert (Hu : user_mem_assert c va 0 0 s = (Ret tt, s)).
  { unfold user_mem_assert. mrun (apply get_env_eq; exact Hv). mrun (apply user_mem_check_empty; [lia|done]). done. }
  mrun (exact Hu). unfold cprintf_string. destruct (Z.eqb_spec va 0); [lia|].
  change (s32 0) with 0. change (Z.to_nat (if 0 <? 0 then 2 ^ 32 else 0 + 1)) with 1%nat. cbn [print_string].
  apply bind_Stop. unfold vload8. by apply bind_Stop.
Qed.

(** C37: the hole in the kernel's protection.  Any environment may call
    [sys_map_kernel_page]: for a kernel address whose page is in physical
    memory, is not free, and is not a page directory or page table of user
    space - the pages of [envs], of [pages] and of the kernel's text and data
    are such - the call maps that page at any user address the caller likes,
    readable and writable by user code, or fails with [-E_NO_MEM] when a page
    table is needed and no page is free; no other user mapping changes.  There
    is no permission check. *)
Theorem sys_map_kernel_page_exposes s pds fl kpage va c v pd :
  kernel_ok s pds fl → curenv_of s = Some c → envs s !! c = Some v → env_pgdir v = kaddr pd → pd ∈ pds →
  KERNBASE <= kpage → 0 <= va < UTOP → mappable s pds fl ((kpage - KERNBASE) / PGSIZE) →
  (fl = [] ∧ syscall 14 kpage va 0 0 0 s = (Ret (- E_NO_MEM), s)) ∨
  ∃ s' t, syscall 14 kpage va 0 0 0 s = (Ret 0, s') ∧ translate s' pd va = Some t ∧
    PGNUM t = (kpage - KERNBASE) / PGSIZE ∧ Z.land t (Z.lor (Z.lor PTE_U PTE_W) PTE_P) = Z.lor (Z.lor PTE_U PTE_W) PTE_P ∧
    ∀ y, y ∈ slots pds → y ≠ (pd, PDX va, PTX va) → pte_of s' y = pte_of s y.
Proof.
  intros Hko Hc Hv Hpd Hin Hk Hva Hm. pose proof (ko_vm _ _ _ Hko) as Hvm.
  set (f := (kpage - KERNBASE) / PGSIZE) in *.
  assert (Hf : 0 <= f < npages s).
  { destruct Hm as (_ & _ & _ & pi & Hpi & _). apply (phys_dom s (vm_phys _ _ _ Hvm)). by rewrite Hpi. }
  pose proof (phys_npages s (vm_phys _ _ _ Hvm)) as Hnp.
  change (syscall 14 kpage va 0 0 0 s) with (sys_map_kernel_page kpage va s). unfold sys_map_kernel_page.
  assert (Hpa : PADDR kpage s = (Ret (kpage - KERNBASE), s)) by (unfold PADDR; by replace (kpage <? KERNBASE) with false by lia).
  assert (Hpg : pa2page (kpage - KERNBASE) s = (Ret f, s)).
  { unfold pa2page. rewrite PGNUM_div. change 4096 with PGSIZE. fold f. msimpl. by replace (npages s <=? f) with false by lia. }
  mrun (exact Hpa). mrun (exact Hpg). mrun (by apply (curenv_val_eq s c v)). rewrite Hpd.
  destruct (page_insert_spec s pds fl pd va f (Z.lor PTE_U PTE_W) Hvm Hin Hva ltac:(done) (proj1 (ko_cur_ok _ _ _ Hko)) Hm)
    as [(_ & -> & Hrun)|(s2 & Hrun & _ & _ & HP & _)]; [left; done|right].
  exists s2, (new_pte f (Z.lor PTE_U PTE_W)). split; [exact Hrun|].
  assert (Hx : (pd, PDX va, PTX va) ∈ slots pds) by (by apply vm_user_slot).
  split; [|split; [|split]].
  - specialize (HP _ Hx). by rewrite decide_True in HP by done.
  - apply new_pte_facts; [lia|done].
  - unfold new_pte. change (Z.lor (Z.lor PTE_U PTE_W) PTE_P) with 7. change 7 with (Z.ones 3) at 2. rewrite Z.land_ones by lia.
    replace (f * 4096) with (f * 512 * 2 ^ 3) by lia. rewrite Z.add_comm, Z.mod_add by lia. done.
  - intros y Hy Hne. rewrite HP by done. by rewrite decide_False.
Qed.

(** [sys_map_kernel_page] with an address below [KERNBASE], which any
    environment can pass, panics the kernel. *)
Theorem sys_map_kernel_page_panics s kpage va :
  kpage < KERNBASE →
  syscall 14 kpage va 0 0 0 s = (Stop (Panic "PADDR called with invalid kva"), s).
Proof.
  intros H. change (syscall 14 kpage va 0 0 0 s) with (sys_map_kernel_page kpage va s).
  unfold sys_map_kernel_page, PADDR. by destruct (Z.ltb_spec kpage KERNBASE); [|lia].
Qed.
