(* ===== verification/SyscallDemo.v ===== *)
(** * The system calls at work

    The theorems of [SyscallSpec] on the concrete machine of [Demo]. *)

From S2P Require Import Prelude Mmu Console KState Demo Lock PageAlloc PageTable AddrSpace PageInsert VmFrame VmDemo UserMem Env EnvSpace Sched Nic Syscall SyscallSpec.
Open Scope Z_scope.

Lemma demo_env_live e v :
  envs demo !! e = Some v → env_status v ≠ ENV_FREE →
  e = 0 ∧ v = demo_env 0x1000 0 ENV_RUNNING 1 false ∨
  e = 1 ∧ v = demo_env 0x1001 0x1000 ENV_NOT_RUNNABLE 2 true.
Proof.
  change (envs demo) with demo_envs. unfold demo_envs. rewrite !lookup_insert.
  destruct (decide (0 = e)) as [<-|]; [intros [= <-]; by left|].
  destruct (decide (1 = e)) as [<-|]; [intros [= <-]; by right|].
  intros H%elem_of_list_to_map_2 Hs. apply list_elem_of_fmap in H as (i & [= -> ->] & _). done.
Qed.

Lemma demo_ok : kernel_ok demo [1; 2] [5; 6; 7].
Proof.
  constructor.
  - apply demo_vm.
  - apply demo_table.
  - by exists 0, (demo_env 0x1000 0 ENV_RUNNING 1 false).
  - intros e v Hv Hs. destruct (demo_env_live e v Hv Hs) as [[-> ->]|[-> ->]].
    + exists 1. split; [by left|done].
    + exists 2. split; [by right; left|done].
Qed.

Lemma demo_no_overflow : no_overflow demo.
Proof.
  intros p pi H%elem_of_list_to_map_2.
  repeat (apply elem_of_cons in H as [[= _ ->]|H]; [simpl; lia|]). by apply not_elem_of_nil in H.
Qed.

(** The same machine with the child running. *)
Definition demo_child : kstate :=
  set_cpus (<[0 := mkCpuInfo 0 CPU_STARTED (Some 1) 0xF0000000]> (cpus demo)) demo.

Lemma demo_child_ok : kernel_ok demo_child [1; 2] [5; 6; 7].
Proof.
  destruct demo_ok as [Hvm Ht _ Hd]. constructor; [|done| |done].
  - by apply (vm_ok_other_fields demo).
  - by exists 1, (demo_env 0x1001 0x1000 ENV_NOT_RUNNABLE 2 true).
Qed.

(** The child tries to destroy its parent, and to map a page into it. *)
Lemma syscall_isolation_witness :
  target demo_child (s32 0x1000) = None ∧ syscall 3 0x1000 0 0 0 0 demo_child = (Ret (- E_BAD_ENV), demo_child) ∧
  syscall 5 0 demo_va 0x1000 demo_va 7 demo_child = (Ret (- E_BAD_ENV), demo_child).
Proof.
  assert (Ht : target demo_child (s32 0x1000) = None) by (vm_compute; reflexivity).
  split; [exact Ht|]. split.
  - exact (syscall_isolation demo_child [1; 2] [5; 6; 7] 3 0x1000 0 0 0 0 demo_child_ok (Exists_cons_hd _ _ _ Ht)).
  - exact (syscall_isolation demo_child [1; 2] [5; 6; 7] 5 0 demo_va 0x1000 demo_va 7 demo_child_ok
      (Exists_cons_tl _ (Exists_cons_hd _ _ _ Ht))).
Defined.

(** The parent gives its child a page. *)
Lemma sys_page_alloc_correct_witness :
  ∃ r s' fl', sys_page_alloc 0x1001 demo_va 7 demo = (Ret r, s') ∧ vm_ok s' [1; 2] fl'.
Proof.
  pose proof (sys_page_alloc_correct demo [1; 2] [5; 6; 7] 0x1001 demo_va 7 demo_ok ltac:(by vm_compute)) as H.
  change (negb (page_args_ok demo_va 7)) with false in H. cbv iota in H.
  assert (Ht : target demo 0x1001 = Some 1) by (vm_compute; reflexivity). rewrite Ht in H.
  destruct H as (v & pd & _ & _ & _ & r & s' & fl' & Hrun & Hvm & _).
  exists r, s', fl'. split; [exact Hrun|exact Hvm].
Defined.

Lemma mapped_only_vm : only_vm demo demo_mapped.
Proof. by destruct demo_mapped_ok as (_ & _ & _ & _ & ?). Qed.

Lemma mapped_envs : envs demo_mapped = envs demo.
Proof. by rewrite mapped_only_vm. Qed.

Lemma demo_mapped_kernel : kernel_ok demo_mapped [1; 2] [6; 7].
Proof.
  destruct demo_ok as [_ Ht Hc Hd]. destruct demo_mapped_ok as (_ & Hvm & _).
  pose proof mapped_only_vm as Hon. constructor; [exact Hvm|..].
  - unfold env_table. rewrite Hon. exact Ht.
  - unfold curenv_of. rewrite Hon. exact Hc.
  - intros e v. rewrite Hon. apply Hd.
Qed.

Lemma demo_mapped_no_overflow : no_overflow demo_mapped.
Proof.
  assert (H : map_Forall (λ _ pi, pp_ref pi < 2 ^ 16 - 1) (pages demo_mapped)).
  { apply (bool_decide_unpack (map_Forall _ _)). vm_compute. exact I. }
  exact H.
Qed.

Lemma demo_mapped_target : target demo_mapped 0 = Some 0 ∧ target demo_mapped 0x1001 = Some 1.
Proof. unfold target, may_name, curenv_of. rewrite mapped_only_vm. split; vm_compute; reflexivity. Qed.

Lemma demo_env0 : envs demo !! 0 = Some (demo_env 0x1000 0 ENV_RUNNING 1 false).
Proof. vm_compute. reflexivity. Qed.

Lemma demo_env1 : envs demo !! 1 = Some (demo_env 0x1001 0x1000 ENV_NOT_RUNNABLE 2 true).
Proof. vm_compute. reflexivity. Qed.

Lemma demo_pgdir_eq (o : option Env) id par st pd rc v f :
  o = Some (demo_env id par st pd rc) → o = Some v → env_pgdir v = kaddr f → f = pd.
Proof. intros -> [= <-]. unfold kaddr. cbn [env_pgdir demo_env]. unfold frame_kva, KERNBASE. lia. Qed.

Lemma mapped_pgdir0 v f : envs demo_mapped !! 0 = Some v → env_pgdir v = kaddr f → f = 1.
Proof. rewrite mapped_envs. exact (demo_pgdir_eq _ _ _ _ _ _ _ _ demo_env0). Qed.

Lemma mapped_pgdir1 v f : envs demo_mapped !! 1 = Some v → env_pgdir v = kaddr f → f = 2.
Proof. rewrite mapped_envs. exact (demo_pgdir_eq _ _ _ _ _ _ _ _ demo_env1). Qed.

(** The parent shares its page with its child, read-only. *)
Lemma sys_page_map_correct_witness :
  ∃ s', sys_page_map 0 demo_va 0x1001 demo_va 5 demo_mapped = (Ret 0, s') ∧
    pte_of s' (2, PDX demo_va, PTX demo_va) = Some (3 * 4096 + 5).
Proof.
  assert (H2 : (2, PDX demo_va, PTX demo_va) ∈ slots [1; 2])
    by (apply elem_of_slots; split; [by right; left|done]).
  assert (H0 : 0 <= demo_va) by (by vm_compute).
  destruct demo_mapped_target as [Ht0 Ht1].
  pose proof (sys_page_map_correct demo_mapped [1; 2] [6; 7] 0 demo_va 0x1001 demo_va 5
    demo_mapped_kernel demo_mapped_no_overflow H0 H0) as H. rewrite Ht0, Ht1 in H.
  destruct H as (sv & spd & dv & dpd & Hsv & Hsd & _ & Hdv & Hdd & _ & H).
  pose proof (mapped_pgdir0 _ _ Hsv Hsd) as ->. pose proof (mapped_pgdir1 _ _ Hdv Hdd) as ->.
  cbv zeta in H. change (user_page demo_va && user_page demo_va) with true in H. cbv iota in H.
  destruct demo_mapped_ok as (_ & _ & _ & Hpte & _).
  change (translate demo_mapped 1 demo_va) with (pte_of demo_mapped (1, PDX demo_va, PTX demo_va)) in H.
  rewrite Hpte in H. change (negb (may_share 5 _)) with false in H. cbv iota in H.
  destruct H as [[_ [=]]|(t & s' & fl' & [= <-] & Hrun & _ & _ & _ & _ & HP)].
  exists s'. split; [exact Hrun|]. rewrite (HP _ H2). reflexivity.
Defined.

(** The parent removes the page again. *)
Lemma sys_page_unmap_correct_witness :
  ∃ s', sys_page_unmap 0 demo_va demo_mapped = (Ret 0, s') ∧ pte_of s' (1, PDX demo_va, PTX demo_va) = None.
Proof.
  assert (H1 : (1, PDX demo_va, PTX demo_va) ∈ slots [1; 2])
    by (apply elem_of_slots; split; [by left|done]).
  assert (H0 : 0 <= demo_va) by (by vm_compute).
  destruct demo_mapped_target as [Ht0 _].
  pose proof (sys_page_unmap_correct demo_mapped [1; 2] [6; 7] 0 demo_va demo_mapped_kernel H0) as H.
  rewrite Ht0 in H. change (negb (user_page demo_va)) with false in H. cbv iota in H.
  destruct H as (v & pd & s' & Hv & Hd & _ & Hrun & _ & _ & _ & HP).
  pose proof (mapped_pgdir0 _ _ Hv Hd) as ->.
  exists s'. split; [exact Hrun|]. rewrite (HP _ H1). reflexivity.
Defined.

(** The parent sends the waiting child a number. *)
Lemma sys_ipc_try_send_correct_witness :
  fst (sys_ipc_try_send 0x1001 42 UTOP 0 demo) = Ret 0.
Proof.
  assert (H0 : 0 <= UTOP) by (by vm_compute).
  assert (Hr : recipient demo 0x1001 = Some 1) by (vm_compute; reflexivity).
  pose proof (sys_ipc_try_send_correct demo [1; 2] [5; 6; 7] 0x1001 42 UTOP 0 demo_ok demo_no_overflow H0) as H.
  destruct H as (c & cv & cpd & _ & _ & _ & _ & H). cbv zeta in H. rewrite Hr in H.
  destruct H as (v & pd & Hv & _ & _ & H). rewrite demo_env1 in Hv.
  apply (inj Some) in Hv. rewrite <- Hv in H. cbn [env_ipc_recving demo_env negb] in H.
  change (negb (UTOP <? UTOP)) with true in H. cbv iota in H. rewrite H. reflexivity.
Defined.

(** The parent waits for a message without a page. *)
Lemma sys_ipc_recv_correct_witness :
  goes (sys_ipc_recv UTOP demo)
    (λ _, sched_yield (set_envs (<[0 := waiting UTOP (demo_env 0x1000 0 ENV_RUNNING 1 false)]> (envs demo)) demo))
    demo.
Proof.
  assert (Hc : curenv_of demo = Some 0) by (vm_compute; reflexivity).
  exact (sys_ipc_recv_correct demo 0 _ UTOP Hc demo_env0).
Defined.

(** The parent forks. *)
Lemma sys_exofork_correct_witness :
  ∃ s', sys_exofork demo = (Ret 0x1002, s') ∧ vm_ok s' [5; 1; 2] [6; 7].
Proof.
  assert (Hc : curenv_of demo = Some 0) by (vm_compute; reflexivity).
  assert (H2 : envs demo !! 2 = Some (free_env (Some 3) 0)) by (vm_compute; reflexivity).
  pose proof (sys_exofork_correct demo 4 [1; 2] [5; 6; 7] 0 _ demo_ok demo_kern_dir Hc demo_env0) as H.
  change (env_free_list demo) with (Some 2) in H. cbv iota beta in H.
  destruct (H _ H2 ltac:(discriminate)) as (s' & child & Hrun & Hvm & -> & _).
  exists s'. split; [|exact Hvm]. rewrite Hrun. reflexivity.
Defined.

(** The parent installs the zero-filled page as its own registers. *)
Lemma sys_env_set_trapframe_flags_witness :
  ∃ s' e v, sys_env_set_trapframe 0 demo_va demo_mapped = (Ret 0, s') ∧
    envs s' !! e = Some v ∧ tf_eflags (env_tf v) = 0.
Proof.
  assert (Hf : fst (sys_env_set_trapframe 0 demo_va demo_mapped) = Ret 0) by (vm_compute; reflexivity).
  destruct (sys_env_set_trapframe 0 demo_va demo_mapped) as [r s'] eqn:Hrun. cbn [fst] in Hf. subst r.
  destruct (sys_env_set_trapframe_flags _ _ _ _ Hrun) as (e & v & He & _ & Hfl & _).
  exists s', e, v. split; [reflexivity|]. split; [exact He|exact Hfl].
Defined.

(** An environment prints nothing at an unmapped address. *)
Lemma sys_cputs_kernel_fault_witness :
  syscall 0 demo_va 0 0 0 0 demo = (Stop (PageFault demo_va), demo).
Proof.
  assert (Hc : curenv_of demo = Some 0) by (vm_compute; reflexivity).
  apply (sys_cputs_kernel_fault demo 0 _ demo_va Hc demo_env0).
  - split; reflexivity.
  - reflexivity.
  - reflexivity.
Defined.

(** Environment 0 gets page 0 of the kernel, writable. *)
Lemma sys_map_kernel_page_exposes_witness :
  ∃ s' t, syscall 14 KERNBASE demo_va 0 0 0 demo = (Ret 0, s') ∧ translate s' 1 demo_va = Some t ∧ PGNUM t = 0.
Proof.
  assert (Hc : curenv_of demo = Some 0) by (vm_compute; reflexivity).
  assert (Hm : mappable demo [1; 2] [5; 6; 7] 0).
  { split; [set_solver|]. split; [set_solver|]. split.
    - intros (pd & i & _ & _ & Hp & _). by rewrite demo_entry in Hp.
    - eexists. split; [vm_compute; reflexivity|reflexivity]. }
  destruct (sys_map_kernel_page_exposes demo [1; 2] [5; 6; 7] KERNBASE demo_va 0 _ 1 demo_ok Hc demo_env0 eq_refl
    ltac:(set_solver) ltac:(done) ltac:(split; vm_compute; congruence) Hm) as [[H _]|(s' & t & H1 & H2 & H3 & _)]; [discriminate H|].
  exists s', t. split; [exact H1|]. split; [exact H2|exact H3].
Defined.

Lemma sys_map_kernel_page_panics_witness :
  syscall 14 demo_va demo_va 0 0 0 demo = (Stop (Panic "PADDR called with invalid kva"), demo).
Proof. apply (sys_map_kernel_page_panics demo demo_va demo_va). reflexivity. Defined.

(** The same kernel state answers the lookups of [kern/env.c]. *)
Lemma envid2env_correct_witness : envid2env 0x1001 true demo = (Ret (0, Some 1), demo).
Proof. apply (envid2env_correct demo 0x1001 true demo_table demo_cur). intros _. exists 0. reflexivity. Defined.

Lemma env_init_correct_witness :
  ∃ m, env_init demo = (Ret tt, set_env_free_list (Some 0) (set_envs m demo)) ∧
    m !! 0 = Some (init_env 0 (demo_env 0x1000 0 ENV_RUNNING 1 false)).
Proof.
  destruct (env_init_correct demo demo_table) as (m & Hrun & Hm). exists m. split; [exact Hrun|].
  rewrite (Hm 0 ltac:(split; [discriminate|reflexivity])). rewrite demo_env0. reflexivity.
Defined.

Lemma next_env_id_correct_witness : 0 < next_env_id 0x1001 1 < 2 ^ 31 ∧ next_env_id 0x1001 1 ≠ 0x1001.
Proof.
  destruct (next_env_id_correct 0x1001 1) as (H & _ & _ & _ & Hne).
  - split; reflexivity || discriminate.
  - split; reflexivity || discriminate.
  - split; [exact H|exact (Hne eq_refl)].
Defined.
