(* ===== verification/Trap.v ===== *)
(** * Traps ([kern/trap.c])

    How the kernel is entered and left: the interrupt gates [trap_init]
    installs, [trap], [trap_dispatch] and [page_fault_handler].  A
    [struct Trapframe *] points either at the frame the processor pushed on the
    kernel stack or at the [env_tf] of an environment.

    The messages ([print_trapframe]), the acknowledgement of an interrupt to
    the local APIC and the descriptor-table, task-register and MSR loads of
    [trap_init_percpu] have no counterpart in the state.  A breakpoint hands the
    machine to the kernel monitor ([Monitor]), whose dialogue is not modelled.

    The theorems: a system call made by a user environment returns its result
    in the caller's [eax] and to the caller; a user page fault builds the frame
    [lib/pfentry.S] expects on the exception stack and runs the upcall. *)

From S2P Require Import Prelude Mmu Console KState Demo Lock PageAlloc PageTable AddrSpace PageInsert VmFrame VmDemo UserMem Env EnvSpace Sched Nic Syscall Returning SyscallSpec SyscallDemo.
Open Scope Z_scope.

Definition T_DIVIDE : Z := 0.
Definition T_DEBUG : Z := 1.
Definition T_NMI : Z := 2.
Definition T_BRKPT : Z := 3.
Definition T_OFLOW : Z := 4.
Definition T_BOUND : Z := 5.
Definition T_ILLOP : Z := 6.
Definition T_DEVICE : Z := 7.
Definition T_DBLFLT : Z := 8.
Definition T_TSS : Z := 10.
Definition T_SEGNP : Z := 11.
Definition T_STACK : Z := 12.
Definition T_GPFLT : Z := 13.
Definition T_PGFLT : Z := 14.
Definition T_FPERR : Z := 16.
Definition T_ALIGN : Z := 17.
Definition T_MCHK : Z := 18.
Definition T_SIMDERR : Z := 19.
Definition T_SYSCALL : Z := 48.
Definition IRQ_OFFSET : Z := 32.
Definition IRQ_TIMER : Z := 0.
Definition IRQ_KBD : Z := 1.
Definition IRQ_SERIAL : Z := 4.
Definition IRQ_SPURIOUS : Z := 7.
Definition IRQ_IDE : Z := 14.
Definition IRQ_ERROR : Z := 19.

(** ** The interrupt descriptor table *)

(** [SETGATE(idt[vector], istrap, GD_KT, handler, dpl)]; the handler of
    [kern/trapentry.S] pushes the vector as [tf_trapno]. *)
Record gate : Type := SETGATE { gd_vector : Z; gd_istrap : bool; gd_dpl : Z }.

Definition trap_init : list gate :=
  [ SETGATE T_DIVIDE false 0; SETGATE T_DEBUG false 0; SETGATE T_NMI false 0;
    SETGATE T_BRKPT false 3; SETGATE T_OFLOW false 3; SETGATE T_BOUND false 3;
    SETGATE T_ILLOP false 0; SETGATE T_DEVICE false 0; SETGATE T_DBLFLT false 0;
    SETGATE T_TSS false 0; SETGATE T_SEGNP false 0; SETGATE T_STACK false 0;
    SETGATE T_GPFLT false 0; SETGATE T_PGFLT false 0; SETGATE T_FPERR false 0;
    SETGATE T_ALIGN false 0; SETGATE T_MCHK false 0; SETGATE T_SIMDERR false 0;
    SETGATE T_SYSCALL false 3 ] ++
  ((λ n, SETGATE (IRQ_OFFSET + n) false 0) <$>
     [ IRQ_TIMER; IRQ_KBD; 2; 3; IRQ_SERIAL; 5; 6; IRQ_SPURIOUS;
       8; 9; 10; 11; 12; 13; IRQ_IDE; 15; IRQ_ERROR ]).

(** [idt[vector]], for the vectors that are set. *)
Definition idt (vector : Z) : option gate :=
  snd <$> list_find (λ g, gd_vector g = vector) trap_init.

(** The flags the kernel runs with after entering through a gate: an interrupt
    gate clears [FL_IF], a trap gate does not. *)
Definition entry_eflags (tf : Trapframe) (g : gate) : Z :=
  if gd_istrap g then tf_eflags tf else Z.land (tf_eflags tf) (Z.lnot FL_IF).

Definition trap_init_percpu : K unit :=
  n ← gets cpunum;
  upd_cpu (set_cpu_ts_esp0 (u32 (KSTACKTOP - n * (KSTKSIZE + KSTKGAP)))).

(** ** Trap frames *)

Inductive tf_ptr : Type :=
  | OnStack (tf : Trapframe)   (** the frame the processor pushed *)
  | EnvTf (e : Z).             (** [&envs[e].env_tf] *)

Definition tf_get (p : tf_ptr) : K Trapframe :=
  match p with
  | OnStack tf => mret tf
  | EnvTf e => v ← get_env e; mret (env_tf v)
  end.

(** [tf->tf_regs.reg_eax = r]; the frame on the stack is not looked at again. *)
Definition tf_put_eax (p : tf_ptr) (r : Z) : K unit :=
  match p with
  | OnStack _ => mret tt
  | EnvTf e => upd_env e (λ v, set_env_tf (set_tf_eax r (env_tf v)) v)
  end.

(** ** Page faults *)

(** [sizeof(struct UTrapframe)] *)
Definition UTRAPFRAME_SIZE : Z := 52.

(** Where the frame goes: below the trap-time stack pointer and one word of
    scratch space when the fault happened on the exception stack, else at its
    top. *)
Definition utf_addr (esp : Z) : Z :=
  if (esp <? UXSTACKTOP) && (UXSTACKTOP - PGSIZE <? esp)
  then u32 (esp - 4 - UTRAPFRAME_SIZE)
  else UXSTACKTOP - UTRAPFRAME_SIZE.

(** The words of [struct PushRegs] and of [struct UTrapframe], in order. *)
Definition regs_words (r : PushRegs) : list Z :=
  [reg_edi r; reg_esi r; reg_ebp r; reg_oesp r; reg_ebx r; reg_edx r; reg_ecx r; reg_eax r].

Definition utf_words (fault_va : Z) (tf : Trapframe) : list Z :=
  [fault_va; tf_err tf] ++ regs_words (tf_regs tf) ++ [tf_eip tf; tf_eflags tf; tf_esp tf].

(** Consecutive words stored from [va] on. *)
Fixpoint vstore_words (va : Z) (ws : list Z) : K unit :=
  match ws with
  | [] => mret tt
  | w :: ws' => vstore32 va w;; vstore_words (u32 (va + 4)) ws'
  end.

(** The assignments to [*utf] read [*tf], which no store to user memory
    touches, and go to increasing addresses. *)
Definition page_fault_handler (p : tf_ptr) : K unit :=
  fault_va ← gets cr2;
  tf ← tf_get p;
  if Z.land (tf_cs tf) 3 =? 0 then panic "tarp->page_fault_handler: kernel-mode page faults"
  else
    c ← the_curenv;
    v ← get_env c;
    (if negb (env_pgfault_upcall v =? 0) then
       let utf := utf_addr (tf_esp tf) in
       user_mem_assert c utf UTRAPFRAME_SIZE PTE_W;;
       vstore_words utf (utf_words fault_va tf);;
       upd_env c (λ v, set_env_tf (set_tf_eip (env_pgfault_upcall v) (env_tf v)) v);;
       upd_env c (λ v, set_env_tf (set_tf_esp utf (env_tf v)) v);;
       f ← env_run c; match (f : False) with end
     else mret tt);;
    c ← the_curenv;
    env_destroy c.

(** ** Dispatch *)

Definition console_intr (intr : console → option console) : K unit :=
  st ← gets kcons;
  match intr st with
  | None => stop OutOfFuel
  | Some st' => modify (set_kcons st')
  end.

Definition trap_dispatch (p : tf_ptr) : K unit :=
  tf ← tf_get p;
  let no := tf_trapno tf in
  let regs := tf_regs tf in
  if no =? T_PGFLT then page_fault_handler p
  else if no =? T_BRKPT then stop Monitor
  else if no =? T_SYSCALL then
    r ← syscall (reg_eax regs) (reg_edx regs) (reg_ecx regs) (reg_ebx regs) (reg_edi regs) (reg_esi regs);
    tf_put_eax p (u32 r)
  else if no =? IRQ_OFFSET + IRQ_SPURIOUS then mret tt
  else if no =? IRQ_OFFSET + IRQ_TIMER then
    n ← gets cpunum;
    (if n =? 0 then time_tick else mret tt);;
    f ← sched_yield; match (f : False) with end
  else if no =? IRQ_OFFSET + IRQ_KBD then console_intr kbd_intr
  else if no =? IRQ_OFFSET + IRQ_SERIAL then console_intr serial_intr
  else if tf_cs tf =? GD_KT then panic "unhandled trap in kernel"
  else c ← the_curenv; env_destroy c.

Definition trap (tf : Trapframe) : K False :=
  dead ← gets panicstr;
  if (dead : bool) then stop CpuHalt
  else
    cpu ← thiscpu;
    upd_cpu (set_cpu_status CPU_STARTED);;
    (if bool_decide (cpu_status cpu = CPU_HALTED) then lock_kernel else mret tt);;
    g ← the (idt (tf_trapno tf));
    (if negb (Z.land (entry_eflags tf g) FL_IF =? 0)
     then panic "assertion failed: !(read_eflags() & FL_IF)" else mret tt);;
    p ← (if Z.land (tf_cs tf) 3 =? 3 then
           lock_kernel;;
           cur ← curenv;
           match cur with
           | None => panic "assertion failed: curenv"
           | Some c =>
             v ← get_env c;
             (if is_status ENV_DYING v then
                env_free c;;
                set_curenv None;;
                f ← sched_yield; match (f : False) with end
              else mret tt);;
             c ← the_curenv;
             upd_env c (set_env_tf tf);;
             mret (EnvTf c)
           end
         else mret (OnStack tf));
    trap_dispatch p;;
    cur ← curenv;
    match cur with
    | None => sched_yield
    | Some c =>
      v ← get_env c;
      if is_status ENV_RUNNING v then env_run c else sched_yield
    end.

(** ** Stores to a user page *)

Lemma land_sub t a b : Z.land t a = a → Z.land a b = b → Z.land t b = b.
Proof. intros Ha Hb. rewrite <- Hb at 1. by rewrite Z.land_assoc, Ha. Qed.

Lemma land_lnot_sub t a : Z.land t a = a → Z.land (Z.lnot t) a = 0.
Proof. intros Ha. rewrite <- Ha. by rewrite Z.land_assoc, (Z.land_comm (Z.lnot t)), Z.land_lnot_diag. Qed.

(** The page at [va] is mapped by [t], writable, from a writable 4 KB
    directory entry. *)
Definition user_writable (s : kstate) (pd va t : Z) : Prop :=
  translate s pd va = Some t ∧ Z.land t (Z.lor PTE_W PTE_U) = Z.lor PTE_W PTE_U ∧
  Z.land (entry s pd (PDX va)) (Z.lor PTE_PS PTE_W) = PTE_W.

(** Whatever frame [f] holds, [va] translates to it. *)
Definition stores_to (s : kstate) (va f : Z) : Prop :=
  ∀ m a, (∀ x, ¬ f * 4096 <= x < f * 4096 + 4096 → m x = mem s x) → PGNUM a = PGNUM va →
    hw_translate true a (set_mem m s) = (Ret (f * 4096 + PGOFF a), set_mem m s).

Lemma same_page a b : PGNUM a = PGNUM b → PDX a = PDX b ∧ PTX a = PTX b.
Proof. rewrite !PGNUM_div, !PDX_div, !PTX_div. Z.to_euclidean_division_equations. lia. Qed.

Lemma user_stores_to s pds fl pd va t :
  vm_ok s pds fl → pd ∈ pds → cr3 s = pd * 4096 → 0 <= va < UTOP → user_writable s pd va t →
  stores_to s va (PGNUM t).
Proof.
  intros Hvm Hpd Hcr Hva (Ht & Hw & Hd) m a Hm Ha.
  assert (Hsl : (pd, PDX va, PTX va) ∈ slots pds) by (by eapply vm_user_slot).
  destruct (vm_data _ _ _ Hvm _ t Hsl Ht) as (_ & Hnpd & Hnpt).
  destruct (translate_present s pd va t Ht) as (Hp & Heq & Hpt).
  assert (Hf1 : pd ≠ PGNUM t) by congruence.
  assert (Hf2 : PGNUM (entry s pd (PDX va)) ≠ PGNUM t).
  { intros E. apply Hnpt. exists pd, (PDX va). split_and!; try done. by apply user_uidx. }
  destruct (same_page a va Ha) as [Hx Hy].
  assert (He1 : entry (set_mem m s) pd (PDX va) = entry s pd (PDX va))
    by (apply (entry_other_frame s m (PGNUM t)); [done|apply PDX_range|done]).
  assert (He2 : entry (set_mem m s) (PGNUM (entry s pd (PDX va))) (PTX va) = t)
    by (rewrite Heq; apply (entry_other_frame s m (PGNUM t)); [congruence|apply PTX_range|done]).
  assert (HaU : a < KERNBASE).
  { revert Ha Hva. rewrite !PGNUM_div. unfold UTOP, UENVS, UPAGES, UVPT, ULIM, MMIOBASE, MMIOLIM, KSTACKTOP, KERNBASE, PTSIZE, PGSIZE, NPTENTRIES.
    Z.to_euclidean_division_equations. lia. }
  unfold hw_translate. replace (KERNBASE <=? a) with false by lia. msimpl.
  cbn [cr3 set_mem]. rewrite Hcr, Hx, Hy.
  change (ld32 (mem (set_mem m s)) (pd * 4096 + 4 * PDX va)) with (entry (set_mem m s) pd (PDX va)). rewrite He1.
  rewrite PTE_ADDR_div, (Z.mul_comm 4096), <- PGNUM_div.
  change (ld32 (mem (set_mem m s)) (?g * 4096 + 4 * ?i)) with (entry (set_mem m s) g i). rewrite He2.
  revert Hp Hpt. unfold present. rewrite !negb_true_iff. intros -> ->.
  rewrite (land_sub _ _ PTE_W Hw) by done.
  assert (Z.land (entry s pd (PDX va)) PTE_W = PTE_W) as ->.
  { change PTE_W with (Z.land (Z.lor PTE_PS PTE_W) PTE_W) at 1. by rewrite Z.land_assoc, Hd. }
  assert (Z.land (entry s pd (PDX va)) PTE_PS = 0) as ->.
  { change PTE_PS with (Z.land (Z.lor PTE_PS PTE_W) PTE_PS) at 1. by rewrite Z.land_assoc, Hd. }
  cbn. by rewrite PTE_ADDR_div, (Z.mul_comm 4096), <- PGNUM_div.
Qed.

(** Words in memory. *)
Fixpoint st32s (m : memory) (a : Z) (ws : list Z) : memory :=
  match ws with
  | [] => m
  | w :: ws' => st32s (st32 m a w) (a + 4) ws'
  end.

Lemma st32s_other m a ws x : x < a ∨ a + 4 * Z.of_nat (length ws) <= x → st32s m a ws x = m x.
Proof.
  revert m a. induction ws as [|w ws IH]; intros m a Hx; cbn [st32s length] in *; [done|].
  rewrite IH by lia. apply st32_other_byte. lia.
Qed.

Lemma st32s_lookup m a ws i w :
  ws !! i = Some w → is_u32 w → ld32 (st32s m a ws) (a + 4 * Z.of_nat i) = w.
Proof.
  revert m a i. induction ws as [|w0 ws IH]; intros m a i Hi Hw; [done|].
  destruct i as [|i]; cbn [st32s].
  - injection Hi as ->. rewrite Z.mul_0_r, Z.add_0_r.
    transitivity (ld32 (st32 m a w) a); [|by apply ld32_st32_same].
    apply ld32_ext. intros. apply st32s_other. lia.
  - replace (a + 4 * Z.of_nat (S i)) with (a + 4 + 4 * Z.of_nat i) by lia. by apply IH.
Qed.

Lemma st32s_ok m a ws : mem_ok m → mem_ok (st32s m a ws).
Proof. revert m a. induction ws; intros; [done|]. by apply IHws, st32_ok. Qed.

Lemma PGOFF_add va k : 0 <= k → PGOFF va + k < 4096 → PGNUM (va + k) = PGNUM va ∧ PGOFF (va + k) = PGOFF va + k.
Proof. rewrite !PGNUM_div, !PGOFF_mod. Z.to_euclidean_division_equations. lia. Qed.

Section store.
Context (s : kstate) (va f : Z).
Hypothesis Hst : stores_to s va f.

Definition agrees (m : memory) : Prop := ∀ x, ¬ f * 4096 <= x < f * 4096 + 4096 → m x = mem s x.

Lemma vstore8_page m a v :
  agrees m → PGNUM a = PGNUM va →
  vstore8 a v (set_mem m s) = (Ret tt, set_mem (st8 m (f * 4096 + PGOFF a) v) s) ∧
  agrees (st8 m (f * 4096 + PGOFF a) v).
Proof using Hst.
  intros Hm Ha. split.
  - unfold vstore8. mrun (by apply Hst). done.
  - intros x Hx. unfold st8. destruct (Z.eqb_spec x (f * 4096 + PGOFF a)) as [->|]; [|by apply Hm].
    exfalso. apply Hx. rewrite PGOFF_mod. Z.to_euclidean_division_equations. lia.
Qed.

Lemma vstore32_page m a v :
  agrees m → PGNUM a = PGNUM va → 0 <= a < 2 ^ 32 - 4 → PGOFF a + 4 <= 4096 →
  vstore32 a v (set_mem m s) = (Ret tt, set_mem (st32 m (f * 4096 + PGOFF a) v) s) ∧
  agrees (st32 m (f * 4096 + PGOFF a) v).
Proof using Hst.
  intros Hm Ha Hr Ho.
  destruct (PGOFF_add a 1) as [N1 O1]; [lia..|]. destruct (PGOFF_add a 2) as [N2 O2]; [lia..|].
  destruct (PGOFF_add a 3) as [N3 O3]; [lia..|].
  destruct (vstore8_page m a v Hm Ha) as [R0 A0].
  destruct (vstore8_page _ (a + 1) (Z.shiftr v 8) A0) as [R1 A1]; [congruence|].
  destruct (vstore8_page _ (a + 2) (Z.shiftr v 16) A1) as [R2 A2]; [congruence|].
  destruct (vstore8_page _ (a + 3) (Z.shiftr (Z.shiftr v 16) 8) A2) as [R3 A3]; [congruence|].
  rewrite O1, O2, O3, !Z.add_assoc in *. rewrite Z.shiftr_shiftr in * by lia. change (16 + 8) with 24 in *.
  split; [|exact A3]. unfold vstore32, vstore16.
  rewrite (u32_small (a + 1)), (u32_small (a + 2)), (u32_small (a + 2 + 1)) by lia. replace (a + 2 + 1) with (a + 3) by lia.
  rewrite Z.shiftr_shiftr by lia. change (16 + 8) with 24.
  erewrite bind_Ret by (mrun (exact R0); exact R1). mrun (exact R2). exact R3.
Qed.

Lemma vstore_words_page ws : ∀ m a,
  agrees m → PGNUM a = PGNUM va → 0 <= a < 2 ^ 32 - 4096 → PGOFF a + 4 * Z.of_nat (length ws) <= 4096 →
  vstore_words a ws (set_mem m s) = (Ret tt, set_mem (st32s m (f * 4096 + PGOFF a) ws) s).
Proof using Hst.
  induction ws as [|w ws IH]; intros m a Hm Ha Hr Ho; cbn [vstore_words st32s length] in *; [done|].
  destruct (vstore32_page m a w) as [R A]; [done|done|lia|lia|]. mrun (exact R).
  rewrite u32_small by lia. destruct ws as [|w' ws]; [done|]. cbn [length] in *.
  destruct (PGOFF_add a 4) as [N O]; [lia..|].
  rewrite IH, O, Z.add_assoc; [done|done|congruence| |lia].
  revert N Ha Hr. rewrite !PGNUM_div. Z.to_euclidean_division_equations. lia.
Qed.

End store.

(** ** Page faults *)

Lemma ROUNDUP_in_page va k : 0 <= va → 0 < k → PGOFF va + k <= 4096 → va + k < 2 ^ 32 - 4096 →
  ROUNDUP (u32 (va + k)) PGSIZE = (PGNUM va + 1) * 4096.
Proof.
  intros Hva Hk Ho Hr. rewrite u32_small by lia. unfold PGSIZE. rewrite ROUNDUP_unfold by (unfold is_u32; lia).
  revert Ho. rewrite PGNUM_div, PGOFF_mod. Z.to_euclidean_division_equations. lia.
Qed.

(** A range inside one page that is mapped with the permissions asked for. *)
Lemma user_mem_check_page s pds fl pd va len perm t :
  vm_ok s pds fl → pd ∈ pds → 0 <= va < UTOP → 0 < len → PGOFF va + len <= 4096 →
  translate s pd va = Some t → Z.land t perm = perm →
  user_mem_check (kaddr pd) va len perm s = (Ret 0, s).
Proof.
  intros Hvm Hpd Hva Hl Ho Ht Hp. assert (HU : UTOP < ULIM ∧ UTOP < 2 ^ 32 - 2 * 4096) by (split; reflexivity).
  assert (va + len < 2 ^ 32 - 4096) by (rewrite PGOFF_mod in Ho; Z.to_euclidean_division_equations; lia).
  unfold user_mem_check. rewrite ROUNDUP_in_page by lia.
  replace (Z.to_nat (PGNUM ((PGNUM va + 1) * 4096) - PGNUM va)) with 1%nat
    by (rewrite (PGNUM_div ((_ + 1) * _)), Z.div_mul by lia; lia).
  destruct (translate_present s pd va t Ht) as (Hpr & Heq & _).
  assert (Hlt : va < (PGNUM va + 1) * 4096 <= va + 4096)
    by (rewrite PGNUM_div; Z.to_euclidean_division_equations; lia).
  cbn [user_mem_check_loop]. replace (va <? (PGNUM va + 1) * 4096) with true by lia.
  mrun (by eapply walk_user_present). mrun (apply kload_entry). rewrite <- Heq.
  rewrite land_lnot_sub by done. change (u32 0) with 0. cbn [Z.eqb negb orb].
  replace (ULIM <=? va) with false by lia.
  assert (HR : ROUNDUP (va + 1) PGSIZE = (PGNUM va + 1) * 4096).
  { rewrite <- (ROUNDUP_in_page va 1) by lia. by rewrite u32_small by lia. }
  rewrite HR. by rewrite Z.ltb_irrefl.
Qed.

(** A frame that stays on the exception stack's page. *)
(** The frame lies below the interrupted handler's stack and a scratch word, or
    at the top of an unused exception stack. *)
Lemma utf_addr_spec esp :
  (UXSTACKTOP - PGSIZE < esp < UXSTACKTOP → utf_addr esp + UTRAPFRAME_SIZE + 4 = esp) ∧
  (¬ UXSTACKTOP - PGSIZE < esp < UXSTACKTOP → utf_addr esp + UTRAPFRAME_SIZE = UXSTACKTOP).
Proof.
  unfold utf_addr. split; intros H.
  - replace ((esp <? UXSTACKTOP) && (UXSTACKTOP - PGSIZE <? esp)) with true by lia.
    change UXSTACKTOP with 0xEEC00000 in *. unfold PGSIZE, UTRAPFRAME_SIZE in *. rewrite u32_small; lia.
  - replace ((esp <? UXSTACKTOP) && (UXSTACKTOP - PGSIZE <? esp)) with false by lia. lia.
Qed.

Lemma utf_addr_page esp :
  UXSTACKTOP - PGSIZE <= utf_addr esp → is_u32 esp →
  PGNUM (utf_addr esp) = PGNUM (UXSTACKTOP - PGSIZE) ∧ PGOFF (utf_addr esp) + UTRAPFRAME_SIZE <= 4096 ∧
  0 <= utf_addr esp < UTOP.
Proof.
  unfold is_u32. intros H He. assert (Hb : UXSTACKTOP - PGSIZE <= utf_addr esp <= UXSTACKTOP - UTRAPFRAME_SIZE).
  { split; [done|]. unfold utf_addr in *. destruct (Z.ltb_spec esp UXSTACKTOP); [|done].
    destruct (Z.ltb_spec (UXSTACKTOP - PGSIZE) esp); [|done]. cbn [andb] in *.
    assert (UXSTACKTOP - PGSIZE = 4005556224) as E1 by reflexivity.
    unfold UTRAPFRAME_SIZE, PGSIZE in *. rewrite u32_small by lia. lia. }
  revert Hb. generalize (utf_addr esp). intros a. rewrite !PGNUM_div, PGOFF_mod.
  change UXSTACKTOP with 4005560320. change UTOP with 4005560320. unfold PGSIZE, UTRAPFRAME_SIZE. intros Hb.
  Z.to_euclidean_division_equations. lia.
Qed.

Lemma env_run_current s c v :
  holding (cpunum s) (kernel_lock s) = true → curenv_of s = Some c → envs s !! c = Some v →
  env_run c s = (Stop (RunEnv c), set_envs (<[c := set_env_cpunum (cpunum s) v]> (envs s))
                                    (set_kernel_lock (mkSpinlock 0 None) s)).
Proof.
  intros Hl Hc Hv. unfold env_run, curenv. rewrite bind_gets, Hc.
  rewrite bool_decide_eq_false_2 by tauto. rewrite bind_ret, leave_kernel by (done || by rewrite Hv).
  by rewrite (alter_lookup_Some _ _ _ v).
Qed.

(** The environment about to run its page-fault upcall on the frame [utf]. *)
Definition upcalled (utf : Z) (v : Env) : Env :=
  set_env_tf (set_tf_esp utf (set_tf_eip (env_pgfault_upcall v) (env_tf v))) v.

Lemma pte_of_same_mem s s' y : mem s' = mem s → pte_of s' y = pte_of s y.
Proof. intros H. unfold pte_of, lookup_pte. by rewrite !(entry_mem s' s). Qed.

Lemma vm_ok_user_page s pds fl pd va t m :
  vm_ok s pds fl → pd ∈ pds → 0 <= va < UTOP → translate s pd va = Some t → mem_ok m →
  (∀ x, ¬ PGNUM t * 4096 <= x < PGNUM t * 4096 + 4096 → m x = mem s x) →
  vm_ok (set_mem m s) pds fl ∧ ∀ y, y ∈ slots pds → pte_of (set_mem m s) y = pte_of s y.
Proof.
  intros Hvm Hpd Hva Ht Hm Hx.
  assert (Hsl : (pd, PDX va, PTX va) ∈ slots pds) by (by eapply vm_user_slot).
  destruct (vm_data _ _ _ Hvm _ t Hsl Ht) as (_ & Hnpd & Hnpt).
  destruct (vm_ok_same_tables s (set_mem m s) pds fl fl Hvm) as (? & ? & _); try done.
  - by destruct (vm_phys _ _ _ Hvm).
  - apply Hvm.
  - intros f i Hf Hi. apply (entry_other_frame s m (PGNUM t)); [|done|done]. by intros ->; destruct Hf.
  - intros p Hp. by eapply free_not_table.
  - apply Hvm.
Qed.

(** C7: user page faults.  A fault in kernel mode panics.  A fault of an
    environment without an upcall, or whose exception stack fails the check,
    destroys it.  Otherwise, when the frame fits on the exception stack's page,
    the frame [lib/pfentry.S] expects (fault address, error code, registers,
    [eip], [eflags], [esp]) is written there, below the interrupted handler's
    stack and a scratch word if the fault is recursive, no other byte of memory
    and no mapping changes, and the environment continues in its upcall with
    the stack pointer at the frame.  The last two clauses say where that is. *)
Theorem page_fault_handler_correct s pds fl c v pd t :
  let tf := env_tf v in
  let utf := utf_addr (tf_esp tf) in
  let pa := PGNUM t * 4096 + PGOFF utf in
  kernel_ok s pds fl → holding (cpunum s) (kernel_lock s) = true → curenv_of s = Some c →
  envs s !! c = Some v → env_pgdir v = kaddr pd → pd ∈ pds → cr3 s = pd * 4096 → is_u32 (tf_esp tf) →
  (Z.land (tf_cs tf) 3 = 0 → ∃ msg, page_fault_handler (EnvTf c) s = (Stop (Panic msg), s)) ∧
  (Z.land (tf_cs tf) 3 ≠ 0 → env_pgfault_upcall v = 0 → page_fault_handler (EnvTf c) s = env_destroy c s) ∧
  (Z.land (tf_cs tf) 3 ≠ 0 → env_pgfault_upcall v ≠ 0 →
   ∀ r s1 st s', user_mem_check (env_pgdir v) utf UTRAPFRAME_SIZE (Z.lor PTE_W PTE_U) s = (Ret r, s1) → r < 0 →
     env_destroy c s1 = (Stop st, s') → page_fault_handler (EnvTf c) s = (Stop st, s')) ∧
  (Z.land (tf_cs tf) 3 ≠ 0 → env_pgfault_upcall v ≠ 0 → UXSTACKTOP - PGSIZE <= utf → user_writable s pd utf t →
   ∃ s', page_fault_handler (EnvTf c) s = (Stop (RunEnv c), s') ∧ kernel_lock s' = mkSpinlock 0 None ∧
     envs s' = <[c := set_env_cpunum (cpunum s) (upcalled utf v)]> (envs s) ∧
     (∀ i w, utf_words (cr2 s) tf !! i = Some w → is_u32 w → ld32 (mem s') (pa + 4 * Z.of_nat i) = w) ∧
     (∀ x, ¬ pa <= x < pa + UTRAPFRAME_SIZE → mem s' x = mem s x) ∧
     vm_ok s' pds fl ∧ ∀ y, y ∈ slots pds → pte_of s' y = pte_of s y) ∧
  (UXSTACKTOP - PGSIZE < tf_esp tf < UXSTACKTOP → utf + UTRAPFRAME_SIZE + 4 = tf_esp tf) ∧
  (¬ UXSTACKTOP - PGSIZE < tf_esp tf < UXSTACKTOP → utf + UTRAPFRAME_SIZE = UXSTACKTOP).
Proof.
  intros tf utf pa Hko Hl Hc Hv Hd Hpd Hcr Hesp.
  assert (Hcur : the_curenv s = (Ret c, s)) by (unfold the_curenv, curenv; rewrite bind_gets, Hc; done).
  assert (Hhead : ∀ A (k : Z → Trapframe → K A),
    (fault_va ← gets cr2; tf ← tf_get (EnvTf c); k fault_va tf) s = k (cr2 s) tf s).
  { intros A k. rewrite bind_gets. unfold tf_get. mrun (mrun (by apply get_env_eq); reflexivity). done. }
  unfold page_fault_handler. rewrite Hhead. split_and!; [| | | |apply utf_addr_spec..].
  - intros ->. by eexists.
  - intros Hu H0. destruct (Z.eqb_spec (Z.land (tf_cs tf) 3) 0); [done|].
    mrun (exact Hcur). mrun (by apply get_env_eq). rewrite H0. cbn [Z.eqb negb]. rewrite bind_ret. by mrun (exact Hcur).
  - intros Hu H0 r s1 st s' Hchk Hr Hdes. destruct (Z.eqb_spec (Z.land (tf_cs tf) 3) 0); [done|].
    mrun (exact Hcur). mrun (by apply get_env_eq). destruct (Z.eqb_spec (env_pgfault_upcall v) 0); [done|].
    cbn [negb]. cbv zeta. do 2 apply bind_Stop. unfold user_mem_assert. mrun (by apply get_env_eq).
    mrun (exact Hchk). replace (r <? 0) with true by lia. done.
  - intros Hu H0 Hin Hw. destruct (Z.eqb_spec (Z.land (tf_cs tf) 3) 0); [done|].
    mrun (exact Hcur). mrun (by apply get_env_eq). destruct (Z.eqb_spec (env_pgfault_upcall v) 0); [done|].
    cbn [negb]. cbv zeta. fold utf.
    destruct (utf_addr_page _ Hin Hesp) as (_ & Ho & Hva). fold utf in Ho, Hva.
    pose proof (user_stores_to s pds fl pd utf t (ko_vm _ _ _ Hko) Hpd Hcr Hva Hw) as Hst.
    destruct Hw as (Ht & Hw & _).
    set (m := st32s (mem s) pa (utf_words (cr2 s) tf)).
    assert (Hrun : vstore_words utf (utf_words (cr2 s) tf) s = (Ret tt, set_mem m s)).
    { transitivity (vstore_words utf (utf_words (cr2 s) tf) (set_mem (mem s) s)); [f_equal; by destruct s|].
      apply (vstore_words_page s utf (PGNUM t) Hst); [done|done| |exact Ho].
      split; [lia|]. assert (UTOP < 2 ^ 32 - 4096) by reflexivity. lia. }
    destruct (vm_ok_user_page s pds fl pd utf t m (ko_vm _ _ _ Hko) Hpd Hva Ht) as [Hvm' Hpte].
    { apply st32s_ok, (ko_vm _ _ _ Hko). }
    { intros x Hx. apply st32s_other. revert Hx. unfold pa. rewrite PGOFF_mod in *.
      change (Z.of_nat (length _)) with 13. unfold UTRAPFRAME_SIZE in Ho. Z.to_euclidean_division_equations. lia. }
    eexists. split; [|split; [|split; [|split; [|split; [|split]]]]].
    + apply bind_Stop. erewrite bind_Ret.
      2: { unfold user_mem_assert. mrun (by apply get_env_eq). rewrite Hd.
           mrun (eapply user_mem_check_page; try done; apply Hko). done. }
      mrun (exact Hrun). mrun (by apply upd_env_eq). mrun (by apply upd_env_eq, lookup_insert_eq).
      apply bind_Stop, env_run_current; [done|done|]. cbn. by rewrite lookup_insert_eq.
    + done.
    + cbn. by rewrite !insert_insert_eq.
    + intros i w Hi Hwu. by apply (st32s_lookup (mem s) pa (utf_words (cr2 s) tf)).
    + intros x Hx. apply st32s_other. change (Z.of_nat (length _)) with 13. unfold UTRAPFRAME_SIZE in Hx. lia.
    + by apply (vm_ok_other_fields (set_mem m s)).
    + intros y Hy. rewrite <- (Hpte y Hy). by apply pte_of_same_mem.
Qed.

(** ** System calls *)

(** The kernel entered from user mode, about to dispatch: the frame is saved
    in the current environment and the kernel lock is held. *)
Definition entered (c : Z) (tf : Trapframe) (v : Env) (ci : CpuInfo) (s : kstate) : kstate :=
  set_envs (<[c := set_env_tf tf v]> (envs s))
    (set_kernel_lock (mkSpinlock 1 (Some (cpunum s)))
      (set_cpus (<[cpunum s := set_cpu_status CPU_STARTED ci]> (cpus s)) s)).

Lemma idt_interrupt_gates n g : idt n = Some g → gd_istrap g = false.
Proof.
  unfold idt. intros H. apply fmap_Some in H as ([k g'] & H & ->). apply list_find_Some in H as (H & _).
  assert (Hall : Forall (λ g, gd_istrap g = false) trap_init) by (repeat constructor).
  rewrite Forall_lookup in Hall. exact (Hall _ _ H).
Qed.

(** Entering from user mode, whatever the trap. *)
Lemma trap_user s c v ci tf g :
  panicstr s = false → cpus s !! cpunum s = Some ci → cpu_status ci = CPU_STARTED → cpu_env ci = Some c →
  lk_locked (kernel_lock s) = 0 → envs s !! c = Some v → env_status v ≠ ENV_DYING →
  idt (tf_trapno tf) = Some g → Z.land (tf_cs tf) 3 = 3 →
  trap tf s =
    (trap_dispatch (EnvTf c);;
     cur ← curenv;
     match cur with
     | None => sched_yield
     | Some c => v ← get_env c; if is_status ENV_RUNNING v then env_run c else sched_yield
     end) (entered c tf v ci s).
Proof.
  intros Hp Hci Hst Hce Hlk Hv Hdy Hg Hcs. unfold trap. rewrite bind_gets, Hp.
  mrun (unfold thiscpu; msimpl; rewrite Hci; reflexivity).
  mrun (unfold upd_cpu, thiscpu; msimpl; rewrite Hci; reflexivity).
  rewrite Hst. cbn [bool_decide decide_rel]. rewrite bool_decide_eq_false_2 by done. rewrite bind_ret, Hg.
  mrun reflexivity.
  unfold entry_eflags. rewrite (idt_interrupt_gates _ _ Hg).
  rewrite <- Z.land_assoc, (Z.land_comm (Z.lnot FL_IF)), Z.land_lnot_diag, Z.land_0_r. cbn [Z.eqb negb].
  rewrite bind_ret, Hcs. cbn [Z.eqb Pos.eqb].
  set (s1 := set_cpus _ s).
  assert (Hcur : ∀ k, curenv_of (set_kernel_lock k s1) = Some c).
  { intros k. unfold curenv_of. cbn. by rewrite lookup_insert_eq. }
  erewrite bind_Ret; [reflexivity|].
  mrun (unfold lock_kernel, spin_lock; msimpl; unfold holding; cbn [kernel_lock set_cpus s1]; rewrite Hlk; reflexivity).
  unfold curenv at 1. rewrite bind_gets, Hcur. mrun (by apply get_env_eq).
  unfold is_status. rewrite bool_decide_eq_false_2 by done. rewrite bind_ret.
  mrun (unfold the_curenv, curenv; rewrite bind_gets, Hcur; reflexivity).
  mrun (by apply upd_env_eq). reflexivity.
Qed.

Lemma unmoved_cur c tf v ci s s1 :
  cpu_env ci = Some c → unmoved (entered c tf v ci s) s1 →
  curenv_of s1 = Some c ∧ cpunum s1 = cpunum s ∧ holding (cpunum s1) (kernel_lock s1) = true ∧ is_Some (envs s1 !! c).
Proof.
  intros Hce (H1 & H2 & H3 & H4). cbn in H1, H2, H3. unfold curenv_of. rewrite H1, H2, H3. cbn.
  rewrite lookup_insert_eq. split_and!; [exact Hce|done|by unfold holding; cbn; rewrite bool_decide_eq_true_2|].
  apply H4. cbn. by rewrite lookup_insert_eq.
Qed.

Lemma trap_syscall_spec s c v ci tf :
  panicstr s = false → cpus s !! cpunum s = Some ci → cpu_status ci = CPU_STARTED → cpu_env ci = Some c →
  lk_locked (kernel_lock s) = 0 → envs s !! c = Some v → env_status v ≠ ENV_DYING →
  tf_trapno tf = T_SYSCALL → Z.land (tf_cs tf) 3 = 3 →
  let g := tf_regs tf in
  match syscall (reg_eax g) (reg_edx g) (reg_ecx g) (reg_ebx g) (reg_edi g) (reg_esi g) (entered c tf v ci s) with
  | (Stop st, s1) => trap tf s = (Stop st, s1)
  | (Ret r, s1) =>
    ∃ v1, envs s1 !! c = Some v1 ∧ curenv_of s1 = Some c ∧
    let v2 := set_env_tf (set_tf_eax (u32 r) (env_tf v1)) v1 in
    trap tf s =
      if is_status ENV_RUNNING v1
      then (Stop (RunEnv c), set_envs (<[c := set_env_cpunum (cpunum s) v2]> (envs s1)) (set_kernel_lock (mkSpinlock 0 None) s1))
      else sched_yield (set_envs (<[c := v2]> (envs s1)) s1)
  end.
Proof.
  intros Hp Hci Hst Hce Hlk Hv Hdy Hno Hcs g.
  rewrite (trap_user s c v ci tf (SETGATE T_SYSCALL false 3)) by (done || by rewrite Hno).
  assert (Hd : trap_dispatch (EnvTf c) (entered c tf v ci s) =
    (r ← syscall (reg_eax g) (reg_edx g) (reg_ecx g) (reg_ebx g) (reg_edi g) (reg_esi g); tf_put_eax (EnvTf c) (u32 r)) (entered c tf v ci s)).
  { unfold trap_dispatch. mrun (unfold tf_get; mrun (apply get_env_eq, lookup_insert_eq); reflexivity).
    cbn [env_tf set_env_tf]. by rewrite Hno. }
  pose proof (stays_syscall (reg_eax g) (reg_edx g) (reg_ecx g) (reg_ebx g) (reg_edi g) (reg_esi g) (entered c tf v ci s)) as Hstay.
  destruct (syscall _ _ _ _ _ _ _) as [[r|st] s1] eqn:Hsys.
  2: { rewrite (bind_Stop _ _ _ st s1); [done|]. rewrite Hd. by rewrite (bind_Stop _ _ _ _ _ Hsys). }
  destruct (unmoved_cur c tf v ci s s1 Hce (Hstay r s1 eq_refl)) as (Hc1 & Hn1 & Hl1 & v1 & Hv1).
  exists v1. split; [exact Hv1|]. split; [exact Hc1|]. cbv zeta.
  set (v2 := set_env_tf (set_tf_eax (u32 r) (env_tf v1)) v1).
  mrun (rewrite Hd; mrun (exact Hsys); exact (upd_env_eq s1 c v1 _ Hv1)).
  unfold curenv. rewrite bind_gets. change (curenv_of (set_envs _ s1)) with (curenv_of s1). rewrite Hc1.
  mrun (apply get_env_eq, lookup_insert_eq). change (is_status ENV_RUNNING (set_env_tf _ v1)) with (is_status ENV_RUNNING v1).
  destruct (is_status ENV_RUNNING v1) eqn:Hr; [|done].
  rewrite (env_run_current _ c v2) by (done || apply lookup_insert_eq). cbn. by rewrite insert_insert_eq, Hn1.
Qed.

(** C8: the system-call round trip.  A trap by [int $0x30] from user mode, by
    an environment that is not being destroyed, on a CPU that runs it and
    finds the kernel lock free, saves the caller's registers and calls
    [syscall] with the number in [eax] and the arguments in [edx], [ecx],
    [ebx], [edi] and [esi].  If that does not return, the trap ends as it does.
    If it returns, the caller is still the current environment, the result
    goes to [eax] of the frame the call has left in the caller's slot (the
    caller's own registers, unless the call replaced them), and then, if the
    call has left the caller running, the trap ends in the caller with the
    lock released, and otherwise in the scheduler. *)
Theorem trap_syscall_correct s c v ci tf :
  panicstr s = false → cpus s !! cpunum s = Some ci → cpu_status ci = CPU_STARTED → cpu_env ci = Some c →
  lk_locked (kernel_lock s) = 0 → envs s !! c = Some v → env_status v ≠ ENV_DYING →
  tf_trapno tf = T_SYSCALL → Z.land (tf_cs tf) 3 = 3 →
  let g := tf_regs tf in
  match syscall (reg_eax g) (reg_edx g) (reg_ecx g) (reg_ebx g) (reg_edi g) (reg_esi g) (entered c tf v ci s) with
  | (Stop st, s1) => trap tf s = (Stop st, s1)
  | (Ret r, s1) =>
    ∃ v1, envs s1 !! c = Some v1 ∧ curenv_of s1 = Some c ∧
    let v2 := set_env_tf (set_tf_eax (u32 r) (env_tf v1)) v1 in
    trap tf s =
      if is_status ENV_RUNNING v1
      then (Stop (RunEnv c), set_envs (<[c := set_env_cpunum (cpunum s) v2]> (envs s1)) (set_kernel_lock (mkSpinlock 0 None) s1))
      else sched_yield (set_envs (<[c := v2]> (envs s1)) s1)
  end.
Proof. exact (trap_syscall_spec s c v ci tf). Qed.
