(* ===== verification/KernelInv.v ===== *)
(** * The kernel as a whole

    What every trap preserves, whatever the user programs, their registers and
    their memory are.  [kernel_wf] is the type invariant of the kernel's data:
    memory holds bytes, reference counts are 16-bit, the environment table is
    complete, ids name their own slot, and every environment pointer the
    kernel keeps ([curenv] of each CPU, the free list and its links) points
    into the table.

    [safe m Q]: started in a well-formed state, [m] leaves a well-formed state
    on every way out, returns a value that satisfies [Q] if it returns, and if
    it leaves the kernel for environment [e] then this CPU has released the
    kernel lock and [e] is its current environment.  [safe] is closed under the
    monad, so the proofs follow the text of the functions ([kstep]). *)

From S2P Require Import Prelude Mmu Console KState Demo Lock PageAlloc PageTable AddrSpace PageInsert VmFrame VmDemo UserMem Env EnvSpace Sched Nic Syscall SyscallSpec SyscallDemo Trap.
Open Scope Z_scope.

Definition env_ptr (o : option Z) : Prop := ∀ e, o = Some e → 0 <= e < NENV.

Definition slot_ok (e : Z) (v : Env) : Prop :=
  0 <= e < NENV ∧ (env_id v = 0 ∨ 0 < env_id v < 2 ^ 31 ∧ ENVX (env_id v) = e) ∧ env_ptr (env_link v).

Record kernel_wf (s : kstate) : Prop := mk_kernel_wf {
  kw_mem : mem_ok (mem s);
  kw_refs : ∀ p pi, pages s !! p = Some pi → 0 <= pp_ref pi < 2 ^ 16;
  kw_table : env_table s;
  kw_envs : ∀ e v, envs s !! e = Some v → slot_ok e v;
  kw_free : env_ptr (env_free_list s);
  kw_cpus : ∀ c ci, cpus s !! c = Some ci → env_ptr (cpu_env ci);
}.

(** What must hold when the CPU leaves the kernel. *)
Definition exit_ok (st : stopped) (s : kstate) : Prop :=
  match st with
  | RunEnv e => kernel_lock s = mkSpinlock 0 None ∧ curenv_of s = Some e
  | _ => True
  end.

Definition safe {A} (m : K A) (Q : A → Prop) : Prop :=
  ∀ s, kernel_wf s →
    match m s with
    | (Ret a, s') => kernel_wf s' ∧ Q a
    | (Stop st, s') => kernel_wf s' ∧ exit_ok st s'
    end.

(** ** The monad *)

Section rules.
Context {A B : Type}.
Implicit Types (Q : A → Prop) (R : B → Prop).

Lemma safe_ret (a : A) Q : Q a → safe (mret a) Q.
Proof. by intros H s Hs. Qed.

Lemma safe_gets (f : kstate → A) Q : (∀ s, kernel_wf s → Q (f s)) → safe (gets f) Q.
Proof. intros H s Hs. split; [done|by apply H]. Qed.

Lemma safe_stop st Q : (∀ e, st ≠ RunEnv e) → safe (stop st) Q.
Proof. intros H s Hs. split; [done|]. by destruct st; try done; destruct (H e). Qed.

Lemma safe_bind (m : K A) (k : A → K B) Q R :
  safe m Q → (∀ a, Q a → safe (k a) R) → safe (mbind k m) R.
Proof.
  intros Hm Hk s Hs. specialize (Hm s Hs). unfold mbind, M_bind.
  destruct (m s) as [[a|st] s1]; [|done]. destruct Hm as [Hs1 Ha]. exact (Hk a Ha s1 Hs1).
Qed.

Lemma safe_True (m : K A) Q : safe m Q → safe m (λ _, True).
Proof. intros H s Hs. specialize (H s Hs). by destruct (m s) as [[a|st] s1]; destruct H. Qed.

End rules.

Lemma safe_modify (f : kstate → kstate) : (∀ s, kernel_wf s → kernel_wf (f s)) → safe (modify f) (λ _, True).
Proof. intros H s Hs. split; [by apply H|done]. Qed.

Lemma safe_mfor {X} (l : list X) (f : X → K unit) :
  (∀ x, safe (f x) (λ _, True)) → safe (mfor l f) (λ _, True).
Proof.
  intros Hf. induction l as [|x l IH]; cbn [mfor]; [by apply safe_ret|].
  eapply safe_bind; [apply Hf|by intros].
Qed.

(** A computation that never returns meets every postcondition. *)
Lemma safe_never (m : K False) Q : safe m (λ _, True) → safe m Q.
Proof. intros H s Hs. specialize (H s Hs). by destruct (m s) as [[[]|st] s1]. Qed.

(** ** The primitives *)

Lemma safe_the {A} (o : option A) : safe (the o) (λ a, o = Some a).
Proof. destruct o; [by apply safe_ret|by apply safe_stop]. Qed.

Lemma safe_panic {A} msg (Q : A → Prop) : safe (panic msg) Q.
Proof. by apply safe_stop. Qed.

Lemma safe_mem (f : memory → memory) :
  (∀ m, mem_ok m → mem_ok (f m)) → safe (modify (λ s, set_mem (f (mem s)) s)) (λ _, True).
Proof. intros H. apply safe_modify. intros s []. constructor; try done. by apply H. Qed.

Lemma safe_get_page pp : safe (get_page pp) (λ pi, 0 <= pp_ref pi < 2 ^ 16).
Proof.
  intros s Hs. unfold get_page. msimpl. destruct (pages s !! pp) eqn:E; [|done].
  split; [done|]. exact (kw_refs _ Hs _ _ E).
Qed.

Lemma safe_put_page pp pi : 0 <= pp_ref pi < 2 ^ 16 → safe (put_page pp pi) (λ _, True).
Proof.
  intros H. apply safe_modify. intros s Hs. destruct (Hs). constructor; try done.
  intros p q. cbn. rewrite lookup_insert. destruct (decide (pp = p)); [by intros [= <-]|]. apply kw_refs, Hs.
Qed.

Lemma safe_set_ref pp r : safe (set_ref pp r) (λ _, True).
Proof.
  eapply safe_bind; [apply safe_get_page|]. intros pi _. apply safe_put_page. cbn.
  apply Z.mod_pos_bound. lia.
Qed.

Lemma safe_set_link pp l : safe (set_link pp l) (λ _, True).
Proof. eapply safe_bind; [apply safe_get_page|]. intros pi H. by apply safe_put_page. Qed.

Lemma safe_get_env e : safe (get_env e) (slot_ok e).
Proof.
  intros s Hs. unfold get_env. msimpl. destruct (envs s !! e) eqn:E; [|done].
  split; [done|]. exact (kw_envs _ Hs _ _ E).
Qed.

Lemma safe_upd_env e f :
  (∀ v, slot_ok e v → slot_ok e (f v)) → safe (upd_env e f) (λ _, 0 <= e < NENV).
Proof.
  intros H s Hs. unfold upd_env. destruct (envs s !! e) as [v|] eqn:E.
  2: { unfold get_env. msimpl. by rewrite E. }
  mrun (by apply get_env_eq). pose proof (kw_envs _ Hs _ _ E) as Hv. destruct (Hs).
  split; [|exact (proj1 Hv)]. constructor; try done.
  - intros i Hi. cbn. rewrite lookup_insert. destruct (decide (e = i)); [done|by apply (kw_table _ Hs)].
  - intros i w. cbn. rewrite lookup_insert. destruct (decide (e = i)) as [<-|]; [intros [= <-]; by apply H|].
    exact (kw_envs _ Hs i w).
Qed.

Lemma safe_curenv : safe curenv env_ptr.
Proof.
  apply safe_gets. intros s Hs. unfold curenv_of. destruct (cpus s !! cpunum s) eqn:E; [|done].
  exact (kw_cpus _ Hs _ _ E).
Qed.

Lemma safe_upd_cpu f : (∀ ci, env_ptr (cpu_env ci) → env_ptr (cpu_env (f ci))) → safe (upd_cpu f) (λ _, True).
Proof.
  intros H s Hs. unfold upd_cpu, thiscpu. msimpl. destruct (cpus s !! cpunum s) as [ci|] eqn:E; [|done].
  destruct (Hs). split; [|done]. constructor; try done.
  intros c cj. cbn. rewrite lookup_insert. destruct (decide (cpunum s = c)); [intros [= <-]|by apply (kw_cpus _ Hs)].
  apply H. exact (kw_cpus _ Hs _ _ E).
Qed.

Lemma safe_thiscpu : safe thiscpu (λ ci, env_ptr (cpu_env ci)).
Proof.
  intros s Hs. unfold thiscpu. msimpl. destruct (cpus s !! cpunum s) eqn:E; [|done].
  split; [done|]. exact (kw_cpus _ Hs _ _ E).
Qed.

Lemma safe_env_free_list : safe (gets env_free_list) env_ptr.
Proof. apply safe_gets. apply kw_free. Qed.

(** ** Following the code *)

Lemma slot_range e v : slot_ok e v → 0 <= e < NENV.
Proof. by intros []. Qed.

Lemma ptr_range e : env_ptr (Some e) → 0 <= e < NENV.
Proof. intros H. by apply H. Qed.

Lemma ptr_some o e : env_ptr o → o = Some e → 0 <= e < NENV.
Proof. intros H. apply H. Qed.

Lemma ptr_none : env_ptr None.
Proof. by intros e. Qed.

Lemma range_ptr e : 0 <= e < NENV → env_ptr (Some e).
Proof. by intros H e' [= <-]. Qed.

Create HintDb ksafe.
#[export] Hint Resolve safe_the safe_panic safe_get_page safe_set_ref safe_set_link safe_get_env safe_curenv
  safe_thiscpu safe_env_free_list ptr_none range_ptr slot_range ptr_range ptr_some : ksafe.
(** Assignments that keep the id and the link of an environment. *)
#[export] Hint Extern 1 (∀ v, slot_ok _ v → slot_ok _ _) => (let H := fresh in intros ? H; exact H) : ksafe.
#[export] Hint Extern 1 (safe (upd_env _ _) _) => apply safe_upd_env : ksafe.
(** Assignments to fields the invariant does not mention. *)
#[export] Hint Extern 2 (safe (modify _) _) => (apply safe_modify; by intros ? []) : ksafe.
#[export] Hint Extern 2 (safe (gets _) (λ _, True)) => (by apply safe_gets) : ksafe.
#[export] Hint Extern 1 (∀ e, _ ≠ RunEnv e) => discriminate : ksafe.

(** One step along the text of a function: a call with a lemma in [ksafe],
    a branch, or the unfolding of the next function. *)
Ltac kstep :=
  lazymatch goal with
  | |- safe (mbind _ _) _ =>
    first [ eapply safe_bind; [solve [eauto 4 with ksafe]|]
          | eapply (safe_bind _ _ (λ _, True)) ]; [..|intros ? ?]
  | |- safe (match ?x with _ => _ end) _ => destruct x eqn:?
  | |- safe (let _ := _ in _) _ => cbv zeta
  | |- safe (mret _) _ => apply safe_ret
  | |- safe (stop _) _ => apply safe_stop
  | |- safe (mfor _ _) _ => apply safe_mfor; intros ?
  | |- safe ?m _ =>
    first [ solve [eauto 4 with ksafe] | eapply safe_True; solve [eauto 4 with ksafe]
          | eapply safe_never; solve [eauto 4 with ksafe]
          | let h := head m in progress unfold h ]
  | |- _ => solve [done | eauto 4 with ksafe]
  end.

Ltac ksafe := repeat kstep.

(** *** Memory *)

Lemma safe_kstore32 a v : safe (kstore32 a v) (λ _, True).
Proof. unfold kstore32. apply (safe_mem (λ m, st32 m _ _)). intros. by apply st32_ok. Qed.

Lemma safe_kstore8 a v : safe (kstore8 a v) (λ _, True).
Proof. unfold kstore8. apply (safe_mem (λ m, st8 m _ _)). intros. by apply st8_ok. Qed.

Lemma safe_kmemset a c n : safe (kmemset a c n) (λ _, True).
Proof. unfold kmemset. apply (safe_mem (λ m, mem_set m _ _ _)). intros. by apply mem_set_ok. Qed.

Lemma safe_kmemcpy d a n : safe (kmemcpy d a n) (λ _, True).
Proof. unfold kmemcpy. apply (safe_mem (λ m, mem_copy m _ _ _)). intros. by apply mem_copy_ok. Qed.

Lemma safe_hw_translate w va : safe (hw_translate w va) (λ _, True).
Proof. unfold hw_translate. ksafe. Qed.

#[export] Hint Resolve safe_kstore32 safe_kstore8 safe_kmemset safe_kmemcpy safe_hw_translate : ksafe.

Lemma safe_vstore8 va v : safe (vstore8 va v) (λ _, True).
Proof.
  unfold vstore8. eapply safe_bind; [apply safe_hw_translate|]. intros pa _.
  apply (safe_mem (λ m, st8 m _ _)). intros. by apply st8_ok.
Qed.

#[export] Hint Resolve safe_vstore8 : ksafe.

Lemma safe_page_alloc f : safe (page_alloc f) (λ _, True).
Proof. ksafe. Qed.

Lemma safe_page_decref p : safe (page_decref p) (λ _, True).
Proof. ksafe. Qed.

#[export] Hint Resolve safe_page_alloc safe_page_decref : ksafe.

Lemma safe_pgdir_walk d va c : safe (pgdir_walk d va c) (λ _, True).
Proof. ksafe. Qed.

#[export] Hint Resolve safe_pgdir_walk : ksafe.

Lemma safe_page_remove d va : safe (page_remove d va) (λ _, True).
Proof. ksafe. Qed.

#[export] Hint Resolve safe_page_remove : ksafe.

Lemma safe_page_insert d pp va perm : safe (page_insert d pp va perm) (λ _, True).
Proof. ksafe. Qed.

Lemma safe_user_mem_check_loop fuel d a e p : safe (user_mem_check_loop fuel d a e p) (λ _, True).
Proof. revert a. induction fuel; intros a; cbn [user_mem_check_loop]; ksafe. Qed.

#[export] Hint Resolve safe_page_insert safe_user_mem_check_loop : ksafe.

(** *** Environments *)

Lemma slot_link e fl v : env_ptr fl → slot_ok e v → slot_ok e (set_env_link fl v).
Proof. intros Hf (H & H0 & _). exact (conj H (conj H0 Hf)). Qed.

Lemma slot_new_id e v : slot_ok e v → slot_ok e (set_env_id (next_env_id (env_id v) e) v).
Proof.
  intros (He & Hid & Hl). split; [exact He|split; [right|exact Hl]]. cbn.
  destruct (next_env_id_spec (env_id v) e) as (H1 & H2 & _); [|done|done].
  unfold is_s32. destruct Hid as [->|[? _]]; lia.
Qed.

Lemma safe_set_free_list o : env_ptr o → safe (modify (set_env_free_list o)) (λ _, True).
Proof. intros Ho. apply safe_modify. intros s []. by constructor. Qed.

Lemma safe_set_curenv o : env_ptr o → safe (set_curenv o) (λ _, True).
Proof. intros Ho. by apply safe_upd_cpu. Qed.

Lemma slot_ptr e v : slot_ok e v → env_ptr (env_link v).
Proof. by intros (_ & _ & ?). Qed.

#[export] Hint Resolve slot_link slot_new_id safe_set_free_list safe_set_curenv slot_ptr : ksafe.

Lemma safe_lcr3 pd : safe (lcr3 pd) (λ _, True).
Proof. ksafe. Qed.

Lemma safe_envid2env id check : safe (envid2env id check) (λ r, env_ptr (snd r)).
Proof.
  unfold envid2env. destruct (id =? 0); [ksafe|]. cbv zeta.
  eapply safe_bind; [apply safe_get_env|]. intros v Hv. ksafe.
Qed.

Lemma safe_env_setup_vm e : safe (env_setup_vm e) (λ _, True).
Proof. ksafe. Qed.

#[export] Hint Resolve safe_lcr3 safe_envid2env safe_env_setup_vm : ksafe.

Lemma safe_env_alloc p : safe (env_alloc p) (λ r, env_ptr (snd r)).
Proof. unfold env_alloc. ksafe. Qed.

Lemma safe_env_free_table e i : safe (env_free_table e i) (λ _, True).
Proof. ksafe. Qed.

#[export] Hint Resolve safe_env_alloc safe_env_free_table : ksafe.

Lemma safe_env_free e : safe (env_free e) (λ _, True).
Proof. ksafe. Qed.

#[export] Hint Resolve safe_env_free : ksafe.

(** *** Leaving the kernel *)

Lemma upd_env_cpus e f s r s' : upd_env e f s = (Ret r, s') → curenv_of s' = curenv_of s.
Proof. intros (v & _ & ->)%upd_env_inv. done. Qed.

Lemma safe_leave e s :
  kernel_wf s → curenv_of s = Some e →
  match (unlock_kernel;; env_pop_tf e) s with
  | (Ret _, _) => False
  | (Stop st, s') => kernel_wf s' ∧ exit_ok st s'
  end.
Proof.
  intros Hs Hc. unfold unlock_kernel, spin_unlock. msimpl. destruct (negb _); [done|].
  set (s1 := set_kernel_lock _ s). assert (Hs1 : kernel_wf s1) by (by destruct Hs).
  unfold env_pop_tf, curenv. rewrite bind_gets. change (curenv_of s1) with (curenv_of s). rewrite Hc.
  cbn [the]. rewrite bind_ret, bind_gets.
  pose proof (safe_upd_env e (set_env_cpunum (cpunum s1)) ltac:(intros ? H; exact H) s1 Hs1) as Hu.
  destruct (upd_env e _ s1) as [[[]|st] s2] eqn:E.
  - mrun (exact E). split; [apply Hu|]. destruct (upd_env_inv _ _ _ _ _ E) as (v & _ & ->). done.
  - by rewrite (bind_Stop _ _ _ _ _ E).
Qed.

Lemma set_curenv_inv o s r s' : set_curenv o s = (Ret r, s') → curenv_of s' = o.
Proof.
  unfold set_curenv, upd_cpu, thiscpu. msimpl. destruct (cpus s !! cpunum s) eqn:E; [|done].
  intros [= _ <-]. unfold curenv_of. cbn. by rewrite lookup_insert_eq.
Qed.

Lemma lcr3_cur pd s r s' : lcr3 pd s = (Ret r, s') → curenv_of s' = curenv_of s.
Proof.
  unfold lcr3. intros H. apply bind_inv in H as [(pa & s1 & H1 & H)|(? & _ & ?)]; [|done].
  unfold PADDR in H1. destruct (pd <? KERNBASE); [done|]. injection H1 as _ <-. by injection H as _ <-.
Qed.

Lemma get_env_same e s v s' : get_env e s = (Ret v, s') → s' = s.
Proof. unfold get_env. msimpl. destruct (envs s !! e); [|done]. by intros [= _ <-]. Qed.

Lemma safe_env_run e : 0 <= e < NENV → safe (env_run e) (λ _, True).
Proof.
  intros He s Hs. unfold env_run, curenv. rewrite bind_gets.
  match goal with |- context [mbind _ (if ?b then ?m else ?n)] => set (switch := if b then m else n) end.
  assert (Hsafe : safe switch (λ _, True)).
  { unfold switch. destruct (bool_decide _); [|by apply safe_ret].
    eapply (safe_bind _ _ (λ _, True)); [|intros; ksafe]. destruct (curenv_of s); ksafe. }
  assert (Hcur : ∀ s1, switch s = (Ret tt, s1) → curenv_of s1 = Some e).
  { unfold switch. intros s1. case_bool_decide as Hc; [|injection 1 as <-; by destruct (decide (curenv_of s = Some e))].
    intros H. apply bind_inv in H as [(? & s2 & _ & H)|(? & _ & ?)]; [|done].
    apply bind_inv in H as [([] & s3 & H3%set_curenv_inv & H)|(? & _ & ?)]; [|done].
    apply bind_inv in H as [([] & s4 & H4%upd_env_cpus & H)|(? & _ & ?)]; [|done].
    apply bind_inv in H as [([] & s5 & H5%upd_env_cpus & H)|(? & _ & ?)]; [|done].
    apply bind_inv in H as [(v & s6 & ->%get_env_same & H)|(? & _ & ?)]; [|done].
    apply lcr3_cur in H. congruence. }
  specialize (Hsafe s Hs). destruct (switch s) as [[[]|st] s1] eqn:E.
  - mrun (exact E). pose proof (safe_leave e s1 (proj1 Hsafe) (Hcur s1 eq_refl)) as H.
    by destruct ((unlock_kernel;; env_pop_tf e) s1) as [[[]|st] s2].
  - by rewrite (bind_Stop _ _ _ _ _ E).
Qed.

Lemma safe_halt_search fuel i : safe (halt_search fuel i) (λ _, True).
Proof. revert i. induction fuel; intros i; cbn [halt_search]; ksafe. Qed.

#[export] Hint Resolve safe_env_run safe_halt_search : ksafe.
#[export] Hint Extern 1 (safe (upd_cpu _) _) => (apply safe_upd_cpu; let H := fresh in intros ? H; exact H) : ksafe.

Lemma safe_sched_search fuel i : safe (sched_search fuel i) (λ _, True).
Proof. revert i. induction fuel; intros i; cbn [sched_search]; ksafe. Qed.

#[export] Hint Resolve safe_sched_search : ksafe.

Lemma safe_sched_yield : safe sched_yield (λ _, True).
Proof. unfold sched_yield. ksafe. Qed.

#[export] Hint Resolve safe_sched_yield : ksafe.

Lemma safe_env_destroy e : safe (env_destroy e) (λ _, True).
Proof. ksafe. Qed.

#[export] Hint Resolve safe_env_destroy : ksafe.

(** *** System calls and traps *)

Lemma safe_user_mem_assert e va len perm : safe (user_mem_assert e va len perm) (λ _, True).
Proof. ksafe. Qed.

Lemma safe_the_curenv : safe the_curenv (λ c, 0 <= c < NENV).
Proof. unfold the_curenv. eapply safe_bind; [apply safe_curenv|]. intros o Ho s Hs. destruct o; [|done]. by split; [|apply Ho]. Qed.

Lemma safe_print_string fuel p n : safe (print_string fuel p n) (λ _, True).
Proof. revert p n. induction fuel; intros p n; cbn [print_string]; ksafe. Qed.

Lemma safe_vstore_words va ws : safe (vstore_words va ws) (λ _, True).
Proof. revert va. induction ws; intros va; cbn [vstore_words]; ksafe. Qed.

#[export] Hint Resolve safe_user_mem_assert safe_the_curenv safe_print_string safe_vstore_words : ksafe.

Lemma safe_syscall n a1 a2 a3 a4 a5 : safe (syscall n a1 a2 a3 a4 a5) (λ _, True).
Proof. ksafe. Qed.

#[export] Hint Resolve safe_syscall : ksafe.

Lemma safe_page_fault_handler p : safe (page_fault_handler p) (λ _, True).
Proof. ksafe. Qed.

#[export] Hint Resolve safe_page_fault_handler : ksafe.

Lemma safe_trap tf : safe (trap tf) (λ _, True).
Proof. ksafe. Qed.

(** ** The machine

    Between two traps of the kernel: another CPU may be the one that traps
    next, the user programs have stored bytes, a page fault has set [%cr2],
    the devices have received input and written descriptors.

    The environment table, the page descriptors and the CPUs are maps beside
    the modelled memory: a store, by a user program or by the kernel to an
    address a user program gave it, does not change them.  In the code this is
    so unless a program gets the pages of these tables into its address space,
    as [sys_map_kernel_page] allows ([sys_map_kernel_page_exposes]), or makes
    the kernel map or store at kernel addresses, as [sys_ipc_try_send],
    [sys_sbrk] and ranges that wrap around allow. *)
Inductive machine_step : kstate → kstate → Prop :=
  | step_trap tf s st s' : trap tf s = (Stop st, s') → machine_step s s'
  | step_cpu n s : machine_step s (set_cpunum n s)
  | step_user_store a b s : is_u8 b → machine_step s (set_mem (st8 (mem s) a b) s)
  | step_fault va s : machine_step s (set_cr2 va s)
  | step_devices c n s : machine_step s (set_kcons c (set_nic n s)).

Lemma machine_step_wf s s' : machine_step s s' → kernel_wf s → kernel_wf s'.
Proof.
  intros Hst Hs. destruct Hst as [tf s st s' H|n s|a b s Hb|va s|c n s]; try by destruct Hs.
  - pose proof (safe_trap tf s Hs) as Ht. rewrite H in Ht. apply Ht.
  - destruct Hs. constructor; try done. by apply st8_ok.
Qed.

(** C5: the kernel's invariant, under the assumption that the tables [envs],
    [pages] and [cpus] change only by the kernel's own assignments to them, not
    by stores to their bytes.  (The model has them beside memory; in the code
    a program can break the assumption, for instance with
    [sys_map_kernel_page].)  In every state the machine can reach from a
    well-formed one, by any sequence of traps on any CPUs, user stores, faults
    and device activity, the kernel's data is well formed: bytes are bytes,
    reference counts fit their 16 bits, the environment table is complete, ids
    name their slots, and [curenv] of every CPU and the free list point into
    the table.  And any trap there that ends by running an environment runs
    the CPU's current one, with the kernel lock released. *)
Theorem machine_invariant s0 s :
  kernel_wf s0 → rtc machine_step s0 s →
  kernel_wf s ∧
  ∀ tf, ∃ st s', trap tf s = (Stop st, s') ∧
    ∀ e, st = RunEnv e → kernel_lock s' = mkSpinlock 0 None ∧ curenv_of s' = Some e ∧ 0 <= e < NENV.
Proof.
  intros Hs Hr. assert (Hw : kernel_wf s).
  { induction Hr as [|x y z Hxy _ IH]; [done|]. by apply IH, (machine_step_wf x y). }
  split; [done|]. intros tf. destruct (never_returns (trap tf) s) as (st & s' & Ht).
  exists st, s'. split; [done|]. intros e ->.
  pose proof (safe_trap tf s Hw) as H. rewrite Ht in H. destruct H as [Hw' [Hl Hc]].
  split_and!; [done|done|..]; revert Hc; unfold curenv_of;
    destruct (cpus s' !! cpunum s') eqn:E; try done; intros Hc; apply (kw_cpus _ Hw' _ _ E e Hc).
Qed.

Definition slot_okb (e : Z) (v : Env) : bool :=
  (0 <=? e) && (e <? NENV) &&
  ((env_id v =? 0) || (0 <? env_id v) && (env_id v <? 2 ^ 31) && (ENVX (env_id v) =? e)) &&
  match env_link v with Some l => (0 <=? l) && (l <? NENV) | None => true end.

Lemma slot_ok_compute s :
  bool_decide (map_Forall (λ e v, slot_okb e v = true) (envs s)) = true →
  ∀ e v, envs s !! e = Some v → slot_ok e v.
Proof.
  intros H e v Hv. apply bool_decide_eq_true in H. specialize (H e v Hv). cbv beta in H. unfold slot_okb in H.
  rewrite !andb_true_iff, orb_true_iff, !andb_true_iff in H. destruct H as [[[H1 H2] Hid] Hl].
  split; [lia|split; [lia|]]. intros l Hl'. rewrite Hl' in Hl. lia.
Qed.

Lemma demo_slots : bool_decide (map_Forall (λ e v, slot_okb e v = true) (envs demo)) = true.
Proof. vm_compute. reflexivity. Qed.

Lemma demo_cpu_ptrs c ci : demo_cpus !! c = Some ci → env_ptr (cpu_env ci).
Proof.
  unfold demo_cpus. intros Hc.
  apply lookup_insert_Some in Hc as [[_ <-]|[_ Hc]]; [by apply range_ptr|].
  apply lookup_insert_Some in Hc as [[_ <-]|[_ Hc]]; [apply ptr_none|by rewrite lookup_empty in Hc].
Qed.

Lemma vm_ok_refs s pds fl p pi : vm_ok s pds fl → pages s !! p = Some pi → 0 <= pp_ref pi < 2 ^ 16.
Proof. intros Hvm Hp. pose proof (vm_ref _ _ _ Hvm p pi Hp) as H. unfold nmaps in H. lia. Qed.

Lemma demo_wf : kernel_wf demo.
Proof.
  exact (mk_kernel_wf demo (vm_mem _ _ _ demo_vm) (λ p pi, vm_ok_refs _ _ _ p pi demo_vm) demo_table (slot_ok_compute demo demo_slots)
    (range_ptr 2 ltac:(done)) demo_cpu_ptrs).
Qed.

(** A byte is stored, then CPU 1 traps. *)
Lemma machine_invariant_witness : kernel_wf (set_cpunum 1 (set_mem (st8 (mem demo) 12288 7) demo)).
Proof.
  refine (proj1 (machine_invariant demo _ demo_wf _)).
  eapply rtc_l; [apply (step_user_store 12288 7); split; [discriminate|reflexivity]|].
  eapply rtc_l; [apply (step_cpu 1)|apply rtc_refl].
Defined.
