(* ===== verification/TrapDemo.v ===== *)
(** * Traps at work

    The theorems of [Trap] on the concrete machine of [Demo], and a run on two
    CPUs that ends with both of them in the same environment. *)

From S2P Require Import Prelude Mmu Console KState Demo Lock PageAlloc PageTable AddrSpace PageInsert VmFrame VmDemo UserMem Env EnvSpace Sched Nic Syscall SyscallSpec SyscallDemo Trap.
Open Scope Z_scope.

(** The registers of a program that executes [int $0x30]. *)
Definition call_tf (eax edx ecx : Z) : Trapframe :=
  mkTrapframe (mkPushRegs 0 0 0 0 0 edx ecx eax) 35 35 T_SYSCALL 0 0x800020 (Z.lor GD_UT 3) FL_IF USTACKTOP 35.

(** The machine with environment 0 in user mode. *)
Definition demo_user : kstate := set_kernel_lock (mkSpinlock 0 None) demo.
Definition demo_ci : CpuInfo := mkCpuInfo 0 CPU_STARTED (Some 0) 0xF0000000.

Lemma getenvid_entered c tf v ci s :
  cpu_env ci = Some c → syscall 2 0 0 0 0 0 (entered c tf v ci s) = (Ret (env_id v), entered c tf v ci s).
Proof.
  intros Hc. change (syscall 2 0 0 0 0 0) with sys_getenvid. unfold sys_getenvid, curenv_val, the_curenv, curenv.
  assert (Hcur : curenv_of (entered c tf v ci s) = Some c).
  { unfold curenv_of. cbn. by rewrite lookup_insert_eq. }
  rewrite (bind_Ret _ _ _ (set_env_tf tf v) (entered c tf v ci s)); [reflexivity|].
  mrun (rewrite bind_gets, Hcur; reflexivity). apply get_env_eq, lookup_insert_eq.
Qed.

(** Environment 0 asks for its id and gets it in [eax]. *)
Lemma trap_syscall_correct_witness :
  ∃ s' v', trap (call_tf 2 0 0) demo_user = (Stop (RunEnv 0), s') ∧
    envs s' !! 0 = Some v' ∧ reg_eax (tf_regs (env_tf v')) = 0x1000.
Proof.
  assert (Hci : cpus demo_user !! cpunum demo_user = Some demo_ci) by reflexivity.
  assert (Hn : ENV_RUNNING ≠ ENV_DYING) by discriminate.
  pose proof (trap_syscall_correct demo_user 0 (demo_env 0x1000 0 ENV_RUNNING 1 false) demo_ci (call_tf 2 0 0)
    eq_refl Hci eq_refl eq_refl eq_refl demo_env0 Hn eq_refl eq_refl) as H.
  cbv zeta in H. change (syscall _ _ _ _ _ _) with (syscall 2 0 0 0 0 0) in H.
  rewrite (getenvid_entered 0 (call_tf 2 0 0) (demo_env 0x1000 0 ENV_RUNNING 1 false) demo_ci demo_user eq_refl) in H.
  destruct H as (v1 & Hv1 & _ & H). cbn [envs entered set_envs] in Hv1. rewrite lookup_insert_eq in Hv1. injection Hv1 as <-.
  eexists _, _. split; [exact H|]. split; [apply lookup_insert_eq|reflexivity].
Defined.

(** A timer interrupt in the halted kernel. *)
Definition timer_tf : Trapframe :=
  mkTrapframe regs_zero 16 16 (IRQ_OFFSET + IRQ_TIMER) 0 0xF0100000 GD_KT FL_IF 0 0.

Definition run_pair (p : res stopped False * kstate) : p = (fst p, snd p) := surjective_pairing p.

(** ** One environment on two CPUs *)

(** The environments after one that is the only one to run has made itself
    runnable and gone on. *)
Definition left_runnable (s : kstate) (c : Z) (tf : Trapframe) (v : Env) (ci : CpuInfo) : kstate :=
  let w := set_env_tf (set_tf_eax (u32 0) tf) (set_env_status ENV_RUNNABLE (set_env_tf tf v)) in
  set_envs (<[c := set_env_cpunum (cpunum s) w]> (envs s)) (set_kernel_lock (mkSpinlock 0 None)
    (set_cpus (<[cpunum s := set_cpu_status CPU_STARTED ci]> (cpus s)) s)).

Lemma set_own_status c tf v ci s :
  cpu_env ci = Some c →
  sys_env_set_status 0 2 (entered c tf v ci s) =
    (Ret 0, set_envs (<[c := set_env_status ENV_RUNNABLE (set_env_tf tf v)]> (envs s)) (entered c tf v ci s)).
Proof.
  intros Hc. unfold sys_env_set_status. cbn [env_status_of].
  assert (E : envid2env 0 true (entered c tf v ci s) = (Ret (0, Some c), entered c tf v ci s)).
  { unfold envid2env. cbn [Z.eqb]. unfold curenv. rewrite bind_gets. unfold curenv_of. cbn. rewrite lookup_insert_eq. cbn. by rewrite Hc. }
  mrun (exact E). change (0 <? 0) with false. cbv iota. cbn [the]. rewrite bind_ret.
  mrun (apply upd_env_eq; cbn; apply lookup_insert_eq). cbn [envs entered set_envs]. by rewrite insert_insert_eq.
Qed.

Lemma table_insert s e v : env_table s → ∀ i, 0 <= i < NENV → is_Some (<[e := v]> (envs s) !! i).
Proof. intros H i Hi. destruct (decide (e = i)) as [<-|]; [by rewrite lookup_insert_eq|]. rewrite lookup_insert_ne by done. by apply H. Qed.

Lemma goes_on_runnable s c v ci tf :
  panicstr s = false → cpus s !! cpunum s = Some ci → cpu_status ci = CPU_STARTED → cpu_env ci = Some c →
  lk_locked (kernel_lock s) = 0 → env_table s → 0 <= c < NENV - 1 → envs s !! c = Some v → ENVX (env_id v) = c →
  env_status v = ENV_RUNNING → (∀ e w, e ≠ c → envs s !! e = Some w → env_status w ≠ ENV_RUNNABLE) →
  tf_trapno tf = T_SYSCALL → Z.land (tf_cs tf) 3 = 3 → reg_eax (tf_regs tf) = 8 → reg_edx (tf_regs tf) = 0 → reg_ecx (tf_regs tf) = 2 →
  trap tf s = (Stop (RunEnv c), left_runnable s c tf v ci).
Proof.
  intros Hp Hci Hst Hce Hlk Ht Hc Hv Hx Hrun Ho Hno Hcs Ha Hd Hcx.
  pose proof (trap_syscall_spec s c v ci tf Hp Hci Hst Hce Hlk Hv ltac:(by rewrite Hrun) Hno Hcs) as H. cbv zeta in H.
  rewrite Ha, Hd, Hcx in H. change (syscall 8 0 2 ?x ?y ?z) with (sys_env_set_status 0 2) in H.
  rewrite (set_own_status c tf v ci s Hce) in H. destruct H as (v1 & Hv1 & Hc1 & ->).
  cbn [envs set_envs] in Hv1. rewrite lookup_insert_eq in Hv1. injection Hv1 as <-. cbn [is_status env_status set_env_status].
  unfold is_status. rewrite bool_decide_eq_false_2 by done.
  cbn [envs set_envs]. rewrite insert_insert_eq. cbn [env_tf set_env_status set_env_tf].
  set (w := set_env_tf (set_tf_eax (u32 0) tf) (set_env_status ENV_RUNNABLE (set_env_tf tf v))).
  set (s2 := set_envs (<[c := w]> (envs s)) _).
  assert (Hc2 : curenv_of s2 = Some c) by exact Hc1.
  assert (Hv2 : envs s2 !! c = Some w) by apply lookup_insert_eq.
  rewrite sched_yield_spec; [|exact (table_insert s c w Ht)|].
  2: { intros c' E. assert (c' = c) as -> by congruence. split; [done|]. by exists w. }
  rewrite (sched_choice_only s2 c w); [|lia|exact Hv2|done|].
  - rewrite (env_run_current s2 c w); [|unfold holding; cbn; by rewrite bool_decide_eq_true_2|exact Hc2|exact Hv2].
    unfold s2, left_runnable. cbn. by rewrite insert_insert_eq.
  - intros e x Hne. unfold s2. cbn. rewrite lookup_insert_ne by done. by apply Ho.
Qed.

(** CPU [b] wakes up and finds the environment. *)
Lemma timer_takes_over s c v ci tf f b cib tfb :
  panicstr s = false → env_table s → 0 <= c < NENV - 1 → env_pgdir v = kaddr f → 0 <= f →
  (∀ e w, e ≠ c → envs s !! e = Some w → env_status w ≠ ENV_RUNNABLE) →
  b ≠ cpunum s → b ≠ 0 → cpus s !! b = Some cib → cpu_status cib = CPU_HALTED → cpu_env cib = None →
  tf_trapno tfb = IRQ_OFFSET + IRQ_TIMER → Z.land (tf_cs tfb) 3 ≠ 3 →
  ∃ s2, trap tfb (set_cpunum b (left_runnable s c tf v ci)) = (Stop (RunEnv c), s2) ∧
    cpus s2 = <[b := set_cpu_env (Some c) (set_cpu_status CPU_STARTED cib)]>
      (<[b := set_cpu_status CPU_STARTED cib]> (<[cpunum s := set_cpu_status CPU_STARTED ci]> (cpus s))).
Proof.
  intros Hp Ht Hc Hpd Hf Ho Hbn Hb0 Hcib Hbst Hbe Hbno Hbcs.
  set (w := set_env_cpunum (cpunum s) (set_env_tf (set_tf_eax (u32 0) tf) (set_env_status ENV_RUNNABLE (set_env_tf tf v)))).
  set (C := <[b := set_cpu_status CPU_STARTED cib]> (<[cpunum s := set_cpu_status CPU_STARTED ci]> (cpus s))).
  set (s3 := set_kernel_lock (mkSpinlock 1 (Some b)) (set_cpus C (set_cpunum b (left_runnable s c tf v ci)))).
  assert (Hcb : cpus (set_cpunum b (left_runnable s c tf v ci)) !! b = Some cib) by (cbn; by rewrite lookup_insert_ne).
  assert (Hcur : curenv_of s3 = None) by (unfold curenv_of; cbn; unfold C; by rewrite lookup_insert_eq).
  assert (Hv3 : envs s3 !! c = Some w) by apply lookup_insert_eq.
  assert (Hy : ∃ s2, sched_yield s3 = (Stop (RunEnv c), s2) ∧ cpus s2 = <[b := set_cpu_env (Some c) (set_cpu_status CPU_STARTED cib)]> C).
  { rewrite sched_yield_spec; [|exact (table_insert s c w Ht)|by rewrite Hcur].
    rewrite (sched_choice_only s3 c w); [|lia|exact Hv3|done|].
    2: { intros e x Hne. unfold s3. cbn. rewrite lookup_insert_ne by done. by apply Ho. }
    destruct (env_run_correct s3 c w f (set_cpu_status CPU_STARTED cib)) as (s2 & R & _ & _ & _ & _ & _ & Hcp);
      [unfold holding; cbn; by rewrite bool_decide_eq_true_2|apply lookup_insert_eq|by intros x Hx; rewrite Hcur in Hx|exact Hv3|exact Hpd|exact Hf|].
    exists s2. split; [exact R|]. rewrite Hcp, Hcur. by rewrite decide_False. }
  destruct Hy as (s2 & Hy & Hcp). exists s2. split; [|exact Hcp].
  unfold trap. rewrite bind_gets. cbn [panicstr set_cpunum left_runnable set_envs set_kernel_lock set_cpus]. rewrite Hp.
  mrun (unfold thiscpu; msimpl; cbn [cpunum set_cpunum]; rewrite Hcb; reflexivity).
  mrun (unfold upd_cpu, thiscpu; msimpl; cbn [cpunum set_cpunum]; rewrite Hcb; reflexivity).
  rewrite Hbst, bool_decide_eq_true_2 by done. mrun reflexivity. rewrite Hbno.
  assert (Hg : idt (IRQ_OFFSET + IRQ_TIMER) = Some (SETGATE (IRQ_OFFSET + IRQ_TIMER) false 0)) by reflexivity.
  rewrite Hg. cbn [the]. rewrite bind_ret.
  rewrite bind_Ret with (a := tt) (s' := s3) by (unfold entry_eflags; rewrite (idt_interrupt_gates _ _ Hg);
    rewrite <- Z.land_assoc, (Z.land_comm (Z.lnot FL_IF)), Z.land_lnot_diag, Z.land_0_r; reflexivity).
  replace (Z.land (tf_cs tfb) 3 =? 3) with false by (symmetry; by apply Z.eqb_neq). rewrite bind_ret.
  apply bind_Stop. unfold trap_dispatch. cbn [tf_get]. rewrite bind_ret, Hbno. cbv zeta.
  change (IRQ_OFFSET + IRQ_TIMER =? T_PGFLT) with false. change (IRQ_OFFSET + IRQ_TIMER =? T_BRKPT) with false.
  change (IRQ_OFFSET + IRQ_TIMER =? T_SYSCALL) with false. change (IRQ_OFFSET + IRQ_TIMER =? IRQ_OFFSET + IRQ_SPURIOUS) with false.
  rewrite Z.eqb_refl, bind_gets. change (cpunum s3) with b. replace (b =? 0) with false by lia. rewrite bind_ret.
  by apply bind_Stop.
Qed.

(** C39: an environment on two CPUs.  Take any state of the kernel in which CPU
    [n] runs environment [c] in user mode, no other environment is runnable,
    [c] is not in the last slot, and another CPU [b], not CPU 0, waits for an
    interrupt.  If [c] calls [sys_env_set_status(0, ENV_RUNNABLE)], it goes on
    running on [n] - [env_run] of the current environment does not touch its
    status - while its status says that any CPU may run it; and when the
    timer then interrupts [b], [b] runs it as well: [c] is the current
    environment of both CPUs. *)
Theorem self_runnable_runs_twice s c v ci tf f b cib tfb :
  panicstr s = false → cpus s !! cpunum s = Some ci → cpu_status ci = CPU_STARTED → cpu_env ci = Some c →
  lk_locked (kernel_lock s) = 0 → env_table s → 0 <= c < NENV - 1 → envs s !! c = Some v → ENVX (env_id v) = c →
  env_status v = ENV_RUNNING → env_pgdir v = kaddr f → 0 <= f →
  (∀ e w, e ≠ c → envs s !! e = Some w → env_status w ≠ ENV_RUNNABLE) →
  tf_trapno tf = T_SYSCALL → Z.land (tf_cs tf) 3 = 3 → reg_eax (tf_regs tf) = 8 → reg_edx (tf_regs tf) = 0 → reg_ecx (tf_regs tf) = 2 →
  b ≠ cpunum s → b ≠ 0 → cpus s !! b = Some cib → cpu_status cib = CPU_HALTED → cpu_env cib = None →
  tf_trapno tfb = IRQ_OFFSET + IRQ_TIMER → Z.land (tf_cs tfb) 3 ≠ 3 →
  ∃ s1 s2, trap tf s = (Stop (RunEnv c), s1) ∧ trap tfb (set_cpunum b s1) = (Stop (RunEnv c), s2) ∧
    cpu_env <$> cpus s2 !! cpunum s = Some (Some c) ∧ cpu_env <$> cpus s2 !! b = Some (Some c).
Proof.
  intros Hp Hci Hst Hce Hlk Ht Hc Hv Hx Hrun Hpd Hf Ho Hno Hcs Ha Hd Hcx Hbn Hb0 Hcib Hbst Hbe Hbno Hbcs.
  exists (left_runnable s c tf v ci).
  destruct (timer_takes_over s c v ci tf f b cib tfb) as (s2 & H2 & H3); try done.
  exists s2. split_and!; [by apply goes_on_runnable|exact H2|..]; rewrite H3.
  - rewrite lookup_insert_ne, lookup_insert_ne, lookup_insert_eq by done. cbn. by rewrite Hce.
  - by rewrite lookup_insert_eq.
Qed.

Lemma only_zero_runs e w : e ≠ 0 → envs demo_user !! e = Some w → env_status w ≠ ENV_RUNNABLE.
Proof.
  intros He Hw. assert (Hall : map_Forall (λ i v, i = 0 ∨ env_status v ≠ ENV_RUNNABLE) (envs demo_user)).
  { apply (bool_decide_unpack _). vm_compute. exact I. }
  destruct (Hall e w Hw) as [H|H]; [destruct (He H)|exact H].
Qed.

(** The machine of [Demo]. *)
Lemma self_runnable_runs_twice_witness :
  ∃ s1 s2, trap (call_tf 8 0 2) demo_user = (Stop (RunEnv 0), s1) ∧ trap timer_tf (set_cpunum 1 s1) = (Stop (RunEnv 0), s2) ∧
    cpu_env <$> cpus s2 !! 0 = Some (Some 0) ∧ cpu_env <$> cpus s2 !! 1 = Some (Some 0).
Proof.
  apply (self_runnable_runs_twice demo_user 0 (demo_env 0x1000 0 ENV_RUNNING 1 false) demo_ci (call_tf 8 0 2) 1
    1 (mkCpuInfo 1 CPU_HALTED None 0xEFFF0000) timer_tf); try reflexivity; try (vm_compute; congruence).
  - exact demo_table.
  - split; vm_compute; congruence.
  - exact only_zero_runs.
Defined.

(** Environment 0 with a page-fault upcall and an exception stack. *)
Definition xstack_va : Z := UXSTACKTOP - PGSIZE.
Definition demo_xstack : kstate := snd (page_insert (kaddr 1) 3 xstack_va (PTE_U + PTE_W) demo).
Definition faulting_env : Env :=
  set_env_pgfault_upcall 0x800040 (set_env_tf (call_tf 0 0 0) (demo_env 0x1000 0 ENV_RUNNING 1 false)).
Definition demo_faulting : kstate := set_envs (<[0 := faulting_env]> (envs demo)) demo_xstack.

Lemma xstack_slot : (1, PDX xstack_va, PTX xstack_va) ∈ slots [1; 2].
Proof. apply elem_of_slots. split; [by left|done]. Qed.

Lemma demo_xstack_ok :
  vm_ok demo_xstack [1; 2] [6; 7] ∧ only_vm demo demo_xstack ∧
  translate demo_xstack 1 xstack_va = Some (new_pte 3 (PTE_U + PTE_W)).
Proof.
  destruct (page_insert_spec demo [1; 2] [5; 6; 7] 1 xstack_va 3 (PTE_U + PTE_W) demo_vm
    ltac:(by left) ltac:(done) ltac:(done) demo_cur demo_mappable) as [(_ & [=] & _)|(s' & Hrun & Hvm & Hon & HP & _)].
  unfold demo_xstack. rewrite Hrun. cbn [snd]. split; [exact Hvm|]. split; [exact Hon|].
  change (translate s' 1 xstack_va) with (pte_of s' (1, PDX xstack_va, PTX xstack_va)).
  rewrite HP by apply xstack_slot. by rewrite decide_True.
Qed.

Lemma vm_ok_set_envs s pds fl m : vm_ok s pds fl → vm_ok (set_envs m s) pds fl.
Proof. by apply vm_ok_other_fields. Qed.

Lemma curenv_of_set_envs s m : curenv_of (set_envs m s) = curenv_of s.
Proof. reflexivity. Qed.

Lemma writable_same_page s m pd a b t :
  PDX a = PDX b → PTX a = PTX b → user_writable s pd a t → user_writable (set_envs m s) pd b t.
Proof. unfold user_writable, translate, lookup_pte, entry. by intros -> ->. Qed.

Lemma demo_faulting_ok : kernel_ok demo_faulting [1; 2] [6; 7].
Proof.
  destruct demo_ok as [_ Ht _ Hd]. destruct demo_xstack_ok as (Hvm & Hon & _). constructor.
  - exact (vm_ok_set_envs demo_xstack _ _ _ Hvm).
  - intros i Hi. change (envs demo_faulting) with (<[0 := faulting_env]> (envs demo)).
    rewrite lookup_insert. destruct (decide (0 = i)); [by eexists|exact (Ht i Hi)].
  - exists 0, faulting_env. split; [|split; [apply lookup_insert_eq|discriminate]].
    transitivity (curenv_of demo_xstack); [exact (curenv_of_set_envs _ _)|]. unfold curenv_of. rewrite Hon. reflexivity.
  - intros e v. change (envs demo_faulting) with (<[0 := faulting_env]> (envs demo)).
    rewrite lookup_insert. destruct (decide (0 = e)).
    + intros [= <-] _. exists 1. split; [by left|reflexivity].
    + apply Hd.
Qed.

(** A fault on the ordinary stack: the frame is at the top of the exception
    stack, and the environment continues in its upcall. *)
Lemma page_fault_handler_correct_witness :
  ∃ s', page_fault_handler (EnvTf 0) demo_faulting = (Stop (RunEnv 0), s') ∧ vm_ok s' [1; 2] [6; 7] ∧
    ld32 (mem s') (3 * 4096 + (PGSIZE - UTRAPFRAME_SIZE) + 40) = 0x800020.
Proof.
  assert (Ht : translate demo_xstack 1 xstack_va = Some (3 * 4096 + 7)) by apply demo_xstack_ok.
  assert (Hd : Z.land (entry demo_xstack 1 (PDX xstack_va)) (Z.lor PTE_PS PTE_W) = PTE_W)
    by (vm_compute; reflexivity).
  assert (Hl : ∀ A (f : kstate → A), (∀ m s, f (set_envs m s) = f s) → f demo_faulting = f demo_xstack)
    by (intros A f Hf; apply Hf).
  assert (Hon : only_vm demo demo_xstack) by apply demo_xstack_ok.
  assert (Hlk : holding (cpunum demo_faulting) (kernel_lock demo_faulting) = true).
  { rewrite (Hl _ (λ s, holding (cpunum s) (kernel_lock s)) ltac:(reflexivity)), Hon. reflexivity. }
  assert (Hcr : cr3 demo_faulting = 1 * 4096) by (rewrite (Hl _ cr3 ltac:(reflexivity)), Hon; reflexivity).
  assert (Hcur : curenv_of demo_faulting = Some 0).
  { rewrite (Hl _ curenv_of ltac:(reflexivity)). unfold curenv_of. rewrite Hon. reflexivity. }
  assert (H1 : 1 ∈ [1; 2]) by (by left).
  assert (Hw : user_writable demo_faulting 1 (UXSTACKTOP - UTRAPFRAME_SIZE) (3 * 4096 + 7)).
  { apply (writable_same_page demo_xstack _ 1 xstack_va); [reflexivity|reflexivity|].
    split; [exact Ht|]. split; [reflexivity|exact Hd]. }
  destruct (page_fault_handler_correct demo_faulting [1; 2] [6; 7] 0 faulting_env 1 (3 * 4096 + 7)
    demo_faulting_ok Hlk Hcur (lookup_insert_eq _ _ _) eq_refl H1 Hcr ltac:(split; [discriminate|reflexivity]))
    as (_ & _ & _ & H & _).
  destruct (H ltac:(discriminate) ltac:(discriminate) ltac:(discriminate) Hw) as (s' & Hrun & _ & _ & Hwords & _ & Hvm & _).
  exists s'. split; [exact Hrun|]. split; [exact Hvm|].
  exact (Hwords 10%nat 0x800020 eq_refl ltac:(split; [discriminate|reflexivity])).
Defined.
