(* ===== verification/UserMode.v ===== *)
(** * User mode

    The kernel never runs an environment with the privilege of the kernel.
    [umode s e] says that the saved frame of environment [e] has privilege
    level 3; [ring_ok] that this holds of every environment that is not free
    and of every CPU's current one.  No operation takes [umode] away, so what
    a function learns about an environment ([envid2env], [get_env] and a look
    at its status, [env_alloc]) still holds when it is used.

    [ring m Q s]: from [s], [m] keeps [ring_ok] on every way out, [umode]
    grows, the result satisfies [Q], and if [m] leaves the kernel for
    environment [e] then [umode] holds of [e] there.  [quiet] computations
    ([Quiet]) touch neither the environments nor the CPUs. *)

From S2P Require Import Prelude Mmu Console KState Demo Lock PageAlloc PageTable Quiet AddrSpace PageInsert UserMem Env EnvSpace Sched Nic Syscall SyscallSpec Trap KernelInv TrapDemo.
Open Scope Z_scope.

Definition user_frame (t : Trapframe) : Prop := Z.land (tf_cs t) 3 = 3.
Definition umode (s : kstate) (e : Z) : Prop := ∃ v, envs s !! e = Some v ∧ user_frame (env_tf v).

Record ring_ok (s : kstate) : Prop := mk_ring_ok {
  ro_live : ∀ e v, envs s !! e = Some v → env_status v ≠ ENV_FREE → user_frame (env_tf v);
  ro_cpus : ∀ c ci e, cpus s !! c = Some ci → cpu_env ci = Some e → umode s e;
}.

Definition later (s s' : kstate) : Prop := ∀ e, umode s e → umode s' e.

(** The privilege the CPU leaves the kernel with. *)
Definition leaves_ok (st : stopped) (s : kstate) : Prop := match st with RunEnv e => umode s e | _ => True end.

Definition ring {A} (m : K A) (Q : A → kstate → Prop) (s : kstate) : Prop :=
  match m s with
  | (Ret a, s') => ring_ok s' ∧ later s s' ∧ Q a s'
  | (Stop st, s') => ring_ok s' ∧ leaves_ok st s'
  end.

(** ** More quiet computations *)

Lemma quiet_user_mem_check_loop fuel d a e p : quiet (user_mem_check_loop fuel d a e p).
Proof. revert a. induction fuel; intros a; cbn [user_mem_check_loop]; quiet. Qed.

Lemma quiet_print_string fuel p n : quiet (print_string fuel p n).
Proof. revert p n. induction fuel; intros p n; cbn [print_string]; quiet. Qed.

Lemma quiet_vstore_words va ws : quiet (vstore_words va ws).
Proof. revert va. induction ws; intros va; cbn [vstore_words]; quiet. Qed.

Lemma quiet_halt_search fuel i : quiet (halt_search fuel i).
Proof. revert i. induction fuel; intros i; cbn [halt_search]; quiet. Qed.

#[export] Hint Resolve quiet_user_mem_check_loop quiet_print_string quiet_vstore_words quiet_halt_search : kquiet.

Lemma quiet_user_mem_check d va len perm : quiet (user_mem_check d va len perm).
Proof. quiet. Qed.

Lemma quiet_load_tf p : quiet (load_tf p).
Proof. quiet. Qed.

Lemma quiet_env_free_table e i : quiet (env_free_table e i).
Proof. quiet. Qed.

Lemma quiet_e1000_tx buf len : quiet (e1000_tx buf len).
Proof. quiet. Qed.

Lemma quiet_e1000_rx buf len : quiet (e1000_rx buf len).
Proof. quiet. Qed.

#[export] Hint Resolve quiet_user_mem_check quiet_load_tf quiet_env_free_table quiet_e1000_tx quiet_e1000_rx : kquiet.

(** ** The rules of [ring] *)

Lemma later_refl s : later s s.
Proof. by intros e. Qed.

Lemma later_trans s1 s2 s3 : later s1 s2 → later s2 s3 → later s1 s3.
Proof. intros H1 H2 e He. by apply H2, H1. Qed.

Lemma live_umode s e v : ring_ok s → envs s !! e = Some v → env_status v ≠ ENV_FREE → umode s e.
Proof. intros H E Hv. exists v. split; [done|]. by eapply ro_live. Qed.

Lemma cur_umode s e : ring_ok s → curenv_of s = Some e → umode s e.
Proof. unfold curenv_of. intros H. destruct (cpus s !! cpunum s) eqn:E; [|done]. by apply (ro_cpus _ H _ _ _ E). Qed.

Lemma umode_frame s e v : umode s e → envs s !! e = Some v → user_frame (env_tf v).
Proof. intros (w & E & Hw) E'. congruence. Qed.

Lemma ring_same s s' : envs s' = envs s → cpus s' = cpus s → ring_ok s → ring_ok s' ∧ later s s'.
Proof.
  intros He Hc [H1 H2]. assert (Hu : ∀ e, umode s' e ↔ umode s e) by (intros e; unfold umode; by rewrite He).
  split; [|intros e; apply Hu]. constructor; [by rewrite He|]. rewrite Hc. intros c ci e E E'. apply Hu. by eapply H2.
Qed.

Section rules.
Context {A B : Type}.
Implicit Types (Q : A → kstate → Prop) (R : B → kstate → Prop).

Lemma ring_ret (a : A) Q s : ring_ok s → Q a s → ring (mret a) Q s.
Proof. intros. split_and!; [done|apply later_refl|done]. Qed.

Lemma ring_stop st Q s : ring_ok s → is_exit st = false → ring (stop st) Q s.
Proof. intros H Hs. split; [done|]. by destruct st. Qed.

Lemma ring_run e Q s : ring_ok s → umode s e → ring (stop (RunEnv e)) Q s.
Proof. by intros H Hu. Qed.

Lemma ring_panic msg Q s : ring_ok s → ring (panic msg) Q s.
Proof. by intros H. Qed.

Lemma ring_bind (m : K A) (k : A → K B) Q R s :
  ring m Q s → (∀ a s1, ring_ok s1 → later s s1 → Q a s1 → ring (k a) R s1) → ring (mbind k m) R s.
Proof.
  unfold ring at 1 3. intros Hm Hk. unfold mbind, M_bind. destruct (m s) as [[a|st] s1]; [|done].
  destruct Hm as (H1 & L1 & Ha). specialize (Hk a s1 H1 L1 Ha). unfold ring in Hk.
  destruct (k a s1) as [[b|st] s2]; [|done]. destruct Hk as (H2 & L2 & Hb). split_and!; [done|by eapply later_trans|done].
Qed.

Lemma ring_quiet (m : K A) s : ring_ok s → quiet m → ring m (λ _ _, True) s.
Proof.
  intros H Hq. destruct (Hq s) as (He & Hc & _ & Hst). unfold ring. destruct (m s) as [[a|st] s1]; cbn in *;
    destruct (ring_same s s1 He Hc H); [done|]. split; [done|]. by destruct st.
Qed.

Lemma ring_weaken (m : K A) (Q Q' : A → kstate → Prop) s : (∀ a s', Q a s' → Q' a s') → ring m Q s → ring m Q' s.
Proof. unfold ring. intros HQ. destruct (m s) as [[a|st] s1]; [|done]. intros (? & ? & ?). split_and!; auto. Qed.

Lemma ring_gets (f : kstate → A) (k : A → K B) R s : ring (k (f s)) R s → ring (mbind k (gets f)) R s.
Proof. done. Qed.

Lemma ring_the (o : option A) (k : A → K B) R s : ring_ok s → (∀ a, o = Some a → ring (k a) R s) → ring (mbind k (the o)) R s.
Proof. intros H Hk. destruct o; [by apply Hk|done]. Qed.

Lemma ring_get_env e (k : Env → K B) R s :
  ring_ok s → (∀ v, envs s !! e = Some v → ring (k v) R s) → ring (mbind k (get_env e)) R s.
Proof.
  intros H Hk. destruct (envs s !! e) as [v|] eqn:E.
  - unfold ring. rewrite (bind_Ret _ _ _ v s) by (by apply get_env_eq). by apply Hk.
  - unfold ring, get_env. msimpl. by rewrite E.
Qed.

(** A computation that does not return. *)
Lemma ring_never (m : K False) (Q Q' : False → kstate → Prop) s : ring m Q' s → ring m Q s.
Proof. unfold ring. by destruct (m s) as [[[]|st] s1]. Qed.
End rules.

(** ** Assignments to environments and CPUs *)

Definition upd_ok (s : kstate) (e : Z) (f : Env → Env) : Prop :=
  ∀ v, envs s !! e = Some v →
    (user_frame (env_tf v) → user_frame (env_tf (f v))) ∧
    (env_status (f v) = ENV_FREE ∨ env_status (f v) = env_status v ∨ user_frame (env_tf (f v))).

Lemma upd_ok_live s e f : umode s e → (∀ v, user_frame (env_tf v) → user_frame (env_tf (f v))) → upd_ok s e f.
Proof. intros Hu Hf v E. split; [apply Hf|]. right; right. apply Hf. by eapply umode_frame. Qed.

Lemma upd_ok_same s e f :
  (∀ v, user_frame (env_tf v) → user_frame (env_tf (f v))) → (∀ v, env_status (f v) = env_status v) → upd_ok s e f.
Proof. intros Ht Hs v E. split; [apply Ht|]. rewrite Hs. auto. Qed.

Lemma upd_ok_free s e : upd_ok s e (set_env_status ENV_FREE).
Proof. intros v E. auto. Qed.

Lemma upd_ok_user s e f : (∀ v, user_frame (env_tf (f v))) → upd_ok s e f.
Proof. intros Hf v E. auto. Qed.

Lemma ring_upd_env e f s :
  ring_ok s → upd_ok s e f → ring (upd_env e f) (λ _ s', (∀ v, user_frame (env_tf (f v))) → umode s' e) s.
Proof.
  intros H Hf. unfold ring. destruct (envs s !! e) as [v|] eqn:E; [|by unfold upd_env, get_env; msimpl; rewrite E].
  rewrite (upd_env_eq s e v f E). destruct (Hf v E) as [Hk Hs].
  assert (L : later s (set_envs (<[e := f v]> (envs s)) s)).
  { intros i (w & Ew & Hw). unfold umode. cbn. destruct (decide (e = i)) as [<-|Hne].
    - exists (f v). rewrite lookup_insert_eq. split; [done|]. apply Hk. congruence.
    - exists w. by rewrite lookup_insert_ne. }
  split_and!; [|exact L|intros Hu; exists (f v); cbn; by rewrite lookup_insert_eq].
  constructor; [|intros c ci i Ec Ei; apply L, (ro_cpus _ H c ci i Ec Ei)].
  intros i w. cbn. destruct (decide (e = i)) as [<-|Hne].
  - rewrite lookup_insert_eq. intros [= <-] Hn. destruct Hs as [?|[Hs|Hs]]; [done| |done]. apply Hk, (ro_live _ H e v E). congruence.
  - rewrite lookup_insert_ne by done. apply (ro_live _ H).
Qed.

(** Several assignments in a row are one. *)
Lemma upd_env_fuse {B} e f g (k : unit → K B) s :
  (upd_env e f;; mbind k (upd_env e g)) s = (mbind k (upd_env e (λ v, g (f v)))) s.
Proof.
  destruct (envs s !! e) as [v|] eqn:E.
  - mrun (by apply upd_env_eq). rewrite (bind_Ret _ _ _ tt (set_envs (<[e := g (f v)]> (envs s)) s)).
    + symmetry. by mrun (by apply upd_env_eq).
    + rewrite (upd_env_eq _ e (f v)); cbn; [|apply lookup_insert_eq]. by rewrite insert_insert_eq.
  - unfold upd_env, get_env. msimpl. by rewrite E.
Qed.

Lemma ring_fuse {B} e f g (k : unit → K B) R s :
  ring (mbind k (upd_env e (λ v, g (f v)))) R s → ring (upd_env e f;; mbind k (upd_env e g)) R s.
Proof. unfold ring. by rewrite upd_env_fuse. Qed.

Lemma ring_upd_cpu f s :
  ring_ok s → (∀ ci e, cpu_env (f ci) = Some e → cpu_env ci = Some e ∨ umode s e) → ring (upd_cpu f) (λ _ _, True) s.
Proof.
  intros H Hf. unfold ring, upd_cpu, thiscpu. msimpl. destruct (cpus s !! cpunum s) as [ci|] eqn:E; [|done].
  split_and!; [|intros e He; exact He|done]. constructor; [apply (ro_live _ H)|]. intros c cj e. cbn.
  destruct (decide (cpunum s = c)) as [<-|Hne].
  - rewrite lookup_insert_eq. intros [= <-] He. destruct (Hf ci e He) as [?|?]; [|done]. by apply (ro_cpus _ H _ _ _ E).
  - rewrite lookup_insert_ne by done. apply (ro_cpus _ H).
Qed.

Lemma ring_set_curenv o s : ring_ok s → (∀ e, o = Some e → umode s e) → ring (set_curenv o) (λ _ _, True) s.
Proof. intros H Ho. apply ring_upd_cpu; [done|]. intros ci e He. right. by apply Ho. Qed.

(** ** Following the code *)

Lemma ring_the_curenv {B} (k : Z → K B) R s :
  ring_ok s → (∀ c, curenv_of s = Some c → umode s c → ring (k c) R s) → ring (mbind k the_curenv) R s.
Proof.
  intros H Hk. unfold the_curenv, curenv. unfold ring. rewrite bind_assoc, bind_gets.
  destruct (curenv_of s) eqn:E; [|done]. apply Hk; [done|]. by apply cur_umode.
Qed.

Lemma ring_curenv_val {B} (k : Env → K B) R s :
  ring_ok s → (∀ c v, curenv_of s = Some c → umode s c → user_frame (env_tf v) → ring (k v) R s) → ring (mbind k curenv_val) R s.
Proof.
  intros H Hk. unfold curenv_val. unfold ring. rewrite bind_assoc. apply ring_the_curenv; [done|]. intros c Hc Hu.
  apply ring_get_env; [done|]. intros v E. apply (Hk c); [done..|]. by eapply umode_frame.
Qed.

Lemma status_live st v : is_status st v = true → st ≠ ENV_FREE → env_status v ≠ ENV_FREE.
Proof. unfold is_status. intros ->%bool_decide_eq_true. done. Qed.

(** Environments known to be in user mode. *)
Ltac umode :=
  first [ eassumption | eapply cur_umode; eassumption
        | eapply live_umode; [eassumption|eassumption|eapply status_live; [eassumption|discriminate]] ].

(** What is known is carried to the next state. *)
Ltac carry := repeat match goal with H : umode ?s _, L : later ?s _ |- _ => apply L in H end;
  repeat match goal with L : later _ _ |- _ => clear L end.

Create HintDb kring.
#[export] Hint Extern 1 (umode _ _) => umode : kring.
#[export] Hint Extern 1 (∀ e, _ = Some e → umode _ e) => (intros ? ?; simplify_eq; umode) : kring.
#[export] Hint Extern 1 (upd_ok _ _ _) => (apply upd_ok_same; [let H := fresh in intros ? H; exact H|intros ?; reflexivity]) : kring.
#[export] Hint Extern 1 (upd_ok _ _ _) => (apply upd_ok_live; [umode|let H := fresh in intros ? H; exact H]) : kring.
#[export] Hint Extern 4 (ring _ (λ _ _, True) _) => (apply ring_quiet; [assumption|solve [quiet]]) : kring.
#[export] Hint Extern 1 (upd_ok _ _ _) => (apply upd_ok_user; intros ?; assumption) : kring.
#[export] Hint Resolve upd_ok_free ring_upd_env ring_set_curenv : kring.

Ltac rstep :=
  lazymatch goal with
  | |- ring (mbind _ (gets _)) _ _ => apply ring_gets; cbv beta
  | |- ring (mbind _ curenv) _ _ => apply (ring_gets curenv_of)
  | |- ring (mbind _ (mret ?a)) _ ?s => apply (ring_gets (λ _, a)); cbv beta
  | |- ring (mbind _ (the _)) _ _ => apply ring_the; [assumption|intros ? ?];
    try match goal with H : ∀ e, snd (_, ?o) = Some e → umode _ e, E : ?o = Some ?a |- _ => specialize (H a E) end
  | |- ring (mbind _ (get_env _)) _ _ => apply ring_get_env; [assumption|intros ? ?]
  | |- ring (mbind _ the_curenv) _ _ => apply ring_the_curenv; [assumption|intros ? ? ?]
  | |- ring (mbind _ curenv_val) _ _ => apply ring_curenv_val; [assumption|intros ? ? ? ? ?]
  | |- ring (mbind _ _) _ _ =>
    first [ eapply ring_bind; [solve [eauto 3 with kring]|] | eapply (ring_bind _ _ (λ _ _, True)) ]; [..|intros ? ? ? ? ?; carry]
  | |- ring (match ?x with _ => _ end) _ _ => destruct x eqn:?;
    repeat match goal with H : _ && _ = true |- _ => apply andb_prop in H as [? ?] end
  | |- ring (let _ := _ in _) _ _ => cbv zeta
  | |- ring (mret _) _ _ => apply ring_ret; [assumption|]
  | |- ring (stop (RunEnv _)) _ _ => apply ring_run; [assumption|umode]
  | |- ring (stop _) _ _ => apply ring_stop; [assumption|reflexivity]
  | |- ring (panic _) _ _ => apply ring_panic; assumption
  | |- ring ?m _ _ =>
    first [ solve [eauto 3 with kring] | eapply ring_weaken; [|solve [eauto 3 with kring]]; solve [auto]
          | eapply ring_never; solve [eauto 3 with kring] | let h := head m in progress unfold h ]
  | |- _ => solve [done | eauto 3 with kring]
  end.
Ltac ring_ := repeat rstep.

Lemma ring_envid2env id check s : ring_ok s → ring (envid2env id check) (λ r s', ∀ e, snd r = Some e → umode s' e) s.
Proof.
  intros H. unfold envid2env. destruct (id =? 0).
  - ring_.
  - cbv zeta. rstep. rstep; [ring_|]. assert (umode s (ENVX id)).
    { eapply live_umode; [done|done|]. intros Hf. by rewrite bool_decide_eq_true_2 in *. }
    ring_. by intros e [= <-].
Qed.

Lemma ring_env_alloc p s : ring_ok s → ring (env_alloc p) (λ r s', ∀ e, snd r = Some e → umode s' e) s.
Proof.
  intros H. unfold env_alloc. rstep. rstep; [|ring_]. rstep.
  { unfold env_setup_vm. ring_. }
  rstep; [ring_|]. do 7 apply ring_fuse. eapply ring_bind; [apply ring_upd_env; [done|by apply upd_ok_user]|].
  intros u s2 Hs2 _ Hu. specialize (Hu ltac:(done)). ring_. by intros e [= <-].
Qed.

#[export] Hint Resolve ring_envid2env ring_env_alloc : kring.

Lemma ring_env_free e s : ring_ok s → ring (env_free e) (λ _ _, True) s.
Proof. intros H. unfold env_free. ring_. Qed.

#[export] Hint Resolve ring_env_free : kring.

Lemma ring_env_run e s : ring_ok s → umode s e → ring (env_run e) (λ _ _, True) s.
Proof. intros H Hu. unfold env_run. ring_. Qed.

#[export] Hint Resolve ring_env_run : kring.

Lemma ring_sched_search fuel i s : ring_ok s → ring (sched_search fuel i) (λ _ _, True) s.
Proof. revert i s. induction fuel; intros i s H; cbn [sched_search]; ring_. Qed.

#[export] Hint Resolve ring_sched_search : kring.
#[export] Hint Extern 2 (ring (upd_cpu _) _ _) => (apply ring_upd_cpu; [assumption|let H := fresh in intros ? ? H; left; exact H]) : kring.

Lemma ring_sched_yield s : ring_ok s → ring sched_yield (λ _ _, True) s.
Proof. intros H. unfold sched_yield. ring_. Qed.

#[export] Hint Resolve ring_sched_yield : kring.

Lemma ring_env_destroy e s : ring_ok s → ring (env_destroy e) (λ _ _, True) s.
Proof. intros H. unfold env_destroy. ring_. Qed.

#[export] Hint Resolve ring_env_destroy : kring.

Lemma ring_user_mem_assert e va len perm s : ring_ok s → ring (user_mem_assert e va len perm) (λ _ _, True) s.
Proof. intros H. unfold user_mem_assert. ring_. Qed.

#[export] Hint Resolve ring_user_mem_assert : kring.

(** ** System calls *)

Lemma ring_sys_exofork s : ring_ok s → ring sys_exofork (λ _ _, True) s.
Proof. intros H. unfold sys_exofork. ring_. Qed.

(** The frame that user memory gives is in kernel hands before it is made a
    user frame; no other step comes between. *)
Lemma ring_sys_env_set_trapframe id tf s : ring_ok s → ring (sys_env_set_trapframe id tf) (λ _ _, True) s.
Proof.
  intros H. unfold sys_env_set_trapframe. do 3 rstep; [ring_|]. do 2 rstep. rstep; [ring_|]. do 3 apply ring_fuse.
  eapply ring_bind; [apply ring_upd_env; [done|by apply upd_ok_user]|]. intros; ring_.
Qed.

#[export] Hint Resolve ring_sys_exofork ring_sys_env_set_trapframe : kring.

Lemma ring_sys_ipc_try_send id v a p s : ring_ok s → ring (sys_ipc_try_send id v a p) (λ _ _, True) s.
Proof. intros H. unfold sys_ipc_try_send. ring_. Qed.

Lemma ring_sys_env_set_status id st s : ring_ok s → ring (sys_env_set_status id st) (λ _ _, True) s.
Proof. intros H. unfold sys_env_set_status. ring_. Qed.

#[export] Hint Resolve ring_sys_ipc_try_send ring_sys_env_set_status : kring.

Lemma ring_syscall n a1 a2 a3 a4 a5 s : ring_ok s → ring (syscall n a1 a2 a3 a4 a5) (λ _ _, True) s.
Proof. intros H. unfold syscall. ring_. Qed.

#[export] Hint Resolve ring_syscall : kring.

Lemma ring_page_fault_handler p s : ring_ok s → ring (page_fault_handler p) (λ _ _, True) s.
Proof. intros H. unfold page_fault_handler. ring_. Qed.

#[export] Hint Resolve ring_page_fault_handler : kring.

Lemma ring_trap_dispatch p s : ring_ok s → ring (trap_dispatch p) (λ _ _, True) s.
Proof. intros H. unfold trap_dispatch. ring_. Qed.

#[export] Hint Resolve ring_trap_dispatch : kring.

Lemma ring_trap tf s : ring_ok s → ring (trap tf) (λ _ _, True) s.
Proof.
  intros H. unfold trap. destruct (Z.land (tf_cs tf) 3 =? 3) eqn:Hcs; [|ring_].
  assert (user_frame tf) by exact (proj1 (Z.eqb_eq _ _) Hcs). ring_.
Qed.

Lemma machine_step_ring s s' : machine_step s s' → ring_ok s → ring_ok s'.
Proof.
  intros Hst Hs. destruct Hst as [tf s st s' H|n s|a b s Hb|va s|c n s]; try by apply (ring_same s).
  pose proof (ring_trap tf s Hs) as Ht. unfold ring in Ht. rewrite H in Ht. apply Ht.
Qed.

(** C6: user mode, under the assumption that the saved frames change only by
    the kernel's own assignments to them, not by stores to their bytes.  (The
    model has the environment table beside memory; in the code a program can
    break the assumption, for instance with [sys_map_kernel_page].)  Whatever
    traps happened before, on whatever CPUs, whatever the user programs stored
    in their own memory and whatever frames they gave to
    [sys_env_set_trapframe]: when a trap ends by running an environment, the
    code segment of the frame that is loaded has privilege level 3. *)
Theorem runs_in_user_mode s0 s tf e s' :
  ring_ok s0 → rtc machine_step s0 s → trap tf s = (Stop (RunEnv e), s') →
  ∃ v, envs s' !! e = Some v ∧ Z.land (tf_cs (env_tf v)) 3 = 3.
Proof.
  intros H0 Hr Ht. assert (Hs : ring_ok s).
  { induction Hr as [|x y z Hxy _ IH]; [done|]. apply IH; [|done]. by apply (machine_step_ring x). }
  pose proof (ring_trap tf s Hs) as H. unfold ring in H. rewrite Ht in H. apply H.
Qed.

(** ** The machine of [Demo], with the frames of its environments in user mode *)

Definition demo_ring : kstate := set_envs (alter (set_env_tf user_tf) 0 (alter (set_env_tf user_tf) 1 demo_envs)) demo_user.

Definition ring_check (s : kstate) : bool :=
  forallb (λ p : Z * Env, bool_decide (env_status p.2 = ENV_FREE) || (Z.land (tf_cs (env_tf p.2)) 3 =? 3)) (map_to_list (envs s)) &&
  forallb (λ p : Z * CpuInfo, match cpu_env p.2 with
                              | Some e => match envs s !! e with Some v => Z.land (tf_cs (env_tf v)) 3 =? 3 | None => false end
                              | None => true
                              end) (map_to_list (cpus s)).

Lemma ring_check_ok s : ring_check s = true → ring_ok s.
Proof.
  unfold ring_check. rewrite andb_true_iff, !forallb_forall. intros [H1 H2]. constructor.
  - intros e v E Hn. specialize (H1 (e, v)). rewrite <- list_elem_of_In, elem_of_map_to_list in H1. specialize (H1 E). cbn in H1.
    rewrite bool_decide_eq_false_2 in H1 by done. by apply Z.eqb_eq in H1.
  - intros c ci e E He. specialize (H2 (c, ci)). rewrite <- list_elem_of_In, elem_of_map_to_list in H2. specialize (H2 E). cbn in H2.
    rewrite He in H2. unfold umode. destruct (envs s !! e) as [v|]; [|done]. exists v. split; [done|]. by apply Z.eqb_eq in H2.
Qed.

(** After a store, environment 0 asks for its id. *)
Lemma runs_in_user_mode_witness :
  let s := set_mem (st8 (mem demo_ring) 12288 7) demo_ring in
  trap (call_tf 2 0 0) s = (Stop (RunEnv 0), snd (trap (call_tf 2 0 0) s)) ∧
  ∃ v, envs (snd (trap (call_tf 2 0 0) s)) !! 0 = Some v ∧ Z.land (tf_cs (env_tf v)) 3 = 3.
Proof.
  intros s. assert (Ht : trap (call_tf 2 0 0) s = (Stop (RunEnv 0), snd (trap (call_tf 2 0 0) s))).
  { rewrite (run_pair (trap (call_tf 2 0 0) s)) at 1. f_equal. }
  split; [exact Ht|]. apply (runs_in_user_mode demo_ring s (call_tf 2 0 0) 0 _).
  - apply ring_check_ok. vm_compute. reflexivity.
  - eapply rtc_l; [apply (step_user_store 12288 7); split; [discriminate|reflexivity]|apply rtc_refl].
  - exact Ht.
Defined.
