(* ===== verification/CString.v ===== *)
(** * String routines ([lib/string.c])

    The byte and string routines both the kernel and the user programs are
    linked with, on a memory of bytes.  A pointer is a [Z]; C allows pointer
    arithmetic within an object only, which never wraps around.  [char] is
    signed.  A loop that ends at a NUL takes fuel and yields [None] when it
    runs out; on a NUL-terminated string the length plus one is enough.

    [memset] and [memmove] are the assembly versions the file compiles
    ([ASM] is 1): [rep stos] and [rep movs] by words when everything is
    aligned, by bytes otherwise, downwards for a destination inside the
    source.  The theorems equate them with the plain definitions [mem_set] and
    [mem_copy] of what they should do. *)

From S2P Require Import Prelude Mmu Console KState.
Open Scope Z_scope.

(** ** Strings in memory *)

(** The NUL-terminated string [l] is at [a]. *)
Fixpoint is_str (m : memory) (a : Z) (l : list Z) : Prop :=
  match l with
  | [] => m a = 0
  | c :: l' => m a = c ∧ c ≠ 0 ∧ is_str m (a + 1) l'
  end.

(** ** The functions *)

Fixpoint strlen (fuel : nat) (m : memory) (s : Z) : option Z :=
  match fuel with
  | O => None
  | S fuel' =>
    if m s =? 0 then Some 0 else n ← strlen fuel' m (s + 1); Some (n + 1)
  end.

Fixpoint strnlen (m : memory) (s : Z) (size : nat) : Z :=
  match size with
  | O => 0
  | S size' => if m s =? 0 then 0 else 1 + strnlen m (s + 1) size'
  end.

Fixpoint strcpy (fuel : nat) (m : memory) (dst src : Z) : option memory :=
  match fuel with
  | O => None
  | S fuel' =>
    let c := m src in
    let m := st8 m dst c in
    if c =? 0 then Some m else strcpy fuel' m (dst + 1) (src + 1)
  end.

Definition strcat (fuel : nat) (m : memory) (dst src : Z) : option memory :=
  len ← strlen fuel m dst; strcpy fuel m (dst + len) src.

Fixpoint strncpy (m : memory) (dst src : Z) (size : nat) : memory :=
  match size with
  | O => m
  | S size' =>
    let m := st8 m dst (m src) in
    strncpy m (dst + 1) (if m src =? 0 then src else src + 1) size'
  end.

(** The loop of [strlcpy], with [size] already decremented; it returns [dst]. *)
Fixpoint strlcpy_loop (m : memory) (dst src : Z) (size : nat) : memory * Z :=
  match size with
  | O => (m, dst)
  | S size' =>
    if m src =? 0 then (m, dst)
    else strlcpy_loop (st8 m dst (m src)) (dst + 1) (src + 1) size'
  end.

Definition strlcpy (m : memory) (dst src size : Z) : memory * Z :=
  if 0 <? size then
    let '(m, d) := strlcpy_loop m dst src (Z.to_nat (size - 1)) in
    (st8 m d 0, d - dst)
  else (m, 0).

Fixpoint strcmp (fuel : nat) (m : memory) (p q : Z) : option Z :=
  match fuel with
  | O => None
  | S fuel' =>
    if negb (m p =? 0) && (m p =? m q) then strcmp fuel' m (p + 1) (q + 1)
    else Some (m p - m q)
  end.

Fixpoint strncmp (m : memory) (p q : Z) (n : nat) : Z :=
  match n with
  | O => 0
  | S n' =>
    if negb (m p =? 0) && (m p =? m q) then strncmp m (p + 1) (q + 1) n'
    else m p - m q
  end.

(** [c] is the [char] the caller passes. *)
Fixpoint strchr (fuel : nat) (m : memory) (s c : Z) : option (option Z) :=
  match fuel with
  | O => None
  | S fuel' =>
    if m s =? 0 then Some None
    else if s8 (m s) =? c then Some (Some s) else strchr fuel' m (s + 1) c
  end.

Fixpoint strfind (fuel : nat) (m : memory) (s c : Z) : option Z :=
  match fuel with
  | O => None
  | S fuel' =>
    if m s =? 0 then Some s
    else if s8 (m s) =? c then Some s else strfind fuel' m (s + 1) c
  end.

(** [rep stosb], [rep stosl] upwards, [n] times. *)
Fixpoint rep_stosb (n : nat) (m : memory) (d al : Z) : memory :=
  match n with
  | O => m
  | S n' => rep_stosb n' (st8 m d al) (d + 1) al
  end.

Fixpoint rep_stosl (n : nat) (m : memory) (d eax : Z) : memory :=
  match n with
  | O => m
  | S n' => rep_stosl n' (st32 m d eax) (d + 4) eax
  end.

Definition memset (m : memory) (v c n : Z) : memory :=
  if n =? 0 then m
  else if (Z.rem (s32 v) 4 =? 0) && (n mod 4 =? 0) then
    let c := Z.land c 0xFF in
    let c := Z.lor (Z.lor (Z.lor (u32 (Z.shiftl c 24)) (Z.shiftl c 16)) (Z.shiftl c 8)) c in
    rep_stosl (Z.to_nat (n / 4)) m v c
  else rep_stosb (Z.to_nat n) m v c.

(** [rep movs] of [n] units of [w] bytes; [dir] is 1, or -1 after [std]. *)
Fixpoint rep_movs (w dir : Z) (n : nat) (m : memory) (d s : Z) : memory :=
  match n with
  | O => m
  | S n' => rep_movs w dir n' (mem_copy m d s w) (d + dir * w) (s + dir * w)
  end.

Definition memmove (m : memory) (dst src n : Z) : memory :=
  let aligned s d := (Z.rem (s32 s) 4 =? 0) && (Z.rem (s32 d) 4 =? 0) && (n mod 4 =? 0) in
  if (src <? dst) && (dst <? src + n) then
    let s := src + n in
    let d := dst + n in
    if aligned s d then rep_movs 4 (-1) (Z.to_nat (n / 4)) m (d - 4) (s - 4)
    else rep_movs 1 (-1) (Z.to_nat n) m (d - 1) (s - 1)
  else
    if aligned src dst then rep_movs 4 1 (Z.to_nat (n / 4)) m dst src
    else rep_movs 1 1 (Z.to_nat n) m dst src.

Definition memcpy (m : memory) (dst src n : Z) : memory := memmove m dst src n.

Fixpoint memcmp (m : memory) (s1 s2 : Z) (n : nat) : Z :=
  match n with
  | O => 0
  | S n' => if m s1 =? m s2 then memcmp m (s1 + 1) (s2 + 1) n' else m s1 - m s2
  end.

Fixpoint memfind (m : memory) (s c : Z) (n : nat) : Z :=
  match n with
  | O => s
  | S n' => if m s =? u8 c then s else memfind m (s + 1) c n'
  end.

(** ** [strtol] *)

Fixpoint skip_blanks (fuel : nat) (m : memory) (s : Z) : option Z :=
  match fuel with
  | O => None
  | S fuel' => if (m s =? 32) || (m s =? 9) then skip_blanks fuel' m (s + 1) else Some s
  end.

(** The value of a digit, or [None] where the loop breaks. *)
Definition digit_of (base b : Z) : option Z :=
  let c := s8 b in
  let dig :=
    if (48 <=? c) && (c <=? 57) then Some (c - 48)
    else if (97 <=? c) && (c <=? 122) then Some (c - 97 + 10)
    else if (65 <=? c) && (c <=? 90) then Some (c - 65 + 10)
    else None in
  match dig with
  | Some d => if base <=? d then None else Some d
  | None => None
  end.

(** The value so far and the end; [long] is 32 bits wide and wraps around. *)
Fixpoint strtol_digits (fuel : nat) (m : memory) (s base val : Z) : option (Z * Z) :=
  match fuel with
  | O => None
  | S fuel' =>
    match digit_of base (m s) with
    | None => Some (val, s)
    | Some dig => strtol_digits fuel' m (s + 1) base (s32 (val * base + dig))
    end
  end.

(** The value and [*endptr]. *)
Definition strtol (fuel : nat) (m : memory) (s base : Z) : option (Z * Z) :=
  s ← skip_blanks fuel m s;
  let '(s, neg) :=
    if m s =? 43 then (s + 1, false) else if m s =? 45 then (s + 1, true) else (s, false) in
  let '(s, base) :=
    if ((base =? 0) || (base =? 16)) && ((m s =? 48) && (m (s + 1) =? 120)) then (s + 2, 16)
    else if (base =? 0) && (m s =? 48) then (s + 1, 8)
    else if base =? 0 then (s, 10) else (s, base) in
  r ← strtol_digits fuel m s base 0;
  let '(val, s) := r in
  Some (if (neg : bool) then s32 (- val) else val, s).

(** ** Strings *)

Lemma is_str_lookup m a l i c : is_str m a l → l !! i = Some c → m (a + Z.of_nat i) = c ∧ c ≠ 0.
Proof.
  revert a i. induction l as [|b l IH]; intros a i Hs Hi; [done|]. destruct Hs as (Hb & Hn & Hs).
  destruct i as [|i]; cbn in Hi; [injection Hi as <-; by rewrite Z.add_0_r|].
  destruct (IH (a + 1) i Hs Hi) as [<- ?]. split; [f_equal; lia|done].
Qed.

Lemma is_str_ext m m' a l :
  (∀ x, a <= x <= a + Z.of_nat (length l) → m' x = m x) → is_str m a l → is_str m' a l.
Proof.
  revert a. induction l as [|c l IH]; intros a H Hs; cbn [is_str length] in *; [rewrite H by lia; done|].
  destruct Hs as (Hc & Hn & Hs). rewrite H by lia. split_and!; [done|done|]. apply IH; [|done]. intros. apply H. lia.
Qed.

Lemma strlen_spec fuel m a l : is_str m a l → (length l < fuel)%nat → strlen fuel m a = Some (Z.of_nat (length l)).
Proof.
  revert a fuel. induction l as [|c l IH]; intros a [|fuel] Hs Hf; cbn [is_str length strlen] in *; try lia.
  - by rewrite Hs.
  - destruct Hs as (-> & Hn & Hs). destruct (Z.eqb_spec c 0); [done|]. rewrite (IH _ fuel) by (done || lia).
    cbn. f_equal. lia.
Qed.

Lemma strnlen_spec m a l n : is_str m a l → strnlen m a n = Z.of_nat (Nat.min (length l) n).
Proof.
  revert a n. induction l as [|c l IH]; intros a [|n] Hs; cbn [is_str length strnlen] in *; try done.
  - by rewrite Hs.
  - destruct Hs as (-> & Hn & Hs). destruct (Z.eqb_spec c 0); [done|]. rewrite IH by done. lia.
Qed.

(** The order of [strcmp]: lexicographic on unsigned bytes. *)
Fixpoint lex_compare (l1 l2 : list Z) : comparison :=
  match l1, l2 with
  | [], [] => Eq
  | [], _ => Lt
  | _, [] => Gt
  | c1 :: l1', c2 :: l2' => match c1 ?= c2 with Eq => lex_compare l1' l2' | r => r end
  end.

Lemma lex_compare_eq l1 l2 : lex_compare l1 l2 = Eq ↔ l1 = l2.
Proof.
  revert l2. induction l1 as [|c1 l1 IH]; intros [|c2 l2]; cbn; try done.
  destruct (Z.compare_spec c1 c2) as [->|H|H]; [rewrite IH; naive_solver|split; [done|intros [= -> _]; lia]..].
Qed.

Lemma strcmp_spec fuel m p q l1 l2 :
  mem_ok m → is_str m p l1 → is_str m q l2 → (length l1 < fuel)%nat →
  ∃ d, strcmp fuel m p q = Some d ∧ (d ?= 0) = lex_compare l1 l2 ∧ -256 < d < 256.
Proof.
  intros Hm. revert p q l2 fuel. induction l1 as [|c1 l1 IH]; intros p q l2 [|fuel] H1 H2 Hf;
    cbn [is_str length strcmp] in *; try lia.
  - rewrite H1. cbn [Z.eqb negb andb]. exists (0 - m q). split; [done|].
    pose proof (Hm q) as Hq. unfold is_u8 in Hq.
    destruct l2 as [|c2 l2]; cbn [is_str lex_compare] in *; [rewrite H2; done|].
    destruct H2 as (H2 & Hn & _). rewrite H2 in *. split; [|lia]. apply Z.compare_lt_iff. lia.
  - destruct H1 as (H1 & Hn1 & Hs1). rewrite H1. destruct (Z.eqb_spec c1 0); [done|]. cbn [negb andb].
    pose proof (Hm p) as Hp. pose proof (Hm q) as Hq. unfold is_u8 in Hp, Hq. rewrite H1 in Hp.
    destruct l2 as [|c2 l2]; cbn [is_str lex_compare] in *.
    { rewrite H2. destruct (Z.eqb_spec c1 0); [done|]. exists (c1 - 0). split; [done|].
      split; [|lia]. apply Z.compare_gt_iff. lia. }
    destruct H2 as (H2 & Hn2 & Hs2). rewrite H2 in *. destruct (Z.eqb_spec c1 c2) as [->|Hne].
    + rewrite Z.compare_refl. apply IH; [done|done|lia].
    + exists (c1 - c2). split; [done|]. split; [|lia].
      destruct (Z.compare_spec c1 c2) as [?|H|H]; [done|apply Z.compare_lt_iff; lia|apply Z.compare_gt_iff; lia].
Qed.

Lemma strchr_spec fuel m a l c :
  is_str m a l → (length l < fuel)%nat →
  strchr fuel m a c = Some ((λ p, a + Z.of_nat (fst p)) <$> list_find (λ b, s8 b = c) l).
Proof.
  revert a fuel. induction l as [|b l IH]; intros a [|fuel] Hs Hf; cbn [is_str length strchr list_find] in *; try lia.
  - by rewrite Hs.
  - destruct Hs as (-> & Hn & Hs). destruct (Z.eqb_spec b 0); [done|].
    destruct (decide (s8 b = c)) as [->|Hne].
    + rewrite Z.eqb_refl. cbn. by rewrite Z.add_0_r.
    + destruct (Z.eqb_spec (s8 b) c); [done|]. rewrite IH by (done || lia). f_equal.
      destruct (list_find _ l) as [[i x]|]; cbn; [f_equal; lia|done].
Qed.

(** ** [strlcpy] *)

Lemma strlcpy_loop_spec n : ∀ m dst src l,
  mem_ok m → is_str m src l →
  dst + Z.of_nat n < src ∨ src + Z.of_nat (length l) < dst →
  let k := Nat.min (length l) n in
  ∃ m', strlcpy_loop m dst src n = (m', dst + Z.of_nat k) ∧ mem_ok m' ∧
    (∀ i, (i < k)%nat → m' (dst + Z.of_nat i) = m (src + Z.of_nat i)) ∧
    (∀ x, ¬ dst <= x < dst + Z.of_nat k → m' x = m x).
Proof.
  induction n as [|n IH]; intros m dst src l Hm Hs Hd k; cbn [strlcpy_loop].
  { exists m. unfold k. rewrite Nat.min_0_r, Z.add_0_r. split_and!; [done|done|lia|done]. }
  destruct l as [|c l]; cbn [is_str length] in *.
  { rewrite Hs. exists m. rewrite Z.add_0_r. cbn. split_and!; [done|done|lia|done]. }
  destruct Hs as (Hc & Hn & Hs). rewrite Hc. destruct (Z.eqb_spec c 0); [done|].
  destruct (IH (st8 m dst c) (dst + 1) (src + 1) l) as (m' & Hr & Hm' & Hin & Hout).
  - by apply st8_ok.
  - eapply is_str_ext; [|exact Hs]. intros. apply st8_other. lia.
  - lia.
  - exists m'. rewrite Hr. unfold k in *. cbn [length Nat.min] in *. split_and!; [f_equal; lia|done| |].
    + intros [|i] Hi.
      * rewrite !Z.add_0_r, Hout, Hc by lia. apply st8_byte. rewrite <- Hc. apply Hm.
      * replace (dst + Z.of_nat (S i)) with (dst + 1 + Z.of_nat i) by lia. rewrite Hin by lia.
        rewrite st8_other by lia. f_equal. lia.
    + intros x Hx. rewrite Hout by lia. apply st8_other. lia.
Qed.

Lemma is_str_intro m a l :
  (∀ i c, l !! i = Some c → m (a + Z.of_nat i) = c ∧ c ≠ 0) → m (a + Z.of_nat (length l)) = 0 → is_str m a l.
Proof.
  revert a. induction l as [|c l IH]; intros a Hl H0; cbn [is_str length] in *; [by rewrite Z.add_0_r in H0|].
  destruct (Hl 0%nat c eq_refl) as [Hc Hn]. rewrite Z.add_0_r in Hc. split_and!; [done|done|].
  apply IH; [|rewrite <- H0; f_equal; lia]. intros i c' Hi. destruct (Hl (S i) c' Hi) as [<- ?].
  split; [f_equal; lia|done].
Qed.

(** [strlcpy] copies as much of the string as fits in [size] bytes with its
    terminator, always terminates it, writes nothing outside, and returns the
    number of characters copied. *)
Lemma strlcpy_spec m dst src size l :
  mem_ok m → is_str m src l → 0 < size →
  dst + size <= src ∨ src + Z.of_nat (length l) < dst →
  let k := Nat.min (length l) (Z.to_nat (size - 1)) in
  ∃ m', strlcpy m dst src size = (m', Z.of_nat k) ∧ is_str m' dst (take k l) ∧ Z.of_nat k < size ∧
    ∀ x, ¬ dst <= x < dst + Z.of_nat k + 1 → m' x = m x.
Proof.
  intros Hm Hs Hsz Hd k. unfold strlcpy. replace (0 <? size) with true by lia.
  destruct (strlcpy_loop_spec (Z.to_nat (size - 1)) m dst src l Hm Hs ltac:(lia)) as (m' & -> & Hm' & Hin & Hout).
  fold k in Hin, Hout |- *. exists (st8 m' (dst + Z.of_nat k) 0). split_and!.
  - f_equal. lia.
  - apply is_str_intro.
    + intros i c Hi. apply lookup_take_Some in Hi as [Hi Hk].
      destruct (is_str_lookup _ _ _ _ _ Hs Hi) as [Hc Hn]. rewrite st8_other, Hin by lia. done.
    + rewrite length_take. replace (Nat.min k (length l)) with k by lia. by apply st8_byte.
  - lia.
  - intros x Hx. rewrite st8_other by lia. apply Hout. lia.
Qed.

(** ** [memset] *)

Lemma rep_stosb_spec n m d c x : rep_stosb n m d c x = mem_set m d c (Z.of_nat n) x.
Proof.
  revert m d. induction n as [|n IH]; intros m d; cbn [rep_stosb].
  - rewrite mem_set_out; [done|cbn; lia].
  - rewrite IH. destruct (decide (d + 1 <= x < d + 1 + Z.of_nat n)).
    { rewrite !mem_set_in by lia. done. }
    rewrite mem_set_out by lia. destruct (decide (x = d)) as [->|].
    + rewrite mem_set_in by lia. unfold st8. by rewrite Z.eqb_refl.
    + rewrite mem_set_out by lia. unfold st8. by destruct (Z.eqb_spec x d).
Qed.

(** The word [rep stosl] stores holds the byte four times. *)
Definition word_of_byte (b : Z) : Z :=
  Z.lor (Z.lor (Z.lor (u32 (Z.shiftl b 24)) (Z.shiftl b 16)) (Z.shiftl b 8)) b.

Lemma word_of_byte_spec b i : 0 <= b < 256 → 0 <= i < 4 → u8 (Z.shiftr (word_of_byte b) (8 * i)) = b.
Proof.
  intros Hb Hi.
  assert (H : forallb (λ b, forallb (λ i, u8 (Z.shiftr (word_of_byte b) (8 * i)) =? b) (seqZ 0 4)) (seqZ 0 256) = true)
    by (vm_compute; reflexivity).
  rewrite forallb_forall in H. specialize (H b). rewrite <- list_elem_of_In, elem_of_seqZ in H.
  specialize (H ltac:(lia)). rewrite forallb_forall in H. specialize (H i).
  rewrite <- list_elem_of_In, elem_of_seqZ in H. specialize (H ltac:(lia)). lia.
Qed.

Lemma rep_stosl_spec n m d b x :
  0 <= b < 256 → rep_stosl n m d (word_of_byte b) x = mem_set m d b (4 * Z.of_nat n) x.
Proof.
  intros Hb. revert m d. induction n as [|n IH]; intros m d; cbn [rep_stosl].
  - rewrite mem_set_out; [done|cbn; lia].
  - rewrite IH. destruct (decide (d <= x < d + 4)) as [Hx|Hx].
    + rewrite mem_set_out, mem_set_in by lia.
      replace x with (d + (x - d)) by lia. rewrite st32_same_byte, word_of_byte_spec by lia.
      unfold u8. by rewrite Z.mod_small.
    + destruct (decide (d + 4 <= x < d + 4 + 4 * Z.of_nat n)); [by rewrite !mem_set_in by lia|].
      rewrite !mem_set_out by lia. apply st32_other_byte. lia.
Qed.

Lemma quarters n : 0 <= n → (n mod 4 =? 0) = true → 4 * Z.of_nat (Z.to_nat (n / 4)) = n.
Proof. intros Hn E%Z.eqb_eq. rewrite Z2Nat.id by (apply Z.div_pos; lia). Z.to_euclidean_division_equations. lia. Qed.

(** [memset] fills [n] bytes, whichever way it is done. *)
Lemma memset_spec m v c n x : 0 <= n → memset m v c n x = mem_set m v c n x.
Proof.
  intros Hn. unfold memset. destruct (Z.eqb_spec n 0) as [->|].
  { rewrite mem_set_out; [done|lia]. }
  destruct (_ && _) eqn:E.
  - apply andb_true_iff in E as [_ E]. change (Z.land c 0xFF) with (Z.land c (Z.ones 8)).
    rewrite Z.land_ones by lia. fold (u8 c). change (Z.lor _ (u8 c)) with (word_of_byte (u8 c)).
    pose proof (u8_range c) as Hc. unfold is_u8 in Hc. rewrite rep_stosl_spec by lia.
    replace (4 * Z.of_nat (Z.to_nat (n / 4))) with n by (symmetry; by apply quarters).
    unfold mem_set. destruct (_ && _); [|done]. unfold u8 at 1. by rewrite Z.mod_small.
  - rewrite rep_stosb_spec. by rewrite Z2Nat.id by lia.
Qed.

(** ** [memmove] *)

Lemma rep_movs_up w k m d s x :
  0 < w → d <= s ∨ s + w * Z.of_nat k <= d →
  rep_movs w 1 k m d s x = mem_copy m d s (w * Z.of_nat k) x.
Proof.
  intros Hw. revert m d s. induction k as [|k IH]; intros m d s Hd; cbn [rep_movs].
  - rewrite mem_copy_out; [done|cbn; lia].
  - rewrite Z.mul_1_l, IH by nia. 
    assert (Hwk : 0 <= w * Z.of_nat k) by nia. replace (w * Z.of_nat (S k)) with (w + w * Z.of_nat k) in * by lia.
    destruct (decide (d + w <= x < d + w + w * Z.of_nat k)) as [Hx|Hx].
    + rewrite (mem_copy_in _ (d + w)), mem_copy_out, mem_copy_in by lia. f_equal. lia.
    + rewrite mem_copy_out by lia. destruct (decide (d <= x < d + w)).
      * by rewrite !mem_copy_in by lia.
      * by rewrite !mem_copy_out by lia.
Qed.

Lemma rep_movs_down w k m d s x :
  0 < w → s <= d →
  rep_movs w (-1) k m (d + w * (Z.of_nat k - 1)) (s + w * (Z.of_nat k - 1)) x = mem_copy m d s (w * Z.of_nat k) x.
Proof.
  intros Hw. revert m. induction k as [|k IH]; intros m Hd; cbn [rep_movs].
  - rewrite mem_copy_out; [done|cbn; lia].
  - replace (d + w * (Z.of_nat (S k) - 1) + -1 * w) with (d + w * (Z.of_nat k - 1)) by lia.
    replace (s + w * (Z.of_nat (S k) - 1) + -1 * w) with (s + w * (Z.of_nat k - 1)) by lia.
    rewrite IH by done. 
    assert (Hwk : 0 <= w * Z.of_nat k) by nia. replace (w * (Z.of_nat (S k) - 1)) with (w * Z.of_nat k) by lia.
    replace (w * Z.of_nat (S k)) with (w + w * Z.of_nat k) by lia.
    destruct (decide (d <= x < d + w * Z.of_nat k)) as [Hx|Hx].
    + rewrite mem_copy_in, mem_copy_out, mem_copy_in by lia. done.
    + rewrite mem_copy_out by lia. destruct (decide (d + w * Z.of_nat k <= x < d + w + w * Z.of_nat k)).
      * rewrite !mem_copy_in by lia. f_equal. lia.
      * by rewrite !mem_copy_out by lia.
Qed.

Lemma memmove_spec m dst src n x : 0 <= n → memmove m dst src n x = mem_copy m dst src n x.
Proof.
  intros Hn. unfold memmove.
  destruct ((src <? dst) && (dst <? src + n)) eqn:Hov; cbv zeta.
  - destruct (_ && _ && _) eqn:E.
    + rewrite !andb_true_iff in E. destruct E as [_ E].
      pose proof (quarters n Hn E) as Hq. transitivity (mem_copy m dst src (4 * Z.of_nat (Z.to_nat (n / 4))) x);
        [|by rewrite Hq].
      rewrite <- rep_movs_down by lia. f_equal; lia.
    + transitivity (mem_copy m dst src (1 * Z.of_nat (Z.to_nat n)) x); [|f_equal; lia].
      rewrite <- rep_movs_down by lia. f_equal; lia.
  - destruct (_ && _ && _) eqn:E.
    + rewrite !andb_true_iff in E. destruct E as [_ E].
      pose proof (quarters n Hn E) as Hq. rewrite rep_movs_up, Hq by lia. done.
    + rewrite rep_movs_up by lia. f_equal. lia.
Qed.

(** C34: [memmove] (and with it [memcpy]) copies like a simultaneous assignment:
    whatever the overlap, the alignment and the length, byte [i] of the
    destination becomes what byte [i] of the source was before the call, and
    every other byte keeps its value. *)
Theorem memmove_correct m dst src n :
  0 <= n →
  (∀ i, 0 <= i < n → memmove m dst src n (dst + i) = m (src + i)) ∧
  (∀ x, ¬ dst <= x < dst + n → memmove m dst src n x = m x).
Proof.
  intros Hn. split; intros z Hz; rewrite memmove_spec by done.
  - rewrite mem_copy_in by lia. f_equal. lia.
  - rewrite mem_copy_out by lia. done.
Qed.

(** Nine bytes moved up by four within themselves. *)
Lemma memmove_correct_witness :
  memmove (λ x, x mod 256) 4 0 9 (4 + 5) = 5 ∧ memmove (λ x, x mod 256) 4 0 9 3 = 3.
Proof.
  destruct (memmove_correct (λ x, x mod 256) 4 0 9) as [Hin Hout]; [discriminate|].
  split; [apply (Hin 5); split; [discriminate|reflexivity]|apply (Hout 3); intros [H _]; by apply H].
Defined.
