(* ===== verification/Printfmt.v ===== *)
(** * Formatted output ([lib/printfmt.c], [lib/printf.c], [kern/printf.c])

    [vprintfmt] and the functions around it, for any [putch] with its [putdat]
    (the sink: its state [Out], what [putch] does to it, the [int] that
    [putdat] points at, which [%n] reads, and the memory [%n] stores to; such
    a store is taken not to hit the format or its arguments).  A format is the list of its
    bytes; an argument list is a list of words, double words and strings, and
    fetching an argument of another type is undefined, as in C.  [char] is
    signed.

    The theorems: a number is printed as its canonical digits with its
    padding; whatever the format and the arguments, [vsnprintf] writes only to
    its buffer and where a [%n] points, and leaves in the buffer the beginning
    of the output, NUL terminated; and [strtol] reads back what [printnum] prints. *)

From S2P Require Import Prelude Mmu Console KState CString.
Open Scope Z_scope.

(** The bytes of a string literal. *)
Definition chars (s : string) : list Z := (λ a, Z.of_N (Ascii.N_of_ascii a)) <$> String.list_ascii_of_string s.

Definition error_string (err : Z) : option (list Z) :=
  if err =? E_UNSPECIFIED then Some (chars "unspecified error")
  else if err =? E_BAD_ENV then Some (chars "bad environment")
  else if err =? E_INVAL then Some (chars "invalid parameter")
  else if err =? E_NO_MEM then Some (chars "out of memory")
  else if err =? E_NO_FREE_ENV then Some (chars "out of environments")
  else if err =? E_FAULT then Some (chars "segmentation fault")
  else if err =? E_IPC_NOT_RECV then Some (chars "env is not recving")
  else if err =? E_EOF then Some (chars "unexpected end of file")
  else if err =? E_NO_DISK then Some (chars "no free space on disk")
  else if err =? E_MAX_OPEN then Some (chars "too many files are open")
  else if err =? E_NOT_FOUND then Some (chars "file or block not found")
  else if err =? E_BAD_PATH then Some (chars "invalid path")
  else if err =? E_FILE_EXISTS then Some (chars "file already exists")
  else if err =? E_NOT_EXEC then Some (chars "file is not a valid executable")
  else if err =? E_NOT_SUPP then Some (chars "operation not supported")
  else None.

Inductive arg : Type :=
  | Word (w : Z)                   (** a 32-bit word: [int], [unsigned], [long], a pointer *)
  | DWord (w : Z)                  (** a 64-bit [long long] *)
  | Str (s : option (list Z)).     (** a [char *]: a NUL-terminated string, or null *)

Inductive fmt_stop : Type :=
  | BadArg                         (** undefined: the argument is missing or of another type *)
  | BadError                       (** undefined: [error_string] is read before its start *)
  | FmtFuel.

(** The variables of a directive. *)
Record flags : Type := mkFlags {
  padc : Z; width : Z; precision : Z; lflag : Z; altflag : bool; signedflag : bool }.

Definition flags0 : flags := mkFlags 32 (-1) (-1) 0 false false.

(** [process_precision] *)
Definition process_precision (p : Z) (f : flags) : flags :=
  if width f <? 0 then mkFlags (padc f) p (-1) (lflag f) (altflag f) (signedflag f)
  else mkFlags (padc f) (width f) p (lflag f) (altflag f) (signedflag f).

Definition is_digit (c : Z) : bool := (48 <=? c) && (c <=? 57).

Definition hex_digits : list Z := chars "0123456789abcdef".
Definition hexdigit (d : Z) : Z := nth (Z.to_nat d) hex_digits 0.

Definition null_error : list Z :=
  [10] ++ chars "error! writing through NULL pointer! (%n argument)" ++ [10].
Definition overflow_error : list Z :=
  [10] ++ chars "warning! The value %n argument pointed to has been overflowed!" ++ [10].

Record pstate (Out : Type) : Type := mkP {
  p_out : Out;                       (** the sink *)
  p_args : list arg }.             (** [ap] *)
Arguments mkP {Out}. Arguments p_out {Out}. Arguments p_args {Out}.

Section vprintfmt.
(** [putch c], the [int] at [putdat], and [*p = v]. *)
Context {Out : Type} (putch : Z → Out → Out) (putcnt : Out → Z) (store : Z → Z → Out → Out).

Abbreviation P := (M (pstate Out) fmt_stop).

Definition put (c : Z) : P unit := modify (λ st, mkP (putch c (p_out st)) (p_args st)).
Definition set_args (a : list arg) : P unit := modify (λ st, mkP (p_out st) a).
Definition store_byte (p v : Z) : P unit := modify (λ st, mkP (store p (u8 v) (p_out st)) (p_args st)).

Definition va_word : P Z :=
  a ← gets p_args;
  match a with
  | Word w :: r => set_args r;; mret w
  | _ => stop BadArg
  end.

Definition va_dword : P Z :=
  a ← gets p_args;
  match a with
  | DWord w :: r => set_args r;; mret w
  | _ => stop BadArg
  end.

Definition va_str : P (option (list Z)) :=
  a ← gets p_args;
  match a with
  | Str s :: r => set_args r;; mret s
  | _ => stop BadArg
  end.

Definition put_times (n c : Z) : P unit := mfor (replicate (Z.to_nat n) c) put.

(** The digits of a positive [num_tmp], least significant first. *)
Fixpoint rev_digits (fuel : nat) (num_tmp base : Z) : list Z :=
  match fuel with
  | O => []
  | S fuel' => if 0 <? num_tmp then num_tmp mod base :: rev_digits fuel' (num_tmp / base) base else []
  end.

Definition printnum_padding (num base width padc : Z) : P unit :=
  let num_rev := rev_digits 64 (s32 num) base in
  mfor (reverse num_rev) (λ d, put (hexdigit d));;
  put_times (width - Z.of_nat (length num_rev)) (if padc =? 45 then 32 else 48).

Fixpoint printnum (fuel : nat) (num base width padc : Z) : P unit :=
  match fuel with
  | O => stop FmtFuel
  | S fuel' =>
    if padc =? 45 then printnum_padding num base width padc
    else
      (if base <=? num then printnum fuel' (num / base) base (width - 1) padc
       else put_times (width - 1) padc);;
      put (hexdigit (num mod base))
  end.

Definition getuint (lflag : Z) : P Z :=
  if 2 <=? lflag then w ← va_dword; mret (u64 w) else w ← va_word; mret (u32 w).

Definition getint (lflag : Z) : P Z :=
  if 2 <=? lflag then w ← va_dword; mret (s64 w) else w ← va_word; mret (s32 w).

(** From [reswitch] on: the flags, the conversion character and what follows
    it.  [num] is the number being read by the loop for the width. *)
Fixpoint reswitch (num : option Z) (f : flags) (fmt : list Z) : P (flags * Z * list Z) :=
  match fmt with
  | [] => mret (match num with Some p => process_precision p f | None => f end, 0, [])
  | ch :: rest =>
    let in_number := match num with Some _ => is_digit ch | None => false end in
    if in_number
    then reswitch ((λ p, s32 (p * 10 + ch - 48)) <$> num) f rest
    else
      let f := match num with Some p => process_precision p f | None => f end in
      let again f := reswitch None f rest in
      if ch =? 43 then again (mkFlags (padc f) (width f) (precision f) (lflag f) (altflag f) true)
      else if ch =? 45 then again (mkFlags 45 (width f) (precision f) (lflag f) (altflag f) (signedflag f))
      else if ch =? 48 then again (mkFlags 48 (width f) (precision f) (lflag f) (altflag f) (signedflag f))
      else if is_digit ch then reswitch (Some (ch - 48)) f rest
      else if ch =? 42 then w ← va_word; again (process_precision (s32 w) f)
      else if ch =? 46 then
        again (if width f <? 0 then mkFlags (padc f) 0 (precision f) (lflag f) (altflag f) (signedflag f) else f)
      else if ch =? 35 then again (mkFlags (padc f) (width f) (precision f) (lflag f) true (signedflag f))
      else if ch =? 108 then again (mkFlags (padc f) (width f) (precision f) (lflag f + 1) (altflag f) (signedflag f))
      else mret (f, ch, rest)
  end.

(** [%s] *)
Definition print_str (f : flags) (p : list Z) : P unit :=
  let w :=
    if (0 <? width f) && negb (padc f =? 45)
    then width f - Z.min (Z.of_nat (length p)) (u32 (precision f)) else width f in
  (if (0 <? width f) && negb (padc f =? 45) then put_times w (padc f) else mret tt);;
  let w := if (0 <? width f) && negb (padc f =? 45) then Z.min w 0 else w in
  let body := if precision f <? 0 then p else take (Z.to_nat (precision f)) p in
  mfor body (λ b,
    let ch := s8 b in
    put (if altflag f && ((ch <? 32) || (126 <? ch)) then 63 else ch));;
  put_times (w - Z.of_nat (length body)) 32.

Fixpoint vprintfmt (fuel : nat) (fmt : list Z) : P unit :=
  match fuel with
  | O => stop FmtFuel
  | S fuel' =>
    let printfmt (fmt : list Z) (ap : list arg) : P unit :=
      saved ← gets p_args; set_args ap;; vprintfmt fuel' fmt;; set_args saved in
    match fmt with
    | [] => mret tt
    | ch :: fmt =>
      if negb (ch =? 37) then put ch;; vprintfmt fuel' fmt
      else
        r ← reswitch None flags0 fmt;
        let '(f, ch, rest) := r in
        let number num base := printnum 65 num base (width f) (padc f);; vprintfmt fuel' rest in
        if ch =? 99 (* c *) then w ← va_word; put (s32 w);; vprintfmt fuel' rest
        else if ch =? 101 (* e *) then
          w ← va_word;
          let err := s32 w in
          let err := if err <? 0 then s32 (- err) else err in
          (if err <? 0 then stop BadError
           else if MAXERROR <=? err then printfmt (chars "error %d") [Word err]
           else match error_string err with
                | None => printfmt (chars "error %d") [Word err]
                | Some p => printfmt (chars "%s") [Str (Some p)]
                end);;
          vprintfmt fuel' rest
        else if ch =? 115 (* s *) then
          p ← va_str;
          print_str f (default (chars "(null)") p);;
          vprintfmt fuel' rest
        else if ch =? 100 (* d *) then
          num ← getint (lflag f);
          if num <? 0 then put 45;; number (u64 (- num)) 10
          else (if (0 <? num) && signedflag f then put 43 else mret tt);; number (u64 num) 10
        else if ch =? 117 (* u *) then num ← getuint (lflag f); number num 10
        else if ch =? 111 (* o *) then num ← getint (lflag f); put 48;; number (u64 num) 8
        else if ch =? 112 (* p *) then put 48;; put 120;; w ← va_word; number (u32 w) 16
        else if ch =? 120 (* x *) then num ← getuint (lflag f); number num 16
        else if ch =? 110 (* n *) then
          n_p ← va_word;
          (if n_p =? 0 then printfmt (chars "%s") [Str (Some null_error)]
           else
             cnt ← gets (λ st, putcnt (p_out st));
             if (cnt <? 0) || (240 <? cnt)
             then store_byte n_p (-1);; printfmt (chars "%s") [Str (Some overflow_error)]
             else store_byte n_p cnt);;
          vprintfmt fuel' rest
        else if ch =? 37 then put ch;; vprintfmt fuel' rest
        else put 37;; vprintfmt fuel' fmt
    end
  end.

End vprintfmt.

(** ** Numbers *)

(** The digits of [num], most significant first. *)
Fixpoint digits (fuel : nat) (base num : Z) : list Z :=
  match fuel with
  | O => []
  | S fuel' => if base <=? num then digits fuel' base (num / base) ++ [num mod base] else [num]
  end.

Lemma digits_S fuel base num :
  digits (S fuel) base num = if base <=? num then digits fuel base (num / base) ++ [num mod base] else [num].
Proof. reflexivity. Qed.

(** The number a list of digits denotes. *)
Definition digits_val (base : Z) (ds : list Z) : Z := foldl (λ a d, a * base + d) 0 ds.

Lemma digits_val_snoc base ds d : digits_val base (ds ++ [d]) = digits_val base ds * base + d.
Proof. unfold digits_val. by rewrite foldl_app. Qed.

Lemma digits_spec fuel base num :
  2 <= base → 0 <= num < 2 ^ Z.of_nat fuel →
  let ds := digits (S fuel) base num in
  digits_val base ds = num ∧ Forall (λ d, 0 <= d < base) ds ∧ (∃ d l, ds = d :: l ∧ (d = 0 → l = [])) ∧
  (length ds <= S fuel)%nat.
Proof.
  intros Hb. revert num. induction fuel as [|fuel IH]; intros num Hn ds; unfold ds.
  { assert (num = 0) as -> by (cbn in Hn; lia). cbn [digits]. replace (base <=? 0) with false by lia.
    split_and!; [done|constructor; [lia|done]|by exists 0, []|done]. }
  rewrite digits_S. destruct (Z.leb_spec base num).
  2: { split_and!; [done|constructor; [lia|done]|by exists num, []|cbn; lia]. }
  assert (Hlt : 0 <= num / base < 2 ^ Z.of_nat fuel).
  { split; [apply Z.div_pos; lia|]. apply Z.div_lt_upper_bound; [lia|].
    rewrite Nat2Z.inj_succ, Z.pow_succ_r in Hn by lia. nia. }
  destruct (IH (num / base) Hlt) as (Hv & Hall & (d & l & Heq & Hz) & Hlen).
  split_and!.
  - rewrite digits_val_snoc, Hv. pose proof (Z.div_mod num base ltac:(lia)). lia.
  - apply Forall_app. split; [done|]. constructor; [apply Z.mod_pos_bound; lia|done].
  - exists d, (l ++ [num mod base]). split; [by rewrite Heq|]. intros ->. specialize (Hz eq_refl) as ->.
    exfalso. rewrite Heq in Hv. cbn in Hv. assert (1 <= num / base) by (apply Z.div_le_lower_bound; lia). lia.
  - rewrite length_app. cbn [length]. lia.
Qed.

Section output.
Context {Out : Type} (putch : Z → Out → Out).

(** The characters [l] have gone to the sink. *)
Definition emit (l : list Z) (st : pstate Out) : pstate Out :=
  mkP (foldl (λ o c, putch c o) (p_out st) l) (p_args st).

Lemma emit_app l1 l2 st : emit l2 (emit l1 st) = emit (l1 ++ l2) st.
Proof. unfold emit. cbn. by rewrite foldl_app. Qed.

Lemma mfor_put {X} (f : X → Z) l st : mfor l (λ x, put putch (f x)) st = (Ret tt, emit (f <$> l) st).
Proof.
  revert st. induction l as [|x l IH]; intros st; cbn [mfor]; [by destruct st|].
  mrun reflexivity. by rewrite IH.
Qed.

Lemma put_times_spec n c st : put_times putch n c st = (Ret tt, emit (replicate (Z.to_nat n) c) st).
Proof. unfold put_times. by rewrite (mfor_put (λ x, x)), list_fmap_id. Qed.

Lemma printnum_S fuel num base width padc :
  padc ≠ 45 →
  printnum putch (S fuel) num base width padc =
    ((if base <=? num then printnum putch fuel (num / base) base (width - 1) padc
      else put_times putch (width - 1) padc);;
     put putch (hexdigit (num mod base))).
Proof. intros H. cbn [printnum]. by destruct (Z.eqb_spec padc 45). Qed.

Lemma printnum_spec fuel num base width padc st :
  2 <= base → padc ≠ 45 → 0 <= num < 2 ^ Z.of_nat fuel →
  let ds := digits (S fuel) base num in
  printnum putch (S fuel) num base width padc st =
    (Ret tt, emit (replicate (Z.to_nat (width - Z.of_nat (length ds))) padc ++ (hexdigit <$> ds)) st).
Proof.
  intros Hb Hp. revert num width st. induction fuel as [|fuel IH]; intros num width st Hn ds; unfold ds.
  - assert (num = 0) as -> by (cbn in Hn; lia). rewrite printnum_S, digits_S by done. replace (base <=? 0) with false by lia.
    mrun (apply put_times_spec). rewrite Z.mod_0_l by lia.
    unfold put, modify. by rewrite <- emit_app.
  - rewrite printnum_S by done. rewrite digits_S. destruct (Z.leb_spec base num).
    + assert (Hlt : 0 <= num / base < 2 ^ Z.of_nat fuel).
      { split; [apply Z.div_pos; lia|]. apply Z.div_lt_upper_bound; [lia|].
        rewrite Nat2Z.inj_succ, Z.pow_succ_r in Hn by lia. nia. }
      specialize (IH (num / base) (width - 1) st Hlt). cbv zeta in IH.
      erewrite bind_Ret by exact IH. cbv beta.
      rewrite length_app, fmap_app. cbn [length fmap list_fmap].
      replace (width - Z.of_nat (length (digits (S fuel) base (num / base)) + 1))
        with (width - 1 - Z.of_nat (length (digits (S fuel) base (num / base)))) by lia.
      rewrite app_assoc, <- (emit_app _ [hexdigit (num mod base)]). done.
    + mrun (apply put_times_spec). rewrite Z.mod_small by lia. unfold put, modify. by rewrite <- emit_app.
Qed.

End output.

(** ** Sinks

    [vprintfmt] treats every sink alike: if two sinks are related by [R],
    putting a character and storing a byte keep them related, and [%n] sees the
    same count, then the two runs have the same outcome, fetch the same
    arguments and end related. *)
Section sinks.
Context {Out1 Out2 : Type} (putch1 : Z → Out1 → Out1) (putch2 : Z → Out2 → Out2).
Context (cnt1 : Out1 → Z) (cnt2 : Out2 → Z) (store1 : Z → Z → Out1 → Out1) (store2 : Z → Z → Out2 → Out2).
Context (R : Out1 → Out2 → Prop).
Hypothesis Rput : ∀ c o1 o2, R o1 o2 → R (putch1 c o1) (putch2 c o2).
Hypothesis Rcnt : ∀ o1 o2, R o1 o2 → cnt1 o1 = cnt2 o2.
Hypothesis Rstore : ∀ p v o1 o2, R o1 o2 → R (store1 p v o1) (store2 p v o2).

Definition related (st1 : pstate Out1) (st2 : pstate Out2) : Prop :=
  R (p_out st1) (p_out st2) ∧ p_args st1 = p_args st2.

Definition sim {A} (m1 : M (pstate Out1) fmt_stop A) (m2 : M (pstate Out2) fmt_stop A) : Prop :=
  ∀ st1 st2, related st1 st2 → fst (m1 st1) = fst (m2 st2) ∧ related (snd (m1 st1)) (snd (m2 st2)).

Lemma sim_ret {A} (a : A) : sim (mret a) (mret a).
Proof. by intros st1 st2 H. Qed.

Lemma sim_stop {A} e : sim (stop e : M _ _ A) (stop e).
Proof. by intros st1 st2 H. Qed.

Lemma sim_bind {A B} m1 m2 (k1 : A → M (pstate Out1) fmt_stop B) k2 :
  sim m1 m2 → (∀ a, sim (k1 a) (k2 a)) → sim (mbind k1 m1) (mbind k2 m2).
Proof.
  intros Hm Hk st1 st2 H. specialize (Hm st1 st2 H). unfold mbind, M_bind.
  destruct (m1 st1) as [r1 s1], (m2 st2) as [r2 s2]. cbn in Hm. destruct Hm as [-> Hs].
  destruct r2 as [a|e]; [by apply Hk|done].
Qed.

Lemma sim_args {A} (k1 : list arg → M (pstate Out1) fmt_stop A) k2 :
  (∀ a, sim (k1 a) (k2 a)) → sim (mbind k1 (gets p_args)) (mbind k2 (gets p_args)).
Proof. intros Hk st1 st2 H. rewrite !bind_gets. destruct (H) as (_ & ->). by apply Hk. Qed.

Lemma sim_cnt {A} (k1 : Z → M (pstate Out1) fmt_stop A) k2 :
  (∀ a, sim (k1 a) (k2 a)) →
  sim (mbind k1 (gets (λ st, cnt1 (p_out st)))) (mbind k2 (gets (λ st, cnt2 (p_out st)))).
Proof using Rcnt. intros Hk st1 st2 H. rewrite !bind_gets. rewrite (Rcnt _ _ (proj1 H)). by apply Hk. Qed.

Lemma sim_put c : sim (put putch1 c) (put putch2 c).
Proof using Rput. intros st1 st2 (H1 & H2). split; [done|]. split; [by apply Rput|done]. Qed.

Lemma sim_set_args a : sim (set_args a) (set_args a).
Proof. intros st1 st2 (H1 & H2). split; [done|]. by split. Qed.

Lemma sim_store p v : sim (store_byte store1 p v) (store_byte store2 p v).
Proof using Rstore. intros st1 st2 (H1 & H2). split; [done|]. split; [by apply Rstore|done]. Qed.

Lemma sim_mfor {X} (l : list X) f1 f2 : (∀ x, sim (f1 x) (f2 x)) → sim (mfor l f1) (mfor l f2).
Proof. intros H. induction l; cbn [mfor]; [apply sim_ret|]. apply sim_bind; [apply H|done]. Qed.

(** One step along two copies of the same text. *)
Ltac sstep :=
  lazymatch goal with
  | |- sim (mret _) _ => apply sim_ret
  | |- sim (stop _) _ => apply sim_stop
  | |- sim (put _ _) _ => apply sim_put
  | |- sim (set_args _) _ => apply sim_set_args
  | |- sim (store_byte _ _ _) _ => apply sim_store
  | |- sim (mbind _ (gets p_args)) _ => apply sim_args; intros ?
  | |- sim (mbind _ (gets _)) _ => apply sim_cnt; intros ?
  | |- sim (mbind _ _) _ => apply sim_bind; [|intros ?]
  | |- sim (mfor _ _) _ => apply sim_mfor; intros ?
  | |- sim (match ?x with _ => _ end) _ => destruct x
  | |- sim (let _ := _ in _) _ => cbv zeta
  | |- sim ?m _ => let f := head m in progress unfold f
  end.

Lemma sim_printnum fuel num base width padc :
  sim (printnum putch1 fuel num base width padc) (printnum putch2 fuel num base width padc).
Proof using Rput.
  revert num width. induction fuel as [|fuel IH]; intros num width; cbn [printnum]; [apply sim_stop|].
  destruct (padc =? 45); [unfold printnum_padding, put_times; repeat sstep|].
  apply sim_bind; [|intros; apply sim_put]. destruct (base <=? num); [apply IH|]. unfold put_times. repeat sstep.
Qed.

Lemma sim_reswitch num f fmt : sim (reswitch num f fmt) (reswitch num f fmt).
Proof.
  revert num f. induction fmt as [|ch fmt IH]; intros num f; cbn [reswitch]; [apply sim_ret|].
  cbv zeta. repeat (case_match; try apply IH); try apply sim_ret.
  all: apply sim_bind; [unfold va_word; repeat sstep|intros; apply IH].
Qed.

Lemma sim_vprintfmt fuel fmt : sim (vprintfmt putch1 cnt1 store1 fuel fmt) (vprintfmt putch2 cnt2 store2 fuel fmt).
Proof using Rput Rcnt Rstore.
  revert fmt. induction fuel as [|fuel IH]; intros fmt; cbn [vprintfmt]; [apply sim_stop|].
  destruct fmt as [|ch fmt]; [apply sim_ret|]. cbv zeta.
  destruct (negb (ch =? 37)); [apply sim_bind; [apply sim_put|intros; apply IH]|].
  apply sim_bind; [apply sim_reswitch|]. intros [[f c] rest].
  repeat first [apply IH | apply sim_printnum | sstep].
Qed.

End sinks.

(** ** Termination *)

Section termination.
Context {Out : Type} (putch : Z → Out → Out) (putcnt : Out → Z) (store : Z → Z → Out → Out).

(** [m] does not run out of fuel, and what it returns satisfies [Q]. *)
Definition fin {A} (m : M (pstate Out) fmt_stop A) (Q : A → Prop) : Prop :=
  ∀ st, match fst (m st) with Ret a => Q a | Stop e => e ≠ FmtFuel end.

Lemma fin_ret {A} (a : A) (Q : A → Prop) : Q a → fin (mret a) Q.
Proof. by intros H st. Qed.

Lemma fin_bind {A B} m (k : A → M (pstate Out) fmt_stop B) Q Q' :
  fin m Q → (∀ a, Q a → fin (k a) Q') → fin (mbind k m) Q'.
Proof.
  intros Hm Hk st. specialize (Hm st). unfold mbind, M_bind.
  destruct (m st) as [[a|e] s1]; cbn in *; [|done]. exact (Hk a Hm s1).
Qed.

Lemma fin_seq {A} m (k : M (pstate Out) fmt_stop A) : fin m (λ _ : unit, True) → fin k (λ _, True) → fin (m;; k) (λ _, True).
Proof. intros Hm Hk. eapply fin_bind; [exact Hm|]. by intros. Qed.

Lemma fin_put c : fin (put putch c) (λ _, True).
Proof. by intros st. Qed.

Lemma fin_set_args a : fin (set_args a) (λ _, True).
Proof. by intros st. Qed.

Lemma fin_put_list {X} (f : X → Z) l : fin (mfor l (λ x, put putch (f x))) (λ _, True).
Proof. intros st. by rewrite mfor_put. Qed.

Lemma fin_put_times n c : fin (put_times putch n c) (λ _, True).
Proof. intros st. by rewrite put_times_spec. Qed.

Lemma fin_va_word : fin va_word (λ _, True).
Proof. intros st. unfold va_word. msimpl. by destruct (p_args st) as [|[] r]. Qed.

Lemma fin_va_dword : fin va_dword (λ _, True).
Proof. intros st. unfold va_dword. msimpl. by destruct (p_args st) as [|[] r]. Qed.

Lemma fin_va_str : fin va_str (λ _, True).
Proof. intros st. unfold va_str. msimpl. by destruct (p_args st) as [|[] r]. Qed.

Lemma fin_printnum num base width padc :
  2 <= base → 0 <= num < 2 ^ 64 → fin (printnum putch 65 num base width padc) (λ _, True).
Proof.
  intros Hb Hn. destruct (decide (padc = 45)) as [->|Hp].
  - change (fin (printnum_padding putch num base width 45) (λ _, True)). unfold printnum_padding.
    apply fin_seq; [apply fin_put_list|apply fin_put_times].
  - intros st. by rewrite (printnum_spec putch 64).
Qed.

Lemma fin_getuint l : fin (getuint l) (λ n, 0 <= n < 2 ^ 64).
Proof.
  unfold getuint. destruct (2 <=? l).
  - eapply fin_bind; [apply fin_va_dword|]. intros w _. apply fin_ret. apply Z.mod_pos_bound. lia.
  - eapply fin_bind; [apply fin_va_word|]. intros w _. apply fin_ret. pose proof (u32_range w) as H. lia.
Qed.

Lemma fin_getint l : fin (getint l) (λ _, True).
Proof.
  unfold getint. destruct (2 <=? l).
  - eapply fin_bind; [apply fin_va_dword|]. intros w _. by apply fin_ret.
  - eapply fin_bind; [apply fin_va_word|]. intros w _. by apply fin_ret.
Qed.

Lemma fin_print_str f p : fin (print_str putch f p) (λ _, True).
Proof.
  unfold print_str. apply fin_seq; [destruct (_ && _); [apply fin_put_times|by apply fin_ret]|].
  apply fin_seq; [apply fin_put_list|apply fin_put_times].
Qed.

Lemma fin_reswitch num f fmt : fin (reswitch num f fmt) (λ r, (length (snd r) <= length fmt)%nat).
Proof.
  assert (Hmono : ∀ m (a b : nat), fin m (λ r : flags * Z * list Z, (length (snd r) <= a)%nat) → (a <= b)%nat →
    fin m (λ r, (length (snd r) <= b)%nat)).
  { intros m a b H Hab st. specialize (H st). destruct (fst (m st)) as [[x y]|e]; [cbn in *; lia|done]. }
  revert num f. induction fmt as [|ch fmt IH]; intros num f; cbn [reswitch]; [by apply fin_ret|].
  cbv zeta. repeat (case_match; try (eapply Hmono; [apply IH|cbn; lia])); try (apply fin_ret; cbn; lia).
  all: eapply fin_bind; [apply fin_va_word|intros w _; eapply Hmono; [apply IH|cbn; lia]].
Qed.

(** The formats [vprintfmt] calls [printfmt] with. *)
Lemma fin_nested pre c fuel :
  Forall (λ x, x ≠ 37) pre → c = 100 ∨ c = 115 → (length pre + 2 <= fuel)%nat →
  fin (vprintfmt putch putcnt store fuel (pre ++ [37; c])) (λ _, True).
Proof.
  intros Hpre Hc. revert fuel. induction Hpre as [|x pre Hx _ IH]; intros fuel Hf.
  - destruct fuel as [|[|fuel]]; cbn in Hf; [lia..|]. destruct Hc as [-> | ->].
    + change (fin (num ← getint 0;
        if num <? 0 then put putch 45;; printnum putch 65 (u64 (- num)) 10 (-1) 32;; mret tt
        else (if (0 <? num) && false then put putch 43 else mret tt);; printnum putch 65 (u64 num) 10 (-1) 32;; mret tt)
        (λ _, True)).
      eapply fin_bind; [apply fin_getint|]. intros num _. destruct (num <? 0).
      * apply fin_seq; [apply fin_put|]. apply fin_seq; [|by apply fin_ret]. apply fin_printnum; [lia|apply u64_range].
      * apply fin_seq; [by destruct (_ && _); [apply fin_put|apply fin_ret]|].
        apply fin_seq; [|by apply fin_ret]. apply fin_printnum; [lia|apply u64_range].
    + change (fin (p ← va_str; print_str putch flags0 (default (chars "(null)") p);; mret tt) (λ _, True)).
      eapply fin_bind; [apply fin_va_str|]. intros p _. apply fin_seq; [apply fin_print_str|by apply fin_ret].
  - destruct fuel as [|fuel]; cbn [length app vprintfmt] in *; [lia|].
    destruct (Z.eqb_spec x 37); [done|]. apply fin_seq; [apply fin_put|apply IH; lia].
Qed.

Lemma fin_vprintfmt fuel fmt : (length fmt + 10 <= fuel)%nat → fin (vprintfmt putch putcnt store fuel fmt) (λ _, True).
Proof.
  revert fmt. induction fuel as [|fuel IH]; intros fmt Hf; [lia|]. cbn [vprintfmt]. cbv zeta.
  destruct fmt as [|ch fmt]; [by apply fin_ret|]. cbn [length] in Hf.
  destruct (negb (ch =? 37)); [apply fin_seq; [apply fin_put|apply IH; lia]|].
  eapply fin_bind; [apply fin_reswitch|]. intros [[f c] rest] Hr. cbn [snd] in Hr.
  assert (Hrest : fin (vprintfmt putch putcnt store fuel rest) (λ _, True)) by (apply IH; lia).
  assert (Hcall : ∀ pre c ap, Forall (λ x, x ≠ 37) pre → c = 100 ∨ c = 115 → (length pre <= 6)%nat →
    fin (saved ← gets p_args; set_args ap;; vprintfmt putch putcnt store fuel (pre ++ [37; c]);; set_args saved) (λ _, True)).
  { intros pre c' ap Hp Hc' Hl. eapply (fin_bind _ _ (λ _, True)); [by intros st|]. intros a _.
    apply fin_seq; [apply fin_set_args|]. apply fin_seq; [apply fin_nested; [done|done|lia]|apply fin_set_args]. }
  assert (Herr : ∀ ap, fin (saved ← gets p_args; set_args ap;; vprintfmt putch putcnt store fuel (chars "error %d");; set_args saved) (λ _, True)).
  { intros ap. apply (Hcall (chars "error ") 100 ap); [by repeat constructor|by left|cbn; lia]. }
  assert (Hstr : ∀ ap, fin (saved ← gets p_args; set_args ap;; vprintfmt putch putcnt store fuel (chars "%s");; set_args saved) (λ _, True)).
  { intros ap. apply (Hcall [] 115 ap); [done|by right|cbn; lia]. }
  assert (Hnum : ∀ n b, 2 <= b → 0 <= n < 2 ^ 64 →
    fin (printnum putch 65 n b (width f) (padc f);; vprintfmt putch putcnt store fuel rest) (λ _, True)).
  { intros n b Hb Hn. apply fin_seq; [by apply fin_printnum|done]. }
  repeat (case_match; [|]).
  all: try (eapply fin_bind; [first [apply fin_va_word|apply fin_va_str|apply fin_getint|apply fin_getuint]|]; intros ? ?).
  all: repeat case_match; repeat (apply fin_seq; [first [apply fin_put|apply fin_print_str|apply Herr|apply Hstr|by apply fin_ret|by intros st]|]).
  all: try first [exact Hrest|apply Hnum; [lia|first [apply u64_range|done]]].
  - eapply fin_bind; [apply fin_va_word|]. intros w _. apply Hnum; [lia|]. pose proof (u32_range w). lia.
  - apply fin_seq; [|exact Hrest]. eapply (fin_bind _ _ (λ _, True)); [by intros st|]. intros n _.
    destruct (_ || _); [|by intros st]. apply fin_seq; [by intros st|apply Hstr].
  - apply IH. lia.
Qed.

End termination.

(** ** Formats without [%n] *)

Section no_store.
Context {Out : Type} (putch : Z → Out → Out) (putcnt : Out → Z) (store : Z → Z → Out → Out).
Context (Q : Out → Prop) (Qput : ∀ c o, Q o → Q (putch c o)).

(** [m] keeps [Q], and what it returns satisfies [R]. *)
Definition keeps {A} (m : M (pstate Out) fmt_stop A) (R : A → Prop) : Prop :=
  ∀ st, Q (p_out st) → Q (p_out (snd (m st))) ∧ match fst (m st) with Ret a => R a | Stop _ => True end.

Lemma keeps_ret {A} (a : A) (R : A → Prop) : R a → keeps (mret a) R.
Proof. by intros H st HQ. Qed.

Lemma keeps_bind {A B} m (k : A → M (pstate Out) fmt_stop B) R R' :
  keeps m R → (∀ a, R a → keeps (k a) R') → keeps (mbind k m) R'.
Proof.
  intros Hm Hk st HQ. destruct (Hm st HQ) as [Hq Hr]. unfold mbind, M_bind.
  destruct (m st) as [[a|e] s1]; cbn in *; [by apply Hk|done].
Qed.

Lemma keeps_seq {A B} m (k : A → M (pstate Out) fmt_stop B) :
  keeps m (λ _, True) → (∀ a, keeps (k a) (λ _, True)) → keeps (mbind k m) (λ _, True).
Proof. intros Hm Hk. eapply keeps_bind; [exact Hm|]. intros a _. apply Hk. Qed.

Lemma keeps_put c : keeps (put putch c) (λ _, True).
Proof using Qput. intros st HQ. split; [by apply Qput|done]. Qed.

Lemma keeps_mfor {X} (l : list X) f : (∀ x, keeps (f x) (λ _, True)) → keeps (mfor l f) (λ _, True).
Proof. intros H. induction l; cbn [mfor]; [by apply keeps_ret|]. apply keeps_seq; [apply H|done]. Qed.

Lemma keeps_look {A} (f : pstate Out → A) : keeps (gets f) (λ _, True).
Proof. by intros st HQ. Qed.

Ltac kstep :=
  lazymatch goal with
  | |- keeps (mret _) _ => by apply keeps_ret
  | |- keeps (stop _) _ => by intros ? ?
  | |- keeps (put _ _) _ => apply keeps_put
  | |- keeps (set_args _) _ => by intros ? ?
  | |- keeps (gets _) _ => apply keeps_look
  | |- keeps (mbind _ _) _ => apply keeps_seq; [|intros ?]
  | |- keeps (mfor _ _) _ => apply keeps_mfor; intros ?
  | |- keeps (match ?x with _ => _ end) _ => destruct x
  | |- keeps (let _ := _ in _) _ => cbv zeta
  | |- keeps ?m _ => let f := head m in progress unfold f
  end.

Lemma keeps_printnum fuel num base width padc : keeps (printnum putch fuel num base width padc) (λ _, True).
Proof using Qput.
  revert num width. induction fuel as [|fuel IH]; intros num width; cbn [printnum]; [by intros ? ?|].
  destruct (padc =? 45); [repeat kstep|]. apply keeps_seq; [|intros; apply keeps_put].
  destruct (base <=? num); [apply IH|repeat kstep].
Qed.

(** What [reswitch] leaves is a part of the format. *)
Lemma keeps_reswitch num f fmt : 110 ∉ fmt → keeps (reswitch num f fmt) (λ r, r.1.2 ≠ 110 ∧ 110 ∉ r.2).
Proof.
  revert num f. induction fmt as [|ch fmt IH]; intros num f Hn; cbn [reswitch].
  { apply keeps_ret. split; [done|apply not_elem_of_nil]. }
  apply not_elem_of_cons in Hn as [Hc Hn]. cbv zeta. repeat (case_match; try by apply IH); try by apply keeps_ret.
  all: eapply keeps_bind; [unfold va_word; repeat kstep|intros; by apply IH].
Qed.

Lemma keeps_vprintfmt fuel fmt : 110 ∉ fmt → keeps (vprintfmt putch putcnt store fuel fmt) (λ _, True).
Proof using Qput.
  revert fmt. induction fuel as [|fuel IH]; intros fmt Hn; cbn [vprintfmt]; [by intros ? ?|].
  destruct fmt as [|ch fmt]; [by apply keeps_ret|]. apply not_elem_of_cons in Hn as [_ Hn]. cbv zeta.
  destruct (negb (ch =? 37)); [apply keeps_seq; [apply keeps_put|intros _; by apply IH]|].
  eapply keeps_bind; [by apply keeps_reswitch|]. intros [[f c] rest] [Hc Hr]. cbn [fst snd] in Hc, Hr.
  destruct (Z.eqb_spec c 110) as [|_]; [done|].
  repeat first [apply IH; first [done|by apply (bool_decide_unpack _)] | apply keeps_printnum | kstep].
Qed.
End no_store.

(** ** [vsnprintf] *)

Record sprintbuf : Type := mkSprintbuf { sb_mem : memory; sb_buf : Z; sb_ebuf : Z; sb_cnt : Z }.

Definition sprintputch (ch : Z) (b : sprintbuf) : sprintbuf :=
  let cnt := s32 (sb_cnt b + 1) in
  if sb_buf b <? sb_ebuf b
  then mkSprintbuf (st8 (sb_mem b) (sb_buf b) ch) (sb_buf b + 1) (sb_ebuf b) cnt
  else mkSprintbuf (sb_mem b) (sb_buf b) (sb_ebuf b) cnt.

(** The first [int] of a [struct sprintbuf] is its pointer [buf]. *)
Definition sprintcnt (b : sprintbuf) : Z := s32 (sb_buf b).

(** [*n_p = v] of [%n]. *)
Definition sprintstore (p v : Z) (b : sprintbuf) : sprintbuf :=
  mkSprintbuf (st8 (sb_mem b) p v) (sb_buf b) (sb_ebuf b) (sb_cnt b).

(** The return value and the memory. *)
Definition vsnprintf (fuel : nat) (m : memory) (buf n : Z) (fmt : list Z) (ap : list arg) : res fmt_stop Z * memory :=
  if (buf =? 0) || (n <? 1) then (Ret (- E_INVAL), m)
  else
    match vprintfmt sprintputch sprintcnt sprintstore fuel fmt (mkP (mkSprintbuf m buf (buf + n - 1) 0) ap) with
    | (Ret _, st) => (Ret (sb_cnt (p_out st)), st8 (sb_mem (p_out st)) (sb_buf (p_out st)) 0)
    | (Stop e, st) => (Stop e, sb_mem (p_out st))
    end.

(** The output of a run, collected in a list, and the stores, last first. *)
Abbreviation collected := (list Z * list (Z * Z))%type.
Definition collect_putch (c : Z) (o : collected) : collected := (o.1 ++ [c], o.2).
Definition collect_store (p v : Z) (o : collected) : collected := (o.1, (p, v) :: o.2).

Definition collect (count : list Z → Z) (fuel : nat) (fmt : list Z) (ap : list arg) : res fmt_stop unit * collected :=
  let '(r, st) := vprintfmt collect_putch (λ o, count o.1) collect_store fuel fmt (mkP ([], []) ap) in (r, p_out st).

Lemma collect_no_n count fuel fmt ap : 110 ∉ fmt → (collect count fuel fmt ap).2.2 = [].
Proof.
  intros Hn. unfold collect.
  destruct (keeps_vprintfmt collect_putch (λ o, count o.1) collect_store (λ o, o.2 = []) (λ _ _ H, H) fuel fmt Hn
    (mkP ([], []) ap) eq_refl) as [HQ _].
  by destruct (vprintfmt _ _ _ _ _ _).
Qed.

Lemma collect_ends count fmt ap : (collect count (length fmt + 10) fmt ap).1 ≠ Stop FmtFuel.
Proof.
  pose proof (fin_vprintfmt collect_putch (λ o, count o.1) collect_store _ fmt (le_n _) (mkP ([], []) ap)) as Hf.
  unfold collect. destruct (vprintfmt _ _ _ _ _ _) as [[u|e] st]; cbn in *; congruence.
Qed.

(** The buffer after some output: the beginning of it that fits.  A store may
    have hit any of it. *)
Definition buffered (m : memory) (buf n : Z) (o : collected) (b : sprintbuf) : Prop :=
  let k := Z.min (Z.of_nat (length o.1)) (n - 1) in
  sb_buf b = buf + k ∧ sb_ebuf b = buf + n - 1 ∧ sb_cnt b = s32 (Z.of_nat (length o.1)) ∧
  (∀ i c, o.1 !! i = Some c → Z.of_nat i < n - 1 → buf + Z.of_nat i ∉ o.2.*1 → sb_mem b (buf + Z.of_nat i) = u8 c) ∧
  (∀ x, ¬ buf <= x < buf + k → x ∉ o.2.*1 → sb_mem b x = m x).

Lemma s32_succ a : s32 (s32 a + 1) = s32 (a + 1).
Proof. unfold s32. Z.to_euclidean_division_equations. lia. Qed.

Lemma buffered_put m buf n o b c :
  1 <= n → buffered m buf n o b → buffered m buf n (collect_putch c o) (sprintputch c b).
Proof.
  destruct o as [l sts]. intros Hn (Hb & He & Hc & Hin & Hout). cbn [fst snd] in *.
  unfold buffered, sprintputch, collect_putch. cbn [fst snd]. rewrite Hb, He, Hc, s32_succ, length_app.
  cbn [length]. rewrite Nat2Z.inj_add.
  destruct (Z.ltb_spec (buf + Z.min (Z.of_nat (length l)) (n - 1)) (buf + n - 1)) as [Hlt|Hlt];
    cbn [sb_buf sb_ebuf sb_cnt sb_mem].
  - replace (Z.min (Z.of_nat (length l)) (n - 1)) with (Z.of_nat (length l)) in * by lia.
    split_and!; [lia|lia|done| |].
    + intros i d Hi Hk Hs. destruct (decide (i = length l)) as [->|Hne].
      * rewrite list_lookup_middle in Hi by done. injection Hi as <-. unfold st8. by rewrite Z.eqb_refl.
      * assert (Hi' : (i < length (l ++ [c]))%nat) by (by apply lookup_lt_Some with d).
        rewrite length_app in Hi'. cbn in Hi'. rewrite lookup_app_l in Hi by lia.
        rewrite st8_other by lia. by apply Hin.
    + intros x Hx Hs. rewrite st8_other by lia. apply Hout; [lia|done].
  - split_and!; [lia|lia|done| |].
    + intros i d Hi Hk. rewrite lookup_app_l in Hi by lia. by apply Hin.
    + intros x Hx. apply Hout. lia.
Qed.

Lemma buffered_store m buf n o b p v :
  buffered m buf n o b → buffered m buf n (collect_store p v o) (sprintstore p v b).
Proof.
  destruct o as [l sts]. intros (Hb & He & Hc & Hin & Hout). unfold buffered, sprintstore, collect_store in *.
  cbn [fst snd fmap list_fmap sb_mem sb_buf sb_ebuf sb_cnt] in *. split_and!; [done..| |].
  - intros i c Hi Hk [Hp Hs]%not_elem_of_cons. rewrite st8_other by done. by apply Hin.
  - intros x Hx [Hp Hs]%not_elem_of_cons. rewrite st8_other by done. by apply Hout.
Qed.

(** C35: [vsnprintf] for every format and every argument list.  It terminates.
    It writes nothing outside the [n] bytes of the buffer except where a [%n]
    of the format stores, and without a letter n in the format there is no such
    store.  When formatting is defined the buffer holds the first [n - 1]
    characters of the output (all of it if it is shorter), but for bytes a [%n]
    has stored to, followed by a NUL, and the return value is the length of the
    whole output.  A null buffer or a size below 1 is refused. *)
Theorem vsnprintf_correct m buf n fmt ap :
  let fuel := (length fmt + 10)%nat in
  (buf = 0 ∨ n < 1 → vsnprintf fuel m buf n fmt ap = (Ret (- E_INVAL), m)) ∧
  (buf ≠ 0 → 1 <= n →
   ∃ r l stores m', collect (λ l, s32 (buf + Z.min (Z.of_nat (length l)) (n - 1))) fuel fmt ap = (r, (l, stores)) ∧
     (110 ∉ fmt → stores = []) ∧ (∀ x, ¬ buf <= x < buf + n → x ∉ stores.*1 → m' x = m x) ∧
     match r with
     | Ret _ =>
       vsnprintf fuel m buf n fmt ap = (Ret (s32 (Z.of_nat (length l))), m') ∧
       (∀ i c, l !! i = Some c → Z.of_nat i < n - 1 → buf + Z.of_nat i ∉ stores.*1 → m' (buf + Z.of_nat i) = u8 c) ∧
       m' (buf + Z.min (Z.of_nat (length l)) (n - 1)) = 0
     | Stop e => e ≠ FmtFuel ∧ vsnprintf fuel m buf n fmt ap = (Stop e, m')
     end).
Proof.
  intros fuel. unfold vsnprintf. split.
  { intros H. destruct (Z.eqb_spec buf 0); cbn [orb]; [done|]. by destruct (Z.ltb_spec n 1); [|lia]. }
  intros Hb Hn. destruct (Z.eqb_spec buf 0); [done|]. destruct (Z.ltb_spec n 1); [lia|]. cbn [orb].
  set (count := λ l : list Z, s32 (buf + Z.min (Z.of_nat (length l)) (n - 1))).
  set (st2 := mkP (mkSprintbuf m buf (buf + n - 1) 0) ap).
  assert (Hsim : sim (buffered m buf n) (vprintfmt collect_putch (λ o, count o.1) collect_store fuel fmt)
    (vprintfmt sprintputch sprintcnt sprintstore fuel fmt)).
  { apply sim_vprintfmt; [intros; by apply buffered_put| |intros; by apply buffered_store].
    intros o1 o2 (H1 & _). unfold count, sprintcnt. by rewrite H1. }
  destruct (Hsim (mkP ([], []) ap) st2) as [Hr (Hbuf & _)].
  { split; [|done]. split_and!; cbn; [lia|lia|done|done|done]. }
  pose proof (collect_no_n count fuel fmt ap) as Hno. pose proof (collect_ends count fmt ap) as Hf. fold fuel in Hf.
  unfold collect in *. destruct (vprintfmt _ (λ o, count o.1) _ fuel fmt _) as [r [[l sts] ap1]]. cbn [fst snd p_out] in *.
  destruct (vprintfmt sprintputch sprintcnt sprintstore fuel fmt st2) as [r2 st3]. cbn [fst snd] in *. subst r2.
  destruct Hbuf as (H1 & _ & H3 & Hin & Hout). cbn [fst snd] in *. destruct r as [u|e].
  - exists (Ret u), l, sts, (st8 (sb_mem (p_out st3)) (sb_buf (p_out st3)) 0).
    rewrite H1, H3. split_and!; [done|done| |done| |].
    + intros x Hx Hs. rewrite st8_other by lia. apply Hout; [lia|done].
    + intros i c Hi Hk Hs. assert (i < length l)%nat by (by apply lookup_lt_Some with c).
      rewrite st8_other by lia. by apply Hin.
    + apply st8_byte. split; done.
  - exists (Stop e), l, sts, (sb_mem (p_out st3)). split_and!; [done|done| |congruence|done].
    intros x Hx Hs. apply Hout; [lia|done].
Qed.

Definition snprintf_demo : res fmt_stop Z * memory :=
  vsnprintf (length (chars "%d") + 10) (λ _, 255) 4096 4 (chars "%d") [Word 12345].

(** [snprintf(buf, 4, "%d", 12345)] leaves "123" and returns 5. *)
Lemma vsnprintf_correct_witness :
  fst snprintf_demo = Ret 5 ∧ snd snprintf_demo (4096 + 2) = 51 ∧ snd snprintf_demo (4096 + 3) = 0 ∧
  snd snprintf_demo 4100 = 255.
Proof.
  destruct (vsnprintf_correct (λ _, 255) 4096 4 (chars "%d") [Word 12345]) as [_ H].
  destruct H as (r & l & sts & m' & Hc & _ & Hout & Hr); [discriminate|discriminate|].
  assert (Hl : (r, (l, sts)) = (Ret tt, (chars "12345", []))) by (rewrite <- Hc; vm_compute; reflexivity).
  injection Hl as -> -> ->. destruct Hr as (Hrun & Hin & H0). unfold snprintf_demo. rewrite Hrun. cbn [fst snd].
  split; [reflexivity|]. split; [exact (Hin 2%nat 51 eq_refl eq_refl (not_elem_of_nil _))|]. split; [exact H0|].
  apply Hout; [|apply not_elem_of_nil]. intros [_ H]. discriminate H.
Defined.

(** ** The consoles *)

(** [cprintf] in a user program: the characters are collected in a buffer
    and printed with [sys_cputs] when 255 have come together. *)
Record printbuf : Type := mkPrintbuf {
  pb_idx : Z; pb_cnt : Z; pb_buf : Z → Z;
  pb_cputs : list (list Z);        (** the strings passed to [sys_cputs] *)
  pb_mem : memory }.               (** the program's other memory *)

Definition pb_chunk (b : printbuf) : list Z := pb_buf b <$> seqZ 0 (pb_idx b).

Definition user_putch (ch : Z) (b : printbuf) : printbuf :=
  let buf := λ i, if i =? pb_idx b then u8 ch else pb_buf b i in
  let b := mkPrintbuf (pb_idx b + 1) (pb_cnt b) buf (pb_cputs b) (pb_mem b) in
  let b := if pb_idx b =? 256 - 1 then mkPrintbuf 0 (pb_cnt b) (pb_buf b) (pb_cputs b ++ [pb_chunk b]) (pb_mem b) else b in
  mkPrintbuf (pb_idx b) (s32 (pb_cnt b + 1)) (pb_buf b) (pb_cputs b) (pb_mem b).

Definition print_store (p v : Z) (b : printbuf) : printbuf :=
  mkPrintbuf (pb_idx b) (pb_cnt b) (pb_buf b) (pb_cputs b) (st8 (pb_mem b) p v).

(** The return value, the strings printed, and the memory.  The first [int]
    of a [struct printbuf] is its index. *)
Definition user_vcprintf (fuel : nat) (fmt : list Z) (ap : list arg) (m : memory) : res fmt_stop Z * list (list Z) * memory :=
  match vprintfmt user_putch pb_idx print_store fuel fmt (mkP (mkPrintbuf 0 0 (λ _, 0) [] m) ap) with
  | (Ret _, st) => (Ret (pb_cnt (p_out st)), pb_cputs (p_out st) ++ [pb_chunk (p_out st)], pb_mem (p_out st))
  | (Stop e, st) => (Stop e, pb_cputs (p_out st), pb_mem (p_out st))
  end.

(** [cprintf] in the kernel: straight to the console. *)
Definition kern_putch (ch : Z) (o : console * Z * memory) : console * Z * memory :=
  let '(c, cnt, m) := o in (cputchar ch c, s32 (cnt + 1), m).
Definition kern_store (p v : Z) (o : console * Z * memory) : console * Z * memory :=
  let '(c, cnt, m) := o in (c, cnt, st8 m p v).

Definition kern_vcprintf (fuel : nat) (fmt : list Z) (ap : list arg) (c : console) (m : memory) :
    res fmt_stop Z * console * memory :=
  match vprintfmt kern_putch (λ o, o.1.2) kern_store fuel fmt (mkP (c, 0, m) ap) with
  | (Ret _, st) => let '(c, cnt, m) := p_out st in (Ret cnt, c, m)
  | (Stop e, st) => let '(c, cnt, m) := p_out st in (Stop e, c, m)
  end.

(** What the user's buffer has let through so far. *)
Definition printed (o : collected) (b : printbuf) : Prop :=
  let l := o.1 in
  0 <= pb_idx b < 255 ∧ pb_idx b = Z.of_nat (length l) mod 255 ∧ pb_cnt b = s32 (Z.of_nat (length l)) ∧
  concat (pb_cputs b) ++ pb_chunk b = u8 <$> l ∧ Forall (λ s, length s = 255%nat) (pb_cputs b).

Lemma printed_put o b c : printed o b → printed (collect_putch c o) (user_putch c b).
Proof.
  destruct o as [l sts]. intros (Hi & Hm & Hc & Hl & Hf). unfold printed, user_putch. cbn [collect_putch fst snd] in *. rewrite length_app, fmap_app, <- Hl. cbn [length].
  set (buf := λ i, if i =? pb_idx b then u8 c else pb_buf b i).
  assert (Hchunk : buf <$> seqZ 0 (pb_idx b + 1) = pb_chunk b ++ [u8 c]).
  { rewrite seqZ_app, fmap_app by lia. f_equal.
    - apply list_fmap_ext. intros _ x Hx%list_elem_of_lookup_2%elem_of_seqZ. unfold buf.
      by destruct (Z.eqb_spec x (pb_idx b)); [lia|].
    - rewrite Z.add_0_l. change (seqZ (pb_idx b) 1) with [0 + pb_idx b]. rewrite Z.add_0_l. cbn. unfold buf. by rewrite Z.eqb_refl. }
  assert (Hmod : Z.of_nat (length l + 1) mod 255 = if pb_idx b + 1 =? 255 then 0 else pb_idx b + 1).
  { rewrite Nat2Z.inj_add. destruct (Z.eqb_spec (pb_idx b + 1) 255); Z.to_euclidean_division_equations; lia. }
  cbn [pb_idx pb_cnt pb_buf pb_cputs]. change (256 - 1) with 255.
  destruct (Z.eqb_spec (pb_idx b + 1) 255) as [E|E]; cbn [pb_idx pb_cnt pb_buf pb_cputs]; rewrite Hc, s32_succ, Hmod;
    unfold pb_chunk at 1; cbn [pb_idx pb_buf].
  - split_and!; [lia|lia|done|f_equal; lia| |].
    + unfold pb_chunk at 1. cbn [pb_idx pb_buf]. rewrite Hchunk, concat_app. cbn [concat]. by rewrite !app_nil_r, app_assoc.
    + apply Forall_app. split; [done|]. constructor; [|done]. unfold pb_chunk. cbn [pb_idx pb_buf].
      rewrite length_fmap, length_seqZ. lia.
  - split_and!; [lia|lia|done|f_equal; lia| |done]. rewrite Hchunk. by rewrite app_assoc.
Qed.

(** Whatever is printed, the user's buffer of 256 bytes never overflows, and the
    strings it hands to [sys_cputs] are, put together, the output. *)
Lemma user_vcprintf_spec fmt ap m :
  let fuel := (length fmt + 10)%nat in
  ∃ r l sts, collect (λ l, Z.of_nat (length l) mod 255) fuel fmt ap = (r, (l, sts)) ∧
    match r with
    | Ret _ => ∃ cs m', user_vcprintf fuel fmt ap m = (Ret (s32 (Z.of_nat (length l))), cs, m') ∧
        concat cs = u8 <$> l ∧ Forall (λ s, (length s <= 255)%nat) cs
    | Stop e => e ≠ FmtFuel ∧ (user_vcprintf fuel fmt ap m).1.1 = Stop e
    end.
Proof.
  intros fuel. set (count := λ l : list Z, Z.of_nat (length l) mod 255).
  assert (Hsim : sim printed (vprintfmt collect_putch (λ o, count o.1) collect_store fuel fmt)
    (vprintfmt user_putch pb_idx print_store fuel fmt)).
  { apply sim_vprintfmt; [intros; by apply printed_put| |by intros p v o1 o2 H]. intros o1 o2 (_ & H & _). by rewrite H. }
  set (st2 := mkP (mkPrintbuf 0 0 (λ _, 0) [] m) ap).
  destruct (Hsim (mkP ([], []) ap) st2) as [Hr (Hbuf & _)]; [by split; [split_and!|]|].
  pose proof (collect_ends count fmt ap) as Hf. fold fuel in Hf.
  unfold collect, user_vcprintf in *. fold st2. destruct (vprintfmt _ (λ o, count o.1) _ fuel fmt _) as [r [[l sts] ap1]].
  destruct (vprintfmt user_putch pb_idx print_store fuel fmt st2) as [r2 st3]. cbn [fst snd p_out] in *. subst r2.
  exists r, l, sts. split; [done|]. destruct Hbuf as (Hi & _ & Hc & Hl & Hlen). cbn [fst] in *. destruct r as [u|e]; [|split; [congruence|done]].
  eexists _, _. split; [by rewrite Hc|]. rewrite concat_app. cbn [concat]. rewrite app_nil_r. split; [done|].
  apply Forall_app. split; [eapply Forall_impl; [exact Hlen|cbn; lia]|]. constructor; [|done].
  unfold pb_chunk. rewrite length_fmap, length_seqZ. lia.
Qed.

(** ** Printing and reading numbers *)

Lemma hexdigit_spec base d :
  0 <= d < base → base <= 16 →
  digit_of base (hexdigit d) = Some d ∧ hexdigit d ≠ 0 ∧ hexdigit d ≠ 32 ∧ hexdigit d ≠ 9 ∧
  hexdigit d ≠ 43 ∧ hexdigit d ≠ 45 ∧ hexdigit d ≠ 120.
Proof.
  intros Hd Hb.
  assert (H : forallb (λ b, forallb (λ d, bool_decide (digit_of b (hexdigit d) = Some d) &&
    forallb (λ k, negb (hexdigit d =? k)) [0; 32; 9; 43; 45; 120]) (seqZ 0 b)) (seqZ 0 17) = true)
    by (vm_compute; reflexivity).
  rewrite forallb_forall in H. specialize (H base). rewrite <- list_elem_of_In, elem_of_seqZ in H. specialize (H ltac:(lia)).
  rewrite forallb_forall in H. specialize (H d). rewrite <- list_elem_of_In, elem_of_seqZ in H. specialize (H ltac:(lia)).
  cbn [forallb] in H. rewrite !andb_true_iff, bool_decide_eq_true, !negb_true_iff, !Z.eqb_neq in H. naive_solver.
Qed.

Lemma s32_step v base d : s32 (s32 v * base + d) = s32 (v * base + d).
Proof.
  unfold s32. f_equal.
  replace (((v + 2 ^ 31) mod 2 ^ 32 - 2 ^ 31) * base + d + 2 ^ 31)
    with (v * base + d + 2 ^ 31 + (- base * ((v + 2 ^ 31) / 2 ^ 32)) * 2 ^ 32).
  - by rewrite Z.mod_add by lia.
  - pose proof (Z.div_mod (v + 2 ^ 31) (2 ^ 32) ltac:(lia)) as H. nia.
Qed.

Lemma strtol_digits_spec base ds : ∀ fuel m a v,
  base <= 16 → Forall (λ d, 0 <= d < base) ds → is_str m a (hexdigit <$> ds) → (length ds < fuel)%nat →
  strtol_digits fuel m a base (s32 v) = Some (s32 (foldl (λ x d, x * base + d) v ds), a + Z.of_nat (length ds)).
Proof.
  induction ds as [|d ds IH]; intros fuel m a v Hb Hds Hs Hf;
    (destruct fuel as [|fuel]; [cbn in Hf; lia|]); cbn [fmap list_fmap is_str foldl length strtol_digits] in *.
  - rewrite Hs. assert (digit_of base 0 = None) as -> by reflexivity. by rewrite Z.add_0_r.
  - apply Forall_cons in Hds as [Hd Hds]. destruct Hs as (-> & _ & Hs).
    destruct (hexdigit_spec base d Hd Hb) as (-> & _). rewrite s32_step, IH by (done || lia). do 2 f_equal. lia.
Qed.

Lemma foldl_collect (l o : list Z) : foldl (λ o c, o ++ [c]) o l = o ++ l.
Proof. revert o. induction l as [|c l IH]; intros o; cbn; [by rewrite app_nil_r|]. by rewrite IH, <- app_assoc. Qed.

(** Blanks before something else. *)
Lemma skip_blanks_spec fuel m a k c l :
  is_str m a (replicate k 32 ++ c :: l) → c ≠ 32 → c ≠ 9 → (k < fuel)%nat → skip_blanks fuel m a = Some (a + Z.of_nat k).
Proof.
  revert fuel a. induction k as [|k IH]; intros fuel a Hs H1 H2 Hf; (destruct fuel as [|fuel]; [lia|]);
    cbn [replicate app is_str skip_blanks] in *; destruct Hs as (-> & _ & Hs).
  - destruct (Z.eqb_spec c 32); [done|]. destruct (Z.eqb_spec c 9); [done|]. cbn [orb]. f_equal. lia.
  - cbn [Z.eqb orb]. rewrite IH by (done || lia). f_equal. lia.
Qed.

Lemma is_str_app m a l1 l2 : is_str m a (l1 ++ l2) → is_str m (a + Z.of_nat (length l1)) l2.
Proof.
  revert a. induction l1 as [|c l1 IH]; intros a; cbn [app is_str length]; [by rewrite Z.add_0_r|].
  intros (_ & _ & Hs). apply IH in Hs. by replace (a + Z.of_nat (S (length l1))) with (a + 1 + Z.of_nat (length l1)) by lia.
Qed.

(** A string of digits, after blanks. *)
Lemma strtol_number m a k base ds :
  2 <= base <= 16 → Forall (λ d, 0 <= d < base) ds → ds ≠ [] → 0 <= digits_val base ds < 2 ^ 31 →
  is_str m a (replicate k 32 ++ (hexdigit <$> ds)) →
  strtol (S (k + length ds)) m a base = Some (digits_val base ds, a + Z.of_nat (k + length ds)).
Proof.
  intros Hb Hall Hne Hn Hs. unfold strtol. destruct ds as [|d ds']; [done|].
  pose proof Hall as [Hd Hall']%Forall_cons. destruct (hexdigit_spec base d Hd ltac:(lia)) as (_ & _ & N1 & N2 & N3 & N4 & _).
  rewrite (skip_blanks_spec _ m a k (hexdigit d) (hexdigit <$> ds')) by (done || lia). cbn [mbind option_bind].
  apply is_str_app in Hs. rewrite length_replicate in Hs. set (b := a + Z.of_nat k) in *.
  assert (Ha : m b = hexdigit d) by apply Hs.
  rewrite Ha. destruct (Z.eqb_spec (hexdigit d) 43); [done|]. destruct (Z.eqb_spec (hexdigit d) 45); [done|].
  assert (Hx : m (b + 1) =? 120 = false).
  { cbn [fmap list_fmap is_str] in Hs. destruct Hs as (_ & _ & Hs). destruct ds' as [|d1 ds'].
    - cbn in Hs. by rewrite Hs.
    - destruct Hs as (-> & _). apply Forall_cons in Hall' as [Hd1 _].
      destruct (hexdigit_spec base d1 Hd1 ltac:(lia)) as (_ & _ & _ & _ & _ & _ & ?). by apply Z.eqb_neq. }
  rewrite Hx, andb_false_r, andb_false_r. destruct (Z.eqb_spec base 0); [lia|]. cbn [andb].
  change 0 with (s32 0) at 1. rewrite (strtol_digits_spec base (d :: ds')) by (done || cbn; lia).
  cbn [mbind option_bind]. change (foldl _ 0 (d :: ds')) with (digits_val base (d :: ds')).
  f_equal. f_equal; [|lia]. unfold s32. rewrite Z.mod_small by lia. lia.
Qed.

Lemma digits_val_zeros base k ds : digits_val base (replicate k 0 ++ ds) = digits_val base ds.
Proof. unfold digits_val. rewrite foldl_app. f_equal. induction k as [|k IH]; [done|]. cbn [replicate foldl]. exact IH. Qed.

(** C36: the round trip of numbers below 2^31.  What [printnum] prints for such a
    number in a base from 2 to 16, padded on the left with blanks or zeros to
    any width, is a string that [strtol] reads back, in the same base, as that
    number, up to the end of the string.  (Left-adjusted output, [%-], is
    another routine, and larger numbers overflow the [long] of [strtol].) *)
Theorem strtol_printnum m a num base width padc :
  2 <= base <= 16 → 0 <= num < 2 ^ 31 → padc = 32 ∨ padc = 48 →
  ∃ l, printnum (λ c l, l ++ [c]) 65 num base width padc (mkP [] []) = (Ret tt, mkP l []) ∧
    (is_str m a l → strtol (S (length l)) m a base = Some (num, a + Z.of_nat (length l))).
Proof.
  intros Hb Hn Hp. set (ds := digits 65 base num).
  destruct (digits_spec 64 base num) as (Hv & Hall & (d0 & ds' & Hds & _) & Hlen); [lia|lia|]. fold ds in Hv, Hall, Hds, Hlen.
  set (k := Z.to_nat (width - Z.of_nat (length ds))). exists (replicate k padc ++ (hexdigit <$> ds)). split.
  { rewrite (printnum_spec _ 64) by lia. fold ds. unfold emit. cbn [p_out p_args]. by rewrite foldl_collect. }
  intros Hs. rewrite length_app, length_replicate, length_fmap. destruct Hp as [-> | ->].
  - rewrite (strtol_number m a k base ds); [by rewrite Hv|done|done|by rewrite Hds|lia|done].
  - change 48 with (hexdigit 0) in Hs. rewrite <- fmap_replicate, <- fmap_app in Hs.
    replace (k + length ds)%nat with (0 + length (replicate k 0%Z ++ ds))%nat by (rewrite length_app, length_replicate; lia).
    rewrite (strtol_number m a 0 base (replicate k 0 ++ ds)); [by rewrite digits_val_zeros, Hv|done| |rewrite Hds; by destruct k|rewrite digits_val_zeros; lia|done].
    apply Forall_app. split; [|done]. apply Forall_replicate. lia.
Qed.

(** 48879 in hexadecimal, at address 100. *)
Definition beef (x : Z) : Z := if x =? 100 then 98 else if x =? 101 then 101 else if x =? 102 then 101 else if x =? 103 then 102 else 0.

Lemma strtol_printnum_witness : strtol 5 beef 100 16 = Some (48879, 104).
Proof.
  destruct (strtol_printnum beef 100 48879 16 (-1) 32) as (l & Hp & Hs);
    [split; discriminate|split; [discriminate|reflexivity]|left; reflexivity|].
  assert (l = chars "beef") as -> by (vm_compute in Hp; injection Hp as <-; reflexivity).
  apply Hs. repeat split; reflexivity || (intros H; discriminate H).
Defined.
