(* ===== verification/BlockCache.v ===== *)
(** * The block cache ([fs/bc.c])

    The file server's address space: disk block [n] is the page at
    [DISKMAP + n*BLKSIZE], mapped on demand by the page-fault handler
    [bc_pgfault], written back by [flush_block].  [f_mem] is the server's
    memory, [f_disk] what is on the disk at the same addresses; [f_mapped] and
    [f_dirty] are the present and dirty bits of the block pages; [f_pages] is
    the number of pages the kernel can still give out; [f_super] and
    [f_bitmap] say whether the pointers [super] and [bitmap] have been set.
    The disk is taken not to fail: [disk_read] and [disk_write] are then the
    effects of the driver's [ide_read] and [ide_write] of a block ([Ide] shows
    it, and what these do on errors).

    A load or store of the server touches its page first: [touch] is what the
    processor and the handler do.  The handler itself reads the superblock and
    the bitmap and so can fault again; the fuel bounds that depth. *)

From S2P Require Import Prelude Mmu Console KState CString.
Open Scope Z_scope.

Definition BLKSIZE : Z := PGSIZE.
Definition BLKBITSIZE : Z := BLKSIZE * 8.
Definition DISKMAP : Z := 0x10000000.
Definition DISKSIZE : Z := 0xC0000000.
Definition FS_MAGIC : Z := 0x4A0530AE.

(** [diskaddr(1)] and [diskaddr(2)], the values of [super] and [bitmap]. *)
Definition SUPER : Z := DISKMAP + BLKSIZE.
Definition BITMAP : Z := DISKMAP + 2 * BLKSIZE.

Record fstate : Type := mkFs {
  f_mem : memory;
  f_disk : memory;
  f_mapped : Z → bool;
  f_dirty : Z → bool;
  f_pages : Z;
  f_super : bool;
  f_bitmap : bool;
}.

Inductive fs_stop : Type :=
  | FsPanic (msg : string)
  | FsFuel.

Abbreviation F := (M fstate fs_stop).

Definition fpanic {A} (msg : string) : F A := stop (FsPanic msg).

Definition set_f_mem (m : memory) (s : fstate) : fstate :=
  mkFs m (f_disk s) (f_mapped s) (f_dirty s) (f_pages s) (f_super s) (f_bitmap s).

(** The block an address belongs to, and the address of a block. *)
Definition blockno_of (addr : Z) : Z := u32 (addr - DISKMAP) / BLKSIZE.
Definition blockaddr (blockno : Z) : Z := DISKMAP + blockno * BLKSIZE.
Definition in_diskmap (addr : Z) : bool := (DISKMAP <=? addr) && (addr <? DISKMAP + DISKSIZE).

Definition upd_bit (f : Z → bool) (n : Z) (b : bool) : Z → bool := λ x, if x =? n then b else f x.

(** [sys_page_alloc(0, page, ...)]: a page of zeros, if there is one. *)
Definition fs_page_alloc (blockno : Z) : F unit :=
  n ← gets f_pages;
  if n <=? 0 then fpanic "bc_pgfault->sys_page_alloc failed"
  else modify (λ s, mkFs (mem_set (f_mem s) (blockaddr blockno) 0 BLKSIZE) (f_disk s)
                      (upd_bit (f_mapped s) blockno true) (upd_bit (f_dirty s) blockno false)
                      (n - 1) (f_super s) (f_bitmap s)).

(** [ide_read] of a block stores into its page; [ide_write] of a block. *)
Definition disk_read (blockno : Z) : F unit :=
  modify (λ s, mkFs (λ x, if (blockaddr blockno <=? x) && (x <? blockaddr blockno + BLKSIZE) then f_disk s x else f_mem s x)
                 (f_disk s) (f_mapped s) (upd_bit (f_dirty s) blockno true) (f_pages s) (f_super s) (f_bitmap s)).

Definition disk_write (blockno : Z) : F unit :=
  modify (λ s, mkFs (f_mem s)
                 (λ x, if (blockaddr blockno <=? x) && (x <? blockaddr blockno + BLKSIZE) then f_mem s x else f_disk s x)
                 (f_mapped s) (f_dirty s) (f_pages s) (f_super s) (f_bitmap s)).

(** [sys_page_map(0, addr, 0, addr, ...)]: the page is mapped again, with a
    clear dirty bit; the kernel refuses an address that is not page aligned
    ([SyscallSpec.sys_page_map_unaligned]). *)
Definition fs_page_remap (addr : Z) (msg : string) : F unit :=
  if negb (PGOFF addr =? 0) then fpanic msg
  else modify (λ s, mkFs (f_mem s) (f_disk s) (f_mapped s) (upd_bit (f_dirty s) (blockno_of addr) false)
                      (f_pages s) (f_super s) (f_bitmap s)).

(** [block_is_free], with [ld] the load of a word. *)
Definition block_is_free (ld : Z → F Z) (blockno : Z) : F bool :=
  sup ← gets f_super;
  if negb sup then mret false
  else
    n ← ld (SUPER + 4);
    if n <=? blockno then mret false
    else w ← ld (BITMAP + 4 * (blockno / 32)); mret (Z.testbit w (blockno mod 32)).

Definition bc_pgfault (ld : Z → F Z) (addr : Z) : F unit :=
  let blockno := blockno_of addr in
  if negb (in_diskmap addr) then fpanic "page fault in FS"
  else
    sup ← gets f_super;
    (if (sup : bool) then n ← ld (SUPER + 4); if n <=? blockno then fpanic "reading non-existent block" else mret tt
     else mret tt);;
    fs_page_alloc blockno;;
    disk_read blockno;;
    fs_page_remap addr "in bc_pgfault, sys_page_map";;
    bm ← gets f_bitmap;
    if (bm : bool) then fr ← block_is_free ld blockno; if (fr : bool) then fpanic "reading free block" else mret tt
    else mret tt.

(** A read of [addr]: nothing for a page that is there; memory outside the
    disk map always is. *)
Fixpoint touch (fuel : nat) (addr : Z) : F unit :=
  match fuel with
  | O => stop FsFuel
  | S fuel' =>
    s ← gets id;
    if negb (in_diskmap addr) || f_mapped s (blockno_of addr) then mret tt
    else bc_pgfault (λ a, touch fuel' a;; gets (λ s, ld32 (f_mem s) a)) addr
  end.

(** The handler can nest three deep: a block, the superblock, a bitmap block. *)
Definition FAULTS : nat := 4.

Definition fload32 (a : Z) : F Z := touch FAULTS a;; gets (λ s, ld32 (f_mem s) a).

(** A write of [addr] also sets the dirty bit. *)
Definition touch_write (addr : Z) : F unit :=
  touch FAULTS addr;;
  modify (λ s, mkFs (f_mem s) (f_disk s) (f_mapped s)
                 (if in_diskmap addr then upd_bit (f_dirty s) (blockno_of addr) true else f_dirty s)
                 (f_pages s) (f_super s) (f_bitmap s)).

Definition fstore32 (a v : Z) : F unit :=
  touch_write a;; modify (λ s, set_f_mem (st32 (f_mem s) a (u32 v)) s).

(** [memset] within a page: its first access faults, if any does. *)
Definition fmemset (a c n : Z) : F unit :=
  if n =? 0 then mret tt
  else touch_write a;; modify (λ s, set_f_mem (memset (f_mem s) a c n) s).

(** Where [n] bytes from [a] on enter their last page. *)
Definition last_page (a n : Z) : Z := Z.max a (a + n - 1 - (a + n - 1) mod PGSIZE).

(** [memmove] of at most a page between regions that do not overlap: each of
    them is on one page or two, and the first access to each page faults, if
    any does. *)
Definition fmemmove (dst src n : Z) : F unit :=
  if n =? 0 then mret tt
  else
    touch FAULTS src;;
    touch_write dst;;
    touch FAULTS (last_page src n);;
    touch_write (last_page dst n);;
    modify (λ s, set_f_mem (memmove (f_mem s) dst src n) s).

Definition diskaddr (blockno : Z) : F Z :=
  if blockno =? 0 then fpanic "bad block number in diskaddr"
  else
    sup ← gets f_super;
    if negb sup then mret (u32 (blockaddr blockno))
    else n ← fload32 (SUPER + 4); if n <=? blockno then fpanic "bad block number in diskaddr" else mret (u32 (blockaddr blockno)).

Definition flush_block (addr : Z) : F unit :=
  let blockno := blockno_of addr in
  if negb (in_diskmap addr) then fpanic "flush_block of bad va"
  else
    let addr_round := ROUNDDOWN addr PGSIZE in
    s ← gets id;
    if f_mapped s (blockno_of addr_round) && f_dirty s (blockno_of addr_round) then
      disk_write blockno;; fs_page_remap addr_round "flush_block->sys_page_map failed"
    else mret tt.

(** ** Strings and local copies *)

(** [strcmp(a, name) == 0]; the characters of [name] are not 0. *)
Fixpoint str_eq (m : memory) (a : Z) (name : list Z) : bool :=
  match name with
  | [] => m a =? 0
  | c :: name' => (m a =? c) && str_eq m (a + 1) name'
  end.

(** [strcpy(a, name)] *)
Fixpoint store_name (m : memory) (a : Z) (name : list Z) : memory :=
  match name with
  | [] => st8 m a 0
  | c :: name' => store_name (st8 m a c) (a + 1) name'
  end.

(** A [memmove] from the cache into a local of [n] bytes, and back. *)
Definition fread (a n : Z) : F (list Z) :=
  touch FAULTS a;; gets (λ s, (λ i, f_mem s (a + i)) <$> seqZ 0 n).

Fixpoint store_bytes (m : memory) (a : Z) (l : list Z) : memory :=
  match l with
  | [] => m
  | c :: l' => store_bytes (st8 m a c) (a + 1) l'
  end.

Definition fwrite (a : Z) (l : list Z) : F unit :=
  touch_write a;; modify (λ s, set_f_mem (store_bytes (f_mem s) a l) s).

Definition fstrcpy (a : Z) (name : list Z) : F unit :=
  touch_write a;; modify (λ s, set_f_mem (store_name (f_mem s) a name) s).

(** ** Setting up the cache *)

Definition fassert (b : bool) (msg : string) : F unit := if b then mret tt else fpanic msg.

Definition va_is_mapped (va : Z) : F bool := gets (λ s, f_mapped s (blockno_of va)).
Definition va_is_dirty (va : Z) : F bool := gets (λ s, f_dirty s (blockno_of va)).

(** [sys_page_unmap(0, va)]; the page goes back to the kernel. *)
Definition fs_page_unmap (va : Z) : F unit :=
  modify (λ s, mkFs (f_mem s) (f_disk s) (upd_bit (f_mapped s) (blockno_of va) false) (f_dirty s)
                 (if f_mapped s (blockno_of va) then f_pages s + 1 else f_pages s) (f_super s) (f_bitmap s)).

(** ["OOPS!\n"] *)
Definition OOPS : list Z := [79; 79; 80; 83; 33; 10].

Definition SUPER_SIZE : Z := 264.

(** One experiment of [check_bc]: smash the superblock, flush it through the
    address [off] bytes into it, drop it and read it back. *)
Definition check_bc_once (off : Z) (check_dirty : bool) : F unit :=
  a ← diskaddr 1;
  backup ← fread a SUPER_SIZE;
  a ← diskaddr 1;
  fstrcpy a OOPS;;
  a ← diskaddr 1;
  flush_block (a + off);;
  a ← diskaddr 1;
  b ← va_is_mapped a;
  fassert b "assertion failed: va_is_mapped(diskaddr(1))";;
  (if check_dirty then b ← va_is_dirty a; fassert (negb b) "assertion failed: !va_is_dirty(diskaddr(1))" else mret tt);;
  fs_page_unmap a;;
  b ← va_is_mapped a;
  fassert (negb b) "assertion failed: !va_is_mapped(diskaddr(1))";;
  touch FAULTS a;;
  m ← gets f_mem;
  fassert (str_eq m a OOPS) "assertion failed: strcmp(diskaddr(1), OOPS) == 0";;
  fwrite a backup;;
  flush_block a.

Definition check_bc : F unit := check_bc_once 0 true;; check_bc_once 20 false.

Definition bc_init : F unit :=
  check_bc;;
  a ← diskaddr 1;
  fread a SUPER_SIZE;;
  mret tt.
