(* ===== verification/Ide.v ===== *)
(** * The disk driver ([fs/ide.c])

    Programmed input and output with an ATA controller.  The controller is
    hardware; [ata] is its protocol as the driver uses it, for a controller
    with two disks: the registers that select a disk, a sector and a number of
    sectors, the two commands, and the data port, through which a sector goes
    in 128 words.  Before it accepts a command, and before each sector, the
    controller may be busy for any number of polls of its status ([a_delays]);
    any set of sectors may be bad ([a_bad]), which it reports when it comes to
    one.

    The theorems: [ide_read] and [ide_write] transfer the sectors before the
    first bad one and return 0 if there is none, -1 otherwise; and on a disk
    without bad sectors the transfer of a block is what the block cache takes
    it to be ([disk_read] and [disk_write] of [BlockCache]). *)

From S2P Require Import Prelude Mmu Console KState CString BlockCache.
Open Scope Z_scope.

Definition SECTSIZE : Z := 512.
Definition BLKSECTS : Z := BLKSIZE / SECTSIZE.

Definition IDE_BSY : Z := 0x80.
Definition IDE_DRDY : Z := 0x40.
Definition IDE_DF : Z := 0x20.
Definition IDE_ERR : Z := 0x01.

(** ** The controller *)

Inductive phase : Type :=
  | Ready
  | Data (wr : bool) (drive sec todo word : Z).   (** the next word to transfer *)

Record ata : Type := mkAta {
  a_disk : Z → memory;        (** the bytes of each disk *)
  a_bad : Z → Z → bool;       (** bad sectors *)
  a_reg : Z → Z;              (** the registers, by port *)
  a_phase : phase;
  a_busy : nat;               (** the polls it stays busy *)
  a_delays : list nat }.      (** the same, for the next times *)

Definition status (a : ata) : Z :=
  match a_phase a with
  | Ready => IDE_DRDY
  | Data _ dr sec _ _ => if a_bad a dr sec then Z.lor IDE_DRDY IDE_ERR else Z.lor IDE_DRDY 0x08
  end.

Definition ata_in8 (port : Z) (a : ata) : Z * ata :=
  if port =? 0x1F7 then
    match a_busy a with
    | S n => (IDE_BSY, mkAta (a_disk a) (a_bad a) (a_reg a) (a_phase a) n (a_delays a))
    | O => (status a, a)
    end
  else (a_reg a port, a).

(** Into another phase, after the next delay. *)
Definition enter (ph : phase) (a : ata) : ata :=
  mkAta (a_disk a) (a_bad a) (a_reg a) ph (hd 0%nat (a_delays a)) (tl (a_delays a)).

Definition selected (a : ata) : Z :=
  a_reg a 0x1F3 + a_reg a 0x1F4 * 2 ^ 8 + a_reg a 0x1F5 * 2 ^ 16 + Z.land (a_reg a 0x1F6) 0x0F * 2 ^ 24.

Definition ata_command (wr : bool) (a : ata) : ata :=
  let n := if a_reg a 0x1F2 =? 0 then 256 else a_reg a 0x1F2 in
  enter (Data wr (Z.land (Z.shiftr (a_reg a 0x1F6) 4) 1) (selected a) n 0) a.

Definition ata_out8 (port v : Z) (a : ata) : ata :=
  if port =? 0x1F7 then
    if u8 v =? 0x20 then ata_command false a else if u8 v =? 0x30 then ata_command true a else a
  else mkAta (a_disk a) (a_bad a) (λ p, if p =? port then u8 v else a_reg a p) (a_phase a) (a_busy a) (a_delays a).

(** After a word: the next word, the next sector, or the end. *)
Definition next_word (wr : bool) (dr sec todo w : Z) (a : ata) : ata :=
  if w + 1 <? 128 then mkAta (a_disk a) (a_bad a) (a_reg a) (Data wr dr sec todo (w + 1)) (a_busy a) (a_delays a)
  else if todo =? 1 then enter Ready a
  else enter (Data wr dr (sec + 1) (todo - 1) 0) a.

Definition ata_in32 (a : ata) : Z * ata :=
  match a_phase a with
  | Data false dr sec todo w => (ld32 (a_disk a dr) (sec * SECTSIZE + 4 * w), next_word false dr sec todo w a)
  | _ => (0, a)
  end.

Definition ata_out32 (v : Z) (a : ata) : ata :=
  match a_phase a with
  | Data true dr sec todo w =>
    next_word true dr sec todo w
      (mkAta (λ d, if d =? dr then st32 (a_disk a dr) (sec * SECTSIZE + 4 * w) v else a_disk a d)
         (a_bad a) (a_reg a) (a_phase a) (a_busy a) (a_delays a))
  | _ => a
  end.

(** ** The driver *)

(** The controller, the server's memory, and the static variable [diskno]. *)
Record ide : Type := mkIde { i_ata : ata; i_mem : memory; diskno : Z }.

Inductive ide_stop : Type := IdePanic (msg : string) | IdeFuel.

Abbreviation I := (M ide ide_stop).

Definition inb (port : Z) : I Z := λ s,
  let '(v, a) := ata_in8 port (i_ata s) in (Ret v, mkIde a (i_mem s) (diskno s)).
Definition outb (port v : Z) : I unit := modify (λ s, mkIde (ata_out8 port v (i_ata s)) (i_mem s) (diskno s)).

(** [insl] and [outsl] of [inc/x86.h], on the data port 0x1F0. *)
Fixpoint insl (addr : Z) (cnt : nat) : I unit :=
  match cnt with
  | O => mret tt
  | S cnt' =>
    modify (λ s, let '(v, a) := ata_in32 (i_ata s) in mkIde a (st32 (i_mem s) addr v) (diskno s));;
    insl (addr + 4) cnt'
  end.

Fixpoint outsl (addr : Z) (cnt : nat) : I unit :=
  match cnt with
  | O => mret tt
  | S cnt' =>
    modify (λ s, mkIde (ata_out32 (ld32 (i_mem s) addr) (i_ata s)) (i_mem s) (diskno s));;
    outsl (addr + 4) cnt'
  end.

(** [while (((r = inb(0x1F7)) & (IDE_BSY|IDE_DRDY)) != IDE_DRDY)] *)
Fixpoint ide_poll (fuel : nat) : I Z :=
  match fuel with
  | O => stop IdeFuel
  | S fuel' =>
    r ← inb 0x1F7;
    if Z.land r (Z.lor IDE_BSY IDE_DRDY) =? IDE_DRDY then mret r else ide_poll fuel'
  end.

Definition ide_wait_ready (fuel : nat) (check_error : bool) : I Z :=
  r ← ide_poll fuel;
  if check_error && negb (Z.land r (Z.lor IDE_DF IDE_ERR) =? 0) then mret (-1) else mret 0.

Fixpoint ide_probe_loop (n : nat) (x : Z) : I Z :=
  match n with
  | O => mret x
  | S n' =>
    r ← inb 0x1F7;
    if Z.land r (Z.lor IDE_BSY (Z.lor IDE_DF IDE_ERR)) =? 0 then mret x else ide_probe_loop n' (x + 1)
  end.

Definition ide_probe_disk1 (fuel : nat) : I bool :=
  _ ← ide_wait_ready fuel false;
  outb 0x1F6 (Z.lor 0xE0 (Z.shiftl 1 4));;
  x ← ide_probe_loop 1000 0;
  outb 0x1F6 (Z.lor 0xE0 (Z.shiftl 0 4));;
  mret (x <? 1000).

Definition ide_set_disk (d : Z) : I unit :=
  if negb (d =? 0) && negb (d =? 1) then stop (IdePanic "bad disk number")
  else modify (λ s, mkIde (i_ata s) (i_mem s) d).

(** The command: what [ide_read] and [ide_write] begin with. *)
Definition ide_command (fuel : nat) (secno nsecs cmd : Z) : I unit :=
  if negb (nsecs <=? 256) then stop (IdePanic "assertion failed: nsecs <= 256")
  else
    _ ← ide_wait_ready fuel false;
    outb 0x1F2 nsecs;;
    outb 0x1F3 (Z.land secno 0xFF);;
    outb 0x1F4 (Z.land (Z.shiftr secno 8) 0xFF);;
    outb 0x1F5 (Z.land (Z.shiftr secno 16) 0xFF);;
    d ← gets diskno;
    outb 0x1F6 (Z.lor (Z.lor 0xE0 (Z.shiftl (Z.land d 1) 4)) (Z.land (Z.shiftr secno 24) 0x0F));;
    outb 0x1F7 cmd.

Fixpoint ide_read_loop (fuel : nat) (dst : Z) (nsecs : nat) : I Z :=
  match nsecs with
  | O => mret 0
  | S nsecs' =>
    r ← ide_wait_ready fuel true;
    if r <? 0 then mret r else insl dst 128;; ide_read_loop fuel (dst + SECTSIZE) nsecs'
  end.

Definition ide_read (fuel : nat) (secno dst nsecs : Z) : I Z :=
  ide_command fuel secno nsecs 0x20;; ide_read_loop fuel dst (Z.to_nat nsecs).

Fixpoint ide_write_loop (fuel : nat) (src : Z) (nsecs : nat) : I Z :=
  match nsecs with
  | O => mret 0
  | S nsecs' =>
    r ← ide_wait_ready fuel true;
    if r <? 0 then mret r else outsl src 128;; ide_write_loop fuel (src + SECTSIZE) nsecs'
  end.

Definition ide_write (fuel : nat) (secno src nsecs : Z) : I Z :=
  ide_command fuel secno nsecs 0x30;; ide_write_loop fuel src (Z.to_nat nsecs).

(** ** Waiting *)

(** The controller is never busy for [fuel] polls. *)
Definition patient (fuel : nat) (a : ata) : Prop :=
  (a_busy a < fuel)%nat ∧ Forall (λ n, n < fuel)%nat (a_delays a).

Definition waited (a : ata) : ata := mkAta (a_disk a) (a_bad a) (a_reg a) (a_phase a) 0 (a_delays a).

Lemma status_ready a : Z.land (status a) (Z.lor IDE_BSY IDE_DRDY) =? IDE_DRDY = true.
Proof. unfold status. destruct (a_phase a); [done|]. by destruct (a_bad _ _ _). Qed.

Lemma ide_poll_spec fuel a m d : (a_busy a < fuel)%nat →
  ide_poll fuel (mkIde a m d) = (Ret (status a), mkIde (waited a) m d).
Proof.
  destruct a as [disk bad reg ph b ds]. unfold waited. cbn [a_busy a_disk a_bad a_reg a_phase a_delays].
  revert b. induction fuel as [|fuel IH]; intros b Hb; [lia|]. cbn [ide_poll]. unfold mbind, M_bind, inb, ata_in8.
  cbn [i_ata a_busy Z.eqb Pos.eqb i_mem diskno]. destruct b as [|b].
  - by rewrite status_ready.
  - cbn [a_disk a_bad a_reg a_phase a_delays]. change (Z.land IDE_BSY (Z.lor IDE_BSY IDE_DRDY) =? IDE_DRDY) with false.
    cbv iota. rewrite IH by lia. reflexivity.
Qed.

Lemma ide_wait_spec fuel a m d : (a_busy a < fuel)%nat →
  ide_wait_ready fuel false (mkIde a m d) = (Ret 0, mkIde (waited a) m d).
Proof. intros Hb. unfold ide_wait_ready. by mrun (by apply ide_poll_spec). Qed.

(** Before a sector: the error is that it is bad. *)
Lemma ide_wait_sector fuel a m d wr dr sec todo w : (a_busy a < fuel)%nat → a_phase a = Data wr dr sec todo w →
  ide_wait_ready fuel true (mkIde a m d) = (Ret (if a_bad a dr sec then -1 else 0), mkIde (waited a) m d).
Proof.
  intros Hb Hp. unfold ide_wait_ready. mrun (by apply ide_poll_spec). unfold status. rewrite Hp. by destruct (a_bad a dr sec).
Qed.

(** ** The command *)

Lemma byte_land x : Z.land x 0xFF = x mod 2 ^ 8.
Proof. change 0xFF with (Z.ones 8). by rewrite Z.land_ones. Qed.

(** The sector number goes through the registers in four pieces. *)
Lemma sector_pieces secno : 0 <= secno < 2 ^ 28 →
  secno mod 2 ^ 8 + Z.shiftr secno 8 mod 2 ^ 8 * 2 ^ 8 + Z.shiftr secno 16 mod 2 ^ 8 * 2 ^ 16 + Z.shiftr secno 24 * 2 ^ 24 = secno.
Proof. intros H. rewrite !Z.shiftr_div_pow2 by lia. Z.to_euclidean_division_equations. lia. Qed.

(** Register 0x1F6: the disk and the top of the sector number. *)
Lemma drive_reg d h : d = 0 ∨ d = 1 → 0 <= h < 16 →
  let v := Z.lor (Z.lor 0xE0 (Z.shiftl (Z.land d 1) 4)) h in
  u8 v = v ∧ Z.land (Z.shiftr v 4) 1 = d ∧ Z.land v 0x0F = h.
Proof.
  intros Hd Hh.
  assert (H : forallb (λ d, forallb (λ h, let v := Z.lor (Z.lor 0xE0 (Z.shiftl (Z.land d 1) 4)) h in
    (u8 v =? v) && (Z.land (Z.shiftr v 4) 1 =? d) && (Z.land v 0x0F =? h)) (seqZ 0 16)) [0; 1] = true) by (vm_compute; reflexivity).
  rewrite forallb_forall in H. specialize (H d ltac:(destruct Hd as [-> | ->]; [by left|by right; left])).
  rewrite forallb_forall in H.
  specialize (H h). rewrite <- list_elem_of_In, elem_of_seqZ in H. specialize (H ltac:(lia)).
  cbv zeta in *. by rewrite !andb_true_iff, !Z.eqb_eq in H; destruct H as [[? ?] ?].
Qed.

(** A register that is written. *)
Lemma out_reg port v a m d : port ≠ 0x1F7 →
  ∃ a', outb port v (mkIde a m d) = (Ret tt, mkIde a' m d) ∧ a_disk a' = a_disk a ∧ a_bad a' = a_bad a ∧
    a_delays a' = a_delays a ∧ ∀ p, a_reg a' p = if p =? port then u8 v else a_reg a p.
Proof.
  intros Hp. exists (ata_out8 port v a). split; [done|]. unfold ata_out8. by rewrite (proj2 (Z.eqb_neq _ _)) by done.
Qed.

(** The state in which the controller is to transfer the sectors. *)
Definition commanded (wr : bool) (d secno nsecs : Z) (a a' : ata) : Prop :=
  a_disk a' = a_disk a ∧ a_bad a' = a_bad a ∧ a_phase a' = Data wr d secno nsecs 0.

Lemma enter_patient fuel ph a : (0 < fuel)%nat → Forall (λ n, n < fuel)%nat (a_delays a) → patient fuel (enter ph a).
Proof.
  intros Hf Hds. unfold patient, enter. cbn [a_busy a_delays]. destruct (a_delays a) as [|n l]; [done|].
  by apply Forall_cons in Hds.
Qed.

Lemma ide_command_spec fuel secno nsecs (wr : bool) a m d :
  patient fuel a → 0 <= secno < 2 ^ 28 → 1 <= nsecs <= 256 → d = 0 ∨ d = 1 →
  ∃ a', ide_command fuel secno nsecs (if wr then 0x30 else 0x20) (mkIde a m d) = (Ret tt, mkIde a' m d) ∧
    patient fuel a' ∧ commanded wr d secno nsecs a a'.
Proof.
  intros [Hb Hds] Hs Hn Hd. unfold ide_command. rewrite (proj2 (Z.leb_le _ _)) by lia. cbn [negb].
  mrun (by apply ide_wait_spec). rewrite !byte_land. replace (Z.land (Z.shiftr secno 24) 0x0F) with (Z.shiftr secno 24).
  2: { change 0x0F with (Z.ones 4). rewrite Z.land_ones by lia. rewrite Z.mod_small; [done|].
       rewrite Z.shiftr_div_pow2 by lia. Z.to_euclidean_division_equations. lia. }
  assert (Hh : 0 <= Z.shiftr secno 24 < 16) by (rewrite Z.shiftr_div_pow2 by lia; Z.to_euclidean_division_equations; lia).
  destruct (drive_reg d _ Hd Hh) as (Hv & Hdr & Hlo).
  destruct (out_reg 0x1F2 nsecs (waited a) m d) as (a1 & R1 & D1 & B1 & L1 & E1); [done|]. mrun (exact R1).
  destruct (out_reg 0x1F3 (secno mod 2 ^ 8) a1 m d) as (a2 & R2 & D2 & B2 & L2 & E2); [done|]. mrun (exact R2).
  destruct (out_reg 0x1F4 (Z.shiftr secno 8 mod 2 ^ 8) a2 m d) as (a3 & R3 & D3 & B3 & L3 & E3); [done|]. mrun (exact R3).
  destruct (out_reg 0x1F5 (Z.shiftr secno 16 mod 2 ^ 8) a3 m d) as (a4 & R4 & D4 & B4 & L4 & E4); [done|]. mrun (exact R4).
  rewrite bind_gets. cbn [diskno].
  set (v := Z.lor (Z.lor 0xE0 (Z.shiftl (Z.land d 1) 4)) (Z.shiftr secno 24)) in *.
  destruct (out_reg 0x1F6 v a4 m d) as (a5 & R5 & D5 & B5 & L5 & E5); [done|]. mrun (exact R5).
  exists (ata_command wr a5). split; [by destruct wr|].
  split; [apply enter_patient; [lia|]; by rewrite L5, L4, L3, L2, L1|].
  unfold commanded, ata_command. split; [cbn; by rewrite D5, D4, D3, D2, D1|]. split; [cbn; by rewrite B5, B4, B3, B2, B1|].
  unfold enter, selected. cbn [a_phase]. repeat (rewrite ?E5, ?E4, ?E3, ?E2, ?E1; cbn [Z.eqb Pos.eqb]). rewrite Hv, Hdr, Hlo.
  assert (Hu : ∀ y, u8 (y mod 2 ^ 8) = y mod 2 ^ 8) by (intros y; unfold u8; by rewrite Z.mod_mod).
  rewrite !Hu, sector_pieces by done. f_equal. unfold u8.
  destruct (Z.eqb_spec (nsecs mod 2 ^ 8) 0); Z.to_euclidean_division_equations; lia.
Qed.

(** ** Sectors *)

(** [m] with the [n] bytes from [o] of [src] at [dst]. *)
Definition spliced (m : memory) (dst : Z) (src : memory) (o n : Z) : memory := λ x,
  if (dst <=? x) && (x <? dst + n) then src (o + (x - dst)) else m x.

Lemma spliced_in m dst src o n x : dst <= x < dst + n → spliced m dst src o n x = src (o + (x - dst)).
Proof. intros H. unfold spliced. by rewrite (proj2 (andb_true_iff _ _)) by (split; [apply Z.leb_le|apply Z.ltb_lt]; lia). Qed.

Lemma spliced_out m dst src o n x : ¬ dst <= x < dst + n → spliced m dst src o n x = m x.
Proof. intros H. unfold spliced. destruct (Z.leb_spec dst x); [|done]. by destruct (Z.ltb_spec x (dst + n)); [lia|]. Qed.

(** The pieces of a transfer, one after the other. *)
Lemma spliced_more m m' dst src src' o n n' x :
  0 <= n → 0 <= n' → (∀ y, m' y = spliced m dst src o n y) → (∀ y, src' y = src y) →
  spliced m' (dst + n) src' (o + n) n' x = spliced m dst src o (n + n') x.
Proof.
  intros Hn Hn' Hm Hs. destruct (decide (dst + n <= x < dst + n + n')).
  - rewrite !spliced_in by lia. rewrite Hs. f_equal. lia.
  - rewrite spliced_out, Hm by done. destruct (decide (dst <= x < dst + n)); [by rewrite !spliced_in by lia|].
    by rewrite !spliced_out by lia.
Qed.

Lemma word_spliced m dst src o y : mem_ok src → st32 m dst (ld32 src o) y = spliced m dst src o 4 y.
Proof.
  intros Hs. destruct (decide (dst <= y < dst + 4)).
  - rewrite spliced_in by done. replace y with (dst + (y - dst)) at 1 by lia. rewrite st32_same_byte by lia.
    by rewrite ld32_byte by (done || lia).
  - rewrite spliced_out by done. apply st32_other_byte. lia.
Qed.

Definition sector_done (wr : bool) (dr sec todo : Z) (a : ata) : ata :=
  if todo =? 1 then enter Ready a else enter (Data wr dr (sec + 1) (todo - 1) 0) a.

Lemma insl_spec n : ∀ a m d addr dr sec todo w,
  a_phase a = Data false dr sec todo w → w + Z.of_nat (S n) = 128 → mem_ok (a_disk a dr) →
  ∃ m', insl addr (S n) (mkIde a m d) = (Ret tt, mkIde (sector_done false dr sec todo a) m' d) ∧
    ∀ x, m' x = spliced m addr (a_disk a dr) (sec * SECTSIZE + 4 * w) (4 * Z.of_nat (S n)) x.
Proof.
  induction n as [|n IH]; intros a m d addr dr sec todo w Hp Hw Hm;
    cbn [insl]; (erewrite bind_Ret by reflexivity); cbv beta; cbn [i_ata i_mem diskno]; unfold ata_in32; rewrite Hp; unfold next_word.
  - rewrite (proj2 (Z.ltb_ge _ _)) by lia. eexists. split; [reflexivity|]. intros x. by rewrite word_spliced.
  - rewrite (proj2 (Z.ltb_lt _ _)) by lia.
    set (a1 := mkAta (a_disk a) (a_bad a) (a_reg a) (Data false dr sec todo (w + 1)) (a_busy a) (a_delays a)).
    destruct (IH a1 (st32 m addr (ld32 (a_disk a dr) (sec * SECTSIZE + 4 * w))) d (addr + 4) dr sec todo (w + 1)) as (m' & R & E);
      [done|lia|done|].
    exists m'. split; [exact R|]. intros x. rewrite E. cbn [a1 a_disk].
    replace (sec * SECTSIZE + 4 * (w + 1)) with (sec * SECTSIZE + 4 * w + 4) by lia.
    rewrite (spliced_more m _ addr (a_disk a dr)); [f_equal; lia|lia|lia|intros y; by apply word_spliced|done].
Qed.

Lemma sector_done_facts wr dr sec todo a fuel : patient fuel a →
  patient fuel (sector_done wr dr sec todo a) ∧ a_disk (sector_done wr dr sec todo a) = a_disk a ∧
  a_bad (sector_done wr dr sec todo a) = a_bad a ∧
  a_phase (sector_done wr dr sec todo a) = if todo =? 1 then Ready else Data wr dr (sec + 1) (todo - 1) 0.
Proof.
  intros [Hb Hds]. unfold sector_done. destruct (todo =? 1); (split; [apply enter_patient; [lia|done]|done]).
Qed.

(** The first [k] of [n] sectors are good, and there is a bad one after them
    if they are not all. *)
Definition good_prefix (bad : Z → bool) (sec : Z) (k n : nat) : Prop :=
  (k <= n)%nat ∧ (∀ j, (j < k)%nat → bad (sec + Z.of_nat j) = false) ∧ ((k < n)%nat → bad (sec + Z.of_nat k) = true).

Lemma good_prefix_first bad sec k n : good_prefix bad sec k (S n) →
  if bad sec then k = 0%nat else ∃ k', k = S k' ∧ good_prefix bad (sec + 1) k' n.
Proof.
  intros (Hk & Hg & Hb). destruct k as [|k].
  - specialize (Hb ltac:(lia)). rewrite Z.add_0_r in Hb. by rewrite Hb.
  - pose proof (Hg 0%nat ltac:(lia)) as H0. rewrite Z.add_0_r in H0. rewrite H0. exists k. split; [done|]. split; [lia|]. split.
    + intros j Hj. specialize (Hg (S j) ltac:(lia)). by replace (sec + 1 + Z.of_nat j) with (sec + Z.of_nat (S j)) by lia.
    + intros Hj. specialize (Hb ltac:(lia)). by replace (sec + 1 + Z.of_nat k) with (sec + Z.of_nat (S k)) by lia.
Qed.

Lemma read_loop_spec fuel n : ∀ k a m d dst dr sec,
  patient fuel a → (n = 0%nat ∨ a_phase a = Data false dr sec (Z.of_nat n) 0) → mem_ok (a_disk a dr) →
  good_prefix (a_bad a dr) sec k n →
  ∃ a' m', ide_read_loop fuel dst n (mkIde a m d) = (Ret (if decide (k = n) then 0 else -1), mkIde a' m' d) ∧
    patient fuel a' ∧ a_disk a' = a_disk a ∧ a_bad a' = a_bad a ∧
    ∀ x, m' x = spliced m dst (a_disk a dr) (sec * SECTSIZE) (Z.of_nat k * SECTSIZE) x.
Proof.
  induction n as [|n IH]; intros k a m d dst dr sec Hpat Hph Hm Hg.
  - assert (k = 0%nat) as -> by (destruct Hg; lia). exists a, m. split; [done|]. split_and!; try done.
    intros x. by rewrite spliced_out by lia.
  - destruct Hph as [|Hph]; [done|]. cbn [ide_read_loop]. mrun (eapply ide_wait_sector; [apply Hpat|exact Hph]).
    pose proof (good_prefix_first _ _ _ _ Hg) as Hf.
    assert (Hw : patient fuel (waited a)) by (split; [cbn; destruct Hpat; lia|apply Hpat]).
    destruct (a_bad a dr sec).
    + subst k. cbn [Z.ltb Z.compare]. exists (waited a), m. split; [done|]. split_and!; try done.
      intros x. by rewrite spliced_out by lia.
    + destruct Hf as (k' & -> & Hg'). cbn [Z.ltb Z.compare].
      destruct (insl_spec 127 (waited a) m d dst dr sec (Z.of_nat (S n)) 0) as (m1 & R1 & E1); [done|done|done|]. mrun (exact R1).
      destruct (sector_done_facts false dr sec (Z.of_nat (S n)) _ fuel Hw) as (P1 & D1 & B1 & F1).
      destruct (IH k' (sector_done false dr sec (Z.of_nat (S n)) (waited a)) m1 d (dst + SECTSIZE) dr (sec + 1)) as
        (a' & m' & R & P' & D' & B' & E'); [done| |by rewrite D1|by rewrite B1|].
      { rewrite F1. destruct n as [|n]; [by left|right]. rewrite (proj2 (Z.eqb_neq _ _)) by lia. f_equal. lia. }
      exists a', m'. split; [rewrite R; do 2 f_equal; repeat case_decide; (done || lia)|]. split; [done|].
      split; [by rewrite D', D1|]. split; [by rewrite B', B1|]. intros x. rewrite E', D1. cbn [waited a_disk].
      replace ((sec + 1) * SECTSIZE) with (sec * SECTSIZE + SECTSIZE) by lia.
      rewrite (spliced_more m m1 dst (a_disk a dr)); [f_equal; lia|unfold SECTSIZE; lia..| |done].
      intros y. rewrite E1. cbn [waited a_disk]. by rewrite Z.mul_0_r, Z.add_0_r.
Qed.

(** Drive [dr] of [a'] is that of [a] with a part of [m] written to it. *)
Definition written (a a' : ata) (dr o : Z) (m : memory) (src n : Z) : Prop :=
  ∀ e x, a_disk a' e x = if e =? dr then spliced (a_disk a dr) o m src n x else a_disk a e x.

Lemma written_more a a1 a2 dr o m src n n' : 0 <= n → 0 <= n' →
  written a a1 dr o m src n → written a1 a2 dr (o + n) m (src + n) n' → written a a2 dr o m src (n + n').
Proof.
  intros Hn Hn' H1 H2 e x. rewrite H2. destruct (Z.eqb_spec e dr) as [->|Hne].
  - apply (spliced_more (a_disk a dr) (a_disk a1 dr)); [done|done| |done]. intros y. by rewrite H1, Z.eqb_refl.
  - rewrite H1. by rewrite (proj2 (Z.eqb_neq _ _)).
Qed.

Lemma written_none a a' dr o m src : a_disk a' = a_disk a → written a a' dr o m src 0.
Proof. intros E e x. rewrite E, spliced_out by lia. destruct (Z.eqb_spec e dr) as [->|]; done. Qed.

Lemma outsl_spec n : ∀ a m d addr dr sec todo w,
  a_phase a = Data true dr sec todo w → w + Z.of_nat (S n) = 128 → mem_ok m →
  ∃ a', outsl addr (S n) (mkIde a m d) = (Ret tt, mkIde a' m d) ∧ a_bad a' = a_bad a ∧
    a_busy a' = hd 0%nat (a_delays a) ∧ a_delays a' = tl (a_delays a) ∧
    a_phase a' = (if todo =? 1 then Ready else Data true dr (sec + 1) (todo - 1) 0) ∧
    written a a' dr (sec * SECTSIZE + 4 * w) m addr (4 * Z.of_nat (S n)).
Proof.
  induction n as [|n IH]; intros a m d addr dr sec todo w Hp Hw Hm;
    cbn [outsl]; (erewrite bind_Ret by reflexivity); cbv beta; cbn [i_ata i_mem diskno]; unfold ata_out32; rewrite Hp; unfold next_word.
  - rewrite (proj2 (Z.ltb_ge _ _)) by lia. eexists. split; [reflexivity|]. destruct (todo =? 1); cbn; split_and!; try done.
    all: intros e x; cbn; destruct (Z.eqb_spec e dr); [by apply word_spliced|done].
  - rewrite (proj2 (Z.ltb_lt _ _)) by lia. cbn [a_disk a_bad a_reg a_busy a_delays].
    match goal with |- context [mkIde ?a0 m d] => set (a1 := a0) end.
    destruct (IH a1 m d (addr + 4) dr sec todo (w + 1)) as (a' & R & B & Y & L & F & W); [done|lia|done|].
    exists a'. split; [exact R|]. split; [done|]. split; [done|]. split; [done|]. split; [done|].
    replace (4 * Z.of_nat (S (S n))) with (4 + 4 * Z.of_nat (S n)) by lia.
    apply (written_more a a1 a'); [lia|lia| |by replace (sec * SECTSIZE + 4 * w + 4) with (sec * SECTSIZE + 4 * (w + 1)) by lia].
    intros e x. cbn. destruct (Z.eqb_spec e dr); [by apply word_spliced|done].
Qed.

Lemma write_loop_spec fuel n : ∀ k a m d src dr sec,
  patient fuel a → (n = 0%nat ∨ a_phase a = Data true dr sec (Z.of_nat n) 0) → mem_ok m →
  good_prefix (a_bad a dr) sec k n →
  ∃ a', ide_write_loop fuel src n (mkIde a m d) = (Ret (if decide (k = n) then 0 else -1), mkIde a' m d) ∧
    patient fuel a' ∧ a_bad a' = a_bad a ∧ written a a' dr (sec * SECTSIZE) m src (Z.of_nat k * SECTSIZE).
Proof.
  induction n as [|n IH]; intros k a m d src dr sec Hpat Hph Hm Hg.
  - assert (k = 0%nat) as -> by (destruct Hg; lia). exists a. split; [done|]. split; [done|]. split; [done|]. by apply written_none.
  - destruct Hph as [|Hph]; [done|]. cbn [ide_write_loop]. mrun (eapply ide_wait_sector; [apply Hpat|exact Hph]).
    pose proof (good_prefix_first _ _ _ _ Hg) as Hf. destruct (a_bad a dr sec).
    + subst k. cbn [Z.ltb Z.compare]. exists (waited a). split; [done|]. split; [split; [cbn; destruct Hpat; lia|apply Hpat]|].
      split; [done|]. by apply written_none.
    + destruct Hf as (k' & -> & Hg'). cbn [Z.ltb Z.compare].
      destruct (outsl_spec 127 (waited a) m d src dr sec (Z.of_nat (S n)) 0) as (a1 & R1 & B1 & Y1 & L1 & F1 & W1); [done|done|done|].
      mrun (exact R1). assert (P1 : patient fuel a1).
      { destruct Hpat as [Hb Hds]. unfold patient. rewrite Y1, L1. cbn [waited a_delays].
        destruct (a_delays a) as [|x l]; [split; [cbn; lia|done]|by apply Forall_cons in Hds]. }
      destruct (IH k' a1 m d (src + SECTSIZE) dr (sec + 1)) as (a' & R & P' & B' & W'); [done| |done|by rewrite B1|].
      { rewrite F1. destruct n as [|n]; [by left|right]. rewrite (proj2 (Z.eqb_neq _ _)) by lia. f_equal. lia. }
      exists a'. split; [rewrite R; do 2 f_equal; repeat case_decide; (done || lia)|]. split; [done|].
      split; [by rewrite B', B1|]. replace (Z.of_nat (S k') * SECTSIZE) with (SECTSIZE + Z.of_nat k' * SECTSIZE) by lia.
      apply (written_more a a1 a'); [unfold SECTSIZE; lia..| |].
      * rewrite Z.mul_0_r, Z.add_0_r in W1. exact W1.
      * by replace (sec * SECTSIZE + SECTSIZE) with ((sec + 1) * SECTSIZE) by lia.
Qed.

(** ** The theorems *)

(** [ide_read] of 1 to 256 sectors, with numbers below 2^28, from a controller
    that is never busy for ever: the sectors before the first bad one are in
    memory at [dst], the rest of memory and the disks are as before, and the
    result is 0 if all sectors are good and -1 otherwise. *)
Theorem ide_read_correct fuel secno dst nsecs a m d k :
  patient fuel a → 0 <= secno → secno + nsecs <= 2 ^ 28 → 1 <= nsecs <= 256 → d = 0 ∨ d = 1 → mem_ok (a_disk a d) →
  good_prefix (a_bad a d) secno k (Z.to_nat nsecs) →
  ∃ a' m', ide_read fuel secno dst nsecs (mkIde a m d) = (Ret (if decide (Z.of_nat k = nsecs) then 0 else -1), mkIde a' m' d) ∧
    patient fuel a' ∧ a_disk a' = a_disk a ∧ a_bad a' = a_bad a ∧
    ∀ x, m' x = spliced m dst (a_disk a d) (secno * SECTSIZE) (Z.of_nat k * SECTSIZE) x.
Proof.
  intros Hp Hs Hn Hr Hd Hm Hg. unfold ide_read.
  destruct (ide_command_spec fuel secno nsecs false a m d Hp ltac:(lia) Hr Hd) as (a1 & R1 & P1 & D1 & B1 & F1).
  mrun (exact R1). destruct (read_loop_spec fuel (Z.to_nat nsecs) k a1 m d dst d secno) as (a' & m' & R & P' & D' & B' & E');
    [done|right; by rewrite Z2Nat.id by lia|by rewrite D1|by rewrite B1|].
  exists a', m'. split; [rewrite R; do 2 f_equal; repeat case_decide; (done || lia)|].
  split; [done|]. split; [by rewrite D'|]. split; [by rewrite B'|]. intros x. by rewrite E', D1.
Qed.

(** [ide_write], the other way round. *)
Theorem ide_write_correct fuel secno src nsecs a m d k :
  patient fuel a → 0 <= secno → secno + nsecs <= 2 ^ 28 → 1 <= nsecs <= 256 → d = 0 ∨ d = 1 → mem_ok m →
  good_prefix (a_bad a d) secno k (Z.to_nat nsecs) →
  ∃ a', ide_write fuel secno src nsecs (mkIde a m d) = (Ret (if decide (Z.of_nat k = nsecs) then 0 else -1), mkIde a' m d) ∧
    patient fuel a' ∧ a_bad a' = a_bad a ∧ written a a' d (secno * SECTSIZE) m src (Z.of_nat k * SECTSIZE).
Proof.
  intros Hp Hs Hn Hr Hd Hm Hg. unfold ide_write.
  destruct (ide_command_spec fuel secno nsecs true a m d Hp ltac:(lia) Hr Hd) as (a1 & R1 & P1 & D1 & B1 & F1).
  mrun (exact R1). destruct (write_loop_spec fuel (Z.to_nat nsecs) k a1 m d src d secno) as (a' & R & P' & B' & W');
    [done|right; by rewrite Z2Nat.id by lia|done|by rewrite B1|].
  exists a'. split; [rewrite R; do 2 f_equal; repeat case_decide; (done || lia)|].
  split; [done|]. split; [by rewrite B'|]. intros e x. rewrite W'. by rewrite D1.
Qed.

(** The block cache's disk: block [b] of disk [d]. *)
Definition on_disk (a : ata) (d : Z) (f : memory) : Prop :=
  ∀ b k, 0 <= b → 0 <= k < BLKSIZE → f (blockaddr b + k) = a_disk a d (b * BLKSIZE + k).

(** The calls that [bc_pgfault] and [flush_block] make, on a disk without bad
    sectors, do to the server's memory and to the disk what the block cache
    takes them to do, and return 0. *)
Theorem ide_block_correct fuel a d s b :
  patient fuel a → d = 0 ∨ d = 1 → (∀ sec, a_bad a d sec = false) → mem_ok (a_disk a d) → mem_ok (f_mem s) →
  on_disk a d (f_disk s) → 0 <= b < 2 ^ 25 →
  (∃ a' m', ide_read fuel (b * BLKSECTS) (blockaddr b) BLKSECTS (mkIde a (f_mem s) d) = (Ret 0, mkIde a' m' d) ∧
     a_disk a' = a_disk a ∧ ∀ x, m' x = f_mem (snd (disk_read b s)) x) ∧
  (∃ a', ide_write fuel (b * BLKSECTS) (blockaddr b) BLKSECTS (mkIde a (f_mem s) d) = (Ret 0, mkIde a' (f_mem s) d) ∧
     on_disk a' d (f_disk (snd (disk_write b s)))).
Proof.
  intros Hp Hd Hbad Hma Hms Hon Hb. change BLKSECTS with 8.
  assert (Hg : good_prefix (a_bad a d) (b * 8) 8 (Z.to_nat 8)) by (split; [done|]; split; [intros; apply Hbad|cbn; lia]).
  assert (E : b * 8 * SECTSIZE = b * BLKSIZE) by (unfold SECTSIZE; change BLKSIZE with 4096; lia). split.
  - destruct (ide_read_correct fuel (b * 8) (blockaddr b) 8 a (f_mem s) d 8) as (a' & m' & R & _ & D & _ & M); try done; [lia..|].
    exists a', m'. split; [exact R|]. split; [done|]. intros x. rewrite M, E. change (Z.of_nat 8 * SECTSIZE) with BLKSIZE.
    cbn [disk_read modify snd f_mem]. unfold spliced. destruct (_ && _) eqn:Hx; [|done]. apply andb_true_iff in Hx as [?%Z.leb_le ?%Z.ltb_lt].
    rewrite <- (Hon b (x - blockaddr b)) by lia. f_equal. lia.
  - destruct (ide_write_correct fuel (b * 8) (blockaddr b) 8 a (f_mem s) d 8) as (a' & R & _ & _ & W); try done; [lia..|].
    exists a'. split; [exact R|]. intros c k Hc Hk. rewrite W, Z.eqb_refl, E. change (Z.of_nat 8 * SECTSIZE) with BLKSIZE.
    cbn [disk_write modify snd f_disk].
    unfold blockaddr in *. change BLKSIZE with 4096 in *. destruct (decide (c = b)) as [->|Hne].
    + rewrite spliced_in by lia. rewrite (proj2 (andb_true_iff _ _)) by (split; [apply Z.leb_le|apply Z.ltb_lt]; lia). f_equal. lia.
    + rewrite spliced_out by lia. pose proof (Hon c k Hc Hk) as Hck. change BLKSIZE with 4096 in Hck. rewrite <- Hck.
      replace ((DISKMAP + b * 4096 <=? DISKMAP + c * 4096 + k) && (DISKMAP + c * 4096 + k <? DISKMAP + b * 4096 + 4096)) with false; [done|].
      symmetry. apply andb_false_iff. rewrite Z.leb_gt, Z.ltb_ge. lia.
Qed.

(** A blank disk, with a controller that takes its time. *)
Definition demo_ata : ata := mkAta (λ _ _, 0) (λ _ _, false) (λ _, 0) Ready 3 [2; 0; 5]%nat.
Definition demo_fs : fstate := mkFs (λ _, 7) (λ _, 0) (λ _, false) (λ _, false) 10 false false.

Lemma ide_block_correct_witness :
  ∃ a' m', ide_read 10 (1 * BLKSECTS) (blockaddr 1) BLKSECTS (mkIde demo_ata (f_mem demo_fs) 1) = (Ret 0, mkIde a' m' 1) ∧
    m' (blockaddr 1) = 0.
Proof.
  destruct (ide_block_correct 10 demo_ata 1 demo_fs 1) as [(a' & m' & R & _ & M) _].
  - split; [cbn; lia|]. repeat constructor.
  - right. reflexivity.
  - reflexivity.
  - intros x. unfold is_u8. cbn. lia.
  - intros x. unfold is_u8. cbn. lia.
  - intros b k _ _. reflexivity.
  - lia.
  - exists a', m'. split; [exact R|]. rewrite M. reflexivity.
Defined.
