(* ===== verification/Fs.v ===== *)
(** * The file system ([fs/fs.c], [inc/fs.h])

    The file server's operations on the structures it keeps in the block cache:
    the superblock, the free-block bitmap, and the [struct File]s of the
    directories, each with ten direct block numbers and an indirect block.  A
    pointer to a [struct File] or to a slot of block numbers is an address of
    the cache, and every access goes through [BlockCache.touch].

    The C strings [path] and [name], the caller's and a local's, are the lists
    of their characters.  A function that returns a negative error or a pointer
    through an argument yields a sum: [inl] the error, [inr] the pointer. *)

From S2P Require Import Prelude Mmu Console KState CString BlockCache.
Open Scope Z_scope.

Definition MAXNAMELEN : Z := 128.
Definition NDIRECT : Z := 10.
Definition NINDIRECT : Z := BLKSIZE / 4.
Definition FILE_SIZE : Z := 256.
Definition BLKFILES : Z := BLKSIZE / FILE_SIZE.
Definition FTYPE_REG : Z := 0.
Definition FTYPE_DIR : Z := 1.

(** The fields of [struct File] and [struct Super]. *)
Definition f_size (f : Z) : Z := f + 128.
Definition f_type (f : Z) : Z := f + 132.
Definition f_direct (f i : Z) : Z := f + 136 + 4 * i.
Definition f_indirect (f : Z) : Z := f + 176.
Definition s_magic : Z := SUPER.
Definition s_nblocks : Z := SUPER + 4.
Definition s_root : Z := SUPER + 8.

(** ** The superblock and the bitmap *)

Definition check_super : F unit :=
  magic ← fload32 s_magic;
  if negb (magic =? FS_MAGIC) then fpanic "bad file system magic number"
  else
    n ← fload32 s_nblocks;
    if DISKSIZE / BLKSIZE <? n then fpanic "file system is too large" else mret tt.

Definition bitmap_word (blockno : Z) : Z := BITMAP + 4 * (blockno / 32).

Definition free_block (blockno : Z) : F unit :=
  if blockno =? 0 then fpanic "attempt to free zero block"
  else
    w ← fload32 (bitmap_word blockno);
    fstore32 (bitmap_word blockno) (Z.lor w (Z.shiftl 1 (blockno mod 32))).

Fixpoint alloc_block_loop (fuel : nat) (blockno : Z) : F Z :=
  match fuel with
  | O => stop FsFuel
  | S fuel' =>
    n ← fload32 s_nblocks;
    if blockno <? n then
      fr ← block_is_free fload32 blockno;
      if (fr : bool) then
        w ← fload32 (bitmap_word blockno);
        fstore32 (bitmap_word blockno) (Z.land w (Z.lnot (Z.shiftl 1 (blockno mod 32))));;
        flush_block (bitmap_word blockno);;
        mret blockno
      else alloc_block_loop fuel' (u32 (blockno + 1))
    else mret (- E_NO_DISK)
  end.

Definition alloc_block : F Z :=
  n ← fload32 s_nblocks; alloc_block_loop (S (Z.to_nat n)) 0.

Fixpoint check_bitmap_loop (fuel : nat) (i : Z) : F unit :=
  match fuel with
  | O => stop FsFuel
  | S fuel' =>
    n ← fload32 s_nblocks;
    if u32 (i * BLKBITSIZE) <? n then
      fr ← block_is_free fload32 (u32 (2 + i));
      if (fr : bool) then fpanic "assertion failed: !block_is_free(2+i)"
      else check_bitmap_loop fuel' (u32 (i + 1))
    else mret tt
  end.

Definition check_bitmap : F unit :=
  n ← fload32 s_nblocks;
  check_bitmap_loop (S (Z.to_nat n)) 0;;
  fr ← block_is_free fload32 0;
  (if (fr : bool) then fpanic "assertion failed: !block_is_free(0)" else mret tt);;
  fr ← block_is_free fload32 1;
  if (fr : bool) then fpanic "assertion failed: !block_is_free(1)" else mret tt.

(** With the disk chosen, [fs_init] checks the cache, the superblock and the
    bitmap, and sets the two pointers. *)
Definition fs_init : F unit :=
  bc_init;;
  diskaddr 1;;
  modify (λ s, mkFs (f_mem s) (f_disk s) (f_mapped s) (f_dirty s) (f_pages s) true (f_bitmap s));;
  check_super;;
  diskaddr 2;;
  modify (λ s, mkFs (f_mem s) (f_disk s) (f_mapped s) (f_dirty s) (f_pages s) (f_super s) true);;
  check_bitmap.

(** ** The blocks of a file *)

Definition file_block_walk (f filebno : Z) (alloc : bool) : F (Z + Z) :=
  if NDIRECT + NINDIRECT <=? filebno then mret (inl (- E_INVAL))
  else if filebno <? NDIRECT then mret (inr (f_direct f filebno))
  else
    let slot :=
      ind ← fload32 (f_indirect f);
      a ← diskaddr ind;
      mret (inr (a + 4 * (filebno - NDIRECT))) in
    ind ← fload32 (f_indirect f);
    if negb (ind =? 0) then slot
    else if negb alloc then mret (inl (- E_NOT_FOUND))
    else
      r ← alloc_block;
      if r <? 0 then mret (inl (- E_NO_DISK))
      else
        a ← diskaddr (u32 r);
        fmemset a 0 BLKSIZE;;
        fstore32 (f_indirect f) r;;
        a ← diskaddr (u32 r);
        flush_block a;;
        slot.

(** [*pdiskbno] is unsigned, so the test [*pdiskbno < 0] is always false. *)
Definition file_get_block (f filebno : Z) : F (Z + Z) :=
  w ← file_block_walk f filebno true;
  match w with
  | inl r => mret (inl r)
  | inr pdiskbno =>
    b ← fload32 pdiskbno;
    r ← (if b =? 0 then
           n ← alloc_block;
           fstore32 pdiskbno n;;
           b ← fload32 pdiskbno;
           mret (b <? 0)
         else mret false);
    if (r : bool) then mret (inl (- E_NO_DISK))
    else
      b ← fload32 pdiskbno;
      a ← diskaddr b;
      mret (inr a)
  end.

Definition file_free_block (f filebno : Z) : F Z :=
  w ← file_block_walk f filebno false;
  match w with
  | inl r => mret r
  | inr ptr =>
    b ← fload32 ptr;
    if b =? 0 then mret 0 else free_block b;; fstore32 ptr 0;; mret 0
  end.

(** ** Sizes *)

(** [f->f_size], an [off_t]. *)
Definition load_size (f : Z) : F Z := n ← fload32 (f_size f); mret (s32 n).

(** [(size + BLKSIZE - 1) / BLKSIZE] on [int]s. *)
Definition nblocks_of (size : Z) : Z := Z.quot (s32 (size + BLKSIZE - 1)) BLKSIZE.

Definition file_truncate_blocks (f newsize : Z) : F unit :=
  size ← load_size f;
  let old_nblocks := u32 (nblocks_of size) in
  let new_nblocks := u32 (nblocks_of newsize) in
  mfor (seqZ new_nblocks (old_nblocks - new_nblocks)) (λ bno, file_free_block f bno;; mret tt);;
  if new_nblocks <=? NDIRECT then
    ind ← fload32 (f_indirect f);
    if ind =? 0 then mret tt else free_block ind;; fstore32 (f_indirect f) 0
  else mret tt.

Definition file_set_size (f newsize : Z) : F Z :=
  size ← load_size f;
  (if newsize <? size then file_truncate_blocks f newsize else mret tt);;
  fstore32 (f_size f) newsize;;
  flush_block f;;
  mret 0.

(** ** Reading and writing *)

(** The loops of [file_read] and [file_write]: [xfer buf blk bn] is the
    [memmove] of one block's part. *)
Fixpoint file_loop (fuel : nat) (xfer : Z → Z → Z → F unit) (f buf limit pos : Z) : F (option Z) :=
  match fuel with
  | O => stop FsFuel
  | S fuel' =>
    if u32 pos <? limit then
      r ← file_get_block f (u32 (Z.quot pos BLKSIZE));
      match r with
      | inl e => mret (Some e)
      | inr blk =>
        let off := Z.rem pos BLKSIZE in
        let bn := Z.min (u32 (BLKSIZE - off)) (u32 (limit - pos)) in
        xfer buf (blk + off) bn;;
        file_loop fuel' xfer f (buf + bn) limit (s32 (pos + bn))
      end
    else mret None
  end.

Definition file_read (f buf count offset : Z) : F Z :=
  size ← load_size f;
  if size <=? offset then mret 0
  else
    size ← load_size f;
    let count := Z.min count (u32 (size - offset)) in
    r ← file_loop (S (Z.to_nat count)) (λ buf blk bn, fmemmove buf blk bn) f buf (u32 (offset + count)) offset;
    mret (default (s32 count) r).

Definition file_write (f buf count offset : Z) : F Z :=
  size ← load_size f;
  r ← (if u32 size <? u32 (offset + count) then file_set_size f (s32 (offset + count)) else mret 0);
  if r <? 0 then mret r
  else
    r ← file_loop (S (Z.to_nat count)) (λ buf blk bn, fmemmove blk buf bn) f buf (u32 (offset + count)) offset;
    mret (default (s32 count) r).

Fixpoint file_flush_loop (fuel : nat) (f i : Z) : F unit :=
  match fuel with
  | O => stop FsFuel
  | S fuel' =>
    size ← load_size f;
    if i <? nblocks_of size then
      w ← file_block_walk f (u32 i) false;
      (match w with
       | inl _ => mret tt
       | inr pdiskbno =>
         b ← fload32 pdiskbno;
         if b =? 0 then mret tt else a ← diskaddr b; flush_block a
       end);;
      file_flush_loop fuel' f (i + 1)
    else mret tt
  end.

Definition file_flush (f : Z) : F unit :=
  size ← load_size f;
  file_flush_loop (S (Z.to_nat (nblocks_of size))) f 0;;
  flush_block f;;
  ind ← fload32 (f_indirect f);
  if ind =? 0 then mret tt else a ← diskaddr ind; flush_block a.

Fixpoint fs_sync_loop (fuel : nat) (i : Z) : F unit :=
  match fuel with
  | O => stop FsFuel
  | S fuel' =>
    n ← fload32 s_nblocks;
    if u32 i <? n then a ← diskaddr (u32 i); flush_block a;; fs_sync_loop fuel' (i + 1) else mret tt
  end.

Definition fs_sync : F unit := n ← fload32 s_nblocks; fs_sync_loop (S (Z.to_nat n)) 1.

(** ** Directories and paths *)

(** Look at the [struct File]s of one block, from the [j]th, for one that
    satisfies [p]. *)
Fixpoint scan_block (n : nat) (p : memory → Z → bool) (blk j : Z) : F (option Z) :=
  match n with
  | O => mret None
  | S n' =>
    let f := blk + j * FILE_SIZE in
    touch FAULTS f;;
    m ← gets f_mem;
    if p m f then mret (Some f) else scan_block n' p blk (j + 1)
  end.

(** The loops over the blocks of a directory: [inr None] if no entry is found. *)
Fixpoint scan_dir (n : nat) (p : memory → Z → bool) (dir i : Z) : F (Z + option Z) :=
  match n with
  | O => mret (inr None)
  | S n' =>
    r ← file_get_block dir i;
    match r with
    | inl e => mret (inl e)
    | inr blk =>
      r ← scan_block (Z.to_nat BLKFILES) p blk 0;
      match r with
      | Some f => mret (inr (Some f))
      | None => scan_dir n' p dir (i + 1)
      end
    end
  end.

(** The assertion on the size, and the number of blocks. *)
Definition dir_nblock (dir : Z) : F Z :=
  size ← load_size dir;
  if negb (Z.rem size BLKSIZE =? 0) then fpanic "assertion failed: (dir->f_size % BLKSIZE) == 0"
  else size ← load_size dir; mret (u32 (Z.quot size BLKSIZE)).

Definition dir_lookup (dir : Z) (name : list Z) : F (Z + Z) :=
  nblock ← dir_nblock dir;
  r ← scan_dir (Z.to_nat nblock) (λ m f, str_eq m f name) dir 0;
  mret (match r with
        | inl e => inl e
        | inr (Some f) => inr f
        | inr None => inl (- E_NOT_FOUND)
        end).

Definition dir_alloc_file (dir : Z) : F (Z + Z) :=
  nblock ← dir_nblock dir;
  r ← scan_dir (Z.to_nat nblock) (λ m f, m f =? 0) dir 0;
  match r with
  | inl e => mret (inl e)
  | inr (Some f) => mret (inr f)
  | inr None =>
    size ← load_size dir;
    fstore32 (f_size dir) (size + BLKSIZE);;
    file_get_block dir nblock
  end.

Definition SLASH : Z := 47.

Fixpoint skip_slash (p : list Z) : list Z :=
  match p with
  | c :: p' => if c =? SLASH then skip_slash p' else p
  | [] => []
  end.

(** The characters up to the next slash, and the rest. *)
Fixpoint path_elem (path : list Z) : list Z * list Z :=
  match path with
  | [] => ([], [])
  | c :: path' =>
    if c =? SLASH then ([], path)
    else let '(e, rest) := path_elem path' in (c :: e, rest)
  end.

(** What [walk_path] leaves behind: its result, [*pdir], [*pf], [lastelem]. *)
Record walked : Type := mkWalked { w_ret : Z; w_dir : Z; w_file : Z; w_last : list Z }.

Fixpoint walk_path_loop (fuel : nat) (path : list Z) (dir f : Z) : F walked :=
  match path with
  | [] => mret (mkWalked 0 dir f [])
  | _ =>
    match fuel with
    | O => stop FsFuel
    | S fuel' =>
      let dir := f in
      let '(name, path) := path_elem path in
      if MAXNAMELEN <=? Z.of_nat (length name) then mret (mkWalked (- E_BAD_PATH) 0 0 [])
      else
        let path := skip_slash path in
        ty ← fload32 (f_type dir);
        if negb (ty =? FTYPE_DIR) then mret (mkWalked (- E_NOT_FOUND) 0 0 [])
        else
          r ← dir_lookup dir name;
          match r with
          | inl e =>
            if (e =? - E_NOT_FOUND) && bool_decide (path = []) then mret (mkWalked e dir 0 name)
            else mret (mkWalked e 0 0 [])
          | inr f => walk_path_loop fuel' path dir f
          end
    end
  end.

Definition walk_path (path : list Z) : F walked :=
  walk_path_loop (length path) (skip_slash path) 0 s_root.

Definition file_create (path : list Z) : F (Z + Z) :=
  w ← walk_path path;
  if w_ret w =? 0 then mret (inl (- E_FILE_EXISTS))
  else if negb (w_ret w =? - E_NOT_FOUND) || (w_dir w =? 0) then mret (inl (w_ret w))
  else
    r ← dir_alloc_file (w_dir w);
    match r with
    | inl e => mret (inl e)
    | inr f =>
      fstrcpy f (w_last w);;
      file_flush (w_dir w);;
      mret (inr f)
    end.

Definition file_open (path : list Z) : F (Z + Z) :=
  w ← walk_path path;
  mret (if w_ret w =? 0 then inr (w_file w) else inl (w_ret w)).
