(* ===== verification/FsBitmap.v ===== *)
(** * The bitmap and accesses to the cache

    Accesses to blocks that are in the cache, [flush_block], and the free-block
    bitmap of a server that [fs_init] has set up ([ready]): what
    [block_is_free] and [alloc_block] do there. *)

From S2P Require Import Prelude Mmu Console KState CString BlockCache Fs.
Open Scope Z_scope.

(** ** Accesses to cached blocks *)

Definition warm (s : fstate) (a : Z) : Prop := in_diskmap a = true → f_mapped s (blockno_of a) = true.

Lemma touch_warm n a s : warm s a → touch (S n) a s = (Ret tt, s).
Proof.
  intros H. cbn [touch]. mstep. cbn [id]. unfold warm in H. destruct (in_diskmap a); cbn [negb orb]; [|done].
  by rewrite H.
Qed.

Definition mark_dirty (a : Z) (s : fstate) : fstate :=
  mkFs (f_mem s) (f_disk s) (f_mapped s)
    (if in_diskmap a then upd_bit (f_dirty s) (blockno_of a) true else f_dirty s) (f_pages s) (f_super s) (f_bitmap s).

Lemma fload32_warm a s : warm s a → fload32 a s = (Ret (ld32 (f_mem s) a), s).
Proof. intros H. unfold fload32. mrun (by apply touch_warm). done. Qed.

Lemma touch_write_warm a s : warm s a → touch_write a s = (Ret tt, mark_dirty a s).
Proof. intros H. unfold touch_write. mrun (by apply touch_warm). done. Qed.

Lemma fstore32_warm a v s :
  warm s a → fstore32 a v s = (Ret tt, set_f_mem (st32 (f_mem s) a (u32 v)) (mark_dirty a s)).
Proof. intros H. unfold fstore32. mrun (by apply touch_write_warm). done. Qed.

(** ** The free-block bitmap *)

Definition nblocks (s : fstate) : Z := ld32 (f_mem s) s_nblocks.
Definition is_free (s : fstate) (b : Z) : bool := Z.testbit (ld32 (f_mem s) (bitmap_word b)) (b mod 32).

(** The server after [fs_init]: the pointers are set, the superblock and the
    bitmap are in the cache, and the disk fits the map. *)
Record ready (s : fstate) : Prop := mkReady {
  ready_mem : mem_ok (f_mem s);
  ready_super : f_super s = true;
  ready_bitmap : f_bitmap s = true;
  ready_size : nblocks s <= DISKSIZE / BLKSIZE;
  ready_warm_super : f_mapped s 1 = true;
  ready_warm_bitmap : ∀ b, 0 <= b < nblocks s → f_mapped s (2 + b / BLKBITSIZE) = true;
}.

Lemma nblocks_range s : mem_ok (f_mem s) → 0 <= nblocks s < 2 ^ 32.
Proof. intros H. apply (ld32_range _ s_nblocks H). Qed.

Lemma bitmap_word_range b : 0 <= b < DISKSIZE / BLKSIZE → BITMAP <= bitmap_word b < BITMAP + DISKSIZE / BLKSIZE / 8.
Proof.
  intros H. unfold bitmap_word. change (DISKSIZE / BLKSIZE / 8) with 98304. change (DISKSIZE / BLKSIZE) with 786432 in H.
  Z.to_euclidean_division_equations. lia.
Qed.

Lemma blockno_of_bitmap_word b : 0 <= b < DISKSIZE / BLKSIZE → blockno_of (bitmap_word b) = 2 + b / BLKBITSIZE.
Proof.
  intros H. pose proof (bitmap_word_range b H) as R. unfold blockno_of, bitmap_word in *.
  change (DISKSIZE / BLKSIZE / 8) with 98304 in *. change (DISKSIZE / BLKSIZE) with 786432 in H.
  unfold BITMAP, DISKMAP, BLKBITSIZE, BLKSIZE, PGSIZE in *. rewrite u32_small by lia.
  Z.to_euclidean_division_equations. lia.
Qed.

Lemma in_diskmap_bitmap b : 0 <= b < DISKSIZE / BLKSIZE → in_diskmap (bitmap_word b) = true.
Proof.
  intros H. pose proof (bitmap_word_range b H). change (DISKSIZE / BLKSIZE / 8) with 98304 in *.
  unfold in_diskmap, BITMAP, DISKMAP, DISKSIZE, BLKSIZE, PGSIZE in *. lia.
Qed.

Lemma ready_warm_nblocks s : ready s → warm s s_nblocks.
Proof. intros H _. exact (ready_warm_super _ H). Qed.

Lemma ready_warm_word s b : ready s → 0 <= b < nblocks s → warm s (bitmap_word b).
Proof.
  intros H Hb _. pose proof (ready_size _ H). rewrite blockno_of_bitmap_word by lia. by apply (ready_warm_bitmap _ H).
Qed.

(** The loads [block_is_free] is given: they only have to work on cached words. *)
Definition loads (ld : Z → F Z) (s : fstate) : Prop := ∀ a, warm s a → ld a s = (Ret (ld32 (f_mem s) a), s).

Lemma block_is_free_ready ld s b :
  loads ld s → ready s → 0 <= b < nblocks s → block_is_free ld b s = (Ret (is_free s b), s).
Proof.
  intros Hld H Hb. unfold block_is_free. mstep. rewrite (ready_super _ H). cbn [negb].
  rewrite (bind_Ret _ _ _ _ _ (Hld _ (ready_warm_nblocks _ H))).
  replace (ld32 (f_mem s) s_nblocks <=? b) with false by (unfold nblocks in Hb; lia).
  by rewrite (bind_Ret _ _ _ _ _ (Hld _ (ready_warm_word _ _ H Hb))).
Qed.

Lemma loads_fload32 s : loads fload32 s.
Proof. intros a. apply fload32_warm. Qed.

Lemma loads_touch n s : loads (λ x, touch (S n) x;; gets (λ s, ld32 (f_mem s) x)) s.
Proof. intros a Ha. by rewrite (bind_Ret _ _ _ _ _ (touch_warm n a s Ha)). Qed.

Lemma blockno_of_rounddown a :
  in_diskmap a = true → blockno_of (ROUNDDOWN a PGSIZE) = blockno_of a ∧ in_diskmap (ROUNDDOWN a PGSIZE) = true ∧
  ROUNDDOWN a PGSIZE = blockaddr (blockno_of a) ∧ blockaddr (blockno_of a) <= a < blockaddr (blockno_of a) + BLKSIZE.
Proof.
  unfold in_diskmap, blockno_of, ROUNDDOWN, blockaddr, DISKMAP, DISKSIZE, BLKSIZE, PGSIZE. intros H.
  rewrite (u32_small a) by lia. rewrite !u32_small by (Z.to_euclidean_division_equations; lia).
  Z.to_euclidean_division_equations. lia.
Qed.

(** [flush_block] of a cached block: if it is dirty the disk gets it. *)
Definition flushed (b : Z) (s : fstate) : fstate :=
  mkFs (f_mem s) (λ x, if (blockaddr b <=? x) && (x <? blockaddr b + BLKSIZE) then f_mem s x else f_disk s x)
    (f_mapped s) (upd_bit (f_dirty s) b false) (f_pages s) (f_super s) (f_bitmap s).

Lemma PGOFF_rounddown a : PGOFF (ROUNDDOWN a PGSIZE) = 0.
Proof. rewrite PGOFF_mod. unfold ROUNDDOWN, PGSIZE. Z.to_euclidean_division_equations. lia. Qed.

Lemma flush_block_spec a s :
  in_diskmap a = true →
  flush_block a s =
  (Ret tt, if f_mapped s (blockno_of a) && f_dirty s (blockno_of a) then flushed (blockno_of a) s else s).
Proof.
  intros H. destruct (blockno_of_rounddown a H) as (E & _). unfold flush_block. rewrite H. cbn [negb]. mstep. cbn [id].
  rewrite E. destruct (f_mapped s _ && f_dirty s _); [|done].
  unfold disk_write. mstep. unfold fs_page_remap. rewrite PGOFF_rounddown, E. done.
Qed.

Lemma land_lnot_u32 w k : is_u32 w → is_u32 (Z.land w (Z.lnot (Z.shiftl 1 k))).
Proof. intros H. unfold is_u32 in *. by apply land_bound. Qed.

Lemma testbit_clear w k j :
  0 <= k → 0 <= j → Z.testbit (Z.land w (Z.lnot (Z.shiftl 1 k))) j = Z.testbit w j && negb (j =? k).
Proof.
  intros Hk Hj. rewrite Z.land_spec, Z.lnot_spec, Z.shiftl_1_l, Z.pow2_bits_eqb by lia. by rewrite Z.eqb_sym.
Qed.

Lemma testbit_set w k j :
  0 <= k → 0 <= j → Z.testbit (Z.lor w (Z.shiftl 1 k)) j = Z.testbit w j || (j =? k).
Proof. intros Hk Hj. rewrite Z.lor_spec, Z.shiftl_1_l, Z.pow2_bits_eqb by lia. by rewrite Z.eqb_sym. Qed.

Lemma same_word b x : 0 <= b → 0 <= x → x / 32 = b / 32 → (x mod 32 =? b mod 32) = (x =? b).
Proof. intros. Z.to_euclidean_division_equations. lia. Qed.

(** The state after the bitmap word of [b] becomes [v]. *)
Definition bitmap_set (b v : Z) (s : fstate) : fstate :=
  set_f_mem (st32 (f_mem s) (bitmap_word b) v) (mark_dirty (bitmap_word b) s).

(** Storing a word of the bitmap changes the blocks of that word only. *)
Lemma is_free_set s b v x :
  0 <= b → 0 <= x → is_u32 v →
  is_free (bitmap_set b v s) x = if x / 32 =? b / 32 then Z.testbit v (x mod 32) else is_free s x.
Proof.
  intros Hb Hx Hv. unfold is_free. cbn. destruct (Z.eqb_spec (x / 32) (b / 32)) as [Ew|Ew].
  - unfold bitmap_word at 2. rewrite Ew. fold (bitmap_word b). by rewrite ld32_st32_same.
  - rewrite ld32_st32_other; [done|]. unfold bitmap_word. lia.
Qed.

Lemma bitmap_set_ready b v s :
  ready s → 0 <= b < nblocks s → ready (bitmap_set b v s) ∧ nblocks (bitmap_set b v s) = nblocks s.
Proof.
  intros H Hb. pose proof (ready_size _ H).
  assert (E : nblocks (bitmap_set b v s) = nblocks s).
  { unfold nblocks. cbn. apply ld32_st32_other. pose proof (bitmap_word_range b ltac:(lia)).
    unfold s_nblocks, SUPER, BITMAP, DISKMAP, BLKSIZE, PGSIZE in *. lia. }
  split; [|done]. destruct H as [Hm ? ? ? ? Hw]. split; try done; [by apply st32_ok|by rewrite E|].
  rewrite E. apply Hw.
Qed.

Lemma flushed_ready b s : ready s → ready (flushed b s).
Proof. intros []; by split. Qed.

Definition cleared (b : Z) (s : fstate) : fstate :=
  flushed (2 + b / BLKBITSIZE)
    (bitmap_set b (Z.land (ld32 (f_mem s) (bitmap_word b)) (Z.lnot (Z.shiftl 1 (b mod 32)))) s).

Lemma alloc_block_loop_spec s : ready s → ∀ fuel b,
  0 <= b <= nblocks s → nblocks s - b < Z.of_nat fuel → (∀ x, 0 <= x < b → is_free s x = false) →
  (∃ x, b <= x < nblocks s ∧ is_free s x = true ∧ (∀ y, 0 <= y < x → is_free s y = false) ∧
        alloc_block_loop fuel b s = (Ret x, cleared x s)) ∨
  ((∀ x, 0 <= x < nblocks s → is_free s x = false) ∧ alloc_block_loop fuel b s = (Ret (- E_NO_DISK), s)).
Proof.
  intros H. pose proof (ready_size _ H) as Hsz. pose proof (nblocks_range s (ready_mem _ H)).
  induction fuel as [|fuel IH]; intros b Hb Hf Hlt; [lia|]. cbn [alloc_block_loop].
  rewrite (bind_Ret _ _ _ _ _ (fload32_warm _ _ (ready_warm_nblocks _ H))). fold (nblocks s).
  destruct (Z.ltb_spec b (nblocks s)).
  - rewrite (bind_Ret _ _ _ _ _ (block_is_free_ready _ s b (loads_fload32 s) H ltac:(lia))).
    destruct (is_free s b) eqn:Efr.
    + left. exists b. split_and!; [lia|lia|done|done|].
      assert (Hw : warm s (bitmap_word b)) by (apply ready_warm_word; [done|lia]).
      rewrite (bind_Ret _ _ _ _ _ (fload32_warm _ _ Hw)), (bind_Ret _ _ _ _ _ (fstore32_warm _ _ _ Hw)).
      rewrite u32_small by (apply land_lnot_u32, ld32_range, (ready_mem _ H)).
      erewrite bind_Ret; [|apply flush_block_spec, in_diskmap_bitmap; lia]. cbn.
      rewrite in_diskmap_bitmap by lia. rewrite (Hw (in_diskmap_bitmap b ltac:(lia))).
      unfold upd_bit at 1. rewrite Z.eqb_refl. cbn [andb].
      rewrite blockno_of_bitmap_word by lia. unfold cleared, bitmap_set, mark_dirty.
      rewrite in_diskmap_bitmap, blockno_of_bitmap_word by lia. done.
    + rewrite u32_small by (change (DISKSIZE / BLKSIZE) with 786432 in *; lia).
      destruct (IH (b + 1)) as [(x & ? & ?)|?]; [lia|lia| |left; exists x; split; [lia|done]|right; done].
      intros x Hx. destruct (decide (x = b)) as [->|]; [done|apply Hlt; lia].
  - right. split; [|done]. intros x Hx. apply Hlt. lia.
Qed.

Lemma cleared_spec s b :
  ready s → 0 <= b < nblocks s →
  ready (cleared b s) ∧ nblocks (cleared b s) = nblocks s ∧
  (∀ x, 0 <= x < nblocks s → is_free (cleared b s) x = is_free s x && negb (x =? b)).
Proof.
  intros H Hb.
  destruct (bitmap_set_ready b (Z.land (ld32 (f_mem s) (bitmap_word b)) (Z.lnot (Z.shiftl 1 (b mod 32)))) s H Hb) as [Hr En].
  split_and!; [by apply flushed_ready|exact En|]. intros x Hx.
  change (is_free (cleared b s) x) with (is_free (bitmap_set b (Z.land (ld32 (f_mem s) (bitmap_word b)) (Z.lnot (Z.shiftl 1 (b mod 32)))) s) x).
  rewrite is_free_set by (lia || apply land_lnot_u32, ld32_range, (ready_mem _ H)).
  destruct (Z.eqb_spec (x / 32) (b / 32)) as [Ew|Ew].
  - rewrite testbit_clear by (apply Z.mod_pos_bound; lia). rewrite same_word by lia.
    f_equal. unfold is_free, bitmap_word. by rewrite Ew.
  - replace (x =? b) with false; [by rewrite andb_true_r|]. destruct (Z.eqb_spec x b); congruence.
Qed.

Lemma alloc_block_spec s :
  ready s →
  (∃ b, 0 <= b < nblocks s ∧ is_free s b = true ∧ (∀ y, 0 <= y < b → is_free s y = false) ∧
        alloc_block s = (Ret b, cleared b s)) ∨
  ((∀ b, 0 <= b < nblocks s → is_free s b = false) ∧ alloc_block s = (Ret (- E_NO_DISK), s)).
Proof.
  intros H. pose proof (nblocks_range s (ready_mem _ H)). unfold alloc_block.
  mrun (apply fload32_warm, (ready_warm_nblocks _ H)). fold (nblocks s).
  apply (alloc_block_loop_spec s H); [lia|lia|lia].
Qed.
