(* ===== verification/FsFile.v ===== *)
(** * The contents of a file

    The bytes of a file as its block numbers say ([faddr]), and what
    [file_read], [file_write] and [file_flush] do on a file whose blocks are
    in the cache ([file_ok]).  [coherent] is the invariant of the cache: a
    clean block is what the disk has. *)

From S2P Require Import Prelude Mmu Console KState CString BlockCache Fs FsBitmap.
Open Scope Z_scope.

(** ** The bytes of a file *)

Definition NMAX : Z := NDIRECT + NINDIRECT.

(** The slot that holds the number of block [i] of [f], and that number. *)
Definition slot (m : memory) (f i : Z) : Z :=
  if i <? NDIRECT then f_direct f i else blockaddr (ld32 m (f_indirect f)) + 4 * (i - NDIRECT).
Definition bno (m : memory) (f i : Z) : Z := ld32 m (slot m f i).

(** Where byte [p] of [f] is. *)
Definition faddr (m : memory) (f p : Z) : Z := blockaddr (bno m f (p / BLKSIZE)) + p mod BLKSIZE.

(** A file whose first [n] blocks are allocated and whose description is
    cached; its data blocks are distinct from each other and from the blocks
    that describe it. *)
Record file_shape (s : fstate) (f n : Z) : Prop := mkFileShape {
  fo_n : 0 <= n <= NMAX;
  fo_in : in_diskmap f = true;
  fo_place : f = s_root ∨ blockno_of f ≠ 1;
  fo_page : PGOFF f + FILE_SIZE <= PGSIZE;
  fo_warm : f_mapped s (blockno_of f) = true;
  fo_ind : NDIRECT < n →
    0 < ld32 (f_mem s) (f_indirect f) < nblocks s ∧ f_mapped s (ld32 (f_mem s) (f_indirect f)) = true ∧
    ld32 (f_mem s) (f_indirect f) ≠ blockno_of f;
  fo_blk : ∀ i, 0 <= i < n → 0 < bno (f_mem s) f i < nblocks s;
  fo_inj : ∀ i j, 0 <= i < n → 0 <= j < n → bno (f_mem s) f i = bno (f_mem s) f j → i = j;
  fo_sep : ∀ i, 0 <= i < n →
    bno (f_mem s) f i ≠ 1 ∧ bno (f_mem s) f i ≠ blockno_of f ∧
    (NDIRECT < n → bno (f_mem s) f i ≠ ld32 (f_mem s) (f_indirect f));
}.

Lemma blockno_of_blockaddr b k : 0 <= b < DISKSIZE / BLKSIZE → 0 <= k < BLKSIZE → blockno_of (blockaddr b + k) = b.
Proof.
  change (DISKSIZE / BLKSIZE) with 786432. unfold blockno_of, blockaddr, BLKSIZE, PGSIZE, DISKMAP. intros.
  rewrite u32_small by lia. Z.to_euclidean_division_equations. lia.
Qed.

Lemma in_diskmap_blockaddr b k : 0 <= b < DISKSIZE / BLKSIZE → 0 <= k < BLKSIZE → in_diskmap (blockaddr b + k) = true.
Proof.
  change (DISKSIZE / BLKSIZE) with 786432. unfold in_diskmap, blockaddr, BLKSIZE, PGSIZE, DISKMAP, DISKSIZE. lia.
Qed.

Lemma warm_blockaddr s b k :
  0 <= b < DISKSIZE / BLKSIZE → 0 <= k < BLKSIZE → f_mapped s b = true → warm s (blockaddr b + k).
Proof. intros Hb Hk H _. by rewrite blockno_of_blockaddr. Qed.

Lemma field_page f k :
  in_diskmap f = true → PGOFF f + FILE_SIZE <= PGSIZE → 0 <= k < FILE_SIZE → blockno_of (f + k) = blockno_of f.
Proof.
  rewrite PGOFF_mod. unfold in_diskmap, blockno_of, FILE_SIZE, PGSIZE, BLKSIZE, PGSIZE, DISKMAP, DISKSIZE. intros H Hp Hk.
  rewrite !u32_small by lia. Z.to_euclidean_division_equations. lia.
Qed.

Lemma warm_field s f n k : file_shape s f n → 0 <= k < FILE_SIZE → warm s (f + k).
Proof. intros H Hk _. rewrite field_page; [|apply H|apply H|done]. apply H. Qed.

Lemma diskaddr_ready s b :
  ready s → 0 < b < nblocks s → diskaddr b s = (Ret (blockaddr b), s).
Proof.
  intros H Hb. unfold diskaddr. replace (b =? 0) with false by lia. mstep. rewrite (ready_super _ H). cbn [negb].
  mrun (apply fload32_warm, (ready_warm_nblocks _ H)). fold s_nblocks. fold (nblocks s).
  replace (nblocks s <=? b) with false by lia. rewrite u32_small; [done|].
  pose proof (ready_size _ H) as Hs. change (DISKSIZE / BLKSIZE) with 786432 in Hs.
  unfold blockaddr, DISKMAP, BLKSIZE, PGSIZE. lia.
Qed.

Lemma file_block_walk_ok s f n i alloc :
  ready s → file_shape s f n → 0 <= i < n → file_block_walk f i alloc s = (Ret (inr (slot (f_mem s) f i)), s) ∧
  warm s (slot (f_mem s) f i).
Proof.
  intros H Hf Hi. pose proof (fo_n _ _ _ Hf) as Hn. unfold NMAX in Hn. pose proof (ready_size _ H).
  unfold file_block_walk, slot. replace (NDIRECT + NINDIRECT <=? i) with false by lia.
  destruct (Z.ltb_spec i NDIRECT).
  - split; [done|]. unfold f_direct. rewrite <- Z.add_assoc. apply (warm_field s f n); [done|].
    unfold FILE_SIZE, NDIRECT in *. lia.
  - destruct (fo_ind _ _ _ Hf ltac:(lia)) as (Hr & Hm & _).
    assert (Hw : warm s (f_indirect f)) by (by apply (warm_field s f n)).
    split.
    + rewrite (bind_Ret _ _ _ _ _ (fload32_warm _ _ Hw)). replace (_ =? 0) with false by lia. cbn [negb].
      rewrite (bind_Ret _ _ _ _ _ (fload32_warm _ _ Hw)). by rewrite (bind_Ret _ _ _ _ _ (diskaddr_ready s _ H Hr)).
    + apply warm_blockaddr; [lia| |done]. change NINDIRECT with 1024 in *. unfold NDIRECT, BLKSIZE, PGSIZE in *. lia.
Qed.

Lemma file_get_block_ok s f n i :
  ready s → file_shape s f n → 0 <= i < n → file_get_block f i s = (Ret (inr (blockaddr (bno (f_mem s) f i))), s).
Proof.
  intros H Hf Hi. destruct (file_block_walk_ok s f n i true H Hf Hi) as [Hw Hs].
  pose proof (fo_blk _ _ _ Hf i Hi) as Hb. unfold file_get_block. rewrite (bind_Ret _ _ _ _ _ Hw).
  rewrite (bind_Ret _ _ _ _ _ (fload32_warm _ _ Hs)). fold (bno (f_mem s) f i).
  replace (bno (f_mem s) f i =? 0) with false by lia. mstep.
  rewrite (bind_Ret _ _ _ _ _ (fload32_warm _ _ Hs)). fold (bno (f_mem s) f i).
  by rewrite (bind_Ret _ _ _ _ _ (diskaddr_ready s _ H Hb)).
Qed.

(** ... and the data is cached as well. *)
Record file_ok (s : fstate) (f n : Z) : Prop := mkFileOk {
  fo_shape :> file_shape s f n;
  fo_cached : ∀ i, 0 <= i < n → f_mapped s (bno (f_mem s) f i) = true;
}.

(** *** What the description of a file depends on *)

Definition meta (s : fstate) (f n x : Z) : Prop :=
  f_direct f 0 <= x < f_indirect f + 4 ∨ s_nblocks <= x < s_nblocks + 4 ∨
  (NDIRECT < n ∧ blockaddr (ld32 (f_mem s) (f_indirect f)) <= x < blockaddr (ld32 (f_mem s) (f_indirect f)) + BLKSIZE).

(** The same server with other contents of memory and disk and other dirty bits. *)
Record same_cache (s s' : fstate) : Prop := mkSame {
  sc_mapped : f_mapped s' = f_mapped s;
  sc_pages : f_pages s' = f_pages s;
  sc_super : f_super s' = f_super s;
  sc_bitmap : f_bitmap s' = f_bitmap s;
}.

Lemma meta_indirect s f n x : f_indirect f <= x < f_indirect f + 4 → meta s f n x.
Proof. unfold meta, f_indirect, f_direct. lia. Qed.

Section frame.
Context (s s' : fstate) (f n : Z).
Context (Hf : file_ok s f n) (Hsame : same_cache s s') (Hmeta : ∀ x, meta s f n x → f_mem s' x = f_mem s x).

Lemma ind_frame : ld32 (f_mem s') (f_indirect f) = ld32 (f_mem s) (f_indirect f).
Proof. apply ld32_ext. intros k Hk. apply Hmeta, meta_indirect. lia. Qed.

Lemma nblocks_frame : nblocks s' = nblocks s.
Proof. apply ld32_ext. intros k Hk. apply Hmeta. unfold meta. lia. Qed.

Lemma bno_frame i : 0 <= i < n → bno (f_mem s') f i = bno (f_mem s) f i.
Proof.
  intros Hi. pose proof (fo_n _ _ _ Hf) as Hn. unfold bno, slot. rewrite ind_frame.
  destruct (Z.ltb_spec i NDIRECT); apply ld32_ext; intros k Hk; apply Hmeta; unfold meta.
  - unfold f_direct, f_indirect, NDIRECT in *. lia.
  - right; right. unfold NMAX in Hn. change NINDIRECT with 1024 in *. unfold NDIRECT, BLKSIZE, PGSIZE in *. lia.
Qed.

Lemma faddr_frame p : 0 <= p < n * BLKSIZE → faddr (f_mem s') f p = faddr (f_mem s) f p.
Proof.
  intros Hp. unfold faddr. rewrite bno_frame; [done|]. unfold BLKSIZE, PGSIZE in *. Z.to_euclidean_division_equations. lia.
Qed.

Lemma file_ok_frame : file_ok s' f n.
Proof.
  pose proof ind_frame as Ei. pose proof nblocks_frame as En. pose proof (sc_mapped _ _ Hsame) as Em.
  destruct Hf as [[? ? ? ? ? Hi Hb Hj Hs] Hc]. split; [split|]; try done; rewrite ?Em, ?Ei, ?En; try done.
  - intros i Hi'. rewrite bno_frame by done. by apply Hb.
  - intros i j Hi' Hj'. rewrite !bno_frame by done. by apply Hj.
  - intros i Hi'. rewrite bno_frame by done. by apply Hs.
  - intros i Hi'. rewrite bno_frame by done. by apply Hc.
Qed.

Lemma ready_frame : ready s → mem_ok (f_mem s') → ready s'.
Proof.
  intros [] Hm. destruct Hsame as [Em _ Es Eb]. split; rewrite ?nblocks_frame, ?Em, ?Es, ?Eb; done.
Qed.
End frame.

(** ** Reading and writing cached blocks *)

Lemma same_cache_refl s : same_cache s s.
Proof. by split. Qed.

Lemma same_cache_trans s1 s2 s3 : same_cache s1 s2 → same_cache s2 s3 → same_cache s1 s3.
Proof. intros [] []; split; congruence. Qed.

Lemma warm_same s s' a : same_cache s s' → warm s a → warm s' a.
Proof. intros [] H Ha. rewrite sc_mapped0. by apply H. Qed.

(** A cached block that is not dirty is what the disk holds. *)
Definition coherent (s : fstate) : Prop := ∀ b k,
  0 <= b < DISKSIZE / BLKSIZE → 0 <= k < BLKSIZE →
  f_mapped s b = true → f_dirty s b = false → f_disk s (blockaddr b + k) = f_mem s (blockaddr b + k).

Lemma blocks_disjoint b b' k k' :
  0 <= k < BLKSIZE → 0 <= k' < BLKSIZE → blockaddr b + k = blockaddr b' + k' → b = b' ∧ k = k'.
Proof. unfold blockaddr, BLKSIZE, PGSIZE. lia. Qed.

(** Stores into one block, or outside the disk map, keep the cache coherent. *)
Lemma coherent_store m a s :
  (∀ x, f_mem s x ≠ m x → in_diskmap x = true → in_diskmap a = true ∧ blockno_of x = blockno_of a) →
  coherent s → coherent (set_f_mem m (mark_dirty a s)).
Proof.
  intros Hm Hc b k Hb Hk Hmap Hd. cbn in *.
  destruct (decide (f_mem s (blockaddr b + k) = m (blockaddr b + k))) as [<-|Hne].
  - apply Hc; try done. revert Hd. destruct (in_diskmap a); [|done]. unfold upd_bit. by destruct (Z.eqb _ _).
  - destruct (Hm _ Hne (in_diskmap_blockaddr b k Hb Hk)) as [Ha E]. rewrite blockno_of_blockaddr in E by done.
    rewrite Ha in Hd. unfold upd_bit in Hd. by rewrite E, Z.eqb_refl in Hd.
Qed.

Lemma faddr_block m f p : ∃ k, 0 <= k < BLKSIZE ∧ faddr m f p = blockaddr (bno m f (p / BLKSIZE)) + k.
Proof. exists (p mod BLKSIZE). split; [|done]. by apply Z.mod_pos_bound. Qed.

Lemma block_index n p : 0 <= p < n * BLKSIZE → 0 <= p / BLKSIZE < n.
Proof. unfold BLKSIZE, PGSIZE. intros. Z.to_euclidean_division_equations. lia. Qed.

Lemma faddr_inj s f n p q :
  file_ok s f n → 0 <= p < n * BLKSIZE → 0 <= q < n * BLKSIZE → faddr (f_mem s) f p = faddr (f_mem s) f q → p = q.
Proof.
  intros Hf Hp Hq E. apply blocks_disjoint in E as [E1 E2]; [|by apply Z.mod_pos_bound..].
  apply (fo_inj _ _ _ Hf) in E1; [|by apply block_index..].
  unfold BLKSIZE, PGSIZE in *. Z.to_euclidean_division_equations. lia.
Qed.

Lemma faddr_in s f n p :
  ready s → file_ok s f n → 0 <= p < n * BLKSIZE →
  in_diskmap (faddr (f_mem s) f p) = true ∧ blockno_of (faddr (f_mem s) f p) = bno (f_mem s) f (p / BLKSIZE) ∧
  warm s (faddr (f_mem s) f p).
Proof.
  intros H Hf Hp. pose proof (fo_blk _ _ _ Hf _ (block_index n p Hp)) as Hb. pose proof (fo_cached _ _ _ Hf _ (block_index n p Hp)) as Hm. pose proof (ready_size _ H).
  unfold faddr. split_and!.
  - apply in_diskmap_blockaddr; [lia|by apply Z.mod_pos_bound].
  - apply blockno_of_blockaddr; [lia|by apply Z.mod_pos_bound].
  - apply warm_blockaddr; [lia|by apply Z.mod_pos_bound|done].
Qed.

Lemma field_block f k :
  in_diskmap f = true → PGOFF f + FILE_SIZE <= PGSIZE → 0 <= k < FILE_SIZE →
  ∃ j, 0 <= j < BLKSIZE ∧ f + k = blockaddr (blockno_of f) + j.
Proof.
  intros Hf Hp Hk. destruct (blockno_of_rounddown f Hf) as (_ & _ & E & Hr). exists (f + k - blockaddr (blockno_of f)).
  split; [|lia]. rewrite PGOFF_mod in Hp. rewrite <- E in *. revert Hf Hr. unfold ROUNDDOWN, in_diskmap. intros Hf Hr.
  rewrite u32_small in * by (unfold DISKMAP, DISKSIZE in *; lia). unfold BLKSIZE, PGSIZE in *. lia.
Qed.

(** The data of a file is not part of its description. *)
Lemma data_not_meta s f n p :
  file_ok s f n → 0 <= p < n * BLKSIZE → ¬ meta s f n (faddr (f_mem s) f p).
Proof.
  intros Hf Hp. destruct (fo_sep _ _ _ Hf _ (block_index n p Hp)) as (N1 & Nf & Ni).
  destruct (faddr_block (f_mem s) f p) as (k & Hk & ->). intros [H|[H|[Hn H]]].
  - destruct (field_block f (blockaddr (bno (f_mem s) f (p / BLKSIZE)) + k - f)) as (j & Hj & E); [apply (fo_shape _ _ _ Hf)..|unfold f_direct, f_indirect, FILE_SIZE in *; lia|].
    replace (f + _) with (blockaddr (bno (f_mem s) f (p / BLKSIZE)) + k) in E by lia.
    by apply blocks_disjoint in E as [? _].
  - change s_nblocks with (blockaddr 1 + 4) in H.
    destruct (blocks_disjoint (bno (f_mem s) f (p / BLKSIZE)) 1 k
                (blockaddr (bno (f_mem s) f (p / BLKSIZE)) + k - blockaddr 1)); [lia| |lia|done].
    unfold BLKSIZE, PGSIZE in *. lia.
  - set (b := ld32 _ _) in *. set (b' := bno _ _ _) in *.
    destruct (blocks_disjoint b' b k (blockaddr b' + k - blockaddr b)); [lia|lia|lia|by apply Ni].
Qed.

Lemma meta_in_diskmap s f n x : ready s → file_ok s f n → meta s f n x → in_diskmap x = true.
Proof.
  intros H Hf. pose proof (ready_size _ H). change (DISKSIZE / BLKSIZE) with 786432 in *. intros [Hx|[Hx|[Hn Hx]]].
  - pose proof (fo_in _ _ _ Hf) as Hi. pose proof (fo_page _ _ _ Hf) as Hp. rewrite PGOFF_mod in Hp.
    unfold in_diskmap, f_direct, f_indirect, FILE_SIZE, PGSIZE, DISKMAP, DISKSIZE in *. Z.to_euclidean_division_equations. lia.
  - unfold in_diskmap, s_nblocks, SUPER, BLKSIZE, PGSIZE, DISKMAP, DISKSIZE in *. lia.
  - destruct (fo_ind _ _ _ Hf Hn) as [Hr _]. replace x with (blockaddr (ld32 (f_mem s) (f_indirect f)) + (x - blockaddr (ld32 (f_mem s) (f_indirect f)))) by lia.
    apply in_diskmap_blockaddr; [change (DISKSIZE / BLKSIZE) with 786432|]; lia.
Qed.

(** The description of a file leaves its size out. *)
Lemma size_not_meta s f n x :
  file_ok s f n → f_size f <= x < f_size f + 4 → ¬ meta s f n x.
Proof.
  intros Hf Hx. destruct (field_block f (x - f)) as (j & Hj & E); [apply (fo_shape _ _ _ Hf)..|unfold f_size, FILE_SIZE in *; lia|].
  replace (f + (x - f)) with x in E by lia. intros [H|[H|[Hn H]]].
  - unfold f_size, f_direct in *. lia.
  - destruct (fo_place _ _ _ Hf) as [->|N]; [unfold f_size, s_root, s_nblocks in *; lia|].
    change s_nblocks with (blockaddr 1 + 4) in H. apply N.
    apply (blocks_disjoint (blockno_of f) 1 j (x - blockaddr 1)); unfold BLKSIZE, PGSIZE in *; lia.
  - destruct (fo_ind _ _ _ Hf Hn) as (_ & _ & N). apply N. symmetry.
    apply (blocks_disjoint (blockno_of f) (ld32 (f_mem s) (f_indirect f)) j (x - blockaddr (ld32 (f_mem s) (f_indirect f))));
      lia.
Qed.

Lemma memmove_ok m d s n : 0 <= n → mem_ok m → mem_ok (memmove m d s n).
Proof. intros Hn Hm x. rewrite memmove_spec by done. by apply mem_copy_ok. Qed.

Lemma last_page_in a n : 0 < n → ∃ k, 0 <= k < n ∧ last_page a n = a + k.
Proof.
  intros Hn. exists (last_page a n - a). unfold last_page, PGSIZE. Z.to_euclidean_division_equations. lia.
Qed.

(** The server after a copy of [n] bytes to [d]. *)
Definition copied (d n : Z) (m : memory) (s : fstate) : fstate :=
  set_f_mem m (mark_dirty (last_page d n) (mark_dirty d s)).

Lemma warm_mark s a x : warm s x → warm (mark_dirty a s) x.
Proof. done. Qed.

Lemma fmemmove_warm d a n s :
  0 < n → (∀ k, 0 <= k < n → warm s (a + k)) → (∀ k, 0 <= k < n → warm s (d + k)) →
  fmemmove d a n s = (Ret tt, copied d n (memmove (f_mem s) d a n) s).
Proof.
  intros Hn Ha Hd. unfold fmemmove. replace (n =? 0) with false by lia.
  destruct (last_page_in a n Hn) as (ka & Hka & Ela). destruct (last_page_in d n Hn) as (kd & Hkd & Eld).
  pose proof (Ha 0 ltac:(lia)) as Ha0. pose proof (Hd 0 ltac:(lia)) as Hd0. rewrite Z.add_0_r in Ha0, Hd0.
  mrun (exact (touch_warm 3 a s Ha0)). rewrite (bind_Ret _ _ _ _ _ (touch_write_warm _ _ Hd0)).
  mrun (apply (touch_warm 3), warm_mark; rewrite Ela; by apply Ha).
  erewrite bind_Ret; [|apply touch_write_warm, warm_mark; rewrite Eld; by apply Hd]. done.
Qed.

Lemma coherent_mark a s : coherent s → coherent (mark_dirty a s).
Proof.
  intros Hc b k Hb Hk Hm Hd. apply Hc; try done. revert Hd. cbn. destruct (in_diskmap a); [|done].
  unfold upd_bit. by destruct (Z.eqb _ _).
Qed.

(** What one iteration copies: the rest of the block, or of the request. *)
Definition chunk (limit pos : Z) : Z := Z.min (BLKSIZE - pos mod BLKSIZE) (limit - pos).

Lemma chunk_range limit pos : 0 <= pos < limit → 0 < chunk limit pos <= limit - pos.
Proof. unfold chunk, BLKSIZE, PGSIZE. intros. Z.to_euclidean_division_equations. lia. Qed.

Lemma chunk_div limit pos p :
  0 <= pos < limit → pos <= p < pos + chunk limit pos → p / BLKSIZE = pos / BLKSIZE.
Proof. unfold chunk. intros. unfold BLKSIZE, PGSIZE in *. Z.to_euclidean_division_equations. lia. Qed.

Lemma faddr_chunk m f limit pos p :
  0 <= pos < limit → pos <= p < pos + chunk limit pos → faddr m f p = faddr m f pos + (p - pos).
Proof.
  unfold faddr. intros Hp Hr. rewrite (chunk_div limit pos p Hp Hr). unfold chunk in Hr.
  unfold BLKSIZE, PGSIZE in *. Z.to_euclidean_division_equations. lia.
Qed.

Lemma chunk_warm s f n limit pos :
  ready s → file_ok s f n → 0 <= pos < limit → limit <= n * BLKSIZE →
  ∀ k, 0 <= k < chunk limit pos → warm s (faddr (f_mem s) f pos + k).
Proof.
  intros H Hf Hp Hl k Hk. pose proof (chunk_range limit pos Hp).
  replace (faddr (f_mem s) f pos + k) with (faddr (f_mem s) f (pos + k))
    by (rewrite (faddr_chunk _ _ limit pos (pos + k)) by lia; lia).
  apply (faddr_in s f n _ H Hf). lia.
Qed.

Lemma file_loop_step fuel xfer s f n buf limit pos :
  ready s → file_shape s f n → 0 <= pos < limit → limit <= n * BLKSIZE →
  file_loop (S fuel) xfer f buf limit pos s =
  (xfer buf (faddr (f_mem s) f pos) (chunk limit pos);;
   file_loop fuel xfer f (buf + chunk limit pos) limit (pos + chunk limit pos)) s.
Proof.
  intros H Hf Hp Hl. pose proof (fo_n _ _ _ Hf) as Hn. change NMAX with 1034 in Hn.
  pose proof (chunk_range limit pos Hp) as Hc. cbn [file_loop].
  assert (limit < 2 ^ 31) by (unfold BLKSIZE, PGSIZE in Hl; lia).
  rewrite (u32_small pos) by lia. replace (pos <? limit) with true by lia.
  rewrite Z.quot_div_nonneg, Z.rem_mod_nonneg by (unfold BLKSIZE, PGSIZE; lia).
  pose proof (block_index n pos ltac:(lia)) as Hi. rewrite (u32_small (pos / BLKSIZE)) by lia.
  rewrite (bind_Ret _ _ _ _ _ (file_get_block_ok s f n _ H Hf Hi)). cbv zeta.
  pose proof (Z.mod_pos_bound pos BLKSIZE ltac:(done)) as Ho.
  rewrite (u32_small (BLKSIZE - _)) by (unfold BLKSIZE, PGSIZE in *; lia).
  rewrite (u32_small (limit - pos)) by lia. fold (chunk limit pos). rewrite (s32_small (pos + _)) by lia. done.
Qed.

(** [s'] is [s] with the bytes [[lo, hi)] of [f] taken from [buf], and nothing
    else changed in memory. *)
Record written (f lo hi buf : Z) (s s' : fstate) : Prop := mkWritten {
  wr_same : same_cache s s';
  wr_ok : mem_ok (f_mem s');
  wr_coherent : coherent s → coherent s';
  wr_in : ∀ p, lo <= p < hi → f_mem s' (faddr (f_mem s) f p) = f_mem s (buf + (p - lo));
  wr_out : ∀ x, (∀ p, lo <= p < hi → x ≠ faddr (f_mem s) f p) → f_mem s' x = f_mem s x;
}.

Lemma written_meta f n lo hi buf s s' :
  file_ok s f n → 0 <= lo → hi <= n * BLKSIZE → written f lo hi buf s s' →
  ∀ x, meta s f n x → f_mem s' x = f_mem s x.
Proof.
  intros Hf Hlo Hhi W x Hx. apply (wr_out _ _ _ _ _ _ W). intros p Hp ->.
  apply (data_not_meta s f n p Hf); [lia|done].
Qed.

Lemma written_files f n lo hi buf s s' :
  ready s → file_ok s f n → 0 <= lo → hi <= n * BLKSIZE → written f lo hi buf s s' → ready s' ∧ file_ok s' f n.
Proof.
  intros H Hf Hlo Hhi W. pose proof (written_meta f n lo hi buf s s' Hf Hlo Hhi W) as Hm. split.
  - apply (ready_frame s s' f n (wr_same _ _ _ _ _ _ W) Hm H), W.
  - apply (file_ok_frame s s' f n Hf (wr_same _ _ _ _ _ _ W) Hm).
Qed.

Lemma written_nil f lo hi buf s : hi <= lo → mem_ok (f_mem s) → written f lo hi buf s s.
Proof. intros ? Hm. split; [apply same_cache_refl|exact Hm|auto|lia|auto]. Qed.

Lemma write_chunk s f n limit buf pos :
  ready s → file_ok s f n → 0 <= pos < limit → limit <= n * BLKSIZE → 
  written f pos (pos + chunk limit pos) buf s
    (copied (faddr (f_mem s) f pos) (chunk limit pos)
       (memmove (f_mem s) (faddr (f_mem s) f pos) buf (chunk limit pos)) s).
Proof.
  intros H Hf Hp Hl. pose proof (chunk_range limit pos Hp) as Hc.
  assert (Hm : ∀ x, memmove (f_mem s) (faddr (f_mem s) f pos) buf (chunk limit pos) x =
                    mem_copy (f_mem s) (faddr (f_mem s) f pos) buf (chunk limit pos) x)
    by (intros; apply memmove_spec; lia).
  assert (Hout : ∀ x, (∀ p, pos <= p < pos + chunk limit pos → x ≠ faddr (f_mem s) f p) →
                      memmove (f_mem s) (faddr (f_mem s) f pos) buf (chunk limit pos) x = f_mem s x).
  { intros x Hx. rewrite Hm. set (d := faddr (f_mem s) f pos) in *. rewrite mem_copy_out; [done|].
    destruct (decide (d <= x < d + chunk limit pos)); [|lia]. destruct (Hx (pos + (x - d))); [lia|].
    rewrite (faddr_chunk _ _ limit pos) by lia. fold d. lia. }
  split; cbn.
  - done.
  - apply memmove_ok; [lia|apply H].
  - intros Hco. apply coherent_store; [|by apply coherent_mark]. cbn. intros x Hx _.
    destruct (last_page_in (faddr (f_mem s) f pos) (chunk limit pos) ltac:(lia)) as (kl & Hkl & El).
    assert (El' : last_page (faddr (f_mem s) f pos) (chunk limit pos) = faddr (f_mem s) f (pos + kl)).
    { rewrite El, (faddr_chunk _ _ limit pos (pos + kl)) by lia. lia. }
    rewrite El'. clear El El'.
    destruct (decide (faddr (f_mem s) f pos <= x < faddr (f_mem s) f pos + chunk limit pos)) as [Hr|Hr].
    + destruct (faddr_in s f n (pos + kl) H Hf ltac:(lia)) as (? & E & _). set (p := pos + (x - faddr (f_mem s) f pos)).
      destruct (faddr_in s f n p H Hf ltac:(lia)) as (? & E' & _). split; [done|].
      replace x with (faddr (f_mem s) f p) by (rewrite (faddr_chunk _ _ limit pos) by lia; lia). rewrite E, E'. apply f_equal.
      rewrite (chunk_div limit pos p), (chunk_div limit pos (pos + kl)) by lia. done.
    + destruct Hx. rewrite Hm, mem_copy_out; [done|lia].
  - intros p Hp'. rewrite Hm, (faddr_chunk _ _ limit pos p), mem_copy_in by lia. apply f_equal. lia.
  - apply Hout.
Qed.

Lemma in_diskmap_field f k :
  in_diskmap f = true → PGOFF f + FILE_SIZE <= PGSIZE → 0 <= k < FILE_SIZE → in_diskmap (f + k) = true.
Proof.
  rewrite PGOFF_mod. unfold in_diskmap, FILE_SIZE, PGSIZE, DISKMAP, DISKSIZE. intros.
  Z.to_euclidean_division_equations. lia.
Qed.

(** A place to write from: cached if it is in the disk map, and apart from the
    file's data and size. *)
Definition src_ok (s : fstate) (f n buf count : Z) : Prop := ∀ k, 0 <= k < count →
  warm s (buf + k) ∧ (∀ p, 0 <= p < n * BLKSIZE → buf + k ≠ faddr (f_mem s) f p) ∧
  (buf + k < f_size f ∨ f_size f + 4 <= buf + k).

Lemma src_ok_outside s f n buf count :
  ready s → file_ok s f n → (∀ k, 0 <= k < count → in_diskmap (buf + k) = false) → src_ok s f n buf count.
Proof.
  intros H Hf Hbuf k Hk. specialize (Hbuf k Hk). split_and!.
  - intros Hd. congruence.
  - intros p Hp E. destruct (faddr_in s f n p H Hf Hp) as (Hin & _). rewrite <- E in Hin. congruence.
  - destruct (decide (f_size f <= buf + k < f_size f + 4)); [|lia]. exfalso.
    pose proof (in_diskmap_field f (buf + k - f)) as Hin. replace (f + (buf + k - f)) with (buf + k) in Hin by lia.
    rewrite Hin in Hbuf; [done|apply (fo_shape _ _ _ Hf)|apply (fo_shape _ _ _ Hf)|unfold f_size, FILE_SIZE in *; lia].
Qed.

Lemma src_ok_frame s s' f n buf count d :
  file_ok s f n → same_cache s s' → (∀ x, meta s f n x → f_mem s' x = f_mem s x) → 0 <= d → 
  src_ok s f n buf (d + count) → src_ok s' f n (buf + d) count.
Proof.
  intros Hf Hsame Hm Hd Hs k Hk. destruct (Hs (d + k) ltac:(lia)) as (Hw & Ha & Hz). rewrite <- Z.add_assoc.
  split_and!; [by apply (warm_same s)| |done]. intros p Hp. rewrite (faddr_frame s s' f n Hf Hm) by done. by apply Ha.
Qed.

Lemma written_app f n lo mid hi buf s1 s2 s3 :
  file_ok s1 f n → 0 <= lo <= mid → mid <= hi → hi <= n * BLKSIZE → src_ok s1 f n buf (hi - lo) →
  written f lo mid buf s1 s2 → written f mid hi (buf + (mid - lo)) s2 s3 → written f lo hi buf s1 s3.
Proof.
  intros Hf Hlo Hmid Hhi Hbuf W1 W2.
  assert (Hm : ∀ x, meta s1 f n x → f_mem s2 x = f_mem s1 x) by (apply (written_meta f n lo mid buf); done || lia).
  assert (Ef : ∀ p, lo <= p < hi → faddr (f_mem s2) f p = faddr (f_mem s1) f p)
    by (intros; apply (faddr_frame s1 s2 f n Hf Hm); lia).
  split.
  - eapply same_cache_trans; [apply W1|apply W2].
  - apply W2.
  - intros Hc. by apply (wr_coherent _ _ _ _ _ _ W2), (wr_coherent _ _ _ _ _ _ W1).
  - intros p Hp. rewrite <- (Ef p Hp). destruct (Z.lt_ge_cases p mid).
    + rewrite (wr_out _ _ _ _ _ _ W2); [rewrite (Ef p Hp); apply (wr_in _ _ _ _ _ _ W1); lia|].
      intros q Hq E. rewrite !Ef in E by lia. apply (faddr_inj s1 f n) in E; [lia|done|lia|lia].
    + rewrite (wr_in _ _ _ _ _ _ W2) by lia. rewrite (wr_out _ _ _ _ _ _ W1); [apply f_equal; lia|].
      intros q Hq. destruct (Hbuf (p - lo) ltac:(lia)) as (_ & Ha & _).
      replace (buf + (mid - lo) + (p - mid)) with (buf + (p - lo)) by lia. apply Ha. lia.
  - intros x Hx. rewrite (wr_out _ _ _ _ _ _ W2), (wr_out _ _ _ _ _ _ W1); [done|..].
    + intros p Hp. apply Hx. lia.
    + intros p Hp. rewrite Ef by lia. apply Hx. lia.
Qed.

Lemma write_loop f n limit : limit <= n * BLKSIZE → ∀ fuel s buf pos,
  ready s → file_ok s f n → 0 <= pos <= limit → limit - pos < Z.of_nat fuel →
  src_ok s f n buf (limit - pos) →
  ∃ s', file_loop fuel (λ buf blk bn, fmemmove blk buf bn) f buf limit pos s = (Ret None, s') ∧
    written f pos limit buf s s'.
Proof.
  intros Hl. induction fuel as [|fuel IH]; intros s buf pos H Hf Hp Hfu Hbuf; [lia|].
  destruct (Z.eqb_spec pos limit) as [->|Hne].
  { exists s. pose proof (fo_n _ _ _ Hf) as Hn. change NMAX with 1034 in Hn. cbn [file_loop].
    rewrite u32_small by (unfold BLKSIZE, PGSIZE in Hl; lia). rewrite Z.ltb_irrefl.
    split; [done|]. apply written_nil; [lia|apply H]. }
  rewrite (file_loop_step _ _ _ _ n _ _ _ H Hf) by lia.
  pose proof (chunk_range limit pos ltac:(lia)) as Hc.
  rewrite (bind_Ret _ _ _ _ _ (fmemmove_warm _ buf (chunk limit pos) s ltac:(lia)
    ltac:(intros k Hk; apply (Hbuf k); lia) (chunk_warm s f n limit pos H Hf ltac:(lia) Hl))).
  pose proof (write_chunk s f n limit buf pos H Hf ltac:(lia) Hl) as W. set (s1 := copied _ _ _ _) in *.
  destruct (written_files f n pos (pos + chunk limit pos) buf s s1 H Hf ltac:(lia) ltac:(lia) W) as [H1 Hf1].
  destruct (IH s1 (buf + chunk limit pos) (pos + chunk limit pos)) as (s' & E & W'); [done|done|lia|lia| |].
  { apply (src_ok_frame s); [done|apply W|by apply (written_meta f n pos (pos + chunk limit pos) buf s s1); done || lia|lia|].
    by replace (chunk limit pos + (limit - (pos + chunk limit pos))) with (limit - pos) by lia. }
  exists s'. split; [exact E|]. apply (written_app f n pos (pos + chunk limit pos) limit buf s s1 s'); try done; [lia|lia|].
  by replace (pos + chunk limit pos - pos) with (chunk limit pos) by lia.
Qed.

(** [buf] gets [f]'s bytes [[pos, limit)]; nothing else changes. *)
Lemma read_loop f n limit : limit <= n * BLKSIZE → ∀ fuel s buf pos,
  ready s → file_ok s f n → 0 <= pos <= limit → limit - pos < Z.of_nat fuel →
  (∀ k, 0 <= k < limit - pos → in_diskmap (buf + k) = false) →
  ∃ m, file_loop fuel (λ buf blk bn, fmemmove buf blk bn) f buf limit pos s = (Ret None, set_f_mem m s) ∧ mem_ok m ∧
    (∀ p, pos <= p < limit → m (buf + (p - pos)) = f_mem s (faddr (f_mem s) f p)) ∧
    (∀ x, x < buf ∨ buf + (limit - pos) <= x → m x = f_mem s x).
Proof.
  intros Hl. induction fuel as [|fuel IH]; intros s buf pos H Hf Hp Hfu Hbuf; [lia|].
  destruct (Z.eqb_spec pos limit) as [->|Hne].
  { exists (f_mem s). pose proof (fo_n _ _ _ Hf) as Hn. change NMAX with 1034 in Hn. cbn [file_loop].
    rewrite u32_small by (unfold BLKSIZE, PGSIZE in Hl; lia). rewrite Z.ltb_irrefl.
    split_and!; [by destruct s|apply H|lia|done]. }
  rewrite (file_loop_step _ _ _ _ n _ _ _ H Hf) by lia.
  pose proof (chunk_range limit pos ltac:(lia)) as Hc.
  assert (Hb0 : in_diskmap buf = false) by (rewrite <- (Z.add_0_r buf); apply Hbuf; lia).
  rewrite (bind_Ret _ _ _ _ _ (fmemmove_warm buf _ (chunk limit pos) s ltac:(lia)
    (chunk_warm s f n limit pos H Hf ltac:(lia) Hl)
    ltac:(intros k Hk Hd; rewrite Hbuf in Hd by lia; done))).
  set (m1 := memmove _ _ _ _).
  assert (E1 : copied buf (chunk limit pos) m1 s = set_f_mem m1 s).
  { destruct (last_page_in buf (chunk limit pos) ltac:(lia)) as (k & Hk & El).
    unfold copied, mark_dirty. rewrite El, Hb0, Hbuf by lia. done. }
  assert (Hm1 : ∀ x, m1 x = mem_copy (f_mem s) buf (faddr (f_mem s) f pos) (chunk limit pos) x)
    by (intros; apply memmove_spec; lia).
  assert (Hd : ∀ x, in_diskmap x = true → m1 x = f_mem s x).
  { intros x Hx. rewrite Hm1, mem_copy_out; [done|]. destruct (decide (buf <= x < buf + chunk limit pos)); [|lia].
    specialize (Hbuf (x - buf) ltac:(lia)). replace (buf + (x - buf)) with x in Hbuf by lia. congruence. }
  assert (Hme : ∀ x, meta s f n x → f_mem (set_f_mem m1 s) x = f_mem s x).
  { intros x Hx. apply Hd. exact (meta_in_diskmap s f n x H Hf Hx). }
  rewrite E1.
  destruct (IH (set_f_mem m1 s) (buf + chunk limit pos) (pos + chunk limit pos)) as (m & E & Hok & Hin & Hout);
    [|by apply (file_ok_frame s)|lia|lia| |].
  { apply (ready_frame s _ f n); [done|done|done|]. apply memmove_ok; [lia|apply H]. }
  { intros k Hk. rewrite <- Z.add_assoc. apply Hbuf. lia. }
  exists m. split_and!; [exact E|done| |].
  - intros p Hp'. destruct (Z.lt_ge_cases p (pos + chunk limit pos)).
    + rewrite Hout by lia. cbn. rewrite Hm1, mem_copy_in, (faddr_chunk _ _ limit pos p) by lia. apply f_equal. lia.
    + replace (buf + (p - pos)) with (buf + chunk limit pos + (p - (pos + chunk limit pos))) by lia.
      rewrite Hin by lia. rewrite (faddr_frame s (set_f_mem m1 s) f n Hf Hme) by lia. apply Hd.
      apply (faddr_in s f n p H Hf). lia.
  - intros x Hx. rewrite Hout by lia. cbn. rewrite Hm1, mem_copy_out; [done|lia].
Qed.

(** ** [file_read], [file_write] and [file_flush] *)

Definition fsize (s : fstate) (f : Z) : Z := s32 (ld32 (f_mem s) (f_size f)).

Lemma warm_size s f n : file_shape s f n → warm s (f_size f).
Proof. intros Hf. by apply (warm_field s f n 128 Hf). Qed.

Lemma load_size_ok s f n : file_shape s f n → load_size f s = (Ret (fsize s f), s).
Proof. intros Hf. unfold load_size. by rewrite (bind_Ret _ _ _ _ _ (fload32_warm _ _ (warm_size s f n Hf))). Qed.

Lemma file_read_spec s f n buf count offset :
  ready s → file_ok s f n → fsize s f <= n * BLKSIZE → 0 <= offset → 0 <= count →
  let c := Z.max 0 (Z.min count (fsize s f - offset)) in
  (∀ k, 0 <= k < c → in_diskmap (buf + k) = false) →
  ∃ m, file_read f buf count offset s = (Ret c, set_f_mem m s) ∧ mem_ok m ∧
    (∀ k, 0 <= k < c → m (buf + k) = f_mem s (faddr (f_mem s) f (offset + k))) ∧
    (∀ x, x < buf ∨ buf + c <= x → m x = f_mem s x).
Proof.
  intros H Hf Hs Ho Hc c Hbuf. pose proof (fo_n _ _ _ Hf) as Hn. change NMAX with 1034 in Hn.
  unfold BLKSIZE, PGSIZE in Hs.
  unfold file_read. rewrite (bind_Ret _ _ _ _ _ (load_size_ok s f n Hf)).
  destruct (Z.leb_spec (fsize s f) offset).
  { exists (f_mem s). replace c with 0 by lia. split_and!; [by destruct s|apply H|lia|done]. }
  rewrite (bind_Ret _ _ _ _ _ (load_size_ok s f n Hf)). cbv zeta.
  rewrite (u32_small (fsize s f - offset)) by lia. replace (Z.min count (fsize s f - offset)) with c by lia.
  rewrite (u32_small (offset + c)) by lia.
  destruct (read_loop f n (offset + c) ltac:(unfold BLKSIZE, PGSIZE; lia) (S (Z.to_nat c)) s buf offset)
    as (m & E & Hm & Hin & Hout); [done|done|lia|lia|intros; apply Hbuf; lia|].
  exists m. rewrite (bind_Ret _ _ _ _ _ E). cbn [default from_option]. split_and!.
  - by rewrite s32_small by lia.
  - done.
  - intros k Hk. rewrite <- (Hin (offset + k)) by lia. apply f_equal. lia.
  - intros x Hx. apply Hout. lia.
Qed.

Lemma coherent_flushed b s : coherent s → coherent (flushed b s).
Proof.
  intros Hc b' k Hb Hk Hm Hd. cbn in *. destruct (decide (b' = b)) as [->|Hne].
  - replace ((blockaddr b <=? blockaddr b + k) && (blockaddr b + k <? blockaddr b + BLKSIZE)) with true by lia. done.
  - replace ((blockaddr b <=? blockaddr b' + k) && (blockaddr b' + k <? blockaddr b + BLKSIZE)) with false
      by (unfold blockaddr, BLKSIZE, PGSIZE in *; lia).
    apply Hc; try done. unfold upd_bit in Hd. by replace (b' =? b) with false in Hd by lia.
Qed.

(** The server after [file_set_size] has made [f] longer. *)
Definition resized (f v : Z) (s : fstate) : fstate :=
  flushed (blockno_of f) (set_f_mem (st32 (f_mem s) (f_size f) (u32 v)) (mark_dirty (f_size f) s)).

Lemma file_set_size_grow s f n v :
  file_ok s f n → fsize s f <= v → file_set_size f v s = (Ret 0, resized f v s).
Proof.
  intros Hf Hv. unfold file_set_size. rewrite (bind_Ret _ _ _ _ _ (load_size_ok s f n Hf)).
  replace (v <? fsize s f) with false by lia. mstep.
  rewrite (bind_Ret _ _ _ _ _ (fstore32_warm _ v _ (warm_size s f n Hf))).
  destruct Hf as [[_ Hi _ Hp Hw _ _ _ _] _].
  rewrite (bind_Ret _ _ _ _ _ (flush_block_spec f _ Hi)). cbn. rewrite Hw.
  rewrite (in_diskmap_field f 128 Hi Hp ltac:(done) : in_diskmap (f_size f) = true).
  rewrite (field_page f 128 Hi Hp ltac:(done) : blockno_of (f_size f) = blockno_of f).
  unfold upd_bit at 1. rewrite Z.eqb_refl. done.
Qed.

Lemma resized_spec s f n v :
  ready s → file_ok s f n →
  ready (resized f v s) ∧ file_ok (resized f v s) f n ∧ (coherent s → coherent (resized f v s)) ∧
  (∀ p, 0 <= p < n * BLKSIZE → faddr (f_mem (resized f v s)) f p = faddr (f_mem s) f p) ∧
  (∀ x, x < f_size f ∨ f_size f + 4 <= x → f_mem (resized f v s) x = f_mem s x).
Proof.
  intros H Hf.
  assert (Hout : ∀ x, x < f_size f ∨ f_size f + 4 <= x → f_mem (resized f v s) x = f_mem s x)
    by (intros x Hx; apply st32_other_byte; lia).
  assert (Hme : ∀ x, meta s f n x → f_mem (resized f v s) x = f_mem s x).
  { intros x Hx. apply Hout. destruct (decide (f_size f <= x < f_size f + 4)); [|lia]. exfalso.
    by apply (size_not_meta s f n x). }
  assert (Hsame : same_cache s (resized f v s)) by done.
  split_and!; [|by apply (file_ok_frame s)| |intros; by apply (faddr_frame s _ f n Hf Hme)|done].
  - apply (ready_frame s _ f n Hsame Hme H). apply st32_ok, H.
  - intros Hc. apply coherent_flushed, coherent_store; [|done]. intros x Hx _.
    destruct (decide (f_size f <= x < f_size f + 4)); [|destruct Hx; symmetry; apply st32_other_byte; lia].
    destruct Hf as [[_ Hi _ Hp _ _ _ _ _] _]. split; [by apply (in_diskmap_field f 128)|].
    replace x with (f + (x - f)) by lia. unfold f_size in *. rewrite !field_page; try done; unfold FILE_SIZE; lia.
Qed.

(** What [file_write] leaves behind. *)
Record file_written (f offset count buf : Z) (s s' : fstate) : Prop := mkFileWritten {
  fw_size : fsize s' f = Z.max (fsize s f) (offset + count);
  fw_in : ∀ k, 0 <= k < count → f_mem s' (faddr (f_mem s) f (offset + k)) = f_mem s (buf + k);
  fw_out : ∀ x, (∀ k, 0 <= k < count → x ≠ faddr (f_mem s) f (offset + k)) →
                x < f_size f ∨ f_size f + 4 <= x → f_mem s' x = f_mem s x;
  fw_coherent : coherent s → coherent s';
}.

Lemma size_not_data s f n p :
  file_ok s f n → 0 <= p < n * BLKSIZE → faddr (f_mem s) f p < f_size f ∨ f_size f + 4 <= faddr (f_mem s) f p.
Proof.
  intros Hf Hp. destruct (decide (f_size f <= faddr (f_mem s) f p < f_size f + 4)) as [Hin|]; [|lia]. exfalso.
  destruct (fo_sep _ _ _ Hf _ (block_index n p Hp)) as (_ & Nf & _). apply Nf.
  destruct (faddr_block (f_mem s) f p) as (k & Hk & E).
  destruct (field_block f (faddr (f_mem s) f p - f)) as (j & Hj & E'); [apply (fo_shape _ _ _ Hf)..|unfold f_size, FILE_SIZE in *; lia|].
  apply (blocks_disjoint _ _ k j Hk Hj). lia.
Qed.

(** The extension at the start of [file_write]. *)
Definition extended (f v : Z) (s : fstate) : fstate := if fsize s f <? v then resized f v s else s.

Lemma extended_spec s f n v :
  ready s → file_ok s f n → 0 <= v < 2 ^ 31 →
  ready (extended f v s) ∧ file_ok (extended f v s) f n ∧ (coherent s → coherent (extended f v s)) ∧
  (∀ p, 0 <= p < n * BLKSIZE → faddr (f_mem (extended f v s)) f p = faddr (f_mem s) f p) ∧
  (∀ x, x < f_size f ∨ f_size f + 4 <= x → f_mem (extended f v s) x = f_mem s x) ∧
  fsize (extended f v s) f = Z.max (fsize s f) v.
Proof.
  intros H Hf Hv. unfold extended. destruct (Z.ltb_spec (fsize s f) v); [|split_and!; auto; lia].
  destruct (resized_spec s f n v H Hf) as (? & ? & ? & ? & ?). split_and!; try done.
  unfold fsize at 1. cbn. rewrite ld32_st32_same by apply u32_range. rewrite u32_small, s32_small by lia. lia.
Qed.

Lemma file_write_extend s f n v :
  file_ok s f n → 0 <= fsize s f → 0 <= v < 2 ^ 31 →
  (if u32 (fsize s f) <? u32 v then file_set_size f (s32 v) else mret 0) s = (Ret 0, extended f v s).
Proof.
  intros Hf Hs Hv. pose proof (s32_range (ld32 (f_mem s) (f_size f))) as Hsr. fold (fsize s f) in Hsr.
  rewrite !u32_small, s32_small by lia. unfold extended. destruct (Z.ltb_spec (fsize s f) v); [|done].
  apply (file_set_size_grow s f n); [done|lia].
Qed.

Lemma file_write_spec s f n buf count offset :
  ready s → file_ok s f n → 0 <= fsize s f → 0 <= offset → 0 <= count → offset + count <= n * BLKSIZE →
  src_ok s f n buf count →
  ∃ s', file_write f buf count offset s = (Ret count, s') ∧ ready s' ∧ file_ok s' f n ∧
    (∀ p, 0 <= p < n * BLKSIZE → faddr (f_mem s') f p = faddr (f_mem s) f p) ∧
    file_written f offset count buf s s'.
Proof.
  intros H Hf Hs Ho Hc Hl Hbuf. pose proof (fo_n _ _ _ Hf) as Hn. change NMAX with 1034 in Hn.
  assert (Hlt : offset + count < 2 ^ 31) by (unfold BLKSIZE, PGSIZE in Hl; lia).
  destruct (extended_spec s f n (offset + count) H Hf ltac:(lia)) as (H1 & Hf1 & Hc1 & Ha1 & Ho1 & Es1).
  unfold file_write. rewrite (bind_Ret _ _ _ _ _ (load_size_ok s f n Hf)).
  rewrite (bind_Ret _ _ _ _ _ (file_write_extend s f n (offset + count) Hf Hs ltac:(lia))).
  replace (0 <? 0) with false by lia. rewrite (u32_small (offset + count)) by lia.
  assert (Hbuf1 : src_ok (extended f (offset + count) s) f n buf count).
  { intros k Hk. destruct (Hbuf k Hk) as (Hw & Hda & Hz). split_and!; [|intros p Hp; rewrite Ha1 by done; by apply Hda|done].
    apply (warm_same s); [|done]. unfold extended. by destruct (_ <? _). }
  set (s1 := extended f (offset + count) s) in *.
  destruct (write_loop f n (offset + count) Hl (S (Z.to_nat count)) s1 buf offset) as (s' & E & W);
    [done|done|lia|lia|by replace (offset + count - offset) with count by lia|].
  exists s'. rewrite (bind_Ret _ _ _ _ _ E). cbn [default from_option].
  destruct (written_files f n _ _ _ _ _ H1 Hf1 Ho Hl W) as [H' Hf'].
  pose proof (written_meta f n _ _ _ _ _ Hf1 Ho Hl W) as Hme.
  split_and!; [by rewrite s32_small by lia|done|done| |].
  { intros p Hp. rewrite (faddr_frame s1 s' f n Hf1 Hme p Hp). by apply Ha1. }
  split.
  - rewrite <- Es1. unfold fsize. f_equal. apply ld32_ext. intros k Hk. apply (wr_out _ _ _ _ _ _ W).
    intros p Hp E'. destruct (size_not_data s1 f n p Hf1); lia.
  - intros k Hk. rewrite <- Ha1 by lia. rewrite (wr_in _ _ _ _ _ _ W) by lia.
    replace (offset + k - offset) with k by lia. apply Ho1, (Hbuf k Hk).
  - intros x Hx Hsz. rewrite (wr_out _ _ _ _ _ _ W), Ho1; [done|done|]. intros p Hp. rewrite Ha1 by lia.
    specialize (Hx (p - offset) ltac:(lia)). by replace (offset + (p - offset)) with p in Hx by lia.
  - intros Hco. by apply (wr_coherent _ _ _ _ _ _ W), Hc1.
Qed.

Lemma written_indirect s s' f n offset count buf :
  ready s → file_ok s f n → 0 <= offset → offset + count <= n * BLKSIZE → file_written f offset count buf s s' →
  ld32 (f_mem s') (f_indirect f) = ld32 (f_mem s) (f_indirect f) ∧ nblocks s' = nblocks s.
Proof.
  intros H Hf Ho Hl W.
  assert (Hm : ∀ x, meta s f n x → f_mem s' x = f_mem s x).
  { intros x Hx. apply (fw_out _ _ _ _ _ _ W).
    - intros k Hk ->. apply (data_not_meta s f n (offset + k) Hf); [lia|done].
    - destruct (decide (f_size f <= x < f_size f + 4)) as [Hz|]; [|lia]. by destruct (size_not_meta s f n x Hf Hz). }
  split; [by apply (ind_frame s s' f n Hm)|by apply (nblocks_frame s s' f n Hm)].
Qed.

(** *** Flushing *)

(** The disk has what the cache has in block [b]. *)
Definition synced (s : fstate) (b : Z) : Prop :=
  ∀ k, 0 <= k < BLKSIZE → f_disk s (blockaddr b + k) = f_mem s (blockaddr b + k).

(** [s'] is [s] after some flushing. *)
Record flushes (s s' : fstate) : Prop := mkFlushes {
  fl_mem : f_mem s' = f_mem s;
  fl_same : same_cache s s';
  fl_coherent : coherent s → coherent s';
  fl_synced : ∀ b, synced s b → synced s' b;
}.

Lemma flushes_refl s : flushes s s.
Proof. by split; try done. Qed.

Lemma flushes_trans s1 s2 s3 : flushes s1 s2 → flushes s2 s3 → flushes s1 s3.
Proof.
  intros [? ? ? ?] [? ? ? ?]. split; [congruence|by eapply same_cache_trans|auto|auto].
Qed.

Lemma flushes_flushed b s : flushes s (flushed b s).
Proof.
  split; [done|done|apply coherent_flushed|]. intros b' Hb k Hk. cbn. destruct (_ && _); [done|by apply Hb].
Qed.

Lemma flush_block_synced a s :
  in_diskmap a = true → coherent s →
  ∃ s', flush_block a s = (Ret tt, s') ∧ flushes s s' ∧ (f_mapped s (blockno_of a) = true → synced s' (blockno_of a)).
Proof.
  intros Ha Hc. rewrite (flush_block_spec a s Ha). set (b := blockno_of a).
  assert (Hb : 0 <= b < DISKSIZE / BLKSIZE).
  { change (DISKSIZE / BLKSIZE) with 786432. unfold b, in_diskmap, blockno_of, DISKMAP, DISKSIZE, BLKSIZE, PGSIZE in *.
    rewrite u32_small by lia. Z.to_euclidean_division_equations. lia. }
  eexists. split; [done|]. destruct (f_mapped s b) eqn:Em; cbn [andb]; [|split; [apply flushes_refl|done]].
  destruct (f_dirty s b) eqn:Ed.
  - split; [apply flushes_flushed|]. intros _ k Hk. cbn.
    by replace ((blockaddr b <=? blockaddr b + k) && (blockaddr b + k <? blockaddr b + BLKSIZE)) with true by lia.
  - split; [apply flushes_refl|]. intros _ k Hk. by apply Hc.
Qed.

Section flushing.
Context (f n : Z).

Lemma flushes_files s s' : ready s → file_ok s f n → flushes s s' → ready s' ∧ file_ok s' f n.
Proof.
  intros H Hf W. assert (Hm : ∀ x, meta s f n x → f_mem s' x = f_mem s x) by (intros; by rewrite (fl_mem _ _ W)).
  split; [apply (ready_frame s s' f n (fl_same _ _ W) Hm H); rewrite (fl_mem _ _ W); apply H|].
  by apply (file_ok_frame s s' f n Hf (fl_same _ _ W) Hm).
Qed.

Lemma flush_numbered s b :
  ready s → coherent s → 0 < b < nblocks s →
  ∃ s', (a ← diskaddr b; flush_block a) s = (Ret tt, s') ∧ flushes s s' ∧ (f_mapped s b = true → synced s' b).
Proof.
  intros H Hc Hb. pose proof (ready_size _ H). rewrite (bind_Ret _ _ _ _ _ (diskaddr_ready s b H Hb)).
  pose proof (blockno_of_blockaddr b 0 ltac:(lia) ltac:(done)) as E. rewrite Z.add_0_r in E.
  pose proof (in_diskmap_blockaddr b 0 ltac:(lia) ltac:(done)) as Hi. rewrite Z.add_0_r in Hi.
  destruct (flush_block_synced (blockaddr b) s Hi Hc) as (s' & Es & W & Hs). rewrite E in Hs. by exists s'.
Qed.

Lemma file_flush_loop_spec : ∀ fuel s i,
  ready s → file_ok s f n → coherent s → nblocks_of (fsize s f) = n → 0 <= i <= n → n - i < Z.of_nat fuel →
  ∃ s', file_flush_loop fuel f i s = (Ret tt, s') ∧ flushes s s' ∧
    (∀ j, i <= j < n → synced s' (bno (f_mem s) f j)).
Proof.
  induction fuel as [|fuel IH]; intros s i H Hf Hc En Hi Hfu; [lia|]. cbn [file_flush_loop].
  rewrite (bind_Ret _ _ _ _ _ (load_size_ok s f n Hf)), En.
  destruct (Z.ltb_spec i n); [|exists s; split_and!; [done|apply flushes_refl|lia]].
  pose proof (fo_n _ _ _ Hf) as Hn. change NMAX with 1034 in Hn. rewrite u32_small by lia.
  destruct (file_block_walk_ok s f n i false H Hf ltac:(lia)) as [Hw Hsl]. rewrite (bind_Ret _ _ _ _ _ Hw).
  pose proof (fo_blk _ _ _ Hf i ltac:(lia)) as Hb. pose proof (fo_cached _ _ _ Hf i ltac:(lia)) as Hm.
  destruct (flush_numbered s (bno (f_mem s) f i) H Hc Hb) as (s1 & E1 & W1 & Hs1).
  erewrite bind_Ret; [|rewrite (bind_Ret _ _ _ _ _ (fload32_warm _ _ Hsl)); fold (bno (f_mem s) f i);
    replace (bno (f_mem s) f i =? 0) with false by lia; exact E1].
  destruct (flushes_files s s1 H Hf W1) as [H1 Hf1].
  destruct (IH s1 (i + 1)) as (s' & E & W & Hs);
    [done|done|by apply (fl_coherent _ _ W1)|unfold fsize; by rewrite (fl_mem _ _ W1)|lia|lia|].
  exists s'. split_and!; [done|by eapply flushes_trans|]. intros j Hj. destruct (decide (j = i)) as [->|].
  - by apply (fl_synced _ _ W), Hs1.
  - rewrite <- (fl_mem _ _ W1). apply Hs. lia.
Qed.

Lemma file_flush_spec s :
  ready s → file_ok s f n → coherent s → nblocks_of (fsize s f) = n →
  0 <= ld32 (f_mem s) (f_indirect f) < nblocks s →
  ∃ s', file_flush f s = (Ret tt, s') ∧ flushes s s' ∧ synced s' (blockno_of f) ∧
    (∀ j, 0 <= j < n → synced s' (bno (f_mem s) f j)) ∧
    (NDIRECT < n → synced s' (ld32 (f_mem s) (f_indirect f))).
Proof.
  intros H Hf Hc En Hind. pose proof (fo_n _ _ _ Hf) as Hn. unfold file_flush.
  rewrite (bind_Ret _ _ _ _ _ (load_size_ok s f n Hf)), En.
  destruct (file_flush_loop_spec (S (Z.to_nat n)) s 0) as (s1 & E1 & W1 & Hs1); try done; [lia|lia|].
  rewrite (bind_Ret _ _ _ _ _ E1).
  destruct (flush_block_synced f s1 (fo_in _ _ _ Hf) (fl_coherent _ _ W1 Hc)) as (s2 & E2 & W2 & Hs2).
  rewrite (bind_Ret _ _ _ _ _ E2). pose proof (flushes_trans _ _ _ W1 W2) as W12.
  destruct (flushes_files s s2 H Hf W12) as [H2 Hf2].
  assert (Hs2' : synced s2 (blockno_of f)).
  { apply Hs2. rewrite (sc_mapped _ _ (fl_same _ _ W1)). apply (fo_warm _ _ _ Hf). }
  rewrite (bind_Ret _ _ _ _ _ (fload32_warm (f_indirect f) s2 ltac:(by apply (warm_field s2 f n 176 Hf2)))).
  rewrite (fl_mem _ _ W12). set (ind := ld32 (f_mem s) (f_indirect f)) in *.
  destruct (Z.eqb_spec ind 0) as [E0|N0].
  - exists s2. split_and!; [done|done|done| |].
    + intros j Hj. by apply (fl_synced _ _ W2), Hs1.
    + intros HN. destruct (fo_ind _ _ _ Hf HN). fold ind in H0. lia.
  - assert (Enb : nblocks s2 = nblocks s) by (unfold nblocks; by rewrite (fl_mem _ _ W12)).
    destruct (flush_numbered s2 ind H2 (fl_coherent _ _ W12 Hc) ltac:(lia)) as (s3 & E3 & W3 & Hs3).
    exists s3. split_and!; [done|by eapply flushes_trans|by apply (fl_synced _ _ W3)| |].
    + intros j Hj. by apply (fl_synced _ _ W3), (fl_synced _ _ W2), Hs1.
    + intros HN. apply Hs3. rewrite (sc_mapped _ _ (fl_same _ _ W12)). by apply (fo_ind _ _ _ Hf).
Qed.
End flushing.
