(* ===== verification/FsSpec.v ===== *)
(** * Theorems about the file system

    Faults on blocks that are not in the cache, allocation, reading and
    writing, flushing, and directories. *)

From S2P Require Import Prelude Mmu Console KState CString BlockCache Fs FsBitmap FsFile.
Open Scope Z_scope.

(** ** Blocks that are not in the cache *)

(** The server once block [b] has been read in. *)
Definition loaded (b : Z) (s : fstate) : fstate :=
  mkFs (λ x, if (blockaddr b <=? x) && (x <? blockaddr b + BLKSIZE) then f_disk s x
             else mem_set (f_mem s) (blockaddr b) 0 BLKSIZE x)
    (f_disk s) (upd_bit (f_mapped s) b true) (upd_bit (upd_bit (upd_bit (f_dirty s) b false) b true) b false)
    (f_pages s - 1) (f_super s) (f_bitmap s).

Lemma loaded_in b s k : 0 <= k < BLKSIZE → f_mem (loaded b s) (blockaddr b + k) = f_disk s (blockaddr b + k).
Proof.
  intros Hk. cbn.
  by replace ((blockaddr b <=? blockaddr b + k) && (blockaddr b + k <? blockaddr b + BLKSIZE)) with true by lia.
Qed.

Lemma loaded_out b s x : x < blockaddr b ∨ blockaddr b + BLKSIZE <= x → f_mem (loaded b s) x = f_mem s x.
Proof.
  intros Hx. cbn. replace ((blockaddr b <=? x) && (x <? blockaddr b + BLKSIZE)) with false by lia.
  by apply mem_set_out.
Qed.

Lemma loaded_block b b' s k : b' ≠ b → 0 <= k < BLKSIZE → f_mem (loaded b s) (blockaddr b' + k) = f_mem s (blockaddr b' + k).
Proof. intros. apply loaded_out. unfold blockaddr, BLKSIZE, PGSIZE in *. lia. Qed.

Lemma loaded_coherent b s : coherent s → coherent (loaded b s).
Proof.
  intros Hc b' k Hb Hk Hm Hd. destruct (decide (b' = b)) as [->|Hne]; [by rewrite loaded_in|].
  rewrite loaded_block by done. cbn in *. unfold upd_bit in *. replace (b' =? b) with false in * by lia. by apply Hc.
Qed.

Lemma ld32_loaded b b' s k :
  b' ≠ b → 0 <= k → k + 4 <= BLKSIZE → ld32 (f_mem (loaded b s)) (blockaddr b' + k) = ld32 (f_mem s) (blockaddr b' + k).
Proof. intros. apply ld32_ext. intros i Hi. rewrite <- Z.add_assoc. apply loaded_block; [done|lia]. Qed.

Lemma bitmap_word_block b : 0 <= b → ∃ k, 0 <= k ∧ k + 4 <= BLKSIZE ∧ bitmap_word b = blockaddr (2 + b / BLKBITSIZE) + k.
Proof.
  intros Hb. exists (4 * (b / 32) - BLKSIZE * (b / BLKBITSIZE)).
  unfold bitmap_word, BITMAP, blockaddr, BLKBITSIZE, BLKSIZE, PGSIZE, DISKMAP. Z.to_euclidean_division_equations. lia.
Qed.

(** What [bc_pgfault] does up to its check of the bitmap. *)
Lemma touch_cold n s a :
  f_super s = true → f_bitmap s = true → f_mapped s 1 = true → in_diskmap a = true → f_mapped s (blockno_of a) = false → blockno_of a < nblocks s → 0 < f_pages s →
  touch (S (S n)) a s =
  if negb (PGOFF a =? 0) then
    (Stop (FsPanic "in bc_pgfault, sys_page_map"), snd (disk_read (blockno_of a) (snd (fs_page_alloc (blockno_of a) s))))
  else
    (fr ← block_is_free (λ x, touch (S n) x;; gets (λ s, ld32 (f_mem s) x)) (blockno_of a);
     if (fr : bool) then fpanic "reading free block" else mret tt) (loaded (blockno_of a) s).
Proof.
  intros Hsu Hbm H1 Ha Hm Hb Hp. remember (S n) as n' eqn:En. cbn [touch]. mstep. cbn [id]. rewrite Ha, Hm. cbn [negb orb].
  unfold bc_pgfault. rewrite Ha. cbn [negb]. cbv zeta. mstep. rewrite Hsu.
  erewrite bind_Ret; [|subst n'; rewrite bind_assoc, (bind_Ret _ _ _ _ _ (touch_warm n s_nblocks _ (λ _, H1)));
    mstep; change (ld32 (f_mem s) (SUPER + 4)) with (nblocks s); replace (nblocks s <=? blockno_of a) with false by lia; done].
  unfold fs_page_alloc. rewrite bind_assoc. mstep. replace (f_pages s <=? 0) with false by lia. mstep.
  unfold disk_read. mstep. unfold fs_page_remap. destruct (PGOFF a =? 0); cbn [negb].
  - rewrite !bind_modify. cbv beta.
    match goal with |- mbind _ (gets f_bitmap) ?t = _ => change t with (loaded (blockno_of a) s) end.
    rewrite bind_gets. change (f_bitmap (loaded (blockno_of a) s)) with (f_bitmap s). by rewrite Hbm.
  - mstep. f_equal. msimpl. cbn. replace (f_pages s <=? 0) with false by lia. done.
Qed.

Lemma loaded_ready b s :
  ready s → mem_ok (f_disk s) → f_mapped s b = false →
  ready (loaded b s) ∧ nblocks (loaded b s) = nblocks s ∧
  (∀ x, 0 <= x < nblocks s → is_free (loaded b s) x = is_free s x).
Proof.
  intros H Hd Hm. assert (En : nblocks (loaded b s) = nblocks s).
  { apply (ld32_loaded b 1 s 4); [|done|done]. intros <-. by rewrite (ready_warm_super _ H) in Hm. }
  split_and!; [|done|].
  - destruct H as [Hok ? ? ? Hw1 Hw2]. split; try done; rewrite ?En; try done.
    + intros x. cbn. destruct (_ && _); [apply Hd|by apply mem_set_ok].
    + cbn. unfold upd_bit. by destruct (_ =? _).
    + intros x Hx. cbn. unfold upd_bit. destruct (_ =? _); [done|by apply Hw2].
  - intros x Hx. unfold is_free. destruct (bitmap_word_block x ltac:(lia)) as (k & Hk & Hk' & ->).
    rewrite ld32_loaded; [done| |done|done]. intros <-. by rewrite (ready_warm_bitmap _ H x Hx) in Hm.
Qed.

Lemma blockno_of_nonneg a : 0 <= blockno_of a.
Proof. unfold blockno_of. apply Z.div_pos; [apply u32_range|done]. Qed.

Lemma touch_loads s a :
  ready s → mem_ok (f_disk s) → in_diskmap a = true → PGOFF a = 0 → f_mapped s (blockno_of a) = false →
  blockno_of a < nblocks s → 0 < f_pages s →
  touch FAULTS a s = (if is_free s (blockno_of a) then Stop (FsPanic "reading free block") else Ret tt, loaded (blockno_of a) s).
Proof.
  intros H Hd Ha Hal Hm Hb Hp. unfold FAULTS. rewrite touch_cold by (done || apply H). rewrite Hal. cbn [negb Z.eqb].
  destruct (loaded_ready (blockno_of a) s H Hd Hm) as (Hr & En & Ef). pose proof (blockno_of_nonneg a).
  rewrite (bind_Ret _ _ _ _ _ (block_is_free_ready _ _ (blockno_of a) (loads_touch 2 _) Hr ltac:(lia))).
  rewrite Ef by lia. by destruct (is_free s _).
Qed.

(** ** Allocating a block of a file *)

(** The word stores into a [struct File]. *)
Definition field_set (f k v : Z) (s : fstate) : fstate :=
  set_f_mem (st32 (f_mem s) (f + k) (u32 v)) (mark_dirty (f + k) s).

Lemma field_word s f n k :
  file_shape s f n → 0 <= k → k + 4 <= FILE_SIZE →
  ∃ j, 0 <= j ∧ j + 4 <= BLKSIZE ∧ f + k = blockaddr (blockno_of f) + j.
Proof.
  intros Hf Hk Hk'. destruct (field_block f k) as (j & Hj & E); [apply Hf..|lia|].
  destruct (field_block f (k + 3)) as (j' & Hj' & E'); [apply Hf..|lia|]. exists j. lia.
Qed.

Lemma field_set_nblocks s f n k v :
  file_shape s f n → 0 <= k → k + 4 <= FILE_SIZE → nblocks (field_set f k v s) = nblocks s.
Proof.
  intros Hf Hk Hk'. apply ld32_st32_other. destruct (fo_place _ _ _ Hf) as [->|N].
  - unfold s_nblocks, s_root. lia.
  - destruct (field_word s f n k Hf Hk Hk') as (j & Hj & Hj' & E).
    change s_nblocks with (blockaddr 1 + 4). rewrite E. set (b := blockno_of f) in *.
    unfold blockaddr, BLKSIZE, PGSIZE in *. lia.
Qed.

Lemma field_set_ready s f n k v :
  ready s → file_shape s f n → 0 <= k → k + 4 <= FILE_SIZE → ready (field_set f k v s).
Proof.
  intros H Hf Hk Hk'. pose proof (field_set_nblocks s f n k v Hf Hk Hk') as E.
  destruct H as [Hm ? ? ? ? Hw]. split; try done; rewrite ?E; try done. by apply st32_ok.
Qed.

Lemma shape_empty s s' f : file_shape s f 0 → f_mapped s' = f_mapped s → file_shape s' f 0.
Proof. intros [] E. split; try done; try lia; by rewrite E. Qed.

(** ** Directories *)

(** The addresses of the [struct File]s of a directory, in order. *)
Definition block_entries (a : Z) : list Z := (λ j, a + j * FILE_SIZE) <$> seqZ 0 BLKFILES.
Definition dir_entries (m : memory) (dir n : Z) : list Z :=
  mbind (λ i, block_entries (blockaddr (bno m dir i))) (seqZ 0 n).

(** The first element that satisfies [p]. *)
Fixpoint first {A} (p : A → bool) (l : list A) : option A :=
  match l with
  | [] => None
  | x :: l' => if p x then Some x else first p l'
  end.

Lemma first_app {A} (p : A → bool) l1 l2 : first p (l1 ++ l2) = match first p l1 with Some x => Some x | None => first p l2 end.
Proof. induction l1 as [|x l1 IH]; [done|]. cbn. by destruct (p x). Qed.

Lemma first_Some {A} (p : A → bool) l x :
  first p l = Some x ↔ ∃ l1 l2, l = l1 ++ x :: l2 ∧ p x = true ∧ Forall (λ y, p y = false) l1.
Proof.
  split.
  - induction l as [|y l IH]; [done|]. cbn. destruct (p y) eqn:Ey.
    + intros [= ->]. by exists [], l.
    + intros (l1 & l2 & -> & Hx & Hl)%IH. exists (y :: l1), l2. split_and!; [done|done|by constructor].
  - intros (l1 & l2 & -> & Hx & Hl). rewrite first_app. induction Hl as [|y l1 Hy Hl IH]; cbn; [by rewrite Hx|by rewrite Hy].
Qed.

Lemma scan_block_spec s p b : 
  0 <= b < DISKSIZE / BLKSIZE → f_mapped s b = true → ∀ n j, 0 <= j → j + Z.of_nat n <= BLKFILES →
  scan_block n p (blockaddr b) j s = (Ret (first (p (f_mem s)) ((λ j, blockaddr b + j * FILE_SIZE) <$> seqZ j (Z.of_nat n))), s).
Proof.
  intros Hb Hm. induction n as [|n IH]; intros j Hj Hn; [done|].
  rewrite seqZ_cons by lia. rewrite fmap_cons. cbn [scan_block first].
  rewrite (bind_Ret _ _ _ _ _ (touch_warm 3 (blockaddr b + j * FILE_SIZE) s ltac:(apply warm_blockaddr;
    [done|change BLKFILES with 16 in Hn; unfold FILE_SIZE, BLKSIZE, PGSIZE; lia|done]))). mstep.
  destruct (p (f_mem s) _); [done|]. rewrite IH by lia.
  replace (Z.pred (Z.of_nat (S n))) with (Z.of_nat n) by lia. by replace (Z.succ j) with (j + 1) by lia.
Qed.

Lemma scan_dir_spec s dir n p :
  ready s → file_ok s dir n → ∀ k i, 0 <= i → i + Z.of_nat k <= n →
  scan_dir k p dir i s =
  (Ret (inr (first (p (f_mem s)) (mbind (λ i, block_entries (blockaddr (bno (f_mem s) dir i))) (seqZ i (Z.of_nat k))))), s).
Proof.
  intros H Hf. pose proof (ready_size _ H). induction k as [|k IH]; intros i Hi Hk; [done|].
  rewrite seqZ_cons by lia. rewrite bind_cons. cbn [scan_dir].
  rewrite (bind_Ret _ _ _ _ _ (file_get_block_ok s dir n i H Hf ltac:(lia))).
  pose proof (fo_blk _ _ _ Hf i ltac:(lia)). pose proof (fo_cached _ _ _ Hf i ltac:(lia)) as Hc.
  rewrite (bind_Ret _ _ _ _ _ (scan_block_spec s p (bno (f_mem s) dir i) ltac:(lia) Hc (Z.to_nat BLKFILES) 0 ltac:(done) ltac:(done))).
  change (Z.of_nat (Z.to_nat BLKFILES)) with BLKFILES. fold (block_entries (blockaddr (bno (f_mem s) dir i))).
  rewrite first_app. destruct (first _ (block_entries _)); [done|]. rewrite IH by lia.
  replace (Z.pred (Z.of_nat (S k))) with (Z.of_nat k) by lia. by replace (Z.succ i) with (i + 1) by lia.
Qed.

(** ** Theorems *)

(** C33: On an initialised server [alloc_block] either allocates the lowest free
    block - clearing exactly its bit of the bitmap, changing no other byte of
    memory, and writing exactly that bitmap block to the disk - or, when no
    block is free, returns [-E_NO_DISK] and changes nothing. *)
Theorem alloc_block_correct s :
  ready s →
  (∃ b s', alloc_block s = (Ret b, s') ∧
     0 <= b < nblocks s ∧ is_free s b = true ∧ (∀ x, 0 <= x < b → is_free s x = false) ∧
     ready s' ∧ (∀ x, 0 <= x < nblocks s → is_free s' x = is_free s x && negb (x =? b)) ∧
     (∀ a, a < bitmap_word b ∨ bitmap_word b + 4 <= a → f_mem s' a = f_mem s a) ∧
     synced s' (2 + b / BLKBITSIZE) ∧
     (∀ a, a < blockaddr (2 + b / BLKBITSIZE) ∨ blockaddr (2 + b / BLKBITSIZE) + BLKSIZE <= a → f_disk s' a = f_disk s a)) ∨
  ((∀ b, 0 <= b < nblocks s → is_free s b = false) ∧ alloc_block s = (Ret (- E_NO_DISK), s)).
Proof.
  intros H. destruct (alloc_block_spec s H) as [(b & Hb & Hf & Hlt & E)|?]; [left|by right].
  exists b, (cleared b s). destruct (cleared_spec s b H Hb) as (Hr & _ & Hfr).
  split_and!; try done; try lia.
  - intros a Ha. apply st32_other_byte. lia.
  - intros k Hk. cbn. by replace (_ && _) with true by lia.
  - intros a Ha. cbn. by replace (_ && _) with false by lia.
Qed.

Section file.
Context (s : fstate) (f n : Z).
Context (Hready : ready s) (Hfile : file_ok s f n) (Hsize : 0 <= fsize s f <= n * BLKSIZE).

(** C20: [file_write] and [file_read] are [pwrite] and [pread], on a file that has
    [n] blocks allocated, all of them (and its indirect block, the superblock
    and the bitmap) in the cache, as long as no write goes beyond these blocks.
    Writing [count] bytes from [buf] at [offset] returns [count] and extends the
    size as needed, and a read of any range then returns as many bytes as the
    range has within the file, those that were written with their new values
    and the others with their old ones.  (A block that is not in the cache makes
    the server panic, [file_read_cold_panics]; allocation of blocks is
    [alloc_block_correct].) *)
Theorem file_write_read buf count offset :
  0 <= offset → 0 <= count → offset + count <= n * BLKSIZE →
  (∀ k, 0 <= k < count → in_diskmap (buf + k) = false) →
  ∃ s1, file_write f buf count offset s = (Ret count, s1) ∧ fsize s1 f = Z.max (fsize s f) (offset + count) ∧
    ∀ buf' count' offset', 0 <= offset' → 0 <= count' →
      (∀ k, 0 <= k < count' → in_diskmap (buf' + k) = false) →
      let c := Z.max 0 (Z.min count' (fsize s1 f - offset')) in
      ∃ m, file_read f buf' count' offset' s1 = (Ret c, set_f_mem m s1) ∧
        ∀ k, 0 <= k < c →
          m (buf' + k) =
          if (offset <=? offset' + k) && (offset' + k <? offset + count) then f_mem s (buf + (offset' + k - offset))
          else f_mem s (faddr (f_mem s) f (offset' + k)).
Proof.
  intros Ho Hc Hl Hbuf.
  destruct (file_write_spec s f n buf count offset) as (s1 & E & H1 & Hf1 & Ha & W); try done; try lia.
  { by apply src_ok_outside. }
  exists s1. split_and!; [done|apply W|]. intros buf' count' offset' Ho' Hc' Hbuf' c.
  pose proof (fw_size _ _ _ _ _ _ W) as Es.
  destruct (file_read_spec s1 f n buf' count' offset') as (m & E' & _ & Hin & _); try done; [lia|intros; apply Hbuf'; lia|].
  exists m. split; [done|]. intros k Hk. rewrite Hin by done. rewrite Ha by lia.
  destruct (_ && _) eqn:Er.
  - replace (offset' + k) with (offset + (offset' + k - offset)) at 1 by lia. apply (fw_in _ _ _ _ _ _ W). lia.
  - apply (fw_out _ _ _ _ _ _ W).
    + intros j Hj Eq. apply (faddr_inj s f n) in Eq; [lia|done|lia|lia].
    + apply (size_not_data s f n); [done|lia].
Qed.

(** C22: What [file_write] has written and [file_flush] has flushed is on the
    disk, for a file that has all its [n] blocks allocated and in the cache and
    a write within them, on a cache that agrees with the disk where it is
    clean: every data block of the file, the block of its [struct File] and its
    indirect block are there as they are in memory, the written bytes among
    them, and [file_flush] changes no byte of memory. *)
Theorem file_flush_durable buf count offset :
  coherent s → 0 <= offset → 0 <= count → offset + count <= n * BLKSIZE →
  (∀ k, 0 <= k < count → in_diskmap (buf + k) = false) →
  nblocks_of (Z.max (fsize s f) (offset + count)) = n → 0 <= ld32 (f_mem s) (f_indirect f) < nblocks s →
  ∃ s2, (file_write f buf count offset;; file_flush f) s = (Ret tt, s2) ∧
    (∀ k, 0 <= k < count → f_disk s2 (faddr (f_mem s) f (offset + k)) = f_mem s (buf + k)) ∧
    (∀ p, 0 <= p < n * BLKSIZE → f_disk s2 (faddr (f_mem s) f p) = f_mem s2 (faddr (f_mem s) f p)) ∧
    synced s2 (blockno_of f) ∧ (NDIRECT < n → synced s2 (ld32 (f_mem s) (f_indirect f))).
Proof.
  intros Hco Ho Hc Hl Hbuf Hn Hind.
  destruct (file_write_spec s f n buf count offset) as (s1 & E & H1 & Hf1 & Ha & W); try done; try lia.
  { by apply src_ok_outside. }
  pose proof (written_indirect _ _ _ _ _ _ _ Hready Hfile Ho Hl W) as [Ei Enb].
  destruct (file_flush_spec f n s1) as (s2 & E2 & W2 & Hs & Hsj & Hsi); try done.
  { by apply (fw_coherent _ _ _ _ _ _ W). }
  { by rewrite (fw_size _ _ _ _ _ _ W). }
  { by rewrite Ei, Enb. }
  exists s2. rewrite (bind_Ret _ _ _ _ _ E), E2. rewrite Ei in Hsi.
  assert (Hall : ∀ p, 0 <= p < n * BLKSIZE → f_disk s2 (faddr (f_mem s) f p) = f_mem s2 (faddr (f_mem s) f p)).
  { intros p Hp. rewrite <- Ha by lia. unfold faddr. apply Hsj; [by apply block_index|by apply Z.mod_pos_bound]. }
  split_and!; try done. intros k Hk. rewrite Hall by lia. rewrite (fl_mem _ _ W2). by apply W.
Qed.
End file.

(** A first access to the start of a cached-out block reads it in: the page
    holds what the disk has there and is clean, every other byte of memory and
    the disk stay as they were, and an access to a block the bitmap calls free
    panics. *)
Theorem bc_pgfault_loads s a :
  ready s → mem_ok (f_disk s) → in_diskmap a = true → PGOFF a = 0 → f_mapped s (blockno_of a) = false →
  blockno_of a < nblocks s → 0 < f_pages s →
  ∃ s', touch FAULTS a s =
        (if is_free s (blockno_of a) then Stop (FsPanic "reading free block") else Ret tt, s') ∧
    ready s' ∧ synced s' (blockno_of a) ∧ f_mapped s' (blockno_of a) = true ∧ f_dirty s' (blockno_of a) = false ∧
    f_disk s' = f_disk s ∧ (∀ x, x < a ∨ a + BLKSIZE <= x → f_mem s' x = f_mem s x) ∧ (coherent s → coherent s').
Proof.
  intros H Hd Ha Hal Hm Hb Hp. exists (loaded (blockno_of a) s).
  destruct (loaded_ready (blockno_of a) s H Hd Hm) as (Hr & _ & _).
  split_and!; [by apply touch_loads|done| | | |done| |apply loaded_coherent].
  - intros k Hk. by rewrite loaded_in.
  - cbn. unfold upd_bit. by rewrite Z.eqb_refl.
  - cbn. unfold upd_bit. by rewrite Z.eqb_refl.
  - intros x Hx. apply loaded_out. destruct (blockno_of_rounddown a Ha) as (_ & _ & E & _).
    rewrite <- E. rewrite PGOFF_mod in Hal. unfold ROUNDDOWN, PGSIZE.
    rewrite u32_small by (unfold in_diskmap, DISKMAP, DISKSIZE in Ha; lia). rewrite Hal. lia.
Qed.

(** A read that starts inside a block that is not in the cache kills the
    file server: [bc_pgfault] passes the unrounded fault address to
    [sys_page_map], which refuses it, and panics. *)
Theorem file_read_cold_panics s f n buf count offset :
  ready s → file_shape s f n → 0 <= offset < fsize s f → fsize s f <= n * BLKSIZE → 0 < count →
  offset mod BLKSIZE ≠ 0 → f_mapped s (bno (f_mem s) f (offset / BLKSIZE)) = false → 0 < f_pages s →
  ∃ s', file_read f buf count offset s = (Stop (FsPanic "in bc_pgfault, sys_page_map"), s').
Proof.
  intros H Hf Ho Hs Hc Hal Hm Hp. pose proof (fo_n _ _ _ Hf) as Hn. change NMAX with 1034 in Hn.
  pose proof (block_index n offset ltac:(lia)) as Hi. pose proof (fo_blk _ _ _ Hf _ Hi) as Hb.
  pose proof (ready_size _ H) as Hsz. pose proof (Z.mod_pos_bound offset BLKSIZE ltac:(done)) as Hk.
  unfold file_read. rewrite (bind_Ret _ _ _ _ _ (load_size_ok s f n Hf)).
  replace (fsize s f <=? offset) with false by lia.
  rewrite (bind_Ret _ _ _ _ _ (load_size_ok s f n Hf)). cbv zeta.
  assert (fsize s f < 2 ^ 31) by (unfold BLKSIZE, PGSIZE in Hs; lia).
  rewrite (u32_small (fsize s f - offset)) by lia. set (c := Z.min count (fsize s f - offset)).
  rewrite (u32_small (offset + c)) by lia. eexists. apply bind_Stop.
  rewrite (file_loop_step _ _ _ _ n _ _ _ H Hf) by lia. apply bind_Stop. unfold fmemmove.
  pose proof (chunk_range (offset + c) offset ltac:(lia)).
  replace (chunk (offset + c) offset =? 0) with false by lia. apply bind_Stop.
  unfold FAULTS, faddr. rewrite touch_cold; try done; try apply H.
  - rewrite PGOFF_mod. replace (negb _) with true; [reflexivity|]. symmetry. apply negb_true_iff, Z.eqb_neq.
    unfold blockaddr, DISKMAP, BLKSIZE, PGSIZE in *. Z.to_euclidean_division_equations. lia.
  - apply in_diskmap_blockaddr; lia.
  - rewrite blockno_of_blockaddr by lia. done.
  - rewrite blockno_of_blockaddr by lia. lia.
Qed.

Section grow.
Context (s : fstate) (f i : Z).
Context (Hready : ready s) (Hfile : file_shape s f 0) (Hi : 0 <= i < NDIRECT).
Context (Hhole : bno (f_mem s) f i = 0).
(** [f] is not in a bitmap block, and block 0 is in use. *)
Context (Hplace : ∀ x, 0 <= x < nblocks s → blockno_of f ≠ 2 + x / BLKBITSIZE) (H0 : is_free s 0 = false).

Lemma slot_direct m : slot m f i = f_direct f i.
Proof. unfold slot. by replace (i <? NDIRECT) with true by lia. Qed.

Lemma direct_field : f_direct f i = f + (136 + 4 * i).
Proof. unfold f_direct. lia. Qed.

Lemma warm_direct s' : f_mapped s' = f_mapped s → warm s' (f_direct f i).
Proof.
  intros E. assert (Hw : warm s (f_direct f i)).
  { rewrite direct_field. apply (warm_field s f 0); [done|]. unfold FILE_SIZE, NDIRECT in *. lia. }
  intros Hd. rewrite E. by apply Hw.
Qed.

(** [file_get_block] once [alloc_block] has returned [r]. *)
Lemma file_get_block_hole s1 r :
  alloc_block s = (Ret r, s1) → f_mapped s1 = f_mapped s →
  file_get_block f i s =
  (a ← diskaddr (u32 r); mret (inr a)) (field_set f (136 + 4 * i) r s1).
Proof.
  intros Ea Em. unfold file_get_block, file_block_walk.
  replace (NDIRECT + NINDIRECT <=? i) with false by (change NINDIRECT with 1024; lia).
  replace (i <? NDIRECT) with true by lia. mstep.
  rewrite (bind_Ret _ _ _ _ _ (fload32_warm _ _ (warm_direct s eq_refl))).
  rewrite <- (slot_direct (f_mem s)). fold (bno (f_mem s) f i). rewrite Hhole, slot_direct. cbn [Z.eqb].
  rewrite bind_assoc, (bind_Ret _ _ _ _ _ Ea).
  rewrite bind_assoc, (bind_Ret _ _ _ _ _ (fstore32_warm _ r _ (warm_direct s1 Em))). rewrite direct_field.
  fold (field_set f (136 + 4 * i) r s1). set (s2 := field_set f (136 + 4 * i) r s1).
  assert (Hw : warm s2 (f + (136 + 4 * i))) by (rewrite <- direct_field; by apply warm_direct).
  assert (E : ld32 (f_mem s2) (f + (136 + 4 * i)) = u32 r) by (apply ld32_st32_same, u32_range).
  rewrite bind_assoc, (bind_Ret _ _ _ _ _ (fload32_warm _ _ Hw)), E. mstep.
  pose proof (u32_range r). replace (u32 r <? 0) with false by lia.
  by rewrite (bind_Ret _ _ _ _ _ (fload32_warm _ _ Hw)), E.
Qed.

(** Asking for a block a file does not have yet gives it the lowest free
    block of the disk: the slot holds its number, it is no longer free, and no
    byte of memory but that slot and that word of the bitmap changes - not the
    block, which keeps what it last held.  When no block is free the server
    panics, with the error code left in the slot as a block number, because
    the test for it compares an unsigned number with 0. *)
Theorem file_get_block_alloc :
  (∃ b s', 0 < b < nblocks s ∧ is_free s b = true ∧ (∀ x, 0 <= x < b → is_free s x = false) ∧
     file_get_block f i s = (Ret (inr (blockaddr b)), s') ∧ bno (f_mem s') f i = b ∧ is_free s' b = false ∧
     (∀ a, a < f_direct f i ∨ f_direct f i + 4 <= a → a < bitmap_word b ∨ bitmap_word b + 4 <= a →
           f_mem s' a = f_mem s a)) ∨
  ((∀ b, 0 <= b < nblocks s → is_free s b = false) ∧
   ∃ s', file_get_block f i s = (Stop (FsPanic "bad block number in diskaddr"), s') ∧
     bno (f_mem s') f i = 2 ^ 32 - E_NO_DISK).
Proof.
  pose proof (ready_size _ Hready) as Hsz. change (DISKSIZE / BLKSIZE) with 786432 in Hsz.
  assert (Hk : 0 <= 136 + 4 * i ∧ 136 + 4 * i + 4 <= FILE_SIZE) by (unfold FILE_SIZE, NDIRECT in *; lia).
  destruct (alloc_block_spec s Hready) as [(b & Hb & Hf & Hlt & E)|[Hno E]]; [left|right].
  - assert (b ≠ 0) by (intros ->; congruence).
    destruct (cleared_spec s b Hready Hb) as (Hr & En & Hfr).
    exists b, (field_set f (136 + 4 * i) b (cleared b s)).
    assert (Hr2 : ready (field_set f (136 + 4 * i) b (cleared b s))).
    { apply (field_set_ready _ _ 0); [done| |lia|lia]. by apply (shape_empty s). }
    assert (En2 : nblocks (field_set f (136 + 4 * i) b (cleared b s)) = nblocks s).
    { rewrite (field_set_nblocks _ _ 0); [done|by apply (shape_empty s)|lia|lia]. }
    split_and!; [lia|lia|done|done| | | |].
    + rewrite (file_get_block_hole (cleared b s) b E eq_refl), u32_small by lia.
      by rewrite (bind_Ret _ _ _ _ _ (diskaddr_ready _ b Hr2 ltac:(lia))).
    + unfold bno. rewrite slot_direct, direct_field. cbn. rewrite ld32_st32_same by apply u32_range.
      apply u32_small. lia.
    + transitivity (is_free (cleared b s) b); [|rewrite Hfr by lia; by rewrite Z.eqb_refl, andb_false_r].
      unfold is_free. f_equal. apply ld32_st32_other.
      destruct (bitmap_word_block b ltac:(lia)) as (j & Hj & Hj' & ->). specialize (Hplace b Hb).
      destruct (field_word s f 0 (136 + 4 * i) Hfile) as (j1 & Hj1 & Hj1' & ->); [lia|lia|].
      unfold blockaddr, BLKSIZE, PGSIZE in *. lia.
    + intros a Ha Hbm. cbn. rewrite direct_field in Ha. by rewrite !st32_other_byte by lia.
  - split; [done|]. exists (field_set f (136 + 4 * i) (- E_NO_DISK) s).
    rewrite (file_get_block_hole s (- E_NO_DISK) E eq_refl). split.
    + apply bind_Stop. unfold diskaddr. change (u32 (- E_NO_DISK) =? 0) with false. cbv iota. mstep.
      change (f_super (field_set f (136 + 4 * i) (- E_NO_DISK) s)) with (f_super s). rewrite (ready_super _ Hready). cbn [negb].
      pose proof (field_set_ready s f 0 (136 + 4 * i) (- E_NO_DISK) Hready Hfile ltac:(lia) ltac:(lia)) as Hr2.
      rewrite (bind_Ret _ _ _ _ _ (fload32_warm _ _ (ready_warm_nblocks _ Hr2))).
      change (ld32 (f_mem ?t) s_nblocks) with (nblocks t). rewrite (field_set_nblocks s f 0) by (done || lia).
      change (u32 (- E_NO_DISK)) with 4294967287. by replace (nblocks s <=? 4294967287) with true by lia.
    + unfold bno. rewrite slot_direct, direct_field. cbn. by rewrite ld32_st32_same by apply u32_range.
Qed.
End grow.

Section directory.
Context (s : fstate) (dir n : Z) (Hready : ready s) (Hdir : file_ok s dir n) (Hsize : fsize s dir = n * BLKSIZE).

Lemma dir_nblock_ok : dir_nblock dir s = (Ret n, s).
Proof.
  pose proof (fo_n _ _ _ Hdir) as Hn. change NMAX with 1034 in Hn.
  unfold dir_nblock. rewrite (bind_Ret _ _ _ _ _ (load_size_ok s dir n Hdir)), Hsize.
  rewrite Z.rem_mul by done. cbn [negb Z.eqb]. rewrite (bind_Ret _ _ _ _ _ (load_size_ok s dir n Hdir)), Hsize.
  rewrite Z.quot_mul by done. by rewrite u32_small by lia.
Qed.

(** [dir_lookup] returns the first entry of the directory, in the order of
    its blocks, whose name is the one looked up, and [-E_NOT_FOUND] exactly
    when there is none; it changes nothing. *)
Theorem dir_lookup_correct name :
  ∃ r, dir_lookup dir name s = (Ret r, s) ∧
    match r with
    | inr f => ∃ l1 l2, dir_entries (f_mem s) dir n = l1 ++ f :: l2 ∧ str_eq (f_mem s) f name = true ∧
                        Forall (λ g, str_eq (f_mem s) g name = false) l1
    | inl e => e = - E_NOT_FOUND ∧ Forall (λ g, str_eq (f_mem s) g name = false) (dir_entries (f_mem s) dir n)
    end.
Proof.
  pose proof (fo_n _ _ _ Hdir) as Hn. unfold dir_lookup. rewrite (bind_Ret _ _ _ _ _ dir_nblock_ok).
  eexists. split; [rewrite (bind_Ret _ _ _ _ _ (scan_dir_spec s dir n _ Hready Hdir (Z.to_nat n) 0 ltac:(lia) ltac:(lia))); done|].
  rewrite Z2Nat.id by lia. fold (dir_entries (f_mem s) dir n).
  destruct (first _ _) as [f|] eqn:E; [by apply first_Some in E|]. split; [done|].
  revert E. generalize (dir_entries (f_mem s) dir n). induction l as [|g l IH]; [done|]. cbn.
  destruct (str_eq _ g name) eqn:Eg; [done|]. constructor; auto.
Qed.
End directory.
