(* ===== verification/FsInit.v ===== *)
(** * Starting the file server ([check_bc], [bc_init], [fs_init])

    The experiments of [check_bc] overwrite the superblock, on the disk too,
    and put it back; the theorem follows the disk through them. *)

From S2P Require Import Prelude Mmu Console KState CString BlockCache Fs FsBitmap FsFile FsSpec.
Open Scope Z_scope.

(** ** Starting up *)

Lemma store_bytes_out m a l x : x < a ∨ a + Z.of_nat (length l) <= x → store_bytes m a l x = m x.
Proof.
  revert m a. induction l as [|c l IH]; intros m a Hx; [done|]. cbn [store_bytes length] in *.
  rewrite IH by lia. apply st8_other. lia.
Qed.

Lemma store_bytes_in m a l i c :
  l !! i = Some c → is_u8 c → store_bytes m a l (a + Z.of_nat i) = c.
Proof.
  revert m a i. induction l as [|c0 l IH]; intros m a [|i] Hi Hc; try done; cbn in Hi; cbn [store_bytes].
  - injection Hi as ->. rewrite Z.add_0_r, store_bytes_out by lia. by apply st8_byte.
  - replace (a + Z.of_nat (S i)) with (a + 1 + Z.of_nat i) by lia. by apply IH.
Qed.

Lemma store_bytes_ok m a l : mem_ok m → mem_ok (store_bytes m a l).
Proof. revert m a. induction l as [|c l IH]; intros m a Hm; [done|]. by apply IH, st8_ok. Qed.

Lemma store_name_bytes m a l : store_name m a l = store_bytes m a (l ++ [0]).
Proof. revert m a. induction l as [|c l IH]; intros m a; [done|]. cbn. apply IH. Qed.

Lemma str_eq_bytes m a l : (∀ i c, (l ++ [0]) !! i = Some c → m (a + Z.of_nat i) = c) → str_eq m a l = true.
Proof.
  revert a. induction l as [|c l IH]; intros a H; cbn [str_eq].
  - pose proof (H 0%nat 0 eq_refl) as E. rewrite Z.add_0_r in E. by apply Z.eqb_eq.
  - pose proof (H 0%nat c eq_refl) as E. rewrite Z.add_0_r in E. rewrite E, Z.eqb_refl. cbn. apply IH.
    intros i c' Hi. rewrite <- (H (S i) c' Hi). f_equal. lia.
Qed.

(** [str_eq] is what [strcmp] finds. *)
Lemma str_eq_strcmp fuel m a q l :
  mem_ok m → is_str m q l → (length l < fuel)%nat → strcmp fuel m a q = Some 0 ↔ str_eq m a l = true.
Proof.
  intros Hm. revert a q fuel. induction l as [|c l IH]; intros a q [|fuel] Hs Hf; cbn [is_str length] in *; try lia;
    cbn [strcmp str_eq].
  - rewrite Hs. destruct (Z.eqb_spec (m a) 0) as [->|]; cbn; [done|].
    split; [intros [= ?]; lia|done].
  - destruct Hs as (Hc & Hn & Hs). rewrite Hc. destruct (Z.eqb_spec (m a) c) as [->|N].
    + replace (c =? 0) with false by lia. cbn. apply IH; [done|lia].
    + rewrite andb_false_r. cbn. split; [intros [= ?]; lia|done].
Qed.

(** Before [super] and [bitmap] are set. *)
Record booting (s : fstate) : Prop := mkBooting {
  bo_super : f_super s = false;
  bo_bitmap : f_bitmap s = false;
  bo_mem : mem_ok (f_mem s);
  bo_disk : mem_ok (f_disk s);
  bo_coherent : coherent s;
}.

Abbreviation A1 := (blockaddr 1).

Lemma touch_boot n s a :
  f_super s = false → f_bitmap s = false → in_diskmap a = true → PGOFF a = 0 → f_mapped s (blockno_of a) = false → 0 < f_pages s →
  touch (S n) a s = (Ret tt, loaded (blockno_of a) s).
Proof.
  intros Hsu Hbm Ha Hal Hm Hp. cbn [touch]. mstep. cbn [id]. rewrite Ha, Hm. cbn [negb orb].
  unfold bc_pgfault. rewrite Ha. cbn [negb]. cbv zeta. mstep. rewrite Hsu. mstep.
  unfold fs_page_alloc. rewrite bind_assoc. mstep. replace (f_pages s <=? 0) with false by lia. mstep.
  unfold disk_read. mstep. unfold fs_page_remap. rewrite Hal. cbn [negb Z.eqb]. rewrite bind_modify. cbv beta.
  match goal with |- mbind _ (gets f_bitmap) ?t = _ => change t with (loaded (blockno_of a) s) end.
  rewrite bind_gets. change (f_bitmap (loaded (blockno_of a) s)) with (f_bitmap s). by rewrite Hbm.
Qed.

Lemma diskaddr_boot s b : f_super s = false → 0 < b < 65536 → diskaddr b s = (Ret (blockaddr b), s).
Proof.
  intros H Hb. unfold diskaddr. replace (b =? 0) with false by lia. mstep. rewrite H. cbn [negb].
  rewrite u32_small; [done|]. unfold blockaddr, DISKMAP, BLKSIZE, PGSIZE. lia.
Qed.

(** Equal up to the values of the functions. *)
Record same_state (s s' : fstate) : Prop := mkSameState {
  ss_mem : ∀ x, f_mem s' x = f_mem s x;
  ss_disk : ∀ x, f_disk s' x = f_disk s x;
  ss_mapped : ∀ b, f_mapped s' b = f_mapped s b;
  ss_dirty : ∀ b, b ≠ 1 → f_dirty s' b = f_dirty s b;
  ss_clean : f_dirty s' 1 = false;
  ss_pages : f_pages s' = f_pages s;
  ss_super : f_super s' = f_super s;
  ss_bitmap : f_bitmap s' = f_bitmap s;
}.

(** The states of one experiment on a cached superblock. *)
Definition smashed (s : fstate) : fstate := set_f_mem (store_name (f_mem s) A1 OOPS) (mark_dirty A1 s).
Definition dropped (s : fstate) : fstate :=
  mkFs (f_mem s) (f_disk s) (upd_bit (f_mapped s) 1 false) (f_dirty s) (f_pages s + 1) (f_super s) (f_bitmap s).
Definition reread (s : fstate) : fstate := loaded 1 (dropped (flushed 1 (smashed s))).
Definition fixed (s : fstate) : fstate :=
  flushed 1 (set_f_mem (store_bytes (f_mem (reread s)) A1 ((λ i, f_mem s (A1 + i)) <$> seqZ 0 SUPER_SIZE))
               (mark_dirty A1 (reread s))).

Lemma bind_fassert {B} msg (k : unit → F B) t : mbind k (fassert true msg) t = k tt t.
Proof. done. Qed.

Section experiment.
Context (s : fstate) (Hb : booting s) (Hm : f_mapped s 1 = true) (Hs : synced s 1) (Hp : 0 <= f_pages s).

Lemma warm_A1 t k : f_mapped t 1 = true → 0 <= k < BLKSIZE → warm t (A1 + k).
Proof. intros. by apply warm_blockaddr. Qed.

Lemma warm_A1_0 t : f_mapped t 1 = true → warm t A1.
Proof. intros. by apply (warm_A1 t 0). Qed.

Lemma flush_A1 t off :
  0 <= off < BLKSIZE → f_mapped t 1 = true → f_dirty t 1 = true → flush_block (A1 + off) t = (Ret tt, flushed 1 t).
Proof.
  intros Ho Hmt Hdt. rewrite flush_block_spec by (by apply in_diskmap_blockaddr).
  rewrite blockno_of_blockaddr by done. by rewrite Hmt, Hdt.
Qed.

Lemma reread_mem x : f_mem (reread s) x = store_name (f_mem s) A1 OOPS x.
Proof.
  unfold reread. destruct (decide (A1 <= x < A1 + BLKSIZE)) as [Hx|Hx].
  - replace x with (A1 + (x - A1)) by lia. rewrite loaded_in by lia. cbn.
    by replace ((A1 <=? A1 + (x - A1)) && (A1 + (x - A1) <? A1 + BLKSIZE)) with true by lia.
  - by rewrite loaded_out by lia.
Qed.

Lemma reread_oops : str_eq (f_mem (reread s)) A1 OOPS = true.
Proof.
  apply str_eq_bytes. intros i c Hi. rewrite reread_mem, store_name_bytes. apply store_bytes_in; [done|].
  do 7 (destruct i as [|i]; [injection Hi as <-; done|]). done.
Qed.

Lemma check_bc_once_run off cd : 0 <= off < BLKSIZE → check_bc_once off cd s = (Ret tt, fixed s).
Proof.
  intros Ho. pose proof (bo_super _ Hb) as Hsu. unfold check_bc_once.
  rewrite (bind_Ret _ _ _ _ _ (diskaddr_boot s 1 Hsu ltac:(done))). unfold fread.
  erewrite bind_Ret; [|by rewrite (bind_Ret _ _ _ _ _ (touch_warm 3 _ _ (warm_A1_0 s Hm)))].
  rewrite (bind_Ret _ _ _ _ _ (diskaddr_boot s 1 Hsu ltac:(done))). unfold fstrcpy.
  erewrite bind_Ret; [|by rewrite (bind_Ret _ _ _ _ _ (touch_write_warm _ _ (warm_A1_0 s Hm)))].
  fold (smashed s). rewrite (bind_Ret _ _ _ _ _ (diskaddr_boot (smashed s) 1 Hsu ltac:(done))).
  rewrite (bind_Ret _ _ _ _ _ (flush_A1 (smashed s) off Ho Hm eq_refl)).
  rewrite (bind_Ret _ _ _ _ _ (diskaddr_boot (flushed 1 (smashed s)) 1 Hsu ltac:(done))).
  unfold va_is_mapped, va_is_dirty, fs_page_unmap. mstep.
  change (f_mapped (flushed 1 (smashed s)) (blockno_of A1)) with (f_mapped s 1). rewrite Hm. rewrite bind_fassert.
  erewrite (bind_Ret _ _ _ tt); [|by destruct cd].
  mstep. change (blockno_of A1) with 1. change (f_mapped (flushed 1 (smashed s)) 1) with (f_mapped s 1). rewrite Hm.
  fold (dropped (flushed 1 (smashed s))). mstep. cbn [dropped f_mapped upd_bit Z.eqb negb]. rewrite bind_fassert.
  rewrite (bind_Ret _ _ _ tt (reread s)); [|apply (touch_boot 3); [apply Hb|apply Hb|done|done|done|cbn; lia]].
  mstep. rewrite reread_oops, bind_fassert. unfold fwrite.
  erewrite bind_Ret; [|by rewrite (bind_Ret _ _ _ _ _ (touch_write_warm _ (reread s) (warm_A1_0 (reread s) eq_refl)))].
  rewrite <- (Z.add_0_r A1). by apply (flush_A1 _ 0).
Qed.

Lemma fixed_mem x : f_mem (fixed s) x = f_mem s x.
Proof.
  unfold fixed. set (l := _ <$> _). change (store_bytes (f_mem (reread s)) A1 l x = f_mem s x).
  assert (Hl : length l = 264%nat) by (unfold l; by rewrite length_fmap, length_seqZ).
  destruct (decide (A1 <= x < A1 + SUPER_SIZE)) as [Hx|Hx].
  - replace x with (A1 + Z.of_nat (Z.to_nat (x - A1))) by lia. apply store_bytes_in; [|apply (bo_mem _ Hb)].
    unfold l. rewrite list_lookup_fmap, lookup_seqZ_lt by (unfold SUPER_SIZE in *; lia). done.
  - rewrite store_bytes_out by (rewrite Hl; unfold SUPER_SIZE in *; lia).
    rewrite reread_mem, store_name_bytes. apply store_bytes_out. cbn. unfold SUPER_SIZE in *. lia.
Qed.

Lemma fixed_same : same_state s (fixed s).
Proof.
  pose proof fixed_mem as Em. split; try done.
  - intros x. unfold fixed in *. cbn in *. destruct (_ && _) eqn:E.
    + rewrite Em. replace x with (A1 + (x - A1)) by lia. symmetry. apply Hs. lia.
    + done.
  - intros b. cbn. unfold upd_bit. destruct (Z.eqb_spec b 1) as [->|]; [by rewrite Hm|done].
  - intros b Hne. cbn. unfold upd_bit. change (blockno_of A1) with 1. change (in_diskmap A1) with true.
    cbv beta iota. by replace (b =? 1) with false by lia.
  - cbn. lia.
Qed.
End experiment.

Lemma check_bc_once_cold s off cd :
  booting s → f_mapped s 1 = false → 0 < f_pages s → check_bc_once off cd s = check_bc_once off cd (loaded 1 s).
Proof.
  intros H Hm Hp. unfold check_bc_once, fread.
  rewrite (bind_Ret _ _ _ _ _ (diskaddr_boot s 1 (bo_super _ H) ltac:(done))).
  rewrite (bind_Ret _ _ _ _ _ (diskaddr_boot (loaded 1 s) 1 (bo_super _ H) ltac:(done))). rewrite !bind_assoc.
  rewrite (bind_Ret _ _ s tt (loaded 1 s)) by (apply (touch_boot 3); try done; apply H).
  by rewrite (bind_Ret _ _ _ _ _ (touch_warm 3 _ _ (warm_A1_0 (loaded 1 s) eq_refl))).
Qed.

Lemma same_booting s s' : booting s → synced s 1 → same_state s s' → booting s' ∧ synced s' 1.
Proof.
  intros [Hsu Hbm Hm Hd Hc] Hs [Em Ed Emp Edi Ecl Ep Es Eb]. split.
  - split; [congruence|congruence|intros x; by rewrite Em|intros x; by rewrite Ed|].
    intros b k Hb Hk Hmp Hdi. rewrite Em, Ed. destruct (decide (b = 1)) as [->|Hne]; [by apply Hs|].
    apply Hc; try done; [by rewrite <- Emp|by rewrite <- Edi].
  - intros k Hk. rewrite Em, Ed. by apply Hs.
Qed.

Lemma same_trans s1 s2 s3 : same_state s1 s2 → same_state s2 s3 → same_state s1 s3.
Proof. intros [] []. split; intros; etransitivity; eauto. Qed.

(** [bc_init] on a server that has nothing cached: the superblock is cached
    and the disk is as it was. *)
Lemma bc_init_spec s :
  booting s → f_mapped s 1 = false → 0 < f_pages s → ∃ s', bc_init s = (Ret tt, s') ∧ same_state (loaded 1 s) s'.
Proof.
  intros H Hm Hp. set (t := loaded 1 s).
  assert (Ht : booting t).
  { destruct H as [? ? ? Hd ?]. split; try done; [|by apply loaded_coherent].
    intros x. cbn. destruct (_ && _); [apply Hd|by apply mem_set_ok]. }
  assert (Hst : synced t 1) by (intros k Hk; unfold t; by rewrite loaded_in).
  unfold bc_init, check_bc. rewrite bind_assoc.
  rewrite (bind_Ret _ _ s tt (fixed t)).
  2:{ rewrite check_bc_once_cold by done. apply check_bc_once_run; try done. cbn. lia. }
  pose proof (fixed_same t Ht eq_refl Hst) as S1. destruct (same_booting t (fixed t) Ht Hst S1) as [H1 Hs1].
  assert (Hm1 : f_mapped (fixed t) 1 = true) by (by rewrite (ss_mapped _ _ S1)).
  rewrite (bind_Ret _ _ (fixed t) tt (fixed (fixed t))).
  2:{ apply check_bc_once_run; try done. rewrite (ss_pages _ _ S1). cbn. lia. }
  pose proof (fixed_same (fixed t) H1 Hm1 Hs1) as S2. destruct (same_booting _ _ H1 Hs1 S2) as [H2 Hs2].
  exists (fixed (fixed t)). split; [|by eapply same_trans].
  rewrite (bind_Ret _ _ _ _ _ (diskaddr_boot _ 1 (bo_super _ H2) ltac:(done))). unfold fread.
  rewrite bind_assoc. rewrite (bind_Ret _ _ _ _ _ (touch_warm 3 _ _ (warm_A1_0 (fixed (fixed t)) ltac:(by rewrite (ss_mapped _ _ S2))))).
  done.
Qed.

(** A disk [fs_init] accepts, with a single bitmap block: the magic number,
    the size, and the first three blocks marked in use. *)
Record good_disk (d : memory) : Prop := mkGoodDisk {
  gd_magic : ld32 d s_magic = FS_MAGIC;
  gd_size : 2 < ld32 d s_nblocks <= BLKBITSIZE;
  gd_used : ∀ b, 0 <= b <= 2 → Z.testbit (ld32 d BITMAP) b = false;
}.

Definition set_super (s : fstate) : fstate :=
  mkFs (f_mem s) (f_disk s) (f_mapped s) (f_dirty s) (f_pages s) true (f_bitmap s).
Definition set_bitmap (s : fstate) : fstate :=
  mkFs (f_mem s) (f_disk s) (f_mapped s) (f_dirty s) (f_pages s) (f_super s) true.

(** The server when [check_bitmap] starts. *)
Record before_bitmap (s : fstate) : Prop := mkBefore {
  bb_super : f_super s = true;
  bb_bitmap : f_bitmap s = true;
  bb_mem : mem_ok (f_mem s);
  bb_disk : mem_ok (f_disk s);
  bb_coherent : coherent s;
  bb_mapped : f_mapped s 1 = true;
  bb_cold : f_mapped s 2 = false;
  bb_pages : 0 < f_pages s;
  bb_good : good_disk (f_disk s);
  bb_synced : synced s 1;
}.

Section check_bitmap.
Context (s : fstate) (H : before_bitmap s).

Lemma nblocks_disk : nblocks s = ld32 (f_disk s) s_nblocks.
Proof.
  apply ld32_ext. intros i Hi. change s_nblocks with (A1 + 4). rewrite <- Z.add_assoc. symmetry.
  apply (bb_synced _ H (4 + i)). unfold BLKSIZE, PGSIZE. lia.
Qed.

Lemma loaded_bitmap : ready (loaded 2 s) ∧ nblocks (loaded 2 s) = nblocks s ∧
  (∀ b, 0 <= b < nblocks s → is_free (loaded 2 s) b = Z.testbit (ld32 (f_disk s) (bitmap_word b)) (b mod 32)).
Proof.
  destruct H as [Hsu Hbm Hm Hd Hc H1 H2 Hp [Hmg Hsz Hus] Hs]. pose proof nblocks_disk as En.
  assert (En2 : nblocks (loaded 2 s) = nblocks s) by (by apply (ld32_loaded 2 1 s 4)).
  split_and!; [|done|].
  - split; try done; rewrite ?En2, ?En.
    + intros x. cbn. destruct (_ && _); [apply Hd|by apply mem_set_ok].
    + change (DISKSIZE / BLKSIZE) with 786432. change BLKBITSIZE with 32768 in Hsz. lia.
    + intros b Hb. replace (b / BLKBITSIZE) with 0; [done|]. symmetry. apply Z.div_small. lia.
  - intros b Hb. unfold is_free. f_equal. destruct (bitmap_word_block b ltac:(lia)) as (k & Hk & Hk' & ->).
    replace (b / BLKBITSIZE) with 0 by (symmetry; apply Z.div_small; lia). apply ld32_ext. intros i Hi.
    rewrite <- Z.add_assoc. apply loaded_in. lia.
Qed.

Lemma first_blocks b : 0 <= b <= 2 → is_free (loaded 2 s) b = false.
Proof.
  intros Hb. destruct loaded_bitmap as (_ & _ & Hf). pose proof (gd_size _ (bb_good _ H)). pose proof nblocks_disk.
  rewrite Hf by lia. replace (bitmap_word b) with BITMAP by (unfold bitmap_word; Z.to_euclidean_division_equations; lia).
  rewrite Z.mod_small by lia. by apply (gd_used _ (bb_good _ H)).
Qed.

(** The first look at the bitmap faults it in. *)
Lemma block_is_free_cold : block_is_free fload32 2 s = (Ret false, loaded 2 s).
Proof.
  destruct loaded_bitmap as (Hr & En & Hf). pose proof (gd_size _ (bb_good _ H)). pose proof nblocks_disk.
  unfold block_is_free. mstep. rewrite (bb_super _ H). cbn [negb].
  rewrite (bind_Ret _ _ _ _ _ (fload32_warm s_nblocks s (λ _, bb_mapped _ H))).
  change (ld32 (f_mem s) s_nblocks) with (nblocks s). replace (nblocks s <=? 2) with false by lia.
  unfold fload32. rewrite bind_assoc. rewrite (bind_Ret _ _ s tt (loaded 2 s)).
  - mstep. by rewrite <- (first_blocks 2) by lia.
  - change (BITMAP + 4 * (2 / 32)) with (blockaddr 2). unfold FAULTS. rewrite touch_cold; try done; try apply H.
    + change (negb (PGOFF (blockaddr 2) =? 0)) with false. cbv iota. change (blockno_of (blockaddr 2)) with 2.
      rewrite (bind_Ret _ _ _ _ _ (block_is_free_ready _ _ 2 (loads_touch 2 _) Hr ltac:(lia))).
      by rewrite first_blocks by lia.
    + change (blockno_of (blockaddr 2)) with 2. lia.
Qed.

Lemma check_bitmap_run : check_bitmap s = (Ret tt, loaded 2 s).
Proof.
  destruct loaded_bitmap as (Hr & En & Hf). pose proof (gd_size _ (bb_good _ H)) as Hn. pose proof nblocks_disk.
  change BLKBITSIZE with 32768 in Hn.
  assert (Hw : warm s s_nblocks) by exact (λ _, bb_mapped _ H).
  unfold check_bitmap. rewrite (bind_Ret _ _ _ _ _ (fload32_warm _ _ Hw)).
  change (ld32 (f_mem s) s_nblocks) with (nblocks s).
  rewrite (bind_Ret _ _ s tt (loaded 2 s)).
  - rewrite (bind_Ret _ _ _ _ _ (block_is_free_ready _ _ 0 (loads_fload32 _) Hr ltac:(lia))), first_blocks by lia. mstep.
    by rewrite (bind_Ret _ _ _ _ _ (block_is_free_ready _ _ 1 (loads_fload32 _) Hr ltac:(lia))), first_blocks by lia.
  - replace (Z.to_nat (nblocks s)) with (S (Z.to_nat (nblocks s - 1))) by lia. cbn [check_bitmap_loop].
    rewrite (bind_Ret _ _ _ _ _ (fload32_warm _ _ Hw)). change (ld32 (f_mem s) s_nblocks) with (nblocks s).
    change (u32 (0 * BLKBITSIZE)) with 0. replace (0 <? nblocks s) with true by lia. change (u32 (2 + 0)) with 2.
    rewrite (bind_Ret _ _ _ _ _ block_is_free_cold).
    rewrite (bind_Ret _ _ _ _ _ (fload32_warm _ _ (ready_warm_nblocks _ Hr))).
    change (ld32 (f_mem (loaded 2 s)) s_nblocks) with (nblocks (loaded 2 s)). rewrite En.
    change (u32 (u32 (0 + 1) * BLKBITSIZE)) with 32768. by replace (32768 <? nblocks s) with false by lia.
Qed.
End check_bitmap.

Section booted.
Context (s s1 : fstate) (Hb : booting s) (Hg : good_disk (f_disk s)) (S1 : same_state (loaded 1 s) s1).

Lemma booted_disk a : ld32 (f_disk s1) a = ld32 (f_disk s) a.
Proof. apply ld32_ext. intros i _. apply (ss_disk _ _ S1). Qed.

Lemma booted_synced : synced s1 1.
Proof. intros k Hk. rewrite (ss_disk _ _ S1), (ss_mem _ _ S1). by rewrite loaded_in. Qed.

Lemma booted_super k : 0 <= k → k + 4 <= BLKSIZE → ld32 (f_mem s1) (A1 + k) = ld32 (f_disk s) (A1 + k).
Proof.
  intros Hk Hk'. rewrite <- booted_disk. apply ld32_ext. intros i Hi. rewrite <- Z.add_assoc. symmetry.
  apply booted_synced. lia.
Qed.

Lemma booted_warm k : 0 <= k < BLKSIZE → warm (set_super s1) (A1 + k).
Proof. intros Hk. apply warm_A1; [|done]. by apply (ss_mapped _ _ S1). Qed.

Lemma check_super_run : check_super (set_super s1) = (Ret tt, set_super s1).
Proof.
  unfold check_super. rewrite (bind_Ret _ _ _ _ _ (fload32_warm s_magic _ (booted_warm 0 ltac:(done)))).
  change (ld32 (f_mem (set_super s1)) s_magic) with (ld32 (f_mem s1) (A1 + 0)). rewrite booted_super by done.
  change (A1 + 0) with s_magic. rewrite (gd_magic _ Hg), Z.eqb_refl. cbn [negb].
  rewrite (bind_Ret _ _ _ _ _ (fload32_warm s_nblocks _ (booted_warm 4 ltac:(done)))).
  change (ld32 (f_mem (set_super s1)) s_nblocks) with (ld32 (f_mem s1) (A1 + 4)). rewrite booted_super by done.
  pose proof (gd_size _ Hg) as Hn. change (A1 + 4) with s_nblocks. change (DISKSIZE / BLKSIZE) with 786432.
  change BLKBITSIZE with 32768 in Hn. by replace (786432 <? ld32 (f_disk s) s_nblocks) with false by lia.
Qed.

Lemma booted_before : f_mapped s 2 = false → 1 < f_pages s → before_bitmap (set_bitmap (set_super s1)).
Proof.
  intros H2 Hp. destruct Hb as [_ _ Hm Hd Hc]. pose proof booted_synced as Hs.
  split; try done.
  - intros x. cbn. rewrite (ss_mem _ _ S1). cbn. destruct (_ && _); [apply Hd|by apply mem_set_ok].
  - intros x. cbn. rewrite (ss_disk _ _ S1). apply Hd.
  - intros b k Hb' Hk Hmp Hdi. cbn in *. destruct (decide (b = 1)) as [->|Hne]; [by apply Hs|].
    rewrite (ss_disk _ _ S1), (ss_mem _ _ S1). apply (loaded_coherent 1 s Hc); try done.
    + by rewrite <- (ss_mapped _ _ S1).
    + by rewrite <- (ss_dirty _ _ S1).
  - cbn. by rewrite (ss_mapped _ _ S1).
  - cbn. by rewrite (ss_mapped _ _ S1).
  - cbn. rewrite (ss_pages _ _ S1). cbn. lia.
  - destruct Hg. split; cbn; try setoid_rewrite booted_disk; done.
Qed.
End booted.

(** C23: Started on a good disk with nothing cached, [fs_init] returns: the
    superblock and the bitmap are cached, [super] and [bitmap] are set, the
    bitmap in memory is the disk's, and in spite of the experiments of
    [check_bc], which overwrite the superblock on the disk twice, the disk is
    at the end exactly what it was. *)
Theorem fs_init_correct s :
  booting s → f_mapped s 1 = false → f_mapped s 2 = false → 1 < f_pages s → good_disk (f_disk s) →
  ∃ s', fs_init s = (Ret tt, s') ∧ ready s' ∧ coherent s' ∧ (∀ x, f_disk s' x = f_disk s x) ∧
    nblocks s' = ld32 (f_disk s) s_nblocks ∧
    (∀ b, 0 <= b < nblocks s' → is_free s' b = Z.testbit (ld32 (f_disk s) (bitmap_word b)) (b mod 32)).
Proof.
  intros Hb H1 H2 Hp Hg. destruct (bc_init_spec s Hb H1 ltac:(lia)) as (s1 & E1 & S1).
  pose proof (booted_before s s1 Hb Hg S1 H2 Hp) as Hbb.
  destruct (loaded_bitmap _ Hbb) as (Hr & En & Hf). pose proof (nblocks_disk _ Hbb) as Ed.
  cbn [f_disk set_bitmap set_super] in Ed, Hf. rewrite (booted_disk s s1 S1) in Ed.
  exists (loaded 2 (set_bitmap (set_super s1))). split_and!; [|done| | |by rewrite En|].
  - unfold fs_init. rewrite (bind_Ret _ _ _ _ _ E1).
    rewrite (bind_Ret _ _ _ _ _ (diskaddr_boot s1 1 ltac:(rewrite (ss_super _ _ S1); apply Hb) ltac:(done))). mstep.
    fold (set_super s1). rewrite (bind_Ret _ _ _ _ _ (check_super_run s s1 Hg S1)).
    unfold diskaddr. change (2 =? 0) with false. cbv iota. rewrite bind_assoc. mstep. cbn [f_super set_super negb].
    rewrite bind_assoc, (bind_Ret _ _ _ _ _ (fload32_warm _ _ (booted_warm s s1 S1 4 ltac:(done)))).
    change (ld32 (f_mem (set_super s1)) (A1 + 4)) with (nblocks (set_bitmap (set_super s1))). rewrite Ed.
    destruct Hg as [_ ? _]. replace (_ <=? 2) with false by lia. mstep. mstep. by apply check_bitmap_run.
  - apply loaded_coherent, Hbb.
  - intros x. cbn. apply (ss_disk _ _ S1).
  - intros b Hb'. rewrite Hf by (by rewrite <- En). by rewrite (booted_disk s s1 S1).
Qed.
