(* ===== verification/Serv.v ===== *)
(** * The file server's requests ([fs/serv.c])

    The table of open files and the handlers of the requests that clients send
    with the page [fsreq].  The server's state is that of the file system
    together with [opentab] and, for each open file, how many mappings its
    [struct Fd] page has ([pageref], the kernel's count): clients that open,
    duplicate or close descriptors change it between two requests.

    The request page and the [struct Fd] pages are memory of the server outside
    the disk map; clients share them. *)

From S2P Require Import Prelude Mmu Console KState CString BlockCache Fs.
Open Scope Z_scope.

Definition MAXOPEN : Z := 1024.
Definition FILEVA : Z := 0xD0000000.
Definition MAXPATHLEN : Z := 1024.
Definition fsreq : Z := 0x0ffff000.

Definition O_ACCMODE : Z := 0x0003.
Definition O_CREAT : Z := 0x0100.
Definition O_TRUNC : Z := 0x0200.
Definition O_EXCL : Z := 0x0400.
Definition PTE_SHARE : Z := 0x400.

(** The requests; there is no handler for [FSREQ_REMOVE]. *)
Definition FSREQ_OPEN : Z := 1.
Definition FSREQ_SET_SIZE : Z := 2.
Definition FSREQ_READ : Z := 3.
Definition FSREQ_WRITE : Z := 4.
Definition FSREQ_STAT : Z := 5.
Definition FSREQ_FLUSH : Z := 6.
Definition FSREQ_SYNC : Z := 8.

(** The fields of [struct Fd]. *)
Definition fd_dev_id (fd : Z) : Z := fd.
Definition fd_offset (fd : Z) : Z := fd + 4.
Definition fd_omode (fd : Z) : Z := fd + 8.
Definition fd_file_id (fd : Z) : Z := fd + 12.
Definition devfile_id : Z := 102.

Record OpenFile : Type := mkOpenFile {
  o_fileid : Z;
  o_file : Z;
  o_mode : Z;
  o_fd : Z;
}.

Record sstate : Type := mkServ {
  sv_fs : fstate;
  opentab : Z → OpenFile;
  pageref : Z → Z;
}.

Abbreviation SV := (M sstate fs_stop).

Definition set_sv_fs (f : fstate) (s : sstate) : sstate := mkServ f (opentab s) (pageref s).
Definition set_open (i : Z) (o : OpenFile) (s : sstate) : sstate :=
  mkServ (sv_fs s) (λ j, if j =? i then o else opentab s j) (pageref s).
Definition set_pageref (i n : Z) (s : sstate) : sstate :=
  mkServ (sv_fs s) (opentab s) (λ j, if j =? i then n else pageref s j).

(** A file-system operation within the server. *)
Definition fs {A} (m : F A) : SV A := λ s,
  match m (sv_fs s) with
  | (Ret a, f) => (Ret a, set_sv_fs f s)
  | (Stop e, f) => (Stop e, set_sv_fs f s)
  end.

Definition serve_init : SV unit :=
  modify (λ s, mkServ (sv_fs s)
    (λ i, if (0 <=? i) && (i <? MAXOPEN)
          then mkOpenFile i (o_file (opentab s i)) (o_mode (opentab s i)) (FILEVA + i * PGSIZE)
          else opentab s i)
    (pageref s)).

(** [case 1] of [openfile_alloc], which [case 0] falls through to. *)
Definition take_open (i : Z) : SV (Z * option Z) :=
  o ← gets (λ s, opentab s i);
  let fileid := u32 (o_fileid o + MAXOPEN) in
  modify (set_open i (mkOpenFile fileid (o_file o) (o_mode o) (o_fd o)));;
  fs (fmemset (o_fd o) 0 PGSIZE);;
  mret (s32 fileid, Some i).

Fixpoint openfile_alloc_loop (n : nat) (i : Z) : SV (Z * option Z) :=
  match n with
  | O => mret (- E_MAX_OPEN, None)
  | S n' =>
    ref ← gets (λ s, pageref s i);
    if ref =? 0 then
      free ← gets (λ s, f_pages (sv_fs s));
      if free <=? 0 then mret (- E_NO_MEM, None)
      else
        fs (modify (λ s, mkFs (f_mem s) (f_disk s) (f_mapped s) (f_dirty s) (free - 1) (f_super s) (f_bitmap s)));;
        modify (set_pageref i 1);;
        take_open i
    else if ref =? 1 then take_open i
    else openfile_alloc_loop n' (i + 1)
  end.

Definition openfile_alloc : SV (Z * option Z) := openfile_alloc_loop (Z.to_nat MAXOPEN) 0.

Definition openfile_lookup (fileid : Z) : SV (Z + Z) :=
  let i := fileid mod MAXOPEN in
  ref ← gets (λ s, pageref s i);
  o ← gets (λ s, opentab s i);
  if (ref <=? 1) || negb (o_fileid o =? fileid) then mret (inl (- E_INVAL)) else mret (inr i).

(** The C string at [a], of at most [n] characters. *)
Fixpoint cstr (m : memory) (a : Z) (n : nat) : list Z :=
  match n with
  | O => []
  | S n' => if m a =? 0 then [] else m a :: cstr m (a + 1) n'
  end.

Definition req32 (off : Z) : SV Z := gets (λ s, ld32 (f_mem (sv_fs s)) (fsreq + off)).

(** The result and, on success, the page to share and its permissions. *)
Definition serve_open : SV (Z * option (Z * Z)) :=
  path ← gets (λ s, cstr (f_mem (sv_fs s)) fsreq (Z.to_nat (MAXPATHLEN - 1)));
  a ← openfile_alloc;
  match a with
  | (r, None) => mret (r, None)
  | (r, Some i) =>
    if r <? 0 then mret (r, None)
    else
      omode ← req32 1024;
      f ← (if negb (Z.land omode O_CREAT =? 0) then
             c ← fs (file_create path);
             match c with
             | inr f => mret (inr f)
             | inl r =>
               if (Z.land omode O_EXCL =? 0) && (r =? - E_FILE_EXISTS) then fs (file_open path) else mret (inl r)
             end
           else fs (file_open path));
      match f with
      | inl r => mret (r, None)
      | inr f =>
        r ← (if negb (Z.land omode O_TRUNC =? 0) then fs (file_set_size f 0) else mret 0);
        if r <? 0 then mret (r, None)
        else
          f ← fs (file_open path);
          match f with
          | inl r => mret (r, None)
          | inr f =>
            o ← gets (λ s, opentab s i);
            modify (set_open i (mkOpenFile (o_fileid o) f (s32 omode) (o_fd o)));;
            fs (fstore32 (fd_file_id (o_fd o)) (o_fileid o));;
            fs (fstore32 (fd_omode (o_fd o)) (Z.land omode O_ACCMODE));;
            fs (fstore32 (fd_dev_id (o_fd o)) devfile_id);;
            mret (0, Some (o_fd o, Z.lor (Z.lor PTE_P PTE_U) (Z.lor PTE_W PTE_SHARE)))
          end
      end
  end.

(** The common beginning of the handlers: the open file [req_fileid] names. *)
Definition with_open (k : OpenFile → SV Z) : SV Z :=
  id ← req32 0;
  l ← openfile_lookup id;
  match l with
  | inl r => mret r
  | inr i => o ← gets (λ s, opentab s i); k o
  end.

Definition serve_set_size : SV Z :=
  with_open (λ o, size ← req32 4; fs (file_set_size (o_file o) (s32 size))).

(** [o->o_fd->fd_offset += r] *)
Definition advance (o : OpenFile) (r : Z) : SV unit :=
  off ← fs (fload32 (fd_offset (o_fd o)));
  fs (fstore32 (fd_offset (o_fd o)) (off + r)).

Definition serve_read : SV Z :=
  with_open (λ o,
    n ← req32 4;
    let count := Z.min n PGSIZE in
    off ← fs (fload32 (fd_offset (o_fd o)));
    r ← fs (file_read (o_file o) fsreq count (s32 off));
    if r <? 0 then mret r else advance o r;; mret r).

Definition serve_write : SV Z :=
  with_open (λ o,
    n ← req32 4;
    off ← fs (fload32 (fd_offset (o_fd o)));
    r ← fs (file_write (o_file o) (fsreq + 8) n (s32 off));
    if r <? 0 then mret r else advance o r;; mret r).

Definition serve_stat : SV Z :=
  with_open (λ o,
    fs (touch FAULTS (o_file o));;
    m ← gets (λ s, f_mem (sv_fs s));
    match strcpy (Z.to_nat BLKSIZE) m fsreq (o_file o) with
    | None => stop FsFuel
    | Some m =>
      modify (λ s, set_sv_fs (set_f_mem m (sv_fs s)) s);;
      size ← fs (fload32 (f_size (o_file o)));
      fs (fstore32 (fsreq + 128) size);;
      ty ← fs (fload32 (f_type (o_file o)));
      fs (fstore32 (fsreq + 132) (if ty =? FTYPE_DIR then 1 else 0));;
      mret 0
    end).

Definition serve_flush : SV Z := with_open (λ o, fs (file_flush (o_file o));; mret 0).

Definition serve_sync : SV Z := fs fs_sync;; mret 0.

Definition handlers (req : Z) : option (SV Z) :=
  if req =? FSREQ_READ then Some serve_read
  else if req =? FSREQ_STAT then Some serve_stat
  else if req =? FSREQ_FLUSH then Some serve_flush
  else if req =? FSREQ_WRITE then Some serve_write
  else if req =? FSREQ_SET_SIZE then Some serve_set_size
  else if req =? FSREQ_SYNC then Some serve_sync
  else None.

(** What [serve] sends back: the value, and a page with its permissions. *)
Record reply : Type := mkReply { rp_val : Z; rp_pg : option Z; rp_perm : Z }.

(** One turn of the loop of [serve], from the received request to the reply;
    a request without a page gets none. *)
Definition serve_request (req perm : Z) : SV (option reply) :=
  if Z.land perm PTE_P =? 0 then mret None
  else if req =? FSREQ_OPEN then
    r ← serve_open;
    mret (Some (match r with
                | (r, Some (pg, perm)) => mkReply r (Some pg) perm
                | (r, None) => mkReply r None perm
                end))
  else
    match handlers req with
    | Some h => r ← h; mret (Some (mkReply r None perm))
    | None => mret (Some (mkReply (- E_INVAL) None perm))
    end.
