(* ===== verification/ServSpec.v ===== *)
(** * The file server's requests: theorems

    File ids name one opening of a file only; reading and writing through an
    open file move its seek position; and what [serve_write] does with a
    request that claims more bytes than the request page holds. *)

From S2P Require Import Prelude Mmu Console KState CString BlockCache Fs FsBitmap FsFile FsSpec Serv.
Open Scope Z_scope.

Lemma fs_Ret {A} (m : F A) s a f : m (sv_fs s) = (Ret a, f) → fs m s = (Ret a, set_sv_fs f s).
Proof. intros H. unfold fs. by rewrite H. Qed.

(** ** The table of open files *)

(** What [serve_init] establishes: an id ends in its index, and every entry has
    a page of its own. *)
Definition tab_ok (s : sstate) : Prop := ∀ i, 0 <= i < MAXOPEN →
  is_u32 (o_fileid (opentab s i)) ∧ o_fileid (opentab s i) mod MAXOPEN = i ∧ o_fd (opentab s i) = FILEVA + i * PGSIZE.

Lemma serve_init_ok s : ∃ s', serve_init s = (Ret tt, s') ∧ tab_ok s' ∧ sv_fs s' = sv_fs s.
Proof.
  eexists. split; [done|]. split; [|done]. intros i Hi. cbn.
  replace ((0 <=? i) && (i <? MAXOPEN)) with true by lia. unfold MAXOPEN in *. cbn.
  split_and!; [unfold is_u32; lia|by apply Z.mod_small|done].
Qed.

Definition in_use (s : sstate) (i : Z) : Prop := pageref s i ≠ 0 ∧ pageref s i ≠ 1.

(** The server after entry [i] has been taken. *)
Definition taken (i : Z) (s : sstate) : sstate :=
  let o := opentab s i in
  let f := sv_fs s in
  mkServ (set_f_mem (memset (f_mem f) (o_fd o) 0 PGSIZE) (mark_dirty (o_fd o)
            (mkFs (f_mem f) (f_disk f) (f_mapped f) (f_dirty f)
               (if pageref s i =? 0 then f_pages f - 1 else f_pages f) (f_super f) (f_bitmap f))))
    (λ j, if j =? i then mkOpenFile (u32 (o_fileid o + MAXOPEN)) (o_file o) (o_mode o) (o_fd o) else opentab s j)
    (if pageref s i =? 0 then λ j, if j =? i then 1 else pageref s j else pageref s).

Lemma fd_page i k : 0 <= i < MAXOPEN → 0 <= k < PGSIZE → in_diskmap (FILEVA + i * PGSIZE + k) = false.
Proof. unfold in_diskmap, FILEVA, MAXOPEN, DISKMAP, DISKSIZE, PGSIZE. lia. Qed.

Lemma warm_outside s a : in_diskmap a = false → warm s a.
Proof. intros H H'. congruence. Qed.

Lemma fmemset_warm s a c n : 0 < n → warm s a → fmemset a c n s = (Ret tt, set_f_mem (memset (f_mem s) a c n) (mark_dirty a s)).
Proof.
  intros Hn Ha. unfold fmemset. replace (n =? 0) with false by lia.
  by rewrite (bind_Ret _ _ _ _ _ (touch_write_warm _ _ Ha)).
Qed.

Lemma take_open_eq s i :
  o_fd (opentab s i) = FILEVA + i * PGSIZE → 0 <= i < MAXOPEN → pageref s i = 1 →
  take_open i s = (Ret (s32 (u32 (o_fileid (opentab s i) + MAXOPEN)), Some i), taken i s).
Proof.
  intros Hfd Hi Hp. unfold take_open. mstep. mstep.
  rewrite (bind_Ret _ _ _ _ _ (fs_Ret _ _ _ _ (fmemset_warm _ _ 0 PGSIZE ltac:(done)
    (warm_outside _ (o_fd (opentab s i)) ltac:(rewrite Hfd, <- (Z.add_0_r (_ * _)), Z.add_assoc; by apply fd_page))))).
  unfold taken. rewrite Hp. cbn [Z.eqb]. by destruct s as [[] ? ?].
Qed.

(** What [openfile_alloc] does from entry [i] on. *)
Definition alloc_outcome (s : sstate) (i : Z) (out : res fs_stop (Z * option Z) * sstate) : Prop :=
  (∃ j, i <= j < MAXOPEN ∧ ¬ in_use s j ∧ (∀ k, i <= k < j → in_use s k) ∧
     ((pageref s j = 0 → 0 < f_pages (sv_fs s)) ∧
      out = (Ret (s32 (u32 (o_fileid (opentab s j) + MAXOPEN)), Some j), taken j s) ∨
      pageref s j = 0 ∧ f_pages (sv_fs s) <= 0 ∧ out = (Ret (- E_NO_MEM, None), s))) ∨
  ((∀ k, i <= k < MAXOPEN → in_use s k) ∧ out = (Ret (- E_MAX_OPEN, None), s)).

Lemma openfile_alloc_loop_spec s : tab_ok s → ∀ n i,
  0 <= i → i + Z.of_nat n = MAXOPEN → alloc_outcome s i (openfile_alloc_loop n i s).
Proof.
  intros Ht. induction n as [|n IH]; intros i Hi Hn; cbn [openfile_alloc_loop].
  { right. split; [lia|done]. }
  mstep. destruct (Ht i ltac:(lia)) as (Hu & Hmod & Hfd). destruct (Z.eqb_spec (pageref s i) 0) as [E0|N0].
  - left. exists i. split_and!; [lia|lia|intros []; done|lia|]. mstep.
    destruct (Z.leb_spec (f_pages (sv_fs s)) 0); [right; done|left]. split; [lia|].
    erewrite bind_Ret; [|by apply fs_Ret]. mstep.
    erewrite take_open_eq; [|exact Hfd|lia|cbn; by rewrite Z.eqb_refl].
    unfold taken. cbn [set_pageref set_sv_fs pageref opentab sv_fs f_mem f_disk f_mapped f_dirty f_pages f_super f_bitmap].
    by rewrite Z.eqb_refl, E0.
  - destruct (Z.eqb_spec (pageref s i) 1) as [E1|N1].
    + left. exists i. split_and!; [lia|lia|intros []; done|lia|]. left. split; [lia|]. by apply take_open_eq; try done; lia.
    + destruct (IH (i + 1) ltac:(lia) ltac:(lia)) as [(j & Hj & Hu' & Hlt & Hout)|[Hall Hout]]; [left; exists j|right].
      * split_and!; [lia|lia|done| |done]. intros k Hk. destruct (decide (k = i)) as [->|]; [done|apply Hlt; lia].
      * split; [|done]. intros k Hk. destruct (decide (k = i)) as [->|]; [done|apply Hall; lia].
Qed.

Lemma next_fileid id i :
  is_u32 id → id mod MAXOPEN = i →
  is_u32 (u32 (id + MAXOPEN)) ∧ u32 (id + MAXOPEN) mod MAXOPEN = i ∧ u32 (id + MAXOPEN) ≠ id.
Proof.
  unfold is_u32, u32, MAXOPEN. intros Hid Hm. Z.to_euclidean_division_equations. lia.
Qed.

(** [openfile_alloc] takes the first entry whose [struct Fd] page nobody
    else maps, or reports that there is none or no memory and changes nothing.
    An entry that is taken gets a new id with the same index, its page is
    cleared and no other byte changes; the other entries keep their ids; and
    the id under which it was known before is refused from then on, however
    the page is shared. *)
Theorem openfile_alloc_correct s :
  tab_ok s →
  (∃ i s', openfile_alloc s = (Ret (s32 (o_fileid (opentab s' i)), Some i), s') ∧
     0 <= i < MAXOPEN ∧ ¬ in_use s i ∧ (∀ j, 0 <= j < i → in_use s j) ∧ tab_ok s' ∧
     (∀ j, j ≠ i → opentab s' j = opentab s j) ∧ pageref s' i = 1 ∧
     (∀ x, f_mem (sv_fs s') x = mem_set (f_mem (sv_fs s)) (FILEVA + i * PGSIZE) 0 PGSIZE x) ∧
     ∀ refs, let t := mkServ (sv_fs s') (opentab s') refs in
       openfile_lookup (o_fileid (opentab s i)) t = (Ret (inl (- E_INVAL)), t) ∧
       openfile_lookup (o_fileid (opentab s' i)) t = (Ret (if refs i <=? 1 then inl (- E_INVAL) else inr i), t)) ∨
  ((∀ j, 0 <= j < MAXOPEN → in_use s j) ∧ openfile_alloc s = (Ret (- E_MAX_OPEN, None), s)) ∨
  (f_pages (sv_fs s) <= 0 ∧ openfile_alloc s = (Ret (- E_NO_MEM, None), s)).
Proof.
  intros Ht. destruct (openfile_alloc_loop_spec s Ht (Z.to_nat MAXOPEN) 0 ltac:(done) ltac:(done))
    as [(i & Hi & Hu & Hlt & [[_ E]|(_ & Hp & E)])|[Hall E]]; [left|by right; right|by right; left].
  destruct (Ht i Hi) as (H32 & Hmod & Hfd). destruct (next_fileid _ _ H32 Hmod) as (H32' & Hmod' & Hne).
  assert (Ei : opentab (taken i s) i = mkOpenFile (u32 (o_fileid (opentab s i) + MAXOPEN)) (o_file (opentab s i))
                 (o_mode (opentab s i)) (o_fd (opentab s i))) by (cbn; by rewrite Z.eqb_refl).
  exists i, (taken i s). rewrite Ei. cbn [o_fileid]. split_and!; try done; try lia.
  - intros j Hj. destruct (decide (j = i)) as [->|Hji]; [by rewrite Ei|]. cbn. replace (j =? i) with false by lia. by apply Ht.
  - intros j Hj. cbn. by replace (j =? i) with false by lia.
  - cbn. destruct (Z.eqb_spec (pageref s i) 0); [by rewrite Z.eqb_refl|]. destruct (decide (pageref s i = 1)); [done|by destruct Hu].
  - intros x. rewrite <- Hfd. exact (memset_spec _ _ 0 PGSIZE x ltac:(done)).
  - intros refs. unfold openfile_lookup. rewrite Hmod, Hmod'.
    split; mstep; mstep; cbn [opentab pageref]; rewrite Ei; cbn [o_fileid].
    + replace (_ =? _) with false by lia. by rewrite orb_true_r.
    + rewrite Z.eqb_refl. cbn [negb]. rewrite orb_false_r. by destruct (refs i <=? 1).
Qed.

(** ** Reading and writing through an open file *)

Lemma written_outside f offset count buf s s' n x :
  ready s → file_ok s f n → 0 <= offset → offset + count <= n * BLKSIZE → file_written f offset count buf s s' →
  in_diskmap x = false → f_mem s' x = f_mem s x.
Proof.
  intros H Hf Ho Hl W Hx. apply (fw_out _ _ _ _ _ _ W).
  - intros k Hk ->. destruct (faddr_in s f n (offset + k) H Hf ltac:(lia)). congruence.
  - destruct (decide (f_size f <= x < f_size f + 4)); [|lia]. exfalso.
    pose proof (in_diskmap_field f (x - f)) as Hin. replace (f + (x - f)) with x in Hin by lia.
    rewrite Hin in Hx; [done|apply (fo_shape _ _ _ Hf)|apply (fo_shape _ _ _ Hf)|unfold f_size, FILE_SIZE in *; lia].
Qed.

Section request.
Context (s : sstate) (i n : Z).
Context (Htab : tab_ok s) (Hi : 0 <= i < MAXOPEN).
(** The request names entry [i], which a client has open. *)
Context (Hid : ld32 (f_mem (sv_fs s)) fsreq = o_fileid (opentab s i)) (Href : 1 < pageref s i).
Context (Hready : ready (sv_fs s)) (Hfile : file_ok (sv_fs s) (o_file (opentab s i)) n).
Context (Hsize : 0 <= fsize (sv_fs s) (o_file (opentab s i))).

Let file : Z := o_file (opentab s i).
Let fd : Z := o_fd (opentab s i).
(** The number of bytes asked for, and the seek position. *)
Let req_n : Z := ld32 (f_mem (sv_fs s)) (fsreq + 4).
Let seek : Z := s32 (ld32 (f_mem (sv_fs s)) (fd_offset fd)).

Lemma with_open_run k : with_open k s = k (opentab s i) s.
Proof.
  destruct (Htab i Hi) as (_ & Hmod & _). unfold with_open, req32. mstep. rewrite Z.add_0_r, Hid.
  unfold openfile_lookup. rewrite Hmod. erewrite bind_Ret; [|mstep; mstep; rewrite Z.eqb_refl;
    replace (pageref s i <=? 1) with false by lia; reflexivity]. done.
Qed.

Lemma fd_outside k : 0 <= k < PGSIZE → in_diskmap (fd + k) = false.
Proof. destruct (Htab i Hi) as (_ & _ & E). unfold fd. rewrite E. by apply fd_page. Qed.

Lemma advance_run t f1 r :
  opentab t = opentab s → sv_fs t = f1 → mem_ok (f_mem f1) →
  (∀ k, 0 <= k < 4 → f_mem f1 (fd_offset fd + k) = f_mem (sv_fs s) (fd_offset fd + k)) → 0 <= seek → 0 <= r → seek + r < 2 ^ 31 →
  ∃ f2, advance (opentab s i) r t = (Ret tt, set_sv_fs f2 t) ∧ same_cache f1 f2 ∧
    f_mem f2 = st32 (f_mem f1) (fd_offset fd) (seek + r).
Proof.
  intros Ht <- Hok Hout Hs Hr Hlt. unfold advance. fold fd.
  assert (Hw : ∀ t', warm t' (fd_offset fd)) by (intros; apply warm_outside, (fd_outside 4); done).
  assert (Es : ld32 (f_mem (sv_fs t)) (fd_offset fd) = seek).
  { rewrite (ld32_ext _ (f_mem (sv_fs s)) _ Hout).
    pose proof (ld32_range (f_mem (sv_fs s)) (fd_offset fd) (ready_mem _ Hready)) as Hu.
    unfold is_u32, seek, s32 in *. Z.to_euclidean_division_equations. lia. }
  rewrite (bind_Ret _ _ _ _ _ (fs_Ret _ _ _ _ (fload32_warm _ _ (Hw _)))), Es.
  eexists. split; [rewrite (fs_Ret _ _ _ _ (fstore32_warm _ _ _ (Hw _))); done|].
  split; [by split|]. cbn. by rewrite u32_small by lia.
Qed.

(** The store to the [struct Fd] page leaves the disk map alone. *)
Lemma fd_store_in f1 f2 v x : f_mem f2 = st32 (f_mem f1) (fd_offset fd) v → in_diskmap x = true → f_mem f2 x = f_mem f1 x.
Proof.
  intros -> Hx. apply st32_other_byte. unfold fd_offset.
  destruct (decide (fd + 4 <= x < fd + 4 + 4)); [|lia]. exfalso.
  pose proof (fd_outside (x - fd) ltac:(unfold PGSIZE; lia)) as Ho. replace (fd + (x - fd)) with x in Ho by lia. congruence.
Qed.

Lemma fd_store_files f1 f2 v :
  ready f1 → file_ok f1 file n → same_cache f1 f2 → f_mem f2 = st32 (f_mem f1) (fd_offset fd) v →
  ready f2 ∧ file_ok f2 file n ∧ fsize f2 file = fsize f1 file ∧
  ∀ p, 0 <= p < n * BLKSIZE → faddr (f_mem f2) file p = faddr (f_mem f1) file p.
Proof.
  intros H1 Hf1 Hsame Em.
  assert (Hme : ∀ x, meta f1 file n x → f_mem f2 x = f_mem f1 x).
  { intros x Hx. apply (fd_store_in f1 f2 v); [done|]. by apply (meta_in_diskmap f1 file n). }
  split_and!.
  - apply (ready_frame f1 f2 file n); try done. rewrite Em. by apply st32_ok, H1.
  - by apply (file_ok_frame f1).
  - unfold fsize. apply f_equal, ld32_ext. intros k Hk. apply (fd_store_in f1 f2 v); [done|].
    unfold f_size. rewrite <- Z.add_assoc. apply in_diskmap_field; [apply (fo_shape _ _ _ Hf1)..|unfold FILE_SIZE; lia].
  - intros p Hp. by apply (faddr_frame f1 f2 file n).
Qed.

(** [serve_write]: the bytes that follow the request's header go into the file
    at the seek position, which moves behind them; outside the disk map
    nothing else changes. *)
Lemma serve_write_run :
  0 <= seek → seek + req_n <= n * BLKSIZE → src_ok (sv_fs s) file n (fsreq + 8) req_n →
  ∃ f2, serve_write s = (Ret req_n, set_sv_fs f2 s) ∧ ready f2 ∧ file_ok f2 file n ∧
    fsize f2 file = Z.max (fsize (sv_fs s) file) (seek + req_n) ∧
    (∀ p, 0 <= p < n * BLKSIZE → faddr (f_mem f2) file p = faddr (f_mem (sv_fs s)) file p ∧
       f_mem f2 (faddr (f_mem (sv_fs s)) file p) =
         if (seek <=? p) && (p <? seek + req_n) then f_mem (sv_fs s) (fsreq + 8 + (p - seek))
         else f_mem (sv_fs s) (faddr (f_mem (sv_fs s)) file p)) ∧
    (∀ x, in_diskmap x = false → f_mem f2 x = st32 (f_mem (sv_fs s)) (fd_offset fd) (seek + req_n) x).
Proof.
  intros Hs Hl Hsrc. pose proof (ready_mem _ Hready) as Hm. pose proof (ld32_range _ (fsreq + 4) Hm) as Hn. fold req_n in Hn.
  pose proof (fo_n _ _ _ Hfile) as Hnm. change NMAX with 1034 in Hnm. unfold is_u32 in Hn.
  assert (Hlt : seek + req_n < 2 ^ 31) by (unfold BLKSIZE, PGSIZE in Hl; lia).
  pose proof (Hsize : 0 <= fsize (sv_fs s) file) as Hs0.
  destruct (file_write_spec (sv_fs s) file n (fsreq + 8) req_n seek Hready Hfile) as (f1 & E & H1 & Hf1 & Ha & W); try done; try lia.
  assert (Hout : ∀ x, in_diskmap x = false → f_mem f1 x = f_mem (sv_fs s) x).
  { intros x Hx. apply (written_outside file seek req_n (fsreq + 8) (sv_fs s) f1 n); done || lia. }
  destruct (advance_run (set_sv_fs f1 (set_sv_fs (sv_fs s) s)) f1 req_n) as (f2 & E2 & Hsame & Em); try done; try lia.
  { apply H1. }
  { intros k Hk. apply Hout. unfold fd_offset. rewrite <- Z.add_assoc. apply fd_outside. unfold PGSIZE. lia. }
  destruct (fd_store_files f1 f2 _ H1 Hf1 Hsame Em) as (H2 & Hf2 & Es2 & Ha2).
  exists f2. split_and!; [|done|done|rewrite Es2; apply W| |].
  { unfold serve_write. rewrite with_open_run. unfold req32. mstep. fold req_n. fold fd. fold file.
    rewrite (bind_Ret _ _ _ _ _ (fs_Ret _ _ _ _ (fload32_warm (fd_offset fd) _ (warm_outside _ _ (fd_outside 4 ltac:(done)))))).
    fold seek. rewrite (bind_Ret _ _ _ _ _ (fs_Ret _ (set_sv_fs (sv_fs s) s) _ _ E)).
    replace (req_n <? 0) with false by lia. by rewrite (bind_Ret _ _ _ _ _ E2). }
  - intros p Hp. split; [by rewrite Ha2, Ha by done|].
    rewrite (fd_store_in f1 f2 _ _ Em) by (by apply (faddr_in (sv_fs s) file n _ Hready Hfile)).
    destruct (_ && _) eqn:Er.
    + rewrite <- (fw_in _ _ _ _ _ _ W) by lia. do 2 f_equal. lia.
    + apply (fw_out _ _ _ _ _ _ W); [|by apply (size_not_data (sv_fs s) file n)].
      intros k Hk Eq. apply (faddr_inj (sv_fs s) file n) in Eq; [lia|done|lia|lia].
  - intros x Hx. rewrite Em. unfold st32, st8. by rewrite Hout.
Qed.

Lemma serve_write_spec :
  0 <= seek → seek + req_n <= n * BLKSIZE → src_ok (sv_fs s) file n (fsreq + 8) req_n →
  ∃ s', serve_write s = (Ret req_n, s') ∧
    (∀ k, 0 <= k < req_n → f_mem (sv_fs s') (faddr (f_mem (sv_fs s)) file (seek + k)) = f_mem (sv_fs s) (fsreq + 8 + k)).
Proof.
  intros Hs Hl Hsrc. destruct (serve_write_run Hs Hl Hsrc) as (f2 & E & _ & _ & _ & Hin & _).
  eexists. split; [exact E|]. intros k Hk. destruct (Hin (seek + k) ltac:(lia)) as [_ Hk']. cbn [sv_fs set_sv_fs]. rewrite Hk'.
  replace (_ && _) with true by lia. do 2 f_equal. lia.
Qed.

(** [serve_read]: as many bytes as were asked for, the page holds and the file
    has come from the seek position, which moves behind them. *)
Lemma serve_read_run :
  let r := Z.max 0 (Z.min (Z.min req_n PGSIZE) (fsize (sv_fs s) file - seek)) in
  0 <= seek → fsize (sv_fs s) file <= n * BLKSIZE →
  ∃ f2, serve_read s = (Ret r, set_sv_fs f2 s) ∧ ready f2 ∧ file_ok f2 file n ∧
    fsize f2 file = fsize (sv_fs s) file ∧
    (∀ p, 0 <= p < n * BLKSIZE → faddr (f_mem f2) file p = faddr (f_mem (sv_fs s)) file p ∧
       f_mem f2 (faddr (f_mem (sv_fs s)) file p) = f_mem (sv_fs s) (faddr (f_mem (sv_fs s)) file p)) ∧
    (∀ k, 0 <= k < r → f_mem f2 (fsreq + k) = f_mem (sv_fs s) (faddr (f_mem (sv_fs s)) file (seek + k))) ∧
    (∀ x, in_diskmap x = false → x < fsreq ∨ fsreq + PGSIZE <= x →
       f_mem f2 x = st32 (f_mem (sv_fs s)) (fd_offset fd) (seek + r) x).
Proof.
  intros r Hs Hl. pose proof (ready_mem _ Hready) as Hm. pose proof (ld32_range _ (fsreq + 4) Hm) as Hn. fold req_n in Hn.
  pose proof (fo_n _ _ _ Hfile) as Hnm. change NMAX with 1034 in Hnm. unfold is_u32 in Hn.
  pose proof (s32_range (ld32 (f_mem (sv_fs s)) (fd_offset fd))) as Hsr. fold seek in Hsr.
  assert (Hlt : seek + r < 2 ^ 31) by (unfold BLKSIZE, PGSIZE in *; lia).
  assert (Hreq : ∀ k, 0 <= k < PGSIZE → in_diskmap (fsreq + k) = false).
  { intros k Hk. unfold in_diskmap, fsreq, DISKMAP, PGSIZE in *. lia. }
  assert (Hfdr : ∀ k, 0 <= k < PGSIZE → fd + k < fsreq ∨ fsreq + PGSIZE <= fd + k).
  { intros k Hk. destruct (Htab i Hi) as (_ & _ & Ef). unfold fd. rewrite Ef.
    unfold FILEVA, fsreq, MAXOPEN, PGSIZE in *. lia. }
  destruct (file_read_spec (sv_fs s) file n fsreq (Z.min req_n PGSIZE) seek Hready Hfile) as (m & E & Hmo & Hin & Hout);
    try done; [unfold PGSIZE; lia|intros k Hk; apply Hreq; unfold PGSIZE in *; lia|]. fold r in E, Hin, Hout.
  assert (Hdm : ∀ x, in_diskmap x = true → m x = f_mem (sv_fs s) x).
  { intros x Hx. apply Hout. destruct (decide (fsreq <= x < fsreq + r)); [|lia].
    pose proof (Hreq (x - fsreq) ltac:(unfold PGSIZE in *; lia)) as Hf. replace (fsreq + (x - fsreq)) with x in Hf by lia. congruence. }
  set (f1 := set_f_mem m (sv_fs s)) in *.
  assert (Hme : ∀ x, meta (sv_fs s) file n x → f_mem f1 x = f_mem (sv_fs s) x).
  { intros x Hx. apply Hdm. by apply (meta_in_diskmap (sv_fs s) file n). }
  assert (H1 : ready f1) by (by apply (ready_frame (sv_fs s) f1 file n)).
  assert (Hf1 : file_ok f1 file n) by (by apply (file_ok_frame (sv_fs s))).
  destruct (advance_run (set_sv_fs f1 (set_sv_fs (sv_fs s) s)) f1 r) as (f2 & E2 & Hsame & Em); try done; try lia.
  { intros k Hk. apply Hout. unfold fd_offset. rewrite <- Z.add_assoc. destruct (Hfdr (4 + k) ltac:(unfold PGSIZE; lia)); [by left|].
    right. unfold PGSIZE in *. lia. }
  destruct (fd_store_files f1 f2 _ H1 Hf1 Hsame Em) as (H2 & Hf2 & Es2 & Ha2).
  exists f2. split_and!; [|done|done| | | |].
  { unfold serve_read. rewrite with_open_run. unfold req32. mstep. fold req_n. fold fd. fold file. cbv zeta.
    rewrite (bind_Ret _ _ _ _ _ (fs_Ret _ _ _ _ (fload32_warm (fd_offset fd) _ (warm_outside _ _ (fd_outside 4 ltac:(done)))))).
    fold seek. rewrite (bind_Ret _ _ _ _ _ (fs_Ret _ (set_sv_fs (sv_fs s) s) _ _ E)).
    replace (r <? 0) with false by lia. by rewrite (bind_Ret _ _ _ _ _ E2). }
  - rewrite Es2. unfold fsize. apply f_equal, ld32_ext. intros k Hk. apply Hdm.
    unfold f_size. rewrite <- Z.add_assoc. apply in_diskmap_field; [apply (fo_shape _ _ _ Hfile)..|unfold FILE_SIZE; lia].
  - intros p Hp. split; [rewrite Ha2 by done; by apply (faddr_frame (sv_fs s) f1 file n)|].
    pose proof (faddr_in (sv_fs s) file n p Hready Hfile Hp) as [Hx _].
    rewrite (fd_store_in f1 f2 _ _ Em) by done. by apply Hdm.
  - intros k Hk. rewrite Em, st32_other_byte; [by apply Hin|].
    destruct (Hfdr 4), (Hfdr 7); unfold fd_offset, PGSIZE in *; lia.
  - intros x Hx Hr. rewrite Em. unfold st32, st8. cbn [f1 f_mem set_f_mem]. rewrite Hout; [done|unfold PGSIZE in *; lia].
Qed.

(** [serve_write] does not bound the size a client claims for its request.
    Bytes beyond the request page come from the page that follows it in the
    server's address space, which is the disk map: the client gets the disk's
    blocks, whatever they hold, copied into its file. *)
Theorem serve_write_overread :
  0 <= seek → seek + req_n <= n * BLKSIZE → src_ok (sv_fs s) file n (fsreq + 8) req_n →
  ∃ s', serve_write s = (Ret req_n, s') ∧
    ∀ j, 0 <= j < req_n - (PGSIZE - 8) →
      f_mem (sv_fs s') (faddr (f_mem (sv_fs s)) file (seek + (PGSIZE - 8) + j)) = f_mem (sv_fs s) (DISKMAP + j).
Proof.
  intros Hs Hl Hsrc. destruct (serve_write_spec Hs Hl Hsrc) as (s' & E & Hin). exists s'. split; [done|].
  intros j Hj. rewrite <- Z.add_assoc, Hin by (unfold PGSIZE in *; lia). f_equal.
  change DISKMAP with (fsreq + 8 + (PGSIZE - 8)). lia.
Qed.
End request.
