(* ===== verification/FsDemo.v ===== *)
(** * A small file system

    A disk of eight blocks, with one file of two blocks in the root directory,
    on which the theorems about the file server are applied. *)

From S2P Require Import Prelude Mmu Console KState CString BlockCache Fs FsBitmap FsFile FsSpec FsInit Serv ServSpec.
Open Scope Z_scope.

Definition store_words (l : list (Z * Z)) (m : memory) : memory :=
  foldl (λ m p, st32 m (fst p) (snd p)) m l.

(** The file [a] is the first entry of the root directory.  The request page
    holds a request to write 4188 bytes to the file with id 1024. *)
Definition demo_file : Z := blockaddr 3.

Definition demo_image : memory :=
  store_words
    [(s_magic, FS_MAGIC); (s_nblocks, 8); (f_size s_root, BLKSIZE); (f_type s_root, FTYPE_DIR); (f_direct s_root 0, 3);
     (BITMAP, 0xC0);
     (demo_file, 97); (f_size demo_file, 5000); (f_direct demo_file 0, 4); (f_direct demo_file 1, 5);
     (blockaddr 4 + 100, 0x64636261); (fsreq, 1024); (fsreq + 4, 4188)]
    (λ _, 0).

Definition demo_fs : fstate := mkFs demo_image demo_image (λ b, b <? 8) (λ _, false) 4 true true.
Definition demo_cold : fstate := mkFs demo_image demo_image (λ b, b <? 4) (λ _, false) 4 true true.
Definition demo_boot : fstate := mkFs (λ _, 0) demo_image (λ _, false) (λ _, false) 4 false false.

Lemma store_words_ok l m : mem_ok m → mem_ok (store_words l m).
Proof. revert m. induction l as [|p l IH]; intros m Hm; [done|]. by apply IH, st32_ok. Qed.

Lemma demo_image_ok : mem_ok demo_image.
Proof. apply store_words_ok. intros x. by split. Qed.

Lemma demo_nblocks : ld32 demo_image s_nblocks = 8.
Proof. vm_compute. reflexivity. Qed.

(** The servers that have the superblock and the bitmap cached. *)
Lemma demo_ready_gen mapped dirty pages :
  mapped 1 = true → mapped 2 = true → ready (mkFs demo_image demo_image mapped dirty pages true true).
Proof.
  intros H1 H2. split; try done; unfold nblocks; cbn [f_mem].
  - apply demo_image_ok.
  - rewrite demo_nblocks. intros b Hb. cbn [f_mapped]. replace (b / BLKBITSIZE) with 0; [done|].
    symmetry. apply Z.div_small. change BLKBITSIZE with 32768. lia.
Qed.

Lemma demo_ready : ready demo_fs.
Proof. by apply demo_ready_gen. Qed.

Lemma demo_ready_cold : ready demo_cold.
Proof. by apply demo_ready_gen. Qed.

Lemma demo_bno : bno demo_image demo_file 0 = 4 ∧ bno demo_image demo_file 1 = 5 ∧ bno demo_image s_root 0 = 3.
Proof. vm_compute. done. Qed.

Lemma two_cases i : 0 <= i < 2 → i = 0 ∨ i = 1.
Proof. lia. Qed.

Lemma demo_shape_gen mapped dirty pages :
  mapped 3 = true → file_shape (mkFs demo_image demo_image mapped dirty pages true true) demo_file 2.
Proof.
  intros H3. destruct demo_bno as (E0 & E1 & _). split; try done; unfold nblocks; cbn [f_mem]; rewrite ?demo_nblocks.
  - by right.
  - intros i [-> | ->]%two_cases; [rewrite E0|rewrite E1]; lia.
  - intros i j [-> | ->]%two_cases [-> | ->]%two_cases; rewrite ?E0, ?E1; done.
  - intros i [-> | ->]%two_cases; [rewrite E0|rewrite E1]; done.
Qed.

Lemma demo_file_ok : file_ok demo_fs demo_file 2.
Proof.
  split; [by apply demo_shape_gen|]. destruct demo_bno as (E0 & E1 & _). cbn [f_mem demo_fs].
  intros i [-> | ->]%two_cases; [by rewrite E0|by rewrite E1].
Qed.

Lemma demo_root_ok : file_ok demo_fs s_root 1.
Proof.
  destruct demo_bno as (_ & _ & E). split; [split; try done; unfold nblocks; cbn [f_mem demo_fs]; rewrite ?demo_nblocks|].
  - by left.
  - intros i Hi. replace i with 0 by lia. rewrite E. lia.
  - intros i j Hi Hj _. lia.
  - intros i Hi. replace i with 0 by lia. rewrite E. done.
  - intros i Hi. replace i with 0 by lia. cbn [f_mem demo_fs]. by rewrite E.
Qed.

Lemma demo_coherent : coherent demo_fs.
Proof. by intros b k. Qed.

Lemma demo_fsize : fsize demo_fs demo_file = 5000 ∧ fsize demo_fs s_root = 4096.
Proof. vm_compute. done. Qed.

Lemma demo_bits : is_free demo_fs 0 = false ∧ is_free demo_fs 6 = true ∧ is_free demo_fs 5 = false.
Proof. vm_compute. done. Qed.

(** ** The theorems at work *)

Lemma alloc_block_correct_witness : ∃ b s', alloc_block demo_fs = (Ret b, s') ∧ is_free demo_fs b = true.
Proof.
  destruct (alloc_block_correct demo_fs demo_ready) as [(b & s' & E & _ & H & _)|[Hno _]]; [exists b, s'; split; assumption|].
  exfalso. specialize (Hno 6 ltac:(unfold nblocks; cbn [f_mem demo_fs]; rewrite demo_nblocks; lia)).
  rewrite (proj1 (proj2 demo_bits)) in Hno. discriminate Hno.
Defined.

Lemma low_not_diskmap a k : 0 <= a → a + k < DISKMAP → in_diskmap (a + k) = false.
Proof. unfold in_diskmap. lia. Qed.

Lemma file_write_read_witness :
  ∃ s1, file_write demo_file 0x800000 3 4990 demo_fs = (Ret 3, s1) ∧ fsize s1 demo_file = 5000.
Proof.
  destruct (file_write_read demo_fs demo_file 2 demo_ready demo_file_ok) with (buf := 0x800000) (count := 3) (offset := 4990)
    as (s1 & E & Es & _).
  - rewrite (proj1 demo_fsize). change (2 * BLKSIZE) with 8192. lia.
  - lia.
  - lia.
  - by vm_compute.
  - intros k Hk. apply low_not_diskmap; unfold DISKMAP; lia.
  - exists s1. split; [done|]. rewrite Es, (proj1 demo_fsize). done.
Defined.

Lemma file_flush_durable_witness :
  ∃ s2, (file_write demo_file 0x800000 3 4990;; file_flush demo_file) demo_fs = (Ret tt, s2) ∧
    f_disk s2 (faddr (f_mem demo_fs) demo_file (4990 + 1)) = 0.
Proof.
  destruct (file_flush_durable demo_fs demo_file 2 demo_ready demo_file_ok) with (buf := 0x800000) (count := 3) (offset := 4990)
    as (s2 & E & Hd & _).
  - rewrite (proj1 demo_fsize). change (2 * BLKSIZE) with 8192. lia.
  - apply demo_coherent.
  - lia.
  - lia.
  - by vm_compute.
  - intros k Hk. apply low_not_diskmap; unfold DISKMAP; lia.
  - rewrite (proj1 demo_fsize). by vm_compute.
  - by vm_compute.
  - exists s2. split; [done|]. rewrite (Hd 1) by lia. by vm_compute.
Defined.

Lemma bc_pgfault_loads_witness :
  ∃ s', touch FAULTS (blockaddr 4) demo_cold = (Ret tt, s') ∧ f_mapped s' 4 = true.
Proof.
  destruct (bc_pgfault_loads demo_cold (blockaddr 4) demo_ready_cold demo_image_ok eq_refl eq_refl eq_refl)
    as (s' & E & _ & _ & Hm & _).
  - unfold nblocks. cbn [f_mem demo_cold]. rewrite demo_nblocks. by vm_compute.
  - done.
  - exists s'. split; [|exact Hm]. rewrite E. change (blockno_of (blockaddr 4)) with 4.
    replace (is_free demo_cold 4) with false by (vm_compute; reflexivity). done.
Defined.

Lemma file_read_cold_panics_witness :
  ∃ s', file_read demo_file 0x800000 4 100 demo_cold = (Stop (FsPanic "in bc_pgfault, sys_page_map"), s').
Proof.
  apply (file_read_cold_panics demo_cold demo_file 2).
  - apply demo_ready_cold.
  - by apply demo_shape_gen.
  - by vm_compute.
  - by vm_compute.
  - done.
  - done.
  - change (100 / BLKSIZE) with 0. cbn [f_mem demo_cold]. by rewrite (proj1 demo_bno).
  - done.
Defined.

Lemma file_get_block_alloc_witness :
  ∃ s', file_get_block demo_file 2 demo_fs = (Ret (inr (blockaddr 6)), s').
Proof.
  destruct (file_get_block_alloc demo_fs demo_file 2 demo_ready) as [(b & s' & Hb & Hf & Hlt & E & _)|[Hno _]].
  - destruct (demo_shape_gen (λ b, b <? 8) (λ _, false) 4 eq_refl) as [? ? ? ? ? ? ? ? ?]. by split; try done; lia.
  - done.
  - by vm_compute.
  - unfold nblocks. cbn [f_mem demo_fs]. rewrite demo_nblocks. intros x Hx.
    rewrite Z.div_small by (change BLKBITSIZE with 32768; lia). done.
  - apply demo_bits.
  - exists s'. rewrite E. do 3 f_equal. destruct demo_bits as (H0 & H6 & H5).
    destruct (Z.lt_trichotomy b 6) as [Hlo|[->|Hhi]]; [|done|].
    + exfalso. assert (Hall : ∀ x, 0 <= x < 6 → is_free demo_fs x = false).
      { intros x Hx. assert (x = 0 ∨ x = 1 ∨ x = 2 ∨ x = 3 ∨ x = 4 ∨ x = 5) as [->|[->|[->|[->|[->| ->]]]]] by lia;
          vm_compute; reflexivity. }
      rewrite Hall in Hf by lia. discriminate Hf.
    + rewrite Hlt in H6 by lia. discriminate H6.
  - exfalso. specialize (Hno 6 ltac:(unfold nblocks; cbn [f_mem demo_fs]; rewrite demo_nblocks; lia)).
    rewrite (proj1 (proj2 demo_bits)) in Hno. discriminate Hno.
Defined.

Lemma dir_lookup_correct_witness : dir_lookup s_root [97] demo_fs = (Ret (inr demo_file), demo_fs).
Proof.
  destruct (dir_lookup_correct demo_fs s_root 1 demo_ready demo_root_ok (proj2 demo_fsize) [97]) as (r & E & Hr).
  rewrite E. destruct r as [e|f].
  - exfalso. destruct Hr as [_ Hr]. apply Forall_inv in Hr. revert Hr. vm_compute. done.
  - destruct Hr as (l1 & l2 & El & Hf & Hl). destruct l1 as [|g l1].
    + injection El as <- _. done.
    + exfalso. injection El as <- _. apply Forall_inv in Hl. revert Hl. vm_compute. done.
Defined.

Lemma fs_init_correct_witness :
  ∃ s', fs_init demo_boot = (Ret tt, s') ∧ nblocks s' = 8.
Proof.
  destruct (fs_init_correct demo_boot) as (s' & E & _ & _ & _ & En & _).
  - split; try done. apply demo_image_ok.
  - done.
  - done.
  - done.
  - split; [by vm_compute|cbn [f_disk demo_boot]; rewrite demo_nblocks; by vm_compute|].
    intros b Hb. assert (b = 0 ∨ b = 1 ∨ b = 2) as [->|[->| ->]] by lia; vm_compute; reflexivity.
  - exists s'. split; [done|]. rewrite En. apply demo_nblocks.
Defined.

(** ** The server *)

(** The file [a] is open as entry 0; the other entries have no page. *)
Definition demo_serv : sstate :=
  mkServ demo_fs
    (λ i, mkOpenFile (if i =? 0 then 1024 else i) demo_file 0 (FILEVA + i * PGSIZE))
    (λ i, if i =? 0 then 2 else 0).

Lemma demo_tab : tab_ok demo_serv.
Proof.
  intros i Hi. unfold MAXOPEN in *. cbn. destruct (Z.eqb_spec i 0) as [->|]; [done|].
  split_and!; [unfold is_u32; lia|by apply Z.mod_small|done].
Qed.

Lemma demo_src : src_ok demo_fs demo_file 2 (fsreq + 8) 4188.
Proof.
  intros k Hk. change (fsreq + 8) with (DISKMAP - 4088). split_and!.
  - intros Hd. unfold in_diskmap in Hd. replace (DISKMAP - 4088 + k) with (blockaddr 0 + (k - 4088)) by (unfold blockaddr; lia).
    rewrite blockno_of_blockaddr; [done|done|unfold BLKSIZE, PGSIZE; lia].
  - intros p Hp. unfold faddr. pose proof (Z.mod_pos_bound p BLKSIZE ltac:(done)). destruct demo_bno as (E0 & E1 & _).
    change (f_mem demo_fs) with demo_image. pose proof (block_index 2 p Hp) as [Ei|Ei]%two_cases; rewrite Ei; rewrite ?E0, ?E1;
      unfold blockaddr, BLKSIZE, PGSIZE in *; lia.
  - left. unfold f_size, demo_file, blockaddr, BLKSIZE, PGSIZE. lia.
Qed.

Lemma demo_request :
  ld32 demo_image fsreq = 1024 ∧ ld32 demo_image (fsreq + 4) = 4188 ∧ ld32 demo_image (fd_offset FILEVA) = 0.
Proof. vm_compute. done. Qed.

Lemma openfile_alloc_correct_witness : ∃ r s', openfile_alloc demo_serv = (Ret (r, Some 1), s').
Proof.
  destruct (openfile_alloc_correct demo_serv demo_tab) as [(i & s' & E & Hi & Hu & Hlt & _)|[[Hall _]|[Hp _]]].
  - exists (s32 (o_fileid (opentab s' i))), s'. rewrite E. do 3 f_equal.
    destruct (Z.lt_trichotomy i 1) as [Hlo|[->|Hhi]]; [|done|].
    + destruct Hu. replace i with 0 by lia. split; discriminate.
    + destruct (Hlt 1 ltac:(lia)) as [H0 _]. by destruct H0.
  - destruct (Hall 1 ltac:(unfold MAXOPEN; lia)) as [H0 _]. by destruct H0.
  - revert Hp. cbn. lia.
Defined.

Lemma serve_write_overread_witness :
  ∃ s', serve_write demo_serv = (Ret 4188, s') ∧
    f_mem (sv_fs s') (faddr demo_image demo_file (0 + (PGSIZE - 8) + 7)) = demo_image (DISKMAP + 7).
Proof.
  destruct demo_request as (Ei & En & Eo).
  destruct (serve_write_overread demo_serv 0 2 demo_tab) as (s' & E & H).
  - done.
  - exact Ei.
  - done.
  - apply demo_ready.
  - apply demo_file_ok.
  - cbn [o_file opentab demo_serv sv_fs]. rewrite (proj1 demo_fsize). lia.
  - cbn [o_fd opentab demo_serv sv_fs f_mem demo_fs]. change (FILEVA + 0 * PGSIZE) with FILEVA. rewrite Eo. done.
  - cbn [o_fd opentab demo_serv sv_fs f_mem demo_fs]. change (FILEVA + 0 * PGSIZE) with FILEVA. rewrite Eo, En. by vm_compute.
  - cbn [o_file opentab demo_serv sv_fs f_mem demo_fs]. rewrite En. apply demo_src.
  - cbn [o_fd o_file opentab demo_serv sv_fs f_mem demo_fs] in E, H. change (FILEVA + 0 * PGSIZE) with FILEVA in H.
    rewrite En in E, H. rewrite Eo in H. exists s'. split; [exact E|]. exact (H 7 ltac:(unfold PGSIZE; lia)).
Defined.
