(* ===== verification/UserLib.v ===== *)
(** * The user library's view of the machine ([lib/syscall.c], [lib/pageref.c])

    User programs see the machine through four things: the system-call trap,
    byte accesses to their own memory (which may fault), and the read-only
    arrays [pages] and [envs] the kernel maps at [UPAGES] and [UENVS].  The
    class [Machine] is that interface, over a type [S] of machine states; the
    library is written against it.  [UserVmKernel] implements it with the
    kernel of this development.

    A user computation [U A] returns, or stops: by a panic of the program, by
    a page fault it takes, or because the kernel does not come back. *)

From S2P Require Import Prelude Mmu Console KState.
Open Scope Z_scope.

Inductive ustop : Type :=
  | UPanic (msg : string)     (** [panic], a failed [assert] *)
  | UFault (va : Z)           (** an access the page tables do not allow *)
  | UKernel (e : stopped).    (** the trap does not return here *)

Class Machine (S : Type) := {
  int_syscall : Z → Z → Z → Z → Z → Z → M S ustop Z;
  uload8 : Z → M S ustop Z;
  ustore8 : Z → Z → M S ustop unit;
  upages : Z → M S ustop PageInfo;
  uenvs : Z → M S ustop Env;
}.

(** ** Constants of [inc/lib.h], [inc/memlayout.h], [lib/fork.c] *)

Definition PTE_SHARE : Z := 0x400.
Definition PTE_COW : Z := 0x800.
Definition UTEMP : Z := PTSIZE.
Definition PFTEMP : Z := UTEMP + PTSIZE - PGSIZE.

Section userlib.
Context {S : Type} `{Machine S}.
Abbreviation U := (M S ustop).

Definition upanic {A} (msg : string) : U A := stop (UPanic msg).

Definition uassert (b : bool) (msg : string) : U unit := if b then mret tt else upanic msg.

(** Little-endian words. *)
Definition uload32 (a : Z) : U Z :=
  b0 ← uload8 a; b1 ← uload8 (u32 (a + 1)); b2 ← uload8 (u32 (a + 2)); b3 ← uload8 (u32 (a + 3));
  mret (b0 + b1 * 2 ^ 8 + b2 * 2 ^ 16 + b3 * 2 ^ 24).

Definition ustore32 (a v : Z) : U unit :=
  ustore8 a v;; ustore8 (u32 (a + 1)) (Z.shiftr v 8);;
  ustore8 (u32 (a + 2)) (Z.shiftr v 16);; ustore8 (u32 (a + 3)) (Z.shiftr v 24).

(** [uvpt[pn]] and [uvpd[i]]: the page tables, mapped at [UVPT]. *)
Definition uvpt (pn : Z) : U Z := uload32 (UVPT + 4 * pn).
Definition uvpd (i : Z) : U Z := uload32 (UVPT + Z.shiftr UVPT 12 * 4 + 4 * i).

(** [rep movs], up or down, by words or by bytes. *)
Definition umovsl (d s : Z) : U unit := w ← uload32 s; ustore32 d w.
Definition umovsb (d s : Z) : U unit := b ← uload8 s; ustore8 d b.

Definition umemmove (dst src n : Z) : U unit :=
  let words := (src mod 4 =? 0) && (dst mod 4 =? 0) && (n mod 4 =? 0) in
  if (src <? dst) && (dst <? src + n) then
    if ((src + n) mod 4 =? 0) && ((dst + n) mod 4 =? 0) && (n mod 4 =? 0)
    then mfor (reverse (seqZ 0 (n / 4))) (λ i, umovsl (dst + 4 * i) (src + 4 * i))
    else mfor (reverse (seqZ 0 n)) (λ i, umovsb (dst + i) (src + i))
  else if words then mfor (seqZ 0 (n / 4)) (λ i, umovsl (dst + 4 * i) (src + 4 * i))
  else mfor (seqZ 0 n) (λ i, umovsb (dst + i) (src + i)).

(** ** [lib/syscall.c]

    The arguments are the five words in the registers; the result is the
    signed word in [%eax]. *)

Definition syscall (num : Z) (check : bool) (a1 a2 a3 a4 a5 : Z) : U Z :=
  ret ← int_syscall num a1 a2 a3 a4 a5;
  if check && (0 <? ret) then upanic "syscall returned (> 0)" else mret ret.

Definition sys_env_destroy (envid : Z) : U Z := syscall 3 true (u32 envid) 0 0 0 0.
Definition sys_getenvid : U Z := syscall 2 false 0 0 0 0 0.
Definition sys_yield : U unit := _ ← syscall 11 false 0 0 0 0 0; mret tt.
Definition sys_page_alloc (envid va perm : Z) : U Z :=
  syscall 4 true (u32 envid) va (u32 perm) 0 0.
Definition sys_page_map (srcenv srcva dstenv dstva perm : Z) : U Z :=
  syscall 5 true (u32 srcenv) srcva (u32 dstenv) dstva (u32 perm).
Definition sys_page_unmap (envid va : Z) : U Z := syscall 6 true (u32 envid) va 0 0 0.
Definition sys_exofork : U Z := int_syscall 7 0 0 0 0 0.
Definition sys_env_set_status (envid status : Z) : U Z :=
  syscall 8 true (u32 envid) (u32 status) 0 0 0.
Definition sys_env_set_pgfault_upcall (envid upcall : Z) : U Z :=
  syscall 10 true (u32 envid) upcall 0 0 0.
Definition sys_ipc_try_send (envid value srcva perm : Z) : U Z :=
  syscall 12 false (u32 envid) value srcva (u32 perm) 0.
Definition sys_ipc_recv (dstva : Z) : U Z := syscall 13 true dstva 0 0 0 0.

(** ** [lib/pageref.c] *)

Definition pageref (v : Z) : U Z :=
  d ← uvpd (PDX v);
  if Z.land d PTE_P =? 0 then mret 0
  else
    pte ← uvpt (PGNUM v);
    if Z.land pte PTE_P =? 0 then mret 0
    else pi ← upages (PGNUM pte); mret (pp_ref pi).

End userlib.

Abbreviation U S := (M S ustop).
