(* ===== verification/UserVm.v ===== *)
(** * What the kernel promises to user-level memory management

    The class [UserVm]: a machine whose states have, for every environment, a
    partial map from page numbers below [UTOP] to page-table entries
    ([uv_map]) and the bytes of the pages ([uv_byte]), and whose system calls
    and memory accesses act on them as the manual of the kernel says.
    [uv_ok s n] is the machine's invariant, together with room for [n] more
    references to any page; [uv_free] counts the pages left.

    The user library is verified against this class; [UserVmKernel] proves
    that the kernel implements it. *)

From S2P Require Import Prelude Mmu Console KState AddrSpace Syscall SyscallSpec UserLib.
Open Scope Z_scope.

(** Page numbers of user addresses. *)
Definition NUPAGES : Z := PGNUM UTOP.
Definition upn (pn : Z) : Prop := 0 <= pn < NUPAGES.

Definition flag (t k : Z) : bool := negb (Z.land t k =? 0).

Class UserVm (S : Type) `{Machine S} := {
  uv_self : S → Z;                        (** the running environment *)
  uv_name : S → Z → option Z;             (** the environment an id names for it *)
  uv_map : S → Z → Z → option Z;          (** environment, page number: its entry *)
  uv_byte : S → Z → Z → Z;                (** page, offset: the byte *)
  uv_env : S → Z → option Env;
  uv_free : S → Z;
  uv_slot : S → Prop;                     (** an environment can be created *)
  uv_ok : S → Z → Prop;

  uv_mapped (s : S) (g : Z) : Prop := ∃ e pn t, upn pn ∧ uv_map s e pn = Some t ∧ PGNUM t = g;
  (** The bytes of the pages that stay mapped stay the same. *)
  uv_kept (s s' : S) : Prop :=
    ∀ g k, uv_mapped s g → uv_mapped s' g → 0 <= k < 4096 → uv_byte s' g k = uv_byte s g k;
  (** Who runs and who may be named does not change. *)
  uv_same (s s' : S) : Prop :=
    uv_self s' = uv_self s ∧ (∀ id, uv_name s' id = uv_name s id) ∧ (uv_slot s → uv_slot s');
  uv_same_env (s s' : S) : Prop := ∀ e, uv_env s' e = uv_env s e;
  (** Exactly the entry of page [pn] of [e] changes, to [o]. *)
  uv_update (s s' : S) (e pn : Z) (o : option Z) : Prop :=
    ∀ e' pn', upn pn' → uv_map s' e' pn' = if decide (e' = e ∧ pn' = pn) then o else uv_map s e' pn';

  uv_mono s n m : uv_ok s n → m <= n → uv_ok s m;
  uv_self_name s n : uv_ok s n → uv_name s 0 = Some (uv_self s);
  uv_entry s n e pn t : uv_ok s n → upn pn → uv_map s e pn = Some t → is_u32 t ∧ present t = true;
  uv_bytes s n g k : uv_ok s n → is_u8 (uv_byte s g k);

  uv_alloc s n id e pn perm :
    uv_ok s (n + 1) → uv_name s id = Some e → upn pn → perm_ok perm = true → 2 <= uv_free s →
    ∃ s' f, sys_page_alloc id (pn * PGSIZE) perm s = (Ret 0, s') ∧
      uv_ok s' n ∧ uv_same s s' ∧ uv_same_env s s' ∧ uv_free s - 2 <= uv_free s' ∧
      ¬ uv_mapped s f ∧ 0 <= f ∧ uv_update s s' e pn (Some (f * 4096 + perm)) ∧
      (∀ k, 0 <= k < 4096 → uv_byte s' f k = 0) ∧ uv_kept s s';
  uv_share s n id1 e1 pn1 id2 e2 pn2 perm t :
    0 <= n → uv_ok s (n + 1) → uv_name s id1 = Some e1 → uv_name s id2 = Some e2 → upn pn1 → upn pn2 →
    perm_ok perm = true → uv_map s e1 pn1 = Some t → (flag perm PTE_W = true → flag t PTE_W = true) →
    1 <= uv_free s →
    ∃ s', sys_page_map id1 (pn1 * PGSIZE) id2 (pn2 * PGSIZE) perm s = (Ret 0, s') ∧
      uv_ok s' n ∧ uv_same s s' ∧ uv_same_env s s' ∧ uv_free s - 1 <= uv_free s' ∧
      uv_update s s' e2 pn2 (Some (PGNUM t * 4096 + perm)) ∧ uv_kept s s';
  uv_unmap s n id e pn :
    uv_ok s n → uv_name s id = Some e → upn pn →
    ∃ s', sys_page_unmap id (pn * PGSIZE) s = (Ret 0, s') ∧
      uv_ok s' n ∧ uv_same s s' ∧ uv_same_env s s' ∧ uv_free s <= uv_free s' ∧
      uv_update s s' e pn None ∧ uv_kept s s';
  uv_share_none s n id1 e1 pn1 id2 e2 pn2 perm :
    uv_ok s n → uv_name s id1 = Some e1 → uv_name s id2 = Some e2 → upn pn1 → upn pn2 → uv_map s e1 pn1 = None →
    sys_page_map id1 (pn1 * PGSIZE) id2 (pn2 * PGSIZE) perm s = (Ret (- E_INVAL), s);
  (** The page directory does not change when a page is unmapped. *)
  uv_unmap_table s n id e pn s' pn' d :
    uv_ok s n → uv_name s id = Some e → upn pn → sys_page_unmap id (pn * PGSIZE) s = (Ret 0, s') →
    upn pn' → uvpd (pn' / 1024) s = (Ret d, s) → uvpd (pn' / 1024) s' = (Ret d, s');
  uv_exofork s n :
    uv_ok s (n + 1) → uv_slot s → 1 <= uv_free s →
    ∃ s' id e, sys_exofork s = (Ret id, s') ∧
      uv_ok s' n ∧ 0 < id < 2 ^ 31 ∧ uv_self s' = uv_self s ∧ uv_free s - 1 <= uv_free s' ∧
      uv_name s' id = Some e ∧ e ≠ uv_self s ∧
      (∀ id' e', uv_name s id' = Some e' → uv_name s' id' = Some e') ∧
      (∀ pn, upn pn → uv_map s e pn = None) ∧
      (∀ e' pn, upn pn → uv_map s' e' pn = uv_map s e' pn) ∧ uv_kept s s' ∧
      (∃ v, uv_env s' e = Some v ∧ env_status v = ENV_NOT_RUNNABLE);
  uv_set_status s n id e v :
    uv_ok s n → uv_name s id = Some e → uv_env s e = Some v →
    ∃ s', sys_env_set_status id 2 s = (Ret 0, s') ∧
      uv_ok s' n ∧ uv_same s s' ∧ uv_free s' = uv_free s ∧
      (∀ e' pn, uv_map s' e' pn = uv_map s e' pn) ∧ (∀ g k, uv_byte s' g k = uv_byte s g k) ∧
      (∀ e', uv_env s' e' = if decide (e' = e) then Some (set_env_status ENV_RUNNABLE v) else uv_env s e');
  uv_set_upcall s n id e v upcall :
    uv_ok s n → uv_name s id = Some e → uv_env s e = Some v →
    ∃ s', sys_env_set_pgfault_upcall id upcall s = (Ret 0, s') ∧
      uv_ok s' n ∧ uv_same s s' ∧ uv_free s' = uv_free s ∧
      (∀ e' pn, uv_map s' e' pn = uv_map s e' pn) ∧ (∀ g k, uv_byte s' g k = uv_byte s g k) ∧
      (∀ e', uv_env s' e' = if decide (e' = e) then Some (set_env_pgfault_upcall upcall v) else uv_env s e');

  uv_load s n pn k t :
    uv_ok s n → upn pn → 0 <= k < PGSIZE → uv_map s (uv_self s) pn = Some t → flag t PTE_U = true →
    uload8 (pn * PGSIZE + k) s = (Ret (uv_byte s (PGNUM t) k), s);
  uv_store s n pn k t b :
    uv_ok s n → upn pn → 0 <= k < PGSIZE → uv_map s (uv_self s) pn = Some t →
    flag t PTE_U = true → flag t PTE_W = true →
    ∃ s', ustore8 (pn * PGSIZE + k) b s = (Ret tt, s') ∧
      uv_ok s' n ∧ uv_same s s' ∧ uv_same_env s s' ∧ uv_free s' = uv_free s ∧
      (∀ e' pn', upn pn' → uv_map s' e' pn' = uv_map s e' pn') ∧
      (∀ g k', 0 <= k' < 4096 →
         uv_byte s' g k' = if decide (g = PGNUM t ∧ k' = k) then u8 b else uv_byte s g k');
  uv_store_fault s n pn k b :
    uv_ok s n → upn pn → 0 <= k < PGSIZE →
    (∀ t, uv_map s (uv_self s) pn = Some t → flag t PTE_W = false) →
    ustore8 (pn * PGSIZE + k) b s = (Stop (UFault (pn * PGSIZE + k)), s);
  (** The page tables as the program sees them at [UVPT]. *)
  uv_uvpt s n pn :
    uv_ok s n → upn pn →
    ∃ d, uvpd (pn / 1024) s = (Ret d, s) ∧
      if flag d PTE_P then ∃ t, uvpt pn s = (Ret t, s) ∧
        uv_map s (uv_self s) pn = if flag t PTE_P then Some t else None
      else uv_map s (uv_self s) pn = None;
}.

(** ** Derived facts *)

(** A loop over consecutive numbers. *)
Lemma mfor_seqZ {S E} (P : Z → S → Prop) (f : Z → M S E unit) lo n s :
  0 <= n → P lo s →
  (∀ i s, lo <= i < lo + n → P i s → ∃ s', f i s = (Ret tt, s') ∧ P (i + 1) s') →
  ∃ s', mfor (seqZ lo n) f s = (Ret tt, s') ∧ P (lo + n) s'.
Proof.
  intros Hn. revert lo s. pattern n. apply natlike_ind; [..|done].
  - intros lo s HP _. exists s. by rewrite Z.add_0_r.
  - clear n Hn. intros n Hn IH lo s HP Hf.
    rewrite seqZ_cons by lia. cbn [mfor].
    destruct (Hf lo s ltac:(lia) HP) as (s1 & Hrun & HP1). mrun (exact Hrun).
    replace (Z.pred (Z.succ n)) with n by lia.
    destruct (IH (Z.succ lo) s1 HP1) as (s2 & Hrun2 & HP2).
    { intros i s' Hi. apply Hf. lia. }
    exists s2. split; [exact Hrun2|]. by replace (lo + Z.succ n) with (Z.succ lo + n) by lia.
Qed.

Lemma flag_frame f perm k :
  0 <= perm < 4096 → 0 <= k < 12 → flag (f * 4096 + perm) (2 ^ k) = Z.testbit perm k.
Proof.
  intros Hp Hk. unfold flag. rewrite <- pte_lor by done. change 4096 with (2 ^ 12).
  rewrite land_pow2, Z.lor_spec, Z.mul_pow2_bits_low by lia. cbn [orb].
  destruct (Z.testbit perm k); [|done]. pose proof (Z.pow_pos_nonneg 2 k). by destruct (Z.eqb_spec (2 ^ k) 0); [lia|].
Qed.

Section uservm.
Context {S : Type} `{UserVm S}.
Implicit Types s : S.

Definition uv_quiet (n : Z) (s s' : S) : Prop :=
  uv_ok s' n ∧ uv_same s s' ∧ uv_same_env s s' ∧ uv_free s' = uv_free s ∧
  (∀ e' pn', upn pn' → uv_map s' e' pn' = uv_map s e' pn').

Lemma uv_quiet_refl n s : uv_ok s n → uv_quiet n s s.
Proof. intros. split_and!; try done. Qed.

Lemma uv_same_trans s1 s2 s3 : uv_same s1 s2 → uv_same s2 s3 → uv_same s1 s3.
Proof.
  intros (H1 & H2 & H3) (G1 & G2 & G3). split_and!; [congruence| |auto]. intros id. by rewrite G2.
Qed.

Lemma uv_quiet_trans n s1 s2 s3 : uv_quiet n s1 s2 → uv_quiet n s2 s3 → uv_quiet n s1 s3.
Proof.
  intros (_ & H2 & H3 & H4 & H5) (G1 & G2 & G3 & G4 & G5).
  split_and!; [done|by eapply uv_same_trans| |congruence|].
  - intros e. by rewrite G3.
  - intros e pn Hpn. by rewrite G5, H5.
Qed.

(** The word at offset [k] of page [g]. *)
Definition uv_word (s : S) (g k : Z) : Z :=
  uv_byte s g k + uv_byte s g (k + 1) * 2 ^ 8 + uv_byte s g (k + 2) * 2 ^ 16 + uv_byte s g (k + 3) * 2 ^ 24.

Lemma upn_addr pn k : upn pn → 0 <= k < PGSIZE → 0 <= pn * PGSIZE + k < UTOP.
Proof. unfold upn. change NUPAGES with 0xEEC00. unfold PGSIZE. change UTOP with (0xEEC00 * 4096). lia. Qed.

Lemma upn_u32 pn k i : upn pn → 0 <= k → 0 <= i → k + i < PGSIZE → u32 (pn * PGSIZE + k + i) = pn * PGSIZE + (k + i).
Proof.
  intros Hpn ???. pose proof (upn_addr pn (k + i) Hpn). change UTOP with 0xEEC00000 in *.
  rewrite <- Z.add_assoc. apply u32_small. lia.
Qed.

Lemma uload32_eq s n pn k t :
  uv_ok s n → upn pn → 0 <= k → k + 4 <= PGSIZE → uv_map s (uv_self s) pn = Some t → flag t PTE_U = true →
  uload32 (pn * PGSIZE + k) s = (Ret (uv_word s (PGNUM t) k), s).
Proof.
  intros Hok Hpn Hk Hk4 Ht HU. unfold uload32.
  mrun (apply (uv_load s n pn k t); done || lia).
  rewrite (upn_u32 pn k 1), (upn_u32 pn k 2), (upn_u32 pn k 3) by (done || lia).
  do 3 mrun (apply (uv_load s n pn _ t); done || lia). done.
Qed.

(** A store into a writable page of the running environment. *)
Lemma ustore32_eq s n pn k t v :
  uv_ok s n → upn pn → 0 <= k → k + 4 <= PGSIZE → uv_map s (uv_self s) pn = Some t →
  flag t PTE_U = true → flag t PTE_W = true →
  ∃ s', ustore32 (pn * PGSIZE + k) v s = (Ret tt, s') ∧ uv_quiet n s s' ∧
    ∀ g k', 0 <= k' < 4096 → uv_byte s' g k' =
      if decide (g = PGNUM t ∧ k <= k' < k + 4) then u8 (Z.shiftr v (8 * (k' - k))) else uv_byte s g k'.
Proof.
  intros Hok Hpn Hk Hk4 Ht HU HW. unfold ustore32.
  assert (Hone : ∀ s0 i b, uv_quiet n s s0 → 0 <= i < 4 →
    ∃ s1, ustore8 (pn * PGSIZE + (k + i)) b s0 = (Ret tt, s1) ∧ uv_quiet n s s1 ∧
      ∀ g k', 0 <= k' < 4096 →
        uv_byte s1 g k' = if decide (g = PGNUM t ∧ k' = k + i) then u8 b else uv_byte s0 g k').
  { intros s0 i b Hq Hi. pose proof Hq as (Hok0 & (Hs & _) & _ & _ & HM).
    destruct (uv_store s0 n pn (k + i) t b Hok0 Hpn ltac:(lia)) as (s1 & Hrun & ? & ? & ? & ? & ? & HB);
      [by rewrite Hs, HM|done..|].
    exists s1. split; [done|]. split; [|done]. by apply (uv_quiet_trans n s s0). }
  rewrite (upn_u32 pn k 1), (upn_u32 pn k 2), (upn_u32 pn k 3) by (done || lia).
  destruct (Hone s 0 v (uv_quiet_refl _ _ Hok) ltac:(lia)) as (s1 & R1 & Q1 & B1). rewrite Z.add_0_r in R1, B1.
  destruct (Hone s1 1 (Z.shiftr v 8) Q1 ltac:(lia)) as (s2 & R2 & Q2 & B2).
  destruct (Hone s2 2 (Z.shiftr v 16) Q2 ltac:(lia)) as (s3 & R3 & Q3 & B3).
  destruct (Hone s3 3 (Z.shiftr v 24) Q3 ltac:(lia)) as (s4 & R4 & Q4 & B4).
  mrun (exact R1). mrun (exact R2). mrun (exact R3). exists s4. split; [exact R4|]. split; [done|].
  intros g k' Hk'. rewrite B4, B3, B2, B1 by done.
  destruct (decide (g = PGNUM t)) as [->|Hg].
  2: { by rewrite !decide_False by tauto. }
  destruct (decide (k <= k' < k + 4)) as [Hin|Hout].
  2: { rewrite !decide_False by lia. done. }
  assert (Hc : k' = k ∨ k' = k + 1 ∨ k' = k + 2 ∨ k' = k + 3) by lia.
  rewrite (decide_True (P := PGNUM t = PGNUM t ∧ k <= k' < k + 4)) by done.
  destruct Hc as [->|[->|[->| ->]]]; repeat first [rewrite decide_True by (split; [done|lia])|rewrite decide_False by lia].
  - by rewrite Z.sub_diag.
  - by replace (8 * (k + 1 - k)) with 8 by lia.
  - by replace (8 * (k + 2 - k)) with 16 by lia.
  - by replace (8 * (k + 3 - k)) with 24 by lia.
Qed.
(** Byte [i] of a word made of four bytes. *)
Lemma word_byte s n g k i :
  uv_ok s n → 0 <= i < 4 → u8 (Z.shiftr (uv_word s g k) (8 * i)) = uv_byte s g (k + i).
Proof.
  intros Hok Hi. unfold uv_word, u8.
  pose proof (uv_bytes s n g k Hok) as B0. pose proof (uv_bytes s n g (k + 1) Hok) as B1.
  pose proof (uv_bytes s n g (k + 2) Hok) as B2. pose proof (uv_bytes s n g (k + 3) Hok) as B3.
  unfold is_u8 in *. rewrite Z.shiftr_div_pow2 by lia.
  assert (Hc : i = 0 ∨ i = 1 ∨ i = 2 ∨ i = 3) by lia.
  destruct Hc as [->|[->|[->| ->]]]; rewrite ?Z.add_0_r;
    Z.to_euclidean_division_equations; lia.
Qed.

(** A word whose bytes are those of [v]. *)
Lemma word_stored s g k v :
  is_u32 v → (∀ i, 0 <= i < 4 → uv_byte s g (k + i) = u8 (Z.shiftr v (8 * i))) → uv_word s g k = v.
Proof.
  intros Hv HB. unfold uv_word, is_u32 in *. rewrite <- (Z.add_0_r k) at 1. rewrite !HB by lia.
  unfold u8. rewrite !Z.shiftr_div_pow2 by lia. change (8 * 0) with 0. change (8 * 1) with 8.
  change (8 * 2) with 16. change (8 * 3) with 24. Z.to_euclidean_division_equations. lia.
Qed.

(** Copying a page to another. *)
Lemma umemmove_page s n pn1 t1 pn2 t2 :
  uv_ok s n → upn pn1 → upn pn2 → uv_map s (uv_self s) pn1 = Some t1 → uv_map s (uv_self s) pn2 = Some t2 →
  flag t1 PTE_U = true → flag t2 PTE_U = true → flag t2 PTE_W = true → PGNUM t1 ≠ PGNUM t2 →
  ∃ s', umemmove (pn2 * PGSIZE) (pn1 * PGSIZE) PGSIZE s = (Ret tt, s') ∧ uv_quiet n s s' ∧
    ∀ g k, 0 <= k < 4096 → uv_byte s' g k = uv_byte s (if decide (g = PGNUM t2) then PGNUM t1 else g) k.
Proof.
  intros Hok Hp1 Hp2 Ht1 Ht2 HU1 HU2 HW2 Hne. unfold umemmove.
  assert (pn1 ≠ pn2) by (intros ->; congruence).
  assert (Hdir : (pn1 * PGSIZE <? pn2 * PGSIZE) && (pn2 * PGSIZE <? pn1 * PGSIZE + PGSIZE) = false).
  { apply andb_false_iff. unfold PGSIZE. destruct (Z.ltb_spec (pn1 * 4096) (pn2 * 4096)); [right|by left]. lia. }
  assert (Hal : ∀ pn, pn * PGSIZE mod 4 = 0) by (intros pn; unfold PGSIZE; Z.to_euclidean_division_equations; lia).
  rewrite Hdir, !Hal. change (PGSIZE mod 4 =? 0) with true. cbn [andb Z.eqb].
  change (PGSIZE / 4) with 1024.
  destruct (mfor_seqZ (λ i s', uv_quiet n s s' ∧ ∀ g k, 0 <= k < 4096 → uv_byte s' g k =
      uv_byte s (if decide (g = PGNUM t2 ∧ k < 4 * i) then PGNUM t1 else g) k)
    (λ i, umovsl (pn2 * PGSIZE + 4 * i) (pn1 * PGSIZE + 4 * i)) 0 1024 s) as (s' & Hrun & Hq & HB); [lia| |..].
  - split; [by apply uv_quiet_refl|]. intros g k Hk. rewrite decide_False by lia. done.
  - intros i s0 Hi (Hq & HB). pose proof Hq as (Hok0 & (Hs & _) & _ & _ & HM). unfold umovsl.
    mrun (apply (uload32_eq s0 n pn1 (4 * i) t1); (done || (rewrite ?Hs, ?HM; done) || (unfold PGSIZE; lia))).
    destruct (ustore32_eq s0 n pn2 (4 * i) t2 (uv_word s0 (PGNUM t1) (4 * i)) Hok0 Hp2)
      as (s1 & Hrun & Hq1 & HB1); [lia|unfold PGSIZE; lia|by rewrite Hs, HM|done|done|].
    exists s1. split; [done|]. split; [by eapply uv_quiet_trans|]. intros g k Hk. rewrite HB1 by done.
    destruct (decide (g = PGNUM t2 ∧ 4 * i <= k < 4 * i + 4)) as [[-> Hr]|Hd].
    + rewrite (word_byte s0 n), HB by (done || lia).
      rewrite decide_False by tauto. rewrite decide_True by (split; [done|lia]). f_equal; lia.
    + rewrite HB by done. destruct (decide (g = PGNUM t2 ∧ k < 4 * i)) as [Hd'|Hd'].
      * by rewrite decide_True by (split; [tauto|lia]).
      * rewrite decide_False; [done|]. intros [??]. lia.
  - exists s'. split; [exact Hrun|]. split; [done|]. intros g k Hk. rewrite HB by done.
    destruct (decide (g = PGNUM t2)); [rewrite decide_True by (split; [done|lia])|rewrite decide_False by tauto]; done.
Qed.

(** Reading the page tables: what the checks on [uvpd] and [uvpt] find. *)
Lemma upn_index pn : upn pn → PDX (pn * PGSIZE) = pn / 1024 ∧ PGNUM (pn * PGSIZE) = pn.
Proof.
  intros Hpn. unfold upn in Hpn. change NUPAGES with 0xEEC00 in Hpn.
  rewrite PDX_div, PGNUM_div. unfold PGSIZE. Z.to_euclidean_division_equations. lia.
Qed.

Lemma uvpt_mapped s n pn t :
  uv_ok s n → upn pn → uv_map s (uv_self s) pn = Some t →
  ∃ d, uvpd (pn / 1024) s = (Ret d, s) ∧ (Z.land d PTE_P =? 0) = false ∧ uvpt pn s = (Ret t, s) ∧
    (Z.land t PTE_P =? 0) = false.
Proof.
  intros Hok Hpn Ht. destruct (uv_uvpt s n pn Hok Hpn) as (d & Hd & Hx). exists d. split; [done|].
  unfold flag in Hx. destruct (Z.land d PTE_P =? 0); cbn [negb] in Hx; [congruence|].
  destruct Hx as (t' & Ht' & Hm). destruct (Z.land t' PTE_P =? 0) eqn:E; cbn [negb] in Hm; [congruence|].
  rewrite Ht in Hm. injection Hm as <-. done.
Qed.
Lemma pgnum_entry f perm : 0 <= perm < 4096 → PGNUM (f * 4096 + perm) = f.
Proof. apply PGNUM_frame. Qed.

Lemma mapped_at s e pn t : upn pn → uv_map s e pn = Some t → uv_mapped s (PGNUM t).
Proof. intros. by exists e, pn, t. Qed.

Lemma mapped_frame s e pn f perm :
  upn pn → 0 <= perm < 4096 → uv_map s e pn = Some (f * 4096 + perm) → uv_mapped s f.
Proof. intros ? Hp Hm. rewrite <- (pgnum_entry f perm Hp). by eapply mapped_at. Qed.

Lemma fault_addr pn k :
  upn pn → 0 <= k < PGSIZE →
  PDX (pn * PGSIZE + k) = pn / 1024 ∧ PGNUM (pn * PGSIZE + k) = pn ∧
  ROUNDDOWN (pn * PGSIZE + k) PGSIZE = pn * PGSIZE.
Proof.
  intros Hpn Hk. pose proof (upn_addr pn k Hpn Hk) as Ha. change UTOP with 0xEEC00000 in Ha.
  unfold upn in Hpn. change NUPAGES with 0xEEC00 in Hpn.
  unfold ROUNDDOWN. rewrite u32_small by lia.
  rewrite PDX_div, PGNUM_div. unfold PGSIZE in *. Z.to_euclidean_division_equations. lia.
Qed.

Lemma flag_pow2 t k : 0 <= k → flag t (2 ^ k) = Z.testbit t k.
Proof.
  intros Hk. unfold flag. rewrite land_pow2 by done. destruct (Z.testbit t k); [|done].
  pose proof (Z.pow_pos_nonneg 2 k). by destruct (Z.eqb_spec (2 ^ k) 0); [lia|].
Qed.

(** The byte at a user address. *)
Definition umem (s : S) (e a : Z) : option Z :=
  match uv_map s e (PGNUM a) with
  | Some t => Some (uv_byte s (PGNUM t) (a mod 4096))
  | None => None
  end.

Lemma umem_frames s s' e e' a :
  upn (PGNUM a) → PGNUM <$> uv_map s' e' (PGNUM a) = PGNUM <$> uv_map s e (PGNUM a) → uv_kept s s' →
  umem s' e' a = umem s e a.
Proof.
  intros Hpn Hm HK. unfold umem.
  destruct (uv_map s' e' (PGNUM a)) as [t'|] eqn:E', (uv_map s e (PGNUM a)) as [t|] eqn:E; try done.
  injection Hm as Hg. rewrite <- Hg. apply f_equal. apply HK.
  - rewrite Hg. by exists e, (PGNUM a), t.
  - by exists e', (PGNUM a), t'.
  - apply Z.mod_pos_bound. lia.
Qed.
Lemma syscall_bits t : 0 <= t → 0 <= Z.land t PTE_SYSCALL < 4096.
Proof.
  intros Ht. rewrite Z.land_comm. change 4096 with (2 ^ 12). apply land_bound; [done|]. by vm_compute.
Qed.

Lemma share_perm_ok t :
  flag t PTE_P = true → flag t PTE_U = true → perm_ok (Z.land t PTE_SYSCALL) = true.
Proof.
  change PTE_P with (2 ^ 0). change PTE_U with (2 ^ 2). rewrite !flag_pow2 by lia. intros HP HU.
  unfold perm_ok. rewrite <- !Z.land_assoc.
  change (Z.land PTE_SYSCALL (Z.lor PTE_U PTE_P)) with (Z.lor (2 ^ 2) (2 ^ 0)).
  change (Z.land PTE_SYSCALL (Z.lnot PTE_SYSCALL)) with 0. rewrite Z.land_0_r.
  rewrite Z.land_lor_distr_r, !land_pow2, HP, HU by lia. done.
Qed.

Lemma flag_syscall t k : flag (Z.land t PTE_SYSCALL) k = true → flag t k = true.
Proof.
  unfold flag. rewrite <- Z.land_assoc, (Z.land_comm PTE_SYSCALL), Z.land_assoc.
  by destruct (Z.eqb_spec (Z.land t k) 0) as [->|].
Qed.

Lemma flag_present t : flag t PTE_P = present t.
Proof. done. Qed.
End uservm.
