(* ===== verification/UserVmKernel.v ===== *)
(** * The kernel implements the user library's machine

    [kernel_machine]: a trap with [T_SYSCALL] runs the kernel's [syscall];
    user loads and stores go through the page tables of the directory in
    [%cr3], with the permission checks the processor makes in user mode.
    [kernel_vm] proves the laws of [UserVm] for it, in the states [user_ok]:
    [kernel_ok], each environment has its own directory, [%cr3] holds the
    running one, directories map themselves at [UVPT], and the kernel's own
    directory is not in use as anything else. *)

From S2P Require Import Prelude Mmu Console KState Demo Lock PageAlloc PageTable AddrSpace PageInsert VmFrame VmDemo UserMem Env EnvSpace Sched Nic Syscall SyscallSpec UserLib UserVm.
Open Scope Z_scope.

(** ** User mode *)

Definition user_translate (write : bool) (va : Z) : U kstate Z :=
  s ← gets id;
  let d := ld32 (mem s) (cr3 s + 4 * PDX va) in
  let denied e := (Z.land e PTE_P =? 0) || (Z.land e PTE_U =? 0) || (write && (Z.land e PTE_W =? 0)) in
  if denied d then stop (UFault va)
  else if negb (Z.land d PTE_PS =? 0) then mret (d / PTSIZE * PTSIZE + va mod PTSIZE)
  else
    let t := ld32 (mem s) (PTE_ADDR d + 4 * PTX va) in
    if denied t then stop (UFault va) else mret (PTE_ADDR t + PGOFF va).

(** Running the kernel from user mode: what it returns is in [%eax]. *)
Definition trapping (m : K Z) : U kstate Z := λ s,
  match m s with
  | (Ret r, s') => (Ret (s32 r), s')
  | (Stop e, s') => (Stop (UKernel e), s')
  end.

#[export] Instance kernel_machine : Machine kstate := {
  int_syscall num a1 a2 a3 a4 a5 := trapping (Syscall.syscall num a1 a2 a3 a4 a5);
  uload8 va := pa ← user_translate false va; gets (λ s, mem s pa);
  ustore8 va v := pa ← user_translate true va; modify (λ s, set_mem (st8 (mem s) pa v) s);
  upages i := s ← gets id; match pages s !! i with Some pi => mret pi | None => stop (UKernel Undefined) end;
  uenvs e := s ← gets id; match envs s !! e with Some v => mret v | None => stop (UKernel Undefined) end;
}.

(** ** The invariant *)

Definition live (v : Env) : bool := bool_decide (env_status v ≠ ENV_FREE).
Definition dir_frame (v : Env) : Z := (env_pgdir v - KERNBASE) / 4096.

Lemma dir_frame_kaddr v pd : env_pgdir v = kaddr pd → dir_frame v = pd.
Proof. unfold dir_frame, kaddr. intros ->. rewrite Z.add_simpl_r. by apply Z.div_mul. Qed.

Record user_ok (s : kstate) (pds fl : list Z) (kp n : Z) : Prop := mk_user_ok {
  uo_ko : kernel_ok s pds fl;
  uo_refs : ∀ p pi, pages s !! p = Some pi → pp_ref pi + n < 2 ^ 16;
  uo_inj : ∀ e1 v1 e2 v2, envs s !! e1 = Some v1 → envs s !! e2 = Some v2 →
    env_status v1 ≠ ENV_FREE → env_status v2 ≠ ENV_FREE → env_pgdir v1 = env_pgdir v2 → e1 = e2;
  uo_self : ∀ pd, pd ∈ pds → entry s pd (PDX UVPT) = pd * 4096 + 5;
  uo_pde : ∀ pd i, pd ∈ pds → uidx i → present (entry s pd i) = true → entry s pd i mod 4096 = 7;
  uo_cr3 : ∀ c v, curenv_of s = Some c → envs s !! c = Some v → env_pgdir v = cr3 s + KERNBASE;
  uo_kern : kern_dir s kp fl;
  uo_kp : kp ∉ pds ∧ ¬ is_pt s pds kp ∧ (∀ x t, x ∈ slots pds → pte_of s x = Some t → PGNUM t ≠ kp);
}.

(** What the page operations leave alone is enough for most of it. *)
Lemma user_ok_vm s s' pds fl fl' kp n n' :
  user_ok s pds fl kp n → vm_ok s' pds fl' → only_vm s s' →
  (¬ is_pt s' pds kp → ∀ k, 0 <= k < 4096 → mem s' (kp * 4096 + k) = mem s (kp * 4096 + k)) →
  (∀ pd i, pd ∈ pds → idx i → entry s' pd i = entry s pd i ∨
     uidx i ∧ ∃ f, f ∈ fl ∧ entry s' pd i = f * 4096 + 7) →
  (∀ p pi', pages s' !! p = Some pi' → pp_ref pi' + n' < 2 ^ 16) →
  kp ∉ fl' → (∀ x t, x ∈ slots pds → pte_of s' x = Some t → PGNUM t ≠ kp) →
  user_ok s' pds fl' kp n'.
Proof.
  intros [Hko _ Hinj Hself Hpde Hcr3 Hkern (Hkpd & Hkpt & _)] Hvm Hon Hdata HE Hrefs Hkfl Hkm.
  pose proof (ko_vm _ _ _ Hko) as Hvm0.
  destruct (only_vm_fields s s' Hon) as (Hnp & Henv & Hcpu & Hcn & Hkd & Hef & Hcur).
  assert (Hfr : ∀ f, f ∈ fl → 0 <= f < 65536).
  { intros f Hf. pose proof (free_list_range s fl f (vm_phys _ _ _ Hvm0) (vm_free _ _ _ Hvm0) Hf).
    pose proof (phys_npages s (vm_phys _ _ _ Hvm0)). lia. }
  assert (Hkpt' : ¬ is_pt s' pds kp).
  { intros (pd & i & Hpd & Hi & Hp & Hq). destruct (HE pd i Hpd (uidx_idx i Hi)) as [E|(_ & f & Hf & E)]; rewrite E in *.
    - apply Hkpt. by exists pd, i.
    - rewrite PGNUM_frame in Hq by lia. subst f. by destruct Hkern. }
  constructor; try done.
  - destruct Hko as [_ Ht Hc Hd]. constructor; [done|unfold env_table; by rewrite Henv|by rewrite Hcur, Henv|by rewrite Henv].
  - rewrite Henv. apply Hinj.
  - intros pd Hpd. destruct (HE pd (PDX UVPT) Hpd (PDX_range _)) as [->|([_ Hi] & _)]; [by apply Hself|].
    by vm_compute in Hi.
  - intros pd i Hpd Hi Hp. destruct (HE pd i Hpd (uidx_idx i Hi)) as [E|(_ & f & Hf & E)]; rewrite E in *.
    + by apply Hpde.
    + Z.to_euclidean_division_equations. lia.
  - intros c v. rewrite Hcur, Henv. unfold only_vm in Hon. rewrite Hon. apply Hcr3.
  - destruct Hkern as [H1 H2 H3 H4]. constructor; [by rewrite Hkd|by rewrite Hnp|done|].
    intros i Hi. replace (entry s' kp i) with (entry s kp i); [by apply H4|].
    unfold entry. pose proof (uidx_idx i Hi) as Hidx. unfold idx in Hidx. apply ld32_ext. intros x Hx.
    rewrite <- Z.add_assoc. symmetry. apply Hdata; [done|lia].
Qed.

(** ** The abstraction *)

(** The length of the free list. *)
Fixpoint free_count (fuel : nat) (pgs : gmap Z PageInfo) (o : option Z) : Z :=
  match fuel, o with
  | S fuel', Some p => 1 + match pgs !! p with Some pi => free_count fuel' pgs (pp_link pi) | None => 0 end
  | _, _ => 0
  end.

Definition k_free (s : kstate) : Z := free_count (Z.to_nat (npages s)) (pages s) (page_free_list s).

Lemma free_count_chain pgs l fuel o :
  chain pgs o l → (length l <= fuel)%nat → free_count fuel pgs o = Z.of_nat (length l).
Proof.
  revert fuel o. induction l as [|p l IH]; intros fuel o Hc Hf; cbn [chain] in Hc.
  - subst o. by destruct fuel.
  - destruct Hc as (-> & link & Hp & Hc). destruct fuel as [|fuel]; cbn [length] in *; [lia|].
    cbn [free_count]. rewrite Hp. cbn [pp_link]. rewrite (IH fuel link Hc) by lia. lia.
Qed.

Lemma k_free_length s fl : phys_ok s → free_list s fl → k_free s = Z.of_nat (length fl).
Proof.
  intros Hph Hfl. pose proof (phys_npages s Hph). apply free_count_chain; [apply Hfl|].
  assert (Hsub : fl ⊆+ seqZ 0 (npages s)).
  { apply NoDup_submseteq; [apply Hfl|]. intros x Hx. apply elem_of_seqZ.
    pose proof (free_list_range s fl x Hph Hfl Hx). lia. }
  apply submseteq_length in Hsub. rewrite length_seqZ in Hsub. lia.
Qed.

Definition k_map (s : kstate) (e pn : Z) : option Z :=
  match envs s !! e with
  | Some v => if live v then pte_of s (dir_frame v, pn / 1024, pn mod 1024) else None
  | None => None
  end.

Definition k_slot (s : kstate) : Prop :=
  ∃ e v, env_free_list s = Some e ∧ envs s !! e = Some v ∧ env_status v = ENV_FREE ∧
    is_s32 (env_id v) ∧ 0 <= e < NENV.

Definition k_ok (s : kstate) (n : Z) : Prop := ∃ pds fl kp, user_ok s pds fl kp n.

Lemma upn_slot pn :
  upn pn → uidx (pn / 1024) ∧ idx (pn mod 1024) ∧ PDX (pn * PGSIZE) = pn / 1024 ∧
  PTX (pn * PGSIZE) = pn mod 1024 ∧ 0 <= pn * PGSIZE < UTOP.
Proof.
  unfold upn, uidx, idx. change NUPAGES with 0xEEC00. rewrite UPDX_eq. intros Hpn.
  rewrite PDX_div, PTX_div. unfold PGSIZE. change UTOP with 0xEEC00000. Z.to_euclidean_division_equations. lia.
Qed.

(** The entry of a page of a live environment, and the other way round. *)
Lemma k_map_live s e v pd pn :
  envs s !! e = Some v → env_status v ≠ ENV_FREE → env_pgdir v = kaddr pd →
  k_map s e pn = pte_of s (pd, pn / 1024, pn mod 1024).
Proof.
  intros Hv Hl Hd. unfold k_map, live. rewrite Hv, bool_decide_eq_true_2 by done.
  by rewrite (dir_frame_kaddr v pd).
Qed.

Lemma k_map_inv s pds fl kp n e pn t :
  user_ok s pds fl kp n → upn pn → k_map s e pn = Some t →
  ∃ v pd, envs s !! e = Some v ∧ env_status v ≠ ENV_FREE ∧ env_pgdir v = kaddr pd ∧ pd ∈ pds ∧
    (pd, pn / 1024, pn mod 1024) ∈ slots pds ∧ pte_of s (pd, pn / 1024, pn mod 1024) = Some t.
Proof.
  intros Huo Hpn Hm. pose proof Hm as Hm'. unfold k_map in Hm. destruct (envs s !! e) as [v|] eqn:Hv; [|done].
  destruct (live v) eqn:Hl; [|done]. apply bool_decide_eq_true in Hl.
  destruct (ko_dirs _ _ _ (uo_ko _ _ _ _ _ Huo) e v Hv Hl) as (pd & Hpd & Hd).
  exists v, pd. rewrite (k_map_live s e v pd pn Hv Hl Hd) in Hm'.
  split_and!; try done. destruct (upn_slot pn Hpn) as (? & ? & _). by apply elem_of_slots.
Qed.

(** A change of one slot, seen from the environments. *)
Lemma k_map_update s s' pds fl kp n e v pd pn o :
  user_ok s pds fl kp n → upn pn → envs s' = envs s →
  envs s !! e = Some v → env_status v ≠ ENV_FREE → env_pgdir v = kaddr pd →
  (∀ y, y ∈ slots pds → pte_of s' y =
     if decide (y = (pd, PDX (pn * PGSIZE), PTX (pn * PGSIZE))) then o else pte_of s y) →
  ∀ e' pn', upn pn' → k_map s' e' pn' = if decide (e' = e ∧ pn' = pn) then o else k_map s e' pn'.
Proof.
  intros Huo Hpn Henv Hv Hl Hd HP e' pn' Hpn'.
  destruct (upn_slot pn Hpn) as (_ & _ & Ei & Ej & _). rewrite Ei, Ej in HP.
  destruct (upn_slot pn' Hpn') as (Hi & Hj & _).
  unfold k_map. rewrite Henv. destruct (envs s !! e') as [v'|] eqn:Hv'.
  2: { rewrite decide_False; [done|]. intros [-> _]. congruence. }
  destruct (live v') eqn:Hl'.
  2: { rewrite decide_False; [done|]. intros [-> _]. rewrite Hv in Hv'. injection Hv' as <-.
       by apply bool_decide_eq_false in Hl'. }
  apply bool_decide_eq_true in Hl'.
  destruct (ko_dirs _ _ _ (uo_ko _ _ _ _ _ Huo) e' v' Hv' Hl') as (pd' & Hpd' & Hd').
  rewrite (dir_frame_kaddr v' pd' Hd'), HP by (by apply elem_of_slots).
  destruct (decide (e' = e ∧ pn' = pn)) as [[-> ->]|Hne].
  - rewrite decide_True; [done|]. rewrite Hv in Hv'. injection Hv' as <-.
    rewrite Hd in Hd'. unfold kaddr in Hd'. by assert (pd' = pd) as -> by lia.
  - rewrite decide_False; [done|]. intros [= E1 E2 E3]. apply Hne.
    split; [|Z.to_euclidean_division_equations; lia].
    eapply (uo_inj _ _ _ _ _ Huo e' v' e v); try done. congruence.
Qed.

(** ** System calls *)

Lemma s32_u32 x : s32 (u32 x) = s32 x.
Proof. unfold s32, u32. Z.to_euclidean_division_equations. lia. Qed.

Lemma syscall_zero num check a1 a2 a3 a4 a5 s s' :
  Syscall.syscall num a1 a2 a3 a4 a5 s = (Ret 0, s') →
  UserLib.syscall num check a1 a2 a3 a4 a5 s = (Ret 0, s').
Proof.
  intros Hr. unfold UserLib.syscall, int_syscall. cbn [kernel_machine]. unfold trapping, mbind, M_bind.
  rewrite Hr. change (s32 0) with 0. by rewrite andb_false_r.
Qed.

Lemma data_kept s s' pds fl' kp n' g k :
  user_ok s' pds fl' kp n' → data_same pds s s' → (∃ e pn t, upn pn ∧ k_map s' e pn = Some t ∧ PGNUM t = g) →
  0 <= k < 4096 → mem s' (g * 4096 + k) = mem s (g * 4096 + k).
Proof.
  intros Huo Hd (e & pn & t & Hpn & Hm & <-) Hk.
  destruct (k_map_inv s' _ _ _ _ e pn t Huo Hpn Hm) as (v & pd & _ & _ & _ & _ & Hsl & Ht).
  destruct (vm_data _ _ _ (ko_vm _ _ _ (uo_ko _ _ _ _ _ Huo)) _ _ Hsl Ht) as (_ & H1 & H2).
  by apply Hd.
Qed.

(** The fields of the abstraction that page operations do not touch. *)
Lemma only_vm_target s s' id : only_vm s s' → target s' id = target s id.
Proof.
  intros Hon. destruct (only_vm_fields s s' Hon) as (_ & Henv & _ & _ & _ & _ & Hcur).
  unfold target, may_name. by rewrite Hcur, Henv.
Qed.

Lemma only_vm_slot s s' : only_vm s s' → k_slot s → k_slot s'.
Proof.
  intros Hon. destruct (only_vm_fields s s' Hon) as (_ & Henv & _ & _ & _ & Hef & _).
  unfold k_slot. by rewrite Henv, Hef.
Qed.

Lemma insert_free_elem s fl pd va pp p :
  p ∈ insert_free s pd va pp fl → p ∈ fl ∨ ∃ t, translate s pd va = Some t ∧ p = PGNUM t.
Proof.
  unfold insert_free, freed. repeat case_match; intros Hp; eauto.
  - apply elem_of_cons in Hp as [->|Hp]; eauto.
  - left. destruct fl; [done|]. by right.
Qed.

Lemma insert_free_length s pd va pp fl :
  Z.of_nat (length fl) - 1 <= Z.of_nat (length (insert_free s pd va pp fl)).
Proof. unfold insert_free, freed. repeat case_match; destruct fl; cbn [length tail]; lia. Qed.

(** Mapping an allocated data page. *)
Lemma user_insert s pds fl kp n pd va pp perm :
  user_ok s pds fl kp (n + 1) → pd ∈ pds → 0 <= va < UTOP → 0 <= perm < 4096 →
  mappable s pds fl pp → pp ≠ kp → fl ≠ [] →
  let x := (pd, PDX va, PTX va) in
  ∃ s', page_insert (kaddr pd) pp va perm s = (Ret 0, s') ∧
    user_ok s' pds (insert_free s pd va pp fl) kp n ∧ only_vm s s' ∧
    (∀ y, y ∈ slots pds → pte_of s' y = if decide (y = x) then Some (new_pte pp perm) else pte_of s y) ∧
    data_same pds s s'.
Proof.
  intros Huo Hpd Hva Hperm Hmap Hkp Hfl x. pose proof (uo_ko _ _ _ _ _ Huo) as Hko.
  pose proof (ko_vm _ _ _ Hko) as Hvm.
  destruct (page_insert_full s pds fl pd va pp perm Hvm Hpd Hva Hperm (proj1 (ko_cur_ok _ _ _ Hko)) Hmap)
    as [(_ & ? & _)|(s' & Hrun & Hvm' & Hon & HP & Href & Hdata & HE)]; [done|].
  exists s'. split_and!; try done. destruct (uo_kp _ _ _ _ _ Huo) as (_ & _ & Hkm).
  assert (Hx : x ∈ slots pds) by (by apply vm_user_slot).
  apply (user_ok_vm s s' pds fl _ kp (n + 1)); try done.
  - intros Hn k. by apply Hdata; [apply (uo_kp _ _ _ _ _ Huo)|].
  - intros p pi' Hpi'. destruct (Href p pi' Hpi') as (pi & Hpi & ->). pose proof (uo_refs _ _ _ _ _ Huo p pi Hpi).
    pose proof (ind_range (maps s p (pd, PDX va, PTX va))).
    enough (ind (p = pp) + ind (present (entry s pd (PDX va)) = false ∧ head fl = Some p) <= 1) by lia.
    unfold ind. destruct (decide (p = pp)) as [->|], (decide (_ ∧ _)) as [[_ Hh]|]; try lia.
    exfalso. destruct Hmap as [Hnf _]. apply Hnf. destruct fl; [done|]. injection Hh as ->. by left.
  - intros [Hin|(t & Ht & ->)]%insert_free_elem; [by apply (kd_used _ _ _ (uo_kern _ _ _ _ _ Huo))|].
    by apply (Hkm x t Hx).
  - intros y t Hy. rewrite HP by done. destruct (decide (y = (pd, PDX va, PTX va))); [|by apply Hkm].
    intros [= <-]. unfold new_pte. rewrite PGNUM_frame; [done|by apply perm_P].
Qed.

Lemma k_free_eq s pds fl kp n : user_ok s pds fl kp n → k_free s = Z.of_nat (length fl).
Proof.
  intros Huo. pose proof (ko_vm _ _ _ (uo_ko _ _ _ _ _ Huo)) as Hvm.
  apply k_free_length; [apply Hvm|apply Hvm].
Qed.

(** Taking a page off the free list. *)
Lemma user_ok_pop s pds p l kp n :
  user_ok s pds (p :: l) kp n →
  let s1 := set_mem (page_zeroed ALLOC_ZERO p (mem s)) (set_page_free_list (head l) s) in
  page_alloc ALLOC_ZERO s = (Ret (Some p), s1) ∧ user_ok s1 pds l kp n ∧ mappable s1 pds l p ∧ p ≠ kp ∧
  (∀ y, y ∈ slots pds → pte_of s1 y = pte_of s y) ∧ (∀ f k, f ≠ p → 0 <= k < 4096 → mem s1 (f * 4096 + k) = mem s (f * 4096 + k)) ∧
  (∀ k, 0 <= k < 4096 → mem s1 (p * 4096 + k) = 0).
Proof.
  intros Huo s1. pose proof (uo_ko _ _ _ _ _ Huo) as Hko. pose proof (ko_vm _ _ _ Hko) as Hvm.
  destruct (vm_ok_alloc s pds p l ALLOC_ZERO Hvm) as (Hvm1 & HP1 & Hmap1 & HT1). fold s1 in Hvm1, HP1, Hmap1, HT1.
  destruct (free_not_table s pds _ p Hvm ltac:(by left)) as [Hnpd Hnpt].
  destruct Huo as [_ Hrefs Hinj Hself Hpde Hcr3 Hkern (Hk1 & Hk2 & Hk3)].
  assert (Hpk : p ≠ kp) by (intros ->; apply (kd_used _ _ _ Hkern); by left).
  assert (Hmem : ∀ x, ¬ p * 4096 <= x < p * 4096 + 4096 → mem s1 x = mem s x).
  { intros x Hx. unfold s1, page_zeroed. cbn [mem set_mem]. change (Z.land ALLOC_ZERO ALLOC_ZERO =? 0) with false.
    cbv iota. apply mem_set_out. lia. }
  assert (HE : ∀ f i, f ≠ p → idx i → entry s1 f i = entry s f i).
  { intros f i Hf Hi. unfold idx in Hi. unfold entry. apply ld32_ext. intros x Hx. apply Hmem. nia. }
  split_and!; try done.
  - by apply page_alloc_pop; apply Hvm.
  - constructor; try done.
    + destruct Hko. by constructor.
    + intros pd Hpd. rewrite HE by (apply PDX_range || by intros ->). by apply Hself.
    + intros pd i Hpd Hi. rewrite HE by (by apply uidx_idx || by intros ->). by apply Hpde.
    + destruct Hkern as [H1 H2 H3 H4]. constructor; [done|done|intros Hin; apply H3; by right|].
      intros i Hi. rewrite HE by (by apply uidx_idx || by intros ->). by apply H4.
    + split; [done|]. split; [by rewrite HT1|]. intros x t Hx. rewrite HP1 by done. by apply Hk3.
  - intros f k Hf Hk. apply Hmem. nia.
  - intros k Hk. unfold s1, page_zeroed. cbn [mem set_mem]. change (Z.land ALLOC_ZERO ALLOC_ZERO =? 0) with false.
    cbv iota. by apply mem_set_in; lia.
Qed.

(** What a page operation that changes one slot means for the interface. *)
Definition k_same (s s' : kstate) : Prop :=
  default 0 (curenv_of s') = default 0 (curenv_of s) ∧ (∀ id, target s' (s32 id) = target s (s32 id)) ∧
  (k_slot s → k_slot s').

Definition k_mapped (s : kstate) (g : Z) : Prop := ∃ e pn t, upn pn ∧ k_map s e pn = Some t ∧ PGNUM t = g.

Lemma only_vm_same s s' : only_vm s s' → k_same s s' ∧ envs s' = envs s.
Proof.
  intros Hon. destruct (only_vm_fields s s' Hon) as (_ & Henv & _ & _ & _ & _ & Hcur).
  split; [|done]. split; [by rewrite Hcur|]. split; [intros id; by apply only_vm_target|by apply only_vm_slot].
Qed.

Lemma mapped_in_slots s pds fl kp n g :
  user_ok s pds fl kp n → k_mapped s g → ∃ x t, x ∈ slots pds ∧ pte_of s x = Some t ∧ PGNUM t = g.
Proof.
  intros Huo (e & pn & t & Hpn & Hm & Hg).
  destruct (k_map_inv s _ _ _ _ e pn t Huo Hpn Hm) as (v & pd & _ & _ & _ & _ & Hsl & Ht). eauto.
Qed.

Lemma user_va pn : upn pn → (UTOP <=? pn * PGSIZE) = false ∧ (pn * PGSIZE mod PGSIZE =? 0) = true ∧ (PGOFF (pn * PGSIZE) =? 0) = true.
Proof.
  intros Hpn. destruct (upn_slot pn Hpn) as (_ & _ & _ & _ & Hva). rewrite PGOFF_mod.
  unfold PGSIZE in *. rewrite Z.mod_mul by lia. split; [lia|done].
Qed.

Lemma k_alloc s n id e pn perm :
  k_ok s (n + 1) → target s (s32 id) = Some e → upn pn → perm_ok perm = true → 2 <= k_free s →
  ∃ s' f, UserLib.sys_page_alloc id (pn * PGSIZE) perm s = (Ret 0, s') ∧
    k_ok s' n ∧ k_same s s' ∧ envs s' = envs s ∧ k_free s - 2 <= k_free s' ∧
    ¬ k_mapped s f ∧ 0 <= f ∧
    (∀ e' pn', upn pn' → k_map s' e' pn' = if decide (e' = e ∧ pn' = pn) then Some (f * 4096 + perm) else k_map s e' pn') ∧
    (∀ k, 0 <= k < 4096 → mem s' (f * 4096 + k) = 0) ∧
    (∀ g k, k_mapped s g → k_mapped s' g → 0 <= k < 4096 → mem s' (g * 4096 + k) = mem s (g * 4096 + k)).
Proof.
  intros (pds & fl & kp & Huo) Hid Hpn Hperm Hfree. rewrite (k_free_eq _ _ _ _ _ Huo) in Hfree.
  destruct fl as [|p l]; cbn [length] in Hfree; [lia|].
  pose proof (uo_ko _ _ _ _ _ Huo) as Hko.
  destruct (user_ok_pop s pds p l kp (n + 1) Huo) as (Halloc & Huo1 & Hmap1 & Hpk & HP1 & Hd1 & Hz1).
  set (s1 := set_mem _ _) in *.
  destruct (target_live s _ _ _ _ Hko Hid) as (v & pd & Hv & Hl & Hpd & Hd).
  destruct (upn_slot pn Hpn) as (_ & _ & _ & _ & Hva). destruct (user_va pn Hpn) as (Hv1 & Hv2 & _).
  destruct (perm_ok_range perm Hperm) as [Hpr Hlor].
  destruct (user_insert s1 pds l kp n pd (pn * PGSIZE) p perm Huo1 Hpd Hva Hpr Hmap1 Hpk) as
    (s2 & Hins & Huo2 & Hon & HP2 & Hd2); [by destruct l|].
  assert (Hrun : UserLib.sys_page_alloc id (pn * PGSIZE) perm s = (Ret 0, s2)).
  { apply syscall_zero. cbn [Syscall.syscall]. unfold Syscall.syscall. cbn [lookup].
    change (syscalls !! Z.to_nat 4) with (Some SYS_page_alloc). cbv iota.
    rewrite !s32_u32, (s32_small perm) by lia. unfold Syscall.sys_page_alloc.
    rewrite Hv1, Hv2, Hperm. cbn [orb negb]. mrun (exact Halloc).
    mrun (eapply envid2env_target; exact (uo_ko _ _ _ _ _ Huo1)).
    change (target s1 (s32 id)) with (target s (s32 id)). rewrite Hid. cbn [Z.ltb Z.compare].
    mrun reflexivity. mrun (apply get_env_eq; exact Hv). rewrite Hd. by mrun (exact Hins). }
  pose proof (vm_free _ _ _ (ko_vm _ _ _ Hko)) as Hfl.
  assert (Hnew : ¬ k_mapped s p).
  { intros (x & t & Hx & Ht & <-)%(mapped_in_slots s pds _ _ _ _ Huo).
    apply (vm_mapped_not_free s pds _ (ko_vm _ _ _ Hko) x t Hx Ht). by left. }
  exists s2, p. split; [done|]. destruct (only_vm_same s1 s2 Hon) as [Hs Henv].
  split_and!; [by exists pds, (insert_free s1 pd (pn * PGSIZE) p l), kp|exact Hs|done| |done|..].
  - rewrite (k_free_eq _ _ _ _ _ Huo2), (k_free_eq _ _ _ _ _ Huo). cbn [length].
    pose proof (insert_free_length s1 pd (pn * PGSIZE) p l). lia.
  - by destruct (free_list_range s _ p (vm_phys _ _ _ (ko_vm _ _ _ Hko)) Hfl ltac:(by left)).
  - apply (k_map_update s s2 pds (p :: l) kp (n + 1) e v pd); try done.
    intros y Hy. rewrite HP2, HP1 by done. unfold new_pte. by rewrite Hlor.
  - intros k Hk. transitivity (mem s1 (p * 4096 + k)); [|by apply Hz1]. apply Hd2; [apply Hmap1| |done].
    destruct (upn_slot pn Hpn) as (? & ? & Ei & Ej & _).
    assert (Hsl : (pd, PDX (pn * PGSIZE), PTX (pn * PGSIZE)) ∈ slots pds) by (by apply vm_user_slot).
    destruct (vm_data _ _ _ (ko_vm _ _ _ (uo_ko _ _ _ _ _ Huo2)) _ (new_pte p perm) Hsl) as (_ & _ & Hnp).
    { rewrite HP2 by done. by rewrite decide_True. }
    unfold new_pte in Hnp. by rewrite PGNUM_frame in Hnp by (by apply perm_P).
  - intros g k Hg Hg2 Hk. rewrite (data_kept s1 s2 _ _ _ _ g k Huo2 Hd2 Hg2 Hk).
    apply Hd1; [|done]. by intros ->.
Qed.

Lemma k_share s n id1 e1 pn1 id2 e2 pn2 perm t :
  0 <= n → k_ok s (n + 1) → target s (s32 id1) = Some e1 → target s (s32 id2) = Some e2 → upn pn1 → upn pn2 →
  perm_ok perm = true → k_map s e1 pn1 = Some t → (flag perm PTE_W = true → flag t PTE_W = true) → 1 <= k_free s →
  ∃ s', UserLib.sys_page_map id1 (pn1 * PGSIZE) id2 (pn2 * PGSIZE) perm s = (Ret 0, s') ∧
    k_ok s' n ∧ k_same s s' ∧ envs s' = envs s ∧ k_free s - 1 <= k_free s' ∧
    (∀ e' pn', upn pn' → k_map s' e' pn' =
       if decide (e' = e2 ∧ pn' = pn2) then Some (PGNUM t * 4096 + perm) else k_map s e' pn') ∧
    (∀ g k, k_mapped s g → k_mapped s' g → 0 <= k < 4096 → mem s' (g * 4096 + k) = mem s (g * 4096 + k)).
Proof.
  intros Hn (pds & fl & kp & Huo) Hid1 Hid2 Hpn1 Hpn2 Hperm Ht HW Hfree. rewrite (k_free_eq _ _ _ _ _ Huo) in Hfree.
  pose proof (uo_ko _ _ _ _ _ Huo) as Hko. pose proof (ko_vm _ _ _ Hko) as Hvm.
  destruct (target_live s _ _ _ _ Hko Hid1) as (v1 & pd1 & Hv1 & Hl1 & Hpd1 & Hd1).
  destruct (target_live s _ _ _ _ Hko Hid2) as (v2 & pd2 & Hv2 & Hl2 & Hpd2 & Hd2).
  destruct (upn_slot pn1 Hpn1) as (Hi1 & Hj1 & Ei1 & Ej1 & Hva1), (upn_slot pn2 Hpn2) as (_ & _ & _ & _ & Hva2).
  destruct (user_va pn1 Hpn1) as (A1 & _ & A2), (user_va pn2 Hpn2) as (B1 & _ & B2).
  destruct (perm_ok_range perm Hperm) as [Hpr Hlor].
  rewrite (k_map_live s e1 v1 pd1 pn1 Hv1 Hl1 Hd1) in Ht.
  assert (Hsl : (pd1, pn1 / 1024, pn1 mod 1024) ∈ slots pds) by (by apply elem_of_slots).
  assert (Htr : translate s pd1 (pn1 * PGSIZE) = Some t) by (unfold translate; rewrite Ei1, Ej1; exact Ht).
  assert (Hno : no_overflow s).
  { intros p pi Hp. pose proof (uo_refs _ _ _ _ _ Huo p pi Hp). lia. }
  destruct (user_insert s pds fl kp n pd2 (pn2 * PGSIZE) (PGNUM t) perm Huo Hpd2 Hva2 Hpr
    (mapped_mappable s pds fl _ t Hvm Hno Hsl Ht)) as (s2 & Hins & Huo2 & Hon & HP2 & Hdat).
  { by apply (proj2 (proj2 (uo_kp _ _ _ _ _ Huo)) _ t Hsl). } { by destruct fl. }
  assert (Hrun : UserLib.sys_page_map id1 (pn1 * PGSIZE) id2 (pn2 * PGSIZE) perm s = (Ret 0, s2)).
  { apply syscall_zero. unfold Syscall.syscall.
    change (syscalls !! Z.to_nat 5) with (Some SYS_page_map). cbv iota.
    rewrite !s32_u32, (s32_small perm) by lia. unfold Syscall.sys_page_map.
    mrun (by eapply envid2env_target). rewrite Hid1. cbn [fst snd Z.ltb Z.compare].
    mrun (by eapply envid2env_target). rewrite Hid2. cbn [fst snd Z.ltb Z.compare].
    rewrite A1, A2, B1, B2. cbn [orb negb]. mrun reflexivity. mrun (apply get_env_eq; exact Hv1). rewrite Hd1.
    mrun (by eapply page_lookup_mapped). mrun (apply kload_entry).
    destruct (translate_present s pd1 _ t Htr) as (_ & <- & _).
    assert (Hw : negb (Z.land perm PTE_W =? 0) && (Z.land t PTE_W =? 0) = false).
    { unfold flag in HW. destruct (Z.land perm PTE_W =? 0); [done|]. by destruct (Z.land t PTE_W =? 0); [specialize (HW eq_refl)|]. }
    rewrite Hw, Hperm. cbn [negb]. mrun reflexivity. mrun (apply get_env_eq; exact Hv2). rewrite Hd2. by mrun (exact Hins). }
  exists s2. split; [done|]. destruct (only_vm_same s s2 Hon) as [Hs Henv].
  split_and!; [by exists pds, (insert_free s pd2 (pn2 * PGSIZE) (PGNUM t) fl), kp|exact Hs|done|..].
  - rewrite (k_free_eq _ _ _ _ _ Huo2), (k_free_eq _ _ _ _ _ Huo).
    pose proof (insert_free_length s pd2 (pn2 * PGSIZE) (PGNUM t) fl). lia.
  - apply (k_map_update s s2 pds fl kp (n + 1) e2 v2 pd2); try done.
    intros y Hy. rewrite HP2 by done. unfold new_pte. by rewrite Hlor.
  - intros g k _ Hg2 Hk. exact (data_kept s s2 _ _ _ _ g k Huo2 Hdat Hg2 Hk).
Qed.

Lemma k_unmap_full s n id e pn :
  k_ok s n → target s (s32 id) = Some e → upn pn →
  ∃ s', UserLib.sys_page_unmap id (pn * PGSIZE) s = (Ret 0, s') ∧
    k_ok s' n ∧ k_same s s' ∧ envs s' = envs s ∧ k_free s <= k_free s' ∧
    (∀ e' pn', upn pn' → k_map s' e' pn' = if decide (e' = e ∧ pn' = pn) then None else k_map s e' pn') ∧
    (∀ g k, k_mapped s g → k_mapped s' g → 0 <= k < 4096 → mem s' (g * 4096 + k) = mem s (g * 4096 + k)) ∧
    (∀ e' v pd' i, envs s !! e' = Some v → env_status v ≠ ENV_FREE → env_pgdir v = kaddr pd' → idx i →
       entry s' pd' i = entry s pd' i).
Proof.
  intros (pds & fl & kp & Huo) Hid Hpn. pose proof (uo_ko _ _ _ _ _ Huo) as Hko.
  destruct (target_live s _ _ _ _ Hko Hid) as (v & pd & Hv & Hl & Hpd & Hd).
  destruct (upn_slot pn Hpn) as (_ & _ & _ & _ & Hva). destruct (user_va pn Hpn) as (Hv1 & _ & Hv2).
  destruct (page_remove_spec s pds fl pd (pn * PGSIZE) (ko_vm _ _ _ Hko) Hpd Hva (proj1 (ko_cur_ok _ _ _ Hko)))
    as (s2 & Hrem & Hvm2 & Hon & HP2 & HE & Href & Hdat).
  destruct (uo_kp _ _ _ _ _ Huo) as (_ & _ & Hkm).
  assert (Hx : (pd, PDX (pn * PGSIZE), PTX (pn * PGSIZE)) ∈ slots pds) by (by apply vm_user_slot).
  assert (Huo2 : user_ok s2 pds (freed s pd (pn * PGSIZE) fl) kp n).
  { apply (user_ok_vm s s2 pds fl _ kp n); try done.
    - intros Hn k. by apply Hdat; [apply (uo_kp _ _ _ _ _ Huo)|].
    - intros pd' i Hpd' Hi. left. by apply HE.
    - intros p pi' Hpi'. destruct (Href p pi' Hpi') as (pi & Hpi & ->). pose proof (uo_refs _ _ _ _ _ Huo p pi Hpi).
      pose proof (ind_range (maps s p (pd, PDX (pn * PGSIZE), PTX (pn * PGSIZE)))). lia.
    - pose proof (kd_used _ _ _ (uo_kern _ _ _ _ _ Huo)) as Hku. unfold freed. destruct (translate s pd (pn * PGSIZE)) as [t|] eqn:Ht; [|done].
      repeat case_match; try done. intros [->|?]%elem_of_cons; [|done]. by apply (Hkm _ t Hx).
    - intros y t Hy. rewrite HP2 by done.
      destruct (decide (y = (pd, PDX (pn * PGSIZE), PTX (pn * PGSIZE)))); [done|by apply Hkm]. }
  assert (Hrun : UserLib.sys_page_unmap id (pn * PGSIZE) s = (Ret 0, s2)).
  { apply syscall_zero. unfold Syscall.syscall.
    change (syscalls !! Z.to_nat 6) with (Some SYS_page_unmap). cbv iota. rewrite s32_u32.
    unfold Syscall.sys_page_unmap. mrun (by eapply envid2env_target). rewrite Hid. cbn [Z.ltb Z.compare].
    rewrite Hv1, Hv2. cbn [orb negb]. mrun reflexivity. mrun (apply get_env_eq; exact Hv). rewrite Hd. by mrun (exact Hrem). }
  exists s2. split; [done|]. destruct (only_vm_same s s2 Hon) as [Hs Henv].
  split_and!; [by exists pds, (freed s pd (pn * PGSIZE) fl), kp|exact Hs|done|..].
  - rewrite (k_free_eq _ _ _ _ _ Huo2), (k_free_eq _ _ _ _ _ Huo). unfold freed. repeat case_match; cbn [length]; lia.
  - by apply (k_map_update s s2 pds fl kp n e v pd).
  - intros g k _ Hg2 Hk. exact (data_kept s s2 _ _ _ _ g k Huo2 Hdat Hg2 Hk).
  - intros e' v' pd' i Hv' Hl' Hd' Hi. destruct (ko_dirs _ _ _ Hko e' v' Hv' Hl') as (pd2 & Hpd2 & Hd2).
    assert (pd' = pd2) as ->; [|by apply HE].
    by rewrite <- (dir_frame_kaddr v' pd' Hd'), (dir_frame_kaddr v' pd2 Hd2).
Qed.

Lemma k_unmap s n id e pn :
  k_ok s n → target s (s32 id) = Some e → upn pn →
  ∃ s', UserLib.sys_page_unmap id (pn * PGSIZE) s = (Ret 0, s') ∧
    k_ok s' n ∧ k_same s s' ∧ envs s' = envs s ∧ k_free s <= k_free s' ∧
    (∀ e' pn', upn pn' → k_map s' e' pn' = if decide (e' = e ∧ pn' = pn) then None else k_map s e' pn') ∧
    (∀ g k, k_mapped s g → k_mapped s' g → 0 <= k < 4096 → mem s' (g * 4096 + k) = mem s (g * 4096 + k)).
Proof.
  intros Hok Hid Hpn. destruct (k_unmap_full s n id e pn Hok Hid Hpn) as (s' & H1 & H2 & H3 & H4 & H5 & H6 & H7 & _).
  by exists s'.
Qed.

(** Mapping from a page that is not there. *)
Lemma k_share_none s n id1 e1 pn1 id2 e2 pn2 perm :
  k_ok s n → target s (s32 id1) = Some e1 → target s (s32 id2) = Some e2 → upn pn1 → upn pn2 →
  k_map s e1 pn1 = None →
  UserLib.sys_page_map id1 (pn1 * PGSIZE) id2 (pn2 * PGSIZE) perm s = (Ret (- E_INVAL), s).
Proof.
  intros (pds & fl & kp & Huo) Hid1 Hid2 Hpn1 Hpn2 Ht. pose proof (uo_ko _ _ _ _ _ Huo) as Hko.
  destruct (target_live s _ _ _ _ Hko Hid1) as (v1 & pd1 & Hv1 & Hl1 & Hpd1 & Hd1).
  destruct (upn_slot pn1 Hpn1) as (_ & _ & Ei1 & Ej1 & Hva1).
  destruct (user_va pn1 Hpn1) as (A1 & _ & A2), (user_va pn2 Hpn2) as (B1 & _ & B2).
  rewrite (k_map_live s e1 v1 pd1 pn1 Hv1 Hl1 Hd1) in Ht.
  assert (Htr : translate s pd1 (pn1 * PGSIZE) = None) by (unfold translate; rewrite Ei1, Ej1; exact Ht).
  unfold UserLib.sys_page_map, UserLib.syscall, int_syscall. cbn [kernel_machine].
  mrun (unfold trapping; unfold Syscall.syscall; change (syscalls !! Z.to_nat 5) with (Some SYS_page_map); cbv iota;
    rewrite !s32_u32; unfold Syscall.sys_page_map;
    mrun (by eapply envid2env_target); rewrite Hid1; cbn [fst snd Z.ltb Z.compare];
    mrun (by eapply envid2env_target); rewrite Hid2; cbn [fst snd Z.ltb Z.compare];
    rewrite A1, A2, B1, B2; cbn [orb negb]; mrun reflexivity; mrun (apply get_env_eq; exact Hv1); rewrite Hd1;
    mrun (by eapply page_lookup_unmapped; [apply (ko_vm _ _ _ Hko)|..]); reflexivity).
  reflexivity.
Qed.

(** ** Memory accesses *)

Lemma flags_of d perm :
  d mod 4096 = perm → ∀ k, 0 <= k < 12 → Z.land d (2 ^ k) = if Z.testbit perm k then 2 ^ k else 0.
Proof.
  intros Hm k Hk. rewrite land_pow2 by lia. change 4096 with (2 ^ 12) in Hm.
  rewrite <- Hm, Z.mod_pow2_bits_low by lia. done.
Qed.

Section running.
Context (s : kstate) (pds fl : list Z) (kp n c : Z) (v : Env) (pd : Z).
Hypothesis Huo : user_ok s pds fl kp n.
Hypothesis Hc : curenv_of s = Some c.
Hypothesis Hv : envs s !! c = Some v.
Hypothesis Hl : env_status v ≠ ENV_FREE.
Hypothesis Hpd : pd ∈ pds.
Hypothesis Hd : env_pgdir v = kaddr pd.

Lemma cr3_dir : cr3 s = pd * 4096.
Proof using Huo Hc Hv Hd. pose proof (uo_cr3 _ _ _ _ _ Huo c v Hc Hv). unfold kaddr in Hd. lia. Qed.

(** The walk of the processor. *)
Lemma user_translate_step (w : bool) va d :
  entry s pd (PDX va) = d → Z.land d PTE_P ≠ 0 → Z.land d PTE_U ≠ 0 → (w = true → Z.land d PTE_W ≠ 0) → Z.land d PTE_PS = 0 →
  let t := entry s (PGNUM d) (PTX va) in
  user_translate w va s =
    if (Z.land t PTE_P =? 0) || (Z.land t PTE_U =? 0) || (w && (Z.land t PTE_W =? 0)) then (Stop (UFault va), s)
    else (Ret (PGNUM t * 4096 + PGOFF va), s).
Proof using Huo Hc Hv Hd.
  intros Hde HP HU HW HS t. unfold user_translate. rewrite bind_gets. cbn [id]. rewrite cr3_dir.
  change (ld32 (mem s) (pd * 4096 + 4 * PDX va)) with (entry s pd (PDX va)). rewrite Hde.
  apply Z.eqb_neq in HP, HU. rewrite HP, HU. cbn [orb].
  replace (w && (Z.land d PTE_W =? 0)) with false
    by (destruct w; [|done]; specialize (HW eq_refl); by apply Z.eqb_neq in HW; rewrite HW).
  rewrite HS. cbn [Z.eqb negb]. cbv iota.
  replace (PTE_ADDR d) with (PGNUM d * 4096) by (rewrite PTE_ADDR_div, PGNUM_div; lia).
  change (ld32 (mem s) (PGNUM d * 4096 + 4 * PTX va)) with t.
  replace (PTE_ADDR t) with (PGNUM t * 4096) by (rewrite PTE_ADDR_div, PGNUM_div; lia).
  by destruct (_ || _).
Qed.

Lemma pde_flags i d : uidx i → entry s pd i = d → present d = true →
  Z.land d PTE_P ≠ 0 ∧ Z.land d PTE_U ≠ 0 ∧ Z.land d PTE_W ≠ 0 ∧ Z.land d PTE_PS = 0.
Proof using Huo Hpd.
  intros Hi <- Hp. pose proof (flags_of _ _ (uo_pde _ _ _ _ _ Huo pd i Hpd Hi Hp)) as HF.
  change PTE_P with (2 ^ 0). change PTE_U with (2 ^ 2). change PTE_W with (2 ^ 1). change PTE_PS with (2 ^ 7).
  rewrite !HF by lia. done.
Qed.

Lemma user_access (w : bool) pn k :
  upn pn → 0 <= k < PGSIZE →
  user_translate w (pn * PGSIZE + k) s =
    match k_map s c pn with
    | Some t => if negb (flag t PTE_U) || (w && negb (flag t PTE_W)) then (Stop (UFault (pn * PGSIZE + k)), s)
                else (Ret (PGNUM t * 4096 + k), s)
    | None => (Stop (UFault (pn * PGSIZE + k)), s)
    end.
Proof using Huo Hc Hv Hl Hpd Hd.
  intros Hpn Hk. rewrite (k_map_live s c v pd pn Hv Hl Hd).
  destruct (upn_slot pn Hpn) as (Hi & Hj & Ei & Ej & Hva).
  assert (Hx : PDX (pn * PGSIZE + k) = pn / 1024 ∧ PTX (pn * PGSIZE + k) = pn mod 1024 ∧ PGOFF (pn * PGSIZE + k) = k).
  { unfold upn in Hpn. change NUPAGES with 0xEEC00 in Hpn.
    rewrite PDX_div, PTX_div, PGOFF_mod. unfold PGSIZE in *. Z.to_euclidean_division_equations. lia. }
  destruct Hx as (Ex & Ey & Ez). unfold pte_of, lookup_pte. cbn [fst snd].
  set (d := entry s pd (pn / 1024)). destruct (present d) eqn:Hp.
  - destruct (pde_flags _ d Hi eq_refl Hp) as (F1 & F2 & F3 & F4).
    rewrite (user_translate_step w _ d) by (done || by rewrite Ex). rewrite Ey, Ez.
    set (t := entry s (PGNUM d) (pn mod 1024)). unfold present, flag. destruct (Z.land t PTE_P =? 0); [done|].
    cbn [orb negb]. by destruct (Z.land t PTE_U =? 0), (Z.land t PTE_W =? 0), w.
  - unfold user_translate. rewrite bind_gets. cbn [id]. rewrite cr3_dir, Ex.
    change (ld32 (mem s) (pd * 4096 + 4 * (pn / 1024))) with d. unfold present in Hp.
    apply negb_false_iff in Hp. by rewrite Hp.
Qed.

(** The page tables at [UVPT]. *)
Lemma self_byte q j d :
  0 <= q < 2 ^ 20 → 0 <= j < 4 → entry s pd (q / 1024) = d → Z.land d PTE_P ≠ 0 → Z.land d PTE_U ≠ 0 →
  uload8 (UVPT + 4 * q + j) s = (Ret (mem s (PGNUM d * 4096 + 4 * (q mod 1024) + j)), s).
Proof using Huo Hc Hv Hpd Hd.
  intros Hq Hj Hde HP HU. unfold uload8. cbn [kernel_machine].
  assert (Hx : PDX (UVPT + 4 * q + j) = PDX UVPT ∧ PTX (UVPT + 4 * q + j) = q / 1024 ∧
    PGOFF (UVPT + 4 * q + j) = 4 * (q mod 1024) + j).
  { rewrite !PDX_div, PTX_div, PGOFF_mod. change UVPT with 0xEF400000. Z.to_euclidean_division_equations. lia. }
  destruct Hx as (Ex & Ey & Ez).
  assert (Hs : entry s pd (PDX (UVPT + 4 * q + j)) = pd * 4096 + 5) by (rewrite Ex; by apply (uo_self _ _ _ _ _ Huo)).
  assert (HF : ∀ k, 0 <= k < 12 → Z.land (pd * 4096 + 5) (2 ^ k) = if Z.testbit 5 k then 2 ^ k else 0).
  { apply flags_of. rewrite Z.add_comm, Z.mod_add by lia. done. }
  erewrite bind_Ret.
  2: { rewrite (user_translate_step false _ (pd * 4096 + 5) Hs);
         [|change PTE_P with (2 ^ 0); by rewrite HF by lia|change PTE_U with (2 ^ 2); by rewrite HF by lia
          |done|change PTE_PS with (2 ^ 7); by rewrite HF by lia].
       rewrite PGNUM_frame, Ey, Ez, Hde by lia.
       apply Z.eqb_neq in HP, HU. rewrite HP, HU. cbn [orb andb]. reflexivity. }
  unfold gets. by rewrite Z.add_assoc.
Qed.

Lemma self_word q d :
  0 <= q < 2 ^ 20 → entry s pd (q / 1024) = d → Z.land d PTE_P ≠ 0 → Z.land d PTE_U ≠ 0 →
  uload32 (UVPT + 4 * q) s = (Ret (entry s (PGNUM d) (q mod 1024)), s).
Proof using Huo Hc Hv Hpd Hd.
  intros Hq Hde HP HU. unfold uload32.
  assert (Hu : ∀ j, 0 <= j < 4 → u32 (UVPT + 4 * q + j) = UVPT + 4 * q + j).
  { intros j Hj. apply u32_small. change UVPT with 0xEF400000. lia. }
  rewrite !Hu by lia. pose proof (self_byte q 0 d Hq ltac:(lia) Hde HP HU) as H0. rewrite !Z.add_0_r in H0.
  mrun (exact H0). do 3 mrun (apply (self_byte q _ d); done || lia). done.
Qed.

Lemma k_uvpd pn : upn pn → uvpd (pn / 1024) s = (Ret (entry s pd (pn / 1024)), s).
Proof using Huo Hc Hv Hl Hpd Hd.
  intros Hpn. unfold upn in Hpn. change NUPAGES with 0xEEC00 in Hpn.
  unfold uvpd. replace (UVPT + Z.shiftr UVPT 12 * 4 + 4 * (pn / 1024)) with (UVPT + 4 * (0xEF400 + pn / 1024))
    by (change (Z.shiftr UVPT 12) with 0xEF400; lia).
  assert (Hq : (0xEF400 + pn / 1024) / 1024 = PDX UVPT ∧ (0xEF400 + pn / 1024) mod 1024 = pn / 1024 ∧
    0 <= 0xEF400 + pn / 1024 < 2 ^ 20).
  { change (PDX UVPT) with 957. Z.to_euclidean_division_equations. lia. }
  destruct Hq as (Q1 & Q2 & Q3).
  assert (HF : ∀ k, 0 <= k < 12 → Z.land (pd * 4096 + 5) (2 ^ k) = if Z.testbit 5 k then 2 ^ k else 0).
  { apply flags_of. rewrite Z.add_comm, Z.mod_add by lia. done. }
  rewrite (self_word _ (pd * 4096 + 5)); [by rewrite PGNUM_frame, Q2 by lia|done| | |].
  - rewrite Q1. by apply (uo_self _ _ _ _ _ Huo).
  - change PTE_P with (2 ^ 0). by rewrite HF by lia.
  - change PTE_U with (2 ^ 2). by rewrite HF by lia.
Qed.

Lemma k_uvpt pn :
  upn pn →
  ∃ d, uvpd (pn / 1024) s = (Ret d, s) ∧
    if flag d PTE_P then ∃ t, uvpt pn s = (Ret t, s) ∧ k_map s c pn = if flag t PTE_P then Some t else None
    else k_map s c pn = None.
Proof using Huo Hc Hv Hl Hpd Hd.
  intros Hpn. pose proof Hpn as Hr. unfold upn in Hr. change NUPAGES with 0xEEC00 in Hr.
  destruct (upn_slot pn Hpn) as (Hi & _).
  exists (entry s pd (pn / 1024)). split; [by apply k_uvpd|].
  rewrite (k_map_live s c v pd pn Hv Hl Hd). unfold pte_of, lookup_pte. cbn [fst snd].
  change (flag (entry s pd (pn / 1024)) PTE_P) with (present (entry s pd (pn / 1024))).
  destruct (present (entry s pd (pn / 1024))) eqn:Hp; [|done].
  destruct (pde_flags _ _ Hi eq_refl Hp) as (F1 & F2 & _).
  exists (entry s (PGNUM (entry s pd (pn / 1024))) (pn mod 1024)). split; [|done].
  unfold uvpt. by apply self_word; [lia|..].
Qed.
End running.

Lemma user_ok_store s pds fl kp n x t k b :
  user_ok s pds fl kp n → x ∈ slots pds → pte_of s x = Some t → 0 <= k < 4096 →
  let s' := set_mem (st8 (mem s) (PGNUM t * 4096 + k) b) s in
  user_ok s' pds fl kp n ∧ (∀ y, y ∈ slots pds → pte_of s' y = pte_of s y).
Proof.
  intros Huo Hx Ht Hk s'. pose proof (ko_vm _ _ _ (uo_ko _ _ _ _ _ Huo)) as Hvm.
  destruct (vm_data _ _ _ Hvm x t Hx Ht) as (_ & Hn1 & Hn2).
  assert (Hmem : ∀ f j, f ≠ PGNUM t → 0 <= j < 4096 → mem s' (f * 4096 + j) = mem s (f * 4096 + j)).
  { intros f j Hf Hj. unfold s'. cbn [mem set_mem]. apply st8_other. nia. }
  assert (HE : ∀ f i, f ≠ PGNUM t → idx i → entry s' f i = entry s f i).
  { intros f i Hf Hi. unfold idx in Hi. unfold entry. apply ld32_ext. intros y Hy. rewrite <- Z.add_assoc. apply Hmem; [done|lia]. }
  destruct (vm_ok_same_tables s s' pds fl fl Hvm) as (Hvm' & HP & HT); try done.
  - apply st8_ok, Hvm.
  - destruct (vm_phys _ _ _ Hvm). by constructor.
  - apply Hvm.
  - intros f i Hf Hi. apply HE; [|done]. intros ->. tauto.
  - intros p Hp. by apply (free_not_table s pds fl).
  - intros p pi. apply (vm_ref _ _ _ Hvm).
  - split; [|done]. destruct (uo_kp _ _ _ _ _ Huo) as (Hk1 & _ & Hk3).
    apply (user_ok_vm s s' pds fl fl kp n n); try done.
    + intros _ j Hj. apply Hmem; [|done]. intros E. by destruct (Hk3 x t Hx Ht).
    + intros pd i Hpd Hi. left. apply HE; [|done]. by intros ->.
    + intros p pi. apply (uo_refs _ _ _ _ _ Huo).
    + apply (kd_used _ _ _ (uo_kern _ _ _ _ _ Huo)).
    + intros y u Hy. rewrite HP by done. by apply Hk3.
Qed.

(** The maps agree when the environments and the slots do. *)
Lemma k_map_ext s s' pds fl kp n :
  user_ok s pds fl kp n → envs s' = envs s → (∀ y, y ∈ slots pds → pte_of s' y = pte_of s y) →
  ∀ e pn, upn pn → k_map s' e pn = k_map s e pn.
Proof.
  intros Huo Henv HP e pn Hpn. unfold k_map. rewrite Henv. destruct (envs s !! e) as [v|] eqn:Hv; [|done].
  destruct (live v) eqn:Hl; [|done]. apply bool_decide_eq_true in Hl.
  destruct (ko_dirs _ _ _ (uo_ko _ _ _ _ _ Huo) e v Hv Hl) as (pd & Hpd & Hd).
  rewrite (dir_frame_kaddr v pd Hd). apply HP. destruct (upn_slot pn Hpn) as (? & ? & _). by apply elem_of_slots.
Qed.

(** The running environment. *)
Lemma running_env s pds fl kp n :
  user_ok s pds fl kp n → ∃ c v pd, curenv_of s = Some c ∧ envs s !! c = Some v ∧ env_status v ≠ ENV_FREE ∧
    pd ∈ pds ∧ env_pgdir v = kaddr pd.
Proof.
  intros Huo. pose proof (uo_ko _ _ _ _ _ Huo) as Hko. destruct (ko_cur _ _ _ Hko) as (c & v & Hc & Hv & Hl).
  destruct (ko_dirs _ _ _ Hko c v Hv Hl) as (pd & Hpd & Hd). by exists c, v, pd.
Qed.

(** Unmapping a page leaves the page directory as it was. *)
Lemma k_unmap_table s n id e pn s' pn' d :
  k_ok s n → target s (s32 id) = Some e → upn pn → UserLib.sys_page_unmap id (pn * PGSIZE) s = (Ret 0, s') →
  upn pn' → uvpd (pn' / 1024) s = (Ret d, s) → uvpd (pn' / 1024) s' = (Ret d, s').
Proof.
  intros Hok Hid Hpn Hrun Hpn' Ht.
  destruct (k_unmap_full s n id e pn Hok Hid Hpn) as (s2 & R & (pds' & fl' & kp' & Huo') & (Hcur & _) & Henv & _ & _ & _ & HE).
  rewrite Hrun in R. injection R as <-. destruct Hok as (pds & fl & kp & Huo).
  destruct (running_env s _ _ _ _ Huo) as (c & v & pd & Hc & Hv & Hl & Hpd & Hd).
  destruct (running_env s' _ _ _ _ Huo') as (c' & v' & pd' & Hc' & Hv' & Hl' & Hpd' & Hd').
  assert (c' = c) as -> by (by rewrite Hc, Hc' in Hcur).
  assert (v' = v) as -> by (rewrite Henv in Hv'; congruence).
  assert (pd' = pd) as -> by (by rewrite <- (dir_frame_kaddr v pd' Hd'), (dir_frame_kaddr v pd Hd)).
  rewrite (k_uvpd s pds fl kp n c v pd) in Ht by done. injection Ht as <-.
  rewrite (k_uvpd s' pds' fl' kp' n c v pd) by done.
  destruct (upn_slot pn' Hpn') as (Hi & _). by rewrite (HE c v pd) by (done || by apply uidx_idx).
Qed.

Lemma k_store s n pn k t b :
  k_ok s n → upn pn → 0 <= k < PGSIZE → k_map s (default 0 (curenv_of s)) pn = Some t →
  flag t PTE_U = true → flag t PTE_W = true →
  ∃ s', ustore8 (pn * PGSIZE + k) b s = (Ret tt, s') ∧
    k_ok s' n ∧ k_same s s' ∧ envs s' = envs s ∧ k_free s' = k_free s ∧
    (∀ e' pn', upn pn' → k_map s' e' pn' = k_map s e' pn') ∧
    (∀ g k', 0 <= k' < 4096 → mem s' (g * 4096 + k') =
       if decide (g = PGNUM t ∧ k' = k) then u8 b else mem s (g * 4096 + k')).
Proof.
  intros (pds & fl & kp & Huo) Hpn Hk Ht HU HW.
  destruct (running_env s _ _ _ _ Huo) as (c & v & pd & Hc & Hv & Hl & Hpd & Hd). rewrite Hc in Ht. cbn in Ht.
  destruct (k_map_inv s _ _ _ _ c pn t Huo Hpn Ht) as (v' & pd' & _ & _ & _ & _ & Hsl & Hpte).
  destruct (user_ok_store s _ _ _ _ _ t k b Huo Hsl Hpte Hk) as [Huo' HP].
  set (s' := set_mem _ _) in *. exists s'. split.
  { unfold ustore8. cbn [kernel_machine].
    mrun (rewrite (user_access s pds fl kp n c v pd Huo Hc Hv Hl Hpd Hd true pn k Hpn Hk), Ht, HU, HW; reflexivity). done. }
  split_and!; [by exists pds, fl, kp|done|done|done|by eapply k_map_ext|].
  intros g k' Hk'. unfold s'. cbn [mem set_mem]. case_decide as Hd'.
  - destruct Hd' as [-> ->]. apply st8_same.
  - apply st8_other. unfold PGSIZE in Hk. destruct (decide (g = PGNUM t)); [|nia]. lia.
Qed.

(** ** Creating and configuring environments *)

Section exofork.
Context (s : kstate) (pds : list Z) (pd : Z) (l : list Z) (kp n c : Z) (cv : Env) (e : Z) (v : Env).
Hypothesis Huo : user_ok s pds (pd :: l) kp (n + 1).
Hypothesis Hc : curenv_of s = Some c.
Hypothesis Hcv : envs s !! c = Some cv.
Hypothesis Hcl : env_status cv ≠ ENV_FREE.
Hypothesis He : env_free_list s = Some e.
Hypothesis Hv : envs s !! e = Some v.
Hypothesis Hf : env_status v = ENV_FREE.
Hypothesis Hid : is_s32 (env_id v).
Hypothesis Her : 0 <= e < NENV.

Let child := forked (env_tf cv) (allocated v e pd (env_id cv)).
Let s' := set_envs (<[e := child]> (envs s)) (set_env_free_list (env_link v) (new_space s kp e v pd l)).

Lemma exofork_ne : c ≠ e.
Proof using Hcv Hcl Hv Hf. intros E. rewrite E in Hcv. congruence. Qed.

Lemma exofork_run : Syscall.sys_exofork s = (Ret (env_id child), s').
Proof using Huo Hc Hcv Hcl He Hv Hf.
  pose proof (uo_ko _ _ _ _ _ Huo) as Hko. pose proof (ko_vm _ _ _ Hko) as Hvm. pose proof exofork_ne as Hne.
  assert (Hcur : ∀ s1, curenv_of s1 = Some c → envs s1 !! c = Some cv → curenv_val s1 = (Ret cv, s1)).
  { intros s1 H1 H2. unfold curenv_val, the_curenv, curenv. msimpl. rewrite H1. unfold the. msimpl.
    by rewrite (get_env_eq _ c cv). }
  unfold Syscall.sys_exofork. mrun (by apply Hcur).
  mrun (apply (env_alloc_eq s kp pd l e v (env_id cv)); [apply Hvm|exact (uo_kern _ _ _ _ _ Huo)|apply Hvm|exact He|exact Hv]).
  cbn [Z.ltb Z.compare]. mrun reflexivity. mrun (apply upd_env_eq; apply lookup_insert_eq).
  mrun (apply Hcur; [exact Hc|cbn; by rewrite !lookup_insert_ne]).
  do 2 mrun (apply upd_env_eq; apply lookup_insert_eq). mrun (apply get_env_eq; apply lookup_insert_eq).
  cbn [envs set_envs set_env_free_list]. rewrite !insert_insert_eq. reflexivity.
Qed.

Lemma exofork_entry f i :
  idx i → entry s' f i =
    if decide (f = pd) then if decide (i = PDX UVPT) then pd * 4096 + 5 else entry s kp i else entry s f i.
Proof using Huo.
  intros Hi. pose proof (ko_vm _ _ _ (uo_ko _ _ _ _ _ Huo)) as Hvm.
  pose proof (free_list_range s _ pd (vm_phys _ _ _ Hvm) (vm_free _ _ _ Hvm) ltac:(by left)) as Hr.
  pose proof (phys_npages s (vm_phys _ _ _ Hvm)).
  rewrite <- (new_space_entry s kp e v pd l); [by apply entry_mem|lia| |done].
  intros ->. apply (kd_used _ _ _ (uo_kern _ _ _ _ _ Huo)). by left.
Qed.

Lemma exofork_mem f k : f ≠ pd → 0 <= k < 4096 → mem s' (f * 4096 + k) = mem s (f * 4096 + k).
Proof using.
  intros Hne Hk. unfold s', new_space. cbn [mem set_envs set_env_free_list set_mem].
  assert (Hu : 0 <= PDX UVPT < 1024) by apply PDX_range.
  rewrite st32_other_byte by nia. unfold mem_copy.
  destruct (Z.leb_spec (pd * 4096) (f * 4096 + k)), (Z.ltb_spec (f * 4096 + k) (pd * 4096 + 4096)); cbn [andb];
    try nia; apply mem_set_out; nia.
Qed.

Lemma exofork_ok :
  user_ok s' (pd :: pds) l kp n ∧ (∀ y, y ∈ slots pds → pte_of s' y = pte_of s y) ∧
  (∀ y, y ∈ slots [pd] → pte_of s' y = None).
Proof using Huo Hc Hcv Hcl He Hv Hf Hid Her.
  pose proof (uo_ko _ _ _ _ _ Huo) as Hko. pose proof (ko_vm _ _ _ Hko) as Hvm. pose proof exofork_ne as Hne.
  pose proof (vm_free _ _ _ Hvm) as Hfl. destruct (Hfl) as [(_ & link & Hlk & Hch) _].
  destruct (free_not_table s pds _ pd Hvm ltac:(by left)) as [Hnpd Hnpt].
  destruct Huo as [_ Hrefs Hinj Hself Hpde Hcr3 Hkern (Hk1 & Hk2 & Hk3)].
  pose proof (free_list_range s _ pd (vm_phys _ _ _ Hvm) Hfl ltac:(by left)) as Hpr.
  assert (Hkpd : kp ≠ pd) by (intros ->; apply (kd_used _ _ _ Hkern); by left).
  assert (HU : ∀ i, uidx i → i ≠ PDX UVPT) by (intros i [_ Hi] ->; by vm_compute in Hi).
  destruct (vm_ok_add_dir s s' pds pd l Hvm) as (Hvm' & HP & HN); try done.
  { cbn. apply st32_ok, mem_copy_ok, mem_set_ok, Hvm. }
  { intros f i Hi Hfp. rewrite exofork_entry by done. by rewrite decide_False. }
  { intros i Hi. rewrite exofork_entry by (by apply uidx_idx). rewrite decide_True, decide_False by auto.
    by apply (kd_empty _ _ _ Hkern). }
  assert (Hlive : ∀ e' v', envs s' !! e' = Some v' → env_status v' ≠ ENV_FREE →
    e' = e ∧ env_pgdir v' = kaddr pd ∨ e' ≠ e ∧ envs s !! e' = Some v').
  { intros e' v'. cbn [envs s' set_envs]. rewrite lookup_insert. case_decide as E.
    - intros [= <-] _. left. by subst.
    - intros Hv' _. right. by split; [congruence|]. }
  assert (Hold : ∀ e' v', envs s !! e' = Some v' → env_status v' ≠ ENV_FREE → env_pgdir v' ≠ kaddr pd).
  { intros e' v' Hv' Hl' E. destruct (ko_dirs _ _ _ Hko e' v' Hv' Hl') as (pd' & Hpd' & Hd').
    apply Hnpd. rewrite Hd' in E. unfold kaddr in E. by assert (pd = pd') as -> by lia. }
  split; [|done]. constructor.
  - constructor; [done| | |].
    + intros i Hi. cbn [envs s' set_envs]. rewrite lookup_insert. case_decide; [done|by apply (ko_table _ _ _ Hko)].
    + exists c, cv. split; [done|]. cbn [envs s' set_envs]. by rewrite lookup_insert_ne.
    + intros e' v' Hv' Hl'. destruct (Hlive e' v' Hv' Hl') as [[_ ?]|[_ H']]; [exists pd; split; [by left|done]|].
      destruct (ko_dirs _ _ _ Hko e' v' H' Hl') as (pd' & ? & ?). exists pd'. by split; [right|].
  - intros p pi. cbn [pages s' set_envs set_env_free_list new_space set_mem set_pages]. rewrite lookup_insert. case_decide as E.
    + intros [= <-]. pose proof (Hrefs pd _ Hlk). cbn in *. lia.
    + intros Hp. pose proof (Hrefs p pi Hp). lia.
  - intros e1 v1 e2 v2 H1 H2 L1 L2 E.
    destruct (Hlive e1 v1 H1 L1) as [[-> D1]|[N1 O1]], (Hlive e2 v2 H2 L2) as [[-> D2]|[N2 O2]]; [done|..].
    + exfalso. apply (Hold e2 v2 O2 L2). congruence.
    + exfalso. apply (Hold e1 v1 O1 L1). congruence.
    + by apply (Hinj e1 v1 e2 v2).
  - intros p Hp. rewrite exofork_entry by apply PDX_range. destruct (decide (p = pd)) as [->|]; [by rewrite decide_True|].
    apply Hself. by apply elem_of_cons in Hp as [?|?].
  - intros p i Hp Hi. rewrite exofork_entry by (by apply uidx_idx). destruct (decide (p = pd)) as [->|].
    + rewrite decide_False by auto. by rewrite (kd_empty _ _ _ Hkern).
    + apply Hpde; [|done]. by apply elem_of_cons in Hp as [?|?].
  - intros c' v' Hc' . cbn [envs s' set_envs]. assert (c' = c) as -> by (change (curenv_of s') with (curenv_of s) in Hc'; congruence).
    rewrite lookup_insert_ne by done. intros Hv'. by apply (Hcr3 c).
  - destruct Hkern as [H1 H2 H3 H4]. constructor; [done|done|intros ?; apply H3; by right|].
    intros i Hi. rewrite exofork_entry by (by apply uidx_idx). rewrite decide_False by done. by apply H4.
  - split; [|split].
    + intros [?|?]%elem_of_cons; done.
    + intros (p & i & Hp & Hi & Hpr' & Hq). rewrite exofork_entry in Hpr', Hq by (by apply uidx_idx).
      destruct (decide (p = pd)) as [->|].
      * rewrite decide_False in Hpr' by auto. by rewrite (kd_empty _ _ _ Hkern) in Hpr'.
      * apply Hk2. exists p, i. by apply elem_of_cons in Hp as [?|?].
    + intros x t Hx Ht. rewrite slots_cons in Hx. apply elem_of_app in Hx as [Hx|Hx]; [by rewrite HN in Ht|].
      rewrite HP in Ht by done. by apply (Hk3 x).
Qed.
End exofork.

Lemma k_exofork s n :
  k_ok s (n + 1) → k_slot s → 1 <= k_free s →
  ∃ s' id e, UserLib.sys_exofork s = (Ret id, s') ∧
    k_ok s' n ∧ 0 < id < 2 ^ 31 ∧ default 0 (curenv_of s') = default 0 (curenv_of s) ∧ k_free s - 1 <= k_free s' ∧
    target s' (s32 id) = Some e ∧ e ≠ default 0 (curenv_of s) ∧
    (∀ id' e', target s (s32 id') = Some e' → target s' (s32 id') = Some e') ∧
    (∀ pn, upn pn → k_map s e pn = None) ∧
    (∀ e' pn, upn pn → k_map s' e' pn = k_map s e' pn) ∧
    (∀ g k, k_mapped s g → k_mapped s' g → 0 <= k < 4096 → mem s' (g * 4096 + k) = mem s (g * 4096 + k)) ∧
    (∃ w, envs s' !! e = Some w ∧ env_status w = ENV_NOT_RUNNABLE).
Proof.
  intros (pds & fl & kp & Huo) (e & v & He & Hv & Hf & Hid & Her) Hfree.
  rewrite (k_free_eq _ _ _ _ _ Huo) in Hfree. destruct fl as [|pd l]; cbn [length] in Hfree; [lia|].
  destruct (running_env s _ _ _ _ Huo) as (c & cv & cpd & Hc & Hcv & Hcl & _ & _).
  pose proof (exofork_run s pds pd l kp n c cv e v Huo Hc Hcv Hcl He Hv Hf) as Hrun.
  destruct (exofork_ok s pds pd l kp n c cv e v Huo Hc Hcv Hcl He Hv Hf Hid Her) as (Huo' & HP & HN).
  pose proof (exofork_ne s c cv e v Hcv Hcl Hv Hf) as Hne.
  pose proof (exofork_mem s pd l kp cv e v) as Hmem.
  set (child := forked (env_tf cv) (allocated v e pd (env_id cv))) in *.
  set (s' := set_envs _ _) in *. exists s', (env_id child), e.
  destruct (next_env_id_spec (env_id v) e Hid Her) as (Hpos & Hx & _).
  change (next_env_id (env_id v) e) with (env_id child) in Hpos, Hx.
  assert (Hchild : envs s' !! e = Some child) by apply lookup_insert_eq.
  assert (Hother : ∀ e', e' ≠ e → envs s' !! e' = envs s !! e') by (intros; by apply lookup_insert_ne).
  assert (Hcur : curenv_of s' = curenv_of s) by done.
  split.
  { unfold UserLib.sys_exofork, int_syscall. cbn [kernel_machine]. unfold trapping, Syscall.syscall.
    change (syscalls !! Z.to_nat 7) with (Some SYS_exofork). cbv iota. rewrite Hrun.
    rewrite s32_small; [done|lia]. }
  split_and!; [by exists (pd :: pds), l, kp|lia|lia|done|..].
  - rewrite (k_free_eq _ _ _ _ _ Huo), (k_free_eq _ _ _ _ _ Huo'). cbn [length]. lia.
  - rewrite s32_small by lia. unfold target. rewrite Hcur, Hc. destruct (Z.eqb_spec (env_id child) 0); [lia|].
    unfold may_name. rewrite Hx, Hchild. cbn [mbind option_bind]. rewrite (Hother c Hne), Hcv.
    rewrite bool_decide_eq_true_2 by done. rewrite Z.eqb_refl. cbn [andb negb orb].
    replace (env_parent_id child =? env_id cv) with true by (symmetry; apply Z.eqb_refl). by rewrite orb_true_r.
  - rewrite Hc. cbn. congruence.
  - intros id' e'. unfold target. rewrite Hcur, Hc. destruct (s32 id' =? 0); [done|]. unfold may_name.
    cbn [mbind option_bind]. rewrite (Hother c Hne).
    destruct (decide (ENVX (s32 id') = e)) as [E|E].
    + rewrite E, Hv, Hf. by rewrite bool_decide_eq_false_2 by auto.
    + by rewrite Hother.
  - intros pn _. unfold k_map. rewrite Hv. unfold live. rewrite Hf. by rewrite bool_decide_eq_false_2 by auto.
  - intros e' pn Hpn. destruct (upn_slot pn Hpn) as (Hi & Hj & _). unfold k_map.
    destruct (decide (e' = e)) as [->|Hee].
    + rewrite Hchild, Hv. unfold live. rewrite Hf, (bool_decide_eq_false_2 (ENV_FREE ≠ ENV_FREE)) by auto.
      rewrite bool_decide_eq_true_2 by done. rewrite (dir_frame_kaddr child pd eq_refl). apply HN.
      apply elem_of_slots. split; [by left|done].
    + rewrite Hother by done. destruct (envs s !! e') as [v'|] eqn:Hv'; [|done].
      destruct (live v') eqn:Hl'; [|done]. apply bool_decide_eq_true in Hl'.
      destruct (ko_dirs _ _ _ (uo_ko _ _ _ _ _ Huo) e' v' Hv' Hl') as (pd' & Hpd' & Hd').
      rewrite (dir_frame_kaddr v' pd' Hd'). apply HP. by apply elem_of_slots.
  - intros g k Hg _ Hk. apply Hmem; [|done]. intros ->.
    destruct (mapped_in_slots s _ _ _ _ pd Huo Hg) as (x & t & Hx' & Ht & Hgt).
    apply (vm_mapped_not_free s pds _ (ko_vm _ _ _ (uo_ko _ _ _ _ _ Huo)) x t Hx' Ht). rewrite Hgt. by left.
  - by exists child.
Qed.

(** Updating an environment in a way the invariant does not see. *)
Lemma k_upd_env s pds fl kp n e v f :
  user_ok s pds fl kp n → envs s !! e = Some v → env_status v ≠ ENV_FREE →
  env_status (f v) ≠ ENV_FREE → env_pgdir (f v) = env_pgdir v → env_id (f v) = env_id v →
  env_parent_id (f v) = env_parent_id v →
  let s' := set_envs (<[e := f v]> (envs s)) s in
  user_ok s' pds fl kp n ∧ k_same s s' ∧ (∀ e' pn, k_map s' e' pn = k_map s e' pn).
Proof.
  intros Huo Hv Hl Hfl Hfd Hfi Hfp s'. pose proof (uo_ko _ _ _ _ _ Huo) as Hko.
  assert (Hlook : ∀ e', envs s' !! e' = if decide (e' = e) then Some (f v) else envs s !! e').
  { intros e'. unfold s'. cbn [envs set_envs]. rewrite lookup_insert. by repeat case_decide; subst. }
  assert (Hback : ∀ e' v', envs s' !! e' = Some v' → env_status v' ≠ ENV_FREE →
    ∃ w, envs s !! e' = Some w ∧ env_status w ≠ ENV_FREE ∧ env_pgdir v' = env_pgdir w).
  { intros e' v'. rewrite Hlook. destruct (decide (e' = e)) as [->|]; [intros [= <-]|]; eauto. }
  split_and!.
  - destruct Huo as [_ Hrefs Hinj Hself Hpde Hcr3 Hkern Hkp]. constructor; try done.
    + constructor.
      * apply (vm_ok_other_fields s s'); try done. apply Hko.
      * intros i Hi. rewrite Hlook. case_decide; [done|by apply (ko_table _ _ _ Hko)].
      * destruct (ko_cur _ _ _ Hko) as (c & w & Hc & Hw & Hwl). exists c. rewrite Hlook. case_decide; [|by exists w].
        by exists (f v).
      * intros e' v' Hv' Hl'. destruct (Hback e' v' Hv' Hl') as (w & Hw & Hwl & ->). by apply (ko_dirs _ _ _ Hko e' w).
    + intros e1 v1 e2 v2 H1 H2 L1 L2 E. destruct (Hback e1 v1 H1 L1) as (w1 & W1 & M1 & E1), (Hback e2 v2 H2 L2) as (w2 & W2 & M2 & E2).
      apply (Hinj e1 w1 e2 w2); congruence.
    + intros c v' Hc. rewrite Hlook. destruct (decide (c = e)) as [->|]; [intros [= <-]; rewrite Hfd; by apply (Hcr3 e)|by apply (Hcr3 c)].
    + by destruct Hkern.
  - split; [done|]. split.
    + intros id. unfold target. change (curenv_of s') with (curenv_of s). destruct (s32 id =? 0); [done|].
      unfold may_name. rewrite Hlook.
      assert (Hpar : ∀ c, (match envs s' !! c with Some w => Some (env_id w) | None => None end) =
                          (match envs s !! c with Some w => Some (env_id w) | None => None end)).
      { intros c. rewrite Hlook. destruct (decide (c = e)) as [->|]; [by rewrite Hv, Hfi|done]. }
      assert (Hm : ∀ p, (match curenv_of s ≫= (envs s' !!.) with Some w => p =? env_id w | None => false end) =
                        (match curenv_of s ≫= (envs s !!.) with Some w => p =? env_id w | None => false end)).
      { intros p. destruct (curenv_of s) as [c|]; [|done]. specialize (Hpar c).
        change (Some c ≫= (envs s' !!.)) with (envs s' !! c). change (Some c ≫= (envs s !!.)) with (envs s !! c).
        destruct (envs s' !! c), (envs s !! c); try done. by injection Hpar as ->. }
      destruct (decide (ENVX (s32 id) = e)) as [->|]; [rewrite Hv, Hfi, Hfp|by destruct (envs s !! ENVX (s32 id)); [rewrite Hm|]].
      rewrite Hm, (bool_decide_eq_true_2 (env_status (f v) ≠ ENV_FREE)) by done.
      by rewrite (bool_decide_eq_true_2 (env_status v ≠ ENV_FREE)).
    + intros (e0 & v0 & H0 & H1 & H2 & H3). exists e0, v0. split; [done|]. split; [|done].
      rewrite Hlook. rewrite decide_False; [done|]. intros ->. congruence.
  - intros e' pn. unfold k_map. rewrite Hlook. destruct (decide (e' = e)) as [->|].
    + rewrite Hv. unfold live. rewrite !bool_decide_eq_true_2 by done. unfold dir_frame. by rewrite Hfd.
    + done.
Qed.

Lemma k_set_env s n id e v f num a2 :
  k_ok s n → target s (s32 id) = Some e → envs s !! e = Some v →
  (env_status v ≠ ENV_FREE → env_status (f v) ≠ ENV_FREE) → env_pgdir (f v) = env_pgdir v → env_id (f v) = env_id v →
  env_parent_id (f v) = env_parent_id v →
  (envid2env (s32 (u32 id)) true s = (Ret (0, Some e), s) →
   Syscall.syscall num (u32 id) a2 0 0 0 s = (Ret 0, set_envs (<[e := f v]> (envs s)) s)) →
  ∃ s', UserLib.syscall num true (u32 id) a2 0 0 0 s = (Ret 0, s') ∧
    k_ok s' n ∧ k_same s s' ∧ k_free s' = k_free s ∧
    (∀ e' pn, k_map s' e' pn = k_map s e' pn) ∧ (∀ g k, mem s' (g * 4096 + k) = mem s (g * 4096 + k)) ∧
    (∀ e', envs s' !! e' = if decide (e' = e) then Some (f v) else envs s !! e').
Proof.
  intros (pds & fl & kp & Huo) Hid Hv Hf Hd Hi Hp Hrun. pose proof (uo_ko _ _ _ _ _ Huo) as Hko.
  destruct (target_live s _ _ _ _ Hko Hid) as (v' & pd & Hv' & Hl & _ & _). rewrite Hv in Hv'. injection Hv' as <-.
  destruct (k_upd_env s pds fl kp n e v f Huo Hv Hl (Hf Hl) Hd Hi Hp) as (Huo' & Hs & HM).
  set (s' := set_envs _ _) in *. exists s'.
  assert (Henv : envid2env (s32 (u32 id)) true s = (Ret (0, Some e), s)).
  { rewrite s32_u32. erewrite envid2env_target by exact Hko. by rewrite Hid. }
  split.
  { apply syscall_zero. by apply Hrun. }
  split_and!; [by exists pds, fl, kp|done|done|done|done|].
  intros e'. unfold s'. cbn [envs set_envs]. rewrite lookup_insert. by repeat case_decide; subst.
Qed.

(** ** The instance *)

#[export] Instance kernel_vm : UserVm kstate.
Proof.
  refine {|
    uv_self s := default 0 (curenv_of s);
    uv_name s id := target s (s32 id);
    uv_map := k_map;
    uv_byte s g k := mem s (g * 4096 + k);
    uv_env s e := envs s !! e;
    uv_free := k_free;
    uv_slot := k_slot;
    uv_ok := k_ok |}.
  - intros s n m (pds & fl & kp & [H1 H2 H3 H4 H5 H6 H7 H8]) Hm. exists pds, fl, kp. constructor; try done.
    intros p pi Hp. pose proof (H2 p pi Hp). lia.
  - intros s n (pds & fl & kp & Huo). destruct (running_env s _ _ _ _ Huo) as (c & v & pd & Hc & _).
    change (s32 0) with 0. unfold target. by rewrite Hc.
  - intros s n e pn t (pds & fl & kp & Huo) Hpn Ht.
    destruct (k_map_inv s _ _ _ _ e pn t Huo Hpn Ht) as (v & pd & _ & _ & _ & _ & _ & Hp).
    split; [|by eapply pte_of_present]. eapply pte_of_u32; [|exact Hp]. apply (ko_vm _ _ _ (uo_ko _ _ _ _ _ Huo)).
  - intros s n g k (pds & fl & kp & Huo). apply (vm_mem _ _ _ (ko_vm _ _ _ (uo_ko _ _ _ _ _ Huo))).
  - intros s n id e pn perm Hok Hid Hpn Hperm Hf.
    destruct (k_alloc s n id e pn perm Hok Hid Hpn Hperm Hf) as (s' & f & H1 & H2 & (S1 & S2 & S3) & H4 & H5 & H6 & H7 & H8 & H9 & H10).
    exists s', f. split_and!; try done. intros e'. by rewrite H4.
  - intros s n id1 e1 pn1 id2 e2 pn2 perm t Hn Hok Hid1 Hid2 Hpn1 Hpn2 Hperm Ht HW Hf.
    destruct (k_share s n id1 e1 pn1 id2 e2 pn2 perm t Hn Hok Hid1 Hid2 Hpn1 Hpn2 Hperm Ht HW Hf) as (s' & H1 & H2 & (S1 & S2 & S3) & H4 & H5 & H6 & H7).
    exists s'. split_and!; try done. intros e'. by rewrite H4.
  - intros s n id e pn Hok Hid Hpn. destruct (k_unmap s n id e pn Hok Hid Hpn) as (s' & H1 & H2 & (S1 & S2 & S3) & H4 & H5 & H6 & H7).
    exists s'. split_and!; try done. intros e'. by rewrite H4.
  - apply k_share_none.
  - apply k_unmap_table.
  - apply k_exofork.
  - intros s n id e v Hok Hid Hv. apply (k_set_env s n id e v (set_env_status ENV_RUNNABLE) 8); try done.
    intros He. unfold Syscall.syscall. change (syscalls !! Z.to_nat 8) with (Some SYS_env_set_status). cbv iota.
    change (s32 (u32 2)) with 2. unfold Syscall.sys_env_set_status. cbn [env_status_of].
    mrun (exact He). cbn [Z.ltb Z.compare]. mrun reflexivity. by mrun (by apply upd_env_eq).
  - intros s n id e v upcall Hok Hid Hv. apply (k_set_env s n id e v (set_env_pgfault_upcall upcall) 10); try done.
    intros He. unfold Syscall.syscall. change (syscalls !! Z.to_nat 10) with (Some SYS_env_set_pgfault_upcall). cbv iota.
    unfold Syscall.sys_env_set_pgfault_upcall. mrun (exact He). cbn [Z.ltb Z.compare]. mrun reflexivity. by mrun (by apply upd_env_eq).
  - intros s n pn k t (pds & fl & kp & Huo) Hpn Hk Ht HU.
    destruct (running_env s _ _ _ _ Huo) as (c & v & pd & Hc & Hv & Hl & Hpd & Hd). rewrite Hc in Ht. cbn in Ht.
    unfold uload8. cbn [kernel_machine].
    mrun (rewrite (user_access s pds fl kp n c v pd Huo Hc Hv Hl Hpd Hd false pn k Hpn Hk), Ht, HU; reflexivity). done.
  - intros s n pn k t b Hok Hpn Hk Ht HU HW.
    destruct (k_store s n pn k t b Hok Hpn Hk Ht HU HW) as (s' & H1 & H2 & (S1 & S2 & S3) & H4 & H5 & H6 & H7).
    exists s'. split_and!; try done. intros e'. by rewrite H4.
  - intros s n pn k b (pds & fl & kp & Huo) Hpn Hk HW.
    destruct (running_env s _ _ _ _ Huo) as (c & v & pd & Hc & Hv & Hl & Hpd & Hd). rewrite Hc in HW. cbn in HW.
    unfold ustore8. cbn [kernel_machine]. apply bind_Stop.
    rewrite (user_access s pds fl kp n c v pd Huo Hc Hv Hl Hpd Hd true pn k Hpn Hk).
    destruct (k_map s c pn) as [t|]; [|done]. rewrite (HW t eq_refl). by rewrite orb_true_r.
  - intros s n pn (pds & fl & kp & Huo) Hpn.
    destruct (running_env s _ _ _ _ Huo) as (c & v & pd & Hc & Hv & Hl & Hpd & Hd). rewrite Hc. cbn [default].
    exact (k_uvpt s pds fl kp n c v pd Huo Hc Hv Hl Hpd Hd pn Hpn).
Defined.
