(* ===== verification/Fork.v ===== *)
(** * Copy-on-write fork ([lib/fork.c], [lib/pgfault.c])

    [fork] gives the child the parent's pages, the writable ones read-only and
    marked [PTE_COW] in both address spaces; the page-fault handler [pgfault]
    replaces a page by a private copy when it is written.  The functions are
    translated over the interface of [UserLib] and verified against [UserVm].

    The library's global variables ([_pgfault_handler], [thisenv]) are passed
    explicitly; [_pgfault_upcall] (in [lib/pfentry.S]) and the address of
    [pgfault] are constants of the linked program. *)

From S2P Require Import Prelude Mmu Console KState AddrSpace Env Syscall SyscallSpec UserLib UserVm.
Open Scope Z_scope.

Definition FEC_WR : Z := 0x2.

Section fork.
Context {S : Type} `{Machine S}.
(** Addresses the linker assigns. *)
Context (_pgfault_upcall pgfault_addr : Z).

Definition pgfault (utf_fault_va utf_err : Z) : U S unit :=
  if Z.land utf_err FEC_WR =? 0 then upanic "fork: pgfault failed: faulting access was not caused by a write"
  else
    d ← uvpd (PDX utf_fault_va);
    cow ← (if Z.land d PTE_P =? 0 then mret false
           else t ← uvpt (PGNUM utf_fault_va); mret (negb (Z.land t (Z.lor PTE_P PTE_COW) =? 0)));
    if negb cow then upanic "fork: pgfault failed: faulting access was not caused by a copy-on-write page"
    else
      ret_alloc ← sys_page_alloc 0 PFTEMP (Z.lor (Z.lor PTE_P PTE_U) PTE_W);
      if ret_alloc <? 0 then upanic "fork: sys_page_alloc"
      else
        let addr := ROUNDDOWN utf_fault_va PGSIZE in
        umemmove PFTEMP addr PGSIZE;;
        ret_map ← sys_page_map 0 PFTEMP 0 addr (Z.lor (Z.lor PTE_P PTE_U) PTE_W);
        if ret_map <? 0 then upanic "fork: sys_page_map"
        else
          ret_unmap ← sys_page_unmap 0 PFTEMP;
          if ret_unmap <? 0 then upanic "fork: sys_page_unmap" else mret tt.

Definition duppage (envid pn : Z) : U S Z :=
  let addr := u32 (pn * PGSIZE) in
  t ← uvpt pn;
  if negb (Z.land t PTE_SHARE =? 0) then
    t ← uvpt pn;
    ret_map ← sys_page_map 0 addr envid addr (Z.land t PTE_SYSCALL);
    if ret_map <? 0 then upanic "duppage: sys_page_map directly failed" else mret 0
  else
    t ← uvpt pn;
    if negb (Z.land t (Z.lor PTE_W PTE_COW) =? 0) then
      ret_nmap ← sys_page_map 0 addr envid addr (Z.lor (Z.lor PTE_U PTE_P) PTE_COW);
      if ret_nmap <? 0 then upanic "duppage: sys_page_map failed"
      else
        ret_omap ← sys_page_map 0 addr 0 addr (Z.lor (Z.lor PTE_U PTE_P) PTE_COW);
        if ret_omap <? 0 then upanic "duppage: sys_page_map failed" else mret 0
    else
      ret_nmap ← sys_page_map 0 addr envid addr (Z.lor PTE_U PTE_P);
      if ret_nmap <? 0 then upanic "duppage: sys_page_map failed" else mret 0.

(** The variables of the library a program starts with. *)
Record globals : Type := mkGlobals { _pgfault_handler : Z; thisenv : Z }.

Definition set_pgfault_handler (g : globals) (handler : Z) : U S globals :=
  (if _pgfault_handler g =? 0 then
     ret_alloc ← sys_page_alloc 0 (UXSTACKTOP - PGSIZE) (Z.lor (Z.lor PTE_U PTE_P) PTE_W);
     if ret_alloc <? 0 then upanic "pgfault: set_pgfault_handler failed"
     else
       ret_upcall ← sys_env_set_pgfault_upcall 0 _pgfault_upcall;
       if ret_upcall <? 0 then upanic "pgfault: sys_env_set_pgfault_upcall" else mret tt
   else mret tt);;
  mret (mkGlobals handler (thisenv g)).

(** One round of the loop in [fork]. *)
Definition fork_page (envid pn : Z) : U S unit :=
  let addr := pn * PGSIZE in
  d ← uvpd (PDX addr);
  if Z.land d PTE_P =? 0 then mret tt
  else
    t ← uvpt (PGNUM addr);
    if Z.land t PTE_P =? 0 then mret tt
    else if addr =? UXSTACKTOP - PGSIZE then mret tt
    else _ ← duppage envid (PGNUM addr); mret tt.

Definition fork (g : globals) : U S (Z * globals) :=
  g ← set_pgfault_handler g pgfault_addr;
  envid ← sys_exofork;
  if envid <? 0 then upanic "fork: sys_exofork failed"
  else if envid =? 0 then
    me ← sys_getenvid;
    mret (0, mkGlobals (_pgfault_handler g) (ENVX me))
  else
    mfor (seqZ 0 (UTOP / PGSIZE)) (fork_page envid);;
    ret_pgalloc ← sys_page_alloc envid (UXSTACKTOP - PGSIZE) (Z.lor (Z.lor PTE_U PTE_W) PTE_P);
    if ret_pgalloc <? 0 then upanic "fork: sys_page_alloc failed"
    else
      ret_upcall ← sys_env_set_pgfault_upcall envid _pgfault_upcall;
      if ret_upcall <? 0 then upanic "fork: sys_env_set_pgfault_upcall failed"
      else
        ret_status ← sys_env_set_status envid 2;
        if ret_status <? 0 then upanic "sys_env_set_status" else mret (envid, g).

(** [sfork]: all pages shared, except the stack.  [Some r] is [return r]
    from inside the loop over one page table; [break] leaves it. *)
Fixpoint sfork_table (myenvid envid i j : Z) (fuel : nat) : U S (option Z) :=
  match fuel with
  | O => mret None
  | Datatypes.S fuel' =>
    let pn := PGNUM (PGADDR i j 0) in
    if pn =? PGNUM (UXSTACKTOP - PGSIZE) then mret None
    else if pn =? PGNUM (USTACKTOP - PGSIZE) then
      _ ← duppage envid pn; sfork_table myenvid envid i (j + 1) fuel'
    else
      t ← uvpt pn;
      if Z.land t PTE_P =? 0 then sfork_table myenvid envid i (j + 1) fuel'
      else
        t1 ← uvpt pn; t2 ← uvpt pn;
        let perm := Z.land t1 (Z.lnot (Z.land t2
          (Z.lnot (Z.lor (Z.lor (Z.lor PTE_P PTE_U) PTE_W) PTE_AVAIL)))) in
        ret_map ← sys_page_map myenvid (PGADDR i j 0) envid (PGADDR i j 0) perm;
        if ret_map <? 0 then mret (Some ret_map) else sfork_table myenvid envid i (j + 1) fuel'
  end.

Fixpoint sfork_tables (myenvid envid : Z) (tables : list Z) : U S (option Z) :=
  match tables with
  | [] => mret None
  | i :: tables =>
    d ← uvpd i;
    if Z.land d PTE_P =? 0 then sfork_tables myenvid envid tables
    else
      r ← sfork_table myenvid envid i 0 (Z.to_nat NPTENTRIES);
      match r with
      | Some r => mret (Some r)
      | None => sfork_tables myenvid envid tables
      end
  end.

(** The child's exception stack, mapped at [PFTEMP] for a moment. *)
Definition sfork_stack (myenvid envid : Z) : U S Z :=
  ret_alloc ← sys_page_alloc envid (UXSTACKTOP - PGSIZE) (Z.lor (Z.lor PTE_U PTE_P) PTE_W);
  if ret_alloc <? 0 then mret ret_alloc
  else
    ret_map ← sys_page_map envid (UXSTACKTOP - PGSIZE) myenvid PFTEMP (Z.lor (Z.lor PTE_U PTE_P) PTE_W);
    if ret_map <? 0 then mret ret_map
    else
      umemmove (UXSTACKTOP - PGSIZE) PFTEMP PGSIZE;;
      ret_umap ← sys_page_unmap myenvid PFTEMP;
      if ret_umap <? 0 then mret ret_umap
      else
        ret_upcall ← sys_env_set_pgfault_upcall envid _pgfault_upcall;
        if ret_upcall <? 0 then mret ret_upcall
        else
          ret_status ← sys_env_set_status envid 2;
          if ret_status <? 0 then mret ret_status else mret envid.

Definition sfork (g : globals) : U S (Z * globals) :=
  myenvid ← sys_getenvid;
  g ← set_pgfault_handler g pgfault_addr;
  envid ← sys_exofork;
  if envid <? 0 then upanic "sfork: sys_exofork failed"
  else if envid =? 0 then
    me ← sys_getenvid;
    mret (0, mkGlobals (_pgfault_handler g) (ENVX me))
  else
    r ← sfork_tables myenvid envid (seqZ (PDX UTEXT) (PDX UXSTACKTOP - PDX UTEXT));
    match r with
    | Some r => mret (r, g)
    | None => r ← sfork_stack myenvid envid; mret (r, g)
    end.

End fork.
