(* ===== verification/ForkSpec.v ===== *)
(** * Copy-on-write fork is a copying fork

    [fork] and [pgfault] against the interface [UserVm].  The abstract memory
    of environment [e] is [umem s e]: the byte at each mapped user address.
    [cow_ok] is the invariant of copy-on-write: a page that is writable in
    one place, and not shared on purpose, is mapped nowhere else.  [fork]
    establishes the child's memory as a copy of the parent's, and under
    [cow_ok] every write, faulting or not, changes the writer's memory only:
    sharing pages is invisible. *)

From S2P Require Import Prelude Mmu Console KState AddrSpace Env Syscall SyscallSpec UserLib UserVm Fork.
Open Scope Z_scope.

Section spec.
Context {S : Type} `{UserVm S}.
Implicit Types s : S.

Lemma PFTEMP_page : upn (PGNUM PFTEMP) ∧ PGNUM PFTEMP * PGSIZE = PFTEMP.
Proof. by vm_compute. Qed.

Lemma pgfault_spec s n pn k t err :
  0 <= n → uv_ok s (n + 2) → 3 <= uv_free s → upn pn → 0 <= k < PGSIZE → flag err FEC_WR = true →
  uv_map s (uv_self s) pn = Some t → flag t PTE_U = true → pn ≠ PGNUM PFTEMP →
  ∃ s' f, pgfault (pn * PGSIZE + k) err s = (Ret tt, s') ∧
    uv_ok s' n ∧ uv_same s s' ∧ uv_same_env s s' ∧ uv_free s - 3 <= uv_free s' ∧
    ¬ uv_mapped s f ∧
    (∀ e' pn', upn pn' → uv_map s' e' pn' =
       if decide (e' = uv_self s ∧ pn' = pn) then Some (f * 4096 + 7)
       else if decide (e' = uv_self s ∧ pn' = PGNUM PFTEMP) then None else uv_map s e' pn') ∧
    (∀ i, 0 <= i < 4096 → uv_byte s' f i = uv_byte s (PGNUM t) i) ∧ uv_kept s s'.
Proof.
  intros Hn Hok Hfree Hpn Hk Herr Ht HU Htemp. destruct PFTEMP_page as [Hq Hqa].
  set (q := PGNUM PFTEMP) in *.
  pose proof (uv_self_name s _ Hok) as Hself.
  destruct (fault_addr pn k Hpn Hk) as (E1 & E2 & E3).
  destruct (uvpt_mapped s _ pn t Hok Hpn Ht) as (d & Hd & Hdp & Hpt & Htp).
  unfold pgfault. unfold flag in Herr. apply negb_true_iff in Herr. rewrite Herr, E1, E2, E3.
  mrun (exact Hd). rewrite Hdp. rewrite bind_assoc. mrun (exact Hpt). rewrite bind_ret.
  assert (Hcow : (Z.land t (Z.lor PTE_P PTE_COW) =? 0) = false).
  { rewrite Z.land_lor_distr_r. apply Z.eqb_neq. apply Z.eqb_neq in Htp. intros E. by apply Z.lor_eq_0_iff in E as [? _]. }
  rewrite Hcow. cbn [negb]. rewrite <- Hqa.
  change (Z.lor (Z.lor PTE_P PTE_U) PTE_W) with 7.
  destruct (uv_alloc s (n + 1) 0 (uv_self s) q 7) as
    (s1 & f & R1 & Hok1 & Hs1 & He1 & Hf1 & Hnew & Hf0 & U1 & _ & K1); [|done..|lia|].
  { by replace (n + 1 + 1) with (n + 2) by lia. }
  mrun (exact R1). cbn [Z.ltb Z.compare].
  assert (Hm1 : uv_map s1 (uv_self s1) q = Some (f * 4096 + 7)).
  { destruct Hs1 as (-> & _). rewrite U1 by done. by rewrite decide_True. }
  assert (Ht1 : uv_map s1 (uv_self s1) pn = Some t).
  { destruct Hs1 as (-> & _). rewrite U1 by done. by rewrite decide_False by tauto. }
  assert (Hne : PGNUM t ≠ f) by (intros <-; apply Hnew; exact (mapped_at _ _ _ _ Hpn Ht)).
  assert (Hfl : ∀ j, 0 <= j < 3 → flag (f * 4096 + 7) (2 ^ j) = true).
  { intros j Hj. rewrite flag_frame by lia. assert (j = 0 ∨ j = 1 ∨ j = 2) as [->|[->| ->]] by lia; done. }
  destruct (umemmove_page s1 _ pn t q (f * 4096 + 7) Hok1 Hpn Hq Ht1 Hm1 HU) as
    (s2 & R2 & Q2 & B2); [exact (Hfl 2 ltac:(lia))|exact (Hfl 1 ltac:(lia))|by rewrite pgnum_entry|].
  rewrite pgnum_entry in B2 by lia. mrun (exact R2). destruct Q2 as (Hok2 & Hs2 & He2 & Hf2 & M2).
  pose proof (uv_same_trans _ _ _ Hs1 Hs2) as Hs12.
  destruct (uv_share s2 n 0 (uv_self s) q 0 (uv_self s) pn 7 (f * 4096 + 7)) as
    (s3 & R3 & Hok3 & Hs3 & He3 & Hf3 & U3 & K3); [done|done|by rewrite (proj1 (proj2 Hs12))..|done|done|done| |intros _; exact (Hfl 1 ltac:(lia))|lia|].
  { rewrite M2 by done. rewrite U1 by done. by rewrite decide_True. }
  rewrite pgnum_entry in U3 by lia. mrun (exact R3). cbn [Z.ltb Z.compare].
  pose proof (uv_same_trans _ _ _ Hs12 Hs3) as Hs13.
  destruct (uv_unmap s3 n 0 (uv_self s) q) as
    (s4 & R4 & Hok4 & Hs4 & He4 & Hf4 & U4 & K4); [done|by rewrite (proj1 (proj2 Hs13))|done|].
  mrun (exact R4). cbn [Z.ltb Z.compare].
  assert (HM : ∀ e' pn', upn pn' → uv_map s4 e' pn' =
       if decide (e' = uv_self s ∧ pn' = pn) then Some (f * 4096 + 7)
       else if decide (e' = uv_self s ∧ pn' = q) then None else uv_map s e' pn').
  { intros e' pn' Hpn'. rewrite U4, U3, M2, U1 by done.
    destruct (decide (e' = uv_self s ∧ pn' = pn)) as [[-> ->]|?]; [by rewrite decide_False by tauto|].
    by destruct (decide (e' = uv_self s ∧ pn' = q)). }
  assert (Hpn3 : uv_map s3 (uv_self s) pn = Some (f * 4096 + 7)) by (rewrite U3 by done; by rewrite decide_True).
  assert (Hpn4 : uv_map s4 (uv_self s) pn = Some (f * 4096 + 7)) by (rewrite HM by done; by rewrite decide_True).
  assert (Htt : uv_mapped s1 (PGNUM t)) by exact (mapped_at _ _ _ _ Hpn Ht1).
  exists s4, f. split; [done|]. split_and!; [done| |..].
  - by eapply uv_same_trans.
  - intros e. by rewrite He4, He3, He2, He1.
  - lia.
  - done.
  - exact HM.
  - intros i Hi.
    assert (uv_mapped s3 f) by (eapply (mapped_frame s3 _ pn f 7); [done|lia|done]).
    rewrite K4, K3, B2 by (done || (eapply (mapped_frame s4 _ pn f 7); [done|lia|done]) ||
      (eapply (mapped_frame s2 (uv_self s) q f 7); [done|lia|rewrite M2, U1, decide_True by done; done])).
    rewrite decide_True by done. apply K1; [exact (mapped_at _ _ _ _ Hpn Ht)|done|done].
  - intros g i Hg Hg4 Hi. pose proof Hg4 as (e' & pn' & t' & Hpn' & Hm' & <-).
    assert (PGNUM t' ≠ f) by (intros E; by rewrite E in Hg).
    rewrite HM in Hm' by done.
    destruct (decide (e' = uv_self s ∧ pn' = pn)) as [|Hd1]; [injection Hm' as <-; by rewrite pgnum_entry in *|].
    destruct (decide (e' = uv_self s ∧ pn' = q)) as [|Hd2]; [done|].
    assert (G1 : uv_mapped s1 (PGNUM t')) by (exists e', pn', t'; rewrite U1, decide_False by done; done).
    assert (G2 : uv_mapped s2 (PGNUM t')) by (exists e', pn', t'; rewrite M2, U1, decide_False by done; done).
    assert (G3 : uv_mapped s3 (PGNUM t'))
      by (exists e', pn', t'; rewrite U3, decide_False, M2, U1, decide_False by done; done).
    rewrite K4, K3, B2 by done. rewrite decide_False by done. by apply K1.
Qed.

(** ** [duppage] *)

(** The entries [duppage] leaves in the child and in the parent. *)
Definition dup_child (t : Z) : Z :=
  PGNUM t * 4096 +
    (if flag t PTE_SHARE then Z.land t PTE_SYSCALL
     else if flag t (Z.lor PTE_W PTE_COW) then Z.lor (Z.lor PTE_U PTE_P) PTE_COW else Z.lor PTE_U PTE_P).

Definition dup_parent (t : Z) : Z :=
  if flag t PTE_SHARE then t
  else if flag t (Z.lor PTE_W PTE_COW) then PGNUM t * 4096 + Z.lor (Z.lor PTE_U PTE_P) PTE_COW else t.

Lemma PGNUM_dup_child t : 0 <= t → PGNUM (dup_child t) = PGNUM t.
Proof.
  intros Ht. unfold dup_child. apply PGNUM_frame. pose proof (syscall_bits t Ht).
  repeat case_match; [done|by vm_compute..].
Qed.

Lemma PGNUM_dup_parent t : PGNUM (dup_parent t) = PGNUM t.
Proof. unfold dup_parent. repeat case_match; try done. apply PGNUM_frame. by vm_compute. Qed.

Lemma flag_lor t a b : flag t (Z.lor a b) = flag t a || flag t b.
Proof.
  unfold flag. rewrite Z.land_lor_distr_r.
  destruct (Z.eqb_spec (Z.lor (Z.land t a) (Z.land t b)) 0) as [[-> ->]%Z.lor_eq_0_iff|Hne]; [done|].
  destruct (Z.eqb_spec (Z.land t a) 0) as [E1|]; [|done]. destruct (Z.eqb_spec (Z.land t b) 0) as [E2|]; [|done].
  by rewrite E1, E2 in Hne.
Qed.

Lemma duppage_spec s n id e pn t :
  0 <= n → uv_ok s (n + 2) → 2 <= uv_free s → uv_name s id = Some e → e ≠ uv_self s → upn pn →
  uv_map s (uv_self s) pn = Some t → flag t PTE_U = true →
  ∃ s', duppage id pn s = (Ret 0, s') ∧
    uv_ok s' n ∧ uv_same s s' ∧ uv_same_env s s' ∧ uv_free s - 2 <= uv_free s' ∧
    (∀ e' pn', upn pn' → uv_map s' e' pn' =
       if decide (e' = e ∧ pn' = pn) then Some (dup_child t)
       else if decide (e' = uv_self s ∧ pn' = pn) then Some (dup_parent t) else uv_map s e' pn') ∧
    uv_kept s s'.
Proof.
  intros Hn Hok Hfree Hid Hne Hpn Ht HU.
  pose proof (uv_self_name s _ Hok) as Hself.
  destruct (uvpt_mapped s _ pn t Hok Hpn Ht) as (d & _ & _ & Hpt & Htp).
  destruct (uv_entry s _ _ _ t Hok Hpn Ht) as [Htu Htpr]. unfold is_u32 in Htu.
  assert (Ha : u32 (pn * PGSIZE) = pn * PGSIZE).
  { pose proof (upn_u32 pn 0 0 Hpn). rewrite !Z.add_0_r in *. by apply H1. }
  assert (Hself2 : ∀ e' pn', upn pn' → uv_map s e' pn' =
    if decide (e' = uv_self s ∧ pn' = pn) then Some t else uv_map s e' pn').
  { intros e' pn' _. by destruct (decide (e' = uv_self s ∧ pn' = pn)) as [[-> ->]|]. }
  (* mapping the page into the child *)
  assert (Hmap : ∀ perm, perm_ok perm = true → (flag perm PTE_W = true → flag t PTE_W = true) →
    ∃ s1, sys_page_map 0 (pn * PGSIZE) id (pn * PGSIZE) perm s = (Ret 0, s1) ∧
      uv_ok s1 (n + 1) ∧ uv_same s s1 ∧ uv_same_env s s1 ∧ uv_free s - 1 <= uv_free s1 ∧
      uv_update s s1 e pn (Some (PGNUM t * 4096 + perm)) ∧ uv_kept s s1).
  { intros perm Hperm HW.
    apply (uv_share s (n + 1) 0 (uv_self s) pn id e pn perm t); try done; [lia| |lia].
    by replace (n + 1 + 1) with (n + 2) by lia. }
  unfold duppage. cbv zeta. rewrite Ha. mrun (exact Hpt).
  unfold dup_child, dup_parent. fold (flag t PTE_SHARE). destruct (flag t PTE_SHARE).
  { mrun (exact Hpt). destruct (Hmap (Z.land t PTE_SYSCALL)) as (s1 & R1 & Hok1 & Hs1 & He1 & Hf1 & U1 & K1).
    { by apply share_perm_ok. } { apply flag_syscall. }
    mrun (exact R1). cbn [Z.ltb Z.compare]. exists s1. split_and!; try done; [|lia|].
    - apply (uv_mono _ (n + 1)); [done|lia].
    - intros e' pn' Hpn'. rewrite U1 by done. case_match; [done|]. by apply Hself2. }
  mrun (exact Hpt). fold (flag t (Z.lor PTE_W PTE_COW)). destruct (flag t (Z.lor PTE_W PTE_COW)).
  2: { destruct (Hmap (Z.lor PTE_U PTE_P)) as (s1 & R1 & Hok1 & Hs1 & He1 & Hf1 & U1 & K1); [done|done|].
    mrun (exact R1). cbn [Z.ltb Z.compare]. exists s1. split_and!; try done; [|lia|].
    - apply (uv_mono _ (n + 1)); [done|lia].
    - intros e' pn' Hpn'. rewrite U1 by done. case_match; [done|]. by apply Hself2. }
  set (cow := Z.lor (Z.lor PTE_U PTE_P) PTE_COW) in *.
  destruct (Hmap cow) as (s1 & R1 & Hok1 & Hs1 & He1 & Hf1 & U1 & K1); [done|done|].
  mrun (exact R1). cbn [Z.ltb Z.compare].
  assert (Ht1 : uv_map s1 (uv_self s) pn = Some t) by (rewrite U1 by done; by rewrite decide_False by naive_solver).
  destruct (uv_share s1 n 0 (uv_self s) pn 0 (uv_self s) pn cow t) as
    (s2 & R2 & Hok2 & Hs2 & He2 & Hf2 & U2 & K2); try done; [by rewrite (proj1 (proj2 Hs1))..|lia|].
  mrun (exact R2). cbn [Z.ltb Z.compare].
  assert (HM : ∀ e' pn', upn pn' → uv_map s2 e' pn' =
       if decide (e' = e ∧ pn' = pn) then Some (PGNUM t * 4096 + cow)
       else if decide (e' = uv_self s ∧ pn' = pn) then Some (PGNUM t * 4096 + cow) else uv_map s e' pn').
  { intros e' pn' Hpn'. rewrite U2, U1 by done.
    destruct (decide (e' = e ∧ pn' = pn)) as [[-> ->]|]; [by rewrite decide_False by tauto|done]. }
  exists s2. split; [done|]. split_and!; try done; [by eapply uv_same_trans| |lia|].
  - intros x. by rewrite He2, He1.
  - intros g i Hg Hg2 Hi. pose proof (mapped_at _ _ _ _ Hpn Ht1) as Hgt.
    assert (uv_mapped s1 g).
    { destruct Hg2 as (e' & pn' & t' & Hpn' & Hm' & <-). rewrite HM in Hm' by done.
      destruct (decide (e' = e ∧ pn' = pn)); [injection Hm' as <-; by rewrite pgnum_entry by (by vm_compute)|].
      destruct (decide (e' = uv_self s ∧ pn' = pn)); [injection Hm' as <-; by rewrite pgnum_entry by (by vm_compute)|].
      exists e', pn', t'. by rewrite U1, decide_False. }
    rewrite K2 by done. by apply K1.
Qed.

(** ** The loop of [fork] *)

Definition UXPN : Z := PGNUM (UXSTACKTOP - PGSIZE).

(** How many of the pages in [l] are still to come. *)
Definition todo (l : list Z) (k : Z) : Z := Z.of_nat (length (filter (λ x, k <= x) l)).

Lemma todo_step l k : todo l (k + 1) <= todo l k.
Proof.
  unfold todo. induction l as [|x l IH]; [done|]. rewrite !filter_cons.
  repeat case_decide; cbn [length]; lia.
Qed.

Lemma todo_hit l k : k ∈ l → todo l (k + 1) + 1 <= todo l k.
Proof.
  unfold todo. induction l as [|x l IH]; [by intros ?%not_elem_of_nil|].
  pose proof (todo_step l k) as Hst. unfold todo in Hst. rewrite !filter_cons.
  intros [->|Hin]%elem_of_cons; repeat case_decide; cbn [length]; try specialize (IH Hin); lia.
Qed.

Section loop.
Context (s0 : S) (id e n m : Z) (l : list Z).
Let self := uv_self s0.
Hypothesis Hn0 : 0 <= n.
Hypothesis Hname : uv_name s0 id = Some e.
Hypothesis Hne : e ≠ self.
Hypothesis Hempty : ∀ pn, upn pn → uv_map s0 e pn = None.
Hypothesis Hpages : ∀ pn t, upn pn → uv_map s0 self pn = Some t → pn ∈ l ∧ flag t PTE_U = true.

Definition dupped (k : Z) (e' pn : Z) : option Z :=
  if decide (pn < k ∧ pn ≠ UXPN) then
    if decide (e' = e) then dup_child <$> uv_map s0 self pn
    else if decide (e' = self) then dup_parent <$> uv_map s0 self pn else uv_map s0 e' pn
  else uv_map s0 e' pn.

Definition loop_inv (k : Z) (s : S) : Prop :=
  uv_ok s (n + 2 * todo l k) ∧ uv_same s0 s ∧ uv_same_env s0 s ∧ m + 2 * todo l k <= uv_free s ∧
  (∀ e' pn, upn pn → uv_map s e' pn = dupped k e' pn) ∧ uv_kept s0 s.

Lemma dupped_mapped s k g :
  (∀ e' pn, upn pn → uv_map s e' pn = dupped k e' pn) → uv_mapped s0 g → uv_mapped s g.
Proof using Hne Hempty.
  intros HM (e' & pn & t & Hpn & Ht & <-).
  destruct (decide (e' = e)) as [->|He]; [by rewrite Hempty in Ht|].
  destruct (decide (e' = self)) as [->|Hs].
  - exists self, pn. rewrite HM by done. unfold dupped.
    case_decide; [|by exists t]. rewrite decide_False, decide_True by congruence. rewrite Ht.
    exists (dup_parent t). by rewrite PGNUM_dup_parent.
  - exists e', pn, t. rewrite HM by done. unfold dupped. repeat case_decide; done.
Qed.

Lemma dupped_step k e' pn :
  k ≠ UXPN → dupped (k + 1) e' pn =
    if decide (e' = e ∧ pn = k) then dup_child <$> uv_map s0 self k
    else if decide (e' = self ∧ pn = k) then dup_parent <$> uv_map s0 self k else dupped k e' pn.
Proof using Hne.
  intros Hk. unfold dupped. destruct (decide (pn = k)) as [->|Hp].
  - rewrite (decide_True (P := k < k + 1 ∧ k ≠ UXPN)) by (split; [lia|done]).
    rewrite (decide_False (P := k < k ∧ k ≠ UXPN)) by lia.
    destruct (decide (e' = e)) as [->|]; [by rewrite decide_True|].
    rewrite (decide_False (P := e' = e ∧ k = k)) by tauto.
    destruct (decide (e' = self)) as [->|]; [by rewrite decide_True|by rewrite decide_False by tauto].
  - rewrite !(decide_False (P := _ ∧ pn = k)) by tauto.
    destruct (decide (pn < k ∧ pn ≠ UXPN)); [rewrite decide_True by lia|rewrite decide_False by lia]; done.
Qed.

Lemma dupped_skip k e' pn :
  upn k → k = UXPN ∨ uv_map s0 self k = None → dupped (k + 1) e' pn = dupped k e' pn.
Proof using Hne Hempty.
  intros Hk Hs. unfold dupped. destruct (decide (pn = k)) as [->|Hp].
  - rewrite (decide_False (P := k < k ∧ k ≠ UXPN)) by lia.
    case_decide as Hd; [|done]. destruct Hs as [->|Hs]; [tauto|].
    destruct (decide (e' = e)) as [->|]; [by rewrite Hs, Hempty|].
    destruct (decide (e' = self)) as [->|]; [by rewrite Hs|done].
  - destruct (decide (pn < k ∧ pn ≠ UXPN)); [rewrite decide_True by lia|rewrite decide_False by lia]; done.
Qed.

Lemma loop_skip k s : upn k → k = UXPN ∨ uv_map s0 self k = None → loop_inv k s → loop_inv (k + 1) s.
Proof using Hne Hempty.
  intros Hk Hs (Hok & Hsm & He & Hf & HM & HK). pose proof (todo_step l k).
  split_and!; try done; [|lia|].
  - eapply uv_mono; [exact Hok|lia].
  - intros e' pn Hpn. rewrite dupped_skip by done. by apply HM.
Qed.

Lemma fork_page_step k s :
  0 <= m → upn k → loop_inv k s → ∃ s', fork_page id k s = (Ret tt, s') ∧ loop_inv (k + 1) s'.
Proof using Hn0 Hname Hne Hempty Hpages.
  intros Hm Hk Hinv. pose proof Hinv as (Hok & (Hs1 & Hs2 & Hs3) & He & Hf & HM & HK).
  assert (Hcur : uv_map s (uv_self s) k = uv_map s0 self k).
  { rewrite Hs1, HM by done. unfold dupped. by rewrite decide_False by lia. }
  destruct (upn_index k Hk) as [E1 E2]. unfold fork_page. rewrite E1, E2.
  destruct (uv_map s0 self k) as [t|] eqn:Ht.
  - destruct (uvpt_mapped s _ k t Hok Hk Hcur) as (d & Hd & Hdp & Hpt & Htp).
    mrun (exact Hd). rewrite Hdp. mrun (exact Hpt). rewrite Htp.
    destruct (Z.eqb_spec (k * PGSIZE) (UXSTACKTOP - PGSIZE)) as [Ha|Ha].
    { exists s. split; [done|]. apply loop_skip; [done| |done]. left. unfold UXPN. by rewrite <- Ha, E2. }
    assert (Hux : k ≠ UXPN) by (intros ->; by apply Ha).
    destruct (Hpages k t Hk Ht) as [Hin HU]. pose proof (todo_hit l k Hin).
    destruct (duppage_spec s (n + 2 * todo l (k + 1)) id e k t) as
      (s' & Hrun & Hok' & Hsm' & He' & Hf' & HM' & HK'); try done.
    { unfold todo. lia. } { eapply uv_mono; [exact Hok|lia]. } { unfold todo in *. lia. }
    { by rewrite Hs2. } { by rewrite Hs1. }
    mrun (exact Hrun). exists s'. split; [done|]. split_and!; try done; [|by intros x; rewrite He', He|lia| |].
    + eapply uv_same_trans; [|exact Hsm']. done.
    + intros e' pn Hpn. rewrite HM', Hs1, HM, dupped_step by done. rewrite Ht. done.
    + intros g i Hg Hg' Hi. assert (uv_mapped s g) by (by eapply dupped_mapped).
      rewrite HK' by done. by apply HK.
  - exists s. split; [|apply loop_skip; [done|by right|done]].
    destruct (uv_uvpt s _ k Hok Hk) as (d & Hd & Hx). mrun (exact Hd). unfold flag in Hx.
    destruct (Z.land d PTE_P =? 0); cbn [negb] in Hx; [done|].
    destruct Hx as (t & Hpt & Hmt). mrun (exact Hpt). rewrite Hcur in Hmt.
    destruct (Z.land t PTE_P =? 0); [done|]. cbn [negb] in Hmt. done.
Qed.

Lemma fork_loop :
  0 <= m → uv_ok s0 (n + 2 * Z.of_nat (length l)) → m + 2 * Z.of_nat (length l) <= uv_free s0 →
  ∃ s', mfor (seqZ 0 (UTOP / PGSIZE)) (fork_page id) s0 = (Ret tt, s') ∧ loop_inv NUPAGES s'.
Proof using Hn0 Hname Hne Hempty Hpages.
  intros Hm Hok Hf. assert (Hlen : todo l 0 <= Z.of_nat (length l)).
  { unfold todo. pose proof (length_filter (λ x, 0 <= x) l). lia. }
  destruct (mfor_seqZ loop_inv (fork_page id) 0 (UTOP / PGSIZE) s0) as (s' & Hrun & Hinv); [done| | |by exists s'].
  - split_and!; try done; [|lia|].
    + eapply uv_mono; [exact Hok|lia].
    + intros e' pn Hpn. unfold dupped. unfold upn in Hpn. by rewrite decide_False by lia.
  - intros k s Hk Hinv. apply fork_page_step; [done| |done]. unfold upn. by change NUPAGES with (UTOP / PGSIZE).
Qed.
End loop.

(** ** Memories and the copy-on-write invariant *)

Definition cow_ok (s : S) : Prop :=
  ∀ e1 pn1 t1 e2 pn2 t2, upn pn1 → upn pn2 → uv_map s e1 pn1 = Some t1 → uv_map s e2 pn2 = Some t2 →
    (e1, pn1) ≠ (e2, pn2) → PGNUM t1 = PGNUM t2 → flag t1 PTE_W = true → flag t1 PTE_SHARE = true.

Lemma cow_ok_ext s s' : (∀ e pn, upn pn → uv_map s' e pn = uv_map s e pn) → cow_ok s → cow_ok s'.
Proof. intros HM Hc e1 pn1 t1 e2 pn2 t2 H1 H2. rewrite !HM by done. by apply Hc. Qed.

Lemma cow_ok_fresh s s' e pn f perm :
  0 <= perm < 4096 → ¬ uv_mapped s f → uv_update s s' e pn (Some (f * 4096 + perm)) → cow_ok s → cow_ok s'.
Proof.
  intros Hp Hf HU Hc e1 pn1 t1 e2 pn2 t2 H1 H2. rewrite !HU by done.
  destruct (decide (e1 = e ∧ pn1 = pn)) as [[-> ->]|]; destruct (decide (e2 = e ∧ pn2 = pn)) as [[-> ->]|].
  - done.
  - intros [= <-] Hm _ E. rewrite pgnum_entry in E by done. destruct Hf. rewrite E. by exists e2, pn2, t2.
  - intros Hm [= <-] _ E. rewrite pgnum_entry in E by done. destruct Hf. rewrite <- E. by exists e1, pn1, t1.
  - by apply Hc.
Qed.

(** Where an entry after the loop comes from. *)
Lemma dupped_source s0 e e' pn t' :
  (∀ pn, upn pn → uv_map s0 e pn = None) → e ≠ uv_self s0 → upn pn →
  (∀ t, uv_map s0 (uv_self s0) pn = Some t → 0 <= t) →
  dupped s0 e NUPAGES e' pn = Some t' →
  ∃ t, uv_map s0 (if decide (e' = e) then uv_self s0 else e') pn = Some t ∧ PGNUM t' = PGNUM t ∧
    (e' = e → pn ≠ UXPN) ∧
    (flag t' PTE_W = true → flag t' PTE_SHARE = true ∨ t' = t ∧ e' ≠ e ∧ (e' ≠ uv_self s0 ∨ pn = UXPN)).
Proof.
  intros Hempty Hne Hpn Hpos Hd. pose proof Hpn as Hr. unfold upn in Hr. unfold dupped in Hd.
  destruct (decide (pn < NUPAGES ∧ pn ≠ UXPN)) as [Hux|Hux].
  2: { assert (pn = UXPN) by (destruct (decide (pn = UXPN)); [done|lia]).
       destruct (decide (e' = e)) as [->|]; [by rewrite Hempty in Hd|]. exists t'. split_and!; try done. intros _. right. split_and!; auto. }
  destruct (decide (e' = e)) as [->|He].
  - destruct (uv_map s0 (uv_self s0) pn) as [t|] eqn:Ht; [|done]. injection Hd as <-. exists t.
    specialize (Hpos t eq_refl). split_and!; [done|by apply PGNUM_dup_child|tauto|]. intros HW. left. revert HW.
    unfold dup_child. destruct (flag t PTE_SHARE) eqn:Hs.
    + intros _. change PTE_SHARE with (2 ^ 10) in *. rewrite flag_frame by (lia || by apply syscall_bits).
      rewrite flag_pow2 in Hs by lia. rewrite Z.land_spec, Hs. by vm_compute.
    + intros HW. exfalso. revert HW. destruct (flag t (Z.lor PTE_W PTE_COW)); change PTE_W with (2 ^ 1);
        rewrite flag_frame by (lia || by vm_compute); by vm_compute.
  - destruct (decide (e' = uv_self s0)) as [->|Hs']; [|by exists t'; split_and!; try done; intros _; right; split_and!; auto].
    destruct (uv_map s0 (uv_self s0) pn) as [t|] eqn:Ht; [|done]. injection Hd as <-. exists t.
    split_and!; [done|apply PGNUM_dup_parent|done|]. intros HW. left. revert HW. unfold dup_parent.
    destruct (flag t PTE_SHARE) eqn:Hs; [done|]. rewrite flag_lor.
    destruct (flag t PTE_W) eqn:Hw; cbn [orb]; [|destruct (flag t PTE_COW)].
    3: { by rewrite Hw. }
    all: intros HW; exfalso; revert HW; change PTE_W with (2 ^ 1); rewrite flag_frame by (lia || by vm_compute); by vm_compute.
Qed.

Lemma dupped_cow s0 s n e :
  uv_ok s0 n → (∀ pn, upn pn → uv_map s0 e pn = None) → e ≠ uv_self s0 →
  (∀ e' pn, upn pn → uv_map s e' pn = dupped s0 e NUPAGES e' pn) → cow_ok s0 → cow_ok s.
Proof.
  intros Hok Hempty Hne HM Hc e1 pn1 t1 e2 pn2 t2 Hp1 Hp2. rewrite !HM by done. intros D1 D2 Hd Hg HW.
  assert (Hpos : ∀ pn t, upn pn → uv_map s0 (uv_self s0) pn = Some t → 0 <= t).
  { intros pn t Hpn Ht. destruct (uv_entry s0 n _ _ t Hok Hpn Ht) as [[? _] _]. done. }
  destruct (dupped_source s0 e e1 pn1 t1 Hempty Hne Hp1 (λ t, Hpos pn1 t Hp1) D1) as (t1' & M1 & G1 & _ & [?|(-> & Ne1 & Hsrc)]%(λ f, f HW)); [done|].
  destruct (dupped_source s0 e e2 pn2 t2 Hempty Hne Hp2 (λ t, Hpos pn2 t Hp2) D2) as (t2' & M2 & G2 & Hux & _).
  rewrite decide_False in M1 by done.
  eapply (Hc _ _ _ _ _ _ Hp1 Hp2 M1 M2); [|by rewrite <- G2|done].
  destruct (decide (e2 = e)) as [->|]; [|done]. intros [= -> ->]. by destruct Hsrc as [?|?]; [|apply Hux].
Qed.

(** ** [fork] *)

Lemma UXPN_page : upn UXPN ∧ UXPN * PGSIZE = UXSTACKTOP - PGSIZE.
Proof. by vm_compute. Qed.

(** The exception stack: as it was, or a new page. *)
Lemma set_pgfault_handler_spec up s n g h v :
  uv_ok s (n + 1) → 2 <= uv_free s → uv_env s (uv_self s) = Some v →
  ∃ s', set_pgfault_handler up g h s = (Ret (mkGlobals h (thisenv g)), s') ∧
    uv_ok s' n ∧ uv_same s s' ∧ uv_free s - 2 <= uv_free s' ∧ uv_kept s s' ∧
    (_pgfault_handler g ≠ 0 ∧ s' = s ∨
     ∃ f, ¬ uv_mapped s f ∧ uv_update s s' (uv_self s) UXPN (Some (f * 4096 + 7))).
Proof.
  intros Hok Hf Hv. unfold set_pgfault_handler. destruct (Z.eqb_spec (_pgfault_handler g) 0) as [|Hh].
  2: { exists s. split; [done|]. split_and!; try done; [eapply uv_mono; [exact Hok|lia]|lia|by left]. }
  destruct UXPN_page as [Hux Ha]. rewrite <- Ha. change (Z.lor (Z.lor PTE_U PTE_P) PTE_W) with 7.
  destruct (uv_alloc s n 0 (uv_self s) UXPN 7) as
    (s1 & f & R1 & Hok1 & Hs1 & He1 & Hf1 & Hnew & _ & U1 & _ & K1); try done.
  { by eapply uv_self_name. }
  destruct (uv_set_upcall s1 n 0 (uv_self s) v up) as (s2 & R2 & Hok2 & Hs2 & Hf2 & M2 & B2 & _); [done|..].
  { rewrite (proj1 (proj2 Hs1)). by eapply uv_self_name. } { by rewrite He1. }
  rewrite bind_assoc. mrun (exact R1). cbn [Z.ltb Z.compare]. rewrite bind_assoc. mrun (exact R2).
  cbn [Z.ltb Z.compare]. exists s2. split; [done|]. split_and!; [done|by eapply uv_same_trans|lia| |].
  - intros x k Hx (e' & pn' & t' & Hpn' & Hm' & <-) Hk. rewrite B2. apply K1; [done| |done].
    exists e', pn', t'. by rewrite <- M2.
  - right. exists f. split; [done|]. intros e' pn' Hpn'. rewrite M2. by apply U1.
Qed.

Section fork_theorem.
Context (up addr : Z) (s : S) (g : globals) (v : Env) (l : list Z) (n m : Z).
Let self := uv_self s.
Let N := Z.of_nat (length l).
Hypothesis Hn0 : 0 <= n.
Hypothesis Hm0 : 0 <= m.
Hypothesis Hok : uv_ok s (2 * N + 3 + n).
Hypothesis Hfree : 2 * N + 5 + m <= uv_free s.
Hypothesis Hslot : uv_slot s.
Hypothesis Hv : uv_env s self = Some v.
Hypothesis Hpages : ∀ pn t, upn pn → uv_map s self pn = Some t → pn ∈ l ∧ flag t PTE_U = true.
Hypothesis Hux : UXPN ∈ l.
Hypothesis Hcow : cow_ok s.

Lemma fork_spec :
  ∃ s' id e, fork up addr g s = (Ret (id, mkGlobals addr (thisenv g)), s') ∧
    0 < id < 2 ^ 31 ∧ uv_name s' id = Some e ∧ e ≠ self ∧ (∀ pn, upn pn → uv_map s e pn = None) ∧
    uv_ok s' n ∧ m <= uv_free s' ∧ uv_self s' = self ∧ cow_ok s' ∧
    (∀ e' pn, upn pn → pn ≠ UXPN → uv_map s' e' pn =
       if decide (e' = e) then dup_child <$> uv_map s self pn
       else if decide (e' = self) then dup_parent <$> uv_map s self pn else uv_map s e' pn) ∧
    (∀ e' a, upn (PGNUM a) → PGNUM a ≠ UXPN →
       umem s' e' a = umem s (if decide (e' = e) then self else e') a) ∧
    (∀ a, PGNUM a = UXPN → umem s' e a = Some 0) ∧
    (∃ w, uv_env s' e = Some w ∧ env_status w = ENV_RUNNABLE ∧ env_pgfault_upcall w = up).
Proof using Hn0 Hm0 Hok Hfree Hslot Hv Hpages Hux Hcow.
  destruct UXPN_page as [Huxp Hua].
  destruct (set_pgfault_handler_spec up s (2 * N + 2 + n) g addr v) as
    (s1 & R1 & Hok1 & Hs1 & Hf1 & K1 & Hstk); [by replace (2 * N + 2 + n + 1) with (2 * N + 3 + n) by lia|lia|done|].
  assert (M1 : ∀ e' pn, upn pn → pn ≠ UXPN → uv_map s1 e' pn = uv_map s e' pn).
  { intros e' pn Hpn Hn. destruct Hstk as [[_ ->]|(f & _ & U1)]; [done|]. by rewrite U1, decide_False by naive_solver. }
  assert (C1 : cow_ok s1).
  { destruct Hstk as [[_ ->]|(f & Hnew & U1)]; [done|]. by eapply (cow_ok_fresh s s1 _ _ f 7). }
  assert (Hother : ∀ e', e' ≠ self → ∀ pn, upn pn → uv_map s1 e' pn = uv_map s e' pn).
  { intros e' He pn Hpn. destruct Hstk as [[_ ->]|(f & _ & U1)]; [done|]. by rewrite U1, decide_False by naive_solver. }
  destruct (uv_exofork s1 (2 * N + 1 + n)) as
    (s2 & id & e & R2 & Hok2 & Hid & Hse2 & Hf2 & Hn2 & Hne & Hnm2 & E2 & M2 & K2 & w & Hw & _).
  { by replace (2 * N + 1 + n + 1) with (2 * N + 2 + n) by lia. } { by apply Hs1. } { lia. }
  destruct Hs1 as (Hse1 & Hnm1 & _). rewrite Hse1 in Hse2, Hne. fold self in Hse2, Hne.
  assert (Hpages2 : ∀ pn t, upn pn → uv_map s2 (uv_self s2) pn = Some t → pn ∈ l ∧ flag t PTE_U = true).
  { intros pn t Hpn. rewrite Hse2, M2 by done. destruct (decide (pn = UXPN)) as [->|Hn]; [|rewrite M1 by done; by apply Hpages].
    intros Ht. split; [done|]. destruct Hstk as [[_ E]|(f & _ & U1)].
    - rewrite E in Ht. by apply (Hpages UXPN t).
    - rewrite U1, decide_True in Ht by done. injection Ht as <-. change PTE_U with (2 ^ 2). by rewrite flag_frame by lia. }
  assert (Hne2 : e ≠ uv_self s2) by (by rewrite Hse2).
  assert (Hempty2 : ∀ pn, upn pn → uv_map s2 e pn = None) by (intros pn Hpn; rewrite M2 by done; by apply E2).
  destruct (fork_loop s2 id e (n + 1) (2 + m) l ltac:(lia) Hn2 Hne2 Hempty2 Hpages2) as (s3 & R3 & Hok3 & Hs3 & He3 & Hf3 & M3 & K3);
    [lia|by replace (n + 1 + 2 * Z.of_nat (length l)) with (2 * N + 1 + n) by lia|lia|].
  assert (Htodo : todo l NUPAGES >= 0) by (unfold todo; lia).
  destruct (uv_alloc s3 n id e UXPN 7) as
    (s4 & f & R4 & Hok4 & Hs4 & He4 & Hf4 & Hnew & _ & U4 & Z4 & K4); [|by rewrite (proj1 (proj2 Hs3))|done|done|lia|].
  { eapply uv_mono; [exact Hok3|lia]. }
  destruct (uv_set_upcall s4 n id e w up Hok4) as (s5 & R5 & Hok5 & Hs5 & Hf5 & M5 & B5 & V5).
  { by rewrite (proj1 (proj2 Hs4)), (proj1 (proj2 Hs3)). } { by rewrite He4, He3. }
  destruct (uv_set_status s5 n id e (set_env_pgfault_upcall up w) Hok5) as (s6 & R6 & Hok6 & Hs6 & Hf6 & M6 & B6 & V6).
  { by rewrite (proj1 (proj2 Hs5)), (proj1 (proj2 Hs4)), (proj1 (proj2 Hs3)). } { by rewrite V5, decide_True. }
  exists s6, id, e. split.
  { unfold fork. mrun (exact R1). mrun (exact R2). destruct (Z.ltb_spec id 0), (Z.eqb_spec id 0); try lia.
    mrun (exact R3). rewrite <- Hua. change (Z.lor (Z.lor PTE_U PTE_W) PTE_P) with 7. mrun (exact R4).
    cbn [Z.ltb Z.compare]. mrun (exact R5). cbn [Z.ltb Z.compare]. mrun (exact R6). done. }
  assert (M36 : ∀ e' pn, upn pn → pn ≠ UXPN → uv_map s6 e' pn = uv_map s3 e' pn).
  { intros e' pn Hpn Hn. rewrite M6, M5, U4 by done. by rewrite decide_False by naive_solver. }
  assert (MF : ∀ e' pn, upn pn → pn ≠ UXPN → uv_map s6 e' pn =
       if decide (e' = e) then dup_child <$> uv_map s self pn
       else if decide (e' = self) then dup_parent <$> uv_map s self pn else uv_map s e' pn).
  { intros e' pn Hpn Hn. rewrite M36, M3 by done. unfold dupped. unfold upn in Hpn. rewrite decide_True by (split; [lia|done]).
    rewrite Hse2, !M2, !M1 by done. done. }
  destruct Hid as [Hid1 Hid2]. split_and!; try done.
  - by rewrite (proj1 (proj2 Hs6)), (proj1 (proj2 Hs5)), (proj1 (proj2 Hs4)), (proj1 (proj2 Hs3)).
  - intros pn Hpn. rewrite <- Hother by done. by apply E2.
  - lia.
  - rewrite (proj1 Hs6), (proj1 Hs5), (proj1 Hs4), (proj1 Hs3). done.
  - assert (C2 : cow_ok s2) by exact (cow_ok_ext s1 s2 M2 C1).
    assert (C3 : cow_ok s3) by exact (dupped_cow s2 s3 _ e Hok2 Hempty2 Hne2 M3 C2).
    eapply cow_ok_ext; [|eapply (cow_ok_fresh s3 s4 e UXPN f 7); done]. intros e' pn Hpn. by rewrite M6, M5.
  - intros e' a Hpn Hn. 
    transitivity (umem s4 e' a). { unfold umem. by rewrite M6, M5; destruct (uv_map s4 e' (PGNUM a)); [rewrite B6, B5|]. }
    transitivity (umem s3 e' a).
    { apply umem_frames; [done| |done]. rewrite U4 by done. by rewrite decide_False by naive_solver. }
    set (src := if decide (e' = e) then self else e').
    transitivity (umem s2 src a).
    { apply umem_frames; [done| |done]. rewrite M3 by done. unfold dupped. pose proof Hpn as Hr. unfold upn in Hr.
      rewrite decide_True by (split; [lia|done]). rewrite Hse2. unfold src. destruct (decide (e' = e)).
      - destruct (uv_map s2 self (PGNUM a)) as [t|] eqn:Ht; [|done]. cbn. rewrite PGNUM_dup_child; [done|].
        by destruct (uv_entry s2 _ _ _ t Hok2 Hpn Ht) as [[? _] _].
      - destruct (decide (e' = self)) as [->|]; [|done]. destruct (uv_map s2 self (PGNUM a)); [|done]. cbn. by rewrite PGNUM_dup_parent. }
    transitivity (umem s1 src a); (apply umem_frames; [done| |done]); [by rewrite M2|by rewrite M1].
  - intros a Ha. unfold umem. rewrite Ha, M6, M5, U4, decide_True by done. rewrite B6, B5, pgnum_entry by lia.
    by rewrite Z4 by (apply Z.mod_pos_bound; lia).
  - exists (set_env_status ENV_RUNNABLE (set_env_pgfault_upcall up w)). by rewrite V6, decide_True.
Qed.
End fork_theorem.

(** ** Writing *)

(** A store instruction of a program whose page-fault handler is [pgfault]:
    when it faults, the handler runs and the instruction is retried.  The
    error code is that of a user-mode write to a present page. *)
Definition user_store (a b : Z) : U S unit := λ s,
  match ustore8 a b s with
  | (Stop (UFault va), s') => (pgfault va 7;; ustore8 a b) s'
  | r => r
  end.

(** A store into a writable page that nobody else maps. *)
Lemma store_private s n pn k t b :
  uv_ok s n → upn pn → 0 <= k < PGSIZE → uv_map s (uv_self s) pn = Some t →
  flag t PTE_U = true → flag t PTE_W = true → flag t PTE_SHARE = false → cow_ok s →
  ∃ s', ustore8 (pn * PGSIZE + k) b s = (Ret tt, s') ∧ uv_ok s' n ∧ uv_same s s' ∧ cow_ok s' ∧
    (∀ e' pn', upn pn' → uv_map s' e' pn' = uv_map s e' pn') ∧
    ∀ e' a, upn (PGNUM a) → umem s' e' a =
      if decide (e' = uv_self s ∧ a = pn * PGSIZE + k) then Some (u8 b) else umem s e' a.
Proof.
  intros Hok Hpn Hk Ht HU HW HS Hc.
  destruct (uv_store s n pn k t b Hok Hpn Hk Ht HU HW) as (s' & R & Hok' & Hs' & _ & _ & HM & HB).
  exists s'. split_and!; try done; [by eapply cow_ok_ext|]. intros e' a Ha.
  unfold umem. rewrite HM by done.
  assert (Hea : e' = uv_self s ∧ a = pn * PGSIZE + k ↔ e' = uv_self s ∧ PGNUM a = pn ∧ a mod 4096 = k).
  { rewrite PGNUM_div. unfold PGSIZE in *. split; intros [-> Hx]; (split; [done|]);
      [subst a; Z.to_euclidean_division_equations; lia|destruct Hx; Z.to_euclidean_division_equations; lia]. }
  pose proof (Z.mod_pos_bound a 4096 ltac:(lia)).
  destruct (decide (e' = uv_self s ∧ a = pn * PGSIZE + k)) as [Hd|Hd].
  - apply Hea in Hd as (-> & -> & Hm). rewrite Ht, HB by lia. by rewrite decide_True.
  - destruct (uv_map s e' (PGNUM a)) as [t'|] eqn:Ht'; [|done]. rewrite HB by lia.
    rewrite decide_False; [done|]. intros [Hg Hm]. apply Hd, Hea.
    destruct (decide ((uv_self s, pn) = (e', PGNUM a))) as [[= -> ->]|Hne]; [done|].
    exfalso. rewrite (Hc _ _ _ _ _ _ Hpn Ha Ht Ht' Hne (eq_sym Hg) HW) in HS. done.
Qed.

Lemma cow_store_spec s n pn k t b :
  0 <= n → uv_ok s (n + 2) → 3 <= uv_free s → cow_ok s → upn pn → 0 <= k < PGSIZE →
  uv_map s (uv_self s) pn = Some t → flag t PTE_U = true → (flag t PTE_W = true → flag t PTE_SHARE = false) →
  pn ≠ PGNUM PFTEMP → uv_map s (uv_self s) (PGNUM PFTEMP) = None →
  ∃ s', user_store (pn * PGSIZE + k) b s = (Ret tt, s') ∧
    uv_ok s' n ∧ uv_same s s' ∧ cow_ok s' ∧ uv_map s' (uv_self s) (PGNUM PFTEMP) = None ∧
    ∀ e' a, upn (PGNUM a) → umem s' e' a =
      if decide (e' = uv_self s ∧ a = pn * PGSIZE + k) then Some (u8 b) else umem s e' a.
Proof.
  intros Hn Hok Hf Hc Hpn Hk Ht HU HS Hq Hqn. destruct PFTEMP_page as [Hqp _]. unfold user_store.
  destruct (flag t PTE_W) eqn:HW.
  { destruct (store_private s (n + 2) pn k t b) as (s' & R & Hok' & Hs' & Hc' & HM & Hmem); try done; [by apply HS|].
    rewrite R. exists s'. split; [done|]. split_and!; try done; [eapply uv_mono; [exact Hok'|lia]|].
    by rewrite HM. }
  rewrite (uv_store_fault s _ pn k b Hok Hpn Hk) by (intros t'; rewrite Ht; by intros [= <-]).
  destruct (pgfault_spec s n pn k t 7 Hn Hok Hf Hpn Hk eq_refl Ht HU Hq) as
    (s1 & f & R1 & Hok1 & Hs1 & _ & _ & Hnew & HM1 & B1 & K1).
  mrun (exact R1). pose proof Hs1 as (Hse & _).
  assert (Hm1 : uv_map s1 (uv_self s1) pn = Some (f * 4096 + 7)).
  { rewrite Hse, HM1 by done. by rewrite decide_True. }
  assert (Hmem1 : ∀ e' a, upn (PGNUM a) → umem s1 e' a = umem s e' a).
  { intros e' a Ha. destruct (decide (e' = uv_self s ∧ PGNUM a = pn)) as [[-> E]|Hd].
    - unfold umem. rewrite E, HM1, Ht by done. rewrite decide_True, pgnum_entry by (done || lia).
      by rewrite B1 by (apply Z.mod_pos_bound; lia).
    - apply umem_frames; [done| |done]. rewrite HM1 by done. rewrite decide_False by done.
      destruct (decide (e' = uv_self s ∧ PGNUM a = PGNUM PFTEMP)) as [[-> ->]|]; [by rewrite Hqn|done]. }
  assert (Hc1 : cow_ok s1).
  { apply (cow_ok_fresh s s1 (uv_self s) pn f 7); try done. intros e' pn' Hpn'. rewrite HM1 by done.
    destruct (decide (e' = uv_self s ∧ pn' = pn)); [done|].
    by destruct (decide (e' = uv_self s ∧ pn' = PGNUM PFTEMP)) as [[-> ->]|]. }
  destruct (store_private s1 n pn k (f * 4096 + 7) b) as (s' & R & Hok' & Hs' & Hc' & HM & Hmem); try done.
  { change PTE_U with (2 ^ 2). by rewrite flag_frame by lia. } { change PTE_W with (2 ^ 1). by rewrite flag_frame by lia. }
  { change PTE_SHARE with (2 ^ 10). by rewrite flag_frame by lia. }
  exists s'. split; [done|]. split_and!; try done; [by eapply uv_same_trans|..].
  - rewrite HM, HM1 by done. by rewrite decide_False, decide_True by naive_solver.
  - intros e' a Ha. rewrite Hmem, Hse, Hmem1 by done. done.
Qed.

(** ** The theorems *)

(** C16: [fork] copies, and keeps the invariant of copy-on-write.  It starts from
    a state where that invariant holds, there is a free slot in the table of
    environments, and 2N + 5 pages are free for a parent with N pages mapped
    (its exception stack among them, all of them user pages).  Then it returns
    to the parent the id of a new, runnable environment.  Outside the page of
    the exception stack the memory of the new environment is a copy of the
    parent's, and the memory of every environment that was there is what it
    was; writable pages have become copy-on-write in both, shared ones stay
    shared.  The exception stack of the child is a new page of zeros.  The
    invariant holds again. *)
Theorem fork_correct up addr s g v l n m :
  let N := Z.of_nat (length l) in
  0 <= n → 0 <= m → uv_ok s (2 * N + 3 + n) → 2 * N + 5 + m <= uv_free s → uv_slot s →
  uv_env s (uv_self s) = Some v →
  (∀ pn t, upn pn → uv_map s (uv_self s) pn = Some t → pn ∈ l ∧ flag t PTE_U = true) → UXPN ∈ l → cow_ok s →
  ∃ s' id e, fork up addr g s = (Ret (id, mkGlobals addr (thisenv g)), s') ∧
    0 < id < 2 ^ 31 ∧ uv_name s' id = Some e ∧ e ≠ uv_self s ∧ (∀ pn, upn pn → uv_map s e pn = None) ∧
    uv_ok s' n ∧ m <= uv_free s' ∧ uv_self s' = uv_self s ∧ cow_ok s' ∧
    (∀ e' pn, upn pn → pn ≠ UXPN → uv_map s' e' pn =
       if decide (e' = e) then dup_child <$> uv_map s (uv_self s) pn
       else if decide (e' = uv_self s) then dup_parent <$> uv_map s (uv_self s) pn else uv_map s e' pn) ∧
    (∀ e' a, upn (PGNUM a) → PGNUM a ≠ UXPN →
       umem s' e' a = umem s (if decide (e' = e) then uv_self s else e') a) ∧
    (∀ a, PGNUM a = UXPN → umem s' e a = Some 0) ∧
    (∃ w, uv_env s' e = Some w ∧ env_status w = ENV_RUNNABLE ∧ env_pgfault_upcall w = up).
Proof. cbv zeta. intros. by eapply (fork_spec up addr s g v l n m). Qed.

(** C17: Copy-on-write is invisible.  Under the invariant of copy-on-write, with
    three free pages and nothing mapped at PFTEMP, a store by the running
    environment into one of its pages that is writable and not deliberately
    shared, or copy-on-write, succeeds, whether it has to go through the
    page-fault handler or not.  It changes that byte of that environment's
    memory and no other byte of any memory, and the invariant holds again. *)
Theorem cow_store_isolated s n pn k t b :
  0 <= n → uv_ok s (n + 2) → 3 <= uv_free s → cow_ok s → upn pn → 0 <= k < PGSIZE →
  uv_map s (uv_self s) pn = Some t → flag t PTE_U = true → (flag t PTE_W = true → flag t PTE_SHARE = false) →
  flag t PTE_W = true ∨ flag t PTE_COW = true →
  pn ≠ PGNUM PFTEMP → uv_map s (uv_self s) (PGNUM PFTEMP) = None →
  ∃ s', user_store (pn * PGSIZE + k) b s = (Ret tt, s') ∧
    uv_ok s' n ∧ uv_same s s' ∧ cow_ok s' ∧ uv_map s' (uv_self s) (PGNUM PFTEMP) = None ∧
    ∀ e' a, upn (PGNUM a) → umem s' e' a =
      if decide (e' = uv_self s ∧ a = pn * PGSIZE + k) then Some (u8 b) else umem s e' a.
Proof. intros Hn Hok Hf Hc Hpn Hk Ht HU HS _. by apply (cow_store_spec s n pn k t b). Qed.

(** The page-fault handler tests [uvpt[pn] & (PTE_P|PTE_COW)], which any
    present page passes: a write to a page that is neither writable nor
    copy-on-write does not panic, as the comment says it should, but gives the
    program a private, writable copy of its read-only page. *)
Theorem pgfault_grants_write s n pn k t err :
  0 <= n → uv_ok s (n + 2) → 3 <= uv_free s → upn pn → 0 <= k < PGSIZE → flag err FEC_WR = true →
  uv_map s (uv_self s) pn = Some t → flag t PTE_U = true → flag t PTE_W = false → flag t PTE_COW = false →
  pn ≠ PGNUM PFTEMP →
  ∃ s' t', pgfault (pn * PGSIZE + k) err s = (Ret tt, s') ∧
    uv_map s' (uv_self s) pn = Some t' ∧ flag t' PTE_W = true.
Proof.
  intros Hn Hok Hf Hpn Hk He Ht HU _ _ Hq.
  destruct (pgfault_spec s n pn k t err Hn Hok Hf Hpn Hk He Ht HU Hq) as (s' & f & Hrun & _ & _ & _ & _ & _ & HM & _).
  exists s', (f * 4096 + 7). rewrite HM, decide_True by done.
  change PTE_W with (2 ^ 1). by rewrite flag_frame by lia.
Qed.

(** [sfork] means to copy the parent's exception stack to the child's, but
    the arguments of [memmove] are the other way round: the parent's exception
    stack is overwritten with the zeros of the child's new page. *)
Theorem sfork_clears_own_stack up s n id e me tu w :
  0 <= n → uv_ok s (n + 2) → 4 <= uv_free s → uv_name s id = Some e → e ≠ uv_self s →
  uv_name s me = Some (uv_self s) → uv_map s (uv_self s) UXPN = Some tu → flag tu PTE_U = true → flag tu PTE_W = true →
  uv_env s e = Some w → 
  ∃ s', sfork_stack up me id s = (Ret id, s') ∧ ∀ a, PGNUM a = UXPN → umem s' (uv_self s) a = Some 0.
Proof.
  intros Hn Hok Hf Hid Hne Hme Htu HU HW Hw. destruct UXPN_page as [Hux Ha], PFTEMP_page as [Hq Hqa].
  assert (Hqx : PGNUM PFTEMP ≠ UXPN) by (by vm_compute). set (q := PGNUM PFTEMP) in *.
  unfold sfork_stack. rewrite <- Ha, <- Hqa. change (Z.lor (Z.lor PTE_U PTE_P) PTE_W) with 7.
  destruct (uv_alloc s (n + 1) id e UXPN 7) as
    (s1 & f & R1 & Hok1 & Hs1 & He1 & Hf1 & Hnew & _ & U1 & Z1 & K1); [|done..|lia|].
  { by replace (n + 1 + 1) with (n + 2) by lia. }
  assert (Hnf : PGNUM tu ≠ f) by (intros <-; apply Hnew; exact (mapped_at _ _ _ _ Hux Htu)).
  assert (M1 : uv_map s1 e UXPN = Some (f * 4096 + 7)) by (rewrite U1 by done; by rewrite decide_True).
  assert (T1 : uv_map s1 (uv_self s) UXPN = Some tu) by (rewrite U1 by done; by rewrite decide_False by naive_solver).
  destruct (uv_share s1 n id e UXPN me (uv_self s) q 7 (f * 4096 + 7)) as
    (s2 & R2 & Hok2 & Hs2 & He2 & Hf2 & U2 & K2); try done; [by rewrite (proj1 (proj2 Hs1))..| |lia|].
  { intros _. change PTE_W with (2 ^ 1). by rewrite flag_frame by lia. }
  rewrite pgnum_entry in U2 by lia. pose proof (uv_same_trans _ _ _ Hs1 Hs2) as Hs12.
  assert (M2 : uv_map s2 (uv_self s2) q = Some (f * 4096 + 7)) by (rewrite (proj1 Hs12), U2 by done; by rewrite decide_True).
  assert (T2 : uv_map s2 (uv_self s2) UXPN = Some tu) by (rewrite (proj1 Hs12), U2 by done; by rewrite decide_False by naive_solver).
  destruct (umemmove_page s2 n q (f * 4096 + 7) UXPN tu Hok2 Hq Hux M2 T2) as (s3 & R3 & (Hok3 & Hs3 & He3 & Hf3 & M3) & B3);
    [change PTE_U with (2 ^ 2); by rewrite flag_frame by lia|done|done|rewrite pgnum_entry by lia; congruence|].
  rewrite pgnum_entry in B3 by lia. pose proof (uv_same_trans _ _ _ Hs12 Hs3) as Hs13.
  destruct (uv_unmap s3 n me (uv_self s) q Hok3) as (s4 & R4 & Hok4 & Hs4 & He4 & Hf4 & U4 & K4);
    [by rewrite (proj1 (proj2 Hs13))|done|].
  pose proof (uv_same_trans _ _ _ Hs13 Hs4) as Hs14.
  destruct (uv_set_upcall s4 n id e w up Hok4) as (s5 & R5 & Hok5 & Hs5 & _ & M5 & B5 & V5);
    [by rewrite (proj1 (proj2 Hs14))|by rewrite He4, He3, He2, He1|].
  destruct (uv_set_status s5 n id e (set_env_pgfault_upcall up w) Hok5) as (s6 & R6 & _ & _ & _ & M6 & B6 & _);
    [by rewrite (proj1 (proj2 Hs5)), (proj1 (proj2 Hs14))|by rewrite V5, decide_True|].
  exists s6. split.
  { mrun (exact R1). cbn [Z.ltb Z.compare]. mrun (exact R2). cbn [Z.ltb Z.compare]. mrun (exact R3). mrun (exact R4).
    cbn [Z.ltb Z.compare]. mrun (exact R5). cbn [Z.ltb Z.compare]. by mrun (exact R6). }
  assert (T4 : uv_map s4 (uv_self s) UXPN = Some tu).
  { rewrite U4, decide_False, M3 by (done || naive_solver). by rewrite <- (proj1 Hs12). }
  intros a Hua. unfold umem. rewrite Hua, M6, M5, T4, B6, B5. apply f_equal.
  pose proof (Z.mod_pos_bound a 4096 ltac:(lia)) as Hm.
  rewrite K4; [|by exists (uv_self s), UXPN, tu; rewrite M3, <- (proj1 Hs12) by done|by exists (uv_self s), UXPN, tu|done].
  rewrite B3, decide_True by done. rewrite K2; [by apply Z1| | |done].
  - eapply (mapped_frame s1 e UXPN f 7); [done|lia|done].
  - eapply (mapped_frame s2 _ q f 7); [done|lia|exact M2].
Qed.
End spec.
