(* ===== verification/ForkDemo.v ===== *)
(** * Forking on a concrete machine

    A kernel state with one running environment (id 0x1000, directory in
    frame 1, which maps itself at [UVPT]), a kernel directory in frame 4 and
    sixteen free pages; the program maps a page at 0x800000, forks, and writes
    to its copy-on-write page.  The theorems of [ForkSpec] are instantiated
    along this run, through the instance [kernel_vm]. *)

From S2P Require Import Prelude Mmu Console KState Demo Lock PageAlloc PageTable AddrSpace PageInsert VmFrame VmDemo UserMem Env EnvSpace Sched Nic Syscall SyscallSpec UserLib UserVm UserVmKernel Fork ForkSpec.
Open Scope Z_scope.

Definition fork_page_info (i : Z) : PageInfo :=
  mkPageInfo (if (6 <=? i) && (i <? 21) then Some (i + 1) else None)
    (if (i =? 0) || (i =? 1) || (i =? 4) then 1 else 0).

Definition fork_pages : gmap Z PageInfo := list_to_map ((λ i, (i, fork_page_info i)) <$> seqZ 0 22).

Definition fork_envs : gmap Z Env :=
  <[0 := demo_env 0x1000 0 ENV_RUNNING 1 false]>
    (list_to_map ((λ i, (i, free_env (if i =? 1023 then None else Some (i + 1)) 0)) <$> seqZ 1 1023)).

Definition blank : kstate :=
  mkKState 22 1 (frame_kva 5) MMIOBASE (st32 (λ _, 0) (1 * 4096 + 4 * PDX UVPT) (1 * 4096 + 5)) fork_pages (Some 6)
    (frame_kva 4) 0 fork_envs (Some 1) demo_cpus 0 (mkSpinlock 1 (Some 0)) (1 * 4096) 0 [] 5 false
    console_demo nic_zero 0 0.

Lemma lookup_seqZ_map {A} (f : Z → A) a n p :
  (list_to_map ((λ i, (i, f i)) <$> seqZ a n) : gmap Z A) !! p =
    if decide (a <= p < a + n) then Some (f p) else None.
Proof.
  case_decide as Hp.
  - apply elem_of_list_to_map_1.
    + rewrite <- list_fmap_compose. rewrite (list_fmap_ext _ id) by done. rewrite list_fmap_id. apply NoDup_seqZ.
    + apply list_elem_of_fmap. exists p. split; [done|]. apply elem_of_seqZ. lia.
  - apply not_elem_of_list_to_map_1. rewrite <- list_fmap_compose. intros (i & -> & Hi)%list_elem_of_fmap.
    apply elem_of_seqZ in Hi. cbn in Hp. lia.
Qed.

Lemma blank_pages p : pages blank !! p = if decide (0 <= p < 22) then Some (fork_page_info p) else None.
Proof. exact (lookup_seqZ_map fork_page_info 0 22 p). Qed.

Lemma blank_entry f i : idx i → entry blank f i = if decide (f = 1 ∧ i = PDX UVPT) then 1 * 4096 + 5 else 0.
Proof.
  intros Hi. set (s0 := set_mem (λ _, 0) blank).
  change blank with (set_mem (st32 (mem s0) (1 * 4096 + 4 * PDX UVPT) (1 * 4096 + 5)) s0).
  rewrite (entry_store _ 1 (PDX UVPT) (1 * 4096 + 5) f i s0); [|apply PDX_range|done|done|reflexivity].
  case_decide; reflexivity.
Qed.

Lemma uidx_not_uvpt i : uidx i → i ≠ PDX UVPT.
Proof. intros [_ Hi] ->. by vm_compute in Hi. Qed.

Lemma blank_user f i : uidx i → entry blank f i = 0.
Proof.
  intros Hi. rewrite blank_entry by (by apply uidx_idx). rewrite decide_False; [done|].
  intros [_ E]. by apply (uidx_not_uvpt i).
Qed.

Lemma blank_pte pds x : x ∈ slots pds → pte_of blank x = None.
Proof.
  destruct x as [[pd i] j]. intros (_ & Hi & _)%elem_of_slots. unfold pte_of, lookup_pte. cbn [fst snd].
  by rewrite blank_user.
Qed.

Definition blank_free : list Z := [6; 7; 8; 9; 10; 11; 12; 13; 14; 15; 16; 17; 18; 19; 20; 21].

Lemma blank_free_list : free_list blank blank_free.
Proof.
  split; [|by apply (bool_decide_unpack (NoDup blank_free)); vm_compute].
  unfold blank_free. cbn [chain]. repeat (split; [done|]; eexists; split; [rewrite blank_pages; reflexivity|]). done.
Qed.

Lemma blank_vm : vm_ok blank [1] blank_free.
Proof.
  constructor.
  - apply st32_ok. by intros a.
  - constructor; [done|]. intros p. rewrite blank_pages. cbn [npages blank].
    case_decide; split; try done.
  - apply blank_free_list.
  - apply NoDup_singleton.
  - intros pd ->%list_elem_of_singleton. split; [done|]. by apply (bool_decide_unpack (1 ∉ blank_free)); vm_compute.
  - intros pd i _ Hi. by rewrite blank_user.
  - intros pd i pd' i' _ _ Hi _. by rewrite blank_user.
  - intros x t Hx. by rewrite (blank_pte [1]).
  - intros p pi. rewrite blank_pages. case_decide; [|done]. intros [= <-].
    rewrite nmaps_empty by (intros x; apply blank_pte). unfold fork_page_info. cbn [pp_ref].
    by destruct (_ || _).
Qed.

Lemma blank_envs e v :
  envs blank !! e = Some v → e = 0 ∧ v = demo_env 0x1000 0 ENV_RUNNING 1 false ∨ env_status v = ENV_FREE.
Proof.
  change (envs blank) with fork_envs. unfold fork_envs. rewrite lookup_insert.
  destruct (decide (0 = e)) as [<-|]; [intros [= <-]; by left|].
  rewrite lookup_seqZ_map. case_decide; [|done]. intros [= <-]. by right.
Qed.

Lemma blank_env0 : envs blank !! 0 = Some (demo_env 0x1000 0 ENV_RUNNING 1 false).
Proof. apply lookup_insert_eq. Qed.

Lemma blank_user_ok : user_ok blank [1] blank_free 4 60000.
Proof.
  constructor.
  - constructor.
    + apply blank_vm.
    + intros i Hi. change (envs blank) with fork_envs. unfold fork_envs. rewrite lookup_insert. case_decide; [done|].
      rewrite lookup_seqZ_map. change NENV with 1024 in Hi. rewrite decide_True by lia. done.
    + exists 0, (demo_env 0x1000 0 ENV_RUNNING 1 false). split; [reflexivity|]. split; [apply blank_env0|discriminate].
    + intros e v Hv Hl. destruct (blank_envs e v Hv) as [[_ ->]|Hfr]; [|destruct (Hl Hfr)].
      exists 1. split; [by left|reflexivity].
  - intros p pi. rewrite blank_pages. case_decide; [|done]. intros [= <-]. unfold fork_page_info. cbn [pp_ref].
    by destruct (_ || _).
  - intros e1 v1 e2 v2 H1 H2 L1 L2 _. 
    destruct (blank_envs e1 v1 H1) as [[-> _]|F1]; [|destruct (L1 F1)].
    destruct (blank_envs e2 v2 H2) as [[-> _]|F2]; [reflexivity|destruct (L2 F2)].
  - intros pd ->%list_elem_of_singleton. rewrite blank_entry by apply PDX_range. by rewrite decide_True.
  - intros pd i _ Hi. by rewrite blank_user.
  - intros c v Hc Hv. assert (E : curenv_of blank = Some 0) by reflexivity. rewrite E in Hc. injection Hc as <-.
    rewrite blank_env0 in Hv. injection Hv as <-. reflexivity.
  - constructor; [done|done|by apply (bool_decide_unpack (4 ∉ blank_free)); vm_compute|].
    intros i Hi. by rewrite blank_user.
  - split_and!.
    + intros E%list_elem_of_singleton. done.
    + intros (pd & i & _ & Hi & Hp & _). by rewrite blank_user in Hp.
    + intros x t Hx. by rewrite (blank_pte [1]).
Qed.

(** ** The program's run *)

(** The page the program allocates at 0x800000. *)
Definition ready_state (perm : Z) : kstate := snd (UserLib.sys_page_alloc 0 (0x800 * PGSIZE) perm blank).

Lemma blank_maps e pn : upn pn → uv_map blank e pn = None.
Proof.
  intros Hpn. destruct (k_map blank e pn) as [t|] eqn:Ht; [|exact Ht].
  destruct (k_map_inv blank _ _ _ _ e pn t blank_user_ok Hpn Ht) as (v & pd & _ & _ & _ & _ & Hsl & Hp).
  rewrite (blank_pte [1] _ Hsl) in Hp. discriminate.
Qed.

Lemma page_0x800 : upn 0x800.
Proof. by vm_compute. Qed.

Lemma demo_addr : upn (PGNUM 0x800000).
Proof. by vm_compute. Qed.

Lemma demo_addr_ux : PGNUM 0x800000 ≠ UXPN.
Proof. by vm_compute. Qed.

Lemma demo_not_temp : 0x800 ≠ PGNUM PFTEMP.
Proof. by vm_compute. Qed.

Lemma blank_slot : k_slot blank.
Proof.
  exists 1, (free_env (Some 2) 0). split; [reflexivity|]. split.
  - change (envs blank) with fork_envs. unfold fork_envs. rewrite lookup_insert_ne by discriminate.
    rewrite lookup_seqZ_map. by rewrite decide_True by lia.
  - split; [reflexivity|]. split; [|by vm_compute]. by vm_compute.
Qed.

Section ready.
Context (perm : Z).
Hypothesis Hperm : perm_ok perm = true.

Lemma ready_facts :
  uv_ok (ready_state perm) 50000 ∧ uv_slot (ready_state perm) ∧ 14 <= uv_free (ready_state perm) ∧
  uv_self (ready_state perm) = 0 ∧ uv_env (ready_state perm) 0 = Some (demo_env 0x1000 0 ENV_RUNNING 1 false) ∧
  ∃ f, ∀ e pn, upn pn →
    uv_map (ready_state perm) e pn = if decide (e = 0 ∧ pn = 0x800) then Some (f * 4096 + perm) else None.
Proof using Hperm.
  assert (Hok : uv_ok blank (59999 + 1)) by (exists [1], blank_free, 4; exact blank_user_ok).
  assert (Hfree : uv_free blank = 16) by exact (k_free_eq _ _ _ _ _ blank_user_ok).
  assert (Hid : uv_name blank 0 = Some 0) by reflexivity.
  destruct (uv_alloc blank 59999 0 0 0x800 perm Hok Hid page_0x800 Hperm) as
    (s' & f & Hrun & Hok' & (Hs & Hn & Hsl) & He & Hf & _ & _ & HM & _); [rewrite Hfree; lia|].
  unfold ready_state. rewrite Hrun. cbn [snd]. split_and!.
  - eapply uv_mono; [exact Hok'|lia].
  - apply Hsl. exact blank_slot.
  - lia.
  - rewrite Hs. reflexivity.
  - rewrite (He 0). exact blank_env0.
  - exists f. intros e pn Hpn. rewrite HM by exact Hpn. rewrite blank_maps by exact Hpn. reflexivity.
Qed.

Lemma ready_cow : cow_ok (ready_state perm).
Proof using Hperm.
  destruct ready_facts as (_ & _ & _ & _ & _ & f & HM). intros e1 pn1 t1 e2 pn2 t2 H1 H2. rewrite !HM by assumption.
  destruct (decide (e1 = 0 ∧ pn1 = 0x800)) as [[-> ->]|]; [|discriminate].
  destruct (decide (e2 = 0 ∧ pn2 = 0x800)) as [[-> ->]|]; [|discriminate].
  intros _ _ Hne. by destruct Hne.
Qed.

Lemma ready_pages pn t :
  flag perm PTE_U = true → upn pn → uv_map (ready_state perm) (uv_self (ready_state perm)) pn = Some t →
  pn ∈ [0x800; UXPN] ∧ flag t PTE_U = true.
Proof using Hperm.
  intros HU Hpn. destruct ready_facts as (_ & _ & _ & -> & _ & f & HM). rewrite HM by exact Hpn.
  destruct (decide (0 = 0 ∧ pn = 0x800)) as [[_ ->]|]; [|discriminate]. intros [= <-]. split; [by left|].
  change PTE_U with (2 ^ 2) in *. rewrite flag_frame; [|by apply perm_ok_range|lia]. by rewrite flag_pow2 in HU by lia.
Qed.
End ready.

(** The parent forks: the child gets a copy of the page at 0x800000. *)
Lemma fork_correct_witness :
  ∃ s' id e, fork 0x800020 0x800040 (mkGlobals 0 0) (ready_state 7) = (Ret (id, mkGlobals 0x800040 0), s') ∧
    e ≠ 0 ∧ umem s' e 0x800000 = umem (ready_state 7) 0 0x800000.
Proof.
  destruct (ready_facts 7 eq_refl) as (Hok & Hslot & Hfree & Hself & Henv & _).
  destruct (fork_correct 0x800020 0x800040 (ready_state 7) (mkGlobals 0 0)
    (demo_env 0x1000 0 ENV_RUNNING 1 false) [0x800; UXPN] 0 0) as
    (s' & id & e & Hrun & _ & _ & Hne & _ & _ & _ & _ & _ & _ & Hmem & _).
  - lia.
  - lia.
  - eapply uv_mono; [exact Hok|cbn [length]; lia].
  - cbn [length]. lia.
  - exact Hslot.
  - rewrite Hself. exact Henv.
  - intros pn t. exact (ready_pages 7 eq_refl pn t eq_refl).
  - by right; left.
  - exact (ready_cow 7 eq_refl).
  - exists s', id, e. rewrite Hself in *. split; [exact Hrun|]. split; [exact Hne|].
    rewrite (Hmem e 0x800000 demo_addr demo_addr_ux). rewrite decide_True by reflexivity. reflexivity.
Defined.

(** The state after the fork: the parent's page is copy-on-write. *)
Lemma forked_state :
  ∃ s' e t, uv_ok s' 2 ∧ 5 <= uv_free s' ∧ uv_self s' = 0 ∧ cow_ok s' ∧ e ≠ 0 ∧
    uv_map s' 0 0x800 = Some t ∧ flag t PTE_U = true ∧ flag t PTE_W = false ∧ flag t PTE_COW = true ∧
    uv_map s' 0 (PGNUM PFTEMP) = None ∧ umem s' e 0x800000 = umem (ready_state 7) 0 0x800000.
Proof.
  destruct (ready_facts 7 eq_refl) as (Hok & Hslot & Hfree & Hself & Henv & f & HM).
  destruct (fork_spec 0x800020 0x800040 (ready_state 7) (mkGlobals 0 0)
    (demo_env 0x1000 0 ENV_RUNNING 1 false) [0x800; UXPN] 2 5) as
    (s' & id & e & Hrun & _ & _ & Hne & _ & Hok' & Hf' & Hs' & Hc' & HM' & Hmem & _).
  - lia.
  - lia.
  - eapply uv_mono; [exact Hok|cbn [length]; lia].
  - cbn [length]. lia.
  - exact Hslot.
  - rewrite Hself. exact Henv.
  - intros pn t. exact (ready_pages 7 eq_refl pn t eq_refl).
  - by right; left.
  - exact (ready_cow 7 eq_refl).
  - rewrite Hself in *. exists s', e, (dup_parent (f * 4096 + 7)).
    assert (E : dup_parent (f * 4096 + 7) = f * 4096 + 0x805).
    { unfold dup_parent. rewrite flag_lor. change PTE_SHARE with (2 ^ 10). change PTE_W with (2 ^ 1).
      rewrite !flag_frame, pgnum_entry by lia. reflexivity. }
    assert (H0 : 0 ≠ e) by congruence.
    split; [exact Hok'|]. split; [exact Hf'|]. split; [exact Hs'|]. split; [exact Hc'|]. split; [exact Hne|].
    split.
    { rewrite (HM' 0 0x800 page_0x800) by (by vm_compute). rewrite decide_False, decide_True by (assumption || reflexivity).
      rewrite HM by exact page_0x800. rewrite decide_True by (split; reflexivity). reflexivity. }
    rewrite E. split; [change PTE_U with (2 ^ 2); by rewrite flag_frame by lia|].
    split; [change PTE_W with (2 ^ 1); by rewrite flag_frame by lia|].
    split; [change PTE_COW with (2 ^ 11); by rewrite flag_frame by lia|]. split.
    + rewrite (HM' 0 (PGNUM PFTEMP) (proj1 PFTEMP_page)) by (by vm_compute).
      rewrite decide_False, decide_True by (assumption || reflexivity).
      rewrite HM by exact (proj1 PFTEMP_page).
      rewrite decide_False by (intros [_ E']; exact (demo_not_temp (eq_sym E'))). reflexivity.
    + rewrite (Hmem e 0x800000 demo_addr demo_addr_ux). rewrite decide_True by reflexivity. reflexivity.
Qed.

(** The parent writes 99 into its page; the child keeps what it had. *)
Lemma cow_store_isolated_witness :
  ∃ s e s', e ≠ 0 ∧ user_store (0x800 * PGSIZE + 0) 99 s = (Ret tt, s') ∧
    umem s' 0 0x800000 = Some 99 ∧ umem s' e 0x800000 = umem (ready_state 7) 0 0x800000.
Proof.
  destruct forked_state as (s & e & t & Hok & Hf & Hs & Hc & Hne & Ht & HU & HW & HC & Hq & Hmem).
  destruct (cow_store_isolated s 0 0x800 0 t 99) as (s' & Hrun & _ & _ & _ & _ & HM).
  - lia.
  - exact Hok.
  - lia.
  - exact Hc.
  - exact page_0x800.
  - unfold PGSIZE. lia.
  - rewrite Hs. exact Ht.
  - exact HU.
  - rewrite HW. discriminate.
  - right. exact HC.
  - exact demo_not_temp.
  - rewrite Hs. exact Hq.
  - exists s, e, s'. split; [exact Hne|]. split; [exact Hrun|]. rewrite Hs in HM. split.
    + rewrite (HM 0 0x800000 demo_addr). rewrite decide_True by (split; reflexivity). reflexivity.
    + rewrite (HM e 0x800000 demo_addr). rewrite decide_False by (intros [? _]; contradiction). exact Hmem.
Defined.

(** A program that writes to its read-only page gets it writable. *)
Lemma pgfault_grants_write_witness :
  ∃ s' t', pgfault (0x800 * PGSIZE + 0) 7 (ready_state 5) = (Ret tt, s') ∧
    uv_map s' 0 0x800 = Some t' ∧ flag t' PTE_W = true.
Proof.
  destruct (ready_facts 5 eq_refl) as (Hok & _ & Hfree & Hself & _ & f & HM).
  destruct (pgfault_grants_write (ready_state 5) 0 0x800 0 (f * 4096 + 5) 7) as (s' & t' & Hrun & Hm & HW).
  - lia.
  - eapply uv_mono; [exact Hok|lia].
  - lia.
  - exact page_0x800.
  - unfold PGSIZE. lia.
  - reflexivity.
  - rewrite Hself, HM by exact page_0x800. rewrite decide_True by (split; reflexivity). reflexivity.
  - change PTE_U with (2 ^ 2). by rewrite flag_frame by lia.
  - change PTE_W with (2 ^ 1). by rewrite flag_frame by lia.
  - change PTE_COW with (2 ^ 11). by rewrite flag_frame by lia.
  - exact demo_not_temp.
  - rewrite Hself in Hm. exists s', t'. split; [exact Hrun|]. split; [exact Hm|exact HW].
Defined.

(** A program with an exception stack and a new child. *)
Lemma sfork_clears_own_stack_witness :
  ∃ s id s', sfork_stack 0x800020 0 id s = (Ret id, s') ∧ umem s' 0 (UXSTACKTOP - PGSIZE) = Some 0.
Proof.
  assert (Hok : uv_ok blank (59999 + 1)) by (exists [1], blank_free, 4; exact blank_user_ok).
  assert (Hfree : uv_free blank = 16) by exact (k_free_eq _ _ _ _ _ blank_user_ok).
  assert (Hid : uv_name blank 0 = Some 0) by reflexivity. destruct UXPN_page as [Hux _].
  destruct (uv_alloc blank 59999 0 0 UXPN 7 Hok Hid Hux eq_refl) as
    (s1 & f & _ & Hok1 & (Hs1 & Hn1 & Hsl1) & _ & Hf1 & _ & _ & HM1 & _); [rewrite Hfree; lia|].
  assert (Hslot : uv_slot s1) by (apply Hsl1; exact blank_slot).
  destruct (uv_exofork s1 59998 Hok1 Hslot) as
    (s2 & id & e & _ & Hok2 & _ & Hs2 & Hf2 & Hid2 & Hne & Hn2 & _ & HM2 & _ & w & Hw & _); [lia|].
  assert (Hself1 : uv_self s1 = 0) by (rewrite Hs1; reflexivity).
  assert (Hself : uv_self s2 = 0) by (rewrite Hs2; exact Hself1). rewrite Hself1 in Hne.
  destruct (sfork_clears_own_stack 0x800020 s2 0 id e 0 (f * 4096 + 7) w) as (s' & Hrun & Hm).
  - lia.
  - eapply uv_mono; [exact Hok2|lia].
  - lia.
  - exact Hid2.
  - rewrite Hself. exact Hne.
  - rewrite Hself. apply Hn2. rewrite Hn1. exact Hid.
  - rewrite Hself, HM2, HM1 by exact Hux. rewrite decide_True by (split; reflexivity). reflexivity.
  - change PTE_U with (2 ^ 2). by rewrite flag_frame by lia.
  - change PTE_W with (2 ^ 1). by rewrite flag_frame by lia.
  - exact Hw.
  - exists s2, id, s'. split; [exact Hrun|]. rewrite Hself in Hm. apply Hm. reflexivity.
Defined.
