(* ===== verification/Pipe.v ===== *)
(** * Pipes ([lib/pipe.c])

    A pipe is a page shared by a reading and a writing process: a ring buffer
    with a read and a write position, and no lock.  The two loops
    [devpipe_read] and [devpipe_write] are modelled as state machines whose
    steps are their accesses to the shared page, interleaved arbitrarily.
    Each test of a loop condition, each byte copied and each increment is a
    step of its own; a process only changes its own position, so the test that
    reads both positions is one step.

    The theorems: whatever the interleaving, the bytes read are a prefix of
    the bytes written, in order, and at most [PIPEBUFSIZ] are in between; and
    under any fair schedule everything that is written is read. *)

From S2P Require Import Prelude Mmu.
Open Scope Z_scope.

Definition PIPEBUFSIZ : Z := 32.

Record Pipe : Type := mkPipe { p_rpos : Z; p_wpos : Z; p_buf : list Z }.

Definition pipe_init : Pipe := mkPipe 0 0 (replicate 32 0).

(** ** The processes *)

Inductive rpc : Type :=
  | RFor                (** [i < n] *)
  | RWhile              (** [p->p_rpos == p->p_wpos] *)
  | RIsClosed           (** [_pipeisclosed(fd, p)] *)
  | RYield              (** [sys_yield()] *)
  | RTake               (** [buf[i] = p->p_buf[p->p_rpos % PIPEBUFSIZ]] *)
  | RInc                (** [p->p_rpos++] *)
  | RRet (r : Z)        (** returned [r] *)
  | RFault.             (** an access outside the buffer *)

(** A call of [devpipe_read]: [n], [i] and the bytes stored in [buf]. *)
Record reader : Type := mkReader { r_pc : rpc; r_n : Z; r_i : Z; r_buf : list Z }.

Inductive wpc : Type :=
  | WFor                (** [i < n] *)
  | WWhile              (** [p->p_wpos >= p->p_rpos + sizeof(p->p_buf)] *)
  | WIsClosed           (** [_pipeisclosed(fd, p)] *)
  | WYield              (** [sys_yield()] *)
  | WPut                (** [p->p_buf[p->p_wpos % PIPEBUFSIZ] = buf[i]] *)
  | WInc                (** [p->p_wpos++] *)
  | WRet (r : Z)        (** returned [r] *)
  | WFault.             (** an access outside the buffer *)

(** A call of [devpipe_write]: the [n] bytes of [buf], and [i]. *)
Record writer : Type := mkWriter { w_pc : wpc; w_buf : list Z; w_i : Z }.

(** Both processes, and the history of what has gone in and come out. *)
Record sys : Type := mkSys { pipe : Pipe; rd : reader; wr : writer; sent : list Z; got : list Z }.

(** [a % PIPEBUFSIZ] as an index: C's remainder has the sign of [a]. *)
Definition slot_of (a : Z) : option nat :=
  let k := Z.rem a PIPEBUFSIZ in if 0 <=? k then Some (Z.to_nat k) else None.

Definition set_rpc (pc : rpc) (s : sys) : sys :=
  mkSys (pipe s) (mkReader pc (r_n (rd s)) (r_i (rd s)) (r_buf (rd s))) (wr s) (sent s) (got s).

Definition set_wpc (pc : wpc) (s : sys) : sys :=
  mkSys (pipe s) (rd s) (mkWriter pc (w_buf (wr s)) (w_i (wr s))) (sent s) (got s).

(** One step of [devpipe_read]; [closed] is the answer of [_pipeisclosed]. *)
Definition devpipe_read (closed : bool) (s : sys) : sys :=
  let p := pipe s in let r := rd s in
  match r_pc r with
  | RFor => set_rpc (if r_i r <? r_n r then RWhile else RRet (r_i r)) s
  | RWhile =>
    if p_rpos p =? p_wpos p then set_rpc (if 0 <? r_i r then RRet (r_i r) else RIsClosed) s
    else set_rpc RTake s
  | RIsClosed => set_rpc (if closed then RRet 0 else RYield) s
  | RYield => set_rpc RWhile s
  | RTake =>
    match slot_of (p_rpos p) ≫= (p_buf p !!.) with
    | Some b => mkSys p (mkReader RInc (r_n r) (r_i r) (r_buf r ++ [b])) (wr s) (sent s) (got s)
    | None => set_rpc RFault s
    end
  | RInc =>
    mkSys (mkPipe (s32 (p_rpos p + 1)) (p_wpos p) (p_buf p)) (mkReader RFor (r_n r) (r_i r + 1) (r_buf r))
      (wr s) (sent s) (got s ++ list.drop (length (r_buf r) - 1) (r_buf r))
  | RRet _ | RFault => s
  end.

(** One step of [devpipe_write]. *)
Definition devpipe_write (closed : bool) (s : sys) : sys :=
  let p := pipe s in let w := wr s in
  match w_pc w with
  | WFor => set_wpc (if w_i w <? Z.of_nat (length (w_buf w)) then WWhile else WRet (w_i w)) s
  | WWhile =>
    if u32 (p_rpos p + PIPEBUFSIZ) <=? u32 (p_wpos p) then set_wpc WIsClosed s else set_wpc WPut s
  | WIsClosed => set_wpc (if closed then WRet 0 else WYield) s
  | WYield => set_wpc WWhile s
  | WPut =>
    match slot_of (p_wpos p), w_buf w !! Z.to_nat (w_i w) with
    | Some k, Some b =>
      mkSys (mkPipe (p_rpos p) (p_wpos p) (<[k := b]> (p_buf p))) (rd s) (mkWriter WInc (w_buf w) (w_i w)) (sent s) (got s)
    | _, _ => set_wpc WFault s
    end
  | WInc =>
    mkSys (mkPipe (p_rpos p) (s32 (p_wpos p + 1)) (p_buf p)) (rd s) (mkWriter WFor (w_buf w) (w_i w + 1))
      (sent s ++ option_list (w_buf w !! Z.to_nat (w_i w))) (got s)
  | WRet _ | WFault => s
  end.

(** Entering the functions. *)
Definition start_read (n : Z) (s : sys) : sys := mkSys (pipe s) (mkReader RFor n 0 []) (wr s) (sent s) (got s).
Definition start_write (buf : list Z) (s : sys) : sys := mkSys (pipe s) (rd s) (mkWriter WFor buf 0) (sent s) (got s).

Inductive step : sys → sys → Prop :=
  | step_read closed s : step s (devpipe_read closed s)
  | step_write closed s : step s (devpipe_write closed s)
  | step_call_read n r s : r_pc (rd s) = RRet r → 0 <= n → step s (start_read n s)
  | step_call_write buf r s : w_pc (wr s) = WRet r → step s (start_write buf s).

Definition sys_init : sys := mkSys pipe_init (mkReader (RRet 0) 0 0 []) (mkWriter (WRet 0) [] 0) [] [].

Inductive reachable : sys → Prop :=
  | reach_init : reachable sys_init
  | reach_step s s' : reachable s → step s s' → reachable s'.

(** ** The invariant *)

Definition len {A} (l : list A) : Z := Z.of_nat (length l).

Record pipe_inv (s : sys) : Prop := mk_pipe_inv {
  pi_r : p_rpos (pipe s) = len (got s);
  pi_w : p_wpos (pipe s) = len (sent s);
  pi_len : length (p_buf (pipe s)) = 32%nat;
  pi_order : len (got s) <= len (sent s) <= len (got s) + PIPEBUFSIZ;
  pi_prefix : got s = take (length (got s)) (sent s);
  (** the bytes in flight are in the buffer *)
  pi_data : ∀ k, (length (got s) <= k < length (sent s))%nat →
    p_buf (pipe s) !! (k mod 32)%nat = sent s !! k;
  (** the reader *)
  pi_rbuf : r_buf (rd s) = list.drop (length (got s) - Z.to_nat (r_i (rd s))) (got s) ++
    match r_pc (rd s) with RInc => option_list (sent s !! length (got s)) | _ => [] end;
  pi_ri : 0 <= r_i (rd s) <= len (got s);
  pi_rpc : match r_pc (rd s) with
           | RTake | RInc => len (got s) < len (sent s)
           | RRet r => r = r_i (rd s)
           | RIsClosed => r_i (rd s) = 0
           | RFault => False
           | _ => True
           end;
  (** the writer *)
  pi_wi : 0 <= w_i (wr s) <= len (w_buf (wr s));
  pi_wpc : match w_pc (wr s) with
           | WPut => len (sent s) < len (got s) + PIPEBUFSIZ ∧ w_i (wr s) < len (w_buf (wr s))
           | WInc => len (sent s) < len (got s) + PIPEBUFSIZ ∧ w_i (wr s) < len (w_buf (wr s)) ∧
                     p_buf (pipe s) !! (length (sent s) mod 32)%nat = w_buf (wr s) !! Z.to_nat (w_i (wr s))
           | WWhile | WIsClosed | WYield => w_i (wr s) < len (w_buf (wr s))
           | WFault => False
           | _ => True
           end;
}.

Lemma slot_of_len {A} (l : list A) : slot_of (len l) = Some (length l mod 32)%nat.
Proof.
  unfold slot_of, len, PIPEBUFSIZ. rewrite Z.rem_mod_nonneg by lia.
  pose proof (Z.mod_pos_bound (Z.of_nat (length l)) 32 ltac:(lia)).
  destruct (Z.leb_spec 0 (Z.of_nat (length l) mod 32)); [|lia]. f_equal.
  rewrite <- (Nat2Z.id (length l mod 32)%nat). f_equal. by rewrite Nat2Z.inj_mod.
Qed.

Lemma len_app {A} (l l' : list A) : len (l ++ l') = len l + len l'.
Proof. unfold len. rewrite length_app. lia. Qed.

Lemma len_snoc {A} (l : list A) x : len (l ++ [x]) = len l + 1.
Proof. by rewrite len_app. Qed.

Lemma pipe_inv_init : pipe_inv sys_init.
Proof.
  constructor; try done; cbn; try (unfold len, PIPEBUFSIZ; cbn; lia).
Qed.

(** Steps that only move a program counter. *)
Lemma pipe_inv_rpc s pc :
  pipe_inv s → r_pc (rd s) ≠ RInc → pc ≠ RInc →
  match pc with RTake | RInc => len (got s) < len (sent s) | RRet r => r = r_i (rd s)
    | RIsClosed => r_i (rd s) = 0 | RFault => False | _ => True end →
  pipe_inv (set_rpc pc s).
Proof.
  intros [H1 H2 H3 H4 H5 H6 H7 H8 H9 H10 H11] Hn Hp Hpc. constructor; try done. cbn.
  rewrite H7. destruct (r_pc (rd s)); try done; by destruct pc.
Qed.

Lemma pipe_inv_wpc s pc :
  pipe_inv s →
  match pc with
  | WPut => len (sent s) < len (got s) + PIPEBUFSIZ ∧ w_i (wr s) < len (w_buf (wr s))
  | WWhile | WIsClosed | WYield => w_i (wr s) < len (w_buf (wr s))
  | WFault | WInc => False
  | _ => True
  end → pipe_inv (set_wpc pc s).
Proof. intros [H1 H2 H3 H4 H5 H6 H7 H8 H9 H10 H11] Hpc. constructor; try done. cbn. by destruct pc. Qed.

(** The reader takes a byte. *)
Lemma pipe_inv_take s closed :
  pipe_inv s → r_pc (rd s) = RTake → pipe_inv (devpipe_read closed s).
Proof.
  intros Hi Hpc. pose proof Hi as [H1 H2 H3 H4 H5 H6 H7 H8 H9 H10 H11]. rewrite Hpc in *.
  unfold devpipe_read. rewrite Hpc, H1, slot_of_len. cbn [mbind option_bind].
  unfold len in H9. rewrite (H6 (length (got s))) by lia.
  destruct (sent s !! length (got s)) as [b|] eqn:Hb; [|apply lookup_ge_None in Hb; lia].
  constructor; try done. cbn. rewrite Hb, H7, app_nil_r. done.
Qed.

Lemma pipe_inv_rinc s closed :
  pipe_inv s → r_pc (rd s) = RInc → len (sent s) < 2 ^ 31 → pipe_inv (devpipe_read closed s).
Proof.
  intros Hi Hpc Hmax. pose proof Hi as [H1 H2 H3 H4 H5 H6 H7 H8 H9 H10 H11]. rewrite Hpc in *.
  unfold len in H9. destruct (sent s !! length (got s)) as [b|] eqn:Hb; [|apply lookup_ge_None in Hb; lia].
  unfold devpipe_read. rewrite Hpc. change (option_list (Some b)) with [b] in H7.
  assert (Hlast : list.drop (length (r_buf (rd s)) - 1) (r_buf (rd s)) = [b]).
  { rewrite H7, length_app. cbn [length]. rewrite Nat.add_sub. rewrite drop_app_length. done. }
  rewrite Hlast. constructor; cbn [pipe rd wr sent got p_rpos p_wpos p_buf r_pc r_i r_buf].
  - rewrite len_snoc, s32_small; [lia|]. unfold len in *. lia.
  - done.
  - done.
  - rewrite len_snoc. unfold len in *. lia.
  - rewrite length_app. cbn [length]. rewrite Nat.add_1_r. rewrite (take_S_r _ _ b Hb). by rewrite <- H5.
  - intros k Hk. rewrite length_app in Hk. cbn [length] in Hk. apply H6. lia.
  - rewrite app_nil_r, H7, length_app. cbn [length]. unfold len in *.
    replace (length (got s) + 1 - Z.to_nat (r_i (rd s) + 1))%nat with (length (got s) - Z.to_nat (r_i (rd s)))%nat by lia.
    rewrite drop_app_le by lia. done.
  - rewrite len_snoc. unfold len in *. lia.
  - done.
  - done.
  - rewrite len_snoc. destruct (w_pc (wr s)); try done; unfold len in *; intuition lia.
Qed.

Lemma pipe_inv_put s closed :
  pipe_inv s → w_pc (wr s) = WPut → pipe_inv (devpipe_write closed s).
Proof.
  intros Hi Hpc. pose proof Hi as [H1 H2 H3 H4 H5 H6 H7 H8 H9 H10 H11]. rewrite Hpc in *.
  destruct H11 as [Hroom Hmore]. unfold devpipe_write. rewrite Hpc, H2, slot_of_len.
  destruct (w_buf (wr s) !! Z.to_nat (w_i (wr s))) as [b|] eqn:Hb.
  2: { apply lookup_ge_None in Hb. unfold len in *. lia. }
  assert (Hlt : (length (sent s) mod 32 < 32)%nat) by (apply Nat.mod_upper_bound; lia).
  constructor; cbn [pipe rd wr sent got p_rpos p_wpos p_buf r_pc r_i r_buf w_pc w_buf w_i]; try done.
  - by rewrite length_insert.
  - intros k Hk. rewrite list_lookup_insert_ne; [by apply H6|]. unfold len, PIPEBUFSIZ in *.
    intros E. pose proof (Nat.div_mod_eq k 32). pose proof (Nat.div_mod_eq (length (sent s)) 32). lia.
  - split_and!; [done|done|]. rewrite Hb. rewrite list_lookup_insert_eq; [done|lia].
Qed.

Lemma pipe_inv_winc s closed :
  pipe_inv s → w_pc (wr s) = WInc → len (sent s) + 1 < 2 ^ 31 → pipe_inv (devpipe_write closed s).
Proof.
  intros Hi Hpc Hmax. pose proof Hi as [H1 H2 H3 H4 H5 H6 H7 H8 H9 H10 H11]. rewrite Hpc in *.
  destruct H11 as (Hroom & Hmore & Hin). unfold devpipe_write. rewrite Hpc.
  destruct (w_buf (wr s) !! Z.to_nat (w_i (wr s))) as [b|] eqn:Hb.
  2: { apply lookup_ge_None in Hb. unfold len in *. lia. }
  change (option_list (Some b)) with [b]. assert (Hle : (length (got s) <= length (sent s))%nat) by (unfold len in *; lia).
  constructor; cbn [pipe rd wr sent got p_rpos p_wpos p_buf r_pc r_i r_buf w_pc w_buf w_i].
  - done.
  - rewrite len_snoc, s32_small; [lia|]. unfold len in *. lia.
  - done.
  - rewrite len_snoc. lia.
  - by rewrite take_app_le.
  - intros k Hk. rewrite length_app in Hk. cbn [length] in Hk.
    destruct (decide (k = length (sent s))) as [->|Hne].
    + rewrite Hin. by rewrite lookup_app_r, Nat.sub_diag by lia.
    + rewrite H6 by lia. by rewrite lookup_app_l by lia.
  - rewrite H7. destruct (r_pc (rd s)); try done. f_equal. unfold len in H9. by rewrite lookup_app_l by lia.
  - done.
  - rewrite len_snoc. destruct (r_pc (rd s)); try done; lia.
  - lia.
  - done.
Qed.

Lemma read_inv s closed : pipe_inv s → len (sent s) < 2 ^ 31 → pipe_inv (devpipe_read closed s).
Proof.
  intros Hi Hmax. destruct (r_pc (rd s)) eqn:Hpc.
  5: { by apply pipe_inv_take. } 5: { by apply pipe_inv_rinc. }
  all: unfold devpipe_read; rewrite Hpc; try done.
  - apply pipe_inv_rpc; try done; [by rewrite Hpc|..]; by destruct (_ <? _).
  - pose proof (pi_ri s Hi) as Hri. destruct (Z.eqb_spec (p_rpos (pipe s)) (p_wpos (pipe s))) as [E|E].
    + apply pipe_inv_rpc; try done; [by rewrite Hpc|..]; destruct (Z.ltb_spec 0 (r_i (rd s))); (done || lia).
    + apply pipe_inv_rpc; try done; [by rewrite Hpc|]. rewrite (pi_r s Hi), (pi_w s Hi) in E.
      pose proof (pi_order s Hi). lia.
  - pose proof (pi_rpc s Hi) as H0. rewrite Hpc in H0.
    apply pipe_inv_rpc; try done; [by rewrite Hpc|..]; by destruct closed.
  - apply pipe_inv_rpc; try done. by rewrite Hpc.
Qed.

Lemma write_inv s closed :
  pipe_inv s → len (sent (devpipe_write closed s)) < 2 ^ 31 → pipe_inv (devpipe_write closed s).
Proof.
  intros Hi Hmax. pose proof (pi_wpc s Hi) as Hw. destruct (w_pc (wr s)) eqn:Hpc.
  5: { by apply pipe_inv_put. }
  5: { apply pipe_inv_winc; try done. unfold devpipe_write in Hmax. rewrite Hpc in Hmax. cbn [sent] in Hmax.
       destruct Hw as (_ & Hmore & _). pose proof (pi_wi s Hi). destruct (w_buf (wr s) !! Z.to_nat (w_i (wr s))) eqn:Hb.
       - rewrite len_app in Hmax. exact Hmax.
       - apply lookup_ge_None in Hb. unfold len in *. lia. }
  all: unfold devpipe_write in *; rewrite Hpc in *; try done.
  - apply pipe_inv_wpc; [done|]. destruct (Z.ltb_spec (w_i (wr s)) (Z.of_nat (length (w_buf (wr s))))); done.
  - pose proof (pi_order s Hi) as Ho. rewrite (pi_r s Hi), (pi_w s Hi) in *.
    destruct (Z.leb_spec (u32 (len (got s) + PIPEBUFSIZ)) (u32 (len (sent s)))) as [Hle|Hlt]; [by apply pipe_inv_wpc|].
    apply pipe_inv_wpc; [done|]. split; [|done]. cbn in Hmax. unfold len, PIPEBUFSIZ in *.
    rewrite !u32_small in Hlt by lia. done.
  - apply pipe_inv_wpc; [done|]. by destruct closed.
  - by apply pipe_inv_wpc.
Qed.

(** What has been written only grows. *)
Lemma step_sent s s' : step s s' → len (sent s) <= len (sent s').
Proof.
  destruct 1 as [c s|c s|n r s Hr Hn|buf r s Hr]; try done.
  - unfold devpipe_read. by repeat case_match.
  - unfold devpipe_write. repeat case_match; try done. cbn. rewrite len_app. unfold len. lia.
Qed.

Lemma reachable_inv s : reachable s → len (sent s) < 2 ^ 31 → pipe_inv s.
Proof.
  induction 1 as [|s s' _ IH Hst]; [intros _; apply pipe_inv_init|]. intros Hmax.
  pose proof (step_sent _ _ Hst) as Hle. specialize (IH ltac:(lia)).
  destruct Hst as [c s|c s|n r s Hr Hn|buf r s Hr].
  - apply read_inv; [done|lia].
  - by apply write_inv.
  - pose proof IH as [H1 H2 H3 H4 H5 H6 H7 H8 H9 H10 H11]. constructor; try done; cbn.
    + rewrite app_nil_r. change (Z.to_nat 0) with 0%nat. by rewrite Nat.sub_0_r, drop_all.
    + unfold len in *. lia.
  - pose proof IH as [H1 H2 H3 H4 H5 H6 H7 H8 H9 H10 H11]. constructor; try done. cbn. unfold len. lia.
Qed.

(** C18: Pipes are first-in first-out, without a lock.  However the accesses of
    a reader and a writer interleave, and whatever [_pipeisclosed] answers, as
    long as fewer than 2 GB have gone through: the bytes read so far are a
    prefix of the bytes written, at most [PIPEBUFSIZ] bytes are in between, a
    call of [devpipe_read] that returned [r] has stored the last [r] bytes
    read, and neither side ever leaves the buffer. *)
Theorem pipe_fifo s :
  reachable s → len (sent s) < 2 ^ 31 →
  got s `prefix_of` sent s ∧ len (sent s) - len (got s) <= PIPEBUFSIZ ∧
  (∀ r, r_pc (rd s) = RRet r → r = len (r_buf (rd s)) ∧ r_buf (rd s) `suffix_of` got s) ∧
  r_pc (rd s) ≠ RFault ∧ w_pc (wr s) ≠ WFault.
Proof.
  intros Hr Hmax. destruct (reachable_inv s Hr Hmax) as [H1 H2 H3 H4 H5 H6 H7 H8 H9 H10 H11].
  split_and!; [|lia|..].
  - rewrite H5. apply prefix_take.
  - intros r Hpc. rewrite Hpc, app_nil_r in *. rewrite H7. split.
    + rewrite H9. unfold len in *. rewrite length_drop. lia.
    + exists (take (length (got s) - Z.to_nat (r_i (rd s))) (got s)). by rewrite take_drop.
  - intros E. by rewrite E in H9.
  - intros E. by rewrite E in H11.
Qed.

(** ** Liveness

    Both ends open: the reader calls [devpipe_read] for [n] bytes over and
    over, the writer writes [data] with one call of [devpipe_write]. *)

Inductive pid : Type := Rd | Wr.

#[export] Instance pid_eq_dec : EqDecision pid.
Proof. solve_decision. Defined.

Definition turn (n : Z) (p : pid) (s : sys) : sys :=
  match p with
  | Rd => match r_pc (rd s) with RRet _ => start_read n s | _ => devpipe_read false s end
  | Wr => devpipe_write false s
  end.

Definition run (n : Z) (sched : list pid) (s : sys) : sys := foldl (λ s p, turn n p s) s sched.

(** A stretch of schedule in which each process gets at least five turns. *)
Definition count (p : pid) (sched : list pid) : nat := length (filter (p =.) sched).
Definition fair (sched : list pid) : Prop := (4 < count Rd sched)%nat ∧ (4 < count Wr sched)%nat.

Section liveness.
Context (n : Z) (data : list Z).
Hypothesis Hn : 1 <= n.
Hypothesis Hdata : len data < 2 ^ 31.

Record live (s : sys) : Prop := mk_live {
  lv_inv : pipe_inv s;
  lv_buf : w_buf (wr s) = data;
  lv_sent : sent s = take (Z.to_nat (w_i (wr s))) data;
  lv_n : match r_pc (rd s) with RRet _ => True | _ => r_n (rd s) = n end;
  lv_ret : match w_pc (wr s) with WRet _ => w_i (wr s) = len data | _ => True end;
}.

Lemma live_len s : live s → len (sent s) = w_i (wr s) ∧ len (sent s) <= len data.
Proof.
  intros [Hi Hb Hs _ _]. pose proof (pi_wi s Hi) as Hw. rewrite Hb in Hw. rewrite Hs. unfold len in *.
  rewrite length_take. lia.
Qed.

(** How far along a process is with its byte; the work done so far. *)
Definition rphase (s : sys) : Z := match r_pc (rd s) with RTake => 1 | RInc => 2 | _ => 0 end.
Definition wphase (s : sys) : Z := match w_pc (wr s) with WPut => 1 | WInc => 2 | _ => 0 end.
Definition work (s : sys) : Z := 3 * len (got s) + rphase s + (3 * len (sent s) + wphase s).

(** Turns until a process that need not wait advances. *)
Definition rdist (s : sys) : nat :=
  match r_pc (rd s) with
  | RYield => 1 | RIsClosed | RRet _ => 2 | RFor => if r_i (rd s) <? r_n (rd s) then 1 else 3 | _ => 0
  end.
Definition wdist (s : sys) : nat :=
  match w_pc (wr s) with WYield | WFor => 1 | WIsClosed => 2 | _ => 0 end.

Lemma reader_turn s :
  live s → let s' := turn n Rd s in
  live s' ∧ wr s' = wr s ∧ sent s' = sent s ∧
  (work s' = work s + 1 ∨
   work s' = work s ∧ got s' = got s ∧ (len (got s) < len (sent s) → (rdist s' + 1 = rdist s)%nat)).
Proof using Hn Hdata.
  intros Hl. pose proof Hl as [Hi Hb Hs Hrn Hret]. destruct (live_len s Hl) as [_ Hle].
  pose proof (read_inv s false Hi ltac:(lia)) as Hi'. pose proof (pi_ri s Hi) as Hri.
  unfold turn, work, rphase, wphase, rdist. destruct (r_pc (rd s)) eqn:Hpc.
  - unfold devpipe_read in *. rewrite Hpc in *.
    revert Hi'. destruct (Z.ltb_spec (r_i (rd s)) (r_n (rd s))); intros Hi'; cbn; (split; [by constructor|]); (split; [done|]); (split; [done|]); right; split_and!; (done || lia).
  - unfold devpipe_read in *. rewrite Hpc in *.
    destruct (Z.eqb_spec (p_rpos (pipe s)) (p_wpos (pipe s))) as [E|E].
    + rewrite (pi_r s Hi), (pi_w s Hi) in E. split; [by constructor; try done; cbn; destruct (0 <? r_i (rd s))|].
      split; [done|]. split; [done|]. right. cbn. split_and!; [by destruct (0 <? r_i (rd s))|done|lia].
    + split; [by constructor|]. split; [done|]. split; [done|]. left. cbn. lia.
  - unfold devpipe_read in *. rewrite Hpc in *. split; [by constructor|]. split; [done|]. split; [done|]. right. by cbn.
  - unfold devpipe_read in *. rewrite Hpc in *. split; [by constructor|]. split; [done|]. split; [done|]. right. by cbn.
  - pose proof (pi_rpc s Hi) as Hlt. rewrite Hpc in Hlt. pose proof (pi_rpc _ Hi') as Hpc'.
    unfold devpipe_read in *. rewrite Hpc in *.
    destruct (slot_of (p_rpos (pipe s)) ≫= (p_buf (pipe s) !!.)) as [b|]; [|done].
    split; [by constructor|]. split; [done|]. split; [done|]. left. cbn. lia.
  - assert (Hlen : len (got (devpipe_read false s)) = len (got s) + 1).
    { pose proof (pi_r _ Hi') as H1. pose proof (pi_r _ Hi) as H2. pose proof (pi_rpc s Hi) as H3. rewrite Hpc in H3.
      unfold devpipe_read in H1 |- *. rewrite Hpc in H1 |- *. cbn in H1 |- *. rewrite <- H1, H2.
      apply s32_small. unfold len in *. lia. }
    split.
    { unfold devpipe_read in *. rewrite Hpc in *. by constructor. }
    unfold devpipe_read in Hlen |- *. rewrite Hpc in Hlen |- *. cbn in Hlen |- *.
    split; [done|]. split; [done|]. left. lia.
  - split.
    { unfold start_read. constructor; try done. pose proof Hi as [H1 H2 H3 H4 H5 H6 H7 H8 H9 H10 H11].
      constructor; try done; cbn.
      - rewrite app_nil_r. change (Z.to_nat 0) with 0%nat. by rewrite Nat.sub_0_r, drop_all.
      - unfold len. lia. }
    cbn. split; [done|]. split; [done|]. right. split_and!; try done. intros _.
    by destruct (Z.ltb_spec 0 n); [|lia].
  - pose proof (pi_rpc s Hi) as Hf. by rewrite Hpc in Hf.
Qed.

Lemma writer_turn s :
  live s → let s' := turn n Wr s in
  live s' ∧ rd s' = rd s ∧ got s' = got s ∧
  (work s' = work s + 1 ∨
   work s' = work s ∧ sent s' = sent s ∧
   (len (sent s) < len (got s) + PIPEBUFSIZ → len (sent s) < len data → (wdist s' + 1 = wdist s)%nat)).
Proof using Hn Hdata.
  intros Hl. pose proof Hl as [Hi Hb Hs Hrn Hret]. destruct (live_len s Hl) as [Hlen Hle].
  pose proof (pi_wpc s Hi) as Hw. pose proof (pi_wi s Hi) as Hwi. rewrite Hb in Hwi.
  assert (Hsent : len (sent (devpipe_write false s)) < 2 ^ 31).
  { unfold devpipe_write. destruct (w_pc (wr s)) eqn:Hpc; try (repeat case_match; cbn; lia). cbn. rewrite len_app.
    destruct Hw as (_ & Hmore & _). rewrite Hb in Hmore.
    enough (len (option_list (w_buf (wr s) !! Z.to_nat (w_i (wr s)))) <= 1) by lia.
    unfold len. destruct (w_buf (wr s) !! _); cbn; lia. }
  pose proof (write_inv s false Hi Hsent) as Hi'.
  unfold turn, work, rphase, wphase, wdist. destruct (w_pc (wr s)) eqn:Hpc.
  - unfold devpipe_write in *. rewrite Hpc, Hb in *. change (Z.of_nat (length data)) with (len data) in *.
    revert Hi'. destruct (Z.ltb_spec (w_i (wr s)) (len data)); intros Hi'; cbn; (split; [constructor; cbn; (done || lia)|]);
      (split; [done|]); (split; [done|]); right; split_and!; try done; lia.
  - unfold devpipe_write in *. rewrite Hpc in *. rewrite (pi_r s Hi), (pi_w s Hi) in *.
    pose proof (pi_order s Hi) as Ho. unfold PIPEBUFSIZ in *.
    assert (0 <= len (got s)) by (unfold len; lia). cbn in Hsent.
    destruct (Z.leb_spec (u32 (len (got s) + 32)) (u32 (len (sent s)))) as [Hf|Hf].
    + split; [by constructor|]. split; [done|]. split; [done|]. right. cbn. split_and!; try done. intros Hc.
      rewrite !u32_small in Hf by lia. lia.
    + split; [by constructor|]. split; [done|]. split; [done|]. left. cbn. lia.
  - unfold devpipe_write in *. rewrite Hpc in *. split; [by constructor|]. split; [done|]. split; [done|]. right. by cbn.
  - unfold devpipe_write in *. rewrite Hpc in *. split; [by constructor|]. split; [done|]. split; [done|]. right. by cbn.
  - pose proof (pi_wpc _ Hi') as Hpc'. unfold devpipe_write in *. rewrite Hpc in *.
    destruct (slot_of (p_wpos (pipe s))); [|done]. destruct (w_buf (wr s) !! Z.to_nat (w_i (wr s))); [|done].
    split; [by constructor|]. split; [done|]. split; [done|]. left. cbn. lia.
  - destruct Hw as (_ & Hmore & _). unfold devpipe_write in *. rewrite Hpc, Hb in *.
    destruct (data !! Z.to_nat (w_i (wr s))) as [b|] eqn:E; [|apply lookup_ge_None in E; unfold len in *; lia].
    change (option_list (Some b)) with [b] in *. split.
    { constructor; try done. cbn. rewrite Hs, Z2Nat.inj_add, Nat.add_1_r by lia. by rewrite (take_S_r _ _ b E). }
    split; [done|]. split; [done|]. left. cbn. rewrite len_snoc. lia.
  - unfold devpipe_write in *. rewrite Hpc in *. split; [done|]. split; [done|]. split; [done|]. right.
    rewrite Hpc. split_and!; try done. intros _ Hc. lia.
  - done.
Qed.

Lemma turn_live p s : live s → live (turn n p s) ∧ work s <= work (turn n p s) ∧ len (got s) <= len (got (turn n p s)).
Proof using Hn Hdata.
  intros Hl. destruct p.
  - destruct (reader_turn s Hl) as (Hl' & Hw & Hs & Hc). split; [done|].
    assert (Hwk : wphase (turn n Rd s) = wphase s) by (unfold wphase; by rewrite Hw).
    destruct Hc as [Hc|(Hc & -> & _)]; [|lia]. unfold work in *. rewrite Hs, Hwk in *.
    assert (0 <= rphase s <= 2 ∧ 0 <= rphase (turn n Rd s) <= 2) by (unfold rphase; repeat case_match; lia). lia.
  - destruct (writer_turn s Hl) as (Hl' & _ & -> & [?|(? & _)]); split; (done || lia).
Qed.

Lemma run_live sched s : live s →
  live (run n sched s) ∧ work s <= work (run n sched s) ∧ len (got s) <= len (got (run n sched s)).
Proof using Hn Hdata.
  revert s. induction sched as [|p sched IH]; intros s Hl; cbn; [done|].
  destruct (turn_live p s Hl) as (Hl1 & Hw1 & Hg1), (IH (turn n p s)) as (Hl2 & Hw2 & Hg2); [done|].
  fold (run n sched (turn n p s)). split; [done|lia].
Qed.

Lemma count_cons p q sched : count p (q :: sched) = ((if decide (p = q) then 1 else 0) + count p sched)%nat.
Proof. unfold count. rewrite filter_cons. by destruct (decide (p = q)). Qed.

(** A reader with bytes waiting for it gets on, if it gets its turns. *)
Lemma reader_block sched s :
  live s → len (got s) < len (sent s) →
  work s < work (run n sched s) ∨ (count Rd sched + rdist (run n sched s) <= rdist s)%nat.
Proof using Hn Hdata.
  revert s. induction sched as [|p sched IH]; intros s Hl Hc; [right; cbn; lia|].
  rewrite count_cons. cbn [run foldl]. fold (run n sched (turn n p s)).
  destruct (turn_live p s Hl) as (Hl1 & _). destruct (run_live sched _ Hl1) as (_ & Hmono & _).
  destruct p; cbn [decide decide_rel].
  - destruct (reader_turn s Hl) as (_ & Hw & Hs & [?|(He & Hg & Hd)]); [left; lia|].
    specialize (Hd Hc). rewrite <- Hg, <- Hs in Hc. destruct (IH _ Hl1 Hc) as [?|?]; [left; lia|right].
    rewrite decide_True by done. lia.
  - destruct (writer_turn s Hl) as (_ & Hr & Hg & [?|(He & Hs & _)]); [left; lia|].
    rewrite <- Hg, <- Hs in Hc. destruct (IH _ Hl1 Hc) as [?|Hx]; [left; lia|right].
    rewrite decide_False by done. unfold rdist in Hx at 2. rewrite Hr in Hx. exact Hx.
Qed.

Lemma writer_block sched s :
  live s → len (sent s) < len (got s) + PIPEBUFSIZ → len (sent s) < len data →
  work s < work (run n sched s) ∨ (count Wr sched + wdist (run n sched s) <= wdist s)%nat.
Proof using Hn Hdata.
  revert s. induction sched as [|p sched IH]; intros s Hl Hc Hd; [right; cbn; lia|].
  rewrite count_cons. cbn [run foldl]. fold (run n sched (turn n p s)).
  destruct (turn_live p s Hl) as (Hl1 & _). destruct (run_live sched _ Hl1) as (_ & Hmono & _).
  destruct p; cbn [decide decide_rel].
  - destruct (reader_turn s Hl) as (_ & Hw & Hs & [?|(He & Hg & _)]); [left; lia|].
    rewrite <- Hg, <- Hs in Hc. rewrite <- Hs in Hd. destruct (IH _ Hl1 Hc Hd) as [?|Hx]; [left; lia|right].
    rewrite decide_False by done. unfold wdist in Hx at 2. rewrite Hw in Hx. exact Hx.
  - destruct (writer_turn s Hl) as (_ & Hr & Hg & [?|(He & Hs & Hx)]); [left; lia|].
    specialize (Hx Hc Hd). rewrite <- Hg, <- Hs in Hc. rewrite <- Hs in Hd.
    destruct (IH _ Hl1 Hc Hd) as [?|?]; [left; lia|right]. rewrite decide_True by done. lia.
Qed.

(** One fair stretch makes progress. *)
Lemma fair_progress b s :
  live s → fair b → len (got s) < len data → work s < work (run n b s).
Proof using Hn Hdata.
  intros Hl [Hr Hw] Hg. destruct (live_len s Hl) as [Hlen Hle].
  pose proof (pi_order s (lv_inv s Hl)) as Ho.
  destruct (decide (len (got s) < len (sent s))) as [Hc|Hc].
  - destruct (reader_block b s Hl Hc) as [?|Hx]; [done|].
    assert (rdist s <= 3)%nat by (unfold rdist; repeat case_match; lia). lia.
  - destruct (writer_block b s Hl) as [?|Hx]; [unfold PIPEBUFSIZ; lia|lia|done|].
    assert (wdist s <= 2)%nat by (unfold wdist; repeat case_match; lia). lia.
Qed.

Lemma fair_run blocks s :
  live s → Forall fair blocks →
  len (got (run n (concat blocks) s)) = len data ∨ work s + len blocks <= work (run n (concat blocks) s).
Proof using Hn Hdata.
  revert s. induction blocks as [|b blocks IH]; intros s Hl Hf; [right; cbn; unfold len; cbn; lia|].
  apply Forall_cons in Hf as [Hb Hf]. cbn [concat].
  assert (E : run n (b ++ concat blocks) s = run n (concat blocks) (run n b s)) by (unfold run; by rewrite foldl_app).
  rewrite E. destruct (run_live b s Hl) as (Hl1 & Hw1 & Hg1). destruct (run_live (concat blocks) _ Hl1) as (Hl2 & _ & Hg2).
  destruct (live_len _ Hl2) as [_ Hle]. pose proof (pi_order _ (lv_inv _ Hl2)) as Ho.
  destruct (decide (len (got s) < len data)) as [Hg|Hg]; [|left; lia].
  pose proof (fair_progress b s Hl Hb Hg). destruct (IH _ Hl1 Hf) as [?|?]; [by left|right].
  unfold len in *. cbn [length]. lia.
Qed.
End liveness.

(** C19: Everything written arrives.  If one process writes [data] with a call of
    [devpipe_write] while the other keeps calling [devpipe_read], then under
    any schedule that keeps giving turns to both, after a number of rounds
    bounded by the amount of data the reader has got exactly [data]. *)
Theorem pipe_delivers n data blocks :
  1 <= n → len data < 2 ^ 31 → Forall fair blocks → 6 * len data <= len blocks →
  got (run n (concat blocks) (start_write data sys_init)) = data.
Proof.
  intros Hn Hdata Hf Hk.
  assert (Hl0 : live n data (start_write data sys_init)).
  { constructor; try done. pose proof pipe_inv_init as [H1 H2 H3 H4 H5 H6 H7 H8 H9 H10 H11].
    constructor; try done. cbn. unfold len. lia. }
  destruct (run_live n data Hn Hdata (concat blocks) _ Hl0) as (Hl & _ & _).
  set (s := run n (concat blocks) _) in *. pose proof (lv_inv _ _ s Hl) as Hi.
  destruct (live_len _ _ s Hl) as [Hlen Hle]. pose proof (pi_order s Hi) as Ho.
  assert (Hg : len (got s) = len data).
  { destruct (fair_run n data Hn Hdata blocks _ Hl0 Hf) as [?|Hw]; [done|]. fold s in Hw.
    destruct (decide (len (got s) = len data)) as [|Hne]; [done|]. exfalso.
    pose proof (pi_rpc s Hi) as Hr. pose proof (pi_wpc s Hi) as Hwp. rewrite (lv_buf _ _ s Hl) in Hwp.
    assert (3 * len (got s) + rphase s < 3 * len data) by (unfold rphase; destruct (r_pc (rd s)); lia).
    assert (3 * len (sent s) + wphase s <= 3 * len data) by (unfold wphase; destruct (w_pc (wr s)); lia).
    unfold work in Hw. cbn in Hw. unfold len at 1 2 in Hw. cbn in Hw. lia. }
  rewrite (pi_prefix s Hi), (lv_sent _ _ s Hl), take_take.
  apply take_ge. unfold len in *. lia.
Qed.

(** ** Witnesses *)

(** A reader takes the first of two bytes that were written. *)
Definition demo_sys : sys :=
  run 1 [Wr; Wr; Wr; Wr; Wr; Wr; Wr; Wr; Rd; Rd; Rd; Rd; Rd; Rd] (start_write [104; 105] sys_init).

Lemma run_reachable sched s : reachable s → reachable (run 1 sched s).
Proof.
  revert s. induction sched as [|p sched IH]; intros s Hs; [done|]. cbn. apply IH.
  eapply reach_step; [exact Hs|]. destruct p; cbn; [|constructor].
  destruct (r_pc (rd s)) eqn:E; try constructor. by apply (step_call_read _ r).
Qed.

Lemma pipe_fifo_witness :
  got demo_sys = [104] ∧ sent demo_sys = [104; 105] ∧ got demo_sys `prefix_of` sent demo_sys.
Proof.
  split; [reflexivity|]. split; [reflexivity|].
  assert (Hr : reachable demo_sys).
  { apply run_reachable. eapply reach_step; [apply reach_init|]. by apply (step_call_write _ 0). }
  exact (proj1 (pipe_fifo demo_sys Hr eq_refl)).
Defined.

Lemma pipe_delivers_witness :
  got (run 3 (concat (replicate 12 [Rd; Wr; Rd; Wr; Rd; Wr; Wr; Rd; Rd; Wr])) (start_write [104; 105] sys_init)) = [104; 105].
Proof.
  apply pipe_delivers; [lia|reflexivity| |by vm_compute].
  apply Forall_replicate. split; vm_compute; lia.
Defined.
