(* ===== verification/Malloc.v ===== *)
(** * The user-level allocator ([lib/malloc.c])

    [malloc] hands out pieces of pages between [mbegin] and [mend].  The last
    word of a page counts the pieces in it, plus one while the allocator is
    still filling it; the pages of a piece of more than a page are marked
    [PTE_CONTINUED], except the last, which has the count.  The static variable
    [mptr] is passed and returned.  Loops have fuel: the theorems show that it
    suffices. *)

From S2P Require Import Prelude Mmu Console KState AddrSpace Syscall SyscallSpec UserLib UserVm.
Open Scope Z_scope.

Definition MAXMALLOC : Z := 1024 * 1024.
Definition PTE_CONTINUED : Z := 0x200.
Definition mbegin : Z := 0x08000000.
Definition mend : Z := 0x10000000.

Section malloc.
Context {S : Type} `{Machine S}.

Fixpoint isfree_loop (fuel : nat) (va end_va : Z) : U S bool :=
  match fuel with
  | O => stop (UKernel OutOfFuel)
  | Datatypes.S fuel' =>
    if va <? end_va then
      if mend <=? va then mret false
      else
        d ← uvpd (PDX va);
        if Z.land d PTE_P =? 0 then isfree_loop fuel' (u32 (va + PGSIZE)) end_va
        else
          t ← uvpt (PGNUM va);
          if Z.land t PTE_P =? 0 then isfree_loop fuel' (u32 (va + PGSIZE)) end_va
          else mret false
    else mret true
  end.

Definition isfree (v n : Z) : U S bool :=
  isfree_loop (Z.to_nat (n / PGSIZE + 2)) v (u32 (v + n)).

(** [while (uvpt[PGNUM(c)] & PTE_CONTINUED)] *)
Fixpoint free_continued (fuel : nat) (c : Z) : U S Z :=
  match fuel with
  | O => stop (UKernel OutOfFuel)
  | Datatypes.S fuel' =>
    t ← uvpt (PGNUM c);
    if Z.land t PTE_CONTINUED =? 0 then mret c
    else
      _ ← sys_page_unmap 0 c;
      let c := u32 (c + PGSIZE) in
      uassert ((mbegin <=? c) && (c <? mend)) "mbegin <= c && c < mend";;
      free_continued fuel' c
  end.

(** [--( *ref) == 0]: the count in page [c]. *)
Definition free_ref (c : Z) : U S unit :=
  let ref := u32 (c + PGSIZE - 4) in
  r ← uload32 ref;
  ustore32 ref (u32 (r - 1));;
  r ← uload32 ref;
  if r =? 0 then _ ← sys_page_unmap 0 c; mret tt else mret tt.

Definition free (v : Z) : U S unit :=
  if v =? 0 then mret tt
  else
    uassert ((mbegin <=? v) && (v <? mend)) "mbegin <= v && v < mend";;
    c ← free_continued (Z.to_nat ((mend - mbegin) / PGSIZE + 1)) (ROUNDDOWN v PGSIZE);
    free_ref c.

(** The search for address space: [None] when it is exhausted; the new value
    of [mptr]. *)
Fixpoint find_space (fuel : nat) (mptr nwrap n : Z) : U S (bool * Z) :=
  match fuel with
  | O => stop (UKernel OutOfFuel)
  | Datatypes.S fuel' =>
    b ← isfree mptr (n + 4);
    if (b : bool) then mret (true, mptr)
    else
      let mptr := u32 (mptr + PGSIZE) in
      if mptr =? mend then
        if nwrap + 1 =? 2 then mret (false, mbegin) else find_space fuel' mbegin (nwrap + 1) n
      else find_space fuel' mptr nwrap n
  end.

(** Mapping the pages; [false] after undoing a failure. *)
Fixpoint alloc_pages (fuel : nat) (mptr i n : Z) : U S (option Z) :=
  match fuel with
  | O => stop (UKernel OutOfFuel)
  | Datatypes.S fuel' =>
    if i <? n + 4 then
      let cont := if i + PGSIZE <? n + 4 then PTE_CONTINUED else 0 in
      r ← sys_page_alloc 0 (u32 (mptr + i)) (Z.lor (Z.lor (Z.lor PTE_P PTE_U) PTE_W) cont);
      if r <? 0 then
        mfor (reverse (seqZ 0 (i / PGSIZE + 1))) (λ j, _ ← sys_page_unmap 0 (u32 (mptr + j * PGSIZE)); mret tt);;
        mret None
      else alloc_pages fuel' mptr (i + PGSIZE) n
    else mret (Some i)
  end.

(** The end of [malloc]: find space, map it. *)
Definition malloc_new (mptr n : Z) : U S (Z * Z) :=
  r ← find_space (Z.to_nat (2 ^ 21)) mptr 0 n;
  let '(found, mptr) := (r : bool * Z) in
  if negb found then mret (0, mptr)
  else
    i ← alloc_pages (Z.to_nat (n / PGSIZE + 3)) mptr 0 n;
    match i with
    | None => mret (0, mptr)
    | Some i =>
      let ref := u32 (mptr + i - 4) in
      ustore32 ref 2;;
      mret (mptr, u32 (mptr + n))
    end.

Definition malloc (mptr n : Z) : U S (Z * Z) :=
  let mptr := if mptr =? 0 then mbegin else mptr in
  let n := ROUNDUP n 4 in
  if MAXMALLOC <=? n then mret (0, mptr)
  else if negb (mptr mod PGSIZE =? 0) then
    if mptr / PGSIZE =? u32 (mptr + n - 1 + 4) / PGSIZE then
      let ref := u32 (ROUNDUP mptr PGSIZE - 4) in
      r ← uload32 ref;
      ustore32 ref (u32 (r + 1));;
      mret (mptr, u32 (mptr + n))
    else
      free mptr;;
      malloc_new (ROUNDDOWN (u32 (mptr + PGSIZE)) PGSIZE) n
  else malloc_new mptr n.

End malloc.
