(* ===== verification/MallocSpec.v ===== *)
(** * The allocator hands out disjoint memory and keeps it mapped

    First the loops of [malloc] and [free] against [UserVm]; then the heap
    invariant [heap_ok s m bs]: [m] is [mptr] and [bs] the blocks in use. *)

From S2P Require Import Prelude Mmu Console KState AddrSpace Syscall SyscallSpec UserLib UserVm Malloc.
Open Scope Z_scope.

(** The pages of the heap. *)
Definition HBEGIN : Z := mbegin / PGSIZE.
Definition HEND : Z := mend / PGSIZE.
Definition hpage (pn : Z) : Prop := HBEGIN <= pn < HEND.

Ltac hconst := change HBEGIN with 0x8000 in *; change HEND with 0x10000 in *;
  change mbegin with 0x8000000 in *; change mend with 0x10000000 in *; unfold PGSIZE in *.

Lemma hpage_upn pn : hpage pn → upn pn.
Proof. unfold hpage, upn. change NUPAGES with 0xEEC00. hconst. lia. Qed.

(** The number of pages for [n] bytes and a count. *)
Definition npages (n : Z) : Z := (n + 3) / PGSIZE + 1.

Section loops.
Context {S : Type} `{UserVm S}.
Implicit Types s : S.

Abbreviation hmap s pn := (uv_map s (uv_self s) pn).

Lemma isfree_loop_spec s n fuel q e :
  uv_ok s n → HBEGIN <= q → q * PGSIZE < e + PGSIZE → 0 <= e < 2 ^ 31 → Z.of_nat fuel > (e - q * PGSIZE + 4095) / PGSIZE →
  ∃ b : bool, isfree_loop fuel (q * PGSIZE) e s = (Ret b, s) ∧
    (b = true ↔ ∀ i, q <= i → i * PGSIZE < e → i < HEND ∧ hmap s i = None).
Proof.
  intros Hok. revert q. induction fuel as [|fuel IH]; intros q Hq Hlt He Hfuel.
  { hconst. exfalso. Z.to_euclidean_division_equations. lia. }
  cbn [isfree_loop]. destruct (Z.ltb_spec (q * PGSIZE) e) as [Hqe|Hqe].
  2: { exists true. split; [done|]. split; [|done]. intros _ i Hi Hie. hconst. lia. }
  assert (Hstop : ∀ t, hmap s q = Some t → ∃ b : bool, (Ret false : res ustop bool, s) = (Ret b, s) ∧
    (b = true ↔ ∀ i, q <= i → i * PGSIZE < e → i < HEND ∧ hmap s i = None)).
  { intros t Ht. exists false. split; [done|]. split; [done|]. intros Hall.
    destruct (Hall q ltac:(lia) Hqe) as [_ Hn]. congruence. }
  destruct (Z.leb_spec mend (q * PGSIZE)) as [Hm|Hm].
  { exists false. split; [done|]. split; [done|]. intros Hall. destruct (Hall q ltac:(lia) Hqe) as [? _]. hconst. lia. }
  assert (Hp : hpage q) by (unfold hpage; hconst; lia). pose proof (hpage_upn q Hp) as Hu.
  destruct (upn_index q Hu) as [-> ->].
  assert (Hnext : hmap s q = None → ∃ b : bool, isfree_loop fuel (u32 (q * PGSIZE + PGSIZE)) e s = (Ret b, s) ∧
    (b = true ↔ ∀ i, q <= i → i * PGSIZE < e → i < HEND ∧ hmap s i = None)).
  { intros Hn. destruct (IH (q + 1)) as (b & Hrun & Hb); [lia|hconst; lia|done| |].
    { hconst. Z.to_euclidean_division_equations. lia. }
    exists b. rewrite u32_small by (unfold hpage in Hp; hconst; lia).
    replace (q * PGSIZE + PGSIZE) with ((q + 1) * PGSIZE) by lia. split; [done|]. rewrite Hb. split.
    - intros Hall i Hi Hie. destruct (decide (i = q)) as [->|]; [unfold hpage in Hp; split; [lia|done]|]. apply Hall; lia.
    - intros Hall i Hi. apply Hall. lia. }
  destruct (uv_uvpt s n q Hok Hu) as (d & Hd & Hx). mrun (exact Hd). unfold flag in Hx.
  destruct (Z.land d PTE_P =? 0); cbn [negb] in Hx; [by apply Hnext|].
  destruct Hx as (t & Ht & Hm'). mrun (exact Ht).
  destruct (Z.land t PTE_P =? 0); cbn [negb] in Hm'; [by apply Hnext|by eapply Hstop].
Qed.

Lemma isfree_spec s n q z :
  uv_ok s n → hpage q → 0 <= z < MAXMALLOC → z mod 4 = 0 →
  ∃ b : bool, isfree (q * PGSIZE) (z + 4) s = (Ret b, s) ∧
    (b = true ↔ ∀ i, q <= i < q + npages z → i < HEND ∧ hmap s i = None).
Proof.
  intros Hok Hq Hz Hz4. unfold isfree. unfold hpage in Hq. unfold MAXMALLOC in Hz.
  rewrite u32_small by (hconst; lia).
  destruct (isfree_loop_spec s n (Z.to_nat ((z + 4) / PGSIZE + 2)) q (q * PGSIZE + (z + 4)) Hok) as (b & Hrun & Hb);
    [lia|hconst; lia|hconst; lia|hconst; Z.to_euclidean_division_equations; lia|].
  exists b. split; [exact Hrun|]. rewrite Hb. unfold npages.
  assert (Heq : ∀ i, q <= i → (i * PGSIZE < q * PGSIZE + (z + 4) ↔ i < q + ((z + 3) / PGSIZE + 1))).
  { intros i Hi. hconst. Z.to_euclidean_division_equations. lia. }
  split; intros Hall i Hi; [apply Hall; [lia|]; apply Heq; lia|]. intros Hie. apply Hall. split; [done|]. by apply Heq.
Qed.

(** The pages from [q] on are free for [z] bytes. *)
Definition free_run_at (s : S) (q z : Z) : Prop :=
  hpage q ∧ ∀ i, q <= i < q + npages z → i < HEND ∧ hmap s i = None.

(** The search, at page [q], having wrapped [w] times, ends; it fails only if
    there is no free run. *)
Lemma find_space_spec s n z fuel q w :
  uv_ok s n → hpage q → 0 <= z < MAXMALLOC → z mod 4 = 0 →
  (w = 0 ∨ w = 1 ∧ ∀ q0, q0 < q → ¬ free_run_at s q0 z) →
  Z.of_nat fuel > (HEND - q) + (1 - w) * (HEND - HBEGIN) →
  ∃ (b : bool) q', find_space fuel (q * PGSIZE) w z s = (Ret (b, q' * PGSIZE), s) ∧ hpage q' ∧
    if b then free_run_at s q' z else q' = HBEGIN ∧ ∀ q0, ¬ free_run_at s q0 z.
Proof.
  intros Hok Hq Hz Hz4. revert q w Hq.
  induction fuel as [|fuel IH]; intros q w Hq Hw Hfuel; [unfold hpage in *; lia|].
  cbn [find_space]. destruct (isfree_spec s n q z Hok Hq Hz Hz4) as (b & Hrun & Hb). mrun (exact Hrun).
  destruct b; [exists true, q; split; [done|]; split; [done|]; split; [done|by apply Hb]|].
  assert (Hnot : ¬ free_run_at s q z) by (intros [_ Hr]; discriminate (proj2 Hb Hr)).
  assert (Hnext : w = 0 ∨ w = 1 ∧ ∀ q0, q0 < q + 1 → ¬ free_run_at s q0 z).
  { destruct Hw as [|[-> Hall]]; [by left|right]. split; [done|]. intros q0 Hlt.
    destruct (decide (q0 = q)) as [->|]; [done|]. apply Hall. lia. }
  unfold hpage in Hq. rewrite u32_small by (hconst; lia).
  replace (q * PGSIZE + PGSIZE) with ((q + 1) * PGSIZE) by lia.
  destruct (Z.eqb_spec ((q + 1) * PGSIZE) mend) as [He|He].
  - destruct Hnext as [->|[-> Hall]].
    + change (0 + 1 =? 2) with false. cbn iota. change mbegin with (HBEGIN * PGSIZE).
      apply IH; [unfold hpage; hconst; lia| |hconst; lia].
      right. split; [done|]. intros q0 Hlt [Hq0 _]. unfold hpage in Hq0. lia.
    + change (1 + 1 =? 2) with true. cbn iota. exists false, HBEGIN. split; [done|].
      split; [unfold hpage; hconst; lia|]. split; [done|]. intros q0 Hr. apply (Hall q0); [|done].
      destruct Hr as [Hq0 _]. unfold hpage in Hq0. hconst. lia.
  - apply IH; [unfold hpage; hconst; lia|done|lia].
Qed.

(** What mapping the first [j] pages of [q, ...] has done; [perm] are the
    permissions of each page. *)
Record pages_added (s s' : S) (perm : Z → Z) (q j : Z) : Prop := {
  pa_same : uv_same s s';
  pa_env : uv_same_env s s';
  pa_free : uv_free s - 2 * j <= uv_free s';
  pa_old e pn : upn pn → ¬ (e = uv_self s ∧ q <= pn < q + j) → uv_map s' e pn = uv_map s e pn;
  pa_new p : q <= p < q + j → ∃ f, 0 <= f ∧ ¬ uv_mapped s f ∧ uv_map s' (uv_self s) p = Some (f * 4096 + perm p) ∧
    ∀ e pn t, upn pn → uv_map s' e pn = Some t → (e, pn) ≠ (uv_self s, p) → PGNUM t ≠ f;
  pa_kept g k : uv_mapped s g → 0 <= k < 4096 → uv_byte s' g k = uv_byte s g k;
}.

Lemma pages_added_refl s perm q : pages_added s s perm q 0.
Proof. split; try done; [lia|]. intros p Hp. lia. Qed.

(** A page mapped in [s] is mapped after pages are added. *)
Lemma pages_added_mapped s s' perm q j g :
  pages_added s s' perm q j → (∀ p, q <= p < q + j → hmap s p = None) → uv_mapped s g → uv_mapped s' g.
Proof.
  intros HA Hfree (e & pn & t & Hpn & Ht & Hg). exists e, pn, t. split_and!; try done.
  rewrite (pa_old _ _ _ _ _ HA) by (done || (intros [-> Hp]; rewrite Hfree in Ht; done)). done.
Qed.

Lemma pages_added_step s s1 s2 perm q j f n :
  pages_added s s1 perm q j → 0 <= q → 0 <= j → upn (q + j) → (∀ p, q <= p <= q + j → hmap s p = None) →
  (∀ p, 0 <= perm p < 4096) → uv_ok s1 n →
  uv_same s1 s2 → uv_same_env s1 s2 → uv_free s1 - 2 <= uv_free s2 → ¬ uv_mapped s1 f → 0 <= f →
  uv_update s1 s2 (uv_self s) (q + j) (Some (f * 4096 + perm (q + j))) → uv_kept s1 s2 →
  pages_added s s2 perm q (j + 1).
Proof.
  intros HA Hq Hj Hpn Hfree Hperm Hok Hsm Hen Hfr Hnew Hf HU HK.
  assert (Hnone : hmap s1 (q + j) = None).
  { rewrite (proj1 (pa_same _ _ _ _ _ HA)), (pa_old _ _ _ _ _ HA) by (done || lia). apply Hfree. lia. }
  rewrite (proj1 (pa_same _ _ _ _ _ HA)) in Hnone.
  assert (Hf0 : ¬ uv_mapped s f).
  { intros Hm. apply Hnew. eapply pages_added_mapped; [done| |done]. intros p Hp. apply Hfree. lia. }
  pose proof HA as [A1 A2 A3 A4 A5 A6]. split.
  - by eapply uv_same_trans.
  - intros e. by rewrite Hen.
  - lia.
  - intros e pn Hu Hn. rewrite HU by done. rewrite decide_False by lia. apply A4; [done|]. lia.
  - intros p Hp. destruct (decide (p = q + j)) as [->|Hne].
    + exists f. split; [done|]. split; [done|]. split; [rewrite HU by done; by rewrite decide_True|].
      intros e pn t Hu Ht Hd <-. rewrite HU in Ht by done.
      rewrite decide_False in Ht by naive_solver. apply Hnew. by exists e, pn, t.
    + destruct (A5 p ltac:(lia)) as (g & Hg & Hgm & Hgp & Hgu). exists g. split; [done|]. split; [done|].
      assert (Hup : upn p) by (unfold upn in *; lia).
      split; [rewrite HU by done; by rewrite decide_False by naive_solver|].
      intros e pn t Hu Ht Hd. rewrite HU in Ht by done. revert Ht.
      destruct (decide (e = uv_self s ∧ pn = q + j)) as [[-> ->]|]; [|intros Ht; exact (Hgu e pn t Hu Ht Hd)].
      intros [= <-]. rewrite pgnum_entry by done. intros ->. apply Hnew.
      rewrite <- (pgnum_entry g (perm p)) by done. exact (mapped_at _ _ _ _ Hup Hgp).
  - intros g k Hm Hk. rewrite <- A6 by done. apply HK; [| |done].
    + eapply pages_added_mapped; [done| |done]. intros p Hp. apply Hfree. lia.
    + destruct Hm as (e & pn & t & Hu & Ht & Hg). exists e, pn, t. split_and!; try done.
      rewrite HU by done. rewrite decide_False by (intros [-> ->]; rewrite Hfree in Ht; [done|lia]).
      rewrite A4; [done|done|]. intros [-> Hp]. rewrite Hfree in Ht; [done|lia].
Qed.

Definition heap_perm (q z p : Z) : Z := if p + 1 <? q + npages z then 0x207 else 7.

Lemma alloc_pages_spec s n q z fuel j s1 :
  hpage q → 0 <= z < MAXMALLOC → z mod 4 = 0 → (∀ i, q <= i < q + npages z → i < HEND ∧ hmap s i = None) →
  0 <= j <= npages z → Z.of_nat fuel > npages z - j →
  uv_ok s1 (n + (npages z - j)) → 2 * (npages z - j) <= uv_free s1 → uv_name s 0 = Some (uv_self s) →
  pages_added s s1 (heap_perm q z) q j →
  ∃ s', alloc_pages fuel (q * PGSIZE) (j * PGSIZE) z s1 = (Ret (Some (npages z * PGSIZE)), s') ∧
    uv_ok s' n ∧ pages_added s s' (heap_perm q z) q (npages z).
Proof.
  intros Hq Hz Hz4 Hfree. revert j s1.
  induction fuel as [|fuel IH]; intros j s1 Hj Hfuel Hok Hmem Hname HA; [lia|].
  cbn [alloc_pages]. assert (Hcond : j * PGSIZE < z + 4 ↔ j < npages z).
  { unfold npages. hconst. Z.to_euclidean_division_equations. lia. }
  destruct (Z.ltb_spec (j * PGSIZE) (z + 4)) as [Hlt|Hge].
  2: { assert (j = npages z) as -> by lia. exists s1. split; [done|]. by replace (n + _) with n in Hok by lia. }
  assert (Hin : hpage (q + j)) by (unfold hpage in *; destruct (Hfree (q + j)); lia).
  assert (Hp : Z.lor (Z.lor (Z.lor PTE_P PTE_U) PTE_W) (if j * PGSIZE + PGSIZE <? z + 4 then PTE_CONTINUED else 0) =
    heap_perm q z (q + j)).
  { unfold heap_perm. replace (j * PGSIZE + PGSIZE <? z + 4) with (q + j + 1 <? q + npages z); [by case_match|].
    apply Z.b2z_inj. assert (Hc : j * PGSIZE + PGSIZE < z + 4 ↔ q + j + 1 < q + npages z).
    { unfold npages. hconst. Z.to_euclidean_division_equations. lia. }
    destruct (Z.ltb_spec (q + j + 1) (q + npages z)), (Z.ltb_spec (j * PGSIZE + PGSIZE) (z + 4)); lia. }
  rewrite Hp. rewrite u32_small by (unfold hpage in Hin; hconst; lia).
  replace (q * PGSIZE + j * PGSIZE) with ((q + j) * PGSIZE) by lia.
  destruct (uv_alloc s1 (n + (npages z - (j + 1))) 0 (uv_self s) (q + j) (heap_perm q z (q + j)))
    as (s2 & f & Hrun & Hok2 & Hsm & Hen & Hfr & Hnew & Hf & HU & Hzero & HK).
  - by replace (n + (npages z - (j + 1)) + 1) with (n + (npages z - j)) by lia.
  - by rewrite (proj1 (proj2 (pa_same _ _ _ _ _ HA))).
  - by apply hpage_upn.
  - unfold heap_perm. by destruct (q + j + 1 <? q + npages z).
  - lia.
  - mrun (exact Hrun). cbn [Z.ltb Z.compare]. replace (j * PGSIZE + PGSIZE) with ((j + 1) * PGSIZE) by lia.
    apply IH; [lia|lia|done|lia|done|].
    eapply (pages_added_step s s1 s2); try done; [unfold hpage in Hq; hconst; lia|lia|by apply hpage_upn| |].
    + intros p Hp'. apply Hfree. lia.
    + intros p. unfold heap_perm. destruct (p + 1 <? q + npages z); lia.
Qed.

(** ** [free]: the pages marked [PTE_CONTINUED] from [q] to [h] go, and the
    count in page [h] is decremented. *)
Record pages_removed (s s' : S) (R : Z → Prop) : Prop := {
  pr_same : uv_same s s';
  pr_env : uv_same_env s s';
  pr_free : uv_free s <= uv_free s';
  pr_old e pn : upn pn → ¬ (e = uv_self s ∧ R pn) → uv_map s' e pn = uv_map s e pn;
  pr_gone p : upn p → R p → uv_map s' (uv_self s) p = None;
  pr_kept : uv_kept s s';
}.

Lemma pages_removed_mapped s s' R g : pages_removed s s' R → uv_mapped s' g → uv_mapped s g.
Proof.
  intros HR (e & pn & t & Hpn & Ht & Hg). exists e, pn, t. split_and!; try done.
  rewrite (pr_old _ _ _ HR) in Ht; [done|done|]. intros [-> Hp].
  by rewrite (pr_gone _ _ _ HR pn Hpn Hp) in Ht.
Qed.

Lemma pages_removed_step s s1 s2 (R R' : Z → Prop) p n :
  pages_removed s s1 R → upn p → uv_ok s1 n → uv_name s 0 = Some (uv_self s) → (∀ x, R' x ↔ R x ∨ x = p) →
  sys_page_unmap 0 (p * PGSIZE) s1 = (Ret 0, s2) →
  uv_same s1 s2 → uv_same_env s1 s2 → uv_free s1 <= uv_free s2 →
  uv_update s1 s2 (uv_self s) p None → uv_kept s1 s2 → pages_removed s s2 R'.
Proof.
  intros HR Hp Hok Hname HR' _ Hsm Hen Hfr HU HK. pose proof HR as [R1 R2 R3 R4 R5 R6].
  assert (Hback : ∀ g, uv_mapped s2 g → uv_mapped s1 g).
  { intros g (e & pn & t & Hpn & Ht & Hg). exists e, pn, t. split_and!; try done.
    rewrite HU in Ht by done. by destruct (decide (e = uv_self s ∧ pn = p)). }
  split.
  - by eapply uv_same_trans.
  - intros e. by rewrite Hen.
  - lia.
  - intros e pn Hpn Hn. rewrite HU by done. rewrite decide_False by naive_solver. apply R4; naive_solver.
  - intros x Hx [Hr| ->]%HR'; rewrite HU by done; [|by rewrite decide_True].
    destruct (decide (uv_self s = uv_self s ∧ x = p)); [done|]. by apply R5.
  - intros g k Hg Hg2 Hk. rewrite (HK g k); [|by apply Hback|done|done].
    apply R6; [done|by apply Hback|done].
Qed.

Lemma free_continued_spec s n q h th fuel j s1 :
  hpage q → hpage h → q <= j <= h → uv_name s 0 = Some (uv_self s) →
  (∀ p, q <= p < h → ∃ t, hmap s p = Some t ∧ flag t PTE_CONTINUED = true) →
  hmap s h = Some th → flag th PTE_CONTINUED = false → Z.of_nat fuel > h - j →
  uv_ok s1 n → pages_removed s s1 (λ p, q <= p < j) →
  ∃ s', free_continued fuel (j * PGSIZE) s1 = (Ret (h * PGSIZE), s') ∧ uv_ok s' n ∧
    pages_removed s s' (λ p, q <= p < h).
Proof.
  intros Hq Hh Hj Hname Hcont Hth Hnc. revert j s1 Hj.
  induction fuel as [|fuel IH]; intros j s1 Hj Hfuel Hok HR; [lia|].
  assert (Hpj : hpage j) by (unfold hpage in *; lia). pose proof (hpage_upn j Hpj) as Hu.
  cbn [free_continued]. destruct (upn_index j Hu) as [_ ->].
  assert (Hm : hmap s1 j = hmap s j).
  { rewrite (proj1 (pr_same _ _ _ HR)). apply (pr_old _ _ _ HR); [done|lia]. }
  assert (Hrun : ∀ t, hmap s j = Some t → uvpt j s1 = (Ret t, s1)).
  { intros t Ht. by destruct (uvpt_mapped s1 n j t Hok Hu ltac:(congruence)) as (d & _ & _ & ? & _). }
  destruct (decide (j = h)) as [->|Hne].
  - mrun (by apply Hrun). unfold flag in Hnc. apply negb_false_iff in Hnc. rewrite Hnc. by exists s1.
  - destruct (Hcont j ltac:(lia)) as (t & Ht & Hc). mrun (by apply Hrun). unfold flag in Hc.
    apply negb_true_iff in Hc. rewrite Hc.
    destruct (uv_unmap s1 n 0 (uv_self s) j Hok) as (s2 & R2 & Hok2 & Hsm & Hen & Hfr & HU & HK);
      [by rewrite (proj1 (proj2 (pr_same _ _ _ HR)))|done|].
    mrun (exact R2). unfold hpage in *. rewrite u32_small by (hconst; lia).
    replace (j * PGSIZE + PGSIZE) with ((j + 1) * PGSIZE) by lia.
    assert (Has : (mbegin <=? (j + 1) * PGSIZE) && ((j + 1) * PGSIZE <? mend) = true).
    { apply andb_true_iff. rewrite Z.leb_le, Z.ltb_lt. hconst. lia. }
    rewrite Has. cbn [uassert]. mstep. apply IH; [lia|lia|done|].
    eapply (pages_removed_step s s1 s2 _ _ j n); try done. intros x. cbn beta. lia.
Qed.

Lemma word_bound s n g k : uv_ok s n → 0 <= uv_word s g k < 2 ^ 32.
Proof.
  intros Hok. unfold uv_word.
  pose proof (uv_bytes s n g k Hok) as B0. pose proof (uv_bytes s n g (k + 1) Hok) as B1.
  pose proof (uv_bytes s n g (k + 2) Hok) as B2. pose proof (uv_bytes s n g (k + 3) Hok) as B3.
  unfold is_u8 in *. lia.
Qed.

(** The bytes after a store of [v] in the count of frame [g]. *)
Definition count_set (s s' : S) (g v : Z) : Prop :=
  ∀ g' k, 0 <= k < 4096 → uv_byte s' g' k =
    if decide (g' = g ∧ 4092 <= k) then u8 (Z.shiftr v (8 * (k - 4092))) else uv_byte s g' k.

Lemma word_of_bytes s' g v :
  is_u32 v → (∀ k, 4092 <= k < 4096 → uv_byte s' g k = u8 (Z.shiftr v (8 * (k - 4092)))) → uv_word s' g 4092 = v.
Proof.
  intros Hv HC. apply word_stored; [done|]. intros i Hi. rewrite HC by lia. by rewrite Z.add_simpl_l.
Qed.

Lemma count_set_word s s' g v : is_u32 v → count_set s s' g v → uv_word s' g 4092 = v.
Proof.
  intros Hv HC. apply word_of_bytes; [done|]. intros k Hk. rewrite HC by lia. by rewrite decide_True by lia.
Qed.

Lemma set_count s n h th v :
  uv_ok s n → hpage h → hmap s h = Some th → flag th PTE_U = true → flag th PTE_W = true →
  ∃ s', ustore32 (h * PGSIZE + 4092) v s = (Ret tt, s') ∧ uv_quiet n s s' ∧ count_set s s' (PGNUM th) v.
Proof.
  intros Hok Hh Hm HU HW. destruct (ustore32_eq s n h 4092 th v) as (s' & Hrun & Hq & HB);
    try done; [by apply hpage_upn|].
  exists s'. split; [done|]. split; [done|]. intros g k Hk. rewrite HB by done.
  destruct (decide (g = PGNUM th ∧ 4092 <= k)) as [[??]|Hn]; [by rewrite decide_True by lia|].
  by rewrite decide_False by lia.
Qed.

(** The state after the count of page [h], [w], has been decremented. *)
Definition count_dropped (s s' : S) (h th w : Z) : Prop :=
  (∀ e pn, upn pn → uv_map s' e pn = if decide (e = uv_self s ∧ pn = h ∧ w = 1) then None else uv_map s e pn) ∧
  (∀ g k, uv_mapped s' g → 0 <= k < 4096 → uv_byte s' g k =
     if decide (g = PGNUM th ∧ 4092 <= k) then u8 (Z.shiftr (w - 1) (8 * (k - 4092))) else uv_byte s g k).

Lemma free_ref_spec s n h th :
  uv_ok s n → hpage h → hmap s h = Some th → flag th PTE_U = true → flag th PTE_W = true →
  let w := uv_word s (PGNUM th) 4092 in 1 <= w →
  ∃ s', free_ref (h * PGSIZE) s = (Ret tt, s') ∧ uv_ok s' n ∧ uv_same s s' ∧ uv_same_env s s' ∧
    uv_free s <= uv_free s' ∧ count_dropped s s' h th w.
Proof.
  intros Hok Hh Hth HU HW w Hw. pose proof (word_bound s n (PGNUM th) 4092 Hok) as Hwb. fold w in Hwb.
  pose proof (hpage_upn h Hh) as Hu. unfold free_ref.
  replace (u32 (h * PGSIZE + PGSIZE - 4)) with (h * PGSIZE + 4092) by (rewrite u32_small; unfold hpage in Hh; hconst; lia).
  mrun (by apply (uload32_eq s n h 4092 th)). fold w. rewrite u32_small by lia.
  destruct (set_count s n h th (w - 1)) as (s2 & R2 & Q2 & C2); try done. mrun (exact R2).
  pose proof Q2 as (Hok2 & Sm2 & En2 & Fr2 & M2).
  mrun (apply (uload32_eq s2 n h 4092 th); try done; by rewrite (proj1 Sm2), M2).
  rewrite (count_set_word s s2 (PGNUM th) (w - 1)) by (done || (unfold is_u32; lia)).
  destruct (Z.eqb_spec (w - 1) 0) as [Hw0|Hw0].
  - destruct (uv_unmap s2 n 0 (uv_self s) h Hok2) as (s3 & R3 & Hok3 & Sm3 & En3 & Fr3 & U3 & K3);
      [rewrite (proj1 (proj2 Sm2)); by eapply uv_self_name|done|].
    mrun (exact R3). exists s3. split; [done|]. split; [done|]. split; [by eapply uv_same_trans|].
    split; [intros e; by rewrite En3|]. split; [lia|]. split.
    + intros e pn Hpn. rewrite U3, M2 by done. destruct (decide (e = uv_self s ∧ pn = h)) as [[-> ->]|Hd].
      * by rewrite decide_True by (split_and!; [done|done|lia]).
      * by rewrite decide_False by naive_solver.
    + intros g k Hg Hk. rewrite (K3 g k); [by apply C2| |done|done].
      destruct Hg as (e & pn & t & Hpn & Ht & <-). exists e, pn, t. rewrite U3 in Ht by done.
      by destruct (decide (e = uv_self s ∧ pn = h)).
  - exists s2. split; [done|]. split; [done|]. split; [done|]. split; [done|]. split; [lia|]. split.
    + intros e pn Hpn. rewrite M2 by done. by rewrite decide_False by lia.
    + intros g k _ Hk. by apply C2.
Qed.

Lemma free_run s n v h th :
  uv_ok s n → hpage (v / PGSIZE) → v / PGSIZE <= h → hpage h →
  (∀ p, v / PGSIZE <= p < h → ∃ t, hmap s p = Some t ∧ flag t PTE_CONTINUED = true) →
  hmap s h = Some th → flag th PTE_CONTINUED = false → flag th PTE_U = true → flag th PTE_W = true →
  1 <= uv_word s (PGNUM th) 4092 →
  ∃ s1 s', free v s = (Ret tt, s') ∧ uv_ok s' n ∧ uv_same s s' ∧ uv_same_env s s' ∧ uv_free s <= uv_free s' ∧
    pages_removed s s1 (λ p, v / PGSIZE <= p < h) ∧ count_dropped s1 s' h th (uv_word s (PGNUM th) 4092).
Proof.
  intros Hok Hq Hqh Hh Hcont Hth Hnc HU HW Hw. unfold free.
  assert (Hv : mbegin <= v < mend) by (unfold hpage in Hq; hconst; Z.to_euclidean_division_equations; lia).
  assert (v =? 0 = false) as -> by (hconst; lia).
  assert ((mbegin <=? v) && (v <? mend) = true) as -> by (rewrite andb_true_iff, Z.leb_le, Z.ltb_lt; lia).
  cbn [uassert]. mstep. destruct (ROUNDDOWN_spec v PGSIZE) as [-> _]; [unfold is_u32; hconst; lia|done|].
  rewrite (Z.mul_comm PGSIZE). set (q := v / PGSIZE) in *.
  destruct (free_continued_spec s n q h th (Z.to_nat ((mend - mbegin) / PGSIZE + 1)) q s) as (s1 & R1 & Hok1 & HR1);
    try done; [by eapply uv_self_name|
      unfold hpage in *; hconst; change ((0x10000000 - 0x8000000) / 4096) with 0x8000; lia| |].
  { split; try done; intros p ?; cbn beta; lia. }
  mrun (exact R1). pose proof (hpage_upn h Hh) as Hu. pose proof HR1 as [P1 P2 P3 P4 P5 P6].
  assert (Hm1 : hmap s1 h = Some th) by (rewrite (proj1 P1), P4; [done|done|lia]).
  assert (Hw1 : uv_word s1 (PGNUM th) 4092 = uv_word s (PGNUM th) 4092).
  { pose proof (mapped_at _ _ _ _ Hu Hm1). pose proof (mapped_at _ _ _ _ Hu Hth).
    unfold uv_word. by rewrite !(P6 (PGNUM th)) by (done || lia). }
  destruct (free_ref_spec s1 n h th) as (s2 & R2 & Hok2 & Sm2 & En2 & Fr2 & HD); try done; [by rewrite Hw1|].
  rewrite Hw1 in HD. exists s1, s2. split; [exact R2|]. split; [done|]. split; [by eapply uv_same_trans|].
  split; [intros e; by rewrite En2|]. split; [lia|]. done.
Qed.
End loops.
