(* ===== verification/MallocHeap.v ===== *)
(** * The heap of [lib/malloc.c]

    The invariant [heap_ok s m bs] relates the machine, [mptr] and the list of
    blocks in use, and [malloc] and [free] preserve it. *)

From S2P Require Import Prelude Mmu Console KState AddrSpace Syscall SyscallSpec UserLib UserVm Malloc MallocSpec.
Open Scope Z_scope.

(** A block: address and size.  Its count is in the page where it ends. *)
Abbreviation block := (Z * Z)%type.
Definition home (b : block) : Z := (b.1 + b.2) / PGSIZE.
Definition separate (b c : block) : Prop := b.1 + b.2 <= c.1 ∨ c.1 + c.2 <= b.1.

Fixpoint pairwise (bs : list block) : Prop :=
  match bs with
  | [] => True
  | b :: bs => Forall (separate b) bs ∧ pairwise bs
  end.

Lemma separate_sym b c : separate b c → separate c b.
Proof. unfold separate. tauto. Qed.

Lemma pairwise_perm bs bs' : bs ≡ₚ bs' → pairwise bs → pairwise bs'.
Proof.
  induction 1 as [|x l l' Hp IH|x y l|l1 l2 l3 H1 IH1 H2 IH2]; cbn [pairwise]; [done|..].
  - intros [HF Hl]. split; [by rewrite <- Hp|auto].
  - intros ([Hxy HF]%Forall_cons & HG & Hl). split_and!; [|done..]. apply Forall_cons. split; [by apply separate_sym|done].
  - auto.
Qed.

(** The number of blocks that end in page [p]; whether [mptr] is filling it. *)
Definition cnt (bs : list block) (p : Z) : Z := Z.of_nat (length (filter (λ b, home b = p) bs)).
Definition cur (m p : Z) : Z := if decide (m mod PGSIZE ≠ 0 ∧ m / PGSIZE = p) then 1 else 0.

Lemma cnt_cons b bs p : cnt (b :: bs) p = (if decide (home b = p) then 1 else 0) + cnt bs p.
Proof.
  unfold cnt. rewrite filter_cons. destruct (decide (home b = p)); cbn [length]; lia.
Qed.

Lemma cnt_perm bs bs' p : bs ≡ₚ bs' → cnt bs p = cnt bs' p.
Proof. intros Hp. unfold cnt. by rewrite Hp. Qed.

Lemma cnt_pos b bs : b ∈ bs → 1 <= cnt bs (home b).
Proof.
  intros Hin. induction Hin as [bs|b c bs Hin IH]; rewrite cnt_cons; [rewrite decide_True by done; unfold cnt; lia|].
  destruct (decide _); lia.
Qed.

Lemma cnt_bound bs p : 0 <= cnt bs p <= Z.of_nat (length bs).
Proof. unfold cnt. pose proof (length_filter (λ b, home b = p) bs). lia. Qed.

Lemma cur_aligned m p : m mod PGSIZE = 0 → cur m p = 0.
Proof. intros Hm. unfold cur. by rewrite decide_False by tauto. Qed.

Section heap.
Context {S : Type} `{UserVm S}.
Implicit Types s : S.

Abbreviation hmap s pn := (uv_map s (uv_self s) pn).

(** Page [p] holds pieces of blocks, and a count; or the inside of one block. *)
Definition counted (s : S) (p : Z) : Prop := ∃ t, hmap s p = Some t ∧ flag t PTE_CONTINUED = false.
Definition inside (s : S) (p : Z) : Prop := ∃ t, hmap s p = Some t ∧ flag t PTE_CONTINUED = true.

Record block_ok (s : S) (b : block) : Prop := {
  bk_size : 0 <= b.2 ∧ b.1 mod 4 = 0 ∧ b.2 mod 4 = 0;
  bk_range : mbegin <= b.1 ∧ b.1 + b.2 < mend;
  bk_start : b.1 / PGSIZE < home b → b.1 mod PGSIZE = 0;
  bk_inside p : b.1 / PGSIZE <= p < home b → inside s p;
  bk_home : counted s (home b);
}.

Record heap_ok (s : S) (m : Z) (bs : list block) : Prop := {
  hk_ptr : m mod 4 = 0 ∧ mbegin <= m < mend;
  hk_pages p t : hpage p → hmap s p = Some t → flag t PTE_U = true ∧ flag t PTE_W = true;
  hk_frames p1 p2 t1 t2 : hpage p1 → hpage p2 → hmap s p1 = Some t1 → hmap s p2 = Some t2 →
    PGNUM t1 = PGNUM t2 → p1 = p2;
  hk_refs p t : hpage p → hmap s p = Some t → flag t PTE_CONTINUED = false →
    cnt bs p + cur m p <= uv_word s (PGNUM t) 4092 <= cnt bs p + cur m p + 1;
  hk_blocks b : b ∈ bs → block_ok s b;
  hk_pairs : pairwise bs;
  hk_cur : m mod PGSIZE ≠ 0 →
    counted s (m / PGSIZE) ∧ ∀ b, b ∈ bs → home b = m / PGSIZE → b.1 + b.2 <= m;
}.

(** The bytes of the blocks are where they were. *)
Definition blocks_kept (s s' : S) (bs : list block) : Prop :=
  ∀ b a, b ∈ bs → b.1 <= a < b.1 + b.2 → umem s' (uv_self s) a = umem s (uv_self s) a.

Lemma heap_ok_perm s m bs bs' : bs ≡ₚ bs' → heap_ok s m bs → heap_ok s m bs'.
Proof.
  intros Hp [H1 H2 H3 H4 H5 H6 H7]. split; [done|done|done|..].
  - intros p t. rewrite <- !(cnt_perm bs bs') by done. apply H4.
  - intros b Hb. apply H5. by rewrite Hp.
  - by eapply pairwise_perm.
  - intros Hm. destruct (H7 Hm) as [? Hall]. split; [done|]. intros b Hb. apply Hall. by rewrite Hp.
Qed.

Lemma inside_counted s p : inside s p → counted s p → False.
Proof. intros (t & Ht & Hc) (t' & Ht' & Hc'). congruence. Qed.

Lemma block_pages s b p : block_ok s b → b.1 / PGSIZE <= p <= home b → hpage p.
Proof.
  intros [(?&?&?) (?&?) _ _ _] Hp. unfold home, hpage in *. hconst. Z.to_euclidean_division_equations. lia.
Qed.

Lemma block_mapped s b p : block_ok s b → b.1 / PGSIZE <= p <= home b → ∃ t, hmap s p = Some t.
Proof.
  intros [_ _ _ B4 B5] Hp. destruct (decide (p = home b)) as [->|].
  - destruct B5 as (t & ? & _). by exists t.
  - destruct (B4 p ltac:(lia)) as (t & ? & _). by exists t.
Qed.

Lemma block_addr s b a :
  block_ok s b → b.1 <= a < b.1 + b.2 →
  PGNUM a = a / PGSIZE ∧ b.1 / PGSIZE <= a / PGSIZE <= home b ∧ (a / PGSIZE = home b → a mod 4096 < 4092).
Proof.
  intros [(?&?&?) (?&?) _ _ _] Ha. rewrite PGNUM_div. unfold home in *. hconst.
  split; [Z.to_euclidean_division_equations; lia|]. split; Z.to_euclidean_division_equations; lia.
Qed.

Lemma blocks_kept_intro s s' m bs bs' :
  heap_ok s m bs → (∀ b, b ∈ bs' → b ∈ bs) →
  (∀ b p, b ∈ bs' → b.1 / PGSIZE <= p <= home b → uv_map s' (uv_self s) p = hmap s p) →
  (∀ b p t k, b ∈ bs' → b.1 / PGSIZE <= p <= home b → hmap s p = Some t → 0 <= k < 4096 →
     (p = home b → k < 4092) → uv_byte s' (PGNUM t) k = uv_byte s (PGNUM t) k) →
  blocks_kept s s' bs'.
Proof.
  intros Hh Hsub Hmap Hbyte b a Hb Ha.
  destruct (block_addr s b a (hk_blocks _ _ _ Hh b (Hsub b Hb)) Ha) as (Hpg & Hp & Hk).
  unfold umem. rewrite Hpg, (Hmap b) by done. destruct (hmap s (a / PGSIZE)) as [t|] eqn:Ht; [|done].
  apply f_equal. eapply Hbyte; try done. apply Z.mod_pos_bound. lia.
Qed.

(** ** A count drops *)
Section drop.
Context (s s1 s' : S) (m : Z) (bs : list block) (lo h th : Z).
Context (m' : Z) (bs' : list block).
Let w := uv_word s (PGNUM th) 4092.
Context (Hheap : heap_ok s m bs) (Hself : uv_self s' = uv_self s) (Hw : 1 <= w < 2 ^ 32).
Context (Hrem : pages_removed s s1 (λ p, lo <= p < h)) (Hdrop : count_dropped s1 s' h th w).
Context (Hh : hpage h) (Hth : hmap s h = Some th) (Hnc : flag th PTE_CONTINUED = false).
Context (Hins : ∀ p, lo <= p < h → inside s p).
Context (Hptr : m' mod 4 = 0 ∧ mbegin <= m' < mend) (Hm' : m' mod PGSIZE ≠ 0 → m' = m).
Context (Hsub : ∀ b, b ∈ bs' → b ∈ bs) (Hpairs : pairwise bs').
Context (Hcnt : ∀ p, cnt bs' p + cur m' p = cnt bs p + cur m p - if decide (p = h) then 1 else 0).
Context (Hout : ∀ b p, b ∈ bs' → b.1 / PGSIZE <= p < home b → ¬ lo <= p < h).

Lemma drop_map p : hpage p →
  hmap s' p = if decide (lo <= p < h ∨ p = h ∧ w = 1) then None else hmap s p.
Proof using Hself Hrem Hdrop.
  clear Hptr Hm' Hcnt Hw. intros Hp%hpage_upn. destruct Hdrop as [HM _], Hrem as [R1 R2 R3 R4 R5 R6].
  rewrite Hself, HM by done. rewrite (proj1 R1).
  destruct (decide (p = h ∧ w = 1)) as [Hc|Hc].
  { rewrite decide_True by done. by rewrite decide_True by tauto. }
  rewrite decide_False by tauto. destruct (decide (lo <= p < h)) as [Hr|Hr].
  - rewrite R5 by done. by rewrite decide_True by tauto.
  - rewrite R4 by tauto. by rewrite decide_False by tauto.
Qed.

Lemma drop_some p t : hpage p → hmap s' p = Some t → hmap s p = Some t ∧ (p = h → w ≠ 1).
Proof.
  intros Hp. rewrite drop_map by done. destruct (decide _); [done|]. intros ->. split; [done|]. tauto.
Qed.

Lemma drop_byte p t k : hpage p → hmap s' p = Some t → 0 <= k < 4096 →
  uv_byte s' (PGNUM t) k =
    if decide (p = h ∧ 4092 <= k) then u8 (Z.shiftr (w - 1) (8 * (k - 4092))) else uv_byte s (PGNUM t) k.
Proof.
  intros Hp Ht Hk. pose proof (hpage_upn p Hp) as Hu. destruct (drop_some p t Hp Ht) as [Hs _].
  assert (Hm1 : uv_mapped s' (PGNUM t)) by exact (mapped_at _ _ _ _ Hu Ht).
  destruct Hdrop as [HM HB]. rewrite HB by done.
  assert (Hiff : PGNUM t = PGNUM th ↔ p = h).
  { split; [by apply (hk_frames _ _ _ Hheap)|]. intros ->. congruence. }
  destruct (decide (p = h ∧ 4092 <= k)) as [[??]|Hd]; [by rewrite decide_True by tauto|].
  rewrite decide_False by tauto. apply (pr_kept _ _ _ Hrem); [exact (mapped_at _ _ _ _ Hu Hs)| |done].
  destruct Hm1 as (e & pn & t' & Hpn & Ht' & Hg). exists e, pn, t'. split; [done|]. split; [|done].
  rewrite HM in Ht' by done. by destruct (decide (e = uv_self s1 ∧ pn = h ∧ w = 1)).
Qed.

Lemma drop_counted p : counted s p → hpage p → 1 <= cnt bs' p + cur m' p → counted s' p.
Proof.
  intros (t & Ht & Hc) Hp H1. exists t. split; [|done]. rewrite drop_map by done.
  destruct (decide (lo <= p < h ∨ p = h ∧ w = 1)) as [[Hr|[-> Hw1]]|]; [..|done]; exfalso.
  - exact (inside_counted s p (Hins p Hr) (ex_intro _ t (conj Ht Hc))).
  - rewrite Hth in Ht. injection Ht as <-. specialize (Hcnt h). rewrite decide_True in Hcnt by done.
    pose proof (hk_refs _ _ _ Hheap h th Hh Hth Hc) as Hr. fold w in Hr. lia.
Qed.

Lemma drop_block_ok b : b ∈ bs' → block_ok s' b.
Proof.
  intros Hb. pose proof (hk_blocks _ _ _ Hheap b (Hsub b Hb)) as Hbk. pose proof Hbk as [B1 B2 B3 B4 B5].
  split; [done|done|done|..].
  - intros p Hp. destruct (B4 p Hp) as (t & Ht & Hc). exists t. split; [|done].
    rewrite drop_map by (eapply block_pages; [done|lia]). rewrite decide_False; [done|].
    intros [Hr|[-> _]]; [by eapply Hout|]. congruence.
  - apply drop_counted; [done|eapply block_pages; [done|]|].
    + unfold home. split; [apply Z.div_le_mono; [done|lia]|lia].
    + pose proof (cnt_pos b bs' Hb). assert (0 <= cur m' (home b)) by (unfold cur; case_match; lia). lia.
Qed.

Lemma heap_drop : heap_ok s' m' bs' ∧ blocks_kept s s' bs'.
Proof.
  pose proof Hheap as [K1 K2 K3 K4 K5 K6 K7]. split; [split|].
  - done.
  - intros p t Hp Ht. by apply (K2 p), drop_some.
  - intros p1 p2 t1 t2 Hp1 Hp2 [Ht1 _]%drop_some [Ht2 _]%drop_some Hg; [|done..].
    by apply (K3 p1 p2 t1 t2).
  - intros p t Hp Ht Hc. destruct (drop_some p t Hp Ht) as [Hs Hne]. specialize (K4 p t Hp Hs Hc). rewrite Hcnt.
    destruct (decide (p = h)) as [->|Hph].
    + rewrite Hth in Hs. injection Hs as <-. fold w in K4. rewrite (word_of_bytes s' (PGNUM th) (w - 1)); [lia|unfold is_u32; lia|].
      intros k Hk. rewrite (drop_byte h th) by (done || lia). by rewrite decide_True by lia.
    + assert (uv_word s' (PGNUM t) 4092 = uv_word s (PGNUM t) 4092) as ->; [|lia].
      unfold uv_word. rewrite !(drop_byte p t) by (done || lia). by rewrite !decide_False by tauto.
  - apply drop_block_ok.
  - done.
  - intros Hm. pose proof (Hm' Hm) as Em. rewrite Em in Hm |- *. destruct (K7 Hm) as [HC Hall]. split.
    + apply drop_counted; [done| |].
      * unfold hpage. destruct K1 as [_ ?]. hconst. Z.to_euclidean_division_equations. lia.
      * unfold cur. rewrite Em, decide_True by done. pose proof (cnt_bound bs' (m / PGSIZE)). lia.
    + intros b Hb. auto.
  - apply (blocks_kept_intro s s' m bs bs'); [done|done|..].
    + intros b p Hb Hp. pose proof (drop_block_ok b Hb) as Hbk. pose proof (block_pages _ _ _ Hbk Hp) as Hpg.
      destruct (block_mapped s' b p Hbk Hp) as [t Ht]. destruct (drop_some p t Hpg Ht) as [-> _].
      by rewrite Hself in Ht.
    + intros b p t k Hb Hp Ht Hk Hlt. pose proof (drop_block_ok b Hb) as Hbk.
      pose proof (block_pages _ _ _ Hbk Hp) as Hpg. destruct (block_mapped s' b p Hbk Hp) as [t' Ht'].
      destruct (drop_some p t' Hpg Ht') as [Hs _]. assert (t' = t) as -> by congruence.
      rewrite (drop_byte p t) by done. rewrite decide_False; [done|]. intros [-> Hk'].
      destruct (decide (h = home b)) as [Heq|]; [specialize (Hlt Heq); lia|].
      destruct (bk_inside _ _ Hbk h ltac:(lia)) as (t' & Ht'' & Hc'). congruence.
Qed.
End drop.

(** ** A block is added at [v], and [mptr] moves to its end *)
Section add.
Context (s s' : S) (m : Z) (bs : list block) (v z th : Z).
Let b : block := (v, z).
Let h := home b.
Context (Hheap : heap_ok s m bs) (Hself : uv_self s' = uv_self s).
Context (Hold : ∀ p t, hpage p → hmap s p = Some t → hmap s' p = Some t).
Context (Hnew : ∀ p t, hpage p → hmap s' p = Some t → hmap s p = Some t ∨
  flag t PTE_U = true ∧ flag t PTE_W = true ∧ (flag t PTE_CONTINUED = false → p = h) ∧
  ∀ p2 t2, hpage p2 → hmap s' p2 = Some t2 → PGNUM t2 = PGNUM t → p2 = p).
Context (Hbyte : ∀ p t k, hpage p → hmap s p = Some t → 0 <= k < 4096 → ¬ (p = h ∧ 4092 <= k) →
  uv_byte s' (PGNUM t) k = uv_byte s (PGNUM t) k).
Context (Hth : hmap s' h = Some th).
Context (Hw : cnt bs h + 1 + cur (v + z) h <= uv_word s' (PGNUM th) 4092 <= cnt bs h + 1 + cur (v + z) h + 1).
Context (Hcur : ∀ p, p ≠ h → cur m p = 0).
Context (Hb : block_ok s' b) (Hsep : Forall (separate b) bs).
Context (Hbelow : ∀ c, c ∈ bs → home c = h → c.1 + c.2 <= v).

Lemma add_inside p : inside s p → hpage p → inside s' p.
Proof. intros (t & Ht & Hc) Hp. exists t. auto. Qed.

Lemma add_counted p : counted s p → hpage p → counted s' p.
Proof. intros (t & Ht & Hc) Hp. exists t. auto. Qed.

Lemma add_block_ok c : c ∈ bs → block_ok s' c.
Proof.
  intros Hc. pose proof (hk_blocks _ _ _ Hheap c Hc) as Hbk. pose proof Hbk as [B1 B2 B3 B4 B5].
  split; [done|done|done|..].
  - intros p Hp. apply add_inside; [auto|]. eapply block_pages; [done|lia].
  - apply add_counted; [done|]. eapply block_pages; [done|].
    unfold home. split; [apply Z.div_le_mono; [done|lia]|lia].
Qed.

Lemma add_refs p t : hpage p → hmap s' p = Some t → flag t PTE_CONTINUED = false →
  cnt (b :: bs) p + cur (v + z) p <= uv_word s' (PGNUM t) 4092 <= cnt (b :: bs) p + cur (v + z) p + 1.
Proof.
  intros Hp Ht Hc. rewrite cnt_cons. fold h. destruct (decide (h = p)) as [<-|Hne].
  { rewrite Hth in Ht. injection Ht as <-. lia. }
  destruct (Hnew p t Hp Ht) as [Hs|(_ & _ & Hc' & _)]; [|by destruct Hne; rewrite Hc'].
  assert (Hm : cur (v + z) p = 0) by (unfold cur; by rewrite decide_False by (intros [_ Hx]; by apply Hne)).
  pose proof (hk_refs _ _ _ Hheap p t Hp Hs Hc) as Hr. rewrite (Hcur p) in Hr by done. rewrite Hm.
  assert (uv_word s' (PGNUM t) 4092 = uv_word s (PGNUM t) 4092) as ->; [|lia].
  unfold uv_word. by rewrite !(Hbyte p t) by (done || lia || (intros [-> _]; by apply Hne)).
Qed.

Lemma heap_add : heap_ok s' (v + z) (b :: bs) ∧ blocks_kept s s' bs.
Proof.
  pose proof Hheap as [K1 K2 K3 K4 K5 K6 K7]. pose proof Hb as [(B1 & B2 & B2') [B3 B3'] B4 B5 B6]. cbn [fst snd b] in *.
  split; [split|].
  - split; [Z.to_euclidean_division_equations; lia|lia].
  - intros p t Hp Ht. destruct (Hnew p t Hp Ht) as [Hs|(HU & HW & _)]; [by apply (K2 p)|done].
  - intros p1 p2 t1 t2 Hp1 Hp2 Ht1 Ht2 Hg.
    destruct (Hnew p1 t1 Hp1 Ht1) as [Hs1|(_ & _ & _ & Hu)]; [|symmetry; by apply (Hu p2 t2)].
    destruct (Hnew p2 t2 Hp2 Ht2) as [Hs2|(_ & _ & _ & Hu)]; [|by apply (Hu p1 t1)].
    by apply (K3 p1 p2 t1 t2).
  - apply add_refs.
  - intros c [->|Hc]%elem_of_cons; [done|by apply add_block_ok].
  - done.
  - intros Hm. split; [exact B6|]. intros c [->|Hc]%elem_of_cons Hh; [done|].
    specialize (Hbelow c Hc Hh). lia.
  - apply (blocks_kept_intro s s' m bs bs); [done|done|..].
    + intros c p Hc Hp. pose proof (K5 c Hc) as Hbk. pose proof (block_pages _ _ _ Hbk Hp) as Hpg.
      destruct (block_mapped s c p Hbk Hp) as [t Ht]. rewrite Ht, <- Hself. by apply Hold.
    + intros c p t k Hc Hp Ht Hk Hlt. pose proof (K5 c Hc) as Hbk. pose proof (block_pages _ _ _ Hbk Hp) as Hpg.
      apply (Hbyte p); [done..|]. intros [-> Hk'].
      destruct (decide (h = home c)) as [Heq|]; [specialize (Hlt Heq); lia|].
      apply (inside_counted s' h); [|exact B6]. apply add_inside; [|done]. apply (bk_inside _ _ Hbk). lia.
Qed.
End add.

(** ** [malloc] *)

Lemma cnt_zero bs p : (∀ c, c ∈ bs → home c ≠ p) → cnt bs p = 0.
Proof.
  intros Hne. induction bs as [|c bs IH]; [done|]. rewrite cnt_cons, decide_False by (apply Hne; left).
  apply IH. intros c' Hc'. apply Hne. by right.
Qed.

Lemma run_home q z : 0 <= z → z mod 4 = 0 → home (q * PGSIZE, z) = q + npages z - 1.
Proof.
  intros Hz Hz4. unfold home, npages. cbn [fst snd]. hconst. Z.to_euclidean_division_equations. lia.
Qed.

Lemma run_separate s m bs q z :
  heap_ok s m bs → free_run_at s q z → 0 <= z → z mod 4 = 0 →
  Forall (separate (q * PGSIZE, z)) bs ∧ ∀ c, c ∈ bs → home c ≠ home (q * PGSIZE, z).
Proof.
  intros Hh [Hq Hfree] Hz Hz4. pose proof (run_home q z Hz Hz4) as Hhome.
  assert (Hclash : ∀ c p, c ∈ bs → c.1 / PGSIZE <= p <= home c → q <= p < q + npages z → False).
  { intros c p Hc Hp Hr. destruct (block_mapped s c p (hk_blocks _ _ _ Hh c Hc) Hp) as [t Ht].
    destruct (Hfree p Hr). congruence. }
  assert (Hord : ∀ c, c ∈ bs → c.1 / PGSIZE <= home c).
  { intros c Hc. destruct (hk_blocks _ _ _ Hh c Hc) as [(?&_) _ _ _ _]. unfold home. apply Z.div_le_mono; [done|lia]. }
  split.
  - apply Forall_forall. intros c Hc. unfold separate. cbn [fst snd].
    destruct (decide (q * PGSIZE + z <= c.1)) as [|H1]; [by left|].
    destruct (decide (c.1 + c.2 <= q * PGSIZE)) as [|H2]; [by right|]. exfalso. specialize (Hord c Hc).
    apply (Hclash c (Z.max (c.1 / PGSIZE) q) Hc).
    + split; [lia|]. apply Z.max_lub; [done|]. unfold home. hconst. Z.to_euclidean_division_equations. lia.
    + unfold npages. hconst. Z.to_euclidean_division_equations. lia.
  - intros c Hc Heq. apply (Hclash c (home c) Hc); [specialize (Hord c Hc); lia|]. rewrite Heq, Hhome.
    unfold npages. hconst. Z.to_euclidean_division_equations. lia.
Qed.

Lemma heap_perm_flags f q z p :
  let t := f * 4096 + heap_perm q z p in
  flag t PTE_U = true ∧ flag t PTE_W = true ∧ PGNUM t = f ∧
  flag t PTE_CONTINUED = (p + 1 <? q + npages z).
Proof.
  cbv zeta. assert (Hb : 0 <= heap_perm q z p < 4096) by (unfold heap_perm; case_match; lia).
  change PTE_U with (2 ^ 2). change PTE_W with (2 ^ 1). change PTE_CONTINUED with (2 ^ 9).
  rewrite !flag_frame by (done || lia). rewrite pgnum_entry by done. unfold heap_perm.
  by destruct (p + 1 <? q + npages z).
Qed.

(** Fresh pages for a block, and the count in the last. *)
Section fresh.
Context (s s1 s2 : S) (m : Z) (bs : list block) (q z th n : Z).
Let h := home (q * PGSIZE, z).
Context (Hheap : heap_ok s m bs) (Hm : m mod PGSIZE = 0) (Hz : 0 <= z < MAXMALLOC) (Hz4 : z mod 4 = 0).
Context (Hrun : free_run_at s q z) (HA : pages_added s s1 (heap_perm q z) q (npages z)).
Context (Hth : uv_map s1 (uv_self s) h = Some th).
Context (HQ : uv_quiet n s1 s2) (HC : count_set s1 s2 (PGNUM th) 2).

Lemma fresh_map p : hpage p → hmap s2 p = uv_map s1 (uv_self s) p.
Proof.
  intros Hp%hpage_upn. destruct HQ as (_ & (Hs & _) & _ & _ & HM). rewrite Hs, (proj1 (pa_same _ _ _ _ _ HA)).
  by apply HM.
Qed.

Lemma fresh_old p : hpage p → ¬ (q <= p < q + npages z) → hmap s2 p = hmap s p.
Proof.
  intros Hp Hn. rewrite fresh_map by done. apply (pa_old _ _ _ _ _ HA); [by apply hpage_upn|]. tauto.
Qed.

Lemma fresh_new p : q <= p < q + npages z → ∃ t, hmap s2 p = Some t ∧ flag t PTE_U = true ∧ flag t PTE_W = true ∧
  flag t PTE_CONTINUED = (p + 1 <? q + npages z) ∧ ¬ uv_mapped s (PGNUM t) ∧
  ∀ p2 t2, hpage p2 → hmap s2 p2 = Some t2 → PGNUM t2 = PGNUM t → p2 = p.
Proof.
  intros Hp. destruct Hrun as [Hq Hfree].
  assert (Hpp : hpage p) by (unfold hpage in *; destruct (Hfree p Hp); lia).
  destruct (pa_new _ _ _ _ _ HA p Hp) as (g & Hg & Hgn & Hgm & Hgu). exists (g * 4096 + heap_perm q z p).
  destruct (heap_perm_flags g q z p) as (GU & GW & GG & GC). rewrite fresh_map, GG by done. split_and!; try done.
  intros p2 t2 Hp2 Ht2 Hgg. rewrite fresh_map in Ht2 by done. destruct (decide (p2 = p)) as [|Hne]; [done|].
  destruct (Hgu (uv_self s) p2 t2 (hpage_upn _ Hp2) Ht2); [|done]. by intros [= ?].
Qed.

Lemma fresh_block_ok : block_ok s2 (q * PGSIZE, z).
Proof.
  destruct Hrun as [Hq Hfree]. pose proof (run_home q z ltac:(lia) Hz4) as Hhome. fold h in Hhome.
  assert (Hnp : 1 <= npages z) by (unfold npages; hconst; Z.to_euclidean_division_equations; lia).
  split; cbn [fst snd].
  - split; [lia|]. split; [hconst; Z.to_euclidean_division_equations; lia|done].
  - destruct (Hfree h ltac:(lia)) as [Hlt _]. unfold hpage, h, home in *. cbn [fst snd] in *. clear Hfree Hhome Hnp. hconst.
    Z.to_euclidean_division_equations. lia.
  - intros _. by apply Z.mod_mul.
  - intros p Hp. rewrite Z.div_mul in Hp by done. fold h in Hp.
    destruct (fresh_new p ltac:(lia)) as (t & Ht & _ & _ & Hc & _). exists t. split; [done|]. rewrite Hc. apply Z.ltb_lt. lia.
  - fold h. destruct (fresh_new h ltac:(lia)) as (t & Ht & _ & _ & Hc & _). exists t. split; [done|]. rewrite Hc. apply Z.ltb_ge. lia.
Qed.

Lemma fresh_heap : heap_ok s2 (q * PGSIZE + z) ((q * PGSIZE, z) :: bs) ∧ blocks_kept s s2 bs.
Proof.
  pose proof Hrun as [Hq Hfree]. pose proof (run_home q z ltac:(lia) Hz4) as Hhome. fold h in Hhome.
  destruct (run_separate s m bs q z Hheap Hrun) as [Hsep Hnone]; [lia|done|]. fold h in Hnone.
  assert (Hnp : 1 <= npages z) by (unfold npages; hconst; Z.to_euclidean_division_equations; lia).
  assert (Hhp : hpage h) by (unfold hpage in *; destruct (Hfree h); lia).
  assert (Hs2 : uv_self s2 = uv_self s).
  { destruct HQ as (_ & (Hs & _) & _). by rewrite Hs, (proj1 (pa_same _ _ _ _ _ HA)). }
  destruct (fresh_new h ltac:(lia)) as (t' & Ht' & _ & _ & _ & Hfn & _).
  rewrite fresh_map, Hth in Ht' by done. injection Ht' as <-.
  apply (heap_add s s2 m bs (q * PGSIZE) z th Hheap Hs2).
  - intros p t Hp Ht. rewrite fresh_old; [done|done|]. intros Hr. destruct (Hfree p Hr). congruence.
  - intros p t Hp Ht. destruct (decide (q <= p < q + npages z)) as [Hr|Hr].
    + right. destruct (fresh_new p Hr) as (t' & Ht' & HU & HW & Hc & _ & Hu). assert (t' = t) as -> by congruence.
      split_and!; try done. rewrite Hc. fold h. intros ?%Z.ltb_ge. lia.
    + left. by rewrite <- fresh_old.
  - intros p t k Hp Ht Hk _. assert (Hmp' : uv_mapped s (PGNUM t)) by exact (mapped_at _ _ _ _ (hpage_upn _ Hp) Ht).
    rewrite HC by done. rewrite decide_False by (intros [Hg _]; apply Hfn; congruence). by apply (pa_kept _ _ _ _ _ HA).
  - fold h. by rewrite fresh_map.
  - fold h. rewrite (count_set_word s1 s2 (PGNUM th) 2), cnt_zero by done. unfold cur. case_decide; lia.
  - intros p _. by apply cur_aligned.
  - apply fresh_block_ok.
  - done.
  - intros c Hc Heq. by destruct (Hnone c Hc).
Qed.
End fresh.

Lemma aligned_page m : m mod PGSIZE = 0 → m = m / PGSIZE * PGSIZE.
Proof. unfold PGSIZE. intros. Z.to_euclidean_division_equations. lia. Qed.

Lemma heap_ptr_page m : mbegin <= m < mend → hpage (m / PGSIZE).
Proof. unfold hpage. intros. hconst. Z.to_euclidean_division_equations. lia. Qed.

Lemma npages_pos z : 0 <= z → 1 <= npages z.
Proof. unfold npages, PGSIZE. intros. Z.to_euclidean_division_equations. lia. Qed.

(** When there is no space, [mptr] goes back to the beginning. *)
Lemma heap_rewind s m bs : heap_ok s m bs → m mod PGSIZE = 0 → heap_ok s mbegin bs.
Proof.
  intros [K1 K2 K3 K4 K5 K6 K7] Hm. split; try done.
  intros p t. rewrite (cur_aligned mbegin) by done. rewrite <- (cur_aligned m p) by done. apply K4.
Qed.

Lemma malloc_new_spec s n m bs z :
  heap_ok s m bs → m mod PGSIZE = 0 → 0 <= z < MAXMALLOC → z mod 4 = 0 →
  uv_ok s (n + npages z) → 2 * npages z <= uv_free s →
  (∃ q s', malloc_new m z s = (Ret (q * PGSIZE, q * PGSIZE + z), s') ∧ free_run_at s q z ∧
    uv_ok s' n ∧ uv_same s s' ∧ uv_same_env s s' ∧
    (∃ th, hmap s' (home (q * PGSIZE, z)) = Some th ∧ uv_word s' (PGNUM th) 4092 = 2) ∧
    heap_ok s' (q * PGSIZE + z) ((q * PGSIZE, z) :: bs) ∧ blocks_kept s s' bs) ∨
  malloc_new m z s = (Ret (0, mbegin), s) ∧ ∀ q, ¬ free_run_at s q z.
Proof.
  intros Hh Hm Hz Hz4 Hok Hmem. unfold malloc_new. pose proof (hk_ptr _ _ _ Hh) as [_ Hmr].
  pose proof (heap_ptr_page m Hmr) as Hmp. pose proof (npages_pos z ltac:(lia)) as Hnp.
  destruct (find_space_spec s (n + npages z) z (Z.to_nat (2 ^ 21)) (m / PGSIZE) 0) as (b & q & R1 & Hq & Hres); try done.
  { by left. } { unfold hpage in *. hconst. lia. }
  rewrite <- (aligned_page m Hm) in R1.
  destruct b; [|destruct Hres as [-> Hnone]; right; split; [by mrun (exact R1)|done]]. left.
  mrun (exact R1). cbn [negb]. pose proof Hres as [_ Hfree].
  destruct (alloc_pages_spec s n q z (Z.to_nat (z / PGSIZE + 3)) 0 s) as (s1 & R2 & Hok1 & HA); [done|done|done|done|lia|..].
  { unfold npages. clear Hfree Hnp Hmem. hconst. Z.to_euclidean_division_equations. lia. }
  { by replace (n + (npages z - 0)) with (n + npages z) by lia. }
  { lia. } { by eapply uv_self_name. } { apply pages_added_refl. }
  mrun (exact R2). pose proof (run_home q z ltac:(lia) Hz4) as Hhome. set (h := home (q * PGSIZE, z)) in *.
  assert (Hhp : hpage h) by (unfold hpage in *; destruct (Hfree h); lia).
  replace (u32 (q * PGSIZE + npages z * PGSIZE - 4)) with (h * PGSIZE + 4092).
  2: { rewrite u32_small; [rewrite Hhome|]; unfold hpage in *; hconst; lia. }
  pose proof (pa_same _ _ _ _ _ HA) as A1.
  destruct (pa_new _ _ _ _ _ HA h ltac:(lia)) as (f & Hf & Hfn & Hfm & Hfu). set (th := f * 4096 + heap_perm q z h) in *.
  destruct (heap_perm_flags f q z h) as (FU & FW & FG & FC). fold th in FU, FW, FG, FC.
  destruct (set_count s1 n h th 2) as (s2 & R3 & HQ & C2); try done; [by rewrite (proj1 A1)|].
  mrun (exact R3). rewrite u32_small by (unfold hpage in Hq; unfold MAXMALLOC in Hz; hconst; lia).
  pose proof HQ as (Hok2 & Sm2 & En2 & _).
  exists q, s2. split; [done|]. split; [done|]. split; [done|].
  split; [by eapply uv_same_trans|]. split; [intros e; by rewrite En2, (pa_env _ _ _ _ _ HA)|]. split.
  - exists th. split; [by rewrite (fresh_map s s1 s2 q z n)|]. apply (count_set_word s1); done.
  - by apply (fresh_heap s s1 s2 m bs q z th n).
Qed.

(** The block fits in the page [mptr] is filling. *)
Lemma heap_push s s' m bs z th n :
  heap_ok s m bs → m mod PGSIZE ≠ 0 → 0 <= z < MAXMALLOC → z mod 4 = 0 → m / PGSIZE = (m + z + 3) / PGSIZE →
  hmap s (m / PGSIZE) = Some th → Z.of_nat (length bs) < 2 ^ 31 →
  uv_quiet n s s' → count_set s s' (PGNUM th) (u32 (uv_word s (PGNUM th) 4092 + 1)) →
  heap_ok s' (m + z) ((m, z) :: bs) ∧ blocks_kept s s' bs.
Proof.
  intros Hheap Hm Hz Hz4 Hfit Hth Hlen HQ HC. pose proof Hheap as [[K1 K1'] K2 K3 K4 K5 K6 K7].
  destruct (K7 Hm) as [(t' & Ht' & Hnc) Hbelow]. rewrite Hth in Ht'. injection Ht' as <-.
  assert (Hp : hpage (m / PGSIZE)) by (unfold hpage; clear Hfit Hm; hconst; Z.to_euclidean_division_equations; lia).
  assert (Hhome : home (m, z) = m / PGSIZE).
  { unfold home. cbn [fst snd]. rewrite Hfit. unfold PGSIZE. Z.to_euclidean_division_equations. lia. }
  assert (Hend : (m + z) mod PGSIZE ≠ 0 ∧ (m + z) / PGSIZE = m / PGSIZE).
  { unfold home in Hhome. cbn [fst snd] in Hhome. split; [|done]. unfold PGSIZE in *.
    Z.to_euclidean_division_equations. lia. }
  pose proof HQ as (Hok' & (Hs & _) & _ & _ & HM). pose proof (K4 _ _ Hp Hth Hnc) as Hr.
  pose proof (cnt_bound bs (m / PGSIZE)) as Hcb.
  assert (Hcur : cur m (m / PGSIZE) = 1) by (unfold cur; by rewrite decide_True).
  assert (Hcur' : cur (m + z) (m / PGSIZE) = 1) by (unfold cur; by rewrite decide_True).
  assert (Hmap : ∀ p, hpage p → hmap s' p = hmap s p) by (intros p ?%hpage_upn; rewrite Hs; by apply HM).
  assert (Hcounted : counted s' (m / PGSIZE)) by (exists th; by rewrite Hmap).
  apply (heap_add s s' m bs m z th Hheap Hs); rewrite ?Hhome.
  - intros p t Hp' Ht. by rewrite Hmap.
  - intros p t Hp' Ht. left. by rewrite <- Hmap.
  - intros p t k Hp' Ht Hk Hn. rewrite HC by done. rewrite decide_False; [done|]. intros [Hg Hk'].
    apply Hn. split; [|done]. by apply (K3 p (m / PGSIZE) t th).
  - by rewrite Hmap.
  - rewrite (count_set_word s s' _ _ ltac:(apply u32_range) HC). rewrite u32_small by lia. lia.
  - intros p Hne. unfold cur. by rewrite decide_False by naive_solver.
  - split; cbn [fst snd]; rewrite ?Hhome; [lia| |lia..|done].
    clear Hfit Hhome. unfold hpage in Hp. hconst. Z.to_euclidean_division_equations. lia.
  - apply Forall_forall. intros c Hc. unfold separate. cbn [fst snd].
    destruct (decide (home c = m / PGSIZE)) as [Heq|Hne]; [right; by apply Hbelow|].
    destruct (decide (m + z <= c.1)) as [|H1]; [by left|]. right.
    destruct (decide (c.1 + c.2 <= m)) as [|H2]; [done|]. exfalso.
    apply (inside_counted s (m / PGSIZE)); [|by exists th]. apply (bk_inside _ _ (K5 c Hc)).
    assert (c.1 / PGSIZE <= m / PGSIZE).
    { rewrite <- (proj2 Hend). apply Z.div_le_mono; [done|lia]. }
    assert (m / PGSIZE <= home c) by (unfold home; apply Z.div_le_mono; [done|lia]). lia.
  - intros c Hc Heq. by apply Hbelow.
Qed.

(** ** The specifications *)

Lemma round4 k : 0 <= k <= MAXMALLOC - 4 → 0 <= ROUNDUP k 4 < MAXMALLOC ∧ ROUNDUP k 4 mod 4 = 0.
Proof.
  unfold MAXMALLOC. intros Hk. rewrite ROUNDUP_unfold by (unfold is_u32; lia).
  Z.to_euclidean_division_equations. lia.
Qed.

(** Two blocks have no inner page in common. *)
Lemma inner_separate s b c p :
  block_ok s b → block_ok s c → separate b c →
  b.1 / PGSIZE <= p < home b → c.1 / PGSIZE <= p < home c → False.
Proof.
  intros [(?&?&?) _ Bs _ _] [(?&?&?) _ Cs _ _] Hsep Hb Hc. specialize (Bs ltac:(lia)). specialize (Cs ltac:(lia)).
  unfold separate, home in *. unfold PGSIZE in *. Z.to_euclidean_division_equations. lia.
Qed.

Lemma free_spec s n m bs b bs' :
  heap_ok s m bs → bs ≡ₚ b :: bs' → uv_ok s n →
  ∃ s', free b.1 s = (Ret tt, s') ∧ heap_ok s' m bs' ∧ blocks_kept s s' bs' ∧
    uv_ok s' n ∧ uv_same s s' ∧ uv_same_env s s' ∧ uv_free s <= uv_free s' ∧
    ∀ th, hmap s (home b) = Some th → uv_word s (PGNUM th) 4092 ≠ 1 → hmap s' (home b) = Some th.
Proof.
  intros Hheap0 Hperm Hok. pose proof (heap_ok_perm _ _ _ _ Hperm Hheap0) as Hheap. clear Hheap0 Hperm bs.
  pose proof (hk_blocks _ _ _ Hheap b ltac:(left)) as Hb. pose proof Hb as [(Bz & _) Br Bs Bi (th & Hth & Hnc)].
  assert (Hord : b.1 / PGSIZE <= home b) by (unfold home; apply Z.div_le_mono; [done|lia]).
  assert (Hh : hpage (home b)) by (eapply block_pages; [done|lia]).
  pose proof (hk_refs _ _ _ Hheap _ _ Hh Hth Hnc) as Hr. rewrite cnt_cons, decide_True in Hr by done.
  pose proof (cnt_bound bs' (home b)). assert (0 <= cur m (home b)) by (unfold cur; case_match; lia).
  destruct (hk_pages _ _ _ Hheap _ _ Hh Hth) as [HU HW].
  destruct (free_run s n b.1 (home b) th) as (s1 & s' & Hrun & Hok' & Hsm & Hen & Hfr & HR & HD); try done;
    [eapply block_pages; [done|lia]|lia|].
  pose proof (word_bound s n (PGNUM th) 4092 Hok) as Hwb.
  exists s'. split; [done|].
  destruct (heap_drop s s1 s' m (b :: bs') (b.1 / PGSIZE) (home b) th m bs') as [Hh' Hk]; try done.
  - exact (proj1 Hsm).
  - lia.
  - apply (hk_ptr _ _ _ Hheap).
  - intros c Hc. by right.
  - apply (hk_pairs _ _ _ Hheap).
  - intros p. rewrite cnt_cons. destruct (decide (home b = p)), (decide (p = home b)); congruence || lia.
  - intros c p Hc Hp Hp'. apply (inner_separate s b c p); [done| |..|done|done].
    + apply (hk_blocks _ _ _ Hheap). by right.
    + destruct (hk_pairs _ _ _ Hheap) as [HF _]. rewrite Forall_forall in HF. by apply HF.
  - split_and!; try done. intros th' Hth' Hw. assert (th' = th) as -> by congruence.
    rewrite (drop_map s s1 s' (b.1 / PGSIZE) (home b) th) by (done || exact (proj1 Hsm)).
    rewrite decide_False; [done|]. lia.
Qed.

(** [mptr] leaves the page it was filling. *)
Lemma leave_page s n m bs :
  heap_ok s m bs → m mod PGSIZE ≠ 0 → m / PGSIZE + 1 < HEND → uv_ok s n →
  ∃ s', free m s = (Ret tt, s') ∧ heap_ok s' ((m / PGSIZE + 1) * PGSIZE) bs ∧ blocks_kept s s' bs ∧
    uv_ok s' n ∧ uv_same s s' ∧ uv_same_env s s' ∧ uv_free s <= uv_free s'.
Proof.
  intros Hheap Hal Hlast Hok. pose proof (hk_ptr _ _ _ Hheap) as [Hm4 Hmr].
  destruct (hk_cur _ _ _ Hheap Hal) as [(th & Hth & Hnc) _]. pose proof (heap_ptr_page m Hmr) as Hp.
  destruct (hk_pages _ _ _ Hheap _ _ Hp Hth) as [HU HW]. pose proof (hk_refs _ _ _ Hheap _ _ Hp Hth Hnc) as Hr.
  pose proof (cnt_bound bs (m / PGSIZE)). pose proof (word_bound s n (PGNUM th) 4092 Hok) as Hwb.
  assert (Hcur : cur m (m / PGSIZE) = 1) by (unfold cur; by rewrite decide_True).
  destruct (free_run s n m (m / PGSIZE) th) as (s1 & s2 & R & Hok2 & Hsm & Hen & Hfr & HR & HD); try done;
    [intros p Hpp; lia|lia|].
  set (m1 := (m / PGSIZE + 1) * PGSIZE). assert (Hm1 : m1 mod PGSIZE = 0) by (by apply Z.mod_mul).
  exists s2. split; [done|].
  destruct (heap_drop s s1 s2 m bs (m / PGSIZE) (m / PGSIZE) th m1 bs) as [Hh2 Hk2]; try done.
  - exact (proj1 Hsm).
  - lia.
  - intros p Hpp. lia.
  - unfold m1. unfold hpage in Hp. hconst. split; [|lia]. Z.to_euclidean_division_equations. lia.
  - apply (hk_pairs _ _ _ Hheap).
  - intros p. rewrite (cur_aligned m1) by done. unfold cur. destruct (decide (p = m / PGSIZE)) as [->|Hne].
    + rewrite decide_True by done. lia.
    + rewrite decide_False by naive_solver. lia.
  - intros c p Hc Hpp. lia.
Qed.

Lemma next_page m : mbegin <= m < mend → ROUNDDOWN (u32 (m + PGSIZE)) PGSIZE = (m / PGSIZE + 1) * PGSIZE.
Proof.
  intros Hm. rewrite u32_small by (hconst; lia).
  destruct (ROUNDDOWN_spec (m + PGSIZE) PGSIZE) as [-> _]; [unfold is_u32; hconst; lia|done|].
  unfold PGSIZE. Z.to_euclidean_division_equations. lia.
Qed.

(** What [malloc] of [z] bytes, a multiple of 4, returns. *)
Definition malloc_result (s s' : S) (v m' z : Z) (bs : list block) : Prop :=
  (v ≠ 0 ∧ heap_ok s' m' ((v, z) :: bs) ∨ v = 0 ∧ heap_ok s' m' bs ∧ ∀ q, ¬ free_run_at s' q z) ∧ blocks_kept s s' bs.

Lemma malloc_new_result s n m bs z :
  heap_ok s m bs → m mod PGSIZE = 0 → 0 <= z < MAXMALLOC → z mod 4 = 0 →
  uv_ok s (n + npages z) → 2 * npages z <= uv_free s →
  ∃ v m' s', malloc_new m z s = (Ret (v, m'), s') ∧ malloc_result s s' v m' z bs ∧
    uv_ok s' n ∧ uv_same s s' ∧ uv_same_env s s'.
Proof.
  intros Hh Hm Hz Hz4 Hok Hmem. pose proof (npages_pos z ltac:(lia)).
  destruct (malloc_new_spec s n m bs z) as [(q & s' & R & [Hq _] & Hok' & Hsm & Hen & _ & Hh' & Hk)|[R Hn]]; try done.
  - exists (q * PGSIZE), (q * PGSIZE + z), s'. split; [done|]. split; [|done]. split; [|done]. left. split; [|done].
    unfold hpage in Hq. hconst. lia.
  - exists 0, mbegin, s. split; [done|]. split; [|split; [eapply uv_mono; [done|lia]|done]].
    split; [right|done]. split; [done|]. split; [by eapply heap_rewind|done].
Qed.

Lemma malloc_spec s n m bs k :
  let m0 := if m =? 0 then mbegin else m in
  let z := ROUNDUP k 4 in
  heap_ok s m0 bs → 0 <= k <= MAXMALLOC - 4 → m0 / PGSIZE + 1 < HEND →
  uv_ok s (n + npages z) → 2 * npages z <= uv_free s → Z.of_nat (length bs) < 2 ^ 31 →
  ∃ v m' s', malloc m k s = (Ret (v, m'), s') ∧ malloc_result s s' v m' z bs ∧
    uv_ok s' n ∧ uv_same s s' ∧ uv_same_env s s'.
Proof.
  cbv zeta. intros Hheap Hk Hlast Hok Hmem Hlen. unfold malloc.
  destruct (round4 k Hk) as [Hz Hz4]. set (z := ROUNDUP k 4) in *. set (m0 := if m =? 0 then mbegin else m) in *.
  destruct (Z.leb_spec MAXMALLOC z) as [|_]; [lia|]. pose proof (hk_ptr _ _ _ Hheap) as [Hm4 Hmr].
  pose proof (npages_pos z ltac:(lia)) as Hnp.
  destruct (Z.eqb_spec (m0 mod PGSIZE) 0) as [Hal|Hal]; cbn [negb]; [by apply malloc_new_result|].
  destruct (hk_cur _ _ _ Hheap Hal) as [(th & Hth & Hnc) _]. pose proof (heap_ptr_page m0 Hmr) as Hp.
  destruct (hk_pages _ _ _ Hheap _ _ Hp Hth) as [HU HW].
  replace (m0 + z - 1 + 4) with (m0 + z + 3) by lia. rewrite u32_small by (unfold MAXMALLOC in Hz; hconst; lia).
  assert (Hok0 : uv_ok s n) by (eapply uv_mono; [done|lia]).
  destruct (Z.eqb_spec (m0 / PGSIZE) ((m0 + z + 3) / PGSIZE)) as [Hfit|Hfit].
  - assert (u32 (ROUNDUP m0 PGSIZE - 4) = m0 / PGSIZE * PGSIZE + 4092) as ->.
    { rewrite ROUNDUP_unfold by (unfold is_u32; hconst; lia). clear Hfit Hlast Hp.
      rewrite u32_small; hconst; Z.to_euclidean_division_equations; lia. }
    mrun (by apply (uload32_eq s n (m0 / PGSIZE) 4092 th); [done|apply hpage_upn|..]).
    destruct (set_count s n (m0 / PGSIZE) th (u32 (uv_word s (PGNUM th) 4092 + 1))) as (s' & R & HQ & HC); try done.
    mrun (exact R). rewrite u32_small by (unfold MAXMALLOC in Hz; hconst; lia).
    destruct (heap_push s s' m0 bs z th n) as [Hh' Hkept]; try done.
    destruct HQ as (? & ? & ? & _). exists m0, (m0 + z), s'. split; [done|]. split; [|done]. split; [|done].
    left. split; [hconst; lia|done].
  - destruct (leave_page s (n + npages z) m0 bs) as (s1 & R & Hh1 & Hk1 & Hok1 & Sm1 & En1 & Fr1); try done.
    mrun (exact R). rewrite (next_page m0 Hmr).
    destruct (malloc_new_result s1 n ((m0 / PGSIZE + 1) * PGSIZE) bs z) as (v & m' & s' & R' & [Hres Hk'] & ? & Sm' & En');
      try done; [by apply Z.mod_mul|lia|].
    exists v, m', s'. split; [done|]. split; [|split; [done|split; [by eapply uv_same_trans|intros e; by rewrite En']]].
    split; [done|]. intros b a Hb Ha. rewrite <- (Hk1 b a), <- (proj1 Sm1) by done. by apply (Hk' b a).
Qed.

(** ** The theorems *)

(** C24: [malloc(k)] hands out a block that does not overlap any block in use
    and whose pages are mapped, writable and not shared ([heap_ok] of the new
    list of blocks), or returns 0 when no run of pages is free; either way the
    contents of the blocks in use are what they were.  This is for sizes up to
    1 MB - 4, enough free memory for the pages and their page tables (the undoing
    of a failed allocation is not covered), and [mptr] not in the last page of
    the heap (what happens there is [malloc_past_end]). *)
Theorem malloc_correct s n m bs k :
  let m0 := if m =? 0 then mbegin else m in
  let z := ROUNDUP k 4 in
  heap_ok s m0 bs → 0 <= k <= MAXMALLOC - 4 → m0 / PGSIZE + 1 < HEND →
  uv_ok s (n + npages z) → 2 * npages z <= uv_free s → Z.of_nat (length bs) < 2 ^ 31 →
  ∃ v m' s', malloc m k s = (Ret (v, m'), s') ∧
    (v ≠ 0 ∧ heap_ok s' m' ((v, z) :: bs) ∨ v = 0 ∧ heap_ok s' m' bs ∧ ∀ q, ¬ free_run_at s' q z) ∧
    blocks_kept s s' bs ∧ uv_ok s' n ∧ uv_same s s' ∧ uv_same_env s s'.
Proof.
  cbv zeta. intros. destruct (malloc_spec s n m bs k) as (v & m' & s' & R & [Hr Hk] & ?); try done.
  by exists v, m', s'.
Qed.

(** C25: [free] of a block in use takes it out of the heap and touches nothing
    else: the invariant holds for the other blocks, and their contents are
    kept.  In particular no page is unmapped that another block uses. *)
Theorem free_correct s n m bs b bs' :
  heap_ok s m bs → bs ≡ₚ b :: bs' → uv_ok s n →
  ∃ s', free b.1 s = (Ret tt, s') ∧ heap_ok s' m bs' ∧ blocks_kept s s' bs' ∧
    uv_ok s' n ∧ uv_same s s' ∧ uv_same_env s s' ∧ uv_free s <= uv_free s'.
Proof.
  intros Hh Hp Hok. destruct (free_spec s n m bs b bs' Hh Hp Hok) as (s' & R & H1 & H2 & H3 & H4 & H5 & H6 & _).
  by exists s'.
Qed.

(** The search for address space ends when it starts inside the heap: two passes
    over its 2{^15} pages suffice to find a free run, or to establish that
    there is none.  (From [mend], where [malloc] can leave [mptr], it does not:
    [malloc_past_end].) *)
Theorem find_space_terminates s n z fuel q :
  uv_ok s n → hpage q → 0 <= z < MAXMALLOC → z mod 4 = 0 → Z.of_nat fuel > 2 * (HEND - HBEGIN) →
  ∃ (b : bool) q', find_space fuel (q * PGSIZE) 0 z s = (Ret (b, q' * PGSIZE), s) ∧ hpage q' ∧
    if b then free_run_at s q' z else q' = HBEGIN ∧ ∀ q0, ¬ free_run_at s q0 z.
Proof.
  intros Hok Hq Hz Hz4 Hf. apply (find_space_spec s n z fuel q 0); try done; [by left|].
  unfold hpage in Hq. lia.
Qed.

(** A block whose size is a multiple of the page size leaks a page: after
    [malloc] and [free] of it, the page of its count is still mapped, though
    it was free before, no block is in it and [mptr] is not filling it. *)
Theorem malloc_page_leak s n m bs z :
  heap_ok s m bs → m mod PGSIZE = 0 → 0 <= z < MAXMALLOC → z mod PGSIZE = 0 →
  uv_ok s (n + npages z) → 2 * npages z <= uv_free s → Z.of_nat (length bs) < 2 ^ 31 → (∃ q, free_run_at s q z) →
  ∃ v s1 s2, malloc m z s = (Ret (v, v + z), s1) ∧ free v s1 = (Ret tt, s2) ∧
    heap_ok s2 (v + z) bs ∧ (v + z) mod PGSIZE = 0 ∧
    hmap s (home (v, z)) = None ∧ is_Some (hmap s2 (home (v, z))).
Proof.
  intros Hh Hm Hz Hzp Hok Hmem Hlen [q0 Hrun0]. unfold malloc.
  assert (Hz4 : z mod 4 = 0) by (clear Hok Hmem Hrun0; unfold PGSIZE in *; Z.to_euclidean_division_equations; lia).
  pose proof (hk_ptr _ _ _ Hh) as [_ Hmr]. assert (m =? 0 = false) as -> by (hconst; lia).
  assert (ROUNDUP z 4 = z) as ->.
  { unfold MAXMALLOC in Hz. rewrite ROUNDUP_unfold by (unfold is_u32; lia).
    clear Hok Hmem Hrun0 Hzp. Z.to_euclidean_division_equations. lia. }
  destruct (Z.leb_spec MAXMALLOC z) as [|_]; [lia|]. rewrite Hm. cbn [Z.eqb negb].
  destruct (malloc_new_spec s n m bs z) as [(q & s1 & R & [Hq Hf] & Hok1 & Hsm & _ & (th & Hth & Hw) & Hh1 & _)|[_ Hn]]; try done.
  2: { by destruct (Hn q0). }
  destruct (free_spec s1 n _ _ (q * PGSIZE, z) bs Hh1 (Permutation_refl _) Hok1) as (s2 & R2 & Hh2 & _ & _ & _ & _ & _ & Hst).
  exists (q * PGSIZE), s1, s2. split; [done|]. split; [done|]. split; [done|].
  split; [by rewrite Z.add_comm, Z.mod_add|]. split.
  - apply Hf. rewrite run_home by (done || lia). pose proof (npages_pos z ltac:(lia)). lia.
  - exists th. apply Hst; [done|]. by rewrite Hw.
Qed.

(** Past [mend] nothing is free, up to the wrap-around to address 0. *)
Lemma past_end_search s n z fuel q :
  uv_ok s n → hmap s 0 = None → 0 <= z → z + 4 < PGSIZE → HEND <= q < 2 ^ 20 → Z.of_nat fuel > 2 ^ 20 - q →
  find_space fuel (q * PGSIZE) 0 z s = (Ret (true, 0), s).
Proof.
  intros Hok Hzero Hz Hz4. revert q. induction fuel as [|fuel IH]; intros q Hq Hf; [lia|]. cbn [find_space].
  assert (Hfuel : Z.to_nat ((z + 4) / PGSIZE + 2) = 2%nat).
  { rewrite Z.div_small by (unfold PGSIZE in *; lia). done. }
  assert (Hrun : isfree (q * PGSIZE) (z + 4) s = (Ret false, s)).
  { unfold isfree. rewrite Hfuel. cbn [isfree_loop]. rewrite u32_small by (hconst; lia).
    destruct (Z.ltb_spec (q * PGSIZE) (q * PGSIZE + (z + 4))) as [_|]; [|lia].
    destruct (Z.leb_spec mend (q * PGSIZE)) as [_|]; [done|hconst; lia]. }
  mrun (exact Hrun). destruct (decide (q = 2 ^ 20 - 1)) as [->|Hne].
  - change (u32 ((2 ^ 20 - 1) * PGSIZE + PGSIZE)) with 0. change (0 =? mend) with false. cbn iota.
    destruct fuel as [|fuel]; [lia|]. cbn [find_space].
    assert (Hrun0 : isfree 0 (z + 4) s = (Ret true, s)).
    { unfold isfree. rewrite Hfuel. cbn [isfree_loop]. rewrite u32_small by (hconst; lia).
      destruct (Z.ltb_spec 0 (0 + (z + 4))) as [_|]; [|lia]. change (mend <=? 0) with false. cbn iota.
      change (PDX 0) with (0 / 1024). change (PGNUM 0) with 0.
      destruct (uv_uvpt s n 0 Hok) as (d & Hd & Hx); [by vm_compute|]. mrun (exact Hd). unfold flag in Hx.
      assert (Hend : u32 (0 + PGSIZE) <? 0 + (z + 4) = false).
      { change (u32 (0 + PGSIZE)) with 4096. unfold PGSIZE in *. apply Z.ltb_ge. lia. }
      destruct (Z.land d PTE_P =? 0); cbn [negb] in Hx; [by rewrite Hend|].
      destruct Hx as (t & Ht & Hmt). mrun (exact Ht).
      destruct (Z.land t PTE_P =? 0); cbn [negb] in Hmt; [by rewrite Hend|]. congruence. }
    by mrun (exact Hrun0).
  - rewrite u32_small by (hconst; lia). replace (q * PGSIZE + PGSIZE) with ((q + 1) * PGSIZE) by lia.
    destruct (Z.eqb_spec ((q + 1) * PGSIZE) mend) as [He|_]; [hconst; lia|]. apply IH; lia.
Qed.

(** When the page [mptr] is filling is the last of the heap and the next
    block does not fit in it, [mptr] becomes [mend], which the test
    [mptr == mend] in the search, made after the increment, never sees.  The
    search runs to the end of the address space and wraps to address 0; with
    page 0 unmapped, [malloc] maps it and returns 0, however much of the heap
    is free. *)
Theorem malloc_past_end s n m th z :
  uv_ok s (n + 1) → 2 <= uv_free s → m / PGSIZE = HEND - 1 → m mod PGSIZE ≠ 0 →
  hmap s (HEND - 1) = Some th → flag th PTE_U = true → flag th PTE_W = true → flag th PTE_CONTINUED = false →
  1 <= uv_word s (PGNUM th) 4092 → 0 <= z → z mod 4 = 0 → z + 4 < PGSIZE → (m + z + 3) / PGSIZE ≠ HEND - 1 →
  hmap s 0 = None →
  ∃ s', malloc m z s = (Ret (0, z), s') ∧ is_Some (hmap s' 0).
Proof.
  intros Hok Hmem Hlast Hal Hth HU HW Hnc Hw Hz Hz4 Hzs Hfit Hzero.
  assert (Hm : mbegin <= m < mend) by (clear Hfit; hconst; Z.to_euclidean_division_equations; lia).
  unfold malloc. assert (m =? 0 = false) as -> by (hconst; lia).
  assert (ROUNDUP z 4 = z) as ->.
  { unfold PGSIZE in Hzs. rewrite ROUNDUP_unfold by (unfold is_u32; lia).
    clear Hfit Hlast Hal. Z.to_euclidean_division_equations. lia. }
  destruct (Z.leb_spec MAXMALLOC z) as [?|_]; [unfold MAXMALLOC, PGSIZE in *; lia|].
  destruct (Z.eqb_spec (m mod PGSIZE) 0) as [|_]; [done|]. cbn [negb].
  replace (m + z - 1 + 4) with (m + z + 3) by lia. rewrite u32_small by (hconst; lia).
  rewrite Hlast. destruct (Z.eqb_spec (HEND - 1) ((m + z + 3) / PGSIZE)) as [|_]; [congruence|].
  assert (Hp : hpage (HEND - 1)) by (by vm_compute).
  destruct (free_run s (n + 1) m (HEND - 1) th) as (s1 & s2 & R & Hok2 & Hsm & Hen & Hfr & HR & HD);
    rewrite ?Hlast; try done; [intros p Hpp; lia|].
  mrun (exact R). rewrite (next_page m Hm), Hlast. replace (HEND - 1 + 1) with HEND by lia. unfold malloc_new.
  assert (Hu0 : upn 0) by (by vm_compute).
  assert (H20 : hmap s2 0 = None).
  { destruct HD as [HM _]. rewrite HM by done. rewrite decide_False by (intros (_ & ? & _); hconst; lia).
    rewrite (proj1 Hsm), (pr_old _ _ _ HR), Hzero; [done|done|]. intros [_ ?]. cbn beta in *. lia. }
  assert (R2 : find_space (Z.to_nat (2 ^ 21)) (HEND * PGSIZE) 0 z s2 = (Ret (true, 0), s2)).
  { apply (past_end_search s2 (n + 1)); [exact Hok2|exact H20|exact Hz|exact Hzs|hconst; lia|hconst; lia]. }
  mrun (exact R2). cbn [negb].
  destruct (uv_alloc s2 n 0 (uv_self s2) 0 7) as (s3 & f & R3 & Hok3 & Sm3 & _ & _ & _ & Hf & U3 & _);
    [done|by eapply uv_self_name|done|done|lia|].
  assert (RA : alloc_pages (Z.to_nat (z / PGSIZE + 3)) 0 0 z s2 = (Ret (Some (0 + PGSIZE)), s3)).
  { assert (Z.to_nat (z / PGSIZE + 3) = 3%nat) as -> by (by rewrite Z.div_small by lia). cbn [alloc_pages].
    destruct (Z.ltb_spec 0 (z + 4)) as [_|]; [|lia]. destruct (Z.ltb_spec (0 + PGSIZE) (z + 4)) as [|_]; [lia|].
    by mrun (exact R3). }
  mrun (exact RA).
  change (u32 (0 + (0 + PGSIZE) - 4)) with (0 * PGSIZE + 4092).
  assert (M3 : hmap s3 0 = Some (f * 4096 + 7)) by (rewrite U3 by done; by rewrite (proj1 Sm3), decide_True).
  destruct (ustore32_eq s3 n 0 4092 (f * 4096 + 7) 2) as (s4 & R4 & (_ & Sm4 & _ & _ & M4) & _); try done.
  { change PTE_U with (2 ^ 2). by rewrite flag_frame by lia. } { change PTE_W with (2 ^ 1). by rewrite flag_frame by lia. }
  mrun (exact R4). exists s4. split; [|by rewrite (proj1 Sm4), M4, M3]. by rewrite Z.add_0_l, u32_small by (hconst; lia).
Qed.
End heap.
