(* ===== verification/MallocDemo.v ===== *)
(** * The allocator on a concrete machine

    The theorems of [MallocHeap] at the kernel state [blank] of [ForkDemo],
    whose running environment has nothing mapped, and at states its [malloc]
    leads to. *)

From S2P Require Import Prelude Mmu Console KState Demo AddrSpace Syscall SyscallSpec UserLib UserVm UserVmKernel ForkDemo Malloc MallocSpec MallocHeap.
Open Scope Z_scope.

Lemma blank_ok : uv_ok blank 60000.
Proof. exists [1], blank_free, 4. exact blank_user_ok. Qed.

Lemma blank_free_pages : uv_free blank = 16.
Proof. exact (k_free_eq _ _ _ _ _ blank_user_ok). Qed.

Lemma blank_heap : heap_ok blank mbegin [].
Proof.
  assert (Hno : ∀ p t, hpage p → uv_map blank (uv_self blank) p = Some t → False).
  { intros p t Hp%hpage_upn. rewrite blank_maps by exact Hp. discriminate. }
  split.
  - split; [reflexivity|]. change mbegin with 0x8000000. change mend with 0x10000000. lia.
  - intros p t Hp Ht. destruct (Hno p t Hp Ht).
  - intros p1 p2 t1 t2 Hp1 _ Ht1. destruct (Hno p1 t1 Hp1 Ht1).
  - intros p t Hp Ht. destruct (Hno p t Hp Ht).
  - intros b Hb. by apply not_elem_of_nil in Hb.
  - exact I.
  - intros Hm. destruct Hm. reflexivity.
Qed.

Lemma blank_run z : npages z <= 0x8000 → free_run_at blank HBEGIN z.
Proof.
  intros Hz. split; [by vm_compute|]. intros i Hi. change HBEGIN with 0x8000 in *. change HEND with 0x10000.
  split; [lia|]. apply blank_maps. unfold upn. change NUPAGES with 0xEEC00. lia.
Qed.

(** After [malloc(12)]. *)
Lemma one_block :
  ∃ v s, uv_ok s 1000 ∧ heap_ok s (v + 12) [(v, 12)].
Proof.
  destruct (malloc_new_spec blank 1000 mbegin [] 12 blank_heap) as
    [(q & s' & R & _ & Hok & _ & _ & _ & Hh & _)|[_ Hn]].
  - reflexivity.
  - unfold MAXMALLOC. lia.
  - reflexivity.
  - eapply uv_mono; [exact blank_ok|]. change (npages 12) with 1. lia.
  - rewrite blank_free_pages. change (npages 12) with 1. lia.
  - exists (q * PGSIZE), s'. split; [exact Hok|exact Hh].
  - destruct (Hn HBEGIN). apply blank_run. change (npages 12) with 1. lia.
Qed.

Lemma malloc_correct_witness :
  ∃ v m' s', malloc 0 10 blank = (Ret (v, m'), s') ∧ blocks_kept blank s' [] ∧ uv_ok s' 1000.
Proof.
  destruct (malloc_correct blank 1000 0 [] 10) as (v & m' & s' & R & _ & Hk & Hok & _).
  - exact blank_heap.
  - unfold MAXMALLOC. lia.
  - by vm_compute.
  - eapply uv_mono; [exact blank_ok|]. change (npages (ROUNDUP 10 4)) with 1. lia.
  - rewrite blank_free_pages. change (npages (ROUNDUP 10 4)) with 1. lia.
  - cbn [length]. lia.
  - exists v, m', s'. split; [exact R|]. split; [exact Hk|exact Hok].
Defined.

Lemma free_correct_witness :
  ∃ v s s', heap_ok s (v + 12) [(v, 12)] ∧ free v s = (Ret tt, s') ∧ heap_ok s' (v + 12) [].
Proof.
  destruct one_block as (v & s & Hok & Hh).
  destruct (free_correct s 1000 (v + 12) [(v, 12)] (v, 12) [] Hh (Permutation_refl _) Hok) as (s' & R & Hh' & _).
  exists v, s, s'. split; [exact Hh|]. split; [exact R|exact Hh'].
Defined.

Lemma find_space_terminates_witness :
  ∃ b q', find_space (Z.to_nat 65537) (0x8000 * PGSIZE) 0 12 blank = (Ret (b, q' * PGSIZE), blank).
Proof.
  destruct (find_space_terminates blank 60000 12 (Z.to_nat 65537) 0x8000) as (b & q' & R & _).
  - exact blank_ok.
  - by vm_compute.
  - unfold MAXMALLOC. lia.
  - reflexivity.
  - change HEND with 0x10000. change HBEGIN with 0x8000. lia.
  - exists b, q'. exact R.
Defined.

Lemma malloc_page_leak_witness :
  ∃ v s1 s2, malloc mbegin 4096 blank = (Ret (v, v + 4096), s1) ∧ free v s1 = (Ret tt, s2) ∧
    is_Some (uv_map s2 (uv_self s2) (home (v, 4096))).
Proof.
  destruct (malloc_page_leak blank 1000 mbegin [] 4096) as (v & s1 & s2 & R1 & R2 & _ & _ & _ & Hs).
  - exact blank_heap.
  - reflexivity.
  - unfold MAXMALLOC. lia.
  - reflexivity.
  - eapply uv_mono; [exact blank_ok|]. change (npages 4096) with 2. lia.
  - rewrite blank_free_pages. change (npages 4096) with 2. lia.
  - cbn [length]. lia.
  - exists HBEGIN. apply blank_run. change (npages 4096) with 2. lia.
  - exists v, s1, s2. split; [exact R1|]. split; [exact R2|exact Hs].
Defined.

(** A machine whose program has the last heap page, with a count of 1. *)
Lemma last_page :
  ∃ s th, uv_ok s 1 ∧ 2 <= uv_free s ∧ uv_map s (uv_self s) (HEND - 1) = Some th ∧
    flag th PTE_U = true ∧ flag th PTE_W = true ∧ flag th PTE_CONTINUED = false ∧
    uv_word s (PGNUM th) 4092 = 1 ∧ uv_map s (uv_self s) 0 = None.
Proof.
  destruct (uv_alloc blank 59999 0 0 (HEND - 1) 7 blank_ok) as (s1 & f & _ & Hok1 & (Hs1 & _) & _ & Hf1 & _ & _ & U1 & _);
    [reflexivity|by vm_compute|reflexivity|rewrite blank_free_pages; lia|].
  assert (Hfl : ∀ k, 0 <= k < 12 → flag (f * 4096 + 7) (2 ^ k) = Z.testbit 7 k) by (intros k Hk; apply flag_frame; lia).
  assert (M1 : ∀ pn, upn pn → uv_map s1 (uv_self s1) pn = if decide (pn = HEND - 1) then Some (f * 4096 + 7) else None).
  { intros pn Hpn. rewrite Hs1, U1 by exact Hpn. change (uv_self blank) with 0.
    destruct (decide (pn = HEND - 1)) as [->|Hne]; [by rewrite decide_True|].
    rewrite decide_False by tauto. by apply blank_maps. }
  destruct (set_count s1 59999 (HEND - 1) (f * 4096 + 7) 1 Hok1) as (s2 & _ & (Hok2 & (Hs2 & _) & _ & Hf2 & M2) & C2);
    [by vm_compute|by rewrite M1, decide_True by (done || by vm_compute)|by apply (Hfl 2)|by apply (Hfl 1)|].
  assert (Hup : upn (HEND - 1)) by (by vm_compute). assert (Hu0 : upn 0) by (by vm_compute).
  exists s2, (f * 4096 + 7). split; [eapply uv_mono; [exact Hok2|lia]|]. rewrite blank_free_pages in Hf1.
  split; [lia|]. split; [by rewrite Hs2, M2, M1, decide_True|].
  split; [by apply (Hfl 2)|]. split; [by apply (Hfl 1)|]. split; [by apply (Hfl 9)|]. split.
  - apply (count_set_word s1); [unfold is_u32; lia|exact C2].
  - rewrite Hs2, M2, M1 by assumption. by rewrite decide_False by (change HEND with 0x10000; lia).
Qed.

Lemma malloc_past_end_witness :
  ∃ s s', malloc 0xffffff0 64 s = (Ret (0, 64), s') ∧ is_Some (uv_map s' (uv_self s') 0).
Proof.
  destruct last_page as (s & th & Hok & Hf & Hm & HU & HW & Hc & Hw & H0).
  destruct (malloc_past_end s 0 0xffffff0 th 64 Hok Hf) as (s' & R & Hs).
  - reflexivity.
  - discriminate.
  - exact Hm.
  - exact HU.
  - exact HW.
  - exact Hc.
  - rewrite Hw. lia.
  - lia.
  - reflexivity.
  - unfold PGSIZE. lia.
  - discriminate.
  - exact H0.
  - exists s, s'. split; [exact R|exact Hs].
Defined.
