(* ===== verification/Fd.v ===== *)
(** * File descriptors ([lib/fd.c]), the making and closing of pipes ([lib/pipe.c])

    Descriptor [i] is a page at [INDEX2FD i] with the [struct Fd], and a page
    at [INDEX2DATA i] for its device; it is open when the first is mapped.
    [dup] and [pipe] share these pages between descriptors.  The devices are
    entries of a table of operations, [devtab], a parameter here.  Messages
    printed on errors are left out. *)

From S2P Require Import Prelude Mmu Console KState UserLib.
Open Scope Z_scope.

Definition MAXFD : Z := 32.
Definition FDTABLE : Z := 0xD0000000.
Definition FILEDATA : Z := FDTABLE + MAXFD * PGSIZE.
Definition INDEX2FD (i : Z) : Z := u32 (FDTABLE + i * PGSIZE).
Definition INDEX2DATA (i : Z) : Z := u32 (FILEDATA + i * PGSIZE).

Definition O_RDONLY : Z := 0.
Definition O_WRONLY : Z := 1.
Definition O_ACCMODE : Z := 3.

(** [struct Fd]: the addresses of the fields. *)
Definition fd_dev_id (fd : Z) : Z := fd.
Definition fd_offset (fd : Z) : Z := fd + 4.
Definition fd_omode (fd : Z) : Z := fd + 8.

Definition fd2num (fd : Z) : Z := u32 (fd - FDTABLE) / PGSIZE.
Definition fd2data (fd : Z) : Z := INDEX2DATA (fd2num fd).

Section fd.
Context {S : Type} `{Machine S}.

(** [uvpd[PDX(va)] & PTE_P && uvpt[PGNUM(va)] & PTE_P] *)
Definition va_mapped (va : Z) : U S bool :=
  d ← uvpd (PDX va);
  if Z.land d PTE_P =? 0 then mret false
  else t ← uvpt (PGNUM va); mret (negb (Z.land t PTE_P =? 0)).

(** The error or the descriptor; on error [*fd_store] is 0. *)
Fixpoint fd_alloc_from (l : list Z) : U S (Z + Z) :=
  match l with
  | [] => mret (inl (- E_MAX_OPEN))
  | i :: l =>
    let fd := INDEX2FD i in
    m ← va_mapped fd;
    if (m : bool) then fd_alloc_from l else mret (inr fd)
  end.

Definition fd_alloc : U S (Z + Z) := fd_alloc_from (seqZ 0 MAXFD).

Definition fd_lookup (fdnum : Z) : U S (Z + Z) :=
  if (fdnum <? 0) || (MAXFD <=? fdnum) then mret (inl (- E_INVAL))
  else
    let fd := INDEX2FD fdnum in
    m ← va_mapped fd;
    if (m : bool) then mret (inr fd) else mret (inl (- E_INVAL)).

(** [struct Dev]; [dev_ptr] is its address. *)
Record Dev := mkDev {
  dev_id : Z;
  dev_ptr : Z;
  dev_read : option (Z → Z → Z → U S Z);
  dev_write : option (Z → Z → Z → U S Z);
  dev_close : option (Z → U S Z);
  dev_stat : option (Z → Z → U S Z);
  dev_trunc : option (Z → Z → U S Z);
}.

Context (devtab : list Dev).

Definition dev_lookup (id : Z) : Z + Dev :=
  match list_find (λ d, dev_id d = id) devtab with
  | Some (_, d) => inr d
  | None => inl (- E_INVAL)
  end.

Definition fd_close (fd : Z) (must_exist : bool) : U S Z :=
  l ← fd_lookup (fd2num fd);
  match l with
  | inl r => mret (if must_exist then r else 0)
  | inr fd2 =>
    if negb (fd =? fd2) then mret 0
    else
      id ← uload32 (fd_dev_id fd);
      r ← match dev_lookup (s32 id) with
          | inl r => mret r
          | inr dev => match dev_close dev with Some f => f fd | None => mret 0 end
          end;
      _ ← sys_page_unmap 0 fd;
      mret r
  end.

Definition close (fdnum : Z) : U S Z :=
  l ← fd_lookup fdnum;
  match l with inl r => mret r | inr fd => fd_close fd true end.

Definition close_all : U S unit := mfor (seqZ 0 MAXFD) (λ i, _ ← close i; mret tt).

Definition dup_err (newfd nva r : Z) : U S Z :=
  _ ← sys_page_unmap 0 newfd; _ ← sys_page_unmap 0 nva; mret r.

(** The part of [dup] after the new descriptor has been closed. *)
Definition dup_pages (oldfd newfdnum : Z) : U S Z :=
  let newfd := INDEX2FD newfdnum in
  let ova := fd2data oldfd in
  let nva := fd2data newfd in
  m ← va_mapped ova;
  r ← (if (m : bool) then t ← uvpt (PGNUM ova); sys_page_map 0 ova 0 nva (Z.land t PTE_SYSCALL) else mret 0);
  if r <? 0 then dup_err newfd nva r
  else
    t ← uvpt (PGNUM oldfd);
    r ← sys_page_map 0 oldfd 0 newfd (Z.land t PTE_SYSCALL);
    if r <? 0 then dup_err newfd nva r else mret newfdnum.

Definition dup (oldfdnum newfdnum : Z) : U S Z :=
  l ← fd_lookup oldfdnum;
  match l with
  | inl r => mret r
  | inr oldfd => _ ← close newfdnum; dup_pages oldfd newfdnum
  end.

(** The descriptor and its device, for the operations below. *)
Definition fd_dev (fdnum : Z) : U S (Z + Z * Dev) :=
  l ← fd_lookup fdnum;
  match l with
  | inl r => mret (inl r)
  | inr fd =>
    id ← uload32 (fd_dev_id fd);
    mret (match dev_lookup (s32 id) with inl r => inl r | inr dev => inr (fd, dev) end)
  end.

Definition read (fdnum buf n : Z) : U S Z :=
  l ← fd_dev fdnum;
  match l with
  | inl r => mret r
  | inr (fd, dev) =>
    mode ← uload32 (fd_omode fd);
    if Z.land mode O_ACCMODE =? O_WRONLY then mret (- E_INVAL)
    else match dev_read dev with None => mret (- E_NOT_SUPP) | Some f => f fd buf n end
  end.

Fixpoint readn_loop (fuel : nat) (fdnum buf n tot : Z) : U S Z :=
  match fuel with
  | O => stop (UKernel OutOfFuel)
  | Datatypes.S fuel' =>
    if tot <? n then
      m ← read fdnum (u32 (buf + tot)) (n - tot);
      if m <? 0 then mret m
      else if m =? 0 then mret tot
      else readn_loop fuel' fdnum buf n (tot + m)
    else mret tot
  end.

Definition readn (fdnum buf n : Z) : U S Z := readn_loop (Z.to_nat (n + 1)) fdnum buf n 0.

Definition write (fdnum buf n : Z) : U S Z :=
  l ← fd_dev fdnum;
  match l with
  | inl r => mret r
  | inr (fd, dev) =>
    mode ← uload32 (fd_omode fd);
    if Z.land mode O_ACCMODE =? O_RDONLY then mret (- E_INVAL)
    else match dev_write dev with None => mret (- E_NOT_SUPP) | Some f => f fd buf n end
  end.

Definition seek (fdnum offset : Z) : U S Z :=
  l ← fd_lookup fdnum;
  match l with
  | inl r => mret r
  | inr fd => ustore32 (fd_offset fd) (u32 offset);; mret 0
  end.

Definition ftruncate (fdnum newsize : Z) : U S Z :=
  l ← fd_dev fdnum;
  match l with
  | inl r => mret r
  | inr (fd, dev) =>
    mode ← uload32 (fd_omode fd);
    if Z.land mode O_ACCMODE =? O_RDONLY then mret (- E_INVAL)
    else match dev_trunc dev with None => mret (- E_NOT_SUPP) | Some f => f fd newsize end
  end.

(** [struct Stat]: 128 bytes of name, then size, directory flag, device. *)
Definition fstat (fdnum stat : Z) : U S Z :=
  l ← fd_dev fdnum;
  match l with
  | inl r => mret r
  | inr (fd, dev) =>
    match dev_stat dev with
    | None => mret (- E_NOT_SUPP)
    | Some f =>
      ustore8 stat 0;;
      ustore32 (stat + 128) 0;;
      ustore32 (stat + 132) 0;;
      ustore32 (stat + 136) (dev_ptr dev);;
      f fd stat
    end
  end.
End fd.
Arguments Dev S : clear implicits.

(** ** [lib/pipe.c]: [pipe] and [devpipe_close] *)

Definition devpipe_id : Z := 0x70.

Section pipe.
Context {S : Type} `{Machine S}.

Definition PIPE_PERM : Z := Z.lor (Z.lor (Z.lor PTE_P PTE_W) PTE_U) PTE_SHARE.

(** The pages: unmapped again in reverse when one cannot be had. *)
Definition pipe_pages (fd0 : Z) : U S (Z + Z) :=
  let err1 r := _ ← sys_page_unmap 0 fd0; mret (inl r) in
  l ← fd_alloc;
  match l with
  | inl r => err1 r
  | inr fd1 =>
    r ← sys_page_alloc 0 fd1 PIPE_PERM;
    if r <? 0 then err1 r
    else
      let err2 r := _ ← sys_page_unmap 0 fd1; err1 r in
      let va := fd2data fd0 in
      r ← sys_page_alloc 0 va PIPE_PERM;
      if r <? 0 then err2 r
      else
        r ← sys_page_map 0 va 0 (fd2data fd1) PIPE_PERM;
        if r <? 0 then _ ← sys_page_unmap 0 va; err2 r
        else mret (inr fd1)
  end.

(** The error, or the two descriptors [pfd]. *)
Definition pipe : U S (Z + Z * Z) :=
  l ← fd_alloc;
  match l with
  | inl r => mret (inl r)
  | inr fd0 =>
    r ← sys_page_alloc 0 fd0 PIPE_PERM;
    if r <? 0 then mret (inl r)
    else
      l ← pipe_pages fd0;
      match l with
      | inl r => mret (inl r)
      | inr fd1 =>
        ustore32 (fd_dev_id fd0) devpipe_id;;
        ustore32 (fd_omode fd0) O_RDONLY;;
        ustore32 (fd_dev_id fd1) devpipe_id;;
        ustore32 (fd_omode fd1) O_WRONLY;;
        mret (inr (fd2num fd0, fd2num fd1))
      end
  end.

Definition devpipe_close (fd : Z) : U S Z := _ ← sys_page_unmap 0 fd; sys_page_unmap 0 (fd2data fd).

(** The comparison is made again until the environment has not been put on
    a processor in between ([thisenv] is the index of the environment). *)
Fixpoint _pipeisclosed (thisenv : Z) (fuel : nat) (fd p : Z) : U S bool :=
  match fuel with
  | O => stop (UKernel OutOfFuel)
  | Datatypes.S fuel' =>
    e ← uenvs thisenv;
    a ← pageref fd; b ← pageref p;
    e' ← uenvs thisenv;
    if env_runs e =? env_runs e' then mret (a =? b) else _pipeisclosed thisenv fuel' fd p
  end.

Definition pipeisclosed (thisenv : Z) (fuel : nat) (fdnum : Z) : U S (Z + bool) :=
  l ← fd_lookup fdnum;
  match l with
  | inl r => mret (inl r)
  | inr fd => b ← _pipeisclosed thisenv fuel fd (fd2data fd); mret (inr b)
  end.

End pipe.
