(* ===== verification/FdSpec.v ===== *)
(** * File descriptors: theorems

    Against [UserVm]: [fd_alloc] finds the first closed descriptor; [dup]
    makes two descriptors one object, so that they share the seek position;
    [pipe] makes two that share a page; and where [dup] goes wrong. *)

From S2P Require Import Prelude Mmu Console KState AddrSpace Syscall SyscallSpec UserLib UserVm Fd.
Open Scope Z_scope.

(** The page of descriptor [i], and of its data. *)
Definition fdpn (i : Z) : Z := 0xD0000 + i.
Definition datapn (i : Z) : Z := 0xD0020 + i.

Ltac fdconst := unfold fd2data, fd2num, INDEX2FD, INDEX2DATA, fdpn, datapn, upn in *;
  change FILEDATA with 0xD0020000 in *; change FDTABLE with 0xD0000000 in *;
  change NUPAGES with 0xEEC00 in *; change MAXFD with 32 in *; unfold PGSIZE in *.

Lemma INDEX2FD_page i : 0 <= i <= MAXFD → INDEX2FD i = fdpn i * PGSIZE ∧ upn (fdpn i).
Proof. intros Hi. fdconst. rewrite u32_small; lia. Qed.

Lemma fdpn_upn i : 0 <= i <= MAXFD → upn (fdpn i).
Proof. intros Hi. fdconst. lia. Qed.

Lemma datapn_upn i : 0 <= i <= MAXFD → upn (datapn i).
Proof. intros Hi. fdconst. lia. Qed.

Lemma fd2num_page i : 0 <= i <= MAXFD → fd2num (fdpn i * PGSIZE) = i.
Proof. intros Hi. fdconst. rewrite u32_small; Z.to_euclidean_division_equations; lia. Qed.

Lemma data_page i : 0 <= i <= MAXFD → fd2data (fdpn i * PGSIZE) = datapn i * PGSIZE ∧ upn (datapn i).
Proof. intros Hi. unfold fd2data. rewrite fd2num_page by done. fdconst. rewrite u32_small; lia. Qed.

Section fdspec.
Context {S : Type} `{UserVm S}.
Implicit Types s : S.

Abbreviation umap s pn := (uv_map s (uv_self s) pn).

Lemma va_mapped_eq s n pn : uv_ok s n → upn pn →
  va_mapped (pn * PGSIZE) s = (Ret (bool_decide (is_Some (umap s pn))), s).
Proof.
  intros Hok Hpn. unfold va_mapped. destruct (upn_index pn Hpn) as [-> ->].
  destruct (uv_uvpt s n pn Hok Hpn) as (d & Hd & Hx). mrun (exact Hd). unfold flag in Hx.
  destruct (Z.land d PTE_P =? 0); cbn [negb] in Hx; [by rewrite Hx|].
  destruct Hx as (t & Ht & Hm). mrun (exact Ht). rewrite Hm. by destruct (Z.land t PTE_P =? 0).
Qed.

(** Descriptor [i] is open. *)
Definition fd_open (s : S) (i : Z) : Prop := is_Some (umap s (fdpn i)).

Lemma fd_lookup_eq s n i : uv_ok s n →
  fd_lookup i s = (Ret (if bool_decide (0 <= i < MAXFD ∧ fd_open s i) then inr (fdpn i * PGSIZE) else inl (- E_INVAL)), s).
Proof.
  intros Hok. unfold fd_lookup.
  destruct (Z.ltb_spec i 0) as [|H1]; cbn [orb]; [by rewrite bool_decide_eq_false_2 by lia|].
  destruct (Z.leb_spec MAXFD i) as [|H2]; [by rewrite bool_decide_eq_false_2 by lia|].
  destruct (INDEX2FD_page i ltac:(lia)) as [-> Hu]. mrun (by apply (va_mapped_eq s n)). unfold fd_open.
  destruct (umap s (fdpn i)) as [t|] eqn:Ht.
  - by rewrite !bool_decide_eq_true_2 by (split_and?; (done || lia)).
  - rewrite (bool_decide_eq_false_2 (is_Some None)) by (by intros [??]).
    by rewrite bool_decide_eq_false_2 by (by intros [_ [??]]).
Qed.

Lemma fd_alloc_from_spec s n a k : uv_ok s n → 0 <= a → 0 <= k → a + k = MAXFD →
  ∃ r, fd_alloc_from (seqZ a k) s = (Ret r, s) ∧
    match r with
    | inr fd => ∃ i, a <= i < MAXFD ∧ fd = fdpn i * PGSIZE ∧ umap s (fdpn i) = None ∧ ∀ j, a <= j < i → fd_open s j
    | inl e => e = - E_MAX_OPEN ∧ ∀ j, a <= j < MAXFD → fd_open s j
    end.
Proof.
  intros Hok Ha Hk. revert a Ha. pattern k. apply natlike_ind; [..|done].
  - intros a Ha He. exists (inl (- E_MAX_OPEN)). split; [done|]. split; [done|]. intros j. lia.
  - clear k Hk. intros k Hk IH a Ha He. rewrite seqZ_cons by lia. cbn [fd_alloc_from].
    destruct (INDEX2FD_page a ltac:(lia)) as [-> Hu]. mrun (by apply (va_mapped_eq s n)).
    destruct (umap s (fdpn a)) as [t|] eqn:Ht.
    + rewrite bool_decide_eq_true_2 by done. replace (Z.pred (Z.succ k)) with k by lia.
      destruct (IH (Z.succ a) ltac:(lia) ltac:(lia)) as (r & Hr & Hspec). exists r. split; [exact Hr|].
      assert (Hopen : fd_open s a) by (by exists t).
      destruct r as [e|fd].
      * destruct Hspec as [-> Hall]. split; [done|]. intros j Hj. destruct (decide (j = a)) as [->|]; [done|]. apply Hall. lia.
      * destruct Hspec as (i & Hi & -> & Hn & Hall). exists i. split; [lia|]. split; [done|]. split; [done|].
        intros j Hj. destruct (decide (j = a)) as [->|]; [done|]. apply Hall. lia.
    + rewrite bool_decide_eq_false_2 by (by intros [??]). exists (inr (fdpn a * PGSIZE)). split; [done|].
      exists a. split; [lia|]. split; [done|]. split; [done|]. intros j. lia.
Qed.

(** ** [dup] *)

(** A mapping as [sys_page_map] copies it with its own permissions. *)
Definition copied (t : Z) : Z := PGNUM t * 4096 + Z.land t PTE_SYSCALL.

Lemma copied_frame s n e pn t : uv_ok s n → upn pn → uv_map s e pn = Some t → PGNUM (copied t) = PGNUM t.
Proof.
  intros Hok Hpn Ht. destruct (uv_entry s n e pn t Hok Hpn Ht) as [[Hr _] _]. apply pgnum_entry. by apply syscall_bits.
Qed.

(** Sharing page [pn1] at [pn2] with its own permissions. *)
Lemma share_page s n pn1 pn2 t :
  0 <= n → uv_ok s (n + 1) → upn pn1 → upn pn2 → umap s pn1 = Some t → flag t PTE_U = true → 1 <= uv_free s →
  ∃ s', sys_page_map 0 (pn1 * PGSIZE) 0 (pn2 * PGSIZE) (Z.land t PTE_SYSCALL) s = (Ret 0, s') ∧
    uv_ok s' n ∧ uv_same s s' ∧ uv_same_env s s' ∧ uv_free s - 1 <= uv_free s' ∧
    uv_update s s' (uv_self s) pn2 (Some (copied t)) ∧ uv_kept s s'.
Proof.
  intros Hn Hok Hp1 Hp2 Ht HU Hf. pose proof (uv_self_name s _ Hok) as Hid.
  destruct (uv_entry s _ _ pn1 t Hok Hp1 Ht) as [_ HP].
  apply (uv_share s n 0 (uv_self s) pn1 0 (uv_self s) pn2 _ t); try done; [by apply share_perm_ok|].
  apply flag_syscall.
Qed.

(** The address space after the pages of [o] are shared as those of [w]. *)
Definition dupped_fd (s : S) (o w e pn : Z) : option Z :=
  if decide (e = uv_self s ∧ pn = fdpn w) then copied <$> umap s (fdpn o)
  else if decide (e = uv_self s ∧ pn = datapn w ∧ is_Some (umap s (datapn o))) then copied <$> umap s (datapn o)
  else uv_map s e pn.

Lemma dup_pages_spec s n o w t :
  0 <= n → uv_ok s (n + 2) → 2 <= uv_free s → 0 <= o < MAXFD → 0 <= w <= MAXFD →
  umap s (fdpn o) = Some t → flag t PTE_U = true →
  (∀ td, umap s (datapn o) = Some td → flag td PTE_U = true) →
  ∃ s', dup_pages (fdpn o * PGSIZE) w s = (Ret w, s') ∧
    uv_ok s' n ∧ uv_same s s' ∧ uv_same_env s s' ∧
    (∀ e pn, upn pn → uv_map s' e pn = dupped_fd s o w e pn) ∧ uv_kept s s'.
Proof.
  intros Hn Hok Hf Ho Hw Ht HU HD. unfold dup_pages.
  destruct (INDEX2FD_page w Hw) as [-> Hwu]. destruct (data_page w Hw) as [-> Hwd].
  destruct (INDEX2FD_page o ltac:(lia)) as [_ Hou]. destruct (data_page o ltac:(lia)) as [-> Hod].
  assert (Hne : fdpn o ≠ datapn w) by (clear - Ho Hw; fdconst; lia).
  assert (Hne2 : fdpn w = datapn w → False) by (clear; fdconst; lia).
  destruct (upn_index _ Hod) as [_ ->]. destruct (upn_index _ Hou) as [_ ->].
  mrun (by apply (va_mapped_eq s (n + 2))).
  assert (Hfirst : ∃ s1, (if bool_decide (is_Some (umap s (datapn o)))
      then t ← uvpt (datapn o); sys_page_map 0 (datapn o * PGSIZE) 0 (datapn w * PGSIZE) (Z.land t PTE_SYSCALL)
      else mret 0) s = (Ret 0, s1) ∧ uv_ok s1 (n + 1) ∧ uv_same s s1 ∧ uv_same_env s s1 ∧ 1 <= uv_free s1 ∧
      (∀ e pn, upn pn → uv_map s1 e pn =
         if decide (e = uv_self s ∧ pn = datapn w ∧ is_Some (umap s (datapn o))) then copied <$> umap s (datapn o)
         else uv_map s e pn) ∧ uv_kept s s1).
  { destruct (umap s (datapn o)) as [td|] eqn:Htd.
    - rewrite bool_decide_eq_true_2 by done.
      destruct (uvpt_mapped s _ _ td Hok Hod Htd) as (_ & _ & _ & Hrd & _). mrun (exact Hrd).
      destruct (share_page s (n + 1) (datapn o) (datapn w) td) as (s1 & R & ? & ? & ? & ? & HU1 & ?); try done; [lia| |by apply HD|lia|].
      { by replace (n + 1 + 1) with (n + 2) by lia. }
      exists s1. split; [exact R|]. split; [done|]. split; [done|]. split; [done|]. split; [lia|]. split; [|done].
      intros e pn Hpn. rewrite HU1 by done. destruct (decide (e = uv_self s ∧ pn = datapn w)) as [[-> ->]|Hd].
      + by rewrite decide_True.
      + by rewrite decide_False by tauto.
    - rewrite bool_decide_eq_false_2 by (by intros [??]). exists s.
      split; [done|]. split; [eapply uv_mono; [done|lia]|]. split; [done|]. split; [done|]. split; [lia|]. split; [|done].
      intros e pn Hpn. rewrite decide_False; [done|]. by intros (_ & _ & [??]). }
  destruct Hfirst as (s1 & R1 & Hok1 & Sm1 & En1 & Fr1 & M1 & K1). mrun (exact R1). cbn [Z.ltb Z.compare].
  assert (Ht1 : umap s1 (fdpn o) = Some t).
  { rewrite (proj1 Sm1), M1 by done. by rewrite decide_False by tauto. }
  destruct (uvpt_mapped s1 _ _ t Hok1 Hou Ht1) as (_ & _ & _ & Hrd & _). mrun (exact Hrd).
  destruct (share_page s1 n (fdpn o) (fdpn w) t) as (s2 & R2 & Hok2 & Sm2 & En2 & Fr2 & HU2 & K2); try done.
  mrun (exact R2). cbn [Z.ltb Z.compare]. exists s2. split; [done|]. split; [done|].
  split; [by eapply uv_same_trans|]. split; [intros e; by rewrite En2|]. split.
  - intros e pn Hpn. rewrite HU2, M1 by done. unfold dupped_fd. by rewrite (proj1 Sm1), Ht.
  - intros g k Hg Hg2 Hk. assert (Hg1 : uv_mapped s1 g).
    { destruct Hg2 as (e & pn & t' & Hpn & Ht' & Hgg). rewrite HU2 in Ht' by done. revert Ht'.
      destruct (decide (e = uv_self s1 ∧ pn = fdpn w)); [|intros Ht'; by exists e, pn, t'].
      intros [= <-]. rewrite (copied_frame s1 (n + 1) (uv_self s1) (fdpn o)) in Hgg by done. rewrite <- Hgg.
      exact (mapped_at _ _ _ _ Hou Ht1). }
    rewrite (K2 g k) by done. by apply K1.
Qed.

Lemma copied_flag s n e pn t k :
  uv_ok s n → upn pn → uv_map s e pn = Some t → 0 <= k < 12 →
  flag (copied t) (2 ^ k) = flag t (2 ^ k) && Z.testbit PTE_SYSCALL k.
Proof.
  intros Hok Hpn Ht Hk. destruct (uv_entry s n e pn t Hok Hpn Ht) as [[Hr _] _]. unfold copied.
  rewrite flag_frame by (done || by apply syscall_bits). by rewrite Z.land_spec, flag_pow2 by lia.
Qed.

(** A store of a word, and what it reads back. *)
Lemma store_field s n pn k t v :
  uv_ok s n → upn pn → 0 <= k → k + 4 <= PGSIZE → umap s pn = Some t → flag t PTE_U = true → flag t PTE_W = true →
  is_u32 v →
  ∃ s', ustore32 (pn * PGSIZE + k) v s = (Ret tt, s') ∧ uv_quiet n s s' ∧ uv_word s' (PGNUM t) k = v ∧
    ∀ g k', 0 <= k' < 4096 → ¬ (g = PGNUM t ∧ k <= k' < k + 4) → uv_byte s' g k' = uv_byte s g k'.
Proof.
  intros Hok Hpn Hk Hk4 Ht HU HW Hv. destruct (ustore32_eq s n pn k t v) as (s' & R & Q & B); try done.
  exists s'. split; [done|]. split; [done|]. unfold PGSIZE in Hk4. split.
  - apply word_stored; [done|]. intros i Hi. rewrite B, decide_True by lia. by rewrite Z.add_simpl_l.
  - intros g k' Hk' Hn. rewrite B by done. by rewrite decide_False.
Qed.

Lemma seek_shared s n o w t off :
  uv_ok s n → 0 <= o < MAXFD → 0 <= w < MAXFD → umap s (fdpn o) = Some t → umap s (fdpn w) = Some (copied t) →
  flag t PTE_U = true → flag t PTE_W = true →
  ∃ s', seek w off s = (Ret 0, s') ∧ uload32 (fd_offset (INDEX2FD o)) s' = (Ret (u32 off), s').
Proof.
  intros Hok Ho Hw Ht Htw HU HW. destruct (INDEX2FD_page o ltac:(lia)) as [-> Hou].
  destruct (INDEX2FD_page w ltac:(lia)) as [_ Hwu].
  assert (Hcf : ∀ k, 0 <= k < 12 → flag (copied t) (2 ^ k) = flag t (2 ^ k) && Z.testbit PTE_SYSCALL k).
  { intros k. by apply (copied_flag s n (uv_self s) (fdpn o)). }
  unfold seek. mrun (by apply (fd_lookup_eq s n)). rewrite bool_decide_eq_true_2 by (split; [done|by exists (copied t)]).
  unfold fd_offset. destruct (store_field s n (fdpn w) 4 (copied t) (u32 off)) as (s' & R & (Hok' & (Hs & _) & _ & _ & M) & Hword & _);
    try done; [by change PTE_U with (2 ^ 2) in *; rewrite Hcf, HU by lia|
      by change PTE_W with (2 ^ 1) in *; rewrite Hcf, HW by lia|apply u32_range|].
  mrun (exact R). exists s'. split; [done|].
  rewrite (uload32_eq s' n (fdpn o) 4 t) by (done || by rewrite Hs, M).
  rewrite (copied_frame s n (uv_self s) (fdpn o)) in Hword by done. by rewrite Hword.
Qed.

(** [dup] does not check its second argument: [dup(o, 32)] succeeds, and
    maps the descriptor page of [o] over the data page of descriptor 0. *)
Theorem dup_out_of_range devtab s n o t :
  0 <= n → uv_ok s (n + 2) → 2 <= uv_free s → 0 <= o < MAXFD →
  umap s (fdpn o) = Some t → flag t PTE_U = true → (∀ td, umap s (datapn o) = Some td → flag td PTE_U = true) →
  ∃ s', dup devtab o MAXFD s = (Ret MAXFD, s') ∧ umap s' (datapn 0) = Some (copied t).
Proof.
  intros Hn Hok Hf Ho Ht HU HD.
  destruct (dup_pages_spec s n o MAXFD t) as (s' & R & _ & (Hs & _) & _ & M & _); try done.
  exists s'. unfold dup, close. split.
  - mrun (by apply (fd_lookup_eq s (n + 2))). rewrite bool_decide_eq_true_2 by (split; [done|by exists t]).
    assert (Hcl : (l ← fd_lookup MAXFD; match l with inl r => mret r | inr fd => fd_close devtab fd true end) s = (Ret (- E_INVAL), s)).
    { by mrun (by apply (fd_lookup_eq s (n + 2))). }
    mrun (exact Hcl). exact R.
  - rewrite Hs, M by (by vm_compute). unfold dupped_fd. by rewrite decide_True, Ht.
Qed.

(** ** Closing *)

(** A change that takes pages of the running environment away. *)
Definition takes_away (s s' : S) (P : Z → Prop) : Prop :=
  uv_same s s' ∧ uv_same_env s s' ∧ uv_free s <= uv_free s' ∧ uv_kept s s' ∧
  (∀ e pn t, upn pn → uv_map s' e pn = Some t → uv_map s e pn = Some t) ∧
  (∀ e pn, upn pn → e ≠ uv_self s ∨ ¬ P pn → uv_map s' e pn = uv_map s e pn) ∧
  (∀ pn, upn pn → P pn → umap s' pn = None).

Lemma takes_away_trans s1 s2 s3 (P Q : Z → Prop) :
  takes_away s1 s2 P → takes_away s2 s3 Q → takes_away s1 s3 (λ pn, P pn ∨ Q pn).
Proof.
  intros (Sm1 & En1 & Fr1 & K1 & L1 & E1 & N1) (Sm2 & En2 & Fr2 & K2 & L2 & E2 & N2).
  assert (Hself : uv_self s2 = uv_self s1) by apply Sm1.
  split; [by eapply uv_same_trans|]. split; [intros e; by rewrite En2|]. split; [lia|]. split; [|split_and!].
  - intros g k Hg Hg3 Hk. assert (Hg2 : uv_mapped s2 g).
    { destruct Hg3 as (e & pn & t & Hpn & Ht & Hgg). exists e, pn, t. split; [done|]. split; [by apply L2|done]. }
    rewrite K2 by done. by apply K1.
  - intros e pn t Hpn Ht. by apply L1, L2.
  - intros e pn Hpn He. rewrite E2, E1 by (done || rewrite ?Hself; tauto). done.
  - intros pn Hpn [HP|HQ]; [|by apply N2]. rewrite (proj1 Sm2), Hself. destruct (uv_map s3 (uv_self s1) pn) as [t|] eqn:E; [|done].
    apply L2 in E; [|done]. specialize (N1 pn Hpn HP). rewrite Hself in N1. congruence.
Qed.

(** Unmapping a page of the running environment. *)
Lemma unmap_own s n pn :
  uv_ok s n → upn pn →
  ∃ s', sys_page_unmap 0 (pn * PGSIZE) s = (Ret 0, s') ∧ uv_ok s' n ∧ takes_away s s' (λ pn', pn' = pn) ∧
    (∀ pn' d, upn pn' → uvpd (pn' / 1024) s = (Ret d, s) → uvpd (pn' / 1024) s' = (Ret d, s')).
Proof.
  intros Hok Hpn. pose proof (uv_self_name s n Hok) as Hid.
  destruct (uv_unmap s n 0 (uv_self s) pn Hok Hid Hpn) as (s' & R & Hok' & Sm & En & Fr & HU & K).
  exists s'. split; [done|]. split; [done|]. split; [|intros pn' d Hpn'; by apply (uv_unmap_table s n 0 (uv_self s) pn)].
  split; [done|]. split; [done|]. split; [done|]. split; [done|]. split_and!.
  - intros e pn' t Hpn'. rewrite HU by done. by destruct (decide _).
  - intros e pn' Hpn' He. rewrite HU by done. by rewrite decide_False by tauto.
  - intros pn' Hpn' ->. rewrite (proj1 Sm), HU by done. by rewrite decide_True.
Qed.

Lemma fd_close_pipe devtab dev s n o t :
  uv_ok s n → 0 <= o < MAXFD → umap s (fdpn o) = Some t → flag t PTE_U = true →
  uv_word s (PGNUM t) 0 = devpipe_id → dev_lookup devtab devpipe_id = inr dev → dev_close dev = Some devpipe_close →
  ∃ s', fd_close devtab (fdpn o * PGSIZE) true s = (Ret 0, s') ∧ uv_ok s' n ∧
    takes_away s s' (λ pn, pn = fdpn o ∨ pn = datapn o) ∧
    (∀ pn' d, upn pn' → uvpd (pn' / 1024) s = (Ret d, s) → uvpd (pn' / 1024) s' = (Ret d, s')).
Proof.
  intros Hok Ho Ht HU Hid Hdev Hcl. destruct (INDEX2FD_page o ltac:(lia)) as [_ Hou].
  destruct (data_page o ltac:(lia)) as [Hda Hod]. unfold fd_close. rewrite fd2num_page by lia.
  mrun (by apply (fd_lookup_eq s n)). rewrite bool_decide_eq_true_2 by (split; [done|by exists t]).
  rewrite Z.eqb_refl. cbn [negb]. unfold fd_dev_id.
  assert (R0 : uload32 (fdpn o * PGSIZE) s = (Ret devpipe_id, s)).
  { rewrite <- (Z.add_0_r (fdpn o * PGSIZE)). rewrite (uload32_eq s n (fdpn o) 0 t) by done. by rewrite Hid. }
  mrun (exact R0). change (s32 devpipe_id) with devpipe_id. rewrite Hdev, Hcl.
  destruct (unmap_own s n (fdpn o) Hok Hou) as (s1 & R1 & Hok1 & T1 & D1).
  destruct (unmap_own s1 n (datapn o) Hok1 Hod) as (s2 & R2 & Hok2 & T2 & D2).
  destruct (unmap_own s2 n (fdpn o) Hok2 Hou) as (s3 & R3 & Hok3 & T3 & D3).
  assert (RC : devpipe_close (fdpn o * PGSIZE) s = (Ret 0, s2)).
  { unfold devpipe_close. mrun (exact R1). by rewrite Hda. }
  mrun (exact RC). mrun (exact R3). exists s3. split; [done|]. split; [done|]. split; [|eauto].
  destruct (takes_away_trans _ _ _ _ _ (takes_away_trans _ _ _ _ _ T1 T2) T3) as (? & ? & ? & ? & ? & E & N).
  split_and!; try done.
  - intros e pn Hpn He. apply E; [done|]. tauto.
  - intros pn Hpn HP. apply N; [done|]. tauto.
Qed.

(** Descriptor [w] can be closed: it is not in use, or it is one of a pipe. *)
Definition closable (devtab : list (Dev S)) (s : S) (w : Z) : Prop :=
  umap s (fdpn w) = None ∧ umap s (datapn w) = None ∨
  ∃ tw dev, umap s (fdpn w) = Some tw ∧ flag tw PTE_U = true ∧ uv_word s (PGNUM tw) 0 = devpipe_id ∧
    dev_lookup devtab devpipe_id = inr dev ∧ dev_close dev = Some devpipe_close.

Lemma close_closable devtab s n w : uv_ok s n → 0 <= w < MAXFD → closable devtab s w →
  ∃ r s', close devtab w s = (Ret r, s') ∧ uv_ok s' n ∧ takes_away s s' (λ pn, pn = fdpn w ∨ pn = datapn w).
Proof.
  intros Hok Hw Hc. unfold close.
  erewrite bind_Ret by (by apply (fd_lookup_eq s n)). destruct Hc as [[H1 H2]|(tw & dev & Hm & HU & Hid & Hdev & Hcl)].
  - rewrite bool_decide_eq_false_2 by (intros [_ [? Hx]]; congruence). exists (- E_INVAL), s. split; [done|]. split; [done|].
    split_and!; try done. by intros pn Hpn [-> | ->].
  - rewrite bool_decide_eq_true_2 by (split; [done|by eexists]).
    destruct (fd_close_pipe devtab dev s n w tw) as (s' & R & ? & ? & _); try done. by exists 0, s'.
Qed.

(** C29: [dup(o, w)] for an open descriptor [o] and another descriptor [w] that is
    not in use, or is on a pipe, which is closed.  With two free pages for page
    tables it returns [w], and makes it the same open file as [o]: the pages of
    the two descriptors are the same frames, the old pages of [w] are gone, and
    no other page of any address space and no contents change.  In particular
    the seek position is shared: a [seek] on [w] moves [o]. *)
Theorem dup_correct devtab s n o w t :
  0 <= n → uv_ok s (n + 2) → 2 <= uv_free s → 0 <= o < MAXFD → 0 <= w < MAXFD → o ≠ w →
  umap s (fdpn o) = Some t → flag t PTE_U = true → flag t PTE_W = true →
  (∀ td, umap s (datapn o) = Some td → flag td PTE_U = true) → closable devtab s w →
  ∃ s', dup devtab o w s = (Ret w, s') ∧ uv_ok s' n ∧ uv_kept s s' ∧
    (∀ e pn, upn pn → uv_map s' e pn =
       if decide (e = uv_self s ∧ pn = fdpn w) then Some (copied t)
       else if decide (e = uv_self s ∧ pn = datapn w) then copied <$> umap s (datapn o) else uv_map s e pn) ∧
    ∀ off, ∃ s'', seek w off s' = (Ret 0, s'') ∧ uload32 (fd_offset (INDEX2FD o)) s'' = (Ret (u32 off), s'').
Proof.
  intros Hn Hok Hf Ho Hw Hne Ht HU HW HD Hcw.
  destruct (close_closable devtab s (n + 2) w Hok Hw Hcw) as (r & s1 & Hcl & Hok1 & Sm1 & _ & Fr1 & K1 & L1 & E1 & N1).
  assert (Hself : uv_self s1 = uv_self s) by apply Sm1.
  destruct (INDEX2FD_page o ltac:(lia)) as [_ Hou]. destruct (INDEX2FD_page w ltac:(lia)) as [_ Hwu].
  destruct (data_page o ltac:(lia)) as [_ Hod]. destruct (data_page w ltac:(lia)) as [_ Hwd].
  assert (Ht1 : umap s1 (fdpn o) = Some t) by (rewrite Hself, E1 by (done || right; fdconst; lia); done).
  assert (Hd1 : umap s1 (datapn o) = umap s (datapn o)) by (rewrite Hself; apply E1; [done|right; fdconst; lia]).
  destruct (dup_pages_spec s1 n o w t) as (s' & R & Hok' & (Hs & _) & _ & M & K); try done; [lia|lia|by rewrite Hd1|].
  exists s'. split.
  { unfold dup. mrun (by apply (fd_lookup_eq s (n + 2))). rewrite bool_decide_eq_true_2 by (split; [done|by exists t]).
    mrun (exact Hcl). exact R. }
  assert (HM : ∀ e pn, upn pn → uv_map s' e pn =
       if decide (e = uv_self s ∧ pn = fdpn w) then Some (copied t)
       else if decide (e = uv_self s ∧ pn = datapn w) then copied <$> umap s (datapn o) else uv_map s e pn).
  { intros e pn Hpn. rewrite M by done. unfold dupped_fd. rewrite Ht1, Hd1, Hself.
    destruct (decide (e = uv_self s ∧ pn = fdpn w)); [done|].
    destruct (decide (e = uv_self s ∧ pn = datapn w)) as [[-> ->]|Hd].
    - destruct (umap s (datapn o)) as [td|] eqn:Etd; [by rewrite decide_True|].
      rewrite decide_False by (by intros (_ & _ & [? [=]])). rewrite <- Hself at 1. by apply N1; [|right].
    - rewrite decide_False by tauto. apply E1; [done|]. destruct (decide (e = uv_self s)) as [->|]; [right|by left].
      intros [-> | ->]; tauto. }
  split; [done|]. split; [|split; [done|]].
  - intros g k Hg Hg' Hk. assert (Hg1 : uv_mapped s1 g).
    { destruct Hg' as (e & pn & t' & Hpn & Ht' & Hgg). rewrite M in Ht' by done. revert Ht'. unfold dupped_fd.
      destruct (decide _) as [|_]; [|destruct (decide _) as [|_]; [|intros Ht'; by exists e, pn, t']].
      - rewrite Ht1. intros [= <-]. rewrite (copied_frame s1 (n + 2) (uv_self s1) (fdpn o)) in Hgg by done. rewrite <- Hgg.
        exact (mapped_at _ _ _ _ Hou Ht1).
      - destruct (umap s1 (datapn o)) as [td|] eqn:Etd; [|done]. intros [= <-].
        rewrite (copied_frame s1 (n + 2) (uv_self s1) (datapn o)) in Hgg by done. rewrite <- Hgg. exact (mapped_at _ _ _ _ Hod Etd). }
    rewrite (K g k) by done. by apply K1.
  - intros off. apply (seek_shared s' n o w t); try done; rewrite Hs, Hself, HM by done.
    + rewrite decide_False by (intros [_ ?]; fdconst; lia). by rewrite decide_False by (intros (_ & ?); fdconst; lia).
    + by rewrite decide_True.
Qed.

(** [dup(o, o)], which should do nothing, closes the descriptor: [dup]
    closes its second argument before it maps the pages of the first, finds
    them gone, and returns [-E_INVAL].  Shown for a pipe. *)
Theorem dup_same_closes devtab dev s n o t :
  uv_ok s n → 0 <= o < MAXFD → umap s (fdpn o) = Some t → flag t PTE_U = true →
  uv_word s (PGNUM t) 0 = devpipe_id → dev_lookup devtab devpipe_id = inr dev → dev_close dev = Some devpipe_close →
  ∃ s', dup devtab o o s = (Ret (- E_INVAL), s') ∧ ¬ fd_open s' o ∧ umap s' (datapn o) = None.
Proof.
  intros Hok Ho Ht HU Hid Hdev Hcl. destruct (INDEX2FD_page o ltac:(lia)) as [Hi Hou].
  destruct (data_page o ltac:(lia)) as [Hda Hod].
  destruct (fd_close_pipe devtab dev s n o t) as (s1 & R & Hok1 & (Sm1 & _ & _ & _ & _ & _ & N) & D1); try done.
  assert (Hl : fd_lookup o s = (Ret (inr (fdpn o * PGSIZE)), s)).
  { rewrite (fd_lookup_eq s n) by done. by rewrite bool_decide_eq_true_2 by (split; [done|by exists t]). }
  assert (Hc : close devtab o s = (Ret 0, s1)) by (unfold close; mrun (exact Hl); exact R).
  assert (N1 : umap s1 (fdpn o) = None) by (by apply N; [|left]).
  assert (N2 : umap s1 (datapn o) = None) by (by apply N; [|right]).
  destruct (uvpt_mapped s n _ t Hok Hou Ht) as (d & Hd & Hp & _). apply D1 in Hd; [|done].
  destruct (uv_uvpt s1 n (fdpn o) Hok1 Hou) as (d' & Hd' & Hx). rewrite Hd in Hd'. injection Hd' as <-.
  unfold flag in Hx. rewrite Hp in Hx. cbn [negb] in Hx. destruct Hx as (t1 & Hrd & _).
  pose proof (uv_self_name s1 n Hok1) as Hid1.
  destruct (unmap_own s1 n (fdpn o) Hok1 Hou) as (s2 & R2 & Hok2 & T2 & _).
  destruct (unmap_own s2 n (datapn o) Hok2 Hod) as (s3 & R3 & Hok3 & T3 & _).
  exists s3. unfold dup. split.
  - mrun (exact Hl). mrun (exact Hc). unfold dup_pages. rewrite Hi, Hda.
    mrun (by apply (va_mapped_eq s1 n)). rewrite N2, bool_decide_eq_false_2 by (by intros [??]).
    mrun reflexivity. cbn [Z.ltb Z.compare]. destruct (upn_index _ Hou) as [_ ->]. mrun (exact Hrd).
    mrun (by apply (uv_share_none s1 n 0 (uv_self s1) (fdpn o) 0 (uv_self s1) (fdpn o))).
    change (- E_INVAL <? 0) with true. cbn iota. unfold dup_err. mrun (exact R2). by mrun (exact R3).
  - destruct (takes_away_trans _ _ _ _ _ T2 T3) as (_ & _ & _ & _ & _ & _ & N'). unfold fd_open.
    rewrite !N' by (done || tauto). by split; [intros [? [=]]|].
Qed.

(** ** [pipe] *)

Lemma fd_alloc_first s n i :
  uv_ok s n → 0 <= i < MAXFD → ¬ fd_open s i → (∀ j, 0 <= j < i → fd_open s j) →
  fd_alloc s = (Ret (inr (fdpn i * PGSIZE)), s).
Proof.
  intros Hok Hi Hcl Hop. unfold fd_alloc.
  destruct (fd_alloc_from_spec s n 0 MAXFD Hok) as (r & R & Hr); [done..|]. rewrite R. destruct r as [e|fd].
  - destruct Hr as [_ Hall]. destruct Hcl. by apply Hall.
  - destruct Hr as (i' & Hi' & -> & Hn & Hall). destruct (Z.lt_trichotomy i i') as [Hlt|[->|Hlt]]; [|done|].
    + destruct Hcl. apply Hall. lia.
    + destruct (Hop i' ltac:(lia)) as [? Hx]. congruence.
Qed.

(** A new page of the running environment. *)
Lemma alloc_own s n pn perm :
  uv_ok s (n + 1) → upn pn → perm_ok perm = true → 2 <= uv_free s →
  ∃ s' f, sys_page_alloc 0 (pn * PGSIZE) perm s = (Ret 0, s') ∧ uv_ok s' n ∧ uv_same s s' ∧
    uv_free s - 2 <= uv_free s' ∧ ¬ uv_mapped s f ∧ uv_update s s' (uv_self s) pn (Some (f * 4096 + perm)) ∧
    (∀ k, 0 <= k < 4096 → uv_byte s' f k = 0).
Proof.
  intros Hok Hpn Hperm Hf. destruct (uv_alloc s n 0 (uv_self s) pn perm) as (s' & f & R & ? & ? & _ & ? & ? & _ & ? & ? & _);
    try done; [by eapply uv_self_name|]. by exists s', f.
Qed.

(** The descriptors and the page of a new pipe. *)
Definition piped (s : S) (i j f0 f1 g e pn : Z) : option Z :=
  if decide (e = uv_self s ∧ pn = datapn j) then Some (g * 4096 + PIPE_PERM)
  else if decide (e = uv_self s ∧ pn = datapn i) then Some (g * 4096 + PIPE_PERM)
  else if decide (e = uv_self s ∧ pn = fdpn j) then Some (f1 * 4096 + PIPE_PERM)
  else if decide (e = uv_self s ∧ pn = fdpn i) then Some (f0 * 4096 + PIPE_PERM)
  else uv_map s e pn.

(** A page that takes an unused place hides no page. *)
Lemma update_mapped s s' pn f g :
  upn pn → umap s pn = None → uv_update s s' (uv_self s) pn (Some f) → uv_mapped s g → uv_mapped s' g.
Proof.
  intros Hpn Hn HU (e & pn' & t & Hpn' & Ht & Hg). exists e, pn', t. split; [done|]. split; [|done].
  rewrite HU by done. rewrite decide_False; [done|]. intros [-> ->]. congruence.
Qed.

Lemma pipe_pages_spec s n i j :
  0 <= n → uv_ok s (n + 3) → 5 <= uv_free s → 0 <= i < j → j < MAXFD →
  is_Some (umap s (fdpn i)) → umap s (fdpn j) = None → (∀ x, 0 <= x < j → x ≠ i → fd_open s x) →
  ∃ s' f1 g, pipe_pages (fdpn i * PGSIZE) s = (Ret (inr (fdpn j * PGSIZE)), s') ∧ uv_ok s' n ∧ uv_same s s' ∧
    uv_free s - 5 <= uv_free s' ∧
    ¬ uv_mapped s f1 ∧ ¬ uv_mapped s g ∧ f1 ≠ g ∧ (∀ k, 0 <= k < 4096 → uv_byte s' g k = 0) ∧
    ∀ e pn, upn pn → uv_map s' e pn =
      if decide (e = uv_self s ∧ pn = datapn j) then Some (g * 4096 + PIPE_PERM)
      else if decide (e = uv_self s ∧ pn = datapn i) then Some (g * 4096 + PIPE_PERM)
      else if decide (e = uv_self s ∧ pn = fdpn j) then Some (f1 * 4096 + PIPE_PERM)
      else uv_map s e pn.
Proof.
  intros Hn Hok Hf Hij Hj Hi Hjn Hop. unfold pipe_pages.
  destruct (INDEX2FD_page j ltac:(lia)) as [_ Huj]. destruct (data_page j ltac:(lia)) as [Hdj Huj'].
  destruct (data_page i ltac:(lia)) as [Hdi Hui']. rewrite Hdi.
  assert (R0 : fd_alloc s = (Ret (inr (fdpn j * PGSIZE)), s)).
  { apply (fd_alloc_first s (n + 3) j); [done|lia|intros [? Hx]; congruence|].
    intros x Hx. destruct (decide (x = i)) as [->|]; [done|by apply Hop]. }
  mrun (exact R0).
  destruct (alloc_own s (n + 2) (fdpn j) PIPE_PERM) as (s1 & f1 & R1 & Hok1 & Sm1 & Fr1 & New1 & U1 & Z1);
    [by replace (n + 2 + 1) with (n + 3) by lia|done|done|lia|].
  mrun (exact R1). cbn [Z.ltb Z.compare].
  destruct (alloc_own s1 (n + 1) (datapn i) PIPE_PERM) as (s2 & g & R2 & Hok2 & Sm2 & Fr2 & New2 & U2 & Z2);
    [by replace (n + 1 + 1) with (n + 2) by lia|done|done|lia|].
  mrun (exact R2). cbn [Z.ltb Z.compare]. rewrite Hdj.
  assert (M2 : umap s2 (datapn i) = Some (g * 4096 + PIPE_PERM)).
  { rewrite (proj1 Sm2), U2 by done. by rewrite decide_True. }
  assert (Hpg : PGNUM (g * 4096 + PIPE_PERM) = g) by (by apply pgnum_entry).
  pose proof (uv_self_name s2 _ Hok2) as Hid.
  destruct (uv_share s2 n 0 (uv_self s2) (datapn i) 0 (uv_self s2) (datapn j) PIPE_PERM (g * 4096 + PIPE_PERM))
    as (s3 & R3 & Hok3 & Sm3 & _ & Fr3 & U3 & K3); try done; [|lia|].
  { intros _. change PTE_W with (2 ^ 1). by rewrite flag_frame by (by vm_compute). }
  mrun (exact R3). cbn [Z.ltb Z.compare]. rewrite Hpg in U3. exists s3, f1, g. split; [done|]. split; [done|].
  assert (Es1 : uv_self s1 = uv_self s) by apply Sm1. assert (Es2 : uv_self s2 = uv_self s) by (by rewrite (proj1 Sm2)).
  split; [by eapply uv_same_trans; [|done]; eapply uv_same_trans|]. split; [lia|]. split; [done|].
  split; [intros Hm; apply New2; by apply (update_mapped s s1 (fdpn j) (f1 * 4096 + PIPE_PERM))|]. split; [|split].
  - intros <-. apply New2. rewrite <- (pgnum_entry f1 PIPE_PERM) by done. apply (mapped_at _ (uv_self s) (fdpn j)); [done|].
    rewrite U1 by done. by rewrite decide_True.
  - intros k Hk. rewrite (K3 g k); [by apply Z2|..|done].
    + rewrite <- Hpg. exact (mapped_at _ _ _ _ Hui' M2).
    + exists (uv_self s2), (datapn j), (g * 4096 + PIPE_PERM). split; [done|]. split; [|done].
      rewrite U3 by done. by rewrite decide_True.
  - intros e pn Hpn. by rewrite U3, U2, U1, Es2, Es1 by done.
Qed.

Lemma piped_data s i j f0 f1 g :
  0 <= i < j → piped s i j f0 f1 g (uv_self s) (datapn i) = Some (g * 4096 + PIPE_PERM).
Proof.
  intros Hij. unfold piped. rewrite decide_False by (intros [_ ?]; fdconst; lia). by rewrite decide_True.
Qed.

Lemma piped_old s i j f0 f1 g e pn :
  pn ≠ fdpn i → pn ≠ fdpn j → pn ≠ datapn i → pn ≠ datapn j → piped s i j f0 f1 g e pn = uv_map s e pn.
Proof. intros. unfold piped. by rewrite !decide_False by tauto. Qed.

Lemma piped_fds s i j f0 f1 g :
  0 <= i < j → j < MAXFD →
  piped s i j f0 f1 g (uv_self s) (fdpn i) = Some (f0 * 4096 + PIPE_PERM) ∧
  piped s i j f0 f1 g (uv_self s) (fdpn j) = Some (f1 * 4096 + PIPE_PERM).
Proof.
  intros Hij Hj. unfold piped. assert (Hd : ∀ x y, x < MAXFD → 0 <= y → fdpn x ≠ datapn y) by (intros; fdconst; lia).
  assert (fdpn i ≠ fdpn j) by (fdconst; lia). split.
  - rewrite !(decide_False (P := _ ∧ fdpn i = _)) by (intros [_ ?]; (done || (eapply Hd; [| |done]; lia))).
    by rewrite decide_True.
  - rewrite (decide_False (P := _ ∧ fdpn j = datapn j)) by (intros [_ ?]; eapply Hd; [| |done]; lia).
    rewrite (decide_False (P := _ ∧ fdpn j = datapn i)) by (intros [_ ?]; eapply Hd; [| |done]; lia).
    by rewrite decide_True.
Qed.

(** The fields [pipe] sets in a descriptor. *)
Lemma fd_fields s n pn f mode :
  uv_ok s n → upn pn → umap s pn = Some (f * 4096 + PIPE_PERM) → is_u32 mode →
  ∃ s1 s2, ustore32 (fd_dev_id (pn * PGSIZE)) devpipe_id s = (Ret tt, s1) ∧
    ustore32 (fd_omode (pn * PGSIZE)) mode s1 = (Ret tt, s2) ∧ uv_quiet n s s2 ∧
    uv_word s2 f 0 = devpipe_id ∧ uv_word s2 f 8 = mode ∧
    ∀ g k, 0 <= k < 4096 → g ≠ f → uv_byte s2 g k = uv_byte s g k.
Proof.
  intros Hok Hpn Ht Hm. assert (Hg : PGNUM (f * 4096 + PIPE_PERM) = f) by (by apply pgnum_entry).
  assert (FU : flag (f * 4096 + PIPE_PERM) PTE_U = true ∧ flag (f * 4096 + PIPE_PERM) PTE_W = true).
  { change PTE_U with (2 ^ 2). change PTE_W with (2 ^ 1). by rewrite !flag_frame by (by vm_compute). }
  destruct FU as [FU FW]. unfold fd_dev_id, fd_omode.
  destruct (store_field s n pn 0 (f * 4096 + PIPE_PERM) devpipe_id) as (s1 & R1 & Q1 & W1 & B1); try done.
  rewrite Z.add_0_r in R1. rewrite Hg in W1, B1. pose proof Q1 as (Hok1 & Sm1 & _ & _ & M1).
  destruct (store_field s1 n pn 8 (f * 4096 + PIPE_PERM) mode) as (s2 & R2 & Q2 & W2 & B2); try done.
  { by rewrite (proj1 Sm1), M1. }
  rewrite Hg in W2, B2. exists s1, s2. split; [done|]. split; [done|]. split; [by eapply uv_quiet_trans|].
  split; [|split; [done|]].
  - rewrite <- W1. unfold uv_word. by rewrite !B2 by lia.
  - intros g k Hk Hne. by rewrite B2, B1 by (done || tauto).
Qed.

Lemma pipe_spec s n i j :
  0 <= n → uv_ok s (n + 4) → 7 <= uv_free s → 0 <= i < j → j < MAXFD →
  ¬ fd_open s i → ¬ fd_open s j → (∀ x, 0 <= x < j → x ≠ i → fd_open s x) →
  ∃ s' f0 f1 g, pipe s = (Ret (inr (i, j)), s') ∧ uv_ok s' n ∧ uv_same s s' ∧ uv_free s - 7 <= uv_free s' ∧
    (∀ e pn, upn pn → uv_map s' e pn = piped s i j f0 f1 g e pn) ∧
    ¬ uv_mapped s f0 ∧ ¬ uv_mapped s f1 ∧ ¬ uv_mapped s g ∧ f0 ≠ f1 ∧ f0 ≠ g ∧ f1 ≠ g ∧
    uv_word s' f0 0 = devpipe_id ∧ uv_word s' f0 8 = O_RDONLY ∧
    uv_word s' f1 0 = devpipe_id ∧ uv_word s' f1 8 = O_WRONLY ∧
    ∀ k, 0 <= k < 4096 → uv_byte s' g k = 0.
Proof.
  intros Hn Hok Hf Hij Hj Hci Hcj Hop. unfold pipe.
  destruct (INDEX2FD_page i ltac:(lia)) as [_ Hui]. destruct (INDEX2FD_page j ltac:(lia)) as [_ Huj].
  assert (Hni : umap s (fdpn i) = None) by (destruct (umap s (fdpn i)) eqn:E; [by destruct Hci; exists z|done]).
  assert (Hnj : umap s (fdpn j) = None) by (destruct (umap s (fdpn j)) eqn:E; [by destruct Hcj; exists z|done]).
  assert (Hfn : fdpn i ≠ fdpn j) by (clear - Hij; fdconst; lia).
  mrun (apply (fd_alloc_first s (n + 4) i); [done|lia|done|intros x Hx; apply Hop; lia]).
  destruct (alloc_own s (n + 3) (fdpn i) PIPE_PERM) as (s1 & f0 & R1 & Hok1 & Sm1 & Fr1 & New1 & U1 & Z1);
    [by replace (n + 3 + 1) with (n + 4) by lia|done|done|lia|].
  mrun (exact R1). cbn [Z.ltb Z.compare]. assert (Es1 : uv_self s1 = uv_self s) by apply Sm1.
  assert (M1 : ∀ pn, upn pn → umap s1 pn = if decide (pn = fdpn i) then Some (f0 * 4096 + PIPE_PERM) else umap s pn).
  { intros pn Hpn. rewrite Es1, U1 by done. destruct (decide (pn = fdpn i)) as [->|]; [by rewrite decide_True|].
    by rewrite decide_False by tauto. }
  destruct (pipe_pages_spec s1 n i j) as (s2 & f1 & g & R2 & Hok2 & Sm2 & Fr2 & New2 & New3 & Hne & Z2 & M2); try done.
  { lia. } { rewrite M1, decide_True by done. by eexists. } { by rewrite M1, decide_False. }
  { intros x Hx Hxi. destruct (Hop x Hx Hxi) as [t Ht]. exists t. rewrite M1 by (apply INDEX2FD_page; lia).
    rewrite decide_False; [done|]. intros He. rewrite He in Ht. congruence. }
  mrun (exact R2). rewrite Es1 in M2.
  assert (Hup : ∀ f, ¬ uv_mapped s1 f → ¬ uv_mapped s f ∧ f0 ≠ f).
  { intros f Hf'. split; [intros Hm; apply Hf'; by apply (update_mapped s s1 (fdpn i) (f0 * 4096 + PIPE_PERM))|].
    intros <-. apply Hf'. rewrite <- (pgnum_entry f0 PIPE_PERM) by done. apply (mapped_at _ (uv_self s) (fdpn i)); [done|].
    rewrite U1 by done. by rewrite decide_True. }
  destruct (Hup f1 New2) as [Nf1 Df1], (Hup g New3) as [Ng Dg].
  assert (MP : ∀ e pn, upn pn → uv_map s2 e pn = piped s i j f0 f1 g e pn).
  { intros e pn Hpn. rewrite M2, U1 by done. unfold piped. by repeat case_decide. }
  assert (Es2 : uv_self s2 = uv_self s) by (by rewrite (proj1 Sm2)).
  assert (T0 : umap s2 (fdpn i) = Some (f0 * 4096 + PIPE_PERM)) by (rewrite Es2, MP by done; by apply piped_fds).
  assert (T1 : umap s2 (fdpn j) = Some (f1 * 4096 + PIPE_PERM)) by (rewrite Es2, MP by done; by apply piped_fds).
  destruct (fd_fields s2 n (fdpn i) f0 O_RDONLY) as (s3 & s4 & R3 & R4 & (Hok4 & Sm4 & _ & Fr4 & M4) & W0 & W8 & B4); try done.
  destruct (fd_fields s4 n (fdpn j) f1 O_WRONLY) as (s5 & s6 & R5 & R6 & (Hok6 & Sm6 & _ & Fr6 & M6) & W0' & W8' & B6); try done.
  { by rewrite (proj1 Sm4), M4. }
  mrun (exact R3). mrun (exact R4). mrun (exact R5). mrun (exact R6). rewrite !fd2num_page by lia.
  exists s6, f0, f1, g. split; [done|]. split; [done|].
  split; [eapply uv_same_trans; [|done]; eapply uv_same_trans; [|done]; by eapply uv_same_trans|].
  split; [lia|]. split; [intros e pn Hpn; by rewrite M6, M4, MP|].
  assert (Hword : ∀ k, 0 <= k → k + 4 <= 4096 → uv_word s6 f0 k = uv_word s4 f0 k).
  { intros k Hk Hk4. unfold uv_word. by rewrite !B6 by (done || lia). }
  rewrite !Hword by lia. split_and!; try done.
  intros k Hk. rewrite B6, B4 by done. by apply Z2.
Qed.

(** [pipe], when descriptors [i] and [j] are the first two that are closed,
    opens them as the reading and the writing end of a new pipe: each has a
    new descriptor page of the pipe's device, and they share a new page of
    zeros, an empty buffer; nothing else of any address space changes. *)
Theorem pipe_correct s n i j :
  0 <= n → uv_ok s (n + 4) → 7 <= uv_free s → 0 <= i < j → j < MAXFD →
  ¬ fd_open s i → ¬ fd_open s j → (∀ x, 0 <= x < j → x ≠ i → fd_open s x) →
  ∃ s' f0 f1 g, pipe s = (Ret (inr (i, j)), s') ∧ uv_ok s' n ∧ uv_same s s' ∧ uv_free s - 7 <= uv_free s' ∧
    (∀ e pn, upn pn → uv_map s' e pn = piped s i j f0 f1 g e pn) ∧
    ¬ uv_mapped s f0 ∧ ¬ uv_mapped s f1 ∧ ¬ uv_mapped s g ∧ f0 ≠ f1 ∧ f0 ≠ g ∧ f1 ≠ g ∧
    uv_word s' f0 0 = devpipe_id ∧ uv_word s' f0 8 = O_RDONLY ∧
    uv_word s' f1 0 = devpipe_id ∧ uv_word s' f1 8 = O_WRONLY ∧
    ∀ k, 0 <= k < 4096 → uv_byte s' g k = 0.
Proof. apply pipe_spec. Qed.
End fdspec.
