(* ===== verification/FdDemo.v ===== *)
(** * Descriptors on a concrete machine

    The program of [ForkDemo]'s kernel state [blank] makes a pipe, and
    duplicates its reading end. *)

From S2P Require Import Prelude Mmu Console KState Demo AddrSpace Syscall SyscallSpec UserLib UserVm UserVmKernel ForkDemo MallocDemo Fd FdSpec.
Open Scope Z_scope.

Lemma blank_closed i : 0 <= i < MAXFD → ¬ fd_open blank i.
Proof.
  intros Hi [t Ht]. rewrite blank_maps in Ht; [discriminate|]. apply INDEX2FD_page. lia.
Qed.

Lemma pipe_correct_witness : ∃ s', pipe blank = (Ret (inr (0, 1)), s') ∧ fd_open s' 1.
Proof.
  destruct (pipe_correct blank 100 0 1) as (s' & f0 & f1 & g & R & _ & (Hs & _) & _ & M & _).
  - lia.
  - eapply uv_mono; [exact blank_ok|lia].
  - rewrite blank_free_pages. lia.
  - lia.
  - unfold MAXFD. lia.
  - apply blank_closed. unfold MAXFD. lia.
  - apply blank_closed. unfold MAXFD. lia.
  - intros x Hx Hne. lia.
  - exists s'. split; [exact R|]. exists (f1 * 4096 + PIPE_PERM).
    rewrite Hs, M by (apply fdpn_upn; unfold MAXFD; lia). apply piped_fds; [lia|unfold MAXFD; lia].
Defined.

(** The state after [pipe]. *)
Lemma pipe_state :
  ∃ s f, uv_ok s 100 ∧ 2 <= uv_free s ∧ uv_map s (uv_self s) (fdpn 0) = Some (f * 4096 + PIPE_PERM) ∧
    uv_word s f 0 = devpipe_id ∧ uv_map s (uv_self s) (fdpn 2) = None ∧ uv_map s (uv_self s) (datapn 2) = None ∧
    (∀ td, uv_map s (uv_self s) (datapn 0) = Some td → flag td PTE_U = true).
Proof.
  destruct (pipe_spec blank 100 0 1) as
    (s' & f0 & f1 & g & R & Hok & (Hs & _) & Hf & M & _ & _ & _ & _ & _ & _ & W & _).
  - lia.
  - eapply uv_mono; [exact blank_ok|lia].
  - rewrite blank_free_pages. lia.
  - lia.
  - unfold MAXFD. lia.
  - apply blank_closed. unfold MAXFD. lia.
  - apply blank_closed. unfold MAXFD. lia.
  - intros x Hx Hne. lia.
  - exists s', f0. rewrite blank_free_pages in Hf. split; [exact Hok|]. split; [lia|]. split.
    { rewrite Hs, M by (apply fdpn_upn; unfold MAXFD; lia). apply piped_fds; [lia|unfold MAXFD; lia]. }
    split; [exact W|]. split; [|split].
    + rewrite Hs, M by (apply fdpn_upn; unfold MAXFD; lia).
      rewrite piped_old by discriminate. apply blank_maps. apply fdpn_upn. unfold MAXFD. lia.
    + rewrite Hs, M by (apply datapn_upn; unfold MAXFD; lia).
      rewrite piped_old by discriminate. apply blank_maps. apply datapn_upn. unfold MAXFD. lia.
    + intros td. rewrite Hs, M by (apply datapn_upn; unfold MAXFD; lia). rewrite piped_data by lia. intros [= <-].
      change PTE_U with (2 ^ 2). rewrite flag_frame; [reflexivity| |lia]. change PIPE_PERM with 0x407. lia.
Qed.

Lemma pipe_perm_flags f : flag (f * 4096 + PIPE_PERM) PTE_U = true ∧ flag (f * 4096 + PIPE_PERM) PTE_W = true.
Proof. change PTE_U with (2 ^ 2). change PTE_W with (2 ^ 1). by rewrite !flag_frame by (by vm_compute). Qed.

Definition demo_devtab : list (Dev kstate) := [mkDev devpipe_id 0 None None (Some devpipe_close) None None].

Lemma dup_correct_witness : ∃ s s', dup demo_devtab 0 2 s = (Ret 2, s').
Proof.
  destruct pipe_state as (s & f & Hok & Hf & Ht & Hw & Hc & Hc2 & HD). destruct (pipe_perm_flags f) as [HU HW].
  destruct (dup_correct demo_devtab s 0 0 2 (f * 4096 + PIPE_PERM)) as (s' & R & _).
  - lia.
  - eapply uv_mono; [exact Hok|lia].
  - exact Hf.
  - unfold MAXFD. lia.
  - unfold MAXFD. lia.
  - discriminate.
  - exact Ht.
  - exact HU.
  - exact HW.
  - exact HD.
  - left. split; [exact Hc|exact Hc2].
  - exists s, s'. exact R.
Defined.

Lemma dup_out_of_range_witness : ∃ s s', dup demo_devtab 0 32 s = (Ret 32, s').
Proof.
  destruct pipe_state as (s & f & Hok & Hf & Ht & Hw & Hc & Hc2 & HD). destruct (pipe_perm_flags f) as [HU HW].
  destruct (dup_out_of_range demo_devtab s 0 0 (f * 4096 + PIPE_PERM)) as (s' & R & _).
  - lia.
  - eapply uv_mono; [exact Hok|lia].
  - exact Hf.
  - unfold MAXFD. lia.
  - exact Ht.
  - exact HU.
  - exact HD.
  - exists s, s'. exact R.
Defined.

Lemma dup_same_closes_witness : ∃ s s', fd_open s 0 ∧ dup demo_devtab 0 0 s = (Ret (- E_INVAL), s') ∧ ¬ fd_open s' 0.
Proof.
  destruct pipe_state as (s & f & Hok & Hf & Ht & Hw & Hc & Hc2 & HD). destruct (pipe_perm_flags f) as [HU HW].
  destruct (dup_same_closes demo_devtab (mkDev devpipe_id 0 None None (Some devpipe_close) None None)
    s 100 0 (f * 4096 + PIPE_PERM)) as (s' & R & Hno & _).
  - exact Hok.
  - unfold MAXFD. lia.
  - exact Ht.
  - exact HU.
  - rewrite pgnum_entry; [exact Hw|]. change PIPE_PERM with 0x407. lia.
  - reflexivity.
  - reflexivity.
  - exists s, s'. split; [exists (f * 4096 + PIPE_PERM); exact Ht|]. split; [exact R|exact Hno].
Defined.
