(* ===== verification/PipeView.v ===== *)
(** * The pages of a pipe in one process

    A pipe is three pages: the two descriptor pages, and the page with the
    buffer.  What a process does to a pipe with [close], [dup], [close_all]
    and [fork] is a sequence of system calls that map and unmap these pages.
    This file finds the sequences by running the code of [Fd] and [Fork] on a
    machine that has only these pages and records the calls.

    The machine: an address space [aspace] says which of the three pages is at
    a virtual page; the page tables can be read through [UVPT], and the device
    id in a descriptor page.  Any other access faults.  Memory for page tables
    is there.  A machine like that is a part of what the kernel provides
    ([UserVm]); there is no time in it. *)

From S2P Require Import Prelude Mmu Console KState UserLib UserVm Fork Fd FdSpec.
Open Scope Z_scope.

Inductive page : Type := RFd | WFd | PipePage.

#[export] Instance page_eq_dec : EqDecision page.
Proof. solve_decision. Defined.

Definition frame_of (q : page) : Z := match q with RFd => 1 | WFd => 2 | PipePage => 3 end.

Abbreviation aspace := (gmap Z page).

(** The page-table entry of a virtual page. *)
Definition entry_at (σ : aspace) (pn : Z) : Z :=
  match σ !! pn with Some q => frame_of q * 4096 + PIPE_PERM | None => 0 end.

(** The system calls that concern the pages: [Map to src dst] maps what is at
    [src] in the caller at [dst] in process [to] ([None]: in the caller). *)
Inductive call : Type := Map (to : option nat) (src dst : Z) | Unmap (pn : Z).

(** The caller's address space after a call. *)
Definition own_call (c : call) (σ : aspace) : aspace :=
  match c with
  | Map None src dst => match σ !! src with Some q => <[dst := q]> σ | None => σ end
  | Map (Some _) _ _ => σ
  | Unmap pn => delete pn σ
  end.

Definition replay (l : list call) (σ : aspace) : aspace := foldl (λ σ c, own_call c σ) σ l.

(** ** The machine *)

Definition byte_of (w k : Z) : Z := Z.land (Z.shiftr w (8 * k)) 0xff.

(** A load; [None] is a fault. *)
Definition view_load (σ : aspace) (a : Z) : option Z :=
  if (UVPT <=? a) && (a <? UVPT + PTSIZE) then
    let pn := (a - UVPT) / 4 in
    let w := if (PGNUM UVPT <=? pn) && (pn <? PGNUM UVPT + NPDENTRIES) then Z.lor (Z.lor PTE_P PTE_W) PTE_U
             else entry_at σ pn in
    Some (byte_of w (a mod 4))
  else
    match σ !! PGNUM a with
    | Some RFd | Some WFd => if a mod PGSIZE <? 4 then Some (byte_of devpipe_id (a mod 4)) else None
    | _ => None
    end.

(** The address space, the process a fork makes, and the calls made. *)
Record view : Type := mkView { v_asp : aspace; v_child : nat; v_calls : list call }.

Definition CHILD : Z := 0x1001.

Definition do_call (c : call) (v : view) : view :=
  mkView (own_call c (v_asp v)) (v_child v) (v_calls v ++ [c]).

Definition view_syscall (num a1 a2 a3 a4 a5 : Z) : U view Z := λ v,
  match num with
  | 4 => (* sys_page_alloc *)
    if (a1 =? 0) && bool_decide (is_Some (v_asp v !! PGNUM a2)) then (Ret 0, do_call (Unmap (PGNUM a2)) v)
    else (Ret 0, v)
  | 5 => (* sys_page_map *)
    match v_asp v !! PGNUM a2 with
    | Some _ =>
      if a3 =? 0 then (Ret 0, do_call (Map None (PGNUM a2) (PGNUM a4)) v)
      else (Ret 0, do_call (Map (Some (v_child v)) (PGNUM a2) (PGNUM a4)) v)
    | None => (Ret (- E_INVAL), v)
    end
  | 6 => (Ret 0, do_call (Unmap (PGNUM a2)) v) (* sys_page_unmap *)
  | 7 => (Ret CHILD, v) (* sys_exofork *)
  | 8 | 10 => (Ret 0, v) (* sys_env_set_status, sys_env_set_pgfault_upcall *)
  | _ => (Stop (UKernel Undefined), v)
  end.

#[export] Instance view_machine : Machine view := {
  int_syscall := view_syscall;
  uload8 a := λ v, match view_load (v_asp v) a with Some b => (Ret b, v) | None => (Stop (UFault a), v) end;
  ustore8 a _ := stop (UFault a);
  upages _ := stop (UKernel Undefined);
  uenvs _ := stop (UKernel Undefined);
}.

(** ** Reading the page tables *)

Lemma entry_range σ pn : 0 <= entry_at σ pn < 2 ^ 32.
Proof. unfold entry_at. destruct (σ !! pn) as [[]|]; by vm_compute. Qed.

Lemma bytes_word w : 0 <= w < 2 ^ 32 →
  byte_of w 0 + byte_of w 1 * 2 ^ 8 + byte_of w 2 * 2 ^ 16 + byte_of w 3 * 2 ^ 24 = w.
Proof.
  intros Hw. unfold byte_of. change 0xff with (Z.ones 8). rewrite !Z.land_ones, !Z.shiftr_div_pow2 by lia.
  change (2 ^ (8 * 0)) with 1. change (2 ^ (8 * 1)) with 256. change (2 ^ (8 * 2)) with 65536.
  change (2 ^ (8 * 3)) with 16777216. Z.to_euclidean_division_equations. lia.
Qed.

(** The word at [UVPT + 4 i]. *)
Definition table_word (σ : aspace) (i : Z) : Z :=
  if (PGNUM UVPT <=? i) && (i <? PGNUM UVPT + NPDENTRIES) then 7 else entry_at σ i.

Lemma table_range σ i : 0 <= table_word σ i < 2 ^ 32.
Proof. unfold table_word. destruct (_ && _); [lia|apply entry_range]. Qed.

Lemma view_table_load σ i k : 0 <= i < 2 ^ 20 → 0 <= k < 4 →
  view_load σ (UVPT + 4 * i + k) = Some (byte_of (table_word σ i) k).
Proof.
  intros Hi Hk. unfold view_load, table_word. change UVPT with 0xef400000. change PTSIZE with 0x400000.
  rewrite (proj2 (andb_true_iff _ _)) by (split; [apply Z.leb_le|apply Z.ltb_lt]; lia).
  replace ((0xef400000 + 4 * i + k - 0xef400000) / 4) with i by (Z.to_euclidean_division_equations; lia).
  replace ((0xef400000 + 4 * i + k) mod 4) with k by (Z.to_euclidean_division_equations; lia). done.
Qed.

(** The directory entry of a user page, and its table entry. *)
Lemma pd_index pn : upn pn → 0 <= PDX (pn * PGSIZE) < 1024.
Proof. intros _. unfold PDX. change 0x3FF with (Z.ones 10). rewrite Z.land_ones by lia. apply Z.mod_pos_bound. lia. Qed.

Lemma table_pd σ i : 0 <= i < 1024 → table_word σ (PGNUM UVPT + i) = 7.
Proof.
  intros Hi. unfold table_word. change (PGNUM UVPT) with 0xef400. change NPDENTRIES with 1024.
  rewrite (proj2 (andb_true_iff _ _)); [done|]. split; [apply Z.leb_le|apply Z.ltb_lt]; lia.
Qed.

Lemma table_pt σ pn : upn pn → table_word σ pn = entry_at σ pn.
Proof.
  intros [? Hpn]. change NUPAGES with 0xEEC00 in Hpn. unfold table_word. change (PGNUM UVPT) with 0xef400.
  by rewrite (proj2 (Z.leb_gt _ _)) by lia.
Qed.

Lemma entry_present σ pn : Z.land (entry_at σ pn) PTE_P =? 0 = bool_decide (σ !! pn = None).
Proof. unfold entry_at. by destruct (σ !! pn) as [[]|]. Qed.

Lemma pgnum_page pn : PGNUM (pn * PGSIZE) = pn.
Proof. unfold PGNUM, PGSIZE. change PTXSHIFT with 12. rewrite Z.shiftr_div_pow2 by lia. by rewrite Z.div_mul. Qed.

Lemma view_word σ q log i : 0 <= i < 2 ^ 20 → uload32 (UVPT + 4 * i) (mkView σ q log) = (Ret (table_word (σ) i), mkView σ q log).
Proof.
  intros Hi. unfold uload32.
  assert (L : ∀ k, 0 <= k < 4 → uload8 (UVPT + 4 * i + k) (mkView σ q log) = (Ret (byte_of (table_word σ i) k), mkView σ q log)).
  { intros k Hk. unfold uload8, view_machine. cbn [v_asp]. by rewrite view_table_load. }
  rewrite !u32_small by (change UVPT with 0xef400000; lia).
  pose proof (L 0 ltac:(lia)) as L0. rewrite Z.add_0_r in L0. mrun (exact L0).
  mrun (apply L; lia). mrun (apply L; lia). mrun (apply L; lia). cbn [mret v_asp]. unfold mret, M_ret.
  by rewrite bytes_word by apply table_range.
Qed.

Lemma view_uvpd σ q log i : 0 <= i < 1024 → uvpd i (mkView σ q log) = (Ret 7, mkView σ q log).
Proof.
  intros Hi. unfold uvpd. replace (UVPT + Z.shiftr UVPT 12 * 4 + 4 * i) with (UVPT + 4 * (PGNUM UVPT + i)).
  - rewrite view_word, table_pd; [done|lia|]. change (PGNUM UVPT) with 0xef400. lia.
  - change (Z.shiftr UVPT 12) with (PGNUM UVPT). lia.
Qed.

Lemma view_uvpt σ q log pn : upn pn → uvpt pn (mkView σ q log) = (Ret (entry_at (σ) pn), mkView σ q log).
Proof.
  intros Hpn. unfold uvpt. rewrite view_word, table_pt; [done|done|]. destruct Hpn as [? Hpn].
  change NUPAGES with 0xEEC00 in Hpn. lia.
Qed.

Lemma view_mapped σ q log pn : upn pn → va_mapped (pn * PGSIZE) (mkView σ q log) = (Ret (bool_decide (is_Some (σ !! pn))), mkView σ q log).
Proof.
  intros Hpn. unfold va_mapped. mrun (apply view_uvpd; by apply pd_index). change (Z.land 7 PTE_P =? 0) with false. cbv iota.
  rewrite pgnum_page. mrun (by apply view_uvpt). rewrite entry_present. unfold mret, M_ret.
  destruct (σ !! pn) as [pg|] eqn:E; [|done]. by rewrite bool_decide_eq_false_2 by done.
Qed.

Lemma view_fd_lookup σ q log i :
  fd_lookup i (mkView σ q log) = (Ret (if bool_decide (0 <= i < MAXFD ∧ is_Some (σ !! fdpn i)) then inr (fdpn i * PGSIZE) else inl (- E_INVAL)), mkView σ q log).
Proof.
  unfold fd_lookup. destruct (decide (0 <= i < MAXFD)) as [Hi|Hi].
  - rewrite (proj2 (orb_false_iff _ _)) by (split; [apply Z.ltb_ge|apply Z.leb_gt]; lia).
    destruct (INDEX2FD_page i) as [-> Hu]; [lia|]. mrun (by apply view_mapped).
    destruct (σ !! fdpn i).
    + rewrite (bool_decide_eq_true_2 (is_Some _)) by (by eexists).
      by rewrite bool_decide_eq_true_2 by (split; [done|by eexists]).
    + rewrite (bool_decide_eq_false_2 (is_Some _)) by (by intros [? [=]]).
      by rewrite bool_decide_eq_false_2 by (by intros [_ [? [=]]]).
  - rewrite bool_decide_eq_false_2 by tauto. rewrite (proj2 (orb_true_iff _ _)); [done|].
    destruct (Z.ltb_spec i 0); [by left|right; apply Z.leb_le; lia].
Qed.

(** ** Recording *)

(** Run in an address space, a program returns and makes these calls. *)
Definition makes {A} (q : nat) (m : U view A) (σ : aspace) (l : list call) : Prop :=
  ∀ log, ∃ a, m (mkView σ q log) = (Ret a, mkView (replay l σ) q (log ++ l)).

Lemma replay_app l1 l2 σ : replay (l1 ++ l2) σ = replay l2 (replay l1 σ).
Proof. apply foldl_app. Qed.

Lemma makes_ret {A} q (a : A) σ : makes q (mret a) σ [].
Proof. intros log. exists a. by rewrite app_nil_r. Qed.

Lemma makes_bind {A B} q (m : U view A) (f : A → U view B) σ l1 l2 :
  makes q m σ l1 → (∀ a, makes q (f a) (replay l1 σ) l2) → makes q (m ≫= f) σ (l1 ++ l2).
Proof.
  intros Hm Hf log. destruct (Hm log) as [a Ha]. destruct (Hf a (log ++ l1)) as [b Hb]. exists b.
  rewrite (bind_Ret _ _ _ _ _ Ha), Hb. by rewrite replay_app, app_assoc.
Qed.

(** Something that only looks. *)
Lemma makes_look {A B} q (m : U view A) (f : A → U view B) σ l a :
  (∀ log, m (mkView σ q log) = (Ret a, mkView σ q log)) → makes q (f a) σ l → makes q (m ≫= f) σ l.
Proof.
  intros Hm Hf log. destruct (Hf log) as [b Hb]. exists b. by rewrite (bind_Ret _ _ _ _ _ (Hm log)).
Qed.

Lemma run_unmap q σ log pn :
  sys_page_unmap 0 (pn * PGSIZE) (mkView σ q log) = (Ret 0, mkView (delete pn σ) q (log ++ [Unmap pn])).
Proof.
  unfold sys_page_unmap, syscall, mbind, M_bind. cbn [int_syscall view_machine view_syscall].
  unfold do_call. cbn [v_asp v_child v_calls own_call]. by rewrite pgnum_page.
Qed.

Lemma run_map q σ log src dst perm pg to : σ !! src = Some pg → to = 0 ∨ to = CHILD →
  let c := Map (if to =? 0 then None else Some q) src dst in
  sys_page_map 0 (src * PGSIZE) to (dst * PGSIZE) perm (mkView σ q log) = (Ret 0, mkView (own_call c σ) q (log ++ [c])).
Proof.
  intros Hs Hto. unfold sys_page_map, syscall, mbind, M_bind. cbn [int_syscall view_machine view_syscall v_asp].
  rewrite !pgnum_page, Hs. unfold do_call. cbn [v_asp v_child v_calls]. by destruct Hto as [-> | ->].
Qed.

Lemma run_map_fails q σ log src to dst perm : σ !! src = None →
  sys_page_map 0 (src * PGSIZE) to dst perm (mkView σ q log) = (Ret (- E_INVAL), mkView σ q log).
Proof.
  intros Hs. unfold sys_page_map, syscall, mbind, M_bind. cbn [int_syscall view_machine view_syscall v_asp].
  by rewrite pgnum_page, Hs.
Qed.

(** ** Well-formed address spaces

    Only descriptors of the pipe: every open one has the pipe's page as its
    data page.  Between operations the pipe's page is mapped nowhere else. *)

Definition fd_slot (pn : Z) : Prop := 0xD0000 <= pn < 0xD0020.
Definition data_slot (pn : Z) : Prop := 0xD0020 <= pn < 0xD0040.

Definition covered (σ : aspace) : Prop :=
  ∀ pn q, σ !! pn = Some q →
    fd_slot pn ∧ q ≠ PipePage ∧ σ !! (pn + 32) = Some PipePage ∨ data_slot pn ∧ q = PipePage.

Definition settled (σ : aspace) : Prop :=
  covered σ ∧ ∀ pn, σ !! pn = Some PipePage → is_Some (σ !! (pn - 32)).

Definition is_own (c : call) : Prop := match c with Map (Some _) _ _ => False | _ => True end.

(** Calls that go from one covered address space to the next. *)
Fixpoint careful (σ : aspace) (l : list call) : Prop :=
  covered σ ∧ match l with [] => settled σ | c :: l => is_own c ∧ careful (own_call c σ) l end.

Lemma careful_app σ l1 l2 : careful σ l1 → (settled (replay l1 σ) → careful (replay l1 σ) l2) → careful σ (l1 ++ l2).
Proof.
  revert σ. induction l1 as [|c l1 IH]; intros σ; cbn [careful app].
  - intros [_ Hs] H. by apply H.
  - intros (Hc & Hi & Hl) H. split; [done|]. split; [done|]. by apply IH.
Qed.

Lemma careful_end σ l : careful σ l → settled (replay l σ).
Proof. revert σ. induction l as [|c l IH]; intros σ; cbn [careful]; [by intros []|]. intros (_ & _ & H). by apply IH. Qed.

Lemma covered_fd σ pn q : covered σ → fd_slot pn → σ !! pn = Some q → q ≠ PipePage ∧ σ !! (pn + 32) = Some PipePage.
Proof. intros Hc Hs H. destruct (Hc pn q H) as [(_ & ?)|[Hd _]]; [done|]. unfold fd_slot, data_slot in *. lia. Qed.

Lemma settled_closed σ i : settled σ → 0 <= i < MAXFD → σ !! fdpn i = None → σ !! datapn i = None.
Proof.
  intros [Hc Hs] Hi Hn. destruct (σ !! datapn i) as [pg|] eqn:E; [|done]. destruct (Hc _ _ E) as [(Hf & _)|[_ ->]].
  - unfold fd_slot in Hf. fdconst. lia.
  - destruct (Hs _ E) as [? E']. replace (datapn i - 32) with (fdpn i) in E' by (fdconst; lia). congruence.
Qed.

(** Unmapping a descriptor page is always fine; its data page once it is gone. *)
Lemma covered_unmap_fd σ i : 0 <= i < MAXFD → covered σ → covered (delete (fdpn i) σ).
Proof.
  intros Hi Hc pn q [Hne H]%lookup_delete_Some. destruct (Hc pn q H) as [(Hs & Hq & Hd)|]; [left|by right].
  split; [done|]. split; [done|]. rewrite lookup_delete_ne; [done|]. fdconst. unfold fd_slot in Hs. lia.
Qed.

Lemma covered_unmap_data σ i : 0 <= i < MAXFD → σ !! fdpn i = None → covered σ → covered (delete (datapn i) σ).
Proof.
  intros Hi Hn Hc pn q [Hne H]%lookup_delete_Some. destruct (Hc pn q H) as [(Hs & Hq & Hd)|]; [left|by right].
  split; [done|]. split; [done|]. rewrite lookup_delete_ne; [done|]. intros E. assert (pn = fdpn i) by (fdconst; lia).
  congruence.
Qed.

(** ** [close] and [close_all] *)

Definition close_calls (σ : aspace) (i : Z) : list call :=
  if bool_decide (0 <= i < MAXFD ∧ is_Some (σ !! fdpn i)) then [Unmap (fdpn i); Unmap (datapn i); Unmap (fdpn i)] else [].

Lemma close_careful σ i : settled σ → careful σ (close_calls σ i).
Proof.
  intros [Hc Hs]. unfold close_calls. case_bool_decide as Hi; [|by split]. destruct Hi as [Hi Ho].
  assert (C1 : covered (delete (fdpn i) σ)) by by apply covered_unmap_fd.
  assert (C2 : covered (delete (datapn i) (delete (fdpn i) σ))) by (apply covered_unmap_data; [done|apply lookup_delete_eq|done]).
  assert (E : delete (fdpn i) (delete (datapn i) (delete (fdpn i) σ)) = delete (datapn i) (delete (fdpn i) σ)).
  { apply delete_id. rewrite lookup_delete_ne by (fdconst; lia). apply lookup_delete_eq. }
  cbn [careful own_call is_own]. rewrite E. do 3 (split; [done|split; [done|]]). split; [done|]. split; [done|].
  intros pn [Hn H]%lookup_delete_Some. apply lookup_delete_Some in H as [Hn' H]. rewrite !lookup_delete_ne; [by apply Hs| |].
  - fdconst. lia.
  - destruct (Hc _ _ H) as [(_ & [] & _)|[Hd _]]; [done|]. unfold data_slot in Hd. fdconst. lia.
Qed.

Section devices.
(** A table of devices that has the pipe. *)
Context (devtab : list (Dev view)) (dev : Dev view).
Context (Hdev : dev_lookup devtab devpipe_id = inr dev) (Hclose : dev_close dev = Some devpipe_close).

Lemma view_dev_id σ q log i : 0 <= i < MAXFD → covered σ → is_Some (σ !! fdpn i) →
  uload32 (fd_dev_id (fdpn i * PGSIZE)) (mkView σ q log) = (Ret devpipe_id, mkView σ q log).
Proof.
  intros Hi Hc [pg Ho]. destruct (covered_fd σ (fdpn i) pg Hc) as [Hq _]; [fdconst; unfold fd_slot; lia|done|].
  assert (L : ∀ k, 0 <= k < 4 → uload8 (fdpn i * PGSIZE + k) (mkView σ q log) = (Ret (byte_of devpipe_id k), mkView σ q log)).
  { intros k Hk. unfold uload8, view_machine, view_load. cbn [v_asp]. change UVPT with 0xef400000.
    rewrite (proj2 (Z.leb_gt _ _)) by (fdconst; lia). cbn [andb].
    replace (PGNUM (fdpn i * PGSIZE + k)) with (fdpn i).
    2: { unfold PGNUM, PGSIZE. change PTXSHIFT with 12. rewrite Z.shiftr_div_pow2 by lia. Z.to_euclidean_division_equations. lia. }
    rewrite Ho. replace ((fdpn i * PGSIZE + k) mod PGSIZE) with k by (unfold PGSIZE; Z.to_euclidean_division_equations; lia).
    replace ((fdpn i * PGSIZE + k) mod 4) with k by (unfold PGSIZE; Z.to_euclidean_division_equations; lia).
    rewrite (proj2 (Z.ltb_lt _ _)) by lia. by destruct pg. }
  unfold fd_dev_id, uload32. rewrite !u32_small by (fdconst; lia).
  pose proof (L 0 ltac:(lia)) as L0. rewrite Z.add_0_r in L0. mrun (exact L0).
  mrun (apply L; lia). mrun (apply L; lia). mrun (apply L; lia). reflexivity.
Qed.

Lemma devpipe_close_makes q σ i : 0 <= i < MAXFD →
  makes q (devpipe_close (fdpn i * PGSIZE)) σ [Unmap (fdpn i); Unmap (datapn i)].
Proof.
  intros Hi. unfold devpipe_close. destruct (data_page i) as [-> _]; [lia|].
  apply (makes_bind q _ _ σ [_] [_]); [|intros _]; intros log; exists 0; apply run_unmap.
Qed.

Lemma close_makes q σ i : covered σ → makes q (close devtab i) σ (close_calls σ i).
Proof.
  intros Hc. unfold close. eapply makes_look; [intros log; apply view_fd_lookup|]. cbn [v_asp]. unfold close_calls.
  case_bool_decide as Hi; [|apply makes_ret]. destruct Hi as [Hi Ho].
  unfold fd_close. eapply makes_look; [intros log; apply view_fd_lookup|]. cbn [v_asp]. rewrite fd2num_page by lia.
  rewrite bool_decide_eq_true_2 by done. rewrite Z.eqb_refl. cbn [negb].
  eapply makes_look; [intros log; by apply view_dev_id|]. change (s32 devpipe_id) with devpipe_id. rewrite Hdev, Hclose.
  apply (makes_bind q _ _ σ [_; _] [_]); [by apply devpipe_close_makes|]. intros r.
  apply (makes_bind q _ _ _ [_] []); [intros log; exists 0; apply run_unmap|]. intros _. apply makes_ret.
Qed.

Fixpoint close_all_calls (σ : aspace) (l : list Z) : list call :=
  match l with
  | [] => []
  | i :: l => close_calls σ i ++ close_all_calls (replay (close_calls σ i) σ) l
  end.

Lemma close_all_careful l σ : settled σ → careful σ (close_all_calls σ l).
Proof.
  revert σ. induction l as [|i l IH]; intros σ Hs; [split; [apply Hs|done]|].
  cbn [close_all_calls]. apply careful_app; [by apply close_careful|]. apply IH.
Qed.

Lemma close_all_makes q σ : settled σ → makes q (close_all devtab) σ (close_all_calls σ (seqZ 0 MAXFD)).
Proof.
  unfold close_all. generalize (seqZ 0 MAXFD) as l. intros l. revert σ.
  induction l as [|i l IH]; intros σ Hs; cbn [mfor close_all_calls]; [apply makes_ret|].
  apply makes_bind.
  - rewrite <- (app_nil_r (close_calls σ i)). apply makes_bind; [apply close_makes, Hs|]. intros _. apply makes_ret.
  - intros _. by apply IH, careful_end, close_careful.
Qed.

(** ** [dup] *)

Definition dup_pages_calls (σ : aspace) (o w : Z) : list call :=
  let l := if bool_decide (is_Some (σ !! datapn o)) then [Map None (datapn o) (datapn w)] else [] in
  l ++ (if bool_decide (is_Some (replay l σ !! fdpn o)) then [Map None (fdpn o) (fdpn w)]
        else [Unmap (fdpn w); Unmap (datapn w)]).

Definition dup_calls (σ : aspace) (o w : Z) : list call :=
  if bool_decide (0 <= o < MAXFD ∧ is_Some (σ !! fdpn o))
  then close_calls σ w ++ dup_pages_calls (replay (close_calls σ w) σ) o w else [].

Lemma dup_err_makes q σ w r : 0 <= w < MAXFD →
  makes q (dup_err (fdpn w * PGSIZE) (datapn w * PGSIZE) r) σ [Unmap (fdpn w); Unmap (datapn w)].
Proof.
  intros Hw. unfold dup_err. apply (makes_bind q _ _ σ [_] [_]); [intros log; exists 0; apply run_unmap|]. intros _.
  apply (makes_bind q _ _ _ [_] []); [intros log; exists 0; apply run_unmap|]. intros _. apply makes_ret.
Qed.

Lemma dup_second_makes q σ o w : 0 <= o < MAXFD → 0 <= w < MAXFD →
  makes q (t ← uvpt (fdpn o);
           r ← sys_page_map 0 (fdpn o * PGSIZE) 0 (fdpn w * PGSIZE) (Z.land t PTE_SYSCALL);
           if r <? 0 then dup_err (fdpn w * PGSIZE) (datapn w * PGSIZE) r else mret w) σ
    (if bool_decide (is_Some (σ !! fdpn o)) then [Map None (fdpn o) (fdpn w)] else [Unmap (fdpn w); Unmap (datapn w)]).
Proof.
  intros Ho Hw. eapply makes_look; [intros log; apply view_uvpt, fdpn_upn; lia|]. cbn [v_asp].
  destruct (σ !! fdpn o) as [pg|] eqn:E.
  - rewrite bool_decide_eq_true_2 by (by eexists). intros log. eexists.
    erewrite bind_Ret by exact (run_map q σ log _ _ _ pg 0 E (or_introl eq_refl)). reflexivity.
  - rewrite bool_decide_eq_false_2 by (by intros [? ?]).
    eapply makes_look; [intros log; by apply run_map_fails|]. by apply dup_err_makes.
Qed.

Lemma dup_makes q σ o w : covered σ → 0 <= w < MAXFD → makes q (dup devtab o w) σ (dup_calls σ o w).
Proof.
  intros Hc Hw. unfold dup. eapply makes_look; [intros log; apply view_fd_lookup|]. cbn [v_asp]. unfold dup_calls.
  case_bool_decide as Ho; [|apply makes_ret]. destruct Ho as [Ho _].
  apply makes_bind; [by apply close_makes|]. intros _. generalize (replay (close_calls σ w) σ) as τ. intros τ.
  unfold dup_pages, dup_pages_calls. destruct (INDEX2FD_page w) as [-> _]; [lia|].
  destruct (data_page o) as [-> Hod]; [lia|]. destruct (data_page w) as [-> _]; [lia|].
  eapply makes_look; [intros log; by apply view_mapped|]. cbn [v_asp]. rewrite !pgnum_page.
  destruct (τ !! datapn o) as [pg|] eqn:E.
  - rewrite bool_decide_eq_true_2 by (by eexists). intros log. unfold mbind at 1, M_bind at 1.
    erewrite bind_Ret by (by apply view_uvpt). erewrite run_map by (exact E || by left). cbn [v_asp].
    destruct (dup_second_makes q (own_call (Map None (datapn o) (datapn w)) τ) o w Ho Hw (log ++ [Map None (datapn o) (datapn w)])) as [a Ha].
    exists a. rewrite app_assoc. exact Ha.
  - rewrite bool_decide_eq_false_2 by (by intros [? ?]). eapply makes_look; [intros log; reflexivity|].
    by apply dup_second_makes.
Qed.

Lemma dup_pages_careful σ o w : settled σ → 0 <= o < MAXFD → 0 <= w < MAXFD → σ !! fdpn w = None →
  careful σ (dup_pages_calls σ o w).
Proof.
  intros HJ Ho Hw Hn. pose proof HJ as [Hc Hs]. unfold dup_pages_calls.
  assert (Hdn : σ !! datapn w = None) by by apply settled_closed.
  destruct (σ !! fdpn o) as [e|] eqn:Eo.
  - destruct (covered_fd σ (fdpn o) e Hc) as [Hq Hd]; [fdconst; unfold fd_slot; lia|done|].
    replace (fdpn o + 32) with (datapn o) in Hd by (fdconst; lia). rewrite bool_decide_eq_true_2 by (by eexists).
    assert (R : replay [Map None (datapn o) (datapn w)] σ = <[datapn w := PipePage]> σ) by (cbn; by rewrite Hd).
    assert (Eo' : <[datapn w := PipePage]> σ !! fdpn o = Some e) by (rewrite lookup_insert_ne by (fdconst; lia); done).
    rewrite R, Eo', bool_decide_eq_true_2 by (by eexists). cbn [app careful is_own own_call]. rewrite Hd, Eo'.
    assert (C1 : covered (<[datapn w := PipePage]> σ)).
    { intros pn q [[<- <-]|[Hne H]]%lookup_insert_Some.
      - right. split; [unfold data_slot; fdconst; lia|done].
      - destruct (Hc pn q H) as [(Hf & Hp & Hm)|]; [left|by right]. split; [done|]. split; [done|].
        destruct (decide (datapn w = pn + 32)) as [->|]; [apply lookup_insert_eq|by rewrite lookup_insert_ne]. }
    assert (C2 : covered (<[fdpn w := e]> (<[datapn w := PipePage]> σ))).
    { intros pn q [[<- <-]|[Hne H]]%lookup_insert_Some.
      - left. split; [unfold fd_slot; fdconst; lia|]. split; [done|]. replace (fdpn w + 32) with (datapn w) by (fdconst; lia).
        rewrite lookup_insert_ne by (fdconst; lia). apply lookup_insert_eq.
      - destruct (C1 pn q H) as [(Hf & Hp & Hm)|]; [left|by right]. split; [done|]. split; [done|].
        rewrite lookup_insert_ne; [done|]. unfold fd_slot in Hf. fdconst. lia. }
    do 2 (split; [done|split; [done|]]). split; [done|]. split; [done|].
    intros pn [[_ ->]|[Hne H]]%lookup_insert_Some; [done|].
    apply lookup_insert_Some in H as [[<- _]|[Hne' H]].
    + exists e. replace (datapn w - 32) with (fdpn w) by (fdconst; lia). apply lookup_insert_eq.
    + rewrite !lookup_insert_ne; [by apply Hs| |].
      * destruct (Hc _ _ H) as [(_ & [] & _)|[Hd' _]]; [done|]. unfold data_slot in Hd'. fdconst. lia.
      * fdconst. lia.
  - assert (Hdo : σ !! datapn o = None) by by apply settled_closed.
    rewrite Hdo, bool_decide_eq_false_2 by (by intros [? ?]). cbn [app replay foldl].
    rewrite Eo, bool_decide_eq_false_2 by (by intros [? ?]). cbn [careful is_own own_call].
    rewrite (delete_id σ) by done. rewrite (delete_id σ) by done. done.
Qed.

Lemma close_closes σ i : 0 <= i < MAXFD → replay (close_calls σ i) σ !! fdpn i = None.
Proof.
  intros Hi. unfold close_calls. case_bool_decide as H; cbn [replay foldl own_call].
  - apply lookup_delete_eq.
  - destruct (σ !! fdpn i) eqn:E; [|done]. destruct H. split; [done|by eexists].
Qed.

Lemma dup_careful σ o w : settled σ → 0 <= w < MAXFD → careful σ (dup_calls σ o w).
Proof.
  intros Hs Hw. unfold dup_calls. case_bool_decide as Ho; [|split; [apply Hs|done]].
  apply careful_app; [by apply close_careful|]. intros Hs'. apply dup_pages_careful; [done|by apply Ho|done|by apply close_closes].
Qed.
End devices.

(** ** [fork] *)

(** The loop copies upwards. *)
Definition fork_calls (q : nat) (σ : aspace) : list call :=
  omap (λ pn, match σ !! pn with Some _ => Some (Map (Some q) pn pn) | None => None end) (seqZ 0 (UTOP / PGSIZE)).

Lemma covered_no_stack σ : covered σ → σ !! PGNUM (UXSTACKTOP - PGSIZE) = None.
Proof.
  intros Hc. destruct (σ !! _) as [pg|] eqn:E; [|done]. apply Hc in E. revert E.
  unfold fd_slot, data_slot. change (PGNUM (UXSTACKTOP - PGSIZE)) with 0xeebff. lia.
Qed.

Lemma fork_page_makes q σ pn : covered σ → upn pn →
  makes q (fork_page CHILD pn) σ (match σ !! pn with Some _ => [Map (Some q) pn pn] | None => [] end).
Proof.
  intros Hc Hpn. unfold fork_page. eapply makes_look; [intros log; by apply view_uvpd, pd_index|]. change (Z.land 7 PTE_P =? 0) with false. cbv iota.
  rewrite pgnum_page. eapply makes_look; [intros log; by apply view_uvpt|]. cbn [v_asp]. rewrite entry_present.
  destruct (σ !! pn) as [pg|] eqn:E; [|rewrite bool_decide_eq_true_2 by done; apply makes_ret].
  rewrite bool_decide_eq_false_2 by done. destruct (Z.eqb_spec (pn * PGSIZE) (UXSTACKTOP - PGSIZE)) as [Ex|_].
  { assert (Ep : pn = PGNUM (UXSTACKTOP - PGSIZE)) by (rewrite <- Ex; by rewrite pgnum_page).
    rewrite Ep, covered_no_stack in E; done. }
  apply (makes_bind q _ _ σ [_] []); [|intros _; apply makes_ret]. unfold duppage.
  rewrite u32_small by (destruct Hpn as [? Hpn]; change NUPAGES with 0xEEC00 in Hpn; unfold PGSIZE; lia).
  eapply makes_look; [intros log; by apply view_uvpt|]. cbn [v_asp].
  replace (Z.land (entry_at σ pn) PTE_SHARE =? 0) with false by (unfold entry_at; rewrite E; by destruct pg). cbn [negb].
  eapply makes_look; [intros log; by apply view_uvpt|]. cbn [v_asp].
  intros log. exists 0. erewrite bind_Ret by exact (run_map q σ log pn pn _ pg CHILD E (or_intror eq_refl)). reflexivity.
Qed.

Lemma replay_child q (l : list Z) (σ τ : aspace) :
  replay (omap (λ pn, match σ !! pn with Some _ => Some (Map (Some q) pn pn) | None => None end) l) τ = τ.
Proof. revert τ. induction l as [|pn l IH]; intros τ; cbn; [done|]. destruct (σ !! pn); [cbn|]; apply IH. Qed.

Lemma fork_loop_makes q σ l : covered σ → Forall upn l →
  makes q (mfor l (fork_page CHILD)) σ (omap (λ pn, match σ !! pn with Some _ => Some (Map (Some q) pn pn) | None => None end) l).
Proof.
  intros Hc. induction 1 as [|pn l Hpn _ IH]; cbn [mfor omap list_omap]; [apply makes_ret|].
  pose proof (fork_page_makes q σ pn Hc Hpn) as Hp. destruct (σ !! pn) as [pg|].
  - exact (makes_bind q _ _ σ [_] _ Hp (λ _, IH)).
  - exact (makes_bind q _ _ σ [] _ Hp (λ _, IH)).
Qed.

Lemma view_handler q σ log up addr g : covered σ →
  set_pgfault_handler up g addr (mkView σ q log) = (Ret (mkGlobals addr (thisenv g)), mkView σ q log).
Proof.
  intros Hc. unfold set_pgfault_handler. destruct (_pgfault_handler g =? 0); [|reflexivity].
  unfold sys_page_alloc, sys_env_set_pgfault_upcall, syscall, mbind, M_bind. cbn [int_syscall view_machine view_syscall v_asp].
  by rewrite covered_no_stack, bool_decide_eq_false_2 by (done || by intros [? ?]).
Qed.

Lemma fork_makes q σ up addr g : covered σ → makes q (fork up addr g) σ (fork_calls q σ).
Proof.
  intros Hc. unfold fork. eapply makes_look; [intros log; by apply view_handler|].
  eapply makes_look; [intros log; reflexivity|]. cbn [CHILD Z.ltb Z.eqb].
  change (CHILD <? 0) with false. change (CHILD =? 0) with false. cbv iota.
  rewrite <- (app_nil_r (fork_calls q σ)). apply makes_bind.
  - apply fork_loop_makes; [done|]. apply Forall_forall. intros pn [Hp1 Hp2]%elem_of_seqZ. split; [done|].
    change NUPAGES with 0xEEC00. change (UTOP / PGSIZE) with 0xEEC00 in Hp2. lia.
  - intros _. unfold fork_calls. rewrite replay_child. intros log. exists (CHILD, mkGlobals addr (thisenv g)).
    by rewrite app_nil_r.
Qed.
