(* ===== verification/PipeClose.v ===== *)
(** * When is a pipe closed? ([pipeisclosed] of [lib/pipe.c])

    A process decides that nobody holds the other end of a pipe by comparing
    reference counts: every open descriptor has its descriptor page and the
    pipe's page mapped, so the pipe's page has as many references as both
    descriptor pages together, and [pageref(fd) == pageref(p)] means that the
    other descriptor page has none.  The counts are read one after the other,
    while other processes map and unmap; [_pipeisclosed] compares again when
    the kernel has switched to another process in between.

    The system here is one processor and any number of processes.  A process
    is the part of its address space that has pages of the pipe, and the
    system calls it has yet to make of the operation it is in: a [close], a
    [dup], a [close_all] (which [exit] calls) or a [fork].  [PipeView] finds
    the calls by running the code.  One process runs [pipeisclosed]; its
    machine [sharing] carries out a plan that says, for each of its accesses to
    memory, what the others do before it.  If they do anything, the kernel has
    put the process on the processor again, which it counts in [env_runs]. *)

From S2P Require Import Prelude Mmu Console KState Demo UserLib UserVm Fork Fd FdSpec PipeView.
Open Scope Z_scope.

(** ** Processes *)

Record proc : Type := mkProc { p_asp : aspace; p_todo : list call }.

Abbreviation world := (list proc).

(** The virtual pages at which a page is mapped. *)
Definition places (q : page) (σ : aspace) : list Z := (filter (λ kv, kv.2 = q) (map_to_list σ)).*1.

(** [pp_ref]: the number of mappings. *)
Fixpoint count (q : page) (w : world) : Z :=
  match w with [] => 0 | p :: w => Z.of_nat (length (places q (p_asp p))) + count q w end.

Inductive op : Type := OClose (fdnum : Z) | ODup (oldfdnum newfdnum : Z) | OCloseAll | OFork (child : nat).

(** A process starts an operation, or makes its next call. *)
Inductive event : Type := Start (p : nat) (o : op) | Next (p : nat).

Section system.
Context (devtab : list (Dev view)) (_pgfault_upcall pgfault_addr : Z) (g : globals).

Definition code (o : op) : U view unit :=
  match o with
  | OClose i => _ ← close devtab i; mret tt
  | ODup i j => _ ← dup devtab i j; mret tt
  | OCloseAll => close_all devtab
  | OFork _ => _ ← fork _pgfault_upcall pgfault_addr g; mret tt
  end.

Definition child_of (o : op) : nat := match o with OFork q => q | _ => 0%nat end.

Definition calls_of (o : op) (σ : aspace) : list call := v_calls (code o (mkView σ (child_of o) [])).2.

Definition happen (w : world) (e : event) : world :=
  match e with
  | Start p o =>
    match w !! p with
    | Some (mkProc σ []) => <[p := mkProc σ (calls_of o σ)]> w
    | _ => w
    end
  | Next p =>
    match w !! p with
    | Some (mkProc σ (Map (Some q) src dst :: l)) =>
      let w := <[p := mkProc σ l]> w in
      match σ !! src, w !! q with
      | Some pg, Some r => <[q := mkProc (<[dst := pg]> (p_asp r)) (p_todo r)]> w
      | _, _ => w
      end
    | Some (mkProc σ (c :: l)) => <[p := mkProc (own_call c σ) l]> w
    | _ => w
    end
  end.

(** ** The process that asks *)

Record sharing : Type := mkSharing { sh_world : world; sh_plan : list (list event); sh_runs : Z }.

(** Before an access: the others run, or nothing happens. *)
Definition tick (s : sharing) : sharing :=
  match sh_plan s with
  | [] => s
  | [] :: l => mkSharing (sh_world s) l (sh_runs s)
  | es :: l => mkSharing (foldl happen (sh_world s) es) l (sh_runs s + 1)
  end.

Definition page_of (f : Z) : option page :=
  if f =? 1 then Some RFd else if f =? 2 then Some WFd else if f =? 3 then Some PipePage else None.

(** The process [me]; [env] is its entry in [envs], but for [env_runs]. *)
Context (me : nat) (env : Env).

Definition own_asp (s : sharing) : aspace := default ∅ (p_asp <$> sh_world s !! me).

#[local] Instance sharing_machine : Machine sharing := {
  int_syscall _ _ _ _ _ _ := stop (UKernel Undefined);
  uload8 a := λ s, let s := tick s in
    match view_load (own_asp s) a with Some b => (Ret b, s) | None => (Stop (UFault a), s) end;
  ustore8 a _ := stop (UFault a);
  upages f := λ s, let s := tick s in
    match page_of f with
    | Some q => (Ret (mkPageInfo None (count q (sh_world s))), s)
    | None => (Stop (UKernel Undefined), s)
    end;
  uenvs _ := λ s, let s := tick s in (Ret (set_env_runs (u32 (sh_runs s)) env), s);
}.





(** ** Counting *)

Lemma elem_of_places q σ pn : pn ∈ places q σ ↔ σ !! pn = Some q.
Proof.
  unfold places. rewrite list_elem_of_fmap. setoid_rewrite list_elem_of_filter. split.
  - intros ([k v] & -> & <- & H). by apply elem_of_map_to_list in H.
  - intros H. exists (pn, q). split; [done|]. split; [done|]. by apply elem_of_map_to_list.
Qed.

Lemma NoDup_places q σ : NoDup (places q σ).
Proof.
  unfold places. generalize (NoDup_fst_map_to_list σ). generalize (map_to_list σ) as l. intros l.
  induction l as [|[k v] l IH]; [done|]. cbn [fmap list_fmap fst]. rewrite NoDup_cons. intros [Hk Hl].
  rewrite filter_cons. destruct (decide _); [|by apply IH]. cbn [fmap list_fmap fst]. apply NoDup_cons. split; [|by apply IH].
  intros Hin. apply Hk. apply list_elem_of_fmap in Hin as (x & -> & Hx%list_elem_of_filter). apply list_elem_of_fmap_2, Hx.
Qed.

Lemma NoDup_ends σ : NoDup (places RFd σ ++ places WFd σ).
Proof.
  apply NoDup_app. split; [apply NoDup_places|]. split; [|apply NoDup_places].
  intros pn. rewrite !elem_of_places. congruence.
Qed.

Lemma covered_count σ : covered σ →
  (length (places RFd σ) + length (places WFd σ) <= length (places PipePage σ))%nat.
Proof.
  intros Hc. rewrite <- length_app, <- (length_fmap (λ pn, pn + 32)). apply submseteq_length, NoDup_submseteq.
  - apply NoDup_fmap_2; [|apply NoDup_ends]. intros a b. lia.
  - intros ? (pn & -> & Hpn)%list_elem_of_fmap. rewrite elem_of_app, !elem_of_places in *.
    destruct Hpn as [H|H]; (destruct (Hc _ _ H) as [(_ & _ & ?)|[_ ?]]; [done|discriminate]).
Qed.

Lemma settled_count σ : settled σ →
  (length (places PipePage σ) = length (places RFd σ) + length (places WFd σ))%nat.
Proof.
  intros [Hc Hs]. apply Nat.le_antisymm; [|by apply covered_count].
  rewrite <- length_app, <- (length_fmap (λ pn, pn - 32)). apply submseteq_length, NoDup_submseteq.
  - apply NoDup_fmap_2; [|apply NoDup_places]. intros a b. lia.
  - intros ? (pn & -> & Hpn)%list_elem_of_fmap. rewrite elem_of_places in Hpn. rewrite elem_of_app, !elem_of_places.
    destruct (Hs _ Hpn) as [q Hq]. destruct q; [by left|by right|]. exfalso.
    destruct (Hc _ _ Hq) as [(_ & [] & _)|[Hd _]]; [done|]. destruct (Hc _ _ Hpn) as [(_ & [] & _)|[Hd' _]]; [done|].
    destruct (Hs _ Hq) as [q' Hq']. destruct (Hc _ _ Hq') as [(Hf & _)|[Hd'' _]]; unfold data_slot, fd_slot in *; lia.
Qed.




Lemma settled_world_count w : Forall (λ p, settled (p_asp p)) w → count PipePage w = count RFd w + count WFd w.
Proof. induction 1 as [|p w Hp _ IH]; cbn [count]; [done|]. pose proof (settled_count _ Hp). lia. Qed.



(** ** What the others do *)

Lemma makes_calls o σ l : makes (child_of o) (code o) σ l → calls_of o σ = l.
Proof. intros H. destruct (H []) as [a Ha]. unfold calls_of. by rewrite Ha. Qed.

Lemma makes_unit {A} q (m : U view A) σ l : makes q m σ l → makes q (_ ← m; mret tt) σ l.
Proof. intros H. rewrite <- (app_nil_r l). apply makes_bind; [done|]. intros _. apply makes_ret. Qed.

Context (dev : Dev view).
Context (Hdev : dev_lookup devtab devpipe_id = inr dev) (Hclose : dev_close dev = Some devpipe_close).






(** ** What the asking process sees *)


Definition ticks (k : nat) (s : sharing) : sharing := Nat.iter k tick s.

Lemma ticks_S k s : ticks (S k) s = tick (ticks k s).
Proof. reflexivity. Qed.

Lemma ticks_add j k s : ticks j (ticks k s) = ticks (j + k) s.
Proof. unfold ticks. by rewrite Nat.iter_add. Qed.






(** Its own address space is the same at every access. *)
Definition steady (σ : aspace) (s : sharing) : Prop := ∀ j, own_asp (ticks j s) = σ.


Lemma steady_ticks σ s k : steady σ s → steady σ (ticks k s).
Proof. intros Hs j. rewrite ticks_add. apply Hs. Qed.

Lemma share_word σ s i : steady σ s → 0 <= i < 2 ^ 20 → uload32 (UVPT + 4 * i) s = (Ret (table_word σ i), ticks 4 s).
Proof.
  intros Hs Hi. unfold uload32.
  assert (L : ∀ k j, 0 <= k < 4 → uload8 (UVPT + 4 * i + k) (ticks j s) = (Ret (byte_of (table_word σ i) k), ticks (S j) s)).
  { intros k j Hk. unfold uload8, sharing_machine. cbv zeta. rewrite <- ticks_S.
    rewrite Hs. by rewrite view_table_load. }
  rewrite !u32_small by (change UVPT with 0xef400000; lia).
  pose proof (L 0 0%nat ltac:(lia)) as L0. rewrite Z.add_0_r in L0. mrun (exact L0).
  mrun (apply L; lia). mrun (apply L; lia). mrun (apply L; lia). unfold mret, M_ret. by rewrite bytes_word by apply table_range.
Qed.

Lemma share_uvpd σ s i : steady σ s → 0 <= i < 1024 → uvpd i s = (Ret 7, ticks 4 s).
Proof.
  intros Hs Hi. unfold uvpd. replace (UVPT + Z.shiftr UVPT 12 * 4 + 4 * i) with (UVPT + 4 * (PGNUM UVPT + i)).
  - rewrite (share_word σ), table_pd; [done|lia|done|]. change (PGNUM UVPT) with 0xef400. lia.
  - change (Z.shiftr UVPT 12) with (PGNUM UVPT). lia.
Qed.

Lemma share_uvpt σ s pn : steady σ s → upn pn → uvpt pn s = (Ret (entry_at σ pn), ticks 4 s).
Proof.
  intros Hs Hpn. unfold uvpt. rewrite (share_word σ), table_pt; [done|done|done|]. destruct Hpn as [? Hpn].
  change NUPAGES with 0xEEC00 in Hpn. lia.
Qed.

Lemma share_lookup σ s i : steady σ s → 0 <= i < MAXFD → is_Some (σ !! fdpn i) →
  fd_lookup i s = (Ret (inr (fdpn i * PGSIZE)), ticks 8 s).
Proof.
  intros Hs Hi [q Hq]. unfold fd_lookup, va_mapped. rewrite (proj2 (orb_false_iff _ _)) by (split; [apply Z.ltb_ge|apply Z.leb_gt]; lia).
  destruct (INDEX2FD_page i) as [-> Hu]; [lia|]. rewrite bind_assoc.
  mrun (apply (share_uvpd σ); [done|by apply pd_index]). change (Z.land 7 PTE_P =? 0) with false. cbv iota.
  rewrite pgnum_page, bind_assoc. mrun (apply (share_uvpt σ); [by apply steady_ticks|done]).
  rewrite entry_present, Hq. rewrite bool_decide_eq_false_2 by done. rewrite ticks_add. reflexivity.
Qed.

(** [pageref] reads the count at the last of nine accesses. *)
Lemma share_pageref σ s pn q : steady σ s → upn pn → σ !! pn = Some q →
  pageref (pn * PGSIZE) s = (Ret (count q (sh_world (ticks 9 s))), ticks 9 s).
Proof.
  intros Hs Hpn Hq. unfold pageref. mrun (apply (share_uvpd σ); [done|by apply pd_index]).
  change (Z.land 7 PTE_P =? 0) with false. cbv iota. rewrite pgnum_page.
  mrun (apply (share_uvpt σ); [by apply steady_ticks|done]). rewrite entry_present, Hq, bool_decide_eq_false_2 by done.
  rewrite ticks_add. unfold mbind, M_bind, upages, sharing_machine. cbv zeta. rewrite <- ticks_S.
  replace (page_of (PGNUM (entry_at σ pn))) with (Some q); [done|]. unfold entry_at. rewrite Hq. by destruct q.
Qed.

(** One round of the loop: twenty accesses. *)
Lemma share_round σ s fuel fdp dp q q' (id : Z) :
  steady σ s → upn fdp → upn dp → σ !! fdp = Some q → σ !! dp = Some q' →
  _pipeisclosed id (S fuel) (fdp * PGSIZE) (dp * PGSIZE) s =
    if u32 (sh_runs (ticks 1 s)) =? u32 (sh_runs (ticks 20 s))
    then (Ret (count q (sh_world (ticks 10 s)) =? count q' (sh_world (ticks 19 s))), ticks 20 s)
    else _pipeisclosed id fuel (fdp * PGSIZE) (dp * PGSIZE) (ticks 20 s).
Proof.
  intros Hs Hf Hd Hq Hq'. cbn [_pipeisclosed]. unfold mbind at 1, M_bind at 1. cbn [uenvs sharing_machine].
  change (tick s) with (ticks 1 s).
  mrun (apply (share_pageref σ); [by apply steady_ticks|done..]). rewrite ticks_add.
  mrun (apply (share_pageref σ); [by apply steady_ticks|done..]). rewrite ticks_add.
  unfold mbind, M_bind. cbn [uenvs sharing_machine]. rewrite <- ticks_S. unfold set_env_runs. cbn [env_runs Nat.add].
  by destruct (_ =? _).
Qed.

Definition other_end (q : page) : page := match q with RFd => WFd | WFd => RFd | PipePage => PipePage end.



(** ** [fork] *)

Lemma count_insert q w p r r' : w !! p = Some r →
  count q (<[p := r']> w) = count q w - Z.of_nat (length (places q (p_asp r))) + Z.of_nat (length (places q (p_asp r'))).
Proof.
  revert p. induction w as [|x w IH]; intros [|p] Hp; [done..| |].
  - injection Hp as ->. cbn. lia.
  - change (<[S p := r']> (x :: w)) with (x :: <[p := r']> w). cbn [count]. rewrite IH by done. lia.
Qed.

Lemma places_singleton q pn q' : places q {[pn := q']} = if decide (q' = q) then [pn] else [].
Proof. unfold places. rewrite map_to_list_singleton, filter_cons. cbn [snd]. by destruct (decide (q' = q)). Qed.

(** The first page [fork] copies is the lowest descriptor. *)
Lemma fork_first q σ i e : settled σ → 0 <= i < MAXFD → σ !! fdpn i = Some e → (∀ j, 0 <= j < i → σ !! fdpn j = None) →
  ∃ l, calls_of (OFork q) σ = Map (Some q) (fdpn i) (fdpn i) :: l.
Proof.
  intros [Hc _] Hi He Hlow. rewrite (makes_calls (OFork q) σ (fork_calls q σ)) by (by apply makes_unit, fork_makes).
  unfold fork_calls. change (UTOP / PGSIZE) with 0xeec00.
  replace 0xeec00 with (fdpn i + (0xeec00 - fdpn i)) by lia. rewrite seqZ_app by (fdconst; lia).
  rewrite (seqZ_cons (0 + fdpn i)) by (fdconst; lia). rewrite omap_app. cbn [omap list_omap]. rewrite Z.add_0_l, He.
  set (f := λ pn, match σ !! pn with Some _ => Some (Map (Some q) pn pn) | None => None end).
  assert (Hnil : ∀ l, Forall (λ pn, σ !! pn = None) l → omap f l = []).
  { induction 1 as [|pn l Hpn _ IH]; [done|]. cbn. unfold f at 1. by rewrite Hpn. }
  rewrite Hnil; [by eexists|]. apply Forall_forall. intros pn [Hp1 Hp2]%elem_of_seqZ.
  destruct (σ !! pn) as [pg|] eqn:E; [|done]. destruct (Hc _ _ E) as [(Hs & _)|[Hs _]]; unfold fd_slot, data_slot in Hs; fdconst; [|lia].
  rewrite <- E. replace pn with (0xD0000 + (pn - 0xD0000)) by lia. apply Hlow. lia.
Qed.

(** C40: [fork] breaks the test.  Every process of an idle system may hold ends of
    the pipe, one of them the only reference to the other end [other_end q].  A
    process whose lowest descriptor is on end [q] forks.  Its first system call
    gives the child that descriptor page, long before the pipe's page; if now
    any process with end [q] asks, uninterrupted, the answer is that the pipe
    is closed, although the other end is open. *)
Theorem pipeisclosed_fork_race w p σp c i q σ k runs fuel id :
  Forall (λ r, settled (p_asp r)) w → count (other_end q) w = 1 →
  w !! p = Some (mkProc σp []) → w !! c = Some (mkProc ∅ []) → w !! me = Some (mkProc σ []) → p ≠ c → me ≠ p → me ≠ c →
  0 <= i < MAXFD → σp !! fdpn i = Some q → (∀ j, 0 <= j < i → σp !! fdpn j = None) →
  0 <= k < MAXFD → σ !! fdpn k = Some q →
  let w' := foldl happen w [Start p (OFork c); Next p] in
  0 < count (other_end q) w' ∧ pipeisclosed id (S fuel) k (mkSharing w' [] runs) = (Ret (inr true), mkSharing w' [] runs).
Proof.
  intros Hw H1 Hp Hc Hm Npc Nmp Nmc Hi Hq Hlow Hk Hqk w'. pose proof Hw as Hw'. rewrite Forall_lookup in Hw'.
  destruct (fork_first c σp i q) as [l Hl]; [exact (Hw' _ _ Hp)|done..|].
  set (w1 := <[p := mkProc σp l]> w). assert (Hlt : (p < length w)%nat) by by eapply lookup_lt_Some.
  assert (Hc1 : w1 !! c = Some (mkProc ∅ [])) by (unfold w1; by rewrite list_lookup_insert_ne).
  assert (E : w' = <[c := mkProc {[fdpn i := q]} []]> w1).
  { unfold w'. cbn [foldl happen]. rewrite Hp, Hl, list_lookup_insert_eq, list_insert_insert_eq by done. fold w1. by rewrite Hq, Hc1. }
  assert (Hcov : ∀ j r, w !! j = Some r → covered (p_asp r)) by (intros j r Hj; exact (proj1 (Hw' _ _ Hj))).
  destruct (covered_fd σ (fdpn k) q (Hcov _ _ Hm)) as [Hqp Hd]; [fdconst; unfold fd_slot; lia|done|].
  replace (fdpn k + 32) with (datapn k) in Hd by (fdconst; lia).
  assert (Hcount : ∀ q', count q' w' = count q' w + if decide (q = q') then 1 else 0).
  { intros q'. rewrite E. rewrite (count_insert q' w1 c _ _ Hc1). unfold w1. rewrite (count_insert q' w p _ _ Hp).
    cbn [p_asp]. rewrite places_singleton. change (places q' ∅) with (@nil Z). destruct (decide (q = q')); cbn [length]; lia. }
  split; [rewrite Hcount, H1; by destruct (decide _)|].
  set (s := mkSharing w' [] runs). assert (Ht : ∀ j, ticks j s = s) by (induction j as [|j IH]; [done|]; by rewrite ticks_S, IH).
  assert (Hs : steady σ s).
  { intros j. rewrite Ht. unfold own_asp, s. cbn [sh_world]. rewrite E. unfold w1. by rewrite !list_lookup_insert_ne, Hm by congruence. }
  unfold pipeisclosed. mrun (apply (share_lookup σ); [done|done|by eexists]). destruct (data_page k) as [-> Hdu]; [lia|].
  rewrite Ht. erewrite bind_Ret; [reflexivity|]. rewrite (share_round σ s fuel (fdpn k) (datapn k) q PipePage); [|done|apply fdpn_upn; lia|done..].
  rewrite !Ht, Z.eqb_refl. f_equal. f_equal. apply Z.eqb_eq. unfold s. cbn [sh_world]. rewrite !Hcount.
  pose proof (settled_world_count w Hw). destruct q; cbn [other_end] in *; [..|done]; rewrite decide_True, decide_False by done; lia.
Qed.
End system.

(** ** A reader and a writer *)

Definition demo_devices : list (Dev view) := [mkDev devpipe_id 0 None None (Some devpipe_close) None None].

Definition one_end (i : Z) (q : page) (σ : aspace) : aspace := <[fdpn i := q]> (<[datapn i := PipePage]> σ).

Lemma settled_one_end i q σ : settled σ → 0 <= i < MAXFD → q ≠ PipePage → settled (one_end i q σ).
Proof.
  intros [Hc Hs] Hi Hq. unfold one_end. split.
  - intros pn q' [[<- <-]|[Hn H]]%lookup_insert_Some.
    { left. split; [unfold fd_slot; fdconst; lia|]. split; [done|]. rewrite lookup_insert_ne by (fdconst; lia).
      replace (fdpn i + 32) with (datapn i) by (fdconst; lia). apply lookup_insert_eq. }
    apply lookup_insert_Some in H as [[<- <-]|[Hn' H]]; [right; split; [unfold data_slot; fdconst; lia|done]|].
    destruct (Hc _ _ H) as [(Hf & Hq' & Hd)|]; [left|by right]. split; [done|]. split; [done|].
    rewrite !lookup_insert_ne; [done|unfold fd_slot in Hf; fdconst; lia..].
  - intros pn [[_ ->]|[Hn H]]%lookup_insert_Some; [done|]. destruct (decide (pn = datapn i)) as [->|Hne].
    { exists q. replace (datapn i - 32) with (fdpn i) by (fdconst; lia). apply lookup_insert_eq. }
    rewrite lookup_insert_ne in H by done. destruct (Hs _ H) as [q' Hq']. destruct (Hc _ _ H) as [(_ & [] & _)|[Hd _]]; [done|].
    exists q'. rewrite !lookup_insert_ne; [done|unfold data_slot in Hd; fdconst; lia..].
Qed.

Lemma settled_empty : settled ∅.
Proof. split; [intros pn q H|intros pn H]; by rewrite lookup_empty in H. Qed.

Definition demo_self : Env := demo_env 0x1000 0 ENV_RUNNING 1 false.




(** A reader, a process with both ends, and its child to be. *)
Definition demo_forking : world :=
  [mkProc (one_end 0 RFd ∅) []; mkProc (one_end 0 RFd (one_end 1 WFd ∅)) []; mkProc ∅ []].

Lemma pipeisclosed_fork_race_witness :
  let w' := foldl (happen demo_devices 0 0 (mkGlobals 0 0)) demo_forking [Start 1 (OFork 2); Next 1] in
  0 < count WFd w' ∧
  pipeisclosed (H := sharing_machine demo_devices 0 0 (mkGlobals 0 0) 0 demo_self) 0 1 0 (mkSharing w' [] 1) =
    (Ret (inr true), mkSharing w' [] 1).
Proof.
  apply (pipeisclosed_fork_race demo_devices 0 0 (mkGlobals 0 0) 0 demo_self demo_forking 1
    (one_end 0 RFd (one_end 1 WFd ∅)) 2 0 RFd (one_end 0 RFd ∅) 0 1 0 0).
  - assert (H1 : settled (one_end 1 WFd ∅)) by (apply settled_one_end; [exact settled_empty|unfold MAXFD; lia|discriminate]).
    assert (H0 : settled (one_end 0 RFd (one_end 1 WFd ∅))) by (apply settled_one_end; [exact H1|unfold MAXFD; lia|discriminate]).
    assert (H2 : settled (one_end 0 RFd ∅)) by (apply settled_one_end; [exact settled_empty|unfold MAXFD; lia|discriminate]).
    constructor; [exact H2|]. constructor; [exact H0|]. constructor; [exact settled_empty|constructor].
  - vm_compute. reflexivity.
  - reflexivity.
  - reflexivity.
  - reflexivity.
  - discriminate.
  - discriminate.
  - discriminate.
  - unfold MAXFD. lia.
  - reflexivity.
  - lia.
  - unfold MAXFD. lia.
  - reflexivity.
Defined.
