(* ===== verification/Inet.v ===== *)
(** * Internet addresses ([net/lwip/core/ipv4/inet.c], [ip_addr.c])

    Byte order, the text form of an address and its parser.  A C string is
    the list of its characters up to the terminating 0; reading at the end of
    the list reads that 0. *)

From S2P Require Import Prelude Mmu.
Open Scope Z_scope.

(** ** Byte order: little-endian host *)

Definition htons (n : Z) : Z := u16 (Z.lor (Z.shiftl (Z.land n 0xff) 8) (Z.shiftr (Z.land n 0xff00) 8)).
Definition ntohs (n : Z) : Z := htons n.
Definition htonl (n : Z) : Z :=
  u32 (Z.lor (Z.lor (Z.lor (Z.shiftl (Z.land n 0xff) 24) (Z.shiftl (Z.land n 0xff00) 8))
    (Z.shiftr (Z.land n 0xff0000) 8)) (Z.shiftr (Z.land n 0xff000000) 24)).
Definition ntohl (n : Z) : Z := htonl n.

(** ** Characters *)

Definition in_range (c lo up : Z) : bool := (lo <=? u8 c) && (u8 c <=? up).
Definition isprint (c : Z) : bool := in_range c 0x20 0x7f.
Definition isdigit (c : Z) : bool := in_range c 48 57.
Definition isxdigit (c : Z) : bool := isdigit c || in_range c 97 102 || in_range c 65 70.
Definition islower (c : Z) : bool := in_range c 97 122.
Definition isspace (c : Z) : bool :=
  (c =? 32) || (c =? 12) || (c =? 10) || (c =? 13) || (c =? 9) || (c =? 11).

Definition char_at (s : list Z) : Z := match s with [] => 0 | c :: _ => c end.

(** ** [inet_aton] *)

(** The inner loop: digits of a number in [base]. *)
Fixpoint aton_digits (base val : Z) (s : list Z) : Z * list Z :=
  match s with
  | [] => (val, [])
  | c :: s' =>
    if isdigit c then aton_digits base (u32 (val * base + (c - 48))) s'
    else if (base =? 16) && isxdigit c
    then aton_digits base (u32 (Z.lor (Z.shiftl val 4) (c + 10 - (if islower c then 97 else 65)))) s'
    else (val, s)
  end.

(** A number: [0x] for hexadecimal, [0] for octal. *)
Definition aton_number (s : list Z) : option (Z * list Z) :=
  if negb (isdigit (char_at s)) then None
  else if char_at s =? 48 then
    let s := tail s in
    if (char_at s =? 120) || (char_at s =? 88) then Some (aton_digits 16 0 (tail s))
    else Some (aton_digits 8 0 s)
  else Some (aton_digits 10 0 s).

(** The numbers before the last one, the last one, and what follows it.  At
    most three dots: [k] is 4. *)
Fixpoint aton_parts (k : nat) (parts : list Z) (s : list Z) : option (list Z * Z * list Z) :=
  match k with
  | O => None
  | S k' =>
    match aton_number s with
    | None => None
    | Some (val, s) =>
      if char_at s =? 46 then
        if (3 <=? length parts)%nat then None else aton_parts k' (parts ++ [val]) (tail s)
      else Some (parts, val, s)
    end
  end.

Definition inet_aton (cp : list Z) : option Z :=
  match aton_parts 4 [] cp with
  | None => None
  | Some (parts, val, s) =>
    let c := char_at s in
    if negb (c =? 0) && (negb (isprint c) || negb (isspace c)) then None
    else
      match parts with
      | [] => Some (htonl val)
      | [a] => if 0xffffff <? val then None else Some (htonl (u32 (Z.lor val (Z.shiftl a 24))))
      | [a; b] =>
        if 0xffff <? val then None
        else Some (htonl (u32 (Z.lor val (Z.lor (Z.shiftl a 24) (Z.shiftl b 16)))))
      | [a; b; c] =>
        if 0xff <? val then None
        else Some (htonl (u32 (Z.lor val (Z.lor (Z.lor (Z.shiftl a 24) (Z.shiftl b 16)) (Z.shiftl c 8)))))
      | _ => None
      end
  end.

Definition INADDR_NONE : Z := 0xffffffff.
Definition inet_addr (cp : list Z) : Z := default INADDR_NONE (inet_aton cp).

(** ** [inet_ntoa] *)

(** The [do] loop: the digits of the byte [x], last first, added to [inv]. *)
Fixpoint ntoa_digits (fuel : nat) (x : Z) (inv : list Z) : list Z :=
  match fuel with
  | O => inv
  | S fuel' =>
    let rem := x mod 10 in
    let x := x / 10 in
    let inv := (48 + rem) :: inv in
    if x =? 0 then inv else ntoa_digits fuel' x inv
  end.

(** A byte of the address and the dot after it, as written at [rp]. *)
Definition ntoa_octet (x : Z) : list Z := ntoa_digits 4 x [] ++ [46].

(** Byte [n] of [s_addr] in memory. *)
Definition addr_byte (a n : Z) : Z := u8 (Z.shiftr a (8 * n)).

(** What the loop writes to [str]; the last dot is then overwritten with 0. *)
Definition ntoa_written (a : Z) : list Z := concat (map (λ n, ntoa_octet (addr_byte a n)) [0; 1; 2; 3]).

Definition inet_ntoa (a : Z) : list Z := removelast (ntoa_written a).

(** ** [ip_addr_isbroadcast] *)

Definition NETIF_FLAG_BROADCAST : Z := 2.

Record netif := mkNetif { netif_ip_addr : Z; netif_netmask : Z; netif_flags : Z }.

Definition ip_addr_isbroadcast (addr : Z) (n : netif) : bool :=
  if (u32 (Z.lnot addr) =? 0) || (addr =? 0) then true
  else if Z.land (netif_flags n) NETIF_FLAG_BROADCAST =? 0 then false
  else if addr =? netif_ip_addr n then false
  else
    (Z.land addr (netif_netmask n) =? Z.land (netif_ip_addr n) (netif_netmask n)) &&
    (Z.land addr (u32 (Z.lnot (netif_netmask n))) =? Z.land 0xffffffff (u32 (Z.lnot (netif_netmask n)))).

(** ** Byte order *)

(** A byte of a word in its place. *)
Lemma byte_field n k : 0 <= k → Z.land n (Z.shiftl 0xff k) = n / 2 ^ k mod 256 * 2 ^ k.
Proof.
  intros Hk. change 0xff with (Z.ones 8). apply Z.bits_inj'. intros i Hi.
  rewrite Z.land_spec, Z.shiftl_spec by done. change 256 with (2 ^ 8). rewrite <- Z.land_ones by lia.
  rewrite <- Z.shiftl_mul_pow2, Z.shiftl_spec, Z.land_spec, <- Z.shiftr_div_pow2 by lia.
  destruct (Z.lt_ge_cases i k) as [Hlt|Hge].
  - rewrite !(Z.testbit_neg_r _ (i - k)) by lia. by rewrite !andb_false_r.
  - rewrite Z.shiftr_spec by lia. by rewrite Z.sub_add.
Qed.

Lemma htons_eq n : 0 <= n < 2 ^ 16 → htons n = n mod 256 * 256 + n / 256.
Proof.
  intros Hn. unfold htons, u16. change 0xff with (Z.shiftl 0xff 0) at 1. change 0xff00 with (Z.shiftl 0xff 8).
  rewrite !byte_field, Z.shiftl_mul_pow2, Z.shiftr_div_pow2 by lia. change (2 ^ 0) with 1. rewrite Z.div_1_r, Z.mul_1_r.
  rewrite Z.div_mul by lia. rewrite lor_add_shift by (done || (apply Z.mod_pos_bound; lia)).
  change (2 ^ 8) with 256. Z.to_euclidean_division_equations. lia.
Qed.

Lemma htonl_eq n :
  htonl n = n mod 256 * 2 ^ 24 + n / 2 ^ 8 mod 256 * 2 ^ 16 + n / 2 ^ 16 mod 256 * 2 ^ 8 + n / 2 ^ 24 mod 256.
Proof.
  unfold htonl, u32. change 0xff with (Z.shiftl 0xff 0) at 1. change 0xff00 with (Z.shiftl 0xff 8).
  change 0xff0000 with (Z.shiftl 0xff 16). change 0xff000000 with (Z.shiftl 0xff 24).
  rewrite !byte_field, !Z.shiftl_mul_pow2, !Z.shiftr_div_pow2 by lia. change (2 ^ 0) with 1. rewrite Z.div_1_r, Z.mul_1_r.
  pose proof (Z.mod_pos_bound n 256 ltac:(lia)). pose proof (Z.mod_pos_bound (n / 2 ^ 8) 256 ltac:(lia)).
  pose proof (Z.mod_pos_bound (n / 2 ^ 16) 256 ltac:(lia)). pose proof (Z.mod_pos_bound (n / 2 ^ 24) 256 ltac:(lia)).
  set (b0 := n mod 256) in *. set (b1 := n / 2 ^ 8 mod 256) in *. set (b2 := n / 2 ^ 16 mod 256) in *.
  set (b3 := n / 2 ^ 24 mod 256) in *. clearbody b0 b1 b2 b3.
  rewrite Z.div_mul by lia. replace (b1 * 2 ^ 8 * 2 ^ 8) with (b1 * 2 ^ 16) by lia.
  replace (b2 * 2 ^ 16 / 2 ^ 8) with (b2 * 2 ^ 8) by (Z.to_euclidean_division_equations; lia).
  rewrite lor_add_shift by lia. replace (b0 * 2 ^ 24 + b1 * 2 ^ 16) with ((b0 * 2 ^ 8 + b1) * 2 ^ 16) by lia.
  rewrite lor_add_shift by lia.
  replace ((b0 * 2 ^ 8 + b1) * 2 ^ 16 + b2 * 2 ^ 8) with ((b0 * 2 ^ 16 + b1 * 2 ^ 8 + b2) * 2 ^ 8) by lia.
  rewrite lor_add_shift by lia. rewrite Z.mod_small by lia. lia.
Qed.

(** ** Numbers *)

Lemma isdigit_of d : 0 <= d < 10 → isdigit (48 + d) = true.
Proof.
  intros Hd. unfold isdigit, in_range, u8. rewrite Z.mod_small by lia. apply andb_true_iff. rewrite !Z.leb_le. lia.
Qed.

Lemma aton_digits_step base v d s :
  0 <= d < 10 → aton_digits base v ((48 + d) :: s) = aton_digits base (u32 (v * base + d)) s.
Proof. intros Hd. cbn [aton_digits]. rewrite isdigit_of by done. by rewrite Z.add_simpl_l. Qed.

(** What ends a number: the end, or a dot. *)
Definition number_end (s : list Z) : Prop := s = [] ∨ ∃ r, s = 46 :: r.

Lemma aton_digits_end base v s : number_end s → aton_digits base v s = (v, s).
Proof. intros [->|[r ->]]; [done|]. cbn [aton_digits]. change (isdigit 46) with false. change (isxdigit 46) with false. by rewrite andb_false_r. Qed.

(** The digits [inet_ntoa] writes. *)
Lemma ntoa_digits_eq x : 0 <= x < 256 →
  ntoa_digits 4 x [] =
    if x <? 10 then [48 + x]
    else if x <? 100 then [48 + x / 10; 48 + x mod 10]
    else [48 + x / 100; 48 + x / 10 mod 10; 48 + x mod 10].
Proof.
  intros Hx. cbn [ntoa_digits].
  destruct (Z.ltb_spec x 10) as [H1|H1].
  { rewrite Z.div_small, Z.mod_small by lia. done. }
  destruct (Z.eqb_spec (x / 10) 0) as [H2|H2]; [Z.to_euclidean_division_equations; lia|].
  destruct (Z.ltb_spec x 100) as [H3|H3].
  - assert (x / 10 / 10 = 0 ∧ x / 10 mod 10 = x / 10) as [-> ->] by (Z.to_euclidean_division_equations; lia). done.
  - assert (x / 10 / 10 = x / 100 ∧ x / 100 / 10 = 0 ∧ x / 100 mod 10 = x / 100 ∧ x / 100 <> 0) as (-> & E1 & E2 & E3)
      by (Z.to_euclidean_division_equations; lia).
    destruct (Z.eqb_spec (x / 100) 0); [done|]. by rewrite E1, E2.
Qed.

Lemma aton_number_octet x s : 0 <= x < 256 → number_end s → aton_number (ntoa_digits 4 x [] ++ s) = Some (x, s).
Proof.
  intros Hx Hs. rewrite ntoa_digits_eq by done. unfold aton_number, char_at.
  assert (Hu : ∀ y, 0 <= y < 1000 → u32 y = y) by (intros; apply u32_small; lia).
  destruct (Z.ltb_spec x 10) as [H1|H1]; [|destruct (Z.ltb_spec x 100) as [H2|H2]]; cbn [app tail].
  - rewrite isdigit_of by lia. cbn [negb]. destruct (Z.eqb_spec (48 + x) 48) as [H3|H3].
    + assert (x = 0) as -> by lia. destruct Hs as [->|[r ->]]; cbn [Z.eqb orb]; [done|].
      reflexivity.
    + rewrite aton_digits_step, aton_digits_end by (done || lia). by rewrite Hu by lia.
  - rewrite isdigit_of by (Z.to_euclidean_division_equations; lia). cbn [negb].
    destruct (Z.eqb_spec (48 + x / 10) 48) as [H3|H3]; [Z.to_euclidean_division_equations; lia|].
    rewrite !aton_digits_step, aton_digits_end by (done || (Z.to_euclidean_division_equations; lia)).
    rewrite (Hu (0 * 10 + x / 10)), Hu by (Z.to_euclidean_division_equations; lia). do 2 f_equal. Z.to_euclidean_division_equations. lia.
  - rewrite isdigit_of by (Z.to_euclidean_division_equations; lia). cbn [negb].
    destruct (Z.eqb_spec (48 + x / 100) 48) as [H3|H3]; [Z.to_euclidean_division_equations; lia|].
    rewrite !aton_digits_step, aton_digits_end by (done || (Z.to_euclidean_division_equations; lia)).
    rewrite (Hu (0 * 10 + x / 100)), (Hu ((0 * 10 + x / 100) * 10 + x / 10 mod 10)), Hu by (Z.to_euclidean_division_equations; lia).
    do 2 f_equal. Z.to_euclidean_division_equations. lia.
Qed.

Lemma addr_byte_range a n : 0 <= addr_byte a n < 256.
Proof. apply Z.mod_pos_bound. lia. Qed.

Lemma inet_ntoa_eq a :
  inet_ntoa a = ntoa_digits 4 (addr_byte a 0) [] ++ 46 :: (ntoa_digits 4 (addr_byte a 1) [] ++
    46 :: (ntoa_digits 4 (addr_byte a 2) [] ++ 46 :: (ntoa_digits 4 (addr_byte a 3) [] ++ []))).
Proof.
  unfold inet_ntoa, ntoa_written, ntoa_octet. cbn [map concat]. rewrite !app_nil_r, !app_assoc, removelast_last.
  by rewrite <- !app_assoc.
Qed.

(** [inet_aton] reads back every address [inet_ntoa] writes. *)
Theorem inet_ntoa_aton a : is_u32 a → inet_aton (inet_ntoa a) = Some a.
Proof.
  intros Ha. rewrite inet_ntoa_eq. unfold inet_aton. cbn [aton_parts].
  do 3 (rewrite aton_number_octet by (apply addr_byte_range || (right; eexists; reflexivity));
    cbn [char_at Z.eqb Pos.eqb length Nat.leb tail app]).
  rewrite aton_number_octet by (apply addr_byte_range || by left). cbn [char_at Z.eqb negb andb].
  assert (Hb : ∀ n, 0 <= n < 4 → addr_byte a n = a / 2 ^ (8 * n) mod 256).
  { intros n Hn. unfold addr_byte, u8. by rewrite Z.shiftr_div_pow2 by lia. }
  pose proof (addr_byte_range a 0). pose proof (addr_byte_range a 1). pose proof (addr_byte_range a 2). pose proof (addr_byte_range a 3).
  destruct (Z.ltb_spec 0xff (addr_byte a 3)) as [|_]; [lia|]. apply f_equal.
  rewrite Z.lor_comm, !Z.shiftl_mul_pow2 by lia.
  set (x := addr_byte a 0) in *. set (y := addr_byte a 1) in *. set (z := addr_byte a 2) in *. set (w := addr_byte a 3) in *.
  rewrite lor_add_shift by lia. replace (x * 2 ^ 24 + y * 2 ^ 16) with ((x * 2 ^ 8 + y) * 2 ^ 16) by lia.
  rewrite lor_add_shift by lia.
  replace ((x * 2 ^ 8 + y) * 2 ^ 16 + z * 2 ^ 8) with ((x * 2 ^ 16 + y * 2 ^ 8 + z) * 2 ^ 8) by lia.
  rewrite lor_add_shift, u32_small, htonl_eq by lia.
  assert (E : a = x + y * 2 ^ 8 + z * 2 ^ 16 + w * 2 ^ 24).
  { unfold x, y, z, w. rewrite !Hb by lia. unfold is_u32 in Ha. change (2 ^ (8 * 0)) with 1. change (2 ^ (8 * 1)) with 256.
    change (2 ^ (8 * 2)) with 65536. change (2 ^ (8 * 3)) with 16777216. Z.to_euclidean_division_equations. lia. }
  clear Hb. clearbody x y z w. Z.to_euclidean_division_equations. lia.
Qed.

(** C31: [inet_ntoa] stays inside its buffers: a byte has at most the three
    digits of [inv], and all it writes to [str], the last dot included, fits
    in 16 characters. *)
Theorem inet_ntoa_bounds a :
  (∀ n, (length (ntoa_digits 4 (addr_byte a n) []) <= 3)%nat) ∧ (length (ntoa_written a) <= 16)%nat.
Proof.
  assert (Hd : ∀ n, (length (ntoa_digits 4 (addr_byte a n) []) <= 3)%nat).
  { intros n. rewrite ntoa_digits_eq by apply addr_byte_range. repeat case_match; cbn [length]; lia. }
  split; [done|]. unfold ntoa_written, ntoa_octet. cbn [map concat]. rewrite !length_app. cbn [length].
  pose proof (Hd 0). pose proof (Hd 1). pose proof (Hd 2). pose proof (Hd 3). lia.
Qed.

(** [inet_aton] checks the range of the last number only: a number before
    it spills into its neighbours or is cut off, and the text is accepted.
    [2.300.1.1] is read as [3.44.1.1], and [256.1.1.1]
    as [0.1.1.1]. *)
Theorem inet_aton_no_range_check :
  (inet_ntoa <$> inet_aton [50; 53; 54; 46; 49; 46; 49; 46; 49]) = Some [48; 46; 49; 46; 49; 46; 49] ∧
  (inet_ntoa <$> inet_aton [50; 46; 51; 48; 48; 46; 49; 46; 49]) = Some [51; 46; 52; 52; 46; 49; 46; 49].
Proof. by vm_compute. Qed.

Lemma inet_ntoa_aton_witness : inet_aton (inet_ntoa 0x0100007f) = Some 0x0100007f.
Proof. apply inet_ntoa_aton. unfold is_u32. lia. Defined.

(** ** Broadcast addresses *)

Lemma u32_land_lnot a m : Z.land a (u32 (Z.lnot m)) = Z.ldiff (u32 a) m.
Proof.
  unfold u32. rewrite <- !Z.land_ones by lia. apply Z.bits_inj'. intros i Hi.
  rewrite Z.ldiff_spec, !Z.land_spec, Z.lnot_spec by done.
  destruct (Z.testbit a i), (Z.testbit m i), (Z.testbit (Z.ones 32) i); done.
Qed.

(** On an interface that broadcasts, an address other than its own is a
    broadcast address when it is all zeros or all ones, or the network of the
    interface with all ones as the host. *)
Lemma ip_addr_isbroadcast_spec addr n :
  is_u32 addr → is_u32 (netif_ip_addr n) → Z.land (netif_flags n) NETIF_FLAG_BROADCAST ≠ 0 → addr ≠ netif_ip_addr n →
  (ip_addr_isbroadcast addr n = true ↔
    addr = 0 ∨ addr = 0xffffffff ∨
    addr = Z.lor (Z.land (netif_ip_addr n) (netif_netmask n)) (Z.ldiff 0xffffffff (netif_netmask n))).
Proof.
  unfold is_u32. intros Ha Hip Hfl Hne. unfold ip_addr_isbroadcast.
  assert (Hones : u32 (Z.lnot addr) = 0 ↔ addr = 0xffffffff).
  { unfold u32, Z.lnot. Z.to_euclidean_division_equations. lia. }
  destruct (Z.eqb_spec (u32 (Z.lnot addr)) 0) as [E1|E1]; [split; [|done]; intros _; right; left; by apply Hones|].
  destruct (Z.eqb_spec addr 0) as [E2|E2]; [tauto|]. cbn [orb].
  destruct (Z.eqb_spec (Z.land (netif_flags n) NETIF_FLAG_BROADCAST) 0) as [|_]; [done|].
  destruct (Z.eqb_spec addr (netif_ip_addr n)) as [|_]; [done|].
  rewrite !u32_land_lnot, !u32_small by lia. rewrite andb_true_iff, !Z.eqb_eq.
  set (m := netif_netmask n). set (ip := netif_ip_addr n).
  assert (Hsplit : ∀ x, x = Z.lor (Z.land x m) (Z.ldiff x m)).
  { intros x. apply Z.bits_inj'. intros i Hi. rewrite Z.lor_spec, Z.land_spec, Z.ldiff_spec.
    destruct (Z.testbit x i), (Z.testbit m i); done. }
  split.
  - intros [H1 H2]. right. right. rewrite <- H1, <- H2. apply Hsplit.
  - intros [->|[->| ->]]; [done|by rewrite (proj2 Hones eq_refl) in E1|]. split; apply Z.bits_inj'; intros i Hi;
      rewrite ?Z.land_spec, ?Z.ldiff_spec, ?Z.lor_spec, ?Z.land_spec, ?Z.ldiff_spec;
      destruct (Z.testbit ip i), (Z.testbit m i), (Z.testbit 0xffffffff i); done.
Qed.
