(* ===== verification/Chksum.v ===== *)
(** * Internet checksums ([net/lwip/core/ipv4/inet_chksum.c])

    The algorithm compiled in ([LWIP_CHKSUM_ALGORITHM] 1), over flat buffers
    and over chains of packet buffers, with and without the pseudo-header of
    TCP and UDP.  A buffer is the list of its bytes.

    The reference is the ones'-complement sum of the big-endian 16-bit words,
    [ones (osum bs)].  The code sums in host order what it reads in network
    order and swaps bytes when a buffer of odd length shifts the rest by one;
    multiplication by 256 modulo 65535 accounts for both. *)

From S2P Require Import Prelude Mmu Inet.
Open Scope Z_scope.

(** ** The code *)

Definition SWAP_BYTES_IN_WORD (w : Z) : Z := Z.lor (Z.shiftl (Z.land w 0xff) 8) (Z.shiftr (Z.land w 0xff00) 8).
Definition FOLD_U32T (u : Z) : Z := u32 (Z.shiftr u 16 + Z.land u 0xffff).

Fixpoint chksum_loop (bs : list Z) (acc : Z) : Z :=
  match bs with
  | b0 :: b1 :: bs => chksum_loop bs (u32 (acc + Z.lor (u16 (Z.shiftl b0 8)) b1))
  | [b] => u32 (acc + u16 (Z.shiftl b 8))
  | [] => acc
  end.

Definition lwip_standard_chksum (bs : list Z) : Z :=
  let acc := chksum_loop bs 0 in
  let acc := FOLD_U32T acc in
  let acc := if negb (Z.land acc 0xffff0000 =? 0) then FOLD_U32T acc else acc in
  htons (u16 acc).

Definition inet_chksum (bs : list Z) : Z := u16 (Z.lnot (lwip_standard_chksum bs)).

(** The loop over a chain: the sum and whether it is byte-swapped. *)
Fixpoint chain_loop (q : list (list Z)) (acc : Z) (swapped : bool) : Z * bool :=
  match q with
  | [] => (acc, swapped)
  | p :: q =>
    let acc := FOLD_U32T (u32 (acc + lwip_standard_chksum p)) in
    if negb (Z.of_nat (length p) mod 2 =? 0)
    then chain_loop q (SWAP_BYTES_IN_WORD acc) (negb swapped)
    else chain_loop q acc swapped
  end.

Definition chain_chksum (p : list (list Z)) : Z :=
  let '(acc, swapped) := chain_loop p 0 false in
  if (swapped : bool) then SWAP_BYTES_IN_WORD acc else acc.

Definition inet_chksum_pbuf (p : list (list Z)) : Z := u16 (Z.lnot (Z.land (chain_chksum p) 0xffff)).

(** The words of the pseudo-header, added to the sum of the chain. *)
Definition pseudo_finish (acc src dest proto proto_len : Z) : Z :=
  let acc := u32 (acc + Z.land src 0xffff) in
  let acc := u32 (acc + Z.land (Z.shiftr src 16) 0xffff) in
  let acc := u32 (acc + Z.land dest 0xffff) in
  let acc := u32 (acc + Z.land (Z.shiftr dest 16) 0xffff) in
  let acc := u32 (acc + htons (u16 proto)) in
  let acc := u32 (acc + htons proto_len) in
  let acc := FOLD_U32T acc in
  let acc := FOLD_U32T acc in
  u16 (Z.lnot (Z.land acc 0xffff)).

Definition inet_chksum_pseudo (p : list (list Z)) (src dest proto proto_len : Z) : Z :=
  pseudo_finish (chain_chksum p) src dest proto proto_len.

(** The chain up to [chksum_len] bytes; [None] is the failed assertion. *)
Fixpoint partial_loop (q : list (list Z)) (acc : Z) (swapped : bool) (chksum_len : Z) : option (Z * bool) :=
  match q with
  | [] => Some (acc, swapped)
  | p :: q =>
    if 0 <? chksum_len then
      let chklen := Z.min (Z.of_nat (length p)) chksum_len in
      let acc := u32 (acc + lwip_standard_chksum (take (Z.to_nat chklen) p)) in
      let chksum_len := chksum_len - chklen in
      if negb (chksum_len <? 0x7fff) then None
      else
        let acc := FOLD_U32T acc in
        if negb (Z.of_nat (length p) mod 2 =? 0)
        then partial_loop q (SWAP_BYTES_IN_WORD acc) (negb swapped) chksum_len
        else partial_loop q acc swapped chksum_len
    else Some (acc, swapped)
  end.

Definition inet_chksum_pseudo_partial (p : list (list Z)) (src dest proto proto_len chksum_len : Z) : option Z :=
  match partial_loop p 0 false chksum_len with
  | None => None
  | Some (acc, swapped) =>
    let acc := if (swapped : bool) then SWAP_BYTES_IN_WORD acc else acc in
    Some (pseudo_finish acc src dest proto proto_len)
  end.

(** ** The reference *)

Definition bytes (bs : list Z) : Prop := Forall is_u8 bs.

(** The sum of the big-endian words; a last odd byte is followed by 0. *)
Fixpoint osum (bs : list Z) : Z :=
  match bs with
  | b0 :: b1 :: bs => b0 * 256 + b1 + osum bs
  | [b] => b * 256
  | [] => 0
  end.

(** The ones'-complement value of a sum: 0 only for 0. *)
Definition ones (s : Z) : Z := if decide (s = 0) then 0 else 1 + (s - 1) mod 65535.

Lemma list_ind2 {A} (P : list A → Prop) :
  P [] → (∀ x, P [x]) → (∀ x y l, P l → P (x :: y :: l)) → ∀ l, P l.
Proof.
  intros H0 H1 H2. fix IH 1. intros [|x [|y l]]; [done|apply H1|]. apply H2, IH.
Qed.

Lemma osum_bound bs : bytes bs → 0 <= osum bs <= 65535 * ((Z.of_nat (length bs) + 1) / 2).
Proof.
  induction bs as [|x|x y l IH] using list_ind2; cbn [osum length]; intros Hb.
  - done.
  - apply Forall_cons in Hb as [Hx _]. unfold is_u8 in Hx. change (Z.of_nat 1) with 1. change ((1 + 1) / 2) with 1. lia.
  - apply Forall_cons in Hb as [Hx [Hy Hl]%Forall_cons]. specialize (IH Hl). unfold is_u8 in *.
    replace ((Z.of_nat (S (S (length l))) + 1) / 2) with ((Z.of_nat (length l) + 1) / 2 + 1)
      by (Z.to_euclidean_division_equations; lia). lia.
Qed.

(** ** Folding *)

Lemma FOLD_eq u : 0 <= u < 2 ^ 32 → FOLD_U32T u = u / 65536 + u mod 65536.
Proof.
  intros Hu. unfold FOLD_U32T. change 0xffff with (Z.ones 16). rewrite Z.shiftr_div_pow2, Z.land_ones by lia.
  change (2 ^ 16) with 65536. rewrite u32_small; [done|]. Z.to_euclidean_division_equations. lia.
Qed.

(** Congruence modulo 65535. *)
Definition cong (a b : Z) : Prop := ∃ k, a = b + 65535 * k.

(** [a] represents the sum [s]: congruent modulo 65535, and 0 only for 0. *)
Definition repr (a s : Z) : Prop := 0 <= a <= 65535 ∧ cong a s ∧ (a = 0 ↔ s = 0).

Lemma repr_ones a s : 0 <= s → repr a s → a = ones s.
Proof.
  intros Hs (Ha & [k Hk] & H0). unfold ones. destruct (decide (s = 0)) as [E|E]; [tauto|].
  assert (a ≠ 0) by tauto. clear H0. subst a. Z.to_euclidean_division_equations. lia.
Qed.

Lemma fold_repr u s : 0 <= u <= 0x1fffe → cong u s → (u = 0 ↔ s = 0) → repr (FOLD_U32T u) s.
Proof.
  intros Hu [k Hk] H0. rewrite FOLD_eq by lia. split; [|split].
  - Z.to_euclidean_division_equations. lia.
  - exists (k - u / 65536). clear H0. Z.to_euclidean_division_equations. lia.
  - rewrite <- H0. clear H0 Hk. Z.to_euclidean_division_equations. lia.
Qed.

Lemma SWAP_eq n : 0 <= n < 2 ^ 16 → SWAP_BYTES_IN_WORD n = n mod 256 * 256 + n / 256.
Proof.
  intros Hn. unfold SWAP_BYTES_IN_WORD. change 0xff with (Z.shiftl 0xff 0) at 1. change 0xff00 with (Z.shiftl 0xff 8).
  rewrite !byte_field, Z.shiftl_mul_pow2, Z.shiftr_div_pow2 by lia. change (2 ^ 0) with 1. rewrite Z.div_1_r, Z.mul_1_r.
  rewrite Z.div_mul by lia. rewrite lor_add_shift by (done || (apply Z.mod_pos_bound; lia)).
  change (2 ^ 8) with 256. Z.to_euclidean_division_equations. lia.
Qed.

Lemma swap_repr x s : repr x s → repr (htons x) (256 * s) ∧ SWAP_BYTES_IN_WORD x = htons x.
Proof.
  intros (Hx & [k Hk] & H0). split.
  - rewrite htons_eq by lia. split; [Z.to_euclidean_division_equations; lia|]. split.
    + exists (256 * k - x / 256). clear H0. Z.to_euclidean_division_equations. lia.
    + split; intros E; [|rewrite (proj2 H0) by lia; done]. assert (x = 0) by (clear H0 Hk; Z.to_euclidean_division_equations; lia).
      rewrite (proj1 H0) by done. done.
  - rewrite htons_eq by lia. apply SWAP_eq. lia.
Qed.

(** [repr] does not depend on the sum, up to congruence and zero. *)
Lemma repr_ext x s s' : repr x s → cong s s' → (s = 0 ↔ s' = 0) → repr x s'.
Proof.
  intros (Hx & [k Hk] & H0) [k' Hk'] H0'. split; [done|]. split; [exists (k + k'); lia|]. tauto.
Qed.

Lemma repr_unique x y s : repr x s → repr y s → x = y.
Proof.
  intros (Hx & [k Hk] & H0) (Hy & [k' Hk'] & H0'). destruct (decide (s = 0)) as [E|E].
  - rewrite (proj2 H0), (proj2 H0') by done. done.
  - assert (x ≠ 0 ∧ y ≠ 0) by tauto. lia.
Qed.

(** ** One buffer *)

Lemma word_eq b0 b1 : is_u8 b0 → is_u8 b1 → Z.lor (u16 (Z.shiftl b0 8)) b1 = b0 * 256 + b1.
Proof.
  unfold is_u8. intros. unfold u16. rewrite Z.shiftl_mul_pow2, Z.mod_small by lia. by rewrite lor_add_shift by lia.
Qed.

Lemma chksum_loop_eq bs acc :
  bytes bs → 0 <= acc → acc + osum bs < 2 ^ 32 → chksum_loop bs acc = acc + osum bs.
Proof.
  revert acc. induction bs as [|x|x y l IH] using list_ind2; cbn [osum chksum_loop]; intros acc Hb Ha Hlt.
  - lia.
  - apply Forall_cons in Hb as [Hx _]. unfold is_u8 in Hx. unfold u16. rewrite Z.shiftl_mul_pow2, Z.mod_small by lia.
    rewrite u32_small; lia.
  - apply Forall_cons in Hb as [Hx [Hy Hl]%Forall_cons]. pose proof (osum_bound l Hl). rewrite word_eq by done.
    unfold is_u8 in *. rewrite u32_small by lia. rewrite IH by (done || lia). lia.
Qed.

Lemma high_bits u : 0 <= u < 2 ^ 32 → (Z.land u 0xffff0000 =? 0) = (u <? 65536).
Proof.
  intros Hu. change 0xffff0000 with (Z.shiftl (Z.ones 16) 16).
  assert (E : Z.land u (Z.shiftl (Z.ones 16) 16) = u / 65536 * 65536).
  { change 65536 with (2 ^ 16). rewrite <- (Z.shiftl_mul_pow2 _ 16), <- (Z.shiftr_div_pow2 u 16) by lia.
    assert (Hw : Z.shiftr u 16 = Z.land (Z.shiftr u 16) (Z.ones 16)).
    { rewrite Z.land_ones, Z.shiftr_div_pow2 by lia. rewrite Z.mod_small; [done|]. Z.to_euclidean_division_equations. lia. }
    rewrite Hw, Z.shiftl_land. apply Z.bits_inj'. intros i Hi. rewrite !Z.land_spec, !Z.shiftl_spec by done.
    destruct (Z.lt_ge_cases i 16) as [Hlt|Hge].
    - rewrite !(Z.testbit_neg_r _ (i - 16)) by lia. by rewrite !andb_false_r.
    - rewrite Z.shiftr_spec by lia. by rewrite Z.sub_add. }
  rewrite E. apply Z.b2z_inj. destruct (Z.eqb_spec (u / 65536 * 65536) 0), (Z.ltb_spec u 65536); cbn [Z.b2z]; try done;
    exfalso; Z.to_euclidean_division_equations; lia.
Qed.

(** The value the caller gets represents the sum times 256: it is in host
    byte order. *)
Lemma standard_repr bs :
  bytes bs → Z.of_nat (length bs) <= 65535 → repr (lwip_standard_chksum bs) (256 * osum bs).
Proof.
  intros Hb Hlen. pose proof (osum_bound bs Hb) as Hs. unfold lwip_standard_chksum.
  assert (Hs' : 0 <= osum bs < 2 ^ 31) by (Z.to_euclidean_division_equations; lia). clear Hs.
  rewrite chksum_loop_eq by (done || lia). rewrite Z.add_0_l. set (s := osum bs) in *.
  assert (H1 : 0 <= FOLD_U32T s <= 0x1fffe ∧ cong (FOLD_U32T s) s ∧ (FOLD_U32T s = 0 ↔ s = 0)).
  { rewrite FOLD_eq by lia. split; [Z.to_euclidean_division_equations; lia|]. split.
    - exists (- (s / 65536)). Z.to_euclidean_division_equations. lia.
    - Z.to_euclidean_division_equations. lia. }
  destruct H1 as (R1 & C1 & Z1). rewrite high_bits by lia.
  assert (Hr : repr (if negb (FOLD_U32T s <? 65536) then FOLD_U32T (FOLD_U32T s) else FOLD_U32T s) s).
  { destruct (Z.ltb_spec (FOLD_U32T s) 65536); cbn [negb]; [split; [lia|done]|by apply fold_repr]. }
  apply swap_repr in Hr as [Hr _]. unfold u16. rewrite Z.mod_small; [done|].
  destruct (Z.ltb_spec (FOLD_U32T s) 65536); cbn [negb]; [lia|].
  rewrite (FOLD_eq (FOLD_U32T s)) by lia. Z.to_euclidean_division_equations. lia.
Qed.

(** ** Chains *)

(** A byte in front shifts the words. *)
Lemma osum_cons b bs : cong (osum (b :: bs)) (256 * b + 256 * osum bs).
Proof.
  revert b. induction bs as [|x|x y l IH] using list_ind2; intros b.
  - exists 0. cbn [osum]. lia.
  - exists (- x). cbn [osum]. lia.
  - destruct (IH y) as [k Hk]. exists (k - x). change (osum (b :: x :: y :: l)) with (b * 256 + x + osum (y :: l)).
    change (osum (x :: y :: l)) with (x * 256 + y + osum l). lia.
Qed.

(** The weight of what follows a buffer: 256 after an odd number of bytes. *)
Definition weight (bs : list Z) : Z := if Z.of_nat (length bs) mod 2 =? 0 then 1 else 256.

Lemma weight_cons2 x y l : weight (x :: y :: l) = weight l.
Proof.
  unfold weight. cbn [length]. replace (Z.of_nat (S (S (length l))) mod 2) with (Z.of_nat (length l) mod 2); [done|].
  Z.to_euclidean_division_equations. lia.
Qed.

Lemma osum_app p q : cong (osum (p ++ q)) (osum p + weight p * osum q).
Proof.
  induction p as [|x|x y l IH] using list_ind2.
  - exists 0. change (weight []) with 1. cbn [osum app]. lia.
  - destruct (osum_cons x q) as [k Hk]. exists k. change (weight [x]) with 256. cbn [osum app] in *. lia.
  - destruct IH as [k Hk]. exists k. rewrite weight_cons2. cbn [osum app]. lia.
Qed.

Lemma osum_zero bs : bytes bs → osum bs = 0 ↔ Forall (λ b, b = 0) bs.
Proof.
  induction bs as [|x|x y l IH] using list_ind2; cbn [osum]; intros Hb.
  - done.
  - rewrite Forall_singleton. lia.
  - apply Forall_cons in Hb as [Hx [Hy Hl]%Forall_cons]. rewrite !Forall_cons, <- IH by done.
    pose proof (osum_bound l Hl). unfold is_u8 in *. lia.
Qed.

Lemma osum_app_zero p q : bytes p → bytes q → osum (p ++ q) = 0 ↔ osum p = 0 ∧ osum q = 0.
Proof.
  intros Hp Hq. rewrite !osum_zero by (done || by apply Forall_app). by rewrite Forall_app.
Qed.

Lemma weight_app p q : weight (p ++ q) = if weight p =? weight q then 1 else 256.
Proof.
  unfold weight. rewrite length_app, Nat2Z.inj_add.
  destruct (Z.eqb_spec (Z.of_nat (length p) mod 2) 0), (Z.eqb_spec (Z.of_nat (length q) mod 2) 0);
    destruct (Z.eqb_spec ((Z.of_nat (length p) + Z.of_nat (length q)) mod 2) 0);
    try (exfalso; Z.to_euclidean_division_equations; lia); done.
Qed.

(** What the sum represents after the bytes [c]: swapped after an odd number
    of them, and then [256 * 256 = 1]. *)
Definition chain_repr (acc : Z) (swapped : bool) (c : list Z) : Prop :=
  swapped = negb (weight c =? 1) ∧ repr acc (if swapped then osum c else 256 * osum c).

Lemma repr_add a b s t : 0 <= s → 0 <= t → repr a s → repr b t → repr (FOLD_U32T (u32 (a + b))) (s + t).
Proof.
  intros Hs Ht (Ha & [k Hk] & Za) (Hb & [k' Hk'] & Zb). rewrite u32_small by lia.
  apply fold_repr; [lia|exists (k + k'); lia|lia].
Qed.

(** Adding a buffer, before the swap. *)
Lemma chain_add acc sw c p :
  bytes c → bytes p → Z.of_nat (length p) <= 65535 → chain_repr acc sw c →
  repr (FOLD_U32T (u32 (acc + lwip_standard_chksum p))) (if sw then osum (c ++ p) else 256 * osum (c ++ p)).
Proof.
  intros Hc Hp Hlen [Hsw Hr].
  pose proof (osum_bound c Hc) as Bc. pose proof (osum_bound p Hp) as Bp.
  assert (Hbnd : 0 <= osum c ∧ 0 <= osum p) by lia. clear Bc Bp.
  assert (Hsum : repr (FOLD_U32T (u32 (acc + lwip_standard_chksum p))) ((if sw then osum c else 256 * osum c) + 256 * osum p)).
  { apply repr_add; [destruct sw; lia|lia|done|by apply standard_repr]. }
  destruct (osum_app c p) as [k Hk]. pose proof (osum_app_zero c p Hc Hp) as Hz.
  eapply repr_ext; [exact Hsum| |].
  - unfold weight in *. destruct (Z.of_nat (length c) mod 2 =? 0); rewrite Hsw; cbn [negb Z.eqb Pos.eqb]; rewrite Hk.
    + exists (-256 * k). lia.
    + exists (- k). lia.
  - destruct sw; lia.
Qed.

(** Undoing the swap. *)
Definition unswapped (acc : Z) (sw : bool) : Z := if sw then SWAP_BYTES_IN_WORD acc else acc.

Lemma swap_sides acc (sw : bool) s : 0 <= s → repr acc (if sw then s else 256 * s) →
  repr (SWAP_BYTES_IN_WORD acc) (if negb sw then s else 256 * s) ∧ repr (unswapped acc sw) (256 * s).
Proof.
  intros Hs Hr. destruct (swap_repr _ _ Hr) as [Hw Hsw]. unfold unswapped. rewrite Hsw.
  destruct sw; cbn [negb]; [done|]. split; [|done]. eapply repr_ext; [exact Hw| |lia]. exists s. lia.
Qed.

Lemma chain_step acc sw c p :
  bytes c → bytes p → Z.of_nat (length p) <= 65535 → chain_repr acc sw c →
  let acc := FOLD_U32T (u32 (acc + lwip_standard_chksum p)) in
  let odd := negb (Z.of_nat (length p) mod 2 =? 0) in
  chain_repr (if odd then SWAP_BYTES_IN_WORD acc else acc) (if odd then negb sw else sw) (c ++ p).
Proof.
  intros Hc Hp Hlen Hr. cbv zeta. pose proof (chain_add acc sw c p Hc Hp Hlen Hr) as Hacc. destruct Hr as [Hsw _].
  assert (Hnn : 0 <= osum (c ++ p)) by (apply (osum_bound (c ++ p)), Forall_app; done).
  unfold chain_repr. rewrite weight_app.
  assert (Hwc : weight c = if sw then 256 else 1).
  { rewrite Hsw. unfold weight. by destruct (Z.of_nat (length c) mod 2 =? 0). }
  rewrite Hwc. unfold weight. destruct (swap_sides _ sw _ Hnn Hacc) as [Hs _].
  destruct (Z.of_nat (length p) mod 2 =? 0); cbn [negb]; (split; [by destruct sw|]); done.
Qed.

Lemma chain_loop_repr q acc sw c :
  bytes c → Forall (λ p, bytes p ∧ Z.of_nat (length p) <= 65535) q → chain_repr acc sw c →
  let '(acc', sw') := chain_loop q acc sw in chain_repr acc' sw' (c ++ concat q).
Proof.
  revert acc sw c. induction q as [|p q IH]; intros acc sw c Hc Hq Hr; cbn [chain_loop concat].
  - by rewrite app_nil_r.
  - apply Forall_cons in Hq as [[Hp Hlen] Hq]. pose proof (chain_step acc sw c p Hc Hp Hlen Hr) as Hs. cbv zeta in Hs.
    rewrite app_assoc. destruct (negb (Z.of_nat (length p) mod 2 =? 0)); apply IH; try done; by apply Forall_app.
Qed.

Lemma chain_repr_unswapped acc sw c : bytes c → chain_repr acc sw c → repr (unswapped acc sw) (256 * osum c).
Proof. intros Hc [_ Hr]. apply swap_sides; [|done]. by apply osum_bound. Qed.

Lemma chain_repr_start : chain_repr 0 false [].
Proof. split; [done|]. split; [lia|]. split; [by exists 0|done]. Qed.

(** The sum over a chain represents the sum over its bytes, in host order. *)
Lemma chain_chksum_repr p :
  Forall (λ p, bytes p ∧ Z.of_nat (length p) <= 65535) p → repr (chain_chksum p) (256 * osum (concat p)).
Proof.
  intros Hp. unfold chain_chksum.
  pose proof (chain_loop_repr p 0 false [] ltac:(constructor) Hp chain_repr_start) as Hl.
  destruct (chain_loop p 0 false) as [acc sw]. apply (chain_repr_unswapped acc sw); [|done].
  apply Forall_concat. eapply Forall_impl; [exact Hp|]. by intros x [? _].
Qed.

(** The partial sum: the last buffer may be summed in part. *)
Lemma partial_loop_repr q acc sw c len :
  bytes c → Forall (λ p, bytes p ∧ Z.of_nat (length p) <= 65535) q → chain_repr acc sw c → 0 <= len < 0x7fff →
  ∃ acc' sw', partial_loop q acc sw len = Some (acc', sw') ∧
    repr (unswapped acc' sw') (256 * osum (c ++ take (Z.to_nat len) (concat q))).
Proof.
  revert acc sw c len. induction q as [|p q IH]; intros acc sw c len Hc Hq Hr Hlen; cbn [partial_loop concat].
  { exists acc, sw. split; [done|]. rewrite take_nil, app_nil_r. by apply chain_repr_unswapped. }
  apply Forall_cons in Hq as [[Hp Hpl] Hq].
  destruct (Z.ltb_spec 0 len) as [Hpos|Hz].
  2: { assert (len = 0) as -> by lia. exists acc, sw. split; [done|]. rewrite app_nil_r. by apply chain_repr_unswapped. }
  destruct (Z.ltb_spec (len - Z.min (Z.of_nat (length p)) len) 0x7fff) as [_|]; [cbn [negb]|lia].
  destruct (decide (Z.of_nat (length p) <= len)) as [Hle|Hgt].
  - rewrite Z.min_l, Nat2Z.id, take_ge by lia. rewrite take_app_ge by lia. rewrite app_assoc.
    replace (Z.to_nat len - length p)%nat with (Z.to_nat (len - Z.of_nat (length p))) by lia.
    pose proof (chain_step acc sw c p Hc Hp Hpl Hr) as Hs. cbv zeta in Hs.
    destruct (negb (Z.of_nat (length p) mod 2 =? 0)); apply IH; try done; (by apply Forall_app) || lia.
  - rewrite Z.min_r, Z.sub_diag by lia. rewrite take_app_le by lia. set (p1 := take (Z.to_nat len) p).
    assert (Hp1 : bytes p1) by (by apply Forall_take).
    assert (Hl1 : Z.of_nat (length p1) <= 65535) by (unfold p1; rewrite length_take; lia).
    pose proof (chain_add acc sw c p1 Hc Hp1 Hl1 Hr) as Hacc.
    assert (Hnn : 0 <= osum (c ++ p1)) by (apply (osum_bound (c ++ p1)), Forall_app; done).
    assert (Hend : ∀ a s, partial_loop q a s 0 = Some (a, s)) by (intros; by destruct q).
    destruct (swap_sides _ sw _ Hnn Hacc) as [Hs Hu].
    destruct (negb (Z.of_nat (length p) mod 2 =? 0)); rewrite Hend; eexists _, _; (split; [done|]); [|done].
    by apply (swap_sides _ (negb sw)).
Qed.

(** ** The theorems *)

Lemma inverted x : 0 <= x <= 65535 → u16 (Z.lnot x) = 65535 - x.
Proof. intros Hx. unfold u16, Z.lnot. Z.to_euclidean_division_equations. lia. Qed.

Lemma low_word x : 0 <= x <= 65535 → Z.land x 0xffff = x.
Proof. intros Hx. change 0xffff with (Z.ones 16). rewrite Z.land_ones by lia. apply Z.mod_small. lia. Qed.

Lemma inet_chksum_eq bs x :
  bytes bs → Z.of_nat (length bs) <= 65535 → repr x (256 * osum bs) → inet_chksum bs = 65535 - x.
Proof.
  intros Hb Hlen Hx. unfold inet_chksum. pose proof (standard_repr bs Hb Hlen) as Hr.
  rewrite (repr_unique _ _ _ Hr Hx). apply inverted. apply Hx.
Qed.

(** A chain of packet buffers. *)
Definition chain_ok (p : list (list Z)) : Prop := Forall bytes p ∧ Z.of_nat (length (concat p)) <= 65535.

Lemma chain_ok_each p : chain_ok p → Forall (λ p, bytes p ∧ Z.of_nat (length p) <= 65535) p ∧ bytes (concat p).
Proof.
  intros [Hb Hlen]. split; [|by apply Forall_concat]. apply Forall_forall. intros x Hx. split; [by rewrite Forall_forall in Hb; apply Hb|].
  revert Hlen Hx. clear Hb. induction p as [|y p IH]; intros Hlen Hx; [by apply not_elem_of_nil in Hx|].
  cbn [concat] in Hlen. rewrite length_app in Hlen. apply elem_of_cons in Hx as [->|Hx]; [lia|apply IH; [lia|done]].
Qed.

(** C28: The checksum over a chain of packet buffers, however the data is cut
    into buffers, also of odd lengths, is the checksum over the data. *)
Theorem inet_chksum_pbuf_flat p : chain_ok p → inet_chksum_pbuf p = inet_chksum (concat p).
Proof.
  intros Hp. destruct (chain_ok_each p Hp) as [Hall Hb]. pose proof (chain_chksum_repr p Hall) as Hr.
  rewrite (inet_chksum_eq _ _ Hb (proj2 Hp) Hr). unfold inet_chksum_pbuf. rewrite low_word by apply Hr.
  apply inverted. apply Hr.
Qed.

(** The pseudo-header of TCP and UDP (RFC 793): the addresses as they are in
    memory, a 0, the protocol, and the length in network order. *)
Definition pseudo_header (src dest proto proto_len : Z) : list Z :=
  [addr_byte src 0; addr_byte src 1; addr_byte src 2; addr_byte src 3;
   addr_byte dest 0; addr_byte dest 1; addr_byte dest 2; addr_byte dest 3;
   0; proto; proto_len / 256; proto_len mod 256].

Lemma addr_words a : is_u32 a →
  Z.land a 0xffff = addr_byte a 0 + 256 * addr_byte a 1 ∧
  Z.land (Z.shiftr a 16) 0xffff = addr_byte a 2 + 256 * addr_byte a 3.
Proof.
  unfold is_u32. intros Ha. change 0xffff with (Z.ones 16). rewrite !Z.land_ones by lia.
  unfold addr_byte, u8. rewrite !Z.shiftr_div_pow2 by lia. change (2 ^ (8 * 0)) with 1. change (2 ^ (8 * 1)) with 256.
  change (2 ^ (8 * 2)) with 65536. change (2 ^ (8 * 3)) with 16777216.
  split; Z.to_euclidean_division_equations; lia.
Qed.

Lemma fold_twice u s :
  0 <= u < 2 ^ 32 → cong u s → (u = 0 ↔ s = 0) → repr (FOLD_U32T (FOLD_U32T u)) s.
Proof.
  intros Hu [k Hk] H0. apply fold_repr; rewrite FOLD_eq by done.
  - Z.to_euclidean_division_equations. lia.
  - exists (k - u / 65536). clear H0. Z.to_euclidean_division_equations. lia.
  - rewrite <- H0. clear H0 Hk. Z.to_euclidean_division_equations. lia.
Qed.

Lemma pseudo_finish_eq acc bs src dest proto proto_len :
  bytes bs → Z.of_nat (length bs) + 12 <= 65535 → is_u32 src → is_u32 dest → is_u8 proto → 0 <= proto_len < 2 ^ 16 →
  repr acc (256 * osum bs) →
  pseudo_finish acc src dest proto proto_len = inet_chksum (pseudo_header src dest proto proto_len ++ bs).
Proof.
  intros Hb Hlen Hs Hd Hp Hl Hacc. unfold pseudo_finish.
  destruct (addr_words src Hs) as [-> ->], (addr_words dest Hd) as [-> ->].
  unfold is_u8 in Hp. assert (u16 proto = proto) as -> by (apply Z.mod_small; lia).
  rewrite (htons_eq proto), (htons_eq proto_len), (Z.mod_small proto), (Z.div_small proto) by lia.
  assert (HB : bytes (pseudo_header src dest proto proto_len ++ bs)).
  { apply Forall_app. split; [|done].
    assert (Hq : is_u8 (proto_len / 256) ∧ is_u8 (proto_len mod 256)) by (unfold is_u8; Z.to_euclidean_division_equations; lia).
    repeat constructor; try apply addr_byte_range; lia || apply Hq. }
  pose proof (osum_bound bs Hb) as [Hnn _]. destruct Hacc as (Ra & [k Hk] & Za).
  pose proof (addr_byte_range src 0). pose proof (addr_byte_range src 1). pose proof (addr_byte_range src 2).
  pose proof (addr_byte_range src 3). pose proof (addr_byte_range dest 0). pose proof (addr_byte_range dest 1).
  pose proof (addr_byte_range dest 2). pose proof (addr_byte_range dest 3).
  assert (Hq : 0 <= proto_len / 256 < 256 ∧ 0 <= proto_len mod 256 < 256) by (Z.to_euclidean_division_equations; lia).
  set (b0 := addr_byte src 0) in *. set (b1 := addr_byte src 1) in *. set (b2 := addr_byte src 2) in *.
  set (b3 := addr_byte src 3) in *. set (c0 := addr_byte dest 0) in *. set (c1 := addr_byte dest 1) in *.
  set (c2 := addr_byte dest 2) in *. set (c3 := addr_byte dest 3) in *.
  set (lh := proto_len / 256) in *. set (ll := proto_len mod 256) in *.
  repeat match goal with |- context [u32 ?x] => lazymatch x with context [u32 _] => fail | _ => rewrite (u32_small x) by lia end end.
  assert (Hos : osum (pseudo_header src dest proto proto_len ++ bs) =
    b0 * 256 + b1 + (b2 * 256 + b3) + (c0 * 256 + c1) + (c2 * 256 + c3) + proto + (lh * 256 + ll) + osum bs).
  { unfold pseudo_header. cbn [app osum]. fold b0 b1 b2 b3 c0 c1 c2 c3 lh ll. lia. }
  set (a := acc + _ + _ + _ + _ + _ + _).
  assert (Hr : repr (FOLD_U32T (FOLD_U32T a)) (256 * osum (pseudo_header src dest proto proto_len ++ bs))).
  { apply fold_twice; rewrite ?Hos; unfold a; [lia| |lia]. exists (k - b0 - b2 - c0 - c2 - lh). lia. }
  rewrite (inet_chksum_eq _ (FOLD_U32T (FOLD_U32T a)) HB);
    [|rewrite length_app; unfold pseudo_header; cbn [length]; lia|done].
  rewrite low_word by apply Hr. apply inverted. apply Hr.
Qed.

(** The TCP and UDP checksum of a chain is the checksum of the
    pseudo-header followed by the data. *)
Theorem inet_chksum_pseudo_flat p src dest proto proto_len :
  Forall bytes p → Z.of_nat (length (concat p)) + 12 <= 65535 →
  is_u32 src → is_u32 dest → is_u8 proto → 0 <= proto_len < 2 ^ 16 →
  inet_chksum_pseudo p src dest proto proto_len = inet_chksum (pseudo_header src dest proto proto_len ++ concat p).
Proof.
  intros Hp Hlen Hs Hd Hpr Hl. destruct (chain_ok_each p) as [Hall Hb]; [split; [done|lia]|].
  apply pseudo_finish_eq; try done. by apply chain_chksum_repr.
Qed.

(** The same for the partial checksum (UDP-Lite), over the first [chksum_len]
    bytes; the assertion in the loop holds below 0x7fff. *)
Lemma inet_chksum_pseudo_partial_flat p src dest proto proto_len chksum_len :
  Forall bytes p → Z.of_nat (length (concat p)) + 12 <= 65535 → 0 <= chksum_len < 0x7fff →
  is_u32 src → is_u32 dest → is_u8 proto → 0 <= proto_len < 2 ^ 16 →
  inet_chksum_pseudo_partial p src dest proto proto_len chksum_len =
    Some (inet_chksum (pseudo_header src dest proto proto_len ++ take (Z.to_nat chksum_len) (concat p))).
Proof.
  intros Hp Hlen Hck Hs Hd Hpr Hl. destruct (chain_ok_each p) as [Hall Hb]; [split; [done|lia]|].
  unfold inet_chksum_pseudo_partial.
  destruct (partial_loop_repr p 0 false [] chksum_len ltac:(constructor) Hall chain_repr_start Hck) as (acc & sw & -> & Hr).
  apply f_equal. apply (pseudo_finish_eq (unswapped acc sw)); try done; [by apply Forall_take|].
  rewrite length_take. lia.
Qed.

(** The two bytes at which the code stores a checksum, in host order. *)
Definition stored (ck : Z) : list Z := [ck mod 256; ck / 256].

Lemma osum_even_app p q : weight p = 1 → osum (p ++ q) = osum p + osum q.
Proof.
  induction p as [|x|x y l IH] using list_ind2; intros Hw; [done|done|].
  rewrite weight_cons2 in Hw. cbn [osum app]. rewrite IH by done. lia.
Qed.

(** What a sender fills in, a receiver accepts: with a zero checksum field,
    anywhere at an even offset, replaced by [inet_chksum] of the data, the
    checksum of the data is 0. *)
Theorem inet_chksum_verifies pre post :
  bytes pre → bytes post → Z.of_nat (length pre) mod 2 = 0 → Z.of_nat (length pre + 2 + length post) <= 65535 →
  let ck := inet_chksum (pre ++ [0; 0] ++ post) in
  inet_chksum (pre ++ stored ck ++ post) = 0.
Proof.
  intros Hpre Hpost Hev Hlen. cbv zeta.
  assert (Hw : weight pre = 1) by (unfold weight; by rewrite Hev).
  assert (HB0 : bytes (pre ++ [0; 0] ++ post)) by (apply Forall_app; split; [done|]; repeat constructor; done).
  assert (HL : ∀ a b, Z.of_nat (length (pre ++ [a; b] ++ post)) <= 65535) by (intros; rewrite !length_app; cbn [length]; lia).
  set (s := osum pre + osum post). assert (Hs : osum (pre ++ [0; 0] ++ post) = s).
  { rewrite osum_even_app by done. cbn [app osum]. unfold s. lia. }
  pose proof (osum_bound pre Hpre) as [Hn1 _]. pose proof (osum_bound post Hpost) as [Hn2 _].
  pose proof (standard_repr _ HB0 (HL 0 0)) as Hr. rewrite Hs in Hr.
  rewrite (inet_chksum_eq _ (lwip_standard_chksum (pre ++ [0; 0] ++ post)) HB0 (HL 0 0)); [|by rewrite Hs].
  set (x := lwip_standard_chksum (pre ++ [0; 0] ++ post)) in *. destruct Hr as (Rx & [k Hk] & Zx).
  set (y := 65535 - x). unfold stored.
  assert (Hy : is_u8 (y mod 256) ∧ is_u8 (y / 256)) by (unfold is_u8, y; Z.to_euclidean_division_equations; lia).
  assert (HB : bytes (pre ++ [y mod 256; y / 256] ++ post)).
  { apply Forall_app; split; [done|]. cbn [app]. apply Forall_cons; split; [apply Hy|]. apply Forall_cons; split; [apply Hy|done]. }
  rewrite (inet_chksum_eq _ 65535 HB (HL _ _)); [done|].
  rewrite osum_even_app by done. cbn [app osum]. unfold is_u8 in Hy.
  assert (Hy2 : y = y mod 256 + 256 * (y / 256)) by (Z.to_euclidean_division_equations; lia).
  split; [lia|]. split; [|unfold s in *; lia].
  exists (k - y mod 256). unfold s, y in *. lia.
Qed.

(** Every error in a single byte is detected: data whose checksum is 0 has
    another checksum when one byte changes. *)
Theorem inet_chksum_detects pre x y post :
  bytes (pre ++ x :: post) → is_u8 y → x ≠ y → Z.of_nat (length (pre ++ x :: post)) <= 65535 →
  inet_chksum (pre ++ x :: post) = 0 → inet_chksum (pre ++ y :: post) ≠ 0.
Proof.
  intros Hb Hy Hne Hlen H0 H1. pose proof Hb as [Hpre [Hx Hpost]%Forall_cons]%Forall_app.
  assert (Hb' : bytes (pre ++ y :: post)) by (apply Forall_app; split; [done|by constructor]).
  assert (Hlen' : Z.of_nat (length (pre ++ y :: post)) <= 65535) by (rewrite length_app in *; cbn [length] in *; lia).
  pose proof (standard_repr _ Hb Hlen) as Hr. pose proof (standard_repr _ Hb' Hlen') as Hr'.
  rewrite (inet_chksum_eq _ _ Hb Hlen Hr) in H0. rewrite (inet_chksum_eq _ _ Hb' Hlen' Hr') in H1.
  destruct Hr as (_ & [k Hk] & _), Hr' as (_ & [k' Hk'] & _).
  destruct (osum_app pre (x :: post)) as [a Ha], (osum_app pre (y :: post)) as [a' Ha'].
  destruct (osum_cons x post) as [c Hc], (osum_cons y post) as [c' Hc'].
  rewrite Hc in Ha. rewrite Hc' in Ha'. unfold is_u8 in *. unfold weight in *.
  destruct (Z.of_nat (length pre) mod 2 =? 0); lia.
Qed.

Lemma inet_chksum_pbuf_flat_witness :
  inet_chksum_pbuf [[1; 2; 3]; [4]; [5; 6; 7]] = inet_chksum [1; 2; 3; 4; 5; 6; 7].
Proof.
  apply (inet_chksum_pbuf_flat [[1; 2; 3]; [4]; [5; 6; 7]]). split; [|done].
  repeat constructor; unfold is_u8; lia.
Defined.

Lemma inet_chksum_pseudo_flat_witness :
  inet_chksum_pseudo [[1; 2; 3]; [4]] 0x0100007f 0x0200007f 17 4 =
    inet_chksum [0x7f; 0; 0; 1; 0x7f; 0; 0; 2; 0; 17; 0; 4; 1; 2; 3; 4].
Proof.
  apply (inet_chksum_pseudo_flat [[1; 2; 3]; [4]] 0x0100007f 0x0200007f 17 4).
  - repeat constructor; unfold is_u8; lia.
  - done.
  - unfold is_u32. lia.
  - unfold is_u32. lia.
  - unfold is_u8. lia.
  - lia.
Defined.

Lemma inet_chksum_verifies_witness :
  inet_chksum ([0x45; 0; 0; 0x54] ++ stored (inet_chksum ([0x45; 0; 0; 0x54] ++ [0; 0] ++ [10; 0; 2])) ++ [10; 0; 2]) = 0.
Proof.
  apply (inet_chksum_verifies [0x45; 0; 0; 0x54] [10; 0; 2]).
  - repeat constructor; unfold is_u8; lia.
  - repeat constructor; unfold is_u8; lia.
  - done.
  - done.
Defined.

Lemma inet_chksum_detects_witness : inet_chksum [0xff; 0xff] = 0 ∧ inet_chksum [0xff; 0xfe] ≠ 0.
Proof.
  split; [done|]. apply (inet_chksum_detects [0xff] 0xff 0xfe []).
  - repeat constructor; unfold is_u8; lia.
  - unfold is_u8. lia.
  - discriminate.
  - done.
  - done.
Defined.
