(* ===== verification/LwipMem.v ===== *)
(** * The heap of the network stack ([net/lwip/core/mem.c])

    The heap is one array, [ram], cut into areas that begin with a
    [struct mem]: the offsets of the next and the previous area, and whether
    this one is in use.  The state is the [struct mem]s at their offsets, and
    [lfree], the offset of the lowest free area; pointers are offsets from
    [ram].  A failed [LWIP_ASSERT] panics.  The semaphore [mem_sem] around the
    operations is left out: each runs alone. *)

From S2P Require Import Prelude Mmu.
Open Scope Z_scope.

Record mem := mkMem { m_next : Z; m_prev : Z; m_used : bool }.

Definition set_next (x : Z) (m : mem) : mem := mkMem x (m_prev m) (m_used m).
Definition set_prev (x : Z) (m : mem) : mem := mkMem (m_next m) x (m_used m).
Definition set_used (x : bool) (m : mem) : mem := mkMem (m_next m) (m_prev m) x.

(** [net/lwip/jos/lwipopts.h]; the sizes are those of a 32-bit machine. *)
Definition TCP_MSS : Z := 1460.
Definition TCP_SND_BUF : Z := 16 * TCP_MSS.
Definition TCP_SND_QUEUELEN : Z := 2 * TCP_SND_BUF / TCP_MSS.
Definition MEMP_NUM_TCP_SEG : Z := TCP_SND_QUEUELEN.
Definition PER_TCP_PCB_BUFFER : Z := 16 * 4096.
Definition MEM_SIZE : Z := PER_TCP_PCB_BUFFER * MEMP_NUM_TCP_SEG + 4096 * MEMP_NUM_TCP_SEG.
Definition MEM_ALIGNMENT : Z := 4.

Definition LWIP_MEM_ALIGN_SIZE (size : Z) : Z :=
  Z.land (u32 (size + MEM_ALIGNMENT - 1)) (u32 (Z.lnot (MEM_ALIGNMENT - 1))).

Definition MIN_SIZE_ALIGNED : Z := LWIP_MEM_ALIGN_SIZE 12.
Definition SIZEOF_STRUCT_MEM : Z := LWIP_MEM_ALIGN_SIZE 12.
Definition MEM_SIZE_ALIGNED : Z := LWIP_MEM_ALIGN_SIZE MEM_SIZE.

Record heap := mkHeap { ram : gmap Z mem; lfree : Z }.

Inductive hstop : Type :=
  | HAssert (msg : string)    (** [LWIP_ASSERT] *)
  | HWild (o : Z)             (** reading a [struct mem] where there is none *)
  | HFuel.

Abbreviation H := (M heap hstop).

Definition LWIP_ASSERT (msg : string) (b : bool) : H unit := if b then mret tt else stop (HAssert msg).

Definition get_mem (o : Z) : H mem :=
  r ← gets ram;
  match r !! o with Some m => mret m | None => stop (HWild o) end.
Definition put_mem (o : Z) (m : mem) : H unit := modify (λ h, mkHeap (<[o := m]> (ram h)) (lfree h)).
Definition upd_mem (o : Z) (f : mem → mem) : H unit := m ← get_mem o; put_mem o (f m).
Definition set_lfree (o : Z) : H unit := modify (λ h, mkHeap (ram h) o).

Definition ram_end : Z := MEM_SIZE_ALIGNED.

Definition plug_holes (mem : Z) : H unit :=
  LWIP_ASSERT "plug_holes: mem >= ram" (0 <=? mem);;
  LWIP_ASSERT "plug_holes: mem < ram_end" (mem <? ram_end);;
  m ← get_mem mem;
  LWIP_ASSERT "plug_holes: mem->used == 0" (negb (m_used m));;
  LWIP_ASSERT "plug_holes: mem->next <= MEM_SIZE_ALIGNED" (m_next m <=? MEM_SIZE_ALIGNED);;
  let nmem := m_next m in
  n ← get_mem nmem;
  (if negb (mem =? nmem) && negb (m_used n) && negb (nmem =? ram_end) then
     l ← gets lfree;
     (if l =? nmem then set_lfree mem else mret tt);;
     upd_mem mem (set_next (m_next n));;
     upd_mem (m_next n) (set_prev mem)
   else mret tt);;
  m ← get_mem mem;
  let pmem := m_prev m in
  p ← get_mem pmem;
  if negb (pmem =? mem) && negb (m_used p) then
    l ← gets lfree;
    (if l =? mem then set_lfree pmem else mret tt);;
    upd_mem pmem (set_next (m_next m));;
    upd_mem (m_next m) (set_prev pmem)
  else mret tt.

Definition mem_init : H unit :=
  put_mem 0 (mkMem MEM_SIZE_ALIGNED 0 false);;
  put_mem ram_end (mkMem MEM_SIZE_ALIGNED MEM_SIZE_ALIGNED true);;
  set_lfree 0.

(** [None] is the null pointer. *)
Definition mem_free (rmem : option Z) : H unit :=
  match rmem with
  | None => mret tt
  | Some rmem =>
    LWIP_ASSERT "mem_free: sanity check alignment" (Z.land rmem (MEM_ALIGNMENT - 1) =? 0);;
    LWIP_ASSERT "mem_free: legal memory" ((0 <=? rmem) && (rmem <? ram_end));;
    let mem := rmem - SIZEOF_STRUCT_MEM in
    m ← get_mem mem;
    LWIP_ASSERT "mem_free: mem->used" (m_used m);;
    upd_mem mem (set_used false);;
    l ← gets lfree;
    (if mem <? l then set_lfree mem else mret tt);;
    plug_holes mem
  end.

(** Linking a new area at [ptr2] between [ptr] and the area at [next]. *)
Definition link_after (ptr ptr2 next : Z) : H unit :=
  put_mem ptr2 (mkMem next ptr false);;
  upd_mem ptr (set_next ptr2).

Definition fix_prev (next ptr2 : Z) : H unit :=
  if negb (next =? MEM_SIZE_ALIGNED) then upd_mem next (set_prev ptr2) else mret tt.

Definition mem_realloc (rmem newsize : Z) : H (option Z) :=
  let newsize := LWIP_MEM_ALIGN_SIZE newsize in
  let newsize := if newsize <? MIN_SIZE_ALIGNED then MIN_SIZE_ALIGNED else newsize in
  if MEM_SIZE_ALIGNED <? newsize then mret None
  else
    LWIP_ASSERT "mem_realloc: legal memory" ((0 <=? rmem) && (rmem <? ram_end));;
    let mem := rmem - SIZEOF_STRUCT_MEM in
    let ptr := mem in
    m ← get_mem mem;
    let size := u32 (m_next m - ptr - SIZEOF_STRUCT_MEM) in
    LWIP_ASSERT "mem_realloc can only shrink memory" (newsize <=? size);;
    if newsize =? size then mret (Some rmem)
    else
      let mem2 := m_next m in
      m2 ← get_mem mem2;
      let ptr2 := ptr + SIZEOF_STRUCT_MEM + newsize in
      (if negb (m_used m2) then
         let next := m_next m2 in
         l ← gets lfree;
         (if l =? mem2 then set_lfree ptr2 else mret tt);;
         link_after mem ptr2 next;;
         fix_prev next ptr2
       else if newsize + SIZEOF_STRUCT_MEM + MIN_SIZE_ALIGNED <=? size then
         l ← gets lfree;
         (if ptr2 <? l then set_lfree ptr2 else mret tt);;
         link_after mem ptr2 (m_next m);;
         fix_prev (m_next m) ptr2
       else mret tt);;
      mret (Some rmem).

(** [while (lfree->used && lfree != ram_end)] *)
Fixpoint next_lfree (fuel : nat) : H unit :=
  match fuel with
  | O => stop HFuel
  | S fuel' =>
    l ← gets lfree;
    m ← get_mem l;
    if m_used m && negb (l =? ram_end) then set_lfree (m_next m);; next_lfree fuel' else mret tt
  end.

(** Taking the free area at [ptr] for [size] bytes. *)
Definition mem_take (ptr size : Z) : H Z :=
  m ← get_mem ptr;
  (if size + SIZEOF_STRUCT_MEM + MIN_SIZE_ALIGNED <=? u32 (m_next m - (ptr + SIZEOF_STRUCT_MEM)) then
     let ptr2 := ptr + SIZEOF_STRUCT_MEM + size in
     link_after ptr ptr2 (m_next m);;
     upd_mem ptr (set_used true);;
     fix_prev (m_next m) ptr2
   else upd_mem ptr (set_used true));;
  l ← gets lfree;
  (if ptr =? l then
     next_lfree (Z.to_nat MEM_SIZE_ALIGNED);;
     l ← gets lfree;
     m ← get_mem l;
     LWIP_ASSERT "mem_malloc: !lfree->used" ((l =? ram_end) || negb (m_used m))
   else mret tt);;
  LWIP_ASSERT "mem_malloc: allocated memory not above ram_end." (ptr + SIZEOF_STRUCT_MEM + size <=? ram_end);;
  LWIP_ASSERT "mem_malloc: allocated memory properly aligned." ((ptr + SIZEOF_STRUCT_MEM) mod MEM_ALIGNMENT =? 0);;
  LWIP_ASSERT "mem_malloc: sanity check alignment" (Z.land ptr (MEM_ALIGNMENT - 1) =? 0);;
  mret (ptr + SIZEOF_STRUCT_MEM).

(** The scan from [ptr] for a free area with room for [size] bytes. *)
Fixpoint mem_scan (fuel : nat) (ptr size : Z) : H (option Z) :=
  match fuel with
  | O => stop HFuel
  | S fuel' =>
    if ptr <? MEM_SIZE_ALIGNED - size then
      m ← get_mem ptr;
      if negb (m_used m) && (size <=? u32 (m_next m - (ptr + SIZEOF_STRUCT_MEM)))
      then r ← mem_take ptr size; mret (Some r)
      else mem_scan fuel' (m_next m) size
    else mret None
  end.

Definition mem_malloc (size : Z) : H (option Z) :=
  if size =? 0 then mret None
  else
    let size := LWIP_MEM_ALIGN_SIZE size in
    let size := if size <? MIN_SIZE_ALIGNED then MIN_SIZE_ALIGNED else size in
    if MEM_SIZE_ALIGNED <? size then mret None
    else
      l ← gets lfree;
      mem_scan (Z.to_nat MEM_SIZE_ALIGNED) l size.

(** The zeroing of the memory is left to the caller's view of it. *)
Definition mem_calloc (count size : Z) : H (option Z) := mem_malloc (u32 (count * size)).
