(* ===== verification/LwipMemSpec.v ===== *)
(** * The heap of the network stack implements a first-fit list

    The abstraction of the heap is the list of its areas, [(size, used)] with
    the size including the [struct mem], from offset 0 to the end.  The
    invariant: the doubly linked [struct mem]s describe such a list, no two
    free areas are neighbours, and [lfree] is the lowest free area.
    [mem_malloc], [mem_free] and [mem_realloc] implement the list operations
    [alloc_first], [release] and [shrink]. *)

From S2P Require Import Prelude Mmu LwipMem.
Open Scope Z_scope.

Abbreviation area := (Z * bool)%type.

(** ** The list of areas *)

(** First fit; the rest of the area becomes an area if it has room for one. *)
Definition split_area (n size : Z) : list area :=
  if size + 36 <=? n then [(size + 12, true); (n - 12 - size, false)] else [(n, true)].

Fixpoint alloc_first (size o : Z) (l : list area) : option (Z * list area) :=
  match l with
  | [] => None
  | (n, u) :: l' =>
    if negb u && (size + 12 <=? n) then Some (o, split_area n size ++ l')
    else
      match alloc_first size (o + n) l' with
      | Some (r, l'') => Some (r, (n, u) :: l'')
      | None => None
      end
  end.

(** Freed areas join with free neighbours. *)
Definition join_next (n : Z) (l : list area) : list area :=
  match l with
  | (n2, false) :: l' => (n + n2, false) :: l'
  | _ => (n, false) :: l
  end.

(** [l1] are the areas before it, in order. *)
Definition release (l1 : list area) (n : Z) (l2 : list area) : list area :=
  match reverse l1 with
  | (n0, false) :: r =>
    match join_next n l2 with
    | (n', _) :: l2' => reverse r ++ (n0 + n', false) :: l2'
    | [] => []
    end
  | _ => l1 ++ join_next n l2
  end.

Definition shrink (n size : Z) (l2 : list area) : list area :=
  match l2 with
  | (n2, false) :: l' => (size + 12, true) :: (n - 12 - size + n2, false) :: l'
  | _ => split_area n size ++ l2
  end.

Fixpoint total (l : list area) : Z := match l with [] => 0 | (n, _) :: l => n + total l end.

Definition free_head (l : list area) : bool := match l with (_, false) :: _ => true | _ => false end.

Fixpoint coalesced (l : list area) : Prop :=
  match l with
  | [] => True
  | (_, u) :: l => (u = false → free_head l = false) ∧ coalesced l
  end.

Fixpoint lowest (o : Z) (l : list area) : Z :=
  match l with [] => o | (n, u) :: l => if (u : bool) then lowest (o + n) l else o end.

(** ** The representation *)

(** The areas [l] from offset [o], whose predecessor is at [p], to [o'], whose
    predecessor is at [p']. *)
Fixpoint seg (r : gmap Z mem) (p o : Z) (l : list area) (p' o' : Z) : Prop :=
  match l with
  | [] => p = p' ∧ o = o'
  | (n, u) :: l =>
    r !! o = Some (mkMem (o + n) p u) ∧ 24 <= n ∧ n mod 4 = 0 ∧ seg r o (o + n) l p' o'
  end.

Record heap_rep (h : heap) (l : list area) : Prop := {
  hr_seg : ∃ p, seg (ram h) 0 0 l p ram_end;
  hr_end : ∃ p, ram h !! ram_end = Some (mkMem ram_end p true);
  hr_lfree : lfree h = lowest 0 l;
  hr_coal : coalesced l;
}.

Lemma seg_app r p o l1 l2 p' o' :
  seg r p o (l1 ++ l2) p' o' ↔ ∃ p1 o1, seg r p o l1 p1 o1 ∧ seg r p1 o1 l2 p' o'.
Proof.
  revert p o. induction l1 as [|[n u] l1 IH]; intros p o; cbn [app seg].
  - split; [intros Hs; by exists p, o|]. by intros (p1 & o1 & [-> ->] & Hs).
  - split.
    + intros (H1 & H2 & H3 & (p1 & o1 & Ha & Hb)%IH). by exists p1, o1.
    + intros (p1 & o1 & (H1 & H2 & H3 & Ha) & Hb). split_and!; try done. apply IH. by exists p1, o1.
Qed.

Lemma seg_end r p o l p' o' : seg r p o l p' o' → o' = o + total l ∧ 0 <= total l ∧ (l ≠ [] → o + 24 <= o').
Proof.
  revert p o. induction l as [|[n u] l IH]; intros p o; cbn [seg total].
  - intros [_ ->]. split; [lia|]. split; [lia|done].
  - intros (_ & Hn & _ & (-> & ? & _)%IH). split; [lia|]. split; lia.
Qed.

Lemma seg_aligned r p o l p' o' : seg r p o l p' o' → o mod 4 = 0 → o' mod 4 = 0.
Proof.
  revert p o. induction l as [|[n u] l IH]; intros p o; cbn [seg]; [by intros [_ ->]|].
  intros (_ & _ & Hn & Hs) Ho. apply (IH _ _ Hs). rewrite Z.add_mod, Ho, Hn; done.
Qed.

Lemma seg_frame r p o l p' o' x m : seg r p o l p' o' → ¬ o <= x < o' → seg (<[x := m]> r) p o l p' o'.
Proof.
  revert p o. induction l as [|[n u] l IH]; intros p o; cbn [seg]; [done|].
  intros (H1 & H2 & H3 & Hs) Hx. pose proof (seg_end _ _ _ _ _ _ Hs) as (He & ? & _).
  rewrite lookup_insert_ne by lia. split_and!; try done. apply IH; [done|lia].
Qed.

(** The first area of a list, with another predecessor. *)
Lemma seg_set_prev r p o l p' o' q :
  seg r p o l p' o' → l ≠ [] → ∃ m, r !! o = Some m ∧ seg (<[o := set_prev q m]> r) q o l p' o'.
Proof.
  destruct l as [|[n u] l]; [done|]. cbn [seg]. intros (H1 & H2 & H3 & Hs) _.
  exists (mkMem (o + n) p u). split; [done|]. rewrite lookup_insert_eq. split_and!; try done.
  apply seg_frame; [done|lia].
Qed.

(** The areas [l] from [o] to the end of the heap. *)
Definition rest (r : gmap Z mem) (p o : Z) (l : list area) : Prop :=
  (∃ pe, seg r p o l pe ram_end) ∧ ∃ pe, r !! ram_end = Some (mkMem ram_end pe true).

Lemma rest_end r p o l : rest r p o l → ram_end = o + total l ∧ 0 <= total l ∧ o <= ram_end.
Proof. intros [[pe Hs] _]. destruct (seg_end _ _ _ _ _ _ Hs) as (? & ? & _). lia. Qed.

Lemma rest_cons r p o n u l :
  rest r p o ((n, u) :: l) ↔ r !! o = Some (mkMem (o + n) p u) ∧ 24 <= n ∧ n mod 4 = 0 ∧ rest r o (o + n) l.
Proof.
  unfold rest. cbn [seg]. split.
  - intros [(pe & H1 & H2 & H3 & Hs) He]. split_and!; try done. by exists pe.
  - intros (H1 & H2 & H3 & [[pe Hs] He]). split; [|done]. by exists pe.
Qed.

Lemma rest_app r p o l1 l2 : rest r p o (l1 ++ l2) ↔ ∃ p1 o1, seg r p o l1 p1 o1 ∧ rest r p1 o1 l2.
Proof.
  unfold rest. split.
  - intros [[pe (p1 & o1 & Ha & Hb)%seg_app] He]. exists p1, o1. split; [done|]. split; [by exists pe|done].
  - intros (p1 & o1 & Ha & [[pe Hb] He]). split; [|done]. exists pe. apply seg_app. by exists p1, o1.
Qed.

Lemma rest_frame r p o l x m : rest r p o l → x < o → rest (<[x := m]> r) p o l.
Proof.
  intros Hr Hx. pose proof (rest_end _ _ _ _ Hr) as (_ & _ & Hle). destruct Hr as [[pe Hs] He]. split.
  - exists pe. apply seg_frame; [done|lia].
  - by rewrite lookup_insert_ne by lia.
Qed.

(** The [struct mem] at the start of [rest], and what setting its [prev] does;
    at the end of the heap it need not be set. *)
Lemma rest_head r p o l q :
  rest r p o l → ∃ m, r !! o = Some m ∧ m_used m = negb (free_head l) ∧
    rest (<[o := set_prev q m]> r) q o l ∧ (o = ram_end → rest r q o l).
Proof.
  intros Hr. destruct l as [|[n u] l].
  - destruct Hr as [[pe [_ Ho]] [pe' He]]. subst o. exists (mkMem ram_end pe' true).
    split; [done|]. split; [done|]. split; [|intros _; split; [by exists q|by exists pe']].
    split; [by exists q|]. exists q. by rewrite lookup_insert_eq.
  - apply rest_cons in Hr as (H1 & H2 & H3 & Hr). exists (mkMem (o + n) p u). split; [done|].
    split; [by destruct u|]. pose proof (rest_end _ _ _ _ Hr). split; [|lia].
    apply rest_cons. rewrite lookup_insert_eq. split_and!; try done. apply rest_frame; [done|lia].
Qed.

Lemma heap_rep_rest h l :
  heap_rep h l ↔ rest (ram h) 0 0 l ∧ lfree h = lowest 0 l ∧ coalesced l.
Proof.
  split.
  - intros [H1 H2 H3 H4]. by split_and!.
  - intros ([H1 H2] & H3 & H4). by split.
Qed.

(** ** Lowest free area *)

Definition all_used (l : list area) : bool := forallb snd l.

Lemma lowest_app o l1 l2 :
  lowest o (l1 ++ l2) = if all_used l1 then lowest (o + total l1) l2 else lowest o l1.
Proof.
  revert o. induction l1 as [|[n u] l1 IH]; intros o; cbn [app lowest all_used forallb snd total].
  - by rewrite Z.add_0_r.
  - destruct u; [|done]. cbn [andb]. rewrite IH. fold (all_used l1). destruct (all_used l1); [|done]. by rewrite Z.add_assoc.
Qed.

Lemma lowest_ge r p o l p' o' : seg r p o l p' o' → o <= lowest o l <= o'.
Proof.
  revert p o. induction l as [|[n u] l IH]; intros p o; cbn [seg lowest].
  - intros [_ ->]. lia.
  - intros (_ & Hn & _ & Hs). pose proof (seg_end _ _ _ _ _ _ Hs). specialize (IH _ _ Hs). destruct u; lia.
Qed.

Lemma lowest_lt r p o l p' o' : seg r p o l p' o' → all_used l = false → lowest o l < o'.
Proof.
  revert p o. induction l as [|[n u] l IH]; intros p o; cbn [seg lowest all_used forallb snd]; [done|].
  intros (_ & Hn & _ & Hs). pose proof (seg_end _ _ _ _ _ _ Hs). destruct u; [|lia]. cbn [andb]. by apply (IH _ _ Hs).
Qed.

Lemma lowest_split o l :
  ∃ l1 l2, l = l1 ++ l2 ∧ all_used l1 = true ∧ lowest o l = o + total l1 ∧ (l2 = [] ∨ free_head l2 = true).
Proof.
  revert o. induction l as [|[n u] l IH]; intros o.
  - exists [], []. split; [done|]. split; [done|]. split; [cbn; lia|by left].
  - destruct u.
    + destruct (IH (o + n)) as (l1 & l2 & -> & Hu & Hl & Hc). exists ((n, true) :: l1), l2.
      split; [done|]. split; [done|]. cbn [lowest total]. rewrite Hl. split; [lia|done].
    + exists [], ((n, false) :: l). split; [done|]. split; [done|]. cbn [lowest total]. split; [lia|by right].
Qed.

Lemma alloc_first_app size o l1 l2 :
  all_used l1 = true →
  alloc_first size o (l1 ++ l2) =
    match alloc_first size (o + total l1) l2 with Some (x, l') => Some (x, l1 ++ l') | None => None end.
Proof.
  revert o. induction l1 as [|[n u] l1 IH]; intros o Hu; cbn [app alloc_first total].
  - rewrite Z.add_0_r. by destruct (alloc_first size o l2) as [[??]|].
  - apply andb_true_iff in Hu as [Hu1 Hu]. cbn [snd] in Hu1. subst u. cbn [negb andb]. rewrite IH by done.
    rewrite Z.add_assoc. by destruct (alloc_first size (o + n + total l1) l2) as [[??]|].
Qed.

Lemma alloc_first_bound r p o l p' o' size x l' :
  seg r p o l p' o' → alloc_first size o l = Some (x, l') → o + size + 12 <= o'.
Proof.
  revert p o x l'. induction l as [|[n u] l IH]; intros p o x l'; cbn [seg alloc_first]; [done|].
  intros (_ & Hn & _ & Hs). pose proof (seg_end _ _ _ _ _ _ Hs) as (? & ? & _).
  destruct (negb u && (size + 12 <=? n)) eqn:E.
  - intros _. apply andb_true_iff in E as [_ E%Z.leb_le]. lia.
  - destruct (alloc_first size (o + n) l) as [[y l'']|] eqn:Ea; [|done]. intros _. specialize (IH _ _ _ _ Hs Ea). lia.
Qed.

(** ** Running *)

Lemma get_mem_eq h o m : ram h !! o = Some m → get_mem o h = (Ret m, h).
Proof. intros Hm. unfold get_mem. mstep. by rewrite Hm. Qed.

Lemma upd_mem_eq h o m f : ram h !! o = Some m → upd_mem o f h = (Ret tt, mkHeap (<[o := f m]> (ram h)) (lfree h)).
Proof. intros Hm. unfold upd_mem. by mrun (by apply get_mem_eq). Qed.

(** [prev] of the area at [next], if that is not the end. *)
Definition relinked (r : gmap Z mem) (next q : Z) (m : mem) : gmap Z mem :=
  if next =? ram_end then r else <[next := set_prev q m]> r.

Lemma fix_prev_eq h next q m : ram h !! next = Some m →
  fix_prev next q h = (Ret tt, mkHeap (relinked (ram h) next q m) (lfree h)).
Proof.
  intros Hm. unfold fix_prev, relinked. change MEM_SIZE_ALIGNED with ram_end.
  destruct (next =? ram_end); cbn [negb]; [by destruct h|by apply upd_mem_eq].
Qed.

Lemma rest_relinked r p o l q :
  rest r p o l → ∃ m, r !! o = Some m ∧ rest (relinked r o q m) q o l.
Proof.
  intros Hr. destruct (rest_head r p o l q Hr) as (m & Hm & _ & H1 & H2). exists m. split; [done|].
  unfold relinked. destruct (Z.eqb_spec o ram_end); auto.
Qed.

Lemma rest_relinked_below r p o l q m x : rest r p o l → x < o → relinked r o q m !! x = r !! x.
Proof. intros Hr Hx. unfold relinked. destruct (o =? ram_end); [done|]. by rewrite lookup_insert_ne by lia. Qed.

(** An area cut in two, the second free. *)
Lemma cut_area r p p2 o n u' l2 a :
  24 <= a → a mod 4 = 0 → 24 <= n - a → n mod 4 = 0 → rest r p2 (o + n) l2 →
  let r2 := <[o := mkMem (o + a) p u']> (<[o + a := mkMem (o + n) o false]> r) in
  ∃ m, r2 !! (o + n) = Some m ∧ rest (relinked r2 (o + n) (o + a) m) p o ((a, u') :: (n - a, false) :: l2).
Proof.
  intros Ha Ha4 Hn Hn4 Hr. cbv zeta. set (r2 := <[o := _]> _).
  assert (Hr2 : rest r2 p2 (o + n) l2) by (apply rest_frame; [apply rest_frame; [done|lia]|lia]).
  destruct (rest_relinked r2 p2 (o + n) l2 (o + a) Hr2) as (m & Hm & Hrel). exists m. split; [done|].
  apply rest_cons. rewrite (rest_relinked_below r2 p2 (o + n) l2) by (done || lia).
  split; [unfold r2; by rewrite lookup_insert_eq|]. split; [done|]. split; [done|]. apply rest_cons.
  rewrite (rest_relinked_below r2 p2 (o + n) l2) by (done || lia).
  replace (o + a + (n - a)) with (o + n) by lia.
  split; [unfold r2; rewrite lookup_insert_ne, lookup_insert_eq by lia; done|]. split; [done|].
  split; [rewrite Zminus_mod, Ha4, Hn4; done|done].
Qed.

(** An area joined with the next. *)
Lemma join_areas r p o n n2 u' l2 :
  24 <= n → n mod 4 = 0 → 24 <= n2 → n2 mod 4 = 0 → rest r (o + n) (o + n + n2) l2 →
  let r2 := <[o := mkMem (o + n + n2) p u']> r in
  ∃ m, r2 !! (o + n + n2) = Some m ∧
    rest (<[o + n + n2 := set_prev o m]> r2) p o ((n + n2, u') :: l2).
Proof.
  intros Hn Hn4 Hm Hm4 Hr. cbv zeta. set (r2 := <[o := _]> _).
  assert (Hr2 : rest r2 (o + n) (o + n + n2) l2) by (apply rest_frame; [done|lia]).
  destruct (rest_head r2 (o + n) (o + n + n2) l2 o Hr2) as (m & Hx & _ & Hrel & _). exists m. split; [done|].
  apply rest_cons. rewrite lookup_insert_ne by lia. unfold r2 at 1. rewrite lookup_insert_eq, <- Z.add_assoc.
  split; [done|]. split; [lia|]. split; [rewrite Z.add_mod, Hn4, Hm4; done|]. by rewrite Z.add_assoc.
Qed.

Lemma next_lfree_spec fuel r p x l :
  rest r p x l → (length l < fuel)%nat → next_lfree fuel (mkHeap r x) = (Ret tt, mkHeap r (lowest x l)).
Proof.
  revert p x fuel. induction l as [|[n u] l IH]; intros p x fuel Hr Hf; (destruct fuel as [|fuel]; [lia|]); cbn [next_lfree].
  - destruct Hr as [[pe [_ ->]] [pe' He]]. mstep. cbn [lfree]. mrun (by apply get_mem_eq). by rewrite Z.eqb_refl.
  - apply rest_cons in Hr as (H1 & H2 & H3 & Hr). pose proof (rest_end _ _ _ _ Hr). mstep. cbn [lfree].
    mrun (by apply get_mem_eq). cbn [m_used m_next lowest]. destruct u; cbn [andb]; [|done].
    destruct (Z.eqb_spec x ram_end); [lia|]. cbn [negb]. mrun reflexivity. cbn [length ram] in Hf. by apply (IH x); [|lia].
Qed.

Lemma total_length r p o l : rest r p o l → 24 * Z.of_nat (length l) <= total l.
Proof.
  revert p o. induction l as [|[n u] l IH]; intros p o Hr; [done|]. apply rest_cons in Hr as (_ & Hn & _ & Hr).
  specialize (IH _ _ Hr). cbn [length total]. lia.
Qed.

(** ** [mem_malloc] *)

Lemma coalesced_replace l1 a b :
  coalesced (l1 ++ a) → coalesced b → (free_head b = true → free_head a = true) → coalesced (l1 ++ b).
Proof.
  intros Ha Hb Hab. induction l1 as [|[n u] l1 IH]; [done|]. cbn [app coalesced] in *. destruct Ha as [H1 H2].
  split; [|by apply IH]. intros Hu. specialize (H1 Hu). destruct l1 as [|[n1 u1] l1]; [|done]. cbn [app] in *.
  destruct (free_head b); [by rewrite Hab in H1|done].
Qed.

Lemma coalesced_tail l1 a : coalesced (l1 ++ a) → coalesced a.
Proof. induction l1 as [|[n u] l1 IH]; [done|]. intros [_ Hc]. auto. Qed.

Lemma split_coalesced n size l2 : coalesced ((n, false) :: l2) → coalesced (split_area n size ++ l2).
Proof.
  intros [H1 H2]. specialize (H1 eq_refl). unfold split_area. destruct (size + 36 <=? n); cbn [app coalesced]; by split_and!.
Qed.

Lemma u32_size o n : 0 <= o → 24 <= n → o + n <= ram_end → u32 (o + n - (o + SIZEOF_STRUCT_MEM)) = n - 12.
Proof.
  change ram_end with 2228224. change SIZEOF_STRUCT_MEM with 12. intros. rewrite u32_small; lia.
Qed.

(** The record of the area [(n, false)] at [o] after [mem_take]'s first part. *)
Lemma take_split r lf p o n l2 size :
  0 <= o → 12 <= size → size mod 4 = 0 → size + 12 <= n → 24 <= n → n mod 4 = 0 →
  r !! o = Some (mkMem (o + n) p false) → rest r o (o + n) l2 →
  ∃ r', (m ← get_mem o;
     if size + SIZEOF_STRUCT_MEM + MIN_SIZE_ALIGNED <=? u32 (m_next m - (o + SIZEOF_STRUCT_MEM)) then
       let ptr2 := o + SIZEOF_STRUCT_MEM + size in
       link_after o ptr2 (m_next m);; upd_mem o (set_used true);; fix_prev (m_next m) ptr2
     else upd_mem o (set_used true)) (mkHeap r lf) = (Ret tt, mkHeap r' lf) ∧
    rest r' p o (split_area n size ++ l2) ∧ ∀ x, x < o → r' !! x = r !! x.
Proof.
  intros Ho Hs Hs4 Hfit Hn Hn4 Hm Hr. pose proof (rest_end _ _ _ _ Hr) as (_ & _ & Hle).
  mrun (by apply get_mem_eq). cbn [m_next]. rewrite u32_size by done.
  change SIZEOF_STRUCT_MEM with 12. change MIN_SIZE_ALIGNED with 12. cbv zeta.
  unfold split_area. destruct (Z.leb_spec (size + 12 + 12) (n - 12)) as [Hc|Hc].
  - destruct (Z.leb_spec (size + 36) n) as [_|]; [|lia].
    destruct (cut_area r p o o n true l2 (12 + size)) as (m & Hx & Hrest); try done; [lia|rewrite Z.add_mod, Hs4; done|lia|].
    rewrite Z.add_assoc in Hx, Hrest. set (r2 := <[o := _]> _) in Hx, Hrest.
    exists (relinked r2 (o + n) (o + 12 + size) m). split; [|split].
    + unfold link_after.
      assert (R1 : (put_mem (o + 12 + size) (mkMem (o + n) o false);; upd_mem o (set_next (o + 12 + size))) (mkHeap r lf) =
        (Ret tt, mkHeap (<[o := mkMem (o + 12 + size) p false]> (<[o + 12 + size := mkMem (o + n) o false]> r)) lf)).
      { mrun reflexivity. cbn [ram lfree]. rewrite (upd_mem_eq _ o (mkMem (o + n) p false)); [done|].
        cbn [ram]. by rewrite lookup_insert_ne by lia. }
      mrun (exact R1). mrun (apply (upd_mem_eq _ o (mkMem (o + 12 + size) p false)); cbn [ram]; by rewrite lookup_insert_eq).
      cbn [ram lfree set_used m_next m_prev]. rewrite insert_insert_eq. by apply fix_prev_eq.
    + cbn [app]. replace (n - 12 - size) with (n - (12 + size)) by lia. by replace (size + 12) with (12 + size) by lia.
    + intros x Hx'. assert (Hr2 : rest r2 o (o + n) l2).
      { apply rest_frame; [apply rest_frame; [done|lia]|lia]. }
      rewrite (rest_relinked_below r2 o (o + n) l2) by (done || lia). unfold r2. by rewrite !lookup_insert_ne by lia.
  - destruct (Z.leb_spec (size + 36) n) as [|_]; [lia|].
    exists (<[o := mkMem (o + n) p true]> r). split; [by rewrite (upd_mem_eq _ o (mkMem (o + n) p false))|]. split.
    + cbn [app]. apply rest_cons. rewrite lookup_insert_eq. split_and!; try done. apply rest_frame; [done|lia].
    + intros x Hx. by rewrite lookup_insert_ne by lia.
Qed.

Lemma seg_ext r r' p o l p' o' : (∀ x, o <= x < o' → r' !! x = r !! x) → seg r p o l p' o' → seg r' p o l p' o'.
Proof.
  revert p o. induction l as [|[n u] l IH]; intros p o Hx; cbn [seg]; [done|].
  intros (H1 & H2 & H3 & Hs). pose proof (seg_end _ _ _ _ _ _ Hs) as (? & ? & _).
  rewrite Hx by lia. split_and!; try done. apply IH; [|done]. intros x Hx'. apply Hx. lia.
Qed.

Lemma mem_take_spec r l1 p o n l2 size :
  seg r 0 0 l1 p o → rest r p o ((n, false) :: l2) → 12 <= size → size mod 4 = 0 → size + 12 <= n →
  coalesced (l1 ++ (n, false) :: l2) →
  ∃ h', mem_take o size (mkHeap r (lowest 0 (l1 ++ (n, false) :: l2))) = (Ret (o + 12), h') ∧
    heap_rep h' (l1 ++ split_area n size ++ l2).
Proof.
  intros Hseg Hr Hs Hs4 Hfit Hco. apply rest_cons in Hr as (Hm & Hn & Hn4 & Hr).
  destruct (seg_end _ _ _ _ _ _ Hseg) as (Ho & Hto & _). rewrite Z.add_0_l in Ho.
  pose proof (rest_end _ _ _ _ Hr) as (_ & _ & Hle). pose proof (seg_aligned _ _ _ _ _ _ Hseg eq_refl) as Ho4.
  set (lf := lowest 0 (l1 ++ (n, false) :: l2)).
  destruct (take_split r lf p o n l2 size) as (r' & Hrun & Hrest & Hlow); try done; [lia|].
  assert (Hseg' : seg r' 0 0 l1 p o) by (eapply seg_ext; [|exact Hseg]; intros x Hx; apply Hlow; lia).
  assert (Hall : rest r' 0 0 (l1 ++ split_area n size ++ l2)) by (apply rest_app; by exists p, o).
  assert (Hco' : coalesced (l1 ++ split_area n size ++ l2)).
  { eapply coalesced_replace; [exact Hco|by apply split_coalesced, (coalesced_tail l1)|done]. }
  assert (Hlf : lf = if all_used l1 then o else lowest 0 l1) by (unfold lf; rewrite lowest_app, <- Ho; done).
  unfold mem_take. rewrite <- bind_assoc. mrun (exact Hrun). mstep. cbn [lfree].
  assert (Hupd : (if o =? lf then
     next_lfree (Z.to_nat MEM_SIZE_ALIGNED);; l ← gets lfree; m ← get_mem l;
     LWIP_ASSERT "mem_malloc: !lfree->used" ((l =? ram_end) || negb (m_used m)) else mret tt) (mkHeap r' lf) =
    (Ret tt, mkHeap r' (lowest 0 (l1 ++ split_area n size ++ l2)))).
  { rewrite lowest_app, <- Ho. rewrite Z.add_0_l. destruct (all_used l1) eqn:Hu.
    - rewrite Hlf, Z.eqb_refl. pose proof (total_length _ _ _ _ Hrest) as Htl. pose proof (rest_end _ _ _ _ Hrest) as (Hte & _).
      mrun (apply (next_lfree_spec _ r' p o _ Hrest); change MEM_SIZE_ALIGNED with 2228224; change ram_end with 2228224 in *; lia).
      mstep. cbn [lfree]. destruct (lowest_split o (split_area n size ++ l2)) as (a & b & Hab & Hua & Hlo & Hb).
      rewrite Hab in Hrest. apply rest_app in Hrest as (p1 & o1 & Hs1 & Hr1). rewrite Hlo.
      destruct (seg_end _ _ _ _ _ _ Hs1) as (Ho1 & _). rewrite <- Ho1.
      destruct (rest_head r' p1 o1 b 0 Hr1) as (m & Hmm & Hum & _). mrun (by apply get_mem_eq).
      rewrite Hum. destruct Hb as [->|Hb]; [|by rewrite Hb, orb_true_r].
      destruct Hr1 as [[pe [_ ->]] _]. by rewrite Z.eqb_refl.
    - pose proof (lowest_lt _ _ _ _ _ _ Hseg Hu). destruct (Z.eqb_spec o lf) as [He|]; [lia|]. by rewrite Hlf. }
  mrun (exact Hupd). change SIZEOF_STRUCT_MEM with 12 in *. change MEM_ALIGNMENT with 4 in *.
  destruct (Z.leb_spec (o + 12 + size) ram_end) as [_|]; [|lia]. cbn [LWIP_ASSERT]. mstep.
  assert ((o + 12) mod 4 =? 0 = true) as -> by (by rewrite Z.add_mod, Ho4). cbn [LWIP_ASSERT]. mstep.
  assert (Z.land o (4 - 1) =? 0 = true) as -> by (change (4 - 1) with (Z.ones 2); rewrite Z.land_ones by lia; change (2 ^ 2) with 4; by rewrite Ho4).
  cbn [LWIP_ASSERT]. mstep. eexists. split; [done|]. apply heap_rep_rest. by split_and!.
Qed.

Lemma mem_scan_spec r l1 p o l2 size fuel :
  seg r 0 0 l1 p o → rest r p o l2 → 12 <= size → size mod 4 = 0 → coalesced (l1 ++ l2) → (length l2 < fuel)%nat →
  match alloc_first size o l2 with
  | Some (x, l') => ∃ h', mem_scan fuel o size (mkHeap r (lowest 0 (l1 ++ l2))) = (Ret (Some (x + 12)), h') ∧ heap_rep h' (l1 ++ l')
  | None => mem_scan fuel o size (mkHeap r (lowest 0 (l1 ++ l2))) = (Ret None, mkHeap r (lowest 0 (l1 ++ l2)))
  end.
Proof.
  intros Hseg Hr Hs Hs4 Hco Hf. revert l1 p o fuel Hseg Hr Hco Hf.
  induction l2 as [|[n u] l2 IH]; intros l1 p o fuel Hseg Hr Hco Hf; (destruct fuel as [|fuel]; [lia|]);
    cbn [alloc_first mem_scan].
  - destruct Hr as [[pe [_ ->]] _]. change MEM_SIZE_ALIGNED with ram_end. destruct (Z.ltb_spec ram_end (ram_end - size)); [lia|done].
  - destruct (seg_end _ _ _ _ _ _ Hseg) as (Ho & Hto & _). rewrite Z.add_0_l in Ho.
    destruct (Z.ltb_spec o (MEM_SIZE_ALIGNED - size)) as [Hlt|Hge].
    2: { assert (Hnone : alloc_first size o ((n, u) :: l2) = None).
         { destruct (alloc_first size o ((n, u) :: l2)) as [[x l']|] eqn:E; [|done]. destruct Hr as [[pe Hs'] _].
           pose proof (alloc_first_bound _ _ _ _ _ _ _ _ _ Hs' E). change ram_end with MEM_SIZE_ALIGNED in *. lia. }
         cbn [alloc_first] in Hnone. by rewrite Hnone. }
    pose proof Hr as (Hm & Hn & Hn4 & Hr')%rest_cons. pose proof (rest_end _ _ _ _ Hr') as (_ & _ & Hle).
    mrun (by apply get_mem_eq). cbn [m_used m_next]. rewrite u32_size by (done || lia).
    replace (size <=? n - 12) with (size + 12 <=? n)
      by (apply Z.b2z_inj; destruct (Z.leb_spec (size + 12) n), (Z.leb_spec size (n - 12)); cbn; lia).
    destruct (negb u && (size + 12 <=? n)) eqn:E.
    + apply andb_true_iff in E as [Hu%negb_true_iff Hfit%Z.leb_le]. subst u.
      destruct (mem_take_spec r l1 p o n l2 size) as (h' & Hrun & Hrep); try done.
      exists h'. split; [by mrun (exact Hrun)|done].
    + assert (Hseg' : seg r 0 0 (l1 ++ [(n, u)]) o (o + n)).
      { apply seg_app. exists p, o. split; [done|]. cbn [seg]. by split_and!. }
      cbn [length] in Hf. assert (Hf' : (length l2 < fuel)%nat) by lia.
      replace (l1 ++ (n, u) :: l2) with ((l1 ++ [(n, u)]) ++ l2) in * by (by rewrite <- app_assoc).
      specialize (IH _ _ _ fuel Hseg' Hr' Hco Hf').
      destruct (alloc_first size (o + n) l2) as [[x l']|]; [|done].
      destruct IH as (h' & Hrun & Hrep). exists h'. split; [exact Hrun|]. by rewrite <- app_assoc in Hrep.
Qed.

(** The size [mem_malloc] looks for. *)
Definition request (size : Z) : Z := Z.max 12 (4 * ((size + 3) / 4)).

Lemma align_size size : 0 <= size < 2 ^ 32 - 3 → LWIP_MEM_ALIGN_SIZE size = 4 * ((size + 3) / 4).
Proof.
  intros Hs. unfold LWIP_MEM_ALIGN_SIZE. change MEM_ALIGNMENT with 4. rewrite u32_small by lia.
  replace (size + 4 - 1) with (size + 3) by lia. change (u32 (Z.lnot (4 - 1))) with (Z.shiftl (Z.ones 30) 2).
  assert (Hx : 0 <= size + 3 < 2 ^ 32) by lia. revert Hx. generalize (size + 3). clear size Hs. intros x Hx.
  transitivity (Z.shiftl (Z.shiftr x 2) 2).
  2: { rewrite Z.shiftl_mul_pow2, Z.shiftr_div_pow2 by lia. change (2 ^ 2) with 4. lia. }
  assert (Hw : Z.shiftr x 2 = Z.land (Z.shiftr x 2) (Z.ones 30)).
  { rewrite Z.land_ones, Z.shiftr_div_pow2 by lia. rewrite Z.mod_small; [done|]. Z.to_euclidean_division_equations. lia. }
  rewrite Hw, Z.shiftl_land. apply Z.bits_inj'. intros i Hi. rewrite !Z.land_spec, !Z.shiftl_spec by done.
  destruct (Z.lt_ge_cases i 2) as [Hlt|Hge].
  - rewrite !(Z.testbit_neg_r _ (i - 2)) by lia. by rewrite !andb_false_r.
  - rewrite Z.shiftr_spec by lia. by rewrite Z.sub_add.
Qed.

Lemma request_eq size : 0 <= size < 2 ^ 32 - 3 →
  (if LWIP_MEM_ALIGN_SIZE size <? MIN_SIZE_ALIGNED then MIN_SIZE_ALIGNED else LWIP_MEM_ALIGN_SIZE size) = request size.
Proof.
  intros Hs. rewrite align_size by done. change MIN_SIZE_ALIGNED with 12. unfold request.
  destruct (Z.ltb_spec (4 * ((size + 3) / 4)) 12); lia.
Qed.

Lemma request_bounds size : 12 <= request size ∧ request size mod 4 = 0 ∧ (0 <= size → size <= request size).
Proof.
  unfold request. split; [lia|]. split.
  - destruct (Z.max_spec 12 (4 * ((size + 3) / 4))) as [[_ ->]|[_ ->]]; [|done]. by rewrite Z.mul_comm, Z.mod_mul.
  - intros. Z.to_euclidean_division_equations. lia.
Qed.

(** With nothing free before [o], the search from [lfree] is the search. *)
Lemma mem_malloc_spec h l size :
  heap_rep h l → 0 < size < 2 ^ 32 - 3 →
  match alloc_first (request size) 0 l with
  | Some (x, l') => ∃ h', mem_malloc size h = (Ret (Some (x + 12)), h') ∧ heap_rep h' l'
  | None => mem_malloc size h = (Ret None, h)
  end.
Proof.
  intros Hrep Hs. destruct (request_bounds size) as (Hq & Hq4 & _). unfold mem_malloc.
  destruct (Z.eqb_spec size 0) as [|_]; [lia|]. rewrite request_eq by lia. set (q := request size) in *.
  apply heap_rep_rest in Hrep as (Hr & Hl & Hco). pose proof (rest_end _ _ _ _ Hr) as (Hend & _).
  destruct (Z.ltb_spec MEM_SIZE_ALIGNED q) as [Hbig|Hok].
  { destruct (alloc_first q 0 l) as [[x l']|] eqn:E; [|done]. destruct Hr as [[pe Hs'] _].
    pose proof (alloc_first_bound _ _ _ _ _ _ _ _ _ Hs' E). change MEM_SIZE_ALIGNED with ram_end in Hbig. lia. }
  mstep. destruct h as [r lf]. cbn [ram lfree] in *. subst lf.
  destruct (lowest_split 0 l) as (l1 & l2 & Heq & Hu & Hlo & _). rewrite Hlo, Z.add_0_l, Heq.
  pose proof (total_length _ _ _ _ Hr) as Htl. rewrite Heq in Hr, Hco, Htl, Hend. rewrite length_app in Htl.
  apply rest_app in Hr as (p & o & Hseg & Hr). destruct (seg_end _ _ _ _ _ _ Hseg) as (Ho & Hto & _).
  rewrite Z.add_0_l in Ho. rewrite alloc_first_app, Z.add_0_l, <- Ho by done.
  assert (Hlow : total l1 = lowest 0 (l1 ++ l2)) by (rewrite <- Heq, Hlo; lia).
  pose proof (mem_scan_spec r l1 p o l2 q (Z.to_nat MEM_SIZE_ALIGNED) Hseg Hr Hq Hq4 Hco) as Hscan.
  rewrite <- Hlow, <- Ho in Hscan.
  assert (Hlen : (length l2 < Z.to_nat MEM_SIZE_ALIGNED)%nat).
  { change MEM_SIZE_ALIGNED with 2228224. change ram_end with 2228224 in Hend. lia. }
  specialize (Hscan Hlen). destruct (alloc_first q o l2) as [[x l']|]; exact Hscan.
Qed.

(** ** [mem_free] *)

(** The first area of [join_next]. *)
Lemma join_next_cons n l : ∃ n' l', join_next n l = (n', false) :: l' ∧
  (join_next n l = (n, false) :: l ∧ n' = n ∧ l' = l ∧ free_head l = false ∨
   ∃ n2, l = (n2, false) :: l' ∧ n' = n + n2).
Proof.
  destruct l as [|[n2 [|]] l]; cbn [join_next].
  - exists n, []. split; [done|]. by left.
  - exists n, ((n2, true) :: l). split; [done|]. by left.
  - exists (n + n2), l. split; [done|]. right. by exists n2.
Qed.

Definition plug_next (mem : Z) : H unit :=
  m ← get_mem mem;
  let nmem := m_next m in
  n ← get_mem nmem;
  if negb (mem =? nmem) && negb (m_used n) && negb (nmem =? ram_end) then
    l ← gets lfree;
    (if l =? nmem then set_lfree mem else mret tt);;
    upd_mem mem (set_next (m_next n));;
    upd_mem (m_next n) (set_prev mem)
  else mret tt.

Lemma plug_next_spec r lf p o n l2 :
  lf <= o → rest r p o ((n, false) :: l2) →
  ∃ r', plug_next o (mkHeap r lf) = (Ret tt, mkHeap r' lf) ∧ rest r' p o (join_next n l2) ∧ ∀ x, x < o → r' !! x = r !! x.
Proof.
  intros Hlf Hr. pose proof Hr as (Hm & Hn & Hn4 & Hr')%rest_cons. unfold plug_next.
  mrun (by apply get_mem_eq). cbn [m_next]. destruct (rest_head r o (o + n) l2 0 Hr') as (m2 & Hm2 & Hu2 & _).
  mrun (by apply get_mem_eq). rewrite Hu2, negb_involutive. destruct (Z.eqb_spec o (o + n)) as [|_]; [lia|]. cbn [negb andb].
  destruct l2 as [|[n2 [|]] l2]; cbn [free_head andb join_next]; [by exists r|by exists r|].
  apply rest_cons in Hr' as (Hm2' & Hn2 & Hn24 & Hr2). rewrite Hm2 in Hm2'. injection Hm2' as ->.
  pose proof (rest_end _ _ _ _ Hr2) as (_ & _ & Hle). destruct (Z.eqb_spec (o + n) ram_end) as [|_]; [lia|]. cbn [negb].
  mstep. cbn [lfree m_next]. destruct (Z.eqb_spec lf (o + n)) as [|_]; [lia|]. mrun reflexivity.
  destruct (join_areas r p o n n2 false l2) as (m & Hmx & Hjoin); try done. set (r2 := <[o := _]> r) in *.
  mrun (by apply (upd_mem_eq _ o (mkMem (o + n) p false))). cbn [ram lfree set_next m_prev m_used].
  exists (<[o + n + n2 := set_prev o m]> r2). split; [by rewrite (upd_mem_eq _ _ m)|]. split; [done|].
  intros x Hx. rewrite lookup_insert_ne by lia. unfold r2. by rewrite lookup_insert_ne by lia.
Qed.

Definition plug_prev (mem : Z) : H unit :=
  m ← get_mem mem;
  let pmem := m_prev m in
  p ← get_mem pmem;
  if negb (pmem =? mem) && negb (m_used p) then
    l ← gets lfree;
    (if l =? mem then set_lfree pmem else mret tt);;
    upd_mem pmem (set_next (m_next m));;
    upd_mem (m_next m) (set_prev pmem)
  else mret tt.

(** The list after the join with the area before. *)
Definition join_prev (l1 : list area) (n : Z) (l2 : list area) : list area :=
  match reverse l1 with
  | (n0, false) :: r => reverse r ++ (n0 + n, false) :: l2
  | _ => l1 ++ (n, false) :: l2
  end.

Lemma plug_prev_spec r l1 p o n l2 :
  seg r 0 0 l1 p o → rest r p o ((n, false) :: l2) →
  let lf := lowest 0 (l1 ++ (n, false) :: l2) in
  ∃ r', plug_prev o (mkHeap r lf) = (Ret tt, mkHeap r' lf) ∧ rest r' 0 0 (join_prev l1 n l2) ∧
    lf = lowest 0 (join_prev l1 n l2).
Proof.
  intros Hseg Hr. cbv zeta. pose proof Hr as (Hm & Hn & Hn4 & Hr')%rest_cons. unfold plug_prev, join_prev.
  mrun (by apply get_mem_eq). cbn [m_prev m_next].
  destruct l1 as [|[n0 u0] l1 _] using rev_ind.
  { destruct Hseg as [<- <-]. mrun (by apply get_mem_eq). cbn [Z.eqb negb andb reverse rev_append app]. by exists r. }
  rewrite reverse_snoc. apply seg_app in Hseg as (p0 & o0 & Hseg0 & Hlast).
  cbn [seg] in Hlast. destruct Hlast as (Hm0 & Hn0 & Hn04 & Hpp & Hoo). subst o0 o.
  destruct (seg_end _ _ _ _ _ _ Hseg0) as (Ho & Hto & _). rewrite Z.add_0_l in Ho. mrun (by apply get_mem_eq).
  destruct (Z.eqb_spec p (p + n0)) as [|_]; [lia|]. cbn [negb andb m_used]. destruct u0; cbn [negb].
  { exists r. split; [done|]. split; [|done]. apply rest_app. exists p, (p + n0). split; [|done]. apply seg_app.
    exists p0, p. split; [done|]. cbn [seg]. by split_and!. }
  rewrite reverse_involutive, <- app_assoc. cbn [app].
  assert (Hlf : lowest 0 (l1 ++ (n0, false) :: (n, false) :: l2) = lowest 0 (l1 ++ (n0 + n, false) :: l2)).
  { rewrite !lowest_app. by destruct (all_used l1). }
  pose proof (lowest_ge _ _ _ _ _ _ Hseg0) as Hge.
  assert (Hle : lowest 0 (l1 ++ (n0, false) :: (n, false) :: l2) <= p).
  { rewrite lowest_app. destruct (all_used l1); cbn [lowest]; lia. }
  mstep. cbn [lfree]. destruct (Z.eqb_spec (lowest 0 (l1 ++ (n0, false) :: (n, false) :: l2)) (p + n0)) as [|_]; [lia|].
  mrun reflexivity. destruct (join_areas r p0 p n0 n false l2) as (m & Hmx & Hjoin); try done.
  set (r2 := <[p := _]> r) in *. mrun (by apply (upd_mem_eq _ p (mkMem (p + n0) p0 false))).
  cbn [ram lfree set_next m_prev m_used]. exists (<[p + n0 + n := set_prev p m]> r2).
  split; [by rewrite (upd_mem_eq _ _ m)|]. split; [|done]. apply rest_app. exists p0, p. split; [|done].
  eapply seg_ext; [|exact Hseg0]. intros x Hx. rewrite lookup_insert_ne by lia. unfold r2. by rewrite lookup_insert_ne by lia.
Qed.

Lemma release_eq l1 n l2 : ∃ n' l', join_next n l2 = (n', false) :: l' ∧ release l1 n l2 = join_prev l1 n' l'.
Proof.
  destruct (join_next_cons n l2) as (n' & l' & Hj & _). exists n', l'. split; [done|]. unfold release, join_prev. rewrite Hj.
  by destruct (reverse l1) as [|[n0 [|]] r].
Qed.

Lemma join_next_coalesced n l : coalesced l → coalesced (join_next n l).
Proof.
  destruct l as [|[n2 [|]] l]; cbn [join_next coalesced]; [done|done|]. intros [H1 H2]. by split.
Qed.

Lemma release_coalesced l1 n l2 : coalesced (l1 ++ (n, true) :: l2) → coalesced (release l1 n l2).
Proof.
  intros Hco. destruct (release_eq l1 n l2) as (n' & l' & Hj & ->). unfold join_prev.
  pose proof (coalesced_tail l1 _ Hco) as [_ Hl2]. pose proof (join_next_coalesced n l2 Hl2) as Hjc. rewrite Hj in Hjc.
  destruct l1 as [|[n0 u0] l1 _] using rev_ind; [done|]. rewrite reverse_snoc.
  rewrite <- app_assoc in Hco. cbn [app] in Hco. destruct u0.
  - rewrite <- app_assoc. cbn [app]. eapply coalesced_replace; [exact Hco| |done]. split; [done|]. exact Hjc.
  - rewrite reverse_involutive. eapply coalesced_replace; [exact Hco| |done]. split; [apply Hjc|apply Hjc].
Qed.

Lemma mem_free_spec h l1 n l2 :
  heap_rep h (l1 ++ (n, true) :: l2) →
  ∃ h', mem_free (Some (total l1 + 12)) h = (Ret tt, h') ∧ heap_rep h' (release l1 n l2).
Proof.
  intros (Hr & Hl & Hco)%heap_rep_rest. destruct h as [r lf]. cbn [ram lfree] in *.
  apply rest_app in Hr as (p & o & Hseg & Hr). pose proof Hr as (Hm & Hn & Hn4 & Hr')%rest_cons.
  destruct (seg_end _ _ _ _ _ _ Hseg) as (Ho & Hto & _). rewrite Z.add_0_l in Ho. rewrite <- Ho.
  pose proof (rest_end _ _ _ _ Hr') as (_ & _ & Hle). pose proof (seg_aligned _ _ _ _ _ _ Hseg eq_refl) as Ho4.
  pose proof (lowest_ge _ _ _ _ _ _ Hseg) as Hge. unfold mem_free. change MEM_ALIGNMENT with 4.
  assert (Z.land (o + 12) (4 - 1) =? 0 = true) as ->.
  { change (4 - 1) with (Z.ones 2). rewrite Z.land_ones by lia. change (2 ^ 2) with 4. by rewrite Z.add_mod, Ho4. }
  assert ((0 <=? o + 12) && (o + 12 <? ram_end) = true) as -> by (rewrite andb_true_iff, Z.leb_le, Z.ltb_lt; lia).
  cbn [LWIP_ASSERT]. do 2 mstep. change SIZEOF_STRUCT_MEM with 12. replace (o + 12 - 12) with o by lia.
  mrun (by apply get_mem_eq). cbn [m_used LWIP_ASSERT]. mstep. mrun (by apply (upd_mem_eq _ o (mkMem (o + n) p true))).
  cbn [ram lfree set_used m_next m_prev]. set (r1 := <[o := mkMem (o + n) p false]> r). mstep. cbn [lfree].
  assert (Hr1 : rest r1 p o ((n, false) :: l2)).
  { apply rest_cons. unfold r1. rewrite lookup_insert_eq. split_and!; try done. apply rest_frame; [done|lia]. }
  assert (Hlf : (if o <? lf then set_lfree o else mret tt) (mkHeap r1 lf) =
    (Ret tt, mkHeap r1 (lowest 0 (l1 ++ join_next n l2)))).
  { destruct (join_next_cons n l2) as (n' & l' & -> & _). rewrite lowest_app, Hl, lowest_app, !Z.add_0_l, <- Ho. cbn [lowest].
    destruct (all_used l1) eqn:Hu.
    - assert (Hge2 : o + n <= lowest (o + n) l2) by (destruct Hr' as [[pe Hs'] _]; by apply (lowest_ge _ _ _ _ _ _ Hs')).
      destruct (Z.ltb_spec o (lowest (o + n) l2)); [done|lia].
    - pose proof (lowest_lt _ _ _ _ _ _ Hseg Hu). destruct (Z.ltb_spec o (lowest 0 l1)); [lia|done]. }
  mrun (exact Hlf). destruct (release_eq l1 n l2) as (n' & l' & Hj & Hrel). rewrite Hj in *.
  assert (Hlo : lowest 0 (l1 ++ (n', false) :: l') <= o).
  { rewrite lowest_app, Z.add_0_l, <- Ho. destruct (all_used l1); cbn [lowest]; lia. }
  destruct (plug_next_spec r1 (lowest 0 (l1 ++ (n', false) :: l')) p o n l2 Hlo Hr1) as (r2 & R2 & Hr2 & Hlow2).
  rewrite Hj in Hr2.
  assert (Hseg2 : seg r2 0 0 l1 p o).
  { eapply seg_ext; [|exact Hseg]. intros x Hx. rewrite Hlow2 by lia. unfold r1. by rewrite lookup_insert_ne by lia. }
  destruct (plug_prev_spec r2 l1 p o n' l' Hseg2 Hr2) as (r3 & R3 & Hr3 & Hl3).
  exists (mkHeap r3 (lowest 0 (l1 ++ (n', false) :: l'))). split.
  - unfold plug_holes. destruct (Z.leb_spec 0 o) as [_|]; [|lia]. destruct (Z.ltb_spec o ram_end) as [_|]; [|lia].
    cbn [LWIP_ASSERT]. do 2 mstep. mrun (apply get_mem_eq; cbn [ram]; unfold r1; by rewrite lookup_insert_eq).
    cbn [m_used negb LWIP_ASSERT m_next]. mstep. change MEM_SIZE_ALIGNED with ram_end.
    destruct (Z.leb_spec (o + n) ram_end) as [_|]; [|lia]. cbn [LWIP_ASSERT]. mstep.
    unfold plug_next in R2. rewrite (bind_Ret _ _ _ (mkMem (o + n) p false) (mkHeap r1 (lowest 0 (l1 ++ (n', false) :: l')))) in R2
      by (apply get_mem_eq; cbn [ram]; unfold r1; by rewrite lookup_insert_eq).
    cbn [m_next] in R2. rewrite <- bind_assoc. mrun (exact R2). exact R3.
  - apply heap_rep_rest. cbn [ram lfree]. rewrite Hrel. split_and!; [done|done|]. rewrite <- Hrel. by apply release_coalesced.
Qed.

(** ** [mem_realloc] *)

Lemma link_spec r lf p p2 o n2 next a l' :
  24 <= a → a mod 4 = 0 → 24 <= n2 - a → n2 mod 4 = 0 → r !! o = Some (mkMem next p true) → rest r p2 (o + n2) l' →
  ∃ r', (link_after o (o + a) (o + n2);; fix_prev (o + n2) (o + a)) (mkHeap r lf) = (Ret tt, mkHeap r' lf) ∧
    rest r' p o ((a, true) :: (n2 - a, false) :: l') ∧ ∀ x, x < o → r' !! x = r !! x.
Proof.
  intros Ha Ha4 Hn Hn4 Hm Hr. destruct (cut_area r p p2 o n2 true l' a) as (m & Hx & Hrest); try done.
  set (r2 := <[o := _]> _) in Hx, Hrest. exists (relinked r2 (o + n2) (o + a) m). split; [|split; [done|]].
  - assert (R1 : link_after o (o + a) (o + n2) (mkHeap r lf) = (Ret tt, mkHeap r2 lf)).
    { unfold link_after. mrun reflexivity. cbn [ram lfree]. rewrite (upd_mem_eq _ o (mkMem next p true)); [done|].
      cbn [ram]. by rewrite lookup_insert_ne by lia. }
    mrun (exact R1). by apply fix_prev_eq.
  - intros x Hlt. assert (Hr2 : rest r2 p2 (o + n2) l') by (apply rest_frame; [apply rest_frame; [done|lia]|lia]).
    rewrite (rest_relinked_below r2 p2 (o + n2) l') by (done || lia). unfold r2. by rewrite !lookup_insert_ne by lia.
Qed.

Lemma shrink_coalesced l1 n q l2 :
  coalesced (l1 ++ (n, true) :: l2) → coalesced (l1 ++ shrink n q l2).
Proof.
  intros Hco. pose proof (coalesced_tail l1 _ Hco) as [_ Hl2]. eapply coalesced_replace; [exact Hco|..].
  - destruct l2 as [|[n2 [|]] l2]; cbn [shrink]; unfold split_area; try (destruct (q + 36 <=? n)); cbn [app coalesced free_head] in *; naive_solver.
  - destruct l2 as [|[n2 [|]] l2]; cbn [shrink]; unfold split_area; try (destruct (q + 36 <=? n)); done.
Qed.

Lemma mem_realloc_spec h l1 n l2 newsize :
  heap_rep h (l1 ++ (n, true) :: l2) → 0 <= newsize < 2 ^ 32 - 3 → request newsize + 12 <= n →
  ∃ h', mem_realloc (total l1 + 12) newsize h = (Ret (Some (total l1 + 12)), h') ∧
    heap_rep h' (l1 ++ shrink n (request newsize) l2).
Proof.
  intros (Hr & Hl & Hco)%heap_rep_rest Hns Hfit. destruct h as [r lf]. cbn [ram lfree] in *.
  apply rest_app in Hr as (p & o & Hseg & Hr). pose proof Hr as (Hm & Hn & Hn4 & Hr')%rest_cons.
  destruct (seg_end _ _ _ _ _ _ Hseg) as (Ho & Hto & _). rewrite Z.add_0_l in Ho. rewrite <- Ho.
  pose proof (rest_end _ _ _ _ Hr') as (_ & _ & Hle). destruct (request_bounds newsize) as (Hq & Hq4 & _).
  unfold mem_realloc. rewrite request_eq by done. set (q := request newsize) in *.
  change MEM_SIZE_ALIGNED with ram_end. destruct (Z.ltb_spec ram_end q) as [|_]; [lia|].
  assert ((0 <=? o + 12) && (o + 12 <? ram_end) = true) as -> by (rewrite andb_true_iff, Z.leb_le, Z.ltb_lt; lia).
  cbn [LWIP_ASSERT]. mstep. change SIZEOF_STRUCT_MEM with 12 in *. change MIN_SIZE_ALIGNED with 12.
  replace (o + 12 - 12) with o by lia. mrun (by apply get_mem_eq). cbn [m_next].
  replace (u32 (o + n - o - 12)) with (n - 12) by (rewrite u32_small; change ram_end with 2228224 in *; lia).
  destruct (Z.leb_spec q (n - 12)) as [_|]; [|lia]. cbn [LWIP_ASSERT]. mstep.
  assert (Hdone : ∀ r', rest r' p o (shrink n q l2) → (∀ x, x < o → r' !! x = r !! x) →
    rest r' 0 0 (l1 ++ shrink n q l2)).
  { intros r' Hr2 Hlow. apply rest_app. exists p, o. split; [|done]. eapply seg_ext; [|exact Hseg]. intros x Hx. apply Hlow. lia. }
  destruct (Z.eqb_spec q (n - 12)) as [Heq|Hne].
  { assert (Hsame : shrink n q l2 = (n, true) :: l2).
    { assert (q + 12 = n) as Hqn by lia. unfold shrink, split_area. destruct (Z.leb_spec (q + 36) n) as [|_]; [lia|].
      destruct l2 as [|[n2 [|]] l2]; [done|done|]. rewrite Hqn. by replace (n - 12 - q + n2) with n2 by lia. }
    eexists. split; [done|]. apply heap_rep_rest. cbn [ram lfree]. rewrite Hsame. split_and!; [|done|done].
    apply rest_app. by exists p, o. }
  destruct (rest_head r o (o + n) l2 0 Hr') as (m2 & Hm2 & Hu2 & _). mrun (by apply get_mem_eq).
  rewrite Hu2, negb_involutive. pose proof (shrink_coalesced l1 n q l2 Hco) as Hco'.
  assert (Hlow : lowest 0 (l1 ++ (n, true) :: l2) = if all_used l1 then lowest (o + n) l2 else lowest 0 l1).
  { rewrite lowest_app, Z.add_0_l, <- Ho. done. }
  pose proof (lowest_ge _ _ _ _ _ _ Hseg) as Hge.
  destruct (free_head l2) eqn:Hfh.
  - destruct l2 as [|[n2 [|]] l2]; [done|done|]. apply rest_cons in Hr' as (Hx & Hn2 & Hn24 & Hr2).
    rewrite Hx in Hm2. injection Hm2 as <-. rewrite bind_assoc. mstep. cbn [lfree m_next].
    set (lf' := if lf =? o + n then o + 12 + q else lf).
    assert (R1 : (if lf =? o + n then set_lfree (o + 12 + q) else mret tt) (mkHeap r lf) = (Ret tt, mkHeap r lf')).
    { unfold lf'. by destruct (lf =? o + n). }
    destruct (link_spec r lf' p (o + n) o (n + n2) (o + n) (12 + q) l2) as (r' & R2 & Hr3 & Hb); try done;
      [lia|rewrite Z.add_mod, Hq4; done|lia|rewrite Z.add_mod, Hn4, Hn24; done|by rewrite Z.add_assoc|].
    assert (Hsh : shrink n q ((n2, false) :: l2) = (12 + q, true) :: (n + n2 - (12 + q), false) :: l2).
    { cbn [shrink]. replace (q + 12) with (12 + q) by lia. by replace (n - 12 - q + n2) with (n + n2 - (12 + q)) by lia. }
    rewrite !Z.add_assoc in R2. mrun (mrun (exact R1); exact R2).
    eexists. split; [done|]. apply heap_rep_rest. cbn [ram lfree]. split; [apply Hdone; [by rewrite Hsh|done]|].
    split; [|done]. unfold lf'. rewrite Hl, Hlow, lowest_app, Z.add_0_l, <- Ho, Hsh. cbn [lowest].
    destruct (all_used l1); [rewrite Z.eqb_refl; lia|]. destruct (Z.eqb_spec (lowest 0 l1) (o + n)); [lia|done].
  - assert (Hsh : shrink n q l2 = split_area n q ++ l2) by (by destruct l2 as [|[n2 [|]] l2]).
    unfold split_area in Hsh. destruct (Z.leb_spec (q + 12 + 12) (n - 12)) as [Hc|Hc].
    + destruct (Z.leb_spec (q + 36) n) as [_|]; [|lia]. rewrite bind_assoc. mstep. cbn [lfree].
      set (lf' := if o + 12 + q <? lf then o + 12 + q else lf).
      assert (R1 : (if o + 12 + q <? lf then set_lfree (o + 12 + q) else mret tt) (mkHeap r lf) = (Ret tt, mkHeap r lf')).
      { unfold lf'. by destruct (o + 12 + q <? lf). }
      destruct (link_spec r lf' p o o n (o + n) (12 + q) l2) as (r' & R2 & Hr3 & Hb); try done;
        [lia|rewrite Z.add_mod, Hq4; done|lia|].
      rewrite !Z.add_assoc in R2. mrun (mrun (exact R1); exact R2).
      assert (Hsh' : shrink n q l2 = (12 + q, true) :: (n - (12 + q), false) :: l2).
      { rewrite Hsh. cbn [app]. replace (q + 12) with (12 + q) by lia. by replace (n - 12 - q) with (n - (12 + q)) by lia. }
      eexists. split; [done|]. apply heap_rep_rest. cbn [ram lfree]. split; [apply Hdone; [by rewrite Hsh'|done]|].
      split; [|done]. unfold lf'. rewrite Hl, Hlow, lowest_app, Z.add_0_l, <- Ho, Hsh'. cbn [lowest].
      assert (Hge2 : o + n <= lowest (o + n) l2) by (destruct Hr' as [[pe Hs'] _]; by apply (lowest_ge _ _ _ _ _ _ Hs')).
      destruct (all_used l1); [destruct (Z.ltb_spec (o + 12 + q) (lowest (o + n) l2)); lia|].
      destruct (Z.ltb_spec (o + 12 + q) (lowest 0 l1)); [lia|done].
    + destruct (Z.leb_spec (q + 36) n) as [|_]; [lia|]. mrun reflexivity. eexists. split; [done|]. apply heap_rep_rest.
      cbn [ram lfree]. rewrite Hsh. cbn [app]. split_and!; [|done|done]. apply rest_app. by exists p, o.
Qed.

(** ** What the users of the heap see *)

(** The areas in use: offset and size. *)
Fixpoint used_areas (o : Z) (l : list area) : list (Z * Z) :=
  match l with
  | [] => []
  | (n, u) :: l => if (u : bool) then (o, n) :: used_areas (o + n) l else used_areas (o + n) l
  end.

Lemma used_areas_app o l1 l2 : used_areas o (l1 ++ l2) = used_areas o l1 ++ used_areas (o + total l1) l2.
Proof.
  revert o. induction l1 as [|[n u] l1 IH]; intros o; cbn [app used_areas total]; [by rewrite Z.add_0_r|].
  rewrite IH, Z.add_assoc. by destruct u.
Qed.

Lemma total_app l1 l2 : total (l1 ++ l2) = total l1 + total l2.
Proof. induction l1 as [|[n u] l1 IH]; cbn [app total]; lia. Qed.

Lemma alloc_first_used size o l x l' :
  alloc_first size o l = Some (x, l') →
  ∃ n, size + 12 <= n ∧ used_areas o l' ≡ₚ (x, n) :: used_areas o l.
Proof.
  revert o x l'. induction l as [|[n u] l IH]; intros o x l'; cbn [alloc_first]; [done|].
  destruct (negb u && (size + 12 <=? n)) eqn:E.
  - intros [= <- <-]. apply andb_true_iff in E as [Hu%negb_true_iff Hn%Z.leb_le]. subst u. unfold split_area.
    destruct (Z.leb_spec (size + 36) n); cbn [app used_areas].
    + exists (size + 12). split; [lia|]. by replace (o + (size + 12) + (n - 12 - size)) with (o + n) by lia.
    + by exists n.
  - destruct (alloc_first size (o + n) l) as [[y l'']|] eqn:Ea; [|done]. intros [= <- <-].
    destruct (IH _ _ _ Ea) as (k & Hk & Hp). exists k. split; [done|]. cbn [used_areas].
    destruct u; rewrite Hp; [apply Permutation_swap|done].
Qed.

Lemma alloc_first_none size o l n : alloc_first size o l = None → (n, false) ∈ l → n < size + 12.
Proof.
  revert o. induction l as [|[k u] l IH]; intros o; cbn [alloc_first]; [by intros _ ?%not_elem_of_nil|].
  destruct (negb u && (size + 12 <=? k)) eqn:E; [done|].
  destruct (alloc_first size (o + k) l) as [[??]|] eqn:Ea; [done|]. intros _ [[= <- <-]|Hin]%elem_of_cons.
  - cbn [negb andb] in E. apply Z.leb_gt in E. lia.
  - by apply (IH _ Ea).
Qed.

Lemma used_in_list o n off l :
  (o, n) ∈ used_areas off l → ∃ l1 l2, l = l1 ++ (n, true) :: l2 ∧ o = off + total l1.
Proof.
  revert off. induction l as [|[k u] l IH]; intros off; cbn [used_areas]; [by intros ?%not_elem_of_nil|].
  assert (Hrec : (o, n) ∈ used_areas (off + k) l → ∃ l1 l2, (k, u) :: l = l1 ++ (n, true) :: l2 ∧ o = off + total l1).
  { intros (l1 & l2 & -> & ->)%IH. exists ((k, u) :: l1), l2. split; [done|]. cbn [total]. lia. }
  destruct u; [|done]. intros [[= -> ->]|Hin]%elem_of_cons; [|auto]. exists [], l. split; [done|]. cbn [total]. lia.
Qed.

Lemma join_next_used o n l : used_areas o (join_next n l) = used_areas (o + n) l.
Proof.
  destruct l as [|[n2 [|]] l]; cbn [join_next used_areas]; [done|done|]. by rewrite Z.add_assoc.
Qed.

Lemma release_used l1 n l2 :
  used_areas 0 (l1 ++ (n, true) :: l2) ≡ₚ (total l1, n) :: used_areas 0 (release l1 n l2).
Proof.
  destruct (release_eq l1 n l2) as (n' & l' & Hj & ->). pose proof (join_next_used (total l1) n l2) as Hu. rewrite Hj in Hu.
  assert (Hrel : used_areas 0 (join_prev l1 n' l') = used_areas 0 (l1 ++ (n', false) :: l')).
  { unfold join_prev. destruct l1 as [|[n0 u0] l1 _] using rev_ind; [done|]. rewrite reverse_snoc. destruct u0; [done|].
    rewrite reverse_involutive, <- app_assoc, !used_areas_app. cbn [app used_areas total].
    by replace (0 + total l1 + (n0 + n')) with (0 + total l1 + (n0 + 0) + n') by lia. }
  rewrite Hrel, !used_areas_app, Z.add_0_l. cbn [used_areas] in Hu |- *. rewrite Hu. symmetry. apply Permutation_middle.
Qed.

(** With nothing in use the heap is one area. *)
Lemma unused_whole h l : heap_rep h l → used_areas 0 l = [] → l = [(ram_end, false)].
Proof.
  intros (Hr & _ & Hco)%heap_rep_rest Hu. pose proof (rest_end _ _ _ _ Hr) as (Hend & _).
  destruct l as [|[n [|]] l]; [cbn in Hend; discriminate|discriminate|].
  cbn [used_areas coalesced] in *. destruct Hco as [Hh Hco]. specialize (Hh eq_refl).
  destruct l as [|[n2 [|]] l]; [|discriminate|discriminate]. cbn [total] in Hend. do 2 f_equal. lia.
Qed.

(** The area that first fit takes: no free area before it is large enough. *)
Lemma alloc_first_fits size o l x l' :
  alloc_first size o l = Some (x, l') →
  ∃ l1 m l2, l = l1 ++ (m, false) :: l2 ∧ x = o + total l1 ∧ size + 12 <= m ∧
    (∀ n, (n, false) ∈ l1 → n < size + 12) ∧ l' = l1 ++ split_area m size ++ l2.
Proof.
  revert o x l'. induction l as [|[n u] l IH]; intros o x l' H; [done|]. cbn [alloc_first] in H.
  destruct (negb u && (size + 12 <=? n)) eqn:E.
  - injection H as <- <-. apply andb_true_iff in E as [Hu Hn]. destruct u; [done|]. apply Z.leb_le in Hn.
    exists [], n, l. split_and!; [done|cbn; lia|lia|by intros ? ?%not_elem_of_nil|done].
  - destruct (alloc_first size (o + n) l) as [[r l'']|] eqn:Er; [|done]. injection H as <- <-.
    destruct (IH _ _ _ Er) as (l1 & m & l2 & -> & -> & Hm & Hb & ->). exists ((n, u) :: l1), m, l2.
    split_and!; [done|cbn [total]; lia|done| |done]. intros n' [[= -> <-]|Hin]%elem_of_cons; [|by apply Hb].
    cbn [negb andb] in E. lia.
Qed.

(** C26: [mem_malloc] of a size from 1 to 2^32 - 4 (a larger one is rounded up
    to 0 modulo 2^32) is first-fit allocation on the list of areas.  It fails
    exactly when no free area has room for the request (the size rounded up
    to a multiple of 4, at least 12) and its header, and then changes nothing.
    Otherwise it takes the first free area that has, and cuts off the rest as
    a free area if that has room for a header and 12 bytes; the other areas
    are what they were, and the invariant of the heap holds.  So the new area
    is at least as large as asked for, lies in the heap, and is one more next
    to those in use before.  No assertion of the code fails. *)
Theorem mem_malloc_correct h l size :
  heap_rep h l → 0 < size < 2 ^ 32 - 3 →
  let need := SIZEOF_STRUCT_MEM + request size in
  (∃ l1 m l2 h' n, l = l1 ++ (m, false) :: l2 ∧ need <= m ∧ (∀ n, (n, false) ∈ l1 → n < need) ∧
     let x := total l1 in let l' := l1 ++ split_area m (request size) ++ l2 in
     mem_malloc size h = (Ret (Some (x + SIZEOF_STRUCT_MEM)), h') ∧ heap_rep h' l' ∧
     x + n <= ram_end ∧ SIZEOF_STRUCT_MEM + size <= n ∧ used_areas 0 l' ≡ₚ (x, n) :: used_areas 0 l) ∨
  mem_malloc size h = (Ret None, h) ∧ ∀ n, (n, false) ∈ l → n < need.
Proof.
  intros Hrep Hs. pose proof (mem_malloc_spec h l size Hrep Hs) as Hm. destruct (request_bounds size) as (_ & _ & Hq).
  change SIZEOF_STRUCT_MEM with 12. cbv zeta. destruct (alloc_first (request size) 0 l) as [[x l']|] eqn:E.
  - left. destruct Hm as (h' & Hrun & Hrep'). destruct (alloc_first_used _ _ _ _ _ E) as (n & Hn & Hp).
    destruct (alloc_first_fits _ _ _ _ _ E) as (l1 & m & l2 & Hl & Hx & Hm & Hb & Hl').
    exists l1, m, l2, h', n. rewrite Z.add_0_l in Hx. rewrite <- Hl', <- Hx. split; [done|]. split; [lia|].
    split; [intros n' Hin; specialize (Hb n' Hin); lia|]. split; [done|]. split; [done|]. split; [|split; [lia|done]].
    destruct (used_in_list x n 0 l') as (k1 & k2 & Hk & Hxk); [rewrite Hp; left|]. rewrite Hk in Hrep'.
    apply heap_rep_rest in Hrep' as (Hr & _). pose proof (rest_end _ _ _ _ Hr) as (Hend & _).
    apply rest_app in Hr as (p & o & Hseg & Hr). apply rest_cons in Hr as (_ & _ & _ & Hr).
    pose proof (rest_end _ _ _ _ Hr). destruct (seg_end _ _ _ _ _ _ Hseg) as (Ho & _). lia.
  - right. split; [done|]. intros n Hin. pose proof (alloc_first_none _ _ _ _ E Hin). lia.
Qed.

(** C27: [mem_free] of an area in use takes exactly that area out of use and
    keeps the invariant of the heap, in particular that free neighbours are
    joined: when the last area is freed, the heap is whole again. *)
Theorem mem_free_correct h l o n :
  heap_rep h l → (o, n) ∈ used_areas 0 l →
  ∃ h' l', mem_free (Some (o + SIZEOF_STRUCT_MEM)) h = (Ret tt, h') ∧ heap_rep h' l' ∧
    used_areas 0 l ≡ₚ (o, n) :: used_areas 0 l' ∧ (used_areas 0 l' = [] → l' = [(ram_end, false)]).
Proof.
  intros Hrep Hin. change SIZEOF_STRUCT_MEM with 12. destruct (used_in_list o n 0 l Hin) as (l1 & l2 & -> & ->).
  destruct (mem_free_spec h l1 n l2 Hrep) as (h' & Hrun & Hrep'). exists h', (release l1 n l2).
  rewrite Z.add_0_l. split; [done|]. split; [done|]. split; [apply release_used|]. by apply (unused_whole h').
Qed.

(** Sizes wrap around: [mem_malloc(0xffffffff)] rounds up to 0 and hands
    out the minimal area of 12 bytes, and [mem_calloc] of 0x40000001 objects of
    4 bytes is [mem_malloc(4)]. *)
Theorem mem_size_overflow h :
  mem_malloc 0xffffffff h = mem_malloc 12 h ∧ mem_calloc 0x40000001 4 h = mem_malloc 4 h.
Proof.
  split; [|done]. unfold mem_malloc. change (0xffffffff =? 0) with false. change (12 =? 0) with false.
  change (LWIP_MEM_ALIGN_SIZE 0xffffffff) with 0. change (LWIP_MEM_ALIGN_SIZE 12) with 12. done.
Qed.

Lemma mem_init_rep h : ∃ h', mem_init h = (Ret tt, h') ∧ heap_rep h' [(ram_end, false)].
Proof.
  eexists. split; [done|]. apply heap_rep_rest. cbn [ram lfree]. split_and!; [|done|done]. split.
  - exists 0. cbn [seg]. rewrite Z.add_0_l. by rewrite lookup_insert_ne, lookup_insert_eq.
  - exists ram_end. by rewrite lookup_insert_eq.
Qed.

Lemma mem_malloc_correct_witness :
  ∃ h, heap_rep h [(ram_end, false)] ∧
    ((∃ l1 m l2 h' n, [(ram_end, false)] = l1 ++ (m, false) :: l2 ∧ 112 <= m ∧ (∀ n, (n, false) ∈ l1 → n < 112) ∧
        mem_malloc 100 h = (Ret (Some (total l1 + 12)), h') ∧ heap_rep h' (l1 ++ split_area m 100 ++ l2) ∧
        total l1 + n <= ram_end ∧ 112 <= n ∧ used_areas 0 (l1 ++ split_area m 100 ++ l2) ≡ₚ [(total l1, n)]) ∨
     mem_malloc 100 h = (Ret None, h) ∧ ∀ n, (n, false) ∈ [(ram_end, false)] → n < 112).
Proof.
  destruct (mem_init_rep (mkHeap ∅ 0)) as (h & _ & Hrep). exists h. split; [exact Hrep|].
  apply (mem_malloc_correct h [(ram_end, false)] 100 Hrep). lia.
Defined.

Lemma mem_free_correct_witness :
  ∃ h h' l' n, mem_free (Some 12) h = (Ret tt, h') ∧ heap_rep h' l' ∧ [(0, n)] ≡ₚ (0, n) :: used_areas 0 l'.
Proof.
  destruct (mem_init_rep (mkHeap ∅ 0)) as (h0 & _ & Hrep0).
  destruct (mem_malloc_spec h0 _ 100 Hrep0 ltac:(lia)) as (h & _ & Hrep). cbn [app split_area] in Hrep.
  destruct (mem_free_correct h _ 0 112 Hrep) as (h' & l' & Hrun & Hrep' & Hp & _); [left|].
  exists h, h', l', 112. split; [exact Hrun|]. split; [exact Hrep'|exact Hp].
Defined.
