(* ===== verification/Ipc.v ===== *)
(** * Messages between environments ([lib/ipc.c])

    The library's wrappers of the two IPC system calls, over any machine.
    [thisenv] is the index of the running environment in [envs]. *)

From S2P Require Import Prelude Mmu Console KState UserLib.
Open Scope Z_scope.

Section ipc.
Context {S : Type} `{Machine S}.

(** The result, and what is stored through [from_env_store] and [perm_store]
    when they are not null. *)
Definition ipc_recv (thisenv pg : Z) : U S (Z * Z * Z) :=
  let pg := if pg =? 0 then UTOP else pg in
  ret_recv ← sys_ipc_recv pg;
  if ret_recv <? 0 then mret (ret_recv, 0, 0)
  else v ← uenvs thisenv; mret (s32 (env_ipc_value v), env_ipc_from v, env_ipc_perm v).

(** The loop goes on as long as the receiver is not waiting. *)
Fixpoint ipc_send_loop (fuel : nat) (to_env val pg perm : Z) : U S unit :=
  match fuel with
  | O => stop (UKernel OutOfFuel)
  | Datatypes.S fuel' =>
    ret ← sys_ipc_try_send to_env val pg perm;
    if ret =? 0 then mret tt
    else if negb (ret =? - E_IPC_NOT_RECV) then upanic "sys_ipc_try_send"
    else sys_yield;; ipc_send_loop fuel' to_env val pg perm
  end.

Definition ipc_send (fuel : nat) (to_env val pg perm : Z) : U S unit :=
  ipc_send_loop fuel to_env val (if pg =? 0 then UTOP else pg) perm.

Fixpoint ipc_find_from (l : list Z) (type : EnvType) : U S Z :=
  match l with
  | [] => mret 0
  | i :: l =>
    v ← uenvs i;
    if decide (env_type v = type) then mret (env_id v) else ipc_find_from l type
  end.

Definition ipc_find_env (type : EnvType) : U S Z := ipc_find_from (seqZ 0 NENV) type.

End ipc.
