(* ===== verification/FsClient.v ===== *)
(** * A client of the file server ([lib/file.c])

    The machine a program that uses files runs on: one client environment and
    the file server of [Serv].  The server is blocked in [ipc_recv] whenever
    the client runs, so a request is served between the client's two IPC
    system calls; the client waits meanwhile.  The two share pages: the
    request page [fsipcbuf] is the server's [fsreq] during a request, and the
    [struct Fd] page of an open file stays mapped in both.

    [client] is the state of that machine, and an instance of [Machine]; the
    library's functions are those of [Fd], [Ipc] and, below, [lib/file.c]. *)

From S2P Require Import Prelude Mmu Console KState CString BlockCache Fs Serv UserLib Ipc Fd.
Open Scope Z_scope.

Record client : Type := mkClient {
  cl_mem : memory;              (** the pages only the client maps *)
  cl_pte : Z → Z;               (** the page tables, by page number, as seen at [UVPT] *)
  cl_fdpage : Z → option Z;     (** the pages that are the [struct Fd] of an open file *)
  cl_envs : Z → Env;            (** [envs] *)
  cl_me : Z;                    (** the client's index in [envs] *)
  cl_server : Z;                (** the server's index *)
  cl_fsenv : Z;                 (** the static of [fsipc] *)
  cl_reply : option reply;      (** what the server has sent *)
  cl_srv : sstate;
}.

Definition set_cl_mem m c := mkClient m (cl_pte c) (cl_fdpage c) (cl_envs c) (cl_me c) (cl_server c) (cl_fsenv c) (cl_reply c) (cl_srv c).
Definition set_cl_fsenv e c := mkClient (cl_mem c) (cl_pte c) (cl_fdpage c) (cl_envs c) (cl_me c) (cl_server c) e (cl_reply c) (cl_srv c).
Definition set_cl_srv s c := mkClient (cl_mem c) (cl_pte c) (cl_fdpage c) (cl_envs c) (cl_me c) (cl_server c) (cl_fsenv c) (cl_reply c) s.
Definition set_cl_reply r c := mkClient (cl_mem c) (cl_pte c) (cl_fdpage c) (cl_envs c) (cl_me c) (cl_server c) (cl_fsenv c) r (cl_srv c).

(** Server memory. *)
Definition srv_mem (c : client) : memory := f_mem (sv_fs (cl_srv c)).
Definition set_srv_mem (m : memory) (c : client) : client :=
  set_cl_srv (set_sv_fs (set_f_mem m (sv_fs (cl_srv c))) (cl_srv c)) c.

(** ** Memory accesses of the client *)

Definition denied (write : bool) (e : Z) : bool :=
  (Z.land e PTE_P =? 0) || (Z.land e PTE_U =? 0) || (write && (Z.land e PTE_W =? 0)).

(** Where a byte of the client's memory is: in a [struct Fd] page, at an
    address of the server, or in a page of its own. *)
Definition fd_byte (c : client) (va : Z) : option Z :=
  i ← cl_fdpage c (PGNUM va); Some (o_fd (opentab (cl_srv c) i) + PGOFF va).

Definition cl_byte (c : client) (va : Z) : Z :=
  match fd_byte c va with Some a => srv_mem c a | None => cl_mem c va end.

Definition cl_load8 (va : Z) : U client Z :=
  c ← gets id;
  if (UVPT <=? va) && (va <? UVPT + PTSIZE) then
    mret (u8 (Z.shiftr (cl_pte c ((va - UVPT) / 4)) (8 * ((va - UVPT) mod 4))))
  else if denied false (cl_pte c (PGNUM va)) then stop (UFault va)
  else mret (cl_byte c va).

Definition cl_put (va v : Z) (c : client) : client :=
  match fd_byte c va with
  | Some a => set_srv_mem (st8 (srv_mem c) a v) c
  | None => set_cl_mem (st8 (cl_mem c) va v) c
  end.

Definition cl_store8 (va v : Z) : U client unit :=
  c ← gets id;
  if ((UVPT <=? va) && (va <? UVPT + PTSIZE)) || denied true (cl_pte c (PGNUM va)) then stop (UFault va)
  else modify (cl_put va v).

(** ** System calls *)

(** The client's page [pn] is the server's [fsreq] while the request is served. *)
Definition lend_page (pn : Z) (c : client) : client :=
  set_srv_mem (λ x, if (fsreq <=? x) && (x <? fsreq + PGSIZE) then cl_mem c (pn * PGSIZE + (x - fsreq)) else srv_mem c x) c.
Definition return_page (pn : Z) (c : client) : client :=
  set_cl_mem (λ x, if (pn * PGSIZE <=? x) && (x <? pn * PGSIZE + PGSIZE) then srv_mem c (fsreq + (x - pn * PGSIZE)) else cl_mem c x) c.

(** One turn of [serve]; a server that panics does not answer. *)
Definition serve_turn (req perm : Z) (c : client) : client :=
  match serve_request req perm (cl_srv c) with
  | (Ret r, s) => set_cl_reply r (set_cl_srv s c)
  | (Stop _, s) => set_cl_reply None (set_cl_srv s c)
  end.

(** [sys_ipc_try_send] to the server, with a page of the client's own. *)
Definition cl_send (to val srcva perm : Z) : U client Z :=
  c ← gets id;
  let e := cl_pte c (PGNUM srcva) in
  if negb (s32 to =? env_id (cl_envs c (cl_server c))) then mret (- E_BAD_ENV)
  else if UTOP <=? srcva then stop (UKernel Undefined)
  else if negb (PGOFF srcva =? 0) then mret (- E_INVAL)
  else if (Z.land perm PTE_U =? 0) || (Z.land perm PTE_P =? 0) || negb (Z.land perm (Z.lnot PTE_SYSCALL) =? 0) then mret (- E_INVAL)
  else if Z.land e PTE_P =? 0 then mret (- E_INVAL)
  else if negb (Z.land perm PTE_W =? 0) && (Z.land e PTE_W =? 0) then mret (- E_INVAL)
  else
    modify (λ c, return_page (PGNUM srcva) (serve_turn val perm (lend_page (PGNUM srcva) c)));;
    mret 0.

(** Unmapping a page of the client drops the reference to its [struct Fd]. *)
Definition drop_page (pn : Z) (c : client) : client :=
  let srv := match cl_fdpage c pn with
             | Some i => set_pageref i (Serv.pageref (cl_srv c) i - 1) (cl_srv c)
             | None => cl_srv c
             end in
  mkClient (cl_mem c) (λ p, if p =? pn then 0 else cl_pte c p) (λ p, if p =? pn then None else cl_fdpage c p)
    (cl_envs c) (cl_me c) (cl_server c) (cl_fsenv c) (cl_reply c) srv.

(** The server's page at [pg], a [struct Fd], is mapped at page [pn], with a
    page table for it. *)
Definition map_fd_page (pn pg perm : Z) (c : client) : client :=
  let c := drop_page pn c in
  let i := (pg - FILEVA) / PGSIZE in
  mkClient (cl_mem c)
    (λ p, if p =? pn then Z.lor pg (Z.lor perm PTE_P)
          else if p =? PGNUM UVPT + pn / NPTENTRIES then Z.lor (cl_pte c p) (Z.lor (Z.lor PTE_P PTE_W) PTE_U)
          else cl_pte c p)
    (λ p, if p =? pn then Some i else cl_fdpage c p)
    (cl_envs c) (cl_me c) (cl_server c) (cl_fsenv c) (cl_reply c) (set_pageref i (Serv.pageref (cl_srv c) i + 1) (cl_srv c)).

(** What the reply leaves in the client's [struct Env]. *)
Definition deliver (r : reply) (c : client) : client :=
  let v := set_env_ipc_perm (rp_perm r) (set_env_ipc_value (u32 (rp_val r)) (set_env_ipc_from (env_id (cl_envs c (cl_server c))) (cl_envs c (cl_me c)))) in
  mkClient (cl_mem c) (cl_pte c) (cl_fdpage c) (λ e, if e =? cl_me c then v else cl_envs c e)
    (cl_me c) (cl_server c) (cl_fsenv c) None (cl_srv c).

(** [sys_ipc_recv], until the server's answer is there. *)
Definition cl_recv (dstva : Z) : U client Z :=
  c ← gets id;
  if (dstva <? UTOP) && negb (PGOFF dstva =? 0) then mret (- E_INVAL)
  else
    match cl_reply c with
    | None => stop (UKernel CpuHalt)
    | Some r =>
      modify (λ c, let c := deliver r c in
                   match rp_pg r with
                   | Some pg => if dstva <? UTOP then map_fd_page (PGNUM dstva) pg (rp_perm r) c else c
                   | None => c
                   end);;
      mret 0
    end.

Definition cl_unmap (va : Z) : U client Z :=
  if (UTOP <=? va) || negb (PGOFF va =? 0) then mret (- E_INVAL)
  else modify (drop_page (PGNUM va));; mret 0.

(** The calls the library makes here; others are outside this machine. *)
#[export] Instance client_machine : Machine client := {
  int_syscall num a1 a2 a3 a4 a5 :=
    if num =? 12 then cl_send a1 a2 a3 a4
    else if num =? 13 then cl_recv a1
    else if num =? 6 then cl_unmap a2
    else if num =? 11 then mret 0
    else stop (UKernel Undefined);
  uload8 := cl_load8;
  ustore8 := cl_store8;
  upages _ := stop (UKernel Undefined);
  uenvs e := gets (λ c, cl_envs c e);
}.

(** ** [lib/file.c] *)

(** The C library's string functions on the client's memory. *)
Fixpoint ustrlen (fuel : nat) (s : Z) : U client Z :=
  match fuel with
  | O => stop (UKernel OutOfFuel)
  | S fuel' => b ← uload8 s; if b =? 0 then mret 0 else n ← ustrlen fuel' (u32 (s + 1)); mret (n + 1)
  end.

Fixpoint ustrcpy (fuel : nat) (dst src : Z) : U client unit :=
  match fuel with
  | O => stop (UKernel OutOfFuel)
  | S fuel' =>
    b ← uload8 src;
    ustore8 dst b;;
    if b =? 0 then mret tt else ustrcpy fuel' (u32 (dst + 1)) (u32 (src + 1))
  end.

Section file.
(** [fsipcbuf], where the linker has put it. *)
Context (fsipcbuf : Z).

Definition fsipc (type dstva : Z) : U client Z :=
  fsenv ← gets cl_fsenv;
  fsenv ← (if fsenv =? 0 then e ← ipc_find_env ENV_TYPE_FS; modify (set_cl_fsenv e);; mret e else mret fsenv);
  ipc_send 1 fsenv type fsipcbuf (Z.lor (Z.lor PTE_P PTE_W) PTE_U);;
  me ← gets cl_me;
  r ← ipc_recv me dstva;
  mret r.1.1.

Definition devfile_flush (fd : Z) : U client Z :=
  id ← uload32 (fd_file_id fd);
  ustore32 fsipcbuf id;;
  fsipc FSREQ_FLUSH 0.

Definition devfile_read (fd buf n : Z) : U client Z :=
  id ← uload32 (fd_file_id fd);
  ustore32 fsipcbuf id;;
  ustore32 (fsipcbuf + 4) n;;
  r ← fsipc FSREQ_READ 0;
  if r <? 0 then mret r
  else
    uassert (r <=? n) "r <= n";;
    uassert (r <=? PGSIZE) "r <= PGSIZE";;
    umemmove buf fsipcbuf r;;
    mret r.

(** [sizeof(fsipcbuf.write.req_buf)] *)
Definition WRITE_MAX : Z := PGSIZE - 8.

Definition devfile_write (fd buf n : Z) : U client Z :=
  let count := Z.min n WRITE_MAX in
  id ← uload32 (fd_file_id fd);
  ustore32 fsipcbuf id;;
  ustore32 (fsipcbuf + 4) count;;
  n ← uload32 (fsipcbuf + 4);
  umemmove (fsipcbuf + 8) buf n;;
  fsipc FSREQ_WRITE 0.

Definition devfile_stat (fd st : Z) : U client Z :=
  id ← uload32 (fd_file_id fd);
  ustore32 fsipcbuf id;;
  r ← fsipc FSREQ_STAT 0;
  if r <? 0 then mret r
  else
    ustrcpy (Z.to_nat BLKSIZE) st fsipcbuf;;
    size ← uload32 (fsipcbuf + 128); ustore32 (st + 128) size;;
    isdir ← uload32 (fsipcbuf + 132); ustore32 (st + 132) isdir;;
    mret 0.

Definition devfile_trunc (fd newsize : Z) : U client Z :=
  id ← uload32 (fd_file_id fd);
  ustore32 fsipcbuf id;;
  ustore32 (fsipcbuf + 4) (u32 newsize);;
  fsipc FSREQ_SET_SIZE 0.

Definition sync : U client Z := fsipc FSREQ_SYNC 0.

(** [devfile]; its address is for [fstat] only. *)
Definition devfile (ptr : Z) : Dev client :=
  mkDev devfile_id ptr (Some devfile_read) (Some devfile_write) (Some devfile_flush) (Some devfile_stat) (Some devfile_trunc).

Context (devtab : list (Dev client)).

(** [fuel] bounds the length of the string at [path]. *)
Definition open (fuel : nat) (path mode : Z) : U client Z :=
  len ← ustrlen fuel path;
  if MAXPATHLEN <=? len then mret (- E_BAD_PATH)
  else
    a ← fd_alloc;
    match a with
    | inl r => mret r
    | inr fd =>
      ustrcpy (Z.to_nat MAXPATHLEN) fsipcbuf path;;
      ustore32 (fsipcbuf + MAXPATHLEN) (u32 mode);;
      r ← fsipc FSREQ_OPEN fd;
      if r <? 0 then _ ← fd_close devtab fd false; mret r
      else mret (fd2num fd)
    end.
End file.
