(* ===== verification/FsClientSpec.v ===== *)
(** * Files through the library: theorems

    A program's [write], [seek] and [read] on a descriptor of an open file go
    through [lib/fd.c], [lib/file.c], [lib/ipc.c], the server's request loop,
    the file system and the block cache.  The theorem: any sequence of them
    behaves like the same sequence on an abstract file, a size, a position and
    an array of bytes. *)

From S2P Require Import Prelude Mmu Console KState CString BlockCache Fs FsBitmap FsFile FsSpec Serv ServSpec UserLib UserVm Ipc Fd FsClient.
Open Scope Z_scope.

Ltac clconst := change UTOP with 0xEEC00000 in *; change UVPT with 0xEF400000 in *; change PTSIZE with 0x400000 in *;
  change (PGNUM 0xEF400000) with 0xEF400 in *; unfold PGSIZE in *.

(** ** The client's memory *)

Definition acc (w : bool) (c : client) (x : Z) : Prop := 0 <= x < UTOP ∧ denied w (cl_pte c (PGNUM x)) = false.
(** A byte only the client maps. *)
Definition priv (c : client) (x : Z) : Prop := acc true c x ∧ cl_fdpage c (PGNUM x) = None.

Lemma denied_read e : denied true e = false → denied false e = false.
Proof. unfold denied. by destruct (Z.land e PTE_P =? 0), (Z.land e PTE_U =? 0). Qed.

Lemma acc_read w c x : acc w c x → acc false c x.
Proof. intros [Hx Hd]. split; [done|]. destruct w; [by apply denied_read|done]. Qed.

Lemma load8_acc w c x : acc w c x → uload8 x c = (Ret (cl_byte c x), c).
Proof.
  intros [Hx Hd]%acc_read. cbn [uload8 client_machine]. unfold cl_load8. mstep. cbn [id].
  replace ((UVPT <=? x) && (x <? UVPT + PTSIZE)) with false by (clconst; lia). by rewrite Hd.
Qed.

Lemma store8_acc c x v : acc true c x → ustore8 x v c = (Ret tt, cl_put x v c).
Proof.
  intros [Hx Hd]. cbn [ustore8 client_machine]. unfold cl_store8. mstep. cbn [id].
  replace ((UVPT <=? x) && (x <? UVPT + PTSIZE)) with false by (clconst; lia). by rewrite Hd.
Qed.

Lemma load32_acc w c a :
  (∀ k, 0 <= k < 4 → acc w c (a + k)) → uload32 a c = (Ret (ld32 (cl_byte c) a), c).
Proof.
  intros H. pose proof (H 0 ltac:(lia)) as H0. rewrite Z.add_0_r in H0. unfold uload32.
  mrun (by apply (load8_acc w)).
  assert (Hb : ∀ k, 0 <= k < 4 → u32 (a + k) = a + k).
  { intros k Hk. destruct (H k Hk) as [Hr _]. apply u32_small. clconst. lia. }
  rewrite !Hb by lia. do 3 mrun (apply (load8_acc w), H; lia). done.
Qed.

(** The page tables at [UVPT]. *)
Lemma uvpt_client c pn : 0 <= pn < 2 ^ 20 → is_u32 (cl_pte c pn) → uvpt pn c = (Ret (cl_pte c pn), c).
Proof.
  intros Hp Hu. unfold uvpt, uload32.
  assert (L : ∀ k, 0 <= k < 4 → uload8 (UVPT + 4 * pn + k) c = (Ret (u8 (Z.shiftr (cl_pte c pn) (8 * k))), c)).
  { intros k Hk. cbn [uload8 client_machine]. unfold cl_load8. mstep. cbn [id].
    replace ((UVPT <=? UVPT + 4 * pn + k) && (UVPT + 4 * pn + k <? UVPT + PTSIZE)) with true by (clconst; lia).
    replace (UVPT + 4 * pn + k - UVPT) with (k + pn * 4) by lia. rewrite Z.div_add, Z.mod_add by lia.
    rewrite Z.div_small, Z.mod_small by lia. done. }
  assert (Hb : ∀ k, 0 <= k < 4 → u32 (UVPT + 4 * pn + k) = UVPT + 4 * pn + k).
  { intros k Hk. apply u32_small. clconst. lia. }
  rewrite <- (Z.add_0_r (UVPT + 4 * pn)) at 1. rewrite !Hb by lia. do 4 mrun (apply L; lia).
  change (8 * 0) with 0. change (8 * 1) with 8. change (8 * 2) with 16. change (8 * 3) with 24.
  rewrite !Z.shiftr_div_pow2 by lia. unfold mret, M_ret. do 2 f_equal. unfold u8, is_u32 in *. Z.to_euclidean_division_equations. lia.
Qed.

Lemma uvpd_client c i :
  0 <= i < 1024 → is_u32 (cl_pte c (PGNUM UVPT + i)) → uvpd i c = (Ret (cl_pte c (PGNUM UVPT + i)), c).
Proof.
  intros Hi Hu. rewrite <- uvpt_client; [|clconst; lia|done].
  unfold uvpd, uvpt. f_equal. clconst. change (Z.shiftr 0xEF400000 12) with 0xEF400. lia.
Qed.

(** Stores to the client's own pages. *)
Lemma put_priv c x v : cl_fdpage c (PGNUM x) = None → cl_put x v c = set_cl_mem (st8 (cl_mem c) x v) c.
Proof. intros H. unfold cl_put, fd_byte. by rewrite H. Qed.

Lemma byte_priv c x : cl_fdpage c (PGNUM x) = None → cl_byte c x = cl_mem c x.
Proof. intros H. unfold cl_byte, fd_byte. by rewrite H. Qed.

Lemma priv_set c m x : priv c x → priv (set_cl_mem m c) x.
Proof. done. Qed.

Lemma load8_priv c x : priv c x → uload8 x c = (Ret (cl_mem c x), c).
Proof. intros [Ha Hp]. rewrite (load8_acc true c x Ha). by rewrite byte_priv. Qed.

Lemma store8_priv c x v : priv c x → ustore8 x v c = (Ret tt, set_cl_mem (st8 (cl_mem c) x v) c).
Proof. intros [Ha Hp]. rewrite store8_acc by done. by rewrite put_priv. Qed.

Lemma load32_priv c a : (∀ k, 0 <= k < 4 → priv c (a + k)) → uload32 a c = (Ret (ld32 (cl_mem c) a), c).
Proof.
  intros H. rewrite (load32_acc true) by (intros k Hk; apply (H k Hk)). do 2 f_equal. apply ld32_ext.
  intros k Hk. apply byte_priv, (H k Hk).
Qed.

Lemma store32_priv c a v : (∀ k, 0 <= k < 4 → priv c (a + k)) → ustore32 a v c = (Ret tt, set_cl_mem (st32 (cl_mem c) a v) c).
Proof.
  intros H. pose proof (H 0 ltac:(lia)) as H0. rewrite Z.add_0_r in H0. unfold ustore32.
  assert (Hb : ∀ k, 0 <= k < 4 → u32 (a + k) = a + k).
  { intros k Hk. destruct (H k Hk) as [[Hr _] _]. apply u32_small. clconst. lia. }
  rewrite !Hb by lia. mrun (by apply store8_priv). do 2 mrun (apply store8_priv, priv_set, H; lia).
  rewrite store8_priv by (apply priv_set, H; lia). done.
Qed.

Lemma set_cl_mem_same c : set_cl_mem (cl_mem c) c = c.
Proof. by destruct c. Qed.

(** [memmove] between places of the client's own that do not overlap. *)
Section memmove.
Context (c : client) (dst src n : Z).
Context (Hn : 0 <= n) (Hm : mem_ok (cl_mem c)) (Hd : ∀ k, 0 <= k < n → priv c (dst + k)) (Hs : ∀ k, 0 <= k < n → priv c (src + k)).
Context (Hdis : dst + n <= src ∨ src + n <= dst).

(** The first [k] bytes have been copied. *)
Definition moved (k : Z) (c' : client) : Prop :=
  ∃ m, c' = set_cl_mem m c ∧ mem_ok m ∧ ∀ x, m x = mem_copy (cl_mem c) dst src k x.

Lemma moved_0 : moved 0 c.
Proof using Hm.
  exists (cl_mem c). split; [symmetry; apply set_cl_mem_same|]. split; [done|]. intros x. unfold mem_copy. by replace (_ && _) with false by lia.
Qed.

(** A store of [w] bytes that are those of the source moves on. *)
Lemma moved_step k w m m' :
  0 <= k → 0 <= w → k + w <= n → mem_ok m' → (∀ x, m x = mem_copy (cl_mem c) dst src k x) →
  (∀ j, 0 <= j < w → m' (dst + k + j) = m (src + k + j)) → (∀ x, x < dst + k ∨ dst + k + w <= x → m' x = m x) →
  moved (k + w) (set_cl_mem m' (set_cl_mem m c)).
Proof using Hdis.
  intros Hk Hw0 Hw Hok Hx Hin Hout. exists m'. split; [done|]. split; [done|]. intros x.
  destruct (decide (dst + k <= x < dst + k + w)).
  - replace x with (dst + k + (x - (dst + k))) at 1 by lia. rewrite Hin, Hx by lia. unfold mem_copy.
    destruct ((dst <=? x) && (x <? dst + (k + w))) eqn:E; [|lia].
    replace (_ && _) with false by lia. f_equal; lia.
  - rewrite Hout, Hx by lia. unfold mem_copy.
    destruct ((dst <=? x) && (x <? dst + k)) eqn:E1, ((dst <=? x) && (x <? dst + (k + w))) eqn:E2; done || lia.
Qed.

Lemma movsl_step i c' :
  0 <= i → 4 * i + 4 <= n → moved (4 * i) c' →
  ∃ c'', umovsl (dst + 4 * i) (src + 4 * i) c' = (Ret tt, c'') ∧ moved (4 * (i + 1)) c''.
Proof using Hd Hs Hdis.
  intros Hi Hin (m & -> & Hmo & Hx). unfold umovsl.
  mrun (apply load32_priv; intros k Hk; apply priv_set; rewrite <- Z.add_assoc; apply Hs; lia).
  rewrite store32_priv by (intros k Hk; apply priv_set; rewrite <- Z.add_assoc; apply Hd; lia).
  eexists. split; [done|]. cbn [cl_mem set_cl_mem]. replace (4 * (i + 1)) with (4 * i + 4) by lia.
  apply moved_step; [lia|lia|lia|by apply st32_ok|done| |].
  - intros j Hj. by rewrite st32_same_byte, ld32_byte.
  - intros x Hx'. apply st32_other_byte. lia.
Qed.

Lemma movsb_step i c' :
  0 <= i < n → moved i c' → ∃ c'', umovsb (dst + i) (src + i) c' = (Ret tt, c'') ∧ moved (i + 1) c''.
Proof using Hd Hs Hdis.
  intros Hi (m & -> & Hmo & Hx). unfold umovsb.
  mrun (apply load8_priv, priv_set, Hs; lia). rewrite store8_priv by (apply priv_set, Hd; lia).
  eexists. split; [done|]. cbn [cl_mem set_cl_mem].
  apply moved_step; [lia|lia|lia|by apply st8_ok|done| |].
  - intros j Hj. replace j with 0 by lia. rewrite !Z.add_0_r. by apply st8_byte.
  - intros x Hx'. apply st8_other. lia.
Qed.

Lemma umemmove_priv : ∃ m, umemmove dst src n c = (Ret tt, set_cl_mem m c) ∧ mem_ok m ∧ ∀ x, m x = mem_copy (cl_mem c) dst src n x.
Proof.
  assert (Hfin : ∀ (b : U client unit), (∃ c', b c = (Ret tt, c') ∧ moved n c') →
    ∃ m, b c = (Ret tt, set_cl_mem m c) ∧ mem_ok m ∧ ∀ x, m x = mem_copy (cl_mem c) dst src n x).
  { intros b (c' & E & m & -> & Hr). by exists m. }
  unfold umemmove. replace ((src <? dst) && (dst <? src + n)) with false by lia.
  destruct (_ && _) eqn:Hal; apply Hfin.
  - apply andb_prop in Hal as [_ Hal]. assert (Hn4 : n = 4 * (n / 4)) by (Z.to_euclidean_division_equations; lia).
    destruct (mfor_seqZ (λ i, moved (4 * i)) (λ i, umovsl (dst + 4 * i) (src + 4 * i)) 0 (n / 4) c) as (c' & E & Hc);
      [lia|exact moved_0|intros i s0 Hi; apply movsl_step; lia|].
    exists c'. split; [done|]. by rewrite Hn4.
  - destruct (mfor_seqZ moved (λ i, umovsb (dst + i) (src + i)) 0 n c Hn moved_0) as (c' & E & Hc); [intros i s0 Hi; apply movsb_step; lia|].
    by exists c'.
Qed.
End memmove.

(** ** Abstract files *)

Record afile : Type := mkAfile { a_pos : Z; a_size : Z; a_data : Z → Z }.

(** The server's side of descriptor with open file [i], of [n] blocks. *)
Record sv_rep (i n : Z) (s : sstate) (a : afile) : Prop := mk_sv_rep {
  sr_tab : tab_ok s;
  sr_ref : 1 < Serv.pageref s i;
  sr_ready : ready (sv_fs s);
  sr_file : file_ok (sv_fs s) (o_file (opentab s i)) n;
  sr_dev : ld32 (f_mem (sv_fs s)) (o_fd (opentab s i)) = devfile_id;
  sr_pos : ld32 (f_mem (sv_fs s)) (o_fd (opentab s i) + 4) = a_pos a ∧ 0 <= a_pos a < 2 ^ 31;
  sr_mode : Z.land (ld32 (f_mem (sv_fs s)) (o_fd (opentab s i) + 8)) 3 = 2;
  sr_id : ld32 (f_mem (sv_fs s)) (o_fd (opentab s i) + 12) = o_fileid (opentab s i);
  sr_size : fsize (sv_fs s) (o_file (opentab s i)) = a_size a ∧ 0 <= a_size a <= n * BLKSIZE;
  sr_data : ∀ p, 0 <= p < n * BLKSIZE → f_mem (sv_fs s) (faddr (f_mem (sv_fs s)) (o_file (opentab s i)) p) = a_data a p;
}.

(** Whether a byte can be of the file's blocks or its [struct Fd]. *)
Definition sv_owned (i : Z) (s : sstate) (x : Z) : Prop :=
  in_diskmap x = true ∨ o_fd (opentab s i) <= x < o_fd (opentab s i) + 16.

Lemma fsize_frame i n s a m :
  sv_rep i n s a → (∀ x, in_diskmap x = true → m x = f_mem (sv_fs s) x) →
  fsize (set_f_mem m (sv_fs s)) (o_file (opentab s i)) = fsize (sv_fs s) (o_file (opentab s i)).
Proof.
  intros H Hm. unfold fsize. apply f_equal, ld32_ext. intros k Hk. apply Hm.
  unfold f_size. rewrite <- Z.add_assoc. apply in_diskmap_field; [apply (fo_shape _ _ _ (sr_file _ _ _ _ H))..|unfold FILE_SIZE; lia].
Qed.

Lemma sv_rep_frame i n s a m :
  sv_rep i n s a → mem_ok m → (∀ x, sv_owned i s x → m x = f_mem (sv_fs s) x) →
  sv_rep i n (set_sv_fs (set_f_mem m (sv_fs s)) s) a.
Proof.
  intros H Hmo Hm. pose proof (sr_ready _ _ _ _ H) as Hr. pose proof (sr_file _ _ _ _ H) as Hf.
  assert (Hd : ∀ x, in_diskmap x = true → m x = f_mem (sv_fs s) x) by (intros x Hx; apply Hm; by left).
  assert (Hme : ∀ x, meta (sv_fs s) (o_file (opentab s i)) n x → f_mem (set_f_mem m (sv_fs s)) x = f_mem (sv_fs s) x).
  { intros x Hx. apply Hd. by apply (meta_in_diskmap (sv_fs s) (o_file (opentab s i)) n). }
  assert (Hw : ∀ j, 0 <= j <= 12 → ld32 m (o_fd (opentab s i) + j) = ld32 (f_mem (sv_fs s)) (o_fd (opentab s i) + j)).
  { intros j Hj. apply ld32_ext. intros k Hk. apply Hm. right. lia. }
  pose proof (Hw 0 ltac:(lia)) as Hw0. rewrite !Z.add_0_r in Hw0.
  split; cbn [set_sv_fs sv_fs opentab Serv.pageref set_f_mem f_mem].
  - apply (sr_tab _ _ _ _ H).
  - apply (sr_ref _ _ _ _ H).
  - by apply (ready_frame (sv_fs s) (set_f_mem m (sv_fs s)) (o_file (opentab s i)) n).
  - by apply (file_ok_frame (sv_fs s)).
  - rewrite Hw0. apply (sr_dev _ _ _ _ H).
  - rewrite Hw by lia. apply (sr_pos _ _ _ _ H).
  - rewrite Hw by lia. apply (sr_mode _ _ _ _ H).
  - rewrite Hw by lia. apply (sr_id _ _ _ _ H).
  - rewrite (fsize_frame i n s a) by done. apply (sr_size _ _ _ _ H).
  - intros p Hp. rewrite <- (sr_data _ _ _ _ H p Hp).
    pose proof (faddr_frame (sv_fs s) (set_f_mem m (sv_fs s)) (o_file (opentab s i)) n Hf Hme p Hp) as E.
    cbn [f_mem set_f_mem] in E. rewrite E. apply Hd. by apply (faddr_in (sv_fs s) _ n).
Qed.

(** ** A request and its answer *)

Lemma s32_of_u32 x : - 2 ^ 31 <= x < 2 ^ 31 → s32 (u32 x) = x.
Proof. unfold s32, u32. intros. Z.to_euclidean_division_equations. lia. Qed.

Section requests.
Context (fsipcbuf : Z).
Context (Hbuf : 0 < fsipcbuf) (Hbuf_top : fsipcbuf + PGSIZE <= UTOP) (Hbuf_page : PGOFF fsipcbuf = 0).

(** The client is set up: its request page is its own, and it can find the
    server. *)
Record cl_ok (c : client) : Prop := mk_cl_ok {
  co_mem : mem_ok (cl_mem c);
  co_pte : ∀ pn, is_u32 (cl_pte c pn);
  co_buf : ∀ j, 0 <= j < PGSIZE → priv c (fsipcbuf + j);
  co_index : 0 <= cl_server c < NENV;
  co_type : env_type (cl_envs c (cl_server c)) = ENV_TYPE_FS;
  co_first : ∀ e, 0 <= e < cl_server c → env_type (cl_envs c e) ≠ ENV_TYPE_FS;
  co_id : - 2 ^ 31 <= env_id (cl_envs c (cl_server c)) < 2 ^ 31 ∧ env_id (cl_envs c (cl_server c)) ≠ 0;
  co_fsenv : cl_fsenv c = 0 ∨ cl_fsenv c = env_id (cl_envs c (cl_server c));
}.

Lemma cl_ok_mem c m : cl_ok c → mem_ok m → cl_ok (set_cl_mem m c).
Proof. intros [] Hm. by split. Qed.

Lemma cl_ok_srv c s : cl_ok c → cl_ok (set_cl_srv s c).
Proof. intros []. by split. Qed.

(** The client's mappings. *)
Definition same_maps (c c' : client) : Prop := cl_pte c' = cl_pte c ∧ cl_fdpage c' = cl_fdpage c.

Lemma same_maps_priv c c' x : same_maps c c' → priv c x → priv c' x.
Proof. intros [Hp Hf] [[Hx Hd] Hn]. split; [split|]; rewrite ?Hp, ?Hf; done. Qed.

Lemma find_server c : cl_ok c → ipc_find_env ENV_TYPE_FS c = (Ret (env_id (cl_envs c (cl_server c))), c).
Proof.
  intros H. unfold ipc_find_env. pose proof (co_index _ H) as Hi.
  assert (G : ∀ l lo, 0 <= lo <= cl_server c → cl_server c < lo + l → 0 <= l →
    ipc_find_from (seqZ lo l) ENV_TYPE_FS c = (Ret (env_id (cl_envs c (cl_server c))), c)).
  { intros l lo Hlo Hl Hl0. revert lo Hlo Hl. pattern l. apply natlike_ind; [lia| |done].
    clear l Hl0. intros l Hl0 IH lo Hlo Hl. rewrite seqZ_cons by lia. cbn [ipc_find_from].
    change (uenvs lo) with (gets (λ c, cl_envs c lo) : U client Env). mstep.
    destruct (decide (lo = cl_server c)) as [->|Hne].
    - by rewrite decide_True by apply H.
    - rewrite decide_False by (apply (co_first _ H); lia). replace (Z.pred (Z.succ l)) with l by lia. apply IH; lia. }
  apply G; lia.
Qed.

(** The client once an answer without a page has come. *)
Definition answered (r : reply) (s : sstate) (c : client) : client :=
  deliver r (set_cl_mem (λ x, if (fsipcbuf <=? x) && (x <? fsipcbuf + PGSIZE) then f_mem (sv_fs s) (fsreq + (x - fsipcbuf)) else cl_mem c x)
    (set_cl_reply (Some r) (set_cl_srv s (set_cl_fsenv (env_id (cl_envs c (cl_server c))) c)))).

Lemma answered_ok r s c : cl_ok c → mem_ok (f_mem (sv_fs s)) → cl_ok (answered r s c).
Proof.
  intros [] Hm. split; try done.
  - intros x. cbn. destruct (_ && _); [apply Hm|done].
  - cbn. destruct (Z.eqb_spec (cl_server c) (cl_me c)) as [E|]; [cbn; rewrite <- E|]; done.
  - intros e He. cbn. destruct (Z.eqb_spec e (cl_me c)) as [E|]; [cbn; rewrite <- E|]; by apply co_first0.
  - cbn. destruct (Z.eqb_spec (cl_server c) (cl_me c)) as [E|]; [cbn; rewrite <- E|]; done.
  - cbn. right. destruct (Z.eqb_spec (cl_server c) (cl_me c)) as [E|]; [cbn; rewrite <- E|]; done.
Qed.

Lemma buf_pn : PGNUM fsipcbuf * PGSIZE = fsipcbuf.
Proof. unfold PGSIZE in *. rewrite PGNUM_div. rewrite PGOFF_mod in Hbuf_page. Z.to_euclidean_division_equations. lia. Qed.

(** The server as it sees the request. *)
Definition asked (c : client) : sstate := cl_srv (lend_page (PGNUM fsipcbuf) c).

Lemma fsipc_run c type r perm s :
  cl_ok c → serve_request type 7 (asked c) = (Ret (Some (mkReply r None perm)), s) → - 2 ^ 31 <= r < 2 ^ 31 →
  fsipc fsipcbuf type 0 c = (Ret r, answered (mkReply r None perm) s c).
Proof.
  intros H Hserve Hr. pose proof (co_id _ H) as [Hid Hid0]. set (id := env_id (cl_envs c (cl_server c))) in *.
  destruct (co_buf _ H 0 ltac:(done)) as [[Hb0 Hden] Hpriv]. rewrite Z.add_0_r in *.
  assert (Hbits : Z.land (cl_pte c (PGNUM fsipcbuf)) PTE_P ≠ 0 ∧ Z.land (cl_pte c (PGNUM fsipcbuf)) PTE_W ≠ 0).
  { unfold denied in Hden. apply orb_false_elim in Hden as [[? ?]%orb_false_elim Hw]. cbn in Hw. lia. }
  unfold fsipc. mstep.
  assert (E1 : (if cl_fsenv c =? 0 then e ← ipc_find_env ENV_TYPE_FS; modify (set_cl_fsenv e);; mret e else mret (cl_fsenv c)) c
    = (Ret id, set_cl_fsenv id c)).
  { destruct (Z.eqb_spec (cl_fsenv c) 0) as [E0|N0]; [by mrun (by apply find_server)|].
    destruct (co_fsenv _ H) as [|E]; [done|]. rewrite E. fold id. destruct c; cbn in *. by rewrite E. }
  rewrite (bind_Ret _ _ _ _ _ E1). set (c1 := set_cl_fsenv id c).
  set (c2 := return_page (PGNUM fsipcbuf) (serve_turn type 7 (lend_page (PGNUM fsipcbuf) c1))).
  assert (Hsend : sys_ipc_try_send id type fsipcbuf (Z.lor (Z.lor PTE_P PTE_W) PTE_U) c1 = (Ret 0, c2)).
  { unfold sys_ipc_try_send, syscall. change (Z.lor (Z.lor PTE_P PTE_W) PTE_U) with 7. change (u32 7) with 7.
    cbn [int_syscall client_machine]. change (12 =? 12) with true. cbv iota. erewrite bind_Ret; [reflexivity|].
    unfold cl_send. mstep. cbn [Datatypes.id]. cbn [cl_envs cl_server cl_pte c1 set_cl_fsenv].
    fold id. rewrite (s32_of_u32 id) by done. rewrite Z.eqb_refl. cbn [negb].
    replace (UTOP <=? fsipcbuf) with false by (clconst; lia). rewrite Hbuf_page. cbn [Z.eqb negb].
    change ((Z.land 7 PTE_U =? 0) || (Z.land 7 PTE_P =? 0) || negb (Z.land 7 (Z.lnot PTE_SYSCALL) =? 0)) with false. cbv iota.
    replace (Z.land (cl_pte c (PGNUM fsipcbuf)) PTE_P =? 0) with false by lia.
    replace (Z.land (cl_pte c (PGNUM fsipcbuf)) PTE_W =? 0) with false by lia. rewrite andb_false_r. mstep. done. }
  assert (Hst : serve_turn type 7 (lend_page (PGNUM fsipcbuf) c1) = set_cl_reply (Some (mkReply r None perm)) (set_cl_srv s c1)).
  { unfold serve_turn. change (cl_srv (lend_page (PGNUM fsipcbuf) c1)) with (asked c). by rewrite Hserve. }
  assert (E2 : ipc_send 1 id type fsipcbuf (Z.lor (Z.lor PTE_P PTE_W) PTE_U) c1 = (Ret tt, c2)).
  { unfold ipc_send. replace (fsipcbuf =? 0) with false by lia. cbn [ipc_send_loop]. by rewrite (bind_Ret _ _ _ _ _ Hsend). }
  rewrite (bind_Ret _ _ _ _ _ E2). mstep.
  assert (Hrecv : sys_ipc_recv UTOP c2 = (Ret 0, deliver (mkReply r None perm) c2)).
  { assert (Hcl : cl_recv UTOP c2 = (Ret 0, deliver (mkReply r None perm) c2)).
    { unfold cl_recv. mstep. cbn [Datatypes.id]. change (UTOP <? UTOP) with false.
      cbn [andb]. unfold c2. rewrite Hst. cbn [cl_reply return_page set_cl_mem set_cl_reply]. mstep. done. }
    unfold sys_ipc_recv, syscall. cbn [int_syscall client_machine]. change (13 =? 12) with false. change (13 =? 13) with true.
    cbv iota. by rewrite (bind_Ret _ _ _ _ _ Hcl). }
  assert (E3 : ipc_recv (cl_me c2) 0 c2 = (Ret (r, env_id (cl_envs c (cl_server c)), perm), deliver (mkReply r None perm) c2)).
  { unfold ipc_recv. cbn [Z.eqb]. rewrite (bind_Ret _ _ _ _ _ Hrecv). cbn [Z.ltb Z.compare].
    cbn [uenvs client_machine]. mstep. unfold c2. rewrite Hst. cbn. rewrite Z.eqb_refl. cbn. by rewrite s32_of_u32. }
  rewrite (bind_Ret _ _ _ _ _ E3). cbn [fst]. unfold mret, M_ret. f_equal.
  unfold c2. rewrite Hst. unfold answered, return_page. cbn. by rewrite buf_pn.
Qed.

(** ** Descriptor [k], open file [i] *)

Context (k i n ptr : Z) (devtab : list (Dev client)).
Context (Hk : 0 <= k < MAXFD) (Hi : 0 <= i < MAXOPEN).
Context (Hdev : dev_lookup devtab devfile_id = inr (devfile fsipcbuf ptr)).

Let fd : Z := INDEX2FD k.

(** The client [c] has the abstract file [a] open, and its memory other than
    the request page is [m]. *)
Record rep (c : client) (a : afile) (m : memory) : Prop := mk_rep {
  re_cl : cl_ok c;
  re_sv : sv_rep i n (cl_srv c) a;
  re_pde : Z.land (cl_pte c (PGNUM UVPT + PDX fd)) PTE_P ≠ 0;
  re_fd : denied true (cl_pte c (PGNUM fd)) = false;
  re_page : cl_fdpage c (PGNUM fd) = Some i;
  re_mem : ∀ x, x < fsipcbuf ∨ fsipcbuf + PGSIZE <= x → cl_mem c x = m x;
}.

Lemma fd_range : fd = 0xD0000000 + k * 4096 ∧ 0xD0000000 <= fd < 0xD0020000.
Proof. unfold fd, INDEX2FD. change FDTABLE with 0xD0000000. change MAXFD with 32 in Hk. unfold PGSIZE. rewrite u32_small; lia. Qed.

Lemma fd_offset_page j : 0 <= j < PGSIZE → PGNUM (fd + j) = PGNUM fd ∧ PGOFF (fd + j) = j.
Proof.
  intros Hj. destruct fd_range as [E _]. rewrite E, !PGNUM_div, PGOFF_mod. unfold PGSIZE in *. Z.to_euclidean_division_equations. lia.
Qed.

(** The descriptor page is mapped, writable. *)
Definition fd_ok (c : client) : Prop := denied true (cl_pte c (PGNUM fd)) = false ∧ cl_fdpage c (PGNUM fd) = Some i.

Lemma rep_fd c a m : rep c a m → fd_ok c.
Proof. intros H. split; [apply (re_fd _ _ _ H)|apply (re_page _ _ _ H)]. Qed.

Lemma fd_acc c j : fd_ok c → 0 <= j < PGSIZE → acc true c (fd + j).
Proof.
  intros [Hd _] Hj. destruct (fd_offset_page j Hj) as [E _]. destruct fd_range as [_ Hr].
  split; [clconst; lia|]. by rewrite E.
Qed.

Lemma fd_byte_eq c j : fd_ok c → 0 <= j < PGSIZE → fd_byte c (fd + j) = Some (o_fd (opentab (cl_srv c) i) + j).
Proof. intros [_ Hp] Hj. destruct (fd_offset_page j Hj) as [E E']. unfold fd_byte. by rewrite E, E', Hp. Qed.

Lemma load32_fd c off :
  fd_ok c → 0 <= off → off + 4 <= PGSIZE → uload32 (fd + off) c = (Ret (ld32 (srv_mem c) (o_fd (opentab (cl_srv c) i) + off)), c).
Proof.
  intros H Ho Ho'. rewrite (load32_acc true) by (intros j Hj; rewrite <- Z.add_assoc; apply fd_acc; [done|lia]).
  do 2 f_equal. unfold ld32, cl_byte. rewrite <- !Z.add_assoc. by rewrite !(fd_byte_eq c) by (done || lia).
Qed.

Lemma store8_fd c j v : fd_ok c → 0 <= j < PGSIZE →
  ustore8 (fd + j) v c = (Ret tt, set_srv_mem (st8 (srv_mem c) (o_fd (opentab (cl_srv c) i) + j) v) c).
Proof. intros H Hj. rewrite store8_acc by (by apply fd_acc). unfold cl_put. by rewrite (fd_byte_eq c). Qed.

Lemma store32_fd c off v :
  fd_ok c → 0 <= off → off + 4 <= PGSIZE →
  ustore32 (fd + off) v c = (Ret tt, set_srv_mem (st32 (srv_mem c) (o_fd (opentab (cl_srv c) i) + off) v) c).
Proof.
  intros H Ho Ho'. destruct fd_range as [_ Hr]. unfold ustore32.
  assert (Hb : ∀ j, 0 <= j < 4 → u32 (fd + off + j) = fd + (off + j)) by (intros j Hj; rewrite u32_small; unfold PGSIZE in *; lia).
  rewrite !Hb by lia. mrun (apply store8_fd; [done|lia]). do 2 mrun (apply store8_fd; [exact H|lia]).
  rewrite store8_fd by (exact H || lia). cbn. by rewrite !Z.add_assoc.
Qed.

Lemma va_mapped_fd c a m : rep c a m → va_mapped fd c = (Ret true, c).
Proof.
  intros H. pose proof (re_cl _ _ _ H) as Hc. destruct fd_range as [_ Hr]. unfold va_mapped.
  mrun (apply uvpd_client; [rewrite PDX_div; Z.to_euclidean_division_equations; lia|apply (co_pte _ Hc)]).
  pose proof (re_pde _ _ _ H). replace (Z.land _ PTE_P =? 0) with false by lia.
  mrun (apply uvpt_client; [rewrite PGNUM_div; Z.to_euclidean_division_equations; lia|apply (co_pte _ Hc)]).
  pose proof (re_fd _ _ _ H) as Hd. unfold denied in Hd. apply orb_false_elim in Hd as [[Hp _]%orb_false_elim _]. by rewrite Hp.
Qed.

Lemma fd_lookup_run c a m : rep c a m → fd_lookup k c = (Ret (inr fd), c).
Proof.
  intros H. unfold fd_lookup. replace ((k <? 0) || (MAXFD <=? k)) with false by lia. by rewrite (bind_Ret _ _ _ _ _ (va_mapped_fd c a m H)).
Qed.

Lemma fd_dev_run c a m : rep c a m → fd_dev devtab k c = (Ret (inr (fd, devfile fsipcbuf ptr)), c).
Proof.
  intros H. unfold fd_dev. rewrite (bind_Ret _ _ _ _ _ (fd_lookup_run c a m H)). unfold Fd.fd_dev_id.
  pose proof (load32_fd c 0 (rep_fd _ _ _ H) ltac:(lia) ltac:(done)) as E. rewrite !Z.add_0_r in E. rewrite (bind_Ret _ _ _ _ _ E).
  unfold srv_mem. rewrite (sr_dev _ _ _ _ (re_sv _ _ _ H)). change (s32 devfile_id) with devfile_id. by rewrite Hdev.
Qed.

Lemma mode_run c a m :
  rep c a m → ∃ w, uload32 (Fd.fd_omode fd) c = (Ret w, c) ∧ Z.land w Fd.O_ACCMODE = 2.
Proof.
  intros H. eexists. split; [apply (load32_fd c 8 (rep_fd _ _ _ H)); done|]. apply (sr_mode _ _ _ _ (re_sv _ _ _ H)).
Qed.

(** How an operation changes the server's side. *)
Lemma sv_rep_update s a f a' :
  sv_rep i n s a → ready f → file_ok f (o_file (opentab s i)) n → fsize f (o_file (opentab s i)) = a_size a' →
  0 <= a_size a' <= n * BLKSIZE → 0 <= a_pos a' < 2 ^ 31 →
  (∀ x, o_fd (opentab s i) <= x < o_fd (opentab s i) + 16 → f_mem f x = st32 (f_mem (sv_fs s)) (o_fd (opentab s i) + 4) (a_pos a') x) →
  (∀ p, 0 <= p < n * BLKSIZE → f_mem f (faddr (f_mem f) (o_file (opentab s i)) p) = a_data a' p) →
  sv_rep i n (set_sv_fs f s) a'.
Proof.
  intros H Hr Hf Hs Hsz Hp Hfd Hdata.
  assert (Hw : ∀ j, 0 <= j <= 12 → ld32 (f_mem f) (o_fd (opentab s i) + j) =
    ld32 (st32 (f_mem (sv_fs s)) (o_fd (opentab s i) + 4) (a_pos a')) (o_fd (opentab s i) + j)).
  { intros j Hj. apply ld32_ext. intros j' Hj'. apply Hfd. lia. }
  pose proof (Hw 0 ltac:(lia)) as Hw0. rewrite !Z.add_0_r in Hw0.
  split; cbn [set_sv_fs sv_fs opentab Serv.pageref].
  - apply (sr_tab _ _ _ _ H).
  - apply (sr_ref _ _ _ _ H).
  - done.
  - done.
  - rewrite Hw0, ld32_st32_other by lia. apply (sr_dev _ _ _ _ H).
  - rewrite Hw, ld32_st32_same by (unfold is_u32; lia). done.
  - rewrite Hw, ld32_st32_other by lia. apply (sr_mode _ _ _ _ H).
  - rewrite Hw, ld32_st32_other by lia. apply (sr_id _ _ _ _ H).
  - done.
  - done.
Qed.

(** *** [seek] *)

Lemma seek_run c a m off :
  rep c a m → 0 <= off < 2 ^ 31 →
  ∃ c', seek k off c = (Ret 0, c') ∧ same_maps c c' ∧ rep c' (mkAfile off (a_size a) (a_data a)) m.
Proof.
  intros H Ho. pose proof (re_sv _ _ _ H) as Hs. unfold seek. rewrite (bind_Ret _ _ _ _ _ (fd_lookup_run c a m H)).
  rewrite u32_small by lia. unfold Fd.fd_offset.
  rewrite (bind_Ret _ _ _ _ _ (store32_fd c 4 off (rep_fd _ _ _ H) ltac:(lia) ltac:(done))).
  eexists. split; [done|]. split; [done|].
  destruct (fd_store_files (cl_srv c) i n (sr_tab _ _ _ _ Hs) Hi (sv_fs (cl_srv c))
    (set_f_mem (st32 (srv_mem c) (o_fd (opentab (cl_srv c) i) + 4) off) (sv_fs (cl_srv c))) off
    (sr_ready _ _ _ _ Hs) (sr_file _ _ _ _ Hs)) as (Hr & Hf & Hsz & Ha); [by split|done|].
  destruct H as [Hc _ Hpde Hfd Hpage Hmem]. split; try done.
  - by apply cl_ok_srv.
  - apply (sv_rep_update (cl_srv c) a); try done.
    + rewrite Hsz. apply (sr_size _ _ _ _ Hs).
    + apply (sr_size _ _ _ _ Hs).
    + intros p Hp. cbn [a_data]. rewrite <- (sr_data _ _ _ _ Hs p Hp). rewrite Ha by done.
      apply (fd_store_in (cl_srv c) i (sr_tab _ _ _ _ Hs) Hi (sv_fs (cl_srv c)) _ off); [done|].
      by apply (faddr_in _ _ n _ (sr_ready _ _ _ _ Hs) (sr_file _ _ _ _ Hs)).
Qed.

(** *** Requests with a file id and a size *)

Lemma asked_req c j : 0 <= j < PGSIZE → f_mem (sv_fs (asked c)) (fsreq + j) = cl_mem c (fsipcbuf + j).
Proof. intros Hj. cbn. replace (_ && _) with true by lia. rewrite buf_pn. f_equal. lia. Qed.

Lemma asked_word c j : 0 <= j → j + 4 <= PGSIZE → ld32 (f_mem (sv_fs (asked c))) (fsreq + j) = ld32 (cl_mem c) (fsipcbuf + j).
Proof. intros Hj Hj'. unfold ld32. rewrite <- !Z.add_assoc. by rewrite !asked_req by lia. Qed.

Lemma asked_rep c a : sv_rep i n (cl_srv c) a → mem_ok (cl_mem c) → sv_rep i n (asked c) a.
Proof.
  intros H Hm. apply (sv_rep_frame i n (cl_srv c)); [done| |].
  - intros x. destruct (_ && _); [apply Hm|apply (sr_ready _ _ _ _ H)].
  - intros x Hx. replace (_ && _) with false; [done|].
    destruct (sr_tab _ _ _ _ H i Hi) as (_ & _ & E). unfold sv_owned in Hx. rewrite E in Hx.
    unfold in_diskmap, DISKMAP, fsreq, FILEVA, PGSIZE, MAXOPEN in *. lia.
Qed.

Lemma answered_rep c a m a' r s : rep c a m → sv_rep i n s a' → rep (answered r s c) a' m.
Proof.
  intros [Hc _ Hpde Hfd Hpage Hmem] Hs. split; try done.
  - apply answered_ok; [done|apply (sr_ready _ _ _ _ Hs)].
  - intros x Hx. cbn. replace (_ && _) with false by lia. by apply Hmem.
Qed.

Lemma set_mem_rep c a m m' :
  rep c a m → mem_ok m' → (∀ x, x < fsipcbuf ∨ fsipcbuf + PGSIZE <= x → m' x = cl_mem c x) → rep (set_cl_mem m' c) a m.
Proof.
  intros [Hc Hs Hpde Hfd Hpage Hmem] Hm Hout. split; try done.
  - by apply cl_ok_mem.
  - intros x Hx. cbn. rewrite Hout by done. by apply Hmem.
Qed.

(** The two words at the start of the request page. *)
Lemma header_run c a m id w :
  rep c a m → is_u32 id → is_u32 w →
  ∃ c1 h, ustore32 fsipcbuf id c = (Ret tt, c1) ∧ ustore32 (fsipcbuf + 4) w c1 = (Ret tt, set_cl_mem h c) ∧ rep (set_cl_mem h c) a m ∧
    ld32 h fsipcbuf = id ∧ ld32 h (fsipcbuf + 4) = w ∧ (∀ x, x < fsipcbuf ∨ fsipcbuf + 8 <= x → h x = cl_mem c x).
Proof.
  intros H Hid Hw. pose proof (re_cl _ _ _ H) as Hc.
  rewrite store32_priv by (intros j Hj; apply (co_buf _ Hc); unfold PGSIZE; lia). eexists.
  set (h := st32 (st32 (cl_mem c) fsipcbuf id) (fsipcbuf + 4) w).
  assert (Hout : ∀ x, x < fsipcbuf ∨ fsipcbuf + 8 <= x → h x = cl_mem c x) by (intros x Hx; unfold h; rewrite !st32_other_byte by lia; done).
  exists h. split; [done|]. split.
  { by rewrite store32_priv by (intros j Hj; apply priv_set; rewrite <- Z.add_assoc; apply (co_buf _ Hc); unfold PGSIZE; lia). }
  split_and!.
  - apply set_mem_rep; [done|by apply st32_ok, st32_ok, (co_mem _ Hc)|]. intros x Hx. apply Hout. unfold PGSIZE in Hx. lia.
  - unfold h. rewrite ld32_st32_other by lia. by apply ld32_st32_same.
  - by apply ld32_st32_same.
  - done.
Qed.

(** The server finds the open file. *)
Lemma id_run c a m :
  rep c a m → uload32 (fd_file_id fd) c = (Ret (o_fileid (opentab (cl_srv c) i)), c) ∧ is_u32 (o_fileid (opentab (cl_srv c) i)).
Proof.
  intros H. pose proof (re_sv _ _ _ H) as Hs. split.
  - unfold fd_file_id. rewrite (load32_fd c 12 (rep_fd _ _ _ H)) by done. unfold srv_mem. by rewrite (sr_id _ _ _ _ Hs).
  - apply (sr_tab _ _ _ _ Hs i Hi).
Qed.

Lemma asked_seek c a : sv_rep i n (asked c) a →
  s32 (ld32 (f_mem (sv_fs (asked c))) (Serv.fd_offset (o_fd (opentab (asked c) i)))) = a_pos a.
Proof.
  intros H. destruct (sr_pos _ _ _ _ H) as [E Hp]. unfold Serv.fd_offset. rewrite E. apply s32_small. lia.
Qed.

(** A buffer of the program: its own pages, apart from the request page. *)
Definition buffer (c : client) (buf len : Z) : Prop :=
  (∀ j, 0 <= j < len → priv c (buf + j)) ∧ (buf + len <= fsipcbuf ∨ fsipcbuf + PGSIZE <= buf).

(** *** [write] *)

Definition after_write (buf r : Z) (m : memory) (a : afile) : afile :=
  mkAfile (a_pos a + r) (Z.max (a_size a) (a_pos a + r))
    (λ p, if (a_pos a <=? p) && (p <? a_pos a + r) then m (buf + (p - a_pos a)) else a_data a p).

Lemma serve_write_rep c a m r buf :
  rep c a m → 0 <= r <= WRITE_MAX → a_pos a + r <= n * BLKSIZE →
  ld32 (cl_mem c) fsipcbuf = o_fileid (opentab (cl_srv c) i) → ld32 (cl_mem c) (fsipcbuf + 4) = r →
  (∀ j, 0 <= j < r → cl_mem c (fsipcbuf + 8 + j) = m (buf + j)) →
  ∃ s, serve_request FSREQ_WRITE 7 (asked c) = (Ret (Some (mkReply r None 7)), s) ∧ sv_rep i n s (after_write buf r m a).
Proof.
  intros H Hr Hl Hid Hrn Hdata. pose proof (asked_rep c a (re_sv _ _ _ H) (co_mem _ (re_cl _ _ _ H))) as Hs.
  set (s := asked c) in *. destruct (sr_pos _ _ _ _ Hs) as [_ Hpos]. destruct (sr_size _ _ _ _ Hs) as [Hsz Hszr].
  pose proof (asked_seek c a Hs) as Hseek. fold s in Hseek.
  assert (Hid' : ld32 (f_mem (sv_fs s)) fsreq = o_fileid (opentab s i)).
  { rewrite <- (Z.add_0_r fsreq). unfold s. rewrite asked_word by done. by rewrite Z.add_0_r. }
  assert (Hn' : ld32 (f_mem (sv_fs s)) (fsreq + 4) = r) by (unfold s; by rewrite asked_word).
  destruct (serve_write_run s i n (sr_tab _ _ _ _ Hs) Hi Hid' (sr_ref _ _ _ _ Hs) (sr_ready _ _ _ _ Hs) (sr_file _ _ _ _ Hs) ltac:(lia))
    as (f & E & Hrd & Hf & Hfs & Hin & Hout); rewrite ?Hseek, ?Hn' in *; [lia|lia| |].
  { apply src_ok_outside; [apply Hs|apply Hs|]. intros j Hj. unfold in_diskmap, fsreq, DISKMAP, WRITE_MAX, PGSIZE in *. lia. }
  eexists. split.
  { unfold serve_request. change (Z.land 7 PTE_P =? 0) with false. change (FSREQ_WRITE =? FSREQ_OPEN) with false. cbv iota.
    change (handlers FSREQ_WRITE) with (Some serve_write). cbv iota. by rewrite (bind_Ret _ _ _ _ _ E). }
  pose proof (fo_n _ _ _ (sr_file _ _ _ _ Hs)) as Hnm. change NMAX with 1034 in Hnm.
  apply (sv_rep_update s a); try done.
  - rewrite Hfs. cbn [after_write a_size]. by rewrite Hsz.
  - cbn. lia.
  - cbn. unfold BLKSIZE, PGSIZE in *. lia.
  - intros x Hx. apply Hout. destruct (sr_tab _ _ _ _ Hs i Hi) as (_ & _ & Efd).
    replace x with (FILEVA + i * PGSIZE + (x - (FILEVA + i * PGSIZE))) by lia. apply fd_page; [done|]. unfold PGSIZE in *. lia.
  - intros p Hp. destruct (Hin p Hp) as [-> ->]. cbn [after_write a_data].
    destruct ((a_pos a <=? p) && (p <? a_pos a + r)) eqn:Er; [|by apply (sr_data _ _ _ _ Hs)].
    rewrite <- Z.add_assoc. unfold s. rewrite asked_req by (unfold WRITE_MAX, PGSIZE in *; lia).
    rewrite <- Hdata by lia. f_equal. lia.
Qed.

Lemma write_run c a m buf cnt :
  let r := Z.min cnt WRITE_MAX in
  rep c a m → 0 <= cnt → buffer c buf r → a_pos a + r <= n * BLKSIZE →
  ∃ c', write devtab k buf cnt c = (Ret r, c') ∧ same_maps c c' ∧ rep c' (after_write buf r m a) m.
Proof.
  intros r H Hcnt [Hpriv Hdis] Hl. assert (Hr : 0 <= r <= WRITE_MAX) by (unfold r, WRITE_MAX, PGSIZE in *; lia).
  destruct (id_run c a m H) as [Eid Hid]. destruct (mode_run c a m H) as (w & Emode & Hw).
  destruct (header_run c a m _ r H Hid) as (c1 & h & E1 & E2 & H2 & Hh0 & Hh4 & Hhout); [unfold is_u32, WRITE_MAX, PGSIZE in *; lia|].
  pose proof (re_cl _ _ _ H2) as Hc2.
  destruct (umemmove_priv (set_cl_mem h c) (fsipcbuf + 8) buf r) as (m3 & E3 & Hm3 & Hx3).
  { lia. }
  { apply (co_mem _ Hc2). }
  { intros j Hj. rewrite <- Z.add_assoc. apply (co_buf _ Hc2). unfold WRITE_MAX, PGSIZE in *. lia. }
  { intros j Hj. by apply priv_set, Hpriv. }
  { unfold WRITE_MAX, PGSIZE in *. lia. }
  assert (Hout3 : ∀ x, x < fsipcbuf + 8 ∨ fsipcbuf + 8 + r <= x → m3 x = h x).
  { intros x Hx. rewrite Hx3. unfold mem_copy. by replace (_ && _) with false by lia. }
  assert (H3 : rep (set_cl_mem m3 (set_cl_mem h c)) a m).
  { apply set_mem_rep; [done|done|]. intros x Hx. apply Hout3. unfold WRITE_MAX, PGSIZE in *. lia. }
  destruct (serve_write_rep _ a m r buf H3 Hr Hl) as (s & Es & Hs').
  { transitivity (ld32 h fsipcbuf); [|exact Hh0]. apply ld32_ext. intros j Hj. apply Hout3. lia. }
  { rewrite <- Hh4. apply ld32_ext. intros j Hj. apply Hout3. lia. }
  { intros j Hj. cbn [cl_mem set_cl_mem]. rewrite Hx3. unfold mem_copy. replace (_ && _) with true by lia. cbn [cl_mem set_cl_mem].
    replace (buf + (fsipcbuf + 8 + j - (fsipcbuf + 8))) with (buf + j) by lia.
    rewrite Hhout by (unfold PGSIZE in *; lia). apply (re_mem _ _ _ H). unfold PGSIZE in *. lia. }
  exists (answered (mkReply r None 7) s (set_cl_mem m3 (set_cl_mem h c))). split; [|split; [done|by apply (answered_rep _ a)]].
  - unfold write. rewrite (bind_Ret _ _ _ _ _ (fd_dev_run c a m H)), (bind_Ret _ _ _ _ _ Emode), Hw.
    change (2 =? O_RDONLY) with false. cbv iota. cbn [dev_write devfile]. unfold devfile_write. fold r.
    rewrite (bind_Ret _ _ _ _ _ Eid), (bind_Ret _ _ _ _ _ E1), (bind_Ret _ _ _ _ _ E2).
    mrun (apply load32_priv; intros j Hj; rewrite <- Z.add_assoc; apply (co_buf _ Hc2); unfold PGSIZE; lia).
    cbn [cl_mem set_cl_mem]. rewrite Hh4, (bind_Ret _ _ _ _ _ E3).
    apply fsipc_run; [apply (re_cl _ _ _ H3)|exact Es|unfold WRITE_MAX, PGSIZE in *; lia].
Qed.

(** *** [read] *)

Definition read_len (a : afile) (cnt : Z) : Z := Z.max 0 (Z.min (Z.min cnt PGSIZE) (a_size a - a_pos a)).

Definition after_read (r : Z) (a : afile) : afile := mkAfile (a_pos a + r) (a_size a) (a_data a).

Definition read_mem (buf r : Z) (a : afile) (m : memory) : memory :=
  λ x, if (buf <=? x) && (x <? buf + r) then a_data a (a_pos a + (x - buf)) else m x.

Lemma serve_read_rep c a m cnt :
  rep c a m → is_u32 cnt →
  ld32 (cl_mem c) fsipcbuf = o_fileid (opentab (cl_srv c) i) → ld32 (cl_mem c) (fsipcbuf + 4) = cnt →
  let r := read_len a cnt in
  ∃ s, serve_request FSREQ_READ 7 (asked c) = (Ret (Some (mkReply r None 7)), s) ∧ sv_rep i n s (after_read r a) ∧
    ∀ j, 0 <= j < r → f_mem (sv_fs s) (fsreq + j) = a_data a (a_pos a + j).
Proof.
  intros H Hu Hid Hrn r. pose proof (asked_rep c a (re_sv _ _ _ H) (co_mem _ (re_cl _ _ _ H))) as Hs.
  set (s := asked c) in *. destruct (sr_pos _ _ _ _ Hs) as [_ Hpos]. destruct (sr_size _ _ _ _ Hs) as [Hsz Hszr].
  pose proof (asked_seek c a Hs) as Hseek. fold s in Hseek.
  pose proof (fo_n _ _ _ (sr_file _ _ _ _ Hs)) as Hnm. change NMAX with 1034 in Hnm.
  assert (Hid' : ld32 (f_mem (sv_fs s)) fsreq = o_fileid (opentab s i)).
  { rewrite <- (Z.add_0_r fsreq). unfold s. rewrite asked_word by done. by rewrite Z.add_0_r. }
  assert (Hn' : ld32 (f_mem (sv_fs s)) (fsreq + 4) = cnt) by (unfold s; by rewrite asked_word).
  pose proof (serve_read_run s i n (sr_tab _ _ _ _ Hs) Hi Hid' (sr_ref _ _ _ _ Hs) (sr_ready _ _ _ _ Hs) (sr_file _ _ _ _ Hs) ltac:(lia)) as G.
  cbv zeta in G. rewrite Hseek, Hn', Hsz in G. fold (read_len a cnt) in G. fold r in G.
  destruct G as (f & E & Hrd & Hf & Hfs & Hin & Hread & Hout); [lia|].
  assert (Hr : 0 <= r ∧ (r = 0 ∨ a_pos a + r <= a_size a)) by (unfold r, read_len in *; lia).
  eexists. split_and!.
  { unfold serve_request. change (Z.land 7 PTE_P =? 0) with false. change (FSREQ_READ =? FSREQ_OPEN) with false. cbv iota.
    change (handlers FSREQ_READ) with (Some serve_read). cbv iota. by rewrite (bind_Ret _ _ _ _ _ E). }
  - apply (sv_rep_update s a); try done.
    + cbn. unfold BLKSIZE, PGSIZE in *. lia.
    + destruct (sr_tab _ _ _ _ Hs i Hi) as (_ & _ & Efd). intros x Hx. apply Hout.
      * replace x with (FILEVA + i * PGSIZE + (x - (FILEVA + i * PGSIZE))) by lia. apply fd_page; [done|]. unfold PGSIZE in *. lia.
      * unfold FILEVA, fsreq, PGSIZE, MAXOPEN in *. lia.
    + intros p Hp. destruct (Hin p Hp) as [-> ->]. by apply (sr_data _ _ _ _ Hs).
  - intros j Hj. cbn [sv_fs set_sv_fs]. rewrite Hread by done. apply (sr_data _ _ _ _ Hs). lia.
Qed.

Lemma read_run c a m buf cnt :
  let r := read_len a cnt in
  rep c a m → is_u32 cnt → buffer c buf r →
  ∃ c', read devtab k buf cnt c = (Ret r, c') ∧ same_maps c c' ∧ rep c' (after_read r a) (read_mem buf r a m).
Proof.
  intros r H Hu [Hpriv Hdis]. assert (Hr : 0 <= r <= PGSIZE ∧ r <= cnt) by (unfold r, read_len, is_u32, PGSIZE in *; lia).
  destruct (id_run c a m H) as [Eid Hid]. destruct (mode_run c a m H) as (w & Emode & Hw).
  destruct (header_run c a m _ cnt H Hid Hu) as (c1 & h & E1 & E2 & H2 & Hh0 & Hh4 & Hhout).
  destruct (serve_read_rep _ a m cnt H2 Hu Hh0 Hh4) as (s & Es & Hs' & Hdata). fold r in Es, Hs', Hdata.
  set (c3 := answered (mkReply r None 7) s (set_cl_mem h c)).
  assert (H3 : rep c3 (after_read r a) m) by (by apply (answered_rep _ a)).
  pose proof (re_cl _ _ _ H3) as Hc3.
  assert (Epage : ∀ j, 0 <= j < r → cl_mem c3 (fsipcbuf + j) = a_data a (a_pos a + j)).
  { intros j Hj. cbn. replace (_ && _) with true by (unfold PGSIZE in *; lia). rewrite <- Hdata by done. f_equal. lia. }
  destruct (umemmove_priv c3 buf fsipcbuf r) as (m4 & E4 & Hm4 & Hx4).
  { lia. }
  { apply (co_mem _ Hc3). }
  { intros j Hj. apply (Hpriv j Hj). }
  { intros j Hj. apply (co_buf _ Hc3). lia. }
  { lia. }
  exists (set_cl_mem m4 c3). split; [|split; [done|]].
  - unfold read. rewrite (bind_Ret _ _ _ _ _ (fd_dev_run c a m H)), (bind_Ret _ _ _ _ _ Emode), Hw.
    change (2 =? O_WRONLY) with false. cbv iota. cbn [dev_read devfile]. unfold devfile_read.
    rewrite (bind_Ret _ _ _ _ _ Eid), (bind_Ret _ _ _ _ _ E1), (bind_Ret _ _ _ _ _ E2).
    mrun (apply fsipc_run; [apply (re_cl _ _ _ H2)|exact Es|unfold PGSIZE in *; lia]). fold c3.
    replace (r <? 0) with false by lia. unfold uassert. replace (r <=? cnt) with true by lia. replace (r <=? PGSIZE) with true by lia.
    do 2 mstep. by rewrite (bind_Ret _ _ _ _ _ E4).
  - destruct H3 as [Hcl Hsv Hpde Hfd Hpage Hmem]. split; try done.
    + by apply cl_ok_mem.
    + intros x Hx. cbn [cl_mem set_cl_mem]. rewrite Hx4. unfold mem_copy, read_mem. destruct (_ && _) eqn:Eb; [|by apply Hmem].
      apply Epage. lia.
Qed.

(** ** Sequences of operations *)

Inductive fop : Type :=
  | OWrite (buf cnt : Z)
  | ORead (buf cnt : Z)
  | OSeek (off : Z).

Definition run_op (o : fop) : U client Z :=
  match o with
  | OWrite buf cnt => write devtab k buf cnt
  | ORead buf cnt => read devtab k buf cnt
  | OSeek off => seek k off
  end.

Fixpoint run_ops (l : list fop) : U client (list Z) :=
  match l with
  | [] => mret []
  | o :: l => r ← run_op o; rs ← run_ops l; mret (r :: rs)
  end.

(** What they do to an abstract file and the program's memory. *)
Definition spec_op (o : fop) (a : afile) (m : memory) : Z * afile * memory :=
  match o with
  | OWrite buf cnt => let r := Z.min cnt WRITE_MAX in (r, after_write buf r m a, m)
  | ORead buf cnt => let r := read_len a cnt in (r, after_read r a, read_mem buf r a m)
  | OSeek off => (0, mkAfile off (a_size a) (a_data a), m)
  end.

Fixpoint spec_ops (l : list fop) (a : afile) (m : memory) : list Z * afile * memory :=
  match l with
  | [] => ([], a, m)
  | o :: l =>
    let '(r, a, m) := spec_op o a m in
    let '(rs, a, m) := spec_ops l a m in (r :: rs, a, m)
  end.

(** What the program has to see to: buffers of its own, and no write beyond
    the blocks of the file. *)
Definition op_ok (c : client) (o : fop) (a : afile) : Prop :=
  match o with
  | OWrite buf cnt => 0 <= cnt ∧ buffer c buf (Z.min cnt WRITE_MAX) ∧ a_pos a + Z.min cnt WRITE_MAX <= n * BLKSIZE
  | ORead buf cnt => is_u32 cnt ∧ buffer c buf (read_len a cnt)
  | OSeek off => 0 <= off < 2 ^ 31
  end.

Fixpoint ops_ok (c : client) (l : list fop) (a : afile) (m : memory) : Prop :=
  match l with
  | [] => True
  | o :: l => op_ok c o a ∧ let '(_, a, m) := spec_op o a m in ops_ok c l a m
  end.

Lemma buffer_maps c c' buf len : same_maps c c' → buffer c buf len → buffer c' buf len.
Proof. intros Hs [Hp Hd]. split; [|done]. intros j Hj. by apply (same_maps_priv c), Hp. Qed.

Lemma op_ok_maps c c' o a : same_maps c c' → op_ok c o a → op_ok c' o a.
Proof.
  intros Hs. destruct o; cbn; [intros (? & ? & ?); split_and!|intros []; split|]; try done; by apply (buffer_maps c).
Qed.

Lemma ops_ok_maps c c' l a m : same_maps c c' → ops_ok c l a m → ops_ok c' l a m.
Proof.
  intros Hs. revert a m. induction l as [|o l IH]; intros a m; [done|]. cbn. intros [Ho Hl].
  split; [by apply (op_ok_maps c)|]. destruct (spec_op o a m) as [[r a'] m']. by apply IH.
Qed.

Lemma op_run c a m o :
  rep c a m → op_ok c o a →
  let '(r, a', m') := spec_op o a m in ∃ c', run_op o c = (Ret r, c') ∧ same_maps c c' ∧ rep c' a' m'.
Proof.
  intros H Ho. destruct o as [buf cnt|buf cnt|off]; cbn in *.
  - destruct Ho as (? & ? & ?). by apply write_run.
  - destruct Ho. by apply read_run.
  - by apply seek_run.
Qed.

(** C21: Files work, from the library's calls down to the blocks of the disk.
    Any sequence of [write], [read] and [seek] on a descriptor opened for
    both, as long as the buffers are the program's own, the file's blocks are
    allocated and in the server's cache, and no write goes beyond them, returns
    what the same operations on an abstract file return - the counts, and in
    memory the bytes - and leaves the file in the state of the abstract one.
    The kernel between the two is the exchange of [FsClient]: the server waits
    in [ipc_recv] whenever the client sends, and answers before the client goes
    on. *)
Theorem file_client_refines l c a m :
  rep c a m → ops_ok c l a m →
  let '(rs, a', m') := spec_ops l a m in
  ∃ c', run_ops l c = (Ret rs, c') ∧ rep c' a' m'.
Proof.
  revert c a m. induction l as [|o l IH]; intros c a m H; cbn [ops_ok spec_ops run_ops]; [intros _; by exists c|].
  intros [Ho Hl]. pose proof (op_run c a m o H Ho) as Hr. destruct (spec_op o a m) as [[r a1] m1].
  destruct Hr as (c1 & E1 & Hs & H1). specialize (IH c1 a1 m1 H1 (ops_ok_maps _ _ _ _ _ Hs Hl)).
  destruct (spec_ops l a1 m1) as [[rs a2] m2]. destruct IH as (c2 & E2 & H2).
  exists c2. split; [|done]. by rewrite (bind_Ret _ _ _ _ _ E1), (bind_Ret _ _ _ _ _ E2).
Qed.
End requests.
