(* ===== verification/FsClientDemo.v ===== *)
(** * A program with an open file, as an example of the hypotheses *)

From S2P Require Import Prelude Mmu Console KState Demo CString BlockCache Fs FsBitmap FsFile FsSpec FsInit Serv ServSpec FsDemo UserLib UserVm Ipc Fd FsClient FsClientSpec.
Open Scope Z_scope.

(** Descriptor 0 is entry 0 of the server's table, the file of [FsDemo]. *)
Definition client_image : memory := store_words [(FILEVA, 102); (FILEVA + 4, 0); (FILEVA + 8, 2); (FILEVA + 12, 1024)] demo_image.
Definition client_serv : sstate := set_sv_fs (set_f_mem client_image demo_fs) demo_serv.
Definition client_data (p : Z) : Z := f_mem demo_fs (faddr (f_mem demo_fs) demo_file p).

Definition client_buf : Z := 0x800000.

Definition demo_client : client :=
  mkClient u8 (λ _, 7) (λ p, if p =? PGNUM (INDEX2FD 0) then Some 0 else None)
    (λ e, set_env_id (4096 + e) (if e =? 1 then set_env_type ENV_TYPE_FS (free_env None 0) else free_env None 0))
    2 1 0 None client_serv.

Lemma client_image_in x : in_diskmap x = true → client_image x = demo_image x.
Proof.
  intros Hx. unfold client_image, store_words. generalize demo_image. intros m. cbn [foldl fst snd].
  unfold in_diskmap, DISKMAP, DISKSIZE in Hx. rewrite !st32_other_byte by (unfold FILEVA; lia). done.
Qed.

(** Whatever else the server's memory holds. *)
Lemma demo_client_sv_gen m :
  mem_ok m → (∀ x, in_diskmap x = true → m x = f_mem demo_fs x) →
  ld32 m FILEVA = 102 → ld32 m (FILEVA + 4) = 0 → ld32 m (FILEVA + 8) = 2 → ld32 m (FILEVA + 12) = 1024 →
  sv_rep 0 2 (set_sv_fs (set_f_mem m demo_fs) demo_serv) (mkAfile 0 5000 client_data).
Proof.
  intros Hm Hin H0 H4 H8 H12. pose proof demo_ready as Hr. pose proof demo_file_ok as Hf. pose proof demo_tab as Ht.
  pose proof (proj1 demo_fsize) as Hs. unfold client_data.
  assert (Hfd : o_fd (opentab demo_serv 0) = FILEVA ∧ o_fileid (opentab demo_serv 0) = 1024 ∧ o_file (opentab demo_serv 0) = demo_file ∧ Serv.pageref demo_serv 0 = 2) by (split_and!; reflexivity).
  destruct Hfd as (Efd & Eid & Efile & Eref). generalize dependent demo_serv. intros srv Ht Efd Eid Efile Eref.
  generalize dependent demo_fs. intros fs0 Hin Hr Hf Hs.
  assert (Hme : ∀ x, meta fs0 demo_file 2 x → f_mem (set_f_mem m fs0) x = f_mem fs0 x).
  { intros x Hx. apply Hin. by apply (meta_in_diskmap fs0 demo_file 2). }
  split; cbn [set_sv_fs sv_fs opentab Serv.pageref set_f_mem f_mem a_pos a_size a_data]; rewrite ?Efd, ?Efile, ?Eid, ?Eref; try done.
  - by apply (ready_frame fs0 _ demo_file 2).
  - by apply (file_ok_frame fs0 _ demo_file 2).
  - rewrite H8. reflexivity.
  - split; [|unfold BLKSIZE, PGSIZE; lia]. rewrite <- Hs. unfold fsize. apply f_equal, ld32_ext.
    intros j Hj. apply Hin. unfold f_size. rewrite <- Z.add_assoc.
    apply in_diskmap_field; [apply (fo_shape _ _ _ Hf)..|unfold FILE_SIZE; lia].
  - intros p Hp. pose proof (faddr_frame fs0 (set_f_mem m fs0) demo_file 2 Hf Hme p Hp) as E.
    cbn [f_mem set_f_mem] in E. rewrite E. apply Hin. by apply (faddr_in fs0 _ 2).
Qed.

Lemma client_words :
  ld32 client_image FILEVA = 102 ∧ ld32 client_image (FILEVA + 4) = 0 ∧ ld32 client_image (FILEVA + 8) = 2 ∧ ld32 client_image (FILEVA + 12) = 1024.
Proof. vm_compute. done. Qed.

Lemma demo_client_sv : sv_rep 0 2 (cl_srv demo_client) (mkAfile 0 5000 client_data).
Proof.
  destruct client_words as (H0 & H4 & H8 & H12).
  apply demo_client_sv_gen; [apply store_words_ok, demo_image_ok|exact client_image_in|exact H0|exact H4|exact H8|exact H12].
Qed.

Lemma demo_client_priv x : 0 <= x < 0xD0000000 → priv demo_client x.
Proof.
  intros Hx. split; [split; [change UTOP with 0xEEC00000; lia|done]|]. cbn. rewrite PGNUM_div. change (PGNUM (INDEX2FD 0)) with 0xD0000.
  destruct (Z.eqb_spec (x / 4096) 0xD0000); [|done]. exfalso. Z.to_euclidean_division_equations. lia.
Qed.

Lemma demo_client_rep : rep client_buf 0 0 2 demo_client (mkAfile 0 5000 client_data) u8.
Proof.
  split.
  - split; try done.
    + intros x. apply u8_range.
    + intros j Hj. apply demo_client_priv. unfold client_buf, PGSIZE in *. lia.
    + intros e He. replace e with 0 by (cbn in He; lia). done.
    + by left.
  - exact demo_client_sv.
  - done.
  - done.
  - done.
  - done.
Qed.

Lemma demo_client_buffer buf len :
  0 <= buf → buf + len <= 0xD0000000 → buf + len <= client_buf ∨ client_buf + PGSIZE <= buf → buffer client_buf demo_client buf len.
Proof. intros Hb Hl Hd. split; [|done]. intros j Hj. apply demo_client_priv. lia. Qed.

(** Ten bytes are written, and read back from the fifth on. *)
Lemma file_client_refines_witness :
  ∃ c', run_ops 0 [devfile client_buf 0] [OWrite 0x1000000 10; OSeek 4; ORead 0x2000001 100] demo_client = (Ret [10; 0; 100], c') ∧
    cl_mem c' 0x2000001 = 4 ∧ cl_mem c' 0x2000006 = 9.
Proof.
  destruct (file_client_refines client_buf ltac:(done) ltac:(done) ltac:(done) 0 0 2 0 [devfile client_buf 0] ltac:(done) ltac:(done)
    ltac:(reflexivity) [OWrite 0x1000000 10; OSeek 4; ORead 0x2000001 100] demo_client _ _ demo_client_rep) as (c' & E & H).
  - cbn [ops_ok op_ok spec_op after_write after_read read_len a_pos a_size]. change (Z.min 10 WRITE_MAX) with 10.
    split_and!; try done; try lia; [|unfold read_len; cbn [a_pos a_size]; change (Z.max 0 _) with 100];
      apply demo_client_buffer; unfold client_buf, PGSIZE; lia.
  - exists c'. split; [exact E|].
    split; rewrite (re_mem _ _ _ _ _ _ _ H) by (unfold client_buf, PGSIZE; lia); vm_compute; reflexivity.
Defined.
