(* ===== verification/KdebugSpec.v ===== *)
(** * Debugging information: theorems about the binary search *)

From S2P Require Import Prelude Mmu Console KState CString Kdebug.
Open Scope Z_scope.

Section spec.
Context (stabs : Z → Stab) (type : Z).

(** The entries the search is about. *)
Definition entry_at (j : Z) : Prop := n_type (stabs j) = type.

Lemma scan_down_spec fuel l m :
  Z.to_nat (m - l + 1) = fuel →
  let k := scan_down stabs fuel type l m in
  k <= m ∧ (l <= m + 1 → l - 1 <= k) ∧ (l <= k → entry_at k) ∧ ∀ j, k < j <= m → l <= j → ¬ entry_at j.
Proof.
  revert m. induction fuel as [|fuel IH]; intros m Hf; cbn [scan_down].
  - split_and!; lia.
  - destruct (Z.leb_spec l m); [|lia]. cbn [andb]. destruct (Z.eqb_spec (n_type (stabs m)) type) as [E|N]; cbn [negb].
    + split_and!; try lia. done.
    + destruct (IH (m - 1) ltac:(lia)) as (H1 & H2 & H3 & H4). split_and!; [lia|lia|done|].
      intros j Hj Hl. destruct (decide (j = m)) as [->|]; [done|apply H4; lia].
Qed.

(** ** The search ends

    A turn narrows the range, or finds the address itself at its start and
    then looks for the address after it. *)

Definition settled (s : search) : Z :=
  if (n_type (stabs (b_l s)) =? type) && negb (n_value (stabs (b_l s)) =? b_addr s) then 0 else 1.

Definition measure (s : search) : Z := 2 * (b_r s - b_l s + 1) + settled s.

Lemma settled_range s : 0 <= settled s <= 1.
Proof. unfold settled. destruct (_ && _); lia. Qed.

(** The middle, and the entry found from there. *)
Lemma search_step_cases s :
  0 <= b_l s <= b_r s → 0 <= b_addr s < 2 ^ 32 →
  let mid := Z.quot (b_l s + b_r s) 2 in
  b_l s <= mid <= b_r s ∧
  ((∀ j, b_l s <= j <= mid → ¬ entry_at j) ∧
     search_step stabs type s = mkSearch (mid + 1) (b_r s) (b_left s) (b_right s) (b_any s) (b_addr s) ∨
   ∃ m, b_l s <= m <= mid ∧ entry_at m ∧ (∀ j, m < j <= mid → ¬ entry_at j) ∧
     (n_value (stabs m) < b_addr s ∧
        search_step stabs type s = mkSearch (mid + 1) (b_r s) m (b_right s) true (b_addr s) ∨
      b_addr s < n_value (stabs m) ∧
        search_step stabs type s = mkSearch (b_l s) (m - 1) (b_left s) (m - 1) true (b_addr s) ∨
      n_value (stabs m) = b_addr s ∧
        search_step stabs type s = mkSearch m (b_r s) m (b_right s) true (u32 (b_addr s + 1)))).
Proof.
  intros Hl Ha mid. assert (Hmid : b_l s <= mid <= b_r s).
  { unfold mid. rewrite Z.quot_div_nonneg by lia. Z.to_euclidean_division_equations. lia. }
  split; [done|]. destruct (scan_down_spec _ (b_l s) mid eq_refl) as (H1 & H2 & H3 & H4).
  unfold search_step. fold mid. cbv zeta. set (m := scan_down stabs _ type (b_l s) mid) in *.
  destruct (Z.ltb_spec m (b_l s)).
  - left. split; [|done]. intros j Hj. apply H4; lia.
  - right. exists m. split_and!; [lia|done|by apply H3|intros j Hj; apply H4; lia|].
    destruct (Z.ltb_spec (n_value (stabs m)) (b_addr s)); [by left|right].
    destruct (Z.ltb_spec (b_addr s) (n_value (stabs m))); [by left|right]. split; [lia|done].
Qed.

Lemma measure_step s :
  0 <= b_l s <= b_r s → 0 <= b_addr s < 2 ^ 32 →
  measure (search_step stabs type s) < measure s ∧ 0 <= b_l (search_step stabs type s) ∧
  0 <= b_addr (search_step stabs type s) < 2 ^ 32.
Proof.
  intros Hl Ha. pose proof (settled_range s) as S0.
  destruct (search_step_cases s Hl Ha) as (Hmid & [[_ E]|(m & Hm & He & _ & [[_ E]|[[_ E]|[Hv E]]])]);
    rewrite E; pose proof (settled_range (search_step stabs type s)) as S1; rewrite E in S1; unfold measure; cbn [b_l b_r b_addr] in *; try lia.
  pose proof (u32_range (b_addr s + 1)) as Hu. split; [|lia]. destruct (decide (m = b_l s)) as [->|]; [|lia].
  unfold entry_at in He. assert (settled s = 1) as ->.
  { unfold settled. rewrite He, Hv, !Z.eqb_refl. done. }
  unfold settled. cbn [b_l b_addr]. rewrite He, Z.eqb_refl. replace (_ =? _) with false; [cbn; lia|].
  symmetry. rewrite Hv. unfold u32. Z.to_euclidean_division_equations. lia.
Qed.

Lemma search_loop_ends fuel s :
  (0 < fuel)%nat → 0 <= b_l s → 0 <= b_addr s < 2 ^ 32 → measure s < Z.of_nat fuel → is_Some (search_loop stabs fuel type s).
Proof.
  revert s. induction fuel as [|fuel IH]; intros s Hf Hl Ha Hm; [lia|]. cbn [search_loop].
  destruct (Z.leb_spec (b_l s) (b_r s)); [|by eexists]. destruct (measure_step s ltac:(lia) Ha) as (Hlt & Hl' & Ha').
  pose proof (settled_range s). apply IH; [unfold measure in *; lia|done|done|lia].
Qed.

(** ** What it finds

    [L] and [R] are the ends of the range and [a] the address. *)

Context (L R a : Z) (HL : 0 <= L) (Ha : 0 <= a < 2 ^ 32 - 1).
(** The entries of the type are in order, and none is one above the address. *)
Context (Hsorted : ∀ i j, L <= i → i <= j → j <= R → entry_at i → entry_at j → n_value (stabs i) <= n_value (stabs j)).
Context (Hnext : ∀ j, L <= j <= R → entry_at j → n_value (stabs j) ≠ a + 1).

(** The invariant: entries below [l] are at most [a], [region_left] is the
    last of those looked at, entries above [r] are above [a]. *)
Record inv (s : search) : Prop := mk_inv {
  iv_l : L <= b_l s;
  iv_r : b_r s <= R;
  iv_right : b_right s = b_r s;
  iv_low : ∀ j, L <= j < b_l s → entry_at j → n_value (stabs j) <= a;
  iv_high : ∀ j, b_r s < j <= R → entry_at j → a < n_value (stabs j);
  iv_next : b_r s < R → entry_at (b_r s + 1);
  iv_left : b_left s = L ∧ (∀ j, L <= j < b_l s → ¬ entry_at j) ∨
            L <= b_left s <= b_r s ∧ b_left s <= b_l s ∧ entry_at (b_left s) ∧ n_value (stabs (b_left s)) <= a ∧
            ∀ j, b_left s < j < b_l s → ¬ entry_at j;
  iv_any : b_any s = false → b_r s = R ∧ ∀ j, L <= j < b_l s → ¬ entry_at j;
  iv_some : b_any s = true → b_r s < R ∨ entry_at (b_left s) ∧ b_left s <= b_r s;
  iv_addr : b_addr s = a ∨ b_addr s = a + 1 ∧ entry_at (b_left s) ∧ L <= b_left s;
}.

Lemma inv_step s : inv s → b_l s <= b_r s → inv (search_step stabs type s).
Proof using HL Ha Hsorted Hnext.
  intros [Il Ir Iright Ilow Ihigh Inext Ileft Iany Isome Iaddr] Hlr.
  destruct (search_step_cases s ltac:(lia) ltac:(lia)) as (Hmid & [[Hno E]|(m & Hm & He & Hlast & [[Hv E]|[[Hv E]|[Hv E]]])]); rewrite E.
  - (* no entry up to the middle *)
    split; cbn; try done; try lia.
    + intros j Hj Hej. apply Ilow; [|done]. destruct (decide (j < b_l s)); [lia|]. exfalso. apply (Hno j); [lia|done].
    + destruct Ileft as [[El Hn]|(H1 & H2 & H3 & H4 & H5)]; [left|right].
      * split; [done|]. intros j Hj. destruct (decide (j < b_l s)); [apply Hn; lia|apply Hno; lia].
      * split_and!; try done; try lia. intros j Hj. destruct (decide (j < b_l s)); [apply H5; lia|apply Hno; lia].
    + intros Hf. destruct (Iany Hf) as [? Hn]. split; [done|]. intros j Hj. destruct (decide (j < b_l s)); [apply Hn; lia|apply Hno; lia].
  - (* below the address *)
    assert (Hva : n_value (stabs m) <= a) by lia.
    split; cbn; try done; try lia.
    + intros j Hj Hej. destruct (decide (j <= m)); [|exfalso; apply (Hlast j); [lia|done]].
      etrans; [|exact Hva]. apply Hsorted; done || lia.
    + right. split_and!; try done; try lia. intros j Hj. apply Hlast. lia.
    + intros _. right. split; [done|lia].
    + destruct Iaddr as [->|[-> _]]; [by left|right]. done || (split_and!; done || lia).
  - (* above the address *)
    assert (Hva : a < n_value (stabs m)).
    { destruct Iaddr as [?|[? _]]; lia. }
    split; cbn; try done; try lia.
    + intros j Hj Hej. destruct (decide (b_r s < j)); [apply Ihigh; [lia|done]|].
      enough (n_value (stabs m) <= n_value (stabs j)) by lia. apply Hsorted; done || lia.
    + intros _. by replace (m - 1 + 1) with m by lia.
    + destruct Ileft as [[El Hn]|(H1 & H2 & H3 & H4 & H5)]; [by left|right].
      assert (b_left s ≠ m) by (intros <-; lia). split_and!; try done; lia.
  - (* the address itself *)
    assert (Ea : b_addr s = a) by (destruct Iaddr as [?|[? _]]; [done|exfalso; apply (Hnext m); [lia|done|lia]]).
    rewrite Ea in *. rewrite u32_small by lia.
    split; cbn; try done; try lia.
    + intros j Hj Hej. etrans; [apply (Hsorted j m); done || lia|lia].
    + right. split_and!; try done; try lia.
    + intros _. right. split; [done|lia].
    + right. split_and!; done || lia.
Qed.

Lemma inv_start : inv (mkSearch L R L R false a).
Proof.
  split; cbn; try done; try lia.
  - left. split; [done|lia].
  - intros _. split; [done|lia].
Qed.

Lemma inv_loop fuel s s' : inv s → search_loop stabs fuel type s = Some s' → inv s' ∧ b_r s' < b_l s'.
Proof using HL Ha Hsorted Hnext.
  revert s. induction fuel as [|fuel IH]; intros s Hs; [done|]. cbn [search_loop].
  destruct (Z.leb_spec (b_l s) (b_r s)); [|intros [= <-]; done]. apply IH. by apply inv_step.
Qed.

(** What the search returns: there is no entry; or the last entry at or below
    the address, and the place before the next; or, when all entries are above
    the address, the place before the first of them, and something that is not
    an entry. *)
Definition search_result (left right : Z) : Prop :=
  (∀ j, L <= j <= R → ¬ entry_at j) ∧ left = L ∧ right = L - 1 ∨
  L <= left <= right ∧ right <= R ∧ entry_at left ∧ n_value (stabs left) <= a ∧ (∀ j, left < j <= right → ¬ entry_at j) ∧
    (right < R → entry_at (right + 1) ∧ a < n_value (stabs (right + 1))) ∨
  (∀ j, L <= j <= R → entry_at j → a < n_value (stabs j)) ∧ right < R ∧ entry_at (right + 1) ∧
    (∀ j, L <= j <= right → ¬ entry_at j) ∧ left = Z.min L right.

Lemma search_end s :
  inv s → b_r s < b_l s →
  if b_any s then search_result (scan_down stabs (Z.to_nat (b_right s - b_left s)) type (b_left s + 1) (b_right s)) (b_right s)
  else search_result (b_left s) (b_left s - 1).
Proof using HL.
  intros [Il Ir Iright Ilow Ihigh Inext Ileft Iany Isome Iaddr] Hend. destruct (b_any s) eqn:Eany.
  - rewrite Iright. destruct (scan_down_spec (Z.to_nat (b_r s - b_left s)) (b_left s + 1) (b_r s)) as (H1 & H2 & H3 & H4); [f_equal; lia|].
    set (k := scan_down stabs _ type (b_left s + 1) (b_r s)) in *. destruct Ileft as [[El Hn]|(G1 & G2 & G3 & G4 & G5)].
    + right; right. assert (Hr : b_r s < R).
      { destruct (Isome eq_refl) as [?|[He Hle]]; [done|]. exfalso. apply (Hn (b_left s)); [lia|done]. }
      assert (HkL : ¬ L + 1 <= k) by (intros Hk; apply (Hn k); [lia|apply H3; lia]).
      split_and!; [|done|by apply Inext|intros j Hj; apply Hn; lia|].
      * intros j Hj Hej. destruct (decide (b_r s < j)); [apply Ihigh; [lia|done]|]. exfalso. apply (Hn j); [lia|done].
      * destruct (decide (L <= b_r s)); [lia|]. assert (Z.to_nat (b_r s - b_left s) = 0%nat) as E0 by lia.
        unfold k. rewrite E0. cbn. lia.
    + right; left. assert (Ek : entry_at k) by (destruct (decide (b_left s + 1 <= k)); [by apply H3|replace k with (b_left s) by lia; done]).
      split_and!; [lia|lia|lia|done|apply Ilow; [lia|done]|intros j Hj; apply H4; lia|].
      intros Hr. split; [by apply Inext|]. apply Ihigh; [lia|by apply Inext].
  - left. destruct (Iany eq_refl) as [Er Hn]. split; [intros j Hj; apply Hn; lia|].
    destruct Ileft as [[El _]|(G1 & G2 & G3 & _)]; [lia|]. exfalso. apply (Hn (b_left s)); [lia|done].
Qed.
End spec.

(** The binary search of the debugging information ends, for every table,
    range and address, after at most two turns for each entry of the range. *)
Theorem stab_binsearch_terminates stabs left right type addr :
  0 <= left → is_u32 addr → is_Some (stab_binsearch stabs left right type addr).
Proof.
  intros Hl Ha. unfold is_u32 in Ha. unfold stab_binsearch.
  destruct (search_loop_ends stabs type (S (Z.to_nat (2 * (right - left + 1) + 1))) (mkSearch left right left right false addr)) as [s E];
    [lia|done|done| |rewrite E; by eexists].
  pose proof (settled_range stabs type (mkSearch left right left right false addr)). unfold measure. cbn [b_l b_r]. lia.
Qed.

Lemma stab_binsearch_spec stabs type L R a :
  0 <= L → 0 <= a < 2 ^ 32 - 1 →
  (∀ i j, L <= i → i <= j → j <= R → entry_at stabs type i → entry_at stabs type j → n_value (stabs i) <= n_value (stabs j)) →
  (∀ j, L <= j <= R → entry_at stabs type j → n_value (stabs j) ≠ a + 1) →
  ∃ left right, stab_binsearch stabs L R type a = Some (left, right) ∧ search_result stabs type L R a left right.
Proof.
  intros HL Ha Hs Hn. unfold stab_binsearch.
  destruct (search_loop_ends stabs type (S (Z.to_nat (2 * (R - L + 1) + 1))) (mkSearch L R L R false a)) as [s E]; [lia|done|cbn; lia| |].
  { pose proof (settled_range stabs type (mkSearch L R L R false a)). unfold measure. cbn [b_l b_r]. lia. }
  rewrite E. destruct (inv_loop stabs type L R a HL Ha Hs Hn _ _ _ (inv_start stabs type L R a) E) as [Hi Hend].
  pose proof (search_end stabs type L R a HL s Hi Hend) as Hr. cbn. destruct (b_any s); cbn; by eexists _, _.
Qed.

(** C32: Among entries of a type that are in order, none of them one byte above
    the address, [stab_binsearch] finds the last entry at or below the address,
    and the place before the next one.  When there is no entry of the type at
    all it returns an empty range; but when there are entries and all of them
    are above the address it does not: the range it returns starts at the left
    end of the search, or one before it. *)
Theorem stab_binsearch_correct stabs type L R a :
  0 <= L → 0 <= a < 2 ^ 32 - 1 →
  (∀ i j, L <= i → i <= j → j <= R → entry_at stabs type i → entry_at stabs type j → n_value (stabs i) <= n_value (stabs j)) →
  (∀ j, L <= j <= R → entry_at stabs type j → n_value (stabs j) ≠ a + 1) →
  ∃ left right, stab_binsearch stabs L R type a = Some (left, right) ∧ search_result stabs type L R a left right.
Proof. exact (stab_binsearch_spec stabs type L R a). Qed.

(** The range that belongs to an entry: [e] is the last entry of the type at or
    below [a], the next one is after [e']. *)
Definition covers (stabs : Z → Stab) (type L R a e e' : Z) : Prop :=
  L <= e <= e' ∧ e' <= R ∧ entry_at stabs type e ∧ n_value (stabs e) <= a ∧ (∀ j, e < j <= e' → ¬ entry_at stabs type j) ∧
  (e' < R → entry_at stabs type (e' + 1) ∧ a < n_value (stabs (e' + 1))).

(** The hypotheses of the search. *)
Definition searchable (stabs : Z → Stab) (type L R a : Z) : Prop :=
  (∀ i j, L <= i → i <= j → j <= R → entry_at stabs type i → entry_at stabs type j → n_value (stabs i) <= n_value (stabs j)) ∧
  (∀ j, L <= j <= R → entry_at stabs type j → n_value (stabs j) ≠ a + 1).

Lemma stab_binsearch_covers stabs type L R a e e' :
  0 <= L → 0 <= a < 2 ^ 32 - 1 → searchable stabs type L R a → covers stabs type L R a e e' →
  stab_binsearch stabs L R type a = Some (e, e').
Proof.
  intros HL Ha [Hs Hn] (He & HR & Hee & Hv & Hno & Hnext).
  destruct (stab_binsearch_spec stabs type L R a HL Ha Hs Hn) as (l & r & E & [[H _]|[(Hl & Hr & Hel & Hvl & Hnol & Hnextl)|(H & _)]]); rewrite E.
  - exfalso. apply (H e); [lia|done].
  - assert (l = e) as ->.
    { destruct (Z.lt_trichotomy l e) as [Hlt|[?|Hgt]]; [|done|].
      - destruct (decide (e <= r)); [exfalso; by apply (Hnol e)|]. destruct (Hnextl ltac:(lia)) as [Her Hvr].
        pose proof (Hs (r + 1) e ltac:(lia) ltac:(lia) ltac:(lia) Her Hee). lia.
      - destruct (decide (l <= e')); [exfalso; by apply (Hno l)|]. destruct (Hnext ltac:(lia)) as [Her Hvr].
        pose proof (Hs (e' + 1) l ltac:(lia) ltac:(lia) ltac:(lia) Her Hel). lia. }
    do 2 f_equal. destruct (Z.lt_trichotomy r e') as [Hlt|[?|Hgt]]; [|done|].
    + destruct (Hnextl ltac:(lia)) as [Her _]. exfalso. apply (Hno (r + 1)); [lia|done].
    + destruct (Hnext ltac:(lia)) as [Her _]. exfalso. apply (Hnol (e' + 1)); [lia|done].
  - exfalso. pose proof (H e ltac:(lia) Hee). lia.
Qed.

(** [debuginfo_eip] in a table in order: the entry of the file, in its range
    the entry of the function, and in that the entry of the line. *)
Lemma debuginfo_eip_found stabs nstabs nstr stabstr addr sf sf' fn fn' ln ln' :
  0 < nstr → stabstr (nstr - 1) = 0 → 0 <= addr < 2 ^ 32 - 1 →
  searchable stabs N_SO 0 (nstabs - 1) addr → covers stabs N_SO 0 (nstabs - 1) addr sf sf' → 0 < sf →
  searchable stabs N_FUN sf sf' addr → covers stabs N_FUN sf sf' addr fn fn' → 0 <= n_value (stabs fn) → n_strx (stabs fn) < nstr →
  searchable stabs N_SLINE fn fn' (addr - n_value (stabs fn)) →
  covers stabs N_SLINE fn fn' (addr - n_value (stabs fn)) ln ln' →
  ∃ f narg, debuginfo_eip stabs nstabs nstr stabstr addr =
    Some (0, mkInfo f (n_desc (stabs ln)) (Some (n_strx (stabs fn)))
               (name_len stabstr (Z.to_nat (nstr - n_strx (stabs fn))) (n_strx (stabs fn))) (n_value (stabs fn)) narg).
Proof.
  intros Hstr Hz Ha Hs1 Hc1 Hsf Hs2 Hc2 Hv2 Hx Hs3 Hc3. unfold debuginfo_eip.
  replace (nstr <=? 0) with false by lia. rewrite Hz. cbn [Z.eqb negb orb].
  rewrite (stab_binsearch_covers stabs N_SO 0 (nstabs - 1) addr sf sf' ltac:(lia) Ha Hs1 Hc1). cbn [mbind option_bind].
  replace (sf =? 0) with false by lia.
  rewrite (stab_binsearch_covers stabs N_FUN sf sf' addr fn fn' ltac:(lia) Ha Hs2 Hc2). cbn [mbind option_bind].
  pose proof Hc2 as (? & _ & _ & Hle & _). pose proof Hc3 as (? & _). replace (fn <=? fn') with true by lia.
  unfold name_at at 1 2 3. replace (n_strx (stabs fn) <? nstr) with true by lia. rewrite u32_small by lia.
  rewrite (stab_binsearch_covers stabs N_SLINE fn fn' (addr - n_value (stabs fn)) ln ln' ltac:(lia) ltac:(lia) Hs3 Hc3). cbn [mbind option_bind].
  replace (ln <=? ln') with true by lia. by eexists _, _.
Qed.

(** Entries one byte apart are not told apart: for the address of the first
    of two functions at adjacent addresses, the search returns the second,
    which starts behind it.  And for an address below all entries it returns
    the range from -1 to -1, which is not empty and lies before the table. *)
Theorem stab_binsearch_off :
  (∃ stabs, n_value (stabs 0) = 0xf0100000 ∧ n_value (stabs 1) = 0xf0100001 ∧ (∀ j, n_type (stabs j) = N_FUN) ∧
     stab_binsearch stabs 0 1 N_FUN 0xf0100000 = Some (1, 1)) ∧
  (∃ stabs, (∀ j, n_type (stabs j) = N_FUN ∧ n_value (stabs j) = 0xf0100000) ∧
     stab_binsearch stabs 0 1 N_FUN 0x100000 = Some (-1, -1)).
Proof.
  split.
  - exists (λ j, mkStab 0 N_FUN 0 0 (0xf0100000 + j)). split_and!; done.
  - exists (λ _, mkStab 0 N_FUN 0 0 0xf0100000). split; done.
Qed.

(** ** The example of the comment in the source *)

Definition so_table (j : Z) : Stab :=
  let v := if j =? 0 then 0xf0100000 else if j =? 13 then 0xf0100040 else if j =? 117 then 0xf0100176
           else if j =? 118 then 0xf0100178 else if j =? 555 then 0xf0100652 else if j =? 556 then 0xf0100654
           else if j =? 657 then 0xf0100849 else 0 in
  mkStab 0 (if v =? 0 then 0 else N_SO) 0 0 v.

Lemma so_table_entry j : entry_at so_table N_SO j → j ∈ [0; 13; 117; 118; 555; 556; 657].
Proof.
  unfold entry_at, so_table. rewrite !elem_of_cons.
  do 7 (case (Z.eqb_spec j _); [tauto|intros _]). done.
Qed.

Lemma stab_binsearch_correct_witness : stab_binsearch so_table 0 657 N_SO 0xf0100184 = Some (118, 554).
Proof.
  destruct (stab_binsearch_correct so_table N_SO 0 657 0xf0100184) as (l & r & E & _); [lia|lia| | |rewrite E; vm_compute in E; congruence].
  - intros i j _ Hij _ Hi%so_table_entry Hj%so_table_entry. set_unfold.
    destruct_or!; subst; first [lia|vm_compute; discriminate].
  - intros j _ Hj%so_table_entry. set_unfold. destruct_or!; subst; try done; discriminate.
Defined.

Lemma stab_binsearch_terminates_witness : is_Some (stab_binsearch so_table 0 657 N_SO 0xffffffff).
Proof. apply stab_binsearch_terminates; [done|unfold is_u32; lia]. Defined.
