(* ===== verification/MemInit.v ===== *)
(** * Boot-time memory set-up ([mem_init] of [kern/pmap.c])

    [mem_init] finds out how much memory there is, allocates the kernel's page
    directory, the page descriptors and the environment table, builds the free
    list, maps the kernel's part of the address space, and in between runs the
    self-tests [check_page_free_list], [check_page_alloc], [check_page],
    [check_kern_pgdir] and [check_page_installed_pgdir], which change the free
    list and the page directory themselves.

    [pages] and [envs] are the kernel addresses of the two arrays; their
    contents are the maps of [kstate].  The bits [mem_init] sets in [%cr0] and
    [%cr4] are those [hw_translate] assumes. *)

From S2P Require Import Prelude Mmu Console KState PageAlloc PageTable Env.
Open Scope Z_scope.

(** [assert] *)
Definition kassert (b : bool) (msg : string) : K unit := if b then mret tt else panic msg.

Definition SIZEOF_PAGEINFO : Z := 8.
Definition SIZEOF_ENV : Z := 128.

(** ** Walking the free list

    [for (pp = page_free_list; pp; pp = pp->pp_link)], with what the body
    changes of the function's variables. *)
Fixpoint pages_loop {A} (fuel : nat) (pp : option Z) (body : A → Z → K A) (acc : A) : K A :=
  match fuel with
  | O => stop OutOfFuel
  | S fuel' =>
    match pp with
    | None => mret acc
    | Some p => acc ← body acc p; pi ← get_page p; pages_loop fuel' (pp_link pi) body acc
    end
  end.

Definition for_pages {A} (body : A → Z → K A) (acc : A) : K A :=
  np ← gets npages;
  fl ← gets page_free_list;
  pages_loop (S (Z.to_nat np)) fl body acc.

(** ** [check_page_free_list] *)

(** The variables of the first loop: [pp1], [pp2] and the two places [tp]
    points to; [None] is the variable itself, [Some p] is [&p->pp_link]. *)
Record tails : Type := mkTails {
  t_pp1 : option Z; t_pp2 : option Z; t_tp0 : option Z; t_tp1 : option Z;
}.

(** [*tp[pagetype] = v] *)
Definition put_tail (pagetype : bool) (v : option Z) (t : tails) : K tails :=
  match (if pagetype then t_tp1 t else t_tp0 t) with
  | Some q => set_link q v;; mret t
  | None => mret (if pagetype then mkTails (t_pp1 t) v (t_tp0 t) (t_tp1 t)
                  else mkTails v (t_pp2 t) (t_tp0 t) (t_tp1 t))
  end.

Definition low_first (pdx_limit : Z) : K unit :=
  t ← for_pages (λ t pp,
        let pagetype := pdx_limit <=? PDX (page2pa pp) in
        t ← put_tail pagetype (Some pp) t;
        mret (if pagetype then mkTails (t_pp1 t) (t_pp2 t) (t_tp0 t) (Some pp)
              else mkTails (t_pp1 t) (t_pp2 t) (Some pp) (t_tp1 t)))
      (mkTails None None None None);
  t ← put_tail true None t;
  t ← put_tail false (t_pp2 t) t;
  modify (set_page_free_list (t_pp1 t)).

(** The tests of one page, and the counters of low and high pages. *)
Definition check_free_page (first_free_page : Z) (n : Z * Z) (pp : Z) : K (Z * Z) :=
  np ← gets npages;
  kassert (0 <=? pp) "pp >= pages";;
  kassert (pp <? np) "pp < pages + npages";;
  kassert (SIZEOF_PAGEINFO * pp mod SIZEOF_PAGEINFO =? 0) "((char *) pp - (char *) pages) % sizeof(*pp) == 0";;
  kassert (negb (page2pa pp =? 0)) "page2pa(pp) != 0";;
  kassert (negb (page2pa pp =? IOPHYSMEM)) "page2pa(pp) != IOPHYSMEM";;
  kassert (negb (page2pa pp =? EXTPHYSMEM - PGSIZE)) "page2pa(pp) != EXTPHYSMEM - PGSIZE";;
  kassert (negb (page2pa pp =? EXTPHYSMEM)) "page2pa(pp) != EXTPHYSMEM";;
  (if page2pa pp <? EXTPHYSMEM then mret tt
   else kva ← page2kva pp; kassert (first_free_page <=? kva) "page2kva(pp) >= first_free_page");;
  kassert (negb (page2pa pp =? MPENTRY_PADDR)) "page2pa(pp) != MPENTRY_PADDR";;
  mret (if page2pa pp <? EXTPHYSMEM then (n.1 + 1, n.2) else (n.1, n.2 + 1)).

Definition check_page_free_list (end_ : Z) (only_low_memory : bool) : K unit :=
  let pdx_limit := if only_low_memory then 1 else NPDENTRIES in
  fl ← gets page_free_list;
  match fl with
  | None => panic "'page_free_list' is a null pointer!"
  | Some _ =>
    (if only_low_memory then low_first pdx_limit else mret tt);;
    for_pages (λ _ pp,
      if PDX (page2pa pp) <? pdx_limit then kva ← page2kva pp; kmemset kva 0x97 128 else mret tt) tt;;
    first_free_page ← boot_alloc end_ 0;
    n ← for_pages (check_free_page first_free_page) (0, 0);
    kassert (0 <? n.1) "nfree_basemem > 0";;
    kassert (0 <? n.2) "nfree_extmem > 0"
  end.

(** ** [check_page_alloc] *)

(** [assert((pp = page_alloc(flags)))], [assert(!page_alloc(0))] *)
Definition assert_alloc (flags : Z) : K Z :=
  o ← page_alloc flags;
  match o with Some p => mret p | None => panic "pp = page_alloc" end.
Definition assert_no_page : K unit :=
  o ← page_alloc 0;
  match o with Some _ => panic "!page_alloc(0)" | None => mret tt end.

Definition assert_distinct (pp0 pp1 pp2 : Z) : K unit :=
  kassert (negb (pp1 =? pp0)) "pp1 && pp1 != pp0";;
  kassert (negb (pp2 =? pp1) && negb (pp2 =? pp0)) "pp2 && pp2 != pp1 && pp2 != pp0".

Definition count_free : K Z := for_pages (λ n _, mret (n + 1)) 0.

Definition check_page_alloc (pages : Z) : K unit :=
  if pages =? 0 then panic "'pages' is a null pointer!"
  else
    nfree ← count_free;
    pp0 ← assert_alloc 0;
    pp1 ← assert_alloc 0;
    pp2 ← assert_alloc 0;
    assert_distinct pp0 pp1 pp2;;
    np ← gets npages;
    kassert (page2pa pp0 <? u32 (np * PGSIZE)) "page2pa(pp0) < npages*PGSIZE";;
    kassert (page2pa pp1 <? u32 (np * PGSIZE)) "page2pa(pp1) < npages*PGSIZE";;
    kassert (page2pa pp2 <? u32 (np * PGSIZE)) "page2pa(pp2) < npages*PGSIZE";;
    fl ← gets page_free_list;
    modify (set_page_free_list None);;
    assert_no_page;;
    page_free pp0;; page_free pp1;; page_free pp2;;
    pp0 ← assert_alloc 0;
    pp1 ← assert_alloc 0;
    pp2 ← assert_alloc 0;
    assert_distinct pp0 pp1 pp2;;
    assert_no_page;;
    kva ← page2kva pp0; kmemset kva 1 PGSIZE;;
    page_free pp0;;
    pp ← assert_alloc ALLOC_ZERO;
    kassert (pp0 =? pp) "pp && pp0 == pp";;
    c ← page2kva pp;
    mfor (seqZ 0 PGSIZE) (λ i, b ← gets (λ s, mem s (c + i - KERNBASE)); kassert (b =? 0) "c[i] == 0");;
    modify (set_page_free_list fl);;
    page_free pp0;; page_free pp1;; page_free pp2;;
    left ← count_free;
    kassert (nfree - left =? 0) "nfree == 0".

(** ** [check_page] *)

(** [pp->pp_ref], [pp->pp_link] *)
Definition page_ref (pp : Z) : K Z := pi ← get_page pp; mret (pp_ref pi).
Definition page_link (pp : Z) : K (option Z) := pi ← get_page pp; mret (pp_link pi).

Definition assert_ref (pp n : Z) : K unit := r ← page_ref pp; kassert (r =? n) "pp->pp_ref".
Definition assert_va2pa (kp va pa : Z) : K unit := r ← check_va2pa kp va; kassert (r =? pa) "check_va2pa(kern_pgdir, va)".
Definition assert_insert (kp pp va perm : Z) : K unit :=
  r ← page_insert kp pp va perm; kassert (r =? 0) "page_insert(kern_pgdir, pp, va, perm) == 0".
Definition assert_full (kp pp va perm : Z) : K unit :=
  r ← page_insert kp pp va perm; kassert (r <? 0) "page_insert(kern_pgdir, pp, va, perm) < 0".
Definition assert_again (pp : Z) : K unit := p ← assert_alloc 0; kassert (p =? pp) "(pp = page_alloc(0)) && pp == pp1".

(** [*pgdir_walk(kern_pgdir, va, 0)] *)
Definition walk_pte (kp va : Z) : K Z := o ← pgdir_walk kp va 0; p ← the o; kload32 p.
Definition clear_pte (kp va : Z) : K unit := o ← pgdir_walk kp va 0; p ← the o; kstore32 p 0.

(** The first part: three pages mapped at the first two pages of memory. *)
Definition check_page_maps (kp pp0 pp1 pp2 : Z) : K unit :=
  r ← page_lookup kp 0;
  kassert (bool_decide (r = None)) "page_lookup(kern_pgdir, (void *) 0x0, &ptep) == NULL";;
  assert_full kp pp1 0 PTE_W;;
  page_free pp0;;
  assert_insert kp pp1 0 PTE_W;;
  d ← kload32 (entry_addr kp 0);
  kassert (PTE_ADDR d =? page2pa pp0) "PTE_ADDR(kern_pgdir[0]) == page2pa(pp0)";;
  assert_va2pa kp 0 (page2pa pp1);;
  assert_ref pp1 1;; assert_ref pp0 1;;
  assert_insert kp pp2 PGSIZE PTE_W;;
  assert_va2pa kp PGSIZE (page2pa pp2);;
  assert_ref pp2 1;;
  assert_no_page;;
  assert_insert kp pp2 PGSIZE PTE_W;;
  assert_va2pa kp PGSIZE (page2pa pp2);;
  assert_ref pp2 1;;
  assert_no_page;;
  d ← kload32 (entry_addr kp (PDX PGSIZE));
  ptep ← KADDR (PTE_ADDR d);
  o ← pgdir_walk kp PGSIZE 0;
  kassert (bool_decide (o = Some (entry_addr ptep (PTX PGSIZE)))) "pgdir_walk(kern_pgdir, (void*)PGSIZE, 0) == ptep+PTX(PGSIZE)";;
  assert_insert kp pp2 PGSIZE (Z.lor PTE_W PTE_U);;
  assert_va2pa kp PGSIZE (page2pa pp2);;
  assert_ref pp2 1;;
  t ← walk_pte kp PGSIZE; kassert (negb (Z.land t PTE_U =? 0)) "*pgdir_walk(kern_pgdir, (void*) PGSIZE, 0) & PTE_U";;
  d ← kload32 (entry_addr kp 0); kassert (negb (Z.land d PTE_U =? 0)) "kern_pgdir[0] & PTE_U";;
  assert_insert kp pp2 PGSIZE PTE_W;;
  t ← walk_pte kp PGSIZE; kassert (negb (Z.land t PTE_W =? 0)) "*pgdir_walk(kern_pgdir, (void*) PGSIZE, 0) & PTE_W";;
  t ← walk_pte kp PGSIZE; kassert (Z.land t PTE_U =? 0) "!(*pgdir_walk(kern_pgdir, (void*) PGSIZE, 0) & PTE_U)".

(** The second part: one page at both addresses, and unmapping. *)
Definition check_page_unmaps (kp pp0 pp1 pp2 : Z) : K unit :=
  assert_full kp pp0 PTSIZE PTE_W;;
  assert_insert kp pp1 PGSIZE PTE_W;;
  t ← walk_pte kp PGSIZE; kassert (Z.land t PTE_U =? 0) "!(*pgdir_walk(kern_pgdir, (void*) PGSIZE, 0) & PTE_U)";;
  assert_va2pa kp 0 (page2pa pp1);;
  assert_va2pa kp PGSIZE (page2pa pp1);;
  assert_ref pp1 2;; assert_ref pp2 0;;
  assert_again pp2;;
  page_remove kp 0;;
  assert_va2pa kp 0 (u32 (-1));;
  assert_va2pa kp PGSIZE (page2pa pp1);;
  assert_ref pp1 1;; assert_ref pp2 0;;
  assert_insert kp pp1 PGSIZE 0;;
  r ← page_ref pp1; kassert (negb (r =? 0)) "pp1->pp_ref";;
  l ← page_link pp1; kassert (bool_decide (l = None)) "pp1->pp_link == NULL";;
  page_remove kp PGSIZE;;
  assert_va2pa kp 0 (u32 (-1));;
  assert_va2pa kp PGSIZE (u32 (-1));;
  assert_ref pp1 0;; assert_ref pp2 0;;
  assert_again pp1;;
  assert_no_page.

(** The third part: the page table is taken back, and new ones are clear. *)
Definition check_page_tables (kp pp0 : Z) : K unit :=
  d ← kload32 (entry_addr kp 0);
  kassert (PTE_ADDR d =? page2pa pp0) "PTE_ADDR(kern_pgdir[0]) == page2pa(pp0)";;
  kstore32 (entry_addr kp 0) 0;;
  assert_ref pp0 1;;
  set_ref pp0 0;;
  page_free pp0;;
  let va := PGSIZE * NPDENTRIES + PGSIZE in
  ptep ← pgdir_walk kp va 1;
  d ← kload32 (entry_addr kp (PDX va));
  ptep1 ← KADDR (PTE_ADDR d);
  kassert (bool_decide (ptep = Some (entry_addr ptep1 (PTX va)))) "ptep == ptep1 + PTX(va)";;
  kstore32 (entry_addr kp (PDX va)) 0;;
  set_ref pp0 0;;
  kva ← page2kva pp0; kmemset kva 0xff PGSIZE;;
  page_free pp0;;
  pgdir_walk kp 0 1;;
  ptep ← page2kva pp0;
  mfor (seqZ 0 NPTENTRIES) (λ i, t ← kload32 (entry_addr ptep i); kassert (Z.land t PTE_P =? 0) "(ptep[i] & PTE_P) == 0");;
  kstore32 (entry_addr kp 0) 0;;
  set_ref pp0 0.

(** The last part: device memory. *)
Definition check_page_mmio (kp : Z) : K unit :=
  mm1 ← mmio_map_region 0 4097;
  mm2 ← mmio_map_region 0 4096;
  kassert ((MMIOBASE <=? mm1) && (u32 (mm1 + 8192) <? MMIOLIM)) "mm1 >= MMIOBASE && mm1 + 8192 < MMIOLIM";;
  kassert ((MMIOBASE <=? mm2) && (u32 (mm2 + 8192) <? MMIOLIM)) "mm2 >= MMIOBASE && mm2 + 8192 < MMIOLIM";;
  kassert ((mm1 mod PGSIZE =? 0) && (mm2 mod PGSIZE =? 0)) "mm1 % PGSIZE == 0 && mm2 % PGSIZE == 0";;
  kassert (u32 (mm1 + 8192) <=? mm2) "mm1 + 8192 <= mm2";;
  assert_va2pa kp mm1 0;;
  assert_va2pa kp (u32 (mm1 + PGSIZE)) PGSIZE;;
  assert_va2pa kp mm2 0;;
  assert_va2pa kp (u32 (mm2 + PGSIZE)) (u32 (-1));;
  t ← walk_pte kp mm1;
  kassert (negb (Z.land t (Z.lor (Z.lor PTE_W PTE_PWT) PTE_PCD) =? 0)) "*pgdir_walk(kern_pgdir, (void*) mm1, 0) & (PTE_W|PTE_PWT|PTE_PCD)";;
  t ← walk_pte kp mm1;
  kassert (Z.land t PTE_U =? 0) "!(*pgdir_walk(kern_pgdir, (void*) mm1, 0) & PTE_U)";;
  clear_pte kp mm1;;
  clear_pte kp (u32 (mm1 + PGSIZE));;
  clear_pte kp mm2.

Definition check_page : K unit :=
  kp ← gets kern_pgdir;
  pp0 ← assert_alloc 0;
  pp1 ← assert_alloc 0;
  pp2 ← assert_alloc 0;
  assert_distinct pp0 pp1 pp2;;
  fl ← gets page_free_list;
  modify (set_page_free_list None);;
  assert_no_page;;
  check_page_maps kp pp0 pp1 pp2;;
  check_page_unmaps kp pp0 pp1 pp2;;
  check_page_tables kp pp0;;
  modify (set_page_free_list fl);;
  page_free pp0;; page_free pp1;; page_free pp2;;
  check_page_mmio kp.

(** ** [check_kern_pgdir] *)

Definition check_va2pa_large (pgdir va : Z) : K Z :=
  d ← kload32 (entry_addr pgdir (PDX va));
  if (Z.land d PTE_P =? 0) || (Z.land d PTE_PS =? 0) then mret (u32 (-1)) else mret (PTE_ADDR d).

(** [for (i = 0; i < n; i += step)] *)
Definition upto (n step : Z) : list Z := (λ k, k * step) <$> seqZ 0 ((n + step - 1) / step).

(** The permissions of entry [i] of the directory. *)
Definition check_pde (pgdir i : Z) : K unit :=
  d ← kload32 (entry_addr pgdir i);
  if bool_decide (i ∈ [PDX UVPT; PDX (KSTACKTOP - 1); PDX UPAGES; PDX UENVS; PDX MMIOBASE])
  then kassert (negb (Z.land d PTE_P =? 0)) "pgdir[i] & PTE_P"
  else if PDX KERNBASE <=? i then
    kassert (negb (Z.land d PTE_P =? 0)) "pgdir[i] & PTE_P";;
    kassert (negb (Z.land d PTE_W =? 0)) "pgdir[i] & PTE_W"
  else kassert (d =? 0) "pgdir[i] == 0".

Section boot.
(** What the linker provides: the end of the kernel, the boot stack and the
    stacks of the CPUs; and the contents of the clock chip's memory. *)
Context (end_ bootstack : Z) (percpu_kstacks : Z → Z) (cmos : Z → Z).

Definition check_stack (pgdir n : Z) : K unit :=
  let base := u32 (KSTACKTOP - (KSTKSIZE + KSTKGAP) * (n + 1)) in
  mfor (upto KSTKSIZE PGSIZE) (λ i,
    pa ← PADDR (percpu_kstacks n);
    assert_va2pa pgdir (u32 (base + KSTKGAP + i)) (u32 (pa + i)));;
  mfor (upto KSTKGAP PGSIZE) (λ i, assert_va2pa pgdir (u32 (base + i)) (u32 (-1))).

Definition check_kern_pgdir (pages envs : Z) : K unit :=
  pgdir ← gets kern_pgdir;
  np ← gets npages;
  mfor (upto (ROUNDUP (u32 (np * SIZEOF_PAGEINFO)) PGSIZE) PGSIZE) (λ i,
    pa ← PADDR pages; assert_va2pa pgdir (u32 (UPAGES + i)) (u32 (pa + i)));;
  mfor (upto (ROUNDUP (NENV * SIZEOF_ENV) PGSIZE) PGSIZE) (λ i,
    pa ← PADDR envs; assert_va2pa pgdir (u32 (UENVS + i)) (u32 (pa + i)));;
  large ← check_va2pa_large pgdir KERNBASE;
  (if large =? 0 then
     mfor (upto (u32 (np * PGSIZE)) PTSIZE) (λ i,
       r ← check_va2pa_large pgdir (u32 (KERNBASE + i)); kassert (r =? i) "check_va2pa_large(pgdir, KERNBASE + i) == i")
   else mfor (upto (u32 (np * PGSIZE)) PGSIZE) (λ i, assert_va2pa pgdir (u32 (KERNBASE + i)) i));;
  mfor (seqZ 0 NCPU) (check_stack pgdir);;
  mfor (seqZ 0 NPDENTRIES) (check_pde pgdir).

(** ** [check_page_installed_pgdir] *)

Definition check_page_installed_pgdir : K unit :=
  kp ← gets kern_pgdir;
  pp0 ← assert_alloc 0;
  pp1 ← assert_alloc 0;
  pp2 ← assert_alloc 0;
  page_free pp0;;
  kva ← page2kva pp1; kmemset kva 1 PGSIZE;;
  kva ← page2kva pp2; kmemset kva 2 PGSIZE;;
  _ ← page_insert kp pp1 PGSIZE PTE_W;
  assert_ref pp1 1;;
  v ← vload32 PGSIZE; kassert (v =? 0x01010101) "*(uint32_t *)PGSIZE == 0x01010101U";;
  _ ← page_insert kp pp2 PGSIZE PTE_W;
  v ← vload32 PGSIZE; kassert (v =? 0x02020202) "*(uint32_t *)PGSIZE == 0x02020202U";;
  assert_ref pp2 1;; assert_ref pp1 0;;
  vstore32 PGSIZE 0x03030303;;
  kva ← page2kva pp2; v ← kload32 kva;
  kassert (v =? 0x03030303) "*(uint32_t *)page2kva(pp2) == 0x03030303U";;
  page_remove kp PGSIZE;;
  assert_ref pp2 0;;
  d ← kload32 (entry_addr kp 0);
  kassert (PTE_ADDR d =? page2pa pp0) "PTE_ADDR(kern_pgdir[0]) == page2pa(pp0)";;
  kstore32 (entry_addr kp 0) 0;;
  assert_ref pp0 1;;
  set_ref pp0 0;;
  page_free pp0.

(** ** [mem_init] *)

(** [memset(pages, 0, n)]: the descriptors that lie in the first [n] bytes are
    cleared.  Bytes behind the pages allocated for the array are not its own. *)
Definition clear_pages (n : Z) : K unit :=
  np ← gets npages;
  if ROUNDUP (u32 (np * SIZEOF_PAGEINFO)) PGSIZE <? n then stop Undefined
  else mfor (seqZ 0 (Z.min np (n / SIZEOF_PAGEINFO))) (λ i, put_page i (mkPageInfo None 0)).

(** The page directory and the arrays; the result is [pages] and [envs]. *)
Definition mem_init_arrays : K (Z * Z) :=
  kp ← boot_alloc end_ PGSIZE;
  modify (set_kern_pgdir kp);;
  kmemset kp 0 PGSIZE;;
  pa ← PADDR kp;
  kstore32 (entry_addr kp (PDX UVPT)) (Z.lor (Z.lor pa PTE_U) PTE_P);;
  np ← gets npages;
  pages ← boot_alloc end_ (u32 (np * SIZEOF_PAGEINFO));
  clear_pages (u32 (np * SIZEOF_PAGEINFO));;
  envs ← boot_alloc end_ (NENV * SIZEOF_ENV);
  clear_pages (NENV * SIZEOF_ENV);;
  mret (pages, envs).

Definition mem_init_mp : K unit :=
  kp ← gets kern_pgdir;
  mfor (seqZ 0 NCPU) (λ i,
    let kstacktop_i := u32 (KSTACKTOP - i * (KSTKSIZE + KSTKGAP)) in
    pa ← PADDR (percpu_kstacks i);
    boot_map_region kp (u32 (kstacktop_i - KSTKSIZE)) KSTKSIZE pa (Z.lor PTE_W PTE_P)).

(** The mappings above [UTOP]. *)
Definition mem_init_map (pages envs : Z) : K unit :=
  kp ← gets kern_pgdir;
  np ← gets npages;
  let size_pages := ROUNDUP (u32 (SIZEOF_PAGEINFO * np)) PGSIZE in
  pa ← PADDR pages;
  boot_map_region kp UPAGES size_pages pa (Z.lor PTE_U PTE_P);;
  pa ← PADDR envs;
  boot_map_region kp UENVS PTSIZE pa (Z.lor PTE_U PTE_P);;
  pa ← PADDR bootstack;
  boot_map_region kp (KSTACKTOP - KSTKSIZE) (ROUNDUP KSTKSIZE PGSIZE) pa (Z.lor PTE_W PTE_P);;
  boot_map_region kp KERNBASE (u32 (- KERNBASE)) 0 PTE_W;;
  mem_init_mp.

Definition mem_init : K (Z * Z) :=
  i386_detect_memory cmos;;
  r ← mem_init_arrays;
  let '(pages, envs) := r in
  page_init end_;;
  check_page_free_list end_ true;;
  check_page_alloc pages;;
  check_page;;
  mem_init_map pages envs;;
  check_kern_pgdir pages envs;;
  kp ← gets kern_pgdir;
  lcr3 kp;;
  check_page_free_list end_ false;;
  check_page_installed_pgdir;;
  mret (pages, envs).

End boot.
