(* ===== verification/BootMap.v ===== *)
(** * The kernel's part of the address space

    [kpd s pd fl] is the invariant of the kernel's page directory while
    [mem_init] builds it: nothing is mapped below [UTOP], the slot of [UVPT]
    is the directory itself, and every other slot is empty or holds a page
    table of its own.  [kpte] is the mapping it denotes above [UTOP], by page
    number.  The lemmas: what [boot_map_region] does to that mapping. *)

From S2P Require Import Prelude Mmu Console KState PageAlloc PageTable AddrSpace PageInsert VmFrame Env MemInit.
Open Scope Z_scope.

(** ** The invariant *)

Definition kidx (i : Z) : Prop := UPDX <= i < 1024 ∧ i ≠ PDX UVPT.

Record kpd (s : kstate) (pd : Z) (fl : list Z) : Prop := mk_kpd {
  k_mem : mem_ok (mem s);
  k_phys : phys_ok s;
  k_free : free_list s fl;
  k_pd : 0 <= pd < npages s;
  k_pdfl : pd ∉ fl;
  k_user : ∀ i, uidx i → entry s pd i = 0;
  k_self : entry s pd (PDX UVPT) = pd * 4096 + 5;
  k_tab : ∀ i, kidx i → entry s pd i = 0 ∨
    ∃ f, entry s pd i = f * 4096 + 7 ∧ 0 <= f < npages s ∧ f ∉ fl ∧ f ≠ pd;
  k_inj : ∀ i i', kidx i → kidx i' → entry s pd i ≠ 0 → entry s pd i = entry s pd i' → i = i';
  k_ref : ∀ p pi, pages s !! p = Some pi → 0 <= pp_ref pi < 2 ^ 16;
}.

Lemma kidx_idx i : kidx i → idx i.
Proof. unfold kidx, idx. rewrite UPDX_eq. lia. Qed.

Lemma present_7 f : present (f * 4096 + 7) = true.
Proof. rewrite present_odd. replace (f * 4096 + 7) with (1 + 2 * (f * 2048 + 3)) by lia. by rewrite Z.odd_add_mul_2. Qed.

(** Below [UTOP] nothing is mapped, so the invariant of the virtual-memory
    system holds. *)
Lemma kpd_no_pte s pd fl x : kpd s pd fl → x ∈ slots [pd] → pte_of s x = None.
Proof.
  intros H. destruct x as [[q i] j]. intros ([->|[]%not_elem_of_nil]%elem_of_cons & Hi & _)%elem_of_slots.
  unfold pte_of, lookup_pte. cbn [fst snd]. by rewrite (k_user _ _ _ H) by done.
Qed.

Lemma kpd_vm s pd fl : kpd s pd fl → vm_ok s [pd] fl.
Proof.
  intros H. assert (HU : ∀ q i, q ∈ [pd] → uidx i → present (entry s q i) = false).
  { intros q i ->%list_elem_of_singleton Hi. by rewrite (k_user _ _ _ H). }
  constructor; [apply H|apply H|apply H|apply NoDup_singleton| | | | |].
  - intros q ->%list_elem_of_singleton. split; [apply (k_pd _ _ _ H)|apply (k_pdfl _ _ _ H)].
  - intros q i Hq Hi. by rewrite HU.
  - intros q i q' i' Hq _ Hi _. by rewrite HU.
  - intros x t Hx. by rewrite (kpd_no_pte s pd fl).
  - intros p pi Hp. pose proof (k_ref _ _ _ H p pi Hp) as Hr. split; [|lia].
    unfold nmaps. rewrite (filter_length_iff (λ _, False) (maps s p)); [|].
    + assert (filter (λ _ : slot, False) (slots [pd]) = []) as -> by (induction (slots [pd]); done). simpl. lia.
    + intros x Hx. unfold maps. by rewrite (kpd_no_pte s pd fl).
Qed.

(** ** The mapping above [UTOP], by page number *)

Definition kpage (v : Z) : Prop := kidx (v / 1024).
Definition kpte (s : kstate) (pd v : Z) : option Z := lookup_pte s pd (v / 1024) (v mod 1024).

Lemma page_mod v : idx (v mod 1024).
Proof. unfold idx. apply Z.mod_pos_bound. lia. Qed.

Lemma page_split u v : u / 1024 = v / 1024 → u mod 1024 = v mod 1024 → u = v.
Proof. intros. Z.to_euclidean_division_equations. lia. Qed.

Lemma kpte_absent s pd v : entry s pd (v / 1024) = 0 → kpte s pd v = None.
Proof. intros H. unfold kpte, lookup_pte. by rewrite H. Qed.

Lemma kpte_table s pd v f :
  entry s pd (v / 1024) = f * 4096 + 7 →
  kpte s pd v = let t := entry s f (v mod 1024) in if present t then Some t else None.
Proof. intros H. unfold kpte, lookup_pte. by rewrite H, present_7, PGNUM_frame by lia. Qed.

Definition pte_val (w : Z) : option Z := if present w then Some w else None.

(** A store into an entry of a page table. *)
Lemma kpd_store s pd fl v f w :
  kpd s pd fl → kpage v → entry s pd (v / 1024) = f * 4096 + 7 → is_u32 w →
  let s' := set_mem (st32 (mem s) (f * 4096 + 4 * (v mod 1024)) w) s in
  kpd s' pd fl ∧ (∀ i, idx i → entry s' pd i = entry s pd i) ∧
  (∀ u, kpage u → kpte s' pd u = if decide (u = v) then pte_val w else kpte s pd u).
Proof.
  intros H Hv Hf Hw s'. pose proof (page_mod v) as Hm.
  assert (Hfp : f ≠ pd).
  { destruct (k_tab _ _ _ H (v / 1024) Hv) as [E|(g & E & _ & _ & ?)]; [pose proof (phys_npages s (k_phys _ _ _ H)); pose proof (entry_u32 s pd (v / 1024) (k_mem _ _ _ H)) as Hu; unfold is_u32 in Hu; lia|].
    assert (f = g) as -> by lia. done. }
  assert (HE : ∀ i, idx i → entry s' pd i = entry s pd i).
  { intros i Hi. unfold s'. erewrite entry_store; [|exact Hm|done|exact Hw|reflexivity]. rewrite decide_False; [done|by intros [? _]]. }
  split; [|split; [done|]].
  - constructor; [by apply st32_ok, H|destruct (k_phys _ _ _ H); by constructor|exact (k_free _ _ _ H)|exact (k_pd _ _ _ H)
      |exact (k_pdfl _ _ _ H)| | | | |exact (k_ref _ _ _ H)].
    + intros i Hi. rewrite HE by (by apply uidx_idx). by apply (k_user _ _ _ H).
    + rewrite HE by (unfold idx; apply PDX_range). apply (k_self _ _ _ H).
    + intros i Hi. rewrite HE by (by apply kidx_idx). by apply (k_tab _ _ _ H).
    + intros i i' Hi Hi'. rewrite !HE by (by apply kidx_idx). by apply (k_inj _ _ _ H).
  - intros u Hu. destruct (k_tab _ _ _ H (u / 1024) Hu) as [E|(g & E & Hg & _)].
    + rewrite !kpte_absent; [|done|by rewrite HE by (by apply kidx_idx)].
      rewrite decide_False; [done|]. intros ->. rewrite Hf in E. pose proof (entry_u32 s pd (v / 1024) (k_mem _ _ _ H)) as Hx. unfold is_u32 in Hx. lia.
    + rewrite (kpte_table s' pd u g), (kpte_table s pd u g) by (rewrite ?HE by (by apply kidx_idx); done). cbv zeta.
      unfold s'. erewrite entry_store; [|exact Hm|apply page_mod|exact Hw|reflexivity].
      destruct (decide (u = v)) as [->|Hne]; [assert (g = f) as -> by lia; by rewrite decide_True|].
      rewrite decide_False; [done|]. intros [-> Hmod]. apply Hne, page_split; [|done].
      apply (k_inj _ _ _ H); [done|done|lia|congruence].
Qed.

(** A new page table in an empty slot. *)
Lemma kpd_new_table s pd n l i :
  kpd s pd (n :: l) → kidx i → entry s pd i = 0 →
  let s' := new_table s pd i n l in
  kpd s' pd l ∧ entry s' pd i = n * 4096 + 7 ∧ (∀ i', idx i' → i' ≠ i → entry s' pd i' = entry s pd i') ∧
  (∀ u, kpage u → kpte s' pd u = kpte s pd u).
Proof.
  intros H Hi H0 s'. pose proof (kidx_idx i Hi) as Hii. pose proof (phys_npages s (k_phys _ _ _ H)) as Hnp.
  pose proof (free_list_range s _ n (k_phys _ _ _ H) (k_free _ _ _ H) ltac:(by left)) as Hn.
  pose proof (k_pdfl _ _ _ H) as [Hpn Hpl]%not_elem_of_cons.
  destruct (k_free _ _ _ H) as [(_ & link & Hlk & Hch) [Hnl Hnd]%NoDup_cons].
  assert (HE : ∀ f j, idx j → entry s' f j = if decide (f = pd ∧ j = i) then n * 4096 + 7 else if decide (f = n) then 0 else entry s f j).
  { intros f j Hj. apply new_table_entry; [lia|done|done]. }
  assert (HI : entry s' pd i = n * 4096 + 7) by (rewrite HE by done; by rewrite decide_True).
  assert (HO : ∀ i', idx i' → i' ≠ i → entry s' pd i' = entry s pd i').
  { intros i' Hi' Hne. rewrite HE by done. rewrite decide_False by (by intros [_ ?]). by rewrite decide_False. }
  assert (HT : ∀ j, kidx j → j ≠ i → entry s pd j = 0 ∨ ∃ f, entry s pd j = f * 4096 + 7 ∧ 0 <= f < npages s ∧ f ∉ l ∧ f ≠ pd ∧ f ≠ n).
  { intros j Hj _. destruct (k_tab _ _ _ H j Hj) as [?|(f & ? & ? & Hf & ?)]; [by left|right]. exists f. set_solver. }
  split; [|split; [done|split; [done|]]].
  - constructor.
    + apply st32_ok, mem_set_ok, H.
    + by apply (pages_insert_dom s n (mkPageInfo (head l) 1)) in Hn as [? ?]; [constructor|apply H].
    + split; [|done]. cbn. rewrite <- (chain_head _ _ _ Hch). by apply chain_insert_ne.
    + apply (k_pd _ _ _ H).
    + done.
    + intros j Hj. rewrite HO; [by apply (k_user _ _ _ H)|by apply uidx_idx|]. intros ->. unfold uidx, kidx in *. lia.
    + rewrite HO; [apply (k_self _ _ _ H)|unfold idx; apply PDX_range|]. unfold kidx in Hi. intros E. by apply Hi.
    + intros j Hj. destruct (decide (j = i)) as [->|Hne]; [right; exists n; done|].
      rewrite HO by (done || by apply kidx_idx). destruct (HT j Hj Hne) as [?|(f & ? & ? & ? & ? & ?)]; [by left|right; by exists f].
    + intros j j' Hj Hj'. destruct (decide (j = i)) as [->|Hne], (decide (j' = i)) as [->|Hne']; [done| | |].
      * rewrite HI, HO by (done || by apply kidx_idx). intros _ E. destruct (HT j' Hj' Hne') as [?|(f & ? & ? & ? & ? & ?)]; lia.
      * rewrite HI, HO by (done || by apply kidx_idx). intros _ E. destruct (HT j Hj Hne) as [?|(f & ? & ? & ? & ? & ?)]; lia.
      * rewrite !HO by (done || by apply kidx_idx). by apply (k_inj _ _ _ H).
    + intros p pi. cbn. rewrite lookup_insert. case_decide; [intros [= <-]; cbn; lia|apply (k_ref _ _ _ H)].
  - intros u Hu. destruct (decide (u / 1024 = i)) as [<-|Hne].
    + rewrite (kpte_table s' pd u n HI). cbv zeta. rewrite HE by apply page_mod.
      rewrite decide_False by (intros [? _]; done). rewrite decide_True by done. by rewrite (kpte_absent s pd u H0).
    + destruct (HT (u / 1024) Hu Hne) as [E|(f & E & ? & ? & ? & ?)].
      * rewrite !kpte_absent; [done|done|]. by rewrite HO by (done || by apply kidx_idx).
      * rewrite (kpte_table s' pd u f), (kpte_table s pd u f) by (rewrite ?HO by (done || by apply kidx_idx); done). cbv zeta.
        rewrite HE by apply page_mod. rewrite decide_False by (by intros [? _]). by rewrite decide_False.
Qed.

(** ** Steps of the construction *)

(** The slots above [UTOP] that have no page table. *)
Definition empty_slots (s : kstate) (pd : Z) : nat := length (filter (λ i, entry s pd i = 0) (seqZ UPDX (1024 - UPDX))).

(** [s'] comes from [s] by changes of the mapping: tables are added, from the
    front of the free list, and [F] tells the new entries from the old. *)
Record built (pd : Z) (s s' : kstate) (fl fl' : list Z) (F : Z → option Z → option Z) : Prop := mk_built {
  b_kpd : kpd s' pd fl';
  b_only : only_vm s s';
  b_tabs : ∃ tabs, fl = tabs ++ fl' ∧ (length tabs + empty_slots s' pd = empty_slots s pd)%nat;
  b_keep : ∀ i, kidx i → entry s pd i ≠ 0 → entry s' pd i = entry s pd i;
  b_map : ∀ u, kpage u → kpte s' pd u = F u (kpte s pd u);
}.

Lemma built_refl pd s fl : kpd s pd fl → built pd s s fl fl (λ _ o, o).
Proof. intros H. constructor; [done|apply only_vm_refl|by exists []|done|done]. Qed.

Lemma built_trans pd s1 s2 s3 fl1 fl2 fl3 F G :
  built pd s1 s2 fl1 fl2 F → built pd s2 s3 fl2 fl3 G → built pd s1 s3 fl1 fl3 (λ u o, G u (F u o)).
Proof.
  intros [_ Ho1 (t1 & Ht1 & Hc1) Hk1 Hm1] [H2 Ho2 (t2 & Ht2 & Hc2) Hk2 Hm2]. constructor; [done|by eapply only_vm_trans| | |].
  - exists (t1 ++ t2). rewrite Ht1, Ht2, (assoc_L (++)), length_app. split; [done|lia].
  - intros i Hi H0. rewrite Hk2; [by apply Hk1|done|]. by rewrite Hk1.
  - intros u Hu. by rewrite Hm2, Hm1.
Qed.

Lemma built_ext pd s s' fl fl' F G :
  (∀ u o, kpage u → F u o = G u o) → built pd s s' fl fl' F → built pd s s' fl fl' G.
Proof. intros HF [? ? ? ? Hm]. constructor; try done. intros u Hu. by rewrite Hm, HF. Qed.

(** There are pages enough for the missing tables. *)
Definition room (s : kstate) (pd : Z) (fl : list Z) : Prop := (empty_slots s pd <= length fl)%nat.

Lemma built_room pd s s' fl fl' F : built pd s s' fl fl' F → room s pd fl → room s' pd fl'.
Proof. intros [_ _ (t & -> & ?) _ _]. unfold room. rewrite length_app. lia. Qed.

Lemma kpage_range v : kpage v → 977920 <= v < 1048576 ∧ v / 1024 ≠ 957.
Proof.
  unfold kpage, kidx. rewrite UPDX_eq. change (PDX UVPT) with 957. intros [H ?]. split; [|done].
  Z.to_euclidean_division_equations. lia.
Qed.

Lemma page_PDX v : 0 <= v < 1048576 → PDX (v * 4096) = v / 1024 ∧ PTX (v * 4096) = v mod 1024.
Proof. intros. rewrite PDX_div, PTX_div. split; Z.to_euclidean_division_equations; lia. Qed.

(** The table that [pgdir_walk] finds or makes. *)
Lemma built_walk s pd fl v :
  kpd s pd fl → kpage v → room s pd fl →
  ∃ s' fl' f, pgdir_walk (kaddr pd) (v * 4096) 1 s = (Ret (Some (entry_addr (kaddr f) (v mod 1024))), s') ∧
    entry s' pd (v / 1024) = f * 4096 + 7 ∧ 0 <= f < npages s' ∧ built pd s s' fl fl' (λ _ o, o).
Proof.
  intros H Hv Hroom. pose proof (kpage_range v Hv) as [Hr _]. destruct (page_PDX v ltac:(lia)) as [EX ET].
  destruct (k_tab _ _ _ H (v / 1024) Hv) as [H0|(f & Hf & Hfr & _)].
  - assert (Hin : v / 1024 ∈ seqZ UPDX (1024 - UPDX)) by (destruct Hv; apply elem_of_seqZ; lia).
    destruct fl as [|n l].
    { unfold room, empty_slots in Hroom. pose proof (filter_length_pos (λ i, entry s pd i = 0) _ _ Hin H0). cbn in Hroom. lia. }
    destruct (kpd_new_table s pd n l (v / 1024) H Hv H0) as (HK & HI & HO & HM).
    pose proof (free_list_range s _ n (k_phys _ _ _ H) (k_free _ _ _ H) ltac:(by left)) as Hn.
    exists (new_table s pd (v / 1024) n l), l, n. split; [|split; [done|split; [done|]]].
    + rewrite <- EX, <- ET. apply walk_create; [apply H|apply (k_pd _ _ _ H)|apply (k_free _ _ _ H)|by rewrite EX, H0|done].
    + constructor; [done|apply only_vm_new_table| | |done].
      * exists [n]. split; [done|].
        set (s1 := new_table s pd (v / 1024) n l) in *.
        assert (HQ : ∀ i, i ∈ seqZ UPDX (1024 - UPDX) → i ≠ v / 1024 → entry s pd i = 0 ↔ entry s1 pd i = 0).
        { intros i (Hlo & Hhi)%elem_of_seqZ Hne. rewrite HO; [done| |done]. unfold idx. rewrite UPDX_eq in *. lia. }
        pose proof (filter_length_update (λ i, entry s pd i = 0) (λ i, entry s1 pd i = 0) _ _ (NoDup_seqZ _ _) Hin HQ) as E.
        cbv beta in E. unfold empty_slots. rewrite decide_True in E by done. rewrite decide_False in E by lia. cbn [length]. lia.
      * intros i Hi Hne. apply HO; [by apply kidx_idx|]. by intros ->.
  - exists s, fl, f. split; [|split; [done|split; [done|by apply built_refl]]].
    rewrite <- ET. rewrite <- (PGNUM_frame f 7), <- Hf by lia. rewrite <- EX at 1. apply walk_present; [apply H|apply H|apply (k_pd _ _ _ H)| |].
    + by rewrite EX, Hf, present_7.
    + rewrite EX, Hf, PGNUM_frame by lia. lia.
Qed.

Definition map_page (kp va w : Z) : K unit :=
  newPTE ← pgdir_walk kp va 1;
  p ← the newPTE;
  kstore32 p w.

Lemma built_map_page s pd fl v w :
  kpd s pd fl → kpage v → room s pd fl → is_u32 w →
  ∃ s' fl', map_page (kaddr pd) (v * 4096) w s = (Ret tt, s') ∧
    built pd s s' fl fl' (λ u o, if decide (u = v) then pte_val w else o).
Proof.
  intros H Hv Hroom Hw. destruct (built_walk s pd fl v H Hv Hroom) as (s1 & fl1 & f & Hrun & Hf & Hfr & HB).
  destruct (kpd_store s1 pd fl1 v f w (b_kpd _ _ _ _ _ _ HB) Hv Hf Hw) as (HK & HE & HM).
  eexists _, fl1. split.
  - unfold map_page. mrun (exact Hrun). unfold the. mstep. rewrite kstore_entry. rewrite u32_small by done. reflexivity.
  - apply (built_trans pd s s1 _ fl fl1 fl1 (λ _ o, o) (λ u o, if decide (u = v) then pte_val w else o) HB).
    constructor; [exact HK| | | |exact HM].
    + unfold only_vm. by destruct s1.
    + exists []. split; [done|]. unfold empty_slots. cbn [length plus]. apply filter_length_iff.
      intros i (Hlo & Hhi)%elem_of_seqZ. rewrite HE; [done|]. unfold idx. rewrite UPDX_eq in *. lia.
    + intros i Hi _. apply HE. by apply kidx_idx.
Qed.

(** The entry [boot_map_region] writes for the frame [f]. *)
Lemma region_pte f perm :
  0 <= f < 1048576 → 0 <= perm < 4096 →
  is_u32 (new_pte f perm) ∧ Z.lor (Z.lor (f * 4096) perm) PTE_P = new_pte f perm ∧ present (new_pte f perm) = true.
Proof.
  intros Hf Hp. pose proof (perm_P perm Hp). unfold new_pte. split_and!.
  - unfold is_u32. lia.
  - rewrite <- Z.lor_assoc. by apply pte_lor.
  - rewrite present_odd, Z.odd_add. replace (f * 4096) with (2 * (f * 2048)) by lia.
    rewrite Z.odd_mul. cbn [Z.odd andb xorb]. rewrite <- !Z.bit0_odd, Z.lor_spec. by rewrite orb_true_r.
Qed.

(** The mapping of [n] pages from page [v] on to the frames from [f] on. *)
Definition region (v n f perm u : Z) (o : option Z) : option Z :=
  if decide (v <= u < v + n) then Some (new_pte (f + (u - v)) perm) else o.

Definition kregion (v n : Z) : Prop := ∀ u, v <= u < v + n → kpage u.

Lemma mfor_ext {S E X} (l : list X) (f g : X → M S E unit) :
  (∀ x s, x ∈ l → f x s = g x s) → ∀ s, mfor l f s = mfor l g s.
Proof.
  induction l as [|x l IH]; intros H s; [done|]. cbn [mfor]. unfold mbind, M_bind. rewrite H by set_solver.
  destruct (g x s) as [[?|?] s']; [|done]. apply IH. intros; apply H; set_solver.
Qed.

Lemma built_loop pd perm v f n k s fl :
  kpd s pd fl → room s pd fl → 0 <= perm < 4096 → 0 <= f → f + k + Z.of_nat n <= 1048576 → 0 <= k →
  kregion (v + k) (Z.of_nat n) →
  ∃ s' fl', mfor (seqZ k (Z.of_nat n)) (λ i, map_page (kaddr pd) ((v + i) * 4096) (new_pte (f + i) perm)) s = (Ret tt, s') ∧
    built pd s s' fl fl' (region (v + k) (Z.of_nat n) (f + k) perm).
Proof.
  intros H Hroom Hp Hf. revert k s fl H Hroom; induction n as [|n IH]; intros k s fl H Hroom Hk Hk0 Hreg.
  { exists s, fl. split; [done|]. eapply built_ext; [|by apply built_refl].
    intros u o _. unfold region. by rewrite decide_False by lia. }
  rewrite seqZ_cons by lia. cbn [mfor].
  destruct (region_pte (f + k) perm ltac:(lia) Hp) as (Hu & _ & Hpr).
  destruct (built_map_page s pd fl (v + k) (new_pte (f + k) perm) H ltac:(apply Hreg; lia) Hroom Hu) as (s1 & fl1 & Hrun & HB).
  destruct (IH (Z.succ k) s1 fl1 (b_kpd _ _ _ _ _ _ HB) (built_room _ _ _ _ _ _ HB Hroom) ltac:(lia) ltac:(lia)) as (s2 & fl2 & Hrun2 & HB2).
  { intros u Hu'. apply Hreg. lia. }
  exists s2, fl2. split.
  - mrun (exact Hrun). replace (Z.pred (Z.of_nat (S n))) with (Z.of_nat n) by lia. exact Hrun2.
  - eapply built_ext; [|exact (built_trans _ _ _ _ _ _ _ _ _ HB HB2)].
    intros u o _. unfold region, pte_val. rewrite Hpr. repeat case_decide; try lia; try done; subst; do 2 f_equal; lia.
Qed.

(** [boot_map_region] maps the pages of the region and changes no other
    mapping above [UTOP]. *)
Lemma boot_map_region_built pd perm v f n s fl :
  kpd s pd fl → room s pd fl → 0 <= perm < 4096 → 0 <= f → f + n <= 1048576 → 0 <= n → 0 <= v → v + n <= 1048576 → n < 1048576 →
  kregion v n →
  ∃ s' fl', boot_map_region (kaddr pd) (v * 4096) (n * 4096) (f * 4096) perm s = (Ret tt, s') ∧
    built pd s s' fl fl' (region v n f perm).
Proof.
  intros H Hroom Hp Hf Hfn Hn Hv Hvn Hn2 Hreg.
  destruct (decide (n = 0)) as [->|Hn0].
  { exists s, fl. split.
    - unfold boot_map_region, PGSIZE. rewrite Z.mul_0_l, Z.add_0_r, Z.sub_diag. done.
    - eapply built_ext; [|by apply built_refl]. intros u o _. unfold region. by rewrite decide_False by lia. }
  destruct (built_loop pd perm v f (Z.to_nat n) 0 s fl H Hroom Hp Hf ltac:(lia) ltac:(lia)) as (s' & fl' & Hrun & HB).
  { rewrite Z.add_0_r, Z2Nat.id by lia. done. }
  rewrite !Z.add_0_r, Z2Nat.id in HB by lia. exists s', fl'. split; [|done].
  rewrite Z2Nat.id in Hrun by lia. unfold boot_map_region. rewrite !ROUNDUP_aligned by lia.
  assert (Hsz : u32 (ROUNDUP (v * 4096 + n * 4096) PGSIZE - v * 4096) / PGSIZE = n).
  { unfold PGSIZE. destruct (decide (v + n = 1048576)) as [E|].
    - assert (ROUNDUP (v * 4096 + n * 4096) 4096 = 0) as -> by (replace (v * 4096 + n * 4096) with 4294967296 by lia; done).
      unfold u32. replace (0 - v * 4096) with (n * 4096 + (-1) * 2 ^ 32) by lia. rewrite Z.mod_add by lia.
      rewrite Z.mod_small by lia. apply Z.div_mul. lia.
    - replace (v * 4096 + n * 4096) with ((v + n) * 4096) by lia. rewrite ROUNDUP_aligned by lia.
      rewrite u32_small by lia. replace ((v + n) * 4096 - v * 4096) with (n * 4096) by lia. apply Z.div_mul. lia. }
  rewrite Hsz. rewrite <- Hrun. apply mfor_ext. intros i s1 (Hi1 & Hi2)%elem_of_seqZ. unfold map_page, PGSIZE.
  replace (v * 4096 + i * 4096) with ((v + i) * 4096) by lia. replace (f * 4096 + i * 4096) with ((f + i) * 4096) by lia.
  rewrite !u32_small by lia. destruct (region_pte (f + i) perm ltac:(lia) Hp) as (_ & -> & _). done.
Qed.

(** ** The layout of [inc/memlayout.h] *)

(** The stacks of CPUs [k] to [k + n - 1]: each 8 pages, with 8 pages below
    them that are not mapped. *)
Definition stacks (C : Z → Z) (k n u : Z) (o : option Z) : option Z :=
  let d := PGNUM KSTACKTOP - 1 - u in
  if decide (0 <= d ∧ k <= d / 16 < k + n ∧ d mod 16 < 8)
  then Some (new_pte (C (d / 16) + 7 - d mod 16) (Z.lor PTE_W PTE_P)) else o.

(** What is mapped above [UTOP], apart from the page tables at [UVPT]: the
    descriptors at [UPAGES], 4 MB from the environment table on at [UENVS],
    the stacks below [KSTACKTOP], and all of physical memory at [KERNBASE].
    The arguments are the frames of the arrays, of the boot stack and of the
    stacks of the CPUs. *)
Definition array_pages (np : Z) : Z := (np * SIZEOF_PAGEINFO + 4095) / 4096.

Definition kern_layout (np P E : Z) (C : Z → Z) (u : Z) : option Z :=
  if decide (PGNUM UPAGES <= u < PGNUM UPAGES + array_pages np) then Some (new_pte (P + (u - PGNUM UPAGES)) (Z.lor PTE_U PTE_P))
  else if decide (PGNUM UENVS <= u < PGNUM UENVS + 1024) then Some (new_pte (E + (u - PGNUM UENVS)) (Z.lor PTE_U PTE_P))
  else if decide (PGNUM KERNBASE <= u) then Some (new_pte (u - PGNUM KERNBASE) PTE_W)
  else stacks C 0 8 u None.

Ltac perm_ok := split; [discriminate|reflexivity].

(** Arithmetic on the page numbers of the layout. *)
Ltac vpage :=
  change (PGNUM UPAGES) with 978944; change (PGNUM UENVS) with 977920;
  change (PGNUM KERNBASE) with 983040; change (PGNUM KSTACKTOP) with 983040; lia.

Section layout.
Context (percpu_kstacks : Z → Z) (pd : Z) (C : Z → Z).
Hypothesis HC : ∀ i, 0 <= i < NCPU → percpu_kstacks i = C i * 4096 + KERNBASE ∧ 0 <= C i < 65536.

Lemma kregion_of v n : 977920 <= v → v + n <= 1048576 → v + n <= 979968 ∨ 980992 <= v → kregion v n.
Proof.
  intros Hv Hn Hx u Hu. unfold kpage, kidx. rewrite UPDX_eq. change (PDX UVPT) with 957.
  Z.to_euclidean_division_equations. lia.
Qed.

Lemma stacks_step k n u o :
  0 <= k → 0 <= n → k + n < 8 →
  stacks C (k + 1) n u (region (PGNUM KSTACKTOP - 16 * k - 8) 8 (C k) (Z.lor PTE_W PTE_P) u o) = stacks C k (n + 1) u o.
Proof.
  intros Hk Hn Hkn. unfold stacks, region. change (PGNUM KSTACKTOP) with 983040. cbv zeta.
  set (d := 983040 - 1 - u). assert (Hu : u = 983039 - d) by lia. clearbody d. subst u.
  destruct (decide (0 <= d ∧ k <= d / 16 < k + (n + 1) ∧ d mod 16 < 8)) as [H|H].
  - destruct (decide (d / 16 = k)) as [E1|E1].
    + rewrite decide_False by lia. rewrite decide_True by (Z.to_euclidean_division_equations; lia).
      do 2 f_equal. rewrite E1. Z.to_euclidean_division_equations. lia.
    + by rewrite decide_True by lia.
  - rewrite decide_False by lia. rewrite decide_False; [done|]. intros Hr. apply H. Z.to_euclidean_division_equations. lia.
Qed.

Lemma mem_init_mp_loop n k s fl :
  kpd s pd fl → room s pd fl → 0 <= k → k + Z.of_nat n <= 8 →
  ∃ s' fl', mfor (seqZ k (Z.of_nat n)) (λ i,
      let kstacktop_i := u32 (KSTACKTOP - i * (KSTKSIZE + KSTKGAP)) in
      pa ← PADDR (percpu_kstacks i);
      boot_map_region (kaddr pd) (u32 (kstacktop_i - KSTKSIZE)) KSTKSIZE pa (Z.lor PTE_W PTE_P)) s = (Ret tt, s') ∧
    built pd s s' fl fl' (stacks C k (Z.of_nat n)).
Proof using HC.
  revert k s fl; induction n as [|n IH]; intros k s fl H Hroom Hk Hkn.
  { exists s, fl. split; [done|]. eapply built_ext; [|by apply built_refl]. intros u o _. unfold stacks. by rewrite decide_False by lia. }
  rewrite seqZ_cons by lia. cbn [mfor].
  destruct (HC k) as [EC HCk]; [unfold NCPU; lia|].
  set (v := PGNUM KSTACKTOP - 16 * k - 8). assert (Ev : v = 983032 - 16 * k) by (unfold v; change (PGNUM KSTACKTOP) with 983040; lia).
  destruct (boot_map_region_built pd (Z.lor PTE_W PTE_P) v (C k) 8 s fl H Hroom) as (s1 & fl1 & Hrun & HB1);
    [done|lia|lia|lia|lia|lia|lia|apply kregion_of; lia|].
  destruct (IH (Z.succ k) s1 fl1 (b_kpd _ _ _ _ _ _ HB1) (built_room _ _ _ _ _ _ HB1 Hroom) ltac:(lia) ltac:(lia)) as (s2 & fl2 & Hrun2 & HB2).
  exists s2, fl2. split.
  - mrun (cbv zeta; rewrite EC; mrun (apply PADDR_ok; lia);
      replace (u32 (u32 (KSTACKTOP - k * (KSTKSIZE + KSTKGAP)) - KSTKSIZE)) with (v * 4096)
        by (unfold KSTACKTOP, KSTKSIZE, KSTKGAP, KERNBASE, PGSIZE; rewrite !u32_small by (rewrite ?u32_small by lia; lia); lia);
      exact Hrun).
    replace (Z.pred (Z.of_nat (S n))) with (Z.of_nat n) by lia. exact Hrun2.
  - eapply built_ext; [|exact (built_trans _ _ _ _ _ _ _ _ _ HB1 HB2)]. intros u o _. unfold v.
    replace (Z.succ k) with (k + 1) by lia. replace (Z.of_nat (S n)) with (Z.of_nat n + 1) by lia. apply stacks_step; lia.
Qed.

Context (bootstack np P E B : Z).
Hypothesis Hnp : 0 <= np <= 65536.
Hypothesis HP : 0 <= P < 65536.
Hypothesis HE : 0 <= E < 65536.
Hypothesis HB : bootstack = B * 4096 + KERNBASE ∧ 0 <= B < 65536.

Lemma layout_compose u o :
  kpage u →
  stacks C 0 8 u (region (PGNUM KERNBASE) 65536 0 PTE_W u (region (PGNUM KSTACKTOP - 8) 8 B (Z.lor PTE_W PTE_P) u
    (region (PGNUM UENVS) 1024 E (Z.lor PTE_U PTE_P) u (region (PGNUM UPAGES) (array_pages np) P (Z.lor PTE_U PTE_P) u o)))) =
  match kern_layout np P E C u with Some t => Some t | None => o end.
Proof using Hnp HP HE.
  intros [Hr _]%kpage_range. assert (Hap : 0 <= array_pages np <= 128) by (unfold array_pages, SIZEOF_PAGEINFO; Z.to_euclidean_division_equations; lia).
  unfold kern_layout, region, stacks. cbv zeta.
  change (PGNUM UPAGES) with 978944. change (PGNUM UENVS) with 977920. change (PGNUM KERNBASE) with 983040. change (PGNUM KSTACKTOP) with 983040.
  set (d := 983040 - 1 - u). destruct (decide (0 <= d ∧ 0 <= d / 16 < 0 + 8 ∧ d mod 16 < 8)) as [Hd|Hd].
  - assert (0 <= d < 128) by (Z.to_euclidean_division_equations; lia). by rewrite !decide_False by lia.
  - assert (¬ 0 <= d < 8) by (intros ?; apply Hd; Z.to_euclidean_division_equations; lia).
    destruct (decide (983040 <= u)) as [H1|H1].
    { rewrite (decide_True (P := 983040 <= u < _)), (decide_False (P := 978944 <= u < _)), (decide_False (P := 977920 <= u < _)) by lia. done. }
    rewrite (decide_False (P := 983040 <= u < _)), (decide_False (P := 983040 - 8 <= u < _)) by lia.
    destruct (decide (977920 <= u < 977920 + 1024)) as [H2|H2]; [by rewrite decide_False by lia|].
    by destruct (decide (978944 <= u < 978944 + array_pages np)).
Qed.

(** From an empty kernel part, [mem_init_map] makes exactly this layout. *)
Lemma mem_init_map_built s fl :
  kpd s pd fl → room s pd fl → npages s = np → kern_pgdir s = kaddr pd →
  ∃ s' fl', mem_init_map bootstack percpu_kstacks (P * 4096 + KERNBASE) (E * 4096 + KERNBASE) s = (Ret tt, s') ∧
    built pd s s' fl fl' (λ u o, match kern_layout np P E C u with Some t => Some t | None => o end).
Proof.
  intros H Hroom En Ek. destruct HB as [EB HBr].
  assert (Hap : 0 <= array_pages np <= 128) by (unfold array_pages, SIZEOF_PAGEINFO; Z.to_euclidean_division_equations; lia).
  destruct (boot_map_region_built pd (Z.lor PTE_U PTE_P) (PGNUM UPAGES) P (array_pages np) s fl H Hroom) as (s1 & fl1 & R1 & B1);
    [perm_ok|lia|lia|lia|vpage|vpage|lia|apply kregion_of; vpage|].
  destruct (boot_map_region_built pd (Z.lor PTE_U PTE_P) (PGNUM UENVS) E 1024 s1 fl1 (b_kpd _ _ _ _ _ _ B1) (built_room _ _ _ _ _ _ B1 Hroom))
    as (s2 & fl2 & R2 & B2); [perm_ok|lia|lia|lia|vpage|vpage|lia|apply kregion_of; vpage|].
  pose proof (built_trans _ _ _ _ _ _ _ _ _ B1 B2) as B12.
  destruct (boot_map_region_built pd (Z.lor PTE_W PTE_P) (PGNUM KSTACKTOP - 8) B 8 s2 fl2 (b_kpd _ _ _ _ _ _ B2) (built_room _ _ _ _ _ _ B12 Hroom))
    as (s3 & fl3 & R3 & B3); [perm_ok|lia|lia|lia|vpage|vpage|lia|apply kregion_of; vpage|].
  pose proof (built_trans _ _ _ _ _ _ _ _ _ B12 B3) as B13.
  destruct (boot_map_region_built pd PTE_W (PGNUM KERNBASE) 0 65536 s3 fl3 (b_kpd _ _ _ _ _ _ B3) (built_room _ _ _ _ _ _ B13 Hroom))
    as (s4 & fl4 & R4 & B4); [perm_ok|lia|lia|lia|vpage|vpage|lia|apply kregion_of; vpage|].
  pose proof (built_trans _ _ _ _ _ _ _ _ _ B13 B4) as B14.
  destruct (mem_init_mp_loop 8 0 s4 fl4 (b_kpd _ _ _ _ _ _ B4) (built_room _ _ _ _ _ _ B14 Hroom)) as (s5 & fl5 & R5 & B5); [lia|lia|].
  pose proof (built_trans _ _ _ _ _ _ _ _ _ B14 B5) as B15.
  assert (Hsz : ROUNDUP (u32 (SIZEOF_PAGEINFO * np)) PGSIZE = array_pages np * 4096).
  { unfold array_pages, SIZEOF_PAGEINFO, PGSIZE. rewrite u32_small, ROUNDUP_unfold by (unfold is_u32; lia).
    replace (8 * np + 4096 - 1) with (np * 8 + 4095) by lia. lia. }
  exists s5, fl5. split.
  - unfold mem_init_map. do 2 mstep. rewrite En, Ek. mrun (apply PADDR_ok; lia).
    rewrite Hsz. mrun (exact R1).
    mrun (apply PADDR_ok; lia). mrun (exact R2). rewrite EB. mrun (apply PADDR_ok; lia). mrun (exact R3). mrun (exact R4).
    unfold mem_init_mp. mstep. destruct (only_vm_fields _ _ (b_only _ _ _ _ _ _ B14)) as (_ & _ & _ & _ & -> & _). rewrite Ek. exact R5.
  - eapply built_ext; [|exact B15]. intros u o Hu. by apply layout_compose.
Qed.
End layout.
