(* ===== verification/BootCheck.v ===== *)
(** * The self-tests of [mem_init] that only look

    [check_kern_pgdir] walks the kernel's page directory in software and
    compares it with the layout; on the mapping that [mem_init_map] has built
    every assertion holds and nothing is changed. *)

From S2P Require Import Prelude Mmu Console KState PageAlloc PageTable AddrSpace PageInsert VmFrame Env MemInit BootMap.
Open Scope Z_scope.

Lemma mfor_pure {S E X} (l : list X) (f : X → M S E unit) s :
  (∀ x, x ∈ l → f x s = (Ret tt, s)) → mfor l f s = (Ret tt, s).
Proof.
  induction l as [|x l IH]; intros H; [done|]. cbn [mfor].
  mrun (apply H; by left). apply IH. intros y Hy. apply H. by right.
Qed.

Lemma kassert_ok b msg s : b = true → kassert b msg s = (Ret tt, s).
Proof. by intros ->. Qed.

Lemma upto_pages n i : 0 <= n → i ∈ upto (n * 4096) PGSIZE → ∃ k, i = k * 4096 ∧ 0 <= k < n.
Proof.
  intros Hn (k & -> & (Hk & Hk')%elem_of_seqZ)%list_elem_of_fmap. exists k. split; [done|].
  unfold PGSIZE in Hk'. revert Hk'. replace (n * 4096 + 4096 - 1) with (4095 + n * 4096) by lia.
  rewrite Z.div_add, Z.div_small by lia. lia.
Qed.

(** The software walk. *)
Lemma check_va2pa_kpte s pd fl v :
  kpd s pd fl → kpage v →
  check_va2pa (kaddr pd) (v * 4096) s = (Ret (match kpte s pd v with Some t => PTE_ADDR t | None => u32 (-1) end), s).
Proof.
  intros H Hv. pose proof (kpage_range v Hv) as [Hr _]. destruct (page_PDX v ltac:(lia)) as [EX ET].
  unfold check_va2pa. mrun (apply kload_entry). rewrite EX, ET.
  destruct (k_tab _ _ _ H (v / 1024) Hv) as [H0|(f & Hf & Hfr & _)].
  - by rewrite (kpte_absent s pd v H0), H0.
  - rewrite (kpte_table s pd v f Hf), Hf. cbv zeta. pose proof (present_7 f) as Hp. unfold present in Hp. apply negb_true_iff in Hp. rewrite Hp.
    rewrite PTE_ADDR_frame by lia. pose proof (phys_npages s (k_phys _ _ _ H)).
    mrun (apply KADDR_ok; [apply (k_phys _ _ _ H)|lia|rewrite PGNUM_div, Z.div_mul by lia; lia]).
    fold (kaddr f). mrun (apply kload_entry). unfold present. by destruct (Z.land (entry s f (v mod 1024)) PTE_P =? 0).
Qed.

Lemma assert_va2pa_ok s pd fl v pa :
  kpd s pd fl → kpage v → match kpte s pd v with Some t => PTE_ADDR t | None => u32 (-1) end = pa →
  assert_va2pa (kaddr pd) (v * 4096) pa s = (Ret tt, s).
Proof.
  intros H Hv E. unfold assert_va2pa. mrun (by apply (check_va2pa_kpte s pd fl)). apply kassert_ok. rewrite E. apply Z.eqb_refl.
Qed.

Lemma new_pte_addr f perm : 0 <= perm < 4096 → PTE_ADDR (new_pte f perm) = f * 4096.
Proof. intros H. pose proof (perm_P perm H). unfold new_pte. by apply PTE_ADDR_frame. Qed.

Section kern_pgdir.
Context (percpu_kstacks : Z → Z) (C : Z → Z) (s : kstate) (pd np P E : Z) (fl : list Z).
Hypothesis HC : ∀ i, 0 <= i < NCPU → percpu_kstacks i = C i * 4096 + KERNBASE ∧ 0 <= C i < 65536.
Hypothesis Hk : kpd s pd fl.
Hypothesis Hnp : npages s = np.
Hypothesis HP : 0 <= P < 65536.
Hypothesis HE : 0 <= E < 65536.
Hypothesis Hmap : ∀ u, kpage u → kpte s pd u = kern_layout np P E C u.
Hypothesis Htab : ∀ i, kidx i → entry s pd i ≠ 0.

(** A page of the layout translates to the frame [f]. *)
Lemma layout_va2pa v f perm :
  kpage v → kern_layout np P E C v = Some (new_pte f perm) → 0 <= perm < 4096 → 0 <= f < 1048576 →
  assert_va2pa (kaddr pd) (v * 4096) (u32 (f * 4096)) s = (Ret tt, s).
Proof.
  intros Hv Hl Hp Hf. apply (assert_va2pa_ok s pd fl); [done|done|]. rewrite Hmap, Hl by done. rewrite new_pte_addr, u32_small by lia. done.
Qed.

Lemma layout_stack n i :
  0 <= n < 8 → 0 <= i < 8 →
  kern_layout np P E C (983040 - 16 * (n + 1) + 8 + i) = Some (new_pte (C n + i) (Z.lor PTE_W PTE_P)) ∧
  kern_layout np P E C (983040 - 16 * (n + 1) + i) = None.
Proof.
  intros Hn Hi. pose proof (phys_npages s (k_phys _ _ _ Hk)).
  assert (Hap : 0 <= array_pages np <= 128) by (unfold array_pages, SIZEOF_PAGEINFO; Z.to_euclidean_division_equations; lia).
  unfold kern_layout, stacks. cbv zeta.
  change (PGNUM UPAGES) with 978944. change (PGNUM UENVS) with 977920. change (PGNUM KERNBASE) with 983040. change (PGNUM KSTACKTOP) with 983040.
  split.
  - rewrite !decide_False by lia. replace (983040 - 1 - (983040 - 16 * (n + 1) + 8 + i)) with (n * 16 + (7 - i)) by lia.
    replace ((n * 16 + (7 - i)) / 16) with n by (Z.to_euclidean_division_equations; lia).
    replace ((n * 16 + (7 - i)) mod 16) with (7 - i) by (Z.to_euclidean_division_equations; lia).
    rewrite decide_True by lia. do 2 f_equal. lia.
  - rewrite !decide_False by lia. replace (983040 - 1 - (983040 - 16 * (n + 1) + i)) with (n * 16 + (15 - i)) by lia.
    rewrite decide_False; [done|]. Z.to_euclidean_division_equations. lia.
Qed.

Lemma check_stack_ok n : 0 <= n < 8 → check_stack percpu_kstacks (kaddr pd) n s = (Ret tt, s).
Proof.
  intros Hn. destruct (HC n) as [EC HCn]; [unfold NCPU; lia|]. unfold check_stack. cbv zeta.
  assert (Hbase : u32 (KSTACKTOP - (KSTKSIZE + KSTKGAP) * (n + 1)) = (983040 - 16 * (n + 1)) * 4096).
  { unfold KSTACKTOP, KERNBASE, KSTKSIZE, KSTKGAP, PGSIZE. rewrite u32_small by lia. lia. }
  rewrite Hbase. mrun (apply mfor_pure; intros i Hi;
    change KSTKSIZE with (8 * 4096) in Hi; apply upto_pages in Hi as (k & -> & Hk'); [|lia];
    rewrite EC; mrun (apply PADDR_ok; lia);
    replace (u32 ((983040 - 16 * (n + 1)) * 4096 + KSTKGAP + k * 4096)) with ((983040 - 16 * (n + 1) + 8 + k) * 4096)
      by (unfold KSTKGAP, PGSIZE; rewrite u32_small by lia; lia);
    replace (C n * 4096 + k * 4096) with ((C n + k) * 4096) by lia;
    eapply layout_va2pa; [apply (kregion_of (983040 - 16 * (n + 1) + 8 + k) 1); lia|apply layout_stack; lia|done|lia]).
  apply mfor_pure. intros i Hi. change KSTKGAP with (8 * 4096) in Hi. apply upto_pages in Hi as (k & -> & Hk'); [|lia].
  replace (u32 ((983040 - 16 * (n + 1)) * 4096 + k * 4096)) with ((983040 - 16 * (n + 1) + k) * 4096) by (rewrite u32_small by lia; lia).
  apply (assert_va2pa_ok s pd fl); [done|apply (kregion_of (983040 - 16 * (n + 1) + k) 1); lia|].
  rewrite Hmap by (apply (kregion_of (983040 - 16 * (n + 1) + k) 1); lia). by rewrite (proj2 (layout_stack n k Hn Hk')).
Qed.

Lemma tab_bits i : kidx i → ∃ f, entry s pd i = f * 4096 + 7 ∧ 0 <= f.
Proof. intros Hi. destruct (k_tab _ _ _ Hk i Hi) as [H|(f & H & ? & _)]; [by destruct (Htab i Hi)|]. exists f. split; [done|lia]. Qed.

Lemma land_frame f perm b : 0 <= f → 0 <= perm < 4096 → 0 <= b < 4096 → Z.land (f * 4096 + perm) b = Z.land perm b.
Proof.
  intros Hf Hp Hb. rewrite <- pte_lor by done. rewrite Z.land_lor_distr_l.
  replace (Z.land (f * 4096) b) with 0; [done|]. symmetry. rewrite Z.land_comm.
  change 4096 with (2 ^ 12). rewrite <- Z.shiftl_mul_pow2 by lia. apply Z.bits_inj'. intros k Hk'. rewrite Z.land_spec, Z.bits_0.
  destruct (decide (k < 12)); [by rewrite Z.shiftl_spec_low, andb_false_r by lia|].
  destruct (decide (b = 0)) as [->|]; [by rewrite Z.bits_0|]. rewrite (Z.bits_above_log2 b); [done|lia|].
  apply Z.log2_lt_pow2; [lia|]. apply Z.lt_le_trans with (2 ^ 12); [lia|]. apply Z.pow_le_mono_r; lia.
Qed.

Lemma check_pde_ok i : idx i → check_pde (kaddr pd) i s = (Ret tt, s).
Proof.
  intros Hi. unfold check_pde. mrun (apply kload_entry).
  change (PDX UVPT) with 957. change (PDX (KSTACKTOP - 1)) with 959. change (PDX UPAGES) with 956. change (PDX UENVS) with 955.
  change (PDX MMIOBASE) with 958. change (PDX KERNBASE) with 960.
  destruct (decide (i = 957)) as [->|Hne].
  { rewrite bool_decide_eq_true_2 by (set_solver by lia). apply kassert_ok.
    change 957 with (PDX UVPT). rewrite (k_self _ _ _ Hk), land_frame by (pose proof (k_pd _ _ _ Hk); unfold PTE_P; lia). done. }
  destruct (decide (i < 955)) as [Hlo|Hhi].
  { rewrite bool_decide_eq_false_2 by (rewrite !elem_of_cons, elem_of_nil; lia).
    replace (960 <=? i) with false by (unfold idx in Hi; lia).
    rewrite (k_user _ _ _ Hk) by (unfold uidx, idx in *; rewrite UPDX_eq; lia). done. }
  destruct (tab_bits i) as (f & -> & Hf); [unfold kidx, idx in *; rewrite UPDX_eq; change (PDX UVPT) with 957; lia|].
  rewrite !land_frame by (unfold PTE_P, PTE_W; lia). destruct (bool_decide _) eqn:EB; [done|].
  apply bool_decide_eq_false in EB. rewrite !elem_of_cons in EB. replace (960 <=? i) with true by (unfold idx in Hi; lia). done.
Qed.

(** The three arrays of pages that [check_kern_pgdir] compares. *)
Lemma check_array (base pa : Z) (n f perm : Z) :
  0 <= n <= 65536 → 0 <= f → f + n <= 1048576 → 0 <= perm < 4096 → pa = f * 4096 →
  (∀ k, 0 <= k < n → kpage (base + k) ∧ kern_layout np P E C (base + k) = Some (new_pte (f + k) perm)) →
  ∀ i, i ∈ upto (n * 4096) PGSIZE → assert_va2pa (kaddr pd) (u32 (base * 4096 + i)) (u32 (pa + i)) s = (Ret tt, s).
Proof.
  intros Hn Hf Hfn Hp -> Hl i (k & -> & Hk')%upto_pages; [|lia]. destruct (Hl k Hk') as [Hkp Hlay].
  pose proof (kpage_range _ Hkp) as [Hr _].
  replace (base * 4096 + k * 4096) with ((base + k) * 4096) by lia. replace (f * 4096 + k * 4096) with ((f + k) * 4096) by lia.
  rewrite (u32_small ((base + k) * 4096)) by lia. eapply layout_va2pa; [done|done|done|lia].
Qed.

Lemma check_kern_pgdir_ok :
  kern_pgdir s = kaddr pd →
  check_kern_pgdir percpu_kstacks (P * 4096 + KERNBASE) (E * 4096 + KERNBASE) s = (Ret tt, s).
Proof.
  intros Ek. pose proof (phys_npages s (k_phys _ _ _ Hk)) as Hn.
  assert (Hap : 0 <= array_pages np <= 128) by (unfold array_pages, SIZEOF_PAGEINFO; Z.to_euclidean_division_equations; lia).
  unfold check_kern_pgdir. do 2 mstep. rewrite Ek, Hnp.
  assert (Hsz : ROUNDUP (u32 (np * SIZEOF_PAGEINFO)) PGSIZE = array_pages np * 4096).
  { unfold array_pages, SIZEOF_PAGEINFO, PGSIZE. rewrite u32_small, ROUNDUP_unfold by (unfold is_u32; lia).
    replace (np * 8 + 4096 - 1) with (np * 8 + 4095) by lia. lia. }
  rewrite Hsz. clear Hsz.
  mrun (apply mfor_pure; intros i Hi; mrun (apply PADDR_ok; lia);
    apply (check_array 978944 (P * 4096) (array_pages np) P (Z.lor PTE_U PTE_P)); [lia|lia|lia|done|done| |done];
    intros k Hk'; split; [apply (kregion_of (978944 + k) 1); lia|];
    unfold kern_layout; change (PGNUM UPAGES) with 978944; rewrite decide_True by lia; do 3 f_equal; lia).
  change (ROUNDUP (NENV * SIZEOF_ENV) PGSIZE) with (32 * 4096).
  mrun (apply mfor_pure; intros i Hi; mrun (apply PADDR_ok; lia);
    apply (check_array 977920 (E * 4096) 32 E (Z.lor PTE_U PTE_P)); [lia|lia|lia|done|done| |done];
    intros k Hk'; split; [apply (kregion_of (977920 + k) 1); lia|];
    unfold kern_layout; change (PGNUM UPAGES) with 978944; change (PGNUM UENVS) with 977920;
    rewrite decide_False, decide_True by lia; do 3 f_equal; lia).
  destruct (tab_bits 960) as (f0 & Hf0 & Hf0r); [unfold kidx; rewrite UPDX_eq; done|].
  mrun (unfold check_va2pa_large; mrun (apply kload_entry); change (PDX KERNBASE) with 960; rewrite Hf0, !land_frame by (unfold PTE_P, PTE_PS; lia); reflexivity).
  change (u32 (-1) =? 0) with false. cbv beta iota.
  rewrite u32_small by (unfold PGSIZE; lia). unfold PGSIZE at 1.
  mrun (apply mfor_pure; intros i Hi; pose proof Hi as (k' & Ek' & _)%upto_pages; [|lia];
    replace (assert_va2pa (kaddr pd) (u32 (KERNBASE + i)) i s) with (assert_va2pa (kaddr pd) (u32 (983040 * 4096 + i)) (u32 (0 + i)) s);
    [apply (check_array 983040 0 np 0 PTE_W); [lia|lia|lia|done|lia| |done];
      intros k Hk'; split; [apply (kregion_of (983040 + k) 1); lia|];
      unfold kern_layout; change (PGNUM UPAGES) with 978944; change (PGNUM UENVS) with 977920; change (PGNUM KERNBASE) with 983040;
      rewrite !decide_False, decide_True by lia; do 2 f_equal; lia
    |apply upto_pages in Hi as (k & -> & Hk'); [|lia]; rewrite (u32_small (0 + k * 4096)) by lia; done]).
  mrun (apply mfor_pure; intros n Hin; change NCPU with 8 in Hin; apply elem_of_seqZ in Hin; apply check_stack_ok; lia).
  apply mfor_pure. intros i (Hi1 & Hi2)%elem_of_seqZ. apply check_pde_ok. unfold idx, NPDENTRIES in *. lia.
Qed.
End kern_pgdir.
