(* ===== verification/BootFree.v ===== *)
(** * The self-tests of the page allocator

    [check_page_free_list] reorders the free list, fills free pages with a
    pattern and checks which pages are free; [check_page_alloc] takes pages off
    the list and puts them back.  Both return, on every list [page_init] can
    leave, and what they leave is a permutation of the list with nothing but
    free pages overwritten. *)

From S2P Require Import Prelude Mmu Console KState PageAlloc PageTable AddrSpace PageInsert VmFrame Env MemInit BootMap BootCheck.
Open Scope Z_scope.

(** ** States that differ in free pages only *)

(** The frames outside [l] hold what they held. *)
Definition frames_kept (l : list Z) (s s' : kstate) : Prop :=
  ∀ f k, f ∉ l → 0 <= k < 4096 → mem s' (f * 4096 + k) = mem s (f * 4096 + k).

Lemma frames_kept_refl l s : frames_kept l s s.
Proof. by intros f k _ _. Qed.

Lemma frames_kept_trans l s1 s2 s3 : frames_kept l s1 s2 → frames_kept l s2 s3 → frames_kept l s1 s3.
Proof. intros H1 H2 f k Hf Hk. by rewrite H2, H1. Qed.

Lemma frames_kept_entry l s s' f i : frames_kept l s s' → f ∉ l → idx i → entry s' f i = entry s f i.
Proof.
  unfold idx. intros H Hf Hi. unfold entry. apply ld32_ext. intros k Hk.
  replace (f * 4096 + 4 * i + k) with (f * 4096 + (4 * i + k)) by lia. apply H; [done|lia].
Qed.

(** The kernel's directory and all that hangs on it are as before; the free
    list may have another order. *)
Record kept (pd : Z) (s s' : kstate) (fl fl' : list Z) : Prop := mk_kept {
  e_kpd : kpd s' pd fl';
  e_only : only_vm s s';
  e_perm : fl' ≡ₚ fl;
  e_entry : ∀ i, idx i → entry s' pd i = entry s pd i;
  e_map : ∀ u, kpage u → kpte s' pd u = kpte s pd u;
}.

Lemma kept_intro pd s s' fl fl' :
  kpd s pd fl → only_vm s s' → mem_ok (mem s') → phys_ok s' → free_list s' fl' → fl' ≡ₚ fl →
  (∀ p pi, pages s' !! p = Some pi → 0 <= pp_ref pi < 2 ^ 16) → frames_kept fl s s' → kept pd s s' fl fl'.
Proof.
  intros H Ho Hm Hph Hfl Hp Hr Hfr. destruct (only_vm_fields s s' Ho) as (Hnp & _).
  assert (HE : ∀ f i, f ∉ fl → idx i → entry s' f i = entry s f i) by (intros; by eapply frames_kept_entry).
  assert (HD : ∀ i, idx i → entry s' pd i = entry s pd i) by (intros; apply HE; [apply (k_pdfl _ _ _ H)|done]).
  constructor; [|done|done|done|].
  - constructor; [done|done|done| | | | | | |done].
    + rewrite Hnp. apply (k_pd _ _ _ H).
    + rewrite Hp. apply (k_pdfl _ _ _ H).
    + intros i Hi. rewrite HD by (by apply uidx_idx). by apply (k_user _ _ _ H).
    + rewrite HD by (unfold idx; apply PDX_range). apply (k_self _ _ _ H).
    + intros i Hi. rewrite HD by (by apply kidx_idx). destruct (k_tab _ _ _ H i Hi) as [?|(f & ? & ? & ? & ?)]; [by left|right].
      exists f. rewrite Hnp, Hp. done.
    + intros i i' Hi Hi'. rewrite !HD by (by apply kidx_idx). by apply (k_inj _ _ _ H).
  - intros u Hu. pose proof (kidx_idx _ Hu) as Hui. destruct (k_tab _ _ _ H (u / 1024) Hu) as [H0|(f & Hf & _ & Hff & _)].
    + rewrite !kpte_absent; [done|done|by rewrite HD].
    + rewrite (kpte_table s' pd u f), (kpte_table s pd u f) by (rewrite ?HD by done; done). cbv zeta. by rewrite HE by (done || apply page_mod).
Qed.

(** ** Loops over the free list *)

Lemma free_list_length s l : phys_ok s → free_list s l → (length l <= Z.to_nat (npages s))%nat.
Proof.
  intros Hok Hfl. replace (Z.to_nat (npages s)) with (length (seqZ 0 (npages s))) by apply length_seqZ.
  apply submseteq_length, NoDup_submseteq; [apply Hfl|]. intros p Hp. apply elem_of_seqZ.
  pose proof (free_list_range s l p Hok Hfl Hp). lia.
Qed.

Lemma pages_loop_inv {A} (I : A → list Z → kstate → Prop) (body : A → Z → K A) fuel l acc s :
  (∀ acc p l s, I acc (p :: l) s → ∃ acc' s', body acc p s = (Ret acc', s') ∧ I acc' l s' ∧
     ∃ pi, pages s' !! p = Some pi ∧ pp_link pi = head l) →
  I acc l s → (length l < fuel)%nat →
  ∃ acc' s', pages_loop fuel (head l) body acc s = (Ret acc', s') ∧ I acc' [] s'.
Proof.
  intros Hstep. revert l acc s; induction fuel as [|fuel IH]; intros l acc s HI Hf; [lia|].
  destruct l as [|p l]; cbn [head pages_loop]; [by exists acc, s|].
  destruct (Hstep acc p l s HI) as (acc' & s' & Hrun & HI' & pi & Hpi & Hlink).
  mrun (exact Hrun). mrun (by apply get_page_eq). rewrite Hlink. apply IH; [done|]. cbn in Hf. lia.
Qed.

Lemma for_pages_inv {A} (I : A → list Z → kstate → Prop) (body : A → Z → K A) l acc s :
  phys_ok s → free_list s l →
  (∀ acc p l s, I acc (p :: l) s → ∃ acc' s', body acc p s = (Ret acc', s') ∧ I acc' l s' ∧
     ∃ pi, pages s' !! p = Some pi ∧ pp_link pi = head l) →
  I acc l s → ∃ acc' s', for_pages body acc s = (Ret acc', s') ∧ I acc' [] s'.
Proof.
  intros Hok Hfl Hstep HI. unfold for_pages. do 2 mstep. rewrite (chain_head _ _ _ (proj1 Hfl)).
  apply (pages_loop_inv I); [done|done|]. pose proof (free_list_length s l Hok Hfl). lia.
Qed.

(** ** Low pages first *)

(** The links lead from [o] along [l] to [e]. *)
Fixpoint lseg (pgs : gmap Z PageInfo) (o : option Z) (l : list Z) (e : option Z) : Prop :=
  match l with
  | [] => o = e
  | p :: l' => o = Some p ∧ ∃ link, pgs !! p = Some (mkPageInfo link 0) ∧ lseg pgs link l' e
  end.

Lemma lseg_chain pgs o l : lseg pgs o l None ↔ chain pgs o l.
Proof. revert o; induction l as [|p l IH]; intros o; cbn; [done|]. split; intros (-> & link & ? & ?%IH); eauto. Qed.

Lemma lseg_app pgs o l m l' e : lseg pgs o l m → lseg pgs m l' e → lseg pgs o (l ++ l') e.
Proof. revert o; induction l as [|p l IH]; intros o; cbn; [by intros ->|]. intros (-> & link & ? & ?) ?. eauto. Qed.

Lemma lseg_insert_ne pgs o l e p pi : p ∉ l → lseg pgs o l e → lseg (<[p := pi]> pgs) o l e.
Proof.
  revert o; induction l as [|q l IH]; intros o Hp; cbn; [done|]. intros (-> & link & Hq & Hl). split; [done|]. exists link.
  rewrite lookup_insert_ne by set_solver. split; [done|]. apply IH; set_solver.
Qed.

(** Redirecting the last link. *)
Lemma lseg_redirect pgs o l q e v : NoDup (l ++ [q]) → lseg pgs o (l ++ [q]) e → lseg (<[q := mkPageInfo v 0]> pgs) o (l ++ [q]) v.
Proof.
  revert o; induction l as [|p l IH]; intros o; cbn.
  - intros _ (-> & link & Hq & _). split; [done|]. exists v. by rewrite lookup_insert_eq.
  - intros [Hp Hnd]%NoDup_cons (-> & link & Hpp & Hl). split; [done|]. exists link.
    rewrite lookup_insert_ne by set_solver. eauto.
Qed.

(** A list under construction: [tp] is where its end has to be stored. *)
Definition open_list (pgs : gmap Z PageInfo) (root : option Z) (l : list Z) (tp : option Z) : Prop :=
  tp = last l ∧ (l = [] ∨ ∃ e, lseg pgs root l e).

Definition stored (pgs : gmap Z PageInfo) (tp v : option Z) : gmap Z PageInfo :=
  match tp with Some q => <[q := mkPageInfo v 0]> pgs | None => pgs end.

Lemma open_list_close pgs root l tp v :
  NoDup l → open_list pgs root l tp →
  lseg (stored pgs tp v) (match tp with Some _ => root | None => v end) l v.
Proof.
  intros Hnd [-> Hl]. destruct l as [|q l _] using rev_ind; [done|]. rewrite last_snoc. cbn.
  destruct Hl as [E|[e He]]; [by destruct l|]. by eapply lseg_redirect.
Qed.

Lemma open_list_other pgs root l tp q pi : q ∉ l → open_list pgs root l tp → open_list (<[q := pi]> pgs) root l tp.
Proof. intros Hq [-> [->|[e He]]]; [by split; [|left]|]. split; [done|]. right. exists e. by apply lseg_insert_ne. Qed.

Lemma open_list_snoc pgs root l p link :
  lseg pgs root l (Some p) → pgs !! p = Some (mkPageInfo link 0) → open_list pgs root (l ++ [p]) (Some p).
Proof.
  intros Hl Hp. split; [by rewrite last_snoc|]. right. exists link. eapply lseg_app; [done|]. cbn. eauto.
Qed.

(** The two lists of [low_first]: [b] is the page type. *)
Definition t_root (b : bool) (t : tails) : option Z := if b then t_pp2 t else t_pp1 t.
Definition t_tp (b : bool) (t : tails) : option Z := if b then t_tp1 t else t_tp0 t.
Definition after_put (b : bool) (v : option Z) (t : tails) : tails :=
  match t_tp b t with
  | Some _ => t
  | None => if b then mkTails (t_pp1 t) v (t_tp0 t) (t_tp1 t) else mkTails v (t_pp2 t) (t_tp0 t) (t_tp1 t)
  end.

Lemma put_tail_eq b v t s l :
  open_list (pages s) (t_root b t) l (t_tp b t) →
  put_tail b v t s = (Ret (after_put b v t), set_pages (stored (pages s) (t_tp b t) v) s).
Proof.
  intros [Htp Hl]. unfold put_tail, after_put. fold (t_tp b t). destruct (t_tp b t) as [q|] eqn:Et; cbn [stored].
  - destruct l as [|q' l _] using rev_ind; [done|]. rewrite last_snoc in Htp. injection Htp as ->.
    destruct Hl as [E|[e He]]; [by destruct l|].
    assert (∃ link, pages s !! q' = Some (mkPageInfo link 0)) as [link Hq].
    { revert He. generalize (t_root b t). induction l as [|p l IH]; intros o; cbn; [intros (_ & link & ? & _); eauto|].
      intros (_ & link & _ & ?). eauto. }
    by mrun (by apply set_link_eq).
  - by rewrite set_pages_id.
Qed.

Lemma after_put_root b v t : t_root b (after_put b v t) = match t_tp b t with Some _ => t_root b t | None => v end.
Proof. unfold after_put, t_root, t_tp. destruct b, t as [? ? [] []]; done. Qed.
Lemma after_put_other b v t : t_root (negb b) (after_put b v t) = t_root (negb b) t.
Proof. unfold after_put, t_root, t_tp. destruct b, t as [? ? [] []]; done. Qed.
Lemma after_put_tp b b' v t : t_tp b' (after_put b v t) = t_tp b' t.
Proof. unfold after_put, t_tp. destruct b, b', t as [? ? [] []]; done. Qed.

Definition high (pdx_limit p : Z) : bool := pdx_limit <=? PDX (page2pa p).
Definition of_type (lim : Z) (b : bool) (l : list Z) : list Z := filter (λ p, high lim p = b) l.

Lemma of_type_snoc lim b l p : of_type lim b (l ++ [p]) = if decide (high lim p = b) then of_type lim b l ++ [p] else of_type lim b l.
Proof. unfold of_type. rewrite filter_app, filter_cons, filter_nil. case_decide; [done|by rewrite app_nil_r]. Qed.

Lemma of_type_elem lim b l p : p ∈ of_type lim b l ↔ high lim p = b ∧ p ∈ l.
Proof. unfold of_type. by rewrite list_elem_of_filter. Qed.

Lemma of_type_perm lim l : of_type lim false l ++ of_type lim true l ≡ₚ l.
Proof.
  induction l as [|p l IH]; [done|]. unfold of_type in *. rewrite !filter_cons. destruct (high lim p); repeat case_decide; try done.
  - rewrite <- Permutation_middle. by rewrite IH.
  - cbn. by rewrite IH.
Qed.

Section low_first.
Context (s0 : kstate) (fl : list Z) (lim : Z).
Hypothesis Hok : phys_ok s0.
Hypothesis Hfl : free_list s0 fl.

Definition sorting (t : tails) (rest : list Z) (s : kstate) : Prop :=
  ∃ sorted, fl = sorted ++ rest ∧
    (∀ b, open_list (pages s) (t_root b t) (of_type lim b sorted) (t_tp b t)) ∧
    lseg (pages s) (head rest) rest None ∧ only_pages s0 s ∧ phys_ok s ∧
    (∀ p, p ∉ fl → pages s !! p = pages s0 !! p).

(** Storing into the end of list [b]. *)
Lemma sorting_put t rest s b v :
  sorting t rest s →
  ∃ sorted s', fl = sorted ++ rest ∧ put_tail b v t s = (Ret (after_put b v t), s') ∧
    lseg (pages s') (t_root b (after_put b v t)) (of_type lim b sorted) v ∧
    open_list (pages s') (t_root (negb b) t) (of_type lim (negb b) sorted) (t_tp (negb b) t) ∧
    lseg (pages s') (head rest) rest None ∧ only_pages s0 s' ∧ phys_ok s' ∧
    (∀ p, p ∉ fl → pages s' !! p = pages s0 !! p).
Proof.
  intros (sorted & E & Hl & Hr & Ho & Hp & Hoth). exists sorted, (set_pages (stored (pages s) (t_tp b t) v) s).
  pose proof (proj2 Hfl) as Hnd. rewrite E in Hnd. apply NoDup_app in Hnd as (Hnd1 & Hdis & Hnd2).
  assert (Hq : ∀ q, t_tp b t = Some q → high lim q = b ∧ q ∈ sorted ∧ q ∉ rest).
  { intros q Hq. destruct (Hl b) as [Ht _]. rewrite Hq in Ht. symmetry in Ht. apply last_Some_elem_of in Ht. apply of_type_elem in Ht as [? ?]. auto. }
  split; [done|]. split; [by eapply put_tail_eq|]. split.
  { rewrite after_put_root. apply open_list_close; [by apply NoDup_filter|apply Hl]. }
  destruct (t_tp b t) as [q|] eqn:Et; cbn [stored].
  2:{ rewrite set_pages_id. split; [apply Hl|done]. }
  destruct (Hq q eq_refl) as (Hb & Hin & Hnr). split; [|split; [|split; [|split]]].
  - apply open_list_other; [|apply Hl]. rewrite of_type_elem, Hb. intros [? _]. by destruct b.
  - by apply lseg_insert_ne.
  - eapply only_pages_trans; [exact Ho|]. by destruct s.
  - apply pages_insert_dom; [done|]. assert (Hqf : q ∈ fl) by (rewrite E; set_solver). pose proof (free_list_range s0 fl q Hok Hfl Hqf).
    rewrite Ho. done.
  - intros p Hpf. cbn. rewrite lookup_insert_ne; [by apply Hoth|]. intros <-. apply Hpf. rewrite E. set_solver.
Qed.

Lemma low_first_ok :
  ∃ s', low_first lim s0 = (Ret tt, s') ∧ only_pages s0 s' ∧ phys_ok s' ∧
    free_list s' (of_type lim false fl ++ of_type lim true fl) ∧ (∀ p, p ∉ fl → pages s' !! p = pages s0 !! p).
Proof.
  unfold low_first. edestruct (for_pages_inv sorting) as (t & s & Hrun & HI); [exact Hok|exact Hfl| | |mrun (exact Hrun)].
  - intros t p rest s HI. destruct (sorting_put t (p :: rest) s (high lim p) (Some p) HI)
      as (sorted & s' & E & Hput & Hseg & Hopen & Hrest & Hon & Hph & Hoth).
    cbn [lseg head] in Hrest. destruct Hrest as (_ & link & Hp & Hrest).
    eexists _, s'. split; [fold (high lim p); mrun (exact Hput); reflexivity|].
    assert (link = head rest) as -> by (destruct rest; [exact Hrest|by destruct Hrest as [-> _]]).
    split; [|by exists (mkPageInfo (head rest) 0)].
    exists (sorted ++ [p]). split; [by rewrite <- (assoc_L (++))|]. split; [|done].
    intros b. rewrite of_type_snoc. pose proof (open_list_snoc _ _ _ _ _ Hseg Hp) as Hs.
    destruct (decide (high lim p = b)) as [<-|Hne].
    + destruct (high lim p); exact Hs.
    + assert (b = negb (high lim p)) as -> by (by destruct b, (high lim p)).
      rewrite <- after_put_other with (v := Some p), <- after_put_tp with (b := high lim p) (v := Some p) in Hopen.
      destruct (high lim p); exact Hopen.
  - exists []. split; [done|]. split; [by intros []; split; [|left| |left]|]. split_and!; [|apply only_pages_refl|done|done].
    rewrite <- (chain_head _ _ _ (proj1 Hfl)). by apply lseg_chain, Hfl.
  - destruct (sorting_put t [] s true None HI) as (sorted & s1 & E & Hput & Hseg & Hopen & Hrest & Hon & Hph & Hoth).
    mrun (exact Hput). rewrite app_nil_r in E. subst sorted. set (t1 := after_put true None t) in *.
    pose proof (put_tail_eq false (t_pp2 t1) t1 s1 (of_type lim false fl)) as Hput2.
    unfold t1 in Hput2 at 1 2. rewrite after_put_tp in Hput2. rewrite (after_put_other true) in Hput2. specialize (Hput2 Hopen).
    mrun (exact Hput2). eexists. split; [reflexivity|]. cbn [negb] in *.
    assert (Hcl : lseg (stored (pages s1) (t_tp false t) (t_pp2 t1)) (t_pp1 (after_put false (t_pp2 t1) t1)) (of_type lim false fl) (t_pp2 t1)).
    { change (t_pp1 ?x) with (t_root false x). rewrite after_put_root. unfold t1. rewrite after_put_tp, (after_put_other true).
      apply open_list_close; [apply NoDup_filter, Hfl|done]. }
    assert (Hq : ∀ q, t_tp false t = Some q → high lim q = false ∧ q ∈ fl).
    { intros q Hq. destruct Hopen as [Ht _]. rewrite Hq in Ht. symmetry in Ht. by apply last_Some_elem_of, of_type_elem in Ht. }
    assert (t_tp false t1 = t_tp false t) as -> by apply after_put_tp. split; [|split; [|split]].
    + eapply only_pages_trans; [exact Hon|]. apply only_pages_set.
    + destruct (t_tp false t) as [q|] eqn:Et; cbn [stored].
      * destruct (Hq q eq_refl) as [_ Hqf]. pose proof (free_list_range s0 fl q Hok Hfl Hqf).
        destruct (pages_insert_dom s1 q (mkPageInfo (t_pp2 t1) 0) Hph) as [? ?]; [by rewrite Hon|by constructor].
      * destruct Hph. by constructor.
    + split; [|].
      * apply lseg_chain. cbn [pages set_pages page_free_list set_page_free_list]. eapply lseg_app; [exact Hcl|]. destruct (t_tp false t) as [q|] eqn:Et; cbn [stored]; [|exact Hseg].
        apply lseg_insert_ne; [|exact Hseg]. destruct (Hq q eq_refl) as [Hh _]. rewrite of_type_elem, Hh. by intros [? _].
      * rewrite of_type_perm. apply Hfl.
    + intros p Hp. cbn [pages set_pages set_page_free_list]. destruct (t_tp false t) as [q|] eqn:Et; cbn [stored]; [|by apply Hoth].
      rewrite lookup_insert_ne; [by apply Hoth|]. intros <-. by destruct (Hq q eq_refl).
Qed.
End low_first.

(** ** [check_page_free_list] *)

(** What the test demands of the free pages; [lim] is the first page behind
    the memory that [boot_alloc] has handed out. *)
Definition page_reasonable (lim p : Z) : Prop := p ∉ [0; 7; 160; 255; 256] ∧ (p < 256 ∨ lim <= p).
Definition list_reasonable (lim : Z) (fl : list Z) : Prop :=
  (∀ p, p ∈ fl → page_reasonable lim p) ∧ (∃ p, p ∈ fl ∧ p < 256) ∧ (∃ p, p ∈ fl ∧ 256 <= p).

Lemma list_reasonable_perm lim fl fl' : fl ≡ₚ fl' → list_reasonable lim fl → list_reasonable lim fl'.
Proof.
  intros Hp (H1 & (p & ? & ?) & q & ? & ?). split_and!; [|exists p; by rewrite <- Hp|exists q; by rewrite <- Hp].
  intros r Hr. apply H1. by rewrite Hp.
Qed.

(** The rest of the list, in a state whose descriptors are those of [s]. *)
Definition on_list (s : kstate) (fl rest : list Z) (s' : kstate) : Prop :=
  pages s' = pages s ∧ chain (pages s) (head rest) rest ∧ rest ⊆ fl.

Lemma on_list_step s fl p rest s' :
  on_list s fl (p :: rest) s' → (∀ s'', pages s'' = pages s' → on_list s fl rest s'') ∧ p ∈ fl ∧
    ∃ pi, pages s' !! p = Some pi ∧ pp_link pi = head rest.
Proof.
  intros (Hp & (_ & link & Hpi & Hc) & Hs). pose proof (chain_head _ _ _ Hc) as ->. split; [|split; [set_solver|]].
  - intros s'' E. split_and!; [congruence|done|set_solver].
  - exists (mkPageInfo (head rest) 0). by rewrite Hp.
Qed.

Lemma on_list_start s fl : free_list s fl → on_list s fl fl s.
Proof. intros [Hc _]. split_and!; [done|by rewrite <- (chain_head _ _ _ Hc)|done]. Qed.

(** The pattern in the free pages. *)
Lemma fill_loop s fl lim :
  phys_ok s → free_list s fl → mem_ok (mem s) →
  ∃ s', for_pages (λ _ pp, if PDX (page2pa pp) <? lim then kva ← page2kva pp; kmemset kva 0x97 128 else mret tt) tt s = (Ret tt, s') ∧
    s' = set_mem (mem s') s ∧ mem_ok (mem s') ∧ frames_kept fl s s'.
Proof.
  intros Hok Hfl Hm.
  destruct (for_pages_inv (λ _ rest s', on_list s fl rest s' ∧ s' = set_mem (mem s') s ∧ mem_ok (mem s') ∧ frames_kept fl s s')
    (λ _ pp, if PDX (page2pa pp) <? lim then kva ← page2kva pp; kmemset kva 0x97 128 else mret tt) fl tt s Hok Hfl) as ([] & s' & Hrun & HI); [| |exists s'; split; [exact Hrun|tauto]].
  - intros [] p rest s1 (Hon & E1 & Hm1 & Hf1). destruct (on_list_step _ _ _ _ _ Hon) as (Hnext & Hp & Hlink). exists tt.
    destruct (PDX (page2pa p) <? lim).
    2:{ exists s1. split; [done|]. split; [|exact Hlink]. split; [by apply Hnext|done]. }
    pose proof (free_list_range s fl p Hok Hfl Hp) as Hr.
    eexists. split; [mrun (apply page2kva_ok; [rewrite E1; destruct Hok; by constructor|by rewrite E1])|]; [reflexivity|].
    split; [|exact Hlink]. split; [by apply Hnext|]. split; [rewrite E1; by destruct s|]. split; [by apply mem_set_ok|].
    intros f k Hf Hk. cbn. rewrite mem_set_out; [by apply Hf1|]. assert (f ≠ p) by (intros ->; done). lia.
  - split; [by apply on_list_start|]. split; [by destruct s|]. split; [done|apply frames_kept_refl].
Qed.

Lemma check_free_page_ok s lim n p :
  phys_ok s → 0 <= p < npages s → page_reasonable lim p →
  check_free_page (lim * 4096 + KERNBASE) n p s = (Ret (if decide (p < 256) then (n.1 + 1, n.2) else (n.1, n.2 + 1)), s).
Proof.
  intros Hok Hr [Hne Hlim]. pose proof (phys_npages s Hok). unfold check_free_page. mstep.
  rewrite page2pa_mul by lia. rewrite !not_elem_of_cons in Hne. unfold IOPHYSMEM, EXTPHYSMEM, PGSIZE, MPENTRY_PADDR, SIZEOF_PAGEINFO.
  do 7 (mrun (apply kassert_ok; first [lia|rewrite Z.mul_comm, Z.mod_mul by lia; lia])).
  assert (Hlow : (p * 4096 <? 1048576) = bool_decide (p < 256)) by (apply eq_bool_prop_intro; rewrite bool_decide_spec, Is_true_true; lia).
  rewrite Hlow.
  destruct (decide (p < 256)) as [Hlo|Hhi].
  - rewrite bool_decide_eq_true_2 by done. mstep. mrun (apply kassert_ok; lia). done.
  - rewrite bool_decide_eq_false_2 by done.
    mrun (mrun (by apply page2kva_ok); apply kassert_ok; lia). mrun (apply kassert_ok; lia). done.
Qed.

Lemma count_loop s fl lim :
  phys_ok s → free_list s fl → list_reasonable lim fl →
  ∃ n, for_pages (check_free_page (lim * 4096 + KERNBASE)) (0, 0) s = (Ret n, s) ∧ 0 < n.1 ∧ 0 < n.2.
Proof.
  intros Hok Hfl (Hgood & (p1 & Hp1 & Hlo) & p2 & Hp2 & Hhi).
  set (lows l := Z.of_nat (length (filter (λ p, p < 256) l))). set (highs l := Z.of_nat (length (filter (λ p, 256 <= p) l))).
  destruct (for_pages_inv (λ n rest s', s' = s ∧ on_list s fl rest s' ∧ n.1 + lows rest = lows fl ∧ n.2 + highs rest = highs fl)
    (check_free_page (lim * 4096 + KERNBASE)) fl (0, 0) s Hok Hfl) as (n & s' & Hrun & -> & _ & H1 & H2).
  - intros n p rest s1 (-> & Hon & H1 & H2). destruct (on_list_step _ _ _ _ _ Hon) as (Hnext & Hp & Hlink).
    eexists _, s. split; [apply check_free_page_ok; [done|by eapply free_list_range|by apply Hgood]|]. split; [|exact Hlink].
    split; [done|]. split; [by apply Hnext|]. unfold lows, highs in *. rewrite !filter_cons in H1, H2.
    repeat case_decide; cbn [fst snd length] in *; lia.
  - split; [done|]. split; [by apply on_list_start|done].
  - exists n. split; [exact Hrun|]. unfold lows, highs in *. cbn in H1, H2.
    pose proof (filter_length_pos (λ p, p < 256) fl p1 Hp1 Hlo). pose proof (filter_length_pos (λ p, 256 <= p) fl p2 Hp2 Hhi). lia.
Qed.

Lemma check_page_free_list_ok end_ only s pd fl lim :
  kpd s pd fl → boot_ok s lim → list_reasonable lim fl →
  ∃ s' fl', check_page_free_list end_ only s = (Ret tt, s') ∧ kept pd s s' fl fl'.
Proof.
  intros H Hb Hgood. unfold check_page_free_list. mstep. rewrite (chain_head _ _ _ (proj1 (k_free _ _ _ H))).
  assert (∃ p0, head fl = Some p0) as [p0 ->] by (destruct fl; [by destruct Hgood as (_ & (? & ?%not_elem_of_nil & _) & _)|eauto]).
  set (limit := if only then 1 else NPDENTRIES).
  assert (∃ s1 fl1, (if only then low_first limit else mret tt) s = (Ret tt, s1) ∧ only_pages s s1 ∧ phys_ok s1 ∧ free_list s1 fl1 ∧
    fl1 ≡ₚ fl ∧ ∀ p, p ∉ fl → pages s1 !! p = pages s !! p) as (s1 & fl1 & R1 & O1 & Ph1 & F1 & P1 & Oth1).
  { destruct only.
    - destruct (low_first_ok s fl limit (k_phys _ _ _ H) (k_free _ _ _ H)) as (s1 & ? & ? & ? & ? & ?).
      exists s1, (of_type limit false fl ++ of_type limit true fl). split_and!; try done. apply of_type_perm.
    - exists s, fl. split_and!; [done|apply only_pages_refl|apply (k_phys _ _ _ H)|apply (k_free _ _ _ H)|done|done]. }
  assert (Hm1 : mem s1 = mem s) by (by rewrite O1).
  destruct (fill_loop s1 fl1 limit Ph1 F1) as (s2 & R2 & E2 & Hm2 & Fr2); [rewrite Hm1; apply (k_mem _ _ _ H)|].
  assert (Ph2 : phys_ok s2) by (rewrite E2; destruct Ph1; by constructor).
  assert (F2 : free_list s2 fl1) by (unfold free_list; rewrite E2; exact F1).
  assert (Hb2 : boot_ok s2 lim) by (rewrite E2; unfold boot_ok; rewrite O1; exact Hb).
  destruct (count_loop s2 fl1 lim Ph2 F2) as (n & R3 & Hn1 & Hn2); [by eapply list_reasonable_perm|].
  exists s2, fl1. split.
  - mrun (exact R1). mrun (exact R2). mrun (by apply boot_alloc_0). mrun (exact R3). mrun (apply kassert_ok; lia). apply kassert_ok. lia.
  - apply kept_intro; [done| |done|done|done|done| |].
    + eapply only_vm_trans; [|rewrite E2; unfold only_vm; by destruct s1]. rewrite O1. unfold only_vm. by destruct s.
    + intros p pi. rewrite E2. cbn [pages set_mem]. intros Hpi. destruct (decide (p ∈ fl1)) as [Hin|Hin].
      * destruct (chain_elem _ _ _ _ (proj1 F1) Hin) as [link E]. rewrite E in Hpi. injection Hpi as <-. cbn. lia.
      * rewrite Oth1 in Hpi by (by rewrite <- P1). by apply (k_ref _ _ _ H p).
    + intros f k Hf Hk. rewrite Fr2 by (rewrite ?P1; done). by rewrite Hm1.
Qed.

(** ** [check_page_alloc] *)

Lemma phys_ok_list s o : phys_ok s → phys_ok (set_page_free_list o s).
Proof. intros [H1 H2]. by constructor. Qed.
Lemma phys_ok_mem s m : phys_ok s → phys_ok (set_mem m s).
Proof. intros [H1 H2]. by constructor. Qed.

Lemma assert_alloc_pop s p l :
  phys_ok s → free_list s (p :: l) →
  assert_alloc 0 s = (Ret p, set_page_free_list (head l) s) ∧
  free_list (set_page_free_list (head l) s) l ∧ phys_ok (set_page_free_list (head l) s).
Proof.
  intros Hok Hfl. split; [|split].
  - unfold assert_alloc. mrun (by apply page_alloc_pop). cbn. by destruct s.
  - destruct Hfl as [(_ & link & Hp & Hc) [_ Hnd]%NoDup_cons]. split; [|done]. cbn. by rewrite <- (chain_head _ _ _ Hc).
  - by apply phys_ok_list.
Qed.

Lemma assert_no_page_ok s : page_free_list s = None → assert_no_page s = (Ret tt, s).
Proof. intros H. unfold assert_no_page. by mrun (by apply page_alloc_empty). Qed.

Lemma page_free_push s p l link :
  phys_ok s → free_list s l → p ∉ l → pages s !! p = Some (mkPageInfo link 0) →
  page_free p s = (Ret tt, pushed p s) ∧ free_list (pushed p s) (p :: l) ∧ phys_ok (pushed p s).
Proof.
  intros Hok Hfl Hn Hp. split; [by eapply page_free_eq|]. split; [by apply pushed_free_list|].
  apply pushed_phys_ok; [done|]. apply (phys_dom s Hok). by rewrite Hp.
Qed.

Lemma count_free_ok s fl : phys_ok s → free_list s fl → count_free s = (Ret (Z.of_nat (length fl)), s).
Proof.
  intros Hok Hfl. unfold count_free.
  destruct (for_pages_inv (λ n rest s', s' = s ∧ on_list s fl rest s' ∧ n + Z.of_nat (length rest) = Z.of_nat (length fl))
    (λ n (_ : Z), mret (n + 1)) fl 0 s Hok Hfl) as (n & s' & Hrun & -> & _ & H1).
  - intros n p rest s1 (-> & Hon & H1). destruct (on_list_step _ _ _ _ _ Hon) as (Hnext & _ & Hlink).
    exists (n + 1), s. split; [done|]. split; [|exact Hlink]. split; [done|]. split; [by apply Hnext|]. cbn [length] in H1. lia.
  - split; [done|]. split; [by apply on_list_start|done].
  - rewrite Hrun. cbn in H1. repeat f_equal. lia.
Qed.

Lemma assert_distinct_ok p q r s : p ≠ q → p ≠ r → q ≠ r → assert_distinct p q r s = (Ret tt, s).
Proof. intros. unfold assert_distinct. mrun (apply kassert_ok; lia). apply kassert_ok. lia. Qed.

(** Three pages in the hands of the test, the rest of the list set aside. *)
Record three (s : kstate) (a b c : Z) (l : list Z) : Prop := mk_three {
  th_list : free_list s (a :: b :: c :: l);
  th_phys : phys_ok s;
}.

Lemma three_facts s a b c l :
  three s a b c l → a ≠ b ∧ a ≠ c ∧ b ≠ c ∧ a ∉ l ∧ b ∉ l ∧ c ∉ l ∧ NoDup l ∧
    pages s !! a = Some (mkPageInfo (Some b) 0) ∧ pages s !! b = Some (mkPageInfo (Some c) 0) ∧
    pages s !! c = Some (mkPageInfo (head l) 0) ∧ chain (pages s) (head l) l ∧
    0 <= a < npages s ∧ 0 <= b < npages s ∧ 0 <= c < npages s.
Proof.
  intros [Hfl Hok]. pose proof (λ p, free_list_range s _ p Hok Hfl) as Hr.
  destruct Hfl as [(_ & la & Ha & -> & lb & Hb & -> & lc & Hc & Hch) Hnd].
  pose proof (chain_head _ _ _ Hch) as ->. rewrite !NoDup_cons, !not_elem_of_cons in Hnd.
  destruct Hnd as ((? & ? & ?) & (? & ?) & ? & ?). split_and!; try done; apply Hr; set_solver.
Qed.

Lemma alloc_three s a b c l {B} (k : Z → Z → Z → K B) :
  three s a b c l →
  (pp0 ← assert_alloc 0; pp1 ← assert_alloc 0; pp2 ← assert_alloc 0; k pp0 pp1 pp2) s =
  k a b c (set_page_free_list (head l) s).
Proof.
  intros [Hfl Hok]. destruct (assert_alloc_pop s a _ Hok Hfl) as (R1 & F1 & O1). mrun (exact R1).
  destruct (assert_alloc_pop _ b _ O1 F1) as (R2 & F2 & O2). mrun (exact R2).
  destruct (assert_alloc_pop _ c _ O2 F2) as (R3 & F3 & O3). mrun (exact R3). done.
Qed.

Lemma NoDup_three (a b c : Z) l : a ≠ b → a ≠ c → b ≠ c → a ∉ l → b ∉ l → c ∉ l → NoDup l → NoDup (a :: b :: c :: l).
Proof. intros. rewrite !NoDup_cons, !not_elem_of_cons. done. Qed.

(** Three pages go back in turn. *)
Lemma free_three s a b c l0 la lb lc :
  phys_ok s → chain (pages s) (page_free_list s) l0 → NoDup (a :: b :: c :: l0) →
  pages s !! a = Some (mkPageInfo la 0) → pages s !! b = Some (mkPageInfo lb 0) → pages s !! c = Some (mkPageInfo lc 0) →
  (∀ B (k : K B), (page_free a;; page_free b;; page_free c;; k) s = k (pushed c (pushed b (pushed a s)))) ∧
  free_list (pushed c (pushed b (pushed a s))) (c :: b :: a :: l0) ∧ phys_ok (pushed c (pushed b (pushed a s))).
Proof.
  intros Hok Hl Hnd Ha Hb Hc. rewrite !NoDup_cons, !not_elem_of_cons in Hnd.
  destruct Hnd as ((Hab & Hac & Hal) & (Hbc & Hbl) & Hcl & Hnd).
  destruct (page_free_push s a l0 la Hok) as (R1 & F1 & O1); [by split|done|done|].
  destruct (page_free_push (pushed a s) b (a :: l0) lb O1 F1) as (R2 & F2 & O2);
    [set_solver|cbn; by rewrite lookup_insert_ne|].
  destruct (page_free_push (pushed b (pushed a s)) c (b :: a :: l0) lc O2 F2) as (R3 & F3 & O3);
    [set_solver|cbn; by rewrite !lookup_insert_ne by done|].
  split; [|done]. intros B k. mrun (exact R1). mrun (exact R2). by mrun (exact R3).
Qed.

(** Changes of the list and of memory that are overwritten. *)
Lemma overwritten s o o' m m' p :
  set_page_free_list o (set_mem m (set_page_free_list o' (pushed p (set_mem m' s)))) = set_page_free_list o (set_mem m (pushed p s)).
Proof. done. Qed.

Section check_page_alloc.
Context (s : kstate) (pd a b c : Z) (l : list Z).
Hypothesis Hk : kpd s pd (a :: b :: c :: l).

Lemma check_page_alloc_three : three s a b c l.
Proof. constructor; [apply (k_free _ _ _ Hk)|apply (k_phys _ _ _ Hk)]. Qed.

(** The state after the second round of allocations: nothing is free. *)
Definition held_st : kstate := set_page_free_list None (pushed c (pushed b (pushed a (set_page_free_list None s)))).

Lemma held_phys : phys_ok held_st.
Proof.
  destruct (three_facts _ _ _ _ _ check_page_alloc_three) as (_ & _ & _ & _ & _ & _ & _ & _ & _ & _ & _ & Hra & Hrb & Hrc).
  apply phys_ok_list. apply pushed_phys_ok; [apply pushed_phys_ok; [apply pushed_phys_ok; [|exact Hra]|exact Hrb]|exact Hrc].
  apply phys_ok_list, (k_phys _ _ _ Hk).
Qed.

(** The state in which the list is whole again. *)
Definition given_back (m : memory) : kstate := pushed a (pushed b (pushed c (set_page_free_list (head l) (set_mem m (pushed c held_st))))).

Lemma given_back_list m : free_list (given_back m) (a :: b :: c :: l) ∧ phys_ok (given_back m) ∧
  (∀ B (k : K B), (page_free c;; page_free b;; page_free a;; k) (set_page_free_list (head l) (set_mem m (pushed c held_st))) = k (given_back m)).
Proof.
  destruct (three_facts _ _ _ _ _ check_page_alloc_three) as (Hab & Hac & Hbc & Hal & Hbl & Hcl & Hnd & Ha & Hb & Hc & Hch & Hra & Hrb & Hrc).
  set (s7 := set_page_free_list (head l) (set_mem m (pushed c held_st))).
  assert (phys_ok s7 ∧ chain (pages s7) (page_free_list s7) l ∧ pages s7 !! a = Some (mkPageInfo None 0) ∧
            pages s7 !! b = Some (mkPageInfo (Some a) 0) ∧ ∃ o, pages s7 !! c = Some (mkPageInfo o 0)) as (Hok7 & Hch7 & Ha7 & Hb7 & oc & Hc7).
  { split_and!.
    - apply phys_ok_list, phys_ok_mem, pushed_phys_ok; [apply held_phys|exact Hrc].
    - cbn. repeat (apply chain_insert_ne; [done|]). done.
    - cbn. by rewrite !lookup_insert_ne, lookup_insert_eq by done.
    - cbn. by rewrite !lookup_insert_ne, lookup_insert_eq by done.
    - eexists. cbn. apply lookup_insert_eq. }
  destruct (free_three s7 c b a l oc (Some a) None Hok7 Hch7) as (R & F & O); [by apply NoDup_three|done|done|done|done].
Qed.

Lemma check_page_alloc_run pages_ :
  pages_ ≠ 0 →
  check_page_alloc pages_ s = (Ret tt, given_back (mem_set (mem_set (mem s) (c * 4096) 1 4096) (c * 4096) 0 4096)).
Proof.
  intros Hpg. destruct (three_facts _ _ _ _ _ check_page_alloc_three) as (Hab & Hac & Hbc & Hal & Hbl & Hcl & Hnd & Ha & Hb & Hc & Hch & Hra & Hrb & Hrc).
  pose proof (k_phys _ _ _ Hk) as Hok. pose proof (phys_npages s Hok) as Hnp.
  unfold check_page_alloc. replace (pages_ =? 0) with false by lia.
  mrun (apply count_free_ok; [done|apply (k_free _ _ _ Hk)]).
  rewrite (alloc_three s a b c l _ check_page_alloc_three). mrun (by apply assert_distinct_ok). mstep. cbn [npages set_page_free_list].
  rewrite !page2pa_mul, u32_small by (unfold PGSIZE; lia). do 3 (mrun (apply kassert_ok; unfold PGSIZE; lia)). do 2 mstep.
  mrun (by apply assert_no_page_ok).
  set (s1 := set_page_free_list None (set_page_free_list (head l) s)).
  assert (Hok1 : phys_ok s1) by (by do 2 apply phys_ok_list).
  destruct (free_three s1 a b c [] (Some b) (Some c) (head l)) as (R2 & F2 & O2); [done|done| |done|done|done|].
  { by apply NoDup_three; try apply not_elem_of_nil; try apply NoDup_nil_2. }
  rewrite R2. clear R2.
  rewrite (alloc_three _ c b a []) by (by constructor). cbn [head].
  change (set_page_free_list None (pushed c (pushed b (pushed a s1)))) with held_st.
  pose proof held_phys as O3.
  assert (Hpc : ∃ o, pages held_st !! c = Some (mkPageInfo o 0)) by (eexists; cbn; apply lookup_insert_eq). destruct Hpc as [oc Hpc].
  mrun (by apply assert_distinct_ok). mrun (by apply assert_no_page_ok). mrun (by apply page2kva_ok). unfold kmemset at 1. mstep.
  replace (c * 4096 + KERNBASE - KERNBASE) with (c * 4096) by lia.
  set (s4 := set_mem _ held_st). assert (O4 : phys_ok s4) by (by apply phys_ok_mem).
  destruct (page_free_push s4 c [] oc O4) as (R5 & F5 & O5); [by split; [|constructor]|apply not_elem_of_nil|done|].
  mrun (exact R5). mrun (unfold assert_alloc; mrun (by apply page_alloc_pop); reflexivity).
  mrun (apply kassert_ok; lia). cbn [head].
  mrun (apply page2kva_ok; [by apply phys_ok_mem, phys_ok_list|exact Hrc]).
  mrun (apply mfor_pure; intros i (Hi1 & Hi2)%elem_of_seqZ; mstep; apply kassert_ok;
    unfold page_zeroed; cbn [mem set_mem]; change (Z.land ALLOC_ZERO ALLOC_ZERO =? 0) with false; cbv beta iota;
    rewrite mem_set_in by (unfold PGSIZE in *; lia); done).
  mstep. unfold s4. rewrite overwritten. rewrite (proj2 (proj2 (given_back_list _))).
  mrun (apply count_free_ok; [apply given_back_list|apply given_back_list]). apply kassert_ok. lia.
Qed.

Lemma only_vm_pushed s1 s2 p : only_vm s1 s2 → only_vm s1 (pushed p s2).
Proof. intros H. eapply only_vm_trans; [exact H|]. unfold only_vm, pushed. by destruct s2. Qed.
Lemma only_vm_list s1 s2 o : only_vm s1 s2 → only_vm s1 (set_page_free_list o s2).
Proof. intros H. eapply only_vm_trans; [exact H|]. unfold only_vm. by destruct s2. Qed.
Lemma only_vm_mem s1 s2 m : only_vm s1 s2 → only_vm s1 (set_mem m s2).
Proof. intros H. eapply only_vm_trans; [exact H|]. unfold only_vm. by destruct s2. Qed.

(** Counts that stay below 2^16. *)
Definition refs_ok (s : kstate) : Prop := ∀ p pi, pages s !! p = Some pi → 0 <= pp_ref pi < 2 ^ 16.
Lemma refs_ok_pushed s1 p : refs_ok s1 → refs_ok (pushed p s1).
Proof. intros H q qi. cbn. rewrite lookup_insert. case_decide; [intros [= <-]; cbn; lia|apply H]. Qed.

Lemma refs_ok_list s1 o : refs_ok s1 → refs_ok (set_page_free_list o s1).
Proof. done. Qed.
Lemma refs_ok_mem s1 m : refs_ok s1 → refs_ok (set_mem m s1).
Proof. done. Qed.

Lemma check_page_alloc_ok pages_ :
  pages_ ≠ 0 → ∃ s', check_page_alloc pages_ s = (Ret tt, s') ∧ kept pd s s' (a :: b :: c :: l) (a :: b :: c :: l).
Proof.
  intros Hpg. eexists. split; [by apply check_page_alloc_run|]. set (m := mem_set _ _ _ _).
  destruct (given_back_list m) as (F & O & _). apply kept_intro; [done| | |done|done|done| |].
  - unfold given_back, held_st. do 3 apply only_vm_pushed. apply only_vm_list, only_vm_mem, only_vm_pushed, only_vm_list.
    do 3 apply only_vm_pushed. apply only_vm_list, only_vm_refl.
  - apply mem_set_ok, mem_set_ok, (k_mem _ _ _ Hk).
  - change (refs_ok (given_back m)). unfold given_back, held_st. do 3 apply refs_ok_pushed.
    apply refs_ok_list, refs_ok_mem, refs_ok_pushed, refs_ok_list. do 3 apply refs_ok_pushed. apply refs_ok_list. exact (k_ref _ _ _ Hk).
  - intros f k Hf Hkk. change (mem (given_back m)) with m. unfold m. assert (f ≠ c) by set_solver. rewrite !mem_set_out by lia. done.
Qed.
End check_page_alloc.
