(* ===== verification/BootPages.v ===== *)
(** * The self-tests of the page tables

    [check_page] and [check_page_installed_pgdir] work with three pages, the
    first two entries of the kernel's page directory and the first two of a
    page table.  [world] is what is known of the state at a point of such a
    test: the free list, the descriptors of the three pages and the entries;
    and that nothing else has changed.  Every call in the tests has a lemma
    that tells the world after it. *)

From S2P Require Import Prelude Mmu Console KState PageAlloc PageTable AddrSpace PageInsert VmFrame Env MemInit BootMap BootCheck BootFree.
Open Scope Z_scope.

(** ** The world of a test *)

Inductive sel : Type := PA | PB | PC.

#[export] Instance sel_eq_dec : EqDecision sel.
Proof. solve_decision. Defined.

(** The state [s0] a test starts from, the directory and three other pages. *)
Record setting (s0 : kstate) (pd a b c : Z) : Prop := mk_setting {
  st_dist : a ≠ b ∧ a ≠ c ∧ b ≠ c;
  st_pd : pd ≠ a ∧ pd ≠ b ∧ pd ≠ c;
  st_pdr : 0 <= pd < npages s0;
  st_a : 0 <= a < npages s0;
  st_b : 0 <= b < npages s0;
  st_c : 0 <= c < npages s0;
  st_cur : cur_ok s0;
}.

Section world.
Context (s0 : kstate) (pd a b c : Z).
Hypothesis HS : setting s0 pd a b c.
Let Hdist : a ≠ b ∧ a ≠ c ∧ b ≠ c := st_dist _ _ _ _ _ HS.
Let Hpd : pd ≠ a ∧ pd ≠ b ∧ pd ≠ c := st_pd _ _ _ _ _ HS.
Let Hpdr : 0 <= pd < npages s0 := st_pdr _ _ _ _ _ HS.
Let Hra : 0 <= a < npages s0 := st_a _ _ _ _ _ HS.
Let Hrb : 0 <= b < npages s0 := st_b _ _ _ _ _ HS.
Let Hrc : 0 <= c < npages s0 := st_c _ _ _ _ _ HS.
Let Hcur : cur_ok s0 := st_cur _ _ _ _ _ HS.
(** The frames whose contents are not followed. *)
Context (X : list Z).
Hypothesis HaX : a ∈ X.

Definition pg (x : sel) : Z := match x with PA => a | PB => b | PC => c end.

(** The three descriptors; two words, by index. *)
Definition descs : Type := PageInfo * PageInfo * PageInfo.
Definition dget (D : descs) (x : sel) : PageInfo := match x with PA => D.1.1 | PB => D.1.2 | PC => D.2 end.
Definition dput (D : descs) (x : sel) (v : PageInfo) : descs :=
  match x with PA => (v, D.1.2, D.2) | PB => (D.1.1, v, D.2) | PC => (D.1.1, D.1.2, v) end.
Definition zget (p : Z * Z) (j : bool) : Z := if j then p.2 else p.1.
Definition zput (p : Z * Z) (j : bool) (v : Z) : Z * Z := if j then (p.1, v) else (v, p.2).
Definition jz (j : bool) : Z := if j then 1 else 0.

Record world (o : option Z) (D : descs) (E T : Z * Z) (s : kstate) : Prop := mk_world {
  w_only : only_vm s0 s;
  w_mem : mem_ok (mem s);
  w_phys : phys_ok s;
  w_list : page_free_list s = o;
  w_page : ∀ x, pages s !! pg x = Some (dget D x);
  w_pages : ∀ p, p ∉ [a; b; c] → pages s !! p = pages s0 !! p;
  w_pde : ∀ i, entry s pd (jz i) = zget E i;
  w_pte : ∀ j, entry s a (jz j) = zget T j;
  w_other : ∀ f k, f ∉ X → 0 <= k < 4096 → f ≠ pd ∨ 8 <= k → mem s (f * 4096 + k) = mem s0 (f * 4096 + k);
}.

Lemma pg_inj x y : pg x = pg y → x = y.
Proof. destruct x, y; cbn; naive_solver. Qed.

Lemma pg_range x : 0 <= pg x < npages s0.
Proof. by destruct x. Qed.

Lemma pg_in x : pg x ∈ [a; b; c].
Proof. destruct x; cbn; set_solver. Qed.

Lemma pg_pd x : pg x ≠ pd.
Proof. destruct x; cbn; naive_solver. Qed.

Lemma dget_dput D x y v : dget (dput D x v) y = if decide (x = y) then v else dget D y.
Proof. destruct x, y; cbn; (rewrite decide_True by done) || (rewrite decide_False by done); done. Qed.

Lemma zget_zput p i j v : zget (zput p i v) j = if decide (i = j) then v else zget p j.
Proof. destruct i, j; cbn; (rewrite decide_True by done) || (rewrite decide_False by done); done. Qed.

Lemma jz_idx j : idx (jz j).
Proof. destruct j; unfold idx, jz; lia. Qed.

Lemma jz_inj i j : jz i = jz j → i = j.
Proof. by destruct i, j. Qed.

Section rules.
Context {o : option Z} {D : descs} {E T : Z * Z} {s : kstate}.
Hypothesis W : world o D E T s.

Lemma w_npages : npages s = npages s0.
Proof. by destruct (only_vm_fields s0 s (w_only _ _ _ _ _ W)) as [-> _]. Qed.

Lemma w_cur : cur_ok s.
Proof. eapply only_vm_cur_ok; [apply (w_only _ _ _ _ _ W)|done]. Qed.

Lemma world_list o' : world o' D E T (set_page_free_list o' s).
Proof.
  destruct W. constructor; try done; [by apply only_vm_list|by apply phys_ok_list].
Qed.

Lemma world_page x v : world o (dput D x v) E T (set_pages (<[pg x := v]> (pages s)) s).
Proof.
  destruct W. constructor; try done.
  - eapply only_vm_trans; [done|]. unfold only_vm. by destruct s.
  - apply pages_insert_dom; [done|]. rewrite w_npages. apply pg_range.
  - intros y. cbn. rewrite lookup_insert, dget_dput. destruct (decide (x = y)) as [->|Hne]; [by rewrite decide_True|].
    rewrite decide_False; [done|]. by intros ?%pg_inj.
  - intros p Hp. cbn. rewrite lookup_insert_ne; [by auto|]. intros <-. by apply Hp, pg_in.
Qed.

Lemma world_store_pde i v :
  is_u32 v → world o D (zput E i v) T (set_mem (st32 (mem s) (pd * 4096 + 4 * jz i) v) s).
Proof.
  intros Hv. pose proof (jz_idx i) as Hi. destruct W as [Wo Wm Wp Wl Wg Wgs We Wt Wx]. constructor; try done.
  - by apply only_vm_mem.
  - by apply st32_ok.
  - by apply phys_ok_mem.
  - intros j. erewrite entry_store; [|exact Hi|apply jz_idx|exact Hv|reflexivity]. rewrite zget_zput.
    destruct (decide (i = j)) as [->|Hne]; [by rewrite decide_True|]. rewrite decide_False; [apply We|]. intros [_ ?%jz_inj]. congruence.
  - intros j. erewrite entry_store; [|exact Hi|apply jz_idx|exact Hv|reflexivity]. rewrite decide_False; [apply Wt|]. intros [? _]. naive_solver.
  - intros f k Hf Hk Hx. cbn [mem set_mem]. rewrite st32_other_byte; [by apply Wx|]. unfold jz. destruct i; destruct Hx; nia.
Qed.

Lemma world_store_pte j v :
  is_u32 v → world o D E (zput T j v) (set_mem (st32 (mem s) (a * 4096 + 4 * jz j) v) s).
Proof.
  intros Hv. pose proof (jz_idx j) as Hj. destruct W as [Wo Wm Wp Wl Wg Wgs We Wt Wx]. constructor; try done.
  - by apply only_vm_mem.
  - by apply st32_ok.
  - by apply phys_ok_mem.
  - intros i. erewrite entry_store; [|exact Hj|apply jz_idx|exact Hv|reflexivity]. rewrite decide_False; [apply We|]. intros [? _]. naive_solver.
  - intros i. erewrite entry_store; [|exact Hj|apply jz_idx|exact Hv|reflexivity]. rewrite zget_zput.
    destruct (decide (j = i)) as [->|Hne]; [by rewrite decide_True|]. rewrite decide_False; [apply Wt|]. intros [_ ?%jz_inj]. congruence.
  - intros f k Hf Hk Hx. cbn [mem set_mem]. rewrite st32_other_byte; [by apply Wx|]. assert (f ≠ a) by (intros ->; done). unfold idx in Hj. nia.
Qed.

Lemma world_invlpg l : world o D E T (set_invlpgs l s).
Proof.
  destruct W. constructor; try done; [|destruct w_phys0; by constructor].
  eapply only_vm_trans; [done|]. unfold only_vm. by destruct s.
Qed.

Lemma world_tlb va : world o D E T (tlb_st (kaddr pd) va s).
Proof. unfold tlb_st. destruct (tlb_flushed _ _); [apply world_invlpg|exact W]. Qed.

Lemma world_fill v :
  ∃ T', world o D E T' (set_mem (mem_set (mem s) (a * 4096) v 4096) s) ∧ (v = 0 → T' = (0, 0)).
Proof.
  destruct W as [Wo Wm Wp Wl Wg Wgs We Wt Wx]. set (s' := set_mem _ s).
  exists (entry s' a 0, entry s' a 1). split.
  - constructor; try done.
    + by apply only_vm_mem.
    + by apply mem_set_ok.
    + by apply phys_ok_mem.
    + intros i. rewrite <- We. unfold entry. cbn. apply ld32_mem_set_out. pose proof (jz_idx i) as Hi. unfold idx in Hi. nia.
    + by intros [].
    + intros f k Hf Hk Hx. cbn. rewrite mem_set_out; [by apply Wx|]. assert (f ≠ a) by (intros ->; done). nia.
  - intros ->. unfold s', entry. cbn. by rewrite !ld32_mem_set_in by lia.
Qed.

End rules.

(** ** Descriptors and the free list *)

Section descriptors.
Context {o : option Z} {D : descs} {E T : Z * Z} {s : kstate}.
Hypothesis W : world o D E T s.

Lemma w_get_page x : get_page (pg x) s = (Ret (dget D x), s).
Proof. apply get_page_eq, W. Qed.

Lemma w_page_free x :
  pp_ref (dget D x) = 0 →
  page_free (pg x) s = (Ret tt, pushed (pg x) s) ∧ world (Some (pg x)) (dput D x (mkPageInfo o 0)) E T (pushed (pg x) s).
Proof.
  intros Hr. split; [by apply (page_free_eq s (pg x) (dget D x)); [apply W|]|].
  unfold pushed. rewrite (w_list _ _ _ _ _ W). eapply world_list, (world_page W).
Qed.

Lemma dput_dget x : dput D x (dget D x) = D.
Proof. by destruct D as [[? ?] ?], x. Qed.

Lemma w_page_alloc x link :
  o = Some (pg x) → dget D x = mkPageInfo link 0 →
  ∃ s', page_alloc 0 s = (Ret (Some (pg x)), s') ∧ world link D E T s'.
Proof.
  intros Ho Hd. pose proof (w_get_page x) as Hg. rewrite Hd in Hg. eexists. split.
  - unfold page_alloc. mstep. rewrite (w_list _ _ _ _ _ W), Ho. mrun (exact Hg). mstep. change (Z.land 0 ALLOC_ZERO =? 0) with true. cbn [negb]. mstep.
    mrun (apply set_ref_eq; cbn; rewrite (w_page _ _ _ _ _ W x); by rewrite Hd). reflexivity.
  - cbn [pp_link]. rewrite <- (dput_dget x). rewrite Hd. change (u16 0) with 0. exact (world_page (world_list W link) x _).
Qed.

Lemma w_no_page : o = None → assert_no_page s = (Ret tt, s).
Proof. intros Ho. apply assert_no_page_ok. by rewrite (w_list _ _ _ _ _ W). Qed.

Lemma w_set_ref x r : 0 <= r < 2 ^ 16 →
  ∃ s', set_ref (pg x) r s = (Ret tt, s') ∧ world o (dput D x (mkPageInfo (pp_link (dget D x)) r)) E T s'.
Proof.
  intros Hr. eexists. split; [apply set_ref_eq, W|]. rewrite u16_small by lia. exact (world_page W x _).
Qed.
End descriptors.

(** ** Page tables *)

(** A page-table entry for page [x] with low bits [k]. *)
Definition pte (x : sel) (k : Z) : Z := pg x * 4096 + k.

Lemma pte_facts x k s : npages s = npages s0 → phys_ok s → 0 <= k < 4096 →
  is_u32 (pte x k) ∧ PGNUM (pte x k) = pg x ∧ PTE_ADDR (pte x k) = pg x * 4096 ∧ present (pte x k) = Z.odd k ∧
  Z.land (pte x k) (Z.lnot PTE_P) = pte x (Z.land k (Z.lnot PTE_P)) ∧ page2pa (pg x) = pg x * 4096.
Proof.
  intros Hn Hok Hk. pose proof (phys_npages s Hok). pose proof (pg_range x). unfold pte.
  rewrite PGNUM_frame, PTE_ADDR_frame, page2pa_mul by lia. split_and!; try done.
  - unfold is_u32. lia.
  - rewrite present_odd, Z.odd_add. replace (pg x * 4096) with (2 * (pg x * 2048)) by lia. by rewrite Z.odd_mul.
  - rewrite <- (pte_lor _ k) by lia. rewrite Z.land_lor_distr_l.
    replace (Z.land (pg x * 4096) (Z.lnot PTE_P)) with (pg x * 4096).
    + apply pte_lor. unfold PTE_P. change 1 with (Z.ones 1). rewrite <- Z.ldiff_land, Z.ldiff_ones_r by lia.
      rewrite Z.shiftl_mul_pow2, Z.shiftr_div_pow2 by lia. change (2 ^ 1) with 2. Z.to_euclidean_division_equations. lia.
    + unfold PTE_P. change 1 with (Z.ones 1). rewrite <- Z.ldiff_land, Z.ldiff_ones_r by lia.
      rewrite Z.shiftl_mul_pow2, Z.shiftr_div_pow2 by lia. change (2 ^ 1) with 2.
      replace (pg x * 4096) with ((pg x * 2048) * 2) by lia. by rewrite Z.div_mul by lia.
Qed.

Section tables.
Context {o : option Z} {D : descs} {E T : Z * Z} {s : kstate}.
Hypothesis W : world o D E T s.
Context (i j : bool) (va : Z).
Hypothesis HX : PDX va = jz i.
Hypothesis HT : PTX va = jz j.

Lemma w_pte_facts x k : 0 <= k < 4096 →
  is_u32 (pte x k) ∧ PGNUM (pte x k) = pg x ∧ PTE_ADDR (pte x k) = pg x * 4096 ∧ present (pte x k) = Z.odd k ∧
  Z.land (pte x k) (Z.lnot PTE_P) = pte x (Z.land k (Z.lnot PTE_P)) ∧ page2pa (pg x) = pg x * 4096.
Proof. apply (pte_facts x k s); [apply (w_npages W)|apply W]. Qed.

Lemma w_walk create : zget E i = pte PA 7 → pgdir_walk (kaddr pd) va create s = (Ret (Some (entry_addr (kaddr a) (jz j))), s).
Proof.
  intros He. destruct (w_pte_facts PA 7 ltac:(lia)) as (_ & HG & _ & HP & _ & _).
  assert (Hd : entry s pd (PDX va) = pte PA 7) by (rewrite HX, (w_pde _ _ _ _ _ W i); exact He).
  rewrite <- HT. replace (kaddr a) with (kaddr (PGNUM (entry s pd (PDX va)))) by (rewrite Hd, HG; done).
  apply walk_present; [apply W|apply W|by rewrite (w_npages W)|by rewrite Hd|]. rewrite Hd, HG, (w_npages W). apply pg_range.
Qed.

Lemma w_walk_absent : zget E i = 0 → pgdir_walk (kaddr pd) va 0 s = (Ret None, s).
Proof. intros He. apply walk_absent; [by rewrite (w_npages W)|]. by rewrite HX, (w_pde _ _ _ _ _ W i), He. Qed.

Lemma w_walk_full create : zget E i = 0 → o = None → pgdir_walk (kaddr pd) va create s = (Ret None, s).
Proof.
  intros He Ho. apply walk_nomem; [by rewrite (w_npages W)| |by rewrite (w_list _ _ _ _ _ W)]. by rewrite HX, (w_pde _ _ _ _ _ W i), He.
Qed.

Lemma w_walk_create_gen l :
  zget E i = 0 → free_list s (a :: l) →
  ∃ s', pgdir_walk (kaddr pd) va 1 s = (Ret (Some (entry_addr (kaddr a) (jz j))), s') ∧
    world (head l) (dput D PA (mkPageInfo (head l) 1)) (zput E i (pte PA 7)) (0, 0) s' ∧ (∀ k, idx k → entry s' a k = 0).
Proof.
  intros He Hfl. destruct (w_pte_facts PA 7 ltac:(lia)) as (Hu & _). pose proof (phys_npages s (w_phys _ _ _ _ _ W)) as Hnp. pose proof (w_npages W) as Hn0.
  exists (new_table s pd (jz i) a l). split; [|split].
  - rewrite <- HT, <- HX. apply walk_create; [apply W|by rewrite Hn0|done| |done]. by rewrite HX, (w_pde _ _ _ _ _ W i), He.
  - pose proof (world_page (world_list W (head l)) PA (mkPageInfo (head l) 1)) as W1.
    destruct (world_fill W1 0) as (T' & W2 & HT'). rewrite (HT' eq_refl) in W2. exact (world_store_pde W2 i (pte PA 7) Hu).
  - intros k Hk. rewrite new_table_entry; [|lia|apply jz_idx|done]. rewrite decide_False by naive_solver. by rewrite decide_True.
Qed.

Lemma w_walk_create :
  zget E i = 0 → o = Some a → dget D PA = mkPageInfo None 0 →
  ∃ s', pgdir_walk (kaddr pd) va 1 s = (Ret (Some (entry_addr (kaddr a) (jz j))), s') ∧
    world None (dput D PA (mkPageInfo None 1)) (zput E i (pte PA 7)) (0, 0) s' ∧ (∀ k, idx k → entry s' a k = 0).
Proof.
  intros He Ho Ha. apply (w_walk_create_gen [] He). split; [|apply NoDup_singleton]. cbn. rewrite (w_list _ _ _ _ _ W), Ho.
  split; [done|]. exists None. split; [|done]. pose proof (w_page _ _ _ _ _ W PA) as Hp. by rewrite Ha in Hp.
Qed.

(** The end of [page_insert]. *)
Lemma w_finish x perm :
  0 <= perm < 4096 → 0 <= pp_ref (dget D x) < 2 ^ 16 - 1 →
  ∃ s', insert_finish (entry_addr (kaddr a) (jz j)) (pg x) perm s = (Ret 0, s') ∧
    world o (dput D x (mkPageInfo (pp_link (dget D x)) (pp_ref (dget D x) + 1))) E (zput T j (pte x (Z.lor perm PTE_P))) s'.
Proof.
  intros Hp Hr. pose proof (phys_npages s (w_phys _ _ _ _ _ W)). pose proof (pg_range x). pose proof (w_npages W) as Hn0.
  destruct (new_pte_facts (pg x) perm ltac:(lia) Hp) as (Eu & Hu & _). change (new_pte (pg x) perm) with (pte x (Z.lor perm PTE_P)) in *.
  pose proof (world_store_pte W j _ Hu) as W1. eexists. split.
  - unfold insert_finish. mrun (apply kstore_entry). rewrite Eu. mrun (apply page_incref_eq; exact (w_page _ _ _ _ _ W1 x)). reflexivity.
  - rewrite u16_small by lia. exact (world_page W1 x _).
Qed.

Lemma w_load : kload32 (entry_addr (kaddr a) (jz j)) s = (Ret (zget T j), s).
Proof. rewrite kload_entry. by rewrite (w_pte _ _ _ _ _ W). Qed.

Lemma w_lookup y k :
  zget E i = pte PA 7 → zget T j = pte y k → 0 <= k < 4096 → Z.odd k = true →
  page_lookup (kaddr pd) va s = (Ret (Some (pg y, entry_addr (kaddr a) (jz j))), s).
Proof.
  intros He Ht Hk Ho. destruct (w_pte_facts y k Hk) as (_ & HG & HA & HP & _).
  unfold page_lookup. mrun (by apply w_walk). mrun (apply w_load). rewrite Ht.
  rewrite Ho in HP. unfold present in HP. apply negb_true_iff in HP. rewrite HP, HA.
  pose proof (pg_range y). mrun (apply pa2page_ok; rewrite (w_npages W), PGNUM_div, Z.div_mul by lia; lia).
  by rewrite PGNUM_div, Z.div_mul by lia.
Qed.

Lemma w_decref y :
  1 <= pp_ref (dget D y) < 2 ^ 16 →
  ∃ s', page_decref (pg y) s = (Ret tt, s') ∧
    world (if pp_ref (dget D y) =? 1 then Some (pg y) else o)
      (dput D y (if pp_ref (dget D y) =? 1 then mkPageInfo o 0 else mkPageInfo (pp_link (dget D y)) (pp_ref (dget D y) - 1))) E T s'.
Proof.
  intros Hr. eexists. split; [apply page_decref_eq; [apply W|done]|]. unfold decref_st, pushed.
  destruct (pp_ref (dget D y) =? 1); [rewrite (w_list _ _ _ _ _ W); exact (world_list (world_page W y _) _)|exact (world_page W y _)].
Qed.
End tables.

Section changes.
Context {o : option Z} {D : descs} {E T : Z * Z} {s : kstate}.
Hypothesis W : world o D E T s.
Context (i j : bool) (va : Z).
Hypothesis HX : PDX va = jz i.
Hypothesis HT : PTX va = jz j.

Lemma w_remove y k :
  zget E i = pte PA 7 → zget T j = pte y k → 0 <= k < 4096 → Z.odd k = true → 1 <= pp_ref (dget D y) < 2 ^ 16 →
  ∃ s', page_remove (kaddr pd) va s = (Ret tt, s') ∧
    world (if pp_ref (dget D y) =? 1 then Some (pg y) else o)
      (dput D y (if pp_ref (dget D y) =? 1 then mkPageInfo o 0 else mkPageInfo (pp_link (dget D y)) (pp_ref (dget D y) - 1)))
      E (zput T j (pte y (Z.land k (Z.lnot PTE_P)))) s'.
Proof.
  intros He Ht Hk Ho Hr. destruct (w_pte_facts W y k Hk) as (Hu & _ & _ & _ & HL & _).
  destruct (w_decref W y Hr) as (s1 & R1 & W1). pose proof (land_not_P _ Hu) as [Hu2 _]. rewrite HL in Hu2.
  pose proof (world_store_pte W1 j _ Hu2) as W2. eexists. split; [|exact (world_tlb W2 va)].
  unfold page_remove. mrun (by apply (w_lookup W i j va HX HT y k)). mrun (exact R1). mrun (apply (w_load W1)). rewrite Ht, HL.
  mrun (apply kstore_entry). rewrite u32_small by done. by apply tlb_eq, (w_cur W2).
Qed.

Lemma w_insert_full x perm : zget E i = 0 → o = None → page_insert (kaddr pd) (pg x) va perm s = (Ret (- E_NO_MEM), s).
Proof. intros He Ho. rewrite page_insert_unfold. mrun (by apply (w_walk_full W i va HX)). by mrun (by apply (w_walk_full W i va HX)). Qed.

Lemma w_insert_table_gen x perm l :
  zget E i = 0 → free_list s (a :: l) → x ≠ PA → 0 <= perm < 4096 → 0 <= pp_ref (dget D x) < 2 ^ 16 - 1 →
  ∃ s', page_insert (kaddr pd) (pg x) va perm s = (Ret 0, s') ∧
    world (head l) (dput (dput D PA (mkPageInfo (head l) 1)) x (mkPageInfo (pp_link (dget D x)) (pp_ref (dget D x) + 1)))
      (zput E i (pte PA 7)) (zput (0, 0) j (pte x (Z.lor perm PTE_P))) s'.
Proof.
  intros He Hfl Hx Hp Hr. destruct (w_walk_create_gen W i j va HX HT l He Hfl) as (s1 & R1 & W1 & _).
  assert (Hd : dget (dput D PA (mkPageInfo (head l) 1)) x = dget D x) by (rewrite dget_dput; by rewrite decide_False).
  destruct (w_finish W1 j x perm Hp) as (s2 & R2 & W2); [by rewrite Hd|]. rewrite Hd in W2. exists s2. split; [|exact W2].
  rewrite page_insert_unfold. mrun (by apply (w_walk_absent W i va HX)). mrun (exact R1). exact R2.
Qed.

Lemma w_insert_table x perm :
  zget E i = 0 → o = Some a → dget D PA = mkPageInfo None 0 → x ≠ PA → 0 <= perm < 4096 → 0 <= pp_ref (dget D x) < 2 ^ 16 - 1 →
  ∃ s', page_insert (kaddr pd) (pg x) va perm s = (Ret 0, s') ∧
    world None (dput (dput D PA (mkPageInfo None 1)) x (mkPageInfo (pp_link (dget D x)) (pp_ref (dget D x) + 1)))
      (zput E i (pte PA 7)) (zput (0, 0) j (pte x (Z.lor perm PTE_P))) s'.
Proof.
  intros He Ho Ha. apply (w_insert_table_gen x perm [] He). split; [|apply NoDup_singleton]. cbn. rewrite (w_list _ _ _ _ _ W), Ho.
  split; [done|]. exists None. split; [|done]. pose proof (w_page _ _ _ _ _ W PA) as Hp. by rewrite Ha in Hp.
Qed.

Lemma w_insert_empty x perm :
  zget E i = pte PA 7 → present (zget T j) = false → page_free_list s ≠ Some (pg x) → 0 <= perm < 4096 → 0 <= pp_ref (dget D x) < 2 ^ 16 - 1 →
  ∃ s', page_insert (kaddr pd) (pg x) va perm s = (Ret 0, s') ∧
    world o (dput D x (mkPageInfo (pp_link (dget D x)) (pp_ref (dget D x) + 1))) E (zput T j (pte x (Z.lor perm PTE_P))) s'.
Proof.
  intros He Ht Hl Hp Hr. destruct (w_finish W j x perm Hp Hr) as (s2 & R2 & W2). exists s2. split; [|exact W2].
  rewrite page_insert_unfold. mrun (by apply (w_walk W i j va HX HT)). mrun (apply (w_load W)). rewrite Ht. do 2 mstep.
  rewrite bool_decide_eq_false_2 by done. mstep. exact R2.
Qed.

(** The page is there already. *)
Lemma w_insert_same x k perm :
  zget E i = pte PA 7 → zget T j = pte x k → 0 <= k < 4096 → Z.odd k = true → pp_ref (dget D x) = 1 → 0 <= perm < 4096 →
  ∃ s', page_insert (kaddr pd) (pg x) va perm s = (Ret 0, s') ∧
    world o (dput D x (mkPageInfo o 1)) E (zput T j (pte x (Z.lor perm PTE_P))) s'.
Proof.
  intros He Ht Hk Hodd Hr Hp. destruct (w_remove x k He Ht Hk Hodd ltac:(lia)) as (s1 & R1 & W1). rewrite Hr, Z.eqb_refl in W1.
  assert (Hd : dget (dput D x (mkPageInfo o 0)) x = mkPageInfo o 0) by (rewrite dget_dput; by rewrite decide_True).
  pose proof (world_list W1 o) as W2. destruct (w_finish W2 j x perm Hp) as (s3 & R3 & W3); [rewrite Hd; cbn; lia|].
  rewrite Hd in W3. cbn [pp_link pp_ref] in W3. exists s3. split.
  - rewrite page_insert_unfold. mrun (by apply (w_walk W i j va HX HT)). mrun (apply (w_load W)).
    destruct (w_pte_facts W x k Hk) as (_ & _ & _ & HP & _). rewrite Ht, HP, Hodd. mrun (exact R1). mstep.
    rewrite (w_list _ _ _ _ _ W1), bool_decide_eq_true_2 by done. rewrite bind_assoc. mrun (apply (w_get_page W1)). rewrite Hd. mstep. exact R3.
  - destruct D as [[? ?] ?], T as [? ?], x, j; exact W3.
Qed.

(** Another page is there, and this was its last mapping. *)
Lemma w_insert_over x y k perm :
  zget E i = pte PA 7 → zget T j = pte y k → 0 <= k < 4096 → Z.odd k = true → x ≠ y → pp_ref (dget D y) = 1 →
  0 <= perm < 4096 → 0 <= pp_ref (dget D x) < 2 ^ 16 - 1 →
  ∃ s', page_insert (kaddr pd) (pg x) va perm s = (Ret 0, s') ∧
    world (Some (pg y)) (dput (dput D y (mkPageInfo o 0)) x (mkPageInfo (pp_link (dget D x)) (pp_ref (dget D x) + 1)))
      E (zput T j (pte x (Z.lor perm PTE_P))) s'.
Proof.
  intros He Ht Hk Hodd Hxy Hr Hp Hrx. destruct (w_remove y k He Ht Hk Hodd ltac:(lia)) as (s1 & R1 & W1). rewrite Hr, Z.eqb_refl in W1.
  assert (Hd : dget (dput D y (mkPageInfo o 0)) x = dget D x) by (rewrite dget_dput; by rewrite decide_False).
  destruct (w_finish W1 j x perm Hp) as (s3 & R3 & W3); [by rewrite Hd|]. rewrite Hd in W3. exists s3. split.
  - rewrite page_insert_unfold. mrun (by apply (w_walk W i j va HX HT)). mrun (apply (w_load W)).
    destruct (w_pte_facts W y k Hk) as (_ & _ & _ & HP & _). rewrite Ht, HP, Hodd. mrun (exact R1). mstep.
    rewrite (w_list _ _ _ _ _ W1), bool_decide_eq_false_2 by (intros [= ?%pg_inj]; congruence). mstep. exact R3.
  - destruct T as [? ?], j; exact W3.
Qed.

Lemma w_va2pa x k :
  zget E i = pte PA 7 → zget T j = pte x k → 0 <= k < 4096 →
  check_va2pa (kaddr pd) va s = (Ret (if Z.odd k then page2pa (pg x) else u32 (-1)), s).
Proof.
  intros He Ht Hk. destruct (w_pte_facts W x k Hk) as (_ & _ & HA & HP & _ & H2). destruct (w_pte_facts W PA 7 ltac:(lia)) as (_ & _ & HA7 & HP7 & _).
  unfold check_va2pa. rewrite HX, HT. mrun (rewrite kload_entry, (w_pde _ _ _ _ _ W); reflexivity). rewrite He.
  unfold present in HP7, HP. apply negb_true_iff in HP7. rewrite HP7, HA7.
  pose proof (pg_range PA). mrun (apply KADDR_ok; [apply W|lia|rewrite (w_npages W), PGNUM_div, Z.div_mul by lia; lia]).
  fold (kaddr (pg PA)). mrun (apply (w_load W)). rewrite Ht, HA, H2. by destruct (Z.land (pte x k) PTE_P =? 0), (Z.odd k).
Qed.
End changes.

(** ** The calls as the tests write them *)

Section asserts.
Context {o : option Z} {D : descs} {E T : Z * Z} {s : kstate}.
Hypothesis W : world o D E T s.

Lemma a_ref x n : pp_ref (dget D x) = n → assert_ref (pg x) n s = (Ret tt, s).
Proof.
  intros Hr. unfold assert_ref, page_ref. mrun (mrun (apply (w_get_page W)); reflexivity). apply kassert_ok. rewrite Hr. apply Z.eqb_refl.
Qed.

Lemma a_va2pa va j x k r :
  PDX va = jz false → PTX va = jz j → E.1 = pte PA 7 → zget T j = pte x k → 0 <= k < 4096 →
  (if Z.odd k then page2pa (pg x) else u32 (-1)) = r → assert_va2pa (kaddr pd) va r s = (Ret tt, s).
Proof.
  intros HX HT He Ht Hk <-. unfold assert_va2pa. mrun (by apply (w_va2pa W false j va HX HT x k)). apply kassert_ok, Z.eqb_refl.
Qed.

Lemma a_walk_pte va j : PDX va = jz false → PTX va = jz j → E.1 = pte PA 7 → walk_pte (kaddr pd) va s = (Ret (zget T j), s).
Proof. intros HX HT He. unfold walk_pte. mrun (by apply (w_walk W false j va HX HT)). unfold the. mstep. apply (w_load W). Qed.

Lemma a_again x link : o = Some (pg x) → dget D x = mkPageInfo link 0 → ∃ s', assert_again (pg x) s = (Ret tt, s') ∧ world link D E T s'.
Proof.
  intros Ho Hd. destruct (w_page_alloc W x link Ho Hd) as (s' & R & W'). exists s'. split; [|exact W'].
  unfold assert_again, assert_alloc. rewrite bind_assoc. mrun (exact R). mstep. apply kassert_ok, Z.eqb_refl.
Qed.

Lemma a_pde : kload32 (entry_addr (kaddr pd) 0) s = (Ret E.1, s).
Proof. rewrite kload_entry. by rewrite <- (w_pde _ _ _ _ _ W false : _ = E.1). Qed.

Lemma a_full va i x perm : PDX va = jz i → zget E i = 0 → o = None → assert_full (kaddr pd) (pg x) va perm s = (Ret tt, s).
Proof. intros HX He Ho. unfold assert_full. mrun (by apply (w_insert_full W i va HX)). done. Qed.
End asserts.

Lemma a_insert kp pp va perm s s' : page_insert kp pp va perm s = (Ret 0, s') → assert_insert kp pp va perm s = (Ret tt, s').
Proof. intros R. unfold assert_insert. by mrun (exact R). Qed.

Lemma land_pte x k bt s : npages s = npages s0 → phys_ok s → 0 <= k < 4096 → 0 <= bt < 4096 → Z.land (pte x k) bt = Z.land k bt.
Proof. intros Hn Hok Hk Hb. pose proof (pg_range x). apply land_frame; lia. Qed.

(** A call with a result state, and the world after it. *)
Ltac wcall l := let s' := fresh "s" in let R := fresh "R" in let W' := fresh "W" in
  destruct l as (s' & R & W'); [..|mrun (exact R); cbn [dput dget zput zget fst snd pp_ref pp_link Z.eqb Pos.eqb] in W'; clear R].
Ltac winsert l := let s' := fresh "s" in let R := fresh "R" in let W' := fresh "W" in
  destruct l as (s' & R & W'); [..|mrun (apply a_insert; exact R); cbn [dput dget zput zget fst snd pp_ref pp_link Z.eqb Pos.eqb] in W'; clear R].

Lemma check_page_maps_ok la lb lc T s :
  world None (mkPageInfo la 0, mkPageInfo lb 0, mkPageInfo lc 0) (0, 0) T s →
  ∃ s', check_page_maps (kaddr pd) (pg PA) (pg PB) (pg PC) s = (Ret tt, s') ∧
    world None (mkPageInfo None 1, mkPageInfo lb 1, mkPageInfo None 1) (pte PA 7, 0) (pte PB 3, pte PC 3) s'.
Proof.
  intros W. pose proof (w_npages W) as Hn. pose proof (w_phys _ _ _ _ _ W) as Hok. unfold check_page_maps.
  mrun (unfold page_lookup; mrun (by apply (w_walk_absent W false)); reflexivity). mrun (by apply kassert_ok).
  mrun (by apply (a_full W 0 false PB)).
  destruct (w_page_free W PA eq_refl) as [R1 W1]. mrun (exact R1). cbn [dput fst snd] in W1.
  winsert (w_insert_table W1 false false 0 eq_refl eq_refl PB PTE_W); [done|done|done|done|done|done|].
  mrun (apply (a_pde W0)). cbn [fst].
  destruct (w_pte_facts W0 PA 7 ltac:(lia)) as (_ & _ & HA & _ & _ & H2). mrun (apply kassert_ok; rewrite HA, H2; apply Z.eqb_refl).
  mrun (by apply (a_va2pa W0 0 false PB 3)). mrun (by apply (a_ref W0)). mrun (by apply (a_ref W0)).
  winsert (w_insert_empty W0 false true PGSIZE eq_refl eq_refl PC PTE_W); [done|done|by rewrite (w_list _ _ _ _ _ W0)|done|done|].
  mrun (by apply (a_va2pa W2 PGSIZE true PC 3)). mrun (by apply (a_ref W2)). mrun (by apply (w_no_page W2)).
  winsert (w_insert_same W2 false true PGSIZE eq_refl eq_refl PC 3 PTE_W); [done|done|done|done|done|done|].
  mrun (by apply (a_va2pa W3 PGSIZE true PC 3)). mrun (by apply (a_ref W3)). mrun (by apply (w_no_page W3)).
  change (PDX PGSIZE) with 0. mrun (apply (a_pde W3)). cbn [fst]. rewrite HA.
  pose proof (pg_range PA). mrun (apply KADDR_ok; [apply W3|lia|rewrite (w_npages W3), PGNUM_div, Z.div_mul by lia; lia]).
  mrun (by apply (w_walk W3 false true PGSIZE)). mrun (by apply kassert_ok, bool_decide_eq_true_2).
  winsert (w_insert_same W3 false true PGSIZE eq_refl eq_refl PC 3 (Z.lor PTE_W PTE_U)); [done|done|done|done|done|done|].
  mrun (by apply (a_va2pa W4 PGSIZE true PC 7)). mrun (by apply (a_ref W4)).
  mrun (by apply (a_walk_pte W4 PGSIZE true)). cbn [zget snd].
  mrun (apply kassert_ok; change (Z.lor (Z.lor PTE_W PTE_U) PTE_P) with 7; by rewrite (land_pte PC 7 _ s)).
  mrun (apply (a_pde W4)). cbn [fst]. mrun (apply kassert_ok; by rewrite (land_pte PA 7 _ s)).
  winsert (w_insert_same W4 false true PGSIZE eq_refl eq_refl PC 7 PTE_W); [done|done|done|done|done|done|].
  mrun (by apply (a_walk_pte W5 PGSIZE true)). cbn [zget snd]. change (Z.lor PTE_W PTE_P) with 3 in *.
  mrun (apply kassert_ok; by rewrite (land_pte PC 3 _ s)). mrun (by apply (a_walk_pte W5 PGSIZE true)). cbn [zget snd].
  eexists. split; [apply kassert_ok; by rewrite (land_pte PC 3 _ s)|exact W5].
Qed.

Lemma check_page_unmaps_ok lb s :
  world None (mkPageInfo None 1, mkPageInfo lb 1, mkPageInfo None 1) (pte PA 7, 0) (pte PB 3, pte PC 3) s →
  ∃ s', check_page_unmaps (kaddr pd) (pg PA) (pg PB) (pg PC) s = (Ret tt, s') ∧
    world None (mkPageInfo None 1, mkPageInfo None 0, mkPageInfo None 0) (pte PA 7, 0) (pte PB 2, pte PB 0) s'.
Proof.
  intros W. pose proof (w_npages W) as Hn. pose proof (w_phys _ _ _ _ _ W) as Hok. unfold check_page_unmaps.
  mrun (by apply (a_full W PTSIZE true PA)).
  winsert (w_insert_over W false true PGSIZE eq_refl eq_refl PB PC 3 PTE_W); [done|done|done|done|done|done|done|done|].
  change (Z.lor PTE_W PTE_P) with 3 in W0. change (1 + 1) with 2 in W0.
  mrun (by apply (a_walk_pte W0 PGSIZE true)). cbn [zget snd]. mrun (apply kassert_ok; by rewrite (land_pte PB 3 _ s)).
  mrun (by apply (a_va2pa W0 0 false PB 3)). mrun (by apply (a_va2pa W0 PGSIZE true PB 3)).
  mrun (by apply (a_ref W0)). mrun (by apply (a_ref W0)).
  wcall (a_again W0 PC None); [done|done|].
  wcall (w_remove W1 false false 0 eq_refl eq_refl PB 3); [done|done|done|done|done|].
  change (Z.land 3 (Z.lnot PTE_P)) with 2 in W2. change (2 - 1) with 1 in W2.
  mrun (by apply (a_va2pa W2 0 false PB 2)). mrun (by apply (a_va2pa W2 PGSIZE true PB 3)).
  mrun (by apply (a_ref W2)). mrun (by apply (a_ref W2)).
  winsert (w_insert_same W2 false true PGSIZE eq_refl eq_refl PB 3 0); [done|done|done|done|done|done|].
  change (Z.lor 0 PTE_P) with 1 in W3.
  mrun (unfold page_ref; mrun (apply (w_get_page W3)); reflexivity). mrun (by apply kassert_ok).
  mrun (unfold page_link; mrun (apply (w_get_page W3)); reflexivity). mrun (by apply kassert_ok).
  wcall (w_remove W3 false true PGSIZE eq_refl eq_refl PB 1); [done|done|done|done|done|].
  change (Z.land 1 (Z.lnot PTE_P)) with 0 in W4.
  mrun (by apply (a_va2pa W4 0 false PB 2)). mrun (by apply (a_va2pa W4 PGSIZE true PB 0)).
  mrun (by apply (a_ref W4)). mrun (by apply (a_ref W4)).
  wcall (a_again W4 PB None); [done|done|].
  eexists. split; [by apply (w_no_page W5)|exact W5].
Qed.

(** A store into the directory. *)
Lemma w_clear_pde {o D E T s} (W : world o D E T s) i n :
  n = jz i → ∃ s', kstore32 (entry_addr (kaddr pd) n) 0 s = (Ret tt, s') ∧ world o D (zput E i 0) T s'.
Proof. intros ->. eexists. split; [apply kstore_entry|]. by apply (world_store_pde W i 0). Qed.

Lemma check_page_tables_ok D1 D2 T s :
  world None (mkPageInfo None 1, D1, D2) (pte PA 7, 0) T s →
  ∃ s', check_page_tables (kaddr pd) (pg PA) s = (Ret tt, s') ∧ world None (mkPageInfo None 0, D1, D2) (0, 0) (0, 0) s'.
Proof.
  intros W. unfold check_page_tables. pose proof (pg_range PA) as Hr.
  mrun (apply (a_pde W)). cbn [fst]. destruct (w_pte_facts W PA 7 ltac:(lia)) as (_ & _ & HA & _ & _ & H2).
  mrun (apply kassert_ok; rewrite HA, H2; apply Z.eqb_refl).
  wcall (w_clear_pde W false 0); [done|]. mrun (by apply (a_ref W0)).
  wcall (w_set_ref W0 PA 0); [done|].
  destruct (w_page_free W1 PA eq_refl) as [R2 W2]. mrun (exact R2). cbn [dput fst snd] in W2. cbv zeta.
  destruct (w_walk_create W2 true true (PGSIZE * NPDENTRIES + PGSIZE) eq_refl eq_refl) as (s3 & R3 & W3 & _); [done|done|done|].
  mrun (exact R3). cbn [dput zput fst snd] in W3. change (PDX (PGSIZE * NPDENTRIES + PGSIZE)) with 1.
  mrun (rewrite kload_entry; exact (f_equal (λ v, (Ret v, s3)) (w_pde _ _ _ _ _ W3 true))). cbn [zget snd]. rewrite HA.
  mrun (apply KADDR_ok; [apply W3|lia|rewrite (w_npages W3), PGNUM_div, Z.div_mul by lia; lia]).
  mrun (by apply kassert_ok, bool_decide_eq_true_2).
  wcall (w_clear_pde W3 true 1); [done|]. wcall (w_set_ref W4 PA 0); [done|].
  mrun (apply page2kva_ok; [apply W5|rewrite (w_npages W5); exact Hr]). unfold kmemset at 1. mstep.
  replace (pg PA * 4096 + KERNBASE - KERNBASE) with (a * 4096) by (cbn; lia).
  destruct (world_fill W5 0xff) as (T6 & W6 & _).
  destruct (w_page_free W6 PA eq_refl) as [R7 W7]. mrun (exact R7). cbn [dput fst snd] in W7.
  destruct (w_walk_create W7 false false 0 eq_refl eq_refl) as (s8 & R8 & W8 & HZ); [done|done|done|].
  mrun (exact R8). cbn [dput zput fst snd] in W8.
  mrun (apply page2kva_ok; [apply W8|rewrite (w_npages W8); exact Hr]). fold (kaddr (pg PA)).
  mrun (apply mfor_pure; intros k (Hk1 & Hk2)%elem_of_seqZ; mrun (apply kload_entry); apply kassert_ok;
    rewrite HZ by (unfold idx, NPTENTRIES in *; lia); done).
  wcall (w_clear_pde W8 false 0); [done|].
  destruct (w_set_ref W9 PA 0) as (s10 & R10 & W10); [done|]. exists s10. split; [exact R10|exact W10].
Qed.
End world.
