(* ===== verification/BootMmio.v ===== *)
(** * The whole of [check_page]

    The last part of [check_page] maps device memory; afterwards there is one
    page table more, for [MMIOBASE], and no mapping. *)

From S2P Require Import Prelude Mmu Console KState PageAlloc PageTable AddrSpace PageInsert VmFrame Env MemInit BootMap BootCheck BootFree BootPages.
Open Scope Z_scope.

(** ** [mmio_map_region] *)

Lemma kpd_mmio v s pd fl : kpd s pd fl → kpd (set_mmio_base v s) pd fl.
Proof. intros [? [? ?] ? ? ? ? ? ? ? ?]. by constructor. Qed.

Lemma only_vm_mmio v s s' : only_vm s s' → only_vm (set_mmio_base v s) (set_mmio_base v s').
Proof. unfold only_vm. intros E. destruct s, s'. cbn in *. by injection E as -> -> -> -> -> -> -> -> -> -> -> -> -> -> -> -> -> -> ->. Qed.

Lemma built_mmio v pd s s' fl fl' F : built pd s s' fl fl' F → built pd (set_mmio_base v s) (set_mmio_base v s') fl fl' F.
Proof. intros [? ? ? ? ?]. constructor; [by apply kpd_mmio|by apply only_vm_mmio|done|done|done]. Qed.

Definition MMIO_PERM : Z := Z.lor (Z.lor PTE_PCD PTE_PWT) PTE_W.

Lemma mmio_map_region_built s pd fl v n size :
  kpd s pd fl → room s pd fl → kern_pgdir s = kaddr pd → mmio_base s = v * 4096 → ROUNDUP size PGSIZE = n * 4096 →
  980992 <= v → 0 <= n → v + n <= 982016 →
  ∃ s1 fl', mmio_map_region 0 size s = (Ret (v * 4096), set_mmio_base ((v + n) * 4096) s1) ∧
    built pd s s1 fl fl' (region v n 0 MMIO_PERM).
Proof.
  intros H Hroom Ek Eb Es Hv Hn Hvn.
  destruct (boot_map_region_built pd MMIO_PERM v 0 n s fl H Hroom) as (s1 & fl1 & R & B); [perm_ok|lia|lia|lia|lia|lia|lia|apply kregion_of; lia|].
  exists s1, fl1. split; [|exact B]. unfold mmio_map_region. rewrite Es. mstep. rewrite Eb.
  replace (v * 4096 + n * 4096) with ((v + n) * 4096) by lia. rewrite u32_small by lia.
  replace (MMIOLIM <? (v + n) * 4096) with false by (change MMIOLIM with (982016 * 4096); lia).
  mstep. rewrite Ek. by mrun (exact R).
Qed.

(** [*pgdir_walk(kern_pgdir, va, 0) = 0] *)
Lemma clear_pte_built s pd fl v :
  kpd s pd fl → kpage v → entry s pd (v / 1024) ≠ 0 →
  ∃ s', clear_pte (kaddr pd) (v * 4096) s = (Ret tt, s') ∧ built pd s s' fl fl (λ u o, if decide (u = v) then None else o).
Proof.
  intros H Hv Hne. pose proof (kpage_range v Hv) as [Hr _]. destruct (page_PDX v ltac:(lia)) as [EX ET].
  destruct (k_tab _ _ _ H (v / 1024) Hv) as [?|(f & Hf & Hfr & _)]; [done|].
  destruct (kpd_store s pd fl v f 0 H Hv Hf) as (HK & HE & HM); [done|]. eexists. split.
  - unfold clear_pte. mrun (apply walk_present; [apply H|apply H|apply (k_pd _ _ _ H)| |]; rewrite EX, Hf; [apply present_7|rewrite PGNUM_frame by lia; lia]).
    unfold the. mstep. rewrite EX, Hf, PGNUM_frame, ET by lia. rewrite kstore_entry. reflexivity.
  - constructor; [exact HK|apply only_vm_mem, only_vm_refl| | |exact HM].
    + exists []. split; [done|]. unfold empty_slots. cbn [length plus]. apply filter_length_iff.
      intros i (Hlo & Hhi)%elem_of_seqZ. rewrite HE; [done|]. unfold idx. rewrite UPDX_eq in *. lia.
    + intros i Hi _. apply HE. by apply kidx_idx.
Qed.

Lemma walk_pte_kpte s pd fl v t :
  kpd s pd fl → kpage v → kpte s pd v = Some t → walk_pte (kaddr pd) (v * 4096) s = (Ret t, s).
Proof.
  intros H Hv Ht. pose proof (kpage_range v Hv) as [Hr _]. destruct (page_PDX v ltac:(lia)) as [EX ET].
  destruct (k_tab _ _ _ H (v / 1024) Hv) as [H0|(f & Hf & Hfr & _)]; [by rewrite (kpte_absent s pd v H0) in Ht|].
  rewrite (kpte_table s pd v f Hf) in Ht. cbv zeta in Ht. destruct (present _) eqn:Hp; [|done]. injection Ht as <-.
  unfold walk_pte. mrun (apply walk_present; [apply H|apply H|apply (k_pd _ _ _ H)| |]; rewrite EX, Hf; [apply present_7|rewrite PGNUM_frame by lia; lia]).
  unfold the. mstep. rewrite EX, Hf, PGNUM_frame, ET by lia. apply kload_entry.
Qed.

Lemma kpte_entry s pd v t : kpte s pd v = Some t → entry s pd (v / 1024) ≠ 0.
Proof. intros Ht H0. by rewrite (kpte_absent s pd v H0) in Ht. Qed.

(** Nothing is mapped above [UTOP]. *)
Definition no_mapping (s : kstate) (pd : Z) : Prop := ∀ u, kpage u → kpte s pd u = None.

(** The first page of device memory. *)
Abbreviation MMIO := 980992.

Lemma mmio_kpage k : 0 <= k < 1024 → kpage (MMIO + k).
Proof. intros. apply (kregion_of (MMIO + k) 1); lia. Qed.

Lemma mmio_slot k : 0 <= k < 1024 → (MMIO + k) / 1024 = 958.
Proof. intros. Z.to_euclidean_division_equations. lia. Qed.

Lemma mmio_kidx : kidx 958.
Proof. unfold kidx. rewrite UPDX_eq. change (PDX UVPT) with 957. lia. Qed.

Section mmio.
Context (s s2 : kstate) (pd : Z) (fl : list Z).
Hypothesis Hk : kpd s2 pd fl.
Hypothesis Hmap : ∀ k, 0 <= k < 1024 → kpte s2 pd (MMIO + k) =
  if decide (k < 2) then Some (new_pte k MMIO_PERM) else if decide (k = 2) then Some (new_pte 0 MMIO_PERM) else None.

(** The assertions about the new mappings. *)
Lemma mmio_asserts (Q : K unit) :
  (assert_va2pa (kaddr pd) (MMIO * 4096) 0;;
   assert_va2pa (kaddr pd) (u32 (MMIO * 4096 + PGSIZE)) PGSIZE;;
   assert_va2pa (kaddr pd) (MMIO * 4096 + 8192) 0;;
   assert_va2pa (kaddr pd) (u32 (MMIO * 4096 + 8192 + PGSIZE)) (u32 (-1));;
   t ← walk_pte (kaddr pd) (MMIO * 4096);
   kassert (negb (Z.land t (Z.lor (Z.lor PTE_W PTE_PWT) PTE_PCD) =? 0)) "*pgdir_walk(kern_pgdir, (void*) mm1, 0) & (PTE_W|PTE_PWT|PTE_PCD)";;
   t ← walk_pte (kaddr pd) (MMIO * 4096);
   kassert (Z.land t PTE_U =? 0) "!(*pgdir_walk(kern_pgdir, (void*) mm1, 0) & PTE_U)";;
   Q) s2 = Q s2.
Proof.
  assert (HA : ∀ k pa, 0 <= k < 1024 → match kpte s2 pd (MMIO + k) with Some t => PTE_ADDR t | None => u32 (-1) end = pa →
    assert_va2pa (kaddr pd) ((MMIO + k) * 4096) pa s2 = (Ret tt, s2)).
  { intros k pa Hk' E. apply (assert_va2pa_ok s2 pd fl); [done|by apply mmio_kpage|done]. }
  mrun (apply (HA 0); [lia|by rewrite Hmap by lia]). mrun (apply (HA 1); [lia|by rewrite Hmap by lia]).
  mrun (apply (HA 2); [lia|by rewrite Hmap by lia]). mrun (apply (HA 3); [lia|by rewrite Hmap by lia]).
  assert (Hw : walk_pte (kaddr pd) (MMIO * 4096) s2 = (Ret (new_pte 0 MMIO_PERM), s2)).
  { apply (walk_pte_kpte s2 pd fl MMIO); [done|by apply (mmio_kpage 0)|]. by apply (Hmap 0). }
  mrun (exact Hw). mrun (by apply kassert_ok). mrun (exact Hw). by mrun (by apply kassert_ok).
Qed.
End mmio.

Lemma check_page_mmio_ok s pd fl :
  kpd s pd fl → room s pd fl → kern_pgdir s = kaddr pd → mmio_base s = MMIOBASE → no_mapping s pd →
  ∃ s' fl', check_page_mmio (kaddr pd) s = (Ret tt, s') ∧
    built pd (set_mmio_base (MMIOBASE + 3 * PGSIZE) s) s' fl fl' (λ _ o, o) ∧ entry s' pd (PDX MMIOBASE) ≠ 0.
Proof.
  intros H Hroom Ek Eb Hno. set (v2 := MMIOBASE + 3 * PGSIZE).
  destruct (mmio_map_region_built s pd fl MMIO 2 4097 H Hroom Ek) as (s1 & fl1 & R1 & B1); [done|done|lia|lia|lia|].
  pose proof (built_mmio ((MMIO + 2) * 4096) _ _ _ _ _ _ B1) as B1'.
  destruct (only_vm_fields _ _ (b_only _ _ _ _ _ _ B1')) as (_ & _ & _ & _ & Ek1 & _).
  destruct (mmio_map_region_built _ pd fl1 (MMIO + 2) 1 4096 (b_kpd _ _ _ _ _ _ B1') (built_room _ _ _ _ _ _ B1' Hroom))
    as (s2 & fl2 & R2 & B2); [by rewrite Ek1|done|done|lia|lia|lia|].
  pose proof (built_trans _ _ _ _ _ _ _ _ _ (built_mmio v2 _ _ _ _ _ _ B1) (built_mmio v2 _ _ _ _ _ _ B2)) as B12.
  change (set_mmio_base ((MMIO + 2 + 1) * 4096) s2) with (set_mmio_base v2 s2) in R2. set (s3 := set_mmio_base v2 s2) in *.
  pose proof (b_kpd _ _ _ _ _ _ B12) as K3.
  assert (Hmap : ∀ k, 0 <= k < 1024 → kpte s3 pd (MMIO + k) =
    if decide (k < 2) then Some (new_pte k MMIO_PERM) else if decide (k = 2) then Some (new_pte 0 MMIO_PERM) else None).
  { intros k Hk. rewrite (b_map _ _ _ _ _ _ B12) by (by apply mmio_kpage). change (kpte (set_mmio_base v2 s)) with (kpte s).
    rewrite Hno by (by apply mmio_kpage). unfold region. clear -Hk.
    destruct (decide (k < 2)); [rewrite (decide_False (P := MMIO + 2 <= _ < _)), decide_True by lia; do 2 f_equal; lia|].
    destruct (decide (k = 2)) as [->|]; [done|by rewrite !decide_False by lia]. }
  assert (Hne : entry s3 pd 958 ≠ 0) by (apply (kpte_entry s3 pd MMIO (new_pte 0 MMIO_PERM)); apply (Hmap 0); lia).
  destruct (clear_pte_built s3 pd fl2 MMIO K3) as (s4 & R4 & B4); [apply (mmio_kpage 0); lia|exact Hne|].
  destruct (clear_pte_built s4 pd fl2 (MMIO + 1) (b_kpd _ _ _ _ _ _ B4)) as (s5 & R5 & B5); [apply (mmio_kpage 1); lia|rewrite (mmio_slot 1), (b_keep _ _ _ _ _ _ B4) by first [lia|exact mmio_kidx|exact Hne]; exact Hne|].
  pose proof (built_trans _ _ _ _ _ _ _ _ _ B4 B5) as B45.
  destruct (clear_pte_built s5 pd fl2 (MMIO + 2) (b_kpd _ _ _ _ _ _ B5)) as (s6 & R6 & B6); [apply (mmio_kpage 2); lia|rewrite (mmio_slot 2), (b_keep _ _ _ _ _ _ B45) by first [lia|exact mmio_kidx|exact Hne]; exact Hne|].
  pose proof (built_trans _ _ _ _ _ _ _ _ _ B45 B6) as B46. pose proof (built_trans _ _ _ _ _ _ _ _ _ B12 B46) as B.
  exists s6, fl2. split_and!.
  - unfold check_page_mmio. mrun (exact R1). mrun (exact R2). do 4 (mrun (by apply kassert_ok)).
    change ((MMIO + 2) * 4096) with (MMIO * 4096 + 8192).
    rewrite (mmio_asserts s3 pd fl2 K3 Hmap). mrun (exact R4). mrun (exact R5). exact R6.
  - destruct B as [HK HO HT HE HM]. constructor; [exact HK|exact HO|exact HT|exact HE|]. intros u Hu. rewrite (HM u Hu).
    change (kpte (set_mmio_base v2 s)) with (kpte s). rewrite Hno by done. unfold region.
    destruct (decide (u = MMIO + 2)); [done|]. destruct (decide (u = MMIO + 1)); [done|]. destruct (decide (u = MMIO)); [done|].
    rewrite !decide_False by lia. exact (Hno u Hu).
  - change (PDX MMIOBASE) with 958. rewrite (b_keep _ _ _ _ _ _ B46); [exact Hne|exact mmio_kidx|exact Hne].
Qed.

(** ** Back from the world of a test *)

Lemma ld32_zero m x k : mem_ok m → ld32 m x = 0 → 0 <= k < 4 → m (x + k) = 0.
Proof.
  intros Hm H0 Hk. pose proof (Hm x); pose proof (Hm (x + 1)); pose proof (Hm (x + 2)); pose proof (Hm (x + 3)).
  unfold is_u8, ld32 in *. assert (k = 0 ∨ k = 1 ∨ k = 2 ∨ k = 3) as [->|[->|[->| ->]]] by lia; rewrite ?Z.add_0_r; lia.
Qed.

(** Nothing outside the frames [X] differs once the directory's entries are
    clear again. *)
Lemma world_frames s pd a b c X fl o D T s' :
  mem_ok (mem s) → (∀ i, entry s pd (jz i) = 0) → X ⊆ fl → world s pd a b c X o D (0, 0) T s' → frames_kept fl s s'.
Proof.
  intros Hm Hz HX W f k Hf Hkk. destruct (decide (f = pd ∧ k < 8)) as [[-> Hk8]|Hne].
  2:{ apply (w_other _ _ _ _ _ _ _ _ _ _ _ W); [by intros ?%HX|done|lia]. }
  assert (H0 : ∀ i, mem s' (pd * 4096 + 4 * jz i + k mod 4) = 0 ∧ mem s (pd * 4096 + 4 * jz i + k mod 4) = 0).
  { intros i. pose proof (Z.mod_pos_bound k 4). split; apply ld32_zero; try lia.
    - apply (w_mem _ _ _ _ _ _ _ _ _ _ _ W).
    - pose proof (w_pde _ _ _ _ _ _ _ _ _ _ _ W i) as He. unfold entry in He. rewrite He. by destruct i.
    - exact Hm.
    - exact (Hz i). }
  destruct (decide (k < 4)) as [H4|H4].
  - destruct (H0 false) as [H1 H2]. unfold jz in *. rewrite Z.mod_small in H1, H2 by lia.
    replace (pd * 4096 + 4 * 0 + k) with (pd * 4096 + k) in * by lia. by rewrite H1, H2.
  - destruct (H0 true) as [H1 H2]. unfold jz in *. replace (k mod 4) with (k - 4) in * by (Z.to_euclidean_division_equations; lia).
    replace (pd * 4096 + 4 * 1 + (k - 4)) with (pd * 4096 + k) in * by lia. by rewrite H1, H2.
Qed.

Section back.
Context (s : kstate) (pd a b c : Z) (l : list Z).
Hypothesis Hk : kpd s pd (a :: b :: c :: l).

Lemma back_three : three s a b c l.
Proof. constructor; [apply (k_free _ _ _ Hk)|apply (k_phys _ _ _ Hk)]. Qed.

Lemma back_setting : cur_ok s → setting s pd a b c.
Proof.
  destruct (three_facts _ _ _ _ _ back_three) as (? & ? & ? & _ & _ & _ & _ & _ & _ & _ & _ & ? & ? & ?).
  pose proof (k_pdfl _ _ _ Hk) as Hn. rewrite !not_elem_of_cons in Hn. constructor; try done; [tauto|apply (k_pd _ _ _ Hk)].
Qed.

Context (X : list Z).
Hypothesis HX : X ⊆ a :: b :: c :: l.

(** The world when the three pages have been taken and the list set aside. *)
Lemma world_start :
  world s pd a b c X None (mkPageInfo (Some b) 0, mkPageInfo (Some c) 0, mkPageInfo (head l) 0) (0, 0) (entry s a 0, entry s a 1)
    (set_page_free_list None (set_page_free_list (head l) s)).
Proof.
  destruct (three_facts _ _ _ _ _ back_three) as (Hab & Hac & Hbc & Hal & Hbl & Hcl & Hnd & Ha & Hb & Hc & Hch & Hra & Hrb & Hrc).
  constructor; [apply only_vm_list, only_vm_list, only_vm_refl|apply (k_mem _ _ _ Hk)|apply phys_ok_list, phys_ok_list, (k_phys _ _ _ Hk)
    |reflexivity|by intros []|reflexivity| |by intros []|reflexivity].
  intros i. transitivity (entry s pd (jz i)); [done|].
  rewrite (k_user _ _ _ Hk); [by destruct i|]. unfold uidx. rewrite UPDX_eq. destruct i; unfold jz; lia.
Qed.

(** The list is given back and the pages are freed. *)
Lemma world_back D T s4 :
  world s pd a b c X None D (0, 0) T s4 → pp_ref (dget D PA) = 0 → pp_ref (dget D PB) = 0 → pp_ref (dget D PC) = 0 →
  ∃ s', (∀ B (k : K B), (page_free a;; page_free b;; page_free c;; k) (set_page_free_list (head l) s4) = k s') ∧
    kept pd s s' (a :: b :: c :: l) (c :: b :: a :: l).
Proof.
  intros W Ra Rb Rc. destruct (three_facts _ _ _ _ _ back_three) as (Hab & Hac & Hbc & Hal & Hbl & Hcl & Hnd & Ha & Hb & Hc & Hch & Hra & Hrb & Hrc).
  set (s5 := set_page_free_list (head l) s4).
  assert (HD : ∀ x, pp_ref (dget D x) = 0) by (by intros []).
  assert (Hp : ∀ x, pages s5 !! pg a b c x = Some (mkPageInfo (pp_link (dget D x)) 0)).
  { intros x. rewrite <- (HD x). etransitivity; [exact (w_page _ _ _ _ _ _ _ _ _ _ _ W x)|]. by destruct (dget D x). }
  destruct (free_three s5 a b c l (pp_link (dget D PA)) (pp_link (dget D PB)) (pp_link (dget D PC))) as (R & F & O);
    [apply phys_ok_list, (w_phys _ _ _ _ _ _ _ _ _ _ _ W)| |by apply NoDup_three|apply (Hp PA)|apply (Hp PB)|apply (Hp PC)|].
  { change (chain (pages s4) (head l) l). eapply chain_ext; [|exact Hch]. intros p Hpl. apply (w_pages _ _ _ _ _ _ _ _ _ _ _ W). set_solver. }
  exists (pushed c (pushed b (pushed a s5))). split; [exact R|]. apply kept_intro; [done| | |done|done| | |].
  - do 3 apply only_vm_pushed. apply only_vm_list, W.
  - apply (w_mem _ _ _ _ _ _ _ _ _ _ _ W).
  - by rewrite (Permutation_swap c b), (Permutation_swap c a), (Permutation_swap b a).
  - do 3 apply refs_ok_pushed. intros p pi Hpi. change (pages s4 !! p = Some pi) in Hpi.
    destruct (decide (p ∈ [a; b; c])) as [Hin|Hin].
    + rewrite !elem_of_cons, elem_of_nil in Hin.
      assert (∃ x, p = pg a b c x) as [x ->] by (destruct Hin as [->|[->|[->|[]]]]; [by exists PA|by exists PB|by exists PC]).
      rewrite (w_page _ _ _ _ _ _ _ _ _ _ _ W) in Hpi. injection Hpi as <-. rewrite HD. lia.
    + rewrite (w_pages _ _ _ _ _ _ _ _ _ _ _ W) in Hpi by done. by apply (k_ref _ _ _ Hk p).
  - change (frames_kept (a :: b :: c :: l) s s4). eapply world_frames; [apply (k_mem _ _ _ Hk)| |exact HX|exact W].
    intros i. apply (k_user _ _ _ Hk). unfold uidx. rewrite UPDX_eq. destruct i; unfold jz; lia.
Qed.
End back.

Lemma kept_room pd s s' fl fl' : kept pd s s' fl fl' → room s pd fl → room s' pd fl'.
Proof.
  intros K. unfold room, empty_slots. rewrite (Permutation_length (e_perm _ _ _ _ _ K)).
  rewrite (filter_length_iff (λ i, entry s pd i = 0) (λ i, entry s' pd i = 0)); [done|].
  intros i (Hlo & Hhi)%elem_of_seqZ. rewrite (e_entry _ _ _ _ _ K); [done|]. unfold idx. rewrite UPDX_eq in *. lia.
Qed.

Lemma kept_none pd s s' fl fl' : kept pd s s' fl fl' → no_mapping s pd → no_mapping s' pd.
Proof. intros K Hno u Hu. rewrite (e_map _ _ _ _ _ K) by done. by apply Hno. Qed.

(** ** [check_page] *)

Lemma check_page_ok s pd a b c l :
  kpd s pd (a :: b :: c :: l) → cur_ok s → room s pd (a :: b :: c :: l) → kern_pgdir s = kaddr pd → mmio_base s = MMIOBASE → no_mapping s pd →
  ∃ s6 s' fl', check_page s = (Ret tt, s') ∧ kept pd s s6 (a :: b :: c :: l) (c :: b :: a :: l) ∧
    built pd (set_mmio_base (MMIOBASE + 3 * PGSIZE) s6) s' (c :: b :: a :: l) fl' (λ _ o, o) ∧ entry s' pd (PDX MMIOBASE) ≠ 0.
Proof.
  intros Hk Hcur Hroom Ek Em Hno. pose proof (back_three _ _ _ _ _ _ Hk) as H3. pose proof (back_setting _ _ _ _ _ _ Hk Hcur) as HS.
  destruct (st_dist _ _ _ _ _ HS) as (Hab & Hac & Hbc). assert (HaX : a ∈ [a; b; c]) by (by left).
  pose proof (world_start _ _ _ _ _ _ Hk [a; b; c]) as W1.
  destruct (check_page_maps_ok s pd a b c HS [a; b; c] HaX _ _ _ _ _ W1) as (s2 & R2 & W2).
  destruct (check_page_unmaps_ok s pd a b c HS [a; b; c] HaX _ _ W2) as (s3 & R3 & W3).
  destruct (check_page_tables_ok s pd a b c HS [a; b; c] HaX _ _ _ _ W3) as (s4 & R4 & W4).
  destruct (world_back s pd a b c l Hk [a; b; c] ltac:(set_solver) _ _ s4 W4) as (s6 & R6 & K6); [done|done|done|].
  assert (F6 : only_vm s s6) by apply (e_only _ _ _ _ _ K6).
  assert (Em6 : mmio_base s6 = MMIOBASE) by (rewrite F6; exact Em). assert (Ek6 : kern_pgdir s6 = kaddr pd) by (rewrite F6; exact Ek).
  destruct (check_page_mmio_ok s6 pd _ (e_kpd _ _ _ _ _ K6) (kept_room _ _ _ _ _ K6 Hroom) Ek6 Em6 (kept_none _ _ _ _ _ K6 Hno))
    as (s7 & fl' & R7 & B7 & Hne).
  exists s6, s7, fl'. split; [|done]. unfold check_page. mstep. rewrite Ek. rewrite (alloc_three s a b c l _ H3).
  mrun (by apply assert_distinct_ok). do 2 mstep. mrun (by apply assert_no_page_ok).
  mrun (exact R2). mrun (exact R3). mrun (exact R4). mstep. rewrite R6. exact R7.
Qed.
