(* ===== verification/BootInstalled.v ===== *)
(** * [check_page_installed_pgdir]

    The last self-test runs after the page directory has been installed, and
    reads and writes through a mapping. *)

From S2P Require Import Prelude Mmu Console KState PageAlloc PageTable AddrSpace PageInsert VmFrame Env MemInit BootMap BootCheck BootFree BootPages BootMmio.
Open Scope Z_scope.

Section installed.
Context (s0 : kstate) (pd a b c : Z).
Hypothesis HS : setting s0 pd a b c.
Hypothesis Hcr3 : cr3 s0 = pd * 4096.

Abbreviation pg := (pg a b c).
Abbreviation pte := (pte a b c).

Lemma world_weaken X X' o D E T s : X ⊆ X' → world s0 pd a b c X o D E T s → world s0 pd a b c X' o D E T s.
Proof. intros HX [? ? ? ? ? ? ? ? Ho]. constructor; try done. intros f k Hf. apply Ho. by intros ?%HX. Qed.

(** Translation of the addresses of the second page. *)
Lemma w_translate {X o D E T s} (W : world s0 pd a b c X o D E T s) write n x :
  E.1 = pte PA 7 → T.2 = pte x 3 → 0 <= n < 4 → hw_translate write (4096 + n) s = (Ret (pg x * 4096 + n), s).
Proof.
  intros He Ht Hn.
  destruct (pte_facts s0 pd a b c HS PA 7 s (w_npages _ _ _ _ _ _ W) (w_phys _ _ _ _ _ _ _ _ _ _ _ W) ltac:(lia)) as (_ & _ & HA & _).
  destruct (pte_facts s0 pd a b c HS x 3 s (w_npages _ _ _ _ _ _ W) (w_phys _ _ _ _ _ _ _ _ _ _ _ W) ltac:(lia)) as (_ & _ & HA3 & _).
  assert (Ec : cr3 s = pd * 4096) by (rewrite (w_only _ _ _ _ _ _ _ _ _ _ _ W); exact Hcr3).
  assert (HB : ∀ y k bt, 0 <= k < 4096 → 0 <= bt < 4096 → Z.land (pte y k) bt = Z.land k bt).
  { intros y k bt Hk Hb. apply land_frame; [|done|done]. pose proof (pg_range s0 pd a b c HS y). unfold pg in *. lia. }
  unfold hw_translate. replace (KERNBASE <=? 4096 + n) with false by (unfold KERNBASE; lia). mstep. cbn [id].
  assert (HX : PDX (4096 + n) = 0 ∧ PTX (4096 + n) = 1 ∧ PGOFF (4096 + n) = n).
  { rewrite PDX_div, PTX_div, PGOFF_mod. Z.to_euclidean_division_equations. lia. }
  destruct HX as (-> & -> & ->). rewrite Ec.
  pose proof (w_pde _ _ _ _ _ _ _ _ _ _ _ W false) as Hd. unfold entry, jz, zget in Hd. rewrite Hd, He.
  rewrite !HB by (unfold PTE_P, PTE_W, PTE_PS; lia). cbn. destruct write; cbn.
  all: rewrite HA; pose proof (w_pte _ _ _ _ _ _ _ _ _ _ _ W true) as Hw; unfold entry, jz, zget in Hw; change (pg PA) with a; rewrite Hw, Ht, !HB by (unfold PTE_P, PTE_W; lia); cbn; by rewrite HA3.
Qed.

Lemma w_vload32 {X o D E T s} (W : world s0 pd a b c X o D E T s) x v :
  E.1 = pte PA 7 → T.2 = pte x 3 → (∀ n, 0 <= n < 4 → mem s (pg x * 4096 + n) = v) →
  vload32 PGSIZE s = (Ret (v * 0x01010101), s).
Proof.
  intros He Ht Hm.
  assert (H8 : ∀ n, 0 <= n < 4 → vload8 (4096 + n) s = (Ret v, s)).
  { intros n Hn. unfold vload8. mrun (by apply (w_translate W false n x)). unfold gets. by rewrite Hm. }
  assert (H16 : ∀ n, 0 <= n < 3 → vload16 (4096 + n) s = (Ret (v + v * 2 ^ 8), s)).
  { intros n Hn. unfold vload16. mrun (apply H8; lia). rewrite u32_small by lia. replace (4096 + n + 1) with (4096 + (n + 1)) by lia. by mrun (apply H8; lia). }
  unfold vload32, PGSIZE. mrun (apply (H16 0); lia). mrun (apply (H16 2); lia). unfold mret, M_ret. do 2 f_equal. lia.
Qed.

Lemma w_store8 {X o D E T s} (W : world s0 pd a b c X o D E T s) x n v :
  x ≠ PA → pg x ∈ X → 0 <= n < 4096 → world s0 pd a b c X o D E T (set_mem (st8 (mem s) (pg x * 4096 + n) v) s).
Proof.
  intros Hne HxX Hn. destruct W as [Wo Wm Wp Wl Wg Wgs We Wt Wx]. pose proof (pg_pd s0 pd a b c HS x) as Hxp.
  assert (Hxa : pg x ≠ a) by (intros Hxa; apply Hne; by apply (pg_inj s0 pd a b c HS x PA)).
  constructor; [by apply only_vm_mem|by apply st8_ok|by apply phys_ok_mem|done|done|done| | |].
  - intros i. rewrite <- We. unfold entry. cbn. apply ld32_ext. intros k Hk. apply st8_other. destruct i; unfold jz; nia.
  - intros i. rewrite <- Wt. unfold entry. cbn. apply ld32_ext. intros k Hk. apply st8_other. destruct i; unfold jz; nia.
  - intros f k Hf Hk Hx. cbn. rewrite st8_other; [by apply Wx|]. assert (f ≠ pg x) by (intros ->; done). nia.
Qed.

Lemma w_vstore32 {X o D E T s} (W : world s0 pd a b c X o D E T s) x :
  x ≠ PA → pg x ∈ X → E.1 = pte PA 7 → T.2 = pte x 3 →
  ∃ s', vstore32 PGSIZE 0x03030303 s = (Ret tt, s') ∧ world s0 pd a b c X o D E T s' ∧ ld32 (mem s') (pg x * 4096) = 0x03030303.
Proof.
  intros Hne HxX He Ht. set (p := pg x * 4096).
  set (s1 := set_mem (st8 (mem s) (p + 0) 0x03030303) s). assert (W1 : world s0 pd a b c X o D E T s1) by (by apply w_store8; [done|done|done|lia]).
  set (s2 := set_mem (st8 (mem s1) (p + 1) 0x030303) s1). assert (W2 : world s0 pd a b c X o D E T s2) by (by apply w_store8; [done|done|done|lia]).
  set (s3 := set_mem (st8 (mem s2) (p + 2) 0x0303) s2). assert (W3 : world s0 pd a b c X o D E T s3) by (by apply w_store8; [done|done|done|lia]).
  set (s4 := set_mem (st8 (mem s3) (p + 3) 0x03) s3). assert (W4 : world s0 pd a b c X o D E T s4) by (by apply w_store8; [done|done|done|lia]).
  exists s4. split; [|split; [exact W4|]].
  - unfold vstore32, vstore16. rewrite bind_assoc. unfold PGSIZE.
    mrun (unfold vstore8; mrun (apply (w_translate W true 0 x He Ht); lia); reflexivity). fold p. fold s1.
    mrun (unfold vstore8; mrun (apply (w_translate W1 true 1 x He Ht); lia); reflexivity). fold p. fold s2.
    mrun (unfold vstore8; mrun (apply (w_translate W2 true 2 x He Ht); lia); reflexivity). fold p. fold s3.
    unfold vstore8. mrun (apply (w_translate W3 true 3 x He Ht); lia). reflexivity.
  - unfold ld32. cbn [mem set_mem s4 s3 s2 s1]. unfold st8. replace (p + 0) with p by lia.
    repeat (case_match; try lia). done.
Qed.
End installed.

(** ** The whole test *)

Section run.
Context (s : kstate) (pd a b c : Z) (l : list Z).
Hypothesis Hk : kpd s pd (a :: b :: c :: l).
Hypothesis Hcur : cur_ok s.
Hypothesis Hkp : kern_pgdir s = kaddr pd.
Hypothesis Hcr3 : cr3 s = pd * 4096.

(** The state when the pages have been filled. *)
Definition filled_st : kstate :=
  set_mem (mem_set (mem_set (mem s) (b * 4096) 1 4096) (c * 4096) 2 4096) (pushed a (set_page_free_list (head l) s)).

Lemma filled_facts :
  free_list filled_st (a :: l) ∧ setting filled_st pd a b c ∧ mem_ok (mem filled_st) ∧ (∀ i, entry filled_st pd (jz i) = 0) ∧
  world filled_st pd a b c [a] (Some a) (mkPageInfo (head l) 0, mkPageInfo (Some c) 0, mkPageInfo (head l) 0) (0, 0)
    (entry filled_st a 0, entry filled_st a 1) filled_st.
Proof.
  pose proof (back_three _ _ _ _ _ _ Hk) as H3. pose proof (back_setting _ _ _ _ _ _ Hk Hcur) as [HS1 HS2 HS3 HS4 HS5 HS6 HS7].
  destruct (three_facts _ _ _ _ _ H3) as (Hab & Hac & Hbc & Hal & Hbl & Hcl & Hnd & Ha & Hb & Hc & Hch & Hra & Hrb & Hrc).
  assert (Hfl : free_list filled_st (a :: l)).
  { change (free_list (pushed a (set_page_free_list (head l) s)) (a :: l)). apply pushed_free_list; [|done]. by split. }
  assert (Hmem : mem_ok (mem filled_st)) by (apply mem_set_ok, mem_set_ok, (k_mem _ _ _ Hk)).
  assert (Hz : ∀ i, entry filled_st pd (jz i) = 0).
  { intros i. transitivity (entry s pd (jz i)).
    - unfold entry. cbn. rewrite !ld32_mem_set_out; [done|destruct i; unfold jz; nia|destruct i; unfold jz; nia].
    - apply (k_user _ _ _ Hk). unfold uidx. rewrite UPDX_eq. destruct i; unfold jz; lia. }
  split; [done|]. split; [by constructor|]. split; [done|]. split; [done|].
  constructor; [apply only_vm_refl|done| |reflexivity| |reflexivity| |by intros []|reflexivity].
  - apply phys_ok_mem, pushed_phys_ok; [apply phys_ok_list, (k_phys _ _ _ Hk)|exact Hra].
  - intros []; cbn; [by rewrite lookup_insert_eq|by rewrite lookup_insert_ne|by rewrite lookup_insert_ne].
  - intros i. rewrite Hz. by destruct i.
Qed.

Lemma filled_frame x v : (x = PB ∧ v = 1) ∨ (x = PC ∧ v = 2) → ∀ n, 0 <= n < 4096 → mem filled_st (pg a b c x * 4096 + n) = v.
Proof.
  destruct (back_setting _ _ _ _ _ _ Hk Hcur) as [(Hab & Hac & Hbc) _ _ _ _ _ _].
  intros [[-> ->]|[-> ->]] n Hn; cbn; [rewrite mem_set_out, mem_set_in by nia|rewrite mem_set_in by lia]; done.
Qed.

Ltac wcall l := let s' := fresh "s" in let R := fresh "R" in let W' := fresh "W" in
  destruct l as (s' & R & W'); [..|mrun (exact R); cbn [dput dget zput zget fst snd pp_ref pp_link Z.eqb Pos.eqb] in W'; clear R].

Lemma check_page_installed_run :
  ∃ s' T, check_page_installed_pgdir s = (Ret tt, s') ∧
    world filled_st pd a b c [a; c] (Some a) (mkPageInfo (Some c) 0, mkPageInfo (head l) 0, mkPageInfo (Some b) 0) (0, 0) T s'.
Proof.
  pose proof (back_three _ _ _ _ _ _ Hk) as H3. destruct filled_facts as (Hfl & HS & Hmem & Hz & W0).
  destruct (three_facts _ _ _ _ _ H3) as (Hab & Hac & Hbc & Hal & Hbl & Hcl & Hnd & Ha & Hb & Hc & Hch & Hra & Hrb & Hrc).
  assert (HaX : a ∈ [a]) by (by left). assert (HaX2 : a ∈ [a; c]) by (by left). assert (Hc3 : cr3 filled_st = pd * 4096) by exact Hcr3.
  unfold check_page_installed_pgdir. mstep. rewrite Hkp. rewrite (alloc_three s a b c l _ H3).
  destruct (page_free_push (set_page_free_list (head l) s) a l (Some b)) as (R1 & _ & O1); [apply phys_ok_list, (k_phys _ _ _ Hk)|by split|done|done|].
  mrun (exact R1). mrun (apply page2kva_ok; [exact O1|exact Hrb]). mrun reflexivity.
  mrun (apply page2kva_ok; [apply phys_ok_mem, O1|exact Hrc]). mrun reflexivity.
  replace (b * 4096 + KERNBASE - KERNBASE) with (b * 4096) by lia. replace (c * 4096 + KERNBASE - KERNBASE) with (c * 4096) by lia.
  change (set_mem _ _) with filled_st.
  wcall (w_insert_table_gen filled_st pd a b c HS [a] HaX W0 false true PGSIZE eq_refl eq_refl PB PTE_W l); [done|done|done|done|done|].
  change (Z.lor PTE_W PTE_P) with 3 in W.
  mrun (by apply (a_ref _ _ _ _ _ _ W PB)).
  assert (Hfr : ∀ o D E T s1, world filled_st pd a b c [a] o D E T s1 → ∀ x v, (x = PB ∧ v = 1) ∨ (x = PC ∧ v = 2) →
            ∀ n, 0 <= n < 4 → mem s1 (pg a b c x * 4096 + n) = v).
  { intros o D E T s1 W1 x v Hx n Hn. rewrite (w_other _ _ _ _ _ _ _ _ _ _ _ W1).
    - apply filled_frame; [done|lia].
    - rewrite list_elem_of_singleton. destruct Hx as [[-> _]|[-> _]]; cbn; congruence.
    - lia.
    - left. apply (pg_pd _ _ _ _ _ HS). }
  mrun (apply (w_vload32 filled_st pd a b c HS Hc3 W PB 1); [done|done|apply (Hfr _ _ _ _ _ W); by left]). mrun (by apply kassert_ok).
  wcall (w_insert_over filled_st pd a b c HS [a] HaX W false true PGSIZE eq_refl eq_refl PC PB 3 PTE_W); [done|done|done|done|done|done|done|done|].
  change (Z.lor PTE_W PTE_P) with 3 in W1. change (0 + 1) with 1 in W1.
  mrun (apply (w_vload32 filled_st pd a b c HS Hc3 W1 PC 2); [done|done|apply (Hfr _ _ _ _ _ W1); by right]). mrun (by apply kassert_ok).
  mrun (by apply (a_ref _ _ _ _ _ _ W1 PC)). mrun (by apply (a_ref _ _ _ _ _ _ W1 PB)).
  apply (world_weaken filled_st pd a b c [a] [a; c]) in W1; [|set_solver].
  destruct (w_vstore32 filled_st pd a b c HS Hc3 W1 PC) as (s3 & R3 & W3 & Hld); [done|cbn; set_solver|done|done|].
  mrun (exact R3). mrun (apply page2kva_ok; [apply W3|rewrite (w_npages _ _ _ _ _ _ W3); exact Hrc]).
  mrun reflexivity. replace (c * 4096 + KERNBASE - KERNBASE) with (c * 4096) by lia.
  mrun (apply kassert_ok; change c with (pg a b c PC); rewrite Hld; done).
  wcall (w_remove filled_st pd a b c HS [a; c] HaX2 W3 false true PGSIZE eq_refl eq_refl PC 3); [done|done|done|done|done|].
  mrun (by apply (a_ref _ _ _ _ _ _ W2 PC)). mrun (apply (a_pde _ _ _ _ _ _ W2)). cbn [fst].
  destruct (w_pte_facts _ _ _ _ _ HS _ W2 PA 7 ltac:(lia)) as (_ & _ & HA & _ & _ & H2).
  mrun (apply kassert_ok; rewrite HA; change a with (pg a b c PA) at 2; rewrite H2; apply Z.eqb_refl).
  wcall (w_clear_pde _ _ _ _ _ HS _ W2 false 0); [done|]. mrun (by apply (a_ref _ _ _ _ _ _ W4 PA)).
  wcall (w_set_ref _ _ _ _ _ HS _ HaX2 W4 PA 0); [done|].
  destruct (w_page_free _ _ _ _ _ HS _ HaX2 W5 PA eq_refl) as [R6 W6]. eexists _, _. split; [exact R6|exact W6].
Qed.

Lemma check_page_installed_ok :
  ∃ s', check_page_installed_pgdir s = (Ret tt, s') ∧ kept pd s s' (a :: b :: c :: l) (a :: c :: b :: l).
Proof.
  pose proof (back_three _ _ _ _ _ _ Hk) as H3. destruct filled_facts as (Hfl & HS & Hmem & Hz & _).
  destruct (three_facts _ _ _ _ _ H3) as (Hab & Hac & Hbc & Hal & Hbl & Hcl & Hnd & Ha & Hb & Hc & Hch & Hra & Hrb & Hrc).
  destruct check_page_installed_run as (s' & T & R & W). exists s'. split; [exact R|].
  assert (Hother : ∀ p, p ∉ [a; b; c] → pages s' !! p = pages s !! p).
  { intros p Hp. rewrite (w_pages _ _ _ _ _ _ _ _ _ _ _ W) by done. cbn. apply lookup_insert_ne. set_solver. }
  assert (HD : ∀ x, pages s' !! pg a b c x = Some (dget (mkPageInfo (Some c) 0, mkPageInfo (head l) 0, mkPageInfo (Some b) 0) x))
    by apply (w_page _ _ _ _ _ _ _ _ _ _ _ W).
  apply kept_intro; [done| |apply W|apply W| | | |].
  - eapply only_vm_trans; [|apply W]. unfold filled_st. apply only_vm_mem, only_vm_pushed, only_vm_list, only_vm_refl.
  - split; [|by apply NoDup_three; auto].
    rewrite (w_list _ _ _ _ _ _ _ _ _ _ _ W). split; [done|]. exists (Some c). split; [exact (HD PA)|].
    split; [done|]. exists (Some b). split; [exact (HD PC)|]. split; [done|]. exists (head l). split; [exact (HD PB)|].
    eapply chain_ext; [|exact Hch]. intros p Hp. apply Hother. set_solver.
  - by rewrite (Permutation_swap c b).
  - intros p pi Hpi. destruct (decide (p ∈ [a; b; c])) as [Hin|Hin].
    + rewrite !elem_of_cons, elem_of_nil in Hin.
      assert (∃ x, p = pg a b c x) as [x ->] by (destruct Hin as [->|[->|[->|[]]]]; [by exists PA|by exists PB|by exists PC]).
      rewrite HD in Hpi. injection Hpi as <-. destruct x; cbn; lia.
    + rewrite Hother in Hpi by done. by apply (k_ref _ _ _ Hk p).
  - apply (frames_kept_trans _ s filled_st s').
    + intros f k Hf Hkk. rewrite !not_elem_of_cons in Hf. destruct Hf as (? & ? & ? & _). unfold filled_st. cbn [mem set_mem].
      rewrite !mem_set_out; [done|nia|nia].
    + eapply world_frames; [exact Hmem|exact Hz| |exact W]. set_solver.
Qed.
End run.
