(* ===== verification/BootSpec.v ===== *)
(** * [mem_init]

    The theorem about the whole of [mem_init]: on a machine with 64 to 256 MB
    of memory it returns, every assertion of its self-tests holds, the kernel's
    address space is the one [inc/memlayout.h] draws, and the free list is all
    of usable memory but the page tables. *)

From S2P Require Import Prelude Mmu Console KState PageAlloc PageTable AddrSpace PageInsert VmFrame Env.
From S2P Require Import MemInit BootMap BootCheck BootFree BootPages BootMmio BootInstalled Demo.
Open Scope Z_scope.

(** ** What is known at boot

    [np] and [nb] are the pages of memory and of base memory that the clock
    chip reports, [e] is the page at which the kernel ends, [B] and [C] are the
    frames of the boot stack and of the stacks of the CPUs. *)
Record bootable (end_ bootstack : Z) (percpu_kstacks cmos : Z → Z) (np nb e B : Z) (C : Z → Z) (s : kstate) : Prop := mk_bootable {
  bt_detect : ∀ s, i386_detect_memory cmos s = (Ret tt, set_npages_basemem nb (set_npages np s));
  bt_np : 16384 <= np <= 65536;
  bt_nb : 80 <= nb <= 160;
  bt_end : ROUNDUP end_ PGSIZE = e * 4096 + KERNBASE;
  bt_e : 256 <= e < 1024;
  bt_stack : bootstack = B * 4096 + KERNBASE ∧ 0 <= B < 65536;
  bt_stacks : ∀ i, 0 <= i < NCPU → percpu_kstacks i = C i * 4096 + KERNBASE ∧ 0 <= C i < 65536;
  bt_mem : mem_ok (mem s);
  bt_nextfree : nextfree s = 0;
  bt_list : page_free_list s = None;
  bt_pages : pages s = ∅;
  bt_mmio : mmio_base s = MMIOBASE;
  bt_cur : cur_ok s;
}.

(** The pages of the arrays, and the first page that [boot_alloc] has not
    handed out. *)
Definition pages_frame (e : Z) : Z := e + 1.
Definition envs_frame (np e : Z) : Z := e + 1 + array_pages np.
Definition boot_limit (np e : Z) : Z := envs_frame np e + 32.

(** ** The arrays *)

Lemma clear_loop n s :
  ∃ P, mfor (seqZ 0 (Z.of_nat n)) (λ i, put_page i (mkPageInfo None 0)) s = (Ret tt, set_pages P s) ∧
    (∀ p, P !! p = if decide (0 <= p < Z.of_nat n) then Some (mkPageInfo None 0) else pages s !! p).
Proof.
  enough (H : ∀ k s, ∃ P, mfor (seqZ k (Z.of_nat n)) (λ i, put_page i (mkPageInfo None 0)) s = (Ret tt, set_pages P s) ∧
    (∀ p, P !! p = if decide (k <= p < k + Z.of_nat n) then Some (mkPageInfo None 0) else pages s !! p)) by apply (H 0 s).
  clear s. induction n as [|n IH]; intros k s.
  { exists (pages s). split; [by rewrite set_pages_id|]. intros p. by rewrite decide_False by lia. }
  rewrite seqZ_cons by lia. destruct (IH (Z.succ k) (set_pages (<[k := mkPageInfo None 0]> (pages s)) s)) as (P & R & HP).
  exists P. split.
  - cbn [mfor]. mrun reflexivity. replace (Z.pred (Z.of_nat (S n))) with (Z.of_nat n) by lia. exact R.
  - intros p. rewrite HP. cbn. rewrite lookup_insert. repeat case_decide; try lia; done.
Qed.

Lemma clear_pages_ok n s :
  0 <= npages s <= 65536 → 0 <= n <= array_pages (npages s) * 4096 →
  ∃ P, clear_pages n s = (Ret tt, set_pages P s) ∧
    (∀ p, P !! p = if decide (0 <= p < Z.min (npages s) (n / 8)) then Some (mkPageInfo None 0) else pages s !! p).
Proof.
  intros Hnp Hn. unfold clear_pages. mstep.
  assert (ROUNDUP (u32 (npages s * SIZEOF_PAGEINFO)) PGSIZE = array_pages (npages s) * 4096) as ->.
  { unfold array_pages, SIZEOF_PAGEINFO, PGSIZE. rewrite u32_small, ROUNDUP_unfold by (unfold is_u32; lia).
    replace (npages s * 8 + 4096 - 1) with (npages s * 8 + 4095) by lia. lia. }
  replace (array_pages (npages s) * 4096 <? n) with false by lia. change SIZEOF_PAGEINFO with 8.
  pose proof (Z.div_pos n 8). destruct (clear_loop (Z.to_nat (Z.min (npages s) (n / 8))) s) as (P & R & HP).
  rewrite Z2Nat.id in R, HP by lia. by exists P.
Qed.

Section boot.
Context (end_ bootstack : Z) (percpu_kstacks cmos : Z → Z) (np nb e B : Z) (C : Z → Z) (s : kstate).
Hypothesis HB : bootable end_ bootstack percpu_kstacks cmos np nb e B C s.

Let Hnp : 16384 <= np <= 65536 := bt_np _ _ _ _ _ _ _ _ _ _ HB.
Let Hnb : 80 <= nb <= 160 := bt_nb _ _ _ _ _ _ _ _ _ _ HB.
Let He : 256 <= e < 1024 := bt_e _ _ _ _ _ _ _ _ _ _ HB.

Lemma array_range : 32 <= array_pages np <= 128.
Proof. unfold array_pages, SIZEOF_PAGEINFO. Z.to_euclidean_division_equations. lia. Qed.

(** The state after the arrays have been set up. *)
Definition arrays_st (P : gmap Z PageInfo) (m : memory) : kstate :=
  set_pages P (set_nextfree (boot_limit np e * 4096 + KERNBASE) (set_mem m (set_kern_pgdir (kaddr e)
    (set_npages_basemem nb (set_npages np s))))).

Definition boot_mem : memory := st32 (mem_set (mem s) (e * 4096) 0 4096) (e * 4096 + 4 * PDX UVPT) (e * 4096 + 5).

Lemma mem_init_arrays_ok :
  ∃ P, mem_init_arrays end_ (set_npages_basemem nb (set_npages np s)) =
      (Ret (pages_frame e * 4096 + KERNBASE, envs_frame np e * 4096 + KERNBASE), arrays_st P boot_mem) ∧
    (∀ p, P !! p = if decide (0 <= p < np) then Some (mkPageInfo None 0) else None).
Proof.
  pose proof array_range as Har. set (s1 := set_npages_basemem nb (set_npages np s)).
  assert (Hb1 : ∀ m f P n, npages (set_pages P (set_nextfree n (set_mem m (set_kern_pgdir f s1)))) = np) by done.
  unfold mem_init_arrays. mrun (
    rewrite boot_alloc_first by (first [exact (bt_nextfree _ _ _ _ _ _ _ _ _ _ HB)|rewrite (bt_end _ _ _ _ _ _ _ _ _ _ HB); unfold KERNBASE; lia]);
    rewrite (bt_end _ _ _ _ _ _ _ _ _ _ HB); apply (boot_alloc_ok _ end_ e PGSIZE);
    [cbn; lia|split; [reflexivity|cbn; lia]|done|done|change ((PGSIZE + 4095) / 4096) with 1; cbn; lia]).
  change ((PGSIZE + 4095) / 4096) with 1. mstep. fold (kaddr e). mrun reflexivity.
  mrun (apply PADDR_ok; lia). mrun (apply kstore_entry). mstep. cbn [npages set_mem set_kern_pgdir set_nextfree s1 set_npages_basemem set_npages].
  replace (u32 (Z.lor (Z.lor (e * 4096) PTE_U) PTE_P)) with (e * 4096 + 5)
    by (rewrite <- Z.lor_assoc; change (Z.lor PTE_U PTE_P) with 5; rewrite pte_lor, u32_small by lia; done).
  replace (kaddr e - KERNBASE) with (e * 4096) by (unfold kaddr; lia). cbn [mem set_mem set_kern_pgdir set_nextfree set_npages_basemem set_npages].
  fold boot_mem. rewrite u32_small by (unfold SIZEOF_PAGEINFO; lia).
  match goal with |- context [mbind _ (boot_alloc _ _) ?x] => set (s2 := x) end.
  mrun (apply (boot_alloc_ok s2 end_ (e + 1) (np * SIZEOF_PAGEINFO)); [cbn; lia|split; [reflexivity|cbn; lia]|unfold SIZEOF_PAGEINFO; lia|unfold SIZEOF_PAGEINFO; lia|
    fold (array_pages np); cbn; lia]).
  fold (array_pages np).
  match goal with |- context [mbind _ (clear_pages _) ?x] => set (s3 := x) end.
  destruct (clear_pages_ok (np * SIZEOF_PAGEINFO) s3) as (P1 & R1 & HP1); [cbn; lia| |].
  { change (npages s3) with np. unfold array_pages, SIZEOF_PAGEINFO. Z.to_euclidean_division_equations. lia. }
  mrun (exact R1).
  match goal with |- context [mbind _ (boot_alloc _ _) ?x] => set (s4 := x) end.
  mrun (apply (boot_alloc_ok s4 end_ (envs_frame np e) (NENV * SIZEOF_ENV)); [cbn; lia|split; [reflexivity|unfold envs_frame; cbn; lia]|done|done|
    change ((NENV * SIZEOF_ENV + 4095) / 4096) with 32; unfold envs_frame; cbn; lia]).
  change ((NENV * SIZEOF_ENV + 4095) / 4096) with 32. fold (boot_limit np e).
  match goal with |- context [mbind _ (clear_pages _) ?x] => set (s5 := x) end.
  destruct (clear_pages_ok (NENV * SIZEOF_ENV) s5) as (P2 & R2 & HP2); [cbn; lia| |].
  { change (npages s5) with np. change (NENV * SIZEOF_ENV) with (32 * 4096). lia. }
  mrun (exact R2). exists P2. split; [reflexivity|].
  intros p. rewrite HP2. change (pages s5) with P1. rewrite HP1. change (npages s5) with np. change (npages s3) with np.
  change (pages s3) with (pages s). rewrite (bt_pages _ _ _ _ _ _ _ _ _ _ HB), lookup_empty. change (NENV * SIZEOF_ENV / 8) with 16384.
  unfold SIZEOF_PAGEINFO. rewrite Z.div_mul, Z.min_id by lia. repeat case_decide; try lia; done.
Qed.

(** ** The free list *)

(** All of memory but page 0, the page at [MPENTRY_PADDR], the hole for
    devices, the kernel and what [boot_alloc] handed out. *)
Definition boot_pages : list Z :=
  filter (λ i, i ≠ mpPage) (seqZ 1 (nb - 1) ++ seqZ (boot_limit np e) (np - boot_limit np e)).

Lemma elem_of_boot_pages p : p ∈ boot_pages ↔ p ≠ 7 ∧ (1 <= p < nb ∨ boot_limit np e <= p < np).
Proof. unfold boot_pages. change mpPage with 7. rewrite list_elem_of_filter, elem_of_app, !elem_of_seqZ. lia. Qed.

Lemma limit_range : 321 <= boot_limit np e < 1200.
Proof. pose proof array_range. unfold boot_limit, envs_frame. lia. Qed.

(** More pages of one kind than are missing from the list: one is left. *)
Lemma some_left (l tabs fl us : list Z) :
  tabs ++ fl ≡ₚ us → NoDup l → l ⊆ us → (length tabs < length l)%nat → ∃ p, p ∈ l ∧ p ∈ fl.
Proof.
  intros Hp Hnd Hsub Hlt. destruct (decide (Exists (.∈ fl) l)) as [(p & ? & ?)%Exists_exists|Hno]; [eauto|].
  exfalso. assert (l ⊆+ tabs) as ?%submseteq_length; [|lia]. apply NoDup_submseteq; [done|]. intros p Hl.
  specialize (Hsub p Hl). rewrite <- Hp in Hsub. apply elem_of_app in Hsub as [?|?]; [done|].
  destruct Hno. apply Exists_exists. eauto.
Qed.

Definition low_pages : list Z := filter (λ i, i ≠ 7) (seqZ 1 79).

Lemma left_reasonable tabs fl : tabs ++ fl ≡ₚ boot_pages → (length tabs <= 68)%nat → list_reasonable (boot_limit np e) fl.
Proof.
  intros Hp Hlen. pose proof limit_range. split_and!.
  - intros p Hin. assert (p ∈ boot_pages) as Hb by (rewrite <- Hp; set_solver).
    apply elem_of_boot_pages in Hb. unfold page_reasonable. rewrite !not_elem_of_cons. split; [|lia]. split_and!; try lia. apply not_elem_of_nil.
  - destruct (some_left low_pages tabs fl boot_pages Hp) as (p & Hl & ?).
    + apply NoDup_filter, NoDup_seqZ.
    + intros p. unfold low_pages. rewrite list_elem_of_filter, elem_of_seqZ, elem_of_boot_pages. lia.
    + change (length low_pages) with 78%nat. lia.
    + exists p. split; [done|]. unfold low_pages in Hl. rewrite list_elem_of_filter, elem_of_seqZ in Hl. lia.
  - destruct (some_left (seqZ (boot_limit np e) 70) tabs fl boot_pages Hp) as (p & Hl & ?).
    + apply NoDup_seqZ.
    + intros p. rewrite elem_of_seqZ, elem_of_boot_pages. lia.
    + rewrite length_seqZ. lia.
    + exists p. split; [done|]. rewrite elem_of_seqZ in Hl. lia.
Qed.

Lemma left_many tabs fl : tabs ++ fl ≡ₚ boot_pages → (length tabs <= 68)%nat → (68 <= length fl)%nat.
Proof.
  intros Hp Hlen. pose proof limit_range. assert (seqZ (boot_limit np e) 136 ⊆+ boot_pages) as Hs%submseteq_length.
  { apply NoDup_submseteq; [apply NoDup_seqZ|]. intros p. rewrite elem_of_seqZ, elem_of_boot_pages. lia. }
  rewrite length_seqZ, <- Hp, length_app in Hs. lia.
Qed.

(** ** What holds between the steps

    [tabs] are the pages taken from the list so far, each is a page table for
    the kernel. *)
Record stage (t : kstate) (fl : list Z) : Prop := mk_stage {
  st_kpd : kpd t e fl;
  st_np : npages t = np;
  st_next : nextfree t = boot_limit np e * 4096 + KERNBASE;
  st_kp : kern_pgdir t = kaddr e;
  st_cur : cur_ok t;
  st_tabs : ∃ tabs, tabs ++ fl ≡ₚ boot_pages ∧ (length tabs + empty_slots t e = 68)%nat;
}.

Lemma stage_only t t' fl fl' :
  stage t fl → only_vm t t' → kpd t' e fl' →
  (∃ tabs, tabs ++ fl' ≡ₚ boot_pages ∧ (length tabs + empty_slots t' e = 68)%nat) → stage t' fl'.
Proof.
  intros [_ H2 H3 H4 H5 _] Ho Hk Ht. constructor; [exact Hk| | | |exact (only_vm_cur_ok _ _ Ho H5)|exact Ht].
  all: red in Ho; rewrite Ho; assumption.
Qed.

Lemma stage_kept t t' fl fl' : stage t fl → kept e t t' fl fl' → stage t' fl'.
Proof.
  intros H K. apply (stage_only t t' fl); [exact H|exact (e_only _ _ _ _ _ K)|exact (e_kpd _ _ _ _ _ K)|].
  destruct (st_tabs _ _ H) as (tabs & Hp & Hc). exists tabs. split; [by rewrite (e_perm _ _ _ _ _ K)|].
  rewrite <- Hc. f_equal. apply filter_length_iff. intros i (Hlo & Hhi)%elem_of_seqZ.
  rewrite (e_entry _ _ _ _ _ K); [done|]. unfold idx. rewrite UPDX_eq in *. lia.
Qed.

Lemma stage_built t t' fl fl' F : stage t fl → built e t t' fl fl' F → stage t' fl'.
Proof.
  intros H [Hk Ho (ts & -> & Hc) _ _]. apply (stage_only t t' (ts ++ fl')); [exact H|exact Ho|exact Hk|].
  destruct (st_tabs _ _ H) as (tabs & Hp & Hc'). exists (tabs ++ ts). split; [by rewrite <- app_assoc|]. rewrite length_app. lia.
Qed.

Lemma stage_mmio v t fl : stage t fl → stage (set_mmio_base v t) fl.
Proof. intros [H1 H2 H3 H4 H5 H6]. constructor; [by apply kpd_mmio|exact H2|exact H3|exact H4|exact H5|exact H6]. Qed.

Lemma stage_cr3 v t fl : stage t fl → stage (set_cr3 v t) fl.
Proof.
  intros [[K1 K2 K3 K4 K5 K6 K7 K8 K9 K10] H2 H3 H4 H5 H6]. constructor; [|exact H2|exact H3|exact H4|exact H5|exact H6].
  constructor; [exact K1|destruct K2; by constructor|exact K3|exact K4|exact K5|exact K6|exact K7|exact K8|exact K9|exact K10].
Qed.

Lemma stage_room t fl : stage t fl → room t e fl.
Proof. intros H. destruct (st_tabs _ _ H) as (tabs & Hp & Hc). pose proof (left_many tabs fl Hp). unfold room. lia. Qed.

Lemma stage_boot t fl : stage t fl → boot_ok t (boot_limit np e).
Proof. intros H. pose proof limit_range. split; [exact (st_next _ _ H)|]. rewrite (st_np _ _ H). lia. Qed.

Lemma stage_reasonable t fl : stage t fl → list_reasonable (boot_limit np e) fl.
Proof. intros H. destruct (st_tabs _ _ H) as (tabs & Hp & Hc). apply (left_reasonable tabs fl Hp). lia. Qed.

Lemma stage_three t fl : stage t fl → ∃ a b c l, fl = a :: b :: c :: l.
Proof.
  intros H. destruct (st_tabs _ _ H) as (tabs & Hp & Hc). pose proof (left_many tabs fl Hp) as Hl.
  destruct fl as [|a [|b [|c l]]]; cbn in Hl; [lia..|]. eauto.
Qed.

Lemma stage_check end0 only t fl :
  stage t fl → ∃ t' fl', check_page_free_list end0 only t = (Ret tt, t') ∧ kept e t t' fl fl' ∧ stage t' fl'.
Proof.
  intros H. destruct (check_page_free_list_ok end0 only t e fl (boot_limit np e)) as (t' & fl' & R & K);
    [exact (st_kpd _ _ H)|exact (stage_boot _ _ H)|exact (stage_reasonable _ _ H)|].
  exists t', fl'. split_and!; [exact R|exact K|exact (stage_kept _ _ _ _ H K)].
Qed.

(** ** The first state *)

Lemma boot_entry P i : idx i → entry (arrays_st P boot_mem) e i = if decide (i = PDX UVPT) then e * 4096 + 5 else 0.
Proof.
  intros Hi. unfold entry, idx in *. cbn [mem arrays_st set_pages set_nextfree set_mem]. unfold boot_mem. case_decide as Hd.
  - subst i. apply ld32_st32_same. unfold is_u32. lia.
  - change (PDX UVPT) with 957 in *. rewrite ld32_st32_other by lia. apply ld32_mem_set_in; lia.
Qed.

Lemma arrays_phys P :
  (∀ p, P !! p = if decide (0 <= p < np) then Some (mkPageInfo None 0) else None) → phys_ok (arrays_st P boot_mem).
Proof.
  intros HP. constructor; [cbn; lia|]. intros p. cbn [pages npages arrays_st set_pages set_nextfree set_mem set_kern_pgdir set_npages_basemem set_npages].
  rewrite HP. case_decide; split; [done|eauto|by intros [? ?]|done].
Qed.

Lemma boot_slots t : (∀ i, idx i → entry t e i = if decide (i = PDX UVPT) then e * 4096 + 5 else 0) → empty_slots t e = 68%nat.
Proof.
  intros He0. transitivity (length (filter (λ i, i ≠ PDX UVPT) (seqZ UPDX (1024 - UPDX)))); [|reflexivity].
  apply filter_length_iff. intros i (Hlo & Hhi)%elem_of_seqZ. rewrite UPDX_eq in *. rewrite He0 by (unfold idx; lia).
  case_decide; split; [lia|lia|done|done].
Qed.

Lemma page_init_stage P :
  (∀ p, P !! p = if decide (0 <= p < np) then Some (mkPageInfo None 0) else None) →
  ∃ t, page_init end_ (arrays_st P boot_mem) = (Ret tt, t) ∧ stage t (reverse boot_pages) ∧
    mmio_base t = MMIOBASE ∧ no_mapping t e.
Proof.
  intros HP. pose proof limit_range as Hlim. pose proof (arrays_phys P HP) as Hok.
  destruct (page_init_correct (arrays_st P boot_mem) end_ (boot_limit np e) Hok) as (t & R & Hph & Ho & Hfl & Hused);
    [exact (bt_list _ _ _ _ _ _ _ _ _ _ HB)|split; [reflexivity|cbn; lia]|cbn; lia|].
  change (usable _ _) with boot_pages in Hfl, Hused. exists t.
  assert (Hm : mem t = boot_mem) by (rewrite Ho; reflexivity).
  assert (He0 : ∀ i, idx i → entry t e i = if decide (i = PDX UVPT) then e * 4096 + 5 else 0).
  { intros i Hi. rewrite <- (boot_entry P i Hi). unfold entry. by rewrite Hm. }
  assert (Hk0 : ∀ i, kidx i → entry t e i = 0).
  { intros i Hi. rewrite (He0 i (kidx_idx i Hi)), decide_False; [done|]. exact (proj2 Hi). }
  assert (Hnp' : npages t = np) by (rewrite Ho; reflexivity).
  split_and!; [exact R| |rewrite Ho; exact (bt_mmio _ _ _ _ _ _ _ _ _ _ HB)|intros u Hu; apply kpte_absent, Hk0, Hu].
  constructor; [|exact Hnp'|rewrite Ho; reflexivity|rewrite Ho; reflexivity| |].
  - constructor; [rewrite Hm; apply st32_ok, mem_set_ok, (bt_mem _ _ _ _ _ _ _ _ _ _ HB)|exact Hph|exact Hfl|lia| | | | | |].
    + rewrite elem_of_reverse, elem_of_boot_pages. pose proof array_range. unfold boot_limit, envs_frame in *. lia.
    + intros i Hi. unfold uidx in Hi. rewrite UPDX_eq in Hi. rewrite He0 by (unfold idx; lia). apply decide_False. change (PDX UVPT) with 957. lia.
    + rewrite He0 by done. by rewrite decide_True.
    + intros i Hi. left. apply Hk0, Hi.
    + intros i i' Hi _ Hn _. destruct Hn. apply Hk0, Hi.
    + intros p pi Hp. destruct (decide (p ∈ boot_pages)) as [Hin|Hout].
      * destruct (chain_elem _ _ _ p (proj1 Hfl)) as [o Hpo]; [by apply elem_of_reverse|]. rewrite Hpo in Hp. injection Hp as <-. cbn; lia.
      * destruct (Hused p) as [o Hpo]; [change (0 <= p < np); rewrite <- Hnp'; apply (phys_dom t Hph); eauto|done|]. rewrite Hpo in Hp. injection Hp as <-. cbn; lia.
  - intros c Hc. rewrite Ho in Hc |- *. exact (bt_cur _ _ _ _ _ _ _ _ _ _ HB c Hc).
  - exists []. split; [apply reverse_Permutation|]. cbn [length]. by rewrite (boot_slots t He0).
Qed.

(** ** The steps after the free list *)

(** The slots of the kernel that hold a mapping of the layout: all but the one
    for devices. *)
Lemma layout_slot P E i : kidx i → i ≠ PDX MMIOBASE → ∃ u, u / 1024 = i ∧ is_Some (kern_layout np P E C u).
Proof.
  intros [Hi Hn] Hm. pose proof array_range as Har. rewrite UPDX_eq in Hi. change (PDX UVPT) with 957 in Hn. change (PDX MMIOBASE) with 958 in Hm.
  exists (if decide (i = 959) then PGNUM KSTACKTOP - 1 else i * 1024). unfold kern_layout, stacks.
  change (PGNUM UPAGES) with 978944; change (PGNUM UENVS) with 977920; change (PGNUM KERNBASE) with 983040; change (PGNUM KSTACKTOP) with 983040.
  case_decide as H959.
  - subst i. split; [reflexivity|]. rewrite !decide_False by lia. rewrite decide_True; [eauto|]. by change (983040 - 1 - (983040 - 1)) with 0.
  - split; [apply Z.div_mul; lia|]. repeat case_decide; eauto; lia.
Qed.

Lemma map_stage t fl :
  stage t fl → no_mapping t e → entry t e (PDX MMIOBASE) ≠ 0 →
  ∃ t' fl', mem_init_map bootstack percpu_kstacks (pages_frame e * 4096 + KERNBASE) (envs_frame np e * 4096 + KERNBASE) t = (Ret tt, t') ∧
    stage t' fl' ∧ (∀ u, kpage u → kpte t' e u = kern_layout np (pages_frame e) (envs_frame np e) C u) ∧
    (∀ i, kidx i → entry t' e i ≠ 0).
Proof.
  intros H Hno Hmm. pose proof array_range as Har.
  destruct (mem_init_map_built percpu_kstacks e C (bt_stacks _ _ _ _ _ _ _ _ _ _ HB) bootstack np (pages_frame e) (envs_frame np e) B)
    with (s := t) (fl := fl) as (t' & fl' & R & Hb);
    [lia|unfold pages_frame; lia|unfold envs_frame; lia|exact (bt_stack _ _ _ _ _ _ _ _ _ _ HB)|exact (st_kpd _ _ H)|exact (stage_room _ _ H)|exact (st_np _ _ H)|exact (st_kp _ _ H)|].
  assert (Hmap : ∀ u, kpage u → kpte t' e u = kern_layout np (pages_frame e) (envs_frame np e) C u).
  { intros u Hu. rewrite (b_map _ _ _ _ _ _ Hb u Hu), (Hno u Hu). by destruct (kern_layout _ _ _ _ _). }
  exists t', fl'. split_and!; [exact R|exact (stage_built _ _ _ _ _ H Hb)|exact Hmap|].
  intros i Hi. destruct (decide (i = PDX MMIOBASE)) as [->|Hne].
  - rewrite (b_keep _ _ _ _ _ _ Hb) by done. done.
  - destruct (layout_slot (pages_frame e) (envs_frame np e) i Hi Hne) as (u & Hu & x & Hx).
    rewrite <- Hu. apply (kpte_entry _ _ _ x). rewrite Hmap; [exact Hx|]. unfold kpage. by rewrite Hu.
Qed.

Lemma tests_stage t fl :
  stage t fl → mmio_base t = MMIOBASE → no_mapping t e →
  ∃ t1 t2 t3 fl', check_page_free_list end_ true t = (Ret tt, t1) ∧ check_page_alloc (pages_frame e * 4096 + KERNBASE) t1 = (Ret tt, t2) ∧
    check_page t2 = (Ret tt, t3) ∧ stage t3 fl' ∧ no_mapping t3 e ∧ entry t3 e (PDX MMIOBASE) ≠ 0.
Proof.
  intros H Hmm Hno. destruct (stage_check end_ true t fl H) as (t1 & fl1 & R1 & K1 & H1).
  destruct (stage_three _ _ H1) as (a & b & c & l & ->).
  destruct (check_page_alloc_ok t1 e a b c l (st_kpd _ _ H1) (pages_frame e * 4096 + KERNBASE)) as (t2 & R2 & K2).
  { unfold pages_frame, KERNBASE. lia. }
  pose proof (stage_kept _ _ _ _ H1 K2) as H2. pose proof (kept_none _ _ _ _ _ K2 (kept_none _ _ _ _ _ K1 Hno)) as Hno2.
  destruct (check_page_ok t2 e a b c l) as (t6 & t3 & fl3 & R3 & K3 & B3 & Hd);
    [exact (st_kpd _ _ H2)|exact (st_cur _ _ H2)|exact (stage_room _ _ H2)|exact (st_kp _ _ H2)| |exact Hno2|].
  { pose proof (only_vm_trans _ _ _ (e_only _ _ _ _ _ K1) (e_only _ _ _ _ _ K2)) as Ho. rewrite Ho. exact Hmm. }
  pose proof (stage_kept _ _ _ _ H2 K3) as H6.
  exists t1, t2, t3, fl3. split_and!; [exact R1|exact R2|exact R3| | |exact Hd].
  - exact (stage_built _ _ _ _ _ (stage_mmio (MMIOBASE + 3 * PGSIZE) _ _ H6) B3).
  - intros u Hu. rewrite (b_map _ _ _ _ _ _ B3 u Hu). exact (kept_none _ _ _ _ _ K3 Hno2 u Hu).
Qed.

Lemma install_stage t fl :
  stage t fl → (∀ i, kidx i → entry t e i ≠ 0) →
  ∃ t1 t2 fl', check_page_free_list end_ false (set_cr3 (e * 4096) t) = (Ret tt, t1) ∧ check_page_installed_pgdir t1 = (Ret tt, t2) ∧
    stage t2 fl' ∧ cr3 t2 = e * 4096 ∧ (∀ u, kpage u → kpte t2 e u = kpte t e u) ∧ (∀ i, kidx i → entry t2 e i = entry t e i).
Proof.
  intros H Hall. destruct (stage_check end_ false _ _ (stage_cr3 (e * 4096) _ _ H)) as (t1 & fl1 & R1 & K1 & H1).
  destruct (stage_three _ _ H1) as (a & b & c & l & ->).
  assert (Hc : cr3 t1 = e * 4096) by (rewrite (e_only _ _ _ _ _ K1); reflexivity).
  destruct (check_page_installed_ok t1 e a b c l (st_kpd _ _ H1) (st_cur _ _ H1) (st_kp _ _ H1) Hc) as (t2 & R2 & K2).
  exists t1, t2, (a :: c :: b :: l). split_and!; [exact R1|exact R2|exact (stage_kept _ _ _ _ H1 K2)| | |].
  - rewrite (e_only _ _ _ _ _ K2). exact Hc.
  - intros u Hu. rewrite (e_map _ _ _ _ _ K2 u Hu). exact (e_map _ _ _ _ _ K1 u Hu).
  - intros i Hi%kidx_idx. rewrite (e_entry _ _ _ _ _ K2 i Hi). exact (e_entry _ _ _ _ _ K1 i Hi).
Qed.

Lemma full_tabs t fl : stage t fl → (∀ i, kidx i → entry t e i ≠ 0) → ∃ tabs, tabs ++ fl ≡ₚ boot_pages ∧ length tabs = 68%nat.
Proof.
  intros H Hall. destruct (st_tabs _ _ H) as (tabs & Hp & Hc). exists tabs. split; [exact Hp|].
  assert (empty_slots t e = 0%nat); [|lia]. unfold empty_slots. rewrite length_zero_iff_nil.
  apply elem_of_nil_inv. intros i. rewrite list_elem_of_filter, elem_of_seqZ. intros [H0 Hr].
  destruct (decide (i = PDX UVPT)) as [->|Hne].
  - rewrite (k_self _ _ _ (st_kpd _ _ H)) in H0. lia.
  - apply (Hall i); [|exact H0]. split; [lia|exact Hne].
Qed.
End boot.

(** C4: [mem_init].  On a machine with 64 to 256 MB of memory, with the kernel
    loaded below 4 MB, it returns: no allocation panics and every assertion of
    its self-tests holds.  Afterwards the kernel's page directory is the
    page at which the kernel ended and the processor runs on it; nothing is
    mapped below [UTOP]; above it, but for the page tables that [UVPT] shows,
    the descriptors, 4 MB from the environment
    table on, the stack of every CPU with its guard pages, and 256 MB of
    physical memory are mapped, each at its address, with its permissions, and
    nothing else; the invariant of the virtual memory holds; and the free list is every usable page but the 68 page
    tables: the tests lost none. *)
Theorem mem_init_correct end_ bootstack percpu_kstacks cmos np nb e B C s :
  bootable end_ bootstack percpu_kstacks cmos np nb e B C s →
  ∃ s' fl tabs,
    mem_init end_ bootstack percpu_kstacks cmos s = (Ret (pages_frame e * 4096 + KERNBASE, envs_frame np e * 4096 + KERNBASE), s') ∧
    kern_pgdir s' = kaddr e ∧ cr3 s' = e * 4096 ∧ kpd s' e fl ∧ vm_ok s' [e] fl ∧
    (∀ u, kpage u → kpte s' e u = kern_layout np (pages_frame e) (envs_frame np e) C u) ∧
    (∀ i, kidx i → entry s' e i ≠ 0) ∧
    tabs ++ fl ≡ₚ boot_pages np nb e ∧ length tabs = 68%nat.
Proof.
  intros HB. destruct (mem_init_arrays_ok end_ bootstack percpu_kstacks cmos np nb e B C s HB) as (P & R1 & HP).
  destruct (page_init_stage _ _ _ _ _ _ _ _ _ _ HB P HP) as (t2 & R2 & H2 & Hmm & Hno).
  destruct (tests_stage _ _ _ _ _ _ _ _ _ _ HB t2 _ H2 Hmm Hno) as (t3 & t4 & t5 & fl5 & R3 & R4 & R5 & H5 & Hno5 & Hd5).
  destruct (map_stage _ _ _ _ _ _ _ _ _ _ HB t5 fl5 H5 Hno5 Hd5) as (t6 & fl6 & R6 & H6 & Hmap & Hall).
  destruct (install_stage _ _ _ _ _ _ _ _ _ _ HB t6 fl6 H6 Hall) as (t7 & t8 & fl8 & R7 & R8 & H8 & Hcr & Hsame & Hent).
  assert (Hall8 : ∀ i, kidx i → entry t8 e i ≠ 0) by (intros i Hi; rewrite Hent by exact Hi; exact (Hall i Hi)).
  destruct (full_tabs _ _ _ t8 fl8 H8 Hall8) as (tabs & Hp & Hlen).
  exists t8, fl8, tabs. split_and!; [|exact (st_kp _ _ _ _ _ H8)|exact Hcr|exact (st_kpd _ _ _ _ _ H8)|exact (kpd_vm _ _ _ (st_kpd _ _ _ _ _ H8))| |exact Hall8|exact Hp|exact Hlen].
  - pose proof (array_range _ _ _ _ _ _ _ _ _ _ HB). pose proof (bt_np _ _ _ _ _ _ _ _ _ _ HB). pose proof (bt_e _ _ _ _ _ _ _ _ _ _ HB).
    unfold mem_init. mrun (exact (bt_detect _ _ _ _ _ _ _ _ _ _ HB s)). mrun (exact R1). mrun (exact R2). mrun (exact R3). mrun (exact R4). mrun (exact R5).
    mrun (exact R6). mrun (apply (check_kern_pgdir_ok _ C _ e np (pages_frame e) (envs_frame np e) fl6);
      [exact (bt_stacks _ _ _ _ _ _ _ _ _ _ HB)|exact (st_kpd _ _ _ _ _ H6)|exact (st_np _ _ _ _ _ H6)|unfold pages_frame; lia|unfold envs_frame; lia|exact Hmap|exact Hall|exact (st_kp _ _ _ _ _ H6)]).
    mstep. rewrite (st_kp _ _ _ _ _ H6). mrun (unfold lcr3; mrun (apply PADDR_ok; lia); reflexivity).
    mrun (exact R7). mrun (exact R8). reflexivity.
  - intros u Hu. rewrite Hsame by exact Hu. exact (Hmap u Hu).
Qed.

(** A machine with 640 KB of base memory and 64 MB in all, before [mem_init]:
    the kernel ends at 400 pages. *)
Definition boot_cmos (r : Z) : Z := if r =? 0x15 then 0x80 else if r =? 0x16 then 0x02 else if r =? 0x18 then 0xFC else 0.
Definition boot_demo : kstate :=
  mkKState 0 0 0 MMIOBASE (λ _, 0) ∅ None 0 0 ∅ None ∅ 0 (mkSpinlock 0 None) 0 0 [] 0 false console_demo nic_zero 0 0.

Lemma mem_init_witness :
  let C i := 300 + 8 * i in
  bootable (0xF0190000 - 5) 0xF010F000 (λ i, C i * 4096 + KERNBASE) boot_cmos 16384 160 400 0x10F C boot_demo ∧
  ∃ s' fl tabs,
    mem_init (0xF0190000 - 5) 0xF010F000 (λ i, C i * 4096 + KERNBASE) boot_cmos boot_demo = (Ret (401 * 4096 + KERNBASE, 433 * 4096 + KERNBASE), s') ∧
    kern_pgdir s' = kaddr 400 ∧ cr3 s' = 400 * 4096 ∧ kpd s' 400 fl ∧ vm_ok s' [400] fl ∧
    (∀ u, kpage u → kpte s' 400 u = kern_layout 16384 401 433 C u) ∧
    (∀ i, kidx i → entry s' 400 i ≠ 0) ∧
    tabs ++ fl ≡ₚ boot_pages 16384 160 400 ∧ length tabs = 68%nat.
Proof.
  intros C.
  assert (H : bootable (0xF0190000 - 5) 0xF010F000 (λ i, C i * 4096 + KERNBASE) boot_cmos 16384 160 400 0x10F C boot_demo).
  { constructor; [reflexivity|lia|lia|reflexivity|lia|split; [reflexivity|lia]| | |reflexivity|reflexivity|reflexivity|reflexivity|by intros c].
    - change NCPU with 8. unfold C. intros i Hi. split; [reflexivity|lia].
    - intros x. cbn. unfold is_u8. lia. }
  split; [exact H|]. exact (mem_init_correct _ _ _ _ _ _ _ _ _ _ H).
Defined.
